(* ===== verification/_CoqProject ===== *)
-Q . S2P
Prelude.v
Identity.v
Execution.v
Session.v
StateModel.v
Resource.v
RelationSpec.v
RuntimeState.v
Relation.v
Coordination.v
Attempts.v
GroupRecovery.v
RecoveryStop.v
Dispatch.v
Checkpoint.v
Invariant.v
InvRecovery.v
InvGroups.v
InvAttempts.v
InvRestore.v
Lifecycle.v
DecisionPolicy.v
Sorting.v
Scheduler.v
SchedulerPolicy.v
CapacityFacts.v
SchedulerFacts.v
BookingFacts.v
ScheduleFacts.v
NodeIdentity.v
NodeIdentityFacts.v
NodeState.v
Quota.v
Capacity.v
QuotaFacts.v
AuthorityFacts.v
NodeAuthority.v
NodeAuthorityFacts.v
Mission.v
TaskExecution.v
Group.v
ControlPlane.v
Actors.v
GroupLifecycle.v
GroupBinding.v
RoleRecovery.v
GroupRelease.v
GroupCheckpoint.v
ControlSteps.v
Ownership.v
OwnershipSteps.v
OwnershipBind.v
OwnershipRecovery.v
Fixture.v
PropsLifecycle.v
PropsRecovery.v
PropsRelation.v
PropsDispatch.v
PropsScheduler.v
PropsPolicy.v
PropsAllocation.v
Federation.v
PropsNode.v
PropsMission.v
PropsGroup.v
PropsOwnership.v
Registries.v
Topology.v
Calendar.v
CalendarFacts.v
CalendarBooking.v
PropsCalendar.v
Evidence.v
EvidenceFacts.v
PropsEvidence.v
Eligibility.v
Matching.v
CurrentState.v
MatchingFacts.v
PropsMatching.v
