(* ===== verification/Prelude.v ===== *)
(** * RoboGuide: Control and runtime of a robot group controller

    RoboGuide is a controller for groups of robots.  Its Control crate accepts Missions,
    registers Nodes under leases, schedules Tasks, commits and binds their resources and
    decides when a Role may be recovered; its runtime turns bound Tasks into physical
    attempts on Nodes, reduces the facts the Nodes report, coordinates the Roles of a
    Group and replaces attempts that were stopped; both are checkpointed and restored
    after a restart.  This library models the runtime, [src/core/runtime/src], the core of
    the Control crate, [src/core/control/src], the Node state they share,
    [src/core/state/src/node.rs], and the parts of the domain they compute with,
    [src/core/domain/src], and proves what makes them safe.

    ** Parts and files

    Domain values:
    - [Prelude]: byte strings, bounded integers, results and panics, ordered maps and
      sets ([BTreeMap] iteration as the sorted association list of a [gmap]), stable
      sorting and the tactics of the library; [Sorting]: vectors kept sorted by a key;
    - [Identity]: [identity.rs], [error.rs], [time.rs]; [Execution]:
      [execution/{intent,value,recovery,command}.rs], [memory_preparation.rs],
      [resource_grant.rs]; [Session]: [execution/session.rs]; [StateModel]:
      [state_model.rs]; [RelationSpec]: [execution_relation.rs], [context.rs];
    - [Resource]: [resource.rs], [resource_topology.rs], [task_requirement.rs],
      [duration_estimate.rs]; [DecisionPolicy]: [decision_policy.rs],
      [scheduling_cost.rs]; [NodeState]: Node registrations, health, liveness and leases
      with the shared Node state; [NodeIdentity]: [node_identity.rs], [attestation.rs];
    - [Mission]: [mission.rs], [actor.rs], [task_satisfaction.rs] (goals, Task graphs,
      plans, binding semantics); [TaskExecution]: [task_execution.rs],
      [physical_entity.rs].

    Runtime, over the one record [RuntimeExecutionManager] of [RuntimeState] (the struct
    of [execution/mod.rs] with its field types):
    - [Relation]: [relation/manager.rs]; [Coordination]: [coordination.rs];
    - [Attempts], [Dispatch]: [execution/dispatch.rs] and [execution/observation.rs];
      [RecoveryStop], [GroupRecovery]: [recovery_stop.rs], [group_recovery.rs] and
      [progress.rs]; [Checkpoint]: [execution/checkpoint.rs] with the restoration of
      every map.

    Control, [src/core/control/src]:
    - [Scheduler], [SchedulerPolicy]: [scheduler/] and the candidate sets of
      [matching.rs] (snapshots, capacity sweep, joint search, choice of the start);
    - [Quota]: [quota.rs] with the quota registry of the domain; [Capacity]:
      [resource_allocations.rs] (pools, allocations, borrowers, Commit batches);
    - [NodeAuthority]: [node.rs], [node_session.rs], [node_identity.rs] (registration,
      sessions, heartbeats, fencing, expiry); [Federation]: [federation.rs] with its
      properties; the rejections of [lib.rs] end [Scheduler];
    - [ControlPlane]: the fields of [ControlPlane] that own Groups, reservations, calendar
      and tenants, with the mutations of [calendar.rs] and [tenant.rs]; [Actors]: the
      placement of Mission Actors of [lib.rs];
    - [Group]: [group/mod.rs], [membership.rs]; [GroupLifecycle]: [task_lifecycle.rs] and
      the transitions and Role releases of [group_lifecycle.rs]; [GroupBinding]:
      [mission_binding.rs] and the Commit of [coordination.rs]; [GroupRelease]: the
      release of a Group and [revision.rs]; [RoleRecovery]: [reconciliation/pipeline.rs];
      [GroupCheckpoint]: [group/checkpoint.rs];
    - [Topology]: [resource_topology.rs] (declared space and time of resources against
      reservations and bookings); [Calendar]: the snapshots, the admission of decisions and
      the restored calendar of [calendar.rs], with [capacity_calendar.rs] and the history
      check of [scheduling_cost.rs];
    - [Registries]: the deployment registries of the domain ([operator_authorization.rs],
      [belief.rs], [decision_registry.rs], [verifier_registry.rs]) and the records of
      [mission_goal_verification.rs], with the class [Registry] they share; [Evidence]:
      [verifier_registry.rs], [mission_goal.rs], [belief.rs], [decision_policy.rs],
      [tenant.rs] and the administration of [node_identity.rs], over the state
      [EvidencePlane], a [ControlPlane] with its registries and evidence;
    - [Eligibility]: what a Node must declare for a Role ([node_state.rs],
      [capability_requirement.rs], [memory.rs]), the Nodes a tenant sees, the evidence gates
      of [decision_policy.rs] and [belief.rs] over State records, and the eligibility of
      [node.rs], over [MatchPlane], an [EvidencePlane] with leases and sessions; [Matching]:
      [matching.rs] and [proposal.rs]; [CurrentState]: Commit, recovery and assessment with
      current State ([coordination.rs], [resource_allocations.rs],
      [reconciliation/pipeline.rs], [initial_preferences.rs]) and [plane_view], the instance
      of [NodeView] with which [RoleRecovery] and [Calendar] run.

    A method that mutates its receiver is a function that returns the new state and its
    result ([Step], [ControlStep]), so that what an operation changed before an error
    stays visible; a method that indexes a map or expects an encoding, and so can panic,
    returns an [option] around it.  Definitions keep the names of the source.

    ** Proofs

    - Runtime: [Invariant] states the well-formedness [wf] of a manager and [extends], the
      order in which durable history may only grow; the [Inv*] files prove that every
      operation preserves the first and advances in the second; [Lifecycle] is the
      transition relation with restarts and, at its end, the abstract machine of one
      attempt with its simulation.
    - Scheduler: [CapacityFacts] (the sweep against its pointwise meaning),
      [SchedulerFacts] (the search against the list of joint assignments),
      [BookingFacts], [ScheduleFacts] (the answer against the specification of a slot).
    - Ledgers: [QuotaFacts] (quotas, then allocations), [AuthorityFacts] (both ledgers
      under one invariant).
    - Nodes: [NodeIdentityFacts], [NodeAuthorityFacts].
    - Missions and Groups: the end of [Mission] (ranks and heights of Task graphs);
      [ControlSteps] has the operations as data ([ControlOp]), the step relation
      [control_step], the refinement of Task and Group lifecycles and what a release
      checked; [Ownership] the invariant that bindings and pending replacements hold
      exactly what is reserved for their Group, [OwnershipSteps], [OwnershipBind],
      [OwnershipRecovery] its preservation operation by operation
      and, at the end of the last, the runs of permitted operations.
    - Calendar: [CalendarFacts] (what every operation may do to bookings and registry, what
      a snapshot contains, the invariant of the calendar and its steps), [CalendarBooking]
      (a decision of the scheduler against the checks of the admission).
    - Evidence: [EvidenceFacts] (retained revisions replay to the current one for every
      [Registry] with its law [RegistryLaws]; the operations as data ([EvidenceOp]); the
      authority evidence relies on only grows; what every restored state is checked for is
      an invariant).
    - Matching: [MatchingFacts] (what each stage keeps of the specification [admissible] of a
      candidate); [PropsMatching] begins with the facts on tenants and on the way from
      candidates to bookings, proposals and Commit.
    - [Fixture] and the fixtures of the [Props*] files are concrete runs.

    ** What is shown

    - [PropsLifecycle]: a reachable checkpoint restores, to the same durable history and
      without replay authority, exactly when every peer channel joins two Roles; history only grows; attempts refine their machine;
      terminal states only by facts of the owner; fences stay latched; no indexing panic.
    - [PropsDispatch]: attempt identities, idempotent dispatch, exact outbox and
      cancellation queues, ordered facts, lost Nodes; sessions, contracts and timings of
      the domain.  [PropsRelation]: Task results, ready channels, the readiness gate, and
      two defects.
      [PropsRecovery]: frozen sets, stop barriers, exact continuation, budgets, progress.
    - [PropsScheduler]: the schedule is a slot when one exists, books no resource past its
      capacity and assigns every Role.  [PropsPolicy]: evaluation of evidence and costs.
    - [PropsAllocation]: quotas and pools are never exceeded, releases are exact.
      [Federation]: decisions are final.
    - [PropsNode]: a revoked certificate is never accepted again, identity commands refine
      their specification, a fenced Node stays out until it registers again,
      leases of session heartbeats only advance, expiry is exact, resource identities have one
      owner, declared capacity covers commitments, Node state restores; two defects.
    - [PropsMission]: which graphs are accepted, that the ready Tasks complete every
      accepted Mission, that the dependency query is exact.
    - [PropsGroup]: every history of operations moves Tasks and Groups along their
      lifecycles; a release is exact; four defects of the checks.
    - [PropsOwnership]: no resource is held twice and no reservation is orphaned in any
      permitted run; a closed Group can always be released; one defect.
    - [PropsCalendar]: in every run the booked intervals are conflict free in whole
      resources and declared geometry; what the scheduler selects on the current snapshot
      is admitted; bookings come only from admitted decisions; a held or booked resource
      keeps its declared topology.
    - [PropsEvidence]: a state reached by operations in order passes every check of
      restored evidence, registries and tenants; admitted receipts keep what was admitted;
      sequences of a source increase; a confirmed goal is a current, final, satisfied
      measurement under the original contract; four runs out of order whose states do not restore
      (defects).
    - [PropsMatching]: candidates are exactly the admissible Nodes; a tenant's matching and
      proposals do not depend on another tenant's Nodes or records; what matching offers and
      the scheduler selects can be proposed and booked; an accepted proposal passes the
      checks of Commit against current State; three defects.

    ** Assumptions and bounds

    JSON encoding and SHA-256 are external: they are the operations of the class [Serde],
    arbitrary in every theorem but those that name [DigestFaithful] (distinct generations
    have distinct allocation identities) or [Sha256Text] (a digest is 64 hex digits).
    Decoding of cost metrics is [MetricsCodec], the text of a decision registry
    [PolicyCodec], the Node state the scheduler reads
    [SharedNodeStateReader], and what recovery reads of current Node state [NodeView].
    Lookups in JSON values and the decoding of a source are [StateCodec], the decoding of a
    recovery profile [RecoveryCodec].  The digest of a decision registry is taken with
    [expect]: matching panics where it cannot be encoded ([gates_encode]).
    The rules of [Lifecycle] assume of their inputs what the constructors guarantee of
    commands ([command_ok]), contexts ([context_ok], for which [new_with_relations_ok] and
    [new_with_coordination_ok] are the proofs) and relations ([relation_spec_ok]), and what the
    ingress of Node messages checks (peer readiness of identified endpoints numbered from
    one, [readiness_ok]; identities and frames that are not blank; no fact [Dispatched]); a
    release follows a ready stop.  The Node runs ([node_step]) use one lease duration, issue
    leases at registration and have an environment that changes commitments; the theorems on slots assume snapshots
    without Context capacities of the Roles ([plain_snapshot]) and occupancies that end
    after they start ([occupancy_ok]).
    [in_order] of [EvidenceFacts] is the order of administration a restored state relies
    on, with the bound of 1 to 32 attempts of a watch.  [order_needed] has a counterexample for
    a watch without attempts, the order of operators, the migration of a tenant and the
    order of identities and decision policies; the upper bound of a watch, the registration of a
    tenant and the tenants of retained receipts at the bootstrap are assumed without one.
    [permitted] of [OwnershipRecovery] lists what the ownership theorems ask of callers:
    Context-scoped Roles of a Task have their own ContextRoles and recovered Roles are the
    Task's own (the defects of [PropsGroup] show that neither can be dropped), Commits and
    replacements name exclusive resources, a bound plan is the one its Commit returned
    ([commit_plan_current]), and a membership generation can advance.
    [schedulable] of [CalendarBooking] lists what the admission of a scheduled decision
    asks: the Task is Ready and unbooked, its requirements are those of the Group, its
    candidates are eligible and a resource identity belongs to one Node (the last is the
    theorem [resource_owner_unique]).  [ready_task] of [PropsMatching] asks the same of a Task
    whose candidates come from matching, [planned] that its requirement is that of the plan,
    [lone_actors] that no Actor of a distinct group has two Roles in it (one of the defects
    shows that [propose] refuses such a Task).
    Fuel: [allocate_loop] runs at most once per retained attempt and once more, [drain]
    removes a Task per round, the search counts expansions as the source does,
    [task_depends_on] recurses at most to the number of Tasks, and the successor chain of
    a checkpoint to the number of Groups; the first, second and fourth are proved
    sufficient.  Numbers are [N] with their 32- and 64-bit limits written out; [f64]
    parameters are bit patterns.

    ** Not modelled

    In Control: the audit of commits and of bound commands and the receipts of
    administration commands ([decision_policy.rs]), Group continuation, Groups of a single
    legacy Task, memory authority and handoff, and the checkpoint of the Control plane as a
    whole.  In the runtime: the clock and task driver and building a session from a plan.  Beyond them: events as serialized records, the other
    State projections, orchestration, the Node service and its journal, integration
    transports, persistence and replication, applications, and the Python, web and
    deployment parts of the repository. *)

From Stdlib Require Export String Ascii.
From stdpp Require Export sorting.
From stdpp Require Export base gmap strings pretty countable list list_basics list_relations.

Set Default Goal Selector "!".
#[global] Set Warnings "-notation-overridden".

(** ** Results

    Rust's [Result<T, E>].  A fallible method that takes [&mut self] keeps the
    mutations it made before an early return, so such methods are modelled as
    functions to a pair of the new state and a [Result]. *)

Inductive Result (A E : Type) : Type :=
| Ok (a : A)
| Err (e : E).
Arguments Ok {A E} a.
Arguments Err {A E} e.

#[export] Instance Result_eq_dec {A E} `{EqDecision A, EqDecision E} : EqDecision (Result A E).
Proof. solve_decision. Defined.

Definition is_ok {A E} (r : Result A E) : bool :=
  match r with Ok _ => true | Err _ => false end.

Definition result_map_err {A E F} (f : E -> F) (r : Result A E) : Result A F :=
  match r with Ok a => Ok a | Err e => Err (f e) end.

Declare Scope rust_scope.
Delimit Scope rust_scope with rust.
Open Scope rust_scope.

(** [let? x := r in k] is the [?] operator of a pure fallible computation. *)
Notation "'let?' x ':=' r 'in' k" :=
  (match r with Ok x => k | Err e__ => Err e__ end)
  (at level 10, x name, r at level 100, k at level 200) : rust_scope.

(** A [for] loop whose body may return early with an error. *)
Fixpoint try_for {A E} (f : A -> Result unit E) (l : list A) : Result unit E :=
  match l with
  | [] => Ok tt
  | x :: l' => match f x with Ok _ => try_for f l' | Err e => Err e end
  end.

Lemma try_for_ok {A E} (f : A -> Result unit E) l :
  try_for f l = Ok tt <-> (forall x, x ∈ l -> f x = Ok tt).
Proof.
  induction l as [|x l IH]; simpl.
  - split; [intros _ y Hy; set_solver | done].
  - destruct (f x) as [[]|e] eqn:Ef.
    + rewrite IH. split; [|set_solver].
      intros H y [->|Hy]%elem_of_cons; auto.
    + split; [done|]. intros H. specialize (H x). rewrite Ef in H. apply H. set_solver.
Qed.

(** A loop that updates an accumulator and returns at the first error. *)
Fixpoint try_fold {A B E} (f : B -> A -> Result B E) (b : B) (l : list A) : Result B E :=
  match l with
  | [] => Ok b
  | x :: l' => let? b1 := f b x in try_fold f b1 l'
  end.

(** ** Panics

    Indexing a map with an absent key panics.  A function that can panic returns
    an [option], [None] being the panic; these are [Iterator::all] and [map] over
    bodies that can panic. *)

Fixpoint all_opt {A} (f : A -> option bool) (l : list A) : option bool :=
  match l with
  | [] => Some true
  | x :: l' => b ← f x; if (b : bool) then all_opt f l' else Some false
  end.

(** A loop that updates an accumulator and may panic. *)
Fixpoint fold_opt {A B} (f : B -> A -> option B) (b : B) (l : list A) : option B :=
  match l with
  | [] => Some b
  | x :: l' => b1 ← f b x; fold_opt f b1 l'
  end.

Lemma all_opt_Some {A} (f : A -> option bool) l :
  (forall x, x ∈ l -> is_Some (f x)) -> is_Some (all_opt f l).
Proof.
  induction l as [|x l IH]; intros Hf; simpl; [by eexists|].
  destruct (Hf x) as [[] E]; [set_solver|..]; rewrite E; simpl; [|by eexists].
  apply IH. intros y Hy. apply Hf. set_solver.
Qed.

Lemma all_opt_true {A} (f : A -> option bool) l :
  all_opt f l = Some true <-> (forall x, x ∈ l -> f x = Some true).
Proof.
  induction l as [|x l IH]; simpl.
  - split; [intros _ y Hy; set_solver|done].
  - destruct (f x) as [[]|] eqn:E; simpl.
    + rewrite IH. split; [|set_solver]. intros H y [->|Hy]%elem_of_cons; auto.
    + split; [done|]. intros H. specialize (H x). rewrite E in H. ospecialize (H _); [set_solver|done].
    + split; [done|]. intros H. specialize (H x). rewrite E in H. ospecialize (H _); [set_solver|done].
Qed.

(** ** Options *)

Definition is_some_and {A} (p : A -> bool) (o : option A) : bool :=
  match o with Some a => p a | None => false end.

Definition is_none_or {A} (p : A -> bool) (o : option A) : bool :=
  match o with Some a => p a | None => true end.

Definition is_some {A} (o : option A) : bool :=
  match o with Some _ => true | None => false end.

Definition is_none {A} (o : option A) : bool :=
  match o with Some _ => false | None => true end.

Lemma is_some_and_true {A} (p : A -> bool) o :
  is_some_and p o = true <-> exists a, o = Some a /\ p a = true.
Proof. destruct o; naive_solver. Qed.

Lemma is_none_or_true {A} (p : A -> bool) o :
  is_none_or p o = true <-> (forall a, o = Some a -> p a = true).
Proof. destruct o; naive_solver. Qed.

Lemma is_some_true {A} (o : option A) : is_some o = true <-> is_Some o.
Proof. destruct o; simpl; split; naive_solver. Qed.

Lemma is_some_false {A} (o : option A) : is_some o = false <-> o = None.
Proof. destruct o; naive_solver. Qed.

Lemma is_some_and_false {A} (p : A -> bool) o :
  is_some_and p o = false <-> (forall a, o = Some a -> p a = false).
Proof. destruct o; naive_solver. Qed.

(** ** Machine integers

    [u64] and [u32] values are [N]; the operations that observe the width are
    written out. *)

Definition u64_max : N := 18446744073709551615.
Definition u32_max : N := 4294967295.

Definition u64_checked_add (a b : N) : option N :=
  if (a + b <=? u64_max)%N then Some (a + b)%N else None.
Definition u64_saturating_add (a b : N) : N := N.min (a + b) u64_max.
Definition u64_saturating_sub (a b : N) : N := (a - b)%N.
Definition u32_saturating_add (a b : N) : N := N.min (a + b) u32_max.

Lemma u64_checked_add_Some a b c :
  u64_checked_add a b = Some c <-> (c = a + b /\ c <= u64_max)%N.
Proof.
  unfold u64_checked_add. case_match; rewrite ?N.leb_le, ?N.leb_gt in *; naive_solver lia.
Qed.

(** ** Text

    A Rust [String] is the list of its UTF-8 bytes; [str::len] counts bytes and
    the derived order is byte-lexicographic ([String.compare]).  [ws_len s] is
    the byte length of the Unicode White_Space character [s] starts with, or 0. *)

Definition str_len (s : string) : N := N.of_nat (String.length s).

Definition byte_in (lo hi : N) (c : ascii) : bool :=
  let n := N_of_ascii c in ((lo <=? n) && (n <=? hi))%N.

Definition ws_len (s : string) : nat :=
  match s with
  | EmptyString => 0
  | String a r =>
      if byte_in 9 13 a || byte_in 32 32 a then 1
      else match r with
           | EmptyString => 0
           | String b r2 =>
               if byte_in 194 194 a && (byte_in 133 133 b || byte_in 160 160 b) then 2
               else match r2 with
                    | EmptyString => 0
                    | String c _ =>
                        if (byte_in 225 225 a && byte_in 154 154 b && byte_in 128 128 c)
                           || (byte_in 226 226 a && byte_in 128 128 b
                               && (byte_in 128 138 c || byte_in 168 169 c || byte_in 175 175 c))
                           || (byte_in 226 226 a && byte_in 129 129 b && byte_in 159 159 c)
                           || (byte_in 227 227 a && byte_in 128 128 b && byte_in 128 128 c)
                        then 3 else 0
                    end
           end
  end.

(** [value.trim().is_empty()]: every character is white space.  [skip] counts
    the bytes left of the character being consumed. *)
Fixpoint all_ws (skip : nat) (s : string) : bool :=
  match s with
  | EmptyString => match skip with O => true | S _ => false end
  | String _ r =>
      match skip with
      | S k => all_ws k r
      | O => match ws_len s with O => false | S k => all_ws k r end
      end
  end.
Definition is_blank (s : string) : bool := all_ws 0 s.

(** [p] holds of some suffix of [s] that is not empty. *)
Fixpoint any_suffix (p : string -> bool) (s : string) : bool :=
  match s with
  | EmptyString => false
  | String _ r => p s || any_suffix p r
  end.

(** [chars().any(char::is_whitespace)]; the byte patterns of [ws_len] start with
    a lead byte, so they occur only at character boundaries. *)
Definition contains_ws (s : string) : bool :=
  any_suffix (fun t => negb (ws_len t =? 0)%nat) s.
(** [value.trim() != value]. *)
Definition has_outer_ws (s : string) : bool :=
  negb (ws_len s =? 0)%nat
  || any_suffix (fun t => negb (ws_len t =? 0)%nat && (ws_len t =? String.length t)%nat) s.
Definition contains_char (a : ascii) (s : string) : bool :=
  any_suffix (fun t => match t with String b _ => Ascii.eqb a b | EmptyString => false end) s.
(** [chars().any(char::is_control)]: U+0000-001F, U+007F and U+0080-009F. *)
Definition contains_control (s : string) : bool :=
  any_suffix (fun t => match t with
    | String a r => byte_in 0 31 a || byte_in 127 127 a
        || (byte_in 194 194 a
            && match r with String b _ => byte_in 128 159 b | EmptyString => false end)
    | EmptyString => false end) s.

Lemma string_app_cons (a : ascii) (s t : string) :
  String.append (String a s) t = String a (String.append s t).
Proof. reflexivity. Qed.

Lemma string_app_nil (t : string) : String.append EmptyString t = t.
Proof. reflexivity. Qed.

Lemma string_app_assoc (s t u : string) :
  String.append (String.append s t) u = String.append s (String.append t u).
Proof. induction s as [|a s IH]; [done|]. by rewrite !string_app_cons, IH. Qed.

Lemma string_length_app (s t : string) :
  String.length (String.append s t) = String.length s + String.length t.
Proof. induction s as [|a s IH]; [done|]. rewrite string_app_cons. simpl. by rewrite IH. Qed.

(** A concatenation whose prefixes have the same length splits uniquely. *)
Lemma string_app_inj_length (s t u v : string) :
  String.length s = String.length t ->
  String.append s u = String.append t v -> s = t /\ u = v.
Proof.
  revert t. induction s as [|a s IH]; intros [|b t] HL E; try done.
  rewrite !string_app_cons in E. injection HL as HL. injection E as -> E.
  by destruct (IH t HL E) as [-> ->].
Qed.

Lemma is_blank_empty : is_blank EmptyString = true.
Proof. reflexivity. Qed.

Lemma nonblank_nonempty s : is_blank s = false -> s <> EmptyString.
Proof. by intros H ->. Qed.

(** ** Orders and ordered iteration *)

Class Ord (A : Type) := cmp : A -> A -> comparison.

Class OrdLaws (A : Type) `{Ord A} : Prop := {
  cmp_eq_1 (x y : A) : cmp x y = Eq -> x = y;
  cmp_refl (x : A) : cmp x x = Eq;
  cmp_antisym (x y : A) : cmp y x = CompOpp (cmp x y);
  cmp_trans (x y z : A) : cmp x y = Lt -> cmp y z = Lt -> cmp x z = Lt
}.

#[export] Instance N_Ord : Ord N := N.compare.
#[export] Instance N_OrdLaws : OrdLaws N.
Proof.
  split; unfold cmp, N_Ord.
  - apply N.compare_eq.
  - apply N.compare_refl.
  - intros x y. apply N.compare_antisym.
  - intros x y z. rewrite !N.compare_lt_iff. lia.
Qed.

Lemma ascii_compare_trans a b c :
  Ascii.compare a b = Lt -> Ascii.compare b c = Lt -> Ascii.compare a c = Lt.
Proof. unfold Ascii.compare. rewrite !N.compare_lt_iff. lia. Qed.

Lemma ascii_compare_refl a : Ascii.compare a a = Eq.
Proof. unfold Ascii.compare. apply N.compare_refl. Qed.

Lemma string_compare_refl s : String.compare s s = Eq.
Proof. induction s as [|a s IH]; simpl; [done|]. by rewrite ascii_compare_refl. Qed.

Lemma string_compare_trans s t u :
  String.compare s t = Lt -> String.compare t u = Lt -> String.compare s u = Lt.
Proof.
  revert t u. induction s as [|a s IH]; intros [|b t] [|c u]; simpl; try done.
  destruct (Ascii.compare a b) eqn:Eab, (Ascii.compare b c) eqn:Ebc; try done.
  - apply Ascii.compare_eq_iff in Eab as ->. apply Ascii.compare_eq_iff in Ebc as ->.
    rewrite ascii_compare_refl. by apply IH.
  - apply Ascii.compare_eq_iff in Eab as ->. by rewrite Ebc.
  - apply Ascii.compare_eq_iff in Ebc as ->. by rewrite Eab.
  - by rewrite (ascii_compare_trans _ _ _ Eab Ebc).
Qed.

#[export] Instance string_Ord : Ord string := String.compare.
#[export] Instance string_OrdLaws : OrdLaws string.
Proof.
  split; unfold cmp, string_Ord.
  - apply String.compare_eq_iff.
  - apply string_compare_refl.
  - intros x y. apply String.compare_antisym.
  - apply string_compare_trans.
Qed.

(** Tuples and structs derive the lexicographic order of their fields. *)
Definition cmp_then (c : comparison) (d : comparison) : comparison :=
  match c with Eq => d | _ => c end.

#[export] Instance prod_Ord {A B} `{Ord A, Ord B} : Ord (A * B) :=
  fun x y => cmp_then (cmp x.1 y.1) (cmp x.2 y.2).

#[export] Instance prod_OrdLaws {A B} `{OrdLaws A, OrdLaws B} : OrdLaws (A * B).
Proof.
  split; unfold cmp, prod_Ord, cmp_then.
  - intros [a b] [c d]; simpl. destruct (cmp a c) eqn:E; intros H'; try done.
    apply cmp_eq_1 in E as ->. by apply cmp_eq_1 in H' as ->.
  - intros [a b]; simpl. by rewrite !cmp_refl.
  - intros [a b] [c d]; simpl. rewrite (cmp_antisym a c), (cmp_antisym b d).
    by destruct (cmp a c).
  - intros [a b] [c d] [e f]; simpl.
    destruct (cmp a c) eqn:Eac, (cmp c e) eqn:Ece; try done.
    + apply cmp_eq_1 in Eac as ->. apply cmp_eq_1 in Ece as ->. rewrite cmp_refl.
      apply cmp_trans.
    + apply cmp_eq_1 in Eac as ->. by rewrite Ece.
    + apply cmp_eq_1 in Ece as ->. by rewrite Eac.
    + by rewrite (cmp_trans _ _ _ Eac Ece).
Qed.

(** An order pulled back along an injection. *)
Lemma OrdLaws_inj {A B} `{OrdLaws B} (f : A -> B) (Hf : Inj (=) (=) f) :
  @OrdLaws A (fun x y => cmp (f x) (f y)).
Proof.
  split.
  - intros x y E. apply Hf. by apply cmp_eq_1.
  - intros x. exact (cmp_refl (f x)).
  - intros x y. exact (cmp_antisym (f x) (f y)).
  - intros x y z. exact (cmp_trans (f x) (f y) (f z)).
Qed.

(** [Vec::sort_by] is a stable sort; insertion in front of the first element
    that is not smaller is stable. *)
Fixpoint insert_by {A} (c : A -> A -> comparison) (x : A) (l : list A) : list A :=
  match l with
  | [] => [x]
  | y :: l' => match c x y with Gt => y :: insert_by c x l' | _ => x :: y :: l' end
  end.
Definition sort_by {A} (c : A -> A -> comparison) (l : list A) : list A :=
  foldr (insert_by c) [] l.

(** [Vec::dedup] removes consecutive repetitions. *)
Fixpoint dedup {A} `{EqDecision A} (l : list A) : list A :=
  match l with
  | [] => []
  | x :: l' =>
      match l' with
      | [] => [x]
      | y :: _ => if decide (x = y) then dedup l' else x :: dedup l'
      end
  end.

(** Iteration of a [BTreeMap] or [BTreeSet] visits the keys in increasing order. *)
Definition btree_iter {K V} `{Countable K, Ord K} (m : gmap K V) : list (K * V) :=
  sort_by (fun p q => cmp p.1 q.1) (map_to_list m).
Definition btree_keys {K V} `{Countable K, Ord K} (m : gmap K V) : list K :=
  (btree_iter m).*1.
Definition btree_values {K V} `{Countable K, Ord K} (m : gmap K V) : list V :=
  (btree_iter m).*2.
Definition bset_iter {K} `{Countable K, Ord K} (s : gset K) : list K :=
  sort_by cmp (elements s).

(** [iter().collect::<BTreeSet<_>>().len()]. *)
Definition distinct_count {A} `{Countable A} (l : list A) : nat :=
  size (list_to_set (C := gset A) l).

(** [map.contains_key(k)] and [set.contains(k)]. *)
Definition contains_key {K V} `{Countable K} (k : K) (m : gmap K V) : bool :=
  is_some (m !! k).
Definition set_contains {K} `{Countable K} (k : K) (s : gset K) : bool :=
  bool_decide (k ∈ s).

(** [entry(k).or_insert(v)]. *)
Definition or_insert {K V} `{Countable K} (k : K) (v : V) (m : gmap K V) : gmap K V :=
  match m !! k with Some _ => m | None => <[k := v]> m end.

(** [slice.windows(2).all(|pair| pair[0] < pair[1])]. *)
Fixpoint strictly_increasing {A} `{Ord A} (l : list A) : bool :=
  match l with
  | [] => true
  | x :: l' =>
      match l' with
      | [] => true
      | y :: _ => match cmp x y with Lt => strictly_increasing l' | _ => false end
      end
  end.

(** ** Lemmas on the ordered collections *)

Section Sorting.
Context {A : Type} (c : A -> A -> comparison).

Lemma insert_by_Permutation x l : insert_by c x l ≡ₚ x :: l.
Proof.
  induction l as [|y l IH]; simpl; [done|].
  destruct (c x y); try done. rewrite IH. apply Permutation_swap.
Qed.

Lemma sort_by_Permutation l : sort_by c l ≡ₚ l.
Proof.
  induction l as [|x l IH]; simpl; [done|]. by rewrite insert_by_Permutation, IH.
Qed.

Lemma elem_of_sort_by x l : x ∈ sort_by c l <-> x ∈ l.
Proof. by rewrite sort_by_Permutation. Qed.

Lemma length_sort_by l : length (sort_by c l) = length l.
Proof. by rewrite sort_by_Permutation. Qed.
End Sorting.

Definition le_cmp {A} (c : A -> A -> comparison) (x y : A) : Prop := c x y <> Gt.

Section SortedOrd.
Context {A : Type} `{OrdLaws A}.

Lemma cmp_gt_lt (x y : A) : cmp x y = Gt -> cmp y x = Lt.
Proof. intros E. by rewrite cmp_antisym, E. Qed.

Lemma le_cmp_trans (x y z : A) : le_cmp cmp x y -> le_cmp cmp y z -> le_cmp cmp x z.
Proof.
  unfold le_cmp. intros Hxy Hyz.
  destruct (cmp x y) eqn:Exy; try done; destruct (cmp y z) eqn:Eyz; try done.
  - apply cmp_eq_1 in Exy as ->. congruence.
  - apply cmp_eq_1 in Exy as ->. congruence.
  - apply cmp_eq_1 in Eyz as ->. congruence.
  - by rewrite (cmp_trans _ _ _ Exy Eyz).
Qed.

Lemma insert_by_sorted (x : A) l :
  StronglySorted (le_cmp cmp) l -> StronglySorted (le_cmp cmp) (insert_by cmp x l).
Proof.
  induction 1 as [|y l Hl IH Hy]; simpl; [by repeat constructor|].
  destruct (cmp x y) eqn:E.
  1,2: assert (le_cmp cmp x y) as Hxy by (unfold le_cmp; congruence);
    constructor; [by constructor|]; constructor; [done|];
    rewrite Forall_forall in Hy |- *; intros z Hz; eapply le_cmp_trans; eauto.
  constructor; [done|]. rewrite insert_by_Permutation. constructor; [|done].
  unfold le_cmp. rewrite (cmp_gt_lt _ _ E). done.
Qed.

Lemma sort_by_sorted (l : list A) : StronglySorted (le_cmp cmp) (sort_by cmp l).
Proof. induction l; simpl; [constructor|]. by apply insert_by_sorted. Qed.
End SortedOrd.

Section Dedup.
Context {A : Type} `{OrdLaws A, !EqDecision A}.

Lemma elem_of_dedup (x : A) l : x ∈ dedup l <-> x ∈ l.
Proof.
  induction l as [|y l IH]; [done|]. simpl. destruct l as [|z l]; [done|].
  case_decide as E; [subst|]; rewrite ?elem_of_cons, IH, ?elem_of_cons; naive_solver.
Qed.

Lemma dedup_head (y : A) l : exists l', dedup (y :: l) = y :: l'.
Proof.
  revert y. induction l as [|z l IH]; intros y; simpl; [by eexists|].
  destruct (IH z) as [l' E]. simpl in E.
  case_decide as D; [subst; rewrite E; by eexists|by eexists].
Qed.

Lemma dedup_sorted (l : list A) :
  StronglySorted (le_cmp cmp) l -> StronglySorted (fun x y => cmp x y = Lt) (dedup l).
Proof.
  induction 1 as [|y l Hl IH Hy]; [constructor|]. simpl.
  destruct l as [|z l]; [by repeat constructor|].
  case_decide as D; [done|]. constructor; [done|].
  apply Forall_forall. intros w Hw. rewrite elem_of_dedup in Hw.
  assert (le_cmp cmp y z) as Hyz by (inversion Hy; done).
  assert (cmp y z = Lt) as Lyz.
  { destruct (cmp y z) eqn:E; [by apply cmp_eq_1 in E|done|done]. }
  apply elem_of_cons in Hw as [->|Hw]; [done|].
  assert (le_cmp cmp z w) as Hzw.
  { inversion Hl; subst. by apply (Forall_forall (le_cmp cmp z) l). }
  destruct (cmp z w) eqn:E; [by apply cmp_eq_1 in E as <-|by eapply cmp_trans|done].
Qed.

Lemma strictly_increasing_sorted (l : list A) :
  strictly_increasing l = true -> StronglySorted (fun x y => cmp x y = Lt) l.
Proof.
  intros Hl. apply Sorted_StronglySorted; [intros x y z; apply cmp_trans|].
  induction l as [|x l IH]; [constructor|]. simpl in Hl.
  destruct l as [|y l]; [by repeat constructor|].
  destruct (cmp x y) eqn:E; try done. constructor; [by apply IH|by constructor].
Qed.

Lemma strictly_increasing_NoDup (l : list A) : strictly_increasing l = true -> NoDup l.
Proof.
  intros Hl%strictly_increasing_sorted. induction Hl as [|x l Hl IH Hx]; [constructor|].
  constructor; [|done]. intros Hin. rewrite Forall_forall in Hx. specialize (Hx x Hin).
  by rewrite cmp_refl in Hx.
Qed.

(** A strictly increasing list is determined by its elements. *)
Lemma strict_sorted_unique (l1 l2 : list A) :
  StronglySorted (fun x y => cmp x y = Lt) l1 ->
  StronglySorted (fun x y => cmp x y = Lt) l2 ->
  (forall x, x ∈ l1 <-> x ∈ l2) -> l1 = l2.
Proof.
  intros S1. revert l2. induction S1 as [|x l1 S1 IH F1]; intros l2 S2 HE.
  - destruct l2 as [|y l2]; [done|]. exfalso. apply (not_elem_of_nil y), HE. set_solver.
  - destruct S2 as [|y l2 S2 F2].
    { exfalso. apply (not_elem_of_nil x), HE. set_solver. }
    rewrite Forall_forall in F1, F2.
    assert (x = y) as ->.
    { assert (x ∈ y :: l2) as Hx by (apply HE; set_solver).
      assert (y ∈ x :: l1) as Hy by (apply HE; set_solver).
      apply elem_of_cons in Hx as [|Hx]; [done|].
      apply elem_of_cons in Hy as [|Hy]; [done|].
      specialize (F1 _ Hy). specialize (F2 _ Hx).
      pose proof (cmp_trans _ _ _ F1 F2) as E. by rewrite cmp_refl in E. }
    f_equal. apply IH; [done|]. intros z. split; intros Hz.
    + assert (z ∈ y :: l2) as Hz' by (apply HE; set_solver).
      apply elem_of_cons in Hz' as [->|]; [|done].
      specialize (F1 _ Hz). by rewrite cmp_refl in F1.
    + assert (z ∈ y :: l1) as Hz' by (apply HE; set_solver).
      apply elem_of_cons in Hz' as [->|]; [|done].
      specialize (F2 _ Hz). by rewrite cmp_refl in F2.
Qed.
End Dedup.

Section BTree.
Context {K V : Type} `{Countable K, Ord K}.
Implicit Types m : gmap K V.

Lemma elem_of_btree_iter m k v : (k, v) ∈ btree_iter m <-> m !! k = Some v.
Proof. unfold btree_iter. by rewrite elem_of_sort_by, elem_of_map_to_list. Qed.

Lemma btree_iter_Permutation m : btree_iter m ≡ₚ map_to_list m.
Proof. apply sort_by_Permutation. Qed.

Lemma NoDup_btree_keys m : NoDup (btree_keys m).
Proof. unfold btree_keys. rewrite btree_iter_Permutation. apply NoDup_fst_map_to_list. Qed.

Lemma elem_of_btree_keys m k : k ∈ btree_keys m <-> is_Some (m !! k).
Proof.
  unfold btree_keys. rewrite list_elem_of_fmap. split.
  - intros [[k' v] [-> E%elem_of_btree_iter]]. by eexists.
  - intros [v E]. exists (k, v). by rewrite elem_of_btree_iter.
Qed.

Lemma elem_of_btree_values m v : v ∈ btree_values m <-> exists k, m !! k = Some v.
Proof.
  unfold btree_values. rewrite list_elem_of_fmap. split.
  - intros [[k' v'] [-> E%elem_of_btree_iter]]. by eexists.
  - intros [k E]. exists (k, v). by rewrite elem_of_btree_iter.
Qed.

Lemma elem_of_bset_iter (s : gset K) k : k ∈ bset_iter s <-> k ∈ s.
Proof. unfold bset_iter. by rewrite elem_of_sort_by, elem_of_elements. Qed.

Lemma contains_key_true m k : contains_key k m = true <-> is_Some (m !! k).
Proof. apply is_some_true. Qed.

Lemma contains_key_false m k : contains_key k m = false <-> m !! k = None.
Proof. apply is_some_false. Qed.

Lemma lookup_or_insert m k v j :
  or_insert k v m !! j =
    if decide (k = j) then Some (default v (m !! k)) else m !! j.
Proof.
  unfold or_insert. destruct (m !! k) eqn:E; simpl.
  - case_decide; subst; done.
  - rewrite lookup_insert. by case_decide.
Qed.

Lemma list_to_map_btree_iter m : list_to_map (btree_iter m) = m.
Proof.
  rewrite (list_to_map_proper (btree_iter m) (map_to_list m)).
  - apply list_to_map_to_list.
  - apply NoDup_btree_keys.
  - apply btree_iter_Permutation.
Qed.
End BTree.

Lemma size_list_to_set_le {A} `{Countable A} (l : list A) :
  size (list_to_set (C := gset A) l) <= length l.
Proof.
  induction l as [|y l IH]; [done|]. simpl.
  rewrite size_union_alt, size_singleton.
  assert (size (list_to_set (C := gset A) l ∖ {[y]}) <= size (list_to_set (C := gset A) l)).
  { apply subseteq_size. set_solver. }
  lia.
Qed.

Lemma btree_values_fmap {K V W} `{Countable K, Ord K} (f : V -> W) (m : gmap K V) :
  btree_values (f <$> m) ≡ₚ f <$> btree_values m.
Proof.
  unfold btree_values. rewrite !btree_iter_Permutation, map_to_list_fmap.
  rewrite <- !list_fmap_compose. apply fmap_Permutation. reflexivity.
Qed.

Lemma btree_values_insert {K V} `{Countable K, Ord K} (m : gmap K V) k v :
  m !! k = None -> btree_values (<[k := v]> m) ≡ₚ v :: btree_values m.
Proof.
  intros E. unfold btree_values. rewrite !btree_iter_Permutation, map_to_list_insert by done.
  done.
Qed.

Lemma distinct_count_NoDup {A} `{Countable A} (l : list A) :
  distinct_count l = length l <-> NoDup l.
Proof.
  unfold distinct_count. split; [|apply size_list_to_set].
  induction l as [|x l IH]; intros E; [constructor|]. simpl in E.
  pose proof (size_list_to_set_le l) as Hle.
  destruct (decide (x ∈ l)) as [Hin|Hin].
  - assert ({[x]} ∪ list_to_set l = list_to_set (C := gset A) l) as E' by set_solver.
    rewrite E' in E. lia.
  - constructor; [done|]. apply IH.
    rewrite size_union in E by set_solver. rewrite size_singleton in E. lia.
Qed.

Lemma NoDup_fmap_filter {A B} (key : A -> B) (q : A -> bool) l : NoDup (key <$> l) -> NoDup (key <$> List.filter q l).
Proof.
  induction l as [|x l IH]; simpl; [done|]. rewrite NoDup_cons. intros [Hx Hnd].
  destruct (q x); [|by apply IH]. simpl. rewrite NoDup_cons. split; [|by apply IH].
  intros (y & E & [Hy _]%list_elem_of_In%filter_In)%list_elem_of_fmap. apply Hx. rewrite E.
  apply list_elem_of_fmap_2. by apply list_elem_of_In.
Qed.

(** ** Automation *)

Create HintDb rg.
#[export] Hint Rewrite @is_some_and_true @is_none_or_true @is_some_true @is_some_false
  @contains_key_true @contains_key_false : rg.

(** Splits every boolean conjunction and disjunction of the context into the
    facts it states. *)
Ltac bool_facts :=
  repeat match goal with
  | H : _ && _ = true |- _ => apply andb_true_iff in H as [? ?]
  | H : _ || _ = false |- _ => apply orb_false_iff in H as [? ?]
  | H : negb _ = true |- _ => apply negb_true_iff in H
  | H : negb _ = false |- _ => apply negb_false_iff in H
  | H : bool_decide _ = true |- _ => apply bool_decide_eq_true in H
  | H : bool_decide _ = false |- _ => apply bool_decide_eq_false in H
  | H : set_contains _ _ = true |- _ => apply bool_decide_eq_true in H
  | H : set_contains _ _ = false |- _ => apply bool_decide_eq_false in H
  | H : contains_key _ _ = true |- _ => apply contains_key_true in H
  | H : contains_key _ _ = false |- _ => apply contains_key_false in H
  | H : forallb _ _ = true |- _ => rewrite forallb_forall in H
  | H : (_ <? _)%N = true |- _ => apply N.ltb_lt in H
  | H : (_ <? _)%N = false |- _ => apply N.ltb_ge in H
  | H : (_ <=? _)%N = true |- _ => apply N.leb_le in H
  | H : (_ <=? _)%N = false |- _ => apply N.leb_gt in H
  | H : (_ =? _)%N = true |- _ => apply N.eqb_eq in H
  | H : (_ =? _)%N = false |- _ => apply N.eqb_neq in H
  end.
