(* ===== verification/Identity.v ===== *)
(** * Identities, time and domain errors

    [core/domain/src/identity.rs], [core/domain/src/error.rs] and
    [core/domain/src/time.rs]: the validated identifier newtypes, the
    mission-scoped task reference, the domain error and the relative scheduling
    constraints of a task. *)

From S2P Require Import Prelude.

(** ** Domain errors *)

Inductive DomainError :=
| EmptyValue (kind : string)
| InvalidDuration (kind : string)
| LeaseExpired (kind : string)
| InvalidMissionPlan (reason : string)
| InvalidPhysicalEntityRegistry (reason : string)
| InvalidSpatialMemory (reason : string)
| InvalidState (reason : string)
| InvalidMemory (reason : string).

#[export] Instance DomainError_eq_dec : EqDecision DomainError.
Proof. solve_decision. Defined.

Open Scope string_scope.

(** [impl Display for DomainError]. *)
Definition DomainError_to_string (e : DomainError) : string :=
  match e with
  | EmptyValue kind => kind ++ " must not be empty"
  | InvalidDuration kind => "invalid " ++ kind ++ " duration"
  | LeaseExpired kind => kind ++ " lease has expired"
  | InvalidMissionPlan reason => "invalid mission plan: " ++ reason
  | InvalidPhysicalEntityRegistry reason => "invalid physical entity registry: " ++ reason
  | InvalidSpatialMemory reason => "invalid spatial memory value: " ++ reason
  | InvalidState reason => "invalid state value: " ++ reason
  | InvalidMemory reason => "invalid memory value: " ++ reason
  end.

(** ** Identifiers

    The macro [define_identifier!] declares one newtype over [String] per kind;
    here the kind is an index, so identifiers of different kinds do not mix. *)

Inductive IdKind :=
| KMission | KTask | KActor | KPhysicalEntity | KPhysicalEntityRegistry | KNode
| KLocalSystem | KSensor | KRole | KResource | KExecutionGroup | KCoordinationContext
| KContextRole | KExecutionRelation | KEvent | KCorrelation | KLease
| KNodeContractVersion.

Definition id_kind_name (k : IdKind) : string :=
  match k with
  | KMission => "mission" | KTask => "task" | KActor => "actor"
  | KPhysicalEntity => "physical entity"
  | KPhysicalEntityRegistry => "physical entity registry"
  | KNode => "node" | KLocalSystem => "local system" | KSensor => "sensor"
  | KRole => "role" | KResource => "resource" | KExecutionGroup => "execution group"
  | KCoordinationContext => "coordination context" | KContextRole => "context role"
  | KExecutionRelation => "execution relation" | KEvent => "event"
  | KCorrelation => "correlation" | KLease => "lease"
  | KNodeContractVersion => "node contract version"
  end.

Record Identifier (k : IdKind) := MkId { as_str : string }.
Arguments MkId {k} as_str.
Arguments as_str {k} i.

Abbreviation MissionId := (Identifier KMission).
Abbreviation TaskId := (Identifier KTask).
Abbreviation ActorId := (Identifier KActor).
Abbreviation NodeId := (Identifier KNode).
Abbreviation LocalSystemId := (Identifier KLocalSystem).
Abbreviation RoleId := (Identifier KRole).
Abbreviation ResourceId := (Identifier KResource).
Abbreviation ExecutionGroupId := (Identifier KExecutionGroup).
Abbreviation CoordinationContextId := (Identifier KCoordinationContext).
Abbreviation ContextRoleId := (Identifier KContextRole).
Abbreviation ExecutionRelationId := (Identifier KExecutionRelation).
Abbreviation CorrelationId := (Identifier KCorrelation).
Abbreviation NodeContractVersion := (Identifier KNodeContractVersion).

#[export] Instance Identifier_eq_dec k : EqDecision (Identifier k).
Proof. solve_decision. Defined.
#[export] Instance Identifier_countable k : Countable (Identifier k).
Proof.
  refine (inj_countable' as_str MkId _). by intros [].
Defined.
#[export] Instance as_str_inj k : Inj (=) (=) (@as_str k).
Proof. intros [a] [b]; simpl; congruence. Qed.
#[export] Instance Identifier_Ord k : Ord (Identifier k) := fun x y => cmp (as_str x) (as_str y).
#[export] Instance Identifier_OrdLaws k : OrdLaws (Identifier k).
Proof. apply (OrdLaws_inj (@as_str k)), _. Qed.

(** The [new] constructor every identifier newtype gets from the macro. *)
Definition Identifier_new {k} (value : string) : Result (Identifier k) DomainError :=
  if is_blank value then Err (EmptyValue (id_kind_name k)) else
  Ok (MkId value).

(** ** Node contract versions *)

Definition NODE_CONTRACT_VERSION_V0_13 : string := "roboguide.node.v0.13".
Definition NODE_CONTRACT_VERSION_V0_14 : string := "roboguide.node.v0.14".

Definition supports_quantitative_resources (v : NodeContractVersion) : bool :=
  (as_str v =? NODE_CONTRACT_VERSION_V0_13)%string
  || (as_str v =? NODE_CONTRACT_VERSION_V0_14)%string.

(** ** Task references *)

Record TaskRef := MkTaskRef { tr_mission_id : MissionId; tr_task_id : TaskId }.

#[export] Instance TaskRef_eq_dec : EqDecision TaskRef.
Proof. solve_decision. Defined.
#[export] Instance TaskRef_countable : Countable TaskRef.
Proof.
  refine (inj_countable' (fun t => (tr_mission_id t, tr_task_id t))
            (fun p => MkTaskRef p.1 p.2) _). by intros [].
Defined.
#[export] Instance TaskRef_pair_inj : Inj (=) (=) (fun t => (tr_mission_id t, tr_task_id t)).
Proof. intros [] []; simpl; congruence. Qed.
#[export] Instance TaskRef_Ord : Ord TaskRef :=
  fun x y => cmp (tr_mission_id x, tr_task_id x) (tr_mission_id y, tr_task_id y).
#[export] Instance TaskRef_OrdLaws : OrdLaws TaskRef.
Proof. apply (OrdLaws_inj (fun t => (tr_mission_id t, tr_task_id t))), _. Qed.

(** ** Time *)

Abbreviation TimestampMs := N.

Record TaskTiming := MkTaskTiming {
  earliest_start_offset_ms : N;
  latest_start_offset_ms : option N;
  completion_deadline_offset_ms : option N;
  estimated_duration_ms : option N
}.

(** [TaskTiming::new]. *)
Definition TaskTiming_new (earliest : N) (latest deadline duration : option N)
  : Result TaskTiming DomainError :=
  if is_some_and (fun l => (l <? earliest)%N) latest then Err (InvalidDuration "task start window") else
  if bool_decide (duration = Some 0%N) then Err (InvalidDuration "task estimated duration") else
  if is_some_and (fun d => is_none (u64_checked_add earliest d)) duration then Err (InvalidDuration "task estimated duration overflow") else
  let timing := MkTaskTiming earliest latest deadline duration in
  match deadline with
  | None => Ok timing
  | Some dl =>
      match duration with
      | None => Err (InvalidDuration "task completion deadline without estimated duration")
      | Some d =>
          match u64_checked_add earliest d with
          | None => Err (InvalidDuration "task completion deadline overflow")
          | Some earliest_completion =>
              if (dl <? earliest_completion)%N then Err (InvalidDuration "task completion deadline") else
              Ok timing
          end
      end
  end.

(** [TaskTiming::new_constraints]. *)
Definition TaskTiming_new_constraints (earliest : N) (latest deadline : option N)
  : Result TaskTiming DomainError :=
  if is_some_and (fun l => (l <? earliest)%N) latest then Err (InvalidDuration "task start window") else
  if is_some_and (fun d => (d <? earliest)%N) deadline then Err (InvalidDuration "task completion deadline") else
  Ok (MkTaskTiming earliest latest deadline None).

(** The window a well-formed timing describes: a start within the window, and a
    positive duration that a start at the earliest offset can complete by the
    deadline without leaving the 64-bit range. *)
Definition timing_feasible (t : TaskTiming) : Prop :=
  (forall l, latest_start_offset_ms t = Some l -> earliest_start_offset_ms t <= l)%N /\
  (forall d, estimated_duration_ms t = Some d ->
     0 < d /\ earliest_start_offset_ms t + d <= u64_max)%N /\
  (forall dl, completion_deadline_offset_ms t = Some dl ->
     exists d, estimated_duration_ms t = Some d /\ earliest_start_offset_ms t + d <= dl)%N.
