(* ===== verification/Execution.v ===== *)
(** * Execution commands and the values they carry

    [core/domain/src/execution/]: canonical operation identities, execution
    parameters and intents, recovery declarations and the role-scoped command;
    with the Memory prerequisites ([memory_preparation.rs]), capacity grants
    ([resource_grant.rs]) and registration evidence a command retains. *)

From S2P Require Import Prelude Identity.

Open Scope string_scope.

(** ** Serialisation and hashing

    [serde_json] and [sha2] are third-party crates: their two entry points the
    code calls are the operations of this class.  A number of a value is an integer
    ([JNumber]) or a finite [f64] ([JFloat], as a multiple of [2^-1074], the smallest positive
    one, so that the two zeros are one value); the fields of an object are in the
    order in which they are written: the key order of the sorted map behind [serde_json::Map],
    the order of declaration of a struct. *)

Inductive Json :=
| JNull
| JBool (b : bool)
| JNumber (z : Z)
| JFloat (scaled : Z)
| JString (s : string)
| JArray (l : list Json)
| JObject (fields : list (string * Json)).

Class Serde := {
  json_to_vec : Json -> Result string string;
  sha256_hex : string -> string
}.

(** ** Canonical operations: [execution/intent.rs] *)

Record CapabilityContractRef := MkContract {
  ccr_namespace : string;
  ccr_name : string;
  ccr_version : string
}.

#[export] Instance CapabilityContractRef_eq_dec : EqDecision CapabilityContractRef.
Proof. solve_decision. Defined.

(** [str::split(c)]. *)
Fixpoint split_char (c : ascii) (s : string) : list string :=
  match s with
  | EmptyString => [EmptyString]
  | String a r =>
      if Ascii.eqb a c then EmptyString :: split_char c r
      else match split_char c r with
           | [] => [String a EmptyString]
           | p :: ps => String a p :: ps
           end
  end.

Definition contract_component (value kind : string) (allow_dots : bool)
  : Result string DomainError :=
  let invalid :=
    is_blank value
    || (contains_ws value || contains_char "@" value)
    || (negb allow_dots && contains_char "." value)
    || (allow_dots && existsb (fun p => (p =? "")%string) (split_char "." value)) in
  if invalid
  then Err (InvalidMissionPlan (kind ++ " is not a canonical contract component"))
  else Ok value.

Definition contract_version (value : string) : Result string DomainError :=
  if is_blank value || (contains_ws value || contains_char "@" value)
  then Err (InvalidMissionPlan "capability contract version is not canonical")
  else Ok value.

Definition CapabilityContractRef_new (namespace name version : string)
  : Result CapabilityContractRef DomainError :=
  let? ns := contract_component namespace "capability contract namespace" true in
  let? nm := contract_component name "capability contract name" false in
  let? v := contract_version version in
  Ok (MkContract ns nm v).

(** [impl Display for CapabilityContractRef]. *)
Definition CapabilityContractRef_to_string (c : CapabilityContractRef) : string :=
  ccr_namespace c ++ "." ++ ccr_name c ++ "@" ++ ccr_version c.

Record OperationRef := MkOperationRef { as_legacy_contract : CapabilityContractRef }.

#[export] Instance OperationRef_eq_dec : EqDecision OperationRef.
Proof. solve_decision. Defined.

Definition OperationRef_new (namespace name version : string) : Result OperationRef DomainError :=
  let? c := CapabilityContractRef_new namespace name version in Ok (MkOperationRef c).

(** ** Parameters: [execution/value.rs]

    An [f64] is its 64-bit pattern; [f64_eqb] is the IEEE comparison Rust's
    [PartialEq] uses: no NaN equals anything and the two zeros are equal. *)

Definition f64_exponent (bits : N) : N := N.land (N.shiftr bits 52) 2047.
Definition f64_mantissa (bits : N) : N := N.land bits 4503599627370495.
Definition f64_is_finite (bits : N) : bool := negb (f64_exponent bits =? 2047)%N.
Definition f64_is_nan (bits : N) : bool :=
  (f64_exponent bits =? 2047)%N && negb (f64_mantissa bits =? 0)%N.
Definition f64_is_zero (bits : N) : bool := (N.land bits 9223372036854775807 =? 0)%N.
Definition f64_eqb (a b : N) : bool :=
  negb (f64_is_nan a) && negb (f64_is_nan b)
  && ((a =? b)%N || (f64_is_zero a && f64_is_zero b)).

Inductive ExecutionValue :=
| VBool (b : bool)
| VInteger (z : Z)
| VFloat (bits : N)
| VString (s : string).

Definition ExecutionValue_is_finite (v : ExecutionValue) : bool :=
  match v with VFloat bits => f64_is_finite bits | _ => true end.

(** The derived [PartialEq]. *)
Definition ExecutionValue_eqb (v w : ExecutionValue) : bool :=
  match v, w with
  | VBool a, VBool b => Bool.eqb a b
  | VInteger a, VInteger b => (a =? b)%Z
  | VFloat a, VFloat b => f64_eqb a b
  | VString a, VString b => (a =? b)%string
  | _, _ => false
  end.

Record ExecutionIntent := MkIntent {
  intent_operation : OperationRef;
  intent_objective : string;
  intent_parameters : gmap string ExecutionValue
}.

Definition ExecutionIntent_new_semantic (operation : OperationRef) (objective : string)
    (parameters : gmap string ExecutionValue) : Result ExecutionIntent DomainError :=
  if is_blank objective then Err (EmptyValue "execution objective") else
  if existsb is_blank (btree_keys parameters)
  then Err (EmptyValue "execution parameter key") else
  if existsb (fun v => negb (ExecutionValue_is_finite v)) (btree_values parameters)
  then Err (InvalidMissionPlan "execution parameters must contain finite floats") else
  Ok (MkIntent operation objective parameters).

Definition ExecutionIntent_new (contract : CapabilityContractRef)
    (parameters : gmap string ExecutionValue) : Result ExecutionIntent DomainError :=
  let operation := MkOperationRef contract in
  ExecutionIntent_new_semantic operation (CapabilityContractRef_to_string contract) parameters.

(** [BTreeMap]'s [PartialEq] compares the entries in key order. *)
Fixpoint entries_eqb (l1 l2 : list (string * ExecutionValue)) : bool :=
  match l1, l2 with
  | [], [] => true
  | (k1, v1) :: l1', (k2, v2) :: l2' =>
      (k1 =? k2)%string && ExecutionValue_eqb v1 v2 && entries_eqb l1' l2'
  | _, _ => false
  end.

Definition ExecutionIntent_eqb (a b : ExecutionIntent) : bool :=
  bool_decide (intent_operation a = intent_operation b)
  && (intent_objective a =? intent_objective b)%string
  && entries_eqb (btree_iter (intent_parameters a)) (btree_iter (intent_parameters b)).

(** ** Recovery declarations: [execution/recovery.rs] *)

Inductive ExecutionStopScope := ScopeExecution | ScopeExecutionGroup | ScopeUnsupported.
Inductive ExecutionContinuation := RepeatAfterStop | ContinuationUnsupported.

#[export] Instance ExecutionStopScope_eq_dec : EqDecision ExecutionStopScope.
Proof. solve_decision. Defined.
#[export] Instance ExecutionContinuation_eq_dec : EqDecision ExecutionContinuation.
Proof. solve_decision. Defined.

Record OperationRecoverySupport := MkOpRecovery {
  ors_operation : OperationRef;
  ors_stop_scope : ExecutionStopScope;
  ors_continuation : ExecutionContinuation
}.

#[export] Instance OperationRecoverySupport_eq_dec : EqDecision OperationRecoverySupport.
Proof. solve_decision. Defined.

Definition supports_group_continuation (s : OperationRecoverySupport) : bool :=
  match ors_stop_scope s, ors_continuation s with
  | ScopeExecutionGroup, RepeatAfterStop => true
  | _, _ => false
  end.

Definition supports_role_retry (s : OperationRecoverySupport) : bool :=
  match ors_stop_scope s, ors_continuation s with
  | ScopeExecution, RepeatAfterStop => true
  | _, _ => false
  end.

Record ExecutionRecoverySupport := MkRecoverySupport {
  ers_local_system_id : LocalSystemId;
  ers_support : OperationRecoverySupport
}.

#[export] Instance ExecutionRecoverySupport_eq_dec : EqDecision ExecutionRecoverySupport.
Proof. solve_decision. Defined.

(** ** Memory prerequisites: [memory.rs], [memory_preparation.rs] *)

Inductive MemoryKind := MKExecution | MKSpatial | MKSemantic | MKExperience | MKArtifact.
Inductive MemoryScopeLimit := LimitLocal | LimitGlobal.
Inductive MemoryVisibility := Discoverable | Exchangeable.
Inductive MemorySourceContract := ScopedTypedMap.

#[export] Instance MemoryKind_eq_dec : EqDecision MemoryKind.
Proof. solve_decision. Defined.
#[export] Instance MemoryScopeLimit_eq_dec : EqDecision MemoryScopeLimit.
Proof. solve_decision. Defined.
#[export] Instance MemoryVisibility_eq_dec : EqDecision MemoryVisibility.
Proof. solve_decision. Defined.
#[export] Instance MemorySourceContract_eq_dec : EqDecision MemorySourceContract.
Proof. solve_decision. Defined.

(** [MemorySelector]: logical identity and immutable revision identity. *)
Record MemorySelector := MkMemorySelector { ms_memory_id : string; ms_revision_id : string }.

#[export] Instance MemorySelector_eq_dec : EqDecision MemorySelector.
Proof. solve_decision. Defined.
#[export] Instance MemorySelector_countable : Countable MemorySelector.
Proof.
  refine (inj_countable' (fun s => (ms_memory_id s, ms_revision_id s))
            (fun p => MkMemorySelector p.1 p.2) _). by intros [].
Defined.

Record MemoryRequirement := MkMemoryRequirement {
  mr_selector : MemorySelector;
  mr_kind : MemoryKind;
  mr_payload_schema : string;
  mr_media_type : string;
  mr_source_contract : option MemorySourceContract
}.

#[export] Instance MemoryRequirement_eq_dec : EqDecision MemoryRequirement.
Proof. solve_decision. Defined.

(** [memory_authority::validate_text]. *)
Definition validate_text (value : string) (max : N) : Result unit string :=
  if is_blank value || has_outer_ws value || (max <? str_len value)%N
     || contains_char "*" value || contains_control value
  then Err "Memory authority requires bounded exact identities and contracts"
  else Ok tt.

Definition requires_scoped_typed_map (r : MemoryRequirement) : bool :=
  bool_decide (mr_source_contract r = Some ScopedTypedMap).

Definition MemoryRequirement_validate (r : MemoryRequirement) : Result unit string :=
  let? _u := try_for (fun v => validate_text v 256) [mr_payload_schema r; mr_media_type r] in
  if requires_scoped_typed_map r && negb (bool_decide (mr_kind r = MKSpatial))
  then Err "scoped typed-map source requires Spatial Memory"
  else Ok tt.

Fixpoint memory_selectors_loop (seen : gset MemorySelector) (l : list MemoryRequirement)
  : Result unit string :=
  match l with
  | [] => Ok tt
  | r :: l' =>
      let? _u := MemoryRequirement_validate r in
      if set_contains (mr_selector r) seen
      then Err "Role Memory prerequisites repeat an immutable selector"
      else memory_selectors_loop ({[mr_selector r]} ∪ seen) l'
  end.

Definition MemoryRequirement_validate_set (l : list MemoryRequirement) : Result unit string :=
  if (8 <? N.of_nat (length l))%N
  then Err "a Role supports at most eight exact Memory prerequisites"
  else memory_selectors_loop ∅ l.

Record MemoryProviderDescriptor := MkMemoryProvider {
  mp_use_contract : option string;
  mp_preparation_contract : option string;
  mp_provider_id : string;
  mp_local_system_id : LocalSystemId;
  mp_kind : MemoryKind;
  mp_scope : MemoryScopeLimit;
  mp_visibility : MemoryVisibility;
  mp_payload_schema : string;
  mp_media_type : string
}.

#[export] Instance MemoryProviderDescriptor_eq_dec : EqDecision MemoryProviderDescriptor.
Proof. solve_decision. Defined.

(** ** Capacity grants: [allocation.rs], [resource_grant.rs] *)

Inductive AllocationOwner :=
| OwnerTask (t : TaskRef)
| OwnerContext (mission_id : MissionId) (context_id : CoordinationContextId)
    (context_role_id : ContextRoleId).

#[export] Instance AllocationOwner_eq_dec : EqDecision AllocationOwner.
Proof. solve_decision. Defined.

Record ResourceAllocationGrant := MkGrant {
  rg_schema : string;
  rg_allocation_id : string;
  rg_generation : N;
  rg_resource_id : ResourceId;
  rg_resource_class : string;
  rg_node_id : NodeId;
  rg_group_id : ExecutionGroupId;
  rg_owner : AllocationOwner;
  rg_tenant_id : string;
  rg_task_ref : TaskRef;
  rg_role_id : RoleId;
  rg_units : N;
  rg_allocation_units : N;
  rg_admitted_capacity : N
}.

#[export] Instance ResourceAllocationGrant_eq_dec : EqDecision ResourceAllocationGrant.
Proof. solve_decision. Defined.

Definition GRANT_SCHEMA : string := "roboguide.resource-allocation-grant/v0.1".
Definition ALLOCATION_PREFIX : string := "allocation:sha256:".

Definition AllocationOwner_json (o : AllocationOwner) : Json :=
  match o with
  | OwnerTask t =>
      JObject [("Task", JObject [("mission_id", JString (as_str (tr_mission_id t)));
                                 ("task_id", JString (as_str (tr_task_id t)))])]
  | OwnerContext m c r =>
      JObject [("Context", JObject [("context_id", JString (as_str c));
                                    ("context_role_id", JString (as_str r));
                                    ("mission_id", JString (as_str m))])]
  end.

(** [str::strip_prefix]. *)
Fixpoint strip_prefix (p s : string) : option string :=
  match p, s with
  | EmptyString, _ => Some s
  | String a p', String b s' => if Ascii.eqb a b then strip_prefix p' s' else None
  | String _ _, EmptyString => None
  end.

Fixpoint all_bytes (p : ascii -> bool) (s : string) : bool :=
  match s with EmptyString => true | String a r => p a && all_bytes p r end.

Definition is_lower_hex (a : ascii) : bool := byte_in 48 57 a || byte_in 97 102 a.

Section Grants.
Context `{Serde}.

(** [original_allocation_id]; [None] is the [expect] of a failed encoding. *)
Definition original_allocation_id (g : ResourceAllocationGrant) : option string :=
  let role := match rg_owner g with
              | OwnerTask _ => JString (as_str (rg_role_id g))
              | OwnerContext _ _ _ => JNull
              end in
  match json_to_vec (JArray
          [JString (rg_schema g); JNumber (Z.of_N (rg_generation g));
           JString (as_str (rg_resource_id g)); JString (rg_resource_class g);
           JString (as_str (rg_node_id g)); JString (as_str (rg_group_id g));
           AllocationOwner_json (rg_owner g); role; JString (rg_tenant_id g);
           JNumber (Z.of_N (rg_allocation_units g));
           JNumber (Z.of_N (rg_admitted_capacity g))]) with
  | Ok canonical => Some (ALLOCATION_PREFIX ++ sha256_hex canonical)
  | Err _ => None
  end.

Definition grant_shape_invalid (g : ResourceAllocationGrant) : bool :=
  negb (rg_schema g =? GRANT_SCHEMA)%string
  || (rg_generation g =? 0)%N
  || (rg_units g =? 0)%N
  || (rg_allocation_units g <? rg_units g)%N
  || (rg_admitted_capacity g <? rg_allocation_units g)%N
  || is_blank (rg_resource_class g)
  || (128 <? str_len (rg_resource_class g))%N
  || is_blank (rg_tenant_id g)
  || (128 <? str_len (rg_tenant_id g))%N
  || negb (is_some_and (fun hex => (str_len hex =? 64)%N && all_bytes is_lower_hex hex)
             (strip_prefix ALLOCATION_PREFIX (rg_allocation_id g))).

Definition grant_owner_invalid (g : ResourceAllocationGrant) : bool :=
  match rg_owner g with
  | OwnerTask task => negb (bool_decide (task = rg_task_ref g))
  | OwnerContext mission_id _ _ => negb (bool_decide (mission_id = tr_mission_id (rg_task_ref g)))
  end.

(** [ResourceAllocationGrant::validate]. *)
Definition ResourceAllocationGrant_validate (g : ResourceAllocationGrant)
  : option (Result unit string) :=
  let invalid : Result unit string :=
    Err "resource allocation grant identity, scope or units are invalid" in
  if grant_shape_invalid g then Some invalid else
  original ← original_allocation_id g;
  Some (if negb (rg_allocation_id g =? original)%string || grant_owner_invalid g
        then invalid else Ok tt).
End Grants.

(** ** Registration evidence and the command: [execution/command.rs] *)

Record ExecutionRegistrationEvidence := MkRegistrationEvidence {
  re_node_id : NodeId;
  re_contract_version : NodeContractVersion;
  re_source_session_id : option string;
  re_memory_providers : list MemoryProviderDescriptor
}.

#[export] Instance ExecutionRegistrationEvidence_eq_dec : EqDecision ExecutionRegistrationEvidence.
Proof. solve_decision. Defined.

(** ** Accepted-plan topology: the data of [execution/session.rs] *)

Record ExecutionSessionSlot := MkSessionSlot {
  ess_task_id : TaskId;
  ess_role_id : RoleId;
  ess_actor_id : ActorId;
  ess_dependencies : list TaskId;
  ess_independent : bool
}.

#[export] Instance ExecutionSessionSlot_eq_dec : EqDecision ExecutionSessionSlot.
Proof. solve_decision. Defined.

Record ExecutionSessionDescriptor := MkSession {
  esd_schema_version : string;
  esd_mission_id : MissionId;
  esd_group_id : ExecutionGroupId;
  esd_slots : list ExecutionSessionSlot;
  esd_digest : string
}.

#[export] Instance ExecutionSessionDescriptor_eq_dec : EqDecision ExecutionSessionDescriptor.
Proof. solve_decision. Defined.

Record ExecutionCommand := MkCommand {
  cmd_memory_requirements : list MemoryRequirement;
  cmd_resource_grants : list ResourceAllocationGrant;
  cmd_registration_evidence : option ExecutionRegistrationEvidence;
  cmd_task_ref : TaskRef;
  cmd_group_id : ExecutionGroupId;
  cmd_role_id : RoleId;
  cmd_node_id : NodeId;
  cmd_intent : ExecutionIntent;
  cmd_session : option ExecutionSessionDescriptor;
  cmd_recovery_support : option ExecutionRecoverySupport;
  cmd_execution_generation : option N;
  cmd_correlation_id : CorrelationId
}.

Definition ExecutionCommand_new (mission_id : MissionId) (task_id : TaskId)
    (group_id : ExecutionGroupId) (role_id : RoleId) (node_id : NodeId)
    (intent : ExecutionIntent) (correlation_id : CorrelationId) : ExecutionCommand :=
  {| cmd_memory_requirements := []; cmd_resource_grants := [];
     cmd_registration_evidence := None;
     cmd_task_ref := MkTaskRef mission_id task_id;
     cmd_group_id := group_id; cmd_role_id := role_id; cmd_node_id := node_id;
     cmd_intent := intent; cmd_session := None; cmd_recovery_support := None;
     cmd_execution_generation := None; cmd_correlation_id := correlation_id |}.

Definition cmd_mission_id (c : ExecutionCommand) : MissionId := tr_mission_id (cmd_task_ref c).
Definition cmd_task_id (c : ExecutionCommand) : TaskId := tr_task_id (cmd_task_ref c).

Definition with_memory_requirements (c : ExecutionCommand) (rs : list MemoryRequirement)
  : Result ExecutionCommand DomainError :=
  let? _u := result_map_err InvalidMissionPlan (MemoryRequirement_validate_set rs) in
  Ok (MkCommand rs (cmd_resource_grants c) (cmd_registration_evidence c) (cmd_task_ref c)
        (cmd_group_id c) (cmd_role_id c) (cmd_node_id c) (cmd_intent c) (cmd_session c)
        (cmd_recovery_support c) (cmd_execution_generation c) (cmd_correlation_id c)).

Definition with_session (c : ExecutionCommand) (s : ExecutionSessionDescriptor)
  : ExecutionCommand :=
  MkCommand (cmd_memory_requirements c) (cmd_resource_grants c) (cmd_registration_evidence c)
    (cmd_task_ref c) (cmd_group_id c) (cmd_role_id c) (cmd_node_id c) (cmd_intent c) (Some s)
    (cmd_recovery_support c) (cmd_execution_generation c) (cmd_correlation_id c).

Definition with_recovery_support (c : ExecutionCommand) (s : ExecutionRecoverySupport)
  : ExecutionCommand :=
  MkCommand (cmd_memory_requirements c) (cmd_resource_grants c) (cmd_registration_evidence c)
    (cmd_task_ref c) (cmd_group_id c) (cmd_role_id c) (cmd_node_id c) (cmd_intent c)
    (cmd_session c) (Some s) (cmd_execution_generation c) (cmd_correlation_id c).

Definition with_execution_generation (c : ExecutionCommand) (generation : N) : ExecutionCommand :=
  if (0 <? generation)%N
  then MkCommand (cmd_memory_requirements c) (cmd_resource_grants c)
         (cmd_registration_evidence c) (cmd_task_ref c) (cmd_group_id c) (cmd_role_id c)
         (cmd_node_id c) (cmd_intent c) (cmd_session c) (cmd_recovery_support c)
         (Some generation) (cmd_correlation_id c)
  else c.

Definition with_registration_evidence (c : ExecutionCommand)
    (e : option ExecutionRegistrationEvidence) : ExecutionCommand :=
  MkCommand (cmd_memory_requirements c) (cmd_resource_grants c) e
    (cmd_task_ref c) (cmd_group_id c) (cmd_role_id c) (cmd_node_id c) (cmd_intent c)
    (cmd_session c) (cmd_recovery_support c) (cmd_execution_generation c)
    (cmd_correlation_id c).

Section CommandGrants.
Context `{Serde}.

(** The loop of [with_resource_grants]: every grant is valid, names this
    execution and a resource no earlier grant named. *)
Fixpoint grants_loop (c : ExecutionCommand) (seen : gset ResourceId)
    (l : list ResourceAllocationGrant) : option (Result unit DomainError) :=
  match l with
  | [] => Some (Ok tt)
  | g :: l' =>
      valid ← ResourceAllocationGrant_validate g;
      match valid with
      | Err reason => Some (Err (InvalidMissionPlan reason))
      | Ok _ =>
          if negb (bool_decide (rg_task_ref g = cmd_task_ref c))
             || negb (bool_decide (rg_role_id g = cmd_role_id c))
             || negb (bool_decide (rg_group_id g = cmd_group_id c))
             || negb (bool_decide (rg_node_id g = cmd_node_id c))
             || set_contains (rg_resource_id g) seen
          then Some (Err (InvalidMissionPlan
                 "execution capacity grant changed original Task/Role/Group/Node"))
          else grants_loop c ({[rg_resource_id g]} ∪ seen) l'
      end
  end.

Definition with_resource_grants (c : ExecutionCommand) (grants : list ResourceAllocationGrant)
  : option (Result ExecutionCommand DomainError) :=
  if (64 <? N.of_nat (length grants))%N
  then Some (Err (InvalidMissionPlan "execution capacity grants exceed their bound"))
  else
    checked ← grants_loop c ∅ grants;
    Some (match checked with
          | Err e => Err e
          | Ok _ =>
              Ok (MkCommand (cmd_memory_requirements c) grants (cmd_registration_evidence c)
                    (cmd_task_ref c) (cmd_group_id c) (cmd_role_id c) (cmd_node_id c)
                    (cmd_intent c) (cmd_session c) (cmd_recovery_support c)
                    (cmd_execution_generation c) (cmd_correlation_id c))
          end).
End CommandGrants.

(** The derived [PartialEq]: every field but the intent has a total equality. *)
Definition ExecutionCommand_eqb (a b : ExecutionCommand) : bool :=
  bool_decide (cmd_memory_requirements a = cmd_memory_requirements b)
  && bool_decide (cmd_resource_grants a = cmd_resource_grants b)
  && bool_decide (cmd_registration_evidence a = cmd_registration_evidence b)
  && bool_decide (cmd_task_ref a = cmd_task_ref b)
  && bool_decide (cmd_group_id a = cmd_group_id b)
  && bool_decide (cmd_role_id a = cmd_role_id b)
  && bool_decide (cmd_node_id a = cmd_node_id b)
  && ExecutionIntent_eqb (cmd_intent a) (cmd_intent b)
  && bool_decide (cmd_session a = cmd_session b)
  && bool_decide (cmd_recovery_support a = cmd_recovery_support b)
  && bool_decide (cmd_execution_generation a = cmd_execution_generation b)
  && bool_decide (cmd_correlation_id a = cmd_correlation_id b).

(** ** Equality of commands *)

Definition intent_finite (i : ExecutionIntent) : Prop :=
  forall k v, intent_parameters i !! k = Some v -> ExecutionValue_is_finite v = true.

Lemma f64_eqb_refl b : f64_is_finite b = true -> f64_eqb b b = true.
Proof.
  unfold f64_is_finite, f64_eqb, f64_is_nan. intros H.
  rewrite N.eqb_refl. destruct (f64_exponent b =? 2047)%N; [done|]. by simpl.
Qed.

Lemma ExecutionValue_eqb_refl v : ExecutionValue_is_finite v = true -> ExecutionValue_eqb v v = true.
Proof.
  destruct v as [b|z|bits|s]; simpl; intros Hf.
  - apply eqb_reflx.
  - apply Z.eqb_refl.
  - by apply f64_eqb_refl.
  - apply String.eqb_refl.
Qed.

Lemma entries_eqb_refl l :
  (forall k v, (k, v) ∈ l -> ExecutionValue_is_finite v = true) -> entries_eqb l l = true.
Proof.
  induction l as [|[k v] l IH]; intros Hl; simpl; [done|].
  rewrite String.eqb_refl, ExecutionValue_eqb_refl by (apply (Hl k v); set_solver).
  apply IH. intros k' v' Hin. apply (Hl k' v'). set_solver.
Qed.

Lemma ExecutionIntent_eqb_refl i : intent_finite i -> ExecutionIntent_eqb i i = true.
Proof.
  intros Hf. unfold ExecutionIntent_eqb.
  rewrite bool_decide_eq_true_2, String.eqb_refl by done. simpl.
  apply entries_eqb_refl. intros k v. rewrite elem_of_btree_iter. apply Hf.
Qed.

Lemma ExecutionCommand_eqb_refl c : intent_finite (cmd_intent c) -> ExecutionCommand_eqb c c = true.
Proof.
  intros Hf. unfold ExecutionCommand_eqb.
  rewrite ExecutionIntent_eqb_refl by done.
  by rewrite !bool_decide_eq_true_2 by done.
Qed.

(** Equal commands agree on every field that identifies the execution. *)
Lemma ExecutionCommand_eqb_fields a b :
  ExecutionCommand_eqb a b = true ->
  cmd_memory_requirements a = cmd_memory_requirements b /\
  cmd_task_ref a = cmd_task_ref b /\ cmd_group_id a = cmd_group_id b /\
  cmd_role_id a = cmd_role_id b /\ cmd_node_id a = cmd_node_id b /\
  cmd_session a = cmd_session b /\ cmd_recovery_support a = cmd_recovery_support b /\
  intent_operation (cmd_intent a) = intent_operation (cmd_intent b).
Proof. unfold ExecutionCommand_eqb, ExecutionIntent_eqb. intros E. bool_facts. by split_and!. Qed.

Lemma new_semantic_finite o obj ps i :
  ExecutionIntent_new_semantic o obj ps = Ok i -> intent_finite i.
Proof.
  unfold ExecutionIntent_new_semantic. repeat case_match; intros [= <-] k v Hk; simpl in *.
  match goal with H : existsb (fun v => negb _) _ = false |- _ => rename H into E end.
  destruct (ExecutionValue_is_finite v) eqn:Ev; [done|].
  assert (existsb (fun v => negb (ExecutionValue_is_finite v)) (btree_values ps) = true)
    as Hx; [|congruence].
  apply existsb_exists. exists v. rewrite Ev. split; [|done].
  apply list_elem_of_In, elem_of_btree_values. by exists k.
Qed.

(** ** The printed form of a contract identifies it *)

Lemma contains_char_app c s t :
  contains_char c (s ++ t) = contains_char c s || contains_char c t.
Proof.
  unfold contains_char. induction s as [|a s IH]; [done|].
  rewrite string_app_cons. simpl. by rewrite IH, orb_assoc.
Qed.

Lemma contains_char_cons c a s :
  contains_char c (String a s) = Ascii.eqb c a || contains_char c s.
Proof. reflexivity. Qed.

(** Splitting at the first occurrence of a separator is unique. *)
Lemma split_first c s1 s2 t1 t2 :
  contains_char c s1 = false -> contains_char c t1 = false ->
  (s1 ++ String c s2 = t1 ++ String c t2)%string -> s1 = t1 /\ s2 = t2.
Proof.
  revert t1. induction s1 as [|a s1 IH]; intros [|b t1] Hs Ht E;
    rewrite ?string_app_nil, ?string_app_cons in E; simplify_eq;
    rewrite ?contains_char_cons, ?Ascii.eqb_refl in *; simpl in *; try done.
  bool_facts. by destruct (IH t1) as [-> ->].
Qed.

(** So is splitting at the last one. *)
Lemma split_last c s1 s2 t1 t2 :
  contains_char c s2 = false -> contains_char c t2 = false ->
  (s1 ++ String c s2 = t1 ++ String c t2)%string -> s1 = t1 /\ s2 = t2.
Proof.
  revert t1. induction s1 as [|a s1 IH]; intros [|b t1] Hs Ht E;
    rewrite ?string_app_nil, ?string_app_cons in E; simplify_eq; try done;
    rewrite ?contains_char_app, ?contains_char_cons, ?Ascii.eqb_refl, ?orb_true_r in *;
    simpl in *; try done.
  by destruct (IH t1) as [-> ->].
Qed.

Lemma CapabilityContractRef_new_Ok ns nm v c :
  CapabilityContractRef_new ns nm v = Ok c ->
  c = MkContract ns nm v /\ contains_char "@" ns = false /\ contains_char "@" nm = false /\
  contains_char "." nm = false /\ contains_char "@" v = false.
Proof.
  unfold CapabilityContractRef_new, contract_component, contract_version. simpl.
  repeat case_match; intros; simplify_eq; bool_facts; by split_and!.
Qed.

Lemma contract_to_string_inj ns nm v c ns' nm' v' c' :
  CapabilityContractRef_new ns nm v = Ok c ->
  CapabilityContractRef_new ns' nm' v' = Ok c' ->
  CapabilityContractRef_to_string c = CapabilityContractRef_to_string c' -> c = c'.
Proof.
  intros (-> & A1 & A2 & A3 & A4)%CapabilityContractRef_new_Ok
         (-> & B1 & B2 & B3 & B4)%CapabilityContractRef_new_Ok E.
  unfold CapabilityContractRef_to_string in E; cbn [ccr_namespace ccr_name ccr_version] in E.
  rewrite <- !string_app_assoc, !(string_app_assoc _ "@"), !(string_app_assoc _ ".") in E.
  apply split_last in E as [E ->]; [|done..].
  by apply split_last in E as [-> ->].
Qed.
