(* ===== verification/Session.v ===== *)
(** * Execution sessions

    [core/domain/src/execution/session.rs]: the digest-bound topology evidence a
    command carries and its validation, including the elimination loop that
    rejects cyclic task dependencies. *)

From S2P Require Import Prelude Identity Execution.

Open Scope string_scope.

Definition EXECUTION_SESSION_SCHEMA : string := "roboguide.execution-session/v0.1".

(** ** Canonical digest *)

Definition ExecutionSessionSlot_json (s : ExecutionSessionSlot) : Json :=
  JObject [("actor_id", JString (as_str (ess_actor_id s)));
           ("dependencies", JArray ((fun d : TaskId => JString (as_str d)) <$> (ess_dependencies s)));
           ("independent", JBool (ess_independent s));
           ("role_id", JString (as_str (ess_role_id s)));
           ("task_id", JString (as_str (ess_task_id s)))].

Section Session.
Context `{Serde}.

Definition canonical_digest (s : ExecutionSessionDescriptor) : Result string string :=
  let value := JObject [("group_id", JString (as_str (esd_group_id s)));
                        ("mission_id", JString (as_str (esd_mission_id s)));
                        ("schema_version", JString (esd_schema_version s));
                        ("slots", JArray (ExecutionSessionSlot_json <$> esd_slots s))] in
  let? encoded := json_to_vec value in
  Ok ("sha256:" ++ sha256_hex encoded).
End Session.

(** ** Dependency elimination

    [remaining] maps a task to the dependencies not yet eliminated.  One round
    removes every task without dependencies. *)

Abbreviation Remaining := (gmap TaskId (gset TaskId)).

Definition insert_dependencies (remaining : Remaining) (slot : ExecutionSessionSlot) : Remaining :=
  <[ess_task_id slot :=
      default ∅ (remaining !! ess_task_id slot) ∪ list_to_set (ess_dependencies slot)]> remaining.

Definition initial_remaining (slots : list ExecutionSessionSlot) : Remaining :=
  foldl insert_dependencies ∅ slots.

Definition ready_tasks (remaining : Remaining) : gset TaskId :=
  dom (filter (fun kv => kv.2 = ∅) remaining).

Definition eliminate (ready : gset TaskId) (remaining : Remaining) : Remaining :=
  (fun deps : gset TaskId => deps ∖ ready) <$> filter (fun kv => kv.1 ∉ ready) remaining.

Definition CYCLE_ERROR : string := "execution session dependency graph contains a cycle".

(** The [while] loop; [None] is an exhausted [fuel]. *)
Fixpoint drain (fuel : nat) (remaining : Remaining) : option (Result unit string) :=
  if decide (remaining = ∅) then Some (Ok tt) else
  let ready := ready_tasks remaining in
  if decide (ready = ∅) then Some (Err CYCLE_ERROR) else
  match fuel with
  | O => None
  | S fuel' => drain fuel' (eliminate ready remaining)
  end.

(** Every round removes a task, so the number of tasks is fuel enough
    ([drain_total] below). *)
Definition check_acyclic (slots : list ExecutionSessionSlot) : Result unit string :=
  let remaining := initial_remaining slots in
  default (Err CYCLE_ERROR) (drain (size remaining) remaining).

Section Validate.
Context `{Serde}.

Definition canonical_dependencies (slots : list ExecutionSessionSlot) : bool :=
  let task_ids : gset TaskId := list_to_set (ess_task_id <$> slots) in
  forallb (fun slot =>
    strictly_increasing (ess_dependencies slot)
    && forallb (fun d => negb (bool_decide (d = ess_task_id slot)) && set_contains d task_ids)
         (ess_dependencies slot)) slots.

Definition SESSION_ERROR : string := "execution session identity, slot, or digest is invalid".

(** [validate_slot]; the digest is computed only after the identity checks
    passed, and its error is propagated. *)
Definition validate_slot (s : ExecutionSessionDescriptor) (mission_id : MissionId)
    (group_id : ExecutionGroupId) (task_id : TaskId) (role_id : RoleId)
  : Result unit string :=
  let slot_keys := (fun slot => (ess_task_id slot, ess_role_id slot)) <$> esd_slots s in
  if negb (esd_schema_version s =? EXECUTION_SESSION_SCHEMA)%string
     || negb (bool_decide (esd_mission_id s = mission_id))
     || negb (bool_decide (esd_group_id s = group_id))
  then Err SESSION_ERROR
  else match canonical_digest s with
       | Err e => Err e
       | Ok digest =>
           if negb (esd_digest s =? digest)%string
              || bool_decide (esd_slots s = [])
              || negb (strictly_increasing slot_keys)
              || negb (canonical_dependencies (esd_slots s))
              || negb (existsb (fun slot => bool_decide (ess_task_id slot = task_id)
                                            && bool_decide (ess_role_id slot = role_id))
                         (esd_slots s))
           then Err SESSION_ERROR
           else check_acyclic (esd_slots s)
       end.
End Validate.

(** ** Correctness of the elimination *)

(** A dependency relation that stays inside its tasks and can be ranked. *)
Definition ranked (remaining : Remaining) : Prop :=
  exists rank : TaskId -> nat, forall t deps d,
    remaining !! t = Some deps -> d ∈ deps -> is_Some (remaining !! d) /\ rank d < rank t.

Lemma elem_of_ready remaining t : t ∈ ready_tasks remaining <-> remaining !! t = Some ∅.
Proof.
  unfold ready_tasks. rewrite elem_of_dom. split.
  - intros [deps E]. apply map_lookup_filter_Some in E as [E D]. simpl in D. by subst.
  - intros E. exists ∅. by apply map_lookup_filter_Some.
Qed.

Lemma lookup_eliminate ready remaining t deps :
  eliminate ready remaining !! t = Some deps <->
  exists deps0, remaining !! t = Some deps0 /\ (t ∉ ready) /\ deps = deps0 ∖ ready.
Proof.
  unfold eliminate. rewrite lookup_fmap_Some. split.
  - intros (deps0 & <- & (E & Hn)%map_lookup_filter_Some). by eexists.
  - intros (deps0 & E & Hn & ->). exists deps0. split; [done|]. by apply map_lookup_filter_Some.
Qed.

Lemma eliminate_size ready remaining :
  ready = ready_tasks remaining -> ready <> ∅ ->
  size (eliminate ready remaining) < size remaining.
Proof.
  intros -> Hne. unfold eliminate. rewrite map_size_fmap.
  apply set_choose_L in Hne as [t Ht].
  assert (filter (fun kv : TaskId * gset TaskId => kv.1 ∉ ready_tasks remaining) remaining
          ⊂ remaining) as Hsub; [|by apply map_subset_size in Hsub].
  split; [apply map_filter_subseteq|].
  intros Hle. apply elem_of_ready in Ht as E.
  eapply (lookup_weaken _ _ _ _) in E; [|exact Hle].
  apply map_lookup_filter_Some in E as [_ Hn]. by apply Hn.
Qed.

(** The loop always finishes within its fuel. *)
Lemma drain_total fuel remaining : size remaining <= fuel -> is_Some (drain fuel remaining).
Proof.
  revert remaining. induction fuel as [|fuel IH]; intros remaining Hs; simpl.
  - case_decide as D; [by eexists|]. exfalso. apply D, map_size_empty_iff. lia.
  - case_decide; [by eexists|]. case_decide; [by eexists|].
    apply IH. pose proof (eliminate_size _ remaining eq_refl ltac:(done)). lia.
Qed.

(** Eliminating ready tasks keeps, and reflects, rankability. *)
Lemma eliminate_ranked remaining :
  ranked remaining -> ranked (eliminate (ready_tasks remaining) remaining).
Proof.
  intros [rank Hr]. exists rank. intros t deps d (deps0 & E & Hn & ->)%lookup_eliminate Hd.
  apply elem_of_difference in Hd as [Hd Hnd].
  destruct (Hr _ _ _ E Hd) as [[depsd Ed] Hlt]. split; [|done].
  exists (depsd ∖ ready_tasks remaining). apply lookup_eliminate. by eexists.
Qed.

Lemma eliminate_ranked_inv remaining :
  ranked (eliminate (ready_tasks remaining) remaining) -> ranked remaining.
Proof.
  intros [rank Hr].
  exists (fun t => if decide (t ∈ ready_tasks remaining) then 0 else S (rank t)).
  intros t deps d E Hd.
  assert (t ∉ ready_tasks remaining) as Hnt.
  { rewrite elem_of_ready. intros E'. set_solver. }
  destruct (decide (d ∈ ready_tasks remaining)) as [Hin|Hout].
  - split; [apply elem_of_ready in Hin; by eexists|]. rewrite decide_False by done. lia.
  - destruct (Hr t (deps ∖ ready_tasks remaining) d) as [[x Hx] Hlt].
    { apply lookup_eliminate. by eexists. }
    { set_solver. }
    apply lookup_eliminate in Hx as (x0 & Ex & _ & _).
    split; [by eexists|]. rewrite (decide_False (P := t ∈ _)) by done. lia.
Qed.

(** A nonempty ranked relation has a task without dependencies. *)
Lemma ranked_has_ready remaining :
  remaining <> ∅ -> ranked remaining -> ready_tasks remaining <> ∅.
Proof.
  intros Hne [rank Hr] He.
  assert (forall n t, rank t < n -> remaining !! t = None) as Hnone.
  { induction n as [|n IH]; [lia|]. intros t Ht.
    destruct (remaining !! t) as [deps|] eqn:E; [|done]. exfalso.
    destruct (decide (deps = ∅)) as [->|Hd].
    - apply elem_of_ready in E. set_solver.
    - apply set_choose_L in Hd as [d Hd]. destruct (Hr _ _ _ E Hd) as [[x Hx] Hlt].
      rewrite IH in Hx by lia. done. }
  apply Hne, map_eq. intros t. rewrite lookup_empty. eapply (Hnone (S (rank t))). lia.
Qed.

Lemma drain_spec fuel remaining r :
  drain fuel remaining = Some r -> (r = Ok tt <-> ranked remaining).
Proof.
  revert remaining r. induction fuel as [|fuel IH]; intros remaining r; simpl;
    (case_decide as De; [intros [= <-]; subst; split; [|done];
      intros _; exists (fun _ => 0); intros t deps d E; by rewrite lookup_empty in E|]);
    (case_decide as Dr; [intros [= <-]; split; [done|];
      intros Hrk; by apply ranked_has_ready in Hrk|]); [done|].
  intros E. rewrite (IH _ _ E). split.
  - apply eliminate_ranked_inv.
  - apply eliminate_ranked.
Qed.

Lemma check_acyclic_ok slots :
  check_acyclic slots = Ok tt <-> ranked (initial_remaining slots).
Proof.
  unfold check_acyclic.
  destruct (drain_total (size (initial_remaining slots)) (initial_remaining slots)) as [r E];
    [lia|].
  rewrite E. simpl. by eapply drain_spec.
Qed.

(** ** The dependency map of a slot list *)

Lemma insert_dependencies_lookup m slot t :
  insert_dependencies m slot !! t =
    if decide (ess_task_id slot = t)
    then Some (default ∅ (m !! t) ∪ list_to_set (ess_dependencies slot)) else m !! t.
Proof. unfold insert_dependencies. rewrite lookup_insert. by case_decide; subst. Qed.

(** [t] declares [d] in some slot. *)
Definition declares (slots : list ExecutionSessionSlot) (t d : TaskId) : Prop :=
  exists slot, slot ∈ slots /\ ess_task_id slot = t /\ d ∈ ess_dependencies slot.

Lemma foldl_dependencies_spec slots m t d :
  (d ∈ default ∅ (foldl insert_dependencies m slots !! t) <->
     d ∈ default ∅ (m !! t) \/ declares slots t d) /\
  (is_Some (foldl insert_dependencies m slots !! t) <->
     is_Some (m !! t) \/ t ∈ ess_task_id <$> slots).
Proof.
  revert m. induction slots as [|slot slots IH]; intros m; simpl.
  - split; split; try tauto.
    + intros [|(? & ?%not_elem_of_nil & _)]; done.
    + intros [|?%not_elem_of_nil]; done.
  - destruct (IH (insert_dependencies m slot)) as [IH1 IH2]. rewrite IH1, IH2.
    rewrite insert_dependencies_lookup. split.
    + case_decide as D; simpl; rewrite ?elem_of_union, ?elem_of_list_to_set; split.
      * intros [[?|?]|(s & ? & ? & ?)]; [tauto|right|right].
        -- exists slot. set_solver.
        -- exists s. set_solver.
      * intros [?|(s & [->|?]%elem_of_cons & ? & ?)]; [tauto|tauto|].
        right. by exists s.
      * intros [?|(s & ? & ? & ?)]; [tauto|]. right. exists s. set_solver.
      * intros [?|(s & [->|?]%elem_of_cons & ? & ?)]; [tauto|done|]. right. by exists s.
    + case_decide as D; rewrite elem_of_cons; split.
      * intros _. right. by left.
      * intros _. left. by eexists.
      * tauto.
      * naive_solver.
Qed.

Lemma initial_remaining_ranked slots :
  ranked (initial_remaining slots) <->
  exists rank : TaskId -> nat, forall t d, declares slots t d ->
    d ∈ ess_task_id <$> slots /\ rank d < rank t.
Proof.
  unfold ranked, initial_remaining. split; intros [rank Hr]; exists rank.
  - intros t d Hd. destruct (foldl_dependencies_spec slots ∅ t d) as [H1 _].
    destruct (foldl_dependencies_spec slots ∅ d d) as [_ H2].
    assert (d ∈ default ∅ (foldl insert_dependencies ∅ slots !! t)) as Hin by (apply H1; tauto).
    destruct (foldl insert_dependencies ∅ slots !! t) as [deps|] eqn:E; simpl in Hin;
      [|set_solver].
    destruct (Hr _ _ _ E Hin) as [Hs Hlt]. split; [|done].
    apply H2 in Hs as [[x Hx]|?]; [by rewrite lookup_empty in Hx|done].
  - intros t deps d E Hd. destruct (foldl_dependencies_spec slots ∅ t d) as [H1 _].
    destruct (foldl_dependencies_spec slots ∅ d d) as [_ H2].
    rewrite E in H1. simpl in H1. apply H1 in Hd as [Hd|Hd].
    { rewrite lookup_empty in Hd. set_solver. }
    destruct (Hr _ _ Hd) as [Hin Hlt]. split; [|done]. apply H2. tauto.
Qed.


