(* ===== verification/StateModel.v ===== *)
(** * Source-aware State records

    [core/domain/src/state_model.rs]: the attributed record a Node publishes,
    its constructor checks and its receive-relative freshness. *)

From S2P Require Import Prelude Identity Execution.

Open Scope string_scope.

Definition STATE_RECORD_SCHEMA_V0_1 : string := "roboguide.state-record/v0.1".
Definition MAX_STATE_PAYLOAD_BYTES : N := 65536.

Inductive StateObjectClass := ClassNode | ClassWorld | ClassRoboGuide.
Inductive StateSemantic := Desired | Committed | Reported | Observed | Derived | Belief.

#[export] Instance StateObjectClass_eq_dec : EqDecision StateObjectClass.
Proof. solve_decision. Defined.
#[export] Instance StateSemantic_eq_dec : EqDecision StateSemantic.
Proof. solve_decision. Defined.

Record StateObjectRef := MkStateObject {
  so_class : StateObjectClass;
  so_object_type : string;
  so_object_id : string
}.

Inductive StateSource :=
| SourceNode (node_id : NodeId) (local_system_id : LocalSystemId)
| SourceRoboGuide (component : string).

#[export] Instance StateObjectRef_eq_dec : EqDecision StateObjectRef.
Proof. solve_decision. Defined.
#[export] Instance StateSource_eq_dec : EqDecision StateSource.
Proof. solve_decision. Defined.

Definition source_node_id (s : StateSource) : option NodeId :=
  match s with SourceNode n _ => Some n | SourceRoboGuide _ => None end.

Definition source_is_node (s : StateSource) : bool :=
  match s with SourceNode _ _ => true | SourceRoboGuide _ => false end.

Definition reject_empty (value kind : string) : Result unit DomainError :=
  if is_blank value then Err (InvalidState (kind ++ " must not be empty")) else Ok tt.

Definition StateObjectRef_new (class : StateObjectClass) (object_type object_id : string)
  : Result StateObjectRef DomainError :=
  let? _t := reject_empty object_type "state object type" in
  let? _i := reject_empty object_id "state object id" in
  Ok (MkStateObject class object_type object_id).

Record StateRecordKey := MkStateKey {
  sk_object : StateObjectRef;
  sk_semantic : StateSemantic;
  sk_source : StateSource;
  sk_channel_id : string
}.

#[export] Instance StateRecordKey_eq_dec : EqDecision StateRecordKey.
Proof. solve_decision. Defined.

Record StateRecord := MkStateRecord {
  sr_schema : string;
  sr_key : StateRecordKey;
  sr_payload_schema : string;
  sr_value : Json;
  sr_source_observed_at : option TimestampMs;
  sr_received_at : TimestampMs;
  sr_valid_for_ms : N;
  sr_confidence_millionths : option N;
  sr_source_epoch : option string;
  sr_sequence : N
}.

Definition node_publishable (class : StateObjectClass) (semantic : StateSemantic) : bool :=
  match class, semantic with
  | (ClassNode | ClassWorld), (Reported | Observed) => true
  | _, _ => false
  end.

Section Records.
Context `{Serde}.

(** [StateRecord::new_with_source_epoch]. *)
Definition StateRecord_new_with_source_epoch (object : StateObjectRef)
    (semantic : StateSemantic) (source : StateSource) (channel_id payload_schema : string)
    (value : Json) (source_observed_at : option TimestampMs) (received_at : TimestampMs)
    (valid_for_ms : N) (confidence : option N) (source_epoch : option string) (sequence : N)
  : Result StateRecord DomainError :=
  let? _c := reject_empty channel_id "state channel id" in
  let? _p := reject_empty payload_schema "state payload schema" in
  if (valid_for_ms =? 0)%N
  then Err (InvalidState "state valid_for_ms must be positive") else
  if is_some_and (fun c => (1000000 <? c)%N) confidence
  then Err (InvalidState "state confidence_millionths must not exceed 1000000") else
  if is_some_and is_blank source_epoch
  then Err (InvalidState "state source epoch must not be blank") else
  if is_some source_epoch && negb (source_is_node source)
  then Err (InvalidState "only node-sourced state may carry a source-session epoch") else
  let? payload := result_map_err
      (fun error => InvalidState ("state payload is not encodable: " ++ error))
      (json_to_vec value) in
  if (MAX_STATE_PAYLOAD_BYTES <? str_len payload)%N
  then Err (InvalidState "state payload exceeds 65536 bytes") else
  if source_is_node source && negb (node_publishable (so_class object) semantic)
  then Err (InvalidState "node sources may publish only Reported/Observed Node or World state")
  else Ok (MkStateRecord STATE_RECORD_SCHEMA_V0_1
             (MkStateKey object semantic source channel_id) payload_schema value
             source_observed_at received_at valid_for_ms confidence source_epoch sequence).
End Records.

(** [StateRecord::is_stale_at]. *)
Definition StateRecord_is_stale_at (r : StateRecord) (now : TimestampMs) : bool :=
  (u64_saturating_add (sr_received_at r) (sr_valid_for_ms r) <=? now)%N.
