(* ===== verification/Resource.v ===== *)
(** * Resources, deployment topology and Task requirements

    [core/domain/src/resource.rs], [resource_topology.rs], [capability_requirement.rs],
    [task_requirement.rs], [duration_estimate.rs] and the binding scope of
    [allocation.rs]: what a Node advertises, what a Role demands, and the geometry
    and calendars a deployment declares for the resources. *)

From S2P Require Import Prelude Identity Execution StateModel.

Open Scope string_scope.

(** ** Resources: [resource.rs] *)

Inductive ResourceKind := Space | Compute | Time.
Inductive ResourceAllocationMode := Exclusive | Divisible.

#[export] Instance ResourceKind_eq_dec : EqDecision ResourceKind.
Proof. solve_decision. Defined.
#[export] Instance ResourceAllocationMode_eq_dec : EqDecision ResourceAllocationMode.
Proof. solve_decision. Defined.

(** The derived order of [ResourceKind] is the order of its variants. *)
Definition resource_kind_rank (k : ResourceKind) : N :=
  match k with Space => 0 | Compute => 1 | Time => 2 end.

#[export] Instance resource_kind_rank_inj : Inj (=) (=) resource_kind_rank.
Proof. by intros [] []. Qed.
#[export] Instance ResourceKind_Ord : Ord ResourceKind :=
  fun x y => cmp (resource_kind_rank x) (resource_kind_rank y).
#[export] Instance ResourceKind_OrdLaws : OrdLaws ResourceKind.
Proof. apply (OrdLaws_inj resource_kind_rank), _. Qed.
#[export] Instance ResourceKind_countable : Countable ResourceKind.
Proof.
  refine (inj_countable' resource_kind_rank
            (fun n => match n with 0%N => Space | 1%N => Compute | _ => Time end) _).
  by intros [].
Defined.

Record ResourceRequirement := MkResourceRequirement {
  rr_kind : ResourceKind;
  rr_units : N;
  rr_allocation_mode : ResourceAllocationMode;
  rr_resource_class : option string
}.

#[export] Instance ResourceRequirement_eq_dec : EqDecision ResourceRequirement.
Proof. solve_decision. Defined.

Definition ResourceRequirement_new (kind : ResourceKind) (units : N)
  : Result ResourceRequirement DomainError :=
  if (units =? 0)%N then Err (EmptyValue "resource requirement units")
  else Ok (MkResourceRequirement kind units Exclusive None).

Definition ResourceRequirement_new_divisible (units : N)
  : Result ResourceRequirement DomainError :=
  let? value := ResourceRequirement_new Compute units in
  Ok (MkResourceRequirement (rr_kind value) (rr_units value) Divisible
        (Some "compute.units/v1")).

Definition class_refused (mode : ResourceAllocationMode) (class : string) : bool :=
  negb (bool_decide (mode = Divisible)) || is_blank class || (128 <? str_len class)%N.

Definition ResourceRequirement_with_resource_class (value : ResourceRequirement)
    (class : string) : Result ResourceRequirement DomainError :=
  if class_refused (rr_allocation_mode value) class
  then Err (EmptyValue "quantitative resource class")
  else Ok (MkResourceRequirement (rr_kind value) (rr_units value) (rr_allocation_mode value)
             (Some class)).

Record Resource := MkResource {
  res_id : ResourceId;
  res_kind : ResourceKind;
  res_capacity : N;
  res_allocation_mode : ResourceAllocationMode;
  res_resource_class : option string
}.

#[export] Instance Resource_eq_dec : EqDecision Resource.
Proof. solve_decision. Defined.

Definition Resource_new (id : ResourceId) (kind : ResourceKind) (capacity : N)
  : Result Resource DomainError :=
  if (capacity =? 0)%N then Err (EmptyValue "resource capacity")
  else Ok (MkResource id kind capacity Exclusive None).

Definition Resource_new_divisible (id : ResourceId) (capacity : N)
  : Result Resource DomainError :=
  let? value := Resource_new id Compute capacity in
  Ok (MkResource (res_id value) (res_kind value) (res_capacity value) Divisible
        (Some "compute.units/v1")).

Definition Resource_with_resource_class (value : Resource) (class : string)
  : Result Resource DomainError :=
  if class_refused (res_allocation_mode value) class
  then Err (EmptyValue "quantitative resource class")
  else Ok (MkResource (res_id value) (res_kind value) (res_capacity value)
             (res_allocation_mode value) (Some class)).

(** [allocation.rs]: the lifetime of a binding. *)
Inductive ResourceBindingScope := ScopeTask | ScopeContext.

#[export] Instance ResourceBindingScope_eq_dec : EqDecision ResourceBindingScope.
Proof. solve_decision. Defined.

(** ** Deployment topology: [resource_topology.rs] *)

Record ResourceTimeWindow := MkWindow { tw_starts_at : TimestampMs; tw_ends_at : TimestampMs }.

(** [\[i64; 3\]]. *)
Record Mm3 := MkMm3 { mm_x : Z; mm_y : Z; mm_z : Z }.
Definition mm_axis (v : Mm3) (axis : nat) : Z :=
  match axis with 0 => mm_x v | 1 => mm_y v | _ => mm_z v end.
Definition axes : list nat := [0; 1; 2].

Definition i64_fits (z : Z) : bool :=
  (-9223372036854775808 <=? z)%Z && (z <=? 9223372036854775807)%Z.

Record ResourceSpaceFootprint := MkFootprint {
  sf_conflict_domain : string;
  sf_frame : string;
  sf_anchor_revision : string;
  sf_lower_mm : Mm3;
  sf_upper_mm : Mm3;
  sf_clearance_mm : N
}.

#[export] Instance ResourceTimeWindow_eq_dec : EqDecision ResourceTimeWindow.
Proof. solve_decision. Defined.
#[export] Instance Mm3_eq_dec : EqDecision Mm3.
Proof. solve_decision. Defined.
#[export] Instance ResourceSpaceFootprint_eq_dec : EqDecision ResourceSpaceFootprint.
Proof. solve_decision. Defined.

(** The bounds of a footprint inflated by its clearance. *)
Definition inflated_lower (f : ResourceSpaceFootprint) (axis : nat) : Z :=
  (mm_axis (sf_lower_mm f) axis - Z.of_N (sf_clearance_mm f))%Z.
Definition inflated_upper (f : ResourceSpaceFootprint) (axis : nat) : Z :=
  (mm_axis (sf_upper_mm f) axis + Z.of_N (sf_clearance_mm f))%Z.

(** [checked_sub] and [checked_add] are [None] outside the [i64] range. *)
Definition ResourceSpaceFootprint_validate (f : ResourceSpaceFootprint) : Result unit string :=
  if existsb (fun value => is_blank value || (256 <? str_len value)%N)
       [sf_conflict_domain f; sf_frame f; sf_anchor_revision f]
     || existsb (fun axis =>
          (mm_axis (sf_upper_mm f) axis <=? mm_axis (sf_lower_mm f) axis)%Z
          || negb (i64_fits (inflated_lower f axis))
          || negb (i64_fits (inflated_upper f axis))) axes
  then Err "resource footprint reference, bounds or clearance is invalid"
  else Ok tt.

Definition ResourceSpaceFootprint_conflicts (self other : ResourceSpaceFootprint) : bool :=
  if negb (sf_conflict_domain self =? sf_conflict_domain other)%string then false else
  if negb (is_ok (ResourceSpaceFootprint_validate self))
     || negb (is_ok (ResourceSpaceFootprint_validate other))
     || negb (sf_frame self =? sf_frame other)%string
     || negb (sf_anchor_revision self =? sf_anchor_revision other)%string
  then true
  else forallb (fun axis =>
         (inflated_lower self axis <=? inflated_upper other axis)%Z
         && (inflated_lower other axis <=? inflated_upper self axis)%Z) axes.

Record ResourceTopologyEntry := MkTopologyEntry {
  te_resource_id : ResourceId;
  te_node_id : NodeId;
  te_kind : ResourceKind;
  te_space : option ResourceSpaceFootprint;
  te_time_domain : option string;
  te_windows : list ResourceTimeWindow
}.

#[export] Instance ResourceTopologyEntry_eq_dec : EqDecision ResourceTopologyEntry.
Proof. solve_decision. Defined.

Fixpoint windows_invalid (previous : option TimestampMs) (l : list ResourceTimeWindow) : bool :=
  match l with
  | [] => false
  | w :: l' =>
      (tw_ends_at w <=? tw_starts_at w)%N
      || is_some_and (fun e => (tw_starts_at w <=? e)%N) previous
      || windows_invalid (Some (tw_ends_at w)) l'
  end.

Definition topology_shape_invalid (e : ResourceTopologyEntry) : bool :=
  (128 <? length (te_windows e))%nat
  || match te_kind e with
     | Compute => true
     | Space => is_none (te_space e) || is_some (te_time_domain e)
     | Time => is_some (te_space e) || bool_decide (te_windows e = [])
               || is_none_or (fun d => is_blank d || (256 <? str_len d)%N) (te_time_domain e)
     end.

Definition ResourceTopologyEntry_validate (e : ResourceTopologyEntry) : Result unit string :=
  if topology_shape_invalid e
  then Err "resource topology kind, footprint or calendar is invalid" else
  let? _s := match te_space e with
             | Some space => ResourceSpaceFootprint_validate space
             | None => Ok tt
             end in
  if windows_invalid None (te_windows e)
  then Err "resource windows overlap or lack canonical positive bounds"
  else Ok tt.

Definition permits_interval (e : ResourceTopologyEntry) (start : TimestampMs)
    (end_ : option TimestampMs) : bool :=
  if negb (is_ok (ResourceTopologyEntry_validate e))
     || is_some_and (fun t => (t <=? start)%N) end_
  then false
  else bool_decide (te_windows e = [])
       || is_some_and (fun t =>
            existsb (fun w => (tw_starts_at w <=? start)%N && (t <=? tw_ends_at w)%N)
              (te_windows e)) end_.

(** [a.zip(b).is_some_and(p)]. *)
Definition both {A} (p : A -> A -> bool) (a b : option A) : bool :=
  match a, b with Some x, Some y => p x y | _, _ => false end.

Definition ResourceTopologyEntry_conflicts (self other : ResourceTopologyEntry) : bool :=
  bool_decide (te_resource_id self = te_resource_id other)
  || both String.eqb (te_time_domain self) (te_time_domain other)
  || both ResourceSpaceFootprint_conflicts (te_space self) (te_space other).

Record ResourceTopologyRegistry := MkTopology {
  tp_schema : string;
  tp_registry_id : string;
  tp_revision : N;
  tp_clock : string;
  tp_stop_timeout_ms : N;
  tp_booking_duration_ms : N;
  tp_booking_max_age_ms : N;
  tp_resources : list ResourceTopologyEntry
}.

#[export] Instance ResourceTopologyRegistry_eq_dec : EqDecision ResourceTopologyRegistry.
Proof. solve_decision. Defined.

Definition topology_bounds_invalid (r : ResourceTopologyRegistry) : bool :=
  negb (tp_schema r =? "roboguide.resource-topology/v0.1")%string
  || negb (tp_clock r =? "controller_receive_time")%string
  || is_blank (tp_registry_id r) || (128 <? str_len (tp_registry_id r))%N
  || (tp_revision r =? 0)%N
  || (tp_stop_timeout_ms r =? 0)%N || (3600000 <? tp_stop_timeout_ms r)%N
  || (tp_booking_duration_ms r =? 0)%N || (3600000 <? tp_booking_duration_ms r)%N
  || (tp_booking_max_age_ms r <? tp_booking_duration_ms r)%N
  || (604800000 <? tp_booking_max_age_ms r)%N
  || (4096 <? length (tp_resources r))%nat.

(** The loop of [validate]: entries in identity order, one frame and anchor per
    conflict domain. *)
Fixpoint topology_entries_loop (references : gmap string (string * string))
    (previous : option ResourceId) (l : list ResourceTopologyEntry) : Result unit string :=
  match l with
  | [] => Ok tt
  | entry :: l' =>
      let? _v := ResourceTopologyEntry_validate entry in
      if is_some_and (fun old => negb (bool_decide (cmp old (te_resource_id entry) = Lt))) previous
      then Err "resource topology identities are duplicated or not canonical" else
      match te_space entry with
      | Some space =>
          let reference := (sf_frame space, sf_anchor_revision space) in
          if is_some_and (fun old => negb (bool_decide (old = reference)))
               (references !! sf_conflict_domain space)
          then Err "one spatial conflict domain cannot hide incompatible frames"
          else topology_entries_loop (<[sf_conflict_domain space := reference]> references)
                 (Some (te_resource_id entry)) l'
      | None => topology_entries_loop references (Some (te_resource_id entry)) l'
      end
  end.

Definition ResourceTopologyRegistry_validate (r : ResourceTopologyRegistry)
  : Result unit string :=
  if topology_bounds_invalid r
  then Err "resource topology schema, clock, identity or bounds are invalid"
  else topology_entries_loop ∅ None (tp_resources r).

Definition topology_entry (r : ResourceTopologyRegistry) (id : ResourceId)
  : option ResourceTopologyEntry :=
  List.find (fun entry => bool_decide (te_resource_id entry = id)) (tp_resources r).

Record ResourceTopologyReservation := MkTopologyReservation {
  tv_revision : N;
  tv_entry : ResourceTopologyEntry;
  tv_admitted_at : TimestampMs;
  tv_planned_end : option TimestampMs
}.

#[export] Instance ResourceTopologyReservation_eq_dec : EqDecision ResourceTopologyReservation.
Proof. solve_decision. Defined.

(** [control/src/resource_topology.rs]: half-open intervals, an absent end is
    unbounded. *)
Definition overlaps (left : TimestampMs) (left_end : option TimestampMs) (right : TimestampMs)
    (right_end : option TimestampMs) : bool :=
  is_none_or (fun e => (right <? e)%N) left_end && is_none_or (fun e => (left <? e)%N) right_end.

(** ** Role and Task requirements: [capability_requirement.rs], [task_requirement.rs] *)

Inductive CapabilityKind := Mobility | Transport | ComputeWork | Observation.
Inductive CapabilityConstraintOperator := Equals | AtLeast | AtMost.

Record CapabilityConstraint := MkConstraint {
  cc_attribute : string;
  cc_operator : CapabilityConstraintOperator;
  cc_value : ExecutionValue
}.

Definition CapabilityConstraint_new (attribute : string)
    (operator : CapabilityConstraintOperator) (value : ExecutionValue)
  : Result CapabilityConstraint DomainError :=
  if is_blank attribute then Err (EmptyValue "capability constraint attribute")
  else Ok (MkConstraint attribute operator value).

Record CapabilityRequirement := MkCapabilityRequirement {
  cr_contract : CapabilityContractRef;
  cr_constraints : list CapabilityConstraint
}.

(** [iter().find(|x| !seen.insert(x))]: the first repeated element. *)
Fixpoint first_repeated {A} `{EqDecision A} (seen : list A) (l : list A) : option A :=
  match l with
  | [] => None
  | x :: l' => if decide (x ∈ seen) then Some x else first_repeated (x :: seen) l'
  end.

Definition CapabilityRequirement_new (contract : CapabilityContractRef)
    (constraints : list CapabilityConstraint) : Result CapabilityRequirement DomainError :=
  match first_repeated [] (cc_attribute <$> constraints) with
  | Some duplicate => Err (InvalidMissionPlan
      ("capability " ++ CapabilityContractRef_to_string contract ++ " repeats constraint "
         ++ duplicate))
  | None => Ok (MkCapabilityRequirement contract constraints)
  end.

Definition CapabilityRequirement_exact (contract : CapabilityContractRef)
  : CapabilityRequirement := MkCapabilityRequirement contract [].

Record RoleRequirement := MkRoleRequirement {
  rq_role_id : RoleId;
  rq_legacy_capability : option CapabilityKind;
  rq_actor_id : option ActorId;
  rq_legacy_contract : option CapabilityContractRef;
  rq_capabilities : list CapabilityRequirement;
  rq_resource_kind : option ResourceKind;
  rq_resources : list ResourceRequirement;
  rq_memories : list MemoryRequirement
}.

Definition one_kind (resources : list ResourceRequirement) : option ResourceKind :=
  match resources with [resource] => Some (rr_kind resource) | _ => None end.

Definition repeated_kinds (resources : list ResourceRequirement) : bool :=
  is_some (first_repeated [] (rr_kind <$> resources)).

Definition RoleRequirement_new_scheduled (role_id : RoleId) (actor_id : option ActorId)
    (capability : CapabilityKind) (contract : option CapabilityContractRef)
    (resources : list ResourceRequirement) : Result RoleRequirement DomainError :=
  if repeated_kinds resources
  then Err (InvalidMissionPlan ("role " ++ as_str role_id ++ " has duplicate resource kinds"))
  else Ok (MkRoleRequirement role_id (Some capability) actor_id contract
             (match contract with Some c => [CapabilityRequirement_exact c] | None => [] end)
             (one_kind resources) resources []).

Definition RoleRequirement_new_normalized (role_id : RoleId) (actor_id : option ActorId)
    (capabilities : list CapabilityRequirement) (resources : list ResourceRequirement)
  : Result RoleRequirement DomainError :=
  if (length capabilities =? 0)%nat then Err (EmptyValue "role capability requirements") else
  match first_repeated [] (cr_contract <$> capabilities) with
  | Some duplicate => Err (InvalidMissionPlan
      ("role " ++ as_str role_id ++ " repeats capability "
         ++ CapabilityContractRef_to_string duplicate))
  | None =>
      if repeated_kinds resources
      then Err (InvalidMissionPlan ("role " ++ as_str role_id ++ " has duplicate resource kinds"))
      else Ok (MkRoleRequirement role_id None actor_id None capabilities
                 (one_kind resources) resources [])
  end.

Definition RoleRequirement_with_memories (r : RoleRequirement) (memories : list MemoryRequirement)
  : Result RoleRequirement DomainError :=
  let? _m := result_map_err InvalidMissionPlan (MemoryRequirement_validate_set memories) in
  Ok (MkRoleRequirement (rq_role_id r) (rq_legacy_capability r) (rq_actor_id r)
        (rq_legacy_contract r) (rq_capabilities r) (rq_resource_kind r) (rq_resources r) memories).

(** The legacy single demand stands for an empty list of demands. *)
Definition resource_requirements (r : RoleRequirement) : list ResourceRequirement :=
  match bool_decide (rq_resources r = []), rq_resource_kind r with
  | true, Some kind => [MkResourceRequirement kind 1 Exclusive None]
  | _, _ => rq_resources r
  end.

Record TaskRequirement := MkTaskRequirement {
  tk_task_ref : TaskRef;
  tk_roles : list RoleRequirement;
  tk_timing : TaskTiming
}.

Definition TaskRequirement_new (mission_id : MissionId) (task_id : TaskId)
    (roles : list RoleRequirement) : Result TaskRequirement DomainError :=
  if (length roles =? 0)%nat then Err (EmptyValue "task roles") else
  match first_repeated [] (rq_role_id <$> roles) with
  | Some duplicate => Err (InvalidMissionPlan ("duplicate role id " ++ as_str duplicate))
  | None => Ok (MkTaskRequirement (MkTaskRef mission_id task_id) roles
                  (MkTaskTiming 0 None None None))
  end.

Definition TaskRequirement_new_scheduled (mission_id : MissionId) (task_id : TaskId)
    (roles : list RoleRequirement) (timing : TaskTiming) : Result TaskRequirement DomainError :=
  let? requirement := TaskRequirement_new mission_id task_id roles in
  Ok (MkTaskRequirement (tk_task_ref requirement) (tk_roles requirement) timing).

(** ** Duration evidence: [duration_estimate.rs] *)

Record TaskDurationEstimate := MkDurationEstimate {
  de_task_ref : TaskRef;
  de_duration_ms : N;
  de_source : StateSource;
  de_received_at : TimestampMs;
  de_valid_for_ms : N
}.

Definition TaskDurationEstimate_new (task_ref : TaskRef) (duration_ms : N)
    (source : StateSource) (received_at : TimestampMs) (valid_for_ms : N)
  : Result TaskDurationEstimate DomainError :=
  if (duration_ms =? 0)%N then Err (InvalidDuration "task duration estimate") else
  if (valid_for_ms =? 0)%N then Err (InvalidDuration "task duration estimate validity") else
  Ok (MkDurationEstimate task_ref duration_ms source received_at valid_for_ms).

(** [checked_sub] is [None] for evidence from the future. *)
Definition estimate_is_fresh_at (e : TaskDurationEstimate) (now : TimestampMs) : bool :=
  (de_received_at e <=? now)%N && (now - de_received_at e <=? de_valid_for_ms e)%N.
