(* ===== verification/RelationSpec.v ===== *)
(** * Coordination declarations of a mission plan

    [core/domain/src/execution_relation.rs] and the coordination context of
    [core/domain/src/context.rs]: coupling modes, shared views, peer channels,
    typed relation specifications and the context that declares them. *)

From S2P Require Import Prelude Identity Execution StateModel Resource.

Open Scope string_scope.

Record PlannedExecutionRef := MkPlannedRef { per_task_id : TaskId; per_role_id : RoleId }.

#[export] Instance PlannedExecutionRef_eq_dec : EqDecision PlannedExecutionRef.
Proof. solve_decision. Defined.

(** ** Coupling modes *)

Inductive ExecutionCouplingMode :=
| Independent | SequentialHandoff | ConcurrentCooperation | TightlyCoupledCooperation.

Inductive CoordinationMechanism :=
| TaskHandoff | GroupSharedState | MechSharedSpatialReference | RelationEvidence
| DirectPeerChannel.

#[export] Instance ExecutionCouplingMode_eq_dec : EqDecision ExecutionCouplingMode.
Proof. solve_decision. Defined.

Definition mode_requires (mode : ExecutionCouplingMode) (mechanism : CoordinationMechanism) : bool :=
  match mode with
  | Independent => false
  | SequentialHandoff => match mechanism with TaskHandoff => true | _ => false end
  | ConcurrentCooperation =>
      match mechanism with GroupSharedState | RelationEvidence => true | _ => false end
  | TightlyCoupledCooperation =>
      match mechanism with
      | GroupSharedState | RelationEvidence | DirectPeerChannel => true
      | _ => false
      end
  end.

(** ** Shared views *)

Inductive GroupViewField := FieldPose | FieldVelocity | FieldExecution.

#[export] Instance GroupViewField_eq_dec : EqDecision GroupViewField.
Proof. solve_decision. Defined.
#[export] Instance GroupViewField_countable : Countable GroupViewField.
Proof.
  refine (inj_countable'
    (fun f => match f with FieldPose => 0 | FieldVelocity => 1 | FieldExecution => 2 end)
    (fun n => match n with 0 => FieldPose | 1 => FieldVelocity | _ => FieldExecution end) _).
  by intros [].
Defined.

(** [MapRevisionSelector] of [spatial_memory.rs]. *)
Record MapRevisionSelector := MkMapSelector { mrs_map_id : string; mrs_revision_id : string }.

#[export] Instance MapRevisionSelector_eq_dec : EqDecision MapRevisionSelector.
Proof. solve_decision. Defined.

Record SharedSpatialReference := MkSpatialReference {
  ssr_selector : MapRevisionSelector;
  ssr_frame_id : string
}.

#[export] Instance SharedSpatialReference_eq_dec : EqDecision SharedSpatialReference.
Proof. solve_decision. Defined.

Definition SharedSpatialReference_new (selector : MapRevisionSelector) (frame_id : string)
  : Result SharedSpatialReference DomainError :=
  if is_blank frame_id
  then Err (InvalidMissionPlan "shared spatial frame id must not be blank")
  else Ok (MkSpatialReference selector frame_id).

Definition SharedSpatialReference_validate (r : SharedSpatialReference) : Result unit DomainError :=
  if is_blank (ssr_frame_id r)
  then Err (InvalidMissionPlan "shared spatial frame id must not be blank")
  else Ok tt.

Record GroupViewBinding := MkViewBinding {
  gvb_context_role_id : ContextRoleId;
  gvb_field : GroupViewField;
  gvb_state_export_id : option string;
  gvb_payload_schema : option string
}.

#[export] Instance GroupViewBinding_eq_dec : EqDecision GroupViewBinding.
Proof. solve_decision. Defined.

Definition GroupViewBinding_new (context_role_id : ContextRoleId) (field : GroupViewField)
    (state_export_id payload_schema : string) : Result GroupViewBinding DomainError :=
  if bool_decide (field = FieldExecution)
  then Err (InvalidMissionPlan "Execution Group view fields require the Runtime-backed constructor")
  else if is_blank state_export_id || is_blank payload_schema
  then Err (InvalidMissionPlan
         "Group view State export identity and payload schema must not be blank")
  else Ok (MkViewBinding context_role_id field (Some state_export_id) (Some payload_schema)).

Definition GroupViewBinding_new_execution (context_role_id : ContextRoleId) : GroupViewBinding :=
  MkViewBinding context_role_id FieldExecution None None.

Definition GroupViewBinding_validate (b : GroupViewBinding) : Result unit DomainError :=
  match gvb_field b with
  | FieldPose | FieldVelocity =>
      if is_none_or is_blank (gvb_state_export_id b) || is_none_or is_blank (gvb_payload_schema b)
      then Err (InvalidMissionPlan
             "spatial Group view fields require a State export and payload schema")
      else Ok tt
  | FieldExecution =>
      if is_some (gvb_state_export_id b) || is_some (gvb_payload_schema b)
      then Err (InvalidMissionPlan
             "Execution Group view fields are Runtime-backed and cannot select State exports")
      else Ok tt
  end.

Record GroupSharedViewSpec := MkSharedView {
  gsv_spatial_reference : option SharedSpatialReference;
  gsv_bindings : list GroupViewBinding;
  gsv_include_freshness : bool
}.

#[export] Instance GroupSharedViewSpec_eq_dec : EqDecision GroupSharedViewSpec.
Proof. solve_decision. Defined.

Definition binding_identity (b : GroupViewBinding)
  : ContextRoleId * GroupViewField * option string * option string :=
  (gvb_context_role_id b, gvb_field b, gvb_state_export_id b, gvb_payload_schema b).

Definition GroupSharedViewSpec_validate (v : GroupSharedViewSpec) : Result unit DomainError :=
  if bool_decide (gsv_bindings v = [])
  then Err (InvalidMissionPlan "Group shared view requires at least one binding") else
  let? _b := try_for GroupViewBinding_validate (gsv_bindings v) in
  let? _r := match gsv_spatial_reference v with
             | Some r => SharedSpatialReference_validate r
             | None => Ok tt
             end in
  if negb (distinct_count (binding_identity <$> gsv_bindings v) =? length (gsv_bindings v))%nat
  then Err (InvalidMissionPlan "Group shared view contains duplicate bindings")
  else Ok tt.

Definition GroupSharedViewSpec_new (spatial_reference : option SharedSpatialReference)
    (bindings : list GroupViewBinding) (include_freshness : bool)
  : Result GroupSharedViewSpec DomainError :=
  let view := MkSharedView spatial_reference bindings include_freshness in
  let? _u := GroupSharedViewSpec_validate view in Ok view.

Record PeerChannelSpec := MkPeerChannelSpec {
  pcs_profile_id : string;
  pcs_message_schema : string
}.

#[export] Instance PeerChannelSpec_eq_dec : EqDecision PeerChannelSpec.
Proof. solve_decision. Defined.

(** ** Typed relations *)

Inductive RelationStateRequirement := Available | Unavailable.

#[export] Instance RelationStateRequirement_eq_dec : EqDecision RelationStateRequirement.
Proof. solve_decision. Defined.

Inductive ExecutionRelationType :=
| TRequiresActive
| TGroupMemberState (state_key : string)
| TSharedSpatialReference (reference : SharedSpatialReference)
| TRelativePose (frame_id : string)
| TRelativeDistance (frame_id : string)
| TStateRequirement (state_key : string) (requirement : RelationStateRequirement)
| TFreshnessRequirement (state_key : string) (policy_id : string).

Inductive ExecutionRelationKind :=
| RequiresActive | GroupMemberState | SharedSpatialReferenceKind | RelativePose
| RelativeDistance | StateRequirement | FreshnessRequirement.

#[export] Instance ExecutionRelationType_eq_dec : EqDecision ExecutionRelationType.
Proof. solve_decision. Defined.
#[export] Instance ExecutionRelationKind_eq_dec : EqDecision ExecutionRelationKind.
Proof. solve_decision. Defined.

Definition relation_type_kind (t : ExecutionRelationType) : ExecutionRelationKind :=
  match t with
  | TRequiresActive => RequiresActive
  | TGroupMemberState _ => GroupMemberState
  | TSharedSpatialReference _ => SharedSpatialReferenceKind
  | TRelativePose _ => RelativePose
  | TRelativeDistance _ => RelativeDistance
  | TStateRequirement _ _ => StateRequirement
  | TFreshnessRequirement _ _ => FreshnessRequirement
  end.

Record ExecutionRelationSpec := MkRelationSpec {
  rs_relation_id : ExecutionRelationId;
  rs_source : PlannedExecutionRef;
  rs_target : PlannedExecutionRef;
  rs_kind : ExecutionRelationKind;
  rs_relation_type : ExecutionRelationType
}.

#[export] Instance ExecutionRelationSpec_eq_dec : EqDecision ExecutionRelationSpec.
Proof. solve_decision. Defined.

Definition validate_typed_relation (t : ExecutionRelationType) (relation_id : ExecutionRelationId)
  : Result unit DomainError :=
  let nonblank (value field : string) : Result unit DomainError :=
    if is_blank value
    then Err (InvalidMissionPlan
           ("execution relation " ++ as_str relation_id ++ " has blank " ++ field))
    else Ok tt in
  match t with
  | TRequiresActive => Ok tt
  | TGroupMemberState state_key
  | TStateRequirement state_key _
  | TFreshnessRequirement state_key _ => nonblank state_key "state_key"
  | TSharedSpatialReference reference => nonblank (ssr_frame_id reference) "frame_id"
  | TRelativePose frame_id
  | TRelativeDistance frame_id => nonblank frame_id "frame_id"
  end.

Definition ExecutionRelationSpec_new (relation_id : ExecutionRelationId)
    (source target : PlannedExecutionRef) (kind : ExecutionRelationKind)
  : Result ExecutionRelationSpec DomainError :=
  if bool_decide (source = target)
  then Err (InvalidMissionPlan
         ("execution relation " ++ as_str relation_id ++ " references itself"))
  else if negb (bool_decide (kind = RequiresActive))
  then Err (InvalidMissionPlan
         ("execution relation " ++ as_str relation_id
            ++ " requires the typed relation constructor"))
  else Ok (MkRelationSpec relation_id source target kind TRequiresActive).

Definition ExecutionRelationSpec_new_typed (relation_id : ExecutionRelationId)
    (source target : PlannedExecutionRef) (relation_type : ExecutionRelationType)
  : Result ExecutionRelationSpec DomainError :=
  if bool_decide (source = target)
  then Err (InvalidMissionPlan
         ("execution relation " ++ as_str relation_id ++ " references itself"))
  else
    let? _u := validate_typed_relation relation_type relation_id in
    Ok (MkRelationSpec relation_id source target (relation_type_kind relation_type) relation_type).

Inductive ExecutionRelationState := Dormant | Pending | Satisfied | Violated | RelUnknown.

#[export] Instance ExecutionRelationState_eq_dec : EqDecision ExecutionRelationState.
Proof. solve_decision. Defined.

Definition requires_reconciliation (s : ExecutionRelationState) : bool :=
  match s with Violated | RelUnknown => true | _ => false end.

(** ** Coordination contexts: [context.rs] *)

Record ContextRole := MkContextRole {
  cr_context_role_id : ContextRoleId;
  cr_actor_id : ActorId;
  cr_resource_envelope : list ResourceRequirement
}.

Definition with_resource_envelope (role : ContextRole) (envelope : list ResourceRequirement)
  : Result ContextRole DomainError :=
  if (1 <? length envelope)%nat
     || existsb (fun demand =>
          negb (bool_decide (rr_kind demand = Compute))
          || negb (bool_decide (rr_allocation_mode demand = Divisible))
          || (rr_units demand =? 0)%N
          || is_none_or (fun v => is_blank v || (128 <? str_len v)%N) (rr_resource_class demand))
        envelope
  then Err (InvalidMissionPlan
         "Context capacity envelope requires one explicit typed positive Compute allocation")
  else Ok (MkContextRole (cr_context_role_id role) (cr_actor_id role) envelope).

(** [DistinctPhysicalEntityConstraint] is a set of at least two ContextRoles. *)
Record DistinctPhysicalEntityConstraint := MkDistinct { dpe_context_role_ids : gset ContextRoleId }.

Definition DistinctPhysicalEntityConstraint_new (ids : gset ContextRoleId)
  : Result DistinctPhysicalEntityConstraint DomainError :=
  if (size ids <? 2)%nat
  then Err (InvalidMissionPlan
         "distinct physical entity constraint requires at least two ContextRoles")
  else Ok (MkDistinct ids).

Record CoordinationContext := MkContext {
  cc_context_id : CoordinationContextId;
  cc_roles : list ContextRole;
  cc_executor_constraints : list DistinctPhysicalEntityConstraint;
  cc_relations : list ExecutionRelationSpec;
  cc_coupling_mode : ExecutionCouplingMode;
  cc_shared_view : option GroupSharedViewSpec;
  cc_peer_channel : option PeerChannelSpec
}.

Definition CoordinationContext_new (context_id : CoordinationContextId) (roles : list ContextRole)
  : Result CoordinationContext DomainError :=
  if negb (distinct_count (cr_context_role_id <$> roles) =? length roles)%nat
  then Err (InvalidMissionPlan
         ("context " ++ as_str context_id ++ " has duplicate context roles"))
  else Ok (MkContext context_id roles [] [] Independent None None).

Definition CoordinationContext_new_with_relations (context_id : CoordinationContextId)
    (roles : list ContextRole) (relations : list ExecutionRelationSpec)
  : Result CoordinationContext DomainError :=
  let? context := CoordinationContext_new context_id roles in
  if negb (distinct_count (rs_relation_id <$> relations) =? length relations)%nat
  then Err (InvalidMissionPlan
         ("context " ++ as_str (cc_context_id context) ++ " has duplicate execution relations"))
  else Ok (MkContext (cc_context_id context) (cc_roles context)
             (cc_executor_constraints context) relations (cc_coupling_mode context) (cc_shared_view context) (cc_peer_channel context)).

Definition context_role (c : CoordinationContext) (role_id : ContextRoleId) : option ContextRole :=
  List.find (fun role => bool_decide (cr_context_role_id role = role_id)) (cc_roles c).

Definition mode_name (m : ExecutionCouplingMode) : string :=
  match m with
  | Independent => "Independent" | SequentialHandoff => "SequentialHandoff"
  | ConcurrentCooperation => "ConcurrentCooperation"
  | TightlyCoupledCooperation => "TightlyCoupledCooperation"
  end.

Definition validate_mechanisms_for (c : CoordinationContext) (mode : ExecutionCouplingMode)
  : Result unit DomainError :=
  let prefix := "context " ++ as_str (cc_context_id c) in
  if mode_requires mode GroupSharedState && is_none (cc_shared_view c)
  then Err (InvalidMissionPlan
         (prefix ++ " mode " ++ mode_name mode ++ " requires a Group shared view")) else
  if mode_requires mode RelationEvidence && bool_decide (cc_relations c = [])
  then Err (InvalidMissionPlan
         (prefix ++ " mode " ++ mode_name mode ++ " requires at least one execution relation")) else
  if mode_requires mode DirectPeerChannel && is_none (cc_peer_channel c)
  then Err (InvalidMissionPlan
         (prefix ++ " mode " ++ mode_name mode
            ++ " requires a direct peer channel declaration")) else
  if mode_requires mode DirectPeerChannel && (length (cc_roles c) <? 2)%nat
  then Err (InvalidMissionPlan
         (prefix ++ " direct peer channel requires at least two ContextRoles"))
  else Ok tt.

Definition CoordinationContext_new_with_coordination (context_id : CoordinationContextId)
    (roles : list ContextRole) (relations : list ExecutionRelationSpec)
    (coupling_mode : ExecutionCouplingMode) (shared_view : option GroupSharedViewSpec)
    (peer_channel : option PeerChannelSpec) : Result CoordinationContext DomainError :=
  let? context := CoordinationContext_new_with_relations context_id roles relations in
  let? _v := match shared_view with
             | None => Ok tt
             | Some view =>
                 let? _w := GroupSharedViewSpec_validate view in
                 try_for (fun b =>
                   if is_none (context_role context (gvb_context_role_id b))
                   then Err (InvalidMissionPlan
                          ("context " ++ as_str context_id
                             ++ " shared view references unknown ContextRole "
                             ++ as_str (gvb_context_role_id b)))
                   else Ok tt) (gsv_bindings view)
             end in
  if is_some_and (fun ch => is_blank (pcs_profile_id ch) || is_blank (pcs_message_schema ch))
       peer_channel
  then Err (InvalidMissionPlan
         ("context " ++ as_str context_id ++ " peer channel contains a blank identity")) else
  let context' := MkContext (cc_context_id context) (cc_roles context)
                    (cc_executor_constraints context) (cc_relations context) coupling_mode
                    shared_view peer_channel in
  let? _m := validate_mechanisms_for context' coupling_mode in
  Ok context'.

(** The check of one constraint: known roles, pairwise distinct actors. *)
Definition executor_constraint_check (c : CoordinationContext)
    (constraint : DistinctPhysicalEntityConstraint) : Result unit DomainError :=
  let role_ids := bset_iter (dpe_context_role_ids constraint) in
  let? _u := try_for (fun role_id =>
      if is_none (context_role c role_id)
      then Err (InvalidMissionPlan
             ("context " ++ as_str (cc_context_id c)
                ++ " executor constraint references unknown ContextRole " ++ as_str role_id))
      else Ok tt) role_ids in
  let actors := omap (context_role c) role_ids in
  if negb (distinct_count (cr_actor_id <$> actors) =? length actors)%nat
  then Err (InvalidMissionPlan
         ("context " ++ as_str (cc_context_id c)
            ++ " cannot require one Actor to occupy distinct physical entities"))
  else Ok tt.

Definition with_executor_constraints (c : CoordinationContext)
    (constraints : list DistinctPhysicalEntityConstraint) : Result CoordinationContext DomainError :=
  let? _u := try_for (executor_constraint_check c) constraints in
  if negb (distinct_count ((fun k => bset_iter (dpe_context_role_ids k)) <$> constraints)
             =? length constraints)%nat
  then Err (InvalidMissionPlan
         ("context " ++ as_str (cc_context_id c) ++ " contains duplicate executor constraints"))
  else Ok (MkContext (cc_context_id c) (cc_roles c) constraints (cc_relations c)
             (cc_coupling_mode c) (cc_shared_view c) (cc_peer_channel c)).
