(* ===== verification/RuntimeState.v ===== *)
(** * The state of the execution runtime

    The data of [core/runtime/src/execution/], [core/runtime/src/relation/mod.rs]
    and [core/runtime/src/coordination.rs]: execution attempts, dispatch intents,
    relations, peer channels, recovery purposes and the manager that owns them. *)

From S2P Require Import Prelude Identity Execution RelationSpec StateModel.

Open Scope string_scope.

(** ** Keys *)

(** [ExecutionSlot]: a logical Group/Task/Role that several attempts may occupy. *)
Abbreviation ExecutionSlot := (ExecutionGroupId * TaskRef * RoleId)%type.
Abbreviation RelationKey := (ExecutionGroupId * ExecutionRelationId)%type.
Abbreviation CoordinationKey := (ExecutionGroupId * CoordinationContextId)%type.

(** The slot a command addresses. *)
Definition cmd_slot (c : ExecutionCommand) : ExecutionSlot :=
  (cmd_group_id c, cmd_task_ref c, cmd_role_id c).

(** ** Execution attempts: [execution/mod.rs] *)

Inductive ExecutionStatus :=
| Dispatched | Accepted | Running | Completed | Failed | Cancelled | Unknown.

#[export] Instance ExecutionStatus_eq_dec : EqDecision ExecutionStatus.
Proof. solve_decision. Defined.

Definition is_terminal (s : ExecutionStatus) : bool :=
  match s with Completed | Failed | Cancelled => true | _ => false end.

Definition proves_activation (s : ExecutionStatus) : bool :=
  match s with Dispatched | Unknown => false | _ => true end.

Record DispatchIntent := MkDispatchIntent {
  di_execution_id : string;
  di_command : ExecutionCommand;
  di_resource_ids : list ResourceId;
  di_delivery_attempts : N;
  di_delivered : bool
}.

Definition command_id (i : DispatchIntent) : string := "dispatch-" ++ di_execution_id i.

Record ExecutionContext := MkExecutionContext {
  ctx_command : ExecutionCommand;
  ctx_resource_ids : list ResourceId
}.

Record ExecutionAttemptSnapshot := MkAttemptSnapshot {
  eas_execution_id : string;
  eas_command : ExecutionCommand;
  eas_status : ExecutionStatus
}.

Inductive ObservedTaskExecutionResult := ExecutionCompleted | ExecutionFailed.

#[export] Instance ObservedTaskExecutionResult_eq_dec : EqDecision ObservedTaskExecutionResult.
Proof. solve_decision. Defined.

Inductive DispatchDecision := Route | AlreadyRouted.

#[export] Instance DispatchDecision_eq_dec : EqDecision DispatchDecision.
Proof. solve_decision. Defined.

Inductive ExecutionRuntimeError :=
| ExecutionConflict (id : string)
| ReconciliationRequired (reason : string)
| NodeOwnership (reason : string)
| TerminalConflict (reason : string)
| InvalidCheckpoint (reason : string).

#[export] Instance ExecutionRuntimeError_eq_dec : EqDecision ExecutionRuntimeError.
Proof. solve_decision. Defined.

(** ** Relations: [relation/mod.rs] *)

Record SharedSpatialEvidence := MkSpatialEvidence {
  sse_group_id : ExecutionGroupId;
  sse_task_ref : TaskRef;
  sse_role_id : RoleId;
  sse_execution_id : string;
  sse_node_id : NodeId;
  sse_selector : MapRevisionSelector;
  sse_frame_id : string;
  sse_received_at : TimestampMs
}.

#[export] Instance SharedSpatialEvidence_eq_dec : EqDecision SharedSpatialEvidence.
Proof. solve_decision. Defined.

Definition sse_slot (e : SharedSpatialEvidence) : ExecutionSlot :=
  (sse_group_id e, sse_task_ref e, sse_role_id e).

Record RuntimeExecutionRelation := MkRelation {
  rel_group_id : ExecutionGroupId;
  rel_relation_id : ExecutionRelationId;
  rel_source_task_ref : TaskRef;
  rel_source_role_id : RoleId;
  rel_target_task_ref : TaskRef;
  rel_target_role_id : RoleId;
  rel_kind : ExecutionRelationKind;
  rel_relation_type : ExecutionRelationType;
  rel_coupling_mode : ExecutionCouplingMode
}.

#[export] Instance RuntimeExecutionRelation_eq_dec : EqDecision RuntimeExecutionRelation.
Proof. solve_decision. Defined.

Definition rel_key (r : RuntimeExecutionRelation) : RelationKey :=
  (rel_group_id r, rel_relation_id r).
Definition source_key (r : RuntimeExecutionRelation) : ExecutionSlot :=
  (rel_group_id r, rel_source_task_ref r, rel_source_role_id r).
Definition target_key (r : RuntimeExecutionRelation) : ExecutionSlot :=
  (rel_group_id r, rel_target_task_ref r, rel_target_role_id r).

Record RuntimeRelationSnapshot := MkRelationSnapshot {
  rss_relation : RuntimeExecutionRelation;
  rss_state : ExecutionRelationState;
  rss_reconciliation_required : bool;
  rss_source_execution_id : option string;
  rss_target_execution_id : option string
}.

(** ** Events: [execution/mod.rs] *)

Inductive ExecutionEvent :=
| TaskActivated (group_id : ExecutionGroupId) (task_ref : TaskRef)
| RoleCompleted (command : ExecutionCommand)
| RoleFailed (command : ExecutionCommand) (reason : string)
| RecoveryRequired (execution_id : string) (node_id : NodeId)
    (context : option ExecutionCommand) (reason : string)
| RelationRegistered (relation : RuntimeExecutionRelation)
| RelationStateChanged (relation : RuntimeExecutionRelation)
    (previous current : ExecutionRelationState)
    (source_execution_id target_execution_id : option string)
| RelationReconciliationRequired (relation : RuntimeExecutionRelation)
    (state : ExecutionRelationState)
    (source_execution_id target_execution_id : option string) (reason : string).

(** ** Coordination: [coordination.rs] *)

Inductive PeerChannelLifecycle := Planned | Ready | Fenced | Closed.

#[export] Instance PeerChannelLifecycle_eq_dec : EqDecision PeerChannelLifecycle.
Proof. solve_decision. Defined.

Record PeerChannelReadinessEvidence := MkReadiness {
  pre_group_id : ExecutionGroupId;
  pre_context_id : CoordinationContextId;
  pre_context_role_id : ContextRoleId;
  pre_node_id : NodeId;
  pre_local_system_id : LocalSystemId;
  pre_session_id : string;
  pre_channel_instance_id : string;
  pre_profile_id : string;
  pre_message_schema : string;
  pre_sequence : N;
  pre_received_at : TimestampMs;
  pre_expires_at : TimestampMs;
  pre_ready : bool
}.

#[export] Instance PeerChannelReadinessEvidence_eq_dec : EqDecision PeerChannelReadinessEvidence.
Proof. solve_decision. Defined.

Record RuntimePeerChannel := MkPeerChannel {
  pc_group_id : ExecutionGroupId;
  pc_context_id : CoordinationContextId;
  pc_peers : list ContextRoleId;
  pc_descriptor : PeerChannelSpec;
  pc_lifecycle : PeerChannelLifecycle;
  pc_readiness : list PeerChannelReadinessEvidence
}.

Definition pc_set_lifecycle (l : PeerChannelLifecycle) (c : RuntimePeerChannel) : RuntimePeerChannel :=
  MkPeerChannel (pc_group_id c) (pc_context_id c) (pc_peers c) (pc_descriptor c) l (pc_readiness c).
Definition pc_set_readiness (r : list PeerChannelReadinessEvidence) (c : RuntimePeerChannel)
  : RuntimePeerChannel :=
  MkPeerChannel (pc_group_id c) (pc_context_id c) (pc_peers c) (pc_descriptor c) (pc_lifecycle c) r.

Record RuntimeCoordinationContext := MkCoordinationContext {
  rcc_group_id : ExecutionGroupId;
  rcc_context_id : CoordinationContextId;
  rcc_coupling_mode : ExecutionCouplingMode;
  rcc_shared_view : option GroupSharedViewSpec;
  rcc_relation_count : N
}.

#[export] Instance RuntimeCoordinationContext_eq_dec : EqDecision RuntimeCoordinationContext.
Proof. solve_decision. Defined.

Inductive CoordinationReadiness :=
| CoordinationReady | WaitingForSharedView | WaitingForPeerChannel | WaitingForRelationEvidence.

#[export] Instance CoordinationReadiness_eq_dec : EqDecision CoordinationReadiness.
Proof. solve_decision. Defined.

(** ** Isolated recovery: [execution/recovery_stop.rs] *)

Record RecoveryStopIntent := MkRecoveryStop {
  rsi_execution_id : string;
  rsi_requested_at_ms : N;
  rsi_deadline_ms : N;
  rsi_timeout_ms : N;
  rsi_max_replacements : N;
  rsi_confirmed_at_ms : option N;
  rsi_release_authorized : bool;
  rsi_aborted : bool
}.

Definition rsi_set_aborted (i : RecoveryStopIntent) : RecoveryStopIntent :=
  MkRecoveryStop (rsi_execution_id i) (rsi_requested_at_ms i) (rsi_deadline_ms i)
    (rsi_timeout_ms i) (rsi_max_replacements i) (rsi_confirmed_at_ms i)
    (rsi_release_authorized i) true.
Definition rsi_set_confirmed (t : N) (i : RecoveryStopIntent) : RecoveryStopIntent :=
  MkRecoveryStop (rsi_execution_id i) (rsi_requested_at_ms i) (rsi_deadline_ms i)
    (rsi_timeout_ms i) (rsi_max_replacements i) (Some t)
    (rsi_release_authorized i) (rsi_aborted i).
Definition rsi_set_released (i : RecoveryStopIntent) : RecoveryStopIntent :=
  MkRecoveryStop (rsi_execution_id i) (rsi_requested_at_ms i) (rsi_deadline_ms i)
    (rsi_timeout_ms i) (rsi_max_replacements i) (rsi_confirmed_at_ms i) true (rsi_aborted i).

Inductive RecoveryStopDisposition :=
| NotRequested | AwaitingStop | StopConfirmed | ReplacementPending | BudgetExpired
| Aborted | Superseded | OriginalTerminal.

#[export] Instance RecoveryStopDisposition_eq_dec : EqDecision RecoveryStopDisposition.
Proof. solve_decision. Defined.

Record RecoveryBudget := MkRecoveryBudget {
  rb_slot : ExecutionSlot;
  rb_limit : N;
  rb_used : N
}.

(** ** Group recovery: [execution/group_recovery.rs] *)

Record GroupRecoveryMember := MkGroupMember {
  grm_execution_id : string;
  grm_expected_node_id : NodeId;
  grm_repeat_authorized : bool
}.

#[export] Instance GroupRecoveryMember_eq_dec : EqDecision GroupRecoveryMember.
Proof. solve_decision. Defined.

Record GroupRecoveryStopIntent := MkGroupRecovery {
  gri_recovery_id : string;
  gri_group_id : ExecutionGroupId;
  gri_members : list GroupRecoveryMember;
  gri_preserved_completed : gset string;
  gri_requested_at_ms : N;
  gri_deadline_ms : N;
  gri_timeout_ms : N;
  gri_max_replacements : N;
  gri_confirmed_at_ms : gmap string N;
  gri_replacements : gmap string string;
  gri_prepared_at_ms : option N;
  gri_admitted_at_ms : gmap string N;
  gri_aborted : bool
}.

Inductive GroupRecoveryDisposition :=
| GNotRequested | GAwaitingStop | GStopConfirmed | GContinuationPrepared | GContinued
| GOriginalCompleted | GOriginalFailed | GBudgetExpired | GAborted.

#[export] Instance GroupRecoveryDisposition_eq_dec : EqDecision GroupRecoveryDisposition.
Proof. solve_decision. Defined.

(** ** Progress: [execution/progress.rs] *)

Definition EXECUTION_PROGRESS_SCHEMA : string := "roboguide.execution-progress/v0.1".

Inductive OperationActivity := Working | Waiting | Blocked | ActivityUnavailable.

#[export] Instance OperationActivity_eq_dec : EqDecision OperationActivity.
Proof. solve_decision. Defined.

Record OperationProgressSample := MkProgressSample {
  ops_execution_id : string;
  ops_operation : OperationRef;
  ops_stage_epoch : N;
  ops_completed_units : option N;
  ops_activity : OperationActivity
}.

Record ProgressSource := MkProgressSource {
  ps_key : StateRecordKey;
  ps_source_epoch : option string;
  ps_sequence : N;
  ps_received_at : TimestampMs;
  ps_valid_for_ms : N
}.

Definition ProgressSource_from_record (r : StateRecord) : ProgressSource :=
  MkProgressSource (sr_key r) (sr_source_epoch r) (sr_sequence r) (sr_received_at r)
    (sr_valid_for_ms r).

Definition ProgressSource_is_stale_at (p : ProgressSource) (now : TimestampMs) : bool :=
  (u64_saturating_add (ps_received_at p) (ps_valid_for_ms p) <=? now)%N.

Record ProgressObservation := MkProgressObservation {
  po_sample : OperationProgressSample;
  po_record : ProgressSource;
  po_last_advanced_at : TimestampMs
}.

Inductive ProgressDisposition :=
| ProgressUnknown | ProgressWorking | ProgressWaiting | ProgressBlocked | ProgressStalled
| ProgressTerminal.

#[export] Instance ProgressDisposition_eq_dec : EqDecision ProgressDisposition.
Proof. solve_decision. Defined.

(** ** The manager: [execution/mod.rs] *)

Record RuntimeExecutionManager := MkManager {
  terminal_received_at : gmap string TimestampMs;
  group_recoveries : list GroupRecoveryStopIntent;
  recovery_stops : gmap string RecoveryStopIntent;
  recovery_budgets : gmap ExecutionSlot RecoveryBudget;
  progress : gmap string ProgressObservation;
  executions : gmap string ExecutionContext;
  execution_status : gmap string ExecutionStatus;
  execution_sequences : gmap string N;
  execution_nodes : gmap string NodeId;
  active_executions : gmap ExecutionSlot string;
  restored_executions : gset string;
  activated_tasks : gset (ExecutionGroupId * TaskRef);
  reactivation_attempts : gset string;
  relations : gmap RelationKey RuntimeExecutionRelation;
  relation_states : gmap RelationKey ExecutionRelationState;
  relation_fences : gset RelationKey;
  relation_proofs : gmap RelationKey string;
  coordination_contexts : gmap CoordinationKey RuntimeCoordinationContext;
  peer_channels : gmap CoordinationKey RuntimePeerChannel;
  spatial_evidence : gmap ExecutionSlot SharedSpatialEvidence;
  attempt_generations : gmap ExecutionSlot N;
  dispatch_outbox : gmap string DispatchIntent;
  cancellation_intents : gset string
}.

(** [RuntimeExecutionManager::new]. *)
Definition manager_new : RuntimeExecutionManager :=
  MkManager ∅ [] ∅ ∅ ∅ ∅ ∅ ∅ ∅ ∅ ∅ ∅ ∅ ∅ ∅ ∅ ∅ ∅ ∅ ∅ ∅ ∅ ∅.

(** Field updates. *)
Definition set_terminal_received_at (v : gmap string TimestampMs)
    (m : RuntimeExecutionManager) : RuntimeExecutionManager :=
  MkManager v (group_recoveries m) (recovery_stops m) (recovery_budgets m) (progress m)
    (executions m) (execution_status m) (execution_sequences m) (execution_nodes m)
    (active_executions m) (restored_executions m) (activated_tasks m) (reactivation_attempts m)
    (relations m) (relation_states m) (relation_fences m) (relation_proofs m)
    (coordination_contexts m) (peer_channels m) (spatial_evidence m) (attempt_generations m)
    (dispatch_outbox m) (cancellation_intents m).
Definition set_group_recoveries (v : list GroupRecoveryStopIntent)
    (m : RuntimeExecutionManager) : RuntimeExecutionManager :=
  MkManager (terminal_received_at m) v (recovery_stops m) (recovery_budgets m) (progress m)
    (executions m) (execution_status m) (execution_sequences m) (execution_nodes m)
    (active_executions m) (restored_executions m) (activated_tasks m) (reactivation_attempts m)
    (relations m) (relation_states m) (relation_fences m) (relation_proofs m)
    (coordination_contexts m) (peer_channels m) (spatial_evidence m) (attempt_generations m)
    (dispatch_outbox m) (cancellation_intents m).
Definition set_recovery_stops (v : gmap string RecoveryStopIntent)
    (m : RuntimeExecutionManager) : RuntimeExecutionManager :=
  MkManager (terminal_received_at m) (group_recoveries m) v (recovery_budgets m) (progress m)
    (executions m) (execution_status m) (execution_sequences m) (execution_nodes m)
    (active_executions m) (restored_executions m) (activated_tasks m) (reactivation_attempts m)
    (relations m) (relation_states m) (relation_fences m) (relation_proofs m)
    (coordination_contexts m) (peer_channels m) (spatial_evidence m) (attempt_generations m)
    (dispatch_outbox m) (cancellation_intents m).
Definition set_recovery_budgets (v : gmap ExecutionSlot RecoveryBudget)
    (m : RuntimeExecutionManager) : RuntimeExecutionManager :=
  MkManager (terminal_received_at m) (group_recoveries m) (recovery_stops m) v (progress m)
    (executions m) (execution_status m) (execution_sequences m) (execution_nodes m)
    (active_executions m) (restored_executions m) (activated_tasks m) (reactivation_attempts m)
    (relations m) (relation_states m) (relation_fences m) (relation_proofs m)
    (coordination_contexts m) (peer_channels m) (spatial_evidence m) (attempt_generations m)
    (dispatch_outbox m) (cancellation_intents m).
Definition set_progress (v : gmap string ProgressObservation)
    (m : RuntimeExecutionManager) : RuntimeExecutionManager :=
  MkManager (terminal_received_at m) (group_recoveries m) (recovery_stops m) (recovery_budgets
    m) v (executions m) (execution_status m) (execution_sequences m) (execution_nodes m)
    (active_executions m) (restored_executions m) (activated_tasks m) (reactivation_attempts m)
    (relations m) (relation_states m) (relation_fences m) (relation_proofs m)
    (coordination_contexts m) (peer_channels m) (spatial_evidence m) (attempt_generations m)
    (dispatch_outbox m) (cancellation_intents m).
Definition set_executions (v : gmap string ExecutionContext)
    (m : RuntimeExecutionManager) : RuntimeExecutionManager :=
  MkManager (terminal_received_at m) (group_recoveries m) (recovery_stops m) (recovery_budgets
    m) (progress m) v (execution_status m) (execution_sequences m) (execution_nodes m)
    (active_executions m) (restored_executions m) (activated_tasks m) (reactivation_attempts m)
    (relations m) (relation_states m) (relation_fences m) (relation_proofs m)
    (coordination_contexts m) (peer_channels m) (spatial_evidence m) (attempt_generations m)
    (dispatch_outbox m) (cancellation_intents m).
Definition set_execution_status (v : gmap string ExecutionStatus)
    (m : RuntimeExecutionManager) : RuntimeExecutionManager :=
  MkManager (terminal_received_at m) (group_recoveries m) (recovery_stops m) (recovery_budgets
    m) (progress m) (executions m) v (execution_sequences m) (execution_nodes m)
    (active_executions m) (restored_executions m) (activated_tasks m) (reactivation_attempts m)
    (relations m) (relation_states m) (relation_fences m) (relation_proofs m)
    (coordination_contexts m) (peer_channels m) (spatial_evidence m) (attempt_generations m)
    (dispatch_outbox m) (cancellation_intents m).
Definition set_execution_sequences (v : gmap string N)
    (m : RuntimeExecutionManager) : RuntimeExecutionManager :=
  MkManager (terminal_received_at m) (group_recoveries m) (recovery_stops m) (recovery_budgets
    m) (progress m) (executions m) (execution_status m) v (execution_nodes m) (active_executions
    m) (restored_executions m) (activated_tasks m) (reactivation_attempts m) (relations m)
    (relation_states m) (relation_fences m) (relation_proofs m) (coordination_contexts m)
    (peer_channels m) (spatial_evidence m) (attempt_generations m) (dispatch_outbox m)
    (cancellation_intents m).
Definition set_execution_nodes (v : gmap string NodeId)
    (m : RuntimeExecutionManager) : RuntimeExecutionManager :=
  MkManager (terminal_received_at m) (group_recoveries m) (recovery_stops m) (recovery_budgets
    m) (progress m) (executions m) (execution_status m) (execution_sequences m) v
    (active_executions m) (restored_executions m) (activated_tasks m) (reactivation_attempts m)
    (relations m) (relation_states m) (relation_fences m) (relation_proofs m)
    (coordination_contexts m) (peer_channels m) (spatial_evidence m) (attempt_generations m)
    (dispatch_outbox m) (cancellation_intents m).
Definition set_active_executions (v : gmap ExecutionSlot string)
    (m : RuntimeExecutionManager) : RuntimeExecutionManager :=
  MkManager (terminal_received_at m) (group_recoveries m) (recovery_stops m) (recovery_budgets
    m) (progress m) (executions m) (execution_status m) (execution_sequences m) (execution_nodes
    m) v (restored_executions m) (activated_tasks m) (reactivation_attempts m) (relations m)
    (relation_states m) (relation_fences m) (relation_proofs m) (coordination_contexts m)
    (peer_channels m) (spatial_evidence m) (attempt_generations m) (dispatch_outbox m)
    (cancellation_intents m).
Definition set_restored_executions (v : gset string)
    (m : RuntimeExecutionManager) : RuntimeExecutionManager :=
  MkManager (terminal_received_at m) (group_recoveries m) (recovery_stops m) (recovery_budgets
    m) (progress m) (executions m) (execution_status m) (execution_sequences m) (execution_nodes
    m) (active_executions m) v (activated_tasks m) (reactivation_attempts m) (relations m)
    (relation_states m) (relation_fences m) (relation_proofs m) (coordination_contexts m)
    (peer_channels m) (spatial_evidence m) (attempt_generations m) (dispatch_outbox m)
    (cancellation_intents m).
Definition set_activated_tasks (v : gset (ExecutionGroupId * TaskRef))
    (m : RuntimeExecutionManager) : RuntimeExecutionManager :=
  MkManager (terminal_received_at m) (group_recoveries m) (recovery_stops m) (recovery_budgets
    m) (progress m) (executions m) (execution_status m) (execution_sequences m) (execution_nodes
    m) (active_executions m) (restored_executions m) v (reactivation_attempts m) (relations m)
    (relation_states m) (relation_fences m) (relation_proofs m) (coordination_contexts m)
    (peer_channels m) (spatial_evidence m) (attempt_generations m) (dispatch_outbox m)
    (cancellation_intents m).
Definition set_reactivation_attempts (v : gset string)
    (m : RuntimeExecutionManager) : RuntimeExecutionManager :=
  MkManager (terminal_received_at m) (group_recoveries m) (recovery_stops m) (recovery_budgets
    m) (progress m) (executions m) (execution_status m) (execution_sequences m) (execution_nodes
    m) (active_executions m) (restored_executions m) (activated_tasks m) v (relations m)
    (relation_states m) (relation_fences m) (relation_proofs m) (coordination_contexts m)
    (peer_channels m) (spatial_evidence m) (attempt_generations m) (dispatch_outbox m)
    (cancellation_intents m).
Definition set_relations (v : gmap RelationKey RuntimeExecutionRelation)
    (m : RuntimeExecutionManager) : RuntimeExecutionManager :=
  MkManager (terminal_received_at m) (group_recoveries m) (recovery_stops m) (recovery_budgets
    m) (progress m) (executions m) (execution_status m) (execution_sequences m) (execution_nodes
    m) (active_executions m) (restored_executions m) (activated_tasks m) (reactivation_attempts
    m) v (relation_states m) (relation_fences m) (relation_proofs m) (coordination_contexts m)
    (peer_channels m) (spatial_evidence m) (attempt_generations m) (dispatch_outbox m)
    (cancellation_intents m).
Definition set_relation_states (v : gmap RelationKey ExecutionRelationState)
    (m : RuntimeExecutionManager) : RuntimeExecutionManager :=
  MkManager (terminal_received_at m) (group_recoveries m) (recovery_stops m) (recovery_budgets
    m) (progress m) (executions m) (execution_status m) (execution_sequences m) (execution_nodes
    m) (active_executions m) (restored_executions m) (activated_tasks m) (reactivation_attempts
    m) (relations m) v (relation_fences m) (relation_proofs m) (coordination_contexts m)
    (peer_channels m) (spatial_evidence m) (attempt_generations m) (dispatch_outbox m)
    (cancellation_intents m).
Definition set_relation_fences (v : gset RelationKey)
    (m : RuntimeExecutionManager) : RuntimeExecutionManager :=
  MkManager (terminal_received_at m) (group_recoveries m) (recovery_stops m) (recovery_budgets
    m) (progress m) (executions m) (execution_status m) (execution_sequences m) (execution_nodes
    m) (active_executions m) (restored_executions m) (activated_tasks m) (reactivation_attempts
    m) (relations m) (relation_states m) v (relation_proofs m) (coordination_contexts m)
    (peer_channels m) (spatial_evidence m) (attempt_generations m) (dispatch_outbox m)
    (cancellation_intents m).
Definition set_relation_proofs (v : gmap RelationKey string)
    (m : RuntimeExecutionManager) : RuntimeExecutionManager :=
  MkManager (terminal_received_at m) (group_recoveries m) (recovery_stops m) (recovery_budgets
    m) (progress m) (executions m) (execution_status m) (execution_sequences m) (execution_nodes
    m) (active_executions m) (restored_executions m) (activated_tasks m) (reactivation_attempts
    m) (relations m) (relation_states m) (relation_fences m) v (coordination_contexts m)
    (peer_channels m) (spatial_evidence m) (attempt_generations m) (dispatch_outbox m)
    (cancellation_intents m).
Definition set_coordination_contexts (v : gmap CoordinationKey RuntimeCoordinationContext)
    (m : RuntimeExecutionManager) : RuntimeExecutionManager :=
  MkManager (terminal_received_at m) (group_recoveries m) (recovery_stops m) (recovery_budgets
    m) (progress m) (executions m) (execution_status m) (execution_sequences m) (execution_nodes
    m) (active_executions m) (restored_executions m) (activated_tasks m) (reactivation_attempts
    m) (relations m) (relation_states m) (relation_fences m) (relation_proofs m) v
    (peer_channels m) (spatial_evidence m) (attempt_generations m) (dispatch_outbox m)
    (cancellation_intents m).
Definition set_peer_channels (v : gmap CoordinationKey RuntimePeerChannel)
    (m : RuntimeExecutionManager) : RuntimeExecutionManager :=
  MkManager (terminal_received_at m) (group_recoveries m) (recovery_stops m) (recovery_budgets
    m) (progress m) (executions m) (execution_status m) (execution_sequences m) (execution_nodes
    m) (active_executions m) (restored_executions m) (activated_tasks m) (reactivation_attempts
    m) (relations m) (relation_states m) (relation_fences m) (relation_proofs m)
    (coordination_contexts m) v (spatial_evidence m) (attempt_generations m) (dispatch_outbox m)
    (cancellation_intents m).
Definition set_spatial_evidence (v : gmap ExecutionSlot SharedSpatialEvidence)
    (m : RuntimeExecutionManager) : RuntimeExecutionManager :=
  MkManager (terminal_received_at m) (group_recoveries m) (recovery_stops m) (recovery_budgets
    m) (progress m) (executions m) (execution_status m) (execution_sequences m) (execution_nodes
    m) (active_executions m) (restored_executions m) (activated_tasks m) (reactivation_attempts
    m) (relations m) (relation_states m) (relation_fences m) (relation_proofs m)
    (coordination_contexts m) (peer_channels m) v (attempt_generations m) (dispatch_outbox m)
    (cancellation_intents m).
Definition set_attempt_generations (v : gmap ExecutionSlot N)
    (m : RuntimeExecutionManager) : RuntimeExecutionManager :=
  MkManager (terminal_received_at m) (group_recoveries m) (recovery_stops m) (recovery_budgets
    m) (progress m) (executions m) (execution_status m) (execution_sequences m) (execution_nodes
    m) (active_executions m) (restored_executions m) (activated_tasks m) (reactivation_attempts
    m) (relations m) (relation_states m) (relation_fences m) (relation_proofs m)
    (coordination_contexts m) (peer_channels m) (spatial_evidence m) v (dispatch_outbox m)
    (cancellation_intents m).
Definition set_dispatch_outbox (v : gmap string DispatchIntent)
    (m : RuntimeExecutionManager) : RuntimeExecutionManager :=
  MkManager (terminal_received_at m) (group_recoveries m) (recovery_stops m) (recovery_budgets
    m) (progress m) (executions m) (execution_status m) (execution_sequences m) (execution_nodes
    m) (active_executions m) (restored_executions m) (activated_tasks m) (reactivation_attempts
    m) (relations m) (relation_states m) (relation_fences m) (relation_proofs m)
    (coordination_contexts m) (peer_channels m) (spatial_evidence m) (attempt_generations m) v
    (cancellation_intents m).
Definition set_cancellation_intents (v : gset string)
    (m : RuntimeExecutionManager) : RuntimeExecutionManager :=
  MkManager (terminal_received_at m) (group_recoveries m) (recovery_stops m) (recovery_budgets
    m) (progress m) (executions m) (execution_status m) (execution_sequences m) (execution_nodes
    m) (active_executions m) (restored_executions m) (activated_tasks m) (reactivation_attempts
    m) (relations m) (relation_states m) (relation_fences m) (relation_proofs m)
    (coordination_contexts m) (peer_channels m) (spatial_evidence m) (attempt_generations m)
    (dispatch_outbox m) v.
