(* ===== verification/Relation.v ===== *)
(** * Execution relations

    [core/runtime/src/relation/manager.rs]: registration of the mission's
    relations, the reduction of endpoint facts to a relation state, the latched
    reconciliation fences and satisfaction proofs, and the checks of the restored
    relation maps. *)

From S2P Require Import Prelude Identity Execution RelationSpec StateModel RuntimeState.

Open Scope string_scope.

(** A mutating method returns the new state beside its result: the mutations
    before an early return stay. *)
Abbreviation Step A := (RuntimeExecutionManager * Result A ExecutionRuntimeError)%type.

(** ** State of a relation *)

(** Status of the attempt occupying a slot. *)
Definition current_status (m : RuntimeExecutionManager) (slot : ExecutionSlot)
  : option ExecutionStatus :=
  active_executions m !! slot ≫= fun execution_id => execution_status m !! execution_id.

(** Evidence counts only for the current attempt and its physical owner. *)
Definition current_spatial_evidence (m : RuntimeExecutionManager) (slot : ExecutionSlot)
  : option SharedSpatialEvidence :=
  evidence ← spatial_evidence m !! slot;
  execution_id ← active_executions m !! slot;
  if bool_decide (execution_id = sse_execution_id evidence)
     && bool_decide (execution_nodes m !! execution_id = Some (sse_node_id evidence))
  then Some evidence else None.

Definition shared_spatial_evidence (m : RuntimeExecutionManager) (group_id : ExecutionGroupId)
    (task_ref : TaskRef) (role_id : RoleId) : option SharedSpatialEvidence :=
  current_spatial_evidence m (group_id, task_ref, role_id).

Definition shared_spatial_evidence_targets_current_attempt (m : RuntimeExecutionManager)
    (e : SharedSpatialEvidence) : bool :=
  bool_decide (active_executions m !! sse_slot e = Some (sse_execution_id e))
  && bool_decide (execution_nodes m !! sse_execution_id e = Some (sse_node_id e)).

Definition missing_spatial_evidence_state (m : RuntimeExecutionManager)
    (r : RuntimeExecutionRelation) : ExecutionRelationState :=
  if contains_key (rel_key r) (relation_proofs m) then RelUnknown else Pending.

(** The branch of [derive_relation_state] for a target that is active. *)
Definition derive_requires_active (m : RuntimeExecutionManager) (r : RuntimeExecutionRelation)
  : ExecutionRelationState :=
  match current_status m (source_key r) with
  | Some (Accepted | Running) => Satisfied
  | Some Unknown => RelUnknown
  | Some (Completed | Failed | Cancelled) => Violated
  | Some Dispatched | None => Pending
  end.

Definition derive_shared_spatial (m : RuntimeExecutionManager) (r : RuntimeExecutionRelation)
  : ExecutionRelationState :=
  match current_status m (source_key r) with
  | Some Unknown => RelUnknown
  | Some (Completed | Failed | Cancelled) => Violated
  | Some Dispatched | None => missing_spatial_evidence_state m r
  | Some (Accepted | Running) =>
      match rel_relation_type r with
      | TSharedSpatialReference reference =>
          match current_spatial_evidence m (source_key r) with
          | None => missing_spatial_evidence_state m r
          | Some source =>
              match current_spatial_evidence m (target_key r) with
              | None => missing_spatial_evidence_state m r
              | Some target =>
                  if negb (bool_decide (sse_selector source = ssr_selector reference))
                     || negb (bool_decide (sse_selector target = ssr_selector reference))
                     || negb (sse_frame_id source =? ssr_frame_id reference)%string
                     || negb (sse_frame_id target =? ssr_frame_id reference)%string
                  then Violated else Satisfied
              end
          end
      | _ => RelUnknown
      end
  end.

Definition derive_relation_state (m : RuntimeExecutionManager) (r : RuntimeExecutionRelation)
  : ExecutionRelationState :=
  match current_status m (target_key r) with
  | Some Unknown => RelUnknown
  | Some Completed =>
      if is_some_and (fun id => bool_decide (relation_proofs m !! rel_key r = Some id))
           (active_executions m !! target_key r)
      then Dormant else RelUnknown
  | Some (Failed | Cancelled) => Dormant
  | Some Dispatched | None => Dormant
  | Some (Accepted | Running) =>
      match rel_kind r with
      | RequiresActive => derive_requires_active m r
      | SharedSpatialReferenceKind => derive_shared_spatial m r
      | GroupMemberState | RelativePose | RelativeDistance | StateRequirement
      | FreshnessRequirement => RelUnknown
      end
  end.

(** The last arm is the [unreachable!] of the source: only [Violated] and
    [Unknown] request reconciliation. *)
Definition relation_reconciliation_reason (r : RuntimeExecutionRelation)
    (state : ExecutionRelationState) : string :=
  match rel_kind r, state with
  | RequiresActive, Violated =>
      "required source execution is terminal while target remains active"
  | SharedSpatialReferenceKind, Violated =>
      "current endpoint localization evidence differs from the required shared spatial reference"
  | SharedSpatialReferenceKind, RelUnknown =>
      "current endpoint localization evidence cannot prove the required shared spatial reference"
  | _, RelUnknown => "execution relation cannot prove current physical coordination"
  | _, Violated => "execution relation evidence violates its typed requirement"
  | _, _ => "only violation states request reconciliation"
  end.

(** ** Refreshing relations *)

(** [refresh_relation]; its key comes from the registry, so the [None] arm is the
    [expect] that cannot fail. *)
Definition refresh_relation (m : RuntimeExecutionManager) (key : RelationKey)
  : RuntimeExecutionManager * list ExecutionEvent :=
  match relations m !! key with
  | None => (m, [])
  | Some relation =>
      let current := derive_relation_state m relation in
      let previous := default Dormant (relation_states m !! key) in
      let source_execution_id := active_executions m !! source_key relation in
      let target_execution_id := active_executions m !! target_key relation in
      let m1 :=
        if bool_decide (current = Satisfied) then
          match target_execution_id with
          | Some id => set_relation_proofs (<[key := id]> (relation_proofs m)) m
          | None => m
          end
        else if requires_reconciliation current
        then set_relation_fences ({[key]} ∪ relation_fences m) m
        else m in
      let m2 := set_relation_states (<[key := current]> (relation_states m1)) m1 in
      if bool_decide (current = previous) then (m2, [])
      else
        (m2,
         RelationStateChanged relation previous current source_execution_id target_execution_id
         :: (if requires_reconciliation current
             then [RelationReconciliationRequired relation current source_execution_id
                     target_execution_id (relation_reconciliation_reason relation current)]
             else []))
  end.

(** [keys.into_iter().flat_map(|key| self.refresh_relation(&key))]. *)
Fixpoint refresh_keys (m : RuntimeExecutionManager) (keys : list RelationKey)
  : RuntimeExecutionManager * list ExecutionEvent :=
  match keys with
  | [] => (m, [])
  | key :: keys' =>
      let '(m1, ev1) := refresh_relation m key in
      let '(m2, ev2) := refresh_keys m1 keys' in
      (m2, ev1 ++ ev2)%list
  end.

Definition touches_slot (slot : ExecutionSlot) (r : RuntimeExecutionRelation) : bool :=
  bool_decide (source_key r = slot) || bool_decide (target_key r = slot).

Definition refresh_relations_for_slot (m : RuntimeExecutionManager) (slot : ExecutionSlot)
  : RuntimeExecutionManager * list ExecutionEvent :=
  refresh_keys m
    (fst <$> List.filter (fun kr => touches_slot slot kr.2) (btree_iter (relations m))).

Definition refresh_all_relations_after_restore (m : RuntimeExecutionManager)
  : RuntimeExecutionManager :=
  (refresh_keys m (btree_keys (relations m))).1.

(** ** Evidence *)

Definition observe_shared_spatial_evidence (m : RuntimeExecutionManager)
    (e : SharedSpatialEvidence) : Step (list ExecutionEvent) :=
  let slot := sse_slot e in
  if negb (bool_decide (active_executions m !! slot = Some (sse_execution_id e)))
  then (m, Err (ReconciliationRequired
         "localization evidence does not belong to the current execution attempt")) else
  if negb (bool_decide (execution_nodes m !! sse_execution_id e = Some (sse_node_id e)))
  then (m, Err (NodeOwnership "localization evidence node differs from execution owner")) else
  let accept :=
    let m1 := set_spatial_evidence (<[slot := e]> (spatial_evidence m)) m in
    let '(m2, events) := refresh_relations_for_slot m1 slot in (m2, Ok events) in
  match spatial_evidence m !! slot with
  | Some current =>
      if (sse_received_at e <? sse_received_at current)%N
      then (m, Err (ReconciliationRequired
             "older localization evidence cannot replace current evidence"))
      else if (sse_received_at e =? sse_received_at current)%N
      then if bool_decide (current = e) then (m, Ok [])
           else (m, Err (ExecutionConflict (sse_execution_id e)))
      else accept
  | None => accept
  end.

(** ** Registration *)

Definition relation_of_spec (group_id : ExecutionGroupId) (mission_id : MissionId)
    (task_modes : gmap TaskId ExecutionCouplingMode) (s : ExecutionRelationSpec)
  : RuntimeExecutionRelation :=
  MkRelation group_id (rs_relation_id s)
    (MkTaskRef mission_id (per_task_id (rs_source s))) (per_role_id (rs_source s))
    (MkTaskRef mission_id (per_task_id (rs_target s))) (per_role_id (rs_target s))
    (rs_kind s) (rs_relation_type s)
    (default Independent (task_modes !! per_task_id (rs_target s))).

Fixpoint register_loop (m : RuntimeExecutionManager) (group_id : ExecutionGroupId)
    (relations_in : list RuntimeExecutionRelation) (events : list ExecutionEvent)
  : Step (list ExecutionEvent) :=
  match relations_in with
  | [] => (m, Ok events)
  | relation :: rest =>
      let key := rel_key relation in
      match relations m !! key with
      | Some existing =>
          if negb (bool_decide (existing = relation))
          then (m, Err (ExecutionConflict
                 ("relation " ++ as_str (rel_relation_id relation)
                    ++ " in Group " ++ as_str group_id)))
          else register_loop m group_id rest events
      | None =>
          let m1 := set_relations (<[key := relation]> (relations m)) m in
          let m2 := set_relation_states (<[key := Dormant]> (relation_states m1)) m1 in
          register_loop m2 group_id rest (events ++ [RelationRegistered relation])%list
      end
  end.

Definition register_relations_with_modes (m : RuntimeExecutionManager)
    (group_id : ExecutionGroupId) (mission_id : MissionId)
    (specifications : list ExecutionRelationSpec)
    (task_modes : gmap TaskId ExecutionCouplingMode) : Step (list ExecutionEvent) :=
  register_loop m group_id (relation_of_spec group_id mission_id task_modes <$> specifications) [].

Definition register_relations (m : RuntimeExecutionManager) (group_id : ExecutionGroupId)
    (mission_id : MissionId) (specifications : list ExecutionRelationSpec)
  : Step (list ExecutionEvent) :=
  register_relations_with_modes m group_id mission_id specifications ∅.

Definition relation_snapshots (m : RuntimeExecutionManager) (group_id : ExecutionGroupId)
  : list RuntimeRelationSnapshot :=
  (fun kr => MkRelationSnapshot kr.2
     (default Dormant (relation_states m !! kr.1))
     (set_contains kr.1 (relation_fences m))
     (active_executions m !! source_key kr.2)
     (active_executions m !! target_key kr.2))
  <$> List.filter (fun kr : RelationKey * _ => bool_decide (kr.1.1 = group_id))
        (btree_iter (relations m)).

Definition acknowledge_relation_reconciliation (m : RuntimeExecutionManager)
    (group_id : ExecutionGroupId) (relation_id : ExecutionRelationId) : Step unit :=
  let key := (group_id, relation_id) in
  match relations m !! key with
  | None => (m, Err (ReconciliationRequired
      ("unknown execution relation " ++ as_str relation_id ++ " in Group " ++ as_str group_id)))
  | Some relation =>
      if negb (bool_decide (derive_relation_state m relation = Satisfied))
      then (m, Err (ReconciliationRequired
             ("execution relation " ++ as_str relation_id ++ " is not satisfied")))
      else (set_relation_fences (relation_fences m ∖ {[key]}) m, Ok tt)
  end.

(** The restored relations of a Group are exactly those of its plan. *)
Definition validate_relations_with_modes (m : RuntimeExecutionManager)
    (group_id : ExecutionGroupId) (mission_id : MissionId)
    (specifications : list ExecutionRelationSpec)
    (task_modes : gmap TaskId ExecutionCouplingMode) : Result unit ExecutionRuntimeError :=
  let expected : gmap RelationKey RuntimeExecutionRelation :=
    foldl (fun acc r => <[rel_key r := r]> acc) ∅
      (relation_of_spec group_id mission_id task_modes <$> specifications) in
  let actual := filter (fun kr : RelationKey * RuntimeExecutionRelation => kr.1.1 = group_id)
                  (relations m) in
  if negb (bool_decide (expected = actual))
  then Err (InvalidCheckpoint ("Runtime relations differ from Mission " ++ as_str mission_id))
  else Ok tt.

Definition validate_relations (m : RuntimeExecutionManager) (group_id : ExecutionGroupId)
    (mission_id : MissionId) (specifications : list ExecutionRelationSpec)
  : Result unit ExecutionRuntimeError :=
  validate_relations_with_modes m group_id mission_id specifications ∅.

(** Every relation constraining the Task permits its success. *)
Definition relations_allow_task_success (m : RuntimeExecutionManager)
    (group_id : ExecutionGroupId) (task_ref : TaskRef) : bool :=
  forallb (fun kr : RelationKey * RuntimeExecutionRelation =>
    if negb (bool_decide (rel_group_id kr.2 = group_id))
       || negb (bool_decide (rel_target_task_ref kr.2 = task_ref))
    then true
    else match active_executions m !! target_key kr.2 with
         | None => false
         | Some target_execution_id =>
             negb (set_contains kr.1 (relation_fences m))
             && bool_decide (relation_proofs m !! kr.1 = Some target_execution_id)
         end) (btree_iter (relations m)).

(** ** Restoring the relation maps *)

Record RelationStateCheckpoint := MkRelationStateCheckpoint {
  rsc_group_id : ExecutionGroupId;
  rsc_relation_id : ExecutionRelationId;
  rsc_state : ExecutionRelationState
}.
Record RelationFenceCheckpoint := MkRelationFenceCheckpoint {
  rfc_group_id : ExecutionGroupId;
  rfc_relation_id : ExecutionRelationId
}.
Record RelationProofCheckpoint := MkRelationProofCheckpoint {
  rpc_group_id : ExecutionGroupId;
  rpc_relation_id : ExecutionRelationId;
  rpc_target_execution_id : string
}.

Definition check_restored_relation (r : RuntimeExecutionRelation)
  : Result unit ExecutionRuntimeError :=
  if negb (bool_decide (tr_mission_id (rel_source_task_ref r)
                        = tr_mission_id (rel_target_task_ref r)))
  then Err (InvalidCheckpoint "relation endpoints belong to different Missions") else
  if negb (bool_decide (rel_kind r = relation_type_kind (rel_relation_type r)))
  then Err (InvalidCheckpoint "checkpoint relation kind disagrees with typed relation") else
  match ExecutionRelationSpec_new_typed (rel_relation_id r)
          (MkPlannedRef (tr_task_id (rel_source_task_ref r)) (rel_source_role_id r))
          (MkPlannedRef (tr_task_id (rel_target_task_ref r)) (rel_target_role_id r))
          (rel_relation_type r) with
  | Ok _ => Ok tt
  | Err error => Err (InvalidCheckpoint
      ("checkpoint relation contract is invalid: " ++ DomainError_to_string error))
  end.

Fixpoint restore_relation_map (acc : gmap RelationKey RuntimeExecutionRelation)
    (l : list RuntimeExecutionRelation)
  : Result (gmap RelationKey RuntimeExecutionRelation) ExecutionRuntimeError :=
  match l with
  | [] => Ok acc
  | r :: l' =>
      let? _c := check_restored_relation r in
      if contains_key (rel_key r) acc
      then Err (InvalidCheckpoint "checkpoint contains duplicate execution relation")
      else restore_relation_map (<[rel_key r := r]> acc) l'
  end.

Fixpoint restore_relation_states (rels : gmap RelationKey RuntimeExecutionRelation)
    (acc : gmap RelationKey ExecutionRelationState) (l : list RelationStateCheckpoint)
  : Result (gmap RelationKey ExecutionRelationState) ExecutionRuntimeError :=
  match l with
  | [] => Ok acc
  | s :: l' =>
      let key := (rsc_group_id s, rsc_relation_id s) in
      if negb (contains_key key rels) || contains_key key acc
      then Err (InvalidCheckpoint "checkpoint contains duplicate or orphan relation state")
      else restore_relation_states rels (<[key := rsc_state s]> acc) l'
  end.

Fixpoint restore_relation_fences (rels : gmap RelationKey RuntimeExecutionRelation)
    (acc : gset RelationKey) (l : list RelationFenceCheckpoint)
  : Result (gset RelationKey) ExecutionRuntimeError :=
  match l with
  | [] => Ok acc
  | f :: l' =>
      let key := (rfc_group_id f, rfc_relation_id f) in
      if negb (contains_key key rels) || set_contains key acc
      then Err (InvalidCheckpoint "checkpoint contains duplicate or orphan relation fence")
      else restore_relation_fences rels ({[key]} ∪ acc) l'
  end.

Fixpoint restore_relation_proofs (rels : gmap RelationKey RuntimeExecutionRelation)
    (acc : gmap RelationKey string) (l : list RelationProofCheckpoint)
  : Result (gmap RelationKey string) ExecutionRuntimeError :=
  match l with
  | [] => Ok acc
  | p :: l' =>
      let key := (rpc_group_id p, rpc_relation_id p) in
      if negb (contains_key key rels) || is_blank (rpc_target_execution_id p)
         || contains_key key acc
      then Err (InvalidCheckpoint "checkpoint contains invalid relation satisfaction proof")
      else restore_relation_proofs rels (<[key := rpc_target_execution_id p]> acc) l'
  end.

Definition restore_relation_maps (rels : list RuntimeExecutionRelation)
    (states : list RelationStateCheckpoint) (fences : list RelationFenceCheckpoint)
    (proofs : list RelationProofCheckpoint)
  : Result (gmap RelationKey RuntimeExecutionRelation * gmap RelationKey ExecutionRelationState
            * gset RelationKey * gmap RelationKey string) ExecutionRuntimeError :=
  let? relation_map := restore_relation_map ∅ rels in
  let? state_map := restore_relation_states relation_map ∅ states in
  if negb (size state_map =? size relation_map)%nat
  then Err (InvalidCheckpoint "checkpoint relation state coverage is incomplete") else
  let? fence_set := restore_relation_fences relation_map ∅ fences in
  let? proof_map := restore_relation_proofs relation_map ∅ proofs in
  Ok (relation_map, state_map, fence_set, proof_map).
