(* ===== verification/Coordination.v ===== *)
(** * Coordination contexts and peer channels

    [core/runtime/src/coordination.rs]: registration of the mission's
    coordination contexts, readiness of the mechanisms a coupling mode needs,
    and the lifecycle of the direct peer channels. *)

From S2P Require Import Prelude Identity Execution RelationSpec StateModel RuntimeState.
From S2P Require Import Relation.

Open Scope string_scope.

(** ** Registration *)

Definition context_declaration (group_id : ExecutionGroupId) (c : CoordinationContext)
  : RuntimeCoordinationContext :=
  MkCoordinationContext group_id (cc_context_id c) (cc_coupling_mode c) (cc_shared_view c)
    (N.of_nat (length (cc_relations c))).

Definition context_peers (c : CoordinationContext) : list ContextRoleId :=
  sort_by cmp (cr_context_role_id <$> cc_roles c).

Definition context_channel (group_id : ExecutionGroupId) (c : CoordinationContext)
  : option RuntimePeerChannel :=
  (fun descriptor =>
     MkPeerChannel group_id (cc_context_id c) (context_peers c) descriptor Planned [])
  <$> cc_peer_channel c.

Definition in_group (context_id : CoordinationContextId) (group_id : ExecutionGroupId) : string :=
  as_str context_id ++ " in Group " ++ as_str group_id.

Definition register_coordination_context (m : RuntimeExecutionManager)
    (group_id : ExecutionGroupId) (c : CoordinationContext) : Step unit :=
  let key := (group_id, cc_context_id c) in
  let declaration := context_declaration group_id c in
  let channel := context_channel group_id c in
  match coordination_contexts m !! key with
  | Some existing =>
      if negb (bool_decide (existing = declaration))
      then (m, Err (ExecutionConflict
             ("coordination Context " ++ in_group (cc_context_id c) group_id)))
      else
        let channel_matches :=
          match peer_channels m !! key, channel with
          | None, None => true
          | Some existing, Some expected =>
              bool_decide (pc_descriptor existing = pc_descriptor expected)
              && bool_decide (pc_peers existing = pc_peers expected)
          | _, _ => false
          end in
        if negb channel_matches
        then (m, Err (ExecutionConflict ("peer channel " ++ in_group (cc_context_id c) group_id)))
        else (m, Ok tt)
  | None =>
      if contains_key key (peer_channels m)
      then (m, Err (ExecutionConflict
             ("orphan peer channel " ++ in_group (cc_context_id c) group_id)))
      else
        let m1 := set_coordination_contexts
                    (<[key := declaration]> (coordination_contexts m)) m in
        match channel with
        | Some channel => (set_peer_channels (<[key := channel]> (peer_channels m1)) m1, Ok tt)
        | None => (m1, Ok tt)
        end
  end.

(** The restored declarations of a Group are those of its plan; a checkpoint that
    predates the declarations holds none and is accepted for plans that declare
    no mechanism. *)
Definition validate_coordination_contexts (m : RuntimeExecutionManager)
    (group_id : ExecutionGroupId) (contexts : list CoordinationContext)
  : Result unit ExecutionRuntimeError :=
  let expected_contexts : gmap CoordinationKey RuntimeCoordinationContext :=
    foldl (fun acc c => <[(group_id, cc_context_id c) := context_declaration group_id c]> acc)
      ∅ contexts in
  let expected_channels : gmap CoordinationKey (list ContextRoleId * PeerChannelSpec) :=
    foldl (fun acc c =>
      match cc_peer_channel c with
      | Some descriptor => <[(group_id, cc_context_id c) := (context_peers c, descriptor)]> acc
      | None => acc
      end) ∅ contexts in
  let actual_contexts :=
    filter (fun kv : CoordinationKey * RuntimeCoordinationContext => kv.1.1 = group_id)
      (coordination_contexts m) in
  let actual_channels :=
    (fun ch => (pc_peers ch, pc_descriptor ch))
    <$> filter (fun kv : CoordinationKey * RuntimePeerChannel => kv.1.1 = group_id)
          (peer_channels m) in
  let legacy_default_contexts :=
    bool_decide (actual_contexts = ∅)
    && forallb (fun c => bool_decide (rcc_coupling_mode c = Independent)
                         && is_none (rcc_shared_view c)) (btree_values expected_contexts)
    && bool_decide (expected_channels = ∅) in
  if negb legacy_default_contexts
     && (negb (bool_decide (expected_contexts = actual_contexts))
         || negb (bool_decide (expected_channels = actual_channels)))
  then Err (InvalidCheckpoint
         ("Runtime coordination declarations differ for Group " ++ as_str group_id))
  else Ok tt.

(** ** Readiness of a coupling mode *)

Definition coordination_readiness_for_mode (m : RuntimeExecutionManager)
    (group_id : ExecutionGroupId) (context_id : CoordinationContextId)
    (mode : ExecutionCouplingMode) : option CoordinationReadiness :=
  let key := (group_id, context_id) in
  context ← coordination_contexts m !! key;
  if mode_requires mode GroupSharedState && is_none (rcc_shared_view context)
  then Some WaitingForSharedView else
  if mode_requires mode RelationEvidence && (rcc_relation_count context =? 0)%N
  then Some WaitingForRelationEvidence else
  if mode_requires mode DirectPeerChannel
     && is_none_or (fun ch => negb (bool_decide (pc_lifecycle ch = Ready)))
          (peer_channels m !! key)
  then Some WaitingForPeerChannel
  else Some CoordinationReady.

Definition coordination_readiness (m : RuntimeExecutionManager) (group_id : ExecutionGroupId)
    (context_id : CoordinationContextId) : option CoordinationReadiness :=
  context ← coordination_contexts m !! (group_id, context_id);
  coordination_readiness_for_mode m group_id context_id (rcc_coupling_mode context).

(** ** Channel evidence *)

(** A ready acknowledgement whose receive-relative deadline has passed. *)
Definition ack_expired (now : TimestampMs) (ack : PeerChannelReadinessEvidence) : bool :=
  pre_ready ack && (pre_expires_at ack <=? now)%N.

Definition expire_channel (now : TimestampMs) (c : RuntimePeerChannel) : RuntimePeerChannel :=
  if negb (bool_decide (pc_lifecycle c = Closed)) && existsb (ack_expired now) (pc_readiness c)
  then pc_set_lifecycle Fenced c else c.

Definition refresh_peer_channel_deadlines (m : RuntimeExecutionManager) (now : TimestampMs)
  : RuntimeExecutionManager :=
  set_peer_channels (expire_channel now <$> peer_channels m) m.

Definition without_role (role : ContextRoleId) (l : list PeerChannelReadinessEvidence)
  : list PeerChannelReadinessEvidence :=
  List.filter (fun ack => negb (bool_decide (pre_context_role_id ack = role))) l.

Definition fence_role (role : ContextRoleId) (c : RuntimePeerChannel) : RuntimePeerChannel :=
  pc_set_lifecycle Fenced (pc_set_readiness (without_role role (pc_readiness c)) c).

(** The acknowledgements after one from [evidence]'s role replaced its previous
    one, and the lifecycle they give. *)
Definition accept_readiness (evidence : PeerChannelReadinessEvidence) (c : RuntimePeerChannel)
  : RuntimePeerChannel :=
  let readiness :=
    sort_by (fun l r => cmp (pre_context_role_id l) (pre_context_role_id r))
      (without_role (pre_context_role_id evidence) (pc_readiness c) ++ [evidence])%list in
  let c1 := pc_set_readiness readiness c in
  if negb (pre_ready evidence) then pc_set_lifecycle Fenced c1 else
  let instances := distinct_count
    (pre_channel_instance_id <$> List.filter pre_ready readiness) in
  let all_ready := forallb (fun peer =>
      existsb (fun ack => bool_decide (pre_context_role_id ack = peer) && pre_ready ack
                          && (pre_received_at evidence <? pre_expires_at ack)%N) readiness)
    (pc_peers c) in
  pc_set_lifecycle
    (if all_ready && (instances =? 1)%nat then Ready
     else if (1 <? instances)%nat || bool_decide (pc_lifecycle c = Fenced) then Fenced
     else Planned) c1.

Definition observe_peer_channel_readiness (m0 : RuntimeExecutionManager)
    (evidence : PeerChannelReadinessEvidence) : Step unit :=
  let m := refresh_peer_channel_deadlines m0 (pre_received_at evidence) in
  if (pre_expires_at evidence <=? pre_received_at evidence)%N
  then (m, Err (ReconciliationRequired "peer readiness expiry must follow its receive time")) else
  let key := (pre_group_id evidence, pre_context_id evidence) in
  match peer_channels m !! key with
  | None => (m, Err (ReconciliationRequired
      ("unknown peer channel " ++ in_group (pre_context_id evidence) (pre_group_id evidence))))
  | Some channel =>
      let put c := (set_peer_channels (<[key := c]> (peer_channels m)) m, Ok tt) in
      if bool_decide (pc_lifecycle channel = Closed)
      then (m, Err (ReconciliationRequired
             "closed peer channel cannot accept readiness evidence")) else
      if negb (bool_decide (pre_context_role_id evidence ∈ pc_peers channel))
      then (m, Err (ReconciliationRequired
             "peer readiness references an undeclared ContextRole")) else
      if negb (pcs_profile_id (pc_descriptor channel) =? pre_profile_id evidence)%string
         || negb (pcs_message_schema (pc_descriptor channel)
                  =? pre_message_schema evidence)%string
      then put (fence_role (pre_context_role_id evidence) channel) else
      match List.find (fun ack => bool_decide
                         (pre_context_role_id ack = pre_context_role_id evidence))
              (pc_readiness channel) with
      | Some existing =>
          if (pre_session_id evidence =? pre_session_id existing)%string
          then
            if (pre_sequence evidence <? pre_sequence existing)%N
            then (m, Err (ReconciliationRequired
                   "older peer readiness acknowledgement cannot replace current evidence"))
            else if (pre_sequence evidence =? pre_sequence existing)%N
            then if bool_decide (existing = evidence) then (m, Ok tt)
                 else put (fence_role (pre_context_role_id evidence) channel)
            else put (accept_readiness evidence channel)
          else put (accept_readiness evidence channel)
      | None => put (accept_readiness evidence channel)
      end
  end.

(** ** Fencing and closing *)

Definition fence_channel_for_node (node_id : NodeId) (c : RuntimePeerChannel) : RuntimePeerChannel :=
  if existsb (fun ack => bool_decide (pre_node_id ack = node_id)) (pc_readiness c)
  then pc_set_readiness
         (List.filter (fun ack => negb (bool_decide (pre_node_id ack = node_id))) (pc_readiness c))
         (pc_set_lifecycle Fenced c)
  else c.

Definition fence_peer_channels_for_node (m : RuntimeExecutionManager) (node_id : NodeId)
  : RuntimeExecutionManager :=
  set_peer_channels (fence_channel_for_node node_id <$> peer_channels m) m.

Definition set_peer_channel_lifecycle (m : RuntimeExecutionManager) (group_id : ExecutionGroupId)
    (context_id : CoordinationContextId) (lifecycle : PeerChannelLifecycle) : Step unit :=
  let key := (group_id, context_id) in
  match peer_channels m !! key with
  | None => (m, Err (ReconciliationRequired ("unknown peer channel " ++ in_group context_id group_id)))
  | Some channel =>
      if bool_decide (pc_lifecycle channel = Closed) && negb (bool_decide (lifecycle = Closed))
      then (m, Err (ReconciliationRequired
             ("closed peer channel " ++ in_group context_id group_id ++ " cannot be reopened")))
      else (set_peer_channels (<[key := pc_set_lifecycle lifecycle channel]> (peer_channels m)) m,
            Ok tt)
  end.

Definition fence_peer_channel (m : RuntimeExecutionManager) (group_id : ExecutionGroupId)
    (context_id : CoordinationContextId) : Step unit :=
  set_peer_channel_lifecycle m group_id context_id Fenced.

Definition close_peer_channel (m : RuntimeExecutionManager) (group_id : ExecutionGroupId)
    (context_id : CoordinationContextId) : Step unit :=
  set_peer_channel_lifecycle m group_id context_id Closed.

Definition close_peer_channels_for_group (m : RuntimeExecutionManager)
    (group_id : ExecutionGroupId) : RuntimeExecutionManager :=
  set_peer_channels
    (map_imap (fun (k : CoordinationKey) c =>
       Some (if bool_decide (k.1 = group_id)
             then pc_set_readiness [] (pc_set_lifecycle Closed c) else c))
       (peer_channels m)) m.

Definition group_peer_channels (m : RuntimeExecutionManager) (group_id : ExecutionGroupId)
  : list RuntimePeerChannel :=
  List.filter (fun c => bool_decide (pc_group_id c = group_id)) (btree_values (peer_channels m)).

Definition peer_channels_at (m : RuntimeExecutionManager) (group_id : ExecutionGroupId)
    (now : TimestampMs) : list RuntimePeerChannel :=
  expire_channel now <$> group_peer_channels m group_id.

(** ** Restoring the coordination maps *)

Fixpoint restore_context_map (acc : gmap CoordinationKey RuntimeCoordinationContext)
    (l : list RuntimeCoordinationContext)
  : Result (gmap CoordinationKey RuntimeCoordinationContext) ExecutionRuntimeError :=
  match l with
  | [] => Ok acc
  | c :: l' =>
      let? _v := match rcc_shared_view c with
                 | Some view => result_map_err
                     (fun error => InvalidCheckpoint
                        ("checkpoint Group shared view is invalid: "
                           ++ DomainError_to_string error))
                     (GroupSharedViewSpec_validate view)
                 | None => Ok tt
                 end in
      let key := (rcc_group_id c, rcc_context_id c) in
      if contains_key key acc
      then Err (InvalidCheckpoint "checkpoint contains duplicate coordination Context")
      else restore_context_map (<[key := c]> acc) l'
  end.

Definition readiness_entry_valid (c : RuntimePeerChannel) (e : PeerChannelReadinessEvidence)
  : bool :=
  bool_decide (pre_group_id e = pc_group_id c)
  && bool_decide (pre_context_id e = pc_context_id c)
  && bool_decide (pre_context_role_id e ∈ pc_peers c)
  && (pre_profile_id e =? pcs_profile_id (pc_descriptor c))%string
  && (pre_message_schema e =? pcs_message_schema (pc_descriptor c))%string
  && negb (is_blank (as_str (pre_node_id e)))
  && negb (is_blank (as_str (pre_local_system_id e)))
  && negb (is_blank (pre_session_id e))
  && negb (is_blank (pre_channel_instance_id e))
  && (0 <? pre_sequence e)%N
  && (pre_received_at e <? pre_expires_at e)%N.

Definition readiness_valid (c : RuntimePeerChannel) : bool :=
  (distinct_count (pre_context_role_id <$> pc_readiness c) =? length (pc_readiness c))%nat
  && forallb (readiness_entry_valid c) (pc_readiness c).

Definition channel_valid (contexts : gmap CoordinationKey RuntimeCoordinationContext)
    (c : RuntimePeerChannel) : bool :=
  contains_key (pc_group_id c, pc_context_id c) contexts
  && negb (length (pc_peers c) <? 2)%nat
  && (distinct_count (pc_peers c) =? length (pc_peers c))%nat
  && negb (is_blank (pcs_profile_id (pc_descriptor c)))
  && negb (is_blank (pcs_message_schema (pc_descriptor c)))
  && readiness_valid c.

Fixpoint restore_channel_map (contexts : gmap CoordinationKey RuntimeCoordinationContext)
    (acc : gmap CoordinationKey RuntimePeerChannel) (l : list RuntimePeerChannel)
  : Result (gmap CoordinationKey RuntimePeerChannel) ExecutionRuntimeError :=
  match l with
  | [] => Ok acc
  | c :: l' =>
      let key := (pc_group_id c, pc_context_id c) in
      if negb (channel_valid contexts c) || contains_key key acc
      then Err (InvalidCheckpoint "checkpoint contains duplicate or orphan peer channel")
      else restore_channel_map contexts (<[key := c]> acc) l'
  end.

Definition restore_coordination_maps (contexts : list RuntimeCoordinationContext)
    (channels : list RuntimePeerChannel)
  : Result (gmap CoordinationKey RuntimeCoordinationContext
            * gmap CoordinationKey RuntimePeerChannel) ExecutionRuntimeError :=
  let? context_map := restore_context_map ∅ contexts in
  let? channel_map := restore_channel_map context_map ∅ channels in
  Ok (context_map, channel_map).
