(* ===== verification/Attempts.v ===== *)
(** * Attempt queries

    The read-only queries of [core/runtime/src/execution/dispatch.rs] and
    [observation.rs] on the attempts a manager retains. *)

From S2P Require Import Prelude Identity Execution RelationSpec StateModel RuntimeState.
From S2P Require Import Relation.

Open Scope string_scope.

(** [execution_status(id)]. *)
Definition status_of (m : RuntimeExecutionManager) (execution_id : string)
  : option ExecutionStatus := execution_status m !! execution_id.

(** [self.execution_status(id).is_some_and(ExecutionStatus::is_terminal)]. *)
Definition has_terminal_status (m : RuntimeExecutionManager) (execution_id : string) : bool :=
  is_some_and is_terminal (status_of m execution_id).

Definition current_attempt_id (m : RuntimeExecutionManager) (group_id : ExecutionGroupId)
    (task_ref : TaskRef) (role_id : RoleId) : option string :=
  active_executions m !! (group_id, task_ref, role_id).

(** The attempt occupying the slot a command addresses. *)
Definition current_attempt_of (m : RuntimeExecutionManager) (c : ExecutionCommand)
  : option string :=
  current_attempt_id m (cmd_group_id c) (cmd_task_ref c) (cmd_role_id c).

Definition current_attempt_generation (m : RuntimeExecutionManager)
    (group_id : ExecutionGroupId) (task_ref : TaskRef) (role_id : RoleId) : option N :=
  let slot := (group_id, task_ref, role_id) in
  if contains_key slot (active_executions m)
  then Some (default 1%N (attempt_generations m !! slot)) else None.

Definition allocated_attempt_generation (m : RuntimeExecutionManager)
    (group_id : ExecutionGroupId) (task_ref : TaskRef) (role_id : RoleId) : option N :=
  attempt_generations m !! (group_id, task_ref, role_id).

Definition cancellation_node (m : RuntimeExecutionManager) (execution_id : string)
  : option NodeId :=
  (fun ctx => cmd_node_id (ctx_command ctx)) <$> executions m !! execution_id.

Definition execution_resources (m : RuntimeExecutionManager) (execution_id : string)
  : option (list ResourceId) :=
  ctx_resource_ids <$> executions m !! execution_id.

Definition execution_command (m : RuntimeExecutionManager) (execution_id : string)
  : option ExecutionCommand :=
  ctx_command <$> executions m !! execution_id.

Definition current_execution_status (m : RuntimeExecutionManager)
    (group_id : ExecutionGroupId) (task_ref : TaskRef) (role_id : RoleId)
  : option ExecutionStatus :=
  current_status m (group_id, task_ref, role_id).

(** Current attempts of a Group with a known status, in slot order. *)
Definition active_attempts_for_group (m : RuntimeExecutionManager)
    (group_id : ExecutionGroupId) : list (string * ExecutionStatus) :=
  omap (fun kv : ExecutionSlot * string =>
          (fun status => (kv.2, status)) <$> execution_status m !! kv.2)
    (List.filter (fun kv : ExecutionSlot * string => bool_decide (kv.1.1.1 = group_id))
       (btree_iter (active_executions m))).

(** Every retained attempt of a Group, superseded ones included. *)
Definition attempts_for_group (m : RuntimeExecutionManager) (group_id : ExecutionGroupId)
  : list (string * ExecutionStatus) :=
  omap (fun kv : string * ExecutionContext =>
          (fun status => (kv.1, status)) <$> status_of m kv.1)
    (List.filter (fun kv : string * ExecutionContext =>
                    bool_decide (cmd_group_id (ctx_command kv.2) = group_id))
       (btree_iter (executions m))).

Definition current_attempt_matches_node (m : RuntimeExecutionManager)
    (group_id : ExecutionGroupId) (task_ref : TaskRef) (role_id : RoleId) (node_id : NodeId)
  : bool :=
  is_some_and (fun ctx => bool_decide (cmd_node_id (ctx_command ctx) = node_id))
    (current_attempt_id m group_id task_ref role_id ≫= fun id => executions m !! id).

Definition attempt_history (m : RuntimeExecutionManager) : list ExecutionAttemptSnapshot :=
  omap (fun kv : string * ExecutionContext =>
          (fun status => MkAttemptSnapshot kv.1 (ctx_command kv.2) status) <$> status_of m kv.1)
    (btree_iter (executions m)).

Definition current_unknown_attempts (m : RuntimeExecutionManager) : list ExecutionCommand :=
  omap (fun id => ctx_command <$> executions m !! id)
    (List.filter (fun id => bool_decide (status_of m id = Some Unknown))
       (btree_values (active_executions m))).

(** A recovery declaration must name the operation of its own command. *)
Definition recovery_support_mismatch (c : ExecutionCommand) : bool :=
  is_some_and (fun d => negb (bool_decide (ors_operation (ers_support d)
                                           = intent_operation (cmd_intent c))))
    (cmd_recovery_support c).

(** The declaration names the command's operation and isolates its Role. *)
Definition declares_role_retry (c : ExecutionCommand) : bool :=
  is_some_and (fun d => bool_decide (ors_operation (ers_support d)
                                     = intent_operation (cmd_intent c))
                        && supports_role_retry (ers_support d))
    (cmd_recovery_support c).

(** The set of ids of a Group's current attempts. *)
Definition active_attempt_ids (m : RuntimeExecutionManager) (group_id : ExecutionGroupId)
  : gset string := list_to_set (fst <$> active_attempts_for_group m group_id).

Lemma elem_of_active_attempt_ids m group_id id :
  id ∈ active_attempt_ids m group_id <->
  exists slot, active_executions m !! slot = Some id /\ slot.1.1 = group_id /\
               is_Some (execution_status m !! id).
Proof.
  unfold active_attempt_ids, active_attempts_for_group.
  rewrite elem_of_list_to_set, list_elem_of_fmap. split.
  - intros ([i st] & -> & ((slot & i') & Hin & Ho)%list_elem_of_omap). simpl in *.
    apply list_elem_of_In, filter_In in Hin as [Hin Hg]. bool_facts.
    apply list_elem_of_In, elem_of_btree_iter in Hin.
    destruct (execution_status m !! i') eqn:E; simplify_eq/=. eauto.
  - intros (slot & Ha & Hg & [st Hs]). exists (id, st). split; [done|].
    apply list_elem_of_omap. exists (slot, id). simpl. rewrite Hs. split; [|done].
    apply list_elem_of_In, filter_In. split.
    + by apply list_elem_of_In, elem_of_btree_iter.
    + by apply bool_decide_eq_true.
Qed.
