(* ===== verification/GroupRecovery.v ===== *)
(** * Exact-set Group recovery

    [core/runtime/src/execution/group_recovery.rs]: the authorization to stop the
    whole current set of a Group's attempts, the confirmation of every stop, the
    atomic publication of the replacement attempts and the checks of a restored
    history.  Functions that index the attempt map can panic and return an
    [option]. *)

From S2P Require Import Prelude Identity Execution Session StateModel RelationSpec RuntimeState Relation.
From S2P Require Import Attempts.

Open Scope string_scope.

Definition refused (reason : string) : ExecutionRuntimeError := ReconciliationRequired reason.

(** ** Field updates *)

Definition gri_set_aborted (i : GroupRecoveryStopIntent) : GroupRecoveryStopIntent :=
  MkGroupRecovery (gri_recovery_id i) (gri_group_id i) (gri_members i)
    (gri_preserved_completed i) (gri_requested_at_ms i) (gri_deadline_ms i) (gri_timeout_ms i)
    (gri_max_replacements i) (gri_confirmed_at_ms i) (gri_replacements i)
    (gri_prepared_at_ms i) (gri_admitted_at_ms i) true.
Definition gri_set_confirmed (c : gmap string N) (i : GroupRecoveryStopIntent)
  : GroupRecoveryStopIntent :=
  MkGroupRecovery (gri_recovery_id i) (gri_group_id i) (gri_members i)
    (gri_preserved_completed i) (gri_requested_at_ms i) (gri_deadline_ms i) (gri_timeout_ms i)
    (gri_max_replacements i) c (gri_replacements i)
    (gri_prepared_at_ms i) (gri_admitted_at_ms i) (gri_aborted i).
Definition gri_set_admitted (a : gmap string N) (i : GroupRecoveryStopIntent)
  : GroupRecoveryStopIntent :=
  MkGroupRecovery (gri_recovery_id i) (gri_group_id i) (gri_members i)
    (gri_preserved_completed i) (gri_requested_at_ms i) (gri_deadline_ms i) (gri_timeout_ms i)
    (gri_max_replacements i) (gri_confirmed_at_ms i) (gri_replacements i)
    (gri_prepared_at_ms i) a (gri_aborted i).
Definition gri_set_prepared (r : gmap string string) (t : N) (i : GroupRecoveryStopIntent)
  : GroupRecoveryStopIntent :=
  MkGroupRecovery (gri_recovery_id i) (gri_group_id i) (gri_members i)
    (gri_preserved_completed i) (gri_requested_at_ms i) (gri_deadline_ms i) (gri_timeout_ms i)
    (gri_max_replacements i) (gri_confirmed_at_ms i) r
    (Some t) (gri_admitted_at_ms i) (gri_aborted i).

(** ** Lookup *)

(** The latest intent of a Group. *)
Definition group_recovery (m : RuntimeExecutionManager) (group_id : ExecutionGroupId)
  : option GroupRecoveryStopIntent :=
  List.find (fun i => bool_decide (gri_group_id i = group_id)) (reverse (group_recoveries m)).

Definition group_recovery_by_id (m : RuntimeExecutionManager) (group_id : ExecutionGroupId)
    (recovery_id : string) : option GroupRecoveryStopIntent :=
  List.find (fun i => bool_decide (gri_group_id i = group_id)
                      && (gri_recovery_id i =? recovery_id)%string) (group_recoveries m).

Definition has_member (execution_id : string) (i : GroupRecoveryStopIntent) : bool :=
  existsb (fun member => (grm_execution_id member =? execution_id)%string) (gri_members i).

Definition has_replacement (execution_id : string) (i : GroupRecoveryStopIntent) : bool :=
  existsb (fun id => (id =? execution_id)%string) (btree_values (gri_replacements i)).

Definition group_recovery_for_attempt (m : RuntimeExecutionManager) (execution_id : string)
  : option GroupRecoveryStopIntent :=
  List.find (fun i => has_member execution_id i || has_replacement execution_id i)
    (reverse (group_recoveries m)).

(** ** Phase of a recovery *)

(** A terminal status that proves the original attempt stopped. *)
Definition stopped_status (s : option ExecutionStatus) : bool :=
  match s with Some (Cancelled | Completed) => true | _ => false end.

(** The member was complete before the authorization, or its stop was confirmed
    before the deadline and not after [now]. *)
Definition member_stop_confirmed (m : RuntimeExecutionManager) (i : GroupRecoveryStopIntent)
    (now : TimestampMs) (member : GroupRecoveryMember) : bool :=
  set_contains (grm_execution_id member) (gri_preserved_completed i)
  || (stopped_status (status_of m (grm_execution_id member))
      && is_some_and (fun time => (time <? gri_deadline_ms i)%N && (time <=? now)%N)
           (gri_confirmed_at_ms i !! grm_execution_id member)).

(** [self.executions[id].command]: panics when the attempt is absent. *)
Definition index_command (m : RuntimeExecutionManager) (execution_id : string)
  : option ExecutionCommand := ctx_command <$> executions m !! execution_id.

Definition group_recovery_disposition (m : RuntimeExecutionManager)
    (group_id : ExecutionGroupId) (now : TimestampMs) : option GroupRecoveryDisposition :=
  match group_recovery m group_id with
  | None => Some GNotRequested
  | Some intent =>
      if gri_aborted intent then Some GAborted else
      if negb (bool_decide (gri_replacements intent = ∅)) then
        if forallb (fun id =>
             is_some_and (fun time => (time <? gri_deadline_ms intent)%N && (time <=? now)%N)
               (gri_admitted_at_ms intent !! id)) (btree_values (gri_replacements intent))
        then Some GContinued
        else if (gri_deadline_ms intent <=? now)%N then Some GBudgetExpired
        else Some GContinuationPrepared
      else
      if existsb (fun member => bool_decide (status_of m (grm_execution_id member) = Some Failed))
           (gri_members intent)
      then Some GOriginalFailed else
      if forallb (fun member => bool_decide (status_of m (grm_execution_id member) = Some Completed))
           (gri_members intent)
      then Some GOriginalCompleted else
      if (gri_deadline_ms intent <=? now)%N then Some GBudgetExpired else
      confirmed ← all_opt (fun member =>
          command ← index_command m (grm_execution_id member);
          Some (bool_decide (current_attempt_of m command = Some (grm_execution_id member))
                && member_stop_confirmed m intent now member)) (gri_members intent);
      Some (if (confirmed : bool) then GStopConfirmed else GAwaitingStop)
  end.

Definition holds_dispatch (d : GroupRecoveryDisposition) : bool :=
  match d with
  | GAwaitingStop | GStopConfirmed | GContinuationPrepared | GBudgetExpired => true
  | _ => false
  end.

Definition group_recovery_holds_dispatch (m : RuntimeExecutionManager)
    (group_id : ExecutionGroupId) (now : TimestampMs) : option bool :=
  holds_dispatch <$> group_recovery_disposition m group_id now.

(** The members whose stop was a cancellation, with their commands. *)
Definition cancelled_sources (m : RuntimeExecutionManager) (members : list GroupRecoveryMember)
  : option (list (string * ExecutionCommand)) :=
  mapM (fun member =>
      command ← index_command m (grm_execution_id member);
      Some (grm_execution_id member, command))
    (List.filter (fun member =>
       bool_decide (status_of m (grm_execution_id member) = Some Cancelled)) members).

Definition group_continuation_sources (m : RuntimeExecutionManager)
    (group_id : ExecutionGroupId) (now : TimestampMs)
  : option (option (list (string * ExecutionCommand))) :=
  disposition ← group_recovery_disposition m group_id now;
  if negb (bool_decide (disposition = GStopConfirmed)) then Some None else
  match group_recovery m group_id with
  | None => Some None
  | Some intent => sources ← cancelled_sources m (gri_members intent); Some (Some sources)
  end.

(** ** Requesting a stop of the whole set *)

Section Request.
Context `{Serde}.

(** The checks of one member against the set frozen so far. *)
Definition group_member_check (m : RuntimeExecutionManager) (group_id : ExecutionGroupId)
    (shared_session : option ExecutionSessionDescriptor) (member : GroupRecoveryMember)
  : Result (ExecutionSessionDescriptor * bool) ExecutionRuntimeError :=
  match executions m !! grm_execution_id member with
  | None => Err (refused "unknown Group member")
  | Some context =>
      let command := ctx_command context in
      match cmd_session command with
      | None => Err (refused "Group continuation requires immutable execution session")
      | Some session =>
          if negb (is_ok (validate_slot session (cmd_mission_id command) group_id
                            (cmd_task_id command) (cmd_role_id command)))
          then Err (refused "invalid Group execution session") else
          if negb (bool_decide (cmd_group_id command = group_id))
             || negb (bool_decide (cmd_node_id command = grm_expected_node_id member))
             || (32 <? length (esd_slots session))%nat
             || existsb (fun slot => negb (ess_independent slot)) (esd_slots session)
             || is_none_or (fun d =>
                  negb (bool_decide (ors_operation (ers_support d)
                                     = intent_operation (cmd_intent command)))
                  || negb (supports_group_continuation (ers_support d)))
                  (cmd_recovery_support command)
             || contains_key (grm_execution_id member) (recovery_stops m)
             || is_some_and (fun original => negb (bool_decide (original = session)))
                  shared_session
          then Err (refused
                 "Group continuation requires exact session and group-stop owner support") else
          match status_of m (grm_execution_id member) with
          | Some Completed => Ok (session, true)
          | Some (Failed | Cancelled) | None =>
              Err (refused
                "Group source already failed or was cancelled without this recovery purpose")
          | Some _ =>
              if negb (grm_repeat_authorized member)
              then Err (refused "every affected operation needs explicit repeat authorization")
              else Ok (session, false)
          end
      end
  end.

Fixpoint group_members_loop (m : RuntimeExecutionManager) (group_id : ExecutionGroupId)
    (shared_session : option ExecutionSessionDescriptor) (preserved : gset string)
    (members : list GroupRecoveryMember) : Result (gset string) ExecutionRuntimeError :=
  match members with
  | [] => Ok preserved
  | member :: rest =>
      match group_member_check m group_id shared_session member with
      | Err e => Err e
      | Ok (session, completed) =>
          group_members_loop m group_id (Some session)
            (if (completed : bool) then {[grm_execution_id member]} ∪ preserved else preserved) rest
      end
  end.

Definition bounded_recovery (recovery_id : string) (members : nat) (timeout_ms max : N) : bool :=
  negb (is_blank recovery_id) && negb (256 <? str_len recovery_id)%N
  && negb (members =? 0)%nat && negb (32 <? members)%nat
  && negb (timeout_ms =? 0)%N && negb (3600000 <? timeout_ms)%N
  && ((1 <=? max)%N && (max <=? 16)%N).

Definition request_group_recovery_stop (m : RuntimeExecutionManager)
    (group_id : ExecutionGroupId) (recovery_id : string)
    (members0 : list GroupRecoveryMember) (now : TimestampMs) (timeout_ms max_replacements : N)
  : option (Step unit) :=
  let members :=
    sort_by (fun l r => cmp (grm_execution_id l) (grm_execution_id r)) members0 in
  match group_recovery_by_id m group_id recovery_id with
  | Some existing =>
      Some (m, if bool_decide (gri_members existing = members)
                  && (gri_timeout_ms existing =? timeout_ms)%N
                  && (gri_max_replacements existing =? max_replacements)%N
               then Ok tt
               else Err (refused "Group recovery command identity cannot change"))
  | None =>
      if negb (bounded_recovery recovery_id (length members) timeout_ms max_replacements)
      then Some (m, Err (refused "Group recovery requires bounded identity, set and policy")) else
      let rounds := List.filter (fun i => bool_decide (gri_group_id i = group_id))
                      (group_recoveries m) in
      let history_error : Step unit :=
        (m, Err (refused "Group recovery history is pending, exhausted or changed")) in
      if (max_replacements <=? N.of_nat (length rounds))%N
         || existsb (fun i => negb (gri_max_replacements i =? max_replacements)%N) rounds
      then Some history_error else
      holds ← group_recovery_holds_dispatch m group_id now;
      if (holds : bool) then Some history_error else
      let ids : gset string := list_to_set (grm_execution_id <$> members) in
      if negb (size ids =? length members)%nat
         || negb (bool_decide (ids = active_attempt_ids m group_id))
      then Some (m, Err (refused "Group recovery must cover every exact current attempt once")) else
      Some match group_members_loop m group_id None ∅ members with
      | Err e => (m, Err e)
      | Ok preserved =>
          if (size preserved =? length members)%nat
          then (m, Err (refused "no live Group operation requires recovery")) else
          match u64_checked_add now timeout_ms with
          | None => (m, Err (refused "Group deadline overflow"))
          | Some deadline_ms =>
              let m1 := set_cancellation_intents
                (list_to_set (List.filter (fun id => negb (set_contains id preserved))
                                (grm_execution_id <$> members))
                   ∪ cancellation_intents m) m in
              (set_group_recoveries
                 (group_recoveries m1
                  ++ [MkGroupRecovery recovery_id group_id members preserved now deadline_ms
                        timeout_ms max_replacements ∅ ∅ None ∅ false])%list m1,
               Ok tt)
          end
      end
  end.
End Request.

(** ** Observed facts *)

Definition confirm_stop_in (execution_id : string) (received_at : TimestampMs)
    (i : GroupRecoveryStopIntent) : GroupRecoveryStopIntent :=
  if negb (set_contains execution_id (gri_preserved_completed i))
     && has_member execution_id i && (gri_requested_at_ms i <=? received_at)%N
  then gri_set_confirmed (or_insert execution_id received_at (gri_confirmed_at_ms i)) i
  else i.

Definition confirm_group_recovery_stop (m : RuntimeExecutionManager) (execution_id : string)
    (received_at : TimestampMs) : RuntimeExecutionManager :=
  if negb (stopped_status (status_of m execution_id)) then m
  else set_group_recoveries (confirm_stop_in execution_id received_at <$> group_recoveries m) m.

Definition admits_continuation (s : option ExecutionStatus) : bool :=
  match s with
  | Some (Accepted | Running | Completed | Failed | Cancelled) => true
  | _ => false
  end.

Definition confirm_admission_in (execution_id : string) (received_at : TimestampMs)
    (i : GroupRecoveryStopIntent) : GroupRecoveryStopIntent :=
  if has_replacement execution_id i
     && is_some_and (fun time => (time <=? received_at)%N) (gri_prepared_at_ms i)
  then gri_set_admitted (or_insert execution_id received_at (gri_admitted_at_ms i)) i
  else i.

Definition confirm_group_continuation_admission (m : RuntimeExecutionManager)
    (execution_id : string) (received_at : TimestampMs) : RuntimeExecutionManager :=
  if negb (admits_continuation (status_of m execution_id)) then m
  else set_group_recoveries
         (confirm_admission_in execution_id received_at <$> group_recoveries m) m.

Definition abort_group_recovery_for_attempt (m : RuntimeExecutionManager)
    (execution_id : string) : RuntimeExecutionManager :=
  set_group_recoveries
    ((fun i => if has_member execution_id i || has_replacement execution_id i
               then gri_set_aborted i else i) <$> group_recoveries m) m.

Definition group_recovery_preserves_cancelled (m : RuntimeExecutionManager)
    (execution_id : string) : bool :=
  is_some_and (fun i => negb (gri_aborted i) && has_member execution_id i)
    (group_recovery_for_attempt m execution_id).

(** ** Publishing the continuation *)

(** Each member's replacement, or the member itself when it has none. *)
Definition expected_set (members : list GroupRecoveryMember) (replacements : gmap string string)
  : gset string :=
  list_to_set ((fun member => default (grm_execution_id member)
                                (replacements !! grm_execution_id member)) <$> members).

Definition replacement_changed (m : RuntimeExecutionManager) (original actual : ExecutionContext)
    (replacement : string) : bool :=
  let c := ctx_command original in
  let a := ctx_command actual in
  negb (bool_decide (cmd_node_id a = cmd_node_id c))
  || negb (ExecutionIntent_eqb (cmd_intent a) (cmd_intent c))
  || negb (bool_decide (cmd_session a = cmd_session c))
  || negb (bool_decide (cmd_group_id a = cmd_group_id c))
  || negb (bool_decide (cmd_task_ref a = cmd_task_ref c))
  || negb (bool_decide (cmd_role_id a = cmd_role_id c))
  || negb (bool_decide (cmd_recovery_support a = cmd_recovery_support c))
  || negb (bool_decide (ctx_resource_ids actual = ctx_resource_ids original))
  || negb (bool_decide (status_of m replacement = Some Dispatched)).

Fixpoint check_replacements (m : RuntimeExecutionManager) (replacements : gmap string string)
    (sources : list (string * ExecutionCommand)) : option (Result unit ExecutionRuntimeError) :=
  match sources with
  | [] => Some (Ok tt)
  | (source, _) :: rest =>
      replacement ← replacements !! source;
      match executions m !! replacement with
      | None => Some (Err (refused "Group replacement not prepared"))
      | Some actual =>
          original ← executions m !! source;
          if replacement_changed m original actual replacement
          then Some (Err (refused "Group replacement changed original binding or invocation"))
          else check_replacements m replacements rest
      end
  end.

(** Updates the latest intent of the Group. *)
Fixpoint update_first_rev (p : GroupRecoveryStopIntent -> bool)
    (f : GroupRecoveryStopIntent -> GroupRecoveryStopIntent)
    (l : list GroupRecoveryStopIntent) : list GroupRecoveryStopIntent :=
  match l with
  | [] => []
  | i :: l' => if p i then f i :: l' else i :: update_first_rev p f l'
  end.

Definition record_group_continuation (m : RuntimeExecutionManager)
    (group_id : ExecutionGroupId) (now : TimestampMs) (replacements : gmap string string)
  : option (Step unit) :=
  match group_recovery m group_id with
  | None => Some (m, Err (refused "Group stop purpose missing"))
  | Some intent =>
      if gri_aborted intent || negb (bool_decide (gri_replacements intent = ∅))
         || (gri_deadline_ms intent <=? now)%N
         || negb (forallb (member_stop_confirmed m intent now) (gri_members intent))
      then Some (m, Err (refused "Group stop barrier is not satisfied")) else
      if negb (bool_decide (expected_set (gri_members intent) replacements
                            = active_attempt_ids m group_id))
      then Some (m, Err (refused "Group current set changed during continuation preparation")) else
      sources ← cancelled_sources m (gri_members intent);
      if negb (bool_decide (dom replacements = list_to_set (fst <$> sources)))
         || negb (distinct_count (btree_values replacements) =? size replacements)%nat
         || bool_decide (replacements = ∅)
      then Some (m, Err (refused
             "Group continuation must prepare every cancelled member exactly once")) else
      checked ← check_replacements m replacements sources;
      match checked with
      | Err e => Some (m, Err e)
      | Ok _ =>
          Some (set_group_recoveries
                  (reverse (update_first_rev (fun i => bool_decide (gri_group_id i = group_id))
                              (gri_set_prepared replacements now)
                              (reverse (group_recoveries m)))) m, Ok tt)
      end
  end.

Definition group_continuation_set_is_current (m : RuntimeExecutionManager)
    (group_id : ExecutionGroupId) : bool :=
  match group_recovery m group_id with
  | None => false
  | Some intent =>
      if gri_aborted intent || bool_decide (gri_replacements intent = ∅) then false
      else bool_decide (expected_set (gri_members intent) (gri_replacements intent)
                        = active_attempt_ids m group_id)
  end.

(** ** Checks of a restored history *)

Section ValidateHistory.
Context `{Serde}.

Definition intent_ids (i : GroupRecoveryStopIntent) : gset string :=
  list_to_set (grm_execution_id <$> gri_members i).

Definition intent_bounds_valid (i : GroupRecoveryStopIntent) : bool :=
  bounded_recovery (gri_recovery_id i) (length (gri_members i)) (gri_timeout_ms i)
    (gri_max_replacements i)
  && bool_decide (u64_checked_add (gri_requested_at_ms i) (gri_timeout_ms i)
                  = Some (gri_deadline_ms i)).

Definition intent_sets_valid (i : GroupRecoveryStopIntent) : bool :=
  (size (intent_ids i) =? length (gri_members i))%nat
  && bool_decide (gri_preserved_completed i ⊆ intent_ids i)
  && forallb (fun id => set_contains id (intent_ids i)) (btree_keys (gri_confirmed_at_ms i)).

Definition intent_phase_valid (i : GroupRecoveryStopIntent) : bool :=
  if bool_decide (gri_replacements i = ∅)
  then is_none (gri_prepared_at_ms i) && bool_decide (gri_admitted_at_ms i = ∅)
  else match gri_prepared_at_ms i with
       | None => false
       | Some prepared =>
           negb (prepared <? gri_requested_at_ms i)%N
           && negb (gri_deadline_ms i <=? prepared)%N
           && negb (existsb (fun time => (prepared <? time)%N)
                      (btree_values (gri_confirmed_at_ms i)))
           && negb (existsb (fun kv : string * N =>
                      (kv.2 <? prepared)%N || negb (has_replacement kv.1 i))
                      (btree_iter (gri_admitted_at_ms i)))
       end.

(** [session] is the session of the previous member. *)
Definition member_binding_valid (m : RuntimeExecutionManager) (i : GroupRecoveryStopIntent)
    (session : option ExecutionSessionDescriptor) (member : GroupRecoveryMember)
    (command : ExecutionCommand) : bool :=
  bool_decide (cmd_group_id command = gri_group_id i)
  && bool_decide (cmd_node_id command = grm_expected_node_id member)
  && is_some (cmd_session command)
  && negb (is_some_and (fun s => negb (bool_decide (Some s = cmd_session command))) session)
  && negb (is_some_and (fun s =>
             (32 <? length (esd_slots s))%nat
             || existsb (fun slot => negb (ess_independent slot)) (esd_slots s)
             || negb (is_ok (validate_slot s (cmd_mission_id command) (gri_group_id i)
                               (cmd_task_id command) (cmd_role_id command))))
             (cmd_session command))
  && negb (is_none_or (fun d =>
             negb (bool_decide (ors_operation (ers_support d)
                                = intent_operation (cmd_intent command)))
             || negb (supports_group_continuation (ers_support d)))
             (cmd_recovery_support command)).

Definition member_status_valid (m : RuntimeExecutionManager) (i : GroupRecoveryStopIntent)
    (member : GroupRecoveryMember) : bool :=
  let id := grm_execution_id member in
  (if set_contains id (gri_preserved_completed i)
   then bool_decide (status_of m id = Some Completed)
   else grm_repeat_authorized member && set_contains id (cancellation_intents m))
  && negb (is_some_and (fun time => (time <? gri_requested_at_ms i)%N
                                    || negb (stopped_status (status_of m id)))
             (gri_confirmed_at_ms i !! id)).

Fixpoint members_valid (m : RuntimeExecutionManager) (i : GroupRecoveryStopIntent)
    (session : option ExecutionSessionDescriptor) (members : list GroupRecoveryMember) : bool :=
  match members with
  | [] => true
  | member :: rest =>
      match executions m !! grm_execution_id member with
      | None => false
      | Some context =>
          let command := ctx_command context in
          member_binding_valid m i session member command
          && member_status_valid m i member
          && members_valid m i (cmd_session command) rest
      end
  end.

Definition restored_replacement_valid (i : GroupRecoveryStopIntent)
    (original actual : ExecutionContext) (replacement : string) : bool :=
  let c := ctx_command original in
  let a := ctx_command actual in
  bool_decide (cmd_node_id a = cmd_node_id c)
  && bool_decide (cmd_group_id a = gri_group_id i)
  && bool_decide (cmd_task_ref a = cmd_task_ref c)
  && bool_decide (cmd_role_id a = cmd_role_id c)
  && ExecutionIntent_eqb (cmd_intent a) (cmd_intent c)
  && bool_decide (cmd_session a = cmd_session c)
  && bool_decide (cmd_recovery_support a = cmd_recovery_support c)
  && bool_decide (ctx_resource_ids actual = ctx_resource_ids original)
  && negb (set_contains replacement (intent_ids i)).

Definition replacements_valid (m : RuntimeExecutionManager) (i : GroupRecoveryStopIntent)
  : option bool :=
  if bool_decide (gri_replacements i = ∅) then Some true else
  let cancelled : gset string :=
    filter (fun id => status_of m id = Some Cancelled) (intent_ids i) in
  if negb (bool_decide (dom (gri_replacements i) = cancelled))
     || negb (distinct_count (btree_values (gri_replacements i))
              =? size (gri_replacements i))%nat
     || negb (forallb (fun id =>
                set_contains id (gri_preserved_completed i)
                || is_some_and (fun time => (time <? gri_deadline_ms i)%N)
                     (gri_confirmed_at_ms i !! id)) (bset_iter (intent_ids i)))
  then Some false
  else all_opt (fun sr : string * string =>
         match executions m !! sr.2 with
         | None => Some false
         | Some actual =>
             original ← executions m !! sr.1;
             Some (restored_replacement_valid i original actual sr.2)
         end) (btree_iter (gri_replacements i)).

Definition group_intent_valid (m : RuntimeExecutionManager) (i : GroupRecoveryStopIntent)
  : option bool :=
  if negb (intent_bounds_valid i && intent_sets_valid i && intent_phase_valid i
           && members_valid m i None (gri_members i))
  then Some false
  else replacements_valid m i.

(** [history] holds the intents already accepted. *)
Fixpoint validate_group_recoveries_from (m : RuntimeExecutionManager)
    (history l : list GroupRecoveryStopIntent) : option (Result unit ExecutionRuntimeError) :=
  match l with
  | [] => Some (Ok tt)
  | i :: l' =>
      valid ← group_intent_valid m i;
      let rounds := List.filter (fun p => bool_decide (gri_group_id p = gri_group_id i)) history in
      if negb valid
         || (gri_max_replacements i <=? N.of_nat (length rounds))%N
         || existsb (fun p => (gri_recovery_id p =? gri_recovery_id i)%string
                              || negb (gri_max_replacements p =? gri_max_replacements i)%N) rounds
      then Some (Err (InvalidCheckpoint "invalid Group recovery history"))
      else validate_group_recoveries_from m (history ++ [i])%list l'
  end.

Definition validate_group_recoveries (m : RuntimeExecutionManager)
  : option (Result unit ExecutionRuntimeError) :=
  validate_group_recoveries_from m [] (group_recoveries m).
End ValidateHistory.

(** * Operation progress

    [core/runtime/src/execution/progress.rs]: admission of progress samples for
    the current attempt, their interpretation against receive times, and the
    checks of a restored history. *)

Open Scope string_scope.

(** A sample is admissible when its record is a fresh-capable report of the node
    that owns the current, live attempt of the sampled operation. *)
Definition progress_admissible (m : RuntimeExecutionManager) (record : StateRecord)
    (sample : OperationProgressSample) (command : ExecutionCommand) : bool :=
  let id := ops_execution_id sample in
  negb (256 <? str_len id)%N
  && (sr_payload_schema record =? EXECUTION_PROGRESS_SCHEMA)%string
  && bool_decide (sk_semantic (sr_key record) = Reported)
  && bool_decide (so_class (sk_object (sr_key record)) = ClassNode)
  && (so_object_id (sk_object (sr_key record)) =? as_str (cmd_node_id command))%string
  && bool_decide (source_node_id (sk_source (sr_key record)) = Some (cmd_node_id command))
  && bool_decide (ops_operation sample = intent_operation (cmd_intent command))
  && bool_decide (current_attempt_of m command = Some id)
  && negb (has_terminal_status m id)
  && negb (sr_valid_for_ms record =? 0)%N.

(** Within one source epoch neither sequence, receive time, stage nor the units
    of a stage may move back. *)
Definition progress_regresses (record : StateRecord) (sample : OperationProgressSample)
    (previous : ProgressObservation) : bool :=
  (sr_sequence record <=? ps_sequence (po_record previous))%N
  || (sr_received_at record <? ps_received_at (po_record previous))%N
  || (ops_stage_epoch sample <? ops_stage_epoch (po_sample previous))%N
  || ((ops_stage_epoch sample =? ops_stage_epoch (po_sample previous))%N
      && match ops_completed_units sample, ops_completed_units (po_sample previous) with
         | Some next, Some old => (next <? old)%N
         | _, _ => false
         end).

(** The sample repeats the previous one before that one went stale. *)
Definition progress_unchanged (record : StateRecord) (sample : OperationProgressSample)
    (previous : ProgressObservation) : bool :=
  (ops_stage_epoch sample =? ops_stage_epoch (po_sample previous))%N
  && bool_decide (ops_completed_units sample = ops_completed_units (po_sample previous))
  && bool_decide (ops_activity sample = ops_activity (po_sample previous))
  && negb (ProgressSource_is_stale_at (po_record previous) (sr_received_at record)).

Definition observe_progress (m : RuntimeExecutionManager) (record : StateRecord)
    (sample : OperationProgressSample) : RuntimeExecutionManager * bool :=
  match executions m !! ops_execution_id sample with
  | None => (m, false)
  | Some context =>
      if negb (progress_admissible m record sample (ctx_command context)) then (m, false) else
      let store last_advanced_at :=
        (set_progress (<[ops_execution_id sample :=
           MkProgressObservation sample (ProgressSource_from_record record) last_advanced_at]>
           (progress m)) m, true) in
      match progress m !! ops_execution_id sample with
      | None => store (sr_received_at record)
      | Some previous =>
          if negb (bool_decide (ps_key (po_record previous) = sr_key record)) then (m, false) else
          if bool_decide (ps_source_epoch (po_record previous) = sr_source_epoch record) then
            if progress_regresses record sample previous then (m, false)
            else if progress_unchanged record sample previous
            then store (po_last_advanced_at previous)
            else store (sr_received_at record)
          else store (sr_received_at record)
      end
  end.

(** Panics when a live attempt with progress has no context. *)
Definition progress_disposition (m : RuntimeExecutionManager) (execution_id : string)
    (now : TimestampMs) (stall_after_ms : option N) : option ProgressDisposition :=
  match status_of m execution_id with
  | Some (Completed | Failed | Cancelled) => Some ProgressTerminal
  | Some (Running | Accepted) =>
      match progress m !! execution_id with
      | None => Some ProgressUnknown
      | Some observation =>
          command ← index_command m execution_id;
          Some (
            if negb (bool_decide (current_attempt_of m command = Some execution_id))
               || ProgressSource_is_stale_at (po_record observation) now
               || (now <? ps_received_at (po_record observation))%N
            then ProgressUnknown
            else match ops_activity (po_sample observation) with
            | ActivityUnavailable => ProgressUnknown
            | Waiting => ProgressWaiting
            | Blocked => ProgressBlocked
            | Working =>
                if is_some (ops_completed_units (po_sample observation))
                   && is_some_and (fun budget =>
                        (0 <? budget)%N
                        && (budget <=? u64_saturating_sub now (po_last_advanced_at observation))%N)
                        stall_after_ms
                then ProgressStalled else ProgressWorking
            end)
      end
  | _ => Some ProgressUnknown
  end.

Definition fence_progress_for_node (m : RuntimeExecutionManager) (node_id : NodeId)
  : RuntimeExecutionManager :=
  set_progress
    (filter (fun kv : string * ProgressObservation =>
       source_node_id (sk_source (ps_key (po_record kv.2))) <> Some node_id) (progress m)) m.

Definition progress_sample (m : RuntimeExecutionManager) (execution_id : string)
  : option OperationProgressSample := po_sample <$> progress m !! execution_id.

Definition progress_entry_valid (id : string) (o : ProgressObservation)
    (command : ExecutionCommand) : bool :=
  (id =? ops_execution_id (po_sample o))%string
  && bool_decide (sk_semantic (ps_key (po_record o)) = Reported)
  && bool_decide (so_class (sk_object (ps_key (po_record o))) = ClassNode)
  && (so_object_id (sk_object (ps_key (po_record o))) =? as_str (cmd_node_id command))%string
  && negb (ps_valid_for_ms (po_record o) =? 0)%N
  && bool_decide (source_node_id (sk_source (ps_key (po_record o)))
                  = Some (cmd_node_id command))
  && bool_decide (ops_operation (po_sample o) = intent_operation (cmd_intent command))
  && negb (ps_received_at (po_record o) <? po_last_advanced_at o)%N.

Definition check_progress (m : RuntimeExecutionManager) (kv : string * ProgressObservation)
  : Result unit ExecutionRuntimeError :=
  match executions m !! kv.1 with
  | None => Err (InvalidCheckpoint "progress has no execution")
  | Some context =>
      if negb (progress_entry_valid kv.1 kv.2 (ctx_command context))
      then Err (InvalidCheckpoint "progress identity or receive time is invalid")
      else Ok tt
  end.

Definition validate_progress (m : RuntimeExecutionManager) : Result unit ExecutionRuntimeError :=
  try_for (check_progress m) (btree_iter (progress m)).
