(* ===== verification/RecoveryStop.v ===== *)
(** * Isolated stop-and-replace recovery

    [core/runtime/src/execution/recovery_stop.rs]: the authorization to stop one
    attempt before its Role is replaced, the per-slot replacement budget, and the
    checks of a restored history. *)

From S2P Require Import Prelude Identity Execution RelationSpec StateModel RuntimeState.
From S2P Require Import Relation Attempts GroupRecovery.

Open Scope string_scope.

Definition is_stopped_recovery_replacement (m : RuntimeExecutionManager) (execution_id : string)
  : bool :=
  match executions m !! execution_id with
  | None => false
  | Some replacement =>
      existsb (fun intent =>
        negb (rsi_execution_id intent =? execution_id)%string
        && rsi_release_authorized intent
        && is_some_and (fun original =>
             bool_decide (cmd_slot (ctx_command original) = cmd_slot (ctx_command replacement)))
             (executions m !! rsi_execution_id intent))
        (btree_values (recovery_stops m))
  end.

(** [1..=16] and a timeout of at most an hour. *)
Definition recovery_budget_invalid (timeout_ms max_replacements : N) : bool :=
  (timeout_ms =? 0)%N || (3600000 <? timeout_ms)%N
  || negb ((1 <=? max_replacements)%N && (max_replacements <=? 16)%N).

(** The part of [request_recovery_stop] after its checks of the attempt: a new
    authorization consumes one unit of the slot's budget.  The entry of a slot
    without a budget is created before it is checked. *)
Definition admit_recovery_stop (m : RuntimeExecutionManager) (execution_id : string)
    (slot : ExecutionSlot) (now : TimestampMs) (timeout_ms max_replacements : N) : Step unit :=
  if has_terminal_status m execution_id || recovery_budget_invalid timeout_ms max_replacements
  then (m, Err (ReconciliationRequired "terminal execution or invalid recovery budget")) else
  match u64_checked_add now timeout_ms with
  | None => (m, Err (ReconciliationRequired "recovery deadline overflow"))
  | Some deadline_ms =>
      let budgets := or_insert slot (MkRecoveryBudget slot max_replacements 0)
                       (recovery_budgets m) in
      let m1 := set_recovery_budgets budgets m in
      let budget := default (MkRecoveryBudget slot max_replacements 0) (budgets !! slot) in
      if negb (rb_limit budget =? max_replacements)%N || (rb_limit budget <=? rb_used budget)%N
      then (m1, Err (ReconciliationRequired
             "logical Role recovery budget is exhausted or changed"))
      else
        let m2 := set_recovery_budgets
          (<[slot := MkRecoveryBudget (rb_slot budget) (rb_limit budget) (rb_used budget + 1)]>
             budgets) m1 in
        let m3 := set_recovery_stops
          (<[execution_id := MkRecoveryStop execution_id now deadline_ms timeout_ms
                               max_replacements None false false]> (recovery_stops m2)) m2 in
        (set_cancellation_intents ({[execution_id]} ∪ cancellation_intents m3) m3, Ok tt)
  end.

Definition request_recovery_stop (m : RuntimeExecutionManager) (execution_id : string)
    (expected_node : NodeId) (now : TimestampMs) (timeout_ms max_replacements : N)
  : option (Step unit) :=
  match executions m !! execution_id with
  | None => Some (m, Err (ReconciliationRequired "recovery execution is unknown"))
  | Some context =>
      let command := ctx_command context in
      let slot := cmd_slot command in
      if negb (bool_decide (cmd_node_id command = expected_node))
         || negb (bool_decide (active_executions m !! slot = Some execution_id))
      then Some (m, Err (NodeOwnership
             "recovery command references a stale attempt or wrong owner")) else
      holds ← group_recovery_holds_dispatch m (cmd_group_id command) now;
      if (holds : bool)
      then Some (m, Err (ReconciliationRequired
             "an exact-set Group recovery already owns this recovery purpose")) else
      Some match cmd_recovery_support command with
      | None => (m, Err (ReconciliationRequired
          "physical attempt has no dispatch-time execution recovery declaration"))
      | Some support =>
          if negb (bool_decide (ors_operation (ers_support support)
                                = intent_operation (cmd_intent command)))
             || negb (supports_role_retry (ers_support support))
          then (m, Err (ReconciliationRequired
                 "Role recovery requires isolated execution stop and context-preserving repetition"))
          else
            match recovery_stops m !! execution_id with
            | Some intent =>
                (m, if negb (rsi_aborted intent) && (rsi_timeout_ms intent =? timeout_ms)%N
                       && (rsi_max_replacements intent =? max_replacements)%N
                    then Ok tt
                    else Err (ExecutionConflict
                           "recovery command cannot change its original budget"))
            | None => admit_recovery_stop m execution_id slot now timeout_ms max_replacements
            end
      end
  end.

Definition confirm_recovery_stop (m : RuntimeExecutionManager) (execution_id : string)
    (received_at : TimestampMs) : RuntimeExecutionManager :=
  if bool_decide (status_of m execution_id = Some Cancelled) then
    match recovery_stops m !! execution_id with
    | Some intent =>
        if is_none (rsi_confirmed_at_ms intent) && (rsi_requested_at_ms intent <=? received_at)%N
        then set_recovery_stops
               (<[execution_id := rsi_set_confirmed received_at intent]> (recovery_stops m)) m
        else m
    | None => m
    end
  else m.

(** Panics when an authorized attempt has no context. *)
Definition recovery_stop_disposition (m : RuntimeExecutionManager) (execution_id : string)
    (now : TimestampMs) : option RecoveryStopDisposition :=
  match recovery_stops m !! execution_id with
  | None => Some NotRequested
  | Some intent =>
      command ← index_command m execution_id;
      Some (
        if negb (bool_decide (current_attempt_of m command = Some execution_id)) then Superseded
        else if rsi_aborted intent then Aborted
        else match status_of m execution_id with
        | Some (Completed | Failed) => OriginalTerminal
        | _ =>
            if (rsi_deadline_ms intent <=? now)%N then BudgetExpired
            else if rsi_release_authorized intent then ReplacementPending
            else if is_some (rsi_confirmed_at_ms intent) then StopConfirmed
            else AwaitingStop
        end)
  end.

Definition recovery_stop_ready (m : RuntimeExecutionManager) (command : ExecutionCommand)
    (now : TimestampMs) : bool :=
  is_some_and (fun intent =>
    negb (rsi_aborted intent)
    && bool_decide (status_of m (rsi_execution_id intent) = Some Cancelled)
    && is_some_and (fun context =>
         ExecutionCommand_eqb (ctx_command context) command && declares_role_retry command)
         (executions m !! rsi_execution_id intent)
    && is_some_and (fun time => (time <? rsi_deadline_ms intent)%N) (rsi_confirmed_at_ms intent)
    && is_some_and (fun time => (time <=? now)%N) (rsi_confirmed_at_ms intent)
    && (now <? rsi_deadline_ms intent)%N)
    (current_attempt_of m command ≫= fun id => recovery_stops m !! id).

Definition stopped_recovery_commands (m : RuntimeExecutionManager) (now : TimestampMs)
  : list ExecutionCommand :=
  List.filter (fun command => recovery_stop_ready m command now)
    (omap (fun intent => ctx_command <$> executions m !! rsi_execution_id intent)
       (List.filter (fun intent => negb (rsi_release_authorized intent))
          (btree_values (recovery_stops m)))).

Definition mark_recovery_release (m : RuntimeExecutionManager) (command : ExecutionCommand)
  : RuntimeExecutionManager :=
  match current_attempt_of m command with
  | Some id =>
      match recovery_stops m !! id with
      | Some intent =>
          set_recovery_stops (<[id := rsi_set_released intent]> (recovery_stops m)) m
      | None => m
      end
  | None => m
  end.

(** ** Checks of a restored history *)

Definition recovery_stop_valid (m : RuntimeExecutionManager) (id : string)
    (intent : RecoveryStopIntent) (slot : ExecutionSlot) : bool :=
  (id =? rsi_execution_id intent)%string
  && negb (rsi_timeout_ms intent =? 0)%N
  && negb (3600000 <? rsi_timeout_ms intent)%N
  && bool_decide (u64_checked_add (rsi_requested_at_ms intent) (rsi_timeout_ms intent)
                  = Some (rsi_deadline_ms intent))
  && set_contains id (cancellation_intents m)
  && is_some_and (fun b => (rb_limit b =? rsi_max_replacements intent)%N
                           && (0 <? rb_used b)%N && (rb_used b <=? rb_limit b)%N)
       (recovery_budgets m !! slot)
  && negb (is_some_and (fun time =>
             (time <? rsi_requested_at_ms intent)%N
             || negb (bool_decide (status_of m id = Some Cancelled)))
             (rsi_confirmed_at_ms intent))
  && negb (rsi_release_authorized intent
           && negb (is_some_and (fun time => (time <? rsi_deadline_ms intent)%N)
                      (rsi_confirmed_at_ms intent))).

Definition check_recovery_stop (m : RuntimeExecutionManager) (kv : string * RecoveryStopIntent)
  : Result unit ExecutionRuntimeError :=
  match executions m !! kv.1 with
  | None => Err (InvalidCheckpoint "recovery stop has no execution")
  | Some context =>
      if negb (recovery_stop_valid m kv.1 kv.2 (cmd_slot (ctx_command context)))
      then Err (InvalidCheckpoint "invalid recovery stop authorization or confirmation")
      else Ok tt
  end.

(** The number of authorizations whose attempt occupied the slot. *)
Definition stops_of_slot (m : RuntimeExecutionManager) (slot : ExecutionSlot) : nat :=
  length (List.filter (fun intent =>
            is_some_and (fun context => bool_decide (cmd_slot (ctx_command context) = slot))
              (executions m !! rsi_execution_id intent))
            (btree_values (recovery_stops m))).

Definition check_recovery_budget (m : RuntimeExecutionManager)
    (kv : ExecutionSlot * RecoveryBudget) : Result unit ExecutionRuntimeError :=
  if negb (bool_decide (kv.1 = rb_slot kv.2))
     || negb ((1 <=? rb_limit kv.2)%N && (rb_limit kv.2 <=? 16)%N)
     || (rb_used kv.2 =? 0)%N
     || (rb_limit kv.2 <? rb_used kv.2)%N
     || negb (N.of_nat (stops_of_slot m kv.1) =? rb_used kv.2)%N
  then Err (InvalidCheckpoint "invalid recovery budget history")
  else Ok tt.

Definition validate_recovery_stops (m : RuntimeExecutionManager)
  : Result unit ExecutionRuntimeError :=
  let? _s := try_for (check_recovery_stop m) (btree_iter (recovery_stops m)) in
  try_for (check_recovery_budget m) (btree_iter (recovery_budgets m)).
