(* ===== verification/Dispatch.v ===== *)
(** * Dispatch, receipts and cancellation

    [core/runtime/src/execution/dispatch.rs]: validation and preparation of the
    immutable Execute intents, allocation of physical attempt identities, the
    reduction of command receipts and the durable cancellation requests. *)

From S2P Require Import Prelude Identity Execution StateModel RelationSpec RuntimeState Relation Attempts.
From S2P Require Import GroupRecovery.

Open Scope string_scope.

(** [observation.rs::normalized_resources]: [sort] then [dedup]. *)
Definition normalized_resources (resource_ids : list ResourceId) : list ResourceId :=
  dedup (sort_by cmp resource_ids).

Definition validate_dispatch (m : RuntimeExecutionManager) (execution_id : string)
    (command : ExecutionCommand) (resource_ids : list ResourceId)
  : Result DispatchDecision ExecutionRuntimeError :=
  if recovery_support_mismatch command
  then Err (ExecutionConflict "recovery declaration belongs to a different operation") else
  if set_contains execution_id (restored_executions m)
  then Err (ReconciliationRequired
    "execution was restored after controller restart; reconciliation is required before routing")
  else
  if contains_key execution_id (execution_status m)
     && negb (contains_key execution_id (executions m))
  then Err (ReconciliationRequired
    "execution was observed during reconnect; reconciliation is required before routing")
  else
  let resources := normalized_resources resource_ids in
  match executions m !! execution_id with
  | Some existing =>
      if negb (ExecutionCommand_eqb (ctx_command existing) command)
         || negb (bool_decide (ctx_resource_ids existing = resources))
      then Err (ExecutionConflict execution_id)
      else Ok AlreadyRouted
  | None => Ok Route
  end.

(** ** Attempt identities *)

(** One length-prefixed component, [{len}:{text}]. *)
Definition counted (s : string) : string := pretty (str_len s) ++ ":" ++ s.

Definition attempt_id (group_id : ExecutionGroupId) (task_ref : TaskRef) (role_id : RoleId)
    (generation : N) : string :=
  "attempt-" ++ counted (as_str group_id) ++ "-" ++ counted (as_str (tr_task_id task_ref))
    ++ "-" ++ counted (as_str role_id) ++ "-" ++ pretty generation.

(** The [loop] of [allocate_attempt_id] from [generation]; [None] when the fuel
    runs out before the loop returns. *)
Fixpoint allocate_loop (fuel : nat) (m : RuntimeExecutionManager) (slot : ExecutionSlot)
    (generation : N) : option (Step string) :=
  match fuel with
  | O => None
  | S fuel' =>
      match u64_checked_add generation 1 with
      | None => Some (m, Err (ReconciliationRequired "physical attempt generation is exhausted"))
      | Some next =>
          let execution_id := attempt_id slot.1.1 slot.1.2 slot.2 next in
          if negb (contains_key execution_id (executions m))
             && negb (contains_key execution_id (dispatch_outbox m))
          then Some (set_attempt_generations (<[slot := next]> (attempt_generations m)) m,
                     Ok execution_id)
          else allocate_loop fuel' m slot next
      end
  end.

(** One more iteration than there are identities in use. *)
Definition allocate_fuel (m : RuntimeExecutionManager) : nat :=
  S (size (executions m) + size (dispatch_outbox m)).

Definition allocate_attempt_id (m : RuntimeExecutionManager) (group_id : ExecutionGroupId)
    (task_ref : TaskRef) (role_id : RoleId) : option (Step string) :=
  let slot := (group_id, task_ref, role_id) in
  allocate_loop (allocate_fuel m) m slot (default 0%N (attempt_generations m !! slot)).

(** ** Delivery *)

Definition dispatch_pending (m : RuntimeExecutionManager) (intent : DispatchIntent) : bool :=
  negb (di_delivered intent)
  && negb (set_contains (di_execution_id intent) (cancellation_intents m))
  && bool_decide (status_of m (di_execution_id intent) = Some Dispatched).

Definition pending_dispatch_intents (m : RuntimeExecutionManager) : list DispatchIntent :=
  List.filter (dispatch_pending m) (btree_values (dispatch_outbox m)).

Definition di_set_delivered (i : DispatchIntent) : DispatchIntent :=
  MkDispatchIntent (di_execution_id i) (di_command i) (di_resource_ids i)
    (di_delivery_attempts i) true.

Definition di_count_attempt (i : DispatchIntent) : DispatchIntent :=
  MkDispatchIntent (di_execution_id i) (di_command i) (di_resource_ids i)
    (u32_saturating_add (di_delivery_attempts i) 1) (di_delivered i).

(** [if let Some(intent) = self.dispatch_outbox.get_mut(id) { .. }]. *)
Definition update_outbox (f : DispatchIntent -> DispatchIntent) (execution_id : string)
    (m : RuntimeExecutionManager) : RuntimeExecutionManager :=
  match dispatch_outbox m !! execution_id with
  | Some intent => set_dispatch_outbox (<[execution_id := f intent]> (dispatch_outbox m)) m
  | None => m
  end.

Definition mark_dispatch_delivered (m : RuntimeExecutionManager) (execution_id : string)
  : Step unit :=
  match dispatch_outbox m !! execution_id with
  | None => (m, Err (ReconciliationRequired
      ("dispatch intent " ++ execution_id ++ " is absent")))
  | Some intent => (update_outbox di_set_delivered execution_id m, Ok tt)
  end.

Definition record_dispatch_attempt (m : RuntimeExecutionManager) (execution_id : string)
  : RuntimeExecutionManager := update_outbox di_count_attempt execution_id m.

(** ** Receipts *)

(** The common tail of a rejected receipt: the status becomes [Unknown], which
    stays even when the execution context is missing. *)
Definition reject_receipt (m : RuntimeExecutionManager) (execution_id : string)
    (owner : ExecutionCommand -> NodeId) (reason : string) : Step (list ExecutionEvent) :=
  let m1 := set_execution_status (<[execution_id := Unknown]> (execution_status m)) m in
  match executions m1 !! execution_id with
  | None => (m1, Err (ReconciliationRequired
      ("execution context " ++ execution_id ++ " is absent")))
  | Some context =>
      let command := ctx_command context in
      let slot := cmd_slot command in
      if negb (bool_decide (active_executions m1 !! slot = Some execution_id))
      then (m1, Ok [])
      else
        let '(m2, events) := refresh_relations_for_slot m1 slot in
        (m2, Ok (RecoveryRequired execution_id (owner command) (Some command) reason :: events))
  end.

Definition observe_dispatch_receipt (m : RuntimeExecutionManager)
    (execution_id command_id' : string) (node_id : NodeId) (persisted : bool) (reason : string)
  : Step (list ExecutionEvent) :=
  match dispatch_outbox m !! execution_id with
  | None => (m, Err (ReconciliationRequired
      ("dispatch intent " ++ execution_id ++ " is absent")))
  | Some intent =>
      if negb (command_id intent =? command_id')%string
      then (m, Err (ExecutionConflict execution_id)) else
      if negb (bool_decide (cmd_node_id (di_command intent) = node_id))
      then (m, Err (NodeOwnership "command receipt node differs from execution owner")) else
      if persisted
      then match mark_dispatch_delivered m execution_id with
           | (m1, Ok _) => (m1, Ok [])
           | (m1, Err e) => (m1, Err e)
           end
      else if has_terminal_status m execution_id then (m, Ok []) else
      if bool_decide (status_of m execution_id = Some Unknown) then (m, Ok []) else
      reject_receipt m execution_id cmd_node_id reason
  end.

Definition observe_cancellation_receipt (m : RuntimeExecutionManager)
    (execution_id command_id' : string) (node_id : NodeId) (persisted : bool) (reason : string)
  : Step (list ExecutionEvent) :=
  if negb (command_id' =? "cancel-" ++ execution_id)%string
     || negb (set_contains execution_id (cancellation_intents m))
  then (m, Err (ReconciliationRequired
         ("cancellation intent " ++ execution_id
            ++ " is absent or conflicts with its receipt"))) else
  if negb (bool_decide (cancellation_node m execution_id = Some node_id))
  then (m, Err (NodeOwnership "cancellation receipt node differs from execution owner")) else
  if persisted || has_terminal_status m execution_id
     || bool_decide (status_of m execution_id = Some Unknown)
  then (m, Ok [])
  else reject_receipt m execution_id (fun _ => node_id) reason.

(** ** Preparation *)

(** The mutations of [prepare_dispatch] for a new identity. *)
Definition install_dispatch (m : RuntimeExecutionManager) (execution_id : string)
    (command : ExecutionCommand) (resources : list ResourceId) : RuntimeExecutionManager :=
  let slot := cmd_slot command in
  let m1 := set_executions
    (<[execution_id := MkExecutionContext command resources]> (executions m)) m in
  let m2 := set_execution_nodes
    (<[execution_id := cmd_node_id command]> (execution_nodes m1)) m1 in
  let previous := active_executions m2 !! slot in
  let m3 := set_active_executions (<[slot := execution_id]> (active_executions m2)) m2 in
  let m4 :=
    match previous with
    | Some current =>
        if negb (current =? execution_id)%string then
          let n1 := set_spatial_evidence (delete slot (spatial_evidence m3)) m3 in
          let n2 := set_reactivation_attempts (reactivation_attempts n1 ∖ {[current]}) n1 in
          set_reactivation_attempts ({[execution_id]} ∪ reactivation_attempts n2) n2
        else m3
    | None => m3
    end in
  let m5 := set_execution_status (<[execution_id := Dispatched]> (execution_status m4)) m4 in
  set_dispatch_outbox
    (<[execution_id := MkDispatchIntent execution_id command resources 0 false]>
       (dispatch_outbox m5)) m5.

Definition prepare_dispatch (m : RuntimeExecutionManager) (execution_id : string)
    (command : ExecutionCommand) (resource_ids : list ResourceId) : Step DispatchDecision :=
  match validate_dispatch m execution_id command resource_ids with
  | Err e => (m, Err e)
  | Ok AlreadyRouted => (m, Ok AlreadyRouted)
  | Ok Route =>
      (install_dispatch m execution_id command (normalized_resources resource_ids), Ok Route)
  end.

Definition record_dispatched (m : RuntimeExecutionManager) (execution_id : string)
    (command : ExecutionCommand) (resource_ids : list ResourceId) : Step unit :=
  match prepare_dispatch m execution_id command resource_ids with
  | (m1, Err e) => (m1, Err e)
  | (m1, Ok _) => mark_dispatch_delivered m1 execution_id
  end.

(** ** Cancellation *)

Definition request_cancellation (m : RuntimeExecutionManager) (execution_id : string)
  : Step unit :=
  if negb (contains_key execution_id (executions m))
  then (m, Err (ReconciliationRequired "unknown cancellation attempt")) else
  let m1 :=
    match recovery_stops m !! execution_id with
    | Some intent =>
        set_recovery_stops (<[execution_id := rsi_set_aborted intent]> (recovery_stops m)) m
    | None => m
    end in
  let m2 := abort_group_recovery_for_attempt m1 execution_id in
  (set_cancellation_intents ({[execution_id]} ∪ cancellation_intents m2) m2, Ok tt).

Definition cancellation_pending (m : RuntimeExecutionManager) (execution_id : string) : bool :=
  set_contains execution_id (cancellation_intents m).

(** A recovery stop that was not aborted is sent only to an attempt that declares
    an isolated retry. *)
Definition cancellation_deliverable (m : RuntimeExecutionManager) (id : string) : bool :=
  negb (is_some_and (fun intent => negb (rsi_aborted intent)) (recovery_stops m !! id))
  || is_some_and (fun context => declares_role_retry (ctx_command context)) (executions m !! id).

Definition pending_cancellations (m : RuntimeExecutionManager) : list (string * NodeId) :=
  omap (fun id => (fun node => (id, node)) <$> cancellation_node m id)
    (List.filter (cancellation_deliverable m)
       (List.filter (fun id => negb (has_terminal_status m id))
          (bset_iter (cancellation_intents m)))).

(** ** Attempt identities are injective *)

Lemma pretty_N_go_no_char c x s :
  (forall y, pretty_N_char y <> c) ->
  contains_char c (pretty_N_go x s) = contains_char c s.
Proof.
  intros Hc. revert s. induction (N.lt_wf_0 x) as [x _ IH]; intros s.
  assert (x = 0 \/ 0 < x)%N as [->|Hx] by lia; [done|].
  rewrite pretty_N_go_step by done. rewrite IH by (apply N.div_lt; lia).
  rewrite contains_char_cons. destruct (Ascii.eqb_spec c (pretty_N_char (x `mod` 10))); [|done].
  by destruct (Hc (x `mod` 10)%N).
Qed.

(** A printed number has no [':']. *)
Lemma pretty_N_no_colon (n : N) : contains_char ":" (pretty n) = false.
Proof.
  unfold pretty, pretty_N. case_decide; [done|]. rewrite pretty_N_go_no_char; [done|].
  intros y. unfold pretty_N_char. by repeat case_match.
Qed.

(** A length-prefixed component splits off uniquely. *)
Lemma counted_inj s t u v : (counted s ++ u = counted t ++ v)%string -> s = t /\ u = v.
Proof.
  unfold counted. rewrite !string_app_assoc, !(string_app_cons ":"), !string_app_nil. intros E.
  apply split_first in E as [Hp E]; try apply pretty_N_no_colon.
  apply pretty_N_inj in Hp. unfold str_len in Hp. apply string_app_inj_length in E; [done|lia].
Qed.

(** Different Groups, Tasks, Roles or generations never share an attempt
    identity, whatever characters their identifiers contain. *)
Lemma attempt_id_injective g t r n g' t' r' n' :
  attempt_id g t r n = attempt_id g' t' r' n' ->
  g = g' /\ tr_task_id t = tr_task_id t' /\ r = r' /\ n = n'.
Proof.
  unfold attempt_id. intros E. apply string_app_inj_length in E as [_ E]; [|done].
  apply counted_inj in E as [Hg E]. apply string_app_inj_length in E as [_ E]; [|done].
  apply counted_inj in E as [Ht E]. apply string_app_inj_length in E as [_ E]; [|done].
  apply counted_inj in E as [Hr E]. apply string_app_inj_length in E as [_ E]; [|done].
  apply pretty_N_inj in E.
  destruct g, g', r, r', (tr_task_id t), (tr_task_id t'); naive_solver.
Qed.

(** ** The allocation loop returns *)

Section Allocation.
Context (m : RuntimeExecutionManager) (slot : ExecutionSlot).

Definition slot_attempt (n : N) : string := attempt_id slot.1.1 slot.1.2 slot.2 n.
Definition id_taken (id : string) : Prop :=
  is_Some (executions m !! id) \/ is_Some (dispatch_outbox m !! id).

Lemma id_free_bool id :
  negb (contains_key id (executions m)) && negb (contains_key id (dispatch_outbox m)) = true
  <-> ~ id_taken id.
Proof.
  unfold id_taken. rewrite andb_true_iff, !negb_true_iff, !contains_key_false.
  rewrite !eq_None_not_Some. naive_solver.
Qed.

Lemma slot_attempt_inj : Inj (=) (=) slot_attempt.
Proof. intros a b E. by apply attempt_id_injective in E as (_ & _ & _ & ->). Qed.

(** Every way the loop can end after [generation]. *)
Lemma allocate_loop_spec fuel generation :
  match allocate_loop fuel m slot generation with
  | Some (m', Ok id) => exists n,
      (generation < n <= u64_max)%N /\ id = slot_attempt n /\ ~ id_taken id /\
      m' = set_attempt_generations (<[slot := n]> (attempt_generations m)) m /\
      (forall k, (generation < k < n)%N -> id_taken (slot_attempt k))
  | Some (m', Err e) =>
      m' = m /\ e = ReconciliationRequired "physical attempt generation is exhausted" /\
      (forall k, (generation < k <= u64_max)%N -> id_taken (slot_attempt k))
  | None => forall k, (generation < k <= generation + N.of_nat fuel)%N ->
                      id_taken (slot_attempt k)
  end.
Proof.
  revert generation. induction fuel as [|fuel IH]; intros g; simpl; [lia|].
  destruct (u64_checked_add g 1) as [next|] eqn:En.
  - apply u64_checked_add_Some in En as [-> Hmax].
    change (attempt_id slot.1.1 slot.1.2 slot.2 (g + 1)) with (slot_attempt (g + 1)).
    destruct (negb _ && negb _) eqn:Ef.
    + rewrite id_free_bool in Ef. exists (g + 1)%N. split_and!; try done; lia.
    + assert (id_taken (slot_attempt (g + 1))) as Ht.
      { destruct (decide (is_Some (executions m !! slot_attempt (g + 1)))); [by left|].
        destruct (decide (is_Some (dispatch_outbox m !! slot_attempt (g + 1)))); [by right|].
        assert (~ id_taken (slot_attempt (g + 1))) as Hn by (intros [?|?]; done).
        rewrite <- id_free_bool in Hn. congruence. }
      assert (forall k, (g < k)%N -> k = (g + 1)%N \/ (g + 1 < k)%N) as Hk by lia.
      specialize (IH (g + 1)%N). destruct (allocate_loop _ _ _ _) as [[m' [id|e]]|].
      * destruct IH as (n & Hn & -> & Hf & -> & Hall). exists n. split_and!; try done; try lia.
        intros k [Hk1 Hk2]. destruct (Hk k Hk1) as [->|]; [done|]. apply Hall. lia.
      * destruct IH as (-> & -> & Hall). split_and!; try done.
        intros k [Hk1 Hk2]. destruct (Hk k Hk1) as [->|]; [done|]. apply Hall. lia.
      * intros k [Hk1 Hk2]. destruct (Hk k Hk1) as [->|]; [done|]. apply IH. lia.
  - split_and!; try done. unfold u64_checked_add in En. case_match; [done|].
    apply N.leb_gt in H. intros k Hk. lia.
Qed.

(** Distinct taken identities are no more than the entries of the two maps. *)
Lemma taken_bound (l : list N) :
  NoDup l -> (forall k, k ∈ l -> id_taken (slot_attempt k)) ->
  length l <= size (executions m) + size (dispatch_outbox m).
Proof.
  intros Hnd Hall.
  assert (list_to_set (slot_attempt <$> l)
          ⊆ (dom (executions m) ∪ dom (dispatch_outbox m) : gset string)) as Hsub.
  { intros id. rewrite elem_of_list_to_set, list_elem_of_fmap, elem_of_union, !elem_of_dom.
    intros (k & -> & Hk). by apply Hall. }
  apply subseteq_size in Hsub. rewrite size_list_to_set in Hsub.
  - rewrite length_fmap in Hsub. etrans; [exact Hsub|].
    etrans; [|rewrite <- !size_dom; reflexivity].
    rewrite size_union_alt. apply Nat.add_le_mono_l, subseteq_size. set_solver.
  - apply NoDup_fmap; [apply slot_attempt_inj|done].
Qed.
End Allocation.

(** The loop needs at most one iteration more than there are identities in use. *)
Lemma allocate_loop_returns m slot generation :
  is_Some (allocate_loop (allocate_fuel m) m slot generation).
Proof.
  destruct (allocate_loop _ _ _ _) as [r|] eqn:E; [by eexists|exfalso].
  pose proof (allocate_loop_spec m slot (allocate_fuel m) generation) as Hs. rewrite E in Hs.
  pose (l := (fun k => (generation + N.of_nat k)%N) <$> seq 1 (allocate_fuel m)).
  assert (length l <= size (executions m) + size (dispatch_outbox m)) as Hl.
  { apply (taken_bound m slot).
    - apply NoDup_fmap; [intros a b; lia|apply NoDup_seq].
    - intros k (j & -> & Hj%elem_of_seq)%list_elem_of_fmap. apply Hs. lia. }
  unfold l, allocate_fuel in Hl. rewrite length_fmap, length_seq in Hl. lia.
Qed.

(** ** Normalized resources are a canonical form of the set *)

Lemma elem_of_normalized_resources r l : r ∈ normalized_resources l <-> r ∈ l.
Proof. unfold normalized_resources. by rewrite elem_of_dedup, elem_of_sort_by. Qed.

Lemma normalized_resources_sorted l :
  StronglySorted (fun x y => cmp x y = Lt) (normalized_resources l).
Proof. apply dedup_sorted, sort_by_sorted. Qed.

Lemma normalized_resources_ext l1 l2 :
  (forall r, r ∈ l1 <-> r ∈ l2) -> normalized_resources l1 = normalized_resources l2.
Proof.
  intros E. apply strict_sorted_unique; try apply normalized_resources_sorted.
  intros r. by rewrite !elem_of_normalized_resources.
Qed.

Lemma normalized_resources_idemp l :
  normalized_resources (normalized_resources l) = normalized_resources l.
Proof. apply normalized_resources_ext. intros r. apply elem_of_normalized_resources. Qed.

(** * Execution facts

    [core/runtime/src/execution/observation.rs]: the reduction of ordered Node
    execution facts, unavailable nodes, terminal receive times and the aggregate
    result of a Task. *)

Open Scope string_scope.

Definition attempt_resource_ids (m : RuntimeExecutionManager) (execution_id : string)
  : option (list ResourceId) := ctx_resource_ids <$> executions m !! execution_id.

(** ** [observe_execution] *)

(** The checks of a fact: [Some (Ok tt)] and [Some (Err e)] are the early
    returns (an ignored fact and an error), [None] is an accepted fact. *)
Definition screen_fact (m : RuntimeExecutionManager) (execution_id : string) (node_id : NodeId)
    (sequence : N) (status : ExecutionStatus) : option (Result unit ExecutionRuntimeError) :=
  if is_some_and (fun expected => negb (bool_decide (expected = node_id)))
       (execution_nodes m !! execution_id)
  then Some (Err (NodeOwnership "execution fact node differs from execution owner")) else
  if is_some_and (fun current => (sequence <=? current)%N)
       (execution_sequences m !! execution_id)
  then Some (Ok tt) else
  let own_command :=
    if is_some_and (fun execution =>
         negb (bool_decide (cmd_node_id (ctx_command execution) = node_id)))
         (executions m !! execution_id)
    then Some (Err (NodeOwnership "execution fact node differs from dispatched command"))
    else None in
  match execution_status m !! execution_id with
  | Some current =>
      if is_terminal current then
        if bool_decide (current = status) then Some (Ok tt)
        else Some (Err (TerminalConflict "terminal execution status is immutable"))
      else own_command
  | None => own_command
  end.

(** The four maps an accepted fact updates. *)
Definition record_fact (m : RuntimeExecutionManager) (execution_id : string) (node_id : NodeId)
    (sequence : N) (status : ExecutionStatus) : RuntimeExecutionManager :=
  let m1 := set_execution_sequences (<[execution_id := sequence]> (execution_sequences m)) m in
  let m2 := set_execution_nodes (or_insert execution_id node_id (execution_nodes m1)) m1 in
  let m3 := set_execution_status (<[execution_id := status]> (execution_status m2)) m2 in
  update_outbox di_set_delivered execution_id m3.

(** Activation bookkeeping of the current attempt.  The reactivation mark is
    consumed first; the activated set is extended in any case ([||] evaluates the
    [insert] on its left). *)
Definition activate (m : RuntimeExecutionManager) (execution_id : string)
    (command : ExecutionCommand) (status : ExecutionStatus)
  : RuntimeExecutionManager * list ExecutionEvent :=
  if proves_activation status then
    let task_key := (cmd_group_id command, cmd_task_ref command) in
    let replacement_activated := set_contains execution_id (reactivation_attempts m) in
    let m1 := set_reactivation_attempts (reactivation_attempts m ∖ {[execution_id]}) m in
    let fresh := negb (set_contains task_key (activated_tasks m1)) in
    let m2 := set_activated_tasks ({[task_key]} ∪ activated_tasks m1) m1 in
    (m2, if fresh || replacement_activated
         then [TaskActivated (cmd_group_id command) (cmd_task_ref command)] else [])
  else (m, []).

Definition fact_events (execution_id : string) (command : ExecutionCommand)
    (status : ExecutionStatus) (reason : string) : list ExecutionEvent :=
  match status with
  | Completed => [RoleCompleted command]
  | Failed | Cancelled => [RoleFailed command reason]
  | Unknown => [RecoveryRequired execution_id (cmd_node_id command) (Some command) reason]
  | Dispatched | Accepted | Running => []
  end.

(** The part of [observe_execution] after the fact was recorded.  The owner of a
    fact without context was recorded above, so its [default] is never used. *)
Definition reduce_fact (m : RuntimeExecutionManager) (execution_id : string) (node_id : NodeId)
    (status : ExecutionStatus) (reason : string)
  : RuntimeExecutionManager * list ExecutionEvent :=
  match executions m !! execution_id with
  | None =>
      (m, if bool_decide (status = Unknown)
          then [RecoveryRequired execution_id
                  (default node_id (execution_nodes m !! execution_id)) None reason]
          else [])
  | Some execution =>
      let command := ctx_command execution in
      let execution_role := cmd_slot command in
      if bool_decide (active_executions m !! execution_role = Some execution_id) then
        let '(m1, activation) := activate m execution_id command status in
        let '(m2, refreshed) := refresh_relations_for_slot m1 execution_role in
        (m2, activation ++ fact_events execution_id command status reason ++ refreshed)%list
      else (m, [])
  end.

Definition observe_execution (m : RuntimeExecutionManager) (execution_id : string)
    (node_id : NodeId) (sequence : N) (status : ExecutionStatus) (reason : string)
  : Step (list ExecutionEvent) :=
  match screen_fact m execution_id node_id sequence status with
  | Some (Err e) => (m, Err e)
  | Some (Ok _) => (m, Ok [])
  | None =>
      let m1 := record_fact m execution_id node_id sequence status in
      let '(m2, events) := reduce_fact m1 execution_id node_id status reason in
      (m2, Ok events)
  end.

(** The first terminal fact of a known attempt freezes its receive time. *)
Definition observe_execution_received (m : RuntimeExecutionManager) (execution_id : string)
    (node_id : NodeId) (sequence : N) (status : ExecutionStatus) (reason : string)
    (received_at : TimestampMs) : Step (list ExecutionEvent) :=
  let previous := status_of m execution_id in
  match observe_execution m execution_id node_id sequence status reason with
  | (m1, Err e) => (m1, Err e)
  | (m1, Ok events) =>
      if is_terminal status
         && negb (bool_decide (previous = Some status))
         && contains_key execution_id (executions m1)
         && bool_decide (status_of m1 execution_id = Some status)
      then (set_terminal_received_at
              (or_insert execution_id received_at (terminal_received_at m1)) m1, Ok events)
      else (m1, Ok events)
  end.

Definition terminal_received_time (m : RuntimeExecutionManager) (execution_id : string)
  : option TimestampMs := terminal_received_at m !! execution_id.

(** ** Unavailable nodes *)

(** The closure of [observe_node_unavailable] for one attempt. *)
Definition lose_attempt (node_id : NodeId) (reason : string) (m : RuntimeExecutionManager)
    (execution_id : string) : RuntimeExecutionManager * list ExecutionEvent :=
  let m1 := set_execution_status (<[execution_id := Unknown]> (execution_status m)) m in
  let context := ctx_command <$> executions m1 !! execution_id in
  let event := RecoveryRequired execution_id node_id context reason in
  match context with
  | Some command =>
      let '(m2, events) := refresh_relations_for_slot m1 (cmd_slot command) in
      (m2, event :: events)
  | None => (m1, [event])
  end.

Fixpoint lose_attempts (node_id : NodeId) (reason : string) (m : RuntimeExecutionManager)
    (ids : list string) : RuntimeExecutionManager * list ExecutionEvent :=
  match ids with
  | [] => (m, [])
  | id :: ids' =>
      let '(m1, ev1) := lose_attempt node_id reason m id in
      let '(m2, ev2) := lose_attempts node_id reason m1 ids' in
      (m2, ev1 ++ ev2)%list
  end.

(** The current, live attempts of a node, in identity order. *)
Definition lost_attempts (m : RuntimeExecutionManager) (node_id : NodeId) : list string :=
  let current_attempts : gset string := list_to_set (btree_values (active_executions m)) in
  fst <$> List.filter (fun kv : string * NodeId =>
      set_contains kv.1 current_attempts
      && bool_decide (kv.2 = node_id)
      && is_some_and (fun status => negb (is_terminal status)
                                    && negb (bool_decide (status = Unknown)))
           (status_of m kv.1)) (btree_iter (execution_nodes m)).

Definition observe_node_unavailable (m : RuntimeExecutionManager) (node_id : NodeId)
    (reason : string) : RuntimeExecutionManager * list ExecutionEvent :=
  lose_attempts node_id reason m (lost_attempts m node_id).

(** ** The result of a Task *)

(** A cancelled attempt that a recovery still intends to replace. *)
Definition cancelled_for_recovery (m : RuntimeExecutionManager) (id : string) : bool :=
  is_some_and (fun intent => negb (rsi_aborted intent)) (recovery_stops m !! id)
  || group_recovery_preserves_cancelled m id.

(** The accumulator of the loop: [saw_role], [saw_failed], [all_terminal]. *)
Record ResultScan := MkScan { saw_role : bool; saw_failed : bool; all_terminal : bool }.

Definition scan_role (m : RuntimeExecutionManager) (group_id : ExecutionGroupId)
    (task_ref : TaskRef) (acc : ResultScan) (role_id : RoleId) : ResultScan :=
  let pending := MkScan true (saw_failed acc) false in
  let failed := MkScan true true (all_terminal acc) in
  match active_executions m !! (group_id, task_ref, role_id)
        ≫= (fun execution_id => execution_status m !! execution_id) with
  | Some Completed => MkScan true (saw_failed acc) (all_terminal acc)
  | Some Cancelled =>
      if is_some_and (cancelled_for_recovery m)
           (active_executions m !! (group_id, task_ref, role_id))
      then pending else failed
  | Some Failed => failed
  | Some Unknown | None => pending
  | Some (Dispatched | Accepted | Running) => pending
  end.

Definition task_execution_result (m : RuntimeExecutionManager) (group_id : ExecutionGroupId)
    (task_ref : TaskRef) (role_ids : list RoleId) : option ObservedTaskExecutionResult :=
  let scan := foldl (scan_role m group_id task_ref) (MkScan false false true) role_ids in
  if negb (saw_role scan) || negb (all_terminal scan) then None else
  if saw_failed scan then Some ExecutionFailed else
  if relations_allow_task_success m group_id task_ref then Some ExecutionCompleted else None.
