(* ===== verification/Checkpoint.v ===== *)
(** * Checkpoints

    [core/runtime/src/execution/checkpoint.rs] and [observation.rs::validate_checkpoint]:
    the durable projection of a manager, the cross-map checks of a projection and
    its conservative restoration. *)

From S2P Require Import Prelude Identity Execution Session RelationSpec StateModel.
From S2P Require Import RuntimeState Relation Coordination Attempts GroupRecovery RecoveryStop.
From S2P Require Import Dispatch.

Open Scope string_scope.

(** ** The projection *)

Record ActiveExecutionCheckpoint := MkActiveCheckpoint {
  aec_group_id : ExecutionGroupId;
  aec_task_ref : TaskRef;
  aec_role_id : RoleId;
  aec_execution_id : string
}.

Record AttemptGenerationCheckpoint := MkGenerationCheckpoint {
  agc_group_id : ExecutionGroupId;
  agc_task_ref : TaskRef;
  agc_role_id : RoleId;
  agc_generation : N
}.

Record DispatchIntentCheckpoint := MkDispatchCheckpoint {
  dic_execution_id : string;
  dic_command : ExecutionCommand;
  dic_resource_ids : list ResourceId;
  dic_delivery_attempts : N;
  dic_delivered : bool
}.

Record RuntimeExecutionCheckpoint := MkCheckpoint {
  cp_terminal_received_at : gmap string TimestampMs;
  cp_group_recoveries : list GroupRecoveryStopIntent;
  cp_recovery_stops : gmap string RecoveryStopIntent;
  cp_recovery_budgets : list RecoveryBudget;
  cp_progress : gmap string ProgressObservation;
  cp_executions : gmap string ExecutionContext;
  cp_execution_status : gmap string ExecutionStatus;
  cp_execution_sequences : gmap string N;
  cp_execution_nodes : gmap string NodeId;
  cp_active_executions : list ActiveExecutionCheckpoint;
  cp_relations : list RuntimeExecutionRelation;
  cp_relation_states : list RelationStateCheckpoint;
  cp_relation_fences : list RelationFenceCheckpoint;
  cp_relation_proofs : list RelationProofCheckpoint;
  cp_coordination_contexts : list RuntimeCoordinationContext;
  cp_peer_channels : list RuntimePeerChannel;
  cp_spatial_evidence : list SharedSpatialEvidence;
  cp_attempt_generations : list AttemptGenerationCheckpoint;
  cp_dispatch_outbox : list DispatchIntentCheckpoint;
  cp_cancellation_intents : gset string
}.

Definition aec_slot (a : ActiveExecutionCheckpoint) : ExecutionSlot :=
  (aec_group_id a, aec_task_ref a, aec_role_id a).
Definition agc_slot (a : AttemptGenerationCheckpoint) : ExecutionSlot :=
  (agc_group_id a, agc_task_ref a, agc_role_id a).

Definition active_to_checkpoint (kv : ExecutionSlot * string) : ActiveExecutionCheckpoint :=
  MkActiveCheckpoint kv.1.1.1 kv.1.1.2 kv.1.2 kv.2.
Definition generation_to_checkpoint (kv : ExecutionSlot * N) : AttemptGenerationCheckpoint :=
  MkGenerationCheckpoint kv.1.1.1 kv.1.1.2 kv.1.2 kv.2.
Definition dispatch_to_checkpoint (i : DispatchIntent) : DispatchIntentCheckpoint :=
  MkDispatchCheckpoint (di_execution_id i) (di_command i) (di_resource_ids i)
    (di_delivery_attempts i) (di_delivered i).
Definition dispatch_of_checkpoint (i : DispatchIntentCheckpoint) : DispatchIntent :=
  MkDispatchIntent (dic_execution_id i) (dic_command i) (dic_resource_ids i)
    (dic_delivery_attempts i) (dic_delivered i).

Definition checkpoint (m : RuntimeExecutionManager) : RuntimeExecutionCheckpoint :=
  MkCheckpoint
    (terminal_received_at m) (group_recoveries m) (recovery_stops m)
    (btree_values (recovery_budgets m)) (progress m) (executions m) (execution_status m)
    (execution_sequences m) (execution_nodes m)
    (active_to_checkpoint <$> btree_iter (active_executions m))
    (btree_values (relations m))
    ((fun kv : RelationKey * ExecutionRelationState =>
        MkRelationStateCheckpoint kv.1.1 kv.1.2 kv.2) <$> btree_iter (relation_states m))
    ((fun k : RelationKey => MkRelationFenceCheckpoint k.1 k.2) <$> bset_iter (relation_fences m))
    ((fun kv : RelationKey * string =>
        MkRelationProofCheckpoint kv.1.1 kv.1.2 kv.2) <$> btree_iter (relation_proofs m))
    (btree_values (coordination_contexts m)) (btree_values (peer_channels m))
    (btree_values (spatial_evidence m))
    (generation_to_checkpoint <$> btree_iter (attempt_generations m))
    (dispatch_to_checkpoint <$> btree_values (dispatch_outbox m))
    (cancellation_intents m).

Definition has_memory_prerequisites (cp : RuntimeExecutionCheckpoint) : bool :=
  existsb (fun context => negb (bool_decide (cmd_memory_requirements (ctx_command context) = [])))
    (btree_values (cp_executions cp))
  || existsb (fun intent => negb (bool_decide (cmd_memory_requirements (dic_command intent) = [])))
       (cp_dispatch_outbox cp).

Definition has_terminal_receive_times (cp : RuntimeExecutionCheckpoint) : bool :=
  negb (bool_decide (cp_terminal_received_at cp = ∅)).

(** ** [validate_checkpoint] *)

Definition admission_without_fact (cp : RuntimeExecutionCheckpoint) : bool :=
  existsb (fun intent =>
    existsb (fun id => is_none_or (fun status => bool_decide (status = Dispatched))
                         (cp_execution_status cp !! id))
      (btree_keys (gri_admitted_at_ms intent))) (cp_group_recoveries cp).

Fixpoint check_generations (seen : gset ExecutionSlot) (l : list AttemptGenerationCheckpoint)
  : Result unit ExecutionRuntimeError :=
  match l with
  | [] => Ok tt
  | attempt :: l' =>
      if (agc_generation attempt =? 0)%N || set_contains (agc_slot attempt) seen
      then Err (InvalidCheckpoint
             "checkpoint contains an invalid or duplicate attempt generation")
      else check_generations ({[agc_slot attempt]} ∪ seen) l'
  end.

Fixpoint check_outbox (contexts : gmap string ExecutionContext) (seen : gset string)
    (l : list DispatchIntentCheckpoint) : Result unit ExecutionRuntimeError :=
  match l with
  | [] => Ok tt
  | intent :: l' =>
      let id := dic_execution_id intent in
      match contexts !! id with
      | None => Err (InvalidCheckpoint ("dispatch intent " ++ id ++ " has no execution context"))
      | Some context =>
          if is_blank id || set_contains id seen
             || negb (ExecutionCommand_eqb (ctx_command context) (dic_command intent))
             || negb (bool_decide (ctx_resource_ids context
                                   = normalized_resources (dic_resource_ids intent)))
          then Err (InvalidCheckpoint
                 ("dispatch intent " ++ id ++ " differs from its immutable execution context"))
          else check_outbox contexts ({[id]} ∪ seen) l'
      end
  end.

Definition check_execution (cp : RuntimeExecutionCheckpoint) (kv : string * ExecutionContext)
  : Result unit ExecutionRuntimeError :=
  let command := ctx_command kv.2 in
  let? _m := result_map_err InvalidCheckpoint
               (MemoryRequirement_validate_set (cmd_memory_requirements command)) in
  if recovery_support_mismatch command
  then Err (InvalidCheckpoint
         "checkpoint recovery declaration belongs to a different operation") else
  if (kv.1 =? "")%string
  then Err (InvalidCheckpoint "checkpoint contains an empty execution id") else
  if negb (bool_decide (cp_execution_nodes cp !! kv.1 = Some (cmd_node_id command)))
  then Err (InvalidCheckpoint ("execution " ++ kv.1 ++ " has inconsistent node ownership")) else
  if negb (contains_key kv.1 (cp_execution_status cp))
  then Err (InvalidCheckpoint ("execution " ++ kv.1 ++ " has no status"))
  else Ok tt.

Definition check_active (cp : RuntimeExecutionCheckpoint) (active : ActiveExecutionCheckpoint)
  : Result unit ExecutionRuntimeError :=
  match cp_executions cp !! aec_execution_id active with
  | None => Err (InvalidCheckpoint
      ("active execution " ++ aec_execution_id active ++ " has no context"))
  | Some context =>
      let command := ctx_command context in
      if negb (bool_decide (cmd_group_id command = aec_group_id active))
         || negb (bool_decide (cmd_task_ref command = aec_task_ref active))
         || negb (bool_decide (cmd_role_id command = aec_role_id active))
      then Err (InvalidCheckpoint
             ("active execution " ++ aec_execution_id active
                ++ " differs from its command Group Task role"))
      else Ok tt
  end.

Definition check_sequence (cp : RuntimeExecutionCheckpoint) (id : string)
  : Result unit ExecutionRuntimeError :=
  if negb (contains_key id (cp_execution_status cp))
  then Err (InvalidCheckpoint ("execution sequence " ++ id ++ " has no status"))
  else Ok tt.

Definition check_proof (cp : RuntimeExecutionCheckpoint) (proof : RelationProofCheckpoint)
  : Result unit ExecutionRuntimeError :=
  match List.find (fun r => bool_decide (rel_group_id r = rpc_group_id proof)
                            && bool_decide (rel_relation_id r = rpc_relation_id proof))
          (cp_relations cp) with
  | None => Ok tt
  | Some relation =>
      match cp_executions cp !! rpc_target_execution_id proof with
      | None => Err (InvalidCheckpoint
          ("relation " ++ as_str (rpc_relation_id proof)
             ++ " proof references unknown target execution " ++ rpc_target_execution_id proof))
      | Some context =>
          let command := ctx_command context in
          if negb (bool_decide (cmd_group_id command = rel_group_id relation))
             || negb (bool_decide (cmd_task_ref command = rel_target_task_ref relation))
             || negb (bool_decide (cmd_role_id command = rel_target_role_id relation))
          then Err (InvalidCheckpoint
                 ("relation " ++ as_str (rpc_relation_id proof)
                    ++ " proof does not reference its target logical slot"))
          else Ok tt
      end
  end.

Definition validate_checkpoint (cp : RuntimeExecutionCheckpoint)
  : Result unit ExecutionRuntimeError :=
  if admission_without_fact cp
  then Err (InvalidCheckpoint "Group continuation admission lacks a Node execution fact") else
  let? _g := check_generations ∅ (cp_attempt_generations cp) in
  let? _o := check_outbox (cp_executions cp) ∅ (cp_dispatch_outbox cp) in
  if existsb (fun id => negb (contains_key id (cp_executions cp)))
       (bset_iter (cp_cancellation_intents cp))
  then Err (InvalidCheckpoint "checkpoint cancellation references an unknown execution") else
  let? _e := try_for (check_execution cp) (btree_iter (cp_executions cp)) in
  let? _a := try_for (check_active cp) (cp_active_executions cp) in
  let? _s := try_for (check_sequence cp) (btree_keys (cp_execution_sequences cp)) in
  try_for (check_proof cp) (cp_relation_proofs cp).

(** ** [restore] *)

(** [if map.insert(key, value).is_some() { return Err }] over a list. *)
Fixpoint collect_unique {K V X} `{Countable K} (key : X -> K) (value : X -> V)
    (duplicate : ExecutionRuntimeError) (acc : gmap K V) (l : list X)
  : Result (gmap K V) ExecutionRuntimeError :=
  match l with
  | [] => Ok acc
  | x :: l' =>
      if contains_key (key x) acc then Err duplicate
      else collect_unique key value duplicate (<[key x := value x]> acc) l'
  end.

Definition check_terminal_time (cp : RuntimeExecutionCheckpoint) (id : string)
  : Result unit ExecutionRuntimeError :=
  if negb (contains_key id (cp_executions cp))
     || is_none_or (fun status => negb (is_terminal status)) (cp_execution_status cp !! id)
  then Err (InvalidCheckpoint
         "terminal receive-time evidence must belong to a known terminal attempt")
  else Ok tt.

(** The blank and duplicate checks of one loop iteration. *)
Fixpoint restore_spatial (acc : gmap ExecutionSlot SharedSpatialEvidence)
    (l : list SharedSpatialEvidence)
  : Result (gmap ExecutionSlot SharedSpatialEvidence) ExecutionRuntimeError :=
  match l with
  | [] => Ok acc
  | e :: l' =>
      if is_blank (sse_execution_id e) || is_blank (sse_frame_id e)
      then Err (InvalidCheckpoint "checkpoint contains invalid shared spatial evidence")
      else if contains_key (sse_slot e) acc
      then Err (InvalidCheckpoint "checkpoint contains duplicate shared spatial evidence")
      else restore_spatial (<[sse_slot e := e]> acc) l'
  end.

Definition fence_restored_channel (c : RuntimePeerChannel) : RuntimePeerChannel :=
  pc_set_readiness []
    (if bool_decide (pc_lifecycle c = Ready) then pc_set_lifecycle Fenced c else c).

Definition restored_status (s : ExecutionStatus) : ExecutionStatus :=
  if is_terminal s then s else Unknown.

Definition restored_activated (cp : RuntimeExecutionCheckpoint)
  : gset (ExecutionGroupId * TaskRef) :=
  list_to_set ((fun a => (aec_group_id a, aec_task_ref a)) <$>
    List.filter (fun a => is_some_and proves_activation
                            (cp_execution_status cp !! aec_execution_id a))
      (cp_active_executions cp)).

Definition check_restored_spatial (cp : RuntimeExecutionCheckpoint)
    (active : gmap ExecutionSlot string) (kv : ExecutionSlot * SharedSpatialEvidence)
  : Result unit ExecutionRuntimeError :=
  if negb (bool_decide (active !! kv.1 = Some (sse_execution_id kv.2)))
     || negb (bool_decide (cp_execution_nodes cp !! sse_execution_id kv.2
                           = Some (sse_node_id kv.2)))
  then Err (InvalidCheckpoint
         "checkpoint shared spatial evidence is not owned by the current attempt")
  else Ok tt.

(** [collect] into a map: a later entry replaces an earlier one. *)
Definition collect_map {K V X} `{Countable K} (key : X -> K) (value : X -> V) (l : list X)
  : gmap K V := foldl (fun acc x => <[key x := value x]> acc) ∅ l.

(** Attempts of checkpoints older than the counters have generation one. *)
Definition default_generations (active : gmap ExecutionSlot string)
    (generations : gmap ExecutionSlot N) : gmap ExecutionSlot N :=
  foldl (fun acc slot => or_insert slot 1%N acc) generations (btree_keys active).

Section Restore.
Context `{Serde}.

(** The manager that [restore] builds from the checked maps, before the
    relations are refreshed. *)
Definition rebuild (cp : RuntimeExecutionCheckpoint)
    (budgets : gmap ExecutionSlot RecoveryBudget) (active : gmap ExecutionSlot string)
    (rels : gmap RelationKey RuntimeExecutionRelation)
    (states : gmap RelationKey ExecutionRelationState) (fences : gset RelationKey)
    (proofs : gmap RelationKey string)
    (contexts : gmap CoordinationKey RuntimeCoordinationContext)
    (channels : gmap CoordinationKey RuntimePeerChannel)
    (spatial : gmap ExecutionSlot SharedSpatialEvidence) : RuntimeExecutionManager :=
  MkManager
    (cp_terminal_received_at cp) (cp_group_recoveries cp) (cp_recovery_stops cp)
    budgets (cp_progress cp) (cp_executions cp)
    (restored_status <$> cp_execution_status cp)
    (cp_execution_sequences cp) (cp_execution_nodes cp) active
    (dom (cp_executions cp)) (restored_activated cp) ∅
    rels states fences proofs contexts (fence_restored_channel <$> channels) spatial
    (default_generations active
       (collect_map agc_slot agc_generation (cp_attempt_generations cp)))
    (collect_map dic_execution_id dispatch_of_checkpoint (cp_dispatch_outbox cp))
    (cp_cancellation_intents cp).

(** The checks of the projection and the reconstruction, up to the validation
    of the three recovery histories. *)
Definition restore_maps (cp : RuntimeExecutionCheckpoint)
  : Result RuntimeExecutionManager ExecutionRuntimeError :=
  let? _t := try_for (check_terminal_time cp) (btree_keys (cp_terminal_received_at cp)) in
  let? _v := validate_checkpoint cp in
  let? relation_maps := restore_relation_maps (cp_relations cp) (cp_relation_states cp)
                          (cp_relation_fences cp) (cp_relation_proofs cp) in
  let '(rels, states, fences, proofs) := relation_maps in
  let? coordination_maps := restore_coordination_maps (cp_coordination_contexts cp)
                              (cp_peer_channels cp) in
  let '(contexts, channels) := coordination_maps in
  let? spatial := restore_spatial ∅ (cp_spatial_evidence cp) in
  let? active := collect_unique aec_slot aec_execution_id
      (InvalidCheckpoint "checkpoint contains duplicate active Group Task role")
      ∅ (cp_active_executions cp) in
  let? _p := try_for (check_restored_spatial cp active) (btree_iter spatial) in
  let? budgets := collect_unique rb_slot id
      (InvalidCheckpoint "checkpoint contains duplicate recovery budget slots")
      ∅ (cp_recovery_budgets cp) in
  Ok (refresh_all_relations_after_restore
        (rebuild cp budgets active rels states fences proofs contexts channels spatial)).

Definition restore (cp : RuntimeExecutionCheckpoint)
  : option (Result RuntimeExecutionManager ExecutionRuntimeError) :=
  match restore_maps cp with
  | Err e => Some (Err e)
  | Ok restored =>
      match (let? _p := validate_progress restored in validate_recovery_stops restored) with
      | Err e => Some (Err e)
      | Ok _ =>
          checked ← validate_group_recoveries restored;
          Some match checked with Err e => Err e | Ok _ => Ok restored end
      end
  end.
End Restore.
