(* ===== verification/Invariant.v ===== *)
(** * Invariants of a manager

    The well-formedness of a manager, one predicate per component, and the order
    in which its durable history may only grow. *)

From S2P Require Import Prelude Identity Execution Session StateModel RelationSpec RuntimeState Relation.
From S2P Require Import Coordination Attempts GroupRecovery RecoveryStop Dispatch Checkpoint.

Open Scope string_scope.

(** ** Attempts *)

(** What the caller of [prepare_dispatch] guarantees of a command: its intent was
    built from finite values and its memory prerequisites were validated. *)
Record command_ok (c : ExecutionCommand) : Prop := {
  co_finite : intent_finite (cmd_intent c);
  co_memory : MemoryRequirement_validate_set (cmd_memory_requirements c) = Ok tt
}.

Record context_wf (nodes : gmap string NodeId) (statuses : gmap string ExecutionStatus)
    (id : string) (ctx : ExecutionContext) : Prop := {
  cw_id : is_blank id = false;
  cw_command : command_ok (ctx_command ctx);
  cw_support : recovery_support_mismatch (ctx_command ctx) = false;
  cw_resources : normalized_resources (ctx_resource_ids ctx) = ctx_resource_ids ctx;
  cw_owner : nodes !! id = Some (cmd_node_id (ctx_command ctx));
  cw_status : is_Some (statuses !! id)
}.

Record attempts_wf (m : RuntimeExecutionManager) : Prop := {
  aw_context : forall id ctx, executions m !! id = Some ctx ->
    context_wf (execution_nodes m) (execution_status m) id ctx;
  aw_nodes : forall id, is_Some (execution_nodes m !! id) -> is_Some (execution_status m !! id);
  aw_active : forall slot id, active_executions m !! slot = Some id ->
    exists ctx, executions m !! id = Some ctx /\ cmd_slot (ctx_command ctx) = slot;
  aw_sequences : forall id, is_Some (execution_sequences m !! id) ->
    is_Some (execution_status m !! id);
  aw_received : forall id, is_Some (terminal_received_at m !! id) ->
    is_Some (executions m !! id) /\
    exists s, execution_status m !! id = Some s /\ is_terminal s = true;
  aw_generations : forall slot g, attempt_generations m !! slot = Some g -> g <> 0%N;
  aw_outbox : forall id i, dispatch_outbox m !! id = Some i ->
    di_execution_id i = id /\ (di_delivery_attempts i <= u32_max)%N /\
    executions m !! id = Some (MkExecutionContext (di_command i) (di_resource_ids i));
  aw_cancel : forall id, id ∈ cancellation_intents m -> is_Some (executions m !! id)
}.

(** ** Spatial evidence: only of current attempts, from their owners *)

Definition evidence_wf (m : RuntimeExecutionManager) : Prop :=
  forall slot e, spatial_evidence m !! slot = Some e ->
    sse_slot e = slot /\ is_blank (sse_frame_id e) = false /\
    active_executions m !! slot = Some (sse_execution_id e) /\
    execution_nodes m !! sse_execution_id e = Some (sse_node_id e).

(** ** Relations *)

Record relations_wf (m : RuntimeExecutionManager) : Prop := {
  rw_relation : forall key r, relations m !! key = Some r ->
    rel_key r = key /\ check_restored_relation r = Ok tt;
  rw_states : forall key, is_Some (relation_states m !! key) <-> is_Some (relations m !! key);
  rw_fences : forall key, key ∈ relation_fences m -> is_Some (relations m !! key);
  rw_proofs : forall key id, relation_proofs m !! key = Some id ->
    exists r ctx, relations m !! key = Some r /\ executions m !! id = Some ctx /\
                  cmd_slot (ctx_command ctx) = target_key r
}.

(** ** Coordination *)

(** A ready channel has a ready acknowledgement of every peer, all for one
    channel instance. *)
Definition ready_wf (c : RuntimePeerChannel) : Prop :=
  pc_lifecycle c = Ready ->
  (forall peer, peer ∈ pc_peers c -> exists ack, ack ∈ pc_readiness c /\
     pre_context_role_id ack = peer /\ pre_ready ack = true) /\
  (forall a b, a ∈ pc_readiness c -> b ∈ pc_readiness c -> pre_ready a = true ->
     pre_ready b = true -> pre_channel_instance_id a = pre_channel_instance_id b).

(** What [restore] checks of a channel, the number of its peers apart: no constructor of a
    context checks that one, so a registered channel may lack it. *)
Definition channel_shape (contexts : gmap CoordinationKey RuntimeCoordinationContext)
    (c : RuntimePeerChannel) : bool :=
  contains_key (pc_group_id c, pc_context_id c) contexts
  && (distinct_count (pc_peers c) =? length (pc_peers c))%nat
  && negb (is_blank (pcs_profile_id (pc_descriptor c)))
  && negb (is_blank (pcs_message_schema (pc_descriptor c)))
  && readiness_valid c.

Lemma channel_valid_shape contexts c :
  channel_valid contexts c = channel_shape contexts c && negb (length (pc_peers c) <? 2)%nat.
Proof. unfold channel_valid, channel_shape. 
  destruct (contains_key _ _), (length _ <? 2)%nat; simpl; by rewrite ?andb_false_r, ?andb_true_r.
Qed.

(** Every channel joins at least two Roles. *)
Definition paired (m : RuntimeExecutionManager) : Prop :=
  map_Forall (fun _ c => 2 <= length (pc_peers c)) (peer_channels m).

Record coordination_wf (m : RuntimeExecutionManager) : Prop := {
  kw_context : forall key c, coordination_contexts m !! key = Some c ->
    (rcc_group_id c, rcc_context_id c) = key /\
    (forall v, rcc_shared_view c = Some v -> GroupSharedViewSpec_validate v = Ok tt);
  kw_channel : forall key c, peer_channels m !! key = Some c ->
    (pc_group_id c, pc_context_id c) = key /\
    channel_shape (coordination_contexts m) c = true /\ ready_wf c
}.

(** ** Progress and recovery: the histories their own validators accept *)

Definition progress_wf (m : RuntimeExecutionManager) : Prop := validate_progress m = Ok tt.
Definition stops_wf (m : RuntimeExecutionManager) : Prop := validate_recovery_stops m = Ok tt.

(** An admitted replacement has a fact of its Node. *)
Definition admitted_wf (m : RuntimeExecutionManager) : Prop :=
  forall i id, i ∈ group_recoveries m -> is_Some (gri_admitted_at_ms i !! id) ->
    exists s, execution_status m !! id = Some s /\ s <> Dispatched.

(** Only members that were live when the set was frozen get a confirmation. *)
Definition confirmed_wf (m : RuntimeExecutionManager) : Prop :=
  forall i id, i ∈ group_recoveries m -> is_Some (gri_confirmed_at_ms i !! id) ->
    id ∉ gri_preserved_completed i.

Section Wf.
Context `{Serde}.

Record groups_wf (m : RuntimeExecutionManager) : Prop := {
  gw_valid : validate_group_recoveries m = Some (Ok tt);
  gw_admitted : admitted_wf m;
  gw_confirmed : confirmed_wf m
}.

Record wf (m : RuntimeExecutionManager) : Prop := {
  wf_attempts : attempts_wf m;
  wf_evidence : evidence_wf m;
  wf_relations : relations_wf m;
  wf_coordination : coordination_wf m;
  wf_progress : progress_wf m;
  wf_stops : stops_wf m;
  wf_groups : groups_wf m
}.
End Wf.

(** ** The durable history only grows *)

(** A stop keeps its purpose and deadline; its confirmation, release and abort
    are final. *)
Definition stop_extends (i j : RecoveryStopIntent) : Prop :=
  rsi_execution_id i = rsi_execution_id j /\
  rsi_requested_at_ms i = rsi_requested_at_ms j /\ rsi_deadline_ms i = rsi_deadline_ms j /\
  rsi_timeout_ms i = rsi_timeout_ms j /\ rsi_max_replacements i = rsi_max_replacements j /\
  (forall t, rsi_confirmed_at_ms i = Some t -> rsi_confirmed_at_ms j = Some t) /\
  (rsi_release_authorized i = true -> rsi_release_authorized j = true) /\
  (rsi_aborted i = true -> rsi_aborted j = true).

(** A Group recovery keeps its frozen set and deadline; confirmations, the
    published replacements, admissions and the abort are final. *)
Definition round_extends (i j : GroupRecoveryStopIntent) : Prop :=
  gri_recovery_id i = gri_recovery_id j /\ gri_group_id i = gri_group_id j /\
  gri_members i = gri_members j /\ gri_preserved_completed i = gri_preserved_completed j /\
  gri_requested_at_ms i = gri_requested_at_ms j /\ gri_deadline_ms i = gri_deadline_ms j /\
  gri_timeout_ms i = gri_timeout_ms j /\ gri_max_replacements i = gri_max_replacements j /\
  gri_confirmed_at_ms i ⊆ gri_confirmed_at_ms j /\
  (gri_replacements i <> ∅ -> gri_replacements i = gri_replacements j) /\
  (forall t, gri_prepared_at_ms i = Some t -> gri_prepared_at_ms j = Some t) /\
  gri_admitted_at_ms i ⊆ gri_admitted_at_ms j /\
  (gri_aborted i = true -> gri_aborted j = true).

Definition rounds_extend (l1 l2 : list GroupRecoveryStopIntent) : Prop :=
  forall k i, l1 !! k = Some i -> exists j, l2 !! k = Some j /\ round_extends i j.

Definition map_le {K} `{Countable K} (a b : gmap K N) : Prop :=
  forall k x, a !! k = Some x -> exists y, b !! k = Some y /\ (x <= y)%N.

(** A terminal status is final, a status never disappears, and an attempt its
    Node has answered never returns to [Dispatched]. *)
Definition status_extends (a b : gmap string ExecutionStatus) : Prop :=
  forall id s, a !! id = Some s ->
    exists t, b !! id = Some t /\ (is_terminal s = true -> t = s) /\
              (s <> Dispatched -> t <> Dispatched).

(** The inputs of an Execute intent are immutable; its delivery is final. *)
Definition intent_extends (i j : DispatchIntent) : Prop :=
  di_execution_id j = di_execution_id i /\ di_command j = di_command i /\
  di_resource_ids j = di_resource_ids i /\
  (di_delivery_attempts i <= di_delivery_attempts j)%N /\
  (di_delivered i = true -> di_delivered j = true).

(** A channel keeps its declaration, and one that was closed with its
    acknowledgements discarded stays so. *)
Definition closed_silent (c : RuntimePeerChannel) : Prop :=
  pc_lifecycle c = Closed /\ pc_readiness c = [].

Definition channel_extends (c d : RuntimePeerChannel) : Prop :=
  pc_group_id d = pc_group_id c /\ pc_context_id d = pc_context_id c /\
  pc_peers d = pc_peers c /\ pc_descriptor d = pc_descriptor c /\
  (closed_silent c -> closed_silent d).

Record extends (m m' : RuntimeExecutionManager) : Prop := {
  ex_executions : executions m ⊆ executions m';
  ex_nodes : execution_nodes m ⊆ execution_nodes m';
  ex_status : status_extends (execution_status m) (execution_status m');
  ex_sequences : map_le (execution_sequences m) (execution_sequences m');
  ex_received : terminal_received_at m ⊆ terminal_received_at m';
  ex_generations : map_le (attempt_generations m) (attempt_generations m');
  ex_cancel : cancellation_intents m ⊆ cancellation_intents m';
  ex_outbox : forall id i, dispatch_outbox m !! id = Some i ->
    exists j, dispatch_outbox m' !! id = Some j /\ intent_extends i j;
  ex_relations : relations m ⊆ relations m';
  ex_contexts : coordination_contexts m ⊆ coordination_contexts m';
  ex_stops : forall id i, recovery_stops m !! id = Some i ->
    exists j, recovery_stops m' !! id = Some j /\ stop_extends i j;
  ex_budgets : forall slot b, recovery_budgets m !! slot = Some b ->
    exists b', recovery_budgets m' !! slot = Some b' /\ rb_slot b' = rb_slot b /\
               rb_limit b' = rb_limit b /\ (rb_used b <= rb_used b')%N;
  ex_rounds : rounds_extend (group_recoveries m) (group_recoveries m');
  ex_channels : forall key c, peer_channels m !! key = Some c ->
    exists d, peer_channels m' !! key = Some d /\ channel_extends c d
}.

Lemma stop_extends_refl i : stop_extends i i.
Proof. by split_and!. Qed.
Lemma stop_extends_trans i j k : stop_extends i j -> stop_extends j k -> stop_extends i k.
Proof. unfold stop_extends. intuition (congruence || eauto). Qed.

Lemma round_extends_refl i : round_extends i i.
Proof. by split_and!. Qed.
Lemma round_extends_trans i j k : round_extends i j -> round_extends j k -> round_extends i k.
Proof.
  unfold round_extends. intros H1 H2. destruct_and!. split_and!; try congruence; eauto.
  all: try (etrans; eassumption).
  intros Hn. assert (gri_replacements i = gri_replacements j) as E by auto.
  rewrite E in Hn |- *. auto.
Qed.

#[export] Instance map_le_preorder {K} `{Countable K} : PreOrder (map_le (K := K)).
Proof.
  split.
  - intros a k x E. exists x. split; [done|lia].
  - intros a b c Hab Hbc k x E. destruct (Hab k x E) as (y & Ey & ?).
    destruct (Hbc k y Ey) as (z & Ez & ?). exists z. split; [done|lia].
Qed.

#[export] Instance status_extends_preorder : PreOrder status_extends.
Proof.
  split.
  - intros a id s E. by exists s.
  - intros a b c Hab Hbc id s E. destruct (Hab id s E) as (t & Et & Ht & Dt).
    destruct (Hbc id t Et) as (u & Eu & Hu & Du). exists u. split_and!; [done| |auto].
    intros Hs. rewrite (Ht Hs) in Hu. by apply Hu.
Qed.

#[export] Instance rounds_extend_preorder : PreOrder rounds_extend.
Proof.
  split.
  - intros l k i E. exists i. split; [done|apply round_extends_refl].
  - intros l1 l2 l3 H12 H23 k i E. destruct (H12 k i E) as (j & Ej & Hij).
    destruct (H23 k j Ej) as (j' & Ej' & Hj). exists j'. split; [done|].
    by eapply round_extends_trans.
Qed.

Lemma intent_extends_refl i : intent_extends i i.
Proof. by split_and!. Qed.

#[export] Instance extends_preorder : PreOrder extends.
Proof.
  split.
  - intros m. split; try done; try reflexivity; intros k x E; exists x;
      (split; [done|]);
      [apply intent_extends_refl|apply stop_extends_refl|split_and!; done|by split_and!].
  - intros a b c Hab Hbc. split; try (etrans; [apply Hab|apply Hbc]).
    + intros id i E. destruct (ex_outbox _ _ Hab id i E) as (j & Ej & Hj).
      destruct (ex_outbox _ _ Hbc id j Ej) as (k & Ek & Hk). exists k. split; [done|].
      unfold intent_extends in *. destruct_and!. split_and!; try congruence; [lia|auto].
    + intros id i E. destruct (ex_stops _ _ Hab id i E) as (j & Ej & Hj).
      destruct (ex_stops _ _ Hbc id j Ej) as (k & Ek & Hk). exists k. split; [done|].
      by eapply stop_extends_trans.
    + intros slot x E. destruct (ex_budgets _ _ Hab slot x E) as (y & Ey & Hy).
      destruct (ex_budgets _ _ Hbc slot y Ey) as (z & Ez & Hz). exists z.
      split; [done|]. destruct_and!. split_and!; try congruence. lia.
    + intros key x E. destruct (ex_channels _ _ Hab key x E) as (y & Ey & Hy).
      destruct (ex_channels _ _ Hbc key y Ey) as (z & Ez & Hz). exists z.
      split; [done|]. unfold channel_extends in *. destruct_and!. split_and!; try congruence. auto.
Qed.

(** ** Obligations of one transition

    A transition that changes none of the maps of a field of [extends] satisfies
    that field; [extend_frame] leaves only the fields that change. *)

Ltac extend_frame :=
  split; simpl; try done; try reflexivity;
  try (let k := fresh in let x := fresh in let E := fresh in
       intros k x E; exists x; split; [exact E|];
       first [apply intent_extends_refl | apply stop_extends_refl | by split_and!]).

(** ** Changes of the relation maps alone *)

Definition rel_frame (s : gmap RelationKey ExecutionRelationState) (f : gset RelationKey)
    (p : gmap RelationKey string) (m : RuntimeExecutionManager) : RuntimeExecutionManager :=
  set_relation_proofs p (set_relation_fences f (set_relation_states s m)).

Lemma extends_rel_frame s f p m : extends m (rel_frame s f p m).
Proof. extend_frame. Qed.

(** * Preservation: relations

    Refreshing relations changes only the relation maps, keeps them consistent
    with the registry and never removes a reconciliation fence. *)

Open Scope string_scope.

(** ** Refreshing *)

(** [m'] is [m] with other relation maps, whose fences include those of [m]. *)
Definition refreshed (m m' : RuntimeExecutionManager) : Prop :=
  exists s f p, m' = rel_frame s f p m /\ relation_fences m ⊆ f.

Lemma refreshed_refl m : refreshed m m.
Proof. exists (relation_states m), (relation_fences m), (relation_proofs m). by destruct m. Qed.

Lemma refreshed_trans a b c : refreshed a b -> refreshed b c -> refreshed a c.
Proof.
  intros (s & f & p & -> & Hf) (s' & f' & p' & -> & Hf'). simpl in Hf'.
  exists s', f', p'. split; [done|]. set_solver.
Qed.

Definition refreshed_fences (m : RuntimeExecutionManager) (key : RelationKey)
    (current : ExecutionRelationState) : gset RelationKey :=
  if requires_reconciliation current then {[key]} ∪ relation_fences m else relation_fences m.

Definition refreshed_proofs (m : RuntimeExecutionManager) (key : RelationKey)
    (r : RuntimeExecutionRelation) (current : ExecutionRelationState) : gmap RelationKey string :=
  if bool_decide (current = Satisfied) then
    match active_executions m !! target_key r with
    | Some id => <[key := id]> (relation_proofs m)
    | None => relation_proofs m
    end
  else relation_proofs m.

(** The state after one refresh, in one equation. *)
Lemma refresh_relation_state m key :
  (refresh_relation m key).1 =
  match relations m !! key with
  | None => m
  | Some r =>
      let current := derive_relation_state m r in
      rel_frame (<[key := current]> (relation_states m)) (refreshed_fences m key current)
        (refreshed_proofs m key r current) m
  end.
Proof.
  unfold refresh_relation, refreshed_fences, refreshed_proofs.
  destruct (relations m !! key) as [r|]; [|reflexivity]. simpl.
  generalize (derive_relation_state m r) as current. intros current.
  destruct (decide (current = Satisfied)) as [->|Hs].
  - rewrite (bool_decide_eq_true_2 (Satisfied = Satisfied)) by done. simpl.
    destruct (active_executions m !! target_key r); case_bool_decide; reflexivity.
  - rewrite (bool_decide_eq_false_2 (current = Satisfied)) by done.
    destruct (requires_reconciliation current); case_bool_decide; reflexivity.
Qed.

Lemma refresh_relation_refreshed m key : refreshed m (refresh_relation m key).1.
Proof.
  rewrite refresh_relation_state. destruct (relations m !! key); [|apply refreshed_refl].
  eexists _, _, _. split; [reflexivity|]. unfold refreshed_fences. case_match; set_solver.
Qed.

Lemma refresh_keys_refreshed m keys : refreshed m (refresh_keys m keys).1.
Proof.
  revert m. induction keys as [|key keys IH]; intros m; simpl; [apply refreshed_refl|].
  pose proof (refresh_relation_refreshed m key) as H1.
  destruct (refresh_relation m key) as [m1 ev1]. specialize (IH m1).
  destruct (refresh_keys m1 keys) as [m2 ev2]. simpl in *. by eapply refreshed_trans.
Qed.

Lemma refresh_relation_wf m key :
  attempts_wf m -> relations_wf m -> relations_wf (refresh_relation m key).1.
Proof.
  intros Ha [Hrel Hst Hfe Hpr]. rewrite refresh_relation_state.
  destruct (relations m !! key) as [r|] eqn:Er; [|done]. split; simpl; [done|..].
  - intros k. rewrite lookup_insert_is_Some, Hst. destruct (decide (key = k)); naive_solver.
  - unfold refreshed_fences. case_match; [|done].
    intros k [->%elem_of_singleton|?]%elem_of_union; eauto.
  - unfold refreshed_proofs. case_bool_decide; [|done].
    destruct (active_executions m !! target_key r) as [id|] eqn:Et; [|done].
    intros k i [[<- <-]|[_ ?]]%lookup_insert_Some; [|eauto].
    destruct (aw_active _ Ha _ _ Et) as (ctx & Ec & Es). by exists r, ctx.
Qed.

Lemma attempts_wf_refreshed m m' : refreshed m m' -> attempts_wf m -> attempts_wf m'.
Proof. intros (s & f & p & -> & _) H. destruct H. split; done. Qed.

Lemma refresh_keys_wf m keys :
  attempts_wf m -> relations_wf m -> relations_wf (refresh_keys m keys).1.
Proof.
  revert m. induction keys as [|key keys IH]; intros m Ha Hr; simpl; [done|].
  pose proof (refresh_relation_refreshed m key) as H1.
  pose proof (refresh_relation_wf m key Ha Hr) as H2.
  destruct (refresh_relation m key) as [m1 ev1]. simpl in *.
  specialize (IH m1 (attempts_wf_refreshed _ _ H1 Ha) H2).
  by destruct (refresh_keys m1 keys).
Qed.
