(* ===== verification/InvRecovery.v ===== *)
(** * Preservation: progress and isolated recovery

    The histories of progress and of isolated stop-and-replace recovery stay
    acceptable to their own restore-time validators. *)

From S2P Require Import Prelude Identity Execution Session RelationSpec StateModel.
From S2P Require Import RuntimeState Relation Coordination Attempts GroupRecovery RecoveryStop.
From S2P Require Import Dispatch Checkpoint Invariant.

Open Scope string_scope.

Lemma extends_context m m' id ctx :
  extends m m' -> executions m !! id = Some ctx -> executions m' !! id = Some ctx.
Proof. intros He E. eapply lookup_weaken; [exact E|apply He]. Qed.

Lemma extends_terminal m m' id s :
  extends m m' -> is_terminal s = true ->
  execution_status m !! id = Some s -> execution_status m' !! id = Some s.
Proof. intros He Ht E. destruct (ex_status _ _ He id s E) as (t & -> & Hs & _). by rewrite Hs. Qed.

(** ** Progress *)

Lemma progress_wf_iff m :
  progress_wf m <-> forall id o, progress m !! id = Some o ->
    exists ctx, executions m !! id = Some ctx /\
                progress_entry_valid id o (ctx_command ctx) = true.
Proof.
  unfold progress_wf, validate_progress. rewrite try_for_ok. split.
  - intros Hp id o E. specialize (Hp (id, o)). rewrite elem_of_btree_iter in Hp.
    specialize (Hp E). unfold check_progress in Hp. simpl in Hp.
    destruct (executions m !! id) as [ctx|]; [|done]. exists ctx. split; [done|].
    by destruct (progress_entry_valid _ _ _).
  - intros Hp [id o]. rewrite elem_of_btree_iter. intros E. unfold check_progress. simpl.
    destruct (Hp id o E) as (ctx & -> & ->). done.
Qed.

Lemma progress_mono m m' :
  extends m m' -> progress m' ⊆ progress m -> progress_wf m -> progress_wf m'.
Proof.
  intros He Hs. rewrite !progress_wf_iff. intros Hp id o E.
  destruct (Hp id o) as (ctx & Ec & Hv); [by eapply lookup_weaken|].
  exists ctx. split; [by eapply extends_context|done].
Qed.

Lemma admissible_entry_valid m record sample command t :
  progress_admissible m record sample command = true -> (t <= sr_received_at record)%N ->
  progress_entry_valid (ops_execution_id sample)
    (MkProgressObservation sample (ProgressSource_from_record record) t) command = true.
Proof.
  unfold progress_admissible, progress_entry_valid. simpl. intros Ha Ht. bool_facts.
  rewrite !andb_true_iff, !negb_true_iff, !bool_decide_eq_true.
  rewrite String.eqb_refl, N.eqb_neq, N.ltb_ge. by split_and!.
Qed.

(** An observation is stored only with an advance time not after its record. *)
Lemma observe_progress_cases m record sample :
  observe_progress m record sample = (m, false) \/
  exists ctx t, executions m !! ops_execution_id sample = Some ctx /\
    progress_admissible m record sample (ctx_command ctx) = true /\
    (t = sr_received_at record \/
     exists previous, progress m !! ops_execution_id sample = Some previous /\
       t = po_last_advanced_at previous /\ progress_regresses record sample previous = false) /\
    observe_progress m record sample =
      (set_progress (<[ops_execution_id sample :=
         MkProgressObservation sample (ProgressSource_from_record record) t]> (progress m)) m, true).
Proof.
  unfold observe_progress. destruct (executions m !! _) as [ctx|] eqn:Ec; [|by left].
  destruct (negb _) eqn:Ea; [by left|]. bool_facts.
  destruct (progress m !! _) as [prev|] eqn:Ep.
  - destruct (negb _); [by left|]. case_bool_decide.
    + destruct (progress_regresses _ _ _) eqn:Er; [by left|right].
      destruct (progress_unchanged _ _ _);
        [exists ctx, (po_last_advanced_at prev)|exists ctx, (sr_received_at record)];
        split_and!; eauto.
    + right. exists ctx, (sr_received_at record). split_and!; eauto.
  - right. exists ctx, (sr_received_at record). split_and!; eauto.
Qed.

Lemma observe_progress_wf m record sample :
  progress_wf m -> progress_wf (observe_progress m record sample).1.
Proof.
  intros Hp. destruct (observe_progress_cases m record sample) as [->|(ctx & t & Ec & Ha & Ht & ->)];
    [done|]. simpl. rewrite progress_wf_iff in Hp |- *. simpl.
  intros id o [[<- <-]|[_ E]]%lookup_insert_Some; [|eauto].
  exists ctx. split; [done|]. apply (admissible_entry_valid m); [done|].
  destruct Ht as [->|(prev & Ep & -> & Hr)]; [done|].
  destruct (Hp _ _ Ep) as (c' & _ & Hv).
  unfold progress_entry_valid, progress_regresses in *. bool_facts. lia.
Qed.

(** ** Stops and budgets *)

Definition stop_ok (m : RuntimeExecutionManager) (id : string) (i : RecoveryStopIntent)
    (slot : ExecutionSlot) : Prop :=
  rsi_execution_id i = id /\ (0 < rsi_timeout_ms i <= 3600000)%N /\
  u64_checked_add (rsi_requested_at_ms i) (rsi_timeout_ms i) = Some (rsi_deadline_ms i) /\
  id ∈ cancellation_intents m /\
  (exists b, recovery_budgets m !! slot = Some b /\ rb_limit b = rsi_max_replacements i /\
             (0 < rb_used b <= rb_limit b)%N) /\
  (forall t, rsi_confirmed_at_ms i = Some t ->
     (rsi_requested_at_ms i <= t)%N /\ execution_status m !! id = Some Cancelled) /\
  (rsi_release_authorized i = true ->
     exists t, rsi_confirmed_at_ms i = Some t /\ (t < rsi_deadline_ms i)%N).

Lemma recovery_stop_valid_iff m id i slot :
  recovery_stop_valid m id i slot = true <-> stop_ok m id i slot.
Proof.
  unfold recovery_stop_valid, stop_ok, status_of, set_contains.
  rewrite !andb_true_iff, !negb_true_iff, !bool_decide_eq_true, is_some_and_true,
    is_some_and_false, andb_false_iff, negb_false_iff, is_some_and_true,
    N.eqb_neq, N.ltb_ge, String.eqb_eq.
  assert ((forall a, rsi_confirmed_at_ms i = Some a ->
     (a <? rsi_requested_at_ms i)%N
     || negb (bool_decide (execution_status m !! id = Some Cancelled)) = false) <->
    (forall t, rsi_confirmed_at_ms i = Some t ->
     (rsi_requested_at_ms i <= t)%N /\ execution_status m !! id = Some Cancelled)) as ->.
  { split; intros Hc t Et; specialize (Hc t Et).
    - by bool_facts.
    - rewrite orb_false_iff, N.ltb_ge, negb_false_iff, bool_decide_eq_true. done. }
  assert ((exists a, recovery_budgets m !! slot = Some a /\
      (rb_limit a =? rsi_max_replacements i)%N && (0 <? rb_used a)%N
      && (rb_used a <=? rb_limit a)%N = true) <->
    (exists b, recovery_budgets m !! slot = Some b /\ rb_limit b = rsi_max_replacements i /\
             (0 < rb_used b <= rb_limit b)%N)) as ->.
  { split; intros (b & Eb & Hb); exists b; split; try done.
    - bool_facts. split_and!; lia.
    - rewrite !andb_true_iff, N.eqb_eq, N.ltb_lt, N.leb_le. lia. }
  setoid_rewrite N.ltb_lt.
  destruct (rsi_release_authorized i); split; intros H; destruct_and!; split_and!;
    try done; try lia; try naive_solver.
Qed.

(** Whether the attempt occupied the slot. *)
Definition occupied (m : RuntimeExecutionManager) (slot : ExecutionSlot) (id : string) : bool :=
  is_some_and (fun context => bool_decide (cmd_slot (ctx_command context) = slot))
    (executions m !! id).

Definition budget_ok (m : RuntimeExecutionManager) (slot : ExecutionSlot) (b : RecoveryBudget)
  : Prop :=
  rb_slot b = slot /\ (1 <= rb_limit b <= 16)%N /\ (0 < rb_used b <= rb_limit b)%N /\
  N.of_nat (stops_of_slot m slot) = rb_used b.

Lemma check_recovery_budget_iff m slot b :
  check_recovery_budget m (slot, b) = Ok tt <-> budget_ok m slot b.
Proof.
  unfold check_recovery_budget, budget_ok. simpl.
  destruct (negb _ || _ || _ || _ || _) eqn:E; split; try done.
  - intros (Hs & Hl & Hu & Hc). exfalso. subst slot.
    rewrite !orb_true_iff, !negb_true_iff in E.
    rewrite bool_decide_eq_false, andb_false_iff, !N.leb_gt, N.eqb_eq, N.ltb_lt, N.eqb_neq in E.
    destruct E as [[[[?|[?|?]]|?]|?]|?]; [done|lia..].
  - intros _. bool_facts. split_and!; try done; lia.
Qed.

Lemma stops_wf_iff m :
  stops_wf m <->
  (forall id i, recovery_stops m !! id = Some i ->
     exists ctx, executions m !! id = Some ctx /\ stop_ok m id i (cmd_slot (ctx_command ctx))) /\
  (forall slot b, recovery_budgets m !! slot = Some b -> budget_ok m slot b).
Proof.
  unfold stops_wf, validate_recovery_stops. split.
  - intros Hv. destruct (try_for _ (btree_iter (recovery_stops m))) as [[]|] eqn:Es; [|done].
    simpl in Hv. rewrite try_for_ok in Es. rewrite try_for_ok in Hv. split.
    + intros id i E. specialize (Es (id, i)). rewrite elem_of_btree_iter in Es.
      specialize (Es E). unfold check_recovery_stop in Es. simpl in Es.
      destruct (executions m !! id) as [ctx|]; [|done]. exists ctx. split; [done|].
      rewrite <- recovery_stop_valid_iff. by destruct (recovery_stop_valid _ _ _ _).
    + intros slot b E. rewrite <- check_recovery_budget_iff. apply Hv.
      by rewrite elem_of_btree_iter.
  - intros [Hs Hb].
    assert (try_for (check_recovery_stop m) (btree_iter (recovery_stops m)) = Ok tt) as ->.
    { rewrite try_for_ok. intros [id i]. rewrite elem_of_btree_iter. intros E.
      destruct (Hs id i E) as (ctx & Ec & Hok%recovery_stop_valid_iff).
      unfold check_recovery_stop. simpl. by rewrite Ec, Hok. }
    rewrite try_for_ok. intros [slot b]. rewrite elem_of_btree_iter.
    rewrite check_recovery_budget_iff. apply Hb.
Qed.

Lemma length_filter_Permutation {A} (f : A -> bool) l1 l2 :
  l1 ≡ₚ l2 -> length (List.filter f l1) = length (List.filter f l2).
Proof. induction 1; simpl; repeat case_match; simpl; lia. Qed.

Lemma length_filter_fmap {A B} (g : A -> B) (f : B -> bool) l :
  length (List.filter f (g <$> l)) = length (List.filter (fun x => f (g x)) l).
Proof. induction l as [|x l IH]; [done|]. rewrite fmap_cons. simpl. case_match; simpl; by rewrite <- IH. Qed.

(** The count depends on the identities alone. *)
Lemma stops_of_slot_ids m slot :
  stops_of_slot m slot =
  length (List.filter (occupied m slot)
            (btree_values (rsi_execution_id <$> recovery_stops m))).
Proof.
  rewrite (length_filter_Permutation _ _ _ (btree_values_fmap _ _)), length_filter_fmap. done.
Qed.

Lemma stops_mono m m' :
  extends m m' -> recovery_stops m' = recovery_stops m ->
  recovery_budgets m' = recovery_budgets m -> stops_wf m -> stops_wf m'.
Proof.
  intros He Es Eb. rewrite !stops_wf_iff. intros [Hs Hb]. rewrite Es, Eb. split.
  - intros id i E. destruct (Hs id i E) as (ctx & Ec & Hok). exists ctx.
    split; [by eapply extends_context|].
    destruct Hok as (H1 & H2 & H3 & H4 & H5 & H6 & H7). unfold stop_ok. rewrite Eb.
    split_and!; try done; try lia.
    + by apply (ex_cancel _ _ He).
    + intros t Et. destruct (H6 t Et) as [Hr Hc]. split; [done|].
      by apply (extends_terminal m m' id Cancelled).
  - intros slot b E. destruct (Hb slot b E) as (Hb1 & Hb2 & Hb3 & Hb4).
    unfold budget_ok. rewrite <- Hb4. split_and!; try done; try lia. f_equal. unfold stops_of_slot. rewrite Es. f_equal. apply filter_ext_in. intros i Hi.
    apply list_elem_of_In, elem_of_btree_values in Hi as [id Ei].
    destruct (Hs id i Ei) as (ctx & Ec & (-> & _)). by rewrite Ec, (extends_context _ _ _ _ He Ec).
Qed.

(** Replacing an authorization by a later version of itself. *)
Lemma stops_update m m' id i j :
  recovery_stops m !! id = Some i ->
  executions m' = executions m -> recovery_budgets m' = recovery_budgets m ->
  execution_status m' = execution_status m ->
  cancellation_intents m ⊆ cancellation_intents m' ->
  recovery_stops m' = <[id := j]> (recovery_stops m) ->
  rsi_execution_id j = rsi_execution_id i ->
  (forall slot, stop_ok m id i slot -> stop_ok m id j slot) ->
  stops_wf m -> stops_wf m'.
Proof.
  intros Ei Ex Eb Est Hc Es Hid Hok. rewrite !stops_wf_iff, Ex, Eb, Es.
  assert (forall k x slot, stop_ok m k x slot -> stop_ok m' k x slot) as Hm.
  { unfold stop_ok. intros k x slot H. rewrite Eb, Est. destruct_and!.
    split_and!; try done; try lia. by apply Hc. }
  intros [Hs Hb]. split.
  - intros k x [[<- <-]|[_ E]]%lookup_insert_Some.
    + destruct (Hs id i Ei) as (ctx & Ec & Ho). exists ctx. split; [done|]. by apply Hm, Hok.
    + destruct (Hs k x E) as (ctx & Ec & Ho). exists ctx. split; [done|]. by apply Hm.
  - intros slot b E. destruct (Hb slot b E) as (Hb1 & Hb2 & Hb3 & Hb4).
    unfold budget_ok. rewrite <- Hb4. split_and!; try done; try lia. f_equal. rewrite !stops_of_slot_ids, Es, fmap_insert, Hid.
    rewrite insert_id by (by rewrite lookup_fmap, Ei). unfold occupied. by rewrite Ex.
Qed.

Lemma extends_stop_update m id i j :
  recovery_stops m !! id = Some i -> stop_extends i j ->
  extends m (set_recovery_stops (<[id := j]> (recovery_stops m)) m).
Proof.
  intros Ei Hij. extend_frame. intros k x E. destruct (decide (id = k)) as [<-|Hk].
  - rewrite lookup_insert_eq. exists j. split; [done|]. by simplify_eq.
  - rewrite lookup_insert_ne by done. exists x. split; [done|apply stop_extends_refl].
Qed.

Lemma confirm_recovery_stop_extends m id t : extends m (confirm_recovery_stop m id t).
Proof.
  unfold confirm_recovery_stop. case_bool_decide; [|reflexivity].
  destruct (recovery_stops m !! id) as [i|] eqn:Ei; [|reflexivity].
  destruct (is_none _ && _) eqn:Ec; [|reflexivity]. apply (extends_stop_update m id i); [done|].
  bool_facts. unfold stop_extends. simpl. split_and!; try done.
  intros t' Et. by rewrite Et in *.
Qed.

Lemma confirm_recovery_stop_wf m id t : stops_wf m -> stops_wf (confirm_recovery_stop m id t).
Proof.
  unfold confirm_recovery_stop. case_bool_decide as Hs; [|done].
  destruct (recovery_stops m !! id) as [i|] eqn:Ei; [|done].
  destruct (is_none _ && _) eqn:Ec; [|done]. bool_facts.
  eapply (stops_update m _ id i); try done.
  intros slot (H1 & H2 & H3 & H4 & H5 & H6 & H7). unfold stop_ok. simpl. split_and!; try done; try lia.
  - by intros ? [= <-].
  - intros Hr. destruct (H7 Hr) as (t' & Et & _). by rewrite Et in *.
Qed.

(** The release of an attempt whose confirmed stop is ready. *)
Lemma mark_recovery_release_cases m command :
  mark_recovery_release m command = m \/
  exists id i, current_attempt_of m command = Some id /\ recovery_stops m !! id = Some i /\
    mark_recovery_release m command =
      set_recovery_stops (<[id := rsi_set_released i]> (recovery_stops m)) m.
Proof.
  unfold mark_recovery_release. destruct (current_attempt_of m command) as [id|]; [|by left].
  destruct (recovery_stops m !! id) as [i|] eqn:Ei; [|by left]. right. by exists id, i.
Qed.

Lemma mark_recovery_release_extends m command : extends m (mark_recovery_release m command).
Proof.
  destruct (mark_recovery_release_cases m command) as [->|(id & i & _ & Ei & ->)]; [reflexivity|].
  by apply (extends_stop_update m id i).
Qed.

Lemma mark_recovery_release_wf m command now :
  recovery_stop_ready m command now = true -> stops_wf m ->
  stops_wf (mark_recovery_release m command).
Proof.
  intros Hr. destruct (mark_recovery_release_cases m command) as [->|(id & i & Ea & Ei & ->)]; [done|].
  unfold recovery_stop_ready in Hr. rewrite Ea in Hr. simpl in Hr. rewrite Ei in Hr. simpl in Hr.
  bool_facts. eapply (stops_update m _ id i); try done.
  intros slot (H1' & H2' & H3' & H4' & H5' & H6' & H7'). unfold stop_ok. simpl.
  split_and!; try done; try lia. intros _.
  destruct (rsi_confirmed_at_ms i) as [t|]; [|done]. simpl in *. bool_facts. by exists t.
Qed.

(** ** Requesting an isolated stop *)

Lemma stops_of_slot_add m m' id i slot ctx :
  executions m' = executions m -> recovery_stops m !! id = None -> rsi_execution_id i = id ->
  recovery_stops m' = <[id := i]> (recovery_stops m) -> executions m !! id = Some ctx ->
  stops_of_slot m' slot =
    (if bool_decide (cmd_slot (ctx_command ctx) = slot) then 1 else 0) + stops_of_slot m slot.
Proof.
  intros Ex En Hid Es Ec. unfold stops_of_slot. rewrite Es, Ex.
  rewrite (length_filter_Permutation _ _ _ (btree_values_insert _ _ _ En)). simpl.
  rewrite Hid, Ec. simpl. by case_bool_decide.
Qed.

Lemma stops_of_slot_zero m slot :
  stops_wf m -> recovery_budgets m !! slot = None -> stops_of_slot m slot = 0.
Proof.
  rewrite stops_wf_iff. intros [Hs _] Hn. unfold stops_of_slot.
  destruct (List.filter _ _) as [|i l] eqn:El; [done|exfalso].
  assert (In i (i :: l)) as Hi by (by left). rewrite <- El in Hi.
  apply filter_In in Hi as [Hi Ho]. apply list_elem_of_In, elem_of_btree_values in Hi as [id Ei].
  destruct (Hs id i Ei) as (ctx & Ec & (Hid & _ & _ & _ & (b & Eb & _) & _)).
  rewrite Hid, Ec in Ho. simpl in Ho. bool_facts. subst slot. congruence.
Qed.

(** The state after an admitted request: the slot's budget is [b] and the
    deadline [d]. *)
Definition admitted_stop (m : RuntimeExecutionManager) (id : string) (slot : ExecutionSlot)
    (b : RecoveryBudget) (i : RecoveryStopIntent) : RuntimeExecutionManager :=
  set_cancellation_intents ({[id]} ∪ cancellation_intents m)
    (set_recovery_stops (<[id := i]> (recovery_stops m))
       (set_recovery_budgets
          (<[slot := MkRecoveryBudget (rb_slot b) (rb_limit b) (rb_used b + 1)]>
             (recovery_budgets m)) m)).

Lemma or_insert_insert {K V} `{Countable K} (k : K) (v w : V) (m : gmap K V) :
  <[k := w]> (or_insert k v m) = <[k := w]> m.
Proof. unfold or_insert. destruct (m !! k); [done|]. by rewrite insert_insert_eq. Qed.

(** An exhausted or changed budget changes nothing: the entry of a new slot is
    created only when its request is admitted. *)
Lemma admit_recovery_stop_cases m id slot now timeout max :
  (exists e, admit_recovery_stop m id slot now timeout max = (m, Err e)) \/
  exists b d, default (MkRecoveryBudget slot max 0) (recovery_budgets m !! slot) = b /\
    rb_limit b = max /\ (rb_used b < rb_limit b)%N /\ (1 <= max <= 16)%N /\
    (0 < timeout <= 3600000)%N /\ u64_checked_add now timeout = Some d /\
    has_terminal_status m id = false /\
    admit_recovery_stop m id slot now timeout max =
      (admitted_stop m id slot b (MkRecoveryStop id now d timeout max None false false), Ok tt).
Proof.
  unfold admit_recovery_stop. destruct (has_terminal_status m id || _) eqn:Eg; [eauto|].
  destruct (u64_checked_add now timeout) as [d|] eqn:Ed; [|eauto].
  unfold recovery_budget_invalid in Eg. bool_facts.
  rewrite lookup_or_insert, decide_True by done. simpl.
  set (b := default (MkRecoveryBudget slot max 0) (recovery_budgets m !! slot)).
  destruct (negb _ || _) eqn:Eb.
  - left. eexists. f_equal. unfold or_insert.
    destruct (recovery_budgets m !! slot) as [b'|] eqn:Em.
    + by destruct m.
    + exfalso. subst b. simpl in Eb. rewrite N.eqb_refl in Eb. simpl in Eb. bool_facts. lia.
  - right. bool_facts. exists b, d. split_and!; try done; try lia.
    unfold admitted_stop. by rewrite or_insert_insert.
Qed.

Lemma admitted_stop_extends m id slot b i :
  recovery_stops m !! id = None ->
  b = default (MkRecoveryBudget slot (rb_limit b) 0) (recovery_budgets m !! slot) ->
  extends m (admitted_stop m id slot b i).
Proof.
  intros En Hb. unfold admitted_stop. extend_frame.
  - set_solver.
  - intros k x E. rewrite lookup_insert_ne by congruence. exists x.
    split; [done|apply stop_extends_refl].
  - intros k x E. destruct (decide (slot = k)) as [<-|Hk].
    + rewrite lookup_insert_eq. rewrite E in Hb. simpl in Hb. subst b. eexists.
      split; [done|]. simpl. split_and!; try done. lia.
    + rewrite lookup_insert_ne by done. exists x. by split_and!.
Qed.

Lemma admitted_stop_wf m id slot b d now timeout max ctx :
  stops_wf m -> recovery_stops m !! id = None ->
  executions m !! id = Some ctx -> cmd_slot (ctx_command ctx) = slot ->
  b = default (MkRecoveryBudget slot max 0) (recovery_budgets m !! slot) ->
  rb_limit b = max -> (rb_used b < rb_limit b)%N -> (1 <= max <= 16)%N ->
  (0 < timeout <= 3600000)%N -> u64_checked_add now timeout = Some d ->
  stops_wf (admitted_stop m id slot b (MkRecoveryStop id now d timeout max None false false)).
Proof.
  intros Hwf En Ec Hsl Hb Hlim Hused Hmax Ht Hd.
  pose proof (proj1 (stops_wf_iff m) Hwf) as [Hs Hbs].
  set (i := MkRecoveryStop _ _ _ _ _ _ _ _).
  assert (rb_slot b = slot /\ N.of_nat (stops_of_slot m slot) = rb_used b) as [Hbslot Hcount].
  { destruct (recovery_budgets m !! slot) as [b'|] eqn:Eb; simpl in Hb; subst b.
    - by destruct (Hbs slot b' Eb) as (? & _ & _ & ?).
    - by rewrite stops_of_slot_zero. }
  rewrite stops_wf_iff. split; simpl.
  - intros k x [[<- <-]|[Hne E]]%lookup_insert_Some.
    + exists ctx. split; [done|]. rewrite Hsl. unfold stop_ok. simpl. split_and!; try done; try lia.
      * set_solver.
      * rewrite lookup_insert_eq. eexists. split; [done|]. simpl. lia.
    + destruct (Hs k x E) as (c' & Ec' & (H1 & H2 & H3 & H4 & (b' & Eb' & Hb') & H6)).
      exists c'. split; [done|]. unfold stop_ok. simpl. split_and!; try done; try lia.
      * set_solver.
      * rewrite lookup_insert. case_decide as Hk; [|eauto]. rewrite Hk, Eb' in Hb. simpl in Hb.
        subst b. eexists. split; [done|]. simpl. lia.
      * by apply H6.
      * by apply H6.
  - intros k x Ek. pose proof (stops_of_slot_add m (admitted_stop m id slot b i) id i k ctx
      eq_refl En eq_refl eq_refl Ec) as Hadd.
    apply lookup_insert_Some in Ek as [[<- <-]|[Hne E]].
    + unfold budget_ok. rewrite Hadd, bool_decide_eq_true_2 by done. simpl.
      split_and!; try done; lia.
    + destruct (Hbs k x E) as (H1 & H2 & H3 & H4). unfold budget_ok.
      rewrite Hadd, bool_decide_eq_false_2 by congruence. split_and!; try done; lia.
Qed.

Lemma request_recovery_stop_cases m id node now timeout max m' r :
  request_recovery_stop m id node now timeout max = Some (m', r) ->
  (m' = m) \/
  exists ctx, executions m !! id = Some ctx /\ cmd_node_id (ctx_command ctx) = node /\
    active_executions m !! cmd_slot (ctx_command ctx) = Some id /\
    declares_role_retry (ctx_command ctx) = true /\ recovery_stops m !! id = None /\
    (m', r) = admit_recovery_stop m id (cmd_slot (ctx_command ctx)) now timeout max.
Proof.
  unfold request_recovery_stop. destruct (executions m !! id) as [ctx|] eqn:Ec; [|naive_solver].
  destruct (negb _ || negb _) eqn:Eg; [naive_solver|]. bool_facts.
  destruct (group_recovery_holds_dispatch _ _ _) as [[]|]; simpl; [naive_solver| |done].
  destruct (cmd_recovery_support _) as [d|] eqn:Es; [|naive_solver].
  destruct (negb _ || negb _) eqn:Ed; [naive_solver|]. bool_facts.
  destruct (recovery_stops m !! id) as [i|] eqn:Ei; [naive_solver|].
  intros [= <-]. right. exists ctx. split_and!; try done.
  unfold declares_role_retry. rewrite Es. simpl. by rewrite bool_decide_eq_true_2 by done.
Qed.

Lemma request_recovery_stop_inv m id node now timeout max m' r :
  request_recovery_stop m id node now timeout max = Some (m', r) ->
  stops_wf m -> extends m m' /\ stops_wf m'.
Proof.
  intros E Hwf.
  destruct (request_recovery_stop_cases _ _ _ _ _ _ _ _ E)
    as [->|(ctx & Ec & _ & _ & _ & En & Ea)]; [done|].
  destruct (admit_recovery_stop_cases m id (cmd_slot (ctx_command ctx)) now timeout max)
    as [[e Ee]|(b & d & Hb & Hl & Hu & Hm & Ht & Hd & _ & Ee)]; rewrite Ee in Ea;
    injection Ea as -> ->; [done|].
  split.
  - apply admitted_stop_extends; [done|]. by rewrite Hl.
  - by apply (admitted_stop_wf m id (cmd_slot (ctx_command ctx)) b d now timeout max ctx).
Qed.
