(* ===== verification/InvGroups.v ===== *)
(** * Preservation: exact-set Group recovery

    The history of Group recoveries stays acceptable to its own restore-time
    validator, which can then not panic. *)

From S2P Require Import Prelude Identity Execution Session StateModel RelationSpec RuntimeState Relation.
From S2P Require Import Coordination Attempts GroupRecovery RecoveryStop Dispatch Checkpoint.
From S2P Require Import Invariant InvRecovery.

Open Scope string_scope.

(** ** The order of the rounds

    The bounds on the rounds of one Group depend only on the signature of the
    recorded intents. *)

Definition round_sig (i : GroupRecoveryStopIntent) : ExecutionGroupId * string * N :=
  (gri_group_id i, gri_recovery_id i, gri_max_replacements i).

Definition round_admissible (history : list (ExecutionGroupId * string * N))
    (s : ExecutionGroupId * string * N) : bool :=
  let rounds := List.filter (fun p => bool_decide (p.1.1 = s.1.1)) history in
  (N.of_nat (length rounds) <? s.2)%N
  && forallb (fun p => negb (p.1.2 =? s.1.2)%string && (p.2 =? s.2)%N) rounds.

Fixpoint rounds_valid (history l : list (ExecutionGroupId * string * N)) : bool :=
  match l with
  | [] => true
  | s :: l' => round_admissible history s && rounds_valid (history ++ [s])%list l'
  end.

Lemma rounds_valid_app history l s :
  rounds_valid history (l ++ [s])%list = rounds_valid history l && round_admissible (history ++ l)%list s.
Proof.
  revert history. induction l as [|x l IH]; intros history; simpl.
  - by rewrite app_nil_r, andb_true_r.
  - rewrite IH, <- app_assoc. simpl. by rewrite andb_assoc.
Qed.

Lemma filter_round_sig (g : ExecutionGroupId) l :
  List.filter (fun p : ExecutionGroupId * string * N => bool_decide (p.1.1 = g)) (round_sig <$> l) =
  round_sig <$> List.filter (fun i => bool_decide (gri_group_id i = g)) l.
Proof.
  induction l as [|i l IH]; [done|]. rewrite fmap_cons. simpl. case_match; by rewrite IH.
Qed.

(** The check of one intent against the accepted history. *)
Lemma round_admissible_sig history i :
  round_admissible (round_sig <$> history) (round_sig i) =
  let rounds := List.filter (fun p => bool_decide (gri_group_id p = gri_group_id i)) history in
  negb ((gri_max_replacements i <=? N.of_nat (length rounds))%N
        || existsb (fun p => (gri_recovery_id p =? gri_recovery_id i)%string
                             || negb (gri_max_replacements p =? gri_max_replacements i)%N) rounds).
Proof.
  unfold round_admissible. simpl. rewrite filter_round_sig, length_fmap.
  generalize (List.filter (fun p => bool_decide (gri_group_id p = gri_group_id i)) history).
  intros rounds. rewrite negb_orb, N.ltb_antisym. f_equal.
  induction rounds as [|p rounds IH]; [done|]. rewrite fmap_cons. simpl.
  by rewrite IH, !negb_orb, negb_involutive.
Qed.

Section Groups.
Context `{Serde}.

Lemma validate_from_iff m history l :
  validate_group_recoveries_from m history l = Some (Ok tt) <->
  (forall i, i ∈ l -> group_intent_valid m i = Some true) /\
  rounds_valid (round_sig <$> history) (round_sig <$> l) = true.
Proof.
  revert history. induction l as [|i l IH]; intros history; simpl.
  { split; [|done]. intros _. split; [set_solver|done]. }
  destruct (group_intent_valid m i) as [v|] eqn:Ev; simpl.
  - rewrite (round_admissible_sig history i). simpl.
    rewrite <- orb_assoc. destruct v; simpl.
    + destruct (_ || _); simpl; [naive_solver|]. rewrite IH, fmap_app. simpl.
      split; intros [Hv Hr]; (split; [|done]); intros j; [|set_solver].
      intros [->|?]%elem_of_cons; auto.
    + split; [done|]. intros [Hv _]. specialize (Hv i). rewrite Ev in Hv.
      ospecialize (Hv _); [set_solver|done].
  - split; [done|]. intros [Hv _]. specialize (Hv i). rewrite Ev in Hv.
    ospecialize (Hv _); [set_solver|done].
Qed.

Lemma validate_groups_iff m :
  validate_group_recoveries m = Some (Ok tt) <->
  (forall i, i ∈ group_recoveries m -> group_intent_valid m i = Some true) /\
  rounds_valid [] (round_sig <$> group_recoveries m) = true.
Proof. apply validate_from_iff. Qed.

(** ** Members *)

Lemma stopped_status_terminal s :
  stopped_status s = true -> exists t, s = Some t /\ is_terminal t = true.
Proof. destruct s as [[]|]; try done; intros _; by eexists. Qed.

Lemma extends_stopped m m' id :
  extends m m' -> stopped_status (status_of m id) = true ->
  status_of m' id = status_of m id.
Proof.
  intros He (t & E & Ht)%stopped_status_terminal. rewrite E. by apply (extends_terminal m).
Qed.

(** Members stay valid when the state grows and the recorded confirmations of
    the new intent are old ones or of proven stops. *)
Lemma members_valid_mono m m' i i' session members :
  extends m m' -> gri_group_id i' = gri_group_id i ->
  gri_preserved_completed i' = gri_preserved_completed i ->
  gri_requested_at_ms i' = gri_requested_at_ms i ->
  (forall id t, gri_confirmed_at_ms i' !! id = Some t ->
     gri_confirmed_at_ms i !! id = Some t \/
     ((gri_requested_at_ms i <= t)%N /\ stopped_status (status_of m' id) = true)) ->
  members_valid m i session members = true -> members_valid m' i' session members = true.
Proof.
  intros He Hg Hp Hq Hc. revert session.
  induction members as [|member members IH]; intros session; simpl; [done|].
  destruct (executions m !! _) as [ctx|] eqn:Ec; [|done].
  rewrite (extends_context _ _ _ _ He Ec). intros Hv. bool_facts.
  rewrite !andb_true_iff. split_and!; [|..|by apply IH].
  - unfold member_binding_valid in *. by rewrite Hg.
  - match goal with Hs : member_status_valid _ _ _ = true |- _ =>
      unfold member_status_valid in Hs |- *; apply andb_true_iff in Hs as [Hs1 Hs2] end.
    rewrite Hp, Hq. apply andb_true_iff. split.
    + destruct (set_contains _ _); bool_facts.
      * apply bool_decide_eq_true. by apply (extends_terminal m m').
      * apply andb_true_iff. split; [done|]. apply bool_decide_eq_true.
        by apply (ex_cancel _ _ He).
    + apply negb_true_iff, is_some_and_false. intros t Et.
      apply orb_false_iff. rewrite N.ltb_ge, negb_false_iff.
      destruct (Hc _ _ Et) as [Eo|[? ?]]; [|done]. rewrite Eo in Hs2. cbn [is_some_and] in Hs2. bool_facts.
      by rewrite (extends_stopped m m') by done.
Qed.

(** The facts the validator establishes for one member. *)
Lemma members_valid_elem m i session members member :
  members_valid m i session members = true -> member ∈ members ->
  exists ctx, executions m !! grm_execution_id member = Some ctx /\
              member_status_valid m i member = true.
Proof.
  revert session. induction members as [|x members IH]; intros session; simpl; [set_solver|].
  destruct (executions m !! grm_execution_id x) as [ctx|] eqn:Ec; [|discriminate].
  intros Hv. bool_facts. intros [->|Hin]%elem_of_cons; [by exists ctx|by eapply IH].
Qed.

Lemma elem_of_intent_ids i id :
  id ∈ intent_ids i <-> exists member, member ∈ gri_members i /\ grm_execution_id member = id.
Proof.
  unfold intent_ids. rewrite elem_of_list_to_set, list_elem_of_fmap. naive_solver.
Qed.

(** ** Replacements *)

Definition repl_ok (m : RuntimeExecutionManager) (i : GroupRecoveryStopIntent) : Prop :=
  gri_replacements i = ∅ \/
  ((forall id, is_Some (gri_replacements i !! id) <->
      id ∈ intent_ids i /\ status_of m id = Some Cancelled) /\
   distinct_count (btree_values (gri_replacements i)) = size (gri_replacements i) /\
   (forall id, id ∈ intent_ids i -> id ∈ gri_preserved_completed i \/
      exists t, gri_confirmed_at_ms i !! id = Some t /\ (t < gri_deadline_ms i)%N) /\
   (forall s r, gri_replacements i !! s = Some r ->
      exists actual original, executions m !! r = Some actual /\
        executions m !! s = Some original /\
        restored_replacement_valid i original actual r = true)).

Lemma replacements_valid_iff m i : replacements_valid m i = Some true <-> repl_ok m i.
Proof.
  unfold replacements_valid, repl_ok. case_bool_decide as He; [naive_solver|].
  assert (dom (gri_replacements i)
            = filter (fun id => status_of m id = Some Cancelled) (intent_ids i) <->
          (forall id, is_Some (gri_replacements i !! id) <->
             id ∈ intent_ids i /\ status_of m id = Some Cancelled)) as Hdom.
  { rewrite set_eq. setoid_rewrite elem_of_dom. setoid_rewrite elem_of_filter. naive_solver. }
  rewrite <- Hdom.
  destruct (negb _ || negb _ || negb _) eqn:Eg.
  - split; [done|]. intros [?|(Hd & Hc & Hf & _)]; [done|]. exfalso.
    rewrite !orb_true_iff, !negb_true_iff, bool_decide_eq_false, Nat.eqb_neq in Eg.
    destruct Eg as [[?|?]|Hx]; [done..|]. apply not_true_iff_false in Hx. apply Hx.
    rewrite forallb_forall. intros id Hin%list_elem_of_In. rewrite elem_of_bset_iter in Hin.
    apply orb_true_iff. destruct (Hf id Hin) as [?|(t & -> & ?)]; [left|right].
    + by apply bool_decide_eq_true.
    + simpl. by apply N.ltb_lt.
  - apply orb_false_iff in Eg as [[Hd Hc]%orb_false_iff Hf].
    rewrite negb_false_iff in Hd, Hc, Hf. apply bool_decide_eq_true in Hd.
    apply Nat.eqb_eq in Hc. rewrite forallb_forall in Hf. rewrite all_opt_true. split.
    + intros Ha. right. split_and!; try done.
      * intros id Hin. assert (In id (bset_iter (intent_ids i))) as Hb.
        { by apply list_elem_of_In, elem_of_bset_iter. }
        specialize (Hf id Hb). apply orb_true_iff in Hf as [?|(t & Et & ?)%is_some_and_true];
          bool_facts; eauto.
      * intros s r Er. specialize (Ha (s, r)). rewrite elem_of_btree_iter in Ha.
        specialize (Ha Er). simpl in Ha. destruct (executions m !! r) as [a|]; [|done].
        destruct (executions m !! s) as [o|]; [|done]. exists a, o. naive_solver.
    + intros [?|(_ & _ & _ & Ha)]; [done|]. intros [s r] Er%elem_of_btree_iter. simpl.
      destruct (Ha s r Er) as (a & o & -> & -> & Hv). simpl. by rewrite Hv.
Qed.

Definition round_ok (m : RuntimeExecutionManager) (i : GroupRecoveryStopIntent) : Prop :=
  intent_bounds_valid i = true /\ intent_sets_valid i = true /\ intent_phase_valid i = true /\
  members_valid m i None (gri_members i) = true /\ repl_ok m i.

Lemma group_intent_valid_iff m i : group_intent_valid m i = Some true <-> round_ok m i.
Proof.
  unfold group_intent_valid, round_ok. rewrite <- replacements_valid_iff.
  destruct (intent_bounds_valid i), (intent_sets_valid i), (intent_phase_valid i),
    (members_valid m i None (gri_members i)); simpl; naive_solver.
Qed.

Lemma groups_wf_iff m :
  groups_wf m <-> (forall i, i ∈ group_recoveries m -> round_ok m i) /\
                  rounds_valid [] (round_sig <$> group_recoveries m) = true /\
                  admitted_wf m /\ confirmed_wf m.
Proof.
  split.
  - intros [[Hv Hr]%validate_groups_iff Ha Hc]. split_and!; try done.
    intros i Hi. by apply group_intent_valid_iff, Hv.
  - intros (Hv & Hr & Ha & Hc). split; [|done..]. apply validate_groups_iff. split; [|done].
    intros i Hi. by apply group_intent_valid_iff, Hv.
Qed.

(** ** Growth of the state *)

(** Once replacements are published every member has provably stopped. *)
Lemma round_members_stopped m i id :
  members_valid m i None (gri_members i) = true ->
  (id ∈ gri_preserved_completed i \/ is_Some (gri_confirmed_at_ms i !! id)) ->
  id ∈ intent_ids i -> stopped_status (status_of m id) = true.
Proof.
  intros Hm Hc (member & Hin & <-)%elem_of_intent_ids.
  destruct (members_valid_elem _ _ _ _ _ Hm Hin) as (ctx & Ec & Hs).
  unfold member_status_valid in Hs. apply andb_true_iff in Hs as [Hs1 Hs2].
  destruct Hc as [Hp|[t Et]].
  - unfold set_contains in Hs1. rewrite bool_decide_eq_true_2 in Hs1 by done.
    bool_facts. by rewrite Hs1.
  - rewrite Et in Hs2. cbn [is_some_and] in Hs2. by bool_facts.
Qed.

Lemma repl_ok_mono m m' i i' :
  extends m m' -> gri_group_id i' = gri_group_id i -> gri_members i' = gri_members i ->
  gri_preserved_completed i' = gri_preserved_completed i ->
  gri_deadline_ms i' = gri_deadline_ms i -> gri_replacements i' = gri_replacements i ->
  gri_confirmed_at_ms i ⊆ gri_confirmed_at_ms i' ->
  members_valid m i None (gri_members i) = true -> repl_ok m i -> repl_ok m' i'.
Proof.
  intros He Hg Hms Hp Hdl Hr Hc Hm [E|(H1 & H2 & H3 & H4)]; [left; congruence|right].
  assert (intent_ids i' = intent_ids i) as Hids by (unfold intent_ids; by rewrite Hms).
  rewrite Hr, Hids, Hp, Hdl. split_and!; [|done|..].
  - intros id. rewrite H1. split; intros [Hin Hs]; (split; [done|]).
    + by apply (extends_terminal m m').
    + rewrite <- Hs. symmetry. apply (extends_stopped m m'); [done|].
      apply (round_members_stopped m i); [done| |done].
      destruct (H3 id Hin) as [?|(t & ? & _)]; [by left|right; by eexists].
  - intros id Hin. destruct (H3 id Hin) as [?|(t & Et & ?)]; [by left|right].
    exists t. split; [by eapply lookup_weaken|done].
  - intros s r Er. destruct (H4 s r Er) as (a & o & Ea & Eo & Hv). exists a, o.
    split_and!; [by eapply extends_context..|].
    unfold restored_replacement_valid in *. by rewrite Hg, Hids.
Qed.

Lemma round_ok_mono m m' i : extends m m' -> round_ok m i -> round_ok m' i.
Proof.
  intros He (H1 & H2 & H3 & H4 & H5). split_and!; try done.
  - eapply members_valid_mono; [done..| |done]. by left.
  - by apply (repl_ok_mono m m' i i).
Qed.

Lemma groups_mono m m' :
  extends m m' -> group_recoveries m' = group_recoveries m -> groups_wf m -> groups_wf m'.
Proof.
  intros He Eg. rewrite !groups_wf_iff, Eg. intros (Hv & Hr & Ha & Hc).
  split_and!; try done; [|..|by intros i id; rewrite Eg; apply Hc].
  - intros i Hi. by apply (round_ok_mono m), Hv.
  - intros i id. rewrite Eg. intros Hi Hid. destruct (Ha i id Hi Hid) as (s & Es & Hs).
    destruct (ex_status _ _ He id s Es) as (t & Et & _ & Hd). exists t. auto.
Qed.

(** Rewriting every round in place, the state being otherwise unchanged. *)
Lemma groups_map m f :
  (forall i, round_sig (f i) = round_sig i) ->
  (forall i, i ∈ group_recoveries m -> round_ok m i -> round_ok m (f i)) ->
  (forall i id, i ∈ group_recoveries m -> is_Some (gri_admitted_at_ms (f i) !! id) ->
     is_Some (gri_admitted_at_ms i !! id) \/
     exists s, execution_status m !! id = Some s /\ s <> Dispatched) ->
  (forall i id, i ∈ group_recoveries m -> is_Some (gri_confirmed_at_ms (f i) !! id) ->
     is_Some (gri_confirmed_at_ms i !! id) \/ id ∉ gri_preserved_completed (f i)) ->
  (forall i, gri_preserved_completed (f i) = gri_preserved_completed i) ->
  extends m (set_group_recoveries (f <$> group_recoveries m) m) ->
  groups_wf m -> groups_wf (set_group_recoveries (f <$> group_recoveries m) m).
Proof.
  intros Hsig Hok Hadm Hcon Hpre He. rewrite !groups_wf_iff. intros (Hv & Hr & Ha & Hc). simpl.
  split_and!.
  - intros j (i & -> & Hi)%list_elem_of_fmap. apply (round_ok_mono m); auto.
  - rewrite <- list_fmap_compose. erewrite list_fmap_ext; [exact Hr|].
    intros k i _. apply Hsig.
  - intros j id (i & -> & Hi)%list_elem_of_fmap Hid.
    destruct (Hadm i id Hi Hid) as [?|?]; [by eapply Ha|done].
  - intros j id (i & -> & Hi)%list_elem_of_fmap Hid.
    destruct (Hcon i id Hi Hid) as [?|?]; [|done]. rewrite Hpre. by eapply Hc.
Qed.

Lemma extends_rounds_map m f :
  (forall i, i ∈ group_recoveries m -> round_extends i (f i)) ->
  extends m (set_group_recoveries (f <$> group_recoveries m) m).
Proof.
  intros Hf. extend_frame. intros k i E. exists (f i).
  rewrite list_lookup_fmap, E. split; [done|]. by eapply Hf, list_elem_of_lookup_2.
Qed.
End Groups.

(** * Preservation: the operations of Group recovery *)

Open Scope string_scope.

Lemma has_member_true id i : has_member id i = true <-> id ∈ intent_ids i.
Proof.
  unfold has_member. rewrite existsb_exists, elem_of_intent_ids.
  setoid_rewrite String.eqb_eq. setoid_rewrite list_elem_of_In. done.
Qed.

Lemma has_replacement_true id i :
  has_replacement id i = true <-> exists s, gri_replacements i !! s = Some id.
Proof.
  unfold has_replacement. rewrite existsb_exists. setoid_rewrite String.eqb_eq.
  setoid_rewrite <- list_elem_of_In. setoid_rewrite elem_of_btree_values. naive_solver.
Qed.

Lemma or_insert_subseteq {K V} `{Countable K} (k : K) (v : V) (m : gmap K V) :
  m ⊆ or_insert k v m.
Proof. unfold or_insert. destruct (m !! k) eqn:E; [done|]. by apply insert_subseteq. Qed.

Lemma or_insert_Some {K V} `{Countable K} (k : K) (v : V) (m : gmap K V) j w :
  or_insert k v m !! j = Some w -> m !! j = Some w \/ (j = k /\ w = v /\ m !! k = None).
Proof.
  rewrite lookup_or_insert. case_decide as E; [subst j|by left].
  destruct (m !! k); naive_solver.
Qed.

(** A branch that returns the state it was given. *)
Ltac unchanged := cbv iota zeta; intros [= <- <-]; left; split; [done|eauto].

Section Ops.
Context `{Serde}.

(** ** Aborting *)

Lemma round_ok_aborted m i : round_ok m i -> round_ok m (gri_set_aborted i).
Proof.
  intros (H1 & H2 & H3 & H4 & H5). split_and!; try done.
  eapply (members_valid_mono m m i); try done. by left.
Qed.

Definition abort_in (id : string) (i : GroupRecoveryStopIntent) : GroupRecoveryStopIntent :=
  if has_member id i || has_replacement id i then gri_set_aborted i else i.

Lemma abort_group_extends m id : extends m (abort_group_recovery_for_attempt m id).
Proof.
  apply (extends_rounds_map m (abort_in id)). intros i _. unfold abort_in.
  case_match; [by split_and!|apply round_extends_refl].
Qed.

Lemma abort_group_wf m id : groups_wf m -> groups_wf (abort_group_recovery_for_attempt m id).
Proof.
  apply (groups_map m (abort_in id)).
  - intros i. unfold abort_in. by case_match.
  - intros i _ Hi. unfold abort_in. case_match; [by apply round_ok_aborted|done].
  - intros i x _. unfold abort_in. case_match; by left.
  - intros i x _. unfold abort_in. case_match; by left.
  - intros i. unfold abort_in. by case_match.
  - apply abort_group_extends.
Qed.

(** ** Confirming a stop *)

Lemma confirm_stop_in_cases id t i :
  confirm_stop_in id t i = i \/
  ((id ∉ gri_preserved_completed i) /\ id ∈ intent_ids i /\ (gri_requested_at_ms i <= t)%N /\
   gri_confirmed_at_ms i !! id = None /\
   confirm_stop_in id t i = gri_set_confirmed (<[id := t]> (gri_confirmed_at_ms i)) i).
Proof.
  unfold confirm_stop_in, or_insert. destruct (negb _ && _ && _) eqn:E; [|by left].
  apply andb_true_iff in E as [[E1 E2%has_member_true]%andb_true_iff E3]. bool_facts.
  destruct (gri_confirmed_at_ms i !! id) eqn:Ec; [left; by destruct i|right]. by split_and!.
Qed.

Lemma confirm_stop_extends i id t : round_extends i (confirm_stop_in id t i).
Proof.
  destruct (confirm_stop_in_cases id t i) as [->|(_ & _ & _ & En & ->)];
    [apply round_extends_refl|]. split_and!; try done. by apply insert_subseteq.
Qed.

Lemma round_ok_confirmed m i id t :
  stopped_status (status_of m id) = true -> round_ok m i ->
  round_ok m (confirm_stop_in id t i).
Proof.
  intros Hst (H1 & H2 & H3 & H4 & H5).
  destruct (confirm_stop_in_cases id t i) as [->|(Hp & Hid & Ht & En & ->)]; [by split_and!|].
  assert (gri_replacements i = ∅) as Hr.
  { destruct H5 as [?|(_ & _ & Hall & _)]; [done|].
    destruct (Hall id Hid) as [?|(t' & Et & _)]; [done|]. by rewrite Et in En. }
  split_and!; try done.
  - unfold intent_sets_valid in *. simpl. bool_facts. rewrite !andb_true_iff.
    split_and!; [done|by apply bool_decide_eq_true|]. apply forallb_forall. intros x Hx.
    apply list_elem_of_In, elem_of_btree_keys, lookup_insert_is_Some in Hx as [<-|[_ Hx]].
    + by apply bool_decide_eq_true.
    + match goal with Hf : forall y, In y _ -> _ |- _ => apply Hf end.
      by apply list_elem_of_In, elem_of_btree_keys.
  - unfold intent_phase_valid in *. simpl. by rewrite Hr in *.
  - eapply (members_valid_mono m m i); try done. simpl.
    intros x t' [[<- <-]|[_ ?]]%lookup_insert_Some; [by right|by left].
  - left. done.
Qed.

Lemma confirm_group_stop_extends m id t : extends m (confirm_group_recovery_stop m id t).
Proof.
  unfold confirm_group_recovery_stop. case_match; [reflexivity|].
  apply extends_rounds_map. intros i _. apply confirm_stop_extends.
Qed.

Lemma confirm_group_stop_wf m id t :
  groups_wf m -> groups_wf (confirm_group_recovery_stop m id t).
Proof.
  pose proof (confirm_group_stop_extends m id t) as He. unfold confirm_group_recovery_stop in *.
  destruct (negb _) eqn:Es; [done|]. apply negb_false_iff in Es. apply groups_map; try done.
  - intros i. destruct (confirm_stop_in_cases id t i) as [->|(_ & _ & _ & _ & ->)]; done.
  - intros i _. by apply round_ok_confirmed.
  - intros i x _. destruct (confirm_stop_in_cases id t i) as [->|(_ & _ & _ & _ & ->)]; by left.
  - intros i x _. destruct (confirm_stop_in_cases id t i) as [->|(Hp & _ & _ & _ & ->)]; [by left|].
    simpl. intros [<-|[_ ?]]%lookup_insert_is_Some; [by right|by left].
  - intros i. destruct (confirm_stop_in_cases id t i) as [->|(_ & _ & _ & _ & ->)]; done.
Qed.

(** ** Admitting a replacement *)

Lemma confirm_admission_in_cases id t i :
  confirm_admission_in id t i = i \/
  exists p, has_replacement id i = true /\ gri_prepared_at_ms i = Some p /\ (p <= t)%N /\
    gri_admitted_at_ms i !! id = None /\
    confirm_admission_in id t i = gri_set_admitted (<[id := t]> (gri_admitted_at_ms i)) i.
Proof.
  unfold confirm_admission_in, or_insert. destruct (_ && _) eqn:E; [|by left].
  apply andb_true_iff in E as [E1 (p & Ep & Hp)%is_some_and_true]. bool_facts.
  destruct (gri_admitted_at_ms i !! id) eqn:Ec; [left; by destruct i|right]. by exists p.
Qed.

Lemma confirm_admission_extends i id t : round_extends i (confirm_admission_in id t i).
Proof.
  destruct (confirm_admission_in_cases id t i) as [->|(p & _ & _ & _ & En & ->)];
    [apply round_extends_refl|]. split_and!; try done. by apply insert_subseteq.
Qed.

Lemma round_ok_admitted m i id t : round_ok m i -> round_ok m (confirm_admission_in id t i).
Proof.
  intros (H1 & H2 & H3 & H4 & H5).
  destruct (confirm_admission_in_cases id t i) as [->|(p & Hr & Hp & Ht & En & ->)];
    [by split_and!|].
  split_and!; try done.
  - assert (gri_replacements i <> ∅) as Hne.
    { intros E. apply has_replacement_true in Hr as [s Es]. by rewrite E in Es. }
    unfold intent_phase_valid in *. simpl. rewrite bool_decide_eq_false_2 in * by done.
    rewrite Hp in *. bool_facts. rewrite !andb_true_iff. split_and!; try (by apply negb_true_iff).
    + by apply negb_true_iff, N.ltb_ge.
    + by apply negb_true_iff, N.leb_gt.
    + apply negb_true_iff, not_true_iff_false. rewrite existsb_exists. intros ([x w] & Hx & Hb).
      apply list_elem_of_In, elem_of_btree_iter, lookup_insert_Some in Hx as [[<- <-]|[_ Ex]].
      * simpl in Hb. apply orb_true_iff in Hb as [Hb|Hb]; bool_facts; [lia|].
        change (has_replacement id i = false) in Hb. congruence.
      * match goal with Hf : existsb _ (btree_iter _) = false |- _ =>
          apply not_true_iff_false in Hf; apply Hf, existsb_exists end.
        exists (x, w). split; [by apply list_elem_of_In, elem_of_btree_iter|done].
  - eapply (members_valid_mono m m i); try done. by left.
Qed.

Lemma confirm_group_admission_extends m id t :
  extends m (confirm_group_continuation_admission m id t).
Proof.
  unfold confirm_group_continuation_admission. case_match; [reflexivity|].
  apply extends_rounds_map. intros i _. apply confirm_admission_extends.
Qed.

Lemma confirm_group_admission_wf m id t :
  groups_wf m -> groups_wf (confirm_group_continuation_admission m id t).
Proof.
  pose proof (confirm_group_admission_extends m id t) as He.
  unfold confirm_group_continuation_admission in *.
  destruct (negb _) eqn:Es; [done|]. apply negb_false_iff in Es. apply groups_map; try done.
  - intros i. destruct (confirm_admission_in_cases id t i) as [->|(p & _ & _ & _ & _ & ->)]; done.
  - intros i _. by apply round_ok_admitted.
  - intros i x _. destruct (confirm_admission_in_cases id t i) as [->|(p & _ & _ & _ & _ & ->)];
      [by left|]. simpl. intros [<-|[_ ?]]%lookup_insert_is_Some; [right|by left].
    unfold admits_continuation, status_of in Es. destruct (execution_status m !! id) as [s|]; [|done].
    exists s. split; [done|]. by intros ->.
  - intros i x _. destruct (confirm_admission_in_cases id t i) as [->|(p & _ & _ & _ & _ & ->)];
      by left.
  - intros i. destruct (confirm_admission_in_cases id t i) as [->|(p & _ & _ & _ & _ & ->)]; done.
Qed.

(** ** Requesting a stop of the whole set *)

(** A checked member of the frozen set. *)
Lemma group_member_check_Ok m g shared member session completed :
  group_member_check m g shared member = Ok (session, completed) ->
  exists ctx, executions m !! grm_execution_id member = Some ctx /\
    cmd_session (ctx_command ctx) = Some session /\
    (forall i, gri_group_id i = g ->
       member_binding_valid m i shared member (ctx_command ctx) = true) /\
    (if completed then status_of m (grm_execution_id member) = Some Completed
     else grm_repeat_authorized member = true /\
          exists s, status_of m (grm_execution_id member) = Some s /\ is_terminal s = false).
Proof.
  unfold group_member_check. destruct (executions m !! _) as [ctx|]; [|done].
  destruct (cmd_session (ctx_command ctx)) as [s|] eqn:Es; [|done].
  destruct (negb (is_ok _)) eqn:Ev; [done|]. apply negb_false_iff in Ev.
  destruct (_ || is_some_and _ shared) eqn:Eg; [done|].
  intros Hst. assert (s = session) as ->.
  { clear -Hst. destruct (status_of m _) as [[]|], (grm_repeat_authorized member); simpl in Hst;
      congruence. }
  exists ctx. split_and!; [done..| |].
  - intros i <-. repeat match goal with H' : _ || _ = false |- _ =>
      apply orb_false_iff in H' as [? ?] end.
    unfold member_binding_valid. rewrite Es. cbn [is_some is_some_and].
    repeat match goal with
    | H' : negb ?x = false |- _ => apply negb_false_iff in H'; rewrite ?H'
    | H' : ?x = false |- context [?x] => rewrite H' end.
    rewrite Ev. simpl. rewrite andb_true_r. destruct shared as [o|]; [|done].
    cbn [is_some_and] in *. bool_facts. subst o. by rewrite bool_decide_eq_true_2.
  - clear -Hst. destruct (status_of m (grm_execution_id member)) as [[]|], (grm_repeat_authorized member);
      simpl in Hst; simplify_eq; eauto.
Qed.

Lemma group_members_loop_spec m g shared pres members final :
  group_members_loop m g shared pres members = Ok final ->
  pres ⊆ final /\
  (forall id, id ∈ final -> id ∈ pres \/
     (id ∈ grm_execution_id <$> members /\ status_of m id = Some Completed)) /\
  (forall member, member ∈ members -> grm_execution_id member ∈ final \/
     (grm_repeat_authorized member = true /\
      exists s, status_of m (grm_execution_id member) = Some s /\ is_terminal s = false)).
Proof.
  revert shared pres. induction members as [|member members IH]; intros shared pres; simpl.
  { intros [= <-]. split_and!; set_solver. }
  destruct (group_member_check m g shared member) as [[session completed]|e] eqn:Ec; [|done].
  apply group_member_check_Ok in Ec as (ctx & _ & _ & _ & Hst).
  intros (H1 & H2 & H3)%IH. destruct completed.
  - split_and!; [set_solver| |].
    + intros id Hid. destruct (H2 id Hid) as [[->%elem_of_singleton|?]%elem_of_union|[? ?]];
        [right|by left|right]; (split; [set_solver|done]).
    + intros x [->|?]%elem_of_cons; [left; set_solver|auto].
  - split_and!; [done| |].
    + intros id Hid. destruct (H2 id Hid) as [?|[? ?]]; [by left|right].
      split; [set_solver|done].
    + intros x [->|?]%elem_of_cons; [by right|auto].
Qed.

(** The frozen set passes the restore-time checks of its members. *)
Lemma group_members_loop_valid m m' i shared pres0 members pres :
  group_members_loop m (gri_group_id i) shared pres0 members = Ok pres ->
  extends m m' -> gri_confirmed_at_ms i = ∅ ->
  (forall member, member ∈ members -> member_status_valid m' i member = true) ->
  members_valid m' i shared members = true.
Proof.
  intros Hl He Hc. revert shared pres0 Hl.
  induction members as [|member members IH]; intros shared pres0 Hl Hst; simpl; [done|].
  simpl in Hl.
  destruct (group_member_check m _ shared member) as [[session completed]|e] eqn:Ec; [|done].
  apply group_member_check_Ok in Ec as (ctx & Ec & Es & Hb & _).
  rewrite (extends_context _ _ _ _ He Ec), Es. rewrite (Hst member) by set_solver.
  specialize (Hb i eq_refl). unfold member_binding_valid in *. rewrite Hb. simpl.
  eapply IH; [exact Hl|]. intros x Hx. apply Hst. set_solver.
Qed.

Definition requested_round (recovery_id : string) (g : ExecutionGroupId)
    (members : list GroupRecoveryMember) (preserved : gset string)
    (now deadline timeout max : N) : GroupRecoveryStopIntent :=
  MkGroupRecovery recovery_id g members preserved now deadline timeout max ∅ ∅ None ∅ false.

Definition frozen_state (m : RuntimeExecutionManager) (i : GroupRecoveryStopIntent)
  : RuntimeExecutionManager :=
  set_group_recoveries (group_recoveries m ++ [i])%list
    (set_cancellation_intents
       (list_to_set (List.filter (fun id => negb (set_contains id (gri_preserved_completed i)))
                       (grm_execution_id <$> gri_members i)) ∪ cancellation_intents m) m).

(** Either the request changes nothing, or it freezes exactly the current
    attempts of the Group. *)
Lemma request_group_recovery_cases m g rid ms now timeout max m' r :
  request_group_recovery_stop m g rid ms now timeout max = Some (m', r) ->
  (m' = m /\ ((exists e, r = Err e) \/ exists i, group_recovery_by_id m g rid = Some i)) \/
  exists members preserved deadline,
    let i := requested_round rid g members preserved now deadline timeout max in
    members ≡ₚ ms /\ m' = frozen_state m i /\ r = Ok tt /\
    intent_bounds_valid i = true /\
    round_admissible (round_sig <$> group_recoveries m) (round_sig i) = true /\
    size (intent_ids i) = length members /\ intent_ids i = active_attempt_ids m g /\
    group_members_loop m g None ∅ members = Ok preserved /\
    size preserved <> length members.
Proof.
  unfold request_group_recovery_stop.
  set (members := sort_by _ ms).
  destruct (group_recovery_by_id m g rid) eqn:Eid; [unchanged|].
  destruct (negb (bounded_recovery _ _ _ _)) eqn:Eb; [unchanged|]. apply negb_false_iff in Eb.
  destruct (_ || existsb _ _) eqn:Eh; [unchanged|].
  destruct (group_recovery_holds_dispatch m g now) as [[]|]; simpl; [unchanged| |done].
  destruct (negb _ || negb _) eqn:Es; [unchanged|].
  destruct (group_members_loop _ _ _ _ _) as [preserved|] eqn:El; [|unchanged].
  destruct (size preserved =? length members)%nat eqn:Ep; [unchanged|].
  destruct (u64_checked_add now timeout) as [d|] eqn:Ed; [|unchanged].
  intros [= <- <-]. right. exists members, preserved, d. simpl.
  apply orb_false_iff in Es as [Es1 Es2]. rewrite negb_false_iff in Es1, Es2.
  apply Nat.eqb_eq in Es1. apply bool_decide_eq_true in Es2. apply Nat.eqb_neq in Ep.
  split_and!; try done.
  - apply sort_by_Permutation.
  - unfold intent_bounds_valid. simpl. by rewrite Eb, Ed, bool_decide_eq_true_2.
  - rewrite round_admissible_sig. simpl. apply negb_true_iff.
    apply orb_false_iff in Eh as [Eh1 Eh2]. rewrite Eh1. simpl.
    apply not_true_iff_false. rewrite existsb_exists. intros (p & Hp & Hb).
    apply orb_true_iff in Hb as [Hb|Hb].
    + apply filter_In in Hp as [Hp Hg].
      eapply find_none in Eid; [|exact Hp]. by rewrite Hg, Hb in Eid.
    + apply not_true_iff_false in Eh2. apply Eh2, existsb_exists. by exists p.
Qed.

Lemma frozen_extends m i : extends m (frozen_state m i).
Proof.
  unfold frozen_state. extend_frame.
  - set_solver.
  - intros k j E. exists j. split; [by apply lookup_app_l_Some|apply round_extends_refl].
Qed.

Lemma frozen_round_ok m i members preserved rid g now deadline timeout max :
  i = requested_round rid g members preserved now deadline timeout max ->
  intent_bounds_valid i = true -> size (intent_ids i) = length members ->
  group_members_loop m g None ∅ members = Ok preserved ->
  round_ok (frozen_state m i) i.
Proof.
  intros -> Hb Hsz Hl. destruct (group_members_loop_spec _ _ _ _ _ _ Hl) as (_ & Hin & Hout).
  split_and!; try done; [| |by left].
  - unfold intent_sets_valid. rewrite Hsz. simpl. rewrite Nat.eqb_refl, andb_true_r. simpl.
    apply bool_decide_eq_true. intros id Hid.
    destruct (Hin id Hid) as [?|[Hid' _]]; [set_solver|].
    unfold intent_ids. by rewrite elem_of_list_to_set.
  - eapply (group_members_loop_valid m); [done|apply frozen_extends|done|].
    intros member Hm. unfold member_status_valid. simpl. rewrite lookup_empty, andb_true_r.
    destruct (set_contains _ _) eqn:Ec; bool_facts.
    + apply bool_decide_eq_true. by destruct (Hin _ Ec) as [?|[_ ?]]; [set_solver|].
    + destruct (Hout member Hm) as [?|[-> _]]; [done|]. simpl. apply bool_decide_eq_true.
      apply elem_of_union_l, elem_of_list_to_set, list_elem_of_In, filter_In. split.
      * apply list_elem_of_In, list_elem_of_fmap. by exists member.
      * by apply negb_true_iff, bool_decide_eq_false.
Qed.

Lemma request_group_recovery_inv m g rid ms now timeout max m' r :
  request_group_recovery_stop m g rid ms now timeout max = Some (m', r) ->
  groups_wf m -> extends m m' /\ groups_wf m'.
Proof.
  intros E Hwf. destruct (request_group_recovery_cases _ _ _ _ _ _ _ _ _ E)
    as [[-> _]|(members & pres & d & _ & -> & _ & Hb & Hr & Hsz & _ & Hl & _)]; [done|].
  set (i := requested_round _ _ _ _ _ _ _ _) in *.
  split; [apply frozen_extends|]. rewrite groups_wf_iff in Hwf |- *.
  destruct Hwf as (Hv & Hrs & Ha & Hc). simpl. split_and!.
  - intros j [Hj| ->%list_elem_of_singleton]%elem_of_app.
    + apply (round_ok_mono m); [apply frozen_extends|auto].
    + by eapply frozen_round_ok.
  - rewrite fmap_app. simpl. rewrite rounds_valid_app, Hrs. done.
  - intros j id [Hj| ->%list_elem_of_singleton]%elem_of_app; [by apply Ha|].
    intros [? Hx]. unfold i in Hx. simpl in Hx. by rewrite lookup_empty in Hx.
  - intros j id [Hj| ->%list_elem_of_singleton]%elem_of_app; [by apply Hc|].
    intros [? Hx]. unfold i in Hx. simpl in Hx. by rewrite lookup_empty in Hx.
Qed.

(** ** Publishing the continuation *)

Lemma update_first_rev_split p f l i :
  List.find p l = Some i ->
  exists l1 l2, l = (l1 ++ i :: l2)%list /\ update_first_rev p f l = (l1 ++ f i :: l2)%list.
Proof.
  induction l as [|x l IH]; simpl; [done|]. destruct (p x).
  - intros [= ->]. by exists [], l.
  - intros (l1 & l2 & -> & ->)%IH. by exists (x :: l1), l2.
Qed.

(** The round of the Group is updated where it stands in the history. *)
Lemma continuation_split m g i f :
  group_recovery m g = Some i ->
  exists l1 l2, group_recoveries m = (l1 ++ i :: l2)%list /\ gri_group_id i = g /\
    reverse (update_first_rev (fun x => bool_decide (gri_group_id x = g)) f
               (reverse (group_recoveries m))) = (l1 ++ f i :: l2)%list.
Proof.
  unfold group_recovery. intros E.
  assert (gri_group_id i = g) as Hg.
  { apply find_some in E as [_ Hb]. by apply bool_decide_eq_true in Hb. }
  destruct (update_first_rev_split _ f _ _ E) as (l1 & l2 & El & ->).
  exists (reverse l2), (reverse l1). split_and!; [|done|].
  - rewrite <- (reverse_involutive (group_recoveries m)), El, reverse_app, reverse_cons.
    by rewrite <- app_assoc.
  - by rewrite reverse_app, reverse_cons, <- app_assoc.
Qed.

Lemma mapM_filter_fst (p : GroupRecoveryMember -> bool) m members sources :
  mapM (fun member => command ← index_command m (grm_execution_id member);
                      Some (grm_execution_id member, command))
    (List.filter p members) = Some sources ->
  fst <$> sources = grm_execution_id <$> List.filter p members.
Proof.
  generalize (List.filter p members). intros l Hl. apply mapM_Some in Hl.
  induction Hl as [|member x l xs Hx Hl IH]; [done|]. rewrite !fmap_cons, IH.
  destruct (index_command _ _); simplify_eq/=. done.
Qed.

Lemma elem_of_cancelled_sources m members sources id :
  cancelled_sources m members = Some sources ->
  id ∈ (list_to_set (fst <$> sources) : gset string) <->
  (exists member, member ∈ members /\ grm_execution_id member = id) /\
  status_of m id = Some Cancelled.
Proof.
  intros E%mapM_filter_fst. rewrite E, elem_of_list_to_set, list_elem_of_fmap. split.
  - intros (member & -> & Hin). apply list_elem_of_In, filter_In in Hin as [Hin Hs].
    apply bool_decide_eq_true in Hs. apply list_elem_of_In in Hin. eauto.
  - intros [(member & Hin & <-) Hs]. exists member. split; [done|].
    apply list_elem_of_In, filter_In. by rewrite bool_decide_eq_true, <- list_elem_of_In.
Qed.

Lemma check_replacements_Ok m repl sources s :
  check_replacements m repl sources = Some (Ok tt) -> s ∈ fst <$> sources ->
  exists r actual original, repl !! s = Some r /\ executions m !! r = Some actual /\
    executions m !! s = Some original /\ replacement_changed m original actual r = false.
Proof.
  induction sources as [|[x c] sources IH]; simpl; [set_solver|].
  destruct (repl !! x) as [r|] eqn:Er; simpl; [|done].
  destruct (executions m !! r) as [a|] eqn:Ea; [|done].
  destruct (executions m !! x) as [o|] eqn:Eo; simpl; [|done].
  destruct (replacement_changed m o a r) eqn:Ec; [done|].
  intros Hc [->|Hs]%elem_of_cons; [by exists r, a, o|auto].
Qed.

(** What [record_group_continuation] checked before it published. *)
Definition publishable (m : RuntimeExecutionManager) (i : GroupRecoveryStopIntent)
    (now : N) (repl : gmap string string) : Prop :=
  gri_replacements i = ∅ /\ (now < gri_deadline_ms i)%N /\ gri_aborted i = false /\
  (forall member, member ∈ gri_members i -> member_stop_confirmed m i now member = true) /\
  repl <> ∅ /\
  (forall id, is_Some (repl !! id) <-> id ∈ intent_ids i /\ status_of m id = Some Cancelled) /\
  distinct_count (btree_values repl) = size repl /\
  (forall s r, repl !! s = Some r ->
     exists actual original, executions m !! r = Some actual /\
       executions m !! s = Some original /\ replacement_changed m original actual r = false) /\
  expected_set (gri_members i) repl = active_attempt_ids m (gri_group_id i).

Lemma record_group_continuation_cases m g now repl m' r :
  record_group_continuation m g now repl = Some (m', r) ->
  (m' = m /\ exists e, r = Err e) \/
  exists i, group_recovery m g = Some i /\ publishable m i now repl /\ r = Ok tt /\
    m' = set_group_recoveries
           (reverse (update_first_rev (fun x => bool_decide (gri_group_id x = g))
                       (gri_set_prepared repl now) (reverse (group_recoveries m)))) m.
Proof.
  unfold record_group_continuation. destruct (group_recovery m g) as [i|] eqn:Ei; [|unchanged].
  destruct (_ || negb (forallb _ _)) eqn:Eb; [unchanged|].
  destruct (negb (bool_decide (expected_set _ _ = _))) eqn:Ee; [unchanged|].
  destruct (cancelled_sources m (gri_members i)) as [sources|] eqn:Es; simpl; [|done].
  destruct (_ || bool_decide (repl = ∅)) eqn:Er; [unchanged|].
  destruct (check_replacements m repl sources) as [[[]|e]|] eqn:Ec; simpl; [|unchanged|done].
  intros [= <- <-]. right. exists i. split_and!; try done.
  apply orb_false_iff in Eb as [[[Ea Ere]%orb_false_iff Edl]%orb_false_iff Ef].
  apply orb_false_iff in Er as [[Ed Edc]%orb_false_iff Ene].
  rewrite negb_false_iff in Ere, Ef, Ed, Edc, Ee. bool_facts. apply Nat.eqb_eq in Edc.
  assert (gri_group_id i = g) as <-.
  { apply find_some in Ei as [_ Hb]. by apply bool_decide_eq_true in Hb. }
  assert (forall id, is_Some (repl !! id) <-> id ∈ (list_to_set (fst <$> sources) : gset string))
    as Hdom by (intros id; by rewrite <- elem_of_dom, Ed).
  split_and!; try done.
  - intros member Hm. by apply Ef, list_elem_of_In.
  - intros id. by rewrite Hdom, (elem_of_cancelled_sources _ _ _ _ Es), elem_of_intent_ids.
  - intros s x Ex.
    destruct (check_replacements_Ok m repl sources s Ec) as (y & a & o & Ey & Ha & Ho & Hch).
    { rewrite <- (elem_of_list_to_set (C := gset string)). apply Hdom. by eexists. }
    simplify_eq. by exists a, o.
Qed.

Lemma member_confirmed m i now member :
  members_valid m i None (gri_members i) = true -> member ∈ gri_members i ->
  member_stop_confirmed m i now member = true ->
  grm_execution_id member ∈ gri_preserved_completed i \/
  exists t, gri_confirmed_at_ms i !! grm_execution_id member = Some t /\
    (gri_requested_at_ms i <= t)%N /\ (t < gri_deadline_ms i)%N /\ (t <= now)%N.
Proof.
  intros Hv Hin Hc. destruct (members_valid_elem _ _ _ _ _ Hv Hin) as (ctx & _ & Hs).
  unfold member_stop_confirmed in Hc. apply orb_true_iff in Hc as [Hc|Hc]; bool_facts; [by left|].
  right. match goal with Hx : is_some_and _ _ = true |- _ =>
    apply is_some_and_true in Hx as (t & Et & Ht) end.
  unfold member_status_valid in Hs. rewrite Et in Hs. cbn [is_some_and] in Hs. bool_facts.
  exists t. by split_and!.
Qed.

Lemma member_binding_group m i session members member :
  members_valid m i session members = true -> member ∈ members ->
  exists ctx, executions m !! grm_execution_id member = Some ctx /\
              cmd_group_id (ctx_command ctx) = gri_group_id i /\
              cmd_node_id (ctx_command ctx) = grm_expected_node_id member.
Proof.
  revert session. induction members as [|x members IH]; intros session; simpl; [set_solver|].
  destruct (executions m !! grm_execution_id x) as [ctx|] eqn:Ec; [|discriminate].
  intros Hv. bool_facts. intros [->|Hin]%elem_of_cons; [|by eapply IH].
  exists ctx. split; [done|]. unfold member_binding_valid in *. by bool_facts.
Qed.

Lemma published_repl_ok m i now repl :
  members_valid m i None (gri_members i) = true -> publishable m i now repl ->
  repl_ok m (gri_set_prepared repl now i).
Proof.
  intros Hv (_ & _ & _ & Hconf & Hne & Hdom & Hdis & Hch & _). right. simpl.
  assert (forall id, id ∈ intent_ids i -> id ∈ gri_preserved_completed i \/
      exists t, gri_confirmed_at_ms i !! id = Some t /\ (t < gri_deadline_ms i)%N) as Hall.
  { intros id (member & Hin & <-)%elem_of_intent_ids.
    destruct (member_confirmed m i now member) as [?|(t & ? & _ & ? & _)]; eauto. }
  split_and!; try done. intros s r Er.
  destruct (Hch s r Er) as (a & o & Ea & Eo & Hc). exists a, o. split_and!; try done.
  assert (s ∈ intent_ids i) as Hs by (apply Hdom; by eexists).
  apply elem_of_intent_ids in Hs as (member & Hin & <-).
  destruct (member_binding_group _ _ _ _ _ Hv Hin) as (ctx & Ec & Hg & _). simplify_eq.
  unfold replacement_changed in Hc. bool_facts. unfold restored_replacement_valid. simpl.
  rewrite !andb_true_iff, !bool_decide_eq_true. split_and!; try done; [congruence|].
  apply negb_true_iff, bool_decide_eq_false. intros Hr.
  assert (stopped_status (status_of m r) = true) as Hst.
  { apply (round_members_stopped m i); [done| |done].
    destruct (Hall r Hr) as [?|(t & ? & _)]; [by left|right; by eexists]. }
  match goal with Hd : status_of m r = Some Dispatched |- _ => by rewrite Hd in Hst end.
Qed.

(** Publication happens between the request and the deadline, after every
    recorded confirmation. *)
Lemma published_phase m i now repl :
  round_ok m i -> (forall id, is_Some (gri_confirmed_at_ms i !! id) ->
                     id ∉ gri_preserved_completed i) ->
  publishable m i now repl -> intent_phase_valid (gri_set_prepared repl now i) = true.
Proof.
  intros (_ & Hs & Hp & Hv & _) Hcw (Hr & Hdl & _ & Hconf & Hne & Hdom & _).
  unfold intent_phase_valid in *. simpl. rewrite Hr, bool_decide_eq_true_2 in Hp by done.
  rewrite bool_decide_eq_false_2 by done. bool_facts.
  assert (forall id, id ∈ intent_ids i -> (id ∉ gri_preserved_completed i) ->
    exists t, gri_confirmed_at_ms i !! id = Some t /\ (gri_requested_at_ms i <= t)%N /\
              (t <= now)%N) as Hall.
  { intros id (member & Hin & <-)%elem_of_intent_ids Hnp.
    destruct (member_confirmed m i now member) as [?|(t & ? & ? & _ & ?)]; eauto. done. }
  match goal with Ha : gri_admitted_at_ms i = ∅ |- _ => rewrite Ha end.
  rewrite !andb_true_iff, !negb_true_iff, N.ltb_ge, N.leb_gt. split_and!; try done.
  - destruct (map_choose repl Hne) as (s & r & Er).
    destruct (proj1 (Hdom s)) as [Hid Hst]; [by eexists|].
    destruct (Hall s Hid) as (t & _ & ? & ?); [|lia].
    intros Hpre. apply elem_of_intent_ids in Hid as (member & Hin & <-).
    destruct (members_valid_elem _ _ _ _ _ Hv Hin) as (ctx & _ & Hms).
    unfold member_status_valid, set_contains in Hms.
    rewrite bool_decide_eq_true_2 in Hms by done. bool_facts. congruence.
  - apply not_true_iff_false. rewrite existsb_exists. intros (t & Ht & Hlt). bool_facts.
    apply list_elem_of_In, elem_of_btree_values in Ht as [id Et].
    unfold intent_sets_valid in Hs. bool_facts.
    assert (set_contains id (intent_ids i) = true) as Hid.
    { match goal with Hf : forall x, In x (btree_keys _) -> _ |- _ => apply Hf end.
      apply list_elem_of_In, elem_of_btree_keys. by eexists. }
    apply bool_decide_eq_true in Hid. destruct (Hall id Hid) as (t' & Et' & _ & ?); [|simplify_eq; lia].
    apply Hcw. by eexists.
Qed.

Lemma published_round_ok m i now repl :
  round_ok m i -> (forall id, is_Some (gri_confirmed_at_ms i !! id) ->
                     id ∉ gri_preserved_completed i) ->
  publishable m i now repl -> round_ok m (gri_set_prepared repl now i).
Proof.
  intros Hok Hcw Hpub. pose proof (published_phase m i now repl Hok Hcw Hpub) as Hph.
  destruct Hok as (H1 & H2 & H3 & H4 & H5). split_and!; try done.
  - eapply (members_valid_mono m m i); try done. by left.
  - by apply published_repl_ok.
Qed.

Lemma rounds_extend_replace l1 l2 i j :
  round_extends i j -> rounds_extend (l1 ++ i :: l2) (l1 ++ j :: l2).
Proof.
  intros Hij k x. rewrite !lookup_app. destruct (l1 !! k) eqn:E.
  - intros [= <-]. eexists. split; [done|apply round_extends_refl].
  - destruct (k - length l1) as [|n]; simpl.
    + intros [= <-]. by exists j.
    + intros Ex. exists x. split; [done|apply round_extends_refl].
Qed.

Lemma record_group_continuation_inv m g now repl m' r :
  record_group_continuation m g now repl = Some (m', r) ->
  groups_wf m -> extends m m' /\ groups_wf m'.
Proof.
  intros E Hwf. destruct (record_group_continuation_cases _ _ _ _ _ _ E)
    as [[-> _]|(i & Ei & Hpub & _ & ->)]; [done|].
  destruct (continuation_split m g i (gri_set_prepared repl now) Ei) as (l1 & l2 & El & Hg & ->).
  rewrite groups_wf_iff in Hwf. destruct Hwf as (Hv & Hr & Ha & Hc).
  assert (i ∈ group_recoveries m) as Hi by (rewrite El; set_solver).
  assert (extends m (set_group_recoveries (l1 ++ gri_set_prepared repl now i :: l2)%list m)) as He.
  { extend_frame. rewrite El. apply rounds_extend_replace.
    destruct Hpub as (Hre & _ & _ & _ & _). destruct (Hv i Hi) as (_ & _ & Hph & _).
    unfold intent_phase_valid in Hph. rewrite Hre, bool_decide_eq_true_2 in Hph by done.
    bool_facts. split_and!; simpl; try done.
    intros t Et. by rewrite Et in *. }
  split; [done|]. apply groups_wf_iff. simpl. split_and!.
  - intros j Hj. apply (round_ok_mono m); [done|].
    apply elem_of_app in Hj as [?|[->|?]%elem_of_cons]; [apply Hv; rewrite El; set_solver| |
      apply Hv; rewrite El; set_solver].
    apply published_round_ok; [by apply Hv| |done]. intros id. by apply Hc.
  - rewrite <- Hr, El, !fmap_app. done.
  - intros j id Hj. unfold admitted_wf in Ha. rewrite El in Ha.
    apply elem_of_app in Hj as [?|[->|?]%elem_of_cons]; simpl;
      [apply Ha; set_solver|apply (Ha i); set_solver|apply Ha; set_solver].
  - intros j id Hj. unfold confirmed_wf in Hc. rewrite El in Hc.
    apply elem_of_app in Hj as [?|[->|?]%elem_of_cons]; simpl;
      [apply Hc; set_solver|apply (Hc i); set_solver|apply Hc; set_solver].
Qed.
End Ops.

(** * Preservation: coordination contexts and peer channels *)

Open Scope string_scope.

(** ** What a caller guarantees *)

(** A context built by one of its constructors. *)
Record context_ok (c : CoordinationContext) : Prop := {
  xo_view : forall v, cc_shared_view c = Some v -> GroupSharedViewSpec_validate v = Ok tt;
  xo_roles : NoDup (cr_context_role_id <$> cc_roles c);
  xo_channel : forall ch, cc_peer_channel c = Some ch ->
    is_blank (pcs_profile_id ch) = false /\ is_blank (pcs_message_schema ch) = false
}.

Lemma new_with_relations_roles id roles rels c :
  CoordinationContext_new_with_relations id roles rels = Ok c ->
  cc_roles c = roles /\ NoDup (cr_context_role_id <$> roles).
Proof.
  unfold CoordinationContext_new_with_relations, CoordinationContext_new.
  destruct (negb _) eqn:Er; [done|]. apply negb_false_iff, Nat.eqb_eq in Er.
  destruct (negb _); [done|]. intros [= <-]. split; [done|].
  apply distinct_count_NoDup. by rewrite Er, length_fmap.
Qed.

Lemma new_with_relations_ok id roles rels c :
  CoordinationContext_new_with_relations id roles rels = Ok c -> context_ok c.
Proof.
  intros E. pose proof (new_with_relations_roles _ _ _ _ E) as [Hr Hn].
  unfold CoordinationContext_new_with_relations, CoordinationContext_new in E.
  destruct (negb _); [done|]. destruct (negb _); [done|]. injection E as <-. by split.
Qed.

Lemma new_with_coordination_ok id roles rels mode view ch c :
  CoordinationContext_new_with_coordination id roles rels mode view ch = Ok c -> context_ok c.
Proof.
  unfold CoordinationContext_new_with_coordination.
  destruct (CoordinationContext_new_with_relations id roles rels) as [ctx|] eqn:Ex; [|done].
  apply new_with_relations_roles in Ex as [Hroles Hnd].
  match goal with |- match ?t with Ok _ => _ | Err _ => _ end = _ -> _ =>
    destruct t as [[]|] eqn:Ev; [|done] end.
  destruct (is_some_and _ ch) eqn:Ec; [done|].
  destruct (validate_mechanisms_for _ mode) as [[]|] eqn:Em; [|done]. intros [= <-].
  split; simpl; rewrite ?Hroles; [|done|].
  - intros v ->. by destruct (GroupSharedViewSpec_validate v) as [[]|].
  - intros x ->. simpl in Ec. by apply orb_false_iff in Ec.
Qed.

(** Evidence from an identified endpoint session, numbered from one. *)
Record readiness_ok (e : PeerChannelReadinessEvidence) : Prop := {
  ro_node : is_blank (as_str (pre_node_id e)) = false;
  ro_system : is_blank (as_str (pre_local_system_id e)) = false;
  ro_session : is_blank (pre_session_id e) = false;
  ro_instance : is_blank (pre_channel_instance_id e) = false;
  ro_sequence : (0 < pre_sequence e)%N
}.

(** ** One channel *)

Definition readiness_wf (c : RuntimePeerChannel) (l : list PeerChannelReadinessEvidence) : Prop :=
  NoDup (pre_context_role_id <$> l) /\
  (forall e, e ∈ l -> readiness_entry_valid c e = true).

Lemma readiness_valid_iff c : readiness_valid c = true <-> readiness_wf c (pc_readiness c).
Proof.
  unfold readiness_valid, readiness_wf. rewrite andb_true_iff, Nat.eqb_eq, forallb_forall.
  rewrite <- (length_fmap pre_context_role_id (pc_readiness c)), distinct_count_NoDup.
  setoid_rewrite list_elem_of_In. done.
Qed.

Lemma readiness_wf_filter c p l : readiness_wf c l -> readiness_wf c (List.filter p l).
Proof.
  intros [Hn Hv]. split; [by apply NoDup_fmap_filter|].
  intros e [He _]%list_elem_of_In%filter_In. by apply Hv, list_elem_of_In.
Qed.

Lemma channel_shape_readiness contexts c l :
  channel_shape contexts c = true -> readiness_wf c l ->
  channel_shape contexts (pc_set_readiness l c) = true.
Proof.
  intros Hv Hl. unfold channel_shape in *. bool_facts. rewrite !andb_true_iff. simpl.
  split_and!; try done; try (by apply contains_key_true); try (by apply negb_true_iff).
  by apply readiness_valid_iff.
Qed.

Lemma channel_shape_wf contexts c :
  channel_shape contexts c = true -> readiness_wf c (pc_readiness c).
Proof. unfold channel_shape. intros Hv. bool_facts. by apply readiness_valid_iff. Qed.

Lemma channel_shape_lifecycle contexts c l :
  channel_shape contexts (pc_set_lifecycle l c) = channel_shape contexts c.
Proof. reflexivity. Qed.

Lemma channel_shape_mono contexts contexts' c :
  contexts ⊆ contexts' -> channel_shape contexts c = true -> channel_shape contexts' c = true.
Proof.
  intros Hs Hv. unfold channel_shape in *. bool_facts. rewrite !andb_true_iff.
  split_and!; try done; try (by apply negb_true_iff).
  apply contains_key_true. match goal with Hk : is_Some _ |- _ => destruct Hk as [x Ex] end.
  exists x. by eapply lookup_weaken.
Qed.

Lemma without_role_Permutation_wf c e l :
  readiness_wf c l -> readiness_entry_valid c e = true ->
  readiness_wf c (sort_by (fun x y => cmp (pre_context_role_id x) (pre_context_role_id y))
                    (without_role (pre_context_role_id e) l ++ [e])%list).
Proof.
  intros Hl He. pose proof (readiness_wf_filter c
    (fun ack => negb (bool_decide (pre_context_role_id ack = pre_context_role_id e))) l Hl)
    as [Hn Hv]. split.
  - rewrite (fmap_Permutation _ _ _ (sort_by_Permutation _ _)), fmap_app. simpl.
    rewrite Permutation_app_comm. simpl. constructor; [|done].
    intros (y & Ey & Hy)%list_elem_of_fmap. apply list_elem_of_In, filter_In in Hy as [_ Hy].
    by bool_facts.
  - intros x. rewrite elem_of_sort_by, elem_of_app, list_elem_of_singleton.
    intros [?| ->]; [by apply Hv|done].
Qed.

(** ** The channels of a manager *)

Lemma channels_wf_fmap m f :
  (forall c, pc_group_id (f c) = pc_group_id c /\ pc_context_id (f c) = pc_context_id c) ->
  (forall c, channel_shape (coordination_contexts m) c = true ->
             channel_shape (coordination_contexts m) (f c) = true) ->
  (forall c, ready_wf c -> ready_wf (f c)) ->
  coordination_wf m -> coordination_wf (set_peer_channels (f <$> peer_channels m) m).
Proof.
  intros Hk Hv Hrd [Hc Hch]. split; simpl; [done|].
  intros key c' (c & <- & Ec)%lookup_fmap_Some. destruct (Hch key c Ec) as (<- & ? & ?).
  destruct (Hk c) as [-> ->]. auto.
Qed.

Lemma channels_wf_insert m key c c' :
  peer_channels m !! key = Some c ->
  pc_group_id c' = pc_group_id c -> pc_context_id c' = pc_context_id c ->
  (channel_shape (coordination_contexts m) c = true ->
   channel_shape (coordination_contexts m) c' = true) ->
  ready_wf c' ->
  coordination_wf m -> coordination_wf (set_peer_channels (<[key := c']> (peer_channels m)) m).
Proof.
  intros Ec Hg Hx Hv Hrd [Hc Hch]. split; simpl; [done|].
  intros k x [[<- <-]|[_ E]]%lookup_insert_Some; [|auto].
  destruct (Hch key c Ec) as (<- & ? & ?). split; [congruence|auto].
Qed.

Lemma not_ready_wf c : pc_lifecycle c <> Ready -> ready_wf c.
Proof. by intros Hn Hr. Qed.

Lemma channel_extends_refl c : channel_extends c c.
Proof. by split_and!. Qed.

Lemma extends_channels_fmap m f :
  (forall c, channel_extends c (f c)) ->
  extends m (set_peer_channels (f <$> peer_channels m) m).
Proof.
  intros Hf. extend_frame. intros key c E. exists (f c). by rewrite lookup_fmap, E.
Qed.

Lemma extends_channels_insert m key c c' :
  peer_channels m !! key = Some c -> channel_extends c c' ->
  extends m (set_peer_channels (<[key := c']> (peer_channels m)) m).
Proof.
  intros Ec Hx. extend_frame. intros k x E. destruct (decide (key = k)) as [<-|Hk].
  - rewrite lookup_insert_eq. exists c'. by simplify_eq.
  - rewrite lookup_insert_ne by done. exists x. split; [done|apply channel_extends_refl].
Qed.

Lemma expire_extends now c : channel_extends c (expire_channel now c).
Proof.
  unfold expire_channel. destruct (_ && _) eqn:E; [|apply channel_extends_refl].
  split_and!; try done. intros [Hc _]. bool_facts. done.
Qed.

Lemma fence_node_extends node c : channel_extends c (fence_channel_for_node node c).
Proof.
  unfold fence_channel_for_node. destruct (existsb _ _) eqn:E; [|apply channel_extends_refl].
  split_and!; try done. intros [_ Hr]. by rewrite Hr in E.
Qed.

Lemma refresh_deadlines_wf m now :
  coordination_wf m -> coordination_wf (refresh_peer_channel_deadlines m now).
Proof.
  apply channels_wf_fmap; intros c; unfold expire_channel; by case_match.
Qed.

Lemma fence_node_wf m node :
  coordination_wf m -> coordination_wf (fence_peer_channels_for_node m node).
Proof.
  apply channels_wf_fmap; intros c; unfold fence_channel_for_node; case_match; try done.
  all: try (intros _; by apply not_ready_wf).
  intros Hv. apply channel_shape_readiness; [done|].
  apply readiness_wf_filter. by apply channel_shape_wf in Hv.
Qed.

(** Fencing and closing; reopening a closed channel is refused. *)
Lemma set_lifecycle_inv m g x l m' r :
  set_peer_channel_lifecycle m g x l = (m', r) -> l <> Ready -> coordination_wf m ->
  extends m m' /\ coordination_wf m'.
Proof.
  unfold set_peer_channel_lifecycle. destruct (peer_channels m !! _) as [c|] eqn:Ec;
    [|by intros [= <- <-]].
  destruct (_ && _) eqn:Eg; [by intros [= <- <-]|]. intros [= <- <-] Hl Hwf. split.
  - apply (extends_channels_insert m _ c); [done|]. split_and!; try done. intros [Hc Hr].
    rewrite Hc in Eg. by destruct l.
  - by eapply channels_wf_insert.
Qed.

Lemma close_group_extends m g : extends m (close_peer_channels_for_group m g).
Proof.
  extend_frame. intros key c E. rewrite map_lookup_imap, E. simpl. eexists. split; [done|].
  case_bool_decide; [by split_and!|apply channel_extends_refl].
Qed.

Lemma close_group_wf m g :
  coordination_wf m -> coordination_wf (close_peer_channels_for_group m g).
Proof.
  intros [Hc Hch]. split; simpl; [done|]. intros key c'. rewrite map_lookup_imap.
  destruct (peer_channels m !! key) as [c|] eqn:Ec; simpl; [|done].
  destruct (Hch key c Ec) as (Hk & Hv & Hrd). case_bool_decide; intros [= <-]; [|done].
  split_and!; [done| |by apply not_ready_wf].
  apply channel_shape_readiness; [done|]. split; [constructor|set_solver].
Qed.

(** ** Readiness evidence *)

Lemma accept_readiness_wf contexts e c :
  readiness_ok e -> (pre_received_at e < pre_expires_at e)%N ->
  pre_group_id e = pc_group_id c -> pre_context_id e = pc_context_id c ->
  pre_context_role_id e ∈ pc_peers c ->
  pcs_profile_id (pc_descriptor c) = pre_profile_id e ->
  pcs_message_schema (pc_descriptor c) = pre_message_schema e ->
  channel_shape contexts c = true -> channel_shape contexts (accept_readiness e c) = true.
Proof.
  intros [? ? ? ? ?] Ht Hg Hx Hr Hp Hs Hv.
  assert (readiness_entry_valid c e = true) as He.
  { unfold readiness_entry_valid. rewrite !andb_true_iff, !bool_decide_eq_true, !negb_true_iff.
    rewrite Hp, Hs, !String.eqb_refl, !N.ltb_lt. by split_and!. }
  pose proof (without_role_Permutation_wf c e _ (channel_shape_wf _ _ Hv) He) as Hl.
  unfold accept_readiness. case_match; rewrite channel_shape_lifecycle;
    by apply channel_shape_readiness.
Qed.

Lemma fence_role_wf contexts role c :
  channel_shape contexts c = true -> channel_shape contexts (fence_role role c) = true.
Proof.
  intros Hv. unfold fence_role. rewrite channel_shape_lifecycle.
  apply channel_shape_readiness; [done|]. apply readiness_wf_filter. by eapply channel_shape_wf.
Qed.

Lemma accept_readiness_identity e c :
  pc_group_id (accept_readiness e c) = pc_group_id c /\
  pc_context_id (accept_readiness e c) = pc_context_id c.
Proof. unfold accept_readiness. by case_match. Qed.

(** [Ready] is set only when every peer is ready for one instance. *)
Lemma distinct_one {A} `{Countable A} (l : list A) a b :
  distinct_count l = 1 -> a ∈ l -> b ∈ l -> a = b.
Proof.
  unfold distinct_count. intros Hs Ha Hb.
  apply (size_singleton_inv (C := gset A) (list_to_set l)); [done|by apply elem_of_list_to_set..].
Qed.

Lemma accept_readiness_ready e c : ready_wf (accept_readiness e c).
Proof.
  unfold accept_readiness. set (acks := sort_by _ _).
  destruct (negb _); [by apply not_ready_wf|].
  destruct (forallb _ _ && _) eqn:Eb;
    [|case_match; by apply not_ready_wf]. intros _. simpl.
  apply andb_true_iff in Eb as [Ea Ei]. apply Nat.eqb_eq in Ei. bool_facts. split.
  - intros peer Hp%list_elem_of_In. specialize (Ea peer Hp).
    apply existsb_exists in Ea as (ack & Hack%list_elem_of_In & Hb). bool_facts. by exists ack.
  - intros a b Ha Hb Ra Rb. apply (distinct_one _ _ _ Ei); apply list_elem_of_fmap;
      eexists; (split; [reflexivity|]); apply list_elem_of_In, filter_In;
      (split; [by apply list_elem_of_In|done]).
Qed.

Lemma accept_readiness_extends e c :
  pc_lifecycle c <> Closed -> channel_extends c (accept_readiness e c).
Proof.
  intros Hn. unfold accept_readiness. case_match; (split_and!; try done; by intros [? _]).
Qed.

Lemma fence_role_extends role c : pc_lifecycle c <> Closed -> channel_extends c (fence_role role c).
Proof. intros Hn. split_and!; try done. by intros [? _]. Qed.

Lemma fence_role_ready role c : ready_wf (fence_role role c).
Proof. by apply not_ready_wf. Qed.

Lemma observe_readiness_inv m e m' r :
  observe_peer_channel_readiness m e = (m', r) -> readiness_ok e ->
  coordination_wf m -> extends m m' /\ coordination_wf m'.
Proof.
  intros E He Hwf0. unfold observe_peer_channel_readiness in E.
  assert (extends m (refresh_peer_channel_deadlines m (pre_received_at e))) as Hx
    by (apply extends_channels_fmap; intros; apply expire_extends).
  pose proof (refresh_deadlines_wf m (pre_received_at e) Hwf0) as Hwf.
  set (n := refresh_peer_channel_deadlines m (pre_received_at e)) in *.
  destruct (_ <=? _)%N eqn:Et; [by injection E as <- <-|]. bool_facts.
  destruct (peer_channels n !! _) as [c|] eqn:Ec; [|by injection E as <- <-].
  case_bool_decide as Hopen; [by injection E as <- <-|].
  destruct (negb (bool_decide (_ ∈ _))) eqn:Er; [by injection E as <- <-|].
  assert (forall c', pc_group_id c' = pc_group_id c -> pc_context_id c' = pc_context_id c ->
    (channel_shape (coordination_contexts n) c = true ->
     channel_shape (coordination_contexts n) c' = true) ->
    ready_wf c' -> channel_extends c c' ->
    extends m (set_peer_channels (<[(pre_group_id e, pre_context_id e) := c']> (peer_channels n)) n)
    /\ coordination_wf
         (set_peer_channels (<[(pre_group_id e, pre_context_id e) := c']> (peer_channels n)) n))
    as Hput.
  { intros c' Hg Hk Hv Hrd Hce. split; [etrans; [exact Hx|by eapply extends_channels_insert]|].
    by eapply channels_wf_insert. }
  pose proof (Hput (fence_role (pre_context_role_id e) c) eq_refl eq_refl
    (fence_role_wf (coordination_contexts n) (pre_context_role_id e) c)
    (fence_role_ready _ _)
    (fence_role_extends _ _ Hopen)) as Hfence.
  destruct (negb _ || negb _) eqn:Ed; [by injection E as <- <-|].
  apply orb_false_iff in Ed as [Ed1 Ed2]. rewrite negb_false_iff in Ed1, Ed2, Er.
  apply String.eqb_eq in Ed1, Ed2. apply bool_decide_eq_true in Er.
  assert (pre_group_id e = pc_group_id c /\ pre_context_id e = pc_context_id c) as [Hg Hk].
  { destruct (kw_channel _ Hwf _ _ Ec) as [[= -> ->] _]. done. }
  destruct (accept_readiness_identity e c) as [Ha1 Ha2].
  pose proof (Hput (accept_readiness e c) Ha1 Ha2
    (accept_readiness_wf (coordination_contexts n) e c He Et Hg Hk Er Ed1 Ed2)
    (accept_readiness_ready e c) (accept_readiness_extends e c Hopen)) as Haccept.
  repeat (case_match; try (by injection E as <- <-)).
Qed.

(** ** Registration *)

Lemma context_channel_shape contexts g c ch :
  context_ok c -> context_channel g c = Some ch -> is_Some (contexts !! (g, cc_context_id c)) ->
  (pc_group_id ch, pc_context_id ch) = (g, cc_context_id c) /\ channel_shape contexts ch = true.
Proof.
  intros [_ Hr Hc] E Hk. unfold context_channel in E.
  destruct (cc_peer_channel c) as [d|]; simplify_eq/=. split; [done|].
  destruct (Hc d eq_refl) as (? & ?). unfold channel_shape, context_peers. simpl.
  assert (NoDup (sort_by cmp (cr_context_role_id <$> cc_roles c))) as Hn
    by (by rewrite sort_by_Permutation).
  rewrite (proj2 (distinct_count_NoDup _) Hn), Nat.eqb_refl.
  rewrite !andb_true_iff, !negb_true_iff. split_and!; try done. by apply contains_key_true.
Qed.

Lemma register_context_inv m g c m' r :
  register_coordination_context m g c = (m', r) -> context_ok c ->
  coordination_wf m -> extends m m' /\ coordination_wf m'.
Proof.
  unfold register_coordination_context. intros E Hok Hwf.
  destruct (coordination_contexts m !! _) eqn:En.
  { repeat (case_match; try (by injection E as <- <-)). }
  destruct (contains_key _ (peer_channels m)) eqn:Eo; [by injection E as <- <-|]. bool_facts.
  set (n := set_coordination_contexts _ m) in E.
  assert (coordination_contexts m ⊆ coordination_contexts n) as Hs by (by apply insert_subseteq).
  assert (extends m n) as Hx by (extend_frame).
  assert (coordination_wf n) as Hn.
  { destruct Hwf as [Hc Hch]. split; simpl.
    - intros k x [[<- <-]|[_ ?]]%lookup_insert_Some; [|auto]. split; [done|]. apply Hok.
    - intros k x Ex. destruct (Hch k x Ex) as (? & ? & ?). split_and!; try done.
      by eapply channel_shape_mono. }
  destruct (context_channel g c) as [ch|] eqn:Ech; injection E as <- <-; [|done].
  split.
  { etrans; [exact Hx|]. extend_frame. intros k x Ex. rewrite lookup_insert_ne by congruence.
    exists x. split; [done|apply channel_extends_refl]. }
  destruct (context_channel_shape (coordination_contexts n) g c ch) as [Hkey Hv]; try done.
  { simpl. rewrite lookup_insert_eq. by eexists. }
  split; [apply Hn|]. simpl. intros k x [[<- <-]|[_ ?]]%lookup_insert_Some; [|by apply Hn].
  split_and!; [done..|]. apply not_ready_wf.
  unfold context_channel in Ech. by destruct (cc_peer_channel c); simplify_eq/=.
Qed.
