(* ===== verification/InvAttempts.v ===== *)
(** * Preservation: attempts, dispatch and facts *)

From S2P Require Import Prelude Identity Execution Session StateModel RelationSpec RuntimeState Relation.
From S2P Require Import Coordination Attempts GroupRecovery RecoveryStop Dispatch Checkpoint.
From S2P Require Import Invariant InvRecovery InvGroups.

Open Scope string_scope.

(** ** Composition *)

(** Relations only refer to contexts, which a growing state keeps. *)
Lemma relations_mono m m' :
  extends m m' -> relations m' = relations m -> relation_states m' = relation_states m ->
  relation_fences m' = relation_fences m -> relation_proofs m' = relation_proofs m ->
  relations_wf m -> relations_wf m'.
Proof.
  intros He E1 E2 E3 E4 [H1 H2 H3 H4]. split; rewrite ?E1, ?E2, ?E3, ?E4; try done.
  intros key id E. destruct (H4 key id E) as (r & ctx & Er & Ec & Hs).
  exists r, ctx. split_and!; [done|by eapply extends_context|done].
Qed.

Lemma coordination_mono m m' :
  coordination_contexts m' = coordination_contexts m -> peer_channels m' = peer_channels m ->
  coordination_wf m -> coordination_wf m'.
Proof. intros E1 E2 [H1 H2]. split; rewrite ?E1, ?E2; done. Qed.

Section Attempts.
Context `{Serde}.

(** A transition of the attempt maps alone. *)
Lemma wf_attempt_step m m' :
  wf m -> extends m m' -> attempts_wf m' -> evidence_wf m' ->
  relations m' = relations m -> relation_states m' = relation_states m ->
  relation_fences m' = relation_fences m -> relation_proofs m' = relation_proofs m ->
  coordination_contexts m' = coordination_contexts m -> peer_channels m' = peer_channels m ->
  progress m' = progress m -> recovery_stops m' = recovery_stops m ->
  recovery_budgets m' = recovery_budgets m -> group_recoveries m' = group_recoveries m ->
  wf m'.
Proof.
  intros [W1 W2 W3 W4 W5 W6 W7] He Ha Hv **. split; try done.
  - by eapply relations_mono.
  - by eapply coordination_mono.
  - apply (progress_mono m); [done| |done].
    match goal with E : progress _ = progress _ |- _ => by rewrite E end.
  - by apply (stops_mono m).
  - by apply (groups_mono m).
Qed.

Lemma wf_refreshed m m' : refreshed m m' -> relations_wf m' -> wf m -> wf m' /\ extends m m'.
Proof.
  intros (s & f & p & -> & _) Hr [W1 W2 W3 W4 W5 W6 W7].
  assert (extends m (rel_frame s f p m)) as He by apply extends_rel_frame.
  split; [|done]. split; try done.
  - by destruct W1.
  - by destruct W4.
  - by apply (groups_mono m).
Qed.

Lemma wf_refresh_keys m keys :
  wf m -> wf (refresh_keys m keys).1 /\ extends m (refresh_keys m keys).1.
Proof.
  intros Hwf. apply wf_refreshed; [apply refresh_keys_refreshed| |done].
  apply refresh_keys_wf; apply Hwf.
Qed.

Lemma wf_refresh_slot m slot m' ev :
  refresh_relations_for_slot m slot = (m', ev) -> wf m -> wf m' /\ extends m m'.
Proof.
  intros E Hwf. unfold refresh_relations_for_slot in E.
  pose proof (wf_refresh_keys m (fst <$> List.filter (fun kr => touches_slot slot kr.2)
                                   (btree_iter (relations m))) Hwf) as Hx.
  by rewrite E in Hx.
Qed.

(** ** The state stays well formed when one status changes *)

(** The attempt is known, live, and its new status is not [Dispatched]. *)
Lemma wf_set_status m id s s' :
  wf m -> execution_status m !! id = Some s -> is_terminal s = false -> s' <> Dispatched ->
  let m' := set_execution_status (<[id := s']> (execution_status m)) m in
  wf m' /\ extends m m'.
Proof.
  intros Hwf Es Ht Hs m'.
  assert (extends m m') as He.
  { extend_frame. intros k x Ex. destruct (decide (id = k)) as [<-|Hk].
    - rewrite lookup_insert_eq. exists s'. simplify_eq. by rewrite Ht.
    - rewrite lookup_insert_ne by done. by exists x. }
  assert (forall k, is_Some (execution_status m !! k) -> is_Some (execution_status m' !! k)) as Hd.
  { intros k [x Ex]. destruct (ex_status _ _ He k x Ex) as (t & -> & _). by eexists. }
  split; [|done]. apply (wf_attempt_step m); try done; [|apply Hwf].
  destruct (wf_attempts _ Hwf) as [A1 A2 A3 A4 A5 A6 A7 A8]. split; simpl; try done.
  - intros k ctx Ex. destruct (A1 k ctx Ex). split; try done. by apply Hd.
  - intros k Hk. by apply Hd, A2.
  - intros k Hk. by apply Hd, A4.
  - intros k Hk. destruct (A5 k Hk) as [Hc (x & Ex & Hx)]. split; [done|].
    exists x. split; [by apply (extends_terminal m m')|done].
Qed.

(** ** Deliveries *)

Lemma wf_update_outbox m f id :
  (forall i, (di_delivery_attempts i <= u32_max)%N ->
     intent_extends i (f i) /\ (di_delivery_attempts (f i) <= u32_max)%N) -> wf m ->
  wf (update_outbox f id m) /\ extends m (update_outbox f id m).
Proof.
  intros Hf Hwf. unfold update_outbox. destruct (dispatch_outbox m !! id) as [i|] eqn:Ei; [|done].
  destruct (wf_attempts _ Hwf) as [A1 A2 A3 A4 A5 A6 A7 A8].
  destruct (A7 id i Ei) as (Hid & Hn & Hx). destruct (Hf i Hn) as [Hfi Hfn].
  assert (extends m (set_dispatch_outbox (<[id := f i]> (dispatch_outbox m)) m)) as He.
  { extend_frame. intros k x Ex. destruct (decide (id = k)) as [<-|Hk].
    - rewrite lookup_insert_eq. exists (f i). by simplify_eq.
    - rewrite lookup_insert_ne by done. exists x. split; [done|apply intent_extends_refl]. }
  split; [|done]. apply (wf_attempt_step m); try done; [|apply Hwf]. split; simpl; try done.
  intros k x [[<- <-]|[_ ?]]%lookup_insert_Some; [|auto].
  destruct Hfi as (-> & -> & -> & _). done.
Qed.

Lemma wf_delivered m id :
  wf m -> wf (update_outbox di_set_delivered id m) /\ extends m (update_outbox di_set_delivered id m).
Proof. apply wf_update_outbox. intros i Hi. split; [by split_and!|done]. Qed.

Lemma wf_record_attempt m id :
  wf m -> wf (record_dispatch_attempt m id) /\ extends m (record_dispatch_attempt m id).
Proof.
  apply wf_update_outbox. intros i Hi. unfold di_count_attempt, u32_saturating_add. simpl.
  split; [|lia]. split_and!; simpl; try done. lia.
Qed.

Lemma wf_mark_delivered m id m' r :
  mark_dispatch_delivered m id = (m', r) -> wf m -> wf m' /\ extends m m'.
Proof.
  unfold mark_dispatch_delivered. case_match; intros [= <- <-]; [apply wf_delivered|done].
Qed.

(** ** Preparation *)

Definition displaced_evidence (m : RuntimeExecutionManager) (id : string) (slot : ExecutionSlot)
  : gmap ExecutionSlot SharedSpatialEvidence :=
  match active_executions m !! slot with
  | Some current => if negb (current =? id)%string then delete slot (spatial_evidence m)
                    else spatial_evidence m
  | None => spatial_evidence m
  end.

Definition displaced_reactivation (m : RuntimeExecutionManager) (id : string)
    (slot : ExecutionSlot) : gset string :=
  match active_executions m !! slot with
  | Some current =>
      if negb (current =? id)%string
      then {[id]} ∪ (reactivation_attempts m ∖ {[current]}) else reactivation_attempts m
  | None => reactivation_attempts m
  end.

(** The state after the installation, field by field. *)
Lemma install_dispatch_state m id c rs :
  install_dispatch m id c rs =
  set_dispatch_outbox (<[id := MkDispatchIntent id c rs 0 false]> (dispatch_outbox m))
    (set_execution_status (<[id := Dispatched]> (execution_status m))
      (set_reactivation_attempts (displaced_reactivation m id (cmd_slot c))
        (set_spatial_evidence (displaced_evidence m id (cmd_slot c))
          (set_active_executions (<[cmd_slot c := id]> (active_executions m))
            (set_execution_nodes (<[id := cmd_node_id c]> (execution_nodes m))
              (set_executions (<[id := MkExecutionContext c rs]> (executions m)) m)))))).
Proof.
  unfold install_dispatch, displaced_evidence, displaced_reactivation. simpl.
  destruct (active_executions m !! cmd_slot c) as [cur|]; [destruct (negb _)|]; reflexivity.
Qed.

Lemma install_extends m id c rs :
  executions m !! id = None -> execution_status m !! id = None ->
  execution_nodes m !! id = None -> dispatch_outbox m !! id = None ->
  extends m (install_dispatch m id c rs).
Proof.
  intros Ex Es En Eo. rewrite install_dispatch_state. extend_frame.
  - by apply insert_subseteq.
  - by apply insert_subseteq.
  - intros k x E. rewrite lookup_insert_ne by congruence. by exists x.
  - intros k x E. rewrite lookup_insert_ne by congruence. exists x.
    split; [done|apply intent_extends_refl].
Qed.

Lemma installed_attempts m id c rs :
  attempts_wf m -> is_blank id = false -> command_ok c -> recovery_support_mismatch c = false ->
  executions m !! id = None -> extends m (install_dispatch m id c (normalized_resources rs)) ->
  attempts_wf (install_dispatch m id c (normalized_resources rs)).
Proof.
  intros [A1 A2 A3 A4 A5 A6 A7 A8] Hid Hc Hmm Ex He. revert He.
  rewrite install_dispatch_state. intros He.
  assert (forall k, is_Some (execution_status m !! k) ->
                    is_Some (<[id := Dispatched]> (execution_status m) !! k)) as Hd.
  { intros k Hk. apply lookup_insert_is_Some. destruct (decide (id = k)); auto. }
  assert (forall k x, executions m !! k = Some x ->
    <[id := MkExecutionContext c (normalized_resources rs)]> (executions m) !! k = Some x) as Hx.
  { intros k x E. by rewrite lookup_insert_ne by congruence. }
  split; simpl.
  - intros k ctx [[<- <-]|[Hk E]]%lookup_insert_Some.
    + split; try done; simpl; [apply normalized_resources_idemp|by rewrite lookup_insert_eq|].
      rewrite lookup_insert_eq. by eexists.
    + destruct (A1 k ctx E). split; try done; [by rewrite lookup_insert_ne|by apply Hd].
  - intros k [<-|[_ Hk]]%lookup_insert_is_Some; [|by apply Hd, A2].
    rewrite lookup_insert_eq. by eexists.
  - intros slot k [[<- <-]|[_ E]]%lookup_insert_Some.
    + rewrite lookup_insert_eq. eexists. split; done.
    + destruct (A3 slot k E) as (ctx & E' & ?). exists ctx. split; [by apply Hx|done].
  - intros k Hk. by apply Hd, A4.
  - intros k Hk. destruct (A5 k Hk) as [[x E] (s & Es & Ht)].
    split; [exists x; by apply Hx|]. exists s. split; [|done].
    by rewrite lookup_insert_ne by congruence.
  - done.
  - intros k i [[<- <-]|[_ E]]%lookup_insert_Some.
    + simpl. rewrite lookup_insert_eq. by split_and!.
    + destruct (A7 k i E) as (? & ? & ?). split_and!; auto.
  - intros k [x E]%A8. exists x. by apply Hx.
Qed.

(** Evidence of the displaced attempt is dropped; the rest is still current. *)
Lemma installed_evidence m id c rs :
  attempts_wf m -> evidence_wf m -> executions m !! id = None -> execution_nodes m !! id = None ->
  evidence_wf (install_dispatch m id c rs).
Proof.
  intros Ha Hv Ex En slot e. rewrite install_dispatch_state. simpl. intros Ee.
  assert (spatial_evidence m !! slot = Some e /\ cmd_slot c <> slot) as [E Hne].
  { unfold displaced_evidence in Ee.
    destruct (active_executions m !! cmd_slot c) as [cur|] eqn:Ea.
    - destruct (String.eqb_spec cur id) as [->|Hne]; simpl in Ee.
      + destruct (aw_active _ Ha _ _ Ea) as (ctx & E & _). congruence.
      + apply lookup_delete_Some in Ee as [? ?]. done.
    - split; [done|]. intros <-. destruct (Hv _ _ Ee) as (_ & _ & E & _). congruence. }
  destruct (Hv slot e E) as (H1 & H2 & H3 & H4). split_and!; try done.
  - by rewrite lookup_insert_ne.
  - by rewrite lookup_insert_ne by congruence.
Qed.

Lemma wf_install_dispatch m id c rs :
  wf m -> is_blank id = false -> command_ok c -> recovery_support_mismatch c = false ->
  executions m !! id = None -> execution_status m !! id = None ->
  let m' := install_dispatch m id c (normalized_resources rs) in wf m' /\ extends m m'.
Proof.
  intros Hwf Hid Hc Hmm Ex Es m'. pose proof (wf_attempts _ Hwf) as Ha.
  assert (execution_nodes m !! id = None) as En.
  { apply eq_None_not_Some. intros Hn%(aw_nodes _ Ha). rewrite Es in Hn. by destruct Hn. }
  assert (dispatch_outbox m !! id = None) as Eo.
  { destruct (dispatch_outbox m !! id) eqn:E; [|done].
    apply (aw_outbox _ Ha) in E as (_ & _ & E). congruence. }
  assert (extends m m') as He by (by apply install_extends).
  split; [|done]. apply (wf_attempt_step m);
    try done; try (unfold m'; rewrite install_dispatch_state; reflexivity).
  - by apply installed_attempts.
  - by apply installed_evidence; [|apply Hwf|..].
Qed.

Lemma validate_dispatch_Route m id c rs :
  validate_dispatch m id c rs = Ok Route ->
  recovery_support_mismatch c = false /\ (id ∉ restored_executions m) /\
  executions m !! id = None /\ execution_status m !! id = None.
Proof.
  unfold validate_dispatch. destruct (recovery_support_mismatch c); [done|].
  destruct (set_contains _ _) eqn:Er; [done|].
  destruct (contains_key id (execution_status m) && negb (contains_key id (executions m))) eqn:Ek;
    [done|].
  destruct (executions m !! id) as [ctx|] eqn:Ex; [by case_match|]. intros _.
  apply andb_false_iff in Ek. rewrite negb_false_iff in Ek. bool_facts. split_and!; try done.
  destruct Ek as [?|[? ?]%contains_key_true]; [by apply contains_key_false|congruence].
Qed.

Lemma wf_prepare_dispatch m id c rs m' r :
  prepare_dispatch m id c rs = (m', r) -> wf m -> is_blank id = false -> command_ok c ->
  wf m' /\ extends m m'.
Proof.
  unfold prepare_dispatch. intros E Hwf Hid Hc.
  destruct (validate_dispatch m id c rs) as [[]|] eqn:Ev; injection E as <- <-; [|done..].
  apply validate_dispatch_Route in Ev as (? & _ & ? & ?). by apply wf_install_dispatch.
Qed.

Lemma wf_record_dispatched m id c rs m' r :
  record_dispatched m id c rs = (m', r) -> wf m -> is_blank id = false -> command_ok c ->
  wf m' /\ extends m m'.
Proof.
  unfold record_dispatched. intros E Hwf Hid Hc.
  destruct (prepare_dispatch m id c rs) as [m1 r1] eqn:Ep.
  destruct (wf_prepare_dispatch _ _ _ _ _ _ Ep Hwf Hid Hc) as [W1 E1].
  destruct r1; [|by injection E as <- <-].
  destruct (wf_mark_delivered _ _ _ _ E W1) as [W2 E2]. split; [done|by etrans].
Qed.

(** ** Attempt identities *)

Lemma wf_allocate m g t r m' res :
  allocate_attempt_id m g t r = Some (m', res) -> wf m -> wf m' /\ extends m m'.
Proof.
  unfold allocate_attempt_id. set (slot := (g, t, r)). intros E Hwf.
  pose proof (allocate_loop_spec m slot (allocate_fuel m)
                (default 0%N (attempt_generations m !! slot))) as Hs.
  rewrite E in Hs. destruct res as [id|e]; [|by destruct Hs as [-> _]].
  destruct Hs as (n & Hn & _ & _ & -> & _).
  assert (extends m (set_attempt_generations (<[slot := n]> (attempt_generations m)) m)) as He.
  { extend_frame. intros k x Ex. destruct (decide (slot = k)) as [<-|Hk].
    - rewrite lookup_insert_eq. exists n. split; [done|]. rewrite Ex in Hn. simpl in Hn. lia.
    - rewrite lookup_insert_ne by done. exists x. split; [done|lia]. }
  split; [|done]. apply (wf_attempt_step m); try done; [|apply Hwf].
  destruct (wf_attempts _ Hwf). split; simpl; try done.
  intros k x [[<- <-]|[_ ?]]%lookup_insert_Some; [lia|eauto].
Qed.

(** ** Receipts *)

Lemma wf_reject_receipt m id owner reason s m' r :
  reject_receipt m id owner reason = (m', r) -> wf m ->
  execution_status m !! id = Some s -> is_terminal s = false -> wf m' /\ extends m m'.
Proof.
  unfold reject_receipt. intros E Hwf Es Ht.
  destruct (wf_set_status m id s Unknown Hwf Es Ht) as [W1 E1]; [done|].
  destruct (executions _ !! id) as [ctx|]; [|by injection E as <- <-].
  destruct (negb _); [by injection E as <- <-|].
  destruct (refresh_relations_for_slot _ _) as [m2 ev] eqn:Er. injection E as <- <-.
  destruct (wf_refresh_slot _ _ _ _ Er W1) as [W2 E2]. split; [done|by etrans].
Qed.

(** A receipt reaches the rejection only for a known live attempt. *)
Lemma live_status m id ctx :
  wf m -> executions m !! id = Some ctx -> has_terminal_status m id = false ->
  exists s, execution_status m !! id = Some s /\ is_terminal s = false.
Proof.
  intros Hwf Ex Ht. destruct (aw_context _ (wf_attempts _ Hwf) id ctx Ex) as [_ _ _ _ _ [s Es]].
  exists s. split; [done|]. unfold has_terminal_status, status_of in Ht. by rewrite Es in Ht.
Qed.

Lemma wf_dispatch_receipt m id cid node persisted reason m' r :
  observe_dispatch_receipt m id cid node persisted reason = (m', r) -> wf m ->
  wf m' /\ extends m m'.
Proof.
  unfold observe_dispatch_receipt. intros E Hwf.
  destruct (dispatch_outbox m !! id) as [i|] eqn:Ei; [|by injection E as <- <-].
  destruct (negb _); [by injection E as <- <-|]. destruct (negb _); [by injection E as <- <-|].
  destruct persisted.
  { destruct (mark_dispatch_delivered m id) as [m1 r1] eqn:Em.
    apply wf_mark_delivered in Em; [|done]. by destruct r1; injection E as <- <-. }
  destruct (has_terminal_status m id) eqn:Et; [by injection E as <- <-|].
  case_bool_decide; [by injection E as <- <-|].
  destruct (aw_outbox _ (wf_attempts _ Hwf) id i Ei) as (_ & _ & Ex).
  destruct (live_status m id _ Hwf Ex Et) as (s & Es & Hs).
  by eapply wf_reject_receipt.
Qed.

Lemma wf_cancellation_receipt m id cid node persisted reason m' r :
  observe_cancellation_receipt m id cid node persisted reason = (m', r) -> wf m ->
  wf m' /\ extends m m'.
Proof.
  unfold observe_cancellation_receipt. intros E Hwf.
  destruct (_ || _); [by injection E as <- <-|].
  destruct (negb _) eqn:En; [by injection E as <- <-|].
  destruct (_ || _ || _) eqn:Eg; [by injection E as <- <-|].
  apply orb_false_iff in Eg as [[_ Et]%orb_false_iff _]. bool_facts.
  unfold cancellation_node in En. destruct (executions m !! id) as [ctx|] eqn:Ex; [|done].
  destruct (live_status m id ctx Hwf Ex Et) as (s & Es & Hs).
  by eapply wf_reject_receipt.
Qed.
End Attempts.

(** * Preservation: facts, evidence, relations and cancellation *)

Open Scope string_scope.

(** What an accepted fact has passed. *)
Lemma screen_fact_None m id node sequence status :
  screen_fact m id node sequence status = None ->
  (forall owner, execution_nodes m !! id = Some owner -> owner = node) /\
  (forall n, execution_sequences m !! id = Some n -> (n < sequence)%N) /\
  (forall s, execution_status m !! id = Some s -> is_terminal s = false).
Proof.
  unfold screen_fact. destruct (is_some_and _ (execution_nodes m !! id)) eqn:En; [done|].
  destruct (is_some_and _ (execution_sequences m !! id)) eqn:Eq; [done|].
  rewrite is_some_and_false in En. rewrite is_some_and_false in Eq. intros E. split_and!.
  - intros owner Eo. specialize (En owner Eo). by bool_facts.
  - intros n Es. specialize (Eq n Es). by bool_facts.
  - intros s Es. rewrite Es in E. destruct (is_terminal s); [by case_bool_decide|done].
Qed.

(** A refused or ignored fact leaves the state as it was. *)
Lemma observe_execution_cases m id node sequence status reason m' r :
  observe_execution m id node sequence status reason = (m', r) ->
  (m' = m /\ (r = Ok [] \/ exists e, r = Err e)) \/
  (screen_fact m id node sequence status = None /\
   exists events, r = Ok events /\
     (m', events) = reduce_fact (record_fact m id node sequence status) id node status reason).
Proof.
  unfold observe_execution. destruct (screen_fact _ _ _ _ _) as [[u|e]|]; try naive_solver.
  destruct (reduce_fact _ _ _ _ _) as [m2 ev]. naive_solver.
Qed.

Section Facts.
Context `{Serde}.

Lemma wf_record_fact m id node sequence status :
  wf m -> screen_fact m id node sequence status = None -> status <> Dispatched ->
  let m' := record_fact m id node sequence status in wf m' /\ extends m m'.
Proof.
  intros Hwf (Hn & Hq & Ht)%screen_fact_None Hd m'.
  set (m3 := set_execution_status (<[id := status]> (execution_status m))
    (set_execution_nodes (or_insert id node (execution_nodes m))
      (set_execution_sequences (<[id := sequence]> (execution_sequences m)) m))).
  change m' with (update_outbox di_set_delivered id m3).
  assert (extends m m3) as He.
  { extend_frame.
    - apply or_insert_subseteq.
    - intros k x Ex. destruct (decide (id = k)) as [<-|Hk].
      + rewrite lookup_insert_eq. exists status. specialize (Ht x Ex). by rewrite Ht.
      + rewrite lookup_insert_ne by done. by exists x.
    - intros k x Ex. destruct (decide (id = k)) as [<-|Hk].
      + rewrite lookup_insert_eq. exists sequence. specialize (Hq x Ex). split; [done|lia].
      + rewrite lookup_insert_ne by done. exists x. split; [done|lia]. }
  assert (forall k, is_Some (execution_status m !! k) -> is_Some (execution_status m3 !! k)) as Hs.
  { intros k [x Ex]. destruct (ex_status _ _ He k x Ex) as (t & -> & _). by eexists. }
  assert (wf m3) as W3.
  { apply (wf_attempt_step m); try done.
    - destruct (wf_attempts _ Hwf) as [A1 A2 A3 A4 A5 A6 A7 A8]. split; simpl; try done.
      + intros k ctx Ex. destruct (A1 k ctx Ex). split; try done; [|by apply Hs].
        by eapply lookup_weaken, or_insert_subseteq.
      + intros k. rewrite lookup_or_insert. case_decide as Hk; [subst k|by intros ?%A2%Hs].
        intros _. rewrite lookup_insert_eq. by eexists.
      + intros k [<-|[_ Hk]]%lookup_insert_is_Some; [|by apply Hs, A4].
        rewrite lookup_insert_eq. by eexists.
      + intros k Hk. destruct (A5 k Hk) as [Hc (x & Ex & Hx)]. split; [done|].
        exists x. split; [by apply (extends_terminal m m3)|done].
    - intros slot e Ee. destruct (wf_evidence _ Hwf slot e Ee) as (? & ? & ? & Eo).
      split_and!; try done. by eapply lookup_weaken, or_insert_subseteq. }
  destruct (wf_delivered m3 id W3) as [W4 E4]. split; [done|by etrans].
Qed.

(** The activation marks are not part of the durable history. *)
Lemma wf_activate m id c status m' ev :
  activate m id c status = (m', ev) -> wf m -> wf m' /\ extends m m'.
Proof.
  unfold activate. destruct (proves_activation status); intros [= <- <-]; [|done].
  intros Hwf. assert (forall a b, extends m (set_activated_tasks a (set_reactivation_attempts b m)))
    as He by (intros; extend_frame).
  split; [|apply He]. apply (wf_attempt_step m); try done; [|apply Hwf].
  by destruct (wf_attempts _ Hwf).
Qed.

Lemma wf_reduce_fact m id node status reason m' ev :
  reduce_fact m id node status reason = (m', ev) -> wf m -> wf m' /\ extends m m'.
Proof.
  unfold reduce_fact. destruct (executions m !! id) as [ctx|]; [|by intros [= <- <-]].
  case_bool_decide; [|by intros [= <- <-]].
  destruct (activate _ _ _ _) as [m1 ev1] eqn:Ea.
  destruct (refresh_relations_for_slot m1 _) as [m2 ev2] eqn:Er. intros [= <- <-] Hwf.
  destruct (wf_activate _ _ _ _ _ _ Ea Hwf) as [W1 E1].
  destruct (wf_refresh_slot _ _ _ _ Er W1) as [W2 E2]. split; [done|by etrans].
Qed.

Lemma wf_observe_execution m id node sequence status reason m' r :
  observe_execution m id node sequence status reason = (m', r) -> wf m ->
  status <> Dispatched -> wf m' /\ extends m m'.
Proof.
  intros [[-> _]|(Es & ev & _ & Er)]%observe_execution_cases Hwf Hd; [done|].
  destruct (wf_record_fact m id node sequence status Hwf Es Hd) as [W1 E1].
  destruct (wf_reduce_fact _ _ _ _ _ _ _ (eq_sym Er) W1) as [W2 E2]. split; [done|by etrans].
Qed.

Lemma wf_observe_execution_received m id node sequence status reason at_ms m' r :
  observe_execution_received m id node sequence status reason at_ms = (m', r) -> wf m ->
  status <> Dispatched -> wf m' /\ extends m m'.
Proof.
  unfold observe_execution_received. intros E Hwf Hd.
  destruct (observe_execution m id node sequence status reason) as [m1 r1] eqn:Eo.
  destruct (wf_observe_execution _ _ _ _ _ _ _ _ Eo Hwf Hd) as [W1 E1].
  destruct r1 as [ev|]; [|by injection E as <- <-].
  destruct (_ && _) eqn:Ec; injection E as <- <-; [|done].
  assert (extends m1 (set_terminal_received_at
            (or_insert id at_ms (terminal_received_at m1)) m1)) as E2.
  { extend_frame. apply or_insert_subseteq. }
  split; [|by etrans]. apply (wf_attempt_step m1); try done; [|apply W1].
  destruct (wf_attempts _ W1) as [A1 A2 A3 A4 A5 A6 A7 A8]. split; simpl; try done.
  intros k. rewrite lookup_or_insert. destruct (decide (id = k)) as [->|Hk]; [|by apply A5]. intros _.
  bool_facts. split; [done|]. by exists status.
Qed.

(** ** Unavailable nodes *)

Definition live (m : RuntimeExecutionManager) (id : string) : Prop :=
  exists s, execution_status m !! id = Some s /\ is_terminal s = false.

Lemma wf_lose_attempt node reason m id m' ev :
  lose_attempt node reason m id = (m', ev) -> wf m -> live m id -> wf m' /\ extends m m'.
Proof.
  unfold lose_attempt. intros E Hwf (s & Es & Ht).
  destruct (wf_set_status m id s Unknown Hwf Es Ht) as [W1 E1]; [done|].
  destruct (ctx_command <$> _) as [c|]; [|by injection E as <- <-].
  destruct (refresh_relations_for_slot _ _) as [m2 ev2] eqn:Er. injection E as <- <-.
  destruct (wf_refresh_slot _ _ _ _ Er W1) as [W2 E2]. split; [done|by etrans].
Qed.

Lemma lose_attempt_status node reason m id :
  execution_status (lose_attempt node reason m id).1 = <[id := Unknown]> (execution_status m).
Proof.
  unfold lose_attempt. destruct (ctx_command <$> _) as [c|]; [|done].
  destruct (refresh_relations_for_slot _ _) as [m2 ev2] eqn:Er.
  unfold refresh_relations_for_slot in Er.
  match type of Er with refresh_keys ?n ?l = _ =>
    destruct (refresh_keys_refreshed n l) as (a & b & c' & Ek & _) end.
  rewrite Er in Ek. simpl in *. by rewrite Ek.
Qed.

Lemma wf_lose_attempts node reason m ids m' ev :
  lose_attempts node reason m ids = (m', ev) -> wf m -> (forall id, id ∈ ids -> live m id) ->
  wf m' /\ extends m m'.
Proof.
  revert m m' ev. induction ids as [|id ids IH]; intros m m' ev; simpl; [by intros [= <- <-]|].
  pose proof (lose_attempt_status node reason m id) as Hst.
  destruct (lose_attempt node reason m id) as [m1 ev1] eqn:El.
  destruct (lose_attempts node reason m1 ids) as [m2 ev2] eqn:Es. intros [= <- <-] Hwf Hl.
  destruct (wf_lose_attempt _ _ _ _ _ _ El Hwf) as [W1 E1]; [apply Hl; set_solver|].
  destruct (IH _ _ _ Es W1) as [W2 E2]; [|split; [done|by etrans]].
  intros k Hk. unfold live. simpl in Hst. rewrite Hst. destruct (decide (id = k)) as [<-|Hne].
  - rewrite lookup_insert_eq. by eexists.
  - rewrite lookup_insert_ne by done. apply Hl. set_solver.
Qed.

Lemma elem_of_lost_attempts m node id :
  id ∈ lost_attempts m node <->
  (exists slot, active_executions m !! slot = Some id) /\ execution_nodes m !! id = Some node /\
  exists s, execution_status m !! id = Some s /\ is_terminal s = false /\ s <> Unknown.
Proof.
  unfold lost_attempts. rewrite list_elem_of_fmap. split.
  - intros ([k o] & -> & Hin). apply list_elem_of_In, filter_In in Hin as [Hin Hb].
    apply list_elem_of_In, elem_of_btree_iter in Hin. simpl in *. bool_facts. subst o.
    match goal with Hx : _ ∈ list_to_set _ |- _ =>
      rewrite elem_of_list_to_set, elem_of_btree_values in Hx end.
    match goal with Hx : is_some_and _ _ = true |- _ =>
      apply is_some_and_true in Hx as (s & Es & Hs) end.
    bool_facts. split_and!; [done..|]. by exists s.
  - intros (Ha & Hn & s & Es & Ht & Hu). exists (id, node). split; [done|].
    apply list_elem_of_In, filter_In. split; [by apply list_elem_of_In, elem_of_btree_iter|].
    simpl. unfold status_of, set_contains. rewrite Es. simpl. rewrite Ht.
    rewrite !andb_true_iff, !bool_decide_eq_true, !negb_true_iff, bool_decide_eq_false.
    split_and!; try done. by rewrite elem_of_list_to_set, elem_of_btree_values.
Qed.

Lemma wf_node_unavailable m node reason m' ev :
  observe_node_unavailable m node reason = (m', ev) -> wf m -> wf m' /\ extends m m'.
Proof.
  intros E Hwf. eapply wf_lose_attempts; [exact E|done|].
  intros id (_ & _ & s & Es & Ht & _)%elem_of_lost_attempts. by exists s.
Qed.

(** ** Cancellation *)

Lemma wf_request_cancellation m id m' r :
  request_cancellation m id = (m', r) -> wf m -> wf m' /\ extends m m'.
Proof.
  unfold request_cancellation. destruct (contains_key id (executions m)) eqn:Ek; simpl;
    [|by intros [= <- <-]]. bool_facts.
  set (m1 := match recovery_stops m !! id with Some _ => _ | None => m end).
  intros [= <- <-] Hwf.
  assert (extends m m1 /\ stops_wf m1 /\ executions m1 = executions m /\ groups_wf m1)
    as (E1 & S1 & Ex1 & G1).
  { unfold m1. destruct (recovery_stops m !! id) as [i|] eqn:Ei.
    - assert (extends m (set_recovery_stops (<[id := rsi_set_aborted i]> (recovery_stops m)) m))
        as He by (by apply (extends_stop_update m id i)).
      split_and!; try done.
      + by eapply (stops_update m _ id i); [..|apply Hwf].
      + by apply (groups_mono m); [..|apply Hwf].
    - split_and!; try done; apply Hwf. }
  pose proof (abort_group_extends m1 id) as E2.
  pose proof (abort_group_wf m1 id G1) as G2.
  set (m2 := abort_group_recovery_for_attempt m1 id) in *.
  set (m3 := set_cancellation_intents ({[id]} ∪ cancellation_intents m2) m2).
  assert (extends m2 m3) as E3 by (extend_frame; set_solver).
  assert (extends m m3) as He by (etrans; [exact E1|etrans; [exact E2|exact E3]]).
  split; [|done]. destruct Hwf as [W1 W2 W3 W4 W5 W6 W7].
  split.
  - destruct W1 as [A1 A2 A3 A4 A5 A6 A7 A8].
    assert (forall k, k ∈ cancellation_intents m3 -> is_Some (executions m3 !! k)) as Hc.
    { intros k. unfold m3. simpl. rewrite elem_of_union, elem_of_singleton.
      intros [->|Hk]; [by rewrite Ex1|]. rewrite Ex1. apply A8.
      unfold m2, m1 in Hk. by destruct (recovery_stops m !! id). }
    split; try exact Hc; unfold m3, m2, m1; destruct (recovery_stops m !! id); done.
  - intros slot e. unfold m3, m2, m1. destruct (recovery_stops m !! id); apply W2.
  - apply (relations_mono m); [done|..|done];
      unfold m3, m2, m1; by destruct (recovery_stops m !! id).
  - apply (coordination_mono m); [..|done];
      unfold m3, m2, m1; by destruct (recovery_stops m !! id).
  - apply (progress_mono m); [done| |done]. unfold m3, m2, m1. by destruct (recovery_stops m !! id).
  - apply (stops_mono m1); [by etrans|done..].
  - by apply (groups_mono m2).
Qed.

(** ** Localization evidence *)

Lemma wf_spatial_evidence m e m' r :
  observe_shared_spatial_evidence m e = (m', r) -> wf m -> is_blank (sse_frame_id e) = false ->
  wf m' /\ extends m m'.
Proof.
  unfold observe_shared_spatial_evidence. intros E Hwf Hf.
  destruct (negb _) eqn:Ea; [by injection E as <- <-|].
  destruct (negb (bool_decide (execution_nodes m !! _ = _))) eqn:En; [by injection E as <- <-|].
  bool_facts.
  set (m1 := set_spatial_evidence (<[sse_slot e := e]> (spatial_evidence m)) m) in E.
  assert (wf m1 /\ extends m m1) as [W1 E1].
  { assert (extends m m1) as He by extend_frame. split; [|done].
    apply (wf_attempt_step m); try done; [by destruct (wf_attempts _ Hwf)|].
    intros slot x. simpl. intros [[<- <-]|[_ Ex]]%lookup_insert_Some; [by split_and!|].
    by apply (wf_evidence _ Hwf). }
  destruct (refresh_relations_for_slot m1 _) as [m2 ev] eqn:Er.
  assert (wf m2 /\ extends m m2) as Haccept.
  { destruct (wf_refresh_slot _ _ _ _ Er W1) as [W2 E2]. split; [done|by etrans]. }
  repeat (case_match; try (by injection E as <- <-)).
Qed.

(** ** Relations *)

(** A specification built by one of the constructors. *)
Definition relation_spec_ok (s : ExecutionRelationSpec) : Prop :=
  ExecutionRelationSpec_new_typed (rs_relation_id s) (rs_source s) (rs_target s)
    (rs_relation_type s) = Ok s.

Lemma new_typed_ok id source target type s :
  ExecutionRelationSpec_new_typed id source target type = Ok s -> relation_spec_ok s.
Proof.
  unfold relation_spec_ok. intros E. pose proof E as E'.
  unfold ExecutionRelationSpec_new_typed in E. case_bool_decide; [done|].
  destruct (validate_typed_relation type id); [|done]. injection E as <-. done.
Qed.

Lemma new_ok id source target kind s :
  ExecutionRelationSpec_new id source target kind = Ok s -> relation_spec_ok s.
Proof.
  unfold ExecutionRelationSpec_new. destruct (bool_decide (source = target)) eqn:Eb; [done|].
  destruct (negb _) eqn:Ek; [done|]. bool_facts. subst kind. intros [= <-].
  unfold relation_spec_ok, ExecutionRelationSpec_new_typed. simpl.
  by rewrite bool_decide_eq_false_2.
Qed.

Lemma relation_of_spec_ok g mission modes s :
  relation_spec_ok s -> check_restored_relation (relation_of_spec g mission modes s) = Ok tt.
Proof.
  intros E. unfold check_restored_relation. simpl.
  rewrite bool_decide_eq_true_2 by done. simpl.
  assert (rs_kind s = relation_type_kind (rs_relation_type s)) as ->.
  { unfold relation_spec_ok, ExecutionRelationSpec_new_typed in E. case_bool_decide; [done|].
    destruct (validate_typed_relation _ _); [|done]. injection E as E. by rewrite <- E at 1. }
  rewrite bool_decide_eq_true_2 by done. simpl.
  destruct s as [id [st sr] [tt' tr] k ty]. simpl in *. unfold relation_spec_ok in E. simpl in E.
  by rewrite E.
Qed.

Lemma wf_register_loop m g rels events m' r :
  register_loop m g rels events = (m', r) -> wf m ->
  (forall x, x ∈ rels -> check_restored_relation x = Ok tt) -> wf m' /\ extends m m'.
Proof.
  revert m events. induction rels as [|x rels IH]; intros m events; simpl;
    [by intros [= <- <-]|].
  destruct (relations m !! rel_key x) as [y|] eqn:Ey.
  { destruct (negb _); [by intros [= <- <-]|]. intros E Hwf Hr. apply (IH _ _ E Hwf). set_solver. }
  set (m2 := set_relation_states _ _). intros E Hwf Hr.
  assert (wf m2 /\ extends m m2) as [W2 E2].
  { assert (extends m m2) as He by (extend_frame; by apply insert_subseteq).
    split; [|done]. destruct Hwf as [W1 W2 [R1 R2 R3 R4] W4 W5 W6 W7]. split; try done.
    - by destruct W1.
    - split; simpl.
      + intros k z [[<- <-]|[_ ?]]%lookup_insert_Some; [|auto].
        split; [done|]. apply Hr. set_solver.
      + intros k. rewrite !lookup_insert_is_Some, R2. done.
      + intros k Hk. apply lookup_insert_is_Some. specialize (R3 k Hk).
        destruct (decide (rel_key x = k)); auto.
      + intros k id Hk. destruct (R4 k id Hk) as (z & ctx & Ez & Ec & Hs).
        exists z, ctx. by rewrite lookup_insert_ne by congruence.
    - by destruct W4.
    - by apply (groups_mono m). }
  destruct (IH _ _ E W2) as [W3 E3]; [set_solver|]. split; [done|by etrans].
Qed.

Lemma wf_register_relations m g mission specs modes m' r :
  register_relations_with_modes m g mission specs modes = (m', r) -> wf m ->
  (forall s, s ∈ specs -> relation_spec_ok s) -> wf m' /\ extends m m'.
Proof.
  intros E Hwf Hs. eapply wf_register_loop; [exact E|done|].
  intros x (s & -> & Hin)%list_elem_of_fmap. by apply relation_of_spec_ok, Hs.
Qed.

Lemma wf_acknowledge m g id m' r :
  acknowledge_relation_reconciliation m g id = (m', r) -> wf m -> wf m' /\ extends m m'.
Proof.
  unfold acknowledge_relation_reconciliation. destruct (relations m !! _) as [x|];
    [|by intros [= <- <-]].
  destruct (negb _); intros [= <- <-]; [done|]. intros Hwf.
  set (m1 := set_relation_fences _ m). assert (extends m m1) as He by extend_frame.
  split; [|done]. destruct Hwf as [W1 W2 [R1 R2 R3 R4] W4 W5 W6 W7]. split; try done.
  - by destruct W1.
  - split; try done. intros k Hk. apply R3. simpl in Hk. set_solver.
  - by destruct W4.
  - by apply (groups_mono m).
Qed.
End Facts.
