(* ===== verification/InvRestore.v ===== *)
(** * Restoration succeeds

    The checkpoint of every well-formed manager passes all the checks of
    [restore], and the restored manager is well formed, extends the original
    and holds only conservative statuses. *)

From S2P Require Import Prelude Identity Execution Session RelationSpec StateModel.
From S2P Require Import RuntimeState Relation Coordination Attempts GroupRecovery RecoveryStop.
From S2P Require Import Dispatch Checkpoint Invariant.
From S2P Require Import InvRecovery InvGroups InvAttempts.

Open Scope string_scope.

(** ** Collecting a projected map *)

Section Collect.
Context {K V X : Type} `{Countable K, Ord K}.
Context (key : X -> K) (value : X -> V).

Definition collect_from (acc : gmap K V) (l : list X) : gmap K V :=
  foldl (fun acc x => <[key x := value x]> acc) acc l.

Lemma lookup_collect_from acc l k v :
  NoDup (key <$> l) -> (forall x, x ∈ l -> acc !! key x = None) ->
  collect_from acc l !! k = Some v <->
  acc !! k = Some v \/ exists x, x ∈ l /\ key x = k /\ value x = v.
Proof.
  revert acc. induction l as [|x l IH]; intros acc; simpl.
  { intros _ _. split; [by left|]. intros [?|(x & Hx & _)]; [done|set_solver]. }
  intros [Hx Hl]%NoDup_cons Hacc. rewrite IH; [|done|].
  - rewrite lookup_insert_Some. split.
    + intros [[[<- <-]|[_ ?]]|(y & Hy & ? & ?)]; [|by left|].
      * right. exists x. split_and!; [set_solver|done..].
      * right. exists y. split_and!; [set_solver|done..].
    + intros [E|(y & [->|Hy]%elem_of_cons & <- & <-)].
      * left. right. split; [|done]. intros <-. rewrite Hacc in E; [done|set_solver].
      * by left; left.
      * right. by exists y.
  - intros y Hy. rewrite lookup_insert_ne; [apply Hacc; set_solver|].
    intros E. apply Hx. rewrite E. apply list_elem_of_fmap. by exists y.
Qed.

(** The entries of a map, projected and collected again. *)
Lemma collect_btree (m : gmap K V) (l : list X) :
  (fun x => (key x, value x)) <$> l = btree_iter m -> collect_from ∅ l = m.
Proof.
  intros E. apply map_eq. intros k. apply option_eq. intros v.
  assert (key <$> l = btree_keys m) as Ek.
  { unfold btree_keys. rewrite <- E, <- list_fmap_compose. done. }
  rewrite lookup_collect_from, <- (elem_of_btree_iter m k v), <- E, list_elem_of_fmap.
  - rewrite lookup_empty. split.
    + intros [?|(x & Hx & <- & <-)]; [done|]. by exists x.
    + intros (x & [= -> ->] & Hx). right. by exists x.
  - rewrite Ek. apply NoDup_btree_keys.
  - intros x _. apply lookup_empty.
Qed.

(** A loop that checks each entry and rejects a repeated key. *)
Lemma collect_loop (f : gmap K V -> list X -> Result (gmap K V) ExecutionRuntimeError)
    (ok : X -> Prop) :
  (forall acc, f acc [] = Ok acc) ->
  (forall acc x l, ok x -> acc !! key x = None ->
     f acc (x :: l) = f (<[key x := value x]> acc) l) ->
  forall acc l, NoDup (key <$> l) -> (forall x, x ∈ l -> ok x /\ acc !! key x = None) ->
    f acc l = Ok (collect_from acc l).
Proof.
  intros Hnil Hcons acc l. revert acc. induction l as [|x l IH]; intros acc; simpl.
  { intros _ _. apply Hnil. }
  intros [Hx Hl]%NoDup_cons Hall. destruct (Hall x) as [Hok Hn]; [set_solver|].
  rewrite Hcons by done. apply IH; [done|]. intros y Hy.
  destruct (Hall y) as [? ?]; [set_solver|]. split; [done|].
  rewrite lookup_insert_ne; [done|]. intros E. apply Hx. rewrite E.
  apply list_elem_of_fmap. by exists y.
Qed.

(** The loop over the projection of a map rebuilds the map. *)
Lemma collect_loop_btree (f : gmap K V -> list X -> Result (gmap K V) ExecutionRuntimeError)
    (ok : X -> Prop) (m : gmap K V) (l : list X) :
  (forall acc, f acc [] = Ok acc) ->
  (forall acc x l, ok x -> acc !! key x = None ->
     f acc (x :: l) = f (<[key x := value x]> acc) l) ->
  (fun x => (key x, value x)) <$> l = btree_iter m -> (forall x, x ∈ l -> ok x) ->
  f ∅ l = Ok m.
Proof.
  intros Hnil Hcons E Hok. rewrite (collect_loop f ok Hnil Hcons).
  - by rewrite (collect_btree m l E).
  - assert (key <$> l = btree_keys m) as ->.
    { unfold btree_keys. rewrite <- E, <- list_fmap_compose. done. }
    apply NoDup_btree_keys.
  - intros x Hx. split; [by apply Hok|apply lookup_empty].
Qed.
End Collect.

Lemma contains_key_None {K V} `{Countable K} (k : K) (m : gmap K V) :
  m !! k = None -> contains_key k m = false.
Proof. apply contains_key_false. Qed.

Lemma contains_key_Some {K V} `{Countable K} (k : K) (m : gmap K V) :
  is_Some (m !! k) -> contains_key k m = true.
Proof. apply contains_key_true. Qed.

(** Values that carry their own key. *)
Lemma btree_values_keyed {K V} `{Countable K, Ord K} (key : V -> K) (m : gmap K V) :
  (forall k v, m !! k = Some v -> key v = k) ->
  (fun v => (key v, v)) <$> btree_values m = btree_iter m.
Proof.
  intros Hk. unfold btree_values. rewrite <- list_fmap_compose.
  transitivity (id <$> btree_iter m); [|apply list_fmap_id].
  apply list_fmap_ext. intros i [k v] E%list_elem_of_lookup_2%elem_of_btree_iter. simpl.
  by rewrite (Hk k v E).
Qed.

(** Entries written out as records and read back. *)
Lemma btree_iter_projected {K V X} `{Countable K, Ord K} (key : X -> K) (value : X -> V)
    (project : K * V -> X) (m : gmap K V) :
  (forall kv, key (project kv) = kv.1 /\ value (project kv) = kv.2) ->
  (fun x => (key x, value x)) <$> (project <$> btree_iter m) = btree_iter m.
Proof.
  intros Hp. rewrite <- list_fmap_compose. transitivity (id <$> btree_iter m); [|apply list_fmap_id].
  apply list_fmap_ext. intros i [k v] _. simpl. destruct (Hp (k, v)) as [-> ->]. done.
Qed.

(** ** The relation maps *)

Definition fence_to_checkpoint (k : RelationKey) : RelationFenceCheckpoint :=
  MkRelationFenceCheckpoint k.1 k.2.

Lemma restore_fences_loop rels l acc :
  NoDup l -> (forall k, k ∈ l -> (k ∉ acc) /\ is_Some (rels !! k)) ->
  restore_relation_fences rels acc (fence_to_checkpoint <$> l) = Ok (list_to_set l ∪ acc).
Proof.
  revert acc. induction l as [|k l IH]; intros acc; simpl; [intros _ _; f_equal; set_solver|].
  intros [Hk Hl]%NoDup_cons Hall. destruct (Hall k) as [Hn Hr]; [set_solver|].
  destruct k as [g r]. simpl. rewrite (contains_key_Some _ _ Hr). simpl.
  unfold set_contains. rewrite bool_decide_eq_false_2 by done.
  rewrite IH; [f_equal; set_solver|done|]. intros k' Hk'.
  destruct (Hall k') as [? ?]; [set_solver|]. split; [set_solver|done].
Qed.

Lemma restore_relations_checkpoint m :
  attempts_wf m -> relations_wf m ->
  restore_relation_maps (cp_relations (checkpoint m)) (cp_relation_states (checkpoint m))
    (cp_relation_fences (checkpoint m)) (cp_relation_proofs (checkpoint m))
  = Ok (relations m, relation_states m, relation_fences m, relation_proofs m).
Proof.
  intros Ha [R1 R2 R3 R4]. unfold restore_relation_maps. simpl.
  assert (restore_relation_map ∅ (btree_values (relations m)) = Ok (relations m)) as ->.
  { apply (collect_loop_btree rel_key id _ (fun r => check_restored_relation r = Ok tt)); [done|..].
    - intros acc r l Hok Hn. simpl. rewrite Hok, (contains_key_None _ _ Hn). done.
    - apply btree_values_keyed. intros k r E. by apply R1.
    - intros r [k E]%elem_of_btree_values. by eapply R1. }
  set (sc := fun kv : RelationKey * ExecutionRelationState =>
               MkRelationStateCheckpoint kv.1.1 kv.1.2 kv.2).
  assert (restore_relation_states (relations m) ∅ (sc <$> btree_iter (relation_states m))
          = Ok (relation_states m)) as ->.
  { apply (collect_loop_btree (fun s => (rsc_group_id s, rsc_relation_id s)) rsc_state _
      (fun s => is_Some (relations m !! (rsc_group_id s, rsc_relation_id s)))); [done|..].
    - intros acc s l Hok Hn. simpl. by rewrite (contains_key_Some _ _ Hok), (contains_key_None _ _ Hn).
    - apply btree_iter_projected. by intros [[? ?] ?].
    - intros s ([k st] & -> & E%elem_of_btree_iter)%list_elem_of_fmap. simpl.
      destruct k. apply R2. by eexists. }
  assert (size (relation_states m) = size (relations m)) as Hsz.
  { rewrite <- !size_dom. f_equal. apply set_eq. intros k. by rewrite !elem_of_dom. }
  rewrite Hsz, Nat.eqb_refl. simpl.
  assert (restore_relation_fences (relations m) ∅
            ((fun k : RelationKey => MkRelationFenceCheckpoint k.1 k.2) <$> bset_iter (relation_fences m))
          = Ok (relation_fences m)) as ->.
  { etrans; [apply (restore_fences_loop (relations m) (bset_iter (relation_fences m)))|].
    3: { f_equal. apply set_eq. intros k.
         rewrite elem_of_union, elem_of_list_to_set, elem_of_bset_iter. set_solver. }
    - unfold bset_iter. rewrite sort_by_Permutation. apply NoDup_elements.
    - intros k Hk%elem_of_bset_iter. split; [set_solver|auto]. }
  set (pc := fun kv : RelationKey * string => MkRelationProofCheckpoint kv.1.1 kv.1.2 kv.2).
  assert (restore_relation_proofs (relations m) ∅ (pc <$> btree_iter (relation_proofs m))
          = Ok (relation_proofs m)) as ->; [|done].
  apply (collect_loop_btree (fun p => (rpc_group_id p, rpc_relation_id p)) rpc_target_execution_id _
    (fun p => is_Some (relations m !! (rpc_group_id p, rpc_relation_id p)) /\
              is_blank (rpc_target_execution_id p) = false)); [done|..].
  - intros acc p l [Hok Hb] Hn. simpl.
    by rewrite (contains_key_Some _ _ Hok), (contains_key_None _ _ Hn), Hb.
  - apply btree_iter_projected. by intros [[? ?] ?].
  - intros p ([[g r] id] & -> & E%elem_of_btree_iter)%list_elem_of_fmap. simpl.
    destruct (R4 _ _ E) as (x & ctx & Ex & Ec & _). split; [by eexists|].
    apply (aw_context _ Ha id ctx Ec).
Qed.

(** ** The coordination maps, evidence, slots and budgets *)

Lemma restore_context_checkpoint m :
  coordination_wf m ->
  restore_context_map ∅ (btree_values (coordination_contexts m)) = Ok (coordination_contexts m).
Proof.
  intros [C1 _]. apply (collect_loop_btree (fun c => (rcc_group_id c, rcc_context_id c)) id _
      (fun c => forall v, rcc_shared_view c = Some v -> GroupSharedViewSpec_validate v = Ok tt));
      [done|..].
    - intros acc c l Hok Hn. simpl. destruct (rcc_shared_view c) as [v|]; simpl;
        [rewrite (Hok v eq_refl); simpl|]; by rewrite (contains_key_None _ _ Hn).
    - apply btree_values_keyed. intros k c E. by apply C1.
    - intros c [k E]%elem_of_btree_values. by eapply C1.
Qed.

Lemma restore_coordination_checkpoint m :
  coordination_wf m -> paired m ->
  restore_coordination_maps (cp_coordination_contexts (checkpoint m)) (cp_peer_channels (checkpoint m))
  = Ok (coordination_contexts m, peer_channels m).
Proof.
  intros Hwf Hp. unfold restore_coordination_maps. simpl. rewrite (restore_context_checkpoint m Hwf).
  destruct Hwf as [_ C2].
  assert (restore_channel_map (coordination_contexts m) ∅ (btree_values (peer_channels m))
          = Ok (peer_channels m)) as ->; [|done].
  apply (collect_loop_btree (fun c => (pc_group_id c, pc_context_id c)) id _
    (fun c => channel_valid (coordination_contexts m) c = true)); [done|..].
  - intros acc c l Hok Hn. simpl. by rewrite Hok, (contains_key_None _ _ Hn).
  - apply btree_values_keyed. intros k c E. by apply C2.
  - intros c [k E]%elem_of_btree_values. destruct (C2 k c E) as (_ & Hs & _).
    rewrite channel_valid_shape, Hs. simpl. apply negb_true_iff, Nat.ltb_ge. by apply (Hp k).
Qed.

Definition orphan_channel : ExecutionRuntimeError :=
  InvalidCheckpoint "checkpoint contains duplicate or orphan peer channel".

Lemma restore_channel_map_invalid contexts c l :
  c ∈ l -> channel_valid contexts c = false -> forall acc,
  restore_channel_map contexts acc l = Err orphan_channel.
Proof.
  intros Hc Hv. induction l as [|x l IH]; [by apply not_elem_of_nil in Hc|]. intros acc. simpl.
  apply elem_of_cons in Hc as [<-|Hc]; [by rewrite Hv|]. destruct (_ || _); [done|]. by apply IH.
Qed.

(** A channel of fewer than two Roles is refused. *)
Lemma restore_coordination_unpaired m :
  coordination_wf m -> ~ paired m ->
  restore_coordination_maps (cp_coordination_contexts (checkpoint m)) (cp_peer_channels (checkpoint m))
  = Err orphan_channel.
Proof.
  intros Hwf Hp. unfold restore_coordination_maps. simpl. rewrite (restore_context_checkpoint m Hwf).
  apply map_not_Forall in Hp as (k & c & E & Hlt); [|apply _].
  rewrite (restore_channel_map_invalid _ c); [done|by apply elem_of_btree_values; exists k|].
  rewrite channel_valid_shape, (proj2 (Nat.ltb_lt _ _)) by lia. apply andb_false_r.
Qed.

Lemma restore_spatial_checkpoint m :
  attempts_wf m -> evidence_wf m ->
  restore_spatial ∅ (cp_spatial_evidence (checkpoint m)) = Ok (spatial_evidence m).
Proof.
  intros Ha Hv. apply (collect_loop_btree sse_slot id _
    (fun e => is_blank (sse_execution_id e) = false /\ is_blank (sse_frame_id e) = false)); [done|..].
  - intros acc e l [H1 H2] Hn. simpl. by rewrite H1, H2, (contains_key_None _ _ Hn).
  - apply btree_values_keyed. intros k e E. by apply Hv.
  - intros e [k E]%elem_of_btree_values. destruct (Hv k e E) as (_ & Hf & Hact & _).
    split; [|done]. destruct (aw_active _ Ha _ _ Hact) as (ctx & Ec & _).
    apply (aw_context _ Ha _ ctx Ec).
Qed.

Lemma collect_unique_btree {K V X} `{Countable K, Ord K} (key : X -> K) (value : X -> V) e
    (m : gmap K V) (l : list X) :
  (fun x => (key x, value x)) <$> l = btree_iter m -> collect_unique key value e ∅ l = Ok m.
Proof.
  intros E. apply (collect_loop_btree key value _ (fun _ => True)); try done.
  intros acc x l' _ Hn. simpl. by rewrite (contains_key_None _ _ Hn).
Qed.

Lemma restore_active_checkpoint m e :
  collect_unique aec_slot aec_execution_id e ∅ (cp_active_executions (checkpoint m))
  = Ok (active_executions m).
Proof.
  apply collect_unique_btree. simpl. apply btree_iter_projected. by intros [[[? ?] ?] ?].
Qed.

Lemma restore_budgets_checkpoint m e :
  stops_wf m ->
  collect_unique rb_slot id e ∅ (cp_recovery_budgets (checkpoint m)) = Ok (recovery_budgets m).
Proof.
  intros [_ Hb]%stops_wf_iff. apply collect_unique_btree. simpl. apply btree_values_keyed.
  intros k b E. by apply Hb.
Qed.

Lemma restored_generations m :
  collect_map agc_slot agc_generation (cp_attempt_generations (checkpoint m))
  = attempt_generations m.
Proof. apply collect_btree. simpl. apply btree_iter_projected. by intros [[[? ?] ?] ?]. Qed.

Lemma restored_outbox m :
  attempts_wf m ->
  collect_map dic_execution_id dispatch_of_checkpoint (cp_dispatch_outbox (checkpoint m))
  = dispatch_outbox m.
Proof.
  intros Ha. apply collect_btree. simpl.
  rewrite <- (btree_values_keyed di_execution_id (dispatch_outbox m)).
  - rewrite <- list_fmap_compose. apply list_fmap_ext. intros k i _. by destruct i.
  - intros k i E. by apply (aw_outbox _ Ha).
Qed.

(** ** The cross-map checks *)

Lemma check_generations_ok m :
  attempts_wf m -> check_generations ∅ (cp_attempt_generations (checkpoint m)) = Ok tt.
Proof.
  intros Ha. simpl.
  assert (forall l seen, NoDup (fst <$> l) ->
    (forall kv : ExecutionSlot * N, kv ∈ l -> kv.2 <> 0%N /\ kv.1 ∉ seen) ->
    check_generations seen (generation_to_checkpoint <$> l) = Ok tt) as Hloop.
  { induction l as [|[[[g t] r] n] l IH]; intros seen; simpl; [done|].
    intros [Hk Hl]%NoDup_cons Hall. destruct (Hall ((g, t, r), n)) as [Hn Hs]; [set_solver|].
    simpl in *. rewrite (proj2 (N.eqb_neq _ _) Hn). simpl. unfold set_contains.
    rewrite bool_decide_eq_false_2 by done. apply IH; [done|]. intros kv Hkv.
    destruct (Hall kv) as [? ?]; [set_solver|]. split; [done|].
    rewrite elem_of_union, elem_of_singleton. intros [E|?]; [|done].
    apply Hk. apply list_elem_of_fmap. exists kv. by rewrite E. }
  apply Hloop; [apply NoDup_btree_keys|].
  intros [slot n] E%elem_of_btree_iter. split; [by eapply (aw_generations _ Ha)|set_solver].
Qed.

Lemma check_outbox_ok m :
  attempts_wf m ->
  check_outbox (cp_executions (checkpoint m)) ∅ (cp_dispatch_outbox (checkpoint m)) = Ok tt.
Proof.
  intros Ha. simpl.
  assert (forall l seen, NoDup (di_execution_id <$> l) ->
    (forall i, i ∈ l -> dispatch_outbox m !! di_execution_id i = Some i /\
                        di_execution_id i ∉ seen) ->
    check_outbox (executions m) seen (dispatch_to_checkpoint <$> l) = Ok tt) as Hloop.
  { induction l as [|i l IH]; intros seen; simpl; [done|].
    intros [Hk Hl]%NoDup_cons Hall. destruct (Hall i) as [Ei Hs]; [set_solver|].
    destruct (aw_outbox _ Ha _ _ Ei) as (_ & _ & Ex). rewrite Ex. simpl.
    destruct (aw_context _ Ha _ _ Ex) as [Hb [Hfin _] _ Hn _ _]. simpl in *.
    rewrite Hb, Hn, ExecutionCommand_eqb_refl by done. simpl. unfold set_contains.
    rewrite bool_decide_eq_false_2, bool_decide_eq_true_2 by done. simpl.
    apply IH; [done|]. intros j Hj. destruct (Hall j) as [? ?]; [set_solver|]. split; [done|].
    rewrite elem_of_union, elem_of_singleton. intros [E|?]; [|done].
    apply Hk. rewrite <- E. apply list_elem_of_fmap. by exists j. }
  assert (forall k i, dispatch_outbox m !! k = Some i -> di_execution_id i = k) as Hkey
    by (intros k i E; by apply (aw_outbox _ Ha)).
  apply Hloop.
  - assert (di_execution_id <$> btree_values (dispatch_outbox m)
            = btree_keys (dispatch_outbox m)) as ->; [|apply NoDup_btree_keys].
    unfold btree_keys. rewrite <- (btree_values_keyed di_execution_id) by done.
    by rewrite <- list_fmap_compose.
  - intros i [k E]%elem_of_btree_values. rewrite (Hkey k i E). split; [done|set_solver].
Qed.

Section Restore.
Context `{Serde}.

Lemma admission_ok m : admitted_wf m -> admission_without_fact (checkpoint m) = false.
Proof.
  intros Ha. apply not_true_iff_false. unfold admission_without_fact. simpl.
  rewrite existsb_exists. intros (i & Hi & Hb). apply list_elem_of_In in Hi.
  apply existsb_exists in Hb as (id & Hid & Hs).
  apply list_elem_of_In, elem_of_btree_keys in Hid.
  destruct (Ha i id Hi Hid) as (s & Es & Hd). rewrite Es in Hs. simpl in Hs. by bool_facts.
Qed.

Lemma check_execution_ok m id ctx :
  attempts_wf m -> executions m !! id = Some ctx ->
  check_execution (checkpoint m) (id, ctx) = Ok tt.
Proof.
  intros Ha Ex. destruct (aw_context _ Ha id ctx Ex) as [Hb [_ Hm] Hmm _ Ho Hs].
  unfold check_execution. simpl. rewrite Hm, Hmm. simpl.
  destruct (String.eqb_spec id "") as [->|Hne]; [done|].
  rewrite bool_decide_eq_true_2 by done. by rewrite (contains_key_Some _ _ Hs).
Qed.

Lemma check_proof_ok m k id :
  relations_wf m -> relation_proofs m !! k = Some id ->
  check_proof (checkpoint m) (MkRelationProofCheckpoint k.1 k.2 id) = Ok tt.
Proof.
  intros Hr E. destruct (rw_proofs _ Hr k id E) as (r & ctx & Er & Ec & Hs).
  unfold check_proof. simpl. destruct (List.find _ _) as [x|] eqn:Ef; [|done].
  apply find_some in Ef as [Hin Hk]. bool_facts.
  apply list_elem_of_In, elem_of_btree_values in Hin as [k' Ex].
  destruct (rw_relation _ Hr k' x Ex) as [Hk' _]. unfold rel_key in Hk'.
  assert (k' = k) as -> by (destruct k; simpl in *; congruence). simplify_eq.
  rewrite Ec. unfold cmd_slot, target_key in Hs. injection Hs as -> -> ->.
  by rewrite !bool_decide_eq_true_2 by done.
Qed.

Lemma validate_checkpoint_ok m : wf m -> validate_checkpoint (checkpoint m) = Ok tt.
Proof.
  intros [Ha _ Hr _ _ _ [_ Hadm _]]. unfold validate_checkpoint.
  rewrite (admission_ok m Hadm), (check_generations_ok m Ha), (check_outbox_ok m Ha). simpl.
  assert (existsb (fun id => negb (contains_key id (executions m)))
            (bset_iter (cancellation_intents m)) = false) as ->.
  { apply not_true_iff_false. rewrite existsb_exists. intros (id & Hid & Hn).
    apply list_elem_of_In, elem_of_bset_iter in Hid.
    rewrite (contains_key_Some _ _ (aw_cancel _ Ha id Hid)) in Hn. done. }
  assert (try_for (check_execution (checkpoint m)) (btree_iter (executions m)) = Ok tt) as ->.
  { apply try_for_ok. intros [id ctx] E%elem_of_btree_iter. by apply check_execution_ok. }
  assert (try_for (check_active (checkpoint m))
            (active_to_checkpoint <$> btree_iter (active_executions m)) = Ok tt) as ->.
  { apply try_for_ok. intros x ([[[g t] r] id] & -> & E%elem_of_btree_iter)%list_elem_of_fmap.
    destruct (aw_active _ Ha _ _ E) as (ctx & Ex & Hs). unfold check_active. simpl.
    rewrite Ex. unfold cmd_slot in Hs. injection Hs as -> -> ->.
    by rewrite !bool_decide_eq_true_2 by done. }
  assert (try_for (check_sequence (checkpoint m)) (btree_keys (execution_sequences m)) = Ok tt)
    as ->.
  { apply try_for_ok. intros id Hid%elem_of_btree_keys. unfold check_sequence. simpl.
    by rewrite (contains_key_Some _ _ (aw_sequences _ Ha id Hid)). }
  apply try_for_ok. intros x ([k id] & -> & E%elem_of_btree_iter)%list_elem_of_fmap.
  by apply (check_proof_ok m k id).
Qed.

Lemma check_terminal_times_ok m :
  attempts_wf m ->
  try_for (check_terminal_time (checkpoint m))
    (btree_keys (cp_terminal_received_at (checkpoint m))) = Ok tt.
Proof.
  intros Ha. apply try_for_ok. intros id Hid%elem_of_btree_keys.
  destruct (aw_received _ Ha id Hid) as [Hc (s & Es & Ht)]. unfold check_terminal_time. simpl.
  rewrite (contains_key_Some _ _ Hc), Es. simpl. by rewrite Ht.
Qed.

Lemma check_spatial_ok m :
  evidence_wf m ->
  try_for (check_restored_spatial (checkpoint m) (active_executions m))
    (btree_iter (spatial_evidence m)) = Ok tt.
Proof.
  intros Hv. apply try_for_ok. intros [slot e] E%elem_of_btree_iter.
  destruct (Hv slot e E) as (_ & _ & Hact & Hn). unfold check_restored_spatial. simpl.
  by rewrite !bool_decide_eq_true_2 by done.
Qed.

(** ** The restored manager *)

(** The manager rebuilt from [m]'s checkpoint, before its relations are
    refreshed. *)
Definition restored_base (m : RuntimeExecutionManager) : RuntimeExecutionManager :=
  rebuild (checkpoint m) (recovery_budgets m) (active_executions m) (relations m)
    (relation_states m) (relation_fences m) (relation_proofs m) (coordination_contexts m)
    (peer_channels m) (spatial_evidence m).

Lemma restore_maps_checkpoint m :
  wf m -> paired m ->
  restore_maps (checkpoint m) = Ok (refresh_all_relations_after_restore (restored_base m)).
Proof.
  intros Hwf Hp. unfold restore_maps.
  rewrite (check_terminal_times_ok m (wf_attempts _ Hwf)), (validate_checkpoint_ok m Hwf).
  rewrite (restore_relations_checkpoint m (wf_attempts _ Hwf) (wf_relations _ Hwf)).
  rewrite (restore_coordination_checkpoint m (wf_coordination _ Hwf) Hp).
  rewrite (restore_spatial_checkpoint m (wf_attempts _ Hwf) (wf_evidence _ Hwf)).
  rewrite restore_active_checkpoint, (check_spatial_ok m (wf_evidence _ Hwf)).
  by rewrite (restore_budgets_checkpoint m _ (wf_stops _ Hwf)).
Qed.

Lemma restore_unpaired m :
  wf m -> ~ paired m -> restore (checkpoint m) = Some (Err orphan_channel).
Proof.
  intros Hwf Hp. unfold restore, restore_maps.
  rewrite (check_terminal_times_ok m (wf_attempts _ Hwf)), (validate_checkpoint_ok m Hwf).
  rewrite (restore_relations_checkpoint m (wf_attempts _ Hwf) (wf_relations _ Hwf)).
  by rewrite (restore_coordination_unpaired m (wf_coordination _ Hwf) Hp).
Qed.

Lemma default_generations_lookup active generations slot :
  default_generations active generations !! slot =
  match generations !! slot with
  | Some g => Some g
  | None => if contains_key slot active then Some 1%N else None
  end.
Proof.
  unfold default_generations.
  assert (forall l acc, foldl (fun acc slot => or_insert slot 1%N acc) acc l !! slot =
    match acc !! slot with
    | Some g => Some g | None => if bool_decide (slot ∈ l) then Some 1%N else None end) as Hl.
  { induction l as [|x l IH]; intros acc; cbn [foldl].
    - rewrite (bool_decide_eq_false_2 (slot ∈ [])) by set_solver. by destruct (acc !! slot).
    - rewrite IH, lookup_or_insert. destruct (decide (x = slot)) as [->|Hx].
      + rewrite (bool_decide_eq_true_2 (slot ∈ slot :: l)) by set_solver. by destruct (acc !! slot).
      + destruct (acc !! slot); [done|]. rewrite (bool_decide_ext (slot ∈ x :: l) (slot ∈ l)); [done|set_solver]. }
  rewrite Hl. destruct (generations !! slot); [done|]. unfold contains_key.
  destruct (active !! slot) eqn:E; simpl.
  - rewrite bool_decide_eq_true_2; [done|]. apply elem_of_btree_keys. by eexists.
  - rewrite bool_decide_eq_false_2; [done|]. rewrite elem_of_btree_keys, E. by intros [? ?].
Qed.

Lemma restored_status_cases s :
  restored_status s = s /\ is_terminal s = true \/
  restored_status s = Unknown /\ is_terminal s = false.
Proof. unfold restored_status. destruct (is_terminal s); auto. Qed.

Lemma restored_base_extends m : attempts_wf m -> extends m (restored_base m).
Proof.
  intros Ha. unfold restored_base, rebuild. rewrite restored_generations, (restored_outbox m Ha).
  extend_frame.
  - intros id s Es. rewrite lookup_fmap, Es. exists (restored_status s). split; [done|].
    destruct (restored_status_cases s) as [[-> _]|[-> Ht]]; [done|]. by rewrite Ht.
  - intros slot g Eg. exists g. rewrite default_generations_lookup, Eg. split; [done|lia].
  - intros key c Ec. exists (fence_restored_channel c). rewrite lookup_fmap, Ec.
    split; [done|]. unfold fence_restored_channel.
    case_bool_decide; (split_and!; try done; intros [? _]; split; simpl; congruence).
Qed.

Lemma restored_base_generations m :
  attempt_generations (restored_base m) =
  default_generations (active_executions m) (attempt_generations m).
Proof. unfold restored_base, rebuild. by rewrite restored_generations. Qed.

Lemma restored_base_outbox m :
  attempts_wf m -> dispatch_outbox (restored_base m) = dispatch_outbox m.
Proof. intros Ha. unfold restored_base, rebuild. by rewrite (restored_outbox m Ha). Qed.

Lemma restored_attempts m : attempts_wf m -> attempts_wf (restored_base m).
Proof.
  intros Ha. pose proof (restored_base_extends m Ha) as He.
  pose proof (restored_base_outbox m Ha) as Ho. destruct Ha as [A1 A2 A3 A4 A5 A6 A7 A8].
  assert (forall k, is_Some (execution_status m !! k) ->
                    is_Some (execution_status (restored_base m) !! k)) as Hs.
  { intros k [x Ex]. simpl. rewrite lookup_fmap, Ex. by eexists. }
  split; try done.
  - intros k ctx Ex. destruct (A1 k ctx Ex). split; try done. by apply Hs.
  - intros k Hk. by apply Hs, A2.
  - intros k Hk. by apply Hs, A4.
  - intros k Hk. destruct (A5 k Hk) as [Hc (s & Es & Ht)]. split; [done|].
    exists s. split; [by apply (extends_terminal m)|done].
  - intros slot g. rewrite restored_base_generations, default_generations_lookup.
    destruct (attempt_generations m !! slot) eqn:Eg; [intros [= <-]; by eapply A6|].
    case_match; [by intros [= <-]|done].
  - rewrite Ho. done.
Qed.

Lemma wf_restored_base m : wf m -> wf (restored_base m) /\ extends m (restored_base m).
Proof.
  intros Hwf. pose proof (restored_base_extends m (wf_attempts _ Hwf)) as He. split; [|done].
  pose proof (restored_attempts m (wf_attempts _ Hwf)) as Ha.
  destruct Hwf as [W1 W2 W3 W4 W5 W6 W7]. split; try done.
  - by apply (relations_mono m).
  - destruct W4 as [C1 C2]. split; [done|]. simpl.
    intros key c' (c & <- & Ec)%lookup_fmap_Some. destruct (C2 key c Ec) as (Hk & Hv & _).
    split; [by unfold fence_restored_channel; case_bool_decide|].
    split; [|apply not_ready_wf; unfold fence_restored_channel; case_bool_decide; simpl; congruence].
    apply channel_shape_readiness; [by case_bool_decide|]. split; [constructor|set_solver].
  - by apply (stops_mono m).
  - by apply (groups_mono m).
Qed.

(** Restoring the checkpoint of a well-formed manager succeeds when its channels join two
    Roles, and in no other case. *)
Lemma restore_checkpoint m :
  wf m -> paired m -> let m' := refresh_all_relations_after_restore (restored_base m) in
  restore (checkpoint m) = Some (Ok m') /\ wf m' /\ extends m m'.
Proof.
  intros Hwf Hpd m'. destruct (wf_restored_base m Hwf) as [W1 E1].
  destruct (wf_refresh_keys (restored_base m) (btree_keys (relations (restored_base m))) W1)
    as [W2 E2]. change (wf m') in W2. change (extends (restored_base m) m') in E2.
  split_and!; [|done|by etrans]. unfold restore. rewrite (restore_maps_checkpoint m Hwf Hpd).
  fold m'. destruct W2 as [_ _ _ _ Hp Hs [Hg _ _]]. by rewrite Hp, Hs, Hg.
Qed.

Lemma restored_paired m m' : wf m -> restore (checkpoint m) = Some (Ok m') -> paired m.
Proof.
  intros Hwf E. destruct (decide (paired m)) as [|Hn]; [done|].
  by rewrite (restore_unpaired m Hwf Hn) in E.
Qed.
End Restore.
