(* ===== verification/Lifecycle.v ===== *)
(** * Reachable managers

    The transition relation of the runtime: one rule per mutating operation of
    [RuntimeExecutionManager], with the conditions its callers establish, and a
    rule for a controller restart.  Every rule keeps the manager well formed and
    only extends its durable history. *)

From S2P Require Import Prelude Identity Execution Session StateModel RelationSpec RuntimeState Relation.
From S2P Require Import Coordination Attempts GroupRecovery RecoveryStop Dispatch Checkpoint.
From S2P Require Import Invariant InvRecovery InvGroups InvAttempts InvRestore.

Open Scope string_scope.

(** The labels distinguish the operations that later statements single out. *)
Inductive label :=
| LFact (id : string) (node : NodeId) (sequence : N) (status : ExecutionStatus)
| LAcknowledge (key : RelationKey)
| LCloseChannel (key : CoordinationKey)
| LRestart
| LOther.

Section Lifecycle.
Context `{Serde}.

Inductive step : label -> RuntimeExecutionManager -> RuntimeExecutionManager -> Prop :=
(* [dispatch.rs] *)
| step_allocate m g t r m' res :
    allocate_attempt_id m g t r = Some (m', res) -> step LOther m m'
| step_prepare m id c rs m' res :
    is_blank id = false -> command_ok c ->
    prepare_dispatch m id c rs = (m', res) -> step LOther m m'
| step_dispatched m id c rs m' res :
    is_blank id = false -> command_ok c ->
    record_dispatched m id c rs = (m', res) -> step LOther m m'
| step_delivered m id m' res :
    mark_dispatch_delivered m id = (m', res) -> step LOther m m'
| step_delivery_attempt m id : step LOther m (record_dispatch_attempt m id)
| step_dispatch_receipt m id cid node persisted reason m' res :
    observe_dispatch_receipt m id cid node persisted reason = (m', res) -> step LOther m m'
| step_cancellation_receipt m id cid node persisted reason m' res :
    observe_cancellation_receipt m id cid node persisted reason = (m', res) -> step LOther m m'
| step_cancel m id m' res :
    request_cancellation m id = (m', res) -> step LOther m m'
(* [observation.rs]; a Node never reports [Dispatched] *)
| step_fact m id node sequence status reason m' res :
    status <> Dispatched ->
    observe_execution m id node sequence status reason = (m', res) ->
    step (LFact id node sequence status) m m'
| step_fact_received m id node sequence status reason at_ms m' res :
    status <> Dispatched ->
    observe_execution_received m id node sequence status reason at_ms = (m', res) ->
    step (LFact id node sequence status) m m'
| step_node_unavailable m node reason m' ev :
    observe_node_unavailable m node reason = (m', ev) -> step LOther m m'
(* [recovery_stop.rs]; a release follows a ready stop *)
| step_request_stop m id node now timeout max m' res :
    request_recovery_stop m id node now timeout max = Some (m', res) -> step LOther m m'
| step_confirm_stop m id t : step LOther m (confirm_recovery_stop m id t)
| step_release m command now :
    recovery_stop_ready m command now = true -> step LOther m (mark_recovery_release m command)
(* [group_recovery.rs] *)
| step_request_group m g rid members now timeout max m' res :
    request_group_recovery_stop m g rid members now timeout max = Some (m', res) ->
    step LOther m m'
| step_confirm_group m id t : step LOther m (confirm_group_recovery_stop m id t)
| step_continue_group m g now replacements m' res :
    record_group_continuation m g now replacements = Some (m', res) -> step LOther m m'
| step_admit_group m id t : step LOther m (confirm_group_continuation_admission m id t)
(* [progress.rs] *)
| step_progress m record sample : step LOther m (observe_progress m record sample).1
| step_fence_progress m node : step LOther m (fence_progress_for_node m node)
(* [relation/manager.rs] *)
| step_register_relations m g mission specs modes m' res :
    (forall s, s ∈ specs -> relation_spec_ok s) ->
    register_relations_with_modes m g mission specs modes = (m', res) -> step LOther m m'
| step_spatial m e m' res :
    is_blank (sse_frame_id e) = false ->
    observe_shared_spatial_evidence m e = (m', res) -> step LOther m m'
| step_acknowledge m g r m' res :
    acknowledge_relation_reconciliation m g r = (m', res) -> step (LAcknowledge (g, r)) m m'
(* [coordination.rs] *)
| step_register_context m g c m' res :
    context_ok c -> register_coordination_context m g c = (m', res) -> step LOther m m'
| step_readiness m e m' res :
    readiness_ok e -> observe_peer_channel_readiness m e = (m', res) -> step LOther m m'
| step_deadlines m now : step LOther m (refresh_peer_channel_deadlines m now)
| step_fence_node m node : step LOther m (fence_peer_channels_for_node m node)
| step_fence_channel m g x m' res :
    fence_peer_channel m g x = (m', res) -> step LOther m m'
| step_close_channel m g x m' res :
    close_peer_channel m g x = (m', res) -> step (LCloseChannel (g, x)) m m'
| step_close_group m g : step LOther m (close_peer_channels_for_group m g)
(* [checkpoint.rs] *)
| step_restart m m' : restore (checkpoint m) = Some (Ok m') -> step LRestart m m'.

Definition any_step (m m' : RuntimeExecutionManager) : Prop := exists l, step l m m'.
Definition reachable (m : RuntimeExecutionManager) : Prop := rtc any_step manager_new m.

(** ** Component transitions keep the whole manager well formed *)

(** A transition of one component's maps and the cancellation requests. *)
Lemma wf_component m m' :
  wf m -> extends m m' -> attempts_wf m' -> evidence_wf m' -> coordination_wf m' ->
  progress_wf m' -> stops_wf m' -> groups_wf m' ->
  relations m' = relations m -> relation_states m' = relation_states m ->
  relation_fences m' = relation_fences m -> relation_proofs m' = relation_proofs m -> wf m'.
Proof. intros Hwf He **. split; try done. by eapply relations_mono; [..|apply Hwf]. Qed.

Lemma wf_progress_step m p :
  wf m -> progress_wf (set_progress p m) ->
  wf (set_progress p m) /\ extends m (set_progress p m).
Proof.
  intros [W1 W2 W3 W4 W5 W6 W7] Hp. assert (extends m (set_progress p m)) as He by extend_frame.
  split; [|done]. apply (wf_component m); try done; [by destruct W1|by destruct W4|].
  by apply (groups_mono m).
Qed.

Lemma wf_channels_step m v :
  wf m -> coordination_wf (set_peer_channels v m) -> extends m (set_peer_channels v m) ->
  wf (set_peer_channels v m) /\ extends m (set_peer_channels v m).
Proof.
  intros [W1 W2 W3 W4 W5 W6 W7] Hc He.
  split; [|done]. apply (wf_component m); try done; [by destruct W1|]. by apply (groups_mono m).
Qed.

Lemma wf_stops_step m v :
  wf m -> stops_wf (set_recovery_stops v m) -> extends m (set_recovery_stops v m) ->
  wf (set_recovery_stops v m) /\ extends m (set_recovery_stops v m).
Proof.
  intros [W1 W2 W3 W4 W5 W6 W7] Hs He. split; [|done].
  apply (wf_component m); try done; [by destruct W1|by destruct W4|]. by apply (groups_mono m).
Qed.

Lemma wf_groups_step m v :
  wf m -> groups_wf (set_group_recoveries v m) -> extends m (set_group_recoveries v m) ->
  wf (set_group_recoveries v m) /\ extends m (set_group_recoveries v m).
Proof.
  intros [W1 W2 W3 W4 W5 W6 W7] Hg He. split; [|done].
  apply (wf_component m); try done; [by destruct W1|by destruct W4].
Qed.

Lemma wf_confirm_stop m id t :
  wf m -> wf (confirm_recovery_stop m id t) /\ extends m (confirm_recovery_stop m id t).
Proof.
  intros Hwf. pose proof (confirm_recovery_stop_wf m id t (wf_stops _ Hwf)) as Hs.
  pose proof (confirm_recovery_stop_extends m id t) as He. unfold confirm_recovery_stop in *.
  repeat (case_match; try done). by apply wf_stops_step.
Qed.

Lemma wf_release m command now :
  wf m -> recovery_stop_ready m command now = true ->
  wf (mark_recovery_release m command) /\ extends m (mark_recovery_release m command).
Proof.
  intros Hwf Hr. pose proof (mark_recovery_release_wf m command now Hr (wf_stops _ Hwf)) as Hs.
  pose proof (mark_recovery_release_extends m command) as He. unfold mark_recovery_release in *.
  repeat (case_match; try done). by apply wf_stops_step.
Qed.

Lemma wf_request_stop m id node now timeout max m' r :
  request_recovery_stop m id node now timeout max = Some (m', r) -> wf m ->
  wf m' /\ extends m m'.
Proof.
  intros E Hwf. destruct (request_recovery_stop_inv _ _ _ _ _ _ _ _ E (wf_stops _ Hwf)) as [He Hs].
  split; [|done]. destruct (request_recovery_stop_cases _ _ _ _ _ _ _ _ E)
    as [->|(ctx & Ec & _ & _ & _ & _ & Ea)]; [done|].
  destruct (admit_recovery_stop_cases m id (cmd_slot (ctx_command ctx)) now timeout max)
    as [[e Ee]|(b & d & _ & _ & _ & _ & _ & _ & _ & Ee)]; rewrite Ee in Ea;
    injection Ea as -> ->; [done|].
  destruct Hwf as [W1 W2 W3 W4 W5 W6 W7].
  apply (wf_component m); try done; [|by destruct W4|by apply (groups_mono m)].
  destruct W1 as [A1 A2 A3 A4 A5 A6 A7 A8]. split; try done. simpl.
  intros k [->%elem_of_singleton|Hk]%elem_of_union; [by eexists|auto].
Qed.

Lemma wf_request_group m g rid ms now timeout max m' r :
  request_group_recovery_stop m g rid ms now timeout max = Some (m', r) -> wf m ->
  wf m' /\ extends m m'.
Proof.
  intros E Hwf.
  destruct (request_group_recovery_inv _ _ _ _ _ _ _ _ _ E (wf_groups _ Hwf)) as [He Hg].
  split; [|done]. destruct (request_group_recovery_cases _ _ _ _ _ _ _ _ _ E)
    as [[-> _]|(members & pres & d & _ & -> & _ & _ & _ & _ & _ & Hl & _)]; [done|].
  destruct Hwf as [W1 W2 W3 W4 W5 W6 W7].
  apply (wf_component m); try done; [|by destruct W4|by apply (stops_mono m)].
  destruct W1 as [A1 A2 A3 A4 A5 A6 A7 A8]. split; try done. simpl.
  intros k [Hk|Hk]%elem_of_union; [|auto].
  apply elem_of_list_to_set, list_elem_of_In, filter_In in Hk as [Hk _].
  apply list_elem_of_In, list_elem_of_fmap in Hk as (member & -> & Hin).
  clear -Hl Hin. revert Hl. generalize (@None ExecutionSessionDescriptor) (∅ : gset string).
  induction members as [|x members IH]; intros s p; simpl; [set_solver|].
  destruct (group_member_check m g s x) as [[session c]|] eqn:Ec; [|done].
  apply group_member_check_Ok in Ec as (ctx & Ex & _).
  apply elem_of_cons in Hin as [->|Hin]; [by eexists|by apply IH].
Qed.

Lemma wf_continue_group m g now repl m' r :
  record_group_continuation m g now repl = Some (m', r) -> wf m -> wf m' /\ extends m m'.
Proof.
  intros E Hwf. destruct (record_group_continuation_inv _ _ _ _ _ _ E (wf_groups _ Hwf)) as [He Hg].
  destruct (record_group_continuation_cases _ _ _ _ _ _ E) as [[-> _]|(i & _ & _ & _ & ->)]; [done|].
  by apply wf_groups_step.
Qed.

Lemma wf_register_context m g c m' r :
  register_coordination_context m g c = (m', r) -> context_ok c -> wf m -> wf m' /\ extends m m'.
Proof.
  intros E Hok Hwf. destruct (register_context_inv _ _ _ _ _ E Hok (wf_coordination _ Hwf)) as [He Hc].
  split; [|done]. destruct Hwf as [W1 W2 W3 W4 W5 W6 W7].
  unfold register_coordination_context in E.
  repeat (case_match; try (injection E as <- <-; done)); injection E as <- <-;
    (apply (wf_component m); try done; [by destruct W1|by apply (groups_mono m)]).
Qed.

Lemma wf_readiness m e m' r :
  observe_peer_channel_readiness m e = (m', r) -> readiness_ok e -> wf m -> wf m' /\ extends m m'.
Proof.
  intros E Hok Hwf. destruct (observe_readiness_inv _ _ _ _ E Hok (wf_coordination _ Hwf)) as [He Hc].
  split; [|done]. assert (exists v, m' = set_peer_channels v m) as [v ->].
  { unfold observe_peer_channel_readiness in E.
    repeat case_match; simplify_eq; eexists; reflexivity. }
  by apply wf_channels_step.
Qed.

Lemma wf_lifecycle m g x l m' r :
  set_peer_channel_lifecycle m g x l = (m', r) -> l <> Ready -> wf m -> wf m' /\ extends m m'.
Proof.
  intros E Hl Hwf. destruct (set_lifecycle_inv _ _ _ _ _ _ E Hl (wf_coordination _ Hwf)) as [He Hc].
  split; [|done]. unfold set_peer_channel_lifecycle in E.
  repeat (case_match; try (injection E as <- <-; done)). injection E as <- <-.
  by apply wf_channels_step.
Qed.

(** ** Every transition preserves the invariant and extends the history *)

Lemma step_inv l m m' : step l m m' -> wf m -> wf m' /\ extends m m'.
Proof.
  intros Hs Hwf. destruct Hs.
  - by eapply wf_allocate.
  - by eapply wf_prepare_dispatch.
  - by eapply wf_record_dispatched.
  - by eapply wf_mark_delivered.
  - by apply wf_record_attempt.
  - by eapply wf_dispatch_receipt.
  - by eapply wf_cancellation_receipt.
  - by eapply wf_request_cancellation.
  - by eapply wf_observe_execution.
  - by eapply wf_observe_execution_received.
  - by eapply wf_node_unavailable.
  - by eapply wf_request_stop.
  - by apply wf_confirm_stop.
  - by eapply wf_release.
  - by eapply wf_request_group.
  - unfold confirm_group_recovery_stop. pose proof (confirm_group_stop_wf m id t (wf_groups _ Hwf)) as Hg.
    pose proof (confirm_group_stop_extends m id t) as He.
    unfold confirm_group_recovery_stop in *. case_match; [done|]. by apply wf_groups_step.
  - by eapply wf_continue_group.
  - pose proof (confirm_group_admission_wf m id t (wf_groups _ Hwf)) as Hg.
    pose proof (confirm_group_admission_extends m id t) as He.
    unfold confirm_group_continuation_admission in *. case_match; [done|]. by apply wf_groups_step.
  - pose proof (observe_progress_wf m record sample (wf_progress _ Hwf)) as Hp.
    destruct (observe_progress_cases m record sample) as [E|(ctx & t & _ & _ & _ & E)];
      rewrite E in *; [done|]. by apply wf_progress_step.
  - apply wf_progress_step; [done|]. apply (progress_mono m); [extend_frame| |apply Hwf].
    apply map_filter_subseteq.
  - by eapply wf_register_relations.
  - by eapply wf_spatial_evidence.
  - by eapply wf_acknowledge.
  - by eapply wf_register_context.
  - by eapply wf_readiness.
  - apply wf_channels_step; [done|by apply refresh_deadlines_wf; apply Hwf|].
    apply extends_channels_fmap. intros c. apply expire_extends.
  - apply wf_channels_step; [done|by apply fence_node_wf; apply Hwf|].
    apply extends_channels_fmap. intros c. apply fence_node_extends.
  - by eapply wf_lifecycle.
  - by eapply wf_lifecycle.
  - apply wf_channels_step; [done|by apply close_group_wf; apply Hwf|apply close_group_extends].
  - match goal with E : restore _ = _ |- _ =>
      destruct (restore_checkpoint m Hwf (restored_paired m _ Hwf E)) as (? & ? & ?) end. by simplify_eq.
Qed.

Lemma wf_new : wf manager_new.
Proof.
  split; [split|..|split]; simpl;
    try (intros ? ? E; by rewrite lookup_empty in E);
    try (intros ? [? E]; by rewrite lookup_empty in E); try done; try set_solver.
  - split; simpl; try (intros ? ? E; by rewrite lookup_empty in E); [|set_solver].
    intros k. split; intros [? E]; by rewrite lookup_empty in E.
  - intros ? ? ?. set_solver.
  - intros ? ? ?. set_solver.
Qed.

Lemma steps_inv m m' : rtc any_step m m' -> wf m -> wf m' /\ extends m m'.
Proof.
  induction 1 as [|m m1 m2 [l Hs] _ IH]; intros Hwf; [done|].
  destruct (step_inv _ _ _ Hs Hwf) as [W1 E1]. destruct (IH W1) as [W2 E2].
  split; [done|by etrans].
Qed.

Lemma reachable_wf m : reachable m -> wf m.
Proof. intros Hr. apply (steps_inv _ _ Hr), wf_new. Qed.

(** ** What only some transitions may do *)

(** No fence disappears. *)
Definition quiet (m m' : RuntimeExecutionManager) : Prop :=
  relation_fences m ⊆ relation_fences m'.

Lemma quiet_trans a b c : quiet a b -> quiet b c -> quiet a c.
Proof. unfold quiet. intros. by etrans. Qed.

Lemma quiet_same m m' : relation_fences m' = relation_fences m -> quiet m m'.
Proof. unfold quiet. by intros ->. Qed.

Lemma quiet_refreshed m m' : refreshed m m' -> quiet m m'.
Proof. by intros (s & f & p & -> & Hf). Qed.

Lemma quiet_refresh_slot m slot m' ev :
  refresh_relations_for_slot m slot = (m', ev) -> quiet m m'.
Proof.
  intros E. unfold refresh_relations_for_slot in E.
  match type of E with refresh_keys ?n ?l = _ =>
    pose proof (refresh_keys_refreshed n l) as Hr end.
  rewrite E in Hr. by apply quiet_refreshed.
Qed.

Ltac same := by apply quiet_same.

Lemma quiet_update_outbox f m id : quiet m (update_outbox f id m).
Proof. unfold update_outbox. case_match; same. Qed.

Lemma quiet_mark_delivered m id m' r : mark_dispatch_delivered m id = (m', r) -> quiet m m'.
Proof.
  unfold mark_dispatch_delivered. case_match; intros [= <- <-]; [apply quiet_update_outbox|same].
Qed.

Lemma quiet_install m id c rs : quiet m (install_dispatch m id c rs).
Proof.
  rewrite install_dispatch_state. same.
Qed.

Lemma quiet_prepare m id c rs m' r : prepare_dispatch m id c rs = (m', r) -> quiet m m'.
Proof.
  unfold prepare_dispatch. repeat case_match; intros [= <- <-]; try same. apply quiet_install.
Qed.

Lemma quiet_reject m id owner reason m' r :
  reject_receipt m id owner reason = (m', r) -> quiet m m'.
Proof.
  unfold reject_receipt. repeat case_match; intros [= <- <-]; try same.
  eapply quiet_trans; [|by eapply quiet_refresh_slot]. same.
Qed.

Lemma quiet_lose_attempts node reason m ids m' ev :
  lose_attempts node reason m ids = (m', ev) -> quiet m m'.
Proof.
  revert m m' ev. induction ids as [|id ids IH]; intros m m' ev; simpl; [intros [= <- <-]; same|].
  destruct (lose_attempt node reason m id) as [m1 ev1] eqn:El.
  destruct (lose_attempts node reason m1 ids) as [m2 ev2] eqn:Es. intros [= <- <-].
  eapply quiet_trans; [|by eapply IH]. unfold lose_attempt in El.
  repeat case_match; simplify_eq; try same.
  eapply quiet_trans; [|by eapply quiet_refresh_slot]. same.
Qed.

Lemma quiet_register m g rels events m' r : register_loop m g rels events = (m', r) -> quiet m m'.
Proof.
  revert m events. induction rels as [|x rels IH]; intros m events; simpl; [intros [= <- <-]; same|].
  destruct (relations m !! rel_key x); [case_match; [intros [= <- <-]; same|apply IH]|].
  intros E. eapply quiet_trans; [|by eapply IH]. same.
Qed.

Lemma quiet_request_cancellation m id m' r : request_cancellation m id = (m', r) -> quiet m m'.
Proof. unfold request_cancellation. repeat case_match; intros [= <- <-]; same. Qed.

Lemma quiet_readiness m e m' r : observe_peer_channel_readiness m e = (m', r) -> quiet m m'.
Proof. unfold observe_peer_channel_readiness. repeat case_match; intros [= <- <-]; same. Qed.

Lemma quiet_spatial m e m' r : observe_shared_spatial_evidence m e = (m', r) -> quiet m m'.
Proof.
  unfold observe_shared_spatial_evidence. intros E.
  destruct (refresh_relations_for_slot _ (sse_slot e)) as [m2 ev] eqn:Er.
  apply quiet_refresh_slot in Er. repeat case_match; simplify_eq; try same; exact Er.
Qed.

Lemma quiet_request_stop m id node now timeout max m' r :
  request_recovery_stop m id node now timeout max = Some (m', r) -> quiet m m'.
Proof.
  intros [->|(ctx & _ & _ & _ & _ & _ & E)]%request_recovery_stop_cases; [same|].
  destruct (admit_recovery_stop_cases m id (cmd_slot (ctx_command ctx)) now timeout max)
    as [[e Ee]|(b & d & _ & _ & _ & _ & _ & _ & _ & Ee)]; rewrite Ee in E;
    injection E as -> ->; same.
Qed.

Lemma quiet_other m m' : step LOther m m' -> quiet m m'.
Proof.
  intros Hs. inversion Hs; subst; try same.
  - unfold allocate_attempt_id in *.
    match goal with E : allocate_loop ?f ?n ?s ?g = _ |- _ =>
      pose proof (allocate_loop_spec n s f g) as Hx; rewrite E in Hx end.
    destruct res; [destruct Hx as (n & _ & _ & _ & -> & _)|destruct Hx as [-> _]]; same.
  - by eapply quiet_prepare.
  - unfold record_dispatched in *.
    destruct (prepare_dispatch m id c rs) as [m1 r1] eqn:Ep. apply quiet_prepare in Ep.
    destruct r1; simplify_eq; [|done]. eapply quiet_trans; [exact Ep|by eapply quiet_mark_delivered].
  - by eapply quiet_mark_delivered.
  - apply quiet_update_outbox.
  - unfold observe_dispatch_receipt in *.
    repeat case_match; simplify_eq; try same; [| |by eapply quiet_reject..];
      by eapply quiet_mark_delivered.
  - unfold observe_cancellation_receipt in *.
    repeat case_match; simplify_eq; try same. by eapply quiet_reject.
  - by eapply quiet_request_cancellation.
  - by eapply quiet_lose_attempts.
  - by eapply quiet_request_stop.
  - unfold confirm_recovery_stop. repeat case_match; same.
  - unfold mark_recovery_release. repeat case_match; same.
  - match goal with E : request_group_recovery_stop _ _ _ _ _ _ _ = _ |- _ =>
      apply request_group_recovery_cases in E as [[-> _]|(? & ? & ? & _ & -> & _)] end; same.
  - unfold confirm_group_recovery_stop. case_match; same.
  - match goal with E : record_group_continuation _ _ _ _ = _ |- _ =>
      apply record_group_continuation_cases in E as [[-> _]|(? & _ & _ & _ & ->)] end; same.
  - unfold confirm_group_continuation_admission. case_match; same.
  - destruct (observe_progress_cases m record sample) as [->|(? & ? & _ & _ & _ & ->)]; same.
  - by eapply quiet_register.
  - by eapply quiet_spatial.
  - unfold register_coordination_context in *. repeat case_match; simplify_eq; same.
  - by eapply quiet_readiness.
  - unfold fence_peer_channel, set_peer_channel_lifecycle in *. repeat case_match; simplify_eq; same.
Qed.

Lemma quiet_reduce_fact m id node status reason m' ev :
  reduce_fact m id node status reason = (m', ev) -> quiet m m'.
Proof.
  unfold reduce_fact. destruct (executions m !! id) as [ctx|]; [|intros [= <- <-]; same].
  case_bool_decide; [|intros [= <- <-]; same].
  destruct (activate _ _ _ _) as [m1 ev1] eqn:Ea.
  destruct (refresh_relations_for_slot m1 _) as [m2 ev2] eqn:Er. intros [= <- <-].
  eapply quiet_trans; [|by eapply quiet_refresh_slot].
  unfold activate in Ea. case_match; simplify_eq; same.
Qed.

Lemma quiet_fact m id node sequence status reason m' r :
  observe_execution m id node sequence status reason = (m', r) -> quiet m m'.
Proof.
  intros [[-> _]|(Hs & ev & _ & Er)]%observe_execution_cases; [same|].
  eapply quiet_trans; [|by eapply quiet_reduce_fact].
  unfold record_fact, update_outbox. simpl. case_match; same.
Qed.

Lemma quiet_received m id node sequence status reason at_ms m' r :
  observe_execution_received m id node sequence status reason at_ms = (m', r) -> quiet m m'.
Proof.
  unfold observe_execution_received.
  destruct (observe_execution m id node sequence status reason) as [m1 r1] eqn:E.
  apply quiet_fact in E. intros Er. repeat case_match; simplify_eq; exact E.
Qed.

Lemma quiet_restart m m' : wf m -> restore (checkpoint m) = Some (Ok m') -> quiet m m'.
Proof.
  intros Hwf E. destruct (restore_checkpoint m Hwf (restored_paired m _ Hwf E)) as (E' & _ & _). rewrite E' in E.
  injection E as <-. unfold refresh_all_relations_after_restore.
  apply (quiet_refreshed (restored_base m)), refresh_keys_refreshed.
Qed.
End Lifecycle.

(** * The life of one physical attempt

    What the runtime promises for a single attempt, as a small machine over its
    status, the sequence of its last fact and its owner, and the simulation: every
    transition of the whole runtime is a step, or a stutter, of each attempt's
    machine. *)

Open Scope string_scope.

Record AttemptView := MkView {
  av_status : option ExecutionStatus;
  av_sequence : option N;
  av_owner : option NodeId
}.

Definition attempt_view (m : RuntimeExecutionManager) (id : string) : AttemptView :=
  MkView (execution_status m !! id) (execution_sequences m !! id) (execution_nodes m !! id).

Definition unseen : AttemptView := MkView None None None.

(** The steps of the attempt [id] under a transition of the runtime. *)
Inductive attempt_step (id : string) : label -> AttemptView -> AttemptView -> Prop :=
| attempt_stutter l v : attempt_step id l v v
| attempt_dispatched node :
    attempt_step id LOther unseen (MkView (Some Dispatched) None (Some node))
| attempt_fact node sequence status v :
    (forall owner, av_owner v = Some owner -> owner = node) ->
    (forall n, av_sequence v = Some n -> (n < sequence)%N) ->
    (forall s, av_status v = Some s -> is_terminal s = false) ->
    status <> Dispatched ->
    attempt_step id (LFact id node sequence status) v
      (MkView (Some status) (Some sequence) (Some node))
| attempt_lost s q o :
    is_terminal s = false ->
    attempt_step id LOther (MkView (Some s) q o) (MkView (Some Unknown) q o)
| attempt_restarted v :
    attempt_step id LRestart v
      (MkView (restored_status <$> av_status v) (av_sequence v) (av_owner v)).

(** ** Frames *)

(** The three maps an attempt's view reads. *)
Definition same_views (m m' : RuntimeExecutionManager) : Prop :=
  execution_status m' = execution_status m /\ execution_sequences m' = execution_sequences m /\
  execution_nodes m' = execution_nodes m.

#[export] Instance same_views_preorder : PreOrder same_views.
Proof.
  split; [done|]. intros a b c (? & ? & ?) (? & ? & ?). unfold same_views. split_and!; congruence.
Qed.

Lemma same_views_stutter id l m m' :
  same_views m m' -> attempt_step id l (attempt_view m id) (attempt_view m' id).
Proof. intros (E1 & E2 & E3). unfold attempt_view. rewrite E1, E2, E3. constructor. Qed.

Lemma same_views_refreshed m m' : refreshed m m' -> same_views m m'.
Proof. by intros (s & f & p & -> & _). Qed.

Lemma same_views_refresh_slot m slot m' ev :
  refresh_relations_for_slot m slot = (m', ev) -> same_views m m'.
Proof.
  intros E. unfold refresh_relations_for_slot in E.
  match type of E with refresh_keys ?n ?l = _ => pose proof (refresh_keys_refreshed n l) as Hr end.
  rewrite E in Hr. by apply same_views_refreshed.
Qed.

Lemma same_views_outbox f m id : same_views m (update_outbox f id m).
Proof. unfold update_outbox. by case_match. Qed.

Lemma same_views_delivered m id m' r : mark_dispatch_delivered m id = (m', r) -> same_views m m'.
Proof.
  unfold mark_dispatch_delivered. case_match; intros [= <- <-]; [apply same_views_outbox|done].
Qed.

Lemma same_views_register m g rels events m' r :
  register_loop m g rels events = (m', r) -> same_views m m'.
Proof.
  revert m events. induction rels as [|x rels IH]; intros m events; simpl; [by intros [= <- <-]|].
  destruct (relations m !! rel_key x); [case_match; [by intros [= <- <-]|apply IH]|].
  intros E. by apply IH in E.
Qed.

Lemma same_views_reduce m id node status reason m' ev :
  reduce_fact m id node status reason = (m', ev) -> same_views m m'.
Proof.
  unfold reduce_fact. destruct (executions m !! id) as [ctx|]; [|by intros [= <- <-]].
  case_bool_decide; [|by intros [= <- <-]].
  destruct (activate _ _ _ _) as [m1 ev1] eqn:Ea.
  destruct (refresh_relations_for_slot m1 _) as [m2 ev2] eqn:Er. intros [= <- <-].
  etrans; [|by eapply same_views_refresh_slot]. unfold activate in Ea. case_match; by simplify_eq.
Qed.

(** ** Steps that change a view *)

Section Simulation.
Context `{Serde}.

Lemma attempt_prepare k m id c rs m' r :
  prepare_dispatch m id c rs = (m', r) -> attempts_wf m ->
  attempt_step k LOther (attempt_view m k) (attempt_view m' k).
Proof.
  unfold prepare_dispatch. intros E Ha.
  destruct (validate_dispatch m id c rs) as [[]|] eqn:Ev; simplify_eq; try constructor.
  apply validate_dispatch_Route in Ev as (_ & _ & _ & Hs).
  rewrite install_dispatch_state. unfold attempt_view. simpl. rewrite !lookup_insert.
  case_decide as Hk; [subst k|constructor].
  assert (execution_sequences m !! id = None) as ->.
  { apply eq_None_not_Some. intros Hq. apply (aw_sequences _ Ha) in Hq. rewrite Hs in Hq.
    by destruct Hq. }
  assert (execution_nodes m !! id = None) as ->.
  { apply eq_None_not_Some. intros Hq. apply (aw_nodes _ Ha) in Hq. rewrite Hs in Hq.
    by destruct Hq. }
  rewrite Hs. apply attempt_dispatched.
Qed.

(** An attempt turned into [Unknown] without a fact. *)
Lemma attempt_unknown k m id m' :
  same_views (set_execution_status (<[id := Unknown]> (execution_status m)) m) m' ->
  has_terminal_status m id = false -> is_Some (execution_status m !! id) ->
  attempt_step k LOther (attempt_view m k) (attempt_view m' k).
Proof.
  intros (E1 & E2 & E3) Ht [s Es]. unfold attempt_view. rewrite E1, E2, E3. simpl.
  rewrite lookup_insert. case_decide as Hk; [subst k|constructor].
  rewrite Es. apply attempt_lost. unfold has_terminal_status, status_of in Ht. by rewrite Es in Ht.
Qed.

Lemma attempt_reject k m id owner reason m' r :
  reject_receipt m id owner reason = (m', r) ->
  has_terminal_status m id = false -> is_Some (execution_status m !! id) ->
  attempt_step k LOther (attempt_view m k) (attempt_view m' k).
Proof.
  unfold reject_receipt. intros E. apply attempt_unknown.
  repeat case_match; simplify_eq; try done. by eapply same_views_refresh_slot.
Qed.

Lemma lose_attempts_frame node reason m ids :
  execution_sequences (lose_attempts node reason m ids).1 = execution_sequences m /\
  execution_nodes (lose_attempts node reason m ids).1 = execution_nodes m.
Proof.
  revert m. induction ids as [|id ids IH]; intros m; cbn [lose_attempts]; [done|].
  assert (execution_sequences (lose_attempt node reason m id).1 = execution_sequences m /\
          execution_nodes (lose_attempt node reason m id).1 = execution_nodes m) as [Hq Hn].
  { unfold lose_attempt. destruct (ctx_command <$> _) as [c|]; [|done].
    destruct (refresh_relations_for_slot _ _) as [m2 ev2] eqn:Er.
    by apply same_views_refresh_slot in Er as (_ & ? & ?). }
  destruct (lose_attempt node reason m id) as [m1 ev1]. specialize (IH m1).
  destruct (lose_attempts node reason m1 ids) as [m2 ev2]. simpl in *.
  destruct IH as [-> ->]. done.
Qed.

Lemma lose_attempts_status node reason m ids id :
  execution_status (lose_attempts node reason m ids).1 !! id =
  if decide (id ∈ ids) then Some Unknown else execution_status m !! id.
Proof.
  revert m. induction ids as [|x ids IH]; intros m; cbn [lose_attempts].
  { rewrite decide_False by set_solver. done. }
  pose proof (lose_attempt_status node reason m x) as Hst.
  destruct (lose_attempt node reason m x) as [m1 ev1]. specialize (IH m1).
  destruct (lose_attempts node reason m1 ids) as [m2 ev2]. cbn [fst] in *.
  rewrite IH, Hst, lookup_insert.
  destruct (decide (id ∈ ids)), (decide (x = id)), (decide (id ∈ x :: ids)); set_solver.
Qed.

Lemma attempt_unavailable k m node reason :
  attempt_step k LOther (attempt_view m k)
    (attempt_view (observe_node_unavailable m node reason).1 k).
Proof.
  unfold observe_node_unavailable. destruct (lose_attempts_frame node reason m (lost_attempts m node))
    as [Hq Hn]. unfold attempt_view. rewrite Hq, Hn, lose_attempts_status.
  case_decide as Hk; [|constructor].
  apply elem_of_lost_attempts in Hk as (_ & _ & s & -> & Ht & _). by apply attempt_lost.
Qed.

Lemma attempt_observed k m id node sequence status reason m' r :
  observe_execution m id node sequence status reason = (m', r) -> status <> Dispatched ->
  attempt_step k (LFact id node sequence status) (attempt_view m k) (attempt_view m' k).
Proof.
  intros [[-> _]|(Hs & ev & _ & Er)]%observe_execution_cases Hd; [constructor|].
  apply screen_fact_None in Hs as (Hn & Hq & Ht).
  apply eq_sym, same_views_reduce in Er as (E1 & E2 & E3).
  unfold attempt_view. rewrite E1, E2, E3.
  assert (forall key, (execution_status (record_fact m id node sequence status) !! key,
    execution_sequences (record_fact m id node sequence status) !! key,
    execution_nodes (record_fact m id node sequence status) !! key) =
    (<[id := status]> (execution_status m) !! key, <[id := sequence]> (execution_sequences m) !! key,
     or_insert id node (execution_nodes m) !! key)) as Hv.
  { intros key. unfold record_fact, update_outbox. simpl. by case_match. }
  specialize (Hv k). injection Hv as -> -> ->.
  rewrite !lookup_insert, lookup_or_insert. case_decide as Hk; [subst k|constructor].
  assert (default node (execution_nodes m !! id) = node) as ->.
  { destruct (execution_nodes m !! id) as [o|] eqn:Eo; [by apply Hn|done]. }
  by apply attempt_fact.
Qed.

Lemma attempt_receipt k m id cid node persisted reason m' r :
  observe_dispatch_receipt m id cid node persisted reason = (m', r) -> attempts_wf m ->
  attempt_step k LOther (attempt_view m k) (attempt_view m' k).
Proof.
  unfold observe_dispatch_receipt. intros E Ha.
  destruct (dispatch_outbox m !! id) as [i|] eqn:Eo; [|injection E as <- <-; constructor].
  destruct (aw_outbox _ Ha id i Eo) as (_ & _ & Ex).
  pose proof (cw_status _ _ _ _ (aw_context _ Ha id _ Ex)) as Hst.
  destruct (negb (command_id i =? cid)%string); [injection E as <- <-; constructor|].
  destruct (negb _); [injection E as <- <-; constructor|]. destruct persisted.
  - apply same_views_stutter. repeat case_match; simplify_eq; by eapply same_views_delivered.
  - destruct (has_terminal_status m id) eqn:Et; [injection E as <- <-; constructor|].
    case_bool_decide; [injection E as <- <-; constructor|]. by eapply attempt_reject.
Qed.

Lemma attempt_cancel_receipt k m id cid node persisted reason m' r :
  observe_cancellation_receipt m id cid node persisted reason = (m', r) -> attempts_wf m ->
  attempt_step k LOther (attempt_view m k) (attempt_view m' k).
Proof.
  unfold observe_cancellation_receipt. intros E Ha.
  destruct (negb _ || negb _); [injection E as <- <-; constructor|].
  destruct (negb (bool_decide (cancellation_node m id = Some node))) eqn:En;
    [injection E as <- <-; constructor|]. bool_facts.
  destruct (_ || _) eqn:Eb; [injection E as <- <-; constructor|]. bool_facts.
  unfold cancellation_node in *. destruct (executions m !! id) as [ctx|] eqn:Ex; [|done].
  pose proof (cw_status _ _ _ _ (aw_context _ Ha id _ Ex)) as Hst. by eapply attempt_reject.
Qed.

Lemma attempt_restore k m m' :
  wf m -> restore (checkpoint m) = Some (Ok m') ->
  attempt_step k LRestart (attempt_view m k) (attempt_view m' k).
Proof.
  intros Hwf E. destruct (restore_checkpoint m Hwf (restored_paired m _ Hwf E)) as (E' & _ & _). rewrite E' in E.
  injection E as <-. unfold refresh_all_relations_after_restore.
  destruct (same_views_refreshed _ _ (refresh_keys_refreshed (restored_base m)
    (btree_keys (relations (restored_base m))))) as (H1 & H2 & H3).
  unfold attempt_view at 2. rewrite H1, H2, H3. simpl. rewrite lookup_fmap.
  apply (attempt_restarted k (attempt_view m k)).
Qed.

Ltac stutter := by apply same_views_stutter.

(** Every transition of the runtime is a step of each attempt. *)
Lemma attempt_simulates k l m m' :
  step l m m' -> wf m -> attempt_step k l (attempt_view m k) (attempt_view m' k).
Proof.
  intros Hs Hwf. pose proof (wf_attempts _ Hwf) as Ha. inversion Hs; subst; try constructor.
  - unfold allocate_attempt_id in *.
    match goal with E : allocate_loop ?f ?n ?s ?g = _ |- _ =>
      pose proof (allocate_loop_spec n s f g) as Hx; rewrite E in Hx end.
    destruct res; [destruct Hx as (n & _ & _ & _ & -> & _)|destruct Hx as [-> _]]; stutter.
  - by eapply attempt_prepare.
  - unfold record_dispatched in *.
    destruct (prepare_dispatch m id c rs) as [m1 r1] eqn:Ep.
    pose proof (attempt_prepare k _ _ _ _ _ _ Ep Ha) as Hp. destruct r1; simplify_eq; [|done].
    match goal with E : mark_dispatch_delivered _ _ = _ |- _ =>
      apply same_views_delivered in E as (E1 & E2 & E3) end.
    unfold attempt_view at 2. rewrite E1, E2, E3. exact Hp.
  - apply same_views_stutter. by eapply same_views_delivered.
  - apply same_views_stutter, same_views_outbox.
  - by eapply attempt_receipt.
  - by eapply attempt_cancel_receipt.
  - match goal with E : request_cancellation _ _ = _ |- _ => unfold request_cancellation in E end.
    repeat case_match; simplify_eq; stutter.
  - by eapply attempt_observed.
  - match goal with E : observe_execution_received _ _ _ _ _ _ _ = _ |- _ =>
      unfold observe_execution_received in E end.
    destruct (observe_execution m id node sequence status reason) as [m1 r1] eqn:Eo.
    pose proof (attempt_observed k _ _ _ _ _ _ _ _ Eo ltac:(done)) as Hp.
    repeat case_match; simplify_eq; exact Hp.
  - pose proof (attempt_unavailable k m node reason) as Hp.
    match goal with E : observe_node_unavailable _ _ _ = _ |- _ => by rewrite E in Hp end.
  - match goal with E : request_recovery_stop _ _ _ _ _ _ = _ |- _ =>
      apply request_recovery_stop_cases in E as [->|(ctx & _ & _ & _ & _ & _ & E)] end; [stutter|].
    destruct (admit_recovery_stop_cases m id (cmd_slot (ctx_command ctx)) now timeout max)
      as [[e Ee]|(b & d & _ & _ & _ & _ & _ & _ & _ & Ee)]; rewrite Ee in *; simplify_eq; stutter.
  - unfold confirm_recovery_stop. repeat case_match; stutter.
  - unfold mark_recovery_release. repeat case_match; stutter.
  - match goal with E : request_group_recovery_stop _ _ _ _ _ _ _ = _ |- _ =>
      apply request_group_recovery_cases in E as [[-> _]|(? & ? & ? & _ & -> & _)] end; stutter.
  - unfold confirm_group_recovery_stop. case_match; stutter.
  - match goal with E : record_group_continuation _ _ _ _ = _ |- _ =>
      apply record_group_continuation_cases in E as [[-> _]|(? & _ & _ & _ & ->)] end; stutter.
  - unfold confirm_group_continuation_admission. case_match; stutter.
  - destruct (observe_progress_cases m record sample) as [->|(? & ? & _ & _ & _ & ->)]; stutter.
  - apply same_views_stutter. by eapply same_views_register.
  - match goal with E : observe_shared_spatial_evidence _ _ = _ |- _ =>
      unfold observe_shared_spatial_evidence in E end.
    destruct (refresh_relations_for_slot _ (sse_slot e)) as [m2 ev] eqn:Er.
    apply same_views_refresh_slot in Er. repeat case_match; simplify_eq; try stutter.
  - match goal with E : acknowledge_relation_reconciliation _ _ _ = _ |- _ =>
      unfold acknowledge_relation_reconciliation in E end.
    repeat case_match; simplify_eq; stutter.
  - unfold register_coordination_context in *. repeat case_match; simplify_eq; stutter.
  - unfold observe_peer_channel_readiness in *. repeat case_match; simplify_eq; stutter.
  - unfold fence_peer_channel, set_peer_channel_lifecycle in *.
    repeat case_match; simplify_eq; stutter.
  - unfold close_peer_channel, set_peer_channel_lifecycle in *.
    repeat case_match; simplify_eq; stutter.
  - by apply attempt_restore.
Qed.
End Simulation.
