(* ===== verification/DecisionPolicy.v ===== *)
(** * Evidence policies and scheduling costs

    [core/domain/src/decision_policy.rs] and [core/domain/src/scheduling_cost.rs]:
    which State records a decision may consume, how several of them are reduced to
    one, and the integer cost a scheduling source contributes. *)

From S2P Require Import Prelude Identity Execution StateModel Resource.

Open Scope string_scope.

(** ** JSON values

    Equality of [serde_json::Value]: an integer is never equal to a floating-point number. *)

Fixpoint Json_eqb (a b : Json) : bool :=
  match a, b with
  | JNull, JNull => true
  | JBool x, JBool y => Bool.eqb x y
  | JNumber x, JNumber y | JFloat x, JFloat y => (x =? y)%Z
  | JString x, JString y => (x =? y)%string
  | JArray l, JArray k =>
      (fix go (l k : list Json) : bool :=
         match l, k with
         | [], [] => true
         | x :: l', y :: k' => Json_eqb x y && go l' k'
         | _, _ => false
         end) l k
  | JObject l, JObject k =>
      (fix go (l k : list (string * Json)) : bool :=
         match l, k with
         | [], [] => true
         | (s, x) :: l', (t, y) :: k' => (s =? t)%string && Json_eqb x y && go l' k'
         | _, _ => false
         end) l k
  | _, _ => false
  end.

(** ** Policies: [decision_policy.rs] *)

Definition DECISION_EVIDENCE_POLICY_SCHEMA_V0_1 : string :=
  "roboguide.decision-evidence-policy/v0.1".

Inductive DecisionKind :=
| BeliefFusion | Schedule | Match | Commit | Bind | Rebind | Readiness | Satisfaction.

Inductive ConflictReducer := RequireEquivalent | HighestConfidence.

Inductive EvidenceDisposition :=
| EvAccepted | EvUnknown | EvStale | EvLowConfidence | EvUnauthorized | EvConflict.

#[export] Instance DecisionKind_eq_dec : EqDecision DecisionKind.
Proof. solve_decision. Defined.
#[export] Instance ConflictReducer_eq_dec : EqDecision ConflictReducer.
Proof. solve_decision. Defined.
#[export] Instance EvidenceDisposition_eq_dec : EqDecision EvidenceDisposition.
Proof. solve_decision. Defined.

#[export] Instance DecisionKind_countable : Countable DecisionKind.
Proof.
  refine (inj_countable'
    (fun k => match k with BeliefFusion => 0 | Schedule => 1 | Match => 2 | Commit => 3
                         | Bind => 4 | Rebind => 5 | Readiness => 6 | Satisfaction => 7 end)
    (fun n => match n with 0 => BeliefFusion | 1 => Schedule | 2 => Match | 3 => Commit
                         | 4 => Bind | 5 => Rebind | 6 => Readiness | _ => Satisfaction end) _).
  by intros [].
Defined.

#[export] Instance StateSemantic_countable : Countable StateSemantic.
Proof.
  refine (inj_countable'
    (fun s => match s with Desired => 0 | Committed => 1 | Reported => 2 | Observed => 3
                         | Derived => 4 | Belief => 5 end)
    (fun n => match n with 0 => Desired | 1 => Committed | 2 => Reported | 3 => Observed
                         | 4 => Derived | _ => Belief end) _).
  by intros [].
Defined.

Definition state_source_key (s : StateSource) : (NodeId * LocalSystemId) + string :=
  match s with SourceNode n l => inl (n, l) | SourceRoboGuide c => inr c end.

#[export] Instance StateSource_countable : Countable StateSource.
Proof.
  refine (inj_countable' state_source_key
    (fun k => match k with inl p => SourceNode p.1 p.2 | inr c => SourceRoboGuide c end) _).
  by intros [].
Defined.

(** The derived order of [StateSource]: Nodes first. *)
#[export] Instance StateSource_Ord : Ord StateSource :=
  fun x y => match x, y with
  | SourceNode n l, SourceNode n' l' => cmp (n, l) (n', l')
  | SourceNode _ _, SourceRoboGuide _ => Lt
  | SourceRoboGuide _, SourceNode _ _ => Gt
  | SourceRoboGuide c, SourceRoboGuide c' => cmp c c'
  end.

Record EvidenceEvaluation := MkEvaluation {
  ee_disposition : EvidenceDisposition;
  ee_record : option StateRecord
}.

Definition rejected (d : EvidenceDisposition) : EvidenceEvaluation := MkEvaluation d None.

Inductive DecisionEvidencePolicyError :=
| InvalidField (field : string)
| InvalidBound (field : string)
| EmptyAdmissionSet (field : string).

(** [impl Display for DecisionEvidencePolicyError]. *)
Definition policy_error_to_string (e : DecisionEvidencePolicyError) : string :=
  match e with
  | InvalidField field => "decision policy " ++ field ++ " is blank"
  | InvalidBound field => "decision policy " ++ field ++ " is invalid"
  | EmptyAdmissionSet field => "decision policy " ++ field ++ " must not be empty"
  end.

Record DecisionEvidencePolicy := MkEvidencePolicy {
  ep_schema : string;
  ep_policy_id : string;
  ep_revision : N;
  ep_object : StateObjectRef;
  ep_channel_id : string;
  ep_allowed_semantics : gset StateSemantic;
  ep_allowed_sources : gset StateSource;
  ep_max_age_ms : N;
  ep_min_confidence_millionths : option N;
  ep_allowed_decisions : gset DecisionKind;
  ep_reducer : ConflictReducer;
  ep_payload_schema : option string
}.

#[export] Instance DecisionEvidencePolicy_eq_dec : EqDecision DecisionEvidencePolicy.
Proof. solve_decision. Defined.

(** [DecisionEvidencePolicy::new]. *)
Definition DecisionEvidencePolicy_new (policy_id : string) (revision : N)
    (object : StateObjectRef) (channel_id : string) (allowed_semantics : gset StateSemantic)
    (allowed_sources : gset StateSource) (max_age_ms : N) (min_confidence : option N)
    (allowed_decisions : gset DecisionKind) (reducer : ConflictReducer)
  : Result DecisionEvidencePolicy DecisionEvidencePolicyError :=
  if (revision =? 0)%N then Err (InvalidBound "revision") else
  if is_blank policy_id then Err (InvalidField "policy_id") else
  if is_blank channel_id then Err (InvalidField "channel_id") else
  if bool_decide (allowed_semantics = ∅) then Err (EmptyAdmissionSet "allowed_semantics") else
  if bool_decide (allowed_sources = ∅) then Err (EmptyAdmissionSet "allowed_sources") else
  if bool_decide (allowed_decisions = ∅) then Err (EmptyAdmissionSet "allowed_decisions") else
  if (max_age_ms =? 0)%N then Err (InvalidBound "max_age_ms") else
  if is_some_and (fun value => (1000000 <? value)%N) min_confidence
  then Err (InvalidBound "min_confidence_millionths")
  else Ok (MkEvidencePolicy DECISION_EVIDENCE_POLICY_SCHEMA_V0_1 policy_id revision object
             channel_id allowed_semantics allowed_sources max_age_ms min_confidence
             allowed_decisions reducer None).

(** [DecisionEvidencePolicy::validate]. *)
Definition DecisionEvidencePolicy_validate (p : DecisionEvidencePolicy)
  : Result unit DecisionEvidencePolicyError :=
  if negb (ep_schema p =? DECISION_EVIDENCE_POLICY_SCHEMA_V0_1)%string
  then Err (InvalidField "schema") else
  if is_some_and is_blank (ep_payload_schema p) then Err (InvalidField "payload_schema") else
  if (64 <? size (ep_allowed_sources p))%nat then Err (InvalidBound "allowed_sources") else
  let? _p := DecisionEvidencePolicy_new (ep_policy_id p) (ep_revision p) (ep_object p)
               (ep_channel_id p) (ep_allowed_semantics p) (ep_allowed_sources p)
               (ep_max_age_ms p) (ep_min_confidence_millionths p) (ep_allowed_decisions p)
               (ep_reducer p) in
  Ok tt.

(** The three filters of [evaluate]. *)
Definition policy_matches (p : DecisionEvidencePolicy) (r : StateRecord) : bool :=
  bool_decide (sk_object (sr_key r) = ep_object p)
  && (sk_channel_id (sr_key r) =? ep_channel_id p)%string
  && set_contains (sk_semantic (sr_key r)) (ep_allowed_semantics p)
  && set_contains (sk_source (sr_key r)) (ep_allowed_sources p)
  && is_none_or (fun schema => (schema =? sr_payload_schema r)%string) (ep_payload_schema p).

Definition policy_fresh (p : DecisionEvidencePolicy) (now : TimestampMs) (r : StateRecord) : bool :=
  (sr_received_at r <=? now)%N
  && negb (StateRecord_is_stale_at r now)
  && (u64_saturating_sub now (sr_received_at r) <=? ep_max_age_ms p)%N.

Definition policy_confident (p : DecisionEvidencePolicy) (r : StateRecord) : bool :=
  is_none_or (fun minimum =>
    is_some_and (fun value => (minimum <=? value)%N) (sr_confidence_millionths r))
    (ep_min_confidence_millionths p).

(** [Iterator::max_by] keeps the last of several maxima. *)
Definition latest_of (left right : StateRecord) : StateRecord :=
  match cmp_then (cmp (sr_received_at left) (sr_received_at right))
          (cmp_then (cmp (sr_sequence left) (sr_sequence right))
             (cmp (sk_source (sr_key left)) (sk_source (sr_key right)))) with
  | Gt => left
  | _ => right
  end.

(** [select_latest]; the list is [first :: rest]. *)
Definition select_latest (first : StateRecord) (rest : list StateRecord) : StateRecord :=
  foldl latest_of first rest.

Definition confidence_or_zero (r : StateRecord) : N := default 0%N (sr_confidence_millionths r).

Definition disagrees (first : StateRecord) (records : list StateRecord) : bool :=
  existsb (fun record => negb (Json_eqb (sr_value record) (sr_value first))) records.

(** The reduction of the admissible records under the configured reducer.  There is
    a record of highest confidence, so the first arm is not taken by [evaluate]. *)
Definition reduce_evidence (reducer : ConflictReducer) (confident : list StateRecord)
  : EvidenceEvaluation :=
  let candidates :=
    match reducer with
    | RequireEquivalent => confident
    | HighestConfidence =>
        let highest := foldr N.max 0%N (confidence_or_zero <$> confident) in
        List.filter (fun record => (confidence_or_zero record =? highest)%N) confident
    end in
  match candidates with
  | [] => rejected EvLowConfidence
  | first :: rest =>
      if disagrees first (first :: rest) then rejected EvConflict
      else MkEvaluation EvAccepted (Some (select_latest first rest))
  end.

(** [DecisionEvidencePolicy::evaluate]. *)
Definition evaluate (p : DecisionEvidencePolicy) (records : list StateRecord)
    (decision : DecisionKind) (now : TimestampMs) : EvidenceEvaluation :=
  if negb (is_ok (DecisionEvidencePolicy_validate p))
     || negb (set_contains decision (ep_allowed_decisions p))
  then rejected EvUnauthorized else
  let matching := List.filter (policy_matches p) records in
  if (length matching =? 0)%nat then rejected EvUnknown else
  let fresh := List.filter (policy_fresh p now) matching in
  if (length fresh =? 0)%nat then rejected EvStale else
  let confident := List.filter (policy_confident p) fresh in
  if (length confident =? 0)%nat then rejected EvLowConfidence else
  reduce_evidence (ep_reducer p) confident.

(** ** Scheduling costs: [scheduling_cost.rs] *)

Definition SCHEDULING_METRICS_SCHEMA : string := "roboguide.scheduling-metrics/v0.1".

Record SchedulingMetrics := MkMetrics {
  sm_schema_version : string;
  sm_queue_delay_ms : option N;
  sm_travel_distance_um : option N;
  sm_traffic_delay_ms : option N;
  sm_load_millionths : option N;
  sm_gpu_memory_bytes : option N
}.

Inductive SchedulingMetric :=
| QueueDelayMs | TravelDistanceUm | TrafficDelayMs | LoadMillionths | GpuMemoryBytes.

#[export] Instance SchedulingMetric_eq_dec : EqDecision SchedulingMetric.
Proof. solve_decision. Defined.

Record SchedulingCostTerm := MkCostTerm {
  ct_metric : SchedulingMetric;
  ct_weight : N;
  ct_units_per_cost : N;
  ct_maximum : N;
  ct_prefer_higher : bool
}.

#[export] Instance SchedulingCostTerm_eq_dec : EqDecision SchedulingCostTerm.
Proof. solve_decision. Defined.

Record SchedulingCostPolicy := MkCostPolicy {
  cp_tenant_id : string;
  cp_enabled : bool;
  cp_node_id : NodeId;
  cp_policy : DecisionEvidencePolicy;
  cp_terms : list SchedulingCostTerm
}.

#[export] Instance SchedulingCostPolicy_eq_dec : EqDecision SchedulingCostPolicy.
Proof. solve_decision. Defined.

Inductive SchedulingCostFailure := InvalidPayload | MetricUnavailable | MetricOutOfRange.

#[export] Instance SchedulingCostFailure_eq_dec : EqDecision SchedulingCostFailure.
Proof. solve_decision. Defined.

Definition u64_checked_mul (a b : N) : option N :=
  if (a * b <=? u64_max)%N then Some (a * b)%N else None.

(** [normalized.checked_mul(weight).and_then(|cost| total.checked_add(cost))]. *)
Definition add_cost (total normalized weight : N) : option N :=
  cost ← u64_checked_mul normalized weight; u64_checked_add total cost.

Fixpoint cost_terms_loop (seen : list SchedulingMetric) (maximum_score : N)
    (terms : list SchedulingCostTerm) : Result unit string :=
  match terms with
  | [] => Ok tt
  | term :: terms' =>
      if bool_decide (ct_metric term ∈ seen)
         || (ct_weight term =? 0)%N || (1000000 <? ct_weight term)%N
         || (ct_units_per_cost term =? 0)%N
         || (ct_maximum term =? 0)%N || (N.shiftl 1 50 <? ct_maximum term)%N
      then Err "scheduling cost metric, weight, unit or bound is invalid" else
      match add_cost maximum_score (ct_maximum term / ct_units_per_cost term)%N
              (ct_weight term) with
      | None => Err "scheduling cost aggregate exceeds its integer bound"
      | Some score => cost_terms_loop (ct_metric term :: seen) score terms'
      end
  end.

Definition cost_interpretation_invalid (p : SchedulingCostPolicy) : bool :=
  is_blank (cp_tenant_id p) || (128 <? str_len (cp_tenant_id p))%N
  || (128 <? str_len (ep_policy_id (cp_policy p)))%N
  || negb (bool_decide (ep_payload_schema (cp_policy p) = Some SCHEDULING_METRICS_SCHEMA))
  || negb (bool_decide (ep_allowed_decisions (cp_policy p) = {[Schedule]}))
  || (length (cp_terms p) =? 0)%nat || (5 <? length (cp_terms p))%nat
  || existsb (fun source => negb (bool_decide (source_node_id source = Some (cp_node_id p))))
       (elements (ep_allowed_sources (cp_policy p))).

(** [SchedulingCostPolicy::validate]. *)
Definition SchedulingCostPolicy_validate (p : SchedulingCostPolicy) : Result unit string :=
  let? _p := result_map_err policy_error_to_string
               (DecisionEvidencePolicy_validate (cp_policy p)) in
  if cost_interpretation_invalid p
  then Err "scheduling cost source, tenant or explicit interpretation is invalid"
  else cost_terms_loop [] 0 (cp_terms p).

Definition metric_value (m : SchedulingMetrics) (metric : SchedulingMetric) : option N :=
  match metric with
  | QueueDelayMs => sm_queue_delay_ms m
  | TravelDistanceUm => sm_travel_distance_um m
  | TrafficDelayMs => sm_traffic_delay_ms m
  | LoadMillionths => sm_load_millionths m
  | GpuMemoryBytes => sm_gpu_memory_bytes m
  end.

Definition normalized_value (term : SchedulingCostTerm) (value : N) : N :=
  ((if ct_prefer_higher term then ct_maximum term - value else value)
     / ct_units_per_cost term)%N.

Fixpoint score_terms (m : SchedulingMetrics) (total : N) (terms : list SchedulingCostTerm)
  : Result N SchedulingCostFailure :=
  match terms with
  | [] => Ok total
  | term :: terms' =>
      match metric_value m (ct_metric term) with
      | None => Err MetricUnavailable
      | Some value =>
          if (ct_maximum term <? value)%N then Err MetricOutOfRange else
          match add_cost total (normalized_value term value) (ct_weight term) with
          | None => Err MetricOutOfRange
          | Some total' => score_terms m total' terms'
          end
      end
  end.

(** [SchedulingCostPolicy::score]. *)
Definition policy_score (p : SchedulingCostPolicy) (m : SchedulingMetrics)
  : Result N SchedulingCostFailure :=
  if negb (sm_schema_version m =? SCHEDULING_METRICS_SCHEMA)%string then Err InvalidPayload
  else score_terms m 0 (cp_terms p).

Record SchedulingCostAssessment := MkAssessment {
  ca_registry_digest : string;
  ca_policy : SchedulingCostPolicy;
  ca_disposition : EvidenceDisposition;
  ca_failure : option SchedulingCostFailure;
  ca_record : option StateRecord;
  ca_score : option N;
  ca_decided_at : TimestampMs
}.

(** [serde_json::from_value::<SchedulingMetrics>]. *)
Class MetricsCodec := metrics_of_json : Json -> option SchedulingMetrics.

Definition digest_malformed (digest : string) : bool :=
  negb (str_len digest =? 71)%N
  || negb (is_some_and (all_bytes is_lower_hex) (strip_prefix "sha256:" digest)).

Definition scored_record `{MetricsCodec} (p : SchedulingCostPolicy) (r : StateRecord)
  : Result N SchedulingCostFailure :=
  match metrics_of_json (sr_value r) with
  | Some metrics => policy_score p metrics
  | None => Err InvalidPayload
  end.

Definition result_ok {A E} (r : Result A E) : option A :=
  match r with Ok a => Some a | Err _ => None end.
Definition result_err {A E} (r : Result A E) : option E :=
  match r with Ok _ => None | Err e => Some e end.

(** [SchedulingCostAssessment::validate]. *)
Definition SchedulingCostAssessment_validate `{MetricsCodec} (a : SchedulingCostAssessment)
  : Result unit string :=
  let? _p := SchedulingCostPolicy_validate (ca_policy a) in
  if negb (cp_enabled (ca_policy a)) || digest_malformed (ca_registry_digest a)
  then Err "scheduling cost original policy identity is invalid" else
  match ca_record a with
  | Some record =>
      let admitted := evaluate (cp_policy (ca_policy a)) [record] Schedule (ca_decided_at a) in
      let scored := scored_record (ca_policy a) record in
      if negb (bool_decide (ca_disposition a = EvAccepted))
         || negb (bool_decide (ee_disposition admitted = EvAccepted))
         || negb (bool_decide (source_node_id (sk_source (sr_key record))
                               = Some (cp_node_id (ca_policy a))))
         || is_none (sr_source_epoch record)
         || negb (bool_decide (ca_score a = result_ok scored))
         || negb (bool_decide (ca_failure a = result_err scored))
      then Err "scheduling cost original source or score changed"
      else Ok tt
  | None =>
      if bool_decide (ca_disposition a = EvAccepted) || is_some (ca_score a)
         || is_some (ca_failure a)
      then Err "scheduling cost lacks original admitted source"
      else Ok tt
  end.
