(* ===== verification/Sorting.v ===== *)
(** * Lists kept sorted by a key

    The ledgers of the controller are vectors that are sorted by an identity after every
    insertion and searched linearly.  A vector with one element per key is canonical:
    sorting leaves it alone and its elements determine it. *)

From S2P Require Import Prelude.

Section Keyed.
Context {A K : Type} `{OrdLaws K} (key : A -> K).

Definition by_key (x y : A) : comparison := cmp (key x) (key y).

(** Strictly increasing keys. *)
Definition canonical (l : list A) : Prop := StronglySorted (fun x y => by_key x y = Lt) l.

(** [windows(2).any(|pair| key(pair[0]) >= key(pair[1]))]. *)
Definition not_canonical (l : list A) : bool := negb (strictly_increasing (key <$> l)).

Lemma canonical_iff l : not_canonical l = false <-> canonical l.
Proof.
  unfold not_canonical. rewrite negb_false_iff. split.
  - intros Hl%strictly_increasing_sorted. unfold canonical, by_key.
    induction l as [|x l IH]; [constructor|]. rewrite fmap_cons in Hl.
    apply StronglySorted_inv in Hl as [Hl Hx]. constructor; [by apply IH|].
    by rewrite Forall_fmap in Hx.
  - induction 1 as [|x l Hl IH Hx]; [done|]. destruct l as [|y l]; [done|].
    rewrite !fmap_cons in *. cbn [strictly_increasing].
    inversion Hx as [|? ? Hxy]; subst. unfold by_key in Hxy. by rewrite Hxy.
Qed.

Lemma canonical_nil : canonical [].
Proof. constructor. Qed.

Lemma canonical_key_inj l x y : canonical l -> x ∈ l -> y ∈ l -> key x = key y -> x = y.
Proof.
  induction 1 as [|z l Hl IH Hz]; [by intros ?%not_elem_of_nil|].
  rewrite Forall_forall in Hz. intros Hx Hy E. unfold by_key in Hz.
  apply elem_of_cons in Hx as [->|Hx]; apply elem_of_cons in Hy as [->|Hy]; [done|..|by apply IH].
  - specialize (Hz y Hy). by rewrite E, cmp_refl in Hz.
  - specialize (Hz x Hx). by rewrite E, cmp_refl in Hz.
Qed.

Lemma insert_by_canonical x l :
  canonical l -> (forall y, y ∈ l -> key y <> key x) -> canonical (insert_by by_key x l).
Proof.
  induction 1 as [|y l Hl IH Hy]; intros Hf; simpl; [by repeat constructor|].
  assert (key y <> key x) as Hne by (apply Hf; by left).
  destruct (by_key x y) eqn:E; unfold by_key in E.
  - by apply cmp_eq_1 in E.
  - constructor; [by constructor|]. constructor; [done|].
    eapply Forall_impl; [exact Hy|]. intros z Hz. unfold by_key in *. by eapply cmp_trans.
  - constructor; [apply IH; intros z Hz; apply Hf; by right|].
    rewrite insert_by_Permutation. constructor; [|done]. by apply cmp_gt_lt in E.
Qed.

(** Sorting elements with distinct keys gives a canonical list. *)
Lemma sort_by_canonical l : NoDup (key <$> l) -> canonical (sort_by by_key l).
Proof.
  induction l as [|x l IH]; [constructor|]. rewrite fmap_cons, NoDup_cons. intros [Hx Hn].
  simpl. apply insert_by_canonical; [by apply IH|]. intros y Hy%elem_of_sort_by E.
  apply Hx. rewrite <- E. by apply list_elem_of_fmap_2.
Qed.

Lemma canonical_NoDup l : canonical l -> NoDup (key <$> l).
Proof.
  induction 1 as [|x l Hl IH Hx]; [constructor|]. rewrite fmap_cons. constructor; [|done].
  intros (y & E & Hy)%list_elem_of_fmap. rewrite Forall_forall in Hx. specialize (Hx y Hy).
  unfold by_key in Hx. by rewrite E, cmp_refl in Hx.
Qed.

(** Canonical lists with the same elements are equal. *)
Lemma canonical_unique l k : canonical l -> canonical k -> l ≡ₚ k -> l = k.
Proof.
  intros Hl Hk Hp. refine (StronglySorted_unique _ l k Hl Hk Hp).
  intros x y Hxy Hyx. unfold by_key in *. pose proof (cmp_trans _ _ _ Hxy Hyx) as E.
  by rewrite cmp_refl in E.
Qed.

Lemma sort_by_id l : canonical l -> sort_by by_key l = l.
Proof.
  intros Hl. apply canonical_unique; [by apply sort_by_canonical, canonical_NoDup|done|].
  apply sort_by_Permutation.
Qed.

Lemma canonical_filter (p : A -> bool) l : canonical l -> canonical (List.filter p l).
Proof.
  induction 1 as [|x l Hl IH Hx]; simpl; [constructor|]. destruct (p x); [|done].
  constructor; [done|]. rewrite Forall_forall in *.
  intros y [Hy%list_elem_of_In _]%list_elem_of_In%filter_In. by apply Hx.
Qed.

(** Pushing a fresh key and sorting keeps a list canonical. *)
Lemma push_canonical l x :
  canonical l -> (forall y, y ∈ l -> key y <> key x) -> canonical (sort_by by_key (l ++ [x])).
Proof.
  intros Hl Hf. apply sort_by_canonical. rewrite fmap_app, NoDup_app. split_and!.
  - by apply canonical_NoDup.
  - intros k (y & -> & Hy)%list_elem_of_fmap Hk. simpl in Hk.
    apply list_elem_of_singleton in Hk. by apply (Hf y Hy).
  - apply NoDup_singleton.
Qed.

Lemma canonical_snoc l x :
  canonical (l ++ [x]) -> canonical l /\ forall y, y ∈ l -> key y <> key x.
Proof.
  intros Hc. assert (NoDup (key <$> (l ++ [x])%list)) as Hn by by apply canonical_NoDup.
  split.
  - induction l as [|y l IH]; [constructor|]. apply StronglySorted_inv in Hc as [Hc Hy].
    constructor; [apply IH; [done|by inversion Hn]|]. apply Forall_app in Hy. tauto.
  - rewrite fmap_app, NoDup_app in Hn. destruct Hn as (_ & Hd & _). intros y Hy E.
    apply (Hd (key y)); [by apply list_elem_of_fmap_2|]. rewrite E. by left.
Qed.

(** The same list with one element replaced by another of the same key. *)
Lemma canonical_replace l i x y :
  canonical l -> l !! i = Some x -> key y = key x -> canonical (<[i := y]> l).
Proof.
  intros Hc. revert i. induction Hc as [|z l Hl IH Hz]; intros [|i] Hi E; simplify_eq/=.
  - constructor; [done|]. eapply Forall_impl; [exact Hz|]. intros w. unfold by_key. by rewrite E.
  - constructor; [by apply IH|]. apply Forall_insert; [done|]. unfold by_key. rewrite E.
    rewrite Forall_forall in Hz. apply Hz. by eapply list_elem_of_lookup_2.
Qed.
End Keyed.

(** ** [find] by a predicate *)

Lemma find_elem {A} (p : A -> bool) l x : List.find p l = Some x -> x ∈ l /\ p x = true.
Proof. intros [Hin Hp]%find_some. split; [by apply list_elem_of_In|done]. Qed.

Lemma find_absent {A} (p : A -> bool) l :
  List.find p l = None <-> forall x, x ∈ l -> p x = false.
Proof.
  split.
  - intros Hn x Hx. eapply find_none; [exact Hn|]. by apply list_elem_of_In.
  - intros Hall. destruct (List.find p l) as [x|] eqn:E; [|done].
    apply find_elem in E as [Hx Hp]. by rewrite Hall in Hp.
Qed.

(** ** Sums of a measure *)

Definition total {A} (f : A -> N) (l : list A) : N := foldr (fun x n => (f x + n)%N) 0%N l.

Lemma total_app {A} (f : A -> N) l k : total f (l ++ k) = (total f l + total f k)%N.
Proof. induction l as [|x l IH]; simpl; [done|]. rewrite IH. lia. Qed.

Lemma total_Permutation {A} (f : A -> N) l k : l ≡ₚ k -> total f l = total f k.
Proof. induction 1; simpl; lia. Qed.

Lemma total_elem {A} (f : A -> N) l x : x ∈ l -> (f x <= total f l)%N.
Proof.
  induction l as [|y l IH]; [by intros ?%not_elem_of_nil|]. simpl.
  intros [->|Hx]%elem_of_cons; [lia|]. specialize (IH Hx). lia.
Qed.

Lemma total_filter_le {A} (f : A -> N) (p : A -> bool) l : (total f (List.filter p l) <= total f l)%N.
Proof. induction l as [|x l IH]; simpl; [lia|]. destruct (p x); simpl; lia. Qed.

Lemma total_split {A} (f : A -> N) (p : A -> bool) l :
  total f l = (total f (List.filter p l) + total f (List.filter (fun x => negb (p x)) l))%N.
Proof. induction l as [|x l IH]; simpl; [done|]. destruct (p x); simpl; lia. Qed.

Lemma total_insert {A} (f : A -> N) l i x y :
  l !! i = Some x -> (total f (<[i := y]> l) + f x = total f l + f y)%N.
Proof.
  revert i. induction l as [|z l IH]; intros [|i] Hi; simplify_eq/=; [lia|].
  specialize (IH i Hi). lia.
Qed.

Lemma total_mono {A} (f g : A -> N) l :
  (forall x, x ∈ l -> (f x <= g x)%N) -> (total f l <= total g l)%N.
Proof.
  induction l as [|x l IH]; simpl; intros Hl; [lia|].
  pose proof (Hl x (list_elem_of_here _ _)). specialize (IH (fun y Hy => Hl y (list_elem_of_further _ _ _ Hy))).
  lia.
Qed.

(** A saturating 64-bit sum. *)
Lemma saturating_total {A} (f : A -> N) l acc :
  foldl (fun n x => u64_saturating_add n (f x)) (N.min acc u64_max) l
  = N.min (acc + total f l) u64_max.
Proof.
  revert acc. induction l as [|x l IH]; intros acc; simpl; [f_equal; lia|].
  replace (u64_saturating_add (N.min acc u64_max) (f x)) with (N.min (acc + f x) u64_max)
    by (unfold u64_saturating_add; lia).
  rewrite IH. f_equal. lia.
Qed.

(** Among the elements with a property one has the largest measure. *)
Lemma largest_exists {A} (p : A -> bool) (f : A -> N) (l : list A) (x : A) :
  x ∈ l -> p x = true ->
  exists m, m ∈ l /\ p m = true /\ forall y, y ∈ l -> p y = true -> (f y <= f m)%N.
Proof.
  revert x. induction l as [|z l IH]; intros x; [by intros ?%not_elem_of_nil|].
  intros Hx Hp. destruct (List.find p l) as [w|] eqn:Ew.
  - apply find_elem in Ew as [Hw Ew]. destruct (IH w Hw Ew) as (m & Hm & Em & Hmax).
    destruct (p z && (f m <? f z)%N) eqn:Ez.
    + apply andb_true_iff in Ez as [Ez Hlt%N.ltb_lt]. exists z. split; [by left|]. split; [done|].
      intros y [->|Hy]%elem_of_cons Ey; [lia|]. specialize (Hmax y Hy Ey). lia.
    + exists m. split; [by right|]. split; [done|]. intros y [->|Hy]%elem_of_cons Ey; [|auto].
      rewrite Ey in Ez. simpl in Ez. apply N.ltb_ge in Ez. lia.
  - rewrite find_absent in Ew. apply elem_of_cons in Hx as [->|Hx]; [|by rewrite Ew in Hp].
    exists z. split; [by left|]. split; [done|]. intros y [->|Hy]%elem_of_cons Ey; [lia|].
    by rewrite Ew in Ey.
Qed.

Lemma total_pos {A} (f : A -> N) (l : list A) : (0 < total f l)%N -> exists x, x ∈ l /\ (0 < f x)%N.
Proof.
  induction l as [|x l IH]; simpl; [lia|]. intros Hl.
  destruct (N.lt_ge_cases 0 (f x)) as [|Hz]; [exists x; split; [by left|done]|].
  destruct IH as (y & Hy & ?); [lia|]. exists y. split; [by right|done].
Qed.
