(* ===== verification/Scheduler.v ===== *)
(** * The joint scheduler: data and capacity arithmetic

    [core/control/src/scheduler/mod.rs], [scheduler/capacity.rs], the candidate sets of
    [matching.rs] and the initial preferences of [initial_preferences.rs]: the
    immutable inputs of a scheduling decision and the weighted half-open interval
    arithmetic that decides whether a resource is available. *)

From S2P Require Import Prelude Identity Execution StateModel Resource DecisionPolicy.

Open Scope string_scope.

Abbreviation PhysicalEntityId := (Identifier KPhysicalEntity).

(** ** Candidate sets: [matching.rs], [initial_preferences.rs] *)

Record RoleCandidates := MkRoleCandidates {
  rcs_role_id : RoleId;
  rcs_node_ids : list NodeId
}.

Record InitialCandidatePreferences := MkPreferences {
  icp_task_ref : TaskRef;
  icp_priorities : gmap RoleId (gmap NodeId N);
  icp_source_digest : string;
  icp_received_at : TimestampMs;
  icp_expires_at : TimestampMs
}.

Definition MAX_INITIAL_PREFERENCE_AGE_MS : N := 600000.

(** [valid_evidence_digest] of [lib.rs]. *)
Definition valid_evidence_digest (value : string) : bool :=
  (str_len value =? 71)%N && is_some_and (all_bytes is_lower_hex) (strip_prefix "sha256:" value).

Definition all_priorities (priorities : gmap RoleId (gmap NodeId N)) : list N :=
  concat (btree_values <$> btree_values priorities).

(** [InitialCandidatePreferences::new]; the error is [ControlError::InvalidProposal]. *)
Definition InitialCandidatePreferences_new (task_ref : TaskRef)
    (priorities : gmap RoleId (gmap NodeId N)) (source_digest : string)
    (received_at expires_at : TimestampMs) : Result InitialCandidatePreferences string :=
  let count := length (all_priorities priorities) in
  if bool_decide (priorities = ∅) || (count =? 0)%nat || (128 <? count)%nat
     || existsb (fun nodes => bool_decide (nodes = ∅)) (btree_values priorities)
     || existsb (fun rank => (rank =? u32_max)%N) (all_priorities priorities)
     || negb (valid_evidence_digest source_digest)
     || (expires_at <=? received_at)%N
     || (MAX_INITIAL_PREFERENCE_AGE_MS <? expires_at - received_at)%N
  then Err "initial candidate preferences have invalid scope, source, size or lifetime"
  else Ok (MkPreferences task_ref priorities source_digest received_at expires_at).

(** [InitialCandidatePreferences::priority]. *)
Definition preference_priority (p : InitialCandidatePreferences) (role : RoleId) (node : NodeId)
    (at_ : TimestampMs) : N :=
  if (at_ <? icp_received_at p)%N || (icp_expires_at p <=? at_)%N then u32_max
  else default u32_max (icp_priorities p !! role ≫= fun nodes => nodes !! node).

Record CandidateSet := MkCandidateSet {
  cs_task_ref : TaskRef;
  cs_roles : list RoleCandidates;
  cs_role_operations : gmap RoleId OperationRef;
  cs_role_actors : gmap RoleId ActorId;
  cs_distinct_actor_groups : list (gset ActorId);
  cs_candidate_entities : gmap NodeId PhysicalEntityId;
  cs_initial_preferences : option InitialCandidatePreferences
}.

Definition actor_for_role (c : CandidateSet) (role : RoleId) : option ActorId :=
  cs_role_actors c !! role.
Definition physical_entity_for_node (c : CandidateSet) (node : NodeId)
  : option PhysicalEntityId := cs_candidate_entities c !! node.
Definition for_role (c : CandidateSet) (role : RoleId) : option RoleCandidates :=
  List.find (fun r => bool_decide (rcs_role_id r = role)) (cs_roles c).

Definition initial_priority (c : CandidateSet) (role : RoleId) (node : NodeId)
    (at_ : TimestampMs) : N :=
  match cs_initial_preferences c with
  | Some preferences =>
      if bool_decide (cs_task_ref c = icp_task_ref preferences)
      then preference_priority preferences role node at_ else u32_max
  | None => u32_max
  end.

(** ** Scheduler data: [scheduler/mod.rs] *)

Inductive SchedulerError :=
| InvalidCandidateSet (reason : string)
| UnknownCandidate (node : NodeId)
| NoFeasibleSelection (role : RoleId)
| SearchLimited
| InvalidTimeWindow
| InvalidDurationEstimate (reason : string)
| InvalidCostEvidence (reason : string).

#[export] Instance SchedulerError_eq_dec : EqDecision SchedulerError.
Proof. solve_decision. Defined.

Record RoleSchedulingSelection := MkSelection {
  sel_role_id : RoleId;
  sel_node_id : NodeId;
  sel_resource_ids : list ResourceId;
  sel_resource_units : list N;
  sel_resource_requirements : list ResourceRequirement;
  sel_resource_capacities : list N
}.

#[export] Instance RoleSchedulingSelection_eq_dec : EqDecision RoleSchedulingSelection.
Proof. solve_decision. Defined.

Definition RoleSchedulingSelection_new (role : RoleId) (node : NodeId) (ids : list ResourceId)
    (units : list N) : RoleSchedulingSelection := MkSelection role node ids units [] [].

Definition find_resource (resources : list Resource) (id : ResourceId) : option Resource :=
  List.find (fun resource => bool_decide (res_id resource = id)) resources.

Definition is_divisible (d : ResourceRequirement) : bool :=
  bool_decide (rr_allocation_mode d = Divisible).

(** [with_resources]; the selected identities come from the registration, so each
    one is found. *)
Definition with_resources (s : RoleSchedulingSelection) (role : RoleRequirement)
    (registered : list Resource) : RoleSchedulingSelection :=
  if existsb is_divisible (resource_requirements role)
  then MkSelection (sel_role_id s) (sel_node_id s) (sel_resource_ids s) (sel_resource_units s)
         (resource_requirements role)
         ((fun id => default 0%N (res_capacity <$> find_resource registered id))
            <$> sel_resource_ids s)
  else s.

Record SchedulingOccupancy := MkOccupancy {
  oc_resource_id : ResourceId;
  oc_starts_at : TimestampMs;
  oc_ends_at : option TimestampMs;
  oc_units : option N;
  oc_owner_axis : option string
}.

Definition SchedulingOccupancy_new (id : ResourceId) (starts_at : TimestampMs)
    (ends_at : option TimestampMs) : SchedulingOccupancy :=
  MkOccupancy id starts_at ends_at None None.

Definition quantitative (id : ResourceId) (starts_at : TimestampMs)
    (ends_at : option TimestampMs) (units : N) (axis : option string) : SchedulingOccupancy :=
  MkOccupancy id starts_at ends_at (Some units) axis.

Record ContextCapacity := MkContextCapacity {
  cx_owner_axis : string;
  cx_units : N;
  cx_parent_starts_at : option TimestampMs
}.

Record SchedulingCostEvidence := MkCostEvidence {
  ce_node_id : NodeId;
  ce_source_id : string;
  ce_received_at : TimestampMs;
  ce_valid_for_ms : N;
  ce_queue_delay_ms : N;
  ce_travel_distance_um : N;
  ce_traffic_delay_ms : N;
  ce_load_millionths : N;
  ce_gpu_memory_bytes : option N
}.

(** [SchedulingCostEvidence::validate_at]. *)
Definition cost_evidence_validate_at (e : SchedulingCostEvidence) (now : TimestampMs)
  : Result unit SchedulerError :=
  if is_blank (ce_source_id e) || (256 <? str_len (ce_source_id e))%N
     || (ce_valid_for_ms e =? 0)%N || (3600000 <? ce_valid_for_ms e)%N
     || (1000000 <? ce_load_millionths e)%N
     || (86400000 <? ce_queue_delay_ms e)%N
     || (10000000000 <? ce_travel_distance_um e)%N
     || (86400000 <? ce_traffic_delay_ms e)%N
     || is_some_and (fun value => (N.shiftl 1 50 <? value)%N) (ce_gpu_memory_bytes e)
     || (ce_valid_for_ms e <? u64_saturating_sub now (ce_received_at e))%N
     || (now <? ce_received_at e)%N
  then Err (InvalidCostEvidence "source, freshness or metric bounds are invalid")
  else Ok tt.

(** [SchedulingCostEvidence::score], computed on validated evidence only. *)
Definition cost_evidence_score (e : SchedulingCostEvidence) : N :=
  (ce_queue_delay_ms e * 1000 + ce_travel_distance_um e + ce_traffic_delay_ms e * 1000
   + ce_load_millionths e
   + (N.shiftl 1 50 - default 0 (ce_gpu_memory_bytes e)) / (1024 * 1024))%N.

Definition u128_max : N := 340282366920938463463374607431768211455.

Record SchedulingRoleConstraint := MkRoleConstraint {
  src_role_id : RoleId;
  src_node_id : NodeId;
  src_resource_ids : list ResourceId
}.

Record SchedulingSnapshot := MkSnapshot {
  ss_topology_recovery_interval : option (TaskRef * TimestampMs);
  ss_resource_topology : option ResourceTopologyRegistry;
  ss_version : N;
  ss_occupancies : list SchedulingOccupancy;
  ss_context_capacities : gmap RoleId ContextCapacity;
  ss_role_constraints : gmap RoleId SchedulingRoleConstraint;
  ss_cost_evidence : gmap NodeId SchedulingCostEvidence;
  ss_policy_cost_evidence : gmap NodeId SchedulingCostAssessment
}.

(** [Option<TimestampMs>] orders [None] first. *)
#[export] Instance option_Ord {A} `{Ord A} : Ord (option A) :=
  fun x y => match x, y with
  | None, None => Eq | None, Some _ => Lt | Some _, None => Gt | Some a, Some b => cmp a b
  end.

(** [SchedulingSnapshot::new]. *)
Definition SchedulingSnapshot_new (version : N) (occupancies : list SchedulingOccupancy)
  : SchedulingSnapshot :=
  MkSnapshot None None version
    (sort_by (fun l r => cmp (oc_resource_id l, oc_starts_at l, oc_ends_at l)
                             (oc_resource_id r, oc_starts_at r, oc_ends_at r)) occupancies)
    ∅ ∅ ∅ ∅.

Definition SchedulingSnapshot_empty : SchedulingSnapshot := MkSnapshot None None 0 [] ∅ ∅ ∅ ∅.

(** [with_role_constraints]: a later constraint of a Role replaces an earlier one. *)
Definition with_role_constraints (s : SchedulingSnapshot)
    (constraints : list SchedulingRoleConstraint) : SchedulingSnapshot :=
  MkSnapshot (ss_topology_recovery_interval s) (ss_resource_topology s) (ss_version s)
    (ss_occupancies s) (ss_context_capacities s)
    (foldl (fun acc c => <[src_role_id c := c]> acc) ∅ constraints)
    (ss_cost_evidence s) (ss_policy_cost_evidence s).

Fixpoint cost_evidence_loop (now : TimestampMs) (acc : gmap NodeId SchedulingCostEvidence)
    (l : list SchedulingCostEvidence)
  : Result (gmap NodeId SchedulingCostEvidence) SchedulerError :=
  match l with
  | [] => Ok acc
  | item :: l' =>
      let? _v := cost_evidence_validate_at item now in
      if contains_key (ce_node_id item) acc
      then Err (InvalidCostEvidence "duplicate Node cost evidence")
      else cost_evidence_loop now (<[ce_node_id item := item]> acc) l'
  end.

Definition try_with_cost_evidence (s : SchedulingSnapshot) (now : TimestampMs)
    (evidence : list SchedulingCostEvidence) : Result SchedulingSnapshot SchedulerError :=
  let? costs := cost_evidence_loop now (ss_cost_evidence s) evidence in
  Ok (MkSnapshot (ss_topology_recovery_interval s) (ss_resource_topology s) (ss_version s)
        (ss_occupancies s) (ss_context_capacities s) (ss_role_constraints s)
        costs (ss_policy_cost_evidence s)).

Fixpoint policy_cost_loop `{MetricsCodec} (acc : gmap NodeId SchedulingCostAssessment)
    (l : list SchedulingCostAssessment)
  : Result (gmap NodeId SchedulingCostAssessment) SchedulerError :=
  match l with
  | [] => Ok acc
  | receipt :: l' =>
      let? _v := result_map_err InvalidCostEvidence (SchedulingCostAssessment_validate receipt) in
      if contains_key (cp_node_id (ca_policy receipt)) acc
      then Err (InvalidCostEvidence "duplicate candidate cost policy")
      else policy_cost_loop (<[cp_node_id (ca_policy receipt) := receipt]> acc) l'
  end.

Definition with_policy_cost_evidence `{MetricsCodec} (s : SchedulingSnapshot)
    (evidence : list SchedulingCostAssessment) : Result SchedulingSnapshot SchedulerError :=
  let? costs := policy_cost_loop (ss_policy_cost_evidence s) evidence in
  Ok (MkSnapshot (ss_topology_recovery_interval s) (ss_resource_topology s) (ss_version s)
        (ss_occupancies s) (ss_context_capacities s) (ss_role_constraints s)
        (ss_cost_evidence s) costs).

(** The score of a policy assessment that is still current. *)
Definition assessment_cost (receipt : SchedulingCostAssessment) (now : TimestampMs) : N :=
  match ca_record receipt with
  | Some record =>
      if (ca_decided_at receipt <=? now)%N
         && negb (StateRecord_is_stale_at record now)
         && (u64_saturating_sub now (sr_received_at record)
             <=? ep_max_age_ms (cp_policy (ca_policy receipt)))%N
      then default u128_max (ca_score receipt) else u128_max
  | None => u128_max
  end.

Definition candidate_cost (s : SchedulingSnapshot) (node : NodeId) (now : TimestampMs) : N :=
  match ss_policy_cost_evidence s !! node with
  | Some receipt => assessment_cost receipt now
  | None =>
      match ss_cost_evidence s !! node with
      | Some cost => if is_ok (cost_evidence_validate_at cost now)
                     then cost_evidence_score cost else u128_max
      | None => u128_max
      end
  end.

Definition role_constraint (s : SchedulingSnapshot) (role : RoleId)
  : option SchedulingRoleConstraint := ss_role_constraints s !! role.

(** ** Interval arithmetic: [scheduler/capacity.rs] *)

(** [*changes.entry(k).or_default() += z]. *)
Definition add_change (k : TimestampMs) (z : Z) (changes : gmap TimestampMs Z)
  : gmap TimestampMs Z := <[k := (default 0 (changes !! k) + z)%Z]> changes.

(** An occupancy outside the requested interval is skipped. *)
Definition outside_interval (start : TimestampMs) (end_ : option TimestampMs)
    (o : SchedulingOccupancy) : bool :=
  is_some_and (fun e => (e <=? oc_starts_at o)%N) end_
  || is_some_and (fun e => (e <=? start)%N) (oc_ends_at o).

(** The changes of one occupancy: at its start inside the interval, and at its end
    when that is inside too. *)
Definition occupancy_changes (start : TimestampMs) (end_ : option TimestampMs)
    (o : SchedulingOccupancy) (occupied : N) (changes : gmap TimestampMs Z)
  : gmap TimestampMs Z :=
  let changes1 := add_change (N.max start (oc_starts_at o)) (Z.of_N occupied) changes in
  match oc_ends_at o with
  | Some last => if is_none_or (fun e => (last <? e)%N) end_
                 then add_change last (- Z.of_N occupied) changes1 else changes1
  | None => changes1
  end.

(** [None] is the early [return false] on a whole-resource occupancy. *)
Fixpoint collect_changes (start : TimestampMs) (end_ : option TimestampMs)
    (changes : gmap TimestampMs Z) (l : list SchedulingOccupancy) : option (gmap TimestampMs Z) :=
  match l with
  | [] => Some changes
  | o :: l' =>
      if outside_interval start end_ o then collect_changes start end_ changes l' else
      match oc_units o with
      | None => None
      | Some occupied =>
          collect_changes start end_ (occupancy_changes start end_ o occupied changes) l'
      end
  end.

Fixpoint sweep (capacity active : Z) (changes : list Z) : bool :=
  match changes with
  | [] => true
  | change :: changes' =>
      let active' := (active + change)%Z in
      if (active' <? 0)%Z || (capacity <? active')%Z then false
      else sweep capacity active' changes'
  end.

Definition interval_available (occupancies : list SchedulingOccupancy) (start : TimestampMs)
    (end_ : option TimestampMs) (units capacity : N) : bool :=
  if (capacity <? units)%N || is_some_and (fun e => (e <=? start)%N) end_ then false else
  match collect_changes start end_ {[start := Z.of_N units]} occupancies with
  | None => false
  | Some changes => sweep (Z.of_N capacity) 0 (btree_values changes)
  end.

(** The occupancies one selected resource adds; a Context parent is counted once,
    [parents] holds the axes already counted. *)
Definition selected_occupancy (s : SchedulingSnapshot) (start : TimestampMs)
    (end_ : option TimestampMs) (selection : RoleSchedulingSelection)
    (acc : list SchedulingOccupancy * gset string) (indexed : nat * ResourceId)
  : list SchedulingOccupancy * gset string :=
  let '(result, parents) := acc in
  let '(index, id) := indexed in
  match sel_resource_requirements selection !! index with
  | None => ((result ++ [SchedulingOccupancy_new id start end_])%list, parents)
  | Some demand =>
      if bool_decide (rr_allocation_mode demand = Exclusive)
      then ((result ++ [SchedulingOccupancy_new id start end_])%list, parents) else
      match ss_context_capacities s !! sel_role_id selection with
      | None => ((result ++ [quantitative id start end_ (rr_units demand) None])%list, parents)
      | Some context =>
          let result1 := (result ++ [quantitative id start end_ (rr_units demand)
                                       (Some (cx_owner_axis context))])%list in
          if is_none_or (fun starts => (start <? starts)%N) (cx_parent_starts_at context)
             && negb (set_contains (cx_owner_axis context) parents)
          then ((result1 ++ [quantitative id start (cx_parent_starts_at context)
                               (cx_units context) None])%list,
                {[cx_owner_axis context]} ∪ parents)
          else (result1, parents)
      end
  end.

Definition enumerate {A} (l : list A) : list (nat * A) := imap pair l.

Definition selected_occupancies (s : SchedulingSnapshot)
    (selected : list RoleSchedulingSelection) (start : TimestampMs) (end_ : option TimestampMs)
  : list SchedulingOccupancy :=
  (foldl (fun acc selection =>
            foldl (selected_occupancy s start end_ selection) acc
              (enumerate (sel_resource_ids selection)))
     (ss_occupancies s, ∅) selected).1.

(** The geometry and calendar checks of [capacity_available]. *)
Definition topology_blocks (registry : ResourceTopologyRegistry) (resource : Resource)
    (start : TimestampMs) (end_ : option TimestampMs) (occupancies : list SchedulingOccupancy)
  : bool :=
  match topology_entry registry (res_id resource) with
  | None => bool_decide (res_kind resource = Space \/ res_kind resource = Time)
  | Some entry =>
      negb (permits_interval entry start end_)
      || existsb (fun occupied =>
           negb (bool_decide (oc_resource_id occupied = res_id resource))
           && overlaps start end_ (oc_starts_at occupied) (oc_ends_at occupied)
           && is_some_and (ResourceTopologyEntry_conflicts entry)
                (topology_entry registry (oc_resource_id occupied))) occupancies
  end.

Definition on_axis (id : ResourceId) (axis : option string) (o : SchedulingOccupancy) : bool :=
  bool_decide (oc_resource_id o = id) && bool_decide (oc_owner_axis o = axis).

Definition capacity_available (s : SchedulingSnapshot) (role : RoleId) (resource : Resource)
    (demand : ResourceRequirement) (start : TimestampMs) (end_ : option TimestampMs)
    (selected : list RoleSchedulingSelection) : bool :=
  let occupancies := selected_occupancies s selected start end_ in
  if is_some_and (fun registry => topology_blocks registry resource start end_ occupancies)
       (ss_resource_topology s)
  then false else
  let physical := List.filter (on_axis (res_id resource) None) occupancies in
  if bool_decide (rr_allocation_mode demand = Exclusive)
  then interval_available physical start end_ (res_capacity resource) (res_capacity resource) else
  match ss_context_capacities s !! role with
  | Some context =>
      let parent_selected := existsb (fun selection =>
        is_some_and (fun other => (cx_owner_axis other =? cx_owner_axis context)%string)
          (ss_context_capacities s !! sel_role_id selection)) selected in
      let needs_parent := negb parent_selected
        && is_none_or (fun starts => (start <? starts)%N) (cx_parent_starts_at context) in
      let physical_ok :=
        if needs_parent
        then interval_available physical start (cx_parent_starts_at context) (cx_units context)
               (res_capacity resource)
        else interval_available physical start None 0 (res_capacity resource) in
      physical_ok
      && interval_available
           (List.filter (on_axis (res_id resource) (Some (cx_owner_axis context))) occupancies)
           start end_ (rr_units demand) (cx_units context)
  | None => interval_available physical start end_ (rr_units demand) (res_capacity resource)
  end.

(** * Rejections of the Control crate

    [ControlError] of [core/control/src/lib.rs] with the types its variants carry. *)

Abbreviation LeaseId := (Identifier KLease).
Abbreviation SensorId := (Identifier KSensor).

(** [ports]: rejections of the shared Node state. *)
Inductive SharedStateError :=
| SsUnknownNode (id : NodeId)
| StaleObservation (node_id : NodeId) (current_ordering_time incoming_ordering_time : TimestampMs).

(** [control/src/group/mod.rs]. *)
Inductive GroupLifecycle :=
| GlBound | GlActive | GlAdapted | GlFailed | GlCompleted | GlReleased | GlSuperseded | GlBlocked.

Inductive ControlError :=
| UnknownNode (id : NodeId)
| UnknownGroup (id : ExecutionGroupId)
| NoCandidate (role : RoleId)
| AssignmentUnavailable (reason : string)
| ActorBindingRequiresReconciliation (mission : MissionId) (actor : ActorId) (node : NodeId)
| ActorPlacementConstraintUnsatisfied (mission : MissionId) (actor : ActorId) (node : NodeId)
| ActorGroundingUnresolved (mission : MissionId) (actor : ActorId) (entity : PhysicalEntityId)
| DistinctBindingUnsatisfiable (mission : MissionId) (actor occupied_by_actor : ActorId)
    (physical_entity_id : PhysicalEntityId)
| InvalidProposal (reason : string)
| AllocationInvariant (reason : string)
| ResourceConflict (resource : ResourceId) (owner_task_ref : TaskRef) (owner_role_id : RoleId)
| PendingRecoveryCommitmentExists (group : ExecutionGroupId) (role : RoleId)
| PendingRecoveryCommitmentNotFound (group : ExecutionGroupId) (role : RoleId)
| PendingRecoveryCommitmentMismatch (group : ExecutionGroupId) (role : RoleId)
| InvalidLifecycle (lifecycle : GroupLifecycle)
| InvalidLease (reason : string)
| SharedState (error : SharedStateError)
| UnknownLease (node : NodeId) (lease : LeaseId)
| CeLeaseExpired (node : NodeId) (lease : LeaseId).
