(* ===== verification/SchedulerPolicy.v ===== *)
(** * The joint scheduler: bounded search

    [core/control/src/scheduler/policy.rs]: the deterministic backtracking search over
    Roles, Nodes and resources, the choice of the start time, and the selection of a
    recovery replacement. *)

From S2P Require Import Prelude Identity Execution StateModel Resource DecisionPolicy.
From S2P Require Import Scheduler.

Open Scope string_scope.

Record TaskSchedulingDecision := MkDecision {
  dc_task_ref : TaskRef;
  dc_selections : list RoleSchedulingSelection;
  dc_starts_at : TimestampMs;
  dc_ends_at : option TimestampMs;
  dc_latest_activation_at : option TimestampMs;
  dc_snapshot_version : N;
  dc_expansions : N;
  dc_duration_estimate : option TaskDurationEstimate;
  dc_cost_evidence : list SchedulingCostEvidence;
  dc_policy_cost_evidence : list SchedulingCostAssessment
}.

Inductive TaskSchedulingOutcome :=
| SelectedNow (decision : TaskSchedulingDecision)
| SelectedFuture (decision : TaskSchedulingDecision)
| Deferred
| WindowMissed.

Record RecoverySchedulingDecision := MkRecoveryDecision {
  rd_group_id : ExecutionGroupId;
  rd_task_ref : TaskRef;
  rd_role_id : RoleId;
  rd_previous_node_id : NodeId;
  rd_replacement_node_id : NodeId;
  rd_resource_ids : list ResourceId;
  rd_policy_cost_evidence : list SchedulingCostAssessment
}.

Inductive RecoverySchedulingOutcome :=
| NoSelection
| Selected (decision : RecoverySchedulingDecision).

(** [reconciliation/model.rs]: the nodes that may replace one Role, with the fields
    the scheduler reads. *)
Record RecoveryCandidateSet := MkRecoveryCandidates {
  rv_group_id : ExecutionGroupId;
  rv_task_ref : TaskRef;
  rv_role_id : RoleId;
  rv_previous_node_id : NodeId;
  rv_candidate_node_ids : list NodeId
}.

Record RoleAssignment := MkAssignment {
  as_role_id : RoleId;
  as_node_id : NodeId;
  as_resource_ids : list ResourceId
}.

Definition to_role_assignment (s : RoleSchedulingSelection) : RoleAssignment :=
  MkAssignment (sel_role_id s) (sel_node_id s) (sel_resource_ids s).
Definition proposed_assignments (d : TaskSchedulingDecision) : list RoleAssignment :=
  to_role_assignment <$> dc_selections d.

(** The event payloads the scheduler appends. *)
Inductive SchedulingEvent :=
| TaskSchedulingSelected (task_ref : TaskRef) (assignments : list RoleAssignment)
| RecoverySchedulingNoSelection (group_id : ExecutionGroupId) (task_ref : TaskRef)
    (role_id : RoleId)
| RecoverySchedulingSelected (group_id : ExecutionGroupId) (task_ref : TaskRef)
    (role_id : RoleId) (previous replacement : NodeId) (resource_ids : list ResourceId).

(** [ports::SharedNodeStateReader]: the scheduler reads only the resources of a
    registered Node, [state.node(id)?.registration().resources()]. *)
Class SharedNodeStateReader (S : Type) := node_resources : S -> NodeId -> option (list Resource).

(** ** Searching *)

Definition matches_demand (demand : ResourceRequirement) (resource : Resource) : bool :=
  bool_decide (res_kind resource = rr_kind demand)
  && (rr_units demand <=? res_capacity resource)%N
  && bool_decide (res_allocation_mode resource = rr_allocation_mode demand)
  && bool_decide (res_resource_class resource = rr_resource_class demand).

(** The registered resources one demand may use, in identity order. *)
Definition eligible_resources (registered : list Resource) (role : RoleId)
    (snapshot : SchedulingSnapshot) (starts_at : TimestampMs) (ends_at : option TimestampMs)
    (selected : list RoleSchedulingSelection) (constraint : option SchedulingRoleConstraint)
    (demand : ResourceRequirement) : list Resource :=
  sort_by (fun l r => cmp (res_id l) (res_id r))
    (List.filter (fun resource =>
       matches_demand demand resource
       && is_none_or (fun c => bool_decide (res_id resource ∈ src_resource_ids c)) constraint
       && capacity_available snapshot role resource demand starts_at ends_at selected)
       registered).

(** A resource already chosen for the Role, or one whose declared geometry or
    calendar conflicts with a chosen one, is skipped. *)
Definition clashes (topology : option ResourceTopologyRegistry) (ids : list ResourceId)
    (resource : Resource) : bool :=
  bool_decide (res_id resource ∈ ids)
  || is_some_and (fun registry =>
       is_some_and (fun entry =>
         existsb (fun other =>
           is_some_and (ResourceTopologyEntry_conflicts entry) (topology_entry registry other)) ids)
         (topology_entry registry (res_id resource))) topology.

Definition extend_combination (topology : option ResourceTopologyRegistry)
    (demand : ResourceRequirement) (resources : list Resource)
    (combination : list ResourceId * list N) : list (list ResourceId * list N) :=
  omap (fun resource =>
    if clashes topology combination.1 resource then None
    else Some ((combination.1 ++ [res_id resource])%list,
               (combination.2 ++ [rr_units demand])%list)) resources.

Definition extend_combinations (topology : option ResourceTopologyRegistry)
    (eligible : ResourceRequirement -> list Resource)
    (combinations : list (list ResourceId * list N)) (demand : ResourceRequirement)
  : list (list ResourceId * list N) :=
  combinations ≫= extend_combination topology demand (eligible demand).

Definition resource_choices (registered : list Resource) (role : RoleRequirement)
    (snapshot : SchedulingSnapshot) (starts_at : TimestampMs) (ends_at : option TimestampMs)
    (selected : list RoleSchedulingSelection) (constraint : option SchedulingRoleConstraint)
  : list (list ResourceId * list N) :=
  let demands := resource_requirements role in
  if (length demands =? 0)%nat then [([], [])] else
  if is_some_and (fun c => negb (length (src_resource_ids c) =? length demands)%nat) constraint
  then [] else
  let combinations :=
    foldl (extend_combinations (ss_resource_topology snapshot)
             (eligible_resources registered (rq_role_id role) snapshot starts_at ends_at
                selected constraint)) [([], [])] demands in
  match constraint with
  | Some c => List.filter (fun combination => bool_decide (combination.1 = src_resource_ids c))
                combinations
  | None => combinations
  end.

(** Tries the elements in order with the expansions counted so far; the first
    success wins, an error ends the search. *)
Definition try_each {A B E} (f : A -> N -> Result (option B * N) E)
  : list A -> N -> Result (option B * N) E :=
  fix go (l : list A) (expansions : N) :=
    match l with
    | [] => Ok (None, expansions)
    | x :: l' =>
        match f x expansions with
        | Err e => Err e
        | Ok (Some b, n) => Ok (Some b, n)
        | Ok (None, n) => go l' n
        end
    end.

(** Counts one expansion of the bounded search. *)
Definition count_expansion (limit expansions : N) : Result N SchedulerError :=
  if (u32_max <? expansions + 1)%N then Err SearchLimited else
  if (limit <? expansions + 1)%N then Err SearchLimited else Ok (expansions + 1)%N.

(** The candidates of a Role in preference order. *)
Definition ordered_nodes (candidates : CandidateSet) (snapshot : SchedulingSnapshot)
    (role : RoleId) (starts_at : TimestampMs) (nodes : list NodeId) : list NodeId :=
  dedup (sort_by (fun l r =>
    cmp (candidate_cost snapshot l starts_at, initial_priority candidates role l starts_at, l)
        (candidate_cost snapshot r starts_at, initial_priority candidates role r starts_at, r))
    nodes).

Definition share_group (candidates : CandidateSet) (a b : ActorId) : bool :=
  existsb (fun group => set_contains a group && set_contains b group)
    (cs_distinct_actor_groups candidates).

(** The actor of the Role already uses another physical entity, or the entity is
    taken by another actor of a distinct group. *)
Definition entity_refused (candidates : CandidateSet)
    (entities : gmap ActorId PhysicalEntityId) (role : RoleId) (node : NodeId) : bool :=
  match actor_for_role candidates role, physical_entity_for_node candidates node with
  | Some actor, Some entity =>
      is_some_and (fun previous => negb (bool_decide (previous = entity))) (entities !! actor)
      || (existsb (set_contains actor) (cs_distinct_actor_groups candidates)
          && is_some_and (fun previous => negb (bool_decide (previous.1 = actor)))
               (List.find (fun other => bool_decide (other.2 = entity)
                                        && share_group candidates other.1 actor)
                  (btree_iter entities)))
  | _, _ => false
  end.

Definition assign_entity (candidates : CandidateSet) (role : RoleId) (node : NodeId)
    (entities : gmap ActorId PhysicalEntityId) : gmap ActorId PhysicalEntityId :=
  match actor_for_role candidates role, physical_entity_for_node candidates node with
  | Some actor, Some entity => <[actor := entity]> entities
  | _, _ => entities
  end.

Section Search.
Context {S : Type} `{SharedNodeStateReader S} (state : S).
Context (candidates : CandidateSet) (snapshot : SchedulingSnapshot).
Context (starts_at : TimestampMs) (ends_at : option TimestampMs) (limit : N).

Definition select (role : RoleRequirement) (node : NodeId) (registered : list Resource)
    (choice : list ResourceId * list N) : RoleSchedulingSelection :=
  with_resources (RoleSchedulingSelection_new (rq_role_id role) node choice.1 choice.2)
    role registered.

(** [search_roles] on the Roles from [role_index] on.  [Ok (Some s, n)] is [Ok(true)]
    with the completed selections, [Ok (None, n)] is [Ok(false)] after undoing every
    tentative selection; [n] is the updated counter.  The candidate set was checked
    to cover every Role. *)
Fixpoint search_roles (roles : list RoleRequirement) (selections : list RoleSchedulingSelection)
    (entities : gmap ActorId PhysicalEntityId) (expansions : N)
  : Result (option (list RoleSchedulingSelection) * N) SchedulerError :=
  match roles with
  | [] => Ok (Some selections, expansions)
  | role :: roles' =>
      let constraint := role_constraint snapshot (rq_role_id role) in
      try_each (fun node n =>
        if is_some_and (fun c => negb (bool_decide (src_node_id c = node))) constraint
           || entity_refused candidates entities (rq_role_id role) node
        then Ok (None, n) else
        match node_resources state node with
        | None => Err (UnknownCandidate node)
        | Some registered =>
            try_each (fun choice k =>
              let? k1 := count_expansion limit k in
              search_roles roles' (selections ++ [select role node registered choice])%list
                (assign_entity candidates (rq_role_id role) node entities) k1)
              (resource_choices registered role snapshot starts_at ends_at selections constraint) n
        end)
        (ordered_nodes candidates snapshot (rq_role_id role) starts_at
           (default [] (rcs_node_ids <$> for_role candidates (rq_role_id role)))) expansions
  end.
End Search.

(** ** Time windows *)

Definition checked_timestamp_add (timestamp duration : N) : Result N SchedulerError :=
  match u64_checked_add timestamp duration with
  | Some t => Ok t
  | None => Err InvalidTimeWindow
  end.

(** [offset.map(|offset| checked_timestamp_add(base, offset)).transpose()]. *)
Definition offset_from (base : TimestampMs) (offset : option N)
  : Result (option TimestampMs) SchedulerError :=
  match offset with
  | None => Ok None
  | Some o => let? t := checked_timestamp_add base o in Ok (Some t)
  end.

Definition validate_duration_estimate (requirement : TaskRequirement)
    (estimate : option TaskDurationEstimate) (now : TimestampMs)
  : Result (option TaskDurationEstimate) SchedulerError :=
  match estimate with
  | None => Ok None
  | Some e =>
      if negb (bool_decide (de_task_ref e = tk_task_ref requirement))
      then Err (InvalidDurationEstimate "evidence belongs to another Task") else
      if negb (estimate_is_fresh_at e now)
      then Err (InvalidDurationEstimate "evidence is stale or from the future")
      else Ok (Some e)
  end.

Definition validate_candidate_set (requirement : TaskRequirement) (candidates : CandidateSet)
  : Result unit SchedulerError :=
  if negb (bool_decide (cs_task_ref candidates = tk_task_ref requirement))
  then Err (InvalidCandidateSet "normal candidates belong to another task") else
  let candidate_roles : gset RoleId := list_to_set (rcs_role_id <$> cs_roles candidates) in
  let required_roles : gset RoleId := list_to_set (rq_role_id <$> tk_roles requirement) in
  if negb (bool_decide (candidate_roles = required_roles))
     || negb (size candidate_roles =? length (cs_roles candidates))%nat
  then Err (InvalidCandidateSet "normal candidates must exactly and uniquely cover Task roles")
  else Ok tt.

Definition opt_min (a b : option N) : option N :=
  match a, b with
  | Some x, Some y => Some (N.min x y)
  | Some x, None => Some x
  | None, b => b
  end.

(** The candidate start times: the earliest one, the ends of known occupancies and
    the openings of declared windows, in increasing order. *)
Definition candidate_starts (snapshot : SchedulingSnapshot) (earliest : TimestampMs)
    (duration : option N) : list TimestampMs :=
  dedup (sort_by cmp
    (earliest ::
       (if is_some duration
        then (omap oc_ends_at (ss_occupancies snapshot)
              ++ match ss_resource_topology snapshot with
                 | Some topology =>
                     tp_resources topology ≫= fun entry => tw_starts_at <$> te_windows entry
                 | None => []
                 end)%list
        else []))).

Section Schedule.
Context {S : Type} `{SharedNodeStateReader S} (state : S).
Context (max_expansions : N) (requirement : TaskRequirement) (candidates : CandidateSet).
Context (snapshot : SchedulingSnapshot) (now : TimestampMs).
Context (estimate : option TaskDurationEstimate) (duration : option N).
Context (latest_activation_at completion_deadline : option TimestampMs).

Definition make_decision (selections : list RoleSchedulingSelection) (starts_at : TimestampMs)
    (ends_at : option TimestampMs) (expansions : N) : TaskSchedulingDecision :=
  MkDecision (tk_task_ref requirement) selections starts_at ends_at latest_activation_at
    (ss_version snapshot) expansions estimate
    (btree_values (ss_cost_evidence snapshot)) (btree_values (ss_policy_cost_evidence snapshot)).

(** The loop over the start times. *)
Fixpoint try_starts (starts : list TimestampMs) (expansions : N)
  : Result TaskSchedulingOutcome SchedulerError :=
  match starts with
  | [] => Ok Deferred
  | starts_at :: starts' =>
      if is_some_and (fun latest => (latest <? starts_at)%N) latest_activation_at
      then Ok Deferred else
      let? ends_at := offset_from starts_at duration in
      if is_some_and (fun deadline => (deadline <? default starts_at ends_at)%N)
           completion_deadline
      then try_starts starts' expansions else
      match search_roles state candidates snapshot starts_at ends_at max_expansions
              (tk_roles requirement) [] ∅ expansions with
      | Err e => Err e
      | Ok (None, n) => try_starts starts' n
      | Ok (Some selections, n) =>
          if (now <? starts_at)%N && is_none ends_at then Ok Deferred else
          let decision := make_decision selections starts_at ends_at n in
          Ok (if (starts_at <=? now)%N then SelectedNow decision else SelectedFuture decision)
      end
  end.
End Schedule.

Record TaskSchedulingContext := MkSchedulingContext {
  tsc_mission_accepted_at : TimestampMs;
  tsc_now : TimestampMs;
  tsc_duration_estimate : option TaskDurationEstimate
}.

(** [completion_start_deadline]; [None] is the early [WindowMissed]. *)
Definition completion_start_deadline (deadline : option TimestampMs) (duration : option N)
  : option (option TimestampMs) :=
  match deadline, duration with
  | Some d, Some len => if (len <=? d)%N then Some (Some (d - len)%N) else None
  | d, None => Some d
  | None, Some _ => Some None
  end.

Definition schedule_task_with_snapshot_and_estimate {S} `{SharedNodeStateReader S}
    (max_expansions : N) (state : S) (requirement : TaskRequirement) (candidates : CandidateSet)
    (snapshot : SchedulingSnapshot) (context : TaskSchedulingContext)
  : Result TaskSchedulingOutcome SchedulerError :=
  let? _c := validate_candidate_set requirement candidates in
  let? explicit_estimate :=
    validate_duration_estimate requirement (tsc_duration_estimate context) (tsc_now context) in
  let timing := tk_timing requirement in
  let duration := match explicit_estimate with
                  | Some e => Some (de_duration_ms e)
                  | None => estimated_duration_ms timing
                  end in
  let accepted := tsc_mission_accepted_at context in
  let? opening := checked_timestamp_add accepted (earliest_start_offset_ms timing) in
  let earliest := N.max opening (tsc_now context) in
  let? latest := offset_from accepted (latest_start_offset_ms timing) in
  let? completion_deadline := offset_from accepted (completion_deadline_offset_ms timing) in
  match completion_start_deadline completion_deadline duration with
  | None => Ok WindowMissed
  | Some completion =>
      let latest_activation_at := opt_min latest completion in
      if is_some_and (fun l => (l <? earliest)%N) latest_activation_at then Ok WindowMissed else
      try_starts state max_expansions requirement candidates snapshot (tsc_now context)
        explicit_estimate duration latest_activation_at completion_deadline
        (List.filter (fun start => (earliest <=? start)%N)
           (candidate_starts snapshot earliest duration)) 0
  end.

Definition schedule_task_with_snapshot {S} `{SharedNodeStateReader S} (max_expansions : N)
    (state : S) (requirement : TaskRequirement) (candidates : CandidateSet)
    (snapshot : SchedulingSnapshot) (mission_accepted_at now : TimestampMs)
  : Result TaskSchedulingOutcome SchedulerError :=
  schedule_task_with_snapshot_and_estimate max_expansions state requirement candidates snapshot
    (MkSchedulingContext mission_accepted_at now None).

Definition DEFAULT_SEARCH_EXPANSIONS : N := 10000.

(** [with_max_expansions]. *)
Definition bounded_expansions (max_expansions : N) : N :=
  if (max_expansions =? 0)%N then 1%N else max_expansions.

(** [schedule_task]; a requirement has at least one Role. *)
Definition schedule_task {S} `{SharedNodeStateReader S} (max_expansions : N) (state : S)
    (requirement : TaskRequirement) (candidates : CandidateSet) (timestamp : TimestampMs)
  : Result TaskSchedulingDecision SchedulerError * list SchedulingEvent :=
  if negb (bool_decide (cs_task_ref candidates = tk_task_ref requirement))
  then (Err (InvalidCandidateSet "normal candidates belong to another task"), []) else
  match schedule_task_with_snapshot max_expansions state requirement candidates
          SchedulingSnapshot_empty timestamp timestamp with
  | Err e => (Err e, [])
  | Ok (SelectedNow decision) | Ok (SelectedFuture decision) =>
      (Ok decision,
       [TaskSchedulingSelected (tk_task_ref requirement) (proposed_assignments decision)])
  | Ok (Deferred | WindowMissed) =>
      match tk_roles requirement with
      | role :: _ => (Err (NoFeasibleSelection (rq_role_id role)), [])
      | [] => (Err (InvalidCandidateSet "task requirement has no roles"), [])
      end
  end.

(** ** Recovery *)

Fixpoint select_first {S} `{SharedNodeStateReader S} (state : S) (role : RoleRequirement)
    (snapshot : SchedulingSnapshot) (starts_at : TimestampMs) (ends_at : option TimestampMs)
    (nodes : list NodeId) : Result (option RoleSchedulingSelection) SchedulerError :=
  match nodes with
  | [] => Ok None
  | node :: nodes' =>
      match node_resources state node with
      | None => Err (UnknownCandidate node)
      | Some registered =>
          match resource_choices registered role snapshot starts_at ends_at [] None with
          | [] => select_first state role snapshot starts_at ends_at nodes'
          | choice :: _ => Ok (Some (select role node registered choice))
          end
      end
  end.

Definition select_role {S} `{SharedNodeStateReader S} (state : S) (role : RoleRequirement)
    (candidate_node_ids : list NodeId) (snapshot : SchedulingSnapshot) (starts_at : TimestampMs)
    (ends_at : option TimestampMs) : Result (option RoleSchedulingSelection) SchedulerError :=
  select_first state role snapshot starts_at ends_at
    (dedup (sort_by (fun l r => cmp (candidate_cost snapshot l starts_at, l)
                                    (candidate_cost snapshot r starts_at, r))
              candidate_node_ids)).

Definition schedule_recovery {S} `{SharedNodeStateReader S} (state : S)
    (requirement : TaskRequirement) (candidates : RecoveryCandidateSet)
    (snapshot : SchedulingSnapshot) (timestamp : TimestampMs)
  : Result RecoverySchedulingOutcome SchedulerError * list SchedulingEvent :=
  if negb (bool_decide (rv_task_ref candidates = tk_task_ref requirement))
  then (Err (InvalidCandidateSet "recovery candidates belong to another task"), []) else
  match List.find (fun role => bool_decide (rq_role_id role = rv_role_id candidates))
          (tk_roles requirement) with
  | None => (Err (InvalidCandidateSet
                    ("task requirement omits recovery role " ++ as_str (rv_role_id candidates))), [])
  | Some role =>
      let ends_at := match ss_topology_recovery_interval snapshot with
                     | Some (task, e) => if bool_decide (task = rv_task_ref candidates)
                                         then Some e else None
                     | None => None
                     end in
      match select_role state role (rv_candidate_node_ids candidates) snapshot timestamp ends_at with
      | Err e => (Err e, [])
      | Ok None =>
          (Ok NoSelection,
           [RecoverySchedulingNoSelection (rv_group_id candidates) (rv_task_ref candidates)
              (rv_role_id candidates)])
      | Ok (Some selection) =>
          let decision := MkRecoveryDecision (rv_group_id candidates) (rv_task_ref candidates)
            (rv_role_id candidates) (rv_previous_node_id candidates) (sel_node_id selection)
            (sel_resource_ids selection) (btree_values (ss_policy_cost_evidence snapshot)) in
          (Ok (Selected decision),
           [RecoverySchedulingSelected (rv_group_id candidates) (rv_task_ref candidates)
              (rv_role_id candidates) (rv_previous_node_id candidates)
              (rd_replacement_node_id decision) (rd_resource_ids decision)])
      end
  end.
