(* ===== verification/CapacityFacts.v ===== *)
(** * The capacity sweep

    [interval_available] of [scheduler/capacity.rs] sweeps the changes of the occupied
    units in time order.  This file proves it equal to its pointwise meaning: at every
    instant of the interval no occupancy excludes the whole resource and the occupied
    units leave room for the requested ones. *)

From S2P Require Import Prelude Identity Execution StateModel Resource DecisionPolicy.
From S2P Require Import Scheduler.

(** ** The pointwise meaning *)

(** A half-open interval; an absent end is unbounded. *)
Definition within (start : TimestampMs) (end_ : option TimestampMs) (t : TimestampMs) : bool :=
  (start <=? t)%N && is_none_or (fun e => (t <? e)%N) end_.

Definition active_at (o : SchedulingOccupancy) (t : TimestampMs) : bool :=
  within (oc_starts_at o) (oc_ends_at o) t.

(** The units occupied at an instant. *)
Definition load (occupancies : list SchedulingOccupancy) (t : TimestampMs) : N :=
  foldr (fun o n => ((if active_at o t then default 0 (oc_units o) else 0) + n)%N) 0%N occupancies.

(** Nothing excludes the whole resource at an instant. *)
Definition shareable (occupancies : list SchedulingOccupancy) (t : TimestampMs) : Prop :=
  forall o, o ∈ occupancies -> active_at o t = true -> is_Some (oc_units o).

(** A known end lies after the start. *)
Definition occupancy_ok (o : SchedulingOccupancy) : Prop :=
  forall e, oc_ends_at o = Some e -> (oc_starts_at o < e)%N.

Lemma within_true start end_ t :
  within start end_ t = true <-> (start <= t)%N /\ (forall e, end_ = Some e -> (t < e)%N).
Proof.
  unfold within. rewrite andb_true_iff, N.leb_le, is_none_or_true.
  by setoid_rewrite N.ltb_lt.
Qed.

Lemma load_app l k t : load (l ++ k) t = (load l t + load k t)%N.
Proof. induction l as [|o l IH]; simpl; [done|]. rewrite IH. lia. Qed.

(** ** Sums of changes *)

Definition sumZ (l : list Z) : Z := foldr Z.add 0%Z l.

Lemma sumZ_Permutation l k : l ≡ₚ k -> sumZ l = sumZ k.
Proof. induction 1; simpl; lia. Qed.

(** The changes up to an instant. *)
Definition upto (t : TimestampMs) (p : TimestampMs * Z) : Z :=
  if (p.1 <=? t)%N then p.2 else 0%Z.
Definition cum (changes : gmap TimestampMs Z) (t : TimestampMs) : Z :=
  sumZ (upto t <$> map_to_list changes).

Lemma upto_le t k z : (k <= t)%N -> upto t (k, z) = z.
Proof. intros Hk. unfold upto. simpl. by rewrite (proj2 (N.leb_le k t) Hk). Qed.

Lemma sumZ_upto_cons t p (l : list (TimestampMs * Z)) :
  sumZ (upto t <$> p :: l) = (upto t p + sumZ (upto t <$> l))%Z.
Proof. done. Qed.

Lemma cum_insert_None changes k z t :
  changes !! k = None ->
  cum (<[k := z]> changes) t = (upto t (k, z) + cum changes t)%Z.
Proof.
  intros E. unfold cum. rewrite (sumZ_Permutation _ (upto t <$> (k, z) :: map_to_list changes)).
  - done.
  - by rewrite map_to_list_insert.
Qed.

Lemma cum_delete changes k t :
  cum changes t = (upto t (k, default 0%Z (changes !! k)) + cum (delete k changes) t)%Z.
Proof.
  destruct (changes !! k) as [z|] eqn:E; simpl.
  - rewrite <- (insert_delete_id changes k z E) at 1.
    by rewrite cum_insert_None by apply lookup_delete_eq.
  - rewrite delete_id by done. unfold upto; simpl. by case_match.
Qed.

Lemma cum_add_change k z changes t :
  cum (add_change k z changes) t = (cum changes t + upto t (k, z))%Z.
Proof.
  unfold add_change. rewrite (cum_delete (<[k:=_]> changes) k), lookup_insert_eq.
  rewrite delete_insert_eq, (cum_delete changes k). unfold upto; simpl. case_match; lia.
Qed.

Lemma cum_singleton k z t : cum {[k := z]} t = upto t (k, z).
Proof. unfold cum. rewrite map_to_list_singleton. simpl. lia. Qed.

(** ** The sweep *)

Definition sorted_keys {V} (l : list (N * V)) : Prop :=
  StronglySorted (fun p q => (p.1 < q.1)%N) l.

Lemma sumZ_upto_late t (l : list (TimestampMs * Z)) :
  Forall (fun q => (t < q.1)%N) l -> sumZ (upto t <$> l) = 0%Z.
Proof.
  induction 1 as [|q l Hq _ IH]; [done|]. rewrite sumZ_upto_cons, IH.
  unfold upto. case_match; [rewrite N.leb_le in *; lia|lia].
Qed.

(** The sweep bounds the running sum at every instant from the first change on. *)
Lemma sweep_iff capacity l : sorted_keys l -> forall active,
  sweep capacity active l.*2 = true <->
  forall t, Exists (fun p => (p.1 <= t)%N) l ->
    (0 <= active + sumZ (upto t <$> l) <= capacity)%Z.
Proof.
  induction 1 as [|[k z] l Hl IH Hk]; intros active.
  { split; [|done]. intros _ t Ht. inversion Ht. }
  setoid_rewrite sumZ_upto_cons. simpl.
  assert (forall t, (k <= t)%N -> ~ Exists (fun p => (p.1 <= t)%N) l ->
            sumZ (upto t <$> l) = 0%Z) as Hlate.
  { intros t _ Hn. apply sumZ_upto_late, Forall_forall. intros q Hq.
    destruct (decide (q.1 <= t)%N); [|lia]. exfalso. apply Hn, Exists_exists. by exists q. }
  destruct ((active + z <? 0)%Z || (capacity <? active + z)%Z) eqn:Eb.
  - split; [done|]. intros Hall. exfalso. specialize (Hall k).
    rewrite (upto_le k k z), sumZ_upto_late in Hall by (done || lia).
    apply orb_true_iff in Eb. rewrite !Z.ltb_lt in Eb.
    assert (0 <= active + (z + 0) <= capacity)%Z by (apply Hall; by left). lia.
  - apply orb_false_iff in Eb as [E1 E2]. rewrite Z.ltb_ge in E1, E2. rewrite IH. split.
    + intros Hall t Ht.
      assert (k <= t)%N as Hkt.
      { inversion Ht as [|? ? Hx]; subst; [done|]. apply Exists_exists in Hx as (q & Hq & Hle).
        rewrite Forall_forall in Hk. specialize (Hk q Hq). simpl in *. lia. }
      rewrite (upto_le t k z Hkt).
      destruct (decide (Exists (fun p => (p.1 <= t)%N) l)) as [Hx|Hx].
      * specialize (Hall t Hx). lia.
      * rewrite (Hlate t Hkt Hx). lia.
    + intros Hall t Hx. specialize (Hall t (Exists_cons_tl _ Hx)).
      apply Exists_exists in Hx as (q & Hq & Hle). rewrite Forall_forall in Hk.
      specialize (Hk q Hq). simpl in Hk.
      rewrite (upto_le t k z) in Hall by lia. lia.
Qed.

Lemma btree_iter_sorted_keys {V} (m : gmap N V) : sorted_keys (btree_iter m).
Proof.
  unfold sorted_keys, btree_iter. apply Sorted_StronglySorted; [intros p q r; lia|].
  pose proof (NoDup_fst_map_to_list m) as Hnd. revert Hnd.
  induction (map_to_list m) as [|p l IH]; simpl; [constructor|]. intros [Hp Hnd]%NoDup_cons.
  specialize (IH Hnd).
  assert (p.1 ∉ (sort_by (fun p q : N * V => cmp p.1 q.1) l).*1) as Hp'.
  { by rewrite sort_by_Permutation. }
  clear Hp Hnd. revert IH Hp'.
  generalize (sort_by (fun p q : N * V => cmp p.1 q.1) l). clear l.
  induction l as [|q l IHl]; simpl; intros Hs Hp; [by repeat constructor|].
  unfold cmp, N_Ord. destruct (N.compare_spec p.1 q.1) as [E|E|E].
  - exfalso. apply Hp. rewrite E. by left.
  - constructor; [done|]. by constructor.
  - inversion Hs as [|? ? Hs' Hh]; subst. apply not_elem_of_cons in Hp as [_ Hp].
    specialize (IHl Hs' Hp). constructor; [done|].
    destruct l as [|r l]; simpl in *; [by constructor|].
    unfold cmp, N_Ord in IHl |- *. destruct (p.1 ?= r.1)%N; constructor; try done;
      by inversion Hh.
Qed.

Lemma sweep_cum capacity active (m : gmap TimestampMs Z) :
  sweep capacity active (btree_values m) = true <->
  forall t, (exists k, is_Some (m !! k) /\ (k <= t)%N) ->
    (0 <= active + cum m t <= capacity)%Z.
Proof.
  unfold btree_values. rewrite (sweep_iff _ _ (btree_iter_sorted_keys m)).
  assert (forall t, sumZ (upto t <$> btree_iter m) = cum m t) as Hs.
  { intros t. apply sumZ_Permutation. by rewrite btree_iter_Permutation. }
  setoid_rewrite Hs. split; intros Hall t Hx; apply Hall.
  - destruct Hx as (k & [z Ez] & Hk). apply Exists_exists. exists (k, z).
    by rewrite elem_of_btree_iter.
  - apply Exists_exists in Hx as ([k z] & Hk%elem_of_btree_iter & Hle). eauto.
Qed.

(** ** The collected changes *)

Lemma outside_not_active start end_ o t :
  outside_interval start end_ o = true -> within start end_ t = true -> active_at o t = false.
Proof.
  unfold outside_interval. rewrite orb_true_iff, !is_some_and_true, within_true.
  intros Ho [Hs He]. apply not_true_iff_false. unfold active_at. rewrite within_true.
  intros [Hos Hoe]. destruct Ho as [(e & -> & Hle)|(e & Ee & Hle)]; rewrite N.leb_le in Hle.
  - specialize (He e eq_refl). lia.
  - specialize (Hoe e Ee). lia.
Qed.

Lemma occupancy_changes_cum start end_ o u changes t :
  occupancy_ok o -> within start end_ t = true -> outside_interval start end_ o = false ->
  cum (occupancy_changes start end_ o u changes) t =
    (cum changes t + Z.of_N (if active_at o t then u else 0))%Z.
Proof.
  intros Hok [Hs He]%within_true Hout.
  unfold occupancy_changes, active_at, within.
  assert ((N.max start (oc_starts_at o) <=? t)%N = (oc_starts_at o <=? t)%N) as Hmax.
  { destruct (oc_starts_at o <=? t)%N eqn:E; rewrite ?N.leb_le, ?N.leb_gt in *; lia. }
  destruct (oc_ends_at o) as [last|] eqn:El; simpl.
  - specialize (Hok last El).
    destruct (is_none_or (fun e => (last <? e)%N) end_) eqn:Ee; rewrite !cum_add_change;
      unfold upto; simpl; rewrite Hmax.
    + destruct (oc_starts_at o <=? t)%N eqn:E1, (last <=? t)%N eqn:E2, (t <? last)%N eqn:E3;
        rewrite ?N.leb_le, ?N.leb_gt, ?N.ltb_lt, ?N.ltb_ge in *; simpl; lia.
    + apply not_true_iff_false in Ee. rewrite is_none_or_true in Ee.
      destruct end_ as [e|]; [|exfalso; apply Ee; discriminate]. specialize (He e eq_refl).
      assert (e <= last)%N.
      { destruct (decide (last < e)%N); [|lia]. exfalso. apply Ee. intros ? [= <-].
        by apply N.ltb_lt. }
      rewrite (proj2 (N.ltb_lt t last)) by lia. rewrite andb_true_r. destruct (oc_starts_at o <=? t)%N; simpl; lia.
  - rewrite cum_add_change. unfold upto; simpl. rewrite Hmax, andb_true_r.
    destruct (oc_starts_at o <=? t)%N; simpl; lia.
Qed.

Lemma collect_changes_cum start end_ occupancies t :
  (forall o, o ∈ occupancies -> occupancy_ok o) -> within start end_ t = true ->
  forall changes changes', collect_changes start end_ changes occupancies = Some changes' ->
  cum changes' t = (cum changes t + Z.of_N (load occupancies t))%Z.
Proof.
  intros Hok Hw. induction occupancies as [|o l IH]; intros changes changes'; simpl.
  { intros [= <-]. lia. }
  assert (forall o, o ∈ l -> occupancy_ok o) as Hok' by set_solver.
  destruct (outside_interval start end_ o) eqn:Eo.
  - intros E. rewrite (IH Hok' _ _ E), (outside_not_active _ _ _ _ Eo Hw). lia.
  - destruct (oc_units o) as [u|] eqn:Eu; [|done]. intros E. rewrite (IH Hok' _ _ E).
    rewrite occupancy_changes_cum by (try done; apply Hok; left). simpl.
    destruct (active_at o t); lia.
Qed.

Lemma add_change_keys k z changes (P : TimestampMs -> Prop) :
  P k -> (forall j, is_Some (changes !! j) -> P j) ->
  forall j, is_Some (add_change k z changes !! j) -> P j.
Proof.
  intros Hk Hall j [x Ex]. unfold add_change in Ex.
  destruct (decide (k = j)) as [<-|Hne]; [done|].
  rewrite lookup_insert_ne in Ex by done. apply Hall. by eexists.
Qed.

(** Every change lies inside the interval, and none is dropped. *)
Lemma collect_changes_keys start end_ occupancies :
  (forall o, o ∈ occupancies -> occupancy_ok o) ->
  (forall e, end_ = Some e -> (start < e)%N) ->
  forall changes changes', collect_changes start end_ changes occupancies = Some changes' ->
  (forall k, is_Some (changes !! k) -> within start end_ k = true) ->
  (forall k, is_Some (changes' !! k) -> within start end_ k = true) /\
  (forall k, is_Some (changes !! k) -> is_Some (changes' !! k)).
Proof.
  intros Hok Hne. induction occupancies as [|o l IH]; intros changes changes'; simpl.
  { intros [= <-]. done. }
  assert (forall o, o ∈ l -> occupancy_ok o) as Hok' by set_solver.
  destruct (outside_interval start end_ o) eqn:Eo; [by apply IH|].
  destruct (oc_units o) as [u|]; [|done]. intros E Hk.
  unfold outside_interval in Eo. apply orb_false_iff in Eo as [E1 E2].
  rewrite is_some_and_false in E1, E2.
  setoid_rewrite N.leb_gt in E1. setoid_rewrite N.leb_gt in E2.
  assert (forall k, is_Some (occupancy_changes start end_ o u changes !! k) ->
                    within start end_ k = true) as Hk'.
  { unfold occupancy_changes.
    assert (within start end_ (N.max start (oc_starts_at o)) = true) as Hfirst.
    { apply within_true. split; [lia|]. intros e Ee. specialize (E1 e Ee). specialize (Hne e Ee). lia. }
    destruct (oc_ends_at o) as [last|] eqn:El; [|by apply add_change_keys].
    destruct (is_none_or _ _) eqn:En; [|by apply add_change_keys].
    apply add_change_keys; [|by apply add_change_keys].
    apply within_true. split; [specialize (E2 last eq_refl); lia|].
    intros e Ee. rewrite is_none_or_true in En. specialize (En e Ee). by apply N.ltb_lt. }
  destruct (IH Hok' _ _ E Hk') as [Ha Hb]. split; [done|].
  intros k Hin. apply Hb. unfold occupancy_changes.
  assert (forall j z m, is_Some (m !! k) -> is_Some (add_change j z m !! k)) as Hadd.
  { intros j z m Hm. unfold add_change. destruct (decide (j = k)) as [->|].
    - rewrite lookup_insert_eq. by eexists.
    - by rewrite lookup_insert_ne. }
  destruct (oc_ends_at o) as [last|]; [case_match|]; eauto.
Qed.

Lemma collect_changes_None start end_ occupancies changes :
  collect_changes start end_ changes occupancies = None <->
  exists o, o ∈ occupancies /\ outside_interval start end_ o = false /\ oc_units o = None.
Proof.
  revert changes. induction occupancies as [|o l IH]; intros changes; simpl.
  { split; [done|]. intros (o & Ho & _). by apply not_elem_of_nil in Ho. }
  setoid_rewrite elem_of_cons. destruct (outside_interval start end_ o) eqn:Eo.
  { rewrite IH. split; intros (x & ? & ? & ?); exists x; naive_solver congruence. }
  destruct (oc_units o) as [u|] eqn:Eu.
  - rewrite IH. split; intros (x & ? & ? & ?); exists x; naive_solver congruence.
  - split; [|done]. intros _. exists o. naive_solver.
Qed.

(** An occupancy that meets the interval is active at some instant of it. *)
Lemma overlap_instant start end_ o :
  occupancy_ok o -> (forall e, end_ = Some e -> (start < e)%N) ->
  outside_interval start end_ o = false ->
  exists t, within start end_ t = true /\ active_at o t = true.
Proof.
  unfold outside_interval, active_at. intros Hok Hne [E1 E2]%orb_false_iff.
  rewrite is_some_and_false in E1, E2.
  setoid_rewrite N.leb_gt in E1. setoid_rewrite N.leb_gt in E2.
  exists (N.max start (oc_starts_at o)). rewrite !within_true. split; split; try lia.
  - intros e Ee. specialize (E1 e Ee). specialize (Hne e Ee). lia.
  - intros e Ee. specialize (E2 e Ee). specialize (Hok e Ee). lia.
Qed.

(** ** The sweep is the pointwise meaning *)

Section Collected.
Context (start : TimestampMs) (end_ : option TimestampMs) (units : N).
Context (occupancies : list SchedulingOccupancy) (changes : gmap TimestampMs Z).
Context (Hok : forall o, o ∈ occupancies -> occupancy_ok o).
Context (Hne : forall e, end_ = Some e -> (start < e)%N).
Context (E : collect_changes start end_ {[start := Z.of_N units]} occupancies = Some changes).

Lemma collected_keys :
  is_Some (changes !! start) /\ forall k, is_Some (changes !! k) -> within start end_ k = true.
Proof.
  destruct (collect_changes_keys _ _ _ Hok Hne _ _ E) as [Hkeys Hkept].
  - intros k [z Ez]. apply lookup_singleton_Some in Ez as [<- _]. apply within_true.
    split; [lia|done].
  - split; [|done]. apply Hkept. rewrite lookup_singleton_eq. by eexists.
Qed.

Lemma collected_cum t :
  within start end_ t = true -> cum changes t = Z.of_N (load occupancies t + units).
Proof.
  intros Ht. rewrite (collect_changes_cum _ _ _ _ Hok Ht _ _ E), cum_singleton.
  rewrite upto_le by (by apply within_true in Ht as [? _]). lia.
Qed.

(** No change happens from the end of the interval on. *)
Lemma collected_cum_late e t :
  end_ = Some e -> (e <= t)%N -> cum changes t = cum changes (e - 1).
Proof.
  intros Ee Het. unfold cum. f_equal. apply list_fmap_ext. intros i [j z] Ej.
  assert (within start end_ j = true) as Hj.
  { apply collected_keys. exists z. apply elem_of_map_to_list. by eapply list_elem_of_lookup_2. }
  apply within_true in Hj as [_ Hje]. specialize (Hje e Ee). by rewrite !upto_le by lia.
Qed.

Lemma collected_shareable t : within start end_ t = true -> shareable occupancies t.
Proof.
  intros Ht o Ho Hact. destruct (oc_units o) eqn:Eu; [by eexists|]. exfalso.
  assert (collect_changes start end_ {[start := Z.of_N units]} occupancies = None) as En.
  { apply collect_changes_None. exists o. split_and!; try done.
    apply not_true_iff_false. intros Hout.
    by rewrite (outside_not_active _ _ _ _ Hout Ht) in Hact. }
  congruence.
Qed.

Lemma collected_sweep capacity :
  sweep (Z.of_N capacity) 0 (btree_values changes) = true <->
  forall t, within start end_ t = true ->
    shareable occupancies t /\ (load occupancies t + units <= capacity)%N.
Proof.
  destruct collected_keys as [Hs Hkeys]. rewrite sweep_cum. split.
  - intros Hall t Ht. split; [by apply collected_shareable|].
    assert (0 <= 0 + cum changes t <= Z.of_N capacity)%Z as Hb.
    { apply Hall. exists start. split; [done|]. by apply within_true in Ht as [? _]. }
    rewrite (collected_cum t Ht) in Hb. lia.
  - intros Hall t (k & Hk%Hkeys & Hkt). apply within_true in Hk as [Hks Hke].
    destruct (within start end_ t) eqn:Ht.
    + rewrite (collected_cum t Ht). destruct (Hall t Ht). lia.
    + assert (exists e, end_ = Some e /\ (e <= t)%N) as (e & Ee & Het).
      { unfold within in Ht. rewrite (proj2 (N.leb_le start t)) in Ht by lia. simpl in Ht.
        destruct end_ as [e|]; [|done]. exists e. split; [done|]. by apply N.ltb_ge in Ht. }
      assert (within start end_ (e - 1) = true) as He.
      { apply within_true. specialize (Hne e Ee). split; [lia|]. intros e' Ee'.
        rewrite Ee in Ee'. injection Ee' as <-. lia. }
      rewrite (collected_cum_late e t Ee Het), (collected_cum _ He). destruct (Hall _ He). lia.
Qed.
End Collected.

Lemma interval_available_pointwise occupancies start end_ units capacity :
  (forall o, o ∈ occupancies -> occupancy_ok o) ->
  interval_available occupancies start end_ units capacity = true <->
  (forall e, end_ = Some e -> (start < e)%N) /\
  (forall t, within start end_ t = true ->
     shareable occupancies t /\ (load occupancies t + units <= capacity)%N).
Proof.
  intros Hok. unfold interval_available.
  destruct (is_some_and (fun e => (e <=? start)%N) end_) eqn:Ee.
  { rewrite orb_true_r. split; [done|]. intros [Hne _].
    apply is_some_and_true in Ee as (e & -> & He). specialize (Hne e eq_refl).
    rewrite N.leb_le in He. lia. }
  assert (forall e, end_ = Some e -> (start < e)%N) as Hne.
  { intros e Ee'. rewrite is_some_and_false in Ee. specialize (Ee e Ee'). by apply N.leb_gt. }
  rewrite orb_false_r. destruct (capacity <? units)%N eqn:Ec.
  { split; [done|]. intros [_ Hall]. destruct (Hall start) as [_ Hl].
    - apply within_true. split; [lia|done].
    - rewrite N.ltb_lt in Ec. lia. }
  destruct (collect_changes _ _ _ _) as [changes|] eqn:E.
  - rewrite (collected_sweep _ _ _ _ _ Hok Hne E). naive_solver.
  - split; [done|]. intros [_ Hall]. exfalso.
    apply collect_changes_None in E as (o & Ho & Hout & Eu).
    destruct (overlap_instant start end_ o (Hok o Ho) Hne Hout) as (t & Ht & Hact).
    destruct (Hall t Ht) as [Hs _]. destruct (Hs o Ho Hact) as [u Eu']. congruence.
Qed.
