(* ===== verification/SchedulerFacts.v ===== *)
(** * Facts about the joint search

    The bounded backtracking search of [scheduler/policy.rs] against two references:
    the list of all joint assignments in preference order, and the relation [joint]
    that says what an assignment is. *)

From S2P Require Import Prelude Identity Execution StateModel Resource DecisionPolicy.
From S2P Require Import Scheduler SchedulerPolicy CapacityFacts.

(** ** Declared conflicts are symmetric *)

Lemma footprint_conflicts_comm f g :
  ResourceSpaceFootprint_conflicts f g = ResourceSpaceFootprint_conflicts g f.
Proof.
  unfold ResourceSpaceFootprint_conflicts.
  rewrite (String.eqb_sym (sf_conflict_domain f)), (String.eqb_sym (sf_frame f)),
    (String.eqb_sym (sf_anchor_revision f)).
  destruct (is_ok (ResourceSpaceFootprint_validate f)),
    (is_ok (ResourceSpaceFootprint_validate g)); simpl; try done.
  repeat (case_match; [done|]).
  unfold axes. simpl. by rewrite !(andb_comm (inflated_lower f _ <=? _)%Z).
Qed.

Lemma both_comm {A} (p : A -> A -> bool) a b :
  (forall x y, p x y = p y x) -> both p a b = both p b a.
Proof. intros Hp. destruct a, b; simpl; auto. Qed.

Lemma topology_conflicts_comm e f :
  ResourceTopologyEntry_conflicts e f = ResourceTopologyEntry_conflicts f e.
Proof.
  unfold ResourceTopologyEntry_conflicts.
  rewrite (both_comm String.eqb (te_time_domain e)) by apply String.eqb_sym.
  rewrite (both_comm _ (te_space e)) by apply footprint_conflicts_comm.
  do 2 f_equal. apply bool_decide_ext. split; congruence.
Qed.

(** ** The resources of one Role *)

Section Choices.
Context (registered : list Resource) (role : RoleRequirement) (snapshot : SchedulingSnapshot).
Context (starts_at : TimestampMs) (ends_at : option TimestampMs).
Context (selected : list RoleSchedulingSelection) (constraint : option SchedulingRoleConstraint).

(** What the resource chosen for one demand satisfies. *)
Record chosen (id : ResourceId) (demand : ResourceRequirement) (resource : Resource) : Prop := {
  chosen_id : res_id resource = id;
  chosen_registered : resource ∈ registered;
  chosen_matches : matches_demand demand resource = true;
  chosen_available :
    capacity_available snapshot (rq_role_id role) resource demand starts_at ends_at selected = true
}.

(** Two chosen resources have no conflicting declarations. *)
Definition compatible (a b : ResourceId) : Prop :=
  forall registry ea eb, ss_resource_topology snapshot = Some registry ->
    topology_entry registry a = Some ea -> topology_entry registry b = Some eb ->
    ResourceTopologyEntry_conflicts ea eb = false.

Lemma elem_of_eligible resource demand :
  resource ∈ eligible_resources registered (rq_role_id role) snapshot starts_at ends_at selected
               constraint demand ->
  chosen (res_id resource) demand resource.
Proof.
  unfold eligible_resources. rewrite elem_of_sort_by, list_elem_of_In, filter_In.
  intros [Hin Hp]. bool_facts. split; try done. by apply list_elem_of_In.
Qed.

Lemma clashes_false ids resource :
  clashes (ss_resource_topology snapshot) ids resource = false ->
  (res_id resource ∉ ids) /\ (forall other, other ∈ ids -> compatible (res_id resource) other).
Proof.
  unfold clashes. intros [Hn Hc]%orb_false_iff. bool_facts. split; [done|].
  intros other Hin registry ea eb Er Ea Eb. rewrite Er in Hc. simpl in Hc. rewrite Ea in Hc.
  simpl in Hc. apply not_true_iff_false. intros Hx. apply not_true_iff_false in Hc. apply Hc.
  apply existsb_exists. exists other. split; [by apply list_elem_of_In|]. by rewrite Eb.
Qed.

(** A combination for a list of demands: the resources in order, all distinct and
    compatible, with the demanded units. *)
Record combination (demands : list ResourceRequirement) (c : list ResourceId * list N) : Prop := {
  comb_chosen : Forall2 (fun id demand => exists r, chosen id demand r) c.1 demands;
  comb_units : c.2 = rr_units <$> demands;
  comb_NoDup : NoDup c.1;
  comb_compatible : forall i j a b, c.1 !! i = Some a -> c.1 !! j = Some b -> i <> j ->
    compatible a b
}.

Lemma combination_nil : combination [] ([], []).
Proof. split; simpl; try constructor. intros i j a b Ea. by rewrite lookup_nil in Ea. Qed.

Lemma combination_snoc demands ids units demand resource :
  combination demands (ids, units) ->
  chosen (res_id resource) demand resource ->
  clashes (ss_resource_topology snapshot) ids resource = false ->
  combination (demands ++ [demand])
    ((ids ++ [res_id resource])%list, (units ++ [rr_units demand])%list).
Proof.
  intros [Hc Hu Hn Hp] Hr [Hfresh Hcomp]%clashes_false. simpl in *. split; simpl.
  - apply Forall2_app; [done|]. constructor; [by exists resource|constructor].
  - by rewrite fmap_app, Hu.
  - apply NoDup_app. split_and!; [done|set_solver|]. apply NoDup_singleton.
  - intros i j a b Hi Hj Hij. rewrite lookup_app in Hi, Hj.
    assert (forall x y, compatible x y -> compatible y x) as Hsym.
    { intros x y Hxy registry ex ey Er Ex Ey. rewrite topology_conflicts_comm. by eapply Hxy. }
    destruct (ids !! i) as [a'|] eqn:Ei, (ids !! j) as [b'|] eqn:Ej; simplify_eq.
    + by eapply Hp.
    + apply list_lookup_singleton_Some in Hj as [_ <-]. apply Hsym, Hcomp.
      by eapply list_elem_of_lookup_2.
    + apply list_lookup_singleton_Some in Hi as [_ <-]. apply Hcomp.
      by eapply list_elem_of_lookup_2.
    + apply lookup_ge_None in Ei, Ej. apply list_lookup_singleton_Some in Hi as [? _].
      apply list_lookup_singleton_Some in Hj as [? _]. lia.
Qed.

Lemma combinations_foldl demands done_ combos :
  (forall c, c ∈ combos -> combination done_ c) ->
  forall c, c ∈ foldl (extend_combinations (ss_resource_topology snapshot)
                 (eligible_resources registered (rq_role_id role) snapshot starts_at ends_at
                    selected constraint)) combos demands ->
  combination (done_ ++ demands) c.
Proof.
  revert done_ combos. induction demands as [|d demands IH]; intros done_ combos Hc c; simpl.
  { rewrite app_nil_r. apply Hc. }
  intros Hin. rewrite cons_middle, app_assoc. eapply IH; [|exact Hin]. clear c Hin.
  intros c Hin. unfold extend_combinations in Hin.
  apply list_elem_of_bind in Hin as ([ids units] & Hin & Hold).
  unfold extend_combination in Hin. apply list_elem_of_omap in Hin as (r & Hr & E).
  simpl in E. destruct (clashes _ _ _) eqn:Ecl; [done|]. injection E as <-.
  apply combination_snoc; [by apply Hc|by apply elem_of_eligible|done].
Qed.

Lemma resource_choices_combination c :
  c ∈ resource_choices registered role snapshot starts_at ends_at selected constraint ->
  combination (resource_requirements role) c /\
  (resource_requirements role <> [] ->
   forall k, constraint = Some k -> c.1 = src_resource_ids k).
Proof.
  unfold resource_choices. destruct (resource_requirements role) as [|d ds] eqn:Ed.
  { simpl. intros ->%list_elem_of_singleton. split; [apply combination_nil|done]. }
  simpl length. simpl Nat.eqb. cbv iota.
  match goal with |- context [if is_some_and ?p ?c then _ else _] => destruct (is_some_and p c) end;
    [by intros ?%not_elem_of_nil|].
  assert (forall c, c ∈ [([], [])] -> combination [] c) as H0.
  { intros ? ->%list_elem_of_singleton. apply combination_nil. }
  assert (forall c, c ∈ foldl (extend_combinations (ss_resource_topology snapshot)
                 (eligible_resources registered (rq_role_id role) snapshot starts_at ends_at
                    selected constraint)) [([], [])] (d :: ds) -> combination (d :: ds) c) as Hf
    by (intros x Hx; exact (combinations_foldl _ [] _ H0 x Hx)).
  revert Hf. generalize (eligible_resources registered (rq_role_id role) snapshot starts_at
                           ends_at selected constraint). intros eligible Hf.
  destruct constraint as [k|]; [|by split; [apply Hf|]].
  intros [Hin%list_elem_of_In Heq]%list_elem_of_In%filter_In. bool_facts.
  split; [by apply Hf|]. by intros _ ? [= <-].
Qed.
End Choices.

(** ** The search against the list of all assignments *)

(** [try_each] returns the first element of the concatenated results. *)
Lemma try_each_head {A B E} (f : A -> N -> Result (option B * N) E) (g : A -> list B) l :
  (forall x n r n', x ∈ l -> f x n = Ok (r, n') -> r = head (g x)) ->
  forall n r n', try_each f l n = Ok (r, n') -> r = head (l ≫= g).
Proof.
  induction l as [|x l IH]; intros Hf n r n'; simpl; [by intros [= <- _]|].
  destruct (f x n) as [[[b|] k]|e] eqn:Ef; [| |done].
  - intros [= <- <-]. pose proof (Hf x n _ _ (list_elem_of_here _ _) Ef) as Hx.
    by destruct (g x) as [|b' gx]; simplify_eq/=.
  - intros E'. pose proof (Hf x n _ _ (list_elem_of_here _ _) Ef) as Hx.
    destruct (g x) as [|b' gx]; [|done]. simpl. eapply IH; [|exact E'].
    intros; eapply Hf; [by right|done].
Qed.

(** The counter never decreases and a bounded step keeps it within the budget. *)
Lemma try_each_counter {A B E} (f : A -> N -> Result (option B * N) E) l limit :
  (forall x n r n', x ∈ l -> f x n = Ok (r, n') -> (n <= limit)%N -> (n <= n' <= limit)%N) ->
  forall n r n', try_each f l n = Ok (r, n') -> (n <= limit)%N -> (n <= n' <= limit)%N.
Proof.
  induction l as [|x l IH]; intros Hf n r n'; simpl; [intros [= <- <-]; lia|].
  destruct (f x n) as [[[b|] k]|e] eqn:Ef; [| |done]; intros E' Hn;
    pose proof (Hf x n _ _ (list_elem_of_here _ _) Ef Hn) as Hx.
  - by injection E' as <- <-.
  - assert (k <= n' <= limit)%N; [|lia]. eapply IH; [|exact E'|lia].
    intros; eapply Hf; [by right|done..].
Qed.

(** [try_each] succeeds when the budget covers the work of every element. *)
Lemma try_each_total {A B E} (f : A -> N -> Result (option B * N) E) (work : A -> N) l limit :
  (forall x n, x ∈ l -> (n + work x <= limit)%N ->
     exists r n', f x n = Ok (r, n') /\ (n' <= n + work x)%N) ->
  forall n, (n + foldr (fun x w => work x + w) 0 l <= limit)%N ->
  exists r n', try_each f l n = Ok (r, n') /\
               (n' <= n + foldr (fun x w => work x + w) 0 l)%N.
Proof.
  induction l as [|x l IH]; intros Hf n Hn; simpl in *; [by exists None, n; split; [|lia]|].
  destruct (Hf x n (list_elem_of_here _ _)) as ([b|] & k & -> & Hk); [lia| |].
  - exists (Some b), k. split; [done|lia].
  - destruct (IH (fun y m Hy => Hf y m (list_elem_of_further _ _ _ Hy)) k) as (r & n' & -> & Hn');
      [lia|]. exists r, n'. split; [done|lia].
Qed.

Section SearchFacts.
Context {S : Type} `{SharedNodeStateReader S} (state : S).
Context (candidates : CandidateSet) (snapshot : SchedulingSnapshot).
Context (starts_at : TimestampMs) (ends_at : option TimestampMs) (limit : N).

Abbreviation search := (search_roles state candidates snapshot starts_at ends_at limit).

(** The candidates of a Role that its constraint and its actor admit. *)
Definition role_nodes (role : RoleRequirement) : list NodeId :=
  ordered_nodes candidates snapshot (rq_role_id role) starts_at
    (default [] (rcs_node_ids <$> for_role candidates (rq_role_id role))).

Definition node_refused (role : RoleRequirement) (entities : gmap ActorId PhysicalEntityId)
    (node : NodeId) : bool :=
  is_some_and (fun c => negb (bool_decide (src_node_id c = node)))
    (role_constraint snapshot (rq_role_id role))
  || entity_refused candidates entities (rq_role_id role) node.

Definition role_choices (role : RoleRequirement) (selections : list RoleSchedulingSelection)
    (registered : list Resource) : list (list ResourceId * list N) :=
  resource_choices registered role snapshot starts_at ends_at selections
    (role_constraint snapshot (rq_role_id role)).

(** The selections of one Role in preference order, with the entities they assign. *)
Definition role_options (role : RoleRequirement) (selections : list RoleSchedulingSelection)
    (entities : gmap ActorId PhysicalEntityId)
  : list (RoleSchedulingSelection * gmap ActorId PhysicalEntityId) :=
  role_nodes role ≫= fun node =>
    if node_refused role entities node then [] else
    match node_resources state node with
    | None => []
    | Some registered =>
        (fun choice => (select role node registered choice,
                        assign_entity candidates (rq_role_id role) node entities))
          <$> role_choices role selections registered
    end.

(** The reference: every complete joint assignment, in preference order. *)
Fixpoint assignments (roles : list RoleRequirement) (selections : list RoleSchedulingSelection)
    (entities : gmap ActorId PhysicalEntityId) : list (list RoleSchedulingSelection) :=
  match roles with
  | [] => [selections]
  | role :: roles' =>
      role_options role selections entities ≫= fun option =>
        assignments roles' (selections ++ [option.1])%list option.2
  end.

Lemma assignments_cons role roles selections entities :
  assignments (role :: roles) selections entities =
  role_nodes role ≫= fun node =>
    if node_refused role entities node then [] else
    match node_resources state node with
    | None => []
    | Some registered =>
        role_choices role selections registered ≫= fun choice =>
          assignments roles (selections ++ [select role node registered choice])%list
            (assign_entity candidates (rq_role_id role) node entities)
    end.
Proof.
  cbn [assignments]. unfold role_options.
  induction (role_nodes role) as [|node nodes IH]; [done|].
  rewrite !bind_cons, bind_app, IH. f_equal. destruct (node_refused role entities node); [done|].
  destruct (node_resources state node) as [registered|]; [|done].
  induction (role_choices role selections registered) as [|c cs IHc]; [done|].
  rewrite fmap_cons, !bind_cons. by rewrite IHc.
Qed.

Lemma count_expansion_ok n n' :
  count_expansion limit n = Ok n' <-> n' = (n + 1)%N /\ (n + 1 <= N.min limit u32_max)%N.
Proof.
  unfold count_expansion.
  destruct (u32_max <? n + 1)%N eqn:E1; [|destruct (limit <? n + 1)%N eqn:E2];
    rewrite ?N.ltb_lt, ?N.ltb_ge in *; split; intros Hn; try done; try (simplify_eq; lia);
    destruct Hn as [-> Hn]; try done; lia.
Qed.

(** When the bounded search answers, it answers with the head of the reference. *)
Lemma search_head roles : forall selections entities n r n',
  search roles selections entities n = Ok (r, n') ->
  r = head (assignments roles selections entities).
Proof.
  induction roles as [|role roles IH]; intros selections entities n r n'.
  { simpl. by intros [= <- _]. }
  rewrite assignments_cons. simpl. apply try_each_head. clear n r n'.
  intros node n r n' _. fold (node_refused role entities node).
  destruct (node_refused role entities node); [by intros [= <- _]|].
  destruct (node_resources state node) as [registered|]; [|done].
  apply try_each_head. clear n r n'. intros choice n r n' _.
  destruct (count_expansion limit n) as [k|]; [|done]. apply IH.
Qed.

Lemma search_counter roles : forall selections entities n r n',
  search roles selections entities n = Ok (r, n') -> (n <= limit)%N -> (n <= n' <= limit)%N.
Proof.
  induction roles as [|role roles IH]; intros selections entities n r n'; simpl.
  { intros [= <- <-]. lia. }
  apply try_each_counter. clear n r n'. intros node n r n' _. case_match.
  { intros [= <- <-]. lia. }
  destruct (node_resources state node) as [registered|]; [|done].
  apply try_each_counter. clear n r n'. intros choice n r n' _.
  destruct (count_expansion limit n) as [k|] eqn:Ek; [|done].
  apply count_expansion_ok in Ek as [-> Hk]. intros E Hn. apply IH in E; lia.
Qed.

(** The work of the whole search tree: one expansion per explored choice. *)
Fixpoint tree_size (roles : list RoleRequirement) (selections : list RoleSchedulingSelection)
    (entities : gmap ActorId PhysicalEntityId) : N :=
  match roles with
  | [] => 0
  | role :: roles' =>
      foldr (fun node w =>
        ((if node_refused role entities node then 0 else
          match node_resources state node with
          | None => 0
          | Some registered =>
              foldr (fun choice w' =>
                (1 + tree_size roles' (selections ++ [select role node registered choice])%list
                       (assign_entity candidates (rq_role_id role) node entities) + w')%N) 0
                (role_choices role selections registered)
          end) + w)%N) 0%N (role_nodes role)
  end.

(** The search answers when every candidate is known and the budget covers the tree. *)
Lemma search_total roles :
  (limit <= u32_max)%N ->
  (forall role node, role ∈ roles -> node ∈ role_nodes role ->
     is_Some (node_resources state node)) ->
  forall selections entities n, (n + tree_size roles selections entities <= limit)%N ->
  exists r n', search roles selections entities n = Ok (r, n') /\
               (n' <= n + tree_size roles selections entities)%N.
Proof.
  intros Hu. induction roles as [|role roles IH]; intros Hk selections entities n; simpl.
  { intros _. exists (Some selections), n. split; [done|lia]. }
  intros Hn. apply (try_each_total _ (fun node =>
    if node_refused role entities node then 0%N else
    match node_resources state node with
    | None => 0%N
    | Some registered => foldr (fun choice w' =>
        (1 + tree_size roles (selections ++ [select role node registered choice])%list
               (assign_entity candidates (rq_role_id role) node entities) + w')%N) 0%N
        (role_choices role selections registered)
    end) _ limit); [|done]. clear n Hn.
  intros node n Hnode Hn. fold (node_refused role entities node).
  destruct (node_refused role entities node); [exists None, n; split; [done|lia]|].
  destruct (Hk role node (list_elem_of_here _ _) Hnode) as [registered Er]. rewrite Er in *.
  apply (try_each_total _ (fun choice =>
    (1 + tree_size roles (selections ++ [select role node registered choice])%list
           (assign_entity candidates (rq_role_id role) node entities))%N) _ limit); [|done].
  clear n Hn. intros choice n _ Hn.
  rewrite (proj2 (count_expansion_ok n (n + 1))) by (split; lia).
  destruct (IH (fun r' n' Hr' => Hk r' n' (list_elem_of_further _ _ _ Hr'))
              (selections ++ [select role node registered choice])%list
              (assign_entity candidates (rq_role_id role) node entities) (n + 1)%N)
    as (r & n' & E & Hn'); [lia|]. exists r, n'. split; [done|lia].
Qed.

(** ** What an assignment is *)

Inductive joint : list RoleRequirement -> list RoleSchedulingSelection ->
    gmap ActorId PhysicalEntityId -> list RoleSchedulingSelection -> Prop :=
| joint_done selections entities : joint [] selections entities selections
| joint_role role roles selections entities nodes node registered choice final :
    for_role candidates (rq_role_id role) = Some nodes -> node ∈ rcs_node_ids nodes ->
    node_refused role entities node = false ->
    node_resources state node = Some registered ->
    choice ∈ role_choices role selections registered ->
    joint roles (selections ++ [select role node registered choice])%list
      (assign_entity candidates (rq_role_id role) node entities) final ->
    joint (role :: roles) selections entities final.

Lemma elem_of_role_nodes role node :
  node ∈ role_nodes role <->
  exists nodes, for_role candidates (rq_role_id role) = Some nodes /\ node ∈ rcs_node_ids nodes.
Proof.
  unfold role_nodes, ordered_nodes. rewrite elem_of_dedup, elem_of_sort_by.
  destruct (for_role candidates (rq_role_id role)) as [nodes|]; simpl; [naive_solver|].
  split; [by intros ?%not_elem_of_nil|naive_solver].
Qed.

Lemma elem_of_assignments roles : forall selections entities s,
  s ∈ assignments roles selections entities <-> joint roles selections entities s.
Proof.
  induction roles as [|role roles IH]; intros selections entities s.
  { simpl. rewrite list_elem_of_singleton. split; [intros ->; constructor|by inversion 1]. }
  rewrite assignments_cons, list_elem_of_bind. split.
  - intros (node & Hs & (nodes & Ef & Hin)%elem_of_role_nodes).
    destruct (node_refused role entities node) eqn:Er; [by apply not_elem_of_nil in Hs|].
    destruct (node_resources state node) as [registered|] eqn:En;
      [|by apply not_elem_of_nil in Hs].
    apply list_elem_of_bind in Hs as (choice & Hs%IH & Hc). by econstructor.
  - inversion 1 as [|? ? ? ? nodes node registered choice ? Ef Hin Er En Hc Hj]; subst.
    exists node. rewrite elem_of_role_nodes. split; [|by exists nodes].
    rewrite Er, En. apply list_elem_of_bind. exists choice. by rewrite IH.
Qed.

(** The selections extend those made before, one per Role and in order. *)
Lemma joint_roles roles selections entities s :
  joint roles selections entities s ->
  exists new, s = (selections ++ new)%list /\
    Forall2 (fun role sel =>
      sel_role_id sel = rq_role_id role /\
      (exists nodes, for_role candidates (rq_role_id role) = Some nodes /\
                     sel_node_id sel ∈ rcs_node_ids nodes) /\
      (forall c, role_constraint snapshot (rq_role_id role) = Some c ->
         sel_node_id sel = src_node_id c /\
         (resource_requirements role <> [] -> sel_resource_ids sel = src_resource_ids c)) /\
      length (sel_resource_ids sel) = length (resource_requirements role) /\
      sel_resource_units sel = rr_units <$> resource_requirements role) roles new.
Proof.
  induction 1 as [|role roles selections entities nodes node registered choice final
                   Ef Hin Er En Hc Hj (new & -> & Hall)].
  { exists []. by rewrite app_nil_r. }
  exists (select role node registered choice :: new).
  split; [by rewrite <- app_assoc|]. constructor; [|done].
  destruct (resource_choices_combination _ _ _ _ _ _ _ _ Hc) as [[Hch Hu _ _] Hcon].
  unfold node_refused in Er. apply orb_false_iff in Er as [Er _].
  unfold select, with_resources.
  destruct (existsb is_divisible (resource_requirements role)); simpl; split_and!; try done;
    try (by exists nodes); try (by eapply Forall2_length);
    intros c Ec; rewrite Ec in Er; simpl in Er; bool_facts; split; try done;
    intros Hne; by apply Hcon.
Qed.

(** ** Physical entities *)

(** The entities recorded for the actors of the selections made so far. *)
Definition entities_of (selections : list RoleSchedulingSelection)
    (entities : gmap ActorId PhysicalEntityId) : Prop :=
  (forall sel actor entity, sel ∈ selections ->
     actor_for_role candidates (sel_role_id sel) = Some actor ->
     physical_entity_for_node candidates (sel_node_id sel) = Some entity ->
     entities !! actor = Some entity) /\
  (forall a b entity, entities !! a = Some entity -> entities !! b = Some entity ->
     share_group candidates a b = true -> a = b).

Lemma share_group_comm a b : share_group candidates a b = share_group candidates b a.
Proof.
  unfold share_group. induction (cs_distinct_actor_groups candidates) as [|g gs IH]; [done|].
  simpl. by rewrite IH, (andb_comm (set_contains a g)).
Qed.

Lemma share_group_member a b :
  share_group candidates a b = true ->
  existsb (set_contains b) (cs_distinct_actor_groups candidates) = true.
Proof.
  unfold share_group. rewrite !existsb_exists. intros (g & Hg & Hab). exists g.
  apply andb_true_iff in Hab as [_ Hb]. done.
Qed.

(** An actor that is not refused has no peer on the entity. *)
Lemma entity_not_refused entities role node actor entity :
  entity_refused candidates entities role node = false ->
  actor_for_role candidates role = Some actor ->
  physical_entity_for_node candidates node = Some entity ->
  (forall previous, entities !! actor = Some previous -> previous = entity) /\
  (entities !! actor = None -> forall other, entities !! other = Some entity ->
     share_group candidates other actor = false).
Proof.
  unfold entity_refused. intros Hr Ea Ee. rewrite Ea, Ee in Hr.
  apply orb_false_iff in Hr as [Hsame Hdist]. split.
  - intros previous Ep. rewrite Ep in Hsame. simpl in Hsame. by bool_facts.
  - intros En other Eo. apply not_true_iff_false. intros Hg.
    rewrite (share_group_member _ _ Hg) in Hdist. simpl in Hdist.
    destruct (List.find _ (btree_iter entities)) as [[a e]|] eqn:Ef; simpl in Hdist.
    + bool_facts. subst a. apply find_some in Ef as [Hin _].
      apply list_elem_of_In, elem_of_btree_iter in Hin. congruence.
    + pose proof (find_none _ _ Ef (other, entity)) as Hnone. simpl in Hnone.
      rewrite bool_decide_eq_true_2, Hg in Hnone by done. simpl in Hnone.
      assert (true = false); [|done]. apply Hnone, list_elem_of_In. by apply elem_of_btree_iter.
Qed.

Lemma entities_of_assign selections entities role node registered choice :
  entities_of selections entities ->
  entity_refused candidates entities (rq_role_id role) node = false ->
  entities_of (selections ++ [select role node registered choice])%list
    (assign_entity candidates (rq_role_id role) node entities).
Proof.
  intros [Hc Hd] Hr.
  assert (sel_role_id (select role node registered choice) = rq_role_id role /\
          sel_node_id (select role node registered choice) = node) as [Hrole Hnode].
  { unfold select, with_resources. by case_match. }
  unfold assign_entity. destruct (actor_for_role candidates (rq_role_id role)) as [actor|] eqn:Ea.
  2: { split; [|done]. intros sel a e [Hin|Hx%list_elem_of_singleton]%elem_of_app; [by apply Hc|subst sel].
       rewrite Hrole. congruence. }
  destruct (physical_entity_for_node candidates node) as [entity|] eqn:Ee.
  2: { split; [|done]. intros sel a e [Hin|Hx%list_elem_of_singleton]%elem_of_app; [by apply Hc|subst sel].
       rewrite Hrole, Hnode. congruence. }
  destruct (entity_not_refused _ _ _ _ _ Hr Ea Ee) as [Hsame Hfree]. split.
  - intros sel a e [Hin|Hx%list_elem_of_singleton]%elem_of_app; [|subst sel].
    + intros Ha He. pose proof (Hc sel a e Hin Ha He) as Hl.
      destruct (decide (actor = a)) as [<-|]; [|by rewrite lookup_insert_ne].
      rewrite lookup_insert_eq. f_equal. symmetry. by apply Hsame.
    + rewrite Hrole, Hnode, Ea, Ee. intros [= <-] [= <-]. apply lookup_insert_eq.
  - assert (forall b e, entities !! b = Some e -> b <> actor -> e = entity ->
              share_group candidates b actor = true -> False) as Hpeer.
    { intros b e Hb Hne -> Hg. destruct (entities !! actor) as [p|] eqn:Ep.
      - apply Hne, (Hd b actor entity); [done| |done]. rewrite Ep. f_equal. by apply Hsame.
      - by rewrite (Hfree eq_refl b Hb) in Hg. }
    intros a b e. rewrite !lookup_insert_Some.
    intros [[<- <-]|[Hna Ha]] [[<- Hb]|[Hnb Hb]] Hg; simplify_eq; try done.
    + exfalso. rewrite share_group_comm in Hg. by eapply Hpeer.
    + exfalso. by eapply Hpeer.
    + by eapply Hd.
Qed.

Lemma joint_entities roles selections entities s :
  joint roles selections entities s -> entities_of selections entities ->
  exists final, entities_of s final.
Proof.
  induction 1 as [|role roles selections entities nodes node registered choice final
                   Ef Hin Er En Hc Hj IH]; intros He; [by exists entities|].
  apply IH, entities_of_assign; [done|]. by apply orb_false_iff in Er as [_ ?].
Qed.

End SearchFacts.
