(* ===== verification/BookingFacts.v ===== *)
(** * No double booking

    What a joint assignment books: the occupancies it adds, the units in use on every
    resource it selects, and the declared geometry and calendars of the selected
    resources. *)

From S2P Require Import Prelude Identity Execution StateModel Resource DecisionPolicy SchedulerPolicy CapacityFacts.
From S2P Require Import SchedulerFacts Scheduler.

(** ** What the selections book *)

Section Booking.
Context (snapshot : SchedulingSnapshot) (starts_at : TimestampMs) (ends_at : option TimestampMs).

(** The occupancy of one chosen resource outside any Context allocation. *)
Definition book (id : ResourceId) (demand : ResourceRequirement) : SchedulingOccupancy :=
  MkOccupancy id starts_at ends_at
    (if bool_decide (rr_allocation_mode demand = Exclusive) then None else Some (rr_units demand))
    None.

Definition booked_at (sel : RoleSchedulingSelection) (indexed : nat * ResourceId)
  : SchedulingOccupancy :=
  book indexed.2 (default (MkResourceRequirement Space 0 Exclusive None)
                    (sel_resource_requirements sel !! indexed.1)).

Lemma selected_foldl sel l acc :
  ss_context_capacities snapshot !! sel_role_id sel = None ->
  foldl (selected_occupancy snapshot starts_at ends_at sel) acc l =
  ((acc.1 ++ (booked_at sel <$> l))%list, acc.2).
Proof.
  intros Hctx. revert acc. induction l as [|[i id] l IH]; intros [result parents].
  { simpl. by rewrite app_nil_r. }
  simpl. rewrite IH. unfold booked_at at 2, book. simpl.
  destruct (sel_resource_requirements sel !! i) as [d|]; simpl.
  2: { by rewrite <- app_assoc. }
  destruct (bool_decide _); simpl; [by rewrite <- app_assoc|].
  rewrite Hctx. simpl. by rewrite <- app_assoc.
Qed.

Lemma selected_occupancies_snoc sels sel :
  ss_context_capacities snapshot !! sel_role_id sel = None ->
  selected_occupancies snapshot (sels ++ [sel]) starts_at ends_at =
  (selected_occupancies snapshot sels starts_at ends_at
   ++ (booked_at sel <$> enumerate (sel_resource_ids sel)))%list.
Proof. intros Hctx. unfold selected_occupancies. rewrite foldl_app. simpl. by rewrite selected_foldl. Qed.

(** A selection of the search books exactly its demands. *)
Lemma booked_select role node registered choice :
  length choice.1 = length (resource_requirements role) ->
  booked_at (select role node registered choice)
    <$> enumerate (sel_resource_ids (select role node registered choice)) =
  zip_with book choice.1 (resource_requirements role).
Proof.
  intros Hlen. apply list_eq. intros i.
  assert (sel_resource_ids (select role node registered choice) = choice.1) as ->.
  { unfold select, with_resources. by case_match. }
  unfold enumerate. rewrite list_lookup_fmap, list_lookup_imap, lookup_zip_with.
  destruct (choice.1 !! i) as [id|] eqn:Ei; [|done]. simpl.
  destruct (lookup_lt_is_Some_2 (resource_requirements role) i) as [d Ed].
  { rewrite <- Hlen. by eapply lookup_lt_Some. }
  rewrite Ed. simpl. f_equal. unfold booked_at, select, with_resources. simpl.
  destruct (existsb is_divisible (resource_requirements role)) eqn:Ex; simpl; [by rewrite Ed|].
  unfold book. do 2 f_equal. assert (is_divisible d = false) as Hd.
  { apply not_true_iff_false. intros Hd. apply not_true_iff_false in Ex. apply Ex.
    apply existsb_exists. exists d. split; [|done]. by eapply list_elem_of_In, list_elem_of_lookup_2. }
  unfold is_divisible in Hd. rewrite bool_decide_eq_true_2 by done.
  rewrite bool_decide_eq_true_2; [done|]. bool_facts. by destruct (rr_allocation_mode d).
Qed.

(** Units in use on a resource of a capacity: an exclusive occupancy uses all of it. *)
Definition usage (capacity : N) (occupancies : list SchedulingOccupancy) (t : TimestampMs) : N :=
  foldr (fun o n => ((if active_at o t then default capacity (oc_units o) else 0) + n)%N)
    0%N occupancies.

Lemma usage_app capacity l k t :
  usage capacity (l ++ k) t = (usage capacity l t + usage capacity k t)%N.
Proof. induction l as [|o l IH]; simpl; [done|]. rewrite IH. lia. Qed.

Lemma usage_load capacity l t : shareable l t -> usage capacity l t = load l t.
Proof.
  induction l as [|o l IH]; intros Hs; simpl; [done|].
  rewrite IH by (intros x Hx; apply Hs; by right).
  destruct (active_at o t) eqn:Ea; [|done].
  destruct (Hs o (list_elem_of_here _ _) Ea) as [u ->]. done.
Qed.

Definition occupancies_of (id : ResourceId) (l : list SchedulingOccupancy) : list SchedulingOccupancy :=
  List.filter (on_axis id None) l.

Lemma interval_available_end l units capacity :
  interval_available l starts_at ends_at units capacity = true ->
  forall e, ends_at = Some e -> (starts_at < e)%N.
Proof.
  unfold interval_available. destruct (_ || _) eqn:Eb; [done|]. intros _ e Ee.
  apply orb_false_iff in Eb as [_ Eb]. rewrite Ee in Eb. simpl in Eb. by apply N.leb_gt.
Qed.

(** The room an available demand leaves. *)
Lemma capacity_available_room role resource demand sels :
  ss_context_capacities snapshot !! role = None ->
  (forall o, o ∈ selected_occupancies snapshot sels starts_at ends_at ->
     o ∈ ss_occupancies snapshot \/ (oc_starts_at o = starts_at /\ oc_ends_at o = ends_at)) ->
  (forall o, o ∈ ss_occupancies snapshot -> occupancy_ok o) ->
  capacity_available snapshot role resource demand starts_at ends_at sels = true ->
  forall t, within starts_at ends_at t = true ->
  (usage (res_capacity resource)
     (occupancies_of (res_id resource) (selected_occupancies snapshot sels starts_at ends_at)
      ++ [book (res_id resource) demand]) t <= res_capacity resource)%N.
Proof.
  intros Hctx Hsel Hok Hav t Ht.
  assert (exists u, default (res_capacity resource) (oc_units (book (res_id resource) demand)) = u
    /\ interval_available (occupancies_of (res_id resource)
         (selected_occupancies snapshot sels starts_at ends_at)) starts_at ends_at u
         (res_capacity resource) = true) as (u & Eu & Hia).
  { revert Hav. unfold capacity_available, occupancies_of, book. rewrite Hctx. simpl.
    destruct (is_some_and _ _); [done|]. destruct (bool_decide _); by eexists. }
  pose proof (interval_available_end _ _ _ Hia) as Hne.
  apply interval_available_pointwise in Hia as [_ Hall].
  2: { intros o [Ho%list_elem_of_In _]%list_elem_of_In%filter_In.
       destruct (Hsel o Ho) as [|[Es Ee]]; [by apply Hok|]. unfold occupancy_ok.
       rewrite Es, Ee. done. }
  destruct (Hall t Ht) as [Hs Hl]. rewrite usage_app, usage_load by done. simpl.
  unfold active_at. simpl. rewrite Ht. simpl in Eu. rewrite Eu. lia.
Qed.
End Booking.

(** ** The invariant of the joint search *)

Section JointBooking.
Context {S : Type} `{SharedNodeStateReader S} (state : S).
Context (candidates : CandidateSet) (snapshot : SchedulingSnapshot).
Context (starts_at : TimestampMs) (ends_at : option TimestampMs).
Context (snapshot_ok : forall o, o ∈ ss_occupancies snapshot -> occupancy_ok o).

Abbreviation booked sels := (selected_occupancies snapshot sels starts_at ends_at).

(** The resource is registered by the selected Node and never overbooked during the
    interval. *)
Definition fits (sels : list RoleSchedulingSelection) (id : ResourceId) : Prop :=
  exists sel registered resource,
    sel ∈ sels /\ id ∈ sel_resource_ids sel /\
    node_resources state (sel_node_id sel) = Some registered /\
    resource ∈ registered /\ res_id resource = id /\
    forall t, within starts_at ends_at t = true ->
      (usage (res_capacity resource) (occupancies_of id (booked sels)) t <= res_capacity resource)%N.

(** The declared calendar admits the interval, and no overlapping occupancy of another
    resource conflicts with the declared geometry or time domain. *)
Definition placed (sels : list RoleSchedulingSelection) (id : ResourceId) : Prop :=
  forall registry entry, ss_resource_topology snapshot = Some registry ->
    topology_entry registry id = Some entry ->
    permits_interval entry starts_at ends_at = true /\
    forall o other, o ∈ booked sels -> oc_resource_id o <> id ->
      overlaps starts_at ends_at (oc_starts_at o) (oc_ends_at o) = true ->
      topology_entry registry (oc_resource_id o) = Some other ->
      ResourceTopologyEntry_conflicts entry other = false.

Record booking_ok (sels : list RoleSchedulingSelection) : Prop := {
  bk_origin : forall o, o ∈ booked sels -> o ∈ ss_occupancies snapshot \/
    (oc_starts_at o = starts_at /\ oc_ends_at o = ends_at /\
     exists sel, sel ∈ sels /\ oc_resource_id o ∈ sel_resource_ids sel);
  bk_booked : forall sel id, sel ∈ sels -> id ∈ sel_resource_ids sel ->
    exists o, o ∈ booked sels /\ oc_resource_id o = id /\ oc_starts_at o = starts_at /\
              oc_ends_at o = ends_at;
  bk_fits : forall sel id, sel ∈ sels -> id ∈ sel_resource_ids sel -> fits sels id;
  bk_placed : forall sel id, sel ∈ sels -> id ∈ sel_resource_ids sel -> placed sels id
}.

Lemma booking_ok_nil : booking_ok [].
Proof. split; try (by intros ? ? ?%not_elem_of_nil). intros o Ho. by left. Qed.

Lemma elem_of_zip_book ids demands o :
  o ∈ zip_with (book starts_at ends_at) ids demands ->
  exists id demand, o = book starts_at ends_at id demand /\ id ∈ ids.
Proof.
  intros (i & Hi)%list_elem_of_lookup. apply lookup_zip_with_Some in Hi as (id & d & -> & Hid & _).
  exists id, d. split; [done|]. by eapply list_elem_of_lookup_2.
Qed.

Lemma zip_book_elem ids demands id :
  length ids = length demands -> id ∈ ids ->
  exists demand, book starts_at ends_at id demand ∈ zip_with (book starts_at ends_at) ids demands.
Proof.
  intros Hl (i & Hi)%list_elem_of_lookup.
  destruct (lookup_lt_is_Some_2 demands i) as [d Hd].
  { rewrite <- Hl. by eapply lookup_lt_Some. }
  exists d. apply (list_elem_of_lookup_2 _ i). apply lookup_zip_with_Some. eauto.
Qed.

Lemma occupancies_of_zip_fresh ids demands id :
  id ∉ ids -> occupancies_of id (zip_with (book starts_at ends_at) ids demands) = [].
Proof.
  revert demands. induction ids as [|a ids IH]; intros [|d demands] Hn; try done.
  simpl. unfold occupancies_of, on_axis in *. simpl.
  rewrite bool_decide_eq_false_2 by set_solver. simpl. apply IH. set_solver.
Qed.

Lemma occupancies_of_zip ids demands i id d :
  NoDup ids -> ids !! i = Some id -> demands !! i = Some d ->
  occupancies_of id (zip_with (book starts_at ends_at) ids demands) = [book starts_at ends_at id d].
Proof.
  revert demands i. induction ids as [|a ids IH]; intros demands i Hn Hi Hd; [done|].
  apply NoDup_cons in Hn as [Ha Hn]. destruct demands as [|d' demands]; [done|].
  destruct i as [|i]; simpl in *; simplify_eq.
  - pose proof (occupancies_of_zip_fresh ids demands id Ha) as E.
    unfold occupancies_of, on_axis in *. simpl. rewrite !bool_decide_eq_true_2 by done. simpl.
    by rewrite E.
  - assert (a <> id) by (intros ->; by apply Ha, (list_elem_of_lookup_2 _ i)).
    specialize (IH demands i Hn Hi Hd). unfold occupancies_of, on_axis in *. simpl.
    by rewrite bool_decide_eq_false_2.
Qed.

Lemma occupancies_of_app id l k : occupancies_of id (l ++ k) = (occupancies_of id l ++ occupancies_of id k)%list.
Proof. apply List.filter_app. Qed.
Section Step.
Context (sels : list RoleSchedulingSelection) (role : RoleRequirement) (node : NodeId).
Context (registered : list Resource) (choice : list ResourceId * list N).
Context (plain : ss_context_capacities snapshot !! rq_role_id role = None).
Context (Hsels : booking_ok sels).
Context (Hregistered : node_resources state node = Some registered).
Context (Hchoice : combination registered role snapshot starts_at ends_at sels
                     (resource_requirements role) choice).

Abbreviation added := (select role node registered choice).
Abbreviation demands := (resource_requirements role).

Lemma added_ids : sel_resource_ids added = choice.1.
Proof. unfold select, with_resources. by case_match. Qed.

Lemma added_node : sel_node_id added = node.
Proof. unfold select, with_resources. by case_match. Qed.

Lemma added_length : length choice.1 = length demands.
Proof. eapply Forall2_length, comb_chosen, Hchoice. Qed.

Lemma booked_added :
  booked (sels ++ [added]) =
  (booked sels ++ zip_with (book starts_at ends_at) choice.1 demands)%list.
Proof.
  rewrite selected_occupancies_snoc.
  - f_equal. apply booked_select, added_length.
  - unfold select, with_resources. by case_match.
Qed.

Lemma added_chosen i id : choice.1 !! i = Some id -> exists demand resource,
  demands !! i = Some demand /\
  chosen registered role snapshot starts_at ends_at sels id demand resource.
Proof.
  intros Hi. destruct (Forall2_lookup_l _ _ _ _ _ (comb_chosen _ _ _ _ _ _ _ _ Hchoice) Hi)
    as (d & Hd & r & Hr). eauto.
Qed.

Lemma added_fits id : id ∈ choice.1 -> fits (sels ++ [added]) id.
Proof.
  intros (i & Hi)%list_elem_of_lookup. destruct (added_chosen i id Hi) as (d & r & Hd & [Er Hin _ Hav]).
  exists added, registered, r. rewrite added_ids, added_node, booked_added. split_and!; try done.
  - set_solver.
  - by eapply list_elem_of_lookup_2.
  - intros t Ht. rewrite occupancies_of_app, (occupancies_of_zip _ _ _ _ _ (comb_NoDup _ _ _ _ _ _ _ _ Hchoice) Hi Hd).
    subst id. eapply capacity_available_room; try done. intros o Ho.
    destruct (bk_origin _ Hsels o Ho) as [|(? & ? & _)]; auto.
Qed.

Lemma kept_fits id sel :
  sel ∈ sels -> id ∈ sel_resource_ids sel -> id ∉ choice.1 -> fits (sels ++ [added]) id.
Proof.
  intros Hsel Hid Hn. destruct (bk_fits _ Hsels sel id Hsel Hid)
    as (sel' & reg & r & Hs' & Hi' & Hreg & Hin & Er & Hu).
  exists sel', reg, r. split_and!; try done; [set_solver|].
  intros t Ht. rewrite booked_added, occupancies_of_app, occupancies_of_zip_fresh, app_nil_r by done. by apply Hu.
Qed.

(** A chosen resource passed the checks against everything booked before. *)
Lemma added_topology id registry entry :
  id ∈ choice.1 -> ss_resource_topology snapshot = Some registry ->
  topology_entry registry id = Some entry ->
  permits_interval entry starts_at ends_at = true /\
  forall o other, o ∈ booked sels -> oc_resource_id o <> id ->
    overlaps starts_at ends_at (oc_starts_at o) (oc_ends_at o) = true ->
    topology_entry registry (oc_resource_id o) = Some other ->
    ResourceTopologyEntry_conflicts entry other = false.
Proof.
  intros (i & Hi)%list_elem_of_lookup Er Ee.
  destruct (added_chosen i id Hi) as (d & r & _ & [Eid _ _ Hav]). subst id.
  unfold capacity_available in Hav. rewrite Er in Hav. simpl in Hav.
  unfold topology_blocks in Hav. rewrite Ee in Hav.
  destruct (permits_interval entry starts_at ends_at); simpl in Hav; [|done]. split; [done|].
  destruct (existsb _ _) eqn:Ex; [done|]. intros o other Ho Hne Hov Eo.
  apply not_true_iff_false. intros Hc. apply not_true_iff_false in Ex. apply Ex, existsb_exists.
  exists o. split; [by apply list_elem_of_In|]. rewrite Hov, Eo. simpl. rewrite Hc.
  by rewrite bool_decide_eq_false_2.
Qed.

Lemma added_placed id : id ∈ choice.1 -> placed (sels ++ [added]) id.
Proof.
  intros Hid registry entry Er Ee. destruct (added_topology id registry entry Hid Er Ee) as [Hp Hold].
  split; [done|]. intros o other Ho Hne Hov Eo. rewrite booked_added in Ho.
  apply elem_of_app in Ho as [Ho|(id' & d & -> & Hid')%elem_of_zip_book]; [by eapply Hold|].
  simpl in *. apply list_elem_of_lookup in Hid as [i Hi], Hid' as [j Hj].
  eapply (comb_compatible _ _ _ _ _ _ _ _ Hchoice i j); try done. congruence.
Qed.

Lemma kept_placed id sel :
  sel ∈ sels -> id ∈ sel_resource_ids sel -> placed (sels ++ [added]) id.
Proof.
  intros Hsel Hid registry entry Er Ee.
  destruct (bk_placed _ Hsels sel id Hsel Hid registry entry Er Ee) as [Hp Hold].
  split; [done|]. intros o other Ho Hne Hov Eo. rewrite booked_added in Ho.
  apply elem_of_app in Ho as [Ho|(id' & d & -> & Hid')%elem_of_zip_book]; [by eapply Hold|].
  simpl in *. destruct (bk_booked _ Hsels sel id Hsel Hid) as (o & Ho & Eid & Es & Een).
  rewrite topology_conflicts_comm.
  destruct (added_topology id' registry other Hid' Er Eo) as [_ Hnew].
  apply (Hnew o entry Ho); rewrite ?Eid, ?Es, ?Een; done.
Qed.

Lemma booking_ok_step : booking_ok (sels ++ [added]).
Proof.
  assert (forall sel id, sel ∈ (sels ++ [added])%list -> id ∈ sel_resource_ids sel ->
            (sel ∈ sels /\ id ∈ sel_resource_ids sel) \/ id ∈ choice.1) as Hcase.
  { intros sel id [Hs|Hs%list_elem_of_singleton]%elem_of_app Hid; [by left|].
    subst sel. rewrite added_ids in Hid. by right. }
  split.
  - intros o. rewrite booked_added.
    intros [Ho|(id & d & -> & Hid)%elem_of_zip_book]%elem_of_app.
    + destruct (bk_origin _ Hsels o Ho) as [|(? & ? & sel & ? & ?)]; [by left|right].
      split_and!; try done. exists sel. split; [set_solver|done].
    + right. split_and!; try done. exists added. rewrite added_ids. split; [set_solver|done].
  - intros sel id Hs Hid. rewrite booked_added. destruct (Hcase sel id Hs Hid) as [[Hs' Hid']|Hin].
    + destruct (bk_booked _ Hsels sel id Hs' Hid') as (o & Ho & ?). exists o. split; [set_solver|done].
    + destruct (zip_book_elem choice.1 demands id added_length Hin) as [d Hd].
      exists (book starts_at ends_at id d). split; [set_solver|done].
  - intros sel id Hs Hid. destruct (decide (id ∈ choice.1)); [by apply added_fits|].
    destruct (Hcase sel id Hs Hid) as [[Hs' Hid']|]; [by eapply kept_fits|done].
  - intros sel id Hs Hid. destruct (Hcase sel id Hs Hid) as [[Hs' Hid']|]; [by eapply kept_placed|].
    by apply added_placed.
Qed.
End Step.

Lemma joint_booking roles sels entities final :
  (forall role, role ∈ roles -> ss_context_capacities snapshot !! rq_role_id role = None) ->
  joint state candidates snapshot starts_at ends_at roles sels entities final ->
  booking_ok sels -> booking_ok final.
Proof.
  intros Hplain Hj. induction Hj as [|role roles sels entities nodes node registered choice final
                   Ef Hin Er En Hc Hj IH]; intros Hok; [done|].
  apply IH; [intros r Hr; apply Hplain; by right|]. apply booking_ok_step; try done.
  - apply Hplain. by left.
  - by eapply resource_choices_combination.
Qed.
End JointBooking.

(** * Moving an assignment to an earlier start

    The scheduler tries only the earliest start, the ends of known occupancies and the
    openings of declared windows.  Between two consecutive such instants nothing is
    released and no window opens, so an assignment that is possible at some start is
    possible at the last candidate start before it. *)

(** The occupancies of a list of selections without Context allocations. *)
Lemma selected_occupancies_plain snapshot starts_at ends_at sels :
  (forall sel, sel ∈ sels -> ss_context_capacities snapshot !! sel_role_id sel = None) ->
  selected_occupancies snapshot sels starts_at ends_at =
  (ss_occupancies snapshot ++
   (sels ≫= fun sel => booked_at starts_at ends_at sel <$> enumerate (sel_resource_ids sel)))%list.
Proof.
  induction sels as [|sel sels IH] using rev_ind; intros Hp.
  { unfold selected_occupancies. simpl. by rewrite app_nil_r. }
  rewrite selected_occupancies_snoc by (apply Hp; set_solver).
  rewrite IH by (intros x Hx; apply Hp; set_solver).
  rewrite bind_app. simpl. by rewrite app_nil_r, app_assoc.
Qed.

Section Shift.
Context (snapshot : SchedulingSnapshot) (s s' d : N).
Context (earlier : (s' <= s)%N).
(** Nothing is released and no window opens after [s'] and up to [s]. *)
Context (quiet : forall o e, o ∈ ss_occupancies snapshot -> oc_ends_at o = Some e ->
                   (e <= s')%N \/ (s < e)%N).
Context (no_opening : forall registry entry w, ss_resource_topology snapshot = Some registry ->
   entry ∈ tp_resources registry -> w ∈ te_windows entry -> (tw_starts_at w <= s)%N ->
   (tw_starts_at w <= s')%N).
Context (snapshot_ok : forall o, o ∈ ss_occupancies snapshot -> occupancy_ok o).

Abbreviation e := (Some (s + d)%N).
Abbreviation e' := (Some (s' + d)%N).

(** An occupancy and the one that stands for it at the earlier start. *)
Record moved (o o' : SchedulingOccupancy) : Prop := {
  mv_id : oc_resource_id o = oc_resource_id o';
  mv_axis : oc_owner_axis o = oc_owner_axis o';
  mv_units : oc_units o = oc_units o';
  mv_active : forall t, within s' e' t = true -> active_at o' t = true ->
                active_at o (N.max t s) = true;
  mv_overlaps : overlaps s' e' (oc_starts_at o') (oc_ends_at o') = true ->
                overlaps s e (oc_starts_at o) (oc_ends_at o) = true
}.

Lemma moved_known o : o ∈ ss_occupancies snapshot -> moved o o.
Proof.
  intros Ho. split; try done.
  - intros t [Hs Hd]%within_true [Ha He]%within_true. apply within_true. split; [lia|].
    intros x Ex. specialize (He x Ex). destruct (quiet o x Ho Ex); lia.
  - unfold overlaps. simpl. rewrite !andb_true_iff, !is_none_or_true.
    setoid_rewrite N.ltb_lt. intros [Hl Hr]. split; [lia|]. intros x Ex.
    specialize (Hr x Ex). destruct (quiet o x Ho Ex); lia.
Qed.

Lemma moved_booked sel p : moved (booked_at s e sel p) (booked_at s' e' sel p).
Proof.
  split; try done.
  - intros t [Hs Hd]%within_true _. apply within_true. simpl. specialize (Hd _ eq_refl).
    split; [lia|]. intros x [= <-]. lia.
  - unfold overlaps. simpl. rewrite !andb_true_iff, !N.ltb_lt. lia.
Qed.

Lemma moved_selected sels :
  (forall sel, sel ∈ sels -> ss_context_capacities snapshot !! sel_role_id sel = None) ->
  Forall2 moved (selected_occupancies snapshot sels s e) (selected_occupancies snapshot sels s' e').
Proof.
  intros Hp. rewrite !selected_occupancies_plain by done. apply Forall2_app.
  - apply Forall_Forall2_diag, Forall_forall. apply moved_known.
  - clear Hp. induction sels as [|sel sels IH]; simpl; [constructor|]. apply Forall2_app; [|done].
    apply Forall2_fmap. apply Forall_Forall2_diag, Forall_forall. intros p _. apply moved_booked.
Qed.

Lemma moved_filter id axis l l' :
  Forall2 moved l l' -> Forall2 moved (List.filter (on_axis id axis) l) (List.filter (on_axis id axis) l').
Proof.
  induction 1 as [|o o' l l' Ho Hl IH]; simpl; [constructor|].
  assert (on_axis id axis o = on_axis id axis o') as ->.
  { unfold on_axis. by rewrite (mv_id _ _ Ho), (mv_axis _ _ Ho). }
  destruct (on_axis id axis o'); [by constructor|done].
Qed.

Lemma moved_load l l' t :
  Forall2 moved l l' -> within s' e' t = true -> (load l' t <= load l (N.max t s))%N.
Proof.
  intros Hl Ht. induction Hl as [|o o' l l' Ho _ IH]; simpl; [lia|].
  rewrite <- (mv_units _ _ Ho). pose proof (mv_active _ _ Ho t Ht) as Ha.
  destruct (active_at o' t); [rewrite Ha by done; lia|]. lia.
Qed.

Lemma moved_shareable l l' t :
  Forall2 moved l l' -> within s' e' t = true -> shareable l (N.max t s) -> shareable l' t.
Proof.
  intros Hl Ht Hs o' Ho' Ha. apply list_elem_of_lookup in Ho' as [i Hi].
  destruct (Forall2_lookup_r _ _ _ _ _ Hl Hi) as (o & Eo & Hm).
  rewrite <- (mv_units _ _ Hm). apply Hs; [by eapply list_elem_of_lookup_2|].
  by apply (mv_active _ _ Hm).
Qed.

Lemma moved_interval_available l l' units capacity :
  Forall2 moved l l' ->
  (forall o, o ∈ l -> occupancy_ok o) -> (forall o, o ∈ l' -> occupancy_ok o) ->
  interval_available l s e units capacity = true ->
  interval_available l' s' e' units capacity = true.
Proof.
  intros Hl Hok Hok'. rewrite !interval_available_pointwise by done.
  intros [Hne Hall]. specialize (Hne _ eq_refl). split; [intros x [= <-]; lia|].
  intros t Ht. pose proof Ht as [Hs Hd]%within_true. specialize (Hd _ eq_refl).
  destruct (Hall (N.max t s)) as [Hsh Hlo].
  { apply within_true. split; [lia|]. intros x [= <-]. lia. }
  split; [by eapply moved_shareable|]. pose proof (moved_load l l' t Hl Ht). lia.
Qed.
(** Everything booked is a known occupancy or lies on the requested interval. *)
Lemma selected_ok st sels :
  (0 < d)%N ->
  (forall sel, sel ∈ sels -> ss_context_capacities snapshot !! sel_role_id sel = None) ->
  forall o, o ∈ selected_occupancies snapshot sels st (Some (st + d)%N) -> occupancy_ok o.
Proof.
  intros Hd Hp o. rewrite selected_occupancies_plain by done.
  intros [Ho|(sel & Ho & _)%list_elem_of_bind]%elem_of_app; [by apply snapshot_ok|].
  apply list_elem_of_fmap in Ho as (p & -> & _). intros x [= <-]. simpl. lia.
Qed.

Lemma moved_permits entry :
  (forall w, w ∈ te_windows entry -> (tw_starts_at w <= s)%N -> (tw_starts_at w <= s')%N) ->
  permits_interval entry s e = true -> permits_interval entry s' e' = true.
Proof.
  intros Hw. unfold permits_interval. destruct (is_ok (ResourceTopologyEntry_validate entry)); [|done].
  simpl. destruct (N.leb_spec (s + d) s); [done|]. destruct (N.leb_spec (s' + d) s'); [lia|].
  rewrite !orb_true_iff. intros [|Hex]; [by left|right].
  apply existsb_exists in Hex as (w & Hin & Hb). apply existsb_exists. exists w. split; [done|].
  apply andb_true_iff in Hb as [Hs%N.leb_le He%N.leb_le].
  apply andb_true_iff. rewrite !N.leb_le. apply list_elem_of_In in Hin.
  split; [by apply Hw|lia].
Qed.

Lemma topology_entry_elem registry id entry :
  topology_entry registry id = Some entry -> entry ∈ tp_resources registry.
Proof. intros [Hin _]%find_some. by apply list_elem_of_In. Qed.

Lemma moved_topology registry resource l l' :
  Forall2 moved l l' -> ss_resource_topology snapshot = Some registry ->
  topology_blocks registry resource s e l = false ->
  topology_blocks registry resource s' e' l' = false.
Proof.
  intros Hl Er. unfold topology_blocks.
  destruct (topology_entry registry (res_id resource)) as [entry|] eqn:Ee; [|done].
  rewrite !orb_false_iff, !negb_false_iff. intros [Hp Hx]. split.
  { eapply moved_permits; [|done]. intros w Hw. eapply no_opening; [done| |done].
    by eapply topology_entry_elem. }
  apply not_true_iff_false. intros Hex. apply not_true_iff_false in Hx. apply Hx.
  apply existsb_exists in Hex as (o' & Ho' & Hb).
  apply list_elem_of_In, list_elem_of_lookup in Ho' as [i Hi].
  destruct (Forall2_lookup_r _ _ _ _ _ Hl Hi) as (o & Eo & Hm).
  apply existsb_exists. exists o. split; [by eapply list_elem_of_In, list_elem_of_lookup_2|].
  rewrite (mv_id _ _ Hm). apply andb_true_iff in Hb as [[Hid Hov]%andb_true_iff Hc].
  by rewrite Hid, Hc, (mv_overlaps _ _ Hm Hov).
Qed.

Lemma moved_capacity_available role resource demand sels :
  ss_context_capacities snapshot !! role = None ->
  (forall sel, sel ∈ sels -> ss_context_capacities snapshot !! sel_role_id sel = None) ->
  capacity_available snapshot role resource demand s e sels = true ->
  capacity_available snapshot role resource demand s' e' sels = true.
Proof.
  intros Hr Hp. unfold capacity_available. rewrite Hr.
  pose proof (moved_selected sels Hp) as Hm.
  destruct (is_some_and _ (ss_resource_topology snapshot)) eqn:Et; [done|].
  rewrite is_some_and_false in Et.
  destruct (is_some_and _ (ss_resource_topology snapshot)) eqn:Et' in |- *.
  { apply is_some_and_true in Et' as (registry & Er & Hb).
    by rewrite (moved_topology registry resource _ _ Hm Er (Et _ Er)) in Hb. }
  set (l := List.filter _ (selected_occupancies snapshot sels s e)).
  set (l' := List.filter _ (selected_occupancies snapshot sels s' e')).
  assert (Forall2 moved l l') as Hl by by apply moved_filter.
  assert (forall units capacity, interval_available l s e units capacity = true ->
            interval_available l' s' e' units capacity = true) as Hgo.
  { intros units capacity Hia. pose proof (interval_available_end _ _ _ _ _ Hia _ eq_refl) as Hd.
    assert (forall st sels', (forall o, o ∈ List.filter (on_axis (res_id resource) None)
       (selected_occupancies snapshot sels' st (Some (st + d)%N)) ->
         o ∈ selected_occupancies snapshot sels' st (Some (st + d)%N))) as Hsub.
    { intros st sels' o [Ho%list_elem_of_In _]%list_elem_of_In%filter_In. done. }
    eapply moved_interval_available; [exact Hl| | |exact Hia];
      intros o Ho%Hsub; (eapply selected_ok; [|exact Hp|exact Ho]); lia. }
  destruct (bool_decide _); apply Hgo.
Qed.
End Shift.

(** ** Choices and assignments move with the start *)

Lemma extend_combinations_mono topology (f g : ResourceRequirement -> list Resource) demands :
  (forall demand r, r ∈ f demand -> r ∈ g demand) ->
  forall l k, (forall c, c ∈ l -> c ∈ k) ->
  forall c, c ∈ foldl (extend_combinations topology f) l demands ->
            c ∈ foldl (extend_combinations topology g) k demands.
Proof.
  intros Hfg. induction demands as [|demand demands IH]; intros l k Hlk c; simpl; [apply Hlk|].
  apply IH. intros c'. unfold extend_combinations. rewrite !list_elem_of_bind.
  intros (x & Hc & Hx). exists x. split; [|by apply Hlk].
  unfold extend_combination in *. rewrite list_elem_of_omap in *.
  destruct Hc as (r & Hr & Er). exists r. split; [by apply Hfg|done].
Qed.

Section ShiftJoint.
Context {S : Type} `{SharedNodeStateReader S} (state : S).
Context (candidates : CandidateSet) (snapshot : SchedulingSnapshot) (s s' d : N).
Context (earlier : (s' <= s)%N).
Context (quiet : forall o e, o ∈ ss_occupancies snapshot -> oc_ends_at o = Some e ->
                   (e <= s')%N \/ (s < e)%N).
Context (no_opening : forall registry entry w, ss_resource_topology snapshot = Some registry ->
   entry ∈ tp_resources registry -> w ∈ te_windows entry -> (tw_starts_at w <= s)%N ->
   (tw_starts_at w <= s')%N).
Context (snapshot_ok : forall o, o ∈ ss_occupancies snapshot -> occupancy_ok o).

Lemma moved_choices registered role sels constraint choice :
  ss_context_capacities snapshot !! rq_role_id role = None ->
  (forall sel, sel ∈ sels -> ss_context_capacities snapshot !! sel_role_id sel = None) ->
  choice ∈ resource_choices registered role snapshot s (Some (s + d)%N) sels constraint ->
  choice ∈ resource_choices registered role snapshot s' (Some (s' + d)%N) sels constraint.
Proof.
  intros Hr Hp. unfold resource_choices. destruct (length _ =? 0)%nat; [done|].
  destruct (is_some_and _ constraint); [done|].
  assert (forall c, c ∈ foldl (extend_combinations (ss_resource_topology snapshot)
            (eligible_resources registered (rq_role_id role) snapshot s (Some (s + d)%N) sels
               constraint)) [([], [])] (resource_requirements role) ->
          c ∈ foldl (extend_combinations (ss_resource_topology snapshot)
            (eligible_resources registered (rq_role_id role) snapshot s' (Some (s' + d)%N) sels
               constraint)) [([], [])] (resource_requirements role)) as Hmono.
  { apply extend_combinations_mono; [|done]. intros demand r. unfold eligible_resources.
    rewrite !elem_of_sort_by, !list_elem_of_In, !filter_In. intros [Hin Hb]. split; [done|].
    apply andb_true_iff in Hb as [Hb Hav]. rewrite Hb. by eapply moved_capacity_available. }
  destruct constraint as [k|]; [|apply Hmono].
  rewrite !list_elem_of_In, !filter_In, <- !list_elem_of_In. intros [Hin Hk].
  split; [by apply Hmono|done].
Qed.

Lemma moved_joint roles sels entities final :
  (forall role, role ∈ roles -> ss_context_capacities snapshot !! rq_role_id role = None) ->
  (forall sel, sel ∈ sels -> ss_context_capacities snapshot !! sel_role_id sel = None) ->
  joint state candidates snapshot s (Some (s + d)%N) roles sels entities final ->
  joint state candidates snapshot s' (Some (s' + d)%N) roles sels entities final.
Proof.
  intros Hplain Hsels Hj.
  induction Hj as [|role roles sels entities nodes node registered choice final
                   Ef Hin Er En Hc Hj IH]; [constructor|].
  assert (ss_context_capacities snapshot !! rq_role_id role = None) as Hr
    by (apply Hplain; by left).
  econstructor; try done; [by apply moved_choices|].
  apply IH; [intros r' Hr'; apply Hplain; by right|].
  intros sel [|Hx%list_elem_of_singleton]%elem_of_app; [by apply Hsels|]. subst sel.
  unfold select, with_resources. by case_match.
Qed.
End ShiftJoint.
