(* ===== verification/ScheduleFacts.v ===== *)
(** * The schedule of a Task

    What [schedule_task_with_snapshot_and_estimate] answers, against the specification
    of a slot: a start inside the window of the Task at which a joint assignment of its
    Roles exists. *)

From S2P Require Import Prelude Identity Execution StateModel Resource DecisionPolicy.
From S2P Require Import Scheduler SchedulerPolicy CapacityFacts SchedulerFacts BookingFacts.

Lemma checked_timestamp_add_ok a b t : checked_timestamp_add a b = Ok t -> t = (a + b)%N.
Proof. unfold checked_timestamp_add, u64_checked_add. case_match; simplify_eq; case_match; congruence. Qed.

Lemma offset_from_ok base offset t :
  offset_from base offset = Ok t -> t = (fun o => (base + o)%N) <$> offset.
Proof.
  unfold offset_from. destruct offset as [o|]; [|by intros [= <-]].
  destruct (checked_timestamp_add base o) as [x|] eqn:E; [|done].
  apply checked_timestamp_add_ok in E as ->. by intros [= <-].
Qed.

Lemma offset_from_default start duration ends :
  offset_from start duration = Ok ends -> default start ends = (start + default 0 duration)%N.
Proof. intros ->%offset_from_ok. destruct duration; simpl; lia. Qed.

Section Starts.
Context {S : Type} `{SharedNodeStateReader S} (state : S).
Context (max_expansions : N) (requirement : TaskRequirement) (candidates : CandidateSet).
Context (snapshot : SchedulingSnapshot) (now : TimestampMs).
Context (estimate : option TaskDurationEstimate) (duration : option N).
Context (latest deadline : option TimestampMs).

Abbreviation run := (try_starts state max_expansions requirement candidates snapshot now
                       estimate duration latest deadline).
Abbreviation until start := ((fun len => (start + len)%N) <$> duration).

Definition meets_deadline (start : TimestampMs) : Prop :=
  forall limit, deadline = Some limit -> (start + default 0 duration <= limit)%N.

(** An assignment of all Roles that starts at an instant and meets the deadline. *)
Definition startable (start : TimestampMs) (sels : list RoleSchedulingSelection) : Prop :=
  meets_deadline start /\
  joint state candidates snapshot start (until start) (tk_roles requirement) [] ∅ sels.

Lemma deadline_passed start ends :
  offset_from start duration = Ok ends ->
  is_some_and (fun limit => (limit <? default start ends)%N) deadline = false <->
  meets_deadline start.
Proof.
  intros ->%offset_from_default. unfold meets_deadline. rewrite is_some_and_false.
  setoid_rewrite N.ltb_ge. done.
Qed.

Lemma no_assignment start ends sels n n' :
  offset_from start duration = Ok ends ->
  search_roles state candidates snapshot start ends max_expansions (tk_roles requirement) [] ∅ n
    = Ok (None, n') -> ~ startable start sels.
Proof.
  intros ->%offset_from_ok E [_ Hj]. apply search_head in E.
  apply elem_of_assignments in Hj. destruct (assignments _ _ _ _ _ _ _ _); [|done].
  by apply not_elem_of_nil in Hj.
Qed.

(** What a selected start is. *)
Record first_start (starts : list TimestampMs) (d : TaskSchedulingDecision) : Prop := {
  fs_task : dc_task_ref d = tk_task_ref requirement;
  fs_version : dc_snapshot_version d = ss_version snapshot;
  fs_estimate : dc_duration_estimate d = estimate;
  fs_latest : dc_latest_activation_at d = latest;
  fs_ends : dc_ends_at d = until (dc_starts_at d);
  fs_budget : (dc_expansions d <= max_expansions)%N;
  fs_in : dc_starts_at d ∈ starts;
  fs_in_time : forall l, latest = Some l -> (dc_starts_at d <= l)%N;
  fs_deadline : meets_deadline (dc_starts_at d);
  fs_head : head (assignments state candidates snapshot (dc_starts_at d) (dc_ends_at d)
                    (tk_roles requirement) [] ∅) = Some (dc_selections d);
  fs_first : forall start sels, start ∈ starts -> (start < dc_starts_at d)%N -> ~ startable start sels
}.

Abbreviation ascending := (StronglySorted N.lt).

Lemma first_start_here start starts ends n n' sels :
  ascending (start :: starts) -> (n <= max_expansions)%N ->
  (forall l, latest = Some l -> (start <= l)%N) ->
  offset_from start duration = Ok ends -> meets_deadline start ->
  search_roles state candidates snapshot start ends max_expansions (tk_roles requirement) [] ∅ n
    = Ok (Some sels, n') ->
  first_start (start :: starts)
    (make_decision requirement snapshot estimate latest sels start ends n').
Proof.
  intros Hsort Hn Hl Ho Hd E. pose proof (offset_from_ok _ _ _ Ho) as ->.
  split; simpl; try done.
  - apply search_counter in E; lia.
  - by left.
  - symmetry. by eapply search_head.
  - intros start' sels' [->|Hin]%elem_of_cons Hlt; [lia|].
    apply StronglySorted_inv in Hsort as [_ Hall]. rewrite Forall_forall in Hall.
    specialize (Hall _ Hin). lia.
Qed.

Lemma first_start_later start starts d :
  ascending (start :: starts) ->
  (forall sels, ~ startable start sels) -> first_start starts d -> first_start (start :: starts) d.
Proof.
  intros Hsort Hno [? ? ? ? ? ? ? ? ? ? Hfirst]. split; try done; [by right|].
  intros start' sels' [->|Hin]%elem_of_cons Hlt; [apply Hno|by apply Hfirst].
Qed.

(** The answer of the loop over the starts. *)
Lemma try_starts_answer starts : ascending starts -> forall n, (n <= max_expansions)%N ->
  match run starts n with
  | Ok (SelectedNow d) => first_start starts d /\ (dc_starts_at d <= now)%N
  | Ok (SelectedFuture d) => first_start starts d /\ (now < dc_starts_at d)%N /\ is_Some duration
  | Ok Deferred => is_Some duration -> forall start sels, start ∈ starts ->
      (forall l, latest = Some l -> (start <= l)%N) -> ~ startable start sels
  | Ok WindowMissed => False
  | Err _ => True
  end.
Proof.
  induction starts as [|start starts IH]; intros Hsort n Hn; simpl.
  { by intros _ ? ? ?%not_elem_of_nil. }
  pose proof Hsort as [Hsort' Hlt]%StronglySorted_inv. rewrite Forall_forall in Hlt.
  destruct (is_some_and _ latest) eqn:El.
  { apply is_some_and_true in El as (l & -> & Hl%N.ltb_lt). intros _ start' sels Hin Hlate.
    specialize (Hlate l eq_refl). apply elem_of_cons in Hin as [->|Hin]; [lia|].
    specialize (Hlt _ Hin). lia. }
  rewrite is_some_and_false in El. setoid_rewrite N.ltb_ge in El.
  assert (forall n', (n' <= max_expansions)%N -> (forall sels, ~ startable start sels) ->
    match run starts n' with
    | Ok (SelectedNow d) => first_start (start :: starts) d /\ (dc_starts_at d <= now)%N
    | Ok (SelectedFuture d) =>
        first_start (start :: starts) d /\ (now < dc_starts_at d)%N /\ is_Some duration
    | Ok Deferred => is_Some duration -> forall start' sels, start' ∈ start :: starts ->
        (forall l, latest = Some l -> (start' <= l)%N) -> ~ startable start' sels
    | Ok WindowMissed => False
    | Err _ => True
    end) as Hnext.
  { intros n' Hn' Hno. specialize (IH Hsort' n' Hn').
    destruct (run starts n') as [[d|d| |]|]; try done.
    - destruct IH as [Hf ?]. split; [by apply first_start_later|done].
    - destruct IH as (Hf & ? & ?). split; [by apply first_start_later|done].
    - intros Hdur start' sels [->|Hin]%elem_of_cons; [auto|by apply IH]. }
  destruct (offset_from start duration) as [ends|] eqn:Eo; [|done]. simpl.
  pose proof (deadline_passed start ends Eo) as Hdl.
  destruct (is_some_and _ deadline) eqn:Ed.
  { apply Hnext; [done|]. intros sels [Hm _]. by apply Hdl in Hm. }
  destruct (search_roles _ _ _ _ _ _ _ _ _ _) as [[[sels|] n']|] eqn:Es; [| |done].
  - pose proof (first_start_here start starts ends n n' sels Hsort Hn El Eo (proj1 Hdl eq_refl) Es)
      as Hf. pose proof (offset_from_ok _ _ _ Eo) as Ee.
    destruct ((now <? start)%N && is_none ends) eqn:Eb.
    + apply andb_true_iff in Eb as [_ Hnone]. intros [len ->]. by rewrite Ee in Hnone.
    + destruct (N.leb_spec start now); split; try done. split; [done|].
      apply andb_false_iff in Eb as [Eb%N.ltb_ge|Eb]; [lia|]. rewrite Ee in Eb.
      destruct duration; [by eexists|done].
  - apply Hnext; [eapply search_counter; [exact Es|done]|]. intros sels. by eapply no_assignment.
Qed.
End Starts.

(** ** The candidate starts *)

Lemma elem_of_candidate_starts snapshot earliest duration t :
  t ∈ candidate_starts snapshot earliest duration <->
  t = earliest \/ (is_Some duration /\
    ((exists o, o ∈ ss_occupancies snapshot /\ oc_ends_at o = Some t) \/
     (exists registry entry w, ss_resource_topology snapshot = Some registry /\
        entry ∈ tp_resources registry /\ w ∈ te_windows entry /\ tw_starts_at w = t))).
Proof.
  unfold candidate_starts. rewrite elem_of_dedup, elem_of_sort_by, elem_of_cons.
  destruct duration as [len|]; simpl; rewrite ?elem_of_app, ?list_elem_of_omap.
  2: { split; [intros [|?%not_elem_of_nil]; tauto|]. intros [|[[? ?] _]]; [by left|done]. }
  assert (is_Some (Some len)) as Hs by done.
  destruct (ss_resource_topology snapshot) as [registry|]; [|set_solver].
  rewrite list_elem_of_bind. setoid_rewrite list_elem_of_fmap. naive_solver.
Qed.

Lemma ascending_filter (p : N -> bool) l :
  StronglySorted N.lt l -> StronglySorted N.lt (List.filter p l).
Proof.
  induction 1 as [|x l Hl IH Hx]; simpl; [constructor|].
  destruct (p x); [|done]. constructor; [done|]. rewrite Forall_forall in *.
  intros y [Hy%list_elem_of_In _]%list_elem_of_In%filter_In. by apply Hx.
Qed.

Lemma candidate_starts_ascending snapshot earliest duration :
  StronglySorted N.lt (candidate_starts snapshot earliest duration).
Proof.
  unfold candidate_starts.
  match goal with |- context [sort_by cmp ?l] => pose proof (dedup_sorted _ (sort_by_sorted l)) as Hs end.
  clear -Hs. induction Hs as [|x l Hl IH Hx]; constructor; [done|].
  eapply Forall_impl; [exact Hx|]. intros y Hy. by apply N.compare_lt_iff.
Qed.

(** The last candidate start before an instant. *)
Lemma last_before (l : list N) a t :
  a ∈ l -> (a <= t)%N ->
  exists m, m ∈ l /\ (a <= m <= t)%N /\ forall x, x ∈ l -> (x <= t)%N -> (x <= m)%N.
Proof.
  intros Ha Hat. set (m := foldr (fun x m => if (x <=? t)%N then N.max x m else m) a l).
  assert ((m = a \/ m ∈ l) /\ (a <= m <= t)%N /\ forall x, x ∈ l -> (x <= t)%N -> (x <= m)%N)
    as ([->|Hm] & Hr & Hmax); [|by exists a|by exists m].
  clear Ha. subst m. induction l as [|y l ([IH1|IH1] & IH2 & IH3)]; simpl.
  { split_and!; [by left|lia..|]. by intros x ?%not_elem_of_nil. }
  all: set (m := foldr _ a l) in *.
  all: destruct (N.leb_spec y t) as [Hy|Hy]; [destruct (N.max_spec y m) as [[? ->]|[? ->]]|].
  all: split_and!; try lia; try (intros x [->|Hx]%elem_of_cons Hxt; [lia|];
         specialize (IH3 x Hx Hxt); lia); rewrite ?elem_of_cons; tauto.
Qed.

(** ** The schedule against its specification *)

Section Spec.
Context {S : Type} `{SharedNodeStateReader S} (state : S).
Context (max_expansions : N) (requirement : TaskRequirement) (candidates : CandidateSet).
Context (snapshot : SchedulingSnapshot) (context : TaskSchedulingContext).

Abbreviation timing := (tk_timing requirement).
Abbreviation accepted := (tsc_mission_accepted_at context).
Abbreviation schedule := (schedule_task_with_snapshot_and_estimate max_expansions state requirement
                            candidates snapshot context).

(** The duration the schedule assumes: external evidence before the declared one. *)
Definition task_duration : option N :=
  match tsc_duration_estimate context with
  | Some e => Some (de_duration_ms e)
  | None => estimated_duration_ms timing
  end.

Definition ends_of (start : TimestampMs) : option TimestampMs :=
  (fun len => (start + len)%N) <$> task_duration.

(** A start inside the declared window of the Task, and not in the past. *)
Record in_window (start : TimestampMs) : Prop := {
  iw_opening : (accepted + earliest_start_offset_ms timing <= start)%N;
  iw_now : (tsc_now context <= start)%N;
  iw_latest : forall l, latest_start_offset_ms timing = Some l -> (start <= accepted + l)%N;
  iw_deadline : forall l, completion_deadline_offset_ms timing = Some l ->
    (start + default 0 task_duration <= accepted + l)%N
}.

(** A slot: a start inside the window with a joint assignment of every Role. *)
Definition slot (start : TimestampMs) (sels : list RoleSchedulingSelection) : Prop :=
  in_window start /\
  joint state candidates snapshot start (ends_of start) (tk_roles requirement) [] ∅ sels.

(** No Role draws on a Context allocation, and known occupancies are intervals. *)
Definition plain_snapshot : Prop :=
  (forall role, role ∈ tk_roles requirement ->
     ss_context_capacities snapshot !! rq_role_id role = None) /\
  (forall o, o ∈ ss_occupancies snapshot -> occupancy_ok o).

Abbreviation earliest := (N.max (accepted + earliest_start_offset_ms timing) (tsc_now context)).
Abbreviation latest := ((fun l => (accepted + l)%N) <$> latest_start_offset_ms timing).
Abbreviation deadline := ((fun l => (accepted + l)%N) <$> completion_deadline_offset_ms timing).
Abbreviation starts := (List.filter (fun start => (earliest <=? start)%N)
                      (candidate_starts snapshot earliest task_duration)).

(** The answer once the inputs are validated. *)
Lemma schedule_unfold outcome :
  schedule = Ok outcome ->
  validate_candidate_set requirement candidates = Ok tt /\
  match completion_start_deadline deadline task_duration with
  | None => outcome = WindowMissed
  | Some completion =>
      if is_some_and (fun l => (l <? earliest)%N) (opt_min latest completion)
      then outcome = WindowMissed
      else try_starts state max_expansions requirement candidates snapshot (tsc_now context)
             (tsc_duration_estimate context) task_duration (opt_min latest completion) deadline
             starts 0 = Ok outcome
  end.
Proof.
  unfold schedule_task_with_snapshot_and_estimate.
  destruct (validate_candidate_set requirement candidates) as [[]|]; [|done]. simpl.
  destruct (validate_duration_estimate _ _ _) as [est|] eqn:Ev; [|done]. simpl.
  assert (est = tsc_duration_estimate context) as ->.
  { unfold validate_duration_estimate in Ev. destruct (tsc_duration_estimate context); simplify_eq/=;
      repeat (case_match; try done); congruence. }
  destruct (checked_timestamp_add _ _) as [opening|] eqn:Eo; [|done]. simpl.
  apply checked_timestamp_add_ok in Eo as ->.
  destruct (offset_from _ (latest_start_offset_ms _)) as [l|] eqn:El; [|done]. simpl.
  apply offset_from_ok in El as ->.
  destruct (offset_from _ (completion_deadline_offset_ms _)) as [dl|] eqn:Ed; [|done]. simpl.
  apply offset_from_ok in Ed as ->.
  intros E. split; [done|]. revert E. unfold task_duration.
  destruct (completion_start_deadline _ _) as [completion|]; [|by intros [= <-]].
  destruct (is_some_and _ _); [by intros [= <-]|done].
Qed.

(** The window in terms of the bounds the code computes. *)
Lemma in_window_bounds completion start :
  completion_start_deadline deadline task_duration = Some completion ->
  in_window start <->
  (earliest <= start)%N /\ (forall l, opt_min latest completion = Some l -> (start <= l)%N) /\
  meets_deadline task_duration deadline start.
Proof.
  intros Ec. unfold meets_deadline. split.
  - intros [Ho Hn Hl Hd]. split; [lia|]. split.
    + intros l El. destruct (latest_start_offset_ms timing) as [a|] eqn:Ea; simpl in *;
        [specialize (Hl a eq_refl)|];
      destruct (completion_deadline_offset_ms timing) as [b|] eqn:Eb; simpl in *;
        try specialize (Hd b eq_refl); destruct task_duration; simpl in *;
        repeat case_match; simplify_eq/=; lia.
    + intros limit El. destruct (completion_deadline_offset_ms timing) as [b|]; simplify_eq/=. by apply Hd.
  - intros (Hs & Hl & Hd). split; [lia|lia| |].
    + intros l El. rewrite El in Hl. simpl in Hl. destruct completion; simpl in Hl;
        specialize (Hl _ eq_refl); lia.
    + intros l El. rewrite El in Hd. by apply Hd.
Qed.

Lemma missed_no_completion start :
  completion_start_deadline deadline task_duration = None -> ~ in_window start.
Proof.
  intros Ec [_ _ _ Hd]. destruct (completion_deadline_offset_ms timing) as [b|]; simpl in *;
    [specialize (Hd b eq_refl)|]; destruct task_duration; simpl in *; try done.
  destruct (N.leb_spec n (accepted + b)); [done|lia].
Qed.

(** A slot at any instant gives one at a candidate start before it. *)
Lemma slot_candidate start sels :
  is_Some task_duration -> plain_snapshot -> slot start sels ->
  exists start', start' ∈ starts /\ (start' <= start)%N /\ slot start' sels.
Proof.
  intros Hdur [Hplain Hok] [Hw Hj].
  assert (earliest <= start)%N as Hearly by (destruct Hw; lia).
  destruct (last_before starts earliest start) as (m & Hm & Hr & Hmax); [|done|].
  { apply list_elem_of_In, filter_In. split; [|apply N.leb_refl].
    apply list_elem_of_In, elem_of_candidate_starts. by left. }
  assert (forall x, x ∈ candidate_starts snapshot earliest task_duration -> (x <= start)%N ->
            (x <= m)%N) as Hcand.
  { intros x Hx Hxs. destruct (N.leb_spec earliest x) as [Hle|]; [|lia]. apply Hmax; [|done].
    apply list_elem_of_In, filter_In. rewrite N.leb_le. split; [by apply list_elem_of_In|done]. }
  exists m. split; [done|]. split; [lia|]. split.
  - destruct Hw as [? ? Hl Hd]. split; [lia|lia| |].
    + intros l El. specialize (Hl l El). lia.
    + intros l El. specialize (Hd l El). lia.
  - destruct Hdur as [len Ed]. unfold ends_of in *. rewrite Ed in *. simpl in *.
    eapply (moved_joint state candidates snapshot start m len); try done; try lia.
    + intros o x Ho Ex. destruct (N.leb_spec x start); [left|right; lia].
      apply Hcand; [|done]. apply elem_of_candidate_starts. right. split; [done|]. left. eauto.
    + intros registry entry w Er Hentry Hwin Hle. apply Hcand; [|done].
      apply elem_of_candidate_starts. right. split; [done|]. right. eauto 10.
    + by intros ? ?%not_elem_of_nil.
Qed.

Abbreviation pick := (first_start state max_expansions requirement candidates snapshot
                    (tsc_duration_estimate context) task_duration).

(** The selected decision: a slot, the first in preference order at its start. *)
Record decided (d : TaskSchedulingDecision) : Prop := {
  dd_task : dc_task_ref d = tk_task_ref requirement;
  dd_version : dc_snapshot_version d = ss_version snapshot;
  dd_estimate : dc_duration_estimate d = tsc_duration_estimate context;
  dd_ends : dc_ends_at d = ends_of (dc_starts_at d);
  dd_budget : (dc_expansions d <= max_expansions)%N;
  dd_slot : slot (dc_starts_at d) (dc_selections d);
  dd_head : head (assignments state candidates snapshot (dc_starts_at d) (dc_ends_at d)
                    (tk_roles requirement) [] ∅) = Some (dc_selections d);
  dd_first : plain_snapshot -> forall start sels, slot start sels -> (dc_starts_at d <= start)%N;
  dd_latest : forall l, dc_latest_activation_at d = Some l -> (dc_starts_at d <= l)%N
}.

Lemma starts_ascending : StronglySorted N.lt starts.
Proof. apply ascending_filter, candidate_starts_ascending. Qed.

Lemma elem_of_starts_early start : start ∈ starts -> (earliest <= start)%N.
Proof. intros [_ Hle%N.leb_le]%list_elem_of_In%filter_In. done. Qed.

Lemma pick_decided completion d :
  completion_start_deadline deadline task_duration = Some completion ->
  pick (opt_min latest completion) deadline starts d -> decided d.
Proof.
  intros Ec [Ht Hv Hes Hla Hen Hb Hin Htime Hdl Hhead Hfirst].
  assert (in_window (dc_starts_at d)) as Hw.
  { rewrite (in_window_bounds completion) by done. split_and!; [|done|done].
    by apply elem_of_starts_early. }
  assert (slot (dc_starts_at d) (dc_selections d)) as Hslot.
  { split; [done|]. unfold ends_of. rewrite <- Hen. apply elem_of_assignments.
    destruct (assignments _ _ _ _ _ _ _ _); simplify_eq/=. by left. }
  split; try done; [|by rewrite Hla].
  intros Hplain start sels Hs. destruct (decide (is_Some task_duration)) as [Hdur|Hnone].
  - destruct (slot_candidate start sels Hdur Hplain Hs) as (start' & Hin' & Hle & [Hw' Hj']).
    destruct (N.le_gt_cases (dc_starts_at d) start') as [|Hlt]; [lia|]. exfalso.
    apply (Hfirst start' sels Hin' Hlt). split; [|done].
    rewrite (in_window_bounds completion) in Hw' by done. by destruct Hw' as (_ & _ & ?).
  - assert (dc_starts_at d = earliest) as ->.
    { apply list_elem_of_In, filter_In in Hin as [Hin%list_elem_of_In _].
      apply elem_of_candidate_starts in Hin as [|[? _]]; [done|by destruct Hnone]. }
    destruct Hs as [[? ? _ _] _]. lia.
Qed.

(** The answer of the scheduler. *)
Lemma schedule_answer outcome :
  schedule = Ok outcome ->
  match outcome with
  | SelectedNow d => decided d /\ dc_starts_at d = tsc_now context
  | SelectedFuture d => decided d /\ (tsc_now context < dc_starts_at d)%N /\ is_Some task_duration
  | Deferred => is_Some task_duration -> plain_snapshot -> forall start sels, ~ slot start sels
  | WindowMissed => forall start, ~ in_window start
  end.
Proof.
  intros [_ E]%schedule_unfold.
  destruct (completion_start_deadline deadline task_duration) as [completion|] eqn:Ec.
  2: { rewrite E. intros start. by apply missed_no_completion. }
  destruct (is_some_and _ (opt_min latest completion)) eqn:El.
  { rewrite E. intros start Hw. rewrite (in_window_bounds completion) in Hw by done.
    apply is_some_and_true in El as (l & El & Hl%N.ltb_lt). destruct Hw as (Hs & Hle & _).
    specialize (Hle l El). lia. }
  pose proof (try_starts_answer state max_expansions requirement candidates snapshot
    (tsc_now context) (tsc_duration_estimate context) task_duration (opt_min latest completion)
    deadline starts starts_ascending 0 (N.le_0_l _)) as Ha.
  rewrite E in Ha. destruct outcome as [d|d| |]; try done.
  - destruct Ha as [Hp Hnow]. pose proof (pick_decided completion d Ec Hp) as Hd. split; [done|].
    destruct (dd_slot _ Hd) as [[_ ? _ _] _]. lia.
  - destruct Ha as [Hp ?]. split; [by eapply pick_decided|done].
  - intros Hdur Hplain start sels Hs.
    destruct (slot_candidate start sels Hdur Hplain Hs) as (start' & Hin & _ & [Hw Hj]).
    rewrite (in_window_bounds completion) in Hw by done. destruct Hw as (_ & Hlate & Hm).
    by apply (Ha Hdur start' sels Hin Hlate).
Qed.
End Spec.

(** ** The schedule finds a slot when the budget covers the search *)

Section Finds.
Context {S : Type} `{SharedNodeStateReader S} (state : S).
Context (max_expansions : N) (requirement : TaskRequirement) (candidates : CandidateSet).
Context (snapshot : SchedulingSnapshot) (len : N).
Context (budget_width : (max_expansions <= u32_max)%N).

(** Every candidate of every Role is registered. *)
Definition candidates_known : Prop :=
  forall role nodes node, role ∈ tk_roles requirement ->
    for_role candidates (rq_role_id role) = Some nodes -> node ∈ rcs_node_ids nodes ->
    is_Some (node_resources state node).

(** The expansions of an exhaustive search at every start of a list. *)
Definition search_work (starts : list TimestampMs) : N :=
  foldr (fun start w => (tree_size state candidates snapshot start (Some (start + len)%N)
                           (tk_roles requirement) [] ∅ + w)%N) 0%N starts.

Lemma try_starts_finds now estimate latest deadline starts start sels :
  candidates_known -> StronglySorted N.lt starts ->
  start ∈ starts -> (start + len <= u64_max)%N ->
  (forall l, latest = Some l -> (start <= l)%N) ->
  startable state requirement candidates snapshot (Some len) deadline start sels ->
  forall n, (n + search_work starts <= max_expansions)%N ->
  exists d, try_starts state max_expansions requirement candidates snapshot now estimate (Some len)
              latest deadline starts n = Ok (SelectedNow d) \/
            try_starts state max_expansions requirement candidates snapshot now estimate (Some len)
              latest deadline starts n = Ok (SelectedFuture d).
Proof.
  intros Hknown Hsort Hin Hmax Hlate Hst.
  induction Hsort as [|a starts Hsort IH Ha]; [by apply not_elem_of_nil in Hin|].
  rewrite Forall_forall in Ha. intros n Hn. simpl in Hn |- *.
  assert (a <= start)%N as Hle.
  { apply elem_of_cons in Hin as [->|Hin]; [lia|]. specialize (Ha _ Hin). lia. }
  destruct (is_some_and _ latest) eqn:El.
  { apply is_some_and_true in El as (l & -> & Hl%N.ltb_lt). specialize (Hlate l eq_refl). lia. }
  unfold checked_timestamp_add.
  assert (u64_checked_add a len = Some (a + len)%N) as -> by (apply u64_checked_add_Some; lia).
  simpl. destruct (search_total state candidates snapshot a (Some (a + len)%N) max_expansions
    (tk_roles requirement) budget_width) with (selections := @nil RoleSchedulingSelection)
    (entities := (∅ : gmap ActorId PhysicalEntityId)) (n := n) as (r & n' & Es & Hn').
  { intros role node Hrole (nodes & Ef & Hnode)%elem_of_role_nodes. by eapply Hknown. }
  { lia. }
  destruct (decide (a = start)) as [->|Hne].
  - destruct Hst as [Hm Hj]. unfold meets_deadline in Hm. simpl in Hm.
    destruct (is_some_and _ deadline) eqn:Ed.
    { apply is_some_and_true in Ed as (l & -> & Hl%N.ltb_lt). specialize (Hm l eq_refl). lia. }
    rewrite Es. pose proof (search_head _ _ _ _ _ _ _ _ _ _ _ _ Es) as ->.
    apply elem_of_assignments in Hj. simpl in Hj.
    destruct (assignments _ _ _ _ _ _ _ _) as [|x xs]; [by apply not_elem_of_nil in Hj|]. simpl.
    rewrite andb_false_r. destruct (start <=? now)%N; eauto.
  - assert (start ∈ starts) as Hin' by (apply elem_of_cons in Hin as [?|]; [congruence|done]).
    destruct (is_some_and _ deadline).
    + apply IH; [done|]. lia.
    + rewrite Es. destruct r as [x|]; [|apply IH; [done|lia]].
      rewrite andb_false_r. destruct (a <=? now)%N; eauto.
Qed.
End Finds.

Section FindsTask.
Context {S : Type} `{SharedNodeStateReader S} (state : S).
Context (max_expansions : N) (requirement : TaskRequirement) (candidates : CandidateSet).
Context (snapshot : SchedulingSnapshot) (context : TaskSchedulingContext) (len : N).

(** The inputs pass the validations of the scheduler. *)
Record inputs_valid : Prop := {
  iv_candidates : validate_candidate_set requirement candidates = Ok tt;
  iv_estimate : validate_duration_estimate requirement (tsc_duration_estimate context)
                  (tsc_now context) = Ok (tsc_duration_estimate context);
  iv_offsets : forall o, o ∈ earliest_start_offset_ms (tk_timing requirement) ::
      (option_list (latest_start_offset_ms (tk_timing requirement))
       ++ option_list (completion_deadline_offset_ms (tk_timing requirement))) ->
    (tsc_mission_accepted_at context + o <= u64_max)%N
}.

Definition tried_starts : list TimestampMs :=
  let earliest := N.max (tsc_mission_accepted_at context
                         + earliest_start_offset_ms (tk_timing requirement)) (tsc_now context) in
  List.filter (fun start => (earliest <=? start)%N)
    (candidate_starts snapshot earliest (task_duration requirement context)).

Lemma offset_from_fits base offset :
  (forall o, offset = Some o -> (base + o <= u64_max)%N) ->
  offset_from base offset = Ok ((fun o => (base + o)%N) <$> offset).
Proof.
  intros Ho. destruct offset as [o|]; [|done]. specialize (Ho o eq_refl).
  unfold offset_from, checked_timestamp_add.
  by rewrite (proj2 (u64_checked_add_Some base o (base + o)%N)) by lia.
Qed.

Lemma schedule_finds start sels :
  (max_expansions <= u32_max)%N -> inputs_valid -> candidates_known state requirement candidates ->
  plain_snapshot requirement snapshot -> task_duration requirement context = Some len ->
  (start + len <= u64_max)%N ->
  (search_work state requirement candidates snapshot len tried_starts <= max_expansions)%N ->
  slot state requirement candidates snapshot context start sels ->
  exists d, schedule_task_with_snapshot_and_estimate max_expansions state requirement candidates
              snapshot context = Ok (SelectedNow d) \/
            schedule_task_with_snapshot_and_estimate max_expansions state requirement candidates
              snapshot context = Ok (SelectedFuture d).
Proof.
  intros Hwidth [Hc He Ho] Hknown Hplain Hlen Hmax Hwork Hslot.
  destruct (slot_candidate _ _ _ _ _ start sels (mk_is_Some _ _ Hlen) Hplain Hslot)
    as (start' & Hin & Hle & [Hw Hj]).
  unfold schedule_task_with_snapshot_and_estimate. rewrite Hc, He. simpl.
  unfold checked_timestamp_add.
  rewrite (proj2 (u64_checked_add_Some _ _ (tsc_mission_accepted_at context
    + earliest_start_offset_ms (tk_timing requirement))%N)).
  2: { split; [done|]. apply Ho. by left. }
  simpl. rewrite !offset_from_fits.
  2: { intros o Eo. apply Ho. rewrite Eo. set_solver. }
  2: { intros o Eo. apply Ho. rewrite Eo. set_solver. }
  simpl. fold (task_duration requirement context).
  destruct (completion_start_deadline _ _) as [completion|] eqn:Ec.
  2: { by apply missed_no_completion with (start := start') in Ec. }
  rewrite (in_window_bounds _ _ _ _ Ec) in Hw. destruct Hw as (Hs & Hlate & Hm).
  destruct (is_some_and _ _) eqn:El.
  { apply is_some_and_true in El as (l & El & Hl%N.ltb_lt). specialize (Hlate l El). lia. }
  clear Ec. unfold tried_starts in Hwork. unfold ends_of in Hj. rewrite Hlen in *.
  eapply (try_starts_finds _ _ _ _ _ _ Hwidth); try done.
  - apply ascending_filter, candidate_starts_ascending.
  - lia.
Qed.
End FindsTask.

(** The decision of a selected outcome. *)
Definition selected_decision (outcome : TaskSchedulingOutcome) : option TaskSchedulingDecision :=
  match outcome with
  | SelectedNow d | SelectedFuture d => Some d
  | Deferred | WindowMissed => None
  end.

Lemma selected_decided {S} `{SharedNodeStateReader S} max_expansions (state : S) requirement
    candidates snapshot context outcome d :
  schedule_task_with_snapshot_and_estimate max_expansions state requirement candidates snapshot
    context = Ok outcome -> selected_decision outcome = Some d ->
  decided state max_expansions requirement candidates snapshot context d.
Proof.
  intros Hrun%schedule_answer Ed. destruct outcome; simplify_eq/=; by destruct Hrun.
Qed.
