(* ===== verification/NodeIdentity.v ===== *)
(** * Node certificates

    [core/domain/src/node_identity.rs] and the policy values of
    [core/domain/src/attestation.rs]: the registry of certificate bindings of the Nodes,
    the commands that rotate, revoke and re-enrol them, and the validation a restart
    repeats.  An accepted command replaces the registry as a whole; a refused one changes
    nothing, so operations return the new registry or an error.  [None] is a panic. *)

From S2P Require Import Prelude Identity Execution.

Open Scope string_scope.

(** ** Measurement policies: [attestation.rs] *)

Record AttestationPolicy := MkAttestationPolicy {
  ap_policy_id : string;
  ap_revision : N;
  ap_ak_public_key_pem : string;
  ap_qualified_signer_hex : option string;
  ap_expected_pcrs : gmap N string;
  ap_firmware_version : option N;
  ap_require_safe_clock : bool;
  ap_max_age_ms : N;
  ap_required_for_admission : bool;
  ap_provisioning_evidence_digest : option string
}.

#[export] Instance AttestationPolicy_eq_dec : EqDecision AttestationPolicy.
Proof. solve_decision. Defined.

Record AttestationEvidence := MkAttestationEvidence {
  ae_challenge_id : string;
  ae_quote_hex : string;
  ae_signature_hex : string;
  ae_signature_scheme : string
}.

#[export] Instance AttestationEvidence_eq_dec : EqDecision AttestationEvidence.
Proof. solve_decision. Defined.

Record AttestationReport := MkAttestationReport {
  ar_challenge_id : string;
  ar_evidence_digest : string;
  ar_ak_digest : string;
  ar_tpm_clock : N;
  ar_reset_count : N;
  ar_restart_count : N;
  ar_firmware_version : N;
  ar_received_at_ms : N;
  ar_valid_until_ms : N;
  ar_hardware_identity : string
}.

#[export] Instance AttestationReport_eq_dec : EqDecision AttestationReport.
Proof. solve_decision. Defined.

Record AttestationChallenge := MkAttestationChallenge {
  ac_challenge_id : string;
  ac_node_id : string;
  ac_identity_revision : N;
  ac_policy : AttestationPolicy;
  ac_nonce_hex : string;
  ac_issued_at_ms : N;
  ac_deadline_ms : N;
  ac_authority_subject : string;
  ac_report : option AttestationReport;
  ac_evidence : option AttestationEvidence
}.

#[export] Instance AttestationChallenge_eq_dec : EqDecision AttestationChallenge.
Proof. solve_decision. Defined.

(** A hexadecimal digit that is not upper case is a lower-case one. *)
Definition is_hex (value : string) (length : N) : bool :=
  (str_len value =? length)%N && all_bytes is_lower_hex value.

(** [str::contains]. *)
Definition contains_text (pattern value : string) : bool := is_some (String.index 0 pattern value).

Definition AttestationPolicy_validate (p : AttestationPolicy) : Result unit string :=
  if is_blank (ap_policy_id p)
     || (128 <? str_len (ap_policy_id p))%N
     || (ap_revision p =? 0)%N
     || (8192 <? str_len (ap_ak_public_key_pem p))%N
     || negb (contains_text "-----BEGIN PUBLIC KEY-----" (ap_ak_public_key_pem p))
     || contains_text "PRIVATE KEY" (ap_ak_public_key_pem p)
     || (size (ap_expected_pcrs p) =? 0)%nat
     || (24 <? size (ap_expected_pcrs p))%nat
     || (ap_max_age_ms p =? 0)%N
     || (3600000 <? ap_max_age_ms p)%N
     || existsb (fun '(pcr, value) => (24 <=? pcr)%N || negb (is_hex value 64))
          (btree_iter (ap_expected_pcrs p))
     || is_some_and (fun value =>
          (136 <? str_len value)%N || (str_len value =? 0)%N
          || negb (str_len value mod 2 =? 0)%N || negb (is_hex value (str_len value)))
          (ap_qualified_signer_hex p)
     || is_some_and (fun value =>
          negb (is_some_and (fun hex => is_hex hex 64) (strip_prefix "sha256:" value)))
          (ap_provisioning_evidence_digest p)
  then Err "invalid attestation policy" else Ok tt.

(** ** The registry *)

Inductive IdentityPhase := IpActive | IpPrepared | IpOverlap | IpRevoked.

#[export] Instance IdentityPhase_eq_dec : EqDecision IdentityPhase.
Proof. solve_decision. Defined.

Definition NODE_IDENTITY_REGISTRY_SCHEMA : string := "roboguide.node-identity-registry/v0.1".

Record NodeIdentityRecord := MkIdentityRecord {
  ni_attestation_policy : option AttestationPolicy;
  ni_attestation_report : option AttestationReport;
  ni_node_id : string;
  ni_tenant_id : string;
  ni_domain_id : string;
  ni_current_digest : string;
  ni_next_digest : option string;
  ni_previous_digest : option string;
  ni_revision : N;
  ni_phase : IdentityPhase;
  ni_not_before_ms : N;
  ni_expires_at_ms : N;
  ni_overlap_until_ms : option N
}.

#[export] Instance NodeIdentityRecord_eq_dec : EqDecision NodeIdentityRecord.
Proof. solve_decision. Defined.

Record IdentityCommandReceipt := MkIdentityReceipt {
  ir_command_id : string;
  ir_input_digest : string;
  ir_node_id : string;
  ir_revision : N;
  ir_accepted_at_ms : N;
  ir_authority_subject : string
}.

#[export] Instance IdentityCommandReceipt_eq_dec : EqDecision IdentityCommandReceipt.
Proof. solve_decision. Defined.

Record NodeIdentityRegistry := MkIdentityRegistry {
  nr_retired_digests : gset string;
  nr_attestation_challenges : gmap string AttestationChallenge;
  nr_schema : string;
  nr_registry_id : string;
  nr_records : gmap string NodeIdentityRecord;
  nr_commands : gmap string IdentityCommandReceipt
}.

#[export] Instance NodeIdentityRegistry_eq_dec : EqDecision NodeIdentityRegistry.
Proof. solve_decision. Defined.

Inductive IdentityAction :=
| ConfigureAttestation (policy : AttestationPolicy)
| IaRegister (tenant_id domain_id digest : string) (expires_at_ms : N)
| IaPrepare (digest : string)
| IaActivate (overlap_ms : N)
| RetirePrevious
| IaRevoke
| IaRenew (expires_at_ms : N)
| IaReenroll (digest : string) (expires_at_ms : N).

#[export] Instance IdentityAction_eq_dec : EqDecision IdentityAction.
Proof. solve_decision. Defined.

Record IdentityCommand := MkIdentityCommand {
  ico_command_id : string;
  ico_node_id : string;
  ico_expected_revision : N;
  ico_action : IdentityAction
}.

Inductive IdentityError :=
| InvalidField (field : string)
| IeRevisionConflict
| InvalidTransition
| IeRejected.

#[export] Instance IdentityError_eq_dec : EqDecision IdentityError.
Proof. solve_decision. Defined.

Definition NodeIdentityRegistry_new (registry_id : string) : NodeIdentityRegistry :=
  MkIdentityRegistry ∅ ∅ NODE_IDENTITY_REGISTRY_SCHEMA registry_id ∅ ∅.

(** Field updates of the registry. *)
Definition with_records (r : NodeIdentityRegistry) (records : gmap string NodeIdentityRecord)
  : NodeIdentityRegistry :=
  MkIdentityRegistry (nr_retired_digests r) (nr_attestation_challenges r) (nr_schema r)
    (nr_registry_id r) records (nr_commands r).
Definition with_retired (r : NodeIdentityRegistry) (retired : gset string) : NodeIdentityRegistry :=
  MkIdentityRegistry retired (nr_attestation_challenges r) (nr_schema r)
    (nr_registry_id r) (nr_records r) (nr_commands r).
Definition with_command (r : NodeIdentityRegistry) (receipt : IdentityCommandReceipt)
  : NodeIdentityRegistry :=
  MkIdentityRegistry (nr_retired_digests r) (nr_attestation_challenges r) (nr_schema r)
    (nr_registry_id r) (nr_records r) (<[ir_command_id receipt := receipt]> (nr_commands r)).

(** The certificate fields of a record, the identity and measurement fields kept. *)
Definition with_certificates (r : NodeIdentityRecord) (current : string)
    (next previous : option string) (revision : N) (phase : IdentityPhase) (not_before expires : N)
    (overlap : option N) : NodeIdentityRecord :=
  MkIdentityRecord (ni_attestation_policy r) (ni_attestation_report r) (ni_node_id r)
    (ni_tenant_id r) (ni_domain_id r) current next previous revision phase not_before expires overlap.
Definition with_attestation (r : NodeIdentityRecord) (policy : option AttestationPolicy)
  : NodeIdentityRecord :=
  MkIdentityRecord policy None (ni_node_id r) (ni_tenant_id r) (ni_domain_id r)
    (ni_current_digest r) (ni_next_digest r) (ni_previous_digest r) (ni_revision r) (ni_phase r)
    (ni_not_before_ms r) (ni_expires_at_ms r) (ni_overlap_until_ms r).

(** ** Validation *)

Definition validate_digest (value : string) : Result unit IdentityError :=
  if negb (is_hex value 64) then Err (InvalidField "certificate digest") else Ok tt.

Definition phase_valid (r : NodeIdentityRecord) : bool :=
  match ni_phase r with
  | IpPrepared =>
      is_some_and (fun next => negb (next =? ni_current_digest r)%string) (ni_next_digest r)
      && is_none (ni_previous_digest r) && is_none (ni_overlap_until_ms r)
  | IpOverlap =>
      is_none (ni_next_digest r)
      && is_some_and (fun previous => negb (previous =? ni_current_digest r)%string)
           (ni_previous_digest r)
      && is_some_and (fun until => (ni_not_before_ms r <? until)%N) (ni_overlap_until_ms r)
  | IpActive | IpRevoked =>
      is_none (ni_next_digest r) && is_none (ni_previous_digest r) && is_none (ni_overlap_until_ms r)
  end.

Definition validate_name (value : string) (field : string) : Result unit IdentityError :=
  if is_blank value || (128 <? str_len value)%N then Err (InvalidField field) else Ok tt.

Definition validate_optional (value : option string) : Result unit IdentityError :=
  match value with Some digest => validate_digest digest | None => Ok tt end.

Definition validate_record (r : NodeIdentityRecord) : Result unit IdentityError :=
  let? _p := match ni_attestation_policy r with
             | Some policy => result_map_err (fun _ => InvalidField "attestation policy")
                                (AttestationPolicy_validate policy)
             | None => Ok tt
             end in
  let? _n := validate_name (ni_node_id r) "node" in
  let? _t := validate_name (ni_tenant_id r) "tenant" in
  let? _d := validate_name (ni_domain_id r) "domain" in
  let? _c := validate_digest (ni_current_digest r) in
  if (ni_revision r =? 0)%N
     || (negb (ni_expires_at_ms r =? 0)%N && (ni_expires_at_ms r <=? ni_not_before_ms r)%N)
  then Err (InvalidField "revision/validity") else
  let? _x := validate_optional (ni_next_digest r) in
  let? _y := validate_optional (ni_previous_digest r) in
  if negb (phase_valid r) then Err (InvalidField "phase evidence") else Ok tt.

(** The digests a record binds, in the order of the uniqueness check. *)
Definition record_digests (r : NodeIdentityRecord) : list string :=
  (ni_current_digest r :: option_list (ni_next_digest r) ++ option_list (ni_previous_digest r))%list.

Definition is_revoked (r : NodeIdentityRecord) : bool := bool_decide (ni_phase r = IpRevoked).

Definition active_digests (records : list NodeIdentityRecord) : list string :=
  flat_map record_digests (List.filter (fun r => negb (is_revoked r)) records).

Fixpoint digests_loop (retired seen : gset string) (digests : list string)
  : Result unit IdentityError :=
  match digests with
  | [] => Ok tt
  | digest :: digests' =>
      if set_contains digest retired then Err IeRejected else
      if set_contains digest seen then Err (InvalidField "certificate reused across identities")
      else digests_loop retired ({[digest]} ∪ seen) digests'
  end.

Definition receipt_invalid (records : gmap string NodeIdentityRecord) (id : string)
    (receipt : IdentityCommandReceipt) : bool :=
  negb (id =? ir_command_id receipt)%string
  || (ir_revision receipt =? 0)%N
  || is_blank (ir_authority_subject receipt)
  || negb (is_some_and (fun digest => is_ok (validate_digest digest))
             (strip_prefix "sha256:" (ir_input_digest receipt)))
  || is_none_or (fun record => (ni_revision record <? ir_revision receipt)%N)
       (records !! ir_node_id receipt).

Definition NodeIdentityRegistry_validate (r : NodeIdentityRegistry) : Result unit IdentityError :=
  if negb (nr_schema r =? NODE_IDENTITY_REGISTRY_SCHEMA)%string
     || is_blank (nr_registry_id r)
     || (128 <? str_len (nr_registry_id r))%N
     || (4096 <? N.of_nat (size (nr_records r)))%N
     || (16384 <? N.of_nat (size (nr_commands r)))%N
     || (16384 <? N.of_nat (size (nr_attestation_challenges r)))%N
     || (16384 <? N.of_nat (size (nr_retired_digests r)))%N
  then Err (InvalidField "registry") else
  let? _d := try_for validate_digest (bset_iter (nr_retired_digests r)) in
  let? _r := try_for (fun '(key, record) =>
               if negb (key =? ni_node_id record)%string then Err (InvalidField "node key")
               else validate_record record) (btree_iter (nr_records r)) in
  let? _a := digests_loop (nr_retired_digests r) ∅ (active_digests (btree_values (nr_records r))) in
  try_for (fun '(id, receipt) =>
    if receipt_invalid (nr_records r) id receipt then Err (InvalidField "command receipt")
    else Ok tt) (btree_iter (nr_commands r)).

(** ** Operations *)

Definition register (r : NodeIdentityRegistry) (node tenant domain digest : string) (now_ms : N)
  : Result NodeIdentityRegistry IdentityError :=
  let record := MkIdentityRecord None None node tenant domain digest None None 1 IpActive now_ms 0
                  None in
  let? _v := validate_record record in
  if set_contains digest (nr_retired_digests r) then Err IeRejected else
  if contains_key node (nr_records r) then Err InvalidTransition else
  Ok (with_records r (<[node := record]> (nr_records r))).

(** [checked_add(1)] of a revision. *)
Definition next_revision (record : NodeIdentityRecord) : Result N IdentityError :=
  match u64_checked_add (ni_revision record) 1 with
  | Some revision => Ok revision
  | None => Err IeRevisionConflict
  end.

(** A record updated in place. *)
Definition update_record (r : NodeIdentityRegistry) (node : string)
    (f : NodeIdentityRecord -> Result NodeIdentityRecord IdentityError)
  : Result NodeIdentityRegistry IdentityError :=
  match nr_records r !! node with
  | None => Err IeRejected
  | Some record =>
      let? record' := f record in Ok (with_records r (<[node := record']> (nr_records r)))
  end.

Definition prepare_rotation (r : NodeIdentityRegistry) (node : string) (expected_revision : N)
    (new_digest : string) : Result NodeIdentityRegistry IdentityError :=
  if set_contains new_digest (nr_retired_digests r) then Err IeRejected else
  update_record r node (fun record =>
    if negb (ni_revision record =? expected_revision)%N
       || negb (bool_decide (ni_phase record = IpActive))
       || (ni_current_digest record =? new_digest)%string
    then Err IeRevisionConflict else
    let? _v := validate_digest new_digest in
    let? revision := next_revision record in
    Ok (with_certificates record (ni_current_digest record) (Some new_digest)
          (ni_previous_digest record) revision IpPrepared (ni_not_before_ms record)
          (ni_expires_at_ms record) (ni_overlap_until_ms record))).

Definition activate_rotation (r : NodeIdentityRegistry) (node : string) (expected_revision : N)
    (now_ms overlap_ms : N) : Result NodeIdentityRegistry IdentityError :=
  update_record r node (fun record =>
    if negb (ni_revision record =? expected_revision)%N
       || negb (bool_decide (ni_phase record = IpPrepared))
       || (overlap_ms =? 0)%N
    then Err InvalidTransition else
    match u64_checked_add now_ms overlap_ms with
    | None => Err (InvalidField "overlap")
    | Some until =>
        let? revision := next_revision record in
        match ni_next_digest record with
        | None => Err InvalidTransition
        | Some next =>
            Ok (with_certificates record next None (Some (ni_current_digest record)) revision
                  IpOverlap now_ms (ni_expires_at_ms record) (Some until))
        end
    end).

Definition revoke (r : NodeIdentityRegistry) (node : string) (expected_revision : N)
  : Result NodeIdentityRegistry IdentityError :=
  match nr_records r !! node with
  | None => Err IeRejected
  | Some record =>
      if negb (ni_revision record =? expected_revision)%N || is_revoked record
      then Err IeRevisionConflict else
      let? revision := next_revision record in
      let retired := list_to_set (record_digests record) ∪ nr_retired_digests r in
      Ok (with_retired
            (with_records r
               (<[node := with_certificates record (ni_current_digest record) None None revision
                            IpRevoked (ni_not_before_ms record) (ni_expires_at_ms record) None]>
                  (nr_records r))) retired)
  end.

(** Whether a certificate authenticates a Node at the receive time. *)
Definition accepts (r : NodeIdentityRegistry) (node digest : string) (now_ms : N) : bool :=
  is_some_and (fun record =>
    negb (is_revoked record)
    && (ni_not_before_ms record <=? now_ms)%N
    && ((ni_expires_at_ms record =? 0)%N || (now_ms <? ni_expires_at_ms record)%N)
    && ((digest =? ni_current_digest record)%string
        || (bool_decide (ni_phase record = IpOverlap)
            && bool_decide (ni_previous_digest record = Some digest)
            && is_some_and (fun until => (now_ms <? until)%N) (ni_overlap_until_ms record))))
    (nr_records r !! node).

(** ** Commands *)

Definition reenroll (digest : string) (expires_at_ms now_ms : N) (record : NodeIdentityRecord)
  : Result NodeIdentityRecord IdentityError :=
  if negb (is_revoked record) || (ni_current_digest record =? digest)%string
     || (negb (expires_at_ms =? 0)%N && (expires_at_ms <=? now_ms)%N)
  then Err InvalidTransition else
  let? _v := validate_digest digest in
  let? revision := next_revision record in
  Ok (with_attestation
        (with_certificates record digest (ni_next_digest record) (ni_previous_digest record) revision
           IpActive now_ms expires_at_ms (ni_overlap_until_ms record))
        (ni_attestation_policy record)).

Definition configure_attestation (policy : AttestationPolicy) (record : NodeIdentityRecord)
  : Result NodeIdentityRecord IdentityError :=
  if is_some_and (fun previous =>
       negb (ap_policy_id previous =? ap_policy_id policy)%string
       || (ap_revision policy <=? ap_revision previous)%N) (ni_attestation_policy record)
  then Err IeRevisionConflict else
  let? revision := next_revision record in
  let configured := with_attestation record (Some policy) in
  Ok (with_certificates configured (ni_current_digest record) (ni_next_digest record)
        (ni_previous_digest record) revision (ni_phase record) (ni_not_before_ms record)
        (ni_expires_at_ms record) (ni_overlap_until_ms record)).

Definition renew (expires_at_ms now_ms : N) (record : NodeIdentityRecord)
  : Result NodeIdentityRecord IdentityError :=
  if (expires_at_ms =? 0)%N || (now_ms <? expires_at_ms)%N then
    let? revision := next_revision record in
    Ok (with_certificates record (ni_current_digest record) (ni_next_digest record)
          (ni_previous_digest record) revision (ni_phase record) (ni_not_before_ms record)
          expires_at_ms (ni_overlap_until_ms record))
  else Err InvalidTransition.

Definition retire_previous (r : NodeIdentityRegistry) (node : string) (record : NodeIdentityRecord)
  : Result NodeIdentityRegistry IdentityError :=
  if negb (bool_decide (ni_phase record = IpOverlap)) then Err InvalidTransition else
  let? revision := next_revision record in
  let retired := list_to_set (option_list (ni_previous_digest record)) ∪ nr_retired_digests r in
  Ok (with_retired
        (with_records r
           (<[node := with_certificates record (ni_current_digest record) (ni_next_digest record)
                        None revision IpActive (ni_not_before_ms record) (ni_expires_at_ms record)
                        None]> (nr_records r))) retired).

Definition is_reenroll (a : IdentityAction) : bool :=
  match a with IaReenroll _ _ => true | _ => false end.

(** An action on a registered Node. *)
Definition apply_existing (r : NodeIdentityRegistry) (command : IdentityCommand) (now_ms : N)
  : Result NodeIdentityRegistry IdentityError :=
  let node := ico_node_id command in
  match nr_records r !! node with
  | None => Err IeRejected
  | Some current =>
      if negb (ni_revision current =? ico_expected_revision command)%N
      then Err IeRevisionConflict else
      if (now_ms <? ni_not_before_ms current)%N
         || (is_revoked current && negb (is_reenroll (ico_action command)))
      then Err InvalidTransition else
      match ico_action command with
      | IaReenroll digest expires => update_record r node (reenroll digest expires now_ms)
      | IaPrepare digest => prepare_rotation r node (ico_expected_revision command) digest
      | IaActivate overlap =>
          if (86400000 <? overlap)%N then Err (InvalidField "overlap")
          else activate_rotation r node (ico_expected_revision command) now_ms overlap
      | IaRevoke => revoke r node (ico_expected_revision command)
      | ConfigureAttestation policy =>
          let? _v := result_map_err (fun _ => InvalidField "attestation policy")
                       (AttestationPolicy_validate policy) in
          update_record r node (configure_attestation policy)
      | RetirePrevious => retire_previous r node current
      | IaRenew expires => update_record r node (renew expires now_ms)
      | IaRegister _ _ _ _ => Err InvalidTransition
      end
  end.

(** A new Node, with the validity end of the command. *)
Definition apply_register (r : NodeIdentityRegistry) (command : IdentityCommand)
    (tenant domain digest : string) (expires_at_ms now_ms : N)
  : Result NodeIdentityRegistry IdentityError :=
  if negb (ico_expected_revision command =? 0)%N then Err IeRevisionConflict else
  let? r1 := register r (ico_node_id command) tenant domain digest now_ms in
  update_record r1 (ico_node_id command) (fun record =>
    Ok (with_certificates record (ni_current_digest record) (ni_next_digest record)
          (ni_previous_digest record) (ni_revision record) (ni_phase record)
          (ni_not_before_ms record) expires_at_ms (ni_overlap_until_ms record))).

Definition apply_action (r : NodeIdentityRegistry) (command : IdentityCommand) (now_ms : N)
  : Result NodeIdentityRegistry IdentityError :=
  match ico_action command with
  | IaRegister tenant domain digest expires =>
      apply_register r command tenant domain digest expires now_ms
  | _ => apply_existing r command now_ms
  end.

(** The serialized command. *)
Definition json_option_string (o : option string) : Json :=
  match o with Some s => JString s | None => JNull end.
Definition json_option_number (o : option N) : Json :=
  match o with Some n => JNumber (Z.of_N n) | None => JNull end.

Definition AttestationPolicy_to_json (p : AttestationPolicy) : Json :=
  JObject [("policy_id", JString (ap_policy_id p));
           ("revision", JNumber (Z.of_N (ap_revision p)));
           ("ak_public_key_pem", JString (ap_ak_public_key_pem p));
           ("qualified_signer_hex", json_option_string (ap_qualified_signer_hex p));
           ("expected_pcrs", JObject ((fun '(pcr, value) => (pretty pcr, JString value))
                                        <$> btree_iter (ap_expected_pcrs p)));
           ("firmware_version", json_option_number (ap_firmware_version p));
           ("require_safe_clock", JBool (ap_require_safe_clock p));
           ("max_age_ms", JNumber (Z.of_N (ap_max_age_ms p)));
           ("required_for_admission", JBool (ap_required_for_admission p));
           ("provisioning_evidence_digest", json_option_string (ap_provisioning_evidence_digest p))].

Definition IdentityAction_to_json (a : IdentityAction) : Json :=
  JObject match a with
  | ConfigureAttestation policy =>
      [("kind", JString "configure_attestation"); ("policy", AttestationPolicy_to_json policy)]
  | IaRegister tenant domain digest expires =>
      [("kind", JString "register"); ("tenant_id", JString tenant); ("domain_id", JString domain);
       ("digest", JString digest); ("expires_at_ms", JNumber (Z.of_N expires))]
  | IaPrepare digest => [("kind", JString "prepare"); ("digest", JString digest)]
  | IaActivate overlap =>
      [("kind", JString "activate"); ("overlap_ms", JNumber (Z.of_N overlap))]
  | RetirePrevious => [("kind", JString "retire_previous")]
  | IaRevoke => [("kind", JString "revoke")]
  | IaRenew expires => [("kind", JString "renew"); ("expires_at_ms", JNumber (Z.of_N expires))]
  | IaReenroll digest expires =>
      [("kind", JString "reenroll"); ("digest", JString digest);
       ("expires_at_ms", JNumber (Z.of_N expires))]
  end.

Definition IdentityCommand_to_json (c : IdentityCommand) : Json :=
  JObject [("command_id", JString (ico_command_id c)); ("node_id", JString (ico_node_id c));
           ("expected_revision", JNumber (Z.of_N (ico_expected_revision c)));
           ("action", IdentityAction_to_json (ico_action c))].

Section Apply.
Context `{Serde}.

Definition command_digest (command : IdentityCommand) : Result string IdentityError :=
  let? bytes := result_map_err (fun _ => InvalidField "command codec")
                  (json_to_vec (IdentityCommand_to_json command)) in
  Ok ("sha256:" ++ sha256_hex bytes).

(** The receipt of the candidate registry; [None] is an index of an absent record. *)
Definition command_receipt (candidate : NodeIdentityRegistry) (command : IdentityCommand)
    (input_digest subject : string) (now_ms : N) : option IdentityCommandReceipt :=
  record ← nr_records candidate !! ico_node_id command;
  Some (MkIdentityReceipt (ico_command_id command) input_digest (ico_node_id command)
          (ni_revision record) now_ms subject).

(** [apply]: a repeated command returns its receipt, a new one is applied to a candidate
    that must validate as a whole. *)
Definition apply_command (r : NodeIdentityRegistry) (command : IdentityCommand) (now_ms : N)
    (subject : string)
  : option (Result (NodeIdentityRegistry * IdentityCommandReceipt) IdentityError) :=
  if is_blank (ico_command_id command) || (128 <? str_len (ico_command_id command))%N
     || is_blank subject || (256 <? str_len subject)%N
  then Some (Err (InvalidField "command")) else
  match command_digest command with
  | Err e => Some (Err e)
  | Ok input_digest =>
      match nr_commands r !! ico_command_id command with
      | Some previous =>
          Some (if (ir_input_digest previous =? input_digest)%string then Ok (r, previous)
                else Err IeRevisionConflict)
      | None =>
          if (16384 <=? N.of_nat (size (nr_commands r)))%N
          then Some (Err (InvalidField "command capacity")) else
          match apply_action r command now_ms with
          | Err e => Some (Err e)
          | Ok candidate =>
              match NodeIdentityRegistry_validate candidate with
              | Err e => Some (Err e)
              | Ok _ =>
                  receipt ← command_receipt candidate command input_digest subject now_ms;
                  Some (Ok (with_command candidate receipt, receipt))
              end
          end
      end
  end.
End Apply.

(** ** Measurement updates: [replace_attestation_registry] of [core/control/src/node_identity.rs] *)

(** What an update of the measurements may not change in a record. *)
Definition record_authority_changed (old new : NodeIdentityRecord) : bool :=
  negb (ni_node_id old =? ni_node_id new)%string
  || negb (ni_tenant_id old =? ni_tenant_id new)%string
  || negb (ni_domain_id old =? ni_domain_id new)%string
  || negb (ni_current_digest old =? ni_current_digest new)%string
  || negb (bool_decide (ni_next_digest old = ni_next_digest new))
  || negb (bool_decide (ni_previous_digest old = ni_previous_digest new))
  || negb (bool_decide (ni_phase old = ni_phase new))
  || negb (ni_not_before_ms old =? ni_not_before_ms new)%N
  || negb (ni_expires_at_ms old =? ni_expires_at_ms new)%N
  || negb (bool_decide (ni_overlap_until_ms old = ni_overlap_until_ms new))
  || negb (bool_decide (ni_attestation_policy old = ni_attestation_policy new))
  || (ni_revision new <? ni_revision old)%N
  || (u64_saturating_add (ni_revision old) 1 <? ni_revision new)%N.

Definition registry_authority_changed (previous next : NodeIdentityRegistry) : bool :=
  negb (nr_registry_id previous =? nr_registry_id next)%string
  || negb (bool_decide (nr_retired_digests previous = nr_retired_digests next))
  || negb (bool_decide (nr_commands previous = nr_commands next))
  || negb (size (nr_records previous) =? size (nr_records next))%nat
  || existsb (fun '(id, old) =>
       is_none_or (record_authority_changed old) (nr_records next !! id))
       (btree_iter (nr_records previous)).
