(* ===== verification/NodeIdentityFacts.v ===== *)
(** * Facts about Node certificates

    Validation as a predicate, the certificate lifecycle of one Node as an abstract
    machine, and the simulation of it by the commands of the registry. *)

From S2P Require Import Prelude Identity Execution NodeIdentity.

Open Scope string_scope.

(** ** Validation as a predicate *)

(** The digests that can authenticate a Node now or after a rotation. *)
Definition live_digests (r : NodeIdentityRecord) : list string :=
  if is_revoked r then [] else record_digests r.

Record registry_ok (r : NodeIdentityRegistry) : Prop := MkRegistryOk {
  ro_schema : nr_schema r = NODE_IDENTITY_REGISTRY_SCHEMA;
  ro_id : is_blank (nr_registry_id r) = false /\ (str_len (nr_registry_id r) <= 128)%N;
  ro_sizes : (N.of_nat (size (nr_records r)) <= 4096)%N /\
             (N.of_nat (size (nr_commands r)) <= 16384)%N /\
             (N.of_nat (size (nr_attestation_challenges r)) <= 16384)%N /\
             (N.of_nat (size (nr_retired_digests r)) <= 16384)%N;
  ro_retired : forall d, d ∈ nr_retired_digests r -> validate_digest d = Ok tt;
  ro_records : forall k rec, nr_records r !! k = Some rec ->
    ni_node_id rec = k /\ validate_record rec = Ok tt;
  ro_fresh : forall k rec d, nr_records r !! k = Some rec -> d ∈ live_digests rec ->
    d ∉ nr_retired_digests r;
  ro_distinct : forall k rec, nr_records r !! k = Some rec -> NoDup (live_digests rec);
  ro_owner : forall k k' rec rec' d, nr_records r !! k = Some rec -> nr_records r !! k' = Some rec' ->
    d ∈ live_digests rec -> d ∈ live_digests rec' -> k = k';
  ro_receipts : forall id receipt, nr_commands r !! id = Some receipt ->
    receipt_invalid (nr_records r) id receipt = false
}.

Lemma digests_loop_iff retired l : forall seen,
  digests_loop retired seen l = Ok tt <->
  NoDup l /\ (forall d, d ∈ l -> (d ∉ retired) /\ (d ∉ seen)).
Proof.
  induction l as [|x l IH]; intros seen; simpl.
  { split; [|done]. intros _. split; [constructor|]. by intros d ?%not_elem_of_nil. }
  destruct (set_contains x retired) eqn:Er; bool_facts.
  { split; [done|]. intros [_ Hall]. by destruct (Hall x (list_elem_of_here _ _)). }
  destruct (set_contains x seen) eqn:Es; bool_facts.
  { split; [done|]. intros [_ Hall]. by destruct (Hall x (list_elem_of_here _ _)). }
  rewrite IH, NoDup_cons. split.
  - intros [Hn Hall]. split.
    + split; [|done]. intros Hx. destruct (Hall x Hx) as [_ Hs]. set_solver.
    + intros d [->|Hd]%elem_of_cons; [done|]. destruct (Hall d Hd). set_solver.
  - intros [[Hx Hn] Hall]. split; [done|]. intros d Hd.
    destruct (Hall d (list_elem_of_further _ _ _ Hd)) as [? ?]. split; [done|].
    rewrite elem_of_union, elem_of_singleton. intros [->|?]; done.
Qed.

(** Distinctness of concatenated values of a keyed list. *)
Lemma NoDup_flat_map_keyed {K V A} (g : V -> list A) (l : list (K * V)) :
  NoDup l.*1 ->
  NoDup (flat_map g l.*2) <->
  (forall k v, (k, v) ∈ l -> NoDup (g v)) /\
  (forall k k' v v' d, (k, v) ∈ l -> (k', v') ∈ l -> d ∈ g v -> d ∈ g v' -> k = k').
Proof.
  induction l as [|[k v] l IH]; intros Hn; simpl.
  { split; [|intros _; constructor]. intros _. split.
    - by intros ? ? ?%not_elem_of_nil.
    - by intros ? ? ? ? ? ?%not_elem_of_nil. }
  inversion_clear Hn as [|? ? Hk Hl]. rewrite NoDup_app, IH by done.
  assert (forall d, d ∈ flat_map g l.*2 <-> exists k' v', (k', v') ∈ l /\ d ∈ g v') as Hf.
  { intros d. rewrite list_elem_of_In, in_flat_map. setoid_rewrite <- list_elem_of_In.
    setoid_rewrite list_elem_of_fmap. split.
    - intros (v' & ((k', w) & -> & Hin) & Hd). by exists k', w.
    - intros (k' & v' & Hin & Hd). exists v'. split; [by exists (k', v')|done]. }
  split.
  - intros (Hv & Hx & Hall & Hinj). split.
    + intros k1 v1 [[= -> ->]|Hin]%elem_of_cons; [done|by eapply Hall].
    + intros k1 k2 v1 v2 d [[= -> ->]|H1]%elem_of_cons [[= -> ->]|H2]%elem_of_cons Hd1 Hd2; [done|..].
      * exfalso. apply (Hx d Hd1), Hf. eauto.
      * exfalso. apply (Hx d Hd2), Hf. eauto.
      * by eapply Hinj.
  - intros [Hall Hinj]. split_and!.
    + eapply Hall. by left.
    + intros d Hd (k' & v' & Hin & Hd')%Hf. apply Hk, list_elem_of_fmap. exists (k', v').
      split; [|done]. simpl. eapply (Hinj k k'); [by left|by right|done|done].
    + intros k' v' Hin. eapply Hall. by right.
    + intros. eapply (Hinj k0 k'); [by right|by right|done|done].
Qed.

Lemma active_digests_live records :
  active_digests records = flat_map live_digests records.
Proof.
  unfold active_digests, live_digests. induction records as [|r l IH]; [done|]. simpl.
  destruct (is_revoked r); simpl; by rewrite IH.
Qed.

Lemma digests_check_iff (records : gmap string NodeIdentityRecord) (retired : gset string) :
  digests_loop retired ∅ (active_digests (btree_values records)) = Ok tt <->
  (forall k rec d, records !! k = Some rec -> d ∈ live_digests rec ->
     d ∉ retired) /\
  (forall k rec, records !! k = Some rec -> NoDup (live_digests rec)) /\
  (forall k k' rec rec' d, records !! k = Some rec -> records !! k' = Some rec' ->
    d ∈ live_digests rec -> d ∈ live_digests rec' -> k = k').
Proof.
  rewrite digests_loop_iff, active_digests_live. unfold btree_values.
  rewrite NoDup_flat_map_keyed by apply NoDup_btree_keys.
  setoid_rewrite elem_of_btree_iter.
  assert (forall d, d ∈ flat_map live_digests (btree_iter records).*2 <->
    exists k rec, records !! k = Some rec /\ d ∈ live_digests rec) as Hf.
  { intros d. rewrite list_elem_of_In, in_flat_map. setoid_rewrite <- list_elem_of_In.
    change (btree_iter records).*2 with (btree_values records).
    setoid_rewrite elem_of_btree_values. naive_solver. }
  split.
  - intros [[Hn Hi] Hall]. split_and!; [|done|done].
    intros k rec d Hk Hd. apply (Hall d). apply Hf. eauto.
  - intros (Hfr & Hn & Hi). split; [done|]. intros d (k & rec & Hk & Hd)%Hf.
    split; [by eapply Hfr|set_solver].
Qed.

(** Validation accepts exactly the well-formed registries. *)
Lemma registry_validate_iff r : NodeIdentityRegistry_validate r = Ok tt <-> registry_ok r.
Proof.
  unfold NodeIdentityRegistry_validate. destruct (_ || _) eqn:Eb.
  { split; [done|]. intros [Hs [Hi1 Hi2] (H1 & H2 & H3 & H4) _ _ _ _ _ _].
    rewrite Hs, Hi1, String.eqb_refl, !(proj2 (N.ltb_ge _ _)) in Eb by done. done. }
  apply orb_false_iff in Eb as [Eb E4%N.ltb_ge]. apply orb_false_iff in Eb as [Eb E3%N.ltb_ge].
  apply orb_false_iff in Eb as [Eb E2%N.ltb_ge]. apply orb_false_iff in Eb as [Eb E1%N.ltb_ge].
  apply orb_false_iff in Eb as [Eb E0%N.ltb_ge].
  apply orb_false_iff in Eb as [Es%negb_false_iff%String.eqb_eq Ei].
  destruct (try_for validate_digest _) as [[]|e] eqn:Er.
  2: { split; [done|]. intros Hok. enough (try_for validate_digest
       (bset_iter (nr_retired_digests r)) = Ok tt) by congruence.
       apply try_for_ok. intros d Hd%elem_of_bset_iter. by apply (ro_retired _ Hok). }
  rewrite try_for_ok in Er. setoid_rewrite elem_of_bset_iter in Er.
  destruct (try_for _ (btree_iter (nr_records r))) as [[]|e] eqn:Ec.
  2: { split; [done|]. intros Hok. exfalso.
       assert (try_for (fun '(key, record) =>
                 if negb (key =? ni_node_id record) then Err (InvalidField "node key")
                 else validate_record record) (btree_iter (nr_records r)) = Ok tt) as E.
       { apply try_for_ok. intros [k rec] Hin%elem_of_btree_iter.
         destruct (ro_records _ Hok k rec Hin) as [-> ->]. by rewrite String.eqb_refl. }
       congruence. }
  rewrite try_for_ok in Ec.
  assert (forall k rec, nr_records r !! k = Some rec ->
            ni_node_id rec = k /\ validate_record rec = Ok tt) as Hrec.
  { intros k rec Hin%elem_of_btree_iter. specialize (Ec _ Hin). simpl in Ec.
    destruct (String.eqb_spec k (ni_node_id rec)); by simpl in Ec. }
  destruct (digests_loop _ _ _) as [[]|e] eqn:Ed.
  2: { split; [done|]. intros Hok. exfalso.
       rewrite (proj2 (digests_check_iff (nr_records r) (nr_retired_digests r))) in Ed; [done|].
       destruct Hok. by split_and!. }
  apply digests_check_iff in Ed as (H1 & H2 & H3). rewrite try_for_ok. split.
  - intros Hall. split; try done. intros id receipt Hin%elem_of_btree_iter.
    specialize (Hall _ Hin). simpl in Hall. by destruct (receipt_invalid _ _ _).
  - intros Hok [id receipt] Hin%elem_of_btree_iter. by rewrite (ro_receipts _ Hok id receipt Hin).
Qed.

Lemma validate_record_phase rec :
  validate_record rec = Ok tt -> phase_valid rec = true /\
  (ni_expires_at_ms rec = 0 \/ ni_not_before_ms rec < ni_expires_at_ms rec)%N.
Proof.
  unfold validate_record. destruct (match ni_attestation_policy rec with Some _ => _ | None => _ end);
    [|done].
  do 3 (destruct (validate_name _ _); [|done]). destruct (validate_digest _); [|done].
  destruct (_ || _) eqn:Er; [done|]. do 2 (destruct (validate_optional _); [|done]).
  destruct (phase_valid rec); [|done]. intros _. split; [done|].
  apply orb_false_iff in Er as [_ Er]. apply andb_false_iff in Er as [Er|Er]; bool_facts; auto.
Qed.

(** ** The certificate lifecycle of a Node *)

Inductive Certificates :=
| CsAbsent
| CsActive (current : string)
| CsPrepared (current next : string)
| CsOverlap (current previous : string) (until : N)
| CsRevoked (last : string).

(** What a record binds; the last case is excluded by validation. *)
Definition certificates (o : option NodeIdentityRecord) : Certificates :=
  match o with
  | None => CsAbsent
  | Some rec =>
      match ni_phase rec, ni_next_digest rec, ni_previous_digest rec, ni_overlap_until_ms rec with
      | IpActive, _, _, _ => CsActive (ni_current_digest rec)
      | IpPrepared, Some next, _, _ => CsPrepared (ni_current_digest rec) next
      | IpOverlap, _, Some previous, Some until => CsOverlap (ni_current_digest rec) previous until
      | IpRevoked, _, _, _ => CsRevoked (ni_current_digest rec)
      | _, _, _, _ => CsAbsent
      end
  end.

(** The certificates that can authenticate the Node now or after a rotation. *)
Definition bound (s : Certificates) : gset string :=
  match s with
  | CsAbsent | CsRevoked _ => ∅
  | CsActive current => {[current]}
  | CsPrepared current next => {[current; next]}
  | CsOverlap current previous _ => {[current; previous]}
  end.

Definition certificates_live (s : Certificates) : bool :=
  match s with CsAbsent | CsRevoked _ => false | _ => true end.

Definition current_of (s : Certificates) : string :=
  match s with
  | CsAbsent => ""
  | CsActive c | CsPrepared c _ | CsOverlap c _ _ | CsRevoked c => c
  end.

(** One command: the certificates and the retired set, before and after. *)
Inductive rotates (now : N) (retired : gset string)
  : Certificates -> IdentityAction -> Certificates -> gset string -> Prop :=
| rot_register tenant domain c expires :
    c ∉ retired -> rotates now retired CsAbsent (IaRegister tenant domain c expires) (CsActive c) retired
| rot_prepare c next :
    next <> c -> next ∉ retired ->
    rotates now retired (CsActive c) (IaPrepare next) (CsPrepared c next) retired
| rot_activate c next overlap :
    (0 < overlap <= 86400000)%N ->
    rotates now retired (CsPrepared c next) (IaActivate overlap) (CsOverlap next c (now + overlap)) retired
| rot_retire c previous until :
    rotates now retired (CsOverlap c previous until) RetirePrevious (CsActive c) ({[previous]} ∪ retired)
| rot_revoke s :
    certificates_live s = true -> rotates now retired s IaRevoke (CsRevoked (current_of s)) (bound s ∪ retired)
| rot_renew s expires :
    certificates_live s = true -> rotates now retired s (IaRenew expires) s retired
| rot_configure s policy :
    certificates_live s = true -> rotates now retired s (ConfigureAttestation policy) s retired
| rot_reenroll c c' expires :
    c' <> c -> c' ∉ retired ->
    rotates now retired (CsRevoked c) (IaReenroll c' expires) (CsActive c') retired.

(** The shape of an accepted action: one record changes, with the next revision. *)
Record action_effect (r : NodeIdentityRegistry) (command : IdentityCommand) (now : N)
    (r' : NodeIdentityRegistry) : Prop := MkActionEffect {
  ae_record : exists rec, nr_records r' = <[ico_node_id command := rec]> (nr_records r) /\
    ni_revision rec = (ico_expected_revision command + 1)%N /\
    (forall old, nr_records r !! ico_node_id command = Some old ->
       ni_revision old = ico_expected_revision command /\ ni_node_id rec = ni_node_id old /\
       ni_tenant_id rec = ni_tenant_id old /\ ni_domain_id rec = ni_domain_id old);
  ae_rest : nr_commands r' = nr_commands r /\ nr_schema r' = nr_schema r /\
    nr_registry_id r' = nr_registry_id r /\
    nr_attestation_challenges r' = nr_attestation_challenges r;
  ae_retired : nr_retired_digests r ⊆ nr_retired_digests r';
  ae_rotates : rotates now (nr_retired_digests r)
    (certificates (nr_records r !! ico_node_id command)) (ico_action command)
    (certificates (nr_records r' !! ico_node_id command)) (nr_retired_digests r')
}.

Lemma next_revision_Ok rec n :
  next_revision rec = Ok n -> n = (ni_revision rec + 1)%N /\ (n <= u64_max)%N.
Proof.
  unfold next_revision. destruct (u64_checked_add _ _) eqn:E; [|done]. intros [= <-].
  by apply u64_checked_add_Some in E as [-> ?].
Qed.

Lemma update_record_Ok r node f r' :
  update_record r node f = Ok r' <->
  exists rec rec', nr_records r !! node = Some rec /\ f rec = Ok rec' /\
    r' = with_records r (<[node := rec']> (nr_records r)).
Proof.
  unfold update_record. split.
  - destruct (nr_records r !! node) as [rec|]; [|done].
    destruct (f rec) as [rec'|] eqn:E; [|done]. intros [= <-]. by exists rec, rec'.
  - intros (rec & rec' & -> & -> & ->). done.
Qed.

(** A record of a known Node replaced by its successor. *)
Lemma effect_replace r command now rec rec' retired' :
  nr_records r !! ico_node_id command = Some rec ->
  ni_revision rec = ico_expected_revision command ->
  ni_revision rec' = (ni_revision rec + 1)%N -> ni_node_id rec' = ni_node_id rec ->
  ni_tenant_id rec' = ni_tenant_id rec -> ni_domain_id rec' = ni_domain_id rec ->
  nr_retired_digests r ⊆ retired' ->
  rotates now (nr_retired_digests r) (certificates (Some rec)) (ico_action command)
    (certificates (Some rec')) retired' ->
  action_effect r command now
    (with_retired (with_records r (<[ico_node_id command := rec']> (nr_records r))) retired').
Proof.
  intros Hr Hv Hn Hi Ht Hd Hs Hrot. split; simpl; [|done|done|by rewrite lookup_insert_eq, Hr].
  exists rec'. split_and!; [done|congruence|]. intros old Hold. by simplify_eq.
Qed.

Lemma with_retired_same r : with_retired r (nr_retired_digests r) = r.
Proof. by destruct r. Qed.

Lemma bound_digests rec :
  phase_valid rec = true -> is_revoked rec = false -> bound (certificates (Some rec)) = list_to_set (record_digests rec) /\
  certificates_live (certificates (Some rec)) = true /\
  current_of (certificates (Some rec)) = ni_current_digest rec.
Proof.
  intros Hphase Hr. unfold is_revoked in Hr. bool_facts. unfold phase_valid in Hphase. simpl.
  unfold record_digests. destruct (ni_phase rec); [| | |done];
    destruct (ni_next_digest rec), (ni_previous_digest rec), (ni_overlap_until_ms rec);
    simpl in Hphase; bool_facts; try done; simpl; (split_and!; [|done|done]); set_solver.
Qed.

Section Existing.
Context (r : NodeIdentityRegistry) (command : IdentityCommand) (now : N) (rec : NodeIdentityRecord).
Context (Hrec : nr_records r !! ico_node_id command = Some rec).
Context (Hphase : phase_valid rec = true).
Context (Hrev : ni_revision rec = ico_expected_revision command).

(** Updates that leave the retired digests alone. *)
Lemma effect_update f rec' :
  f rec = Ok rec' ->
  ni_revision rec' = (ni_revision rec + 1)%N -> ni_node_id rec' = ni_node_id rec ->
  ni_tenant_id rec' = ni_tenant_id rec -> ni_domain_id rec' = ni_domain_id rec ->
  rotates now (nr_retired_digests r) (certificates (Some rec)) (ico_action command)
    (certificates (Some rec')) (nr_retired_digests r) ->
  forall r', update_record r (ico_node_id command) f = Ok r' -> action_effect r command now r'.
Proof.
  intros Hf Hv Hi Ht Hd Hrot r' (old & new & Ho & Hn & ->)%update_record_Ok.
  rewrite Hrec in Ho. injection Ho as <-. rewrite Hf in Hn. injection Hn as <-.
  rewrite <- (with_retired_same (with_records r (<[ico_node_id command:=rec']> (nr_records r)))).
  by apply (effect_replace r command now rec).
Qed.

Lemma prepare_effect digest r' :
  ico_action command = IaPrepare digest ->
  prepare_rotation r (ico_node_id command) (ico_expected_revision command) digest = Ok r' ->
  action_effect r command now r'.
Proof.
  intros Ea. unfold prepare_rotation. destruct (set_contains _ _) eqn:Es; [done|].
  intros E. pose proof E as (old & new & Ho & Hn & _)%update_record_Ok.
  rewrite Hrec in Ho. injection Ho as <-.
  revert E. eapply effect_update; [exact Hn|..]; revert Hn;
    (destruct (_ || _) eqn:Eg; [done|]); (destruct (validate_digest _); [|done]);
    (destruct (next_revision rec) as [n|] eqn:En; [|done]); intros [= <-]; simpl;
    try done; [by apply next_revision_Ok in En as [-> _]|].
  bool_facts. match goal with Hp : ni_phase rec = _ |- _ => rewrite Ea, Hp end.
  apply rot_prepare; [|done]. intros ->. by rewrite String.eqb_refl in *.
Qed.

Lemma activate_effect overlap r' :
  ico_action command = IaActivate overlap -> (overlap <= 86400000)%N ->
  activate_rotation r (ico_node_id command) (ico_expected_revision command) now overlap = Ok r' ->
  action_effect r command now r'.
Proof.
  intros Ea Hle E. pose proof E as (old & new & Ho & Hn & _)%update_record_Ok.
  rewrite Hrec in Ho. injection Ho as <-.
  revert E. unfold activate_rotation.
  eapply effect_update; [exact Hn|..]; revert Hn;
    (destruct (_ || _) eqn:Eg; [done|]);
    (destruct (u64_checked_add _ _) as [until|] eqn:Eu; [|done]);
    (destruct (next_revision rec) as [n|] eqn:En; [|done]);
    (destruct (ni_next_digest rec) as [next|] eqn:Ed; [|done]); intros [= <-]; simpl;
    try done; [by apply next_revision_Ok in En as [-> _]|].
  bool_facts. apply u64_checked_add_Some in Eu as [-> _].
  match goal with Hp : ni_phase rec = _ |- _ => rewrite Ea, Hp, Ed end.
  apply rot_activate. lia.
Qed.

Lemma revoke_effect r' :
  ico_action command = IaRevoke ->
  revoke r (ico_node_id command) (ico_expected_revision command) = Ok r' ->
  action_effect r command now r'.
Proof.
  intros Ea. unfold revoke. rewrite Hrec. destruct (_ || _) eqn:Eg; [done|].
  destruct (next_revision rec) as [n|] eqn:En; [|done]. intros E. bool_facts.
  apply next_revision_Ok in En as [-> _].
  match goal with Hv : is_revoked rec = false |- _ => destruct (bound_digests rec Hphase Hv) as (Eb & El & Ec) end.
  rewrite <- Eb in E. injection E as <-.
  apply (effect_replace r command now rec); [done|done|done|done|done|done|set_solver|].
  rewrite Ea. pose proof (rot_revoke now (nr_retired_digests r) _ El) as Hrot.
  rewrite Ec in Hrot. exact Hrot.
Qed.

Lemma retire_effect r' :
  ico_action command = RetirePrevious ->
  retire_previous r (ico_node_id command) rec = Ok r' -> action_effect r command now r'.
Proof.
  intros Ea. unfold retire_previous. destruct (negb _) eqn:Ep; [done|].
  destruct (next_revision rec) as [n|] eqn:En; [|done]. intros [= <-]. bool_facts.
  apply next_revision_Ok in En as [-> _]. unfold phase_valid in Hphase. rewrite Ep in Hphase.
  destruct (ni_previous_digest rec) as [previous|] eqn:Epr; [|by rewrite andb_false_r in Hphase].
  destruct (ni_overlap_until_ms rec) as [until|] eqn:Eu; [|by rewrite andb_false_r in Hphase].
  apply (effect_replace r command now rec); [done|done|done|done|done|done|set_solver|].
  rewrite Ea. simpl. rewrite Ep, Epr, Eu.
  replace ({[previous]} ∪ ∅ : gset string) with ({[previous]} : gset string) by set_solver.
  apply rot_retire.
Qed.

(** Updates that keep the certificates. *)
Lemma same_certificates rec' :
  ni_phase rec' = ni_phase rec -> ni_current_digest rec' = ni_current_digest rec ->
  ni_next_digest rec' = ni_next_digest rec -> ni_previous_digest rec' = ni_previous_digest rec ->
  ni_overlap_until_ms rec' = ni_overlap_until_ms rec ->
  certificates (Some rec') = certificates (Some rec).
Proof. intros E1 E2 E3 E4 E5. simpl. by rewrite E1, E2, E3, E4, E5. Qed.

Lemma kept_effect f rec' r' :
  f rec = Ok rec' -> is_revoked rec = false ->
  (exists expires, ico_action command = IaRenew expires) \/
  (exists policy, ico_action command = ConfigureAttestation policy) ->
  ni_revision rec' = (ni_revision rec + 1)%N -> ni_node_id rec' = ni_node_id rec ->
  ni_tenant_id rec' = ni_tenant_id rec -> ni_domain_id rec' = ni_domain_id rec ->
  certificates (Some rec') = certificates (Some rec) ->
  update_record r (ico_node_id command) f = Ok r' -> action_effect r command now r'.
Proof.
  intros Hf Hr Ha Hv Hi Ht Hd Hc. apply (effect_update f rec'); try done. rewrite Hc.
  destruct (bound_digests rec Hphase Hr) as (_ & El & _).
  destruct Ha as [[? ->]|[? ->]]; by constructor.
Qed.

Lemma renew_effect expires r' :
  ico_action command = IaRenew expires -> is_revoked rec = false ->
  update_record r (ico_node_id command) (renew expires now) = Ok r' -> action_effect r command now r'.
Proof.
  intros Ea Hr E. pose proof E as (old & new & Ho & Hn & _)%update_record_Ok.
  rewrite Hrec in Ho. injection Ho as <-. revert E.
  apply (kept_effect _ new); [done|done|by left; eexists|..]; revert Hn; unfold renew;
    (destruct (_ || _); [|done]); (destruct (next_revision rec) as [n|] eqn:En; [|done]);
    intros [= <-]; try done. by apply next_revision_Ok in En as [-> _].
Qed.

Lemma configure_effect policy r' :
  ico_action command = ConfigureAttestation policy -> is_revoked rec = false ->
  update_record r (ico_node_id command) (configure_attestation policy) = Ok r' ->
  action_effect r command now r'.
Proof.
  intros Ea Hr E. pose proof E as (old & new & Ho & Hn & _)%update_record_Ok.
  rewrite Hrec in Ho. injection Ho as <-. revert E.
  apply (kept_effect _ new); [done|done|by right; eexists|..]; revert Hn;
    unfold configure_attestation; (destruct (is_some_and _ _); [done|]);
    (destruct (next_revision rec) as [n|] eqn:En; [|done]);
    intros [= <-]; try done. by apply next_revision_Ok in En as [-> _].
Qed.

(** Re-enrolment; that the certificate was not retired is checked by validation. *)
Lemma reenroll_effect digest expires r' :
  ico_action command = IaReenroll digest expires ->
  update_record r (ico_node_id command) (reenroll digest expires now) = Ok r' ->
  registry_ok r' -> action_effect r command now r'.
Proof.
  intros Ea E Hok. pose proof E as (old & new & Ho & Hn & Er')%update_record_Ok.
  rewrite Hrec in Ho. injection Ho as <-.
  assert (digest ∈ live_digests new -> digest ∉ nr_retired_digests r) as Hfresh.
  { intros Hd. pose proof (ro_fresh _ Hok (ico_node_id command) new digest) as Hf.
    rewrite Er' in Hf. simpl in Hf. rewrite lookup_insert_eq in Hf. by apply Hf. }
  revert E. apply (effect_update _ new); [done|..]; revert Hn Hfresh; unfold reenroll;
    (destruct (_ || _) eqn:Eg; [done|]); (destruct (validate_digest _); [|done]);
    (destruct (next_revision rec) as [n|] eqn:En; [|done]); intros [= <-] Hfresh; try done.
  - by apply next_revision_Ok in En as [-> _].
  - bool_facts. unfold is_revoked in *. bool_facts. simpl. rewrite Ea.
    match goal with Hp : ni_phase rec = IpRevoked |- _ => rewrite Hp end.
    apply rot_reenroll; [by intros ->; rewrite String.eqb_refl in *|]. apply Hfresh.
    unfold live_digests, record_digests. simpl. by left.
Qed.

Lemma existing_effect r' :
  apply_existing r command now = Ok r' -> registry_ok r' -> action_effect r command now r'.
Proof.
  unfold apply_existing. rewrite Hrec. destruct (negb _) eqn:Ev; [done|].
  destruct (_ || _) eqn:Eg; [done|]. apply orb_false_iff in Eg as [_ Eg].
  destruct (ico_action command) as [policy| |digest|overlap| | |expires|digest expires] eqn:Ea;
    simpl in Eg; rewrite ?andb_true_r in Eg; intros E Hok.
  - destruct (result_map_err _ _); [|done]. by eapply configure_effect.
  - done.
  - by eapply prepare_effect.
  - destruct (N.ltb_spec 86400000 overlap); [done|]. by eapply activate_effect.
  - by eapply retire_effect.
  - by eapply revoke_effect.
  - by eapply renew_effect.
  - by eapply reenroll_effect.
Qed.
End Existing.

(** A new Node. *)
Lemma register_effect r command now tenant domain digest expires r' :
  ico_action command = IaRegister tenant domain digest expires ->
  apply_register r command tenant domain digest expires now = Ok r' ->
  action_effect r command now r'.
Proof.
  intros Ea. unfold apply_register. destruct (negb _) eqn:Ev; [done|]. bool_facts.
  unfold register. destruct (validate_record _); [|done].
  destruct (set_contains _ _) eqn:Es; [done|]. destruct (contains_key _ _) eqn:Ec; [done|].
  bool_facts. intros (old & new & Ho & Hn & ->)%update_record_Ok. simpl in *.
  rewrite lookup_insert_eq in Ho. injection Ho as <-. injection Hn as <-. split; simpl.
  - eexists. rewrite insert_insert_eq. split_and!; [done|simpl; lia|]. intros old. by rewrite Ec.
  - done.
  - done.
  - rewrite lookup_insert_eq, Ec, Ea. simpl. by apply rot_register.
Qed.

Lemma apply_action_effect r command now r' :
  registry_ok r -> apply_action r command now = Ok r' -> registry_ok r' ->
  action_effect r command now r'.
Proof.
  intros Hr E Hr'. unfold apply_action in E.
  destruct (ico_action command) eqn:Ea; [|by eapply register_effect|..];
    (destruct (nr_records r !! ico_node_id command) as [rec|] eqn:Erec;
     [|unfold apply_existing in E; by rewrite Erec in E]);
    (destruct (ro_records _ Hr _ _ Erec) as [_ [Hp _]%validate_record_phase];
     eapply existing_effect; eauto;
     unfold apply_existing in E; rewrite Erec in E; destruct (negb _) eqn:Ev in E; [done|];
     by bool_facts).
Qed.

(** ** Runs of a registry *)

Section Runs.
Context `{Serde}.

(** [{:x}] of a SHA-256 digest is 64 lower-case hexadecimal digits. *)
Class Sha256Text : Prop := sha256_text s : is_hex (sha256_hex s) 64 = true.

Inductive identity_step : NodeIdentityRegistry -> NodeIdentityRegistry -> Prop :=
| is_command r command now subject r' receipt :
    apply_command r command now subject = Some (Ok (r', receipt)) -> identity_step r r'
| is_measure r r' :
    NodeIdentityRegistry_validate r' = Ok tt -> registry_authority_changed r r' = false ->
    identity_step r r'.

(** A command is a replay or is applied to a registry that validates. *)
Lemma apply_command_cases r command now subject r' receipt :
  apply_command r command now subject = Some (Ok (r', receipt)) ->
  exists digest, command_digest command = Ok digest /\
  ((r' = r /\ nr_commands r !! ico_command_id command = Some receipt /\
    ir_input_digest receipt = digest) \/
   (exists candidate, apply_action r command now = Ok candidate /\ registry_ok candidate /\
      nr_commands r !! ico_command_id command = None /\
      (N.of_nat (size (nr_commands r)) < 16384)%N /\ is_blank subject = false /\
      command_receipt candidate command digest subject now = Some receipt /\
      r' = with_command candidate receipt)).
Proof.
  unfold apply_command. destruct (_ || _) eqn:Eg; [done|].
  destruct (command_digest command) as [digest|]; [|done]. intros E. exists digest. split; [done|].
  destruct (nr_commands r !! ico_command_id command) as [previous|].
  - left. destruct (String.eqb_spec (ir_input_digest previous) digest); [|done]. by simplify_eq.
  - right. destruct (N.leb_spec 16384 (N.of_nat (size (nr_commands r)))); [done|].
    destruct (apply_action r command now) as [candidate|]; [|done].
    destruct (NodeIdentityRegistry_validate candidate) as [[]|] eqn:Ev; [|done].
    apply registry_validate_iff in Ev.
    destruct (command_receipt candidate _ _ _ _) as [rc|] eqn:Er; [|done]. simpl in E.
    simplify_eq. exists candidate. bool_facts. done.
Qed.

Lemma strip_prefix_app p s : strip_prefix p (p ++ s) = Some s.
Proof.
  induction p as [|a p IH]; [by destruct s|]. rewrite string_app_cons. simpl.
  by rewrite Ascii.eqb_refl.
Qed.

Lemma command_digest_prefixed command digest :
  command_digest command = Ok digest -> exists bytes, digest = "sha256:" ++ sha256_hex bytes.
Proof.
  unfold command_digest. destruct (result_map_err _ _); [|done]. intros [= <-]. by eexists.
Qed.

Lemma size_insert_fresh {A} (m : gmap string A) k x :
  m !! k = None -> size (<[k := x]> m) = S (size m).
Proof. apply map_size_insert_None. Qed.

(** The receipt added to a valid candidate keeps it valid. *)
Lemma with_command_ok `{!Sha256Text} r command now subject candidate digest receipt :
  registry_ok candidate -> action_effect r command now candidate ->
  command_digest command = Ok digest -> nr_commands r !! ico_command_id command = None ->
  (N.of_nat (size (nr_commands r)) < 16384)%N -> is_blank subject = false ->
  command_receipt candidate command digest subject now = Some receipt ->
  registry_ok (with_command candidate receipt).
Proof.
  intros Hok He Hd Hfresh Hsize Hs Hrc. unfold command_receipt in Hrc.
  destruct (ae_record _ _ _ _ He) as (rec & Erecs & Erev & _). rewrite Erecs, lookup_insert_eq in Hrc.
  injection Hrc as <-. destruct (ae_rest _ _ _ _ He) as (Ecmd & _).
  destruct Hok as [H1 H2 (S1 & S2 & S3 & S4) H4 H5 H6 H7 H8 H9]. split; simpl; try done.
  - split_and!; try done. rewrite Ecmd, size_insert_fresh by done. lia.
  - intros id rc [[<- <-]|[Hne Hid]]%lookup_insert_Some; [|by apply H9].
    destruct (command_digest_prefixed _ _ Hd) as [bytes ->]. unfold receipt_invalid.
    cbn [ir_command_id ir_revision ir_authority_subject ir_input_digest ir_node_id].
    rewrite String.eqb_refl, Hs, Erecs, lookup_insert_eq, strip_prefix_app.
    unfold validate_digest. cbn [is_some_and is_none_or]. rewrite (sha256_text bytes), Erev, N.ltb_irrefl.
    destruct (N.eqb_spec (ico_expected_revision command + 1) 0); [lia|done].
Qed.

Lemma identity_step_ok `{!Sha256Text} r r' :
  registry_ok r -> identity_step r r' -> registry_ok r'.
Proof.
  intros Hok Hs. destruct Hs as [r command now subject r' receipt E|r r' Hv _].
  - apply apply_command_cases in E as (digest & Hd & [(-> & _)|Hc]); [done|].
    destruct Hc as (candidate & Ha & Hc & Hf & Hsz & Hb & Hr & ->).
    eapply with_command_ok; eauto using apply_action_effect.
  - by apply registry_validate_iff.
Qed.

(** The record an activation leaves. *)
Lemma activate_record r command now overlap old new candidate :
  ico_action command = IaActivate overlap ->
  certificates (nr_records r !! ico_node_id command) = CsPrepared old new ->
  apply_action r command now = Ok candidate ->
  exists rec revision, nr_records candidate !! ico_node_id command =
    Some (with_certificates rec new None (Some old) revision IpOverlap now (ni_expires_at_ms rec)
            (Some (now + overlap)%N)).
Proof.
  intros Ea Hc. unfold apply_action, apply_existing. rewrite Ea.
  destruct (nr_records r !! ico_node_id command) as [rec|] eqn:Er; [|done].
  destruct (negb _); [done|]. destruct (_ || _); [done|]. destruct (_ <? _)%N; [done|].
  intros (old' & new' & Ho & Hn & ->)%update_record_Ok. rewrite Er in Ho. injection Ho as <-.
  destruct (_ || _) eqn:Eg in Hn; [done|].
  destruct (u64_checked_add now overlap) as [until|] eqn:Eu; [|done].
  apply u64_checked_add_Some in Eu as [-> _]. destruct (next_revision rec) as [n|]; [|done].
  destruct (ni_next_digest rec) as [next|] eqn:En; [|done]. injection Hn as <-.
  bool_facts. simpl in Hc. rewrite En in Hc. exists rec, n. simpl. rewrite lookup_insert_eq.
  destruct (ni_phase rec); simplify_eq/=; done.
Qed.

(** ** What a run may change *)

(** Later registries keep identities and their owners, retired digests and receipts. *)
Record identity_later (r r' : NodeIdentityRegistry) : Prop := MkIdentityLater {
  il_retired : nr_retired_digests r ⊆ nr_retired_digests r';
  il_commands : nr_commands r ⊆ nr_commands r';
  il_records : forall k rec, nr_records r !! k = Some rec ->
    exists rec', nr_records r' !! k = Some rec' /\ ni_tenant_id rec' = ni_tenant_id rec /\
      ni_domain_id rec' = ni_domain_id rec /\ (ni_revision rec <= ni_revision rec')%N
}.

#[export] Instance identity_later_preorder : PreOrder identity_later.
Proof.
  split.
  - intros r. split; [done|done|]. intros k rec Hk. exists rec. split_and!; done.
  - intros r1 r2 r3 [A1 A2 A3] [B1 B2 B3]. split; [by etrans|by etrans|].
    intros k rec Hk. destruct (A3 k rec Hk) as (rec2 & H2 & T2 & D2 & V2).
    destruct (B3 k rec2 H2) as (rec3 & H3 & T3 & D3 & V3).
    exists rec3. split_and!; try congruence. lia.
Qed.

Lemma effect_later r command now r' : action_effect r command now r' -> identity_later r r'.
Proof.
  intros [(rec & Er & Ev & Hold) (Ec & _) Hret _]. split; [done|by rewrite Ec|].
  intros k old Hk. rewrite Er. destruct (decide (k = ico_node_id command)) as [->|Hne].
  - rewrite lookup_insert_eq. destruct (Hold old Hk) as (Hv & _ & Ht & Hd).
    exists rec. split_and!; done || lia.
  - rewrite lookup_insert_ne by done. by exists old.
Qed.

Lemma with_command_later r receipt :
  nr_commands r !! ir_command_id receipt = None -> identity_later r (with_command r receipt).
Proof.
  intros Hf. split; [done|by apply insert_subseteq|].
  intros k rec Hk. exists rec. split_and!; done || lia.
Qed.

Lemma measure_later r r' : registry_authority_changed r r' = false -> identity_later r r'.
Proof.
  unfold registry_authority_changed. intros E. bool_facts.
  match goal with E : existsb _ _ = false |- _ => rename E into Hex end.
  split; [by apply reflexive_eq|by apply reflexive_eq|]. intros k rec Hk.
  apply not_true_iff_false in Hex. rewrite existsb_exists in Hex.
  destruct (nr_records r' !! k) as [rec'|] eqn:Ek.
  - exists rec'. destruct (record_authority_changed rec rec') eqn:Ec.
    + exfalso. apply Hex. exists (k, rec). split; [by apply list_elem_of_In, elem_of_btree_iter|].
      by rewrite Ek.
    + unfold record_authority_changed in Ec. bool_facts.
      repeat match goal with E : (_ =? _)%string = true |- _ => apply String.eqb_eq in E end.
      split_and!; try done.
  - exfalso. apply Hex. exists (k, rec). split; [by apply list_elem_of_In, elem_of_btree_iter|].
    by rewrite Ek.
Qed.

Lemma identity_step_later r r' : registry_ok r -> identity_step r r' -> identity_later r r'.
Proof.
  intros Hok Hs. destruct Hs as [r command now subject r' receipt E|r r' _ Hm].
  - apply apply_command_cases in E as (digest & Hd & [(-> & _)|Hc]); [done|].
    destruct Hc as (candidate & Ha & Hc & Hf & _ & _ & Hr & ->).
    pose proof (apply_action_effect _ _ _ _ Hok Ha Hc) as He.
    etrans; [by eapply effect_later|]. apply with_command_later.
    destruct (ae_rest _ _ _ _ He) as [-> _]. unfold command_receipt in Hr.
    destruct (nr_records candidate !! _); [|done]. by injection Hr as <-.
  - by apply measure_later.
Qed.

Lemma identity_run `{!Sha256Text} r r' :
  registry_ok r -> rtc identity_step r r' -> registry_ok r' /\ identity_later r r'.
Proof.
  intros Hok Hr. induction Hr as [r|r r1 r2 Hs Hr IH]; [done|].
  destruct IH as [Hok2 Hl]; [by eapply identity_step_ok|]. split; [done|].
  etrans; [by eapply identity_step_later|done].
Qed.

(** ** Revoked certificates are retired *)

Definition revoked_retired (r : NodeIdentityRegistry) : Prop :=
  forall node c, certificates (nr_records r !! node) = CsRevoked c -> c ∈ nr_retired_digests r.

Lemma rotates_retired now retired s action s' retired' c :
  rotates now retired s action s' retired' -> s' = CsRevoked c -> c ∈ retired'.
Proof.
  intros Hr ->. inversion Hr as [| | | |s0 Hl| | |]; subst; try done.
  destruct s; simpl in *; set_solver.
Qed.

Lemma effect_revoked_retired r command now r' :
  action_effect r command now r' -> revoked_retired r -> revoked_retired r'.
Proof.
  intros [(rec & Er & _) _ Hret Hrot] Hr node c Hc.
  destruct (decide (node = ico_node_id command)) as [->|Hne]; [by eapply rotates_retired|].
  rewrite Er, lookup_insert_ne in Hc by done. by eapply Hret, Hr.
Qed.

(** A measurement update keeps the certificates of every record. *)
Lemma measure_record r r' node rec :
  registry_authority_changed r r' = false -> nr_records r !! node = Some rec ->
  exists rec', nr_records r' !! node = Some rec' /\ certificates (Some rec') = certificates (Some rec).
Proof.
  unfold registry_authority_changed. intros E Hrec. bool_facts.
  match goal with E : existsb _ _ = false |- _ => rename E into Hex end.
  apply not_true_iff_false in Hex. rewrite existsb_exists in Hex.
  assert (is_none_or (record_authority_changed rec) (nr_records r' !! node) = false) as Hc.
  { apply not_true_iff_false. intros Hc. apply Hex. exists (node, rec).
    split; [by apply list_elem_of_In, elem_of_btree_iter|done]. }
  destruct (nr_records r' !! node) as [rec'|]; [|done]. exists rec'. split; [done|].
  simpl in Hc. unfold record_authority_changed in Hc. bool_facts.
  repeat match goal with H : String.eqb _ _ = true |- _ => apply String.eqb_eq in H end.
  destruct rec, rec'. simpl in *. by subst.
Qed.

Lemma measure_certificates r r' node :
  registry_authority_changed r r' = false ->
  certificates (nr_records r' !! node) = certificates (nr_records r !! node) /\
  nr_retired_digests r' = nr_retired_digests r.
Proof.
  intros Hm. pose proof (measure_record r r') as Hrec. specialize (fun n x => Hrec n x Hm).
  unfold registry_authority_changed in Hm. bool_facts. split; [|done].
  assert (dom (nr_records r) = dom (nr_records r')) as Hdom.
  { apply leibniz_equiv, set_subseteq_size_equiv.
    - intros n [rec Hn]%elem_of_dom. destruct (Hrec n rec Hn) as (rec' & ? & _).
      apply elem_of_dom. by eexists.
    - rewrite !size_dom. match goal with H : Nat.eqb _ _ = true |- _ => apply Nat.eqb_eq in H end. lia. }
  destruct (nr_records r !! node) as [rec|] eqn:E.
  - destruct (Hrec node rec E) as (rec' & -> & ->). done.
  - apply not_elem_of_dom in E. rewrite Hdom in E. apply not_elem_of_dom in E. by rewrite E.
Qed.

Lemma step_revoked_retired `{!Sha256Text} r r' :
  registry_ok r -> identity_step r r' -> revoked_retired r -> revoked_retired r'.
Proof.
  intros Hok Hs Hr. destruct Hs as [r command now subject r' receipt E|r r' _ Hm].
  - apply apply_command_cases in E as (digest & Hd & [(-> & _)|Hc]); [done|].
    destruct Hc as (candidate & Ha & Hc & _ & _ & _ & _ & ->).
    exact (effect_revoked_retired _ _ _ _ (apply_action_effect _ _ _ _ Hok Ha Hc) Hr).
  - intros node c Hc. destruct (measure_certificates _ _ node Hm) as [E ->]. apply (Hr node). congruence.
Qed.

Lemma run_revoked_retired `{!Sha256Text} r r' :
  registry_ok r -> rtc identity_step r r' -> revoked_retired r -> revoked_retired r'.
Proof.
  intros Hok Hr. induction Hr as [|r r1 r2 Hs Hr IH]; [done|]. intros Hx.
  apply IH; [by eapply identity_step_ok|by eapply step_revoked_retired].
Qed.

(** No certificate is bound to two Nodes. *)
Lemma bound_disjoint r node node' :
  registry_ok r -> node <> node' ->
  bound (certificates (nr_records r !! node)) ## bound (certificates (nr_records r !! node')).
Proof.
  intros Hok Hne d. assert (forall n, d ∈ bound (certificates (nr_records r !! n)) ->
    exists rec, nr_records r !! n = Some rec /\ d ∈ live_digests rec) as Hlive.
  { intros n Hd. destruct (nr_records r !! n) as [rec|] eqn:E; [|set_solver]. exists rec. split; [done|].
    destruct (ro_records _ Hok n rec E) as [_ [Hp _]%validate_record_phase]. unfold live_digests.
    destruct (is_revoked rec) eqn:Ev.
    - unfold is_revoked in Ev. bool_facts. simpl in Hd.
      match goal with E : ni_phase rec = _ |- _ => rewrite E in Hd end. set_solver.
    - destruct (bound_digests rec Hp Ev) as [Eb _]. rewrite Eb in Hd. by apply elem_of_list_to_set in Hd. }
  intros (rec & E & H1)%Hlive (rec' & E' & H2)%Hlive. by apply Hne, (ro_owner _ Hok _ _ rec rec' d).
Qed.

(** An accepted certificate is bound to the record. *)
Lemma accepts_live r node digest now :
  accepts r node digest now = true ->
  exists rec, nr_records r !! node = Some rec /\ digest ∈ live_digests rec.
Proof.
  unfold accepts. intros (rec & Hr & Hb)%is_some_and_true. exists rec. split; [done|].
  apply andb_true_iff in Hb as [Hb Hd]. apply andb_true_iff in Hb as [Hb _].
  apply andb_true_iff in Hb as [Hv%negb_true_iff _].
  unfold live_digests, record_digests. rewrite Hv.
  apply orb_true_iff in Hd as [->%String.eqb_eq|Hd]; [by left|].
  bool_facts. right. apply elem_of_app. right.
  match goal with E : ni_previous_digest rec = _ |- _ => rewrite E end. by left.
Qed.
End Runs.
