(* ===== verification/NodeState.v ===== *)
(** * Node registrations, health and liveness

    [node_registration.rs], [capability.rs], [node_health.rs], [lease.rs],
    [node_liveness_evidence.rs] and [node_state.rs] of [core/domain/src], and the shared
    Node state of [core/state/src/node.rs]. *)

From S2P Require Import Prelude Identity Execution StateModel Resource Scheduler.

Open Scope string_scope.

#[export] Instance CapabilityContractRef_countable : Countable CapabilityContractRef.
Proof.
  refine (inj_countable' (fun c => (ccr_namespace c, ccr_name c, ccr_version c))
    (fun '(a, b, c) => MkContract a b c) _). by intros [].
Defined.

#[export] Instance CapabilityKind_eq_dec : EqDecision CapabilityKind.
Proof. solve_decision. Defined.
#[export] Instance CapabilityKind_countable : Countable CapabilityKind.
Proof.
  refine (inj_countable'
    (fun k => match k with Mobility => 0%N | Transport => 1%N | ComputeWork => 2%N | Observation => 3%N end)
    (fun n => match n with 0%N => Mobility | 1%N => Transport | 2%N => ComputeWork | _ => Observation end) _).
  by intros [].
Defined.
#[export] Instance CapabilityContractRef_Ord : Ord CapabilityContractRef := fun x y =>
  cmp_then (cmp (ccr_namespace x) (ccr_namespace y))
    (cmp_then (cmp (ccr_name x) (ccr_name y)) (cmp (ccr_version x) (ccr_version y))).

(** ** Registrations *)

Record LocalRuntime := MkLocalRuntime { lr_name : string; lr_version : string }.

Definition LocalRuntime_new (name version : string) : Result LocalRuntime DomainError :=
  if is_blank name then Err (EmptyValue "runtime name") else
  if is_blank version then Err (EmptyValue "runtime version") else
  Ok (MkLocalRuntime name version).

Record Capability := MkCapability { cy_kind : CapabilityKind; cy_available : bool }.

Record LocalSystemDescriptor := MkLocalSystem {
  ls_id : LocalSystemId;
  ls_runtime : LocalRuntime;
  ls_metadata : gmap string string
}.

Record OperationSupport := MkOperationSupport {
  os_operation : OperationRef;
  os_local_system_id : LocalSystemId
}.

Record SensorDescriptor := MkSensor {
  se_id : SensorId;
  se_kind : string;
  se_local_system_id : LocalSystemId;
  se_metadata : gmap string string
}.

Record StateExportDescriptor := MkStateExport {
  sx_export_id : string;
  sx_local_system_id : LocalSystemId;
  sx_object : StateObjectRef;
  sx_semantic : StateSemantic;
  sx_payload_schema : string;
  sx_valid_for_ms : N
}.

Record NodeRegistration := MkRegistration {
  nd_node_id : NodeId;
  nd_local_systems : list LocalSystemDescriptor;
  nd_contract_version : NodeContractVersion;
  nd_capabilities : list Capability;
  nd_supported_contracts : list CapabilityContractRef;
  nd_capability_owners : gmap CapabilityContractRef LocalSystemId;
  nd_capability_kinds : gmap CapabilityContractRef CapabilityKind;
  nd_capability_readiness : gmap CapabilityContractRef bool;
  nd_capability_attributes : gmap CapabilityContractRef (gmap string ExecutionValue);
  nd_operation_support : list OperationSupport;
  nd_sensors : list SensorDescriptor;
  nd_resources : list Resource;
  nd_resource_owners : gmap ResourceId LocalSystemId;
  nd_state_exports : list StateExportDescriptor;
  nd_memory_providers : list MemoryProviderDescriptor
}.

Definition owns_resource (r : NodeRegistration) (id : ResourceId) (kind : option ResourceKind) : bool :=
  existsb (fun resource =>
    bool_decide (res_id resource = id)
    && is_none_or (fun expected => bool_decide (res_kind resource = expected)) kind)
    (nd_resources r).

(** [new_with_contracts]: one default local system owns everything. *)
Definition default_system : LocalSystemId := MkId "default".

Definition NodeRegistration_new_with_contracts (node : NodeId) (runtime : LocalRuntime)
    (version : NodeContractVersion) (capabilities : list Capability)
    (contracts : list CapabilityContractRef) (resources : list Resource) : NodeRegistration :=
  let each {A} (x : A) : gmap CapabilityContractRef A :=
    list_to_map ((fun contract => (contract, x)) <$> contracts) in
  MkRegistration node [MkLocalSystem default_system runtime ∅] version capabilities contracts
    (each default_system)
    (match capabilities with [c] => each (cy_kind c) | _ => ∅ end)
    (each true) ∅ [] [] resources
    (list_to_map ((fun resource => (res_id resource, default_system)) <$> resources)) [] [].

Definition NodeRegistration_new (node : NodeId) (runtime : LocalRuntime)
    (version : NodeContractVersion) (capabilities : list Capability) (resources : list Resource)
  : NodeRegistration :=
  NodeRegistration_new_with_contracts node runtime version capabilities [] resources.

(** The owner checks of [new_with_local_systems_and_readiness]. *)
Definition owners_invalid (owners : gset LocalSystemId) (kinds : gset CapabilityKind)
    (capability_owners : gmap CapabilityContractRef LocalSystemId)
    (capability_kinds : gmap CapabilityContractRef CapabilityKind)
    (sensors : list SensorDescriptor) (resources : list Resource)
    (resource_owners : gmap ResourceId LocalSystemId) : bool :=
  existsb (fun owner => negb (set_contains owner owners)) (btree_values capability_owners)
  || existsb (fun kind => negb (set_contains kind kinds)) (btree_values capability_kinds)
  || existsb (fun sensor => negb (set_contains (se_local_system_id sensor) owners)) sensors
  || negb (distinct_count (se_id <$> sensors) =? length sensors)%nat
  || existsb (fun owner => negb (set_contains owner owners)) (btree_values resource_owners)
  || negb (size resource_owners =? length resources)%nat
  || existsb (fun resource => negb (contains_key (res_id resource) resource_owners)) resources
  || existsb (fun id => negb (set_contains id (list_to_set (res_id <$> resources) : gset ResourceId)))
       (btree_keys resource_owners).

Definition NodeRegistration_new_with_local_systems_and_readiness (node : NodeId)
    (local_systems : list LocalSystemDescriptor) (version : NodeContractVersion)
    (capabilities : list Capability)
    (capability_owners : gmap CapabilityContractRef LocalSystemId)
    (capability_kinds : gmap CapabilityContractRef CapabilityKind)
    (capability_readiness : gmap CapabilityContractRef bool) (sensors : list SensorDescriptor)
    (resources : list Resource) (resource_owners : gmap ResourceId LocalSystemId)
  : Result NodeRegistration DomainError :=
  let owners := list_to_set (ls_id <$> local_systems) : gset LocalSystemId in
  let kinds := list_to_set (cy_kind <$> capabilities) : gset CapabilityKind in
  if (length local_systems =? 0)%nat || negb (size owners =? length local_systems)%nat
  then Err (InvalidMissionPlan "node local systems must be nonempty and unique") else
  if negb (bool_decide (dom capability_readiness = dom capability_owners))
     || (negb (size capability_kinds =? 0)%nat
         && negb (bool_decide (dom capability_kinds = dom capability_owners)))
  then Err (InvalidMissionPlan ("capability readiness and any supplied capability-kind map must "
              ++ "cover every configured contract exactly")) else
  if owners_invalid owners kinds capability_owners capability_kinds sensors resources resource_owners
  then Err (InvalidMissionPlan "node declaration references an unknown local system owner") else
  Ok (MkRegistration node local_systems version capabilities (btree_keys capability_owners)
        capability_owners capability_kinds capability_readiness ∅ [] sensors resources
        resource_owners [] []).

(** [new_with_local_systems]: every contract is ready, of the only capability kind if
    there is one. *)
Definition NodeRegistration_new_with_local_systems (node : NodeId)
    (local_systems : list LocalSystemDescriptor) (version : NodeContractVersion)
    (capabilities : list Capability)
    (capability_owners : gmap CapabilityContractRef LocalSystemId)
    (sensors : list SensorDescriptor) (resources : list Resource)
    (resource_owners : gmap ResourceId LocalSystemId) : Result NodeRegistration DomainError :=
  NodeRegistration_new_with_local_systems_and_readiness node local_systems version capabilities
    capability_owners
    (match capabilities with [c] => (fun _ => cy_kind c) <$> capability_owners | _ => ∅ end)
    ((fun _ => true) <$> capability_owners) sensors resources resource_owners.

Definition with_capability_attributes (r : NodeRegistration)
    (attributes : gmap CapabilityContractRef (gmap string ExecutionValue))
  : Result NodeRegistration DomainError :=
  if existsb (fun contract => negb (contains_key contract (nd_capability_owners r))
                || negb (bool_decide (contract ∈ nd_supported_contracts r))) (btree_keys attributes)
     || existsb (existsb (fun '(name, value) => is_blank name || negb (ExecutionValue_is_finite value)))
          (btree_iter <$> btree_values attributes)
  then Err (InvalidMissionPlan
              "capability attributes must belong to declared contracts and be finite")
  else Ok (MkRegistration (nd_node_id r) (nd_local_systems r) (nd_contract_version r)
             (nd_capabilities r) (nd_supported_contracts r) (nd_capability_owners r)
             (nd_capability_kinds r) (nd_capability_readiness r) attributes
             (nd_operation_support r) (nd_sensors r) (nd_resources r) (nd_resource_owners r)
             (nd_state_exports r) (nd_memory_providers r)).

Definition capability_owner (r : NodeRegistration) (contract : CapabilityContractRef)
  : option LocalSystemId := nd_capability_owners r !! contract.

Definition contract_is_available (r : NodeRegistration) (contract : CapabilityContractRef) : bool :=
  contains_key contract (nd_capability_owners r)
  && default true (nd_capability_readiness r !! contract).

(** [inferred_legacy_capability_kind]. *)
Definition inferred_legacy_capability_kind (r : NodeRegistration) : option CapabilityKind :=
  match nd_capabilities r with
  | [] => None
  | first :: rest =>
      if forallb (fun c => bool_decide (cy_kind c = cy_kind first)) rest
      then Some (cy_kind first) else None
  end.

Definition contract_is_available_for_kind (r : NodeRegistration) (contract : CapabilityContractRef)
    (kind : CapabilityKind) : bool :=
  contract_is_available r contract
  && bool_decide (match nd_capability_kinds r !! contract with
                  | Some k => Some k
                  | None => inferred_legacy_capability_kind r
                  end = Some kind).

Definition operation_owner (r : NodeRegistration) (operation : OperationRef) : option LocalSystemId :=
  os_local_system_id <$>
    List.find (fun support => bool_decide (os_operation support = operation)) (nd_operation_support r).

Definition legacy_operation_versions : list string :=
  ["roboguide.node.v0.1"; "roboguide.node.v0.2"; "roboguide.node.v0.3"; "roboguide.node.v0.4"].

Definition supports_operation (r : NodeRegistration) (operation : OperationRef) : bool :=
  existsb (fun support => bool_decide (os_operation support = operation)) (nd_operation_support r)
  || (existsb (String.eqb (as_str (nd_contract_version r))) legacy_operation_versions
      && contains_key (as_legacy_contract operation) (nd_capability_owners r)).

Definition resource_ids_of_kind (r : NodeRegistration) (kind : ResourceKind) : list ResourceId :=
  res_id <$> List.filter (fun resource => bool_decide (res_kind resource = kind)) (nd_resources r).

(** ** Health and liveness *)

Inductive NodeHealth := Online | Degraded | Offline | SafeStopped.

#[export] Instance NodeHealth_eq_dec : EqDecision NodeHealth.
Proof. solve_decision. Defined.

Definition is_schedulable (h : NodeHealth) : bool :=
  match h with Online | Degraded => true | Offline | SafeStopped => false end.

Record NodeStatus := MkNodeStatus { ns_health : NodeHealth; ns_observed_at : TimestampMs }.

Record NodeHeartbeat := MkHeartbeat {
  hb_node_id : NodeId;
  hb_lease_id : LeaseId;
  hb_status : NodeStatus
}.

Record NodeHealthObservation := MkHealthObservation {
  ho_node_id : NodeId;
  ho_status : NodeStatus;
  ho_received_at : TimestampMs
}.

Inductive NodeLiveness := Reachable | Unreachable.

#[export] Instance NodeLiveness_eq_dec : EqDecision NodeLiveness.
Proof. solve_decision. Defined.

Record NodeLivenessObservation := MkLivenessObservation {
  lo_liveness : NodeLiveness;
  lo_observed_at : TimestampMs
}.

Record NodeStateSnapshot := MkNodeSnapshot {
  sn_registration : NodeRegistration;
  sn_reported_status : NodeStatus;
  sn_reported_status_received_at : TimestampMs;
  sn_liveness : NodeLivenessObservation
}.

Definition sn_node_id (s : NodeStateSnapshot) : NodeId := nd_node_id (sn_registration s).

(** [node_liveness_evidence.rs]. *)
Record NodeSessionLivenessEvidence := MkLivenessEvidence {
  ev_node_id : NodeId;
  ev_session_id : string;
  ev_lease_id : LeaseId;
  ev_activated_at : TimestampMs;
  ev_first_sequence : N;
  ev_last_sequence : N;
  ev_first_received_at : TimestampMs;
  ev_last_received_at : TimestampMs;
  ev_maximum_gap_ms : N;
  ev_reported_health : option NodeStatus
}.

(** ** Leases: [lease.rs] *)

Record NodeLease := MkLease {
  le_lease_id : LeaseId;
  le_node_id : NodeId;
  le_issued_at : TimestampMs;
  le_expires_at : TimestampMs
}.

Definition NodeLease_new (lease_id : LeaseId) (node_id : NodeId) (issued_at : TimestampMs)
    (duration_ms : N) : Result NodeLease DomainError :=
  if (duration_ms =? 0)%N then Err (InvalidDuration "node lease") else
  match u64_checked_add issued_at duration_ms with
  | None => Err (InvalidDuration "node lease")
  | Some expires_at => Ok (MkLease lease_id node_id issued_at expires_at)
  end.

Definition is_active_at (l : NodeLease) (now : TimestampMs) : bool := (now <? le_expires_at l)%N.

Definition NodeLease_renew (l : NodeLease) (now : TimestampMs) (duration_ms : N)
  : Result NodeLease DomainError :=
  if negb (is_active_at l now) then Err (LeaseExpired "node")
  else NodeLease_new (le_lease_id l) (le_node_id l) now duration_ms.

(** ** The shared Node state: [core/state/src/node.rs] *)

Abbreviation SharedNodeState := (gmap NodeId NodeStateSnapshot).

Definition reject_older_timestamp (node_id : NodeId) (current incoming : TimestampMs)
  : Result unit SharedStateError :=
  if (incoming <? current)%N then Err (StaleObservation node_id current incoming) else Ok tt.

Definition record_node (state : SharedNodeState) (snapshot : NodeStateSnapshot)
  : Result SharedNodeState SharedStateError :=
  let? _c := match state !! sn_node_id snapshot with
             | Some current =>
                 reject_older_timestamp (sn_node_id snapshot)
                   (sn_reported_status_received_at current) (sn_reported_status_received_at snapshot)
             | None => Ok tt
             end in
  Ok (<[sn_node_id snapshot := snapshot]> state).

Definition record_node_health (state : SharedNodeState) (o : NodeHealthObservation)
  : Result SharedNodeState SharedStateError :=
  match state !! ho_node_id o with
  | None => Err (SsUnknownNode (ho_node_id o))
  | Some current =>
      let? _c := reject_older_timestamp (ho_node_id o) (sn_reported_status_received_at current)
                   (ho_received_at o) in
      let liveness := if (lo_observed_at (sn_liveness current) <=? ho_received_at o)%N
                      then MkLivenessObservation Reachable (ho_received_at o)
                      else sn_liveness current in
      Ok (<[ho_node_id o := MkNodeSnapshot (sn_registration current) (ho_status o)
                              (ho_received_at o) liveness]> state)
  end.

Definition record_node_liveness (state : SharedNodeState) (node_id : NodeId)
    (o : NodeLivenessObservation) : Result SharedNodeState SharedStateError :=
  match state !! node_id with
  | None => Err (SsUnknownNode node_id)
  | Some current =>
      let? _c := reject_older_timestamp node_id (lo_observed_at (sn_liveness current))
                   (lo_observed_at o) in
      Ok (<[node_id := MkNodeSnapshot (sn_registration current) (sn_reported_status current)
                         (sn_reported_status_received_at current) o]> state)
  end.

(** [InMemorySharedNodeState::restore]: every Node starts unreachable. *)
Definition rebased (restored_at : TimestampMs) (s : NodeStateSnapshot) : NodeStateSnapshot :=
  MkNodeSnapshot (sn_registration s) (sn_reported_status s) (sn_reported_status_received_at s)
    (MkLivenessObservation Unreachable restored_at).

Fixpoint restore_nodes (nodes : SharedNodeState) (snapshots : list NodeStateSnapshot)
    (restored_at : TimestampMs) : Result SharedNodeState string :=
  match snapshots with
  | [] => Ok nodes
  | snapshot :: snapshots' =>
      if contains_key (sn_node_id snapshot) nodes
      then Err ("checkpoint contains duplicate shared node " ++ as_str (sn_node_id snapshot))
      else restore_nodes (<[sn_node_id snapshot := rebased restored_at snapshot]> nodes) snapshots'
             restored_at
  end.

Definition snapshots (state : SharedNodeState) : list NodeStateSnapshot := btree_values state.
