(* ===== verification/Quota.v ===== *)
(** * Tenant quotas

    [core/domain/src/resource_quota.rs] and [core/control/src/quota.rs]: the revisioned
    quota policy, and the durable ledger of the logical units that committed resources
    charge to a tenant.  A failed operation leaves the ledger as it was, so an operation
    is a function to the new ledger or an error. *)

From S2P Require Import Prelude Identity Execution Resource Scheduler Sorting.

Open Scope string_scope.

(** ** The policy: [resource_quota.rs] *)

Record ResourceQuotaLimit := MkLimit {
  lim_tenant_id : string;
  lim_kind : ResourceKind;
  lim_max_units : N
}.

#[export] Instance ResourceQuotaLimit_eq_dec : EqDecision ResourceQuotaLimit.
Proof. solve_decision. Defined.

Definition limit_key (l : ResourceQuotaLimit) : string * ResourceKind :=
  (lim_tenant_id l, lim_kind l).

Record ResourceQuotaRegistry := MkQuotaRegistry {
  qr_registry_id : string;
  qr_revision : N;
  qr_limits : list ResourceQuotaLimit
}.

Definition MAX_QUOTA_UNITS : N := 1000000000.

(** The loop of [validate]; [keys] holds the keys seen. *)
Fixpoint quota_limits_loop (keys : list (string * ResourceKind))
    (previous : option (string * ResourceKind)) (l : list ResourceQuotaLimit)
  : Result unit string :=
  match l with
  | [] => Ok tt
  | limit :: l' =>
      if is_blank (lim_tenant_id limit) || (128 <? str_len (lim_tenant_id limit))%N
         || (lim_max_units limit =? 0)%N || (MAX_QUOTA_UNITS <? lim_max_units limit)%N
         || bool_decide (limit_key limit ∈ keys)
      then Err "resource quota limit is invalid or duplicated" else
      if is_some_and (fun old => negb (bool_decide (cmp old (limit_key limit) = Lt))) previous
      then Err "resource quota limits are not in canonical order"
      else quota_limits_loop (limit_key limit :: keys) (Some (limit_key limit)) l'
  end.

(** [ResourceQuotaRegistry::validate]. *)
Definition ResourceQuotaRegistry_validate (r : ResourceQuotaRegistry) : Result unit string :=
  if is_blank (qr_registry_id r) || (128 <? str_len (qr_registry_id r))%N
     || (qr_revision r =? 0)%N || (4096 <? length (qr_limits r))%nat
  then Err "resource quota registry identity or bounds are invalid"
  else quota_limits_loop [] None (qr_limits r).

(** [ResourceQuotaRegistry::validates_successor]; the identity is compared first. *)
Definition quota_validates_successor (self next : ResourceQuotaRegistry) : Result unit string :=
  let? _n := ResourceQuotaRegistry_validate next in
  if negb (qr_registry_id self =? qr_registry_id next)%string
  then Err "resource quota registry successor conflicts" else
  match u64_checked_add (qr_revision self) 1 with
  | None => Err "quota revision exhausted"
  | Some revision =>
      if negb (qr_revision next =? revision)%N
      then Err "resource quota registry successor conflicts" else Ok tt
  end.

(** ** The ledger: [quota.rs] *)

Definition MAX_RESOURCE_DEMAND_UNITS : N := 4294967295.

Record QuotaUsage := MkQuotaUsage {
  qu_tenant_id : string;
  qu_kind : ResourceKind;
  qu_used_units : N;
  qu_max_units : option N;
  qu_remaining_units : option N
}.

Record QuotaClaim := MkClaim {
  qc_claim_id : string;
  qc_tenant_id : string;
  qc_kind : ResourceKind;
  qc_units : N;
  qc_resource_id : option ResourceId;
  qc_allocation_id : option string
}.

#[export] Instance QuotaClaim_eq_dec : EqDecision QuotaClaim.
Proof. solve_decision. Defined.

Inductive QuotaError :=
| LimitMissing
| ClaimConflict
| Exceeded (limit used requested : N)
| QuotaInvalid (reason : string).

Record QuotaLedger := MkLedger {
  ql_limits : list ResourceQuotaLimit;
  ql_claims : list QuotaClaim
}.

Definition QuotaLedger_new : QuotaLedger := MkLedger [] [].

(** [validate_text]. *)
Definition quota_text (value name : string) : Result unit QuotaError :=
  if is_blank value || (256 <? str_len value)%N || contains_control value
  then Err (QuotaInvalid (name ++ " is empty or unbounded"))
  else Ok tt.

Definition resource_claim_id (resource_id : string) : string := "control-resource:" ++ resource_id.

(** The identity of an allocation claim. *)
Definition allocation_digest (id : string) : bool :=
  is_some_and (fun hex => (str_len hex =? 64)%N && all_bytes is_lower_hex hex)
    (strip_prefix "allocation:sha256:" id).

Definition claim_identity_invalid (c : QuotaClaim) : bool :=
  match qc_allocation_id c with
  | Some id =>
      is_none (qc_resource_id c) || negb (bool_decide (qc_kind c = Compute))
      || negb (qc_claim_id c =? id)%string || negb (allocation_digest id)
  | None =>
      is_some_and (fun resource => negb (qc_claim_id c =? resource_claim_id (as_str resource))%string)
        (qc_resource_id c)
  end.

Definition validate_claim (c : QuotaClaim) : Result unit QuotaError :=
  let? _i := quota_text (qc_claim_id c) "claim_id" in
  let? _t := quota_text (qc_tenant_id c) "tenant_id" in
  if (qc_units c =? 0)%N || (MAX_RESOURCE_DEMAND_UNITS <? qc_units c)%N
  then Err (QuotaInvalid "claim units are outside their bound") else
  if claim_identity_invalid c
  then Err (QuotaInvalid "resource quota claim identity does not match its reservation")
  else Ok tt.

Section Ledger.
Context (q : QuotaLedger).

Definition charged_to (tenant : string) (kind : ResourceKind) (c : QuotaClaim) : bool :=
  (qc_tenant_id c =? tenant)%string && bool_decide (qc_kind c = kind).

Definition used (tenant : string) (kind : ResourceKind) : N :=
  foldl (fun total c => u64_saturating_add total (qc_units c)) 0%N
    (List.filter (charged_to tenant kind) (ql_claims q)).

Definition limits_of (tenant : string) (kind : ResourceKind) (l : ResourceQuotaLimit) : bool :=
  (lim_tenant_id l =? tenant)%string && bool_decide (lim_kind l = kind).

Definition find_limit (tenant : string) (kind : ResourceKind) : option ResourceQuotaLimit :=
  List.find (limits_of tenant kind) (ql_limits q).

Definition remaining (tenant : string) (kind : ResourceKind) : option N :=
  (fun l => (lim_max_units l - used tenant kind)%N) <$> find_limit tenant kind.

Definition has_limit (tenant : string) (kind : ResourceKind) : bool :=
  existsb (limits_of tenant kind) (ql_limits q).

Definition claims_resource (resource_id : string) (c : QuotaClaim) : bool :=
  bool_decide (as_str <$> qc_resource_id c = Some resource_id).

Definition has_resource_claim (resource_id : string) : bool :=
  existsb (claims_resource resource_id) (ql_claims q).

(** [*existing = limit] on the first match, or push and sort. *)
Definition put_limit (limit : ResourceQuotaLimit) (l : list ResourceQuotaLimit)
  : list ResourceQuotaLimit :=
  match list_find (fun x => limits_of (lim_tenant_id limit) (lim_kind limit) x = true) l with
  | Some (i, _) => <[i := limit]> l
  | None => sort_by (by_key limit_key) (l ++ [limit])%list
  end.

Definition set_limit (tenant : string) (kind : ResourceKind) (max_units : N)
  : Result QuotaLedger QuotaError :=
  let? _t := quota_text tenant "tenant_id" in
  if (max_units =? 0)%N || (MAX_QUOTA_UNITS <? max_units)%N
  then Err (QuotaInvalid "limit is outside its bound") else
  if (max_units <? used tenant kind)%N then Err (Exceeded max_units (used tenant kind) 0)
  else Ok (MkLedger (put_limit (MkLimit tenant kind max_units) (ql_limits q)) (ql_claims q)).

(** The claim would exceed the limit of its tenant and kind. *)
Definition over_limit (max_units base units : N) : bool :=
  is_none_or (fun total => (max_units <? total)%N) (u64_checked_add base units).

Definition find_claim (claim_id : string) : option QuotaClaim :=
  List.find (fun c => (qc_claim_id c =? claim_id)%string) (ql_claims q).

Definition add_claim (c : QuotaClaim) : QuotaLedger :=
  MkLedger (ql_limits q) (sort_by (by_key qc_claim_id) (ql_claims q ++ [c])%list).

Definition track (c : QuotaClaim) : Result QuotaLedger QuotaError :=
  let? _v := validate_claim c in
  match find_claim (qc_claim_id c) with
  | Some existing => if bool_decide (existing = c) then Ok q else Err ClaimConflict
  | None =>
      match find_limit (qc_tenant_id c) (qc_kind c) with
      | Some limit =>
          let u := used (qc_tenant_id c) (qc_kind c) in
          if over_limit (lim_max_units limit) u (qc_units c)
          then Err (Exceeded (lim_max_units limit) u (qc_units c))
          else Ok (add_claim c)
      | None => Ok (add_claim c)
      end
  end.

Definition reserve (c : QuotaClaim) : Result QuotaLedger QuotaError :=
  let? _v := validate_claim c in
  if is_some (find_claim (qc_claim_id c)) then track c else
  if is_none (find_limit (qc_tenant_id c) (qc_kind c)) then Err LimitMissing else track c.

Definition with_units (c : QuotaClaim) (units : N) : QuotaClaim :=
  MkClaim (qc_claim_id c) (qc_tenant_id c) (qc_kind c) units (qc_resource_id c)
    (qc_allocation_id c).

(** The larger demand replaces the units of the claim at an index. *)
Definition grow_claim (index : nat) (existing c : QuotaClaim) : Result QuotaLedger QuotaError :=
  if negb (qc_tenant_id existing =? qc_tenant_id c)%string
     || negb (bool_decide (qc_kind existing = qc_kind c))
     || negb (bool_decide (qc_resource_id existing = qc_resource_id c))
  then Err ClaimConflict else
  if (qc_units c <=? qc_units existing)%N then Ok q else
  let grown := MkLedger (ql_limits q) (<[index := with_units existing (qc_units c)]> (ql_claims q)) in
  match find_limit (qc_tenant_id c) (qc_kind c) with
  | Some limit =>
      let used_without_claim := (used (qc_tenant_id c) (qc_kind c) - qc_units existing)%N in
      if over_limit (lim_max_units limit) used_without_claim (qc_units c)
      then Err (Exceeded (lim_max_units limit) used_without_claim (qc_units c))
      else Ok grown
  | None => Ok grown
  end.

Definition track_resource (c : QuotaClaim) : Result QuotaLedger QuotaError :=
  if is_none (qc_resource_id c)
  then Err (QuotaInvalid "resource claim lacks its exact reservation identity") else
  let? _v := validate_claim c in
  if is_some (qc_allocation_id c) then track c else
  match list_find (fun item => (qc_claim_id item =? qc_claim_id c)%string = true) (ql_claims q) with
  | Some (index, existing) => grow_claim index existing c
  | None => track c
  end.

Definition retain_claims (keep : QuotaClaim -> bool) : QuotaLedger :=
  MkLedger (ql_limits q) (List.filter keep (ql_claims q)).

Definition release_resource (resource_id : string) : QuotaLedger :=
  retain_claims (fun c => is_some (qc_allocation_id c) || negb (claims_resource resource_id c)).

Definition release_allocation (allocation_id : string) : QuotaLedger :=
  retain_claims (fun c => negb (bool_decide (qc_allocation_id c = Some allocation_id))).

(** [release] also answers whether a claim was removed. *)
Definition release (claim_id : string) : Result (QuotaLedger * bool) QuotaError :=
  let? _t := quota_text claim_id "claim_id" in
  let after := retain_claims (fun c => negb (qc_claim_id c =? claim_id)%string) in
  Ok (after, negb (length (ql_claims q) =? length (ql_claims after))%nat).

(** The pairs with a limit or a claim, in order. *)
Definition usage_keys : list (string * ResourceKind) :=
  bset_iter (list_to_set ((limit_key <$> ql_limits q)
                          ++ ((fun c => (qc_tenant_id c, qc_kind c)) <$> ql_claims q))).

Definition quota_usage : list QuotaUsage :=
  (fun k =>
     let max := lim_max_units <$> find_limit k.1 k.2 in
     MkQuotaUsage k.1 k.2 (used k.1 k.2) max ((fun l => (l - used k.1 k.2)%N) <$> max))
    <$> usage_keys.
End Ledger.

Fixpoint set_limits (q : QuotaLedger) (l : list ResourceQuotaLimit)
  : Result QuotaLedger QuotaError :=
  match l with
  | [] => Ok q
  | limit :: l' =>
      let? q1 := set_limit q (lim_tenant_id limit) (lim_kind limit) (lim_max_units limit) in
      set_limits q1 l'
  end.

Definition replace_limits (q : QuotaLedger) (limits : list ResourceQuotaLimit)
  : Result QuotaLedger QuotaError :=
  let? candidate := set_limits (MkLedger [] (ql_claims q)) limits in
  Ok (MkLedger (ql_limits candidate) (ql_claims q)).

(** The loop of [validate] over the claims; [resources] remembers for each resource
    whether its last claim was an allocation. *)
Fixpoint validate_claims (checked : QuotaLedger) (resources : gmap string bool)
    (l : list QuotaClaim) : Result unit QuotaError :=
  match l with
  | [] => Ok tt
  | c :: l' =>
      let shared := is_some (qc_allocation_id c) in
      let next := match qc_resource_id c with
                  | Some resource => <[as_str resource := shared]> resources
                  | None => resources
                  end in
      if is_some_and (fun resource =>
           is_some_and (fun before => negb before || negb shared) (resources !! as_str resource))
           (qc_resource_id c)
      then Err (QuotaInvalid "duplicate resource-backed quota claim") else
      let? checked1 := track checked c in
      validate_claims checked1 next l'
  end.

Definition QuotaLedger_validate (q : QuotaLedger) : Result unit QuotaError :=
  if not_canonical limit_key (ql_limits q) || not_canonical qc_claim_id (ql_claims q)
  then Err (QuotaInvalid "checkpointed quota entries are duplicated or not canonical") else
  let? checked := set_limits QuotaLedger_new (ql_limits q) in
  validate_claims checked ∅ (ql_claims q).
