(* ===== verification/Capacity.v ===== *)
(** * Quantitative allocations

    [core/control/src/resource_allocations.rs] with the [Reservation] of
    [coordination.rs]: the durable ledger of divisible resources.  An allocation is a
    parent commitment of units of one pool to a Task or a Context Role; Tasks borrow
    from it.  An operation that fails leaves the ledger as it was.  [None] is the
    [expect] of a failed encoding. *)

From S2P Require Import Prelude Identity Execution StateModel Resource Scheduler.
From S2P Require Import Sorting Quota.

Open Scope string_scope.

(** [coordination.rs]: the holder of a resource commitment. *)
Record Reservation := MkReservation {
  rsv_topology : option ResourceTopologyReservation;
  rsv_task_ref : TaskRef;
  rsv_role_id : RoleId;
  rsv_group_id : option ExecutionGroupId;
  rsv_scope : ResourceBindingScope;
  rsv_owner : AllocationOwner
}.

#[export] Instance Reservation_eq_dec : EqDecision Reservation.
Proof. solve_decision. Defined.

Record CapacityBorrower := MkBorrower {
  bo_task_ref : TaskRef;
  bo_role_id : RoleId;
  bo_units : N
}.

#[export] Instance CapacityBorrower_eq_dec : EqDecision CapacityBorrower.
Proof. solve_decision. Defined.

Definition borrower_key (b : CapacityBorrower) : TaskRef * RoleId := (bo_task_ref b, bo_role_id b).

Record CapacityAllocation := MkAllocation {
  al_original : ResourceAllocationGrant;
  al_reservation : Reservation;
  al_borrowers : list CapacityBorrower
}.

Record CapacityLedger := MkCapacityLedger {
  cl_generation : N;
  cl_allocations : gmap string CapacityAllocation
}.

Definition CapacityLedger_new : CapacityLedger := MkCapacityLedger 0 ∅.

Record CapacityRequest := MkCapacityRequest {
  cq_resource_id : ResourceId;
  cq_resource_class : string;
  cq_node_id : NodeId;
  cq_group_id : ExecutionGroupId;
  cq_task_ref : TaskRef;
  cq_task_role_id : RoleId;
  cq_tenant_id : string;
  cq_owner : AllocationOwner;
  cq_units : N;
  cq_parent_units : N;
  cq_capacity : N
}.

Definition is_context (o : AllocationOwner) : bool :=
  match o with OwnerContext _ _ _ => true | OwnerTask _ => false end.

Definition owner_scope (o : AllocationOwner) : ResourceBindingScope :=
  if is_context o then ScopeContext else ScopeTask.

Section Ledger.
Context `{Serde} (ledger : CapacityLedger).

Definition records : list CapacityAllocation := btree_values (cl_allocations ledger).

(** The original was admitted for the owner of the request; a Task owner also fixes
    the Role. *)
Definition same_owner (request : CapacityRequest) (g : ResourceAllocationGrant) : bool :=
  bool_decide (rg_owner g = cq_owner request)
  && (is_context (cq_owner request) || bool_decide (rg_role_id g = cq_task_role_id request)).

Definition owner_matches (request : CapacityRequest) (record : CapacityAllocation) : bool :=
  let g := al_original record in
  bool_decide (rg_resource_id g = cq_resource_id request)
  && bool_decide (rg_group_id g = cq_group_id request)
  && bool_decide (rg_node_id g = cq_node_id request)
  && same_owner request g.

Definition owner_allocation (request : CapacityRequest) : option CapacityAllocation :=
  List.find (owner_matches request) records.

Definition allocated_units (resource : ResourceId) (record : CapacityAllocation) : N :=
  if bool_decide (rg_resource_id (al_original record) = resource)
  then rg_allocation_units (al_original record) else 0%N.

Definition committed_units (resource : ResourceId) : N := total (allocated_units resource) records.

(** The owner already holds another pool or Node in the Group. *)
Definition owner_moved (request : CapacityRequest) (record : CapacityAllocation) : bool :=
  let g := al_original record in
  bool_decide (rg_group_id g = cq_group_id request) && same_owner request g
  && (negb (bool_decide (rg_resource_id g = cq_resource_id request))
      || negb (bool_decide (rg_node_id g = cq_node_id request))).

Definition request_borrower (request : CapacityRequest) : CapacityBorrower :=
  MkBorrower (cq_task_ref request) (cq_task_role_id request) (cq_units request).

Definition borrows (task : TaskRef) (role : RoleId) (b : CapacityBorrower) : bool :=
  bool_decide (bo_task_ref b = task) && bool_decide (bo_role_id b = role).

(** The grant of one borrower of an original allocation. *)
Definition borrower_grant (g : ResourceAllocationGrant) (task : TaskRef) (role : RoleId) (units : N)
  : ResourceAllocationGrant :=
  MkGrant (rg_schema g) (rg_allocation_id g) (rg_generation g) (rg_resource_id g)
    (rg_resource_class g) (rg_node_id g) (rg_group_id g) (rg_owner g) (rg_tenant_id g) task role
    units (rg_allocation_units g) (rg_admitted_capacity g).

Definition with_borrowers (record : CapacityAllocation) (l : list CapacityBorrower)
  : CapacityAllocation := MkAllocation (al_original record) (al_reservation record) l.

(** Another borrower of an allocation that exists. *)
Definition admit_existing (request : CapacityRequest) (existing : CapacityAllocation)
  : Result (CapacityLedger * ResourceAllocationGrant) ControlError :=
  let g := al_original existing in
  if negb (rg_resource_class g =? cq_resource_class request)%string
     || negb (rg_tenant_id g =? cq_tenant_id request)%string
     || negb (rg_allocation_units g =? cq_parent_units request)%N
     || (cq_capacity request <? committed_units (cq_resource_id request))%N
  then Err (AssignmentUnavailable "original allocation tenant or capacity no longer matches") else
  let grant := borrower_grant g (cq_task_ref request) (cq_task_role_id request) (cq_units request) in
  match List.find (borrows (cq_task_ref request) (cq_task_role_id request)) (al_borrowers existing) with
  | Some original =>
      if negb (bool_decide (original = request_borrower request))
      then Err (InvalidProposal "original resource borrower changed its demand")
      else Ok (ledger, grant)
  | None =>
      if (rg_allocation_units g <? total bo_units (al_borrowers existing) + cq_units request)%N
      then Err (AssignmentUnavailable "original Context allocation has no available borrower units")
      else Ok (MkCapacityLedger (cl_generation ledger)
                 (<[rg_allocation_id g :=
                      with_borrowers existing
                        (sort_by (by_key borrower_key)
                           (al_borrowers existing ++ [request_borrower request])%list)]>
                    (cl_allocations ledger)), grant)
  end.

Definition new_grant (request : CapacityRequest) (generation : N) (id : string)
  : ResourceAllocationGrant :=
  MkGrant GRANT_SCHEMA id generation (cq_resource_id request) (cq_resource_class request)
    (cq_node_id request) (cq_group_id request) (cq_owner request) (cq_tenant_id request)
    (cq_task_ref request) (cq_task_role_id request) (cq_units request) (cq_parent_units request)
    (cq_capacity request).

Definition new_allocation (request : CapacityRequest) (grant : ResourceAllocationGrant)
  : CapacityAllocation :=
  MkAllocation grant
    (MkReservation None (cq_task_ref request) (cq_task_role_id request) None
       (owner_scope (cq_owner request)) (cq_owner request))
    [request_borrower request].

(** The first borrower creates the allocation with the next generation. *)
Definition admit_new (request : CapacityRequest)
  : option (Result (CapacityLedger * ResourceAllocationGrant) ControlError) :=
  if (16384 <=? N.of_nat (length records))%N
     || existsb (fun record =>
          bool_decide (rg_resource_id (al_original record) = cq_resource_id request)
          && negb (bool_decide (rg_node_id (al_original record) = cq_node_id request))) records
     || (cq_capacity request <? committed_units (cq_resource_id request) + cq_parent_units request)%N
  then Some (Err (AssignmentUnavailable "declared pool has no available original capacity")) else
  match u64_checked_add (cl_generation ledger) 1 with
  | None => Some (Err (InvalidProposal "capacity generation exhausted"))
  | Some generation =>
      id ← original_allocation_id (new_grant request generation "");
      let grant := new_grant request generation id in
      valid ← ResourceAllocationGrant_validate grant;
      match valid with
      | Err reason => Some (Err (InvalidProposal reason))
      | Ok _ =>
          Some (Ok (MkCapacityLedger generation
                      (<[id := new_allocation request grant]> (cl_allocations ledger)), grant))
      end
  end.

Definition CapacityLedger_admit (request : CapacityRequest)
  : option (Result (CapacityLedger * ResourceAllocationGrant) ControlError) :=
  if (cq_units request =? 0)%N || (cq_parent_units request <? cq_units request)%N
     || (cq_capacity request <? cq_parent_units request)%N || is_blank (cq_tenant_id request)
  then Some (Err (AssignmentUnavailable "divisible demand exceeds its current declaration")) else
  if existsb (owner_moved request) records
  then Some (Err (AssignmentUnavailable
                    "original quantitative owner cannot change its selected pool or Node")) else
  match owner_allocation request with
  | Some existing => Some (admit_existing request existing)
  | None => admit_new request
  end.

(** [binding]: the allocation a Task and Role borrow from. *)
Definition binding (resource : ResourceId) (group : ExecutionGroupId) (task : TaskRef)
    (role : RoleId) : option CapacityAllocation :=
  List.find (fun record =>
    bool_decide (rg_resource_id (al_original record) = resource)
    && bool_decide (rg_group_id (al_original record) = group)
    && existsb (borrows task role) (al_borrowers record)) records.

(** [resource_allocation_grants]: the loop over the allocations of a Group. *)
Fixpoint allocation_grants_loop (group : ExecutionGroupId) (task : TaskRef) (role : RoleId)
    (l : list CapacityAllocation) : Result (list ResourceAllocationGrant) ControlError :=
  match l with
  | [] => Ok []
  | record :: l' =>
      if negb (bool_decide (rg_group_id (al_original record) = group))
      then allocation_grants_loop group task role l' else
      match List.find (borrows task role) (al_borrowers record) with
      | None => allocation_grants_loop group task role l'
      | Some borrower =>
          if negb (bool_decide (rsv_group_id (al_reservation record) = Some group))
          then Err (InvalidProposal "unbound allocation cannot grant Execute") else
          let? rest := allocation_grants_loop group task role l' in
          Ok (borrower_grant (al_original record) task role (bo_units borrower) :: rest)
      end
  end.

Definition resource_allocation_grants (group : ExecutionGroupId) (task : TaskRef) (role : RoleId)
  : Result (list ResourceAllocationGrant) ControlError :=
  let? grants := allocation_grants_loop group task role records in
  Ok (sort_by (fun l r => cmp (rg_resource_id l) (rg_resource_id r)) grants).

(** [capacity_conflict]. *)
Definition capacity_conflict (resource : ResourceId) : option Reservation :=
  al_reservation <$>
    List.find (fun record => bool_decide (rg_resource_id (al_original record) = resource)) records.

Definition shared_selection (group : ExecutionGroupId) (task : TaskRef) (role : RoleId)
    (resource : ResourceId) : bool := is_some (binding resource group task role).
End Ledger.

(** ** Binding and committing *)

(** [binding_reservation_mut(..).group_id = Some(group)] on the first allocation of the
    resource in the Group that the Task and Role borrow from. *)
Definition bind_allocation (ledger : CapacityLedger) (resource : ResourceId)
    (group : ExecutionGroupId) (task : TaskRef) (role : RoleId) : CapacityLedger :=
  match List.find (fun entry : string * CapacityAllocation =>
    bool_decide (rg_resource_id (al_original entry.2) = resource)
    && bool_decide (rg_group_id (al_original entry.2) = group)
    && existsb (borrows task role) (al_borrowers entry.2)) (btree_iter (cl_allocations ledger)) with
  | None => ledger
  | Some (id, record) =>
      let r := al_reservation record in
      MkCapacityLedger (cl_generation ledger)
        (<[id := MkAllocation (al_original record)
                   (MkReservation (rsv_topology r) (rsv_task_ref r) (rsv_role_id r) (Some group)
                      (rsv_scope r) (rsv_owner r)) (al_borrowers record)]> (cl_allocations ledger))
  end.

(** One demand of a Commit batch after its Role, Node and owner were looked up. *)
Inductive CommitDemand :=
| ExclusiveDemand (resource : ResourceId) (tenant : string) (kind : ResourceKind) (units : N)
| SharedDemand (request : CapacityRequest).

Definition exclusive_claim (resource : ResourceId) (tenant : string) (kind : ResourceKind)
    (units : N) : QuotaClaim :=
  MkClaim (resource_claim_id (as_str resource)) tenant kind units (Some resource) None.

Definition allocation_claim (request : CapacityRequest) (grant : ResourceAllocationGrant)
  : QuotaClaim :=
  MkClaim (rg_allocation_id grant) (cq_tenant_id request) Compute (rg_allocation_units grant)
    (Some (cq_resource_id request)) (Some (rg_allocation_id grant)).

(** [QuotaError]'s [Display]. *)
Definition quota_error_text (e : QuotaError) : string :=
  match e with
  | LimitMissing => "quota limit is not configured"
  | ClaimConflict => "quota claim identity conflicts"
  | Exceeded limit used requested =>
      "quota exceeded: limit=" ++ pretty limit ++ ", used=" ++ pretty used ++ ", requested="
        ++ pretty requested
  | QuotaInvalid reason => "invalid quota: " ++ reason
  end.

(** The inner loop of [capacity_commit_candidate]: the candidate ledgers after one demand. *)
Definition commit_demand `{Serde} (ledger : CapacityLedger)
    (quota : QuotaLedger) (demand : CommitDemand)
  : option (Result (CapacityLedger * QuotaLedger) ControlError) :=
  match demand with
  | ExclusiveDemand resource tenant kind units =>
      if (0 <? committed_units ledger resource)%N
      then Some (Err (AssignmentUnavailable "exclusive resource has retained quantitative owners"))
      else Some (let? quota1 := result_map_err (fun e => InvalidProposal (quota_error_text e))
                                  (track_resource quota (exclusive_claim resource tenant kind units)) in
                 Ok (ledger, quota1))
  | SharedDemand request =>
      admitted ← CapacityLedger_admit ledger request;
      match admitted with
      | Err e => Some (Err e)
      | Ok (ledger1, grant) =>
          Some (let? quota1 := result_map_err (fun e => InvalidProposal (quota_error_text e))
                                 (track_resource quota (allocation_claim request grant)) in
                Ok (ledger1, quota1))
      end
  end.

Fixpoint commit_demands `{Serde} (ledger : CapacityLedger)
    (quota : QuotaLedger) (l : list CommitDemand)
  : option (Result (CapacityLedger * QuotaLedger) ControlError) :=
  match l with
  | [] => Some (Ok (ledger, quota))
  | demand :: l' =>
      step ← commit_demand ledger quota demand;
      match step with
      | Err e => Some (Err e)
      | Ok (ledger1, quota1) => commit_demands ledger1 quota1 l'
      end
  end.

(** ** Checkpoint validation *)

(** What the loop of [validate] accumulates: the owners and the generations seen, and for
    each pool its Node, unit class, committed units and largest admitted capacity.  The
    JSON text of an owner is injective, so the set of texts is the set of keys. *)
Definition owner_key_of (g : ResourceAllocationGrant)
  : ExecutionGroupId * ResourceId * AllocationOwner * option RoleId :=
  (rg_group_id g, rg_resource_id g, rg_owner g,
   if is_context (rg_owner g) then None else Some (rg_role_id g)).

Record LedgerCheck := MkLedgerCheck {
  lc_owners : list (ExecutionGroupId * ResourceId * AllocationOwner * option RoleId);
  lc_generations : gset N;
  lc_pools : gmap ResourceId (NodeId * string * N * N)
}.

(** Borrowers have units, belong to the Mission and are distinct; the sum of their units. *)
Fixpoint borrowers_loop (mission : MissionId) (seen : list (TaskRef * RoleId)) (sum : N)
    (l : list CapacityBorrower) : Result N ControlError :=
  match l with
  | [] => Ok sum
  | b :: l' =>
      if (bo_units b =? 0)%N || negb (bool_decide (tr_mission_id (bo_task_ref b) = mission))
         || bool_decide (borrower_key b ∈ seen)
      then Err (InvalidProposal "capacity borrower identity or units are invalid")
      else borrowers_loop mission (borrower_key b :: seen) (sum + bo_units b)%N l'
  end.

(** A Task allocation has its admitting borrower and no other. *)
Definition task_borrowers_changed (record : CapacityAllocation) : bool :=
  let g := al_original record in
  match al_borrowers record with
  | [b] => negb (bool_decide (b = MkBorrower (rg_task_ref g) (rg_role_id g) (rg_units g)))
  | _ => true
  end.

Definition ownership_changed (generation : N) (check : LedgerCheck) (id : string)
    (record : CapacityAllocation) (expected : string) : bool :=
  let g := al_original record in
  let r := al_reservation record in
  negb (id =? rg_allocation_id g)%string || negb (id =? expected)%string
  || (generation <? rg_generation g)%N || set_contains (rg_generation g) (lc_generations check)
  || negb (bool_decide (rsv_task_ref r = rg_task_ref g))
  || negb (bool_decide (rsv_role_id r = rg_role_id g))
  || (16384 <? N.of_nat (length (al_borrowers record)))%N
  || negb (bool_decide (rsv_scope r = owner_scope (rg_owner g)))
  || negb (bool_decide (rsv_owner r = rg_owner g))
  || is_some_and (fun group => negb (bool_decide (group = rg_group_id g))) (rsv_group_id r)
  || bool_decide (owner_key_of g ∈ lc_owners check).

(** One record of the loop of [validate]. *)
Definition check_record `{Serde} (generation : N) (check : LedgerCheck) (id : string)
    (record : CapacityAllocation) : option (Result LedgerCheck ControlError) :=
  let g := al_original record in
  let '(node, class, units, capacity) :=
    default (rg_node_id g, rg_resource_class g, 0%N, rg_admitted_capacity g)
      (lc_pools check !! rg_resource_id g) in
  if negb (bool_decide (node = rg_node_id g)) || negb (class =? rg_resource_class g)%string
  then Some (Err (InvalidProposal
                    "allocated resource has conflicting original Node or unit classes")) else
  valid ← ResourceAllocationGrant_validate g;
  match valid with
  | Err reason => Some (Err (InvalidProposal reason))
  | Ok _ =>
      expected ← original_allocation_id g;
      if ownership_changed generation check id record expected
      then Some (Err (InvalidProposal "capacity ledger original ownership or generation changed"))
      else
      if is_none (rsv_group_id (al_reservation record))
         && negb (existsb (fun b => bool_decide
              (b = MkBorrower (rg_task_ref g) (rg_role_id g) (rg_units g))) (al_borrowers record))
      then Some (Err (InvalidProposal
                        "unbound capacity parent lost its original admitting borrower")) else
      match borrowers_loop (tr_mission_id (rg_task_ref g)) [] 0 (al_borrowers record) with
      | Err e => Some (Err e)
      | Ok sum =>
          if (rg_allocation_units g <? sum)%N
             || (negb (is_context (rg_owner g)) && task_borrowers_changed record)
          then Some (Err (InvalidProposal "capacity borrowers exceed original allocation"))
          else Some (Ok (MkLedgerCheck (owner_key_of g :: lc_owners check)
                 ({[rg_generation g]} ∪ lc_generations check)
                 (<[rg_resource_id g := (node, class, (units + rg_allocation_units g)%N,
                                         N.max capacity (rg_admitted_capacity g))]>
                    (lc_pools check))))
      end
  end.

Fixpoint check_records `{Serde} (generation : N) (check : LedgerCheck)
    (l : list (string * CapacityAllocation)) : option (Result LedgerCheck ControlError) :=
  match l with
  | [] => Some (Ok check)
  | (id, record) :: l' =>
      step ← check_record generation check id record;
      match step with
      | Err e => Some (Err e)
      | Ok check1 => check_records generation check1 l'
      end
  end.

(** [CapacityLedger::validate]. *)
Definition CapacityLedger_validate `{Serde} (ledger : CapacityLedger)
  : option (Result unit ControlError) :=
  if (16384 <? N.of_nat (length (records ledger)))%N
  then Some (Err (InvalidProposal "capacity ledger exceeds its bound")) else
  result ← check_records (cl_generation ledger) (MkLedgerCheck [] ∅ ∅)
             (btree_iter (cl_allocations ledger));
  match result with
  | Err e => Some (Err e)
  | Ok check =>
      if existsb (fun pool : NodeId * string * N * N => (pool.2 <? pool.1.2)%N)
           (btree_values (lc_pools check))
      then Some (Err (InvalidProposal
                        "original pool commitments exceed every retained source capacity"))
      else Some (Ok tt)
  end.

(** ** Releases

    The fields of [ControlPlane] a release changes. *)

Record CapacityAuthority := MkCapacityAuthority {
  cau_calendar_version : N;
  cau_capacity_ledger : CapacityLedger;
  cau_quota_ledger : QuotaLedger
}.

(** [allocations.retain(..)] with the quota claims of the removed allocations released;
    [f] is the kept record or [None]. *)
Definition retain_allocations (f : CapacityAllocation -> option CapacityAllocation)
    (a : CapacityAuthority) : CapacityAuthority :=
  let before := cl_allocations (cau_capacity_ledger a) in
  let after := omap f before in
  let removed := List.filter (fun id => negb (contains_key id after)) (btree_keys before) in
  MkCapacityAuthority (u64_saturating_add (cau_calendar_version a) 1)
    (MkCapacityLedger (cl_generation (cau_capacity_ledger a)) after)
    (foldl release_allocation (cau_quota_ledger a) removed).

(** The borrowers of another Task, or of another Role when one is given, stay. *)
Definition keeps_borrower (task : TaskRef) (role : option RoleId) (b : CapacityBorrower) : bool :=
  negb (bool_decide (bo_task_ref b = task))
  || is_some_and (fun r => negb (bool_decide (bo_role_id b = r))) role.

Definition after_task_release (group : ExecutionGroupId) (task : TaskRef) (role : option RoleId)
    (record : CapacityAllocation) : option CapacityAllocation :=
  if negb (bool_decide (rg_group_id (al_original record) = group)) then Some record else
  let l := List.filter (keeps_borrower task role) (al_borrowers record) in
  if is_context (rg_owner (al_original record)) || negb (length l =? 0)%nat
  then Some (with_borrowers record l) else None.

Definition release_capacity_task (group : ExecutionGroupId) (task : TaskRef) (role : option RoleId)
  : CapacityAuthority -> CapacityAuthority :=
  retain_allocations (after_task_release group task role).

Definition of_context (context : CoordinationContextId) (o : AllocationOwner) : bool :=
  match o with
  | OwnerContext _ context_id _ => bool_decide (context_id = context)
  | OwnerTask _ => false
  end.

Definition after_context_release (group : ExecutionGroupId) (context : CoordinationContextId)
    (record : CapacityAllocation) : option CapacityAllocation :=
  if bool_decide (rg_group_id (al_original record) = group)
     && of_context context (rg_owner (al_original record))
  then None else Some record.

Definition release_capacity_context (group : ExecutionGroupId) (context : CoordinationContextId)
  : CapacityAuthority -> CapacityAuthority :=
  retain_allocations (after_context_release group context).

Definition after_group_release (group : ExecutionGroupId) (record : CapacityAllocation)
  : option CapacityAllocation :=
  if bool_decide (rg_group_id (al_original record) = group) then None else Some record.

Definition release_capacity_group (group : ExecutionGroupId)
  : CapacityAuthority -> CapacityAuthority := retain_allocations (after_group_release group).
