(* ===== verification/QuotaFacts.v ===== *)
(** * Facts about the quota ledger

    The invariant of the ledger, its preservation by every operation, and the exact
    language of its validation. *)

From S2P Require Import Prelude Identity Execution StateModel Resource Sorting Scheduler Quota.
From S2P Require Import Capacity.

(** The units a claim charges to a tenant and kind. *)
Definition charge (tenant : string) (kind : ResourceKind) (c : QuotaClaim) : N :=
  if charged_to tenant kind c then qc_units c else 0%N.

(** The exact use, without saturation. *)
Definition committed (q : QuotaLedger) (tenant : string) (kind : ResourceKind) : N :=
  total (charge tenant kind) (ql_claims q).

Lemma total_filter_charge tenant kind l :
  total qc_units (List.filter (charged_to tenant kind) l) = total (charge tenant kind) l.
Proof.
  induction l as [|c l IH]; simpl; [done|]. unfold charge at 1.
  destruct (charged_to tenant kind c); simpl; by rewrite IH.
Qed.

Lemma used_committed q tenant kind : used q tenant kind = N.min (committed q tenant kind) u64_max.
Proof.
  unfold used, committed. rewrite <- total_filter_charge.
  pose proof (saturating_total qc_units (List.filter (charged_to tenant kind) (ql_claims q)) 0) as E.
  by rewrite N.add_0_l in E.
Qed.

Definition limit_ok (l : ResourceQuotaLimit) : Prop :=
  quota_text (lim_tenant_id l) "tenant_id" = Ok tt /\
  (0 < lim_max_units l <= MAX_QUOTA_UNITS)%N.

(** One limit per tenant and kind and one claim per identity, both in order and valid,
    and no limit is exceeded. *)
Record ledger_ok (q : QuotaLedger) : Prop := {
  lo_limits : canonical limit_key (ql_limits q);
  lo_claims : canonical qc_claim_id (ql_claims q);
  lo_limit_ok : forall l, l ∈ ql_limits q -> limit_ok l;
  lo_claim_ok : forall c, c ∈ ql_claims q -> validate_claim c = Ok tt;
  lo_within : forall l, l ∈ ql_limits q ->
    (committed q (lim_tenant_id l) (lim_kind l) <= lim_max_units l)%N
}.

Lemma ledger_ok_new : ledger_ok QuotaLedger_new.
Proof. split; [apply canonical_nil..|by intros ? ?%not_elem_of_nil|by intros ? ?%not_elem_of_nil|by intros ? ?%not_elem_of_nil]. Qed.

Lemma max_quota_u64 : (MAX_QUOTA_UNITS < u64_max)%N.
Proof. reflexivity. Qed.

Lemma limits_of_true tenant kind l : limits_of tenant kind l = true <-> limit_key l = (tenant, kind).
Proof.
  unfold limits_of, limit_key. rewrite andb_true_iff, String.eqb_eq, bool_decide_eq_true.
  split; [intros [-> ->]|intros [= -> ->]]; done.
Qed.

Lemma find_limit_Some q tenant kind l :
  find_limit q tenant kind = Some l ->
  l ∈ ql_limits q /\ lim_tenant_id l = tenant /\ lim_kind l = kind.
Proof. intros [Hin Hk%limits_of_true]%find_elem. by injection Hk as <- <-. Qed.

(** A ledger is within its limit exactly when the saturating use is. *)
Lemma used_within q l :
  limit_ok l ->
  (used q (lim_tenant_id l) (lim_kind l) <= lim_max_units l)%N <->
  (committed q (lim_tenant_id l) (lim_kind l) <= lim_max_units l)%N.
Proof. intros [_ [_ Hm]]. rewrite used_committed. pose proof max_quota_u64. lia. Qed.

Lemma used_exact q l :
  ledger_ok q -> l ∈ ql_limits q ->
  used q (lim_tenant_id l) (lim_kind l) = committed q (lim_tenant_id l) (lim_kind l).
Proof.
  intros Hq Hl. rewrite used_committed. pose proof (lo_within _ Hq l Hl).
  destruct (lo_limit_ok _ Hq l Hl) as [_ [_ Hm]]. pose proof max_quota_u64. lia.
Qed.

Lemma over_limit_false max base units :
  (max <= MAX_QUOTA_UNITS)%N -> over_limit max base units = false <-> (base + units <= max)%N.
Proof.
  intros Hm. pose proof max_quota_u64. unfold over_limit, u64_checked_add.
  destruct (N.leb_spec (base + units) u64_max); simpl; [rewrite N.ltb_ge; lia|].
  split; [done|lia].
Qed.

(** ** Limits *)

Lemma put_limit_perm limit l :
  canonical limit_key l ->
  canonical limit_key (put_limit limit l) /\
  forall x, x ∈ put_limit limit l <-> x = limit \/ (x ∈ l /\ limit_key x <> limit_key limit).
Proof.
  intros Hc. unfold put_limit. destruct (list_find _ l) as [[i y]|] eqn:E.
  - apply list_find_Some in E as (Hi & Hy%limits_of_true & _).
    split; [by eapply canonical_replace|]. intros x. split.
    + intros (j & Hj)%list_elem_of_lookup. apply list_lookup_insert_Some in Hj.
      destruct Hj as [(-> & -> & _)|[Hne Hj]]; [by left|right].
      split; [by eapply list_elem_of_lookup_2|]. intros Ek.
      assert (x = y) as -> by (apply (canonical_key_inj limit_key l); [done|
        by eapply list_elem_of_lookup_2|by eapply list_elem_of_lookup_2|by rewrite Ek, Hy]).
      apply Hne. eapply (NoDup_lookup (limit_key <$> l)); [by apply canonical_NoDup|
        rewrite list_lookup_fmap, Hi; done|rewrite list_lookup_fmap, Hj; done].
    + intros [->|[Hx Hne]].
      * eapply list_elem_of_lookup_2, list_lookup_insert_eq, lookup_lt_Some, Hi.
      * apply list_elem_of_lookup in Hx as [j Hj].
        apply (list_elem_of_lookup_2 _ j). rewrite list_lookup_insert_ne; [done|].
        intros ->. simplify_eq.
  - apply list_find_None in E. rewrite Forall_forall in E.
    assert (forall y, y ∈ l -> limit_key y <> limit_key limit) as Hf.
    { intros y Hy Ek. apply (E y Hy), limits_of_true. done. }
    split; [by apply push_canonical|]. intros x. rewrite elem_of_sort_by, elem_of_app, list_elem_of_singleton.
    naive_solver.
Qed.

Lemma set_limit_ok q tenant kind max q' :
  ledger_ok q -> set_limit q tenant kind max = Ok q' -> ledger_ok q'.
Proof.
  intros Hq. unfold set_limit. destruct (quota_text tenant "tenant_id") as [[]|] eqn:Et; [|done].
  simpl. destruct ((max =? 0)%N || (MAX_QUOTA_UNITS <? max)%N) eqn:Eb; [done|].
  apply orb_false_iff in Eb as [Ez%N.eqb_neq Eb%N.ltb_ge].
  destruct (max <? used q tenant kind)%N eqn:Eu; [done|]. apply N.ltb_ge in Eu.
  intros [= <-]. set (limit := MkLimit tenant kind max).
  assert (limit_ok limit) as Hlim by (split; simpl; [done|lia]).
  destruct (put_limit_perm limit (ql_limits q) (lo_limits _ Hq)) as [Hc Hel].
  split; simpl; try done; [apply Hq| |apply Hq|]; intros l [->|[Hl Hne]]%Hel; try done.
  - by apply Hq.
  - by apply (used_within q limit).
  - by apply Hq.
Qed.

Lemma set_limits_ok l : forall q q', ledger_ok q -> set_limits q l = Ok q' -> ledger_ok q'.
Proof.
  induction l as [|limit l IH]; intros q q' Hq; simpl; [by intros [= <-]|].
  destruct (set_limit _ _ _ _) as [q1|] eqn:E; [|done]. simpl. apply IH. by eapply set_limit_ok.
Qed.

Lemma set_limits_claims l : forall q q', set_limits q l = Ok q' -> ql_claims q' = ql_claims q.
Proof.
  induction l as [|limit l IH]; intros q q'; simpl; [by intros [= <-]|].
  destruct (set_limit _ _ _ _) as [q1|] eqn:E; [|done]. simpl. intros ->%IH.
  unfold set_limit in E. destruct (quota_text _ _); [|done]. simpl in E.
  repeat (case_match; try done). by injection E as <-.
Qed.

Lemma replace_limits_ok q limits q' :
  ledger_ok q -> replace_limits q limits = Ok q' -> ledger_ok q'.
Proof.
  intros Hq. unfold replace_limits. destruct (set_limits _ _) as [q1|] eqn:E; [|done].
  simpl. intros [= <-]. pose proof (set_limits_claims _ _ _ E) as Ec. simpl in Ec.
  apply set_limits_ok in E.
  - destruct q1 as [l c]. simpl in *. by rewrite <- Ec.
  - split; simpl; [apply canonical_nil|apply Hq| |apply Hq|]; by intros ? ?%not_elem_of_nil.
Qed.

(** ** Claims *)

Lemma find_claim_Some q id c :
  find_claim q id = Some c -> c ∈ ql_claims q /\ qc_claim_id c = id.
Proof. intros [Hin Hk%String.eqb_eq]%find_elem. done. Qed.

Lemma find_claim_None q id : find_claim q id = None -> forall c, c ∈ ql_claims q -> qc_claim_id c <> id.
Proof. intros Hn c Hc. apply String.eqb_neq. by eapply find_absent in Hn. Qed.

Lemma committed_add q c tenant kind :
  committed (add_claim q c) tenant kind = (committed q tenant kind + charge tenant kind c)%N.
Proof.
  unfold committed, add_claim. simpl. rewrite (total_Permutation _ _ _ (sort_by_Permutation _ _)).
  rewrite total_app. simpl. lia.
Qed.

Lemma charge_self c : charge (qc_tenant_id c) (qc_kind c) c = qc_units c.
Proof. unfold charge, charged_to. by rewrite String.eqb_refl, bool_decide_eq_true_2. Qed.

Lemma charge_other tenant kind c :
  (qc_tenant_id c, qc_kind c) <> (tenant, kind) -> charge tenant kind c = 0%N.
Proof.
  intros Hne. unfold charge, charged_to. destruct (String.eqb_spec (qc_tenant_id c) tenant) as [E|];
    [|done]. simpl. rewrite bool_decide_eq_false_2; [done|]. intros Ek. by rewrite E, Ek in Hne.
Qed.

(** The limit a claim is held to, if any. *)
Definition admits (q : QuotaLedger) (c : QuotaClaim) (base : N) : Prop :=
  forall l, l ∈ ql_limits q -> lim_tenant_id l = qc_tenant_id c -> lim_kind l = qc_kind c ->
    (base + qc_units c <= lim_max_units l)%N.

(** What [track] does on a valid claim. *)
Lemma track_cases q c :
  ledger_ok q -> validate_claim c = Ok tt ->
  match track q c with
  | Ok q' => (c ∈ ql_claims q /\ q' = q) \/
             (find_claim q (qc_claim_id c) = None /\ q' = add_claim q c /\
              admits q c (committed q (qc_tenant_id c) (qc_kind c)))
  | Err ClaimConflict => exists old, old ∈ ql_claims q /\ qc_claim_id old = qc_claim_id c /\ old <> c
  | Err (Exceeded limit u requested) =>
      u = committed q (qc_tenant_id c) (qc_kind c) /\ requested = qc_units c /\
      (limit < u + requested)%N /\ MkLimit (qc_tenant_id c) (qc_kind c) limit ∈ ql_limits q
  | Err _ => False
  end.
Proof.
  intros Hq Hc. unfold track. rewrite Hc. simpl.
  destruct (find_claim q (qc_claim_id c)) as [old|] eqn:Ef.
  { apply find_claim_Some in Ef as [Hin Hid]. case_bool_decide as E; [left; by subst|eauto]. }
  destruct (find_limit q (qc_tenant_id c) (qc_kind c)) as [l|] eqn:El.
  - apply find_limit_Some in El as (Hl & Ht & Hk).
    assert (used q (qc_tenant_id c) (qc_kind c) = committed q (qc_tenant_id c) (qc_kind c)) as Eu.
    { rewrite <- Ht, <- Hk. by apply used_exact. }
    destruct (lo_limit_ok _ Hq l Hl) as [_ [_ Hm]]. rewrite Eu.
    destruct (over_limit _ _ _) eqn:Eo.
    + split_and!; try done.
      * apply not_false_iff_true in Eo. rewrite over_limit_false in Eo by done. lia.
      * rewrite <- Ht, <- Hk. by destruct l.
    + right. split_and!; try done. rewrite over_limit_false in Eo by done.
      intros l' Hl' Ht' Hk'. assert (l' = l) as ->; [|done].
      apply (canonical_key_inj limit_key (ql_limits q)); [apply Hq|done|done|].
      unfold limit_key. congruence.
  - right. split_and!; try done. intros l Hl Ht Hk. exfalso.
    assert (limits_of (qc_tenant_id c) (qc_kind c) l = false) as Hf by (by eapply find_absent in El).
    apply not_true_iff_false in Hf. apply Hf, limits_of_true. unfold limit_key. congruence.
Qed.

Lemma add_claim_ok q c :
  ledger_ok q -> validate_claim c = Ok tt -> find_claim q (qc_claim_id c) = None ->
  admits q c (committed q (qc_tenant_id c) (qc_kind c)) -> ledger_ok (add_claim q c).
Proof.
  intros Hq Hc Hf Had. split; simpl; try apply Hq.
  - apply push_canonical; [apply Hq|]. by apply find_claim_None.
  - intros x. rewrite elem_of_sort_by, elem_of_app, list_elem_of_singleton.
    intros [Hx| ->]; [by apply Hq|done].
  - intros l Hl. rewrite committed_add. pose proof (lo_within _ Hq l Hl).
    destruct (decide ((qc_tenant_id c, qc_kind c) = (lim_tenant_id l, lim_kind l))) as [E|E].
    + injection E as E1 E2. rewrite <- E1, <- E2, charge_self. by apply Had.
    + rewrite charge_other by done. lia.
Qed.

Lemma track_valid q c q' : track q c = Ok q' -> validate_claim c = Ok tt.
Proof. unfold track. by destruct (validate_claim c) as [[]|]. Qed.

Lemma track_ok q c q' : ledger_ok q -> track q c = Ok q' -> ledger_ok q'.
Proof.
  intros Hq Ht. pose proof (track_valid _ _ _ Ht) as Hc. pose proof (track_cases q c Hq Hc) as Hcases.
  rewrite Ht in Hcases. destruct Hcases as [[_ ->]|(Hf & -> & Had)]; [done|by apply add_claim_ok].
Qed.

Lemma reserve_ok q c q' : ledger_ok q -> reserve q c = Ok q' -> ledger_ok q'.
Proof.
  intros Hq. unfold reserve. destruct (validate_claim c) as [[]|]; [|done]. simpl.
  repeat (case_match; try done); by apply track_ok.
Qed.

Lemma validate_with_units c units :
  validate_claim c = Ok tt -> (0 < units <= MAX_RESOURCE_DEMAND_UNITS)%N ->
  validate_claim (with_units c units) = Ok tt.
Proof.
  intros Hc Hu. unfold validate_claim in *. simpl.
  destruct (quota_text (qc_claim_id c) "claim_id"); [|done].
  destruct (quota_text (qc_tenant_id c) "tenant_id"); [|done]. simpl in *.
  rewrite (proj2 (N.eqb_neq units 0)), (proj2 (N.ltb_ge MAX_RESOURCE_DEMAND_UNITS units)) by lia.
  destruct (_ || _); [done|]. by destruct (claim_identity_invalid c) eqn:E;
    unfold claim_identity_invalid in *; simpl; rewrite ?E.
Qed.

Lemma validate_claim_units c : validate_claim c = Ok tt -> (0 < qc_units c <= MAX_RESOURCE_DEMAND_UNITS)%N.
Proof.
  unfold validate_claim. destruct (quota_text _ "claim_id"); [|done].
  destruct (quota_text _ "tenant_id"); [|done]. simpl.
  destruct (_ || _) eqn:E; [done|]. apply orb_false_iff in E as [E1%N.eqb_neq E2%N.ltb_ge]. lia.
Qed.

(** Growing the claim at an index. *)
Lemma grown_ok q i old units :
  ledger_ok q -> ql_claims q !! i = Some old ->
  (qc_units old <= units <= MAX_RESOURCE_DEMAND_UNITS)%N ->
  (forall l, l ∈ ql_limits q -> lim_tenant_id l = qc_tenant_id old -> lim_kind l = qc_kind old ->
     (committed q (qc_tenant_id old) (qc_kind old) - qc_units old + units <= lim_max_units l)%N) ->
  ledger_ok (MkLedger (ql_limits q) (<[i := with_units old units]> (ql_claims q))).
Proof.
  intros Hq Hi Hu Had. assert (old ∈ ql_claims q) as Hold by (by eapply list_elem_of_lookup_2).
  split; simpl; try apply Hq.
  - by apply (canonical_replace qc_claim_id _ _ old); [apply Hq|..].
  - intros x (j & Hj)%list_elem_of_lookup. apply list_lookup_insert_Some in Hj.
    destruct Hj as [(_ & <- & _)|[_ Hj]]; [|apply Hq; by eapply list_elem_of_lookup_2].
    pose proof (validate_claim_units old (lo_claim_ok _ Hq old Hold)).
    apply validate_with_units; [by apply Hq|lia].
  - intros l Hl. unfold committed. simpl.
    pose proof (total_insert (charge (lim_tenant_id l) (lim_kind l)) (ql_claims q) i old
                  (with_units old units) Hi) as Ht.
    pose proof (lo_within _ Hq l Hl) as Hw. unfold committed in Hw.
    destruct (decide ((qc_tenant_id old, qc_kind old) = (lim_tenant_id l, lim_kind l))) as [E|E].
    + injection E as E1 E2. specialize (Had l Hl (eq_sym E1) (eq_sym E2)). unfold committed in Had.
      rewrite <- E1, <- E2 in *. rewrite charge_self in Ht.
      change (charge (qc_tenant_id old) (qc_kind old) (with_units old units))
        with (charge (qc_tenant_id (with_units old units)) (qc_kind (with_units old units))
                (with_units old units)) in Ht. rewrite charge_self in Ht. simpl in Ht.
      pose proof (total_elem (charge (qc_tenant_id old) (qc_kind old)) _ _ Hold) as Hle.
      rewrite charge_self in Hle. lia.
    + rewrite !charge_other in Ht by done. lia.
Qed.

Lemma track_resource_ok q c q' : ledger_ok q -> track_resource q c = Ok q' -> ledger_ok q'.
Proof.
  intros Hq. unfold track_resource. destruct (is_none (qc_resource_id c)); [done|].
  destruct (validate_claim c) as [[]|] eqn:Ev; [|done]. simpl.
  destruct (is_some (qc_allocation_id c)); [by apply track_ok|].
  destruct (list_find _ (ql_claims q)) as [[i old]|] eqn:E; [|by apply track_ok].
  apply list_find_Some in E as (Hi & _ & _). unfold grow_claim.
  destruct (_ || _) eqn:Ec; [done|]. apply orb_false_iff in Ec as [[Et Ek]%orb_false_iff _].
  apply negb_false_iff in Et, Ek. apply String.eqb_eq in Et. apply bool_decide_eq_true in Ek.
  destruct (N.leb_spec (qc_units c) (qc_units old)) as [|Hgt]; [by intros [= <-]|].
  pose proof (validate_claim_units c Ev) as Hu.
  assert (old ∈ ql_claims q) as Hold by (by eapply list_elem_of_lookup_2).
  destruct (find_limit q (qc_tenant_id c) (qc_kind c)) as [l|] eqn:El.
  - apply find_limit_Some in El as (Hl & Hlt & Hlk). destruct (over_limit _ _ _) eqn:Eo; [done|].
    intros [= <-]. apply grown_ok; [done|done|lia|]. intros l' Hl' Ht' Hk'.
    assert (l' = l) as ->.
    { apply (canonical_key_inj limit_key (ql_limits q)); [apply Hq|done|done|].
      unfold limit_key. congruence. }
    destruct (lo_limit_ok _ Hq l Hl) as [_ [_ Hm]]. rewrite over_limit_false in Eo by done.
    pose proof (used_exact q l Hq Hl) as Eu. rewrite Hlt, Hlk in Eu. rewrite Eu in Eo.
    rewrite <- Et, <- Ek in Eo. done.
  - intros [= <-]. apply grown_ok; [done|done|lia|]. intros l Hl Ht Hk. exfalso.
    assert (limits_of (qc_tenant_id c) (qc_kind c) l = false) as Hf by (by eapply find_absent in El).
    apply not_true_iff_false in Hf. apply Hf, limits_of_true. unfold limit_key. congruence.
Qed.

(** ** Releases *)

Lemma retain_ok q keep : ledger_ok q -> ledger_ok (retain_claims q keep).
Proof.
  intros Hq. split; simpl; try apply Hq.
  - apply canonical_filter, Hq.
  - intros c [Hc%list_elem_of_In _]%list_elem_of_In%filter_In. by apply Hq.
  - intros l Hl. unfold committed. simpl.
    pose proof (total_filter_le (charge (lim_tenant_id l) (lim_kind l)) keep (ql_claims q)).
    pose proof (lo_within _ Hq l Hl) as Hw. unfold committed in Hw. lia.
Qed.

(** ** Reachable ledgers *)

Inductive quota_step : QuotaLedger -> QuotaLedger -> Prop :=
| qs_set_limit q tenant kind max q' : set_limit q tenant kind max = Ok q' -> quota_step q q'
| qs_replace_limits q limits q' : replace_limits q limits = Ok q' -> quota_step q q'
| qs_reserve q c q' : reserve q c = Ok q' -> quota_step q q'
| qs_track q c q' : track q c = Ok q' -> quota_step q q'
| qs_track_resource q c q' : track_resource q c = Ok q' -> quota_step q q'
| qs_release q id q' removed : release q id = Ok (q', removed) -> quota_step q q'
| qs_release_resource q id : quota_step q (release_resource q id)
| qs_release_allocation q id : quota_step q (release_allocation q id).

Lemma quota_step_ok q q' : quota_step q q' -> ledger_ok q -> ledger_ok q'.
Proof.
  destruct 1 as [q tenant kind max q' E|q limits q' E|q c q' E|q c q' E|q c q' E|q id q' r E|q id|q id];
    intros Hq.
  - by eapply set_limit_ok.
  - by eapply replace_limits_ok.
  - by eapply reserve_ok.
  - by eapply track_ok.
  - by eapply track_resource_ok.
  - unfold release in E. destruct (quota_text id "claim_id"); [|done]. injection E as <- _.
    by apply retain_ok.
  - by apply retain_ok.
  - by apply retain_ok.
Qed.

Lemma reachable_ledger_ok q : rtc quota_step QuotaLedger_new q -> ledger_ok q.
Proof.
  intros Hr. pose proof ledger_ok_new as H0. revert H0.
  induction Hr as [q|q q1 q2 Hs Hr IH]; intros Hq; [done|]. by eapply IH, quota_step_ok.
Qed.

(** ** The language of [validate] *)

(** Two claims may share a resource only as allocations of it. *)
Definition compatible_claims (c c' : QuotaClaim) : Prop :=
  forall resource, qc_resource_id c = Some resource -> qc_resource_id c' = Some resource ->
    is_Some (qc_allocation_id c) /\ is_Some (qc_allocation_id c').

Definition unmixed (l : list QuotaClaim) : Prop :=
  forall c c', c ∈ l -> c' ∈ l -> c <> c' -> compatible_claims c c'.

Definition remember (m : gmap string bool) (c : QuotaClaim) : gmap string bool :=
  match qc_resource_id c with
  | Some resource => <[as_str resource := is_some (qc_allocation_id c)]> m
  | None => m
  end.

Lemma remembered_Some l resource b :
  foldl remember ∅ l !! as_str resource = Some b ->
  exists c, c ∈ l /\ qc_resource_id c = Some resource /\ is_some (qc_allocation_id c) = b.
Proof.
  induction l as [|c l IH] using rev_ind; [simpl; by rewrite lookup_empty|].
  rewrite foldl_app. simpl. unfold remember at 1. destruct (qc_resource_id c) as [r|] eqn:Er.
  - rewrite lookup_insert_Some. intros [[Eas <-]|[_ Hl]].
    + exists c. split; [set_solver|]. split; [|done]. rewrite Er. f_equal. by apply as_str_inj.
    + destruct (IH Hl) as (c' & Hc' & ?). exists c'. split; [set_solver|done].
  - intros Hl. destruct (IH Hl) as (c' & Hc' & ?). exists c'. split; [set_solver|done].
Qed.

Lemma remembered_None l resource :
  foldl remember ∅ l !! as_str resource = None ->
  forall c, c ∈ l -> qc_resource_id c <> Some resource.
Proof.
  induction l as [|c l IH] using rev_ind; [by intros _ ? ?%not_elem_of_nil|].
  rewrite foldl_app. simpl. unfold remember at 1. destruct (qc_resource_id c) as [r|] eqn:Er.
  - rewrite lookup_insert_None. intros [Hl Hne] c' [Hc'|Hx%list_elem_of_singleton]%elem_of_app.
    + by apply IH.
    + subst c'. rewrite Er. intros [= ->]. done.
  - intros Hl c' [Hc'|Hx%list_elem_of_singleton]%elem_of_app; [by apply IH|]. subst c'. congruence.
Qed.

Definition mixes (m : gmap string bool) (c : QuotaClaim) : bool :=
  is_some_and (fun resource =>
    is_some_and (fun before => negb before || negb (is_some (qc_allocation_id c)))
      (m !! as_str resource)) (qc_resource_id c).

Lemma mixes_false pre c :
  unmixed pre -> c ∉ pre ->
  mixes (foldl remember ∅ pre) c = false <-> forall x, x ∈ pre -> compatible_claims x c.
Proof.
  intros Hun Hfresh. unfold mixes. rewrite is_some_and_false. setoid_rewrite is_some_and_false. split.
  - intros Hm x Hx resource Ex Ec. specialize (Hm resource Ec).
    destruct (foldl remember ∅ pre !! as_str resource) as [b|] eqn:El.
    2: { by destruct (remembered_None pre resource El x Hx). }
    specialize (Hm b eq_refl). apply orb_false_iff in Hm as [Hb Hs]. apply negb_false_iff in Hb, Hs.
    destruct (remembered_Some pre resource b El) as (y & Hy & Ey & Eb). subst b.
    assert (is_Some (qc_allocation_id c)) as Hc by (by destruct (qc_allocation_id c)).
    destruct (decide (x = y)) as [->|Hne]; [split; [by destruct (qc_allocation_id y)|done]|].
    split; [by apply (Hun x y Hx Hy Hne resource)|done].
  - intros Hc resource Ec b El. destruct (remembered_Some pre resource b El) as (y & Hy & Ey & Eb).
    destruct (Hc y Hy resource Ey Ec) as [[a Ea] [a' Ea']]. subst b. by rewrite Ea, Ea'.
Qed.

Lemma unmixed_snoc l c : unmixed l -> (forall x, x ∈ l -> compatible_claims x c) -> unmixed (l ++ [c]).
Proof.
  intros Hl Hc x y [Hx|Hx%list_elem_of_singleton]%elem_of_app
    [Hy|Hy%list_elem_of_singleton]%elem_of_app Hne; subst; try done.
  - by apply Hl.
  - by apply Hc.
  - intros r Ex Ey. destruct (Hc y Hy r Ey Ex). done.
Qed.

(** Appending the next claim in order. *)
Lemma track_next limits pre c rest :
  canonical qc_claim_id (pre ++ c :: rest) -> ledger_ok (MkLedger limits pre) ->
  (forall q', track (MkLedger limits pre) c = Ok q' ->
     q' = MkLedger limits (pre ++ [c]) /\ ledger_ok q') /\
  (ledger_ok (MkLedger limits (pre ++ c :: rest)) ->
     track (MkLedger limits pre) c = Ok (MkLedger limits (pre ++ [c]))).
Proof.
  intros Hcan Hpre.
  assert (canonical qc_claim_id (pre ++ [c]) /\ forall y, y ∈ pre -> qc_claim_id y <> qc_claim_id c)
    as [Hcc Hfresh].
  { rewrite cons_middle, app_assoc in Hcan. clear Hpre. revert Hcan.
    induction rest as [|d rest IH] using rev_ind; intros Hcan.
    - rewrite app_nil_r in Hcan. split; [done|]. by apply canonical_snoc in Hcan as [_ ?].
    - rewrite app_assoc in Hcan. apply canonical_snoc in Hcan as [Hcan _]. by apply IH. }
  assert (add_claim (MkLedger limits pre) c = MkLedger limits (pre ++ [c])) as Hadd.
  { unfold add_claim. simpl. by rewrite sort_by_id. }
  assert (c ∉ pre) as Hnin by (intros Hin; by apply (Hfresh c Hin)).
  split.
  - intros q' Ht. pose proof (track_ok _ _ _ Hpre Ht) as Hok. split; [|done].
    pose proof (track_cases _ c Hpre (track_valid _ _ _ Ht)) as Hcases. rewrite Ht in Hcases.
    destruct Hcases as [[Hin _]|(_ & -> & _)]; [by destruct (Hnin Hin)|done].
  - intros Hall. assert (validate_claim c = Ok tt) as Hc.
    { apply (lo_claim_ok _ Hall). simpl. set_solver. }
    pose proof (track_cases _ c Hpre Hc) as Hcases.
    destruct (track _ c) as [q'|e].
    + destruct Hcases as [[Hin _]|(_ & -> & _)]; [by destruct (Hnin Hin)|by rewrite Hadd].
    + exfalso. destruct e; try done.
      * destruct Hcases as (old & Hold & Hid & _). simpl in Hold. by apply (Hfresh old Hold).
      * destruct Hcases as (Hu & Hreq & Hlt & Hlim). simpl in Hlim.
        pose proof (lo_within _ Hall _ Hlim) as Hw. simpl in Hw. unfold committed in Hw, Hu.
        simpl in Hw, Hu. rewrite total_app in Hw. simpl in Hw. rewrite charge_self in Hw. lia.
Qed.

Lemma validate_claims_iff limits rest : forall pre,
  canonical qc_claim_id (pre ++ rest) -> ledger_ok (MkLedger limits pre) -> unmixed pre ->
  validate_claims (MkLedger limits pre) (foldl remember ∅ pre) rest = Ok tt <->
  ledger_ok (MkLedger limits (pre ++ rest)) /\ unmixed (pre ++ rest).
Proof.
  induction rest as [|c rest IH]; intros pre Hcan Hok Hun.
  { rewrite app_nil_r. simpl. tauto. }
  cbn [validate_claims]. fold (mixes (foldl remember ∅ pre) c).
  destruct (track_next limits pre c rest Hcan Hok) as [Hfwd Hbwd].
  assert (c ∉ pre) as Hnin.
  { intros Hin. apply canonical_NoDup in Hcan. rewrite fmap_app, NoDup_app in Hcan.
    destruct Hcan as (_ & Hd & _). apply (Hd (qc_claim_id c)); [by apply list_elem_of_fmap_2|].
    rewrite fmap_cons. by left. }
  pose proof (mixes_false pre c Hun Hnin) as Hmix.
  assert (foldl remember ∅ (pre ++ [c]) = remember (foldl remember ∅ pre) c) as Hrem
    by (by rewrite foldl_app).
  change (match qc_resource_id c with
          | Some resource => <[as_str resource := is_some (qc_allocation_id c)]> (foldl remember ∅ pre)
          | None => foldl remember ∅ pre end) with (remember (foldl remember ∅ pre) c).
  rewrite <- Hrem.
  replace (pre ++ c :: rest)%list with ((pre ++ [c]) ++ rest)%list in * by (by rewrite <- app_assoc).
  destruct (mixes (foldl remember ∅ pre) c) eqn:Em.
  - split; [done|]. intros [_ Hall]. assert (true = false); [|done]. apply Hmix.
    intros x Hx. apply Hall; [set_solver|set_solver|]. by intros ->.
  - destruct (track (MkLedger limits pre) c) as [q'|] eqn:Et; simpl.
    + destruct (Hfwd q' eq_refl) as [-> Hok']. apply IH; [done|done|].
      apply unmixed_snoc; [done|]. by apply Hmix.
    + split; [done|]. intros [Hall _]. by specialize (Hbwd Hall).
Qed.

Lemma set_limit_next pre l rest :
  canonical limit_key (pre ++ l :: rest) ->
  (forall q, set_limit (MkLedger pre []) (lim_tenant_id l) (lim_kind l) (lim_max_units l) = Ok q ->
     q = MkLedger (pre ++ [l]) [] /\ limit_ok l) /\
  (limit_ok l -> set_limit (MkLedger pre []) (lim_tenant_id l) (lim_kind l) (lim_max_units l)
                 = Ok (MkLedger (pre ++ [l]) [])).
Proof.
  intros Hcan.
  assert (canonical limit_key (pre ++ [l]) /\ forall y, y ∈ pre -> limit_key y <> limit_key l)
    as [Hcc Hfresh].
  { rewrite cons_middle, app_assoc in Hcan. revert Hcan.
    induction rest as [|d rest IH] using rev_ind; intros Hcan.
    - rewrite app_nil_r in Hcan. split; [done|]. by apply canonical_snoc in Hcan as [_ ?].
    - rewrite app_assoc in Hcan. apply canonical_snoc in Hcan as [Hcan _]. by apply IH. }
  assert (put_limit (MkLimit (lim_tenant_id l) (lim_kind l) (lim_max_units l)) pre
          = (pre ++ [l])%list) as Hput.
  { unfold put_limit. destruct (list_find _ pre) as [[i x]|] eqn:E.
    - apply list_find_Some in E as (Hi & Hx%limits_of_true & _). exfalso.
      apply (Hfresh x); [by eapply list_elem_of_lookup_2|done].
    - replace (MkLimit (lim_tenant_id l) (lim_kind l) (lim_max_units l)) with l by (by destruct l).
      by apply sort_by_id. }
  unfold set_limit, limit_ok. destruct (quota_text (lim_tenant_id l) "tenant_id") as [[]|];
    [|split; [done|by intros [? _]]]. simpl.
  destruct (N.eqb_spec (lim_max_units l) 0); simpl; [split; [done|intros [_ ?]; lia]|].
  destruct (N.ltb_spec MAX_QUOTA_UNITS (lim_max_units l)); simpl; [split; [done|intros [_ ?]; lia]|].
  change (used (MkLedger pre []) (lim_tenant_id l) (lim_kind l)) with 0%N.
  destruct (N.ltb_spec (lim_max_units l) 0); [lia|]. rewrite Hput.
  split; [intros q [= <-]; split; [done|split; [done|lia]]|done].
Qed.

Lemma set_limits_iff rest : forall pre,
  canonical limit_key (pre ++ rest) ->
  (forall q, set_limits (MkLedger pre []) rest = Ok q ->
     q = MkLedger (pre ++ rest) [] /\ Forall limit_ok rest) /\
  (Forall limit_ok rest -> set_limits (MkLedger pre []) rest = Ok (MkLedger (pre ++ rest) [])).
Proof.
  induction rest as [|l rest IH]; intros pre Hcan.
  { rewrite app_nil_r. simpl. split; [intros q [= <-]; done|done]. }
  destruct (set_limit_next pre l rest Hcan) as [Hf Hb]. simpl.
  replace (pre ++ l :: rest)%list with ((pre ++ [l]) ++ rest)%list in * by (by rewrite <- app_assoc).
  destruct (IH _ Hcan) as [IHf IHb]. split.
  - intros q. destruct (set_limit _ _ _ _) as [q1|] eqn:E; [|done]. simpl.
    destruct (Hf q1 eq_refl) as [-> Hl]. intros [-> Hall]%IHf. split; [done|by constructor].
  - intros [Hl Hall]%Forall_cons_1. rewrite (Hb Hl). simpl. by apply IHb.
Qed.

(** The checkpoint validation accepts exactly the well-formed ledgers. *)
Lemma validate_iff q :
  QuotaLedger_validate q = Ok tt <-> ledger_ok q /\ unmixed (ql_claims q).
Proof.
  unfold QuotaLedger_validate. destruct q as [limits claims]. simpl.
  destruct (not_canonical limit_key limits) eqn:El; simpl.
  { split; [done|]. intros [Hq _]. apply lo_limits, canonical_iff in Hq. simpl in Hq. congruence. }
  destruct (not_canonical qc_claim_id claims) eqn:Ec; simpl.
  { split; [done|]. intros [Hq _]. apply lo_claims, canonical_iff in Hq. simpl in Hq. congruence. }
  apply canonical_iff in El. apply canonical_iff in Ec. destruct (set_limits_iff limits [] El) as [Hf Hb]. simpl in *.
  change (MkLedger [] []) with QuotaLedger_new in *.
  destruct (set_limits QuotaLedger_new limits) as [checked|] eqn:Es; simpl.
  - destruct (Hf checked eq_refl) as [-> Hall]. rewrite Forall_forall in Hall.
    apply (validate_claims_iff limits claims []); [done| |by intros ? ? ?%not_elem_of_nil].
    split; simpl; [done|apply canonical_nil|done|by intros ? ?%not_elem_of_nil|].
    intros l Hl. destruct (Hall l Hl) as [_ ?]. unfold committed. simpl. lia.
  - split; [done|]. intros [Hq _]. enough (Forall limit_ok limits) as Hall by (by apply Hb in Hall).
    apply Forall_forall. apply (lo_limit_ok _ Hq).
Qed.

(** * Facts about quantitative allocations

    The invariant of the capacity ledger and of its link to the quota ledger, preserved by
    admission, binding and release. *)

(** ** Sums over the values of a map *)

Section MapTotal.
Context {K V : Type} `{Countable K, Ord K} (f : V -> N).
Implicit Types m : gmap K V.

Definition map_total m : N := total f (btree_values m).

Lemma map_total_list m : map_total m = total f (map_to_list m).*2.
Proof. unfold map_total, btree_values. by rewrite (total_Permutation f _ _ (fmap_Permutation snd _ _ (btree_iter_Permutation m))). Qed.

Lemma map_total_empty : map_total (∅ : gmap K V) = 0%N.
Proof. rewrite map_total_list, map_to_list_empty. done. Qed.

Lemma map_total_insert m k v : m !! k = None -> map_total (<[k := v]> m) = (f v + map_total m)%N.
Proof.
  intros Hk. rewrite !map_total_list.
  rewrite (total_Permutation f _ _ (fmap_Permutation snd _ _ (map_to_list_insert m k v Hk))). done.
Qed.

Lemma map_total_replace m k v w :
  m !! k = Some w -> (map_total (<[k := v]> m) + f w = map_total m + f v)%N.
Proof.
  intros Hk. rewrite <- (insert_delete_id m k w Hk) at 2. rewrite <- insert_delete_eq.
  rewrite !map_total_insert by apply lookup_delete_eq. lia.
Qed.

Lemma map_total_lookup m k v : m !! k = Some v -> (f v <= map_total m)%N.
Proof. intros Hk. apply total_elem, elem_of_btree_values. eauto. Qed.
End MapTotal.

Lemma map_total_omap {K V} `{Countable K, Ord K} (f : V -> N) (g : V -> option V) (m : gmap K V) :
  (forall k v w, m !! k = Some v -> g v = Some w -> (f w <= f v)%N) ->
  (map_total f (omap g m) <= map_total f m)%N.
Proof.
  induction m as [|k v m Hk IH] using map_ind; intros Hg.
  { rewrite omap_empty. lia. }
  assert (map_total f (omap g m) <= map_total f m)%N as IH'.
  { apply IH. intros k' v' w Hl. apply (Hg k'). rewrite lookup_insert_ne; [done|congruence]. }
  rewrite map_total_insert by done. destruct (g v) as [w|] eqn:E.
  - rewrite (omap_insert_Some _ _ _ _ w) by done.
    rewrite map_total_insert by (by rewrite lookup_omap, Hk).
    pose proof (Hg k v w (lookup_insert_eq _ _ _) E). lia.
  - rewrite omap_insert_None by done. rewrite delete_id by (by rewrite lookup_omap, Hk). lia.
Qed.

Lemma map_total_mono {K V} `{Countable K, Ord K} (f g : V -> N) (m : gmap K V) :
  (forall k v, m !! k = Some v -> (f v <= g v)%N) -> (map_total f m <= map_total g m)%N.
Proof. intros Hm. apply total_mono. intros x (k & Hk)%elem_of_btree_values. by eapply Hm. Qed.

(** ** The invariant *)

(** The units of the same pool admitted up to a generation. *)
Definition units_upto (resource : ResourceId) (generation : N) (record : CapacityAllocation) : N :=
  if (rg_generation (al_original record) <=? generation)%N then allocated_units resource record
  else 0%N.

Record record_ok (generation : N) (id : string) (record : CapacityAllocation) : Prop := {
  ro_id : rg_allocation_id (al_original record) = id;
  ro_generation : (0 < rg_generation (al_original record) <= generation)%N;
  ro_borrowers : canonical borrower_key (al_borrowers record);
  ro_positive : forall b, b ∈ al_borrowers record -> (0 < bo_units b)%N;
  ro_within : (total bo_units (al_borrowers record) <= rg_allocation_units (al_original record))%N;
  ro_task : forall task, rg_owner (al_original record) = OwnerTask task ->
    al_borrowers record = [MkBorrower task (rg_role_id (al_original record))
                             (rg_units (al_original record))]
}.

Record capacity_ok (ledger : CapacityLedger) : Prop := {
  co_width : (cl_generation ledger <= u64_max)%N;
  co_records : forall id record, cl_allocations ledger !! id = Some record ->
    record_ok (cl_generation ledger) id record;
  co_generations : forall id id' record record', cl_allocations ledger !! id = Some record ->
    cl_allocations ledger !! id' = Some record' ->
    rg_generation (al_original record) = rg_generation (al_original record') -> id = id';
  co_owners : forall id id' record record', cl_allocations ledger !! id = Some record ->
    cl_allocations ledger !! id' = Some record' ->
    owner_key_of (al_original record) = owner_key_of (al_original record') -> id = id';
  co_nodes : forall id id' record record', cl_allocations ledger !! id = Some record ->
    cl_allocations ledger !! id' = Some record' ->
    rg_resource_id (al_original record) = rg_resource_id (al_original record') ->
    rg_node_id (al_original record) = rg_node_id (al_original record');
  co_capacity : forall id record, cl_allocations ledger !! id = Some record ->
    (map_total (units_upto (rg_resource_id (al_original record)) (rg_generation (al_original record)))
       (cl_allocations ledger) <= rg_admitted_capacity (al_original record))%N
}.

Lemma capacity_ok_new : capacity_ok CapacityLedger_new.
Proof. split; simpl; [lia|intros; simplify_map_eq..]. Qed.

(** The pool never holds more than its newest allocation was admitted against. *)
Lemma committed_bound ledger resource :
  capacity_ok ledger -> (0 < committed_units ledger resource)%N ->
  exists id record, cl_allocations ledger !! id = Some record /\
    rg_resource_id (al_original record) = resource /\
    (forall id' record', cl_allocations ledger !! id' = Some record' ->
       rg_resource_id (al_original record') = resource ->
       (rg_generation (al_original record') <= rg_generation (al_original record))%N) /\
    (committed_units ledger resource <= rg_admitted_capacity (al_original record))%N.
Proof.
  intros Hok Hpos. destruct (total_pos _ _ Hpos) as (x & Hx & Hxpos).
  destruct (largest_exists (fun r => bool_decide (rg_resource_id (al_original r) = resource))
    (fun r => rg_generation (al_original r)) (records ledger) x Hx) as (m & Hm & Em & Hmax).
  { unfold allocated_units in Hxpos. destruct (bool_decide _); [done|lia]. }
  apply bool_decide_eq_true in Em. apply elem_of_btree_values in Hm as [id Hid].
  assert (forall id' record', cl_allocations ledger !! id' = Some record' ->
    rg_resource_id (al_original record') = resource ->
    (rg_generation (al_original record') <= rg_generation (al_original m))%N) as Hnewest.
  { intros id' r' Hr' Er'. apply Hmax; [apply elem_of_btree_values; eauto|].
    by apply bool_decide_eq_true. }
  exists id, m. split_and!; try done. rewrite <- (co_capacity _ Hok id m Hid), Em.
  apply (map_total_mono (allocated_units resource)). intros k r Hr. unfold units_upto, allocated_units.
  destruct (bool_decide_reflect (rg_resource_id (al_original r) = resource)) as [Er|];
    [|destruct (_ <=? _)%N; lia].
  rewrite (proj2 (N.leb_le _ _) (Hnewest k r Hr Er)). lia.
Qed.

(** ** Records that keep their original *)

Lemma capacity_ok_replace ledger id record record' :
  capacity_ok ledger -> cl_allocations ledger !! id = Some record ->
  al_original record' = al_original record -> record_ok (cl_generation ledger) id record' ->
  capacity_ok (MkCapacityLedger (cl_generation ledger) (<[id := record']> (cl_allocations ledger))).
Proof.
  intros Hok Hid Eo Hr.
  assert (forall k r, <[id := record']> (cl_allocations ledger) !! k = Some r ->
    exists r0, cl_allocations ledger !! k = Some r0 /\ al_original r = al_original r0) as Hold.
  { intros k r [[<- <-]|[_ Hk]]%lookup_insert_Some; eauto. }
  split; simpl.
  - apply Hok.
  - intros k r [[<- <-]|[_ Hk]]%lookup_insert_Some; [done|by apply Hok].
  - intros k k' r r' (r0 & Hk & ->)%Hold (r0' & Hk' & ->)%Hold. by apply (co_generations _ Hok).
  - intros k k' r r' (r0 & Hk & ->)%Hold (r0' & Hk' & ->)%Hold. by apply (co_owners _ Hok).
  - intros k k' r r' (r0 & Hk & ->)%Hold (r0' & Hk' & ->)%Hold. by apply (co_nodes _ Hok k k').
  - intros k r (r0 & Hk & ->)%Hold. pose proof (co_capacity _ Hok k r0 Hk) as Hc.
    set (f := units_upto _ _) in *. pose proof (map_total_replace f _ id record' record Hid) as Ht.
    assert (f record' = f record) as Ef by (unfold f, units_upto, allocated_units; by rewrite Eo). lia.
Qed.

(** ** Admission *)

(** The owner of a request is resolved from its own Task. *)
Definition request_ok (request : CapacityRequest) : Prop :=
  match cq_owner request with
  | OwnerTask task => task = cq_task_ref request
  | OwnerContext mission _ _ => mission = tr_mission_id (cq_task_ref request)
  end.

Lemma owner_allocation_Some ledger request record :
  owner_allocation ledger request = Some record ->
  exists id, cl_allocations ledger !! id = Some record /\ owner_matches request record = true.
Proof. intros [Hin Hm]%find_elem. apply elem_of_btree_values in Hin as [id Hid]. eauto. Qed.

Lemma owner_matches_true request record :
  owner_matches request record = true <->
  rg_resource_id (al_original record) = cq_resource_id request /\
  rg_group_id (al_original record) = cq_group_id request /\
  rg_node_id (al_original record) = cq_node_id request /\
  rg_owner (al_original record) = cq_owner request /\
  (is_context (cq_owner request) = false -> rg_role_id (al_original record) = cq_task_role_id request).
Proof.
  unfold owner_matches, same_owner. rewrite !andb_true_iff, orb_true_iff, !bool_decide_eq_true.
  destruct (is_context (cq_owner request)); naive_solver.
Qed.

Lemma borrows_true task role b : borrows task role b = true <-> borrower_key b = (task, role).
Proof.
  unfold borrows, borrower_key. rewrite andb_true_iff, !bool_decide_eq_true.
  split; [intros [-> ->]|intros [= -> ->]]; done.
Qed.

(** What another borrower of an existing allocation does. *)
Lemma admit_existing_cases ledger request id existing ledger' grant :
  capacity_ok ledger -> cl_allocations ledger !! id = Some existing ->
  admit_existing ledger request existing = Ok (ledger', grant) ->
  grant = borrower_grant (al_original existing) (cq_task_ref request) (cq_task_role_id request)
            (cq_units request) /\
  rg_tenant_id (al_original existing) = cq_tenant_id request /\
  ((request_borrower request ∈ al_borrowers existing /\ ledger' = ledger) \/
   ((forall b, b ∈ al_borrowers existing ->
       borrower_key b <> (cq_task_ref request, cq_task_role_id request)) /\
    (total bo_units (al_borrowers existing) + cq_units request
       <= rg_allocation_units (al_original existing))%N /\
    ledger' = MkCapacityLedger (cl_generation ledger)
      (<[id := with_borrowers existing (sort_by (by_key borrower_key)
                 (al_borrowers existing ++ [request_borrower request]))]> (cl_allocations ledger)))).
Proof.
  intros Hok Hid. unfold admit_existing. destruct (_ || _) eqn:Eg; [done|].
  rewrite !orb_false_iff, !negb_false_iff, !String.eqb_eq in Eg.
  destruct Eg as [[[_ Et] _] _].
  destruct (List.find _ (al_borrowers existing)) as [b|] eqn:Ef.
  - apply find_elem in Ef as [Hb _]. case_bool_decide as E; simpl; [|done]. intros [= <- <-].
    split_and!; try done. left. by subst.
  - rewrite find_absent in Ef. destruct (N.ltb_spec (rg_allocation_units (al_original existing))
      (total bo_units (al_borrowers existing) + cq_units request)); [done|].
    intros [= <- <-]. split_and!; try done. right. split_and!; [|done|].
    + intros b Hb Ek. apply borrows_true in Ek. by rewrite Ef in Ek.
    + by rewrite (ro_id _ _ _ (co_records _ Hok id existing Hid)).
Qed.

Lemma admit_existing_ok ledger request id existing ledger' grant :
  capacity_ok ledger -> request_ok request -> (0 < cq_units request)%N ->
  cl_allocations ledger !! id = Some existing -> owner_matches request existing = true ->
  admit_existing ledger request existing = Ok (ledger', grant) -> capacity_ok ledger'.
Proof.
  intros Hok Hreq Hu Hid Hm Ha.
  destruct (admit_existing_cases _ _ _ _ _ _ Hok Hid Ha) as (_ & _ & [[_ ->]|(Hfresh & Hle & ->)]); [done|].
  eapply capacity_ok_replace; [done|done|done|].
  destruct (co_records _ Hok id existing Hid) as [Ri Rg Rb Rp Rw Rt].
  apply owner_matches_true in Hm as (_ & _ & _ & Eowner & Erole).
  split; simpl; try done.
  - by apply push_canonical.
  - intros b. rewrite elem_of_sort_by, elem_of_app, list_elem_of_singleton.
    intros [Hb| ->]; [by apply Rp|done].
  - rewrite (total_Permutation _ _ _ (sort_by_Permutation _ _)), total_app. simpl. lia.
  - intros task Eo. exfalso. rewrite (Rt task Eo) in Hfresh.
    rewrite Eowner in Eo. unfold request_ok in Hreq. rewrite Eo in Hreq. subst task.
    eapply (Hfresh _ (list_elem_of_here _ _)). unfold borrower_key. simpl.
    rewrite Erole; [done|]. by rewrite Eo.
Qed.

(** ** The first borrower *)

(** Digests of originals of different generations differ. *)
Class DigestFaithful `{Serde} : Prop := digest_generation g g' id :
  (rg_generation g <= u64_max)%N -> (rg_generation g' <= u64_max)%N ->
  original_allocation_id g = Some id -> original_allocation_id g' = Some id ->
  rg_generation g = rg_generation g'.

(** Every original carries its own digest. *)
Definition digests_ok `{Serde} (ledger : CapacityLedger) : Prop :=
  forall id record, cl_allocations ledger !! id = Some record ->
    original_allocation_id (al_original record) = Some id.

Lemma admit_new_cases `{Serde} ledger request ledger' grant :
  admit_new ledger request = Some (Ok (ledger', grant)) ->
  exists id, grant = new_grant request (cl_generation ledger + 1) id /\
    (cl_generation ledger + 1 <= u64_max)%N /\
    original_allocation_id grant = Some id /\
    ResourceAllocationGrant_validate grant = Some (Ok tt) /\
    ledger' = MkCapacityLedger (cl_generation ledger + 1)
                (<[id := new_allocation request grant]> (cl_allocations ledger)) /\
    (committed_units ledger (cq_resource_id request) + cq_parent_units request
       <= cq_capacity request)%N /\
    (forall k r, cl_allocations ledger !! k = Some r ->
       rg_resource_id (al_original r) = cq_resource_id request ->
       rg_node_id (al_original r) = cq_node_id request).
Proof.
  unfold admit_new. destruct (_ || _) eqn:Eg; [done|].
  apply orb_false_iff in Eg as [[_ Enode]%orb_false_iff Ecap%N.ltb_ge].
  destruct (u64_checked_add (cl_generation ledger) 1) as [generation|] eqn:Egen; [|done].
  apply u64_checked_add_Some in Egen as [-> Hw].
  destruct (original_allocation_id (new_grant request _ "")) as [id|] eqn:Eid; [|done]. simpl.
  destruct (ResourceAllocationGrant_validate (new_grant request _ id)) as [[[]|]|] eqn:Ev; try done.
  simpl. intros [= <- <-]. exists id. split_and!; try done.
  intros k r Hk Er. destruct (decide (rg_node_id (al_original r) = cq_node_id request)); [done|].
  exfalso. apply not_true_iff_false in Enode. apply Enode, existsb_exists. exists r.
  split; [apply list_elem_of_In, elem_of_btree_values; eauto|].
  by rewrite bool_decide_eq_true_2, bool_decide_eq_false_2.
Qed.

Lemma admit_new_fresh `{Serde, !DigestFaithful} ledger request id generation :
  capacity_ok ledger -> digests_ok ledger -> (cl_generation ledger < generation <= u64_max)%N ->
  original_allocation_id (new_grant request generation id) = Some id ->
  cl_allocations ledger !! id = None.
Proof.
  intros Hok Hdig Hg Eid. destruct (cl_allocations ledger !! id) as [r|] eqn:Er; [|done]. exfalso.
  destruct (ro_generation _ _ _ (co_records _ Hok id r Er)) as [_ Hle].
  assert (rg_generation (al_original r) = generation) as E; [|lia].
  apply (digest_generation (al_original r) (new_grant request generation id) id); simpl; try lia; [|done].
  by apply Hdig.
Qed.

Lemma units_upto_all ledger resource generation :
  capacity_ok ledger -> (cl_generation ledger <= generation)%N ->
  map_total (units_upto resource generation) (cl_allocations ledger) = committed_units ledger resource.
Proof.
  intros Hok Hg. apply N.le_antisymm; apply map_total_mono; intros k r Hk; unfold units_upto;
    destruct (ro_generation _ _ _ (co_records _ Hok k r Hk)) as [_ Hle];
    rewrite (proj2 (N.leb_le _ _)) by lia; lia.
Qed.

Lemma admit_new_ok `{Serde, !DigestFaithful} ledger request ledger' grant :
  capacity_ok ledger -> digests_ok ledger -> request_ok request ->
  (0 < cq_units request <= cq_parent_units request)%N ->
  existsb (owner_moved request) (records ledger) = false ->
  owner_allocation ledger request = None ->
  admit_new ledger request = Some (Ok (ledger', grant)) ->
  capacity_ok ledger' /\ digests_ok ledger'.
Proof.
  intros Hok Hdig Hreq Hu Hmoved Hnone Ha.
  destruct (admit_new_cases _ _ _ _ Ha) as (id & -> & Hw & Eid & _ & -> & Hcap & Hnode).
  assert (cl_allocations ledger !! id = None) as Hfresh.
  { eapply (admit_new_fresh ledger request id); [done|done| |exact Eid]. lia. }
  assert (forall k r, cl_allocations ledger !! k = Some r ->
    owner_key_of (al_original r) <> owner_key_of (new_grant request (cl_generation ledger + 1) id))
    as Howner.
  { intros k r Hk E. unfold owner_key_of in E. simpl in E. injection E as Egroup Eres Eown Erole.
    unfold owner_allocation in Hnone. rewrite find_absent in Hnone.
    assert (r ∈ records ledger) as Hr by (apply elem_of_btree_values; eauto).
    specialize (Hnone r Hr). apply not_true_iff_false in Hnone. apply Hnone, owner_matches_true.
    split_and!; try done; [by apply (Hnode k r)|].
    intros Ec. rewrite Eown, Ec in Erole. by injection Erole. }
  split.
  2: { intros k r. simpl. intros [[<- <-]|[_ Hk]]%lookup_insert_Some; [done|by apply Hdig]. }
  assert (forall k r, cl_allocations ledger !! k = Some r ->
            (rg_generation (al_original r) <= cl_generation ledger)%N) as Hgen.
  { intros k r Hk. apply (co_records _ Hok k r Hk). }
  split; simpl; [lia|..].
  - intros k r [[<- <-]|[_ Hk]]%lookup_insert_Some.
    + split; simpl; try done; [lia|by repeat constructor| |lia|].
      * intros b ->%list_elem_of_singleton. simpl. lia.
      * intros task Eo. unfold request_ok in Hreq. rewrite Eo in Hreq. by subst.
    + destruct (co_records _ Hok k r Hk) as [? [? ?] ? ? ? ?]. split; try done. lia.
  - intros k k' r r' [[<- <-]|[Hne Hk]]%lookup_insert_Some [[<- <-]|[Hne' Hk']]%lookup_insert_Some E;
      simpl in E; try done; [specialize (Hgen _ _ Hk'); lia|specialize (Hgen _ _ Hk); lia|].
    by apply (co_generations _ Hok k k' r r').
  - intros k k' r r' [[<- <-]|[Hne Hk]]%lookup_insert_Some [[<- <-]|[Hne' Hk']]%lookup_insert_Some E;
      simpl in E; try done; [by destruct (Howner k' r')|by destruct (Howner k r)|].
    by apply (co_owners _ Hok k k' r r').
  - intros k k' r r' [[<- <-]|[Hne Hk]]%lookup_insert_Some [[<- <-]|[Hne' Hk']]%lookup_insert_Some E;
      simpl in *; try done; [symmetry; by apply (Hnode k' r')|by apply (Hnode k r)|].
    by apply (co_nodes _ Hok k k' r r').
  - intros k r [[<- <-]|[_ Hk]]%lookup_insert_Some; simpl; rewrite map_total_insert by done.
    + rewrite units_upto_all by (done || lia). unfold units_upto, allocated_units. simpl.
      rewrite N.leb_refl, bool_decide_eq_true_2 by done. lia.
    + unfold units_upto at 1. simpl. specialize (Hgen k r Hk).
      rewrite (proj2 (N.leb_gt _ _)) by lia. simpl. exact (co_capacity _ Hok k r Hk).
Qed.

(** ** Admission as a whole *)

Section Admit.
Context `{Serde, !DigestFaithful}.

Definition ledger_good (ledger : CapacityLedger) : Prop := capacity_ok ledger /\ digests_ok ledger.

(** The two ways an admission succeeds. *)
Lemma admit_cases ledger request ledger' grant :
  CapacityLedger_admit ledger request = Some (Ok (ledger', grant)) ->
  (0 < cq_units request <= cq_parent_units request)%N /\
  ((exists id existing, cl_allocations ledger !! id = Some existing /\
      owner_matches request existing = true /\
      admit_existing ledger request existing = Ok (ledger', grant)) \/
   (existsb (owner_moved request) (records ledger) = false /\
    owner_allocation ledger request = None /\
    admit_new ledger request = Some (Ok (ledger', grant)))).
Proof.
  unfold CapacityLedger_admit. destruct (_ || _) eqn:Eg; [done|].
  apply orb_false_iff in Eg as [[[Ez%N.eqb_neq Eu%N.ltb_ge]%orb_false_iff _]%orb_false_iff _].
  destruct (existsb _ _) eqn:Em; [done|].
  destruct (owner_allocation ledger request) as [existing|] eqn:Eo; intros Ha; (split; [lia|]).
  - left. apply owner_allocation_Some in Eo as (id & Hid & Hm). injection Ha as Ha. eauto.
  - right. done.
Qed.

Lemma admit_good ledger request ledger' grant :
  ledger_good ledger -> request_ok request ->
  CapacityLedger_admit ledger request = Some (Ok (ledger', grant)) -> ledger_good ledger'.
Proof.
  intros [Hok Hdig] Hreq Ha.
  destruct (admit_cases _ _ _ _ Ha) as [Hu [(id & existing & Hid & Hm & He)|(Hmv & Hn & Hnew)]].
  - split; [eapply admit_existing_ok; try done; lia|].
    destruct (admit_existing_cases _ _ _ _ _ _ Hok Hid He) as (_ & _ & [[_ ->]|(_ & _ & ->)]); [done|].
    intros k r. simpl. intros [[<- <-]|[_ Hk]]%lookup_insert_Some; [|by apply Hdig].
    by apply (Hdig id existing).
  - eapply admit_new_ok; try done. 
Qed.
End Admit.

(** ** Dropping and shrinking records *)

Lemma capacity_ok_omap ledger f :
  capacity_ok ledger ->
  (forall id r r', cl_allocations ledger !! id = Some r -> f r = Some r' ->
     al_original r' = al_original r /\ record_ok (cl_generation ledger) id r') ->
  capacity_ok (MkCapacityLedger (cl_generation ledger) (omap f (cl_allocations ledger))).
Proof.
  intros Hok Hf.
  assert (forall k r, omap f (cl_allocations ledger) !! k = Some r ->
    exists r0, cl_allocations ledger !! k = Some r0 /\ al_original r = al_original r0 /\
               record_ok (cl_generation ledger) k r) as Hold.
  { intros k r (r0 & Hk & Ef)%lookup_omap_Some. exists r0. destruct (Hf k r0 r Ef Hk). done. }
  split; simpl.
  - apply Hok.
  - intros k r (r0 & _ & _ & ?)%Hold. done.
  - intros k k' r r' (r0 & Hk & -> & _)%Hold (r0' & Hk' & -> & _)%Hold. by apply (co_generations _ Hok).
  - intros k k' r r' (r0 & Hk & -> & _)%Hold (r0' & Hk' & -> & _)%Hold. by apply (co_owners _ Hok).
  - intros k k' r r' (r0 & Hk & -> & _)%Hold (r0' & Hk' & -> & _)%Hold. by apply (co_nodes _ Hok k k').
  - intros k r (r0 & Hk & -> & _)%Hold. etrans; [|exact (co_capacity _ Hok k r0 Hk)].
    apply map_total_omap. intros k' v w Hv Ew. destruct (Hf k' v w Hv Ew) as [Eo _].
    unfold units_upto, allocated_units. rewrite Eo. lia.
Qed.

(** A release keeps the original of every record that stays. *)
Record releases (f : CapacityAllocation -> option CapacityAllocation) : Prop := {
  rl_original : forall r r', f r = Some r' -> al_original r' = al_original r;
  rl_ok : forall generation id r r', record_ok generation id r -> f r = Some r' ->
    record_ok generation id r'
}.

Lemma record_ok_filter generation id record keep :
  record_ok generation id record ->
  is_context (rg_owner (al_original record)) = true \/
    List.filter keep (al_borrowers record) <> [] ->
  record_ok generation id (with_borrowers record (List.filter keep (al_borrowers record))).
Proof.
  intros [Ri Rg Rb Rp Rw Rt] Hkeep. split; simpl; try done.
  - by apply canonical_filter.
  - intros b [Hb%list_elem_of_In _]%list_elem_of_In%filter_In. by apply Rp.
  - pose proof (total_filter_le bo_units keep (al_borrowers record)). lia.
  - intros task Eo. destruct Hkeep as [Hc|Hne]; [by rewrite Eo in Hc|].
    specialize (Rt task Eo). rewrite Rt in *. simpl in *.
    destruct (keep _); [done|by destruct Hne].
Qed.

Lemma releases_task group task role : releases (after_task_release group task role).
Proof.
  split; unfold after_task_release.
  - intros r r'. destruct (negb _); [by intros [= <-]|]. destruct (_ || _); [by intros [= <-]|done].
  - intros generation id r r' Hr. destruct (negb (bool_decide _)); [by intros [= <-]|].
    destruct (_ || _) eqn:E; [|done]. intros [= <-]. apply record_ok_filter; [done|].
    apply orb_true_iff in E as [E|E]; [by left|right]. intros El. by rewrite El in E.
Qed.

Lemma releases_context group context : releases (after_context_release group context).
Proof.
  split; unfold after_context_release; intros; case_match; try done; by simplify_eq.
Qed.

Lemma releases_group group : releases (after_group_release group).
Proof. split; unfold after_group_release; intros; case_match; try done; by simplify_eq. Qed.

(** ** The link to the quota ledger *)

Definition original_claim (g : ResourceAllocationGrant) : QuotaClaim :=
  MkClaim (rg_allocation_id g) (rg_tenant_id g) Compute (rg_allocation_units g)
    (Some (rg_resource_id g)) (Some (rg_allocation_id g)).

(** Every allocation has its quota claim and every allocation claim its allocation. *)
Record linked (ledger : CapacityLedger) (quota : QuotaLedger) : Prop := {
  lk_claim : forall id record, cl_allocations ledger !! id = Some record ->
    original_claim (al_original record) ∈ ql_claims quota;
  lk_allocation : forall c id, c ∈ ql_claims quota -> qc_allocation_id c = Some id ->
    is_Some (cl_allocations ledger !! id)
}.

Lemma linked_new : linked CapacityLedger_new QuotaLedger_new.
Proof. split; simpl; [intros; simplify_map_eq|by intros ? ? ?%not_elem_of_nil]. Qed.

Lemma linked_originals ledger ledger' quota :
  linked ledger quota ->
  (forall id r, cl_allocations ledger' !! id = Some r ->
     exists r0, cl_allocations ledger !! id = Some r0 /\ al_original r = al_original r0) ->
  (forall id, is_Some (cl_allocations ledger !! id) -> is_Some (cl_allocations ledger' !! id)) ->
  linked ledger' quota.
Proof.
  intros [Hc Ha] Hsame Hdom. split.
  - intros id r Hr. destruct (Hsame id r Hr) as (r0 & Hr0 & ->). by eapply Hc.
  - intros c id Hin Eid. eapply Hdom, Ha; done.
Qed.

Lemma elem_of_released q ids c :
  c ∈ ql_claims (foldl release_allocation q ids) <->
  c ∈ ql_claims q /\ forall id, id ∈ ids -> qc_allocation_id c <> Some id.
Proof.
  revert q. induction ids as [|id ids IH]; intros q; simpl.
  { split; [|tauto]. intros Hc. split; [done|]. by intros ? ?%not_elem_of_nil. }
  rewrite IH. unfold release_allocation at 1. simpl.
  rewrite list_elem_of_In, filter_In, <- list_elem_of_In, negb_true_iff, bool_decide_eq_false.
  setoid_rewrite elem_of_cons. naive_solver.
Qed.

Lemma released_ok q ids : ledger_ok q -> ledger_ok (foldl release_allocation q ids).
Proof.
  revert q. induction ids as [|id ids IH]; intros q Hq; simpl; [done|]. by apply IH, retain_ok.
Qed.
