(* ===== verification/AuthorityFacts.v ===== *)
(** * The allocation authority

    Capacity and quota together: Commit batches, binding and releases over both ledgers,
    and the invariant that links them. *)

From S2P Require Import Prelude Identity Execution StateModel Resource Scheduler.
From S2P Require Import Sorting Quota QuotaFacts Capacity.

Open Scope string_scope.

Section Authority.
Context `{Serde, !DigestFaithful}.

Record authority_ok (ledger : CapacityLedger) (quota : QuotaLedger) : Prop := {
  au_ledger : ledger_good ledger;
  au_quota : ledger_ok quota;
  au_linked : linked ledger quota
}.

(** ** Quota claims of a Commit *)

(** An exclusive claim never has the identity of an allocation claim. *)
Lemma exclusive_not_allocation c id resource :
  validate_claim c = Ok tt -> qc_allocation_id c = Some id ->
  qc_claim_id c <> resource_claim_id resource.
Proof.
  intros Hv Ea E. unfold validate_claim in Hv.
  destruct (quota_text (qc_claim_id c) "claim_id"); [|done]. simpl in Hv.
  destruct (quota_text (qc_tenant_id c) "tenant_id"); [|done]. simpl in Hv.
  destruct (_ || _); [done|]. destruct (claim_identity_invalid c) eqn:Ei; [done|].
  unfold claim_identity_invalid in Ei. rewrite Ea in Ei. rewrite !orb_false_iff, !negb_false_iff in Ei.
  destruct Ei as [[_ Eid%String.eqb_eq] Hd]. rewrite <- Eid, E in Hd. done.
Qed.

(** Tracking a resource keeps every allocation claim and adds only the tracked one. *)
Lemma track_resource_claims quota c quota' :
  ledger_ok quota -> track_resource quota c = Ok quota' ->
  (forall x id, qc_allocation_id x = Some id ->
     x ∈ ql_claims quota' <-> x ∈ ql_claims quota \/ x = c) /\
  (is_Some (qc_allocation_id c) -> c ∈ ql_claims quota').
Proof.
  intros Hq. unfold track_resource. destruct (is_none (qc_resource_id c)) eqn:Er; [done|].
  destruct (validate_claim c) as [[]|] eqn:Ev; [|done]. simpl.
  assert (track quota c = Ok quota' ->
    (forall x id, qc_allocation_id x = Some id -> x ∈ ql_claims quota' <-> x ∈ ql_claims quota \/ x = c) /\
    (is_Some (qc_allocation_id c) -> c ∈ ql_claims quota')) as Htrack.
  { intros Ht. pose proof (track_cases quota c Hq Ev) as Hc. rewrite Ht in Hc.
    destruct Hc as [[Hin ->]|(_ & -> & _)]; [split; [|done]; intros x id _; naive_solver|].
    simpl. setoid_rewrite elem_of_sort_by. setoid_rewrite elem_of_app.
    setoid_rewrite list_elem_of_singleton. split; [done|]. by right. }
  destruct (is_some (qc_allocation_id c)) eqn:Ea; [done|].
  destruct (list_find _ (ql_claims quota)) as [[i old]|] eqn:Ef; [|done].
  apply list_find_Some in Ef as (Hi & Ek%String.eqb_eq & _).
  assert (old ∈ ql_claims quota) as Hold by (by eapply list_elem_of_lookup_2).
  assert (qc_allocation_id c = None) as Ecn by (by destruct (qc_allocation_id c)).
  assert (qc_allocation_id old = None) as Eon.
  { destruct (qc_allocation_id old) as [id|] eqn:Eo; [exfalso|done].
    destruct (qc_resource_id c) as [resource|] eqn:Eres; [|done].
    apply (exclusive_not_allocation old id (as_str resource) (lo_claim_ok _ Hq old Hold) Eo).
    rewrite Ek. unfold validate_claim in Ev. destruct (quota_text (qc_claim_id c) _); [|done].
    simpl in Ev. destruct (quota_text (qc_tenant_id c) _); [|done]. simpl in Ev.
    destruct (_ || _); [done|]. destruct (claim_identity_invalid c) eqn:Ei; [done|].
    unfold claim_identity_invalid in Ei. rewrite Ecn, Eres in Ei. simpl in Ei.
    apply negb_false_iff, String.eqb_eq in Ei. done. }
  unfold grow_claim. destruct (_ || _); [done|]. intros Hg.
  split; [|rewrite Ecn; by intros [? ?]]. intros x id Ex.
  assert (quota' = quota \/ quota' = MkLedger (ql_limits quota)
    (<[i := with_units old (qc_units c)]> (ql_claims quota))) as [->| ->].
  { repeat (case_match; try done); injection Hg as <-; auto. }
  - split; [by left|]. intros [| ->]; [done|congruence].
  - simpl. split.
    + intros (j & Hj)%list_elem_of_lookup. apply list_lookup_insert_Some in Hj.
      destruct Hj as [(_ & <- & _)|[_ Hj]]; [simpl in Ex; congruence|].
      left. by eapply list_elem_of_lookup_2.
    + intros [Hx| ->]; [|congruence]. apply list_elem_of_lookup in Hx as [j Hj].
      apply (list_elem_of_lookup_2 _ j). rewrite list_lookup_insert_ne; [done|].
      intros ->. simplify_eq.
Qed.

(** ** Commit *)

Definition demand_ok (demand : CommitDemand) : Prop :=
  match demand with
  | ExclusiveDemand _ _ _ _ => True
  | SharedDemand request => request_ok request
  end.

(** The claim of a shared demand is the claim of the original it was granted from. *)
Lemma admit_claim ledger request ledger' grant :
  ledger_good ledger -> CapacityLedger_admit ledger request = Some (Ok (ledger', grant)) ->
  exists id record, cl_allocations ledger' !! id = Some record /\
    allocation_claim request grant = original_claim (al_original record) /\
    rg_allocation_id (al_original record) = id /\
    (forall k r, cl_allocations ledger' !! k = Some r -> k = id \/ cl_allocations ledger !! k = Some r) /\
    (forall r0, cl_allocations ledger !! id = Some r0 -> al_original r0 = al_original record) /\
    (forall k, is_Some (cl_allocations ledger !! k) -> is_Some (cl_allocations ledger' !! k)).
Proof.
  intros [Hok Hdig] Ha.
  destruct (admit_cases _ _ _ _ Ha) as [Hu [(id & existing & Hid & Hm & He)|(Hmv & Hn & Hnew)]].
  - apply owner_matches_true in Hm as (Er & _ & _ & _ & _).
    pose proof (ro_id _ _ _ (co_records _ Hok id existing Hid)) as Ei.
    destruct (admit_existing_cases _ _ _ _ _ _ Hok Hid He) as (-> & Et & [[_ ->]|(_ & _ & ->)]).
    + exists id, existing. split_and!; try done; [|by right|congruence].
      unfold allocation_claim, original_claim. simpl. by rewrite Er, Et.
    + eexists id, _. simpl. rewrite lookup_insert_eq. split_and!; try done.
      * unfold allocation_claim, original_claim. simpl. by rewrite Er, Et.
      * intros k r [[<- _]|[_ Hk]]%lookup_insert_Some; auto.
      * intros r0 Hr0. simpl. congruence.
      * intros k Hk. destruct (decide (id = k)) as [<-|]; [by rewrite lookup_insert_eq|].
        by rewrite lookup_insert_ne.
  - destruct (admit_new_cases _ _ _ _ Hnew) as (id & -> & Hw & Eid & _ & -> & _ & _).
    exists id. eexists. simpl. rewrite lookup_insert_eq. split_and!; try done.
    + intros k r [[<- _]|[_ Hk]]%lookup_insert_Some; auto.
    + intros r0 Hr0. exfalso.
      assert (cl_allocations ledger !! id = None) as E; [|congruence].
      eapply (admit_new_fresh ledger request id); [done|done| |exact Eid]. lia.
    + intros k Hk. destruct (decide (id = k)) as [<-|]; [by rewrite lookup_insert_eq|].
      by rewrite lookup_insert_ne.
Qed.

Lemma commit_demand_ok ledger quota demand ledger' quota' :
  authority_ok ledger quota -> demand_ok demand ->
  commit_demand ledger quota demand = Some (Ok (ledger', quota')) -> authority_ok ledger' quota'.
Proof.
  intros [Hl Hq [Hc Ha]] Hd. destruct demand as [resource tenant kind units|request];
    cbn [commit_demand].
  - destruct (0 <? _)%N; [done|].
    destruct (track_resource quota _) as [q1|] eqn:Et; [|done]. simpl. intros [= <- <-].
    destruct (track_resource_claims _ _ _ Hq Et) as [Hcl _].
    split; [done|by eapply track_resource_ok|]. split.
    + intros id record Hr. apply (Hcl _ (rg_allocation_id (al_original record))); [done|].
      left. by eapply Hc.
    + intros c id Hin Eid. apply (Hcl c id Eid) in Hin as [Hin| ->]; [by eapply Ha|done].
  - destruct (CapacityLedger_admit ledger request) as [[[l1 grant]|]|] eqn:Ead; try done. simpl.
    destruct (track_resource quota _) as [q1|] eqn:Et; [|done]. simpl. intros [= <- <-].
    destruct (track_resource_claims _ _ _ Hq Et) as [Hcl Hself].
    destruct (admit_claim _ _ _ _ Hl Ead) as (id & record & Hid & Eclaim & Ei & Hold & _ & Hdom).
    rewrite Eclaim in *.
    split; [by eapply admit_good|by eapply track_resource_ok|]. split.
    + intros k r Hk. destruct (Hold k r Hk) as [->|Hk'].
      * rewrite Hid in Hk. injection Hk as <-. apply Hself. by eexists.
      * apply (Hcl _ (rg_allocation_id (al_original r))); [done|]. left. by eapply Hc.
    + intros c k Hin Ek. apply (Hcl c k Ek) in Hin as [Hin| ->].
      * eapply Hdom, Ha; done.
      * injection Ek as <-. rewrite Ei, Hid. by eexists.
Qed.

Lemma commit_demands_ok l : forall ledger quota ledger' quota',
  authority_ok ledger quota -> Forall demand_ok l ->
  commit_demands ledger quota l = Some (Ok (ledger', quota')) -> authority_ok ledger' quota'.
Proof.
  induction l as [|demand l IH]; intros ledger quota ledger' quota' Hok Hall; simpl.
  { by intros [= <- <-]. }
  apply Forall_cons_1 in Hall as [Hd Hall].
  destruct (commit_demand ledger quota demand) as [[[l1 q1]|]|] eqn:E; try done. simpl.
  apply IH; [by eapply commit_demand_ok|done].
Qed.

(** ** Releases *)

Lemma retain_allocations_ok f a :
  releases f -> authority_ok (cau_capacity_ledger a) (cau_quota_ledger a) ->
  authority_ok (cau_capacity_ledger (retain_allocations f a))
               (cau_quota_ledger (retain_allocations f a)).
Proof.
  intros [Ho Hr] [[Hok Hdig] Hq [Hc Ha]]. unfold retain_allocations. simpl.
  set (m := cl_allocations (cau_capacity_ledger a)) in *. split.
  - split.
    + apply capacity_ok_omap; [done|]. intros id r r' Hid Ef.
      split; [by apply Ho|]. by eapply Hr, Ef; apply Hok.
    + intros id r. simpl. intros (r0 & Ef & Hid)%lookup_omap_Some. rewrite (Ho _ _ Ef). by apply Hdig.
  - by apply released_ok.
  - split; simpl.
    + intros id r (r0 & Ef & Hid)%lookup_omap_Some. rewrite (Ho _ _ Ef).
      apply elem_of_released. split; [by eapply Hc|]. simpl. intros k Hk [= Ek].
      rewrite (ro_id _ _ _ (co_records _ Hok id r0 Hid)) in Ek. subst k.
      apply list_elem_of_In, filter_In in Hk as [_ Hk]. apply negb_true_iff, contains_key_false in Hk.
      rewrite lookup_omap in Hk. change (m !! id = Some r0) in Hid. rewrite Hid in Hk. simpl in Hk.
      congruence.
    + intros c id [Hin Hnot]%elem_of_released Eid. destruct (Ha c id Hin Eid) as [r0 Hr0].
      destruct (omap f m !! id) as [r|] eqn:E; [by eexists|]. exfalso.
      apply (Hnot id); [|done]. apply list_elem_of_In, filter_In. split.
      * apply list_elem_of_In, elem_of_btree_keys. by exists r0.
      * by apply negb_true_iff, contains_key_false.
Qed.

(** ** Binding *)

Lemma bind_allocation_cases ledger resource group task role :
  bind_allocation ledger resource group task role = ledger \/
  exists id record reservation, cl_allocations ledger !! id = Some record /\
    bind_allocation ledger resource group task role =
      MkCapacityLedger (cl_generation ledger)
        (<[id := MkAllocation (al_original record) reservation (al_borrowers record)]>
           (cl_allocations ledger)).
Proof.
  unfold bind_allocation. destruct (List.find _ _) as [[id record]|] eqn:E; [right|by left].
  apply find_elem in E as [Hin%elem_of_btree_iter _]. by eexists id, record, _.
Qed.

Lemma bind_allocation_ok ledger quota resource group task role :
  authority_ok ledger quota -> authority_ok (bind_allocation ledger resource group task role) quota.
Proof.
  intros [[Hok Hdig] Hq Hl].
  destruct (bind_allocation_cases ledger resource group task role)
    as [->|(id & record & reservation & Hid & ->)]; [done|].
  assert (record_ok (cl_generation ledger) id
    (MkAllocation (al_original record) reservation (al_borrowers record))) as Hr
    by (destruct (co_records _ Hok id record Hid); by split).
  split; [split|done|].
  - by eapply capacity_ok_replace.
  - intros k r. simpl. intros [[<- <-]|[_ Hk]]%lookup_insert_Some; simpl; by eapply Hdig.
  - eapply linked_originals; [done|..]; simpl.
    + intros k r [[<- <-]|[_ Hk]]%lookup_insert_Some; eauto.
    + intros k Hk. destruct (decide (id = k)) as [<-|]; [by rewrite lookup_insert_eq|].
      by rewrite lookup_insert_ne.
Qed.

(** ** Reachable authorities *)

Inductive authority_step : CapacityAuthority -> CapacityAuthority -> Prop :=
| as_commit a demands ledger quota version :
    Forall demand_ok demands ->
    commit_demands (cau_capacity_ledger a) (cau_quota_ledger a) demands = Some (Ok (ledger, quota)) ->
    authority_step a (MkCapacityAuthority version ledger quota)
| as_bind a resource group task role :
    authority_step a (MkCapacityAuthority (cau_calendar_version a)
      (bind_allocation (cau_capacity_ledger a) resource group task role) (cau_quota_ledger a))
| as_release_task a group task role : authority_step a (release_capacity_task group task role a)
| as_release_context a group context : authority_step a (release_capacity_context group context a)
| as_release_group a group : authority_step a (release_capacity_group group a)
| as_limits a limits quota :
    replace_limits (cau_quota_ledger a) limits = Ok quota ->
    authority_step a (MkCapacityAuthority (cau_calendar_version a) (cau_capacity_ledger a) quota)
| as_release_resource a resource :
    authority_step a (MkCapacityAuthority (cau_calendar_version a) (cau_capacity_ledger a)
      (release_resource (cau_quota_ledger a) resource)).

Definition authority_new : CapacityAuthority :=
  MkCapacityAuthority 0 CapacityLedger_new QuotaLedger_new.

Lemma linked_limits ledger quota limits :
  linked ledger quota -> linked ledger (MkLedger limits (ql_claims quota)).
Proof. by intros [Hc Ha]. Qed.

Lemma authority_step_ok a a' :
  authority_step a a' ->
  authority_ok (cau_capacity_ledger a) (cau_quota_ledger a) ->
  authority_ok (cau_capacity_ledger a') (cau_quota_ledger a').
Proof.
  destruct 1 as [a demands ledger quota version Hd Hc|a resource group task role|a group task role
    |a group context|a group|a limits quota Hl|a resource]; intros Hok; simpl.
  - by eapply commit_demands_ok.
  - by apply bind_allocation_ok.
  - apply retain_allocations_ok; [apply releases_task|done].
  - apply retain_allocations_ok; [apply releases_context|done].
  - apply retain_allocations_ok; [apply releases_group|done].
  - destruct Hok as [? ? ?]. split; [done|by eapply replace_limits_ok|].
    unfold replace_limits in Hl. destruct (set_limits _ _); [|done]. injection Hl as <-.
    by apply linked_limits.
  - destruct Hok as [? ? [Hc Ha]]. split; [done|by apply retain_ok|]. split; simpl.
    + intros id record Hr. apply list_elem_of_In, filter_In. split; [|done].
      by eapply list_elem_of_In, Hc.
    + intros c id [Hin%list_elem_of_In _]%list_elem_of_In%filter_In. by apply Ha.
Qed.

Lemma authority_ok_new :
  authority_ok (cau_capacity_ledger authority_new) (cau_quota_ledger authority_new).
Proof.
  split; [split; [apply capacity_ok_new|]|apply ledger_ok_new|apply linked_new].
  intros id r. simpl. intros; simplify_map_eq.
Qed.

Lemma reachable_authority_ok a :
  rtc authority_step authority_new a -> authority_ok (cau_capacity_ledger a) (cau_quota_ledger a).
Proof.
  intros Hr. pose proof authority_ok_new as H0'. revert H0'.
  induction Hr as [a|a a1 a2 Hs Hr IH]; intros Ha; [done|]. by eapply IH, authority_step_ok.
Qed.

(** ** Allocations of a tenant *)

Definition tenant_units (tenant : string) (record : CapacityAllocation) : N :=
  if (rg_tenant_id (al_original record) =? tenant)%string
  then rg_allocation_units (al_original record) else 0%N.

Lemma total_submseteq {A} (f : A -> N) (l k : list A) : l ⊆+ k -> (total f l <= total f k)%N.
Proof. induction 1; simpl; lia. Qed.

Lemma tenant_units_committed ledger quota tenant :
  authority_ok ledger quota ->
  (map_total (tenant_units tenant) (cl_allocations ledger) <= committed quota tenant Compute)%N.
Proof.
  intros [[Hok _] Hq [Hc _]]. rewrite map_total_list. unfold committed.
  set (entries := map_to_list (cl_allocations ledger)).
  assert (total (tenant_units tenant) entries.*2 =
          total (charge tenant Compute) ((fun e => original_claim (al_original e.2)) <$> entries)) as ->.
  { clearbody entries. induction entries as [|[id r] l IH]; [done|]. rewrite !fmap_cons. simpl.
    rewrite IH. f_equal. unfold tenant_units, charge, charged_to. simpl.
    by destruct (_ =? tenant)%string. }
  apply total_submseteq, NoDup_submseteq.
  - apply (NoDup_fmap_1 qc_claim_id). rewrite <- list_fmap_compose.
    replace ((qc_claim_id ∘ _) <$> entries) with entries.*1; [apply NoDup_fst_map_to_list|].
    apply list_fmap_ext. intros i [id r] He. simpl.
    assert (cl_allocations ledger !! id = Some r) as Hr
      by (by apply elem_of_map_to_list; eapply list_elem_of_lookup_2).
    symmetry. apply (co_records _ Hok id r Hr).
  - intros c (e & -> & He)%list_elem_of_fmap. destruct e as [id r].
    apply elem_of_map_to_list in He. by eapply Hc.
Qed.
End Authority.

(** ** Admitting a request again *)

Section Idempotent.
Context `{Serde, !DigestFaithful}.

Lemma owner_allocation_unique ledger request id record :
  capacity_ok ledger -> cl_allocations ledger !! id = Some record ->
  owner_matches request record = true -> owner_allocation ledger request = Some record.
Proof.
  intros Hok Hid Hm. destruct (owner_allocation ledger request) as [r|] eqn:E.
  - apply owner_allocation_Some in E as (k & Hk & Hmk). f_equal.
    assert (k = id) as ->; [|congruence].
    apply owner_matches_true in Hm as (R1 & G1 & _ & O1 & P1).
    apply owner_matches_true in Hmk as (R2 & G2 & _ & O2 & P2).
    apply (co_owners _ Hok k id r record Hk Hid). unfold owner_key_of.
    rewrite R1, R2, G1, G2, O1, O2. f_equal.
    destruct (is_context (cq_owner request)) eqn:Ec; [done|]. by rewrite P1, P2.
  - unfold owner_allocation in E. rewrite find_absent in E. exfalso.
    assert (owner_matches request record = false); [|congruence].
    apply E, elem_of_btree_values. eauto.
Qed.

(** Sums of a measure of the originals depend on the originals only. *)
Lemma committed_same_originals ledger id record record' resource generation :
  cl_allocations ledger !! id = Some record -> al_original record' = al_original record ->
  committed_units (MkCapacityLedger generation (<[id := record']> (cl_allocations ledger))) resource
  = committed_units ledger resource.
Proof.
  intros Hid Eo. unfold committed_units, records. simpl.
  pose proof (map_total_replace (allocated_units resource) _ id record' record Hid) as Ht.
  assert (allocated_units resource record' = allocated_units resource record) as Ef
    by (unfold allocated_units; by rewrite Eo). unfold map_total in Ht. lia.
Qed.

(** The record a request borrows from after it was admitted. *)
Lemma admit_again ledger request ledger' grant :
  ledger_good ledger -> request_ok request ->
  CapacityLedger_admit ledger request = Some (Ok (ledger', grant)) ->
  exists id record, cl_allocations ledger' !! id = Some record /\
    owner_matches request record = true /\ request_borrower request ∈ al_borrowers record /\
    grant = borrower_grant (al_original record) (cq_task_ref request) (cq_task_role_id request)
              (cq_units request) /\
    rg_resource_class (al_original record) = cq_resource_class request /\
    rg_tenant_id (al_original record) = cq_tenant_id request /\
    rg_allocation_units (al_original record) = cq_parent_units request /\
    (committed_units ledger' (cq_resource_id request) <= cq_capacity request)%N.
Proof.
  intros [Hok Hdig] Hreq Ha.
  destruct (admit_cases _ _ _ _ Ha) as [Hu [(id & existing & Hid & Hm & He)|(Hmv & Hn & Hnew)]].
  - destruct (admit_existing_cases _ _ _ _ _ _ Hok Hid He) as (-> & Et & Hcase).
    unfold admit_existing in He. destruct (_ || _) eqn:Eg in He; [done|]. clear He.
    rewrite !orb_false_iff, !negb_false_iff, !String.eqb_eq, N.eqb_eq, N.ltb_ge in Eg.
    destruct Eg as [[[Ecl _] Eun] Hcap].
    destruct Hcase as [[Hin ->]|(_ & _ & ->)].
    + exists id, existing. done.
    + eexists id, _. simpl. rewrite lookup_insert_eq. split_and!; try done.
      * simpl. rewrite elem_of_sort_by. set_solver.
      * by rewrite (committed_same_originals ledger id existing).
  - destruct (admit_new_cases _ _ _ _ Hnew) as (id & -> & Hw & Eid & _ & -> & Hcap & _).
    exists id. eexists. simpl. rewrite lookup_insert_eq. split_and!; try done.
    + apply owner_matches_true. simpl. split_and!; try done.
    + simpl. by left.
    + assert (cl_allocations ledger !! id = None) as Hfresh.
      { eapply (admit_new_fresh ledger request id); [done|done| |exact Eid]. lia. }
      unfold committed_units, records. simpl.
      pose proof (map_total_insert (allocated_units (cq_resource_id request)) _ id
        (new_allocation request (new_grant request (cl_generation ledger + 1) id)) Hfresh) as Ht.
      unfold map_total in Ht. rewrite Ht. unfold allocated_units at 1. simpl.
      rewrite bool_decide_eq_true_2 by done. unfold committed_units, records in Hcap. lia.
Qed.

Lemma owner_moved_matched ledger request :
  (forall k r, cl_allocations ledger !! k = Some r -> owner_moved request r = false) ->
  existsb (owner_moved request) (records ledger) = false.
Proof.
  intros Hall. apply not_true_iff_false. intros (r & Hr & Hm)%existsb_exists.
  apply list_elem_of_In, elem_of_btree_values in Hr as [k Hk]. by rewrite (Hall k r Hk) in Hm.
Qed.

Lemma owner_moved_original request r r' :
  al_original r = al_original r' -> owner_moved request r = owner_moved request r'.
Proof. intros E. unfold owner_moved. by rewrite E. Qed.

(** Nothing of the owner lies elsewhere after an admission. *)
Lemma admit_not_moved ledger request ledger' grant :
  ledger_good ledger -> CapacityLedger_admit ledger request = Some (Ok (ledger', grant)) ->
  existsb (owner_moved request) (records ledger') = false.
Proof.
  intros [Hok Hdig] Ha.
  assert (forall k r, cl_allocations ledger !! k = Some r -> owner_moved request r = false) as Hbefore.
  { intros k r Hk. unfold CapacityLedger_admit in Ha. destruct (_ || _) in Ha; [done|].
    destruct (existsb _ _) eqn:Em in Ha; [done|]. apply not_true_iff_false. intros Ht.
    apply not_true_iff_false in Em. apply Em, existsb_exists. exists r.
    split; [apply list_elem_of_In, elem_of_btree_values; eauto|done]. }
  apply owner_moved_matched. intros k r Hk.
  destruct (admit_cases _ _ _ _ Ha) as [_ [(id & existing & Hid & _ & He)|(_ & _ & Hnew)]].
  - destruct (admit_existing_cases _ _ _ _ _ _ Hok Hid He) as (_ & _ & [[_ ->]|(_ & _ & ->)]);
      [by eapply Hbefore|]. simpl in Hk.
    apply lookup_insert_Some in Hk as [[<- <-]|[_ Hk]]; [|by eapply Hbefore].
    rewrite (owner_moved_original _ _ existing) by done. by eapply Hbefore.
  - destruct (admit_new_cases _ _ _ _ Hnew) as (id & -> & _ & _ & _ & -> & _ & _). simpl in Hk.
    apply lookup_insert_Some in Hk as [[<- <-]|[_ Hk]]; [|by eapply Hbefore].
    unfold owner_moved. simpl. rewrite !bool_decide_eq_true_2 by done. simpl. by rewrite andb_false_r.
Qed.

Lemma admit_idempotent ledger request ledger' grant :
  ledger_good ledger -> request_ok request ->
  CapacityLedger_admit ledger request = Some (Ok (ledger', grant)) ->
  CapacityLedger_admit ledger' request = Some (Ok (ledger', grant)).
Proof.
  intros Hl Hreq Ha. pose proof (admit_good _ _ _ _ Hl Hreq Ha) as [Hok' _].
  destruct (admit_again _ _ _ _ Hl Hreq Ha) as (id & record & Hid & Hm & Hb & Eg & Ec & Et & Eu & Hcap).
  pose proof (admit_not_moved _ _ _ _ Hl Ha) as Hmv.
  unfold CapacityLedger_admit. rewrite Hmv, (owner_allocation_unique _ _ _ _ Hok' Hid Hm).
  unfold CapacityLedger_admit in Ha. destruct (_ || _) eqn:G in Ha; [done|]. rewrite G. f_equal. unfold admit_existing.
  rewrite Ec, Et, Eu, !String.eqb_refl, N.eqb_refl, (proj2 (N.ltb_ge _ _) Hcap). simpl.
  destruct (List.find _ (al_borrowers record)) as [b|] eqn:Ef.
  - apply find_elem in Ef as [Hb' Ek%borrows_true].
    assert (b = request_borrower request) as ->.
    { apply (canonical_key_inj borrower_key (al_borrowers record)); try done.
      apply (co_records _ Hok' id record Hid). }
    rewrite bool_decide_eq_true_2 by done. simpl. by rewrite Eg.
  - rewrite find_absent in Ef. specialize (Ef _ Hb). apply not_true_iff_false in Ef.
    destruct Ef. by apply borrows_true.
Qed.
End Idempotent.
