(* ===== verification/NodeAuthority.v ===== *)
(** * Node leases and sessions

    [node.rs], [node_session.rs] and [node_identity.rs] of [core/control/src], with
    [validate_topology_registration] of [resource_topology.rs]: registration of a Node
    under a lease, its authenticated session, heartbeats, continuous liveness evidence and
    expiry.  [NodeAuthority] holds the fields of [ControlPlane] these operations use.  An
    operation that returns [Err] keeps what it had changed before the error. *)

From S2P Require Import Prelude Identity Execution StateModel Resource Scheduler.
From S2P Require Import Sorting Quota Capacity NodeIdentity NodeState.

Open Scope string_scope.

(** [NodeSessionAnchor]. *)
Record NodeSessionAnchor := MkSessionAnchor {
  an_certificate_expires_at_ms : option N;
  an_certificate_digest : option string;
  an_session_id : string;
  an_lease_id : LeaseId;
  an_admitted_at : TimestampMs;
  an_duration_ms : N;
  an_accepted_sequence : N;
  an_accepted_received_at : TimestampMs;
  an_accepted_health_sequence : N;
  an_accepted_health_received_at : TimestampMs;
  an_fenced : bool
}.

Record NodeAuthority := MkNodeAuthority {
  na_leases : gmap NodeId NodeLease;
  na_node_sessions : gmap NodeId NodeSessionAnchor;
  na_identity_registry : option NodeIdentityRegistry;
  na_topology : option ResourceTopologyRegistry;
  na_reservations : gmap ResourceId Reservation;
  na_capacity_ledger : CapacityLedger;
  na_quota_ledger : QuotaLedger
}.

Definition set_leases (leases : gmap NodeId NodeLease) (a : NodeAuthority) : NodeAuthority :=
  MkNodeAuthority leases (na_node_sessions a) (na_identity_registry a) (na_topology a)
    (na_reservations a) (na_capacity_ledger a) (na_quota_ledger a).
Definition set_sessions (sessions : gmap NodeId NodeSessionAnchor) (a : NodeAuthority)
  : NodeAuthority :=
  MkNodeAuthority (na_leases a) sessions (na_identity_registry a) (na_topology a)
    (na_reservations a) (na_capacity_ledger a) (na_quota_ledger a).

(** The events these operations append. *)
Inductive NodeEvent :=
| NodeRegistered (node_id : NodeId) (lease_id : LeaseId)
| NodeHeartbeatAccepted (node_id : NodeId) (lease_id : LeaseId)
| NodeLeaseExpired (node_id : NodeId) (lease_id : LeaseId)
| NodeSessionLivenessAccepted (node_id : NodeId) (session_id : string) (lease_id : LeaseId)
    (first_sequence last_sequence : N) (activated_at first_received_at last_received_at : TimestampMs)
    (maximum_gap_ms : N).

(** The state an operation works on, its events and its result. *)
Record NodeRun := MkNodeRun {
  nr_authority : NodeAuthority;
  nr_state : SharedNodeState;
  nr_events : list NodeEvent
}.

Abbreviation NodeStep A := (NodeRun * Result A ControlError)%type.

Definition with_authority (s : NodeRun) (a : NodeAuthority) : NodeRun :=
  MkNodeRun a (nr_state s) (nr_events s).
Definition emit (s : NodeRun) (e : NodeEvent) : NodeRun :=
  MkNodeRun (nr_authority s) (nr_state s) (nr_events s ++ [e])%list.

(** ** Identity: [node_identity.rs] *)

Section Identity.
Context (a : NodeAuthority).

Definition identity_transport_is_current (node : NodeId) (now : TimestampMs) : bool :=
  is_none_or (fun registry =>
    is_some_and (fun session =>
      is_some_and (fun until => (now <? until)%N) (an_certificate_expires_at_ms session)
      && is_some_and (fun digest => accepts registry (as_str node) digest now)
           (an_certificate_digest session))
      (na_node_sessions a !! node)) (na_identity_registry a).

(** Required measurements are present and current. *)
Definition attestation_current (record : NodeIdentityRecord) (now : TimestampMs) : bool :=
  is_none_or (fun policy =>
    negb (ap_required_for_admission policy)
    || is_some_and (fun report =>
         (ar_received_at_ms report <=? now)%N && (now <? ar_valid_until_ms report)%N)
         (ni_attestation_report record)) (ni_attestation_policy record).

Definition identity_is_eligible (node : NodeId) (now : TimestampMs) : bool :=
  identity_transport_is_current node now
  && is_none_or (fun registry =>
       is_some_and (fun record => attestation_current record now) (nr_records registry !! as_str node))
       (na_identity_registry a).

Definition identity_registration_allowed (node : NodeId) (now : TimestampMs) : bool :=
  is_none_or (fun registry =>
    is_some_and (fun record => accepts registry (as_str node) (ni_current_digest record) now)
      (nr_records registry !! as_str node)) (na_identity_registry a).

(** ** Registration checks *)

(** [validate_topology_registration]. *)
Definition topology_resource_refused (registration : NodeRegistration)
    (registry : ResourceTopologyRegistry) (resource : Resource) : Result unit ControlError :=
  let entry := topology_entry registry (res_id resource) in
  if bool_decide (res_kind resource = Compute) then
    if is_some entry
    then Err (InvalidProposal "Compute resource cannot hide spatial/calendar interpretation")
    else Ok tt
  else if is_none_or (fun e => negb (bool_decide (te_node_id e = nd_node_id registration))
                               || negb (bool_decide (te_kind e = res_kind resource))) entry
  then Err (InvalidProposal "Space/Time declaration lacks exact current deployment topology")
  else Ok tt.

Definition held_topology_removed (registration : NodeRegistration) (held : Reservation) : bool :=
  is_some_and (fun t =>
    bool_decide (te_node_id (tv_entry t) = nd_node_id registration)
    && negb (existsb (fun resource =>
         bool_decide (res_id resource = te_resource_id (tv_entry t))
         && bool_decide (res_kind resource = te_kind (tv_entry t))) (nd_resources registration)))
    (rsv_topology held).

Definition validate_topology_registration (registration : NodeRegistration)
  : Result unit ControlError :=
  match na_topology a with
  | None => Ok tt
  | Some registry =>
      let? _r := try_for (topology_resource_refused registration registry)
                   (nd_resources registration) in
      try_for (fun held =>
        if held_topology_removed registration held
        then Err (InvalidProposal "registration removed an original spatial/calendar resource")
        else Ok tt) (btree_values (na_reservations a))
  end.

Definition ensure_resource_identities_available (state : SharedNodeState)
    (registration : NodeRegistration) : Result unit ControlError :=
  try_for (fun snapshot =>
    if bool_decide (sn_node_id snapshot = nd_node_id registration) then Ok tt else
    try_for (fun resource =>
      if owns_resource (sn_registration snapshot) (res_id resource) None
      then Err (InvalidProposal ("resource identity " ++ as_str (res_id resource)
                  ++ " is already advertised by node " ++ as_str (sn_node_id snapshot)
                  ++ ", not node " ++ as_str (nd_node_id registration)))
      else Ok tt) (nd_resources registration)) (btree_values state).

(** A pool's declaration against the units committed on it. *)
Definition pool_understated (registration : NodeRegistration) (resource : Resource) : bool :=
  let shared := committed_units (na_capacity_ledger a) (res_id resource) in
  (0 <? shared)%N
  && (negb (bool_decide (res_allocation_mode resource = Divisible))
      || negb (bool_decide (res_kind resource = Compute))
      || (res_capacity resource <? shared)%N
      || existsb (fun record =>
           bool_decide (rg_resource_id (al_original record) = res_id resource)
           && (negb (bool_decide (rg_node_id (al_original record) = nd_node_id registration))
               || negb (bool_decide (Some (rg_resource_class (al_original record))
                                     = res_resource_class resource))))
           (records (na_capacity_ledger a))).

Definition pool_undeclared (registration : NodeRegistration) (resource : Resource) : bool :=
  bool_decide (res_allocation_mode resource = Divisible)
  && (negb (supports_quantitative_resources (nd_contract_version registration))
      || negb (bool_decide (res_kind resource = Compute))
      || is_none (res_resource_class resource)).

Definition claim_uncovered (resource : Resource) : bool :=
  contains_key (res_id resource) (na_reservations a)
  && existsb (fun claim =>
       bool_decide (qc_resource_id claim = Some (res_id resource))
       && (negb (bool_decide (qc_kind claim = res_kind resource))
           || (res_capacity resource <? qc_units claim)%N)) (ql_claims (na_quota_ledger a)).

Definition ensure_declared_capacity_covers_commitments (registration : NodeRegistration)
  : Result unit ControlError :=
  let? _t := validate_topology_registration registration in
  let? _p := try_for (fun record =>
    if bool_decide (rg_node_id (al_original record) = nd_node_id registration)
       && negb (existsb (fun resource =>
            bool_decide (res_id resource = rg_resource_id (al_original record)))
            (nd_resources registration))
    then Err (InvalidProposal "registration removed an original quantitatively allocated resource")
    else Ok tt) (records (na_capacity_ledger a)) in
  try_for (fun resource =>
    if pool_understated registration resource
    then Err (InvalidProposal
                "registration cannot replace or understate original quantitative ownership") else
    if pool_undeclared registration resource
    then Err (InvalidProposal
                "quantitative resources require explicit Node Contract v0.13 and unit class") else
    if claim_uncovered resource
    then Err (InvalidProposal ("resource " ++ as_str (res_id resource)
                ++ " cannot cover its original committed demand"))
    else Ok tt) (nd_resources registration).

(** The units a replacement must still declare. *)
Definition required_units (resource : Resource) : N :=
  let shared := committed_units (na_capacity_ledger a) (res_id resource) in
  if (0 <? shared)%N then shared else
  match List.find (fun claim => bool_decide (qc_resource_id claim = Some (res_id resource)))
          (ql_claims (na_quota_ledger a)) with
  | Some claim => qc_units claim
  | None => res_capacity resource
  end.

Definition keeps_declaration (replacement : NodeRegistration) (resource : Resource) : bool :=
  existsb (fun next =>
    bool_decide (res_id next = res_id resource)
    && bool_decide (res_kind next = res_kind resource)
    && bool_decide (res_allocation_mode next = res_allocation_mode resource)
    && bool_decide (res_resource_class next = res_resource_class resource)
    && (required_units resource <=? res_capacity next)%N) (nd_resources replacement).

Definition ensure_committed_resources_remain_declared (current : NodeStateSnapshot)
    (replacement : NodeRegistration) : Result unit ControlError :=
  try_for (fun resource =>
    if (contains_key (res_id resource) (na_reservations a)
        || (0 <? committed_units (na_capacity_ledger a) (res_id resource))%N)
       && negb (keeps_declaration replacement resource)
    then Err (InvalidProposal ("registration update changes committed resource "
                ++ as_str (res_id resource)))
    else Ok tt) (nd_resources (sn_registration current)).
End Identity.

(** ** Registration: [node.rs] *)

Definition DEFAULT_NODE_LEASE_TTL_MS : N := 15000.

(** [register_node_with_lease_received]. *)
Definition register_node_with_lease_received (registration : NodeRegistration) (status : NodeStatus)
    (lease : NodeLease) (received_at timestamp : TimestampMs) (s : NodeRun) : NodeStep unit :=
  let a := nr_authority s in
  let node := nd_node_id registration in
  if (timestamp <? received_at)%N
  then (s, Err (InvalidLease "registration receive time is after decision time")) else
  if negb (bool_decide (le_node_id lease = node))
  then (s, Err (InvalidLease "lease node does not match registration node")) else
  if negb (identity_registration_allowed a node timestamp)
  then (s, Err (InvalidLease "Node identity is absent, revoked or expired")) else
  if negb (is_active_at lease timestamp)
  then (s, Err (CeLeaseExpired node (le_lease_id lease))) else
  let checked :=
    let? _i := ensure_resource_identities_available (nr_state s) registration in
    let? _c := ensure_declared_capacity_covers_commitments a registration in
    let? _r := match nr_state s !! node with
               | Some current => ensure_committed_resources_remain_declared a current registration
               | None => Ok tt
               end in
    result_map_err SharedState
      (record_node (nr_state s)
         (MkNodeSnapshot registration status received_at
            (MkLivenessObservation Reachable timestamp))) in
  match checked with
  | Err e => (s, Err e)
  | Ok state =>
      let a1 := set_sessions (delete node (na_node_sessions a))
                  (set_leases (<[node := lease]> (na_leases a)) a) in
      (MkNodeRun a1 state (nr_events s ++ [NodeRegistered node (le_lease_id lease)])%list, Ok tt)
  end.

Definition register_node_with_lease (registration : NodeRegistration) (status : NodeStatus)
    (lease : NodeLease) (timestamp : TimestampMs) (s : NodeRun) : NodeStep unit :=
  register_node_with_lease_received registration status lease timestamp timestamp s.

(** [register_node]: a generated lease. *)
Definition register_node (registration : NodeRegistration) (status : NodeStatus)
    (timestamp : TimestampMs) (s : NodeRun) : NodeStep unit :=
  let generated :=
    let? lease_id := result_map_err (fun e => InvalidLease (DomainError_to_string e))
                       (Identifier_new ("lease-" ++ as_str (nd_node_id registration))) in
    result_map_err (fun e => InvalidLease (DomainError_to_string e))
      (NodeLease_new lease_id (nd_node_id registration) timestamp DEFAULT_NODE_LEASE_TTL_MS) in
  match generated with
  | Err e => (s, Err e)
  | Ok lease => register_node_with_lease registration status lease timestamp s
  end.

(** [update_node_registration]: declarations only. *)
Definition update_node_registration (registration : NodeRegistration) (timestamp : TimestampMs)
    (s : NodeRun) : NodeStep unit :=
  let a := nr_authority s in
  let node := nd_node_id registration in
  match nr_state s !! node with
  | None => (s, Err (UnknownNode node))
  | Some current =>
      if negb (identity_is_eligible a node timestamp)
      then (s, Err (InvalidLease "Node identity is absent, revoked or expired")) else
      match na_leases a !! node with
      | None => (s, Err (UnknownNode node))
      | Some lease =>
          if negb (is_active_at lease timestamp)
          then (s, Err (CeLeaseExpired node (le_lease_id lease))) else
          let checked :=
            let? _i := ensure_resource_identities_available (nr_state s) registration in
            let? _r := ensure_committed_resources_remain_declared a current registration in
            let? _c := ensure_declared_capacity_covers_commitments a registration in
            result_map_err SharedState
              (record_node (nr_state s)
                 (MkNodeSnapshot registration (sn_reported_status current)
                    (sn_reported_status_received_at current) (sn_liveness current))) in
          match checked with
          | Err e => (s, Err e)
          | Ok state =>
              (MkNodeRun a state (nr_events s ++ [NodeRegistered node (le_lease_id lease)])%list,
               Ok tt)
          end
      end
  end.

(** ** Heartbeats *)

(** [accept_heartbeat]. *)
Definition accept_heartbeat (heartbeat : NodeHeartbeat) (received_at : TimestampMs)
    (lease_duration_ms : N) (s : NodeRun) : NodeStep unit :=
  let a := nr_authority s in
  let node := hb_node_id heartbeat in
  match na_leases a !! node with
  | None => (s, Err (UnknownNode node))
  | Some lease =>
      if negb (bool_decide (le_lease_id lease = hb_lease_id heartbeat))
      then (s, Err (UnknownLease node (hb_lease_id heartbeat))) else
      match NodeLease_renew lease received_at lease_duration_ms with
      | Err (LeaseExpired _) => (s, Err (CeLeaseExpired node (hb_lease_id heartbeat)))
      | Err e => (s, Err (InvalidLease (DomainError_to_string e)))
      | Ok renewed =>
          match record_node_health (nr_state s)
                  (MkHealthObservation node (hb_status heartbeat) received_at) with
          | Err e => (s, Err (SharedState e))
          | Ok state =>
              (MkNodeRun (set_leases (<[node := renewed]> (na_leases a)) a) state
                 (nr_events s ++ [NodeHeartbeatAccepted node (hb_lease_id heartbeat)])%list, Ok tt)
          end
      end
  end.

(** The health of a late heartbeat that accepted session evidence already covers. *)
Definition health_covered (a : NodeAuthority) (state : SharedNodeState) (heartbeat : NodeHeartbeat)
    (received_at : TimestampMs) : bool :=
  is_some_and (fun node =>
    (received_at <? sn_reported_status_received_at node)%N
    && bool_decide (ns_health (hb_status heartbeat) = ns_health (sn_reported_status node))
    && is_some_and (fun session =>
         (0 <? an_accepted_health_sequence session)%N
         && (an_admitted_at session <=? received_at)%N
         && (received_at <=? an_accepted_health_received_at session)%N)
         (na_node_sessions a !! hb_node_id heartbeat)) (state !! hb_node_id heartbeat).

(** [accept_received_heartbeat]. *)
Definition accept_received_heartbeat (heartbeat : NodeHeartbeat)
    (received_at decision_at : TimestampMs) (lease_duration_ms : N) (s : NodeRun) : NodeStep unit :=
  let a := nr_authority s in
  let node := hb_node_id heartbeat in
  if (decision_at <? received_at)%N
  then (s, Err (InvalidLease "heartbeat receive time is after decision time")) else
  match na_leases a !! node with
  | None => (s, Err (UnknownNode node))
  | Some lease =>
      if negb (bool_decide (le_lease_id lease = hb_lease_id heartbeat))
      then (s, Err (UnknownLease node (hb_lease_id heartbeat))) else
      if is_some_and an_fenced (na_node_sessions a !! node) || negb (is_active_at lease decision_at)
      then (s, Err (CeLeaseExpired node (hb_lease_id heartbeat))) else
      let renewed :=
        if (le_issued_at lease <=? received_at)%N
        then let? l := result_map_err (fun e => InvalidLease (DomainError_to_string e))
                         (NodeLease_renew lease received_at lease_duration_ms) in Ok (Some l)
        else Ok None in
      match renewed with
      | Err e => (s, Err e)
      | Ok renewed =>
          let recorded :=
            if health_covered a (nr_state s) heartbeat received_at then Ok (nr_state s)
            else record_node_health (nr_state s)
                   (MkHealthObservation node (hb_status heartbeat) received_at) in
          match recorded with
          | Err e => (s, Err (SharedState e))
          | Ok state =>
              let a1 := match renewed with
                        | Some l => set_leases (<[node := l]> (na_leases a)) a
                        | None => a
                        end in
              (MkNodeRun a1 state
                 (nr_events s ++ [NodeHeartbeatAccepted node (hb_lease_id heartbeat)])%list, Ok tt)
          end
      end
  end.

(** ** Sessions: [node_session.rs] *)

Definition with_fence (session : NodeSessionAnchor) : NodeSessionAnchor :=
  MkSessionAnchor (an_certificate_expires_at_ms session) (an_certificate_digest session)
    (an_session_id session) (an_lease_id session) (an_admitted_at session) (an_duration_ms session)
    (an_accepted_sequence session) (an_accepted_received_at session)
    (an_accepted_health_sequence session) (an_accepted_health_received_at session) true.

Definition with_liveness (session : NodeSessionAnchor) (sequence : N) (received_at : TimestampMs)
  : NodeSessionAnchor :=
  MkSessionAnchor (an_certificate_expires_at_ms session) (an_certificate_digest session)
    (an_session_id session) (an_lease_id session) (an_admitted_at session) (an_duration_ms session)
    sequence received_at
    (an_accepted_health_sequence session) (an_accepted_health_received_at session)
    (an_fenced session).

Definition with_health (session : NodeSessionAnchor) (sequence : N) (received_at : TimestampMs)
  : NodeSessionAnchor :=
  MkSessionAnchor (an_certificate_expires_at_ms session) (an_certificate_digest session)
    (an_session_id session) (an_lease_id session) (an_admitted_at session) (an_duration_ms session)
    (an_accepted_sequence session) (an_accepted_received_at session) sequence received_at
    (an_fenced session).

Definition current_node_session (a : NodeAuthority) (node : NodeId) : option string :=
  match na_node_sessions a !! node with
  | Some session => if an_fenced session then None else Some (an_session_id session)
  | None => None
  end.

Definition source_session_is_current (a : NodeAuthority) (node : NodeId) (session_id : string)
    (now : TimestampMs) : bool :=
  identity_transport_is_current a node now
  && is_some_and (fun session =>
       negb (an_fenced session)
       && (an_session_id session =? session_id)%string
       && is_some_and (fun lease =>
            bool_decide (le_lease_id lease = an_lease_id session)
            && (le_issued_at lease <=? now)%N && (now <? le_expires_at lease)%N)
            (na_leases a !! node)) (na_node_sessions a !! node).

(** [register_authenticated_node_session]. *)
Definition register_authenticated_node_session (node : NodeId) (session_id : string)
    (duration_ms : N) (digest : option string) (expires : option N) (a : NodeAuthority)
  : NodeAuthority * Result unit ControlError :=
  match na_leases a !! node with
  | None => (a, Err (UnknownNode node))
  | Some lease =>
      if is_blank session_id || (duration_ms =? 0)%N
      then (a, Err (InvalidLease "Node session and duration must be valid")) else
      if is_some_and (fun registry =>
           is_none_or (fun d => negb (accepts registry (as_str node) d (le_issued_at lease))) digest)
           (na_identity_registry a)
      then (a, Err (InvalidLease "registration lacks current authenticated certificate authority")) else
      if is_some_and (fun until => (until <=? le_issued_at lease)%N) expires
         || (is_some (na_identity_registry a) && is_none expires)
      then (a, Err (InvalidLease "registration lacks valid original X.509 expiry")) else
      if contains_key node (na_node_sessions a)
      then (a, Err (InvalidLease "session anchor requires a fresh registration")) else
      (set_sessions
         (<[node := MkSessionAnchor expires digest session_id (le_lease_id lease)
                      (le_issued_at lease) duration_ms 0 (le_issued_at lease) 0
                      (le_issued_at lease) false]> (na_node_sessions a)) a, Ok tt)
  end.

(** [fence_node_session]. *)
Definition fence_node_session (node : NodeId) (a : NodeAuthority) : NodeAuthority :=
  match na_node_sessions a !! node with
  | Some session => set_sessions (<[node := with_fence session]> (na_node_sessions a)) a
  | None => a
  end.

Definition is_reachable (state : SharedNodeState) (node : NodeId) : bool :=
  is_some_and (fun snapshot => bool_decide (lo_liveness (sn_liveness snapshot) = Reachable))
    (state !! node).

(** The conditions under which an interval of heartbeats is refused. *)
Definition liveness_refused (session : NodeSessionAnchor) (lease : NodeLease)
    (state : SharedNodeState) (e : NodeSessionLivenessEvidence) (decision_at : TimestampMs) : bool :=
  an_fenced session
  || negb (an_session_id session =? ev_session_id e)%string
  || negb (bool_decide (an_lease_id session = ev_lease_id e))
  || negb (bool_decide (le_lease_id lease = ev_lease_id e))
  || (ev_last_sequence e <=? an_accepted_sequence session)%N
  || (ev_first_sequence e =? 0)%N
  || (ev_last_sequence e <? ev_first_sequence e)%N
  || (ev_activated_at e <? an_admitted_at session)%N
  || (ev_first_received_at e <? ev_activated_at e)%N
  || (ev_last_received_at e <? ev_first_received_at e)%N
  || (decision_at <? ev_last_received_at e)%N
  || (ev_last_received_at e <? an_accepted_received_at session)%N
  || (an_duration_ms session <=? ev_maximum_gap_ms e)%N
  || (an_duration_ms session <=? ev_first_received_at e - an_admitted_at session)%N
  || negb (is_reachable state (ev_node_id e)).

(** [accept_session_liveness]. *)
Definition accept_session_liveness (e : NodeSessionLivenessEvidence) (decision_at : TimestampMs)
    (s : NodeRun) : NodeStep bool :=
  let a := nr_authority s in
  let node := ev_node_id e in
  match na_node_sessions a !! node, na_leases a !! node with
  | Some session, Some lease =>
      if liveness_refused session lease (nr_state s) e decision_at then (s, Ok false) else
      match NodeLease_new (ev_lease_id e) node (ev_last_received_at e) (an_duration_ms session) with
      | Err error => (s, Err (InvalidLease (DomainError_to_string error)))
      | Ok extended =>
          if negb (is_active_at extended decision_at) then (s, Ok false) else
          let a1 := if (le_expires_at lease <? le_expires_at extended)%N
                    then set_leases (<[node := extended]> (na_leases a)) a else a in
          let a2 := set_sessions
                      (<[node := with_liveness session (ev_last_sequence e) (ev_last_received_at e)]>
                         (na_node_sessions a1)) a1 in
          (emit (with_authority s a2)
             (NodeSessionLivenessAccepted (ev_node_id e) (ev_session_id e) (ev_lease_id e)
                (ev_first_sequence e) (ev_last_sequence e) (ev_activated_at e)
                (ev_first_received_at e) (ev_last_received_at e) (ev_maximum_gap_ms e)), Ok true)
      end
  | _, _ => (s, Ok false)
  end.

(** The conditions under which a reported health is refused. *)
Definition health_refused (a : NodeAuthority) (state : SharedNodeState)
    (session : NodeSessionAnchor) (status : NodeStatus) (e : NodeSessionLivenessEvidence)
    (decision_at : TimestampMs) : bool :=
  an_fenced session
  || negb (an_session_id session =? ev_session_id e)%string
  || negb (bool_decide (an_lease_id session = ev_lease_id e))
  || negb (an_accepted_sequence session =? ev_last_sequence e)%N
  || negb (an_accepted_received_at session =? ev_last_received_at e)%N
  || (ev_last_sequence e <=? an_accepted_health_sequence session)%N
  || (decision_at <? ev_last_received_at e)%N
  || (ev_last_received_at e <? an_admitted_at session)%N
  || negb (is_schedulable (ns_health status))
  || is_some_and (fun until => (until <=? decision_at)%N) (an_certificate_expires_at_ms session)
  || negb (identity_transport_is_current a (ev_node_id e) decision_at)
  || is_none_or (fun lease =>
       negb (bool_decide (le_lease_id lease = ev_lease_id e)) || negb (is_active_at lease decision_at))
       (na_leases a !! ev_node_id e)
  || is_none_or (fun node =>
       negb (bool_decide (ns_health (sn_reported_status node) = ns_health status))
       || (ev_last_received_at e <? sn_reported_status_received_at node)%N
       || negb (bool_decide (lo_liveness (sn_liveness node) = Reachable)))
       (state !! ev_node_id e).

(** [accept_session_reported_health]; [None] is the [expect] of the absent session. *)
Definition accept_session_reported_health (e : NodeSessionLivenessEvidence)
    (decision_at : TimestampMs) (s : NodeRun) : option (NodeStep bool) :=
  match ev_reported_health e, na_node_sessions (nr_authority s) !! ev_node_id e with
  | Some status, Some session =>
      if health_refused (nr_authority s) (nr_state s) session status e decision_at
      then Some (s, Ok false) else
      match accept_received_heartbeat (MkHeartbeat (ev_node_id e) (ev_lease_id e) status)
              (ev_last_received_at e) decision_at (an_duration_ms session) s with
      | (s1, Err error) => Some (s1, Err error)
      | (s1, Ok _) =>
          let a1 := nr_authority s1 in
          session1 ← na_node_sessions a1 !! ev_node_id e;
          let a2 := set_sessions
                      (<[ev_node_id e := with_health session1 (ev_last_sequence e)
                                           (ev_last_received_at e)]> (na_node_sessions a1)) a1 in
          Some (with_authority s1 a2, Ok true)
      end
  | _, _ => Some (s, Ok false)
  end.

(** ** Expiry: [expire_leases] *)

Definition expired_leases (s : NodeRun) (now : TimestampMs) : list (NodeId * LeaseId) :=
  (fun '(node, lease) => (node, le_lease_id lease)) <$>
  List.filter (fun '(node, lease) => negb (is_active_at lease now) && is_reachable (nr_state s) node)
    (btree_iter (na_leases (nr_authority s))).

Fixpoint expire_loop (now : TimestampMs) (expired : list (NodeId * LeaseId)) (s : NodeRun)
  : NodeStep unit :=
  match expired with
  | [] => (s, Ok tt)
  | (node, lease_id) :: expired' =>
      let a1 := fence_node_session node (nr_authority s) in
      match record_node_liveness (nr_state s) node (MkLivenessObservation Unreachable now) with
      | Err e => (with_authority s a1, Err (SharedState e))
      | Ok state =>
          expire_loop now expired'
            (MkNodeRun a1 state (nr_events s ++ [NodeLeaseExpired node lease_id])%list)
      end
  end.

Definition expire_leases (now : TimestampMs) (s : NodeRun) : NodeStep (list NodeId) :=
  let expired := expired_leases s now in
  match expire_loop now expired s with
  | (s1, Err e) => (s1, Err e)
  | (s1, Ok _) => (s1, Ok (fst <$> expired))
  end.
