(* ===== verification/NodeAuthorityFacts.v ===== *)
(** * Facts about Node leases and sessions

    The transition relation of the Node authority under one lease duration, as the
    integration bridge drives it, and the invariants of its runs. *)

From S2P Require Import Prelude Identity Execution StateModel Resource Scheduler.
From S2P Require Import Sorting Quota Capacity NodeIdentity NodeState.
From S2P Require Import NodeAuthority.

Section Steps.
Context (duration : N).

(** A registration admitted a Node, [accept_heartbeat] was called for one, or neither. *)
Inductive node_label :=
| NeRegistered (node : NodeId)
| NeRenewed (node : NodeId)
| NeOther.

(** One operation.  The environment may change the identity registry, the topology, the
    reservations and the ledgers. *)
Inductive node_step : NodeRun -> node_label -> NodeRun -> Prop :=
| nt_register s registration status lease lease_id received_at decision_at s' :
    NodeLease_new lease_id (nd_node_id registration) decision_at duration = Ok lease ->
    register_node_with_lease_received registration status lease received_at decision_at s = (s', Ok tt) ->
    node_step s (NeRegistered (nd_node_id registration)) s'
| nt_session s node session_id digest expires a' result :
    register_authenticated_node_session node session_id duration digest expires (nr_authority s)
      = (a', result) ->
    node_step s NeOther (with_authority s a')
| nt_update s registration now s' result :
    update_node_registration registration now s = (s', result) -> node_step s NeOther s'
| nt_heartbeat s heartbeat received_at decision_at s' result :
    accept_received_heartbeat heartbeat received_at decision_at duration s = (s', result) ->
    node_step s NeOther s'
| nt_bare_heartbeat s heartbeat received_at s' result :
    accept_heartbeat heartbeat received_at duration s = (s', result) ->
    node_step s (NeRenewed (hb_node_id heartbeat)) s'
| nt_liveness s evidence decision_at s' result :
    accept_session_liveness evidence decision_at s = (s', result) -> node_step s NeOther s'
| nt_health s evidence decision_at s' result :
    accept_session_reported_health evidence decision_at s = Some (s', result) -> node_step s NeOther s'
| nt_fence s node : node_step s NeOther (with_authority s (fence_node_session node (nr_authority s)))
| nt_lost s node now state :
    record_node_liveness (nr_state s) node (MkLivenessObservation Unreachable now) = Ok state ->
    node_step s NeOther (MkNodeRun (nr_authority s) state (nr_events s))
| nt_expire s now s' result : expire_leases now s = (s', result) -> node_step s NeOther s'
| nt_environment s a' :
    na_leases a' = na_leases (nr_authority s) ->
    na_node_sessions a' = na_node_sessions (nr_authority s) ->
    node_step s NeOther (with_authority s a').

Definition node_steps : NodeRun -> NodeRun -> Prop := rtc (fun s s' => exists l, node_step s l s').

(** Runs without steps of some labels. *)
Definition node_steps_without (excluded : list node_label) : NodeRun -> NodeRun -> Prop :=
  rtc (fun s s' => exists l, node_step s l s' /\ l ∉ excluded).

Lemma node_steps_without_weaken excluded excluded' s s' :
  excluded' ⊆ excluded -> node_steps_without excluded s s' -> node_steps_without excluded' s s'.
Proof.
  intros Hs Hr. induction Hr as [|s s1 s2 (l & Hl & Hn) _ IH]; [apply rtc_refl|].
  eapply rtc_l; [|exact IH]. exists l. split; [done|set_solver].
Qed.

(** ** The registrations of the shared state *)

(** Observations keep the registrations. *)
Definition same_registrations (state state' : SharedNodeState) : Prop :=
  sn_registration <$> state' = sn_registration <$> state.

Lemma same_registrations_insert state node s s' :
  state !! node = Some s -> sn_registration s' = sn_registration s ->
  same_registrations state (<[node := s']> state).
Proof.
  intros Hs E. unfold same_registrations. rewrite fmap_insert, E.
  by apply insert_id; rewrite lookup_fmap, Hs.
Qed.

Lemma health_registrations state o state' :
  record_node_health state o = Ok state' -> same_registrations state state'.
Proof.
  unfold record_node_health. destruct (state !! ho_node_id o) as [current|] eqn:E; [|done].
  destruct (reject_older_timestamp _ _ _); [|done]. intros [= <-].
  by eapply same_registrations_insert.
Qed.

Lemma liveness_registrations state node o state' :
  record_node_liveness state node o = Ok state' -> same_registrations state state'.
Proof.
  unfold record_node_liveness. destruct (state !! node) as [current|] eqn:E; [|done].
  destruct (reject_older_timestamp _ _ _); [|done]. intros [= <-].
  by eapply same_registrations_insert.
Qed.

(** Snapshots are stored under their Node and a resource is advertised once. *)
Record state_ok (state : SharedNodeState) : Prop := MkStateOk {
  so_key : forall node snapshot, state !! node = Some snapshot -> sn_node_id snapshot = node;
  so_owner : forall n1 n2 s1 s2 id, state !! n1 = Some s1 -> state !! n2 = Some s2 ->
    owns_resource (sn_registration s1) id None = true ->
    owns_resource (sn_registration s2) id None = true -> n1 = n2
}.

Lemma state_ok_registrations state state' :
  same_registrations state state' -> state_ok state -> state_ok state'.
Proof.
  intros E [Hk Ho].
  assert (forall node s', state' !! node = Some s' ->
    exists s, state !! node = Some s /\ sn_registration s = sn_registration s') as Hback.
  { intros node s' Hs. pose proof (f_equal (lookup node) E) as El. rewrite !lookup_fmap, Hs in El.
    destruct (state !! node) as [s|]; [|done]. simpl in El. exists s. split; [done|congruence]. }
  split.
  - intros node s' (s & Hs & Er)%Hback. unfold sn_node_id. rewrite <- Er. by apply Hk.
  - intros n1 n2 s1 s2 id (t1 & H1 & E1)%Hback (t2 & H2 & E2)%Hback. rewrite <- E1, <- E2.
    by apply Ho.
Qed.

Lemma owns_resource_true r id :
  owns_resource r id None = true <-> exists resource, resource ∈ nd_resources r /\ res_id resource = id.
Proof.
  unfold owns_resource. rewrite existsb_exists. setoid_rewrite <- list_elem_of_In.
  setoid_rewrite andb_true_iff. setoid_rewrite bool_decide_eq_true. naive_solver.
Qed.

Lemma identities_available state registration :
  ensure_resource_identities_available state registration = Ok tt ->
  forall node s id, state !! node = Some s -> sn_node_id s <> nd_node_id registration ->
    owns_resource (sn_registration s) id None = true -> owns_resource registration id None = false.
Proof.
  unfold ensure_resource_identities_available. rewrite try_for_ok. intros Hall node s id Hs Hne Ho.
  specialize (Hall s). rewrite elem_of_btree_values in Hall. specialize (Hall (ex_intro _ node Hs)).
  rewrite bool_decide_false in Hall by done. rewrite try_for_ok in Hall.
  apply not_true_iff_false. intros (resource & Hin & <-)%owns_resource_true.
  specialize (Hall resource Hin). by rewrite Ho in Hall.
Qed.

Lemma record_node_state_ok state snapshot state' :
  state_ok state -> ensure_resource_identities_available state (sn_registration snapshot) = Ok tt ->
  record_node state snapshot = Ok state' -> state_ok state'.
Proof.
  intros [Hk Ho] Hi. unfold record_node.
  destruct (match state !! sn_node_id snapshot with Some _ => _ | None => _ end); [|done].
  intros [= <-]. pose proof (identities_available _ _ Hi) as Hav. split.
  - intros node s [[<- <-]|[_ Hs]]%lookup_insert_Some; [done|by apply Hk].
  - intros n1 n2 s1 s2 id [[<- <-]|[N1 H1]]%lookup_insert_Some [[<- <-]|[N2 H2]]%lookup_insert_Some O1 O2;
      [done|..|by eapply Ho].
    + exfalso. erewrite Hav in O1; [done|exact H2|by rewrite (Hk _ _ H2)|done].
    + exfalso. erewrite Hav in O2; [done|exact H1|by rewrite (Hk _ _ H1)|done].
Qed.

(** ** Leases and sessions *)

Record leases_ok (a : NodeAuthority) : Prop := MkLeasesOk {
  lk_lease : forall node lease, na_leases a !! node = Some lease ->
    le_node_id lease = node /\ le_expires_at lease = (le_issued_at lease + duration)%N;
  lk_session : forall node session, na_node_sessions a !! node = Some session ->
    an_duration_ms session = duration /\
    exists lease, na_leases a !! node = Some lease /\ le_lease_id lease = an_lease_id session
}.

(** What a session keeps and what only grows. *)
Record session_later (ss ss' : NodeSessionAnchor) : Prop := MkSessionLater {
  sl_identity : an_session_id ss' = an_session_id ss /\ an_lease_id ss' = an_lease_id ss /\
    an_certificate_digest ss' = an_certificate_digest ss /\
    an_certificate_expires_at_ms ss' = an_certificate_expires_at_ms ss /\
    an_admitted_at ss' = an_admitted_at ss /\ an_duration_ms ss' = an_duration_ms ss;
  sl_sequence : (an_accepted_sequence ss <= an_accepted_sequence ss')%N /\
    (an_accepted_received_at ss <= an_accepted_received_at ss')%N /\
    (an_accepted_health_sequence ss <= an_accepted_health_sequence ss')%N;
  sl_fenced : an_fenced ss = true -> an_fenced ss' = true
}.

(** The sessions of a Node go on: no registration replaced them. *)
Definition session_kept (node : NodeId) (a a' : NodeAuthority) : Prop :=
  forall ss, na_node_sessions a !! node = Some ss ->
    exists ss', na_node_sessions a' !! node = Some ss' /\ session_later ss ss'.

(** Also the lease goes on, and stands still once the session is fenced. *)
Record authority_later (node : NodeId) (a a' : NodeAuthority) : Prop := MkAuthorityLater {
  al_lease : forall lease, na_leases a !! node = Some lease -> exists lease',
    na_leases a' !! node = Some lease' /\ le_lease_id lease' = le_lease_id lease /\
    (le_issued_at lease <= le_issued_at lease')%N /\ (le_expires_at lease <= le_expires_at lease')%N;
  al_session : forall ss, na_node_sessions a !! node = Some ss -> exists ss',
    na_node_sessions a' !! node = Some ss' /\ session_later ss ss' /\
    (an_fenced ss = true -> na_leases a' !! node = na_leases a !! node)
}.

#[local] Instance session_later_preorder : PreOrder session_later.
Proof.
  split.
  - intros ss. split; [done|split_and!; lia|done].
  - intros s1 s2 s3 [(A1 & A2 & A3 & A4 & A5 & A6) (B1 & B2 & B3) C1]
      [(D1 & D2 & D3 & D4 & D5 & D6) (E1 & E2 & E3) F1].
    split; [split_and!; congruence|split_and!; lia|auto].
Qed.

#[local] Instance authority_later_preorder node : PreOrder (authority_later node).
Proof.
  split.
  - intros a. split; [intros lease Hl; exists lease; split_and!; done || lia|].
    intros ss Hs. exists ss. split_and!; done.
  - intros a1 a2 a3 [L1 S1] [L2 S2]. split.
    + intros l Hl. destruct (L1 l Hl) as (l' & H1 & E1 & I1 & X1).
      destruct (L2 l' H1) as (l'' & H2 & E2 & I2 & X2). exists l''. split_and!; try congruence; lia.
    + intros ss Hs. destruct (S1 ss Hs) as (ss' & H1 & T1 & F1).
      destruct (S2 ss' H1) as (ss'' & H2 & T2 & F2). exists ss''. split_and!; [done|by etrans|].
      intros Hf. rewrite F2 by (by apply (sl_fenced _ _ T1)). by apply F1.
Qed.

#[local] Instance session_kept_preorder node : PreOrder (session_kept node).
Proof.
  split.
  - intros a ss Hs. by exists ss.
  - intros a1 a2 a3 S1 S2 ss Hs. destruct (S1 ss Hs) as (ss' & H1 & T1).
    destruct (S2 ss' H1) as (ss'' & H2 & T2). exists ss''. split; [done|by etrans].
Qed.

Lemma authority_later_kept node a a' : authority_later node a a' -> session_kept node a a'.
Proof. intros [_ Hs] ss Hss. destruct (Hs ss Hss) as (ss' & ? & ? & _). by exists ss'. Qed.

Lemma authority_later_same node a a' :
  na_leases a' = na_leases a -> na_node_sessions a' = na_node_sessions a -> authority_later node a a'.
Proof.
  intros El Es. split.
  - intros l Hl. exists l. rewrite El. split_and!; done || lia.
  - intros ss Hs. exists ss. by rewrite Es, El.
Qed.

Lemma leases_ok_same a a' :
  na_leases a' = na_leases a -> na_node_sessions a' = na_node_sessions a -> leases_ok a -> leases_ok a'.
Proof. intros El Es [H1 H2]. split; rewrite El; [done|by rewrite Es]. Qed.

Lemma NodeLease_new_Ok id node issued d l :
  NodeLease_new id node issued d = Ok l ->
  l = MkLease id node issued (issued + d)%N /\ d <> 0%N.
Proof.
  unfold NodeLease_new. destruct (N.eqb_spec d 0); [done|].
  destruct (u64_checked_add issued d) eqn:E; [|done]. intros [= <-].
  by apply u64_checked_add_Some in E as [-> _].
Qed.

(** A later lease of the same identity for a Node whose session is not fenced. *)
Lemma leases_ok_extend a node lease lease' :
  leases_ok a -> na_leases a !! node = Some lease ->
  le_lease_id lease' = le_lease_id lease -> le_node_id lease' = node ->
  (le_issued_at lease <= le_issued_at lease')%N ->
  le_expires_at lease' = (le_issued_at lease' + duration)%N ->
  is_some_and an_fenced (na_node_sessions a !! node) = false ->
  let a' := set_leases (<[node := lease']> (na_leases a)) a in
  leases_ok a' /\ forall n, authority_later n a a'.
Proof.
  intros [Hl Hs] Hlease Eid En Hi Ex Hf. simpl. split.
  - split; simpl.
    + intros n l [[<- <-]|[_ Hn]]%lookup_insert_Some; [done|by apply Hl].
    + intros n ss Hss. destruct (Hs n ss Hss) as (Hd & l & H1 & H2). split; [done|].
      destruct (decide (n = node)) as [->|Hne].
      * exists lease'. rewrite lookup_insert_eq. split; [done|congruence].
      * exists l. by rewrite lookup_insert_ne.
  - intros n. split; simpl.
    + intros l Hl'. destruct (decide (n = node)) as [->|Hne].
      * exists lease'. rewrite lookup_insert_eq. replace l with lease by congruence.
        destruct (Hl node lease Hlease) as [_ Hx]. split_and!; try done. lia.
      * exists l. rewrite lookup_insert_ne by done. split_and!; done || lia.
    + intros ss Hss. exists ss. split_and!; [done|done|]. intros Hfs.
      rewrite lookup_insert_ne; [done|]. intros <-. rewrite Hss in Hf. simpl in Hf. congruence.
Qed.

Lemma set_leases_same node lease a :
  na_leases a !! node = Some lease -> set_leases (<[node := lease]> (na_leases a)) a = a.
Proof. intros E. rewrite insert_id by done. by destruct a. Qed.

(** A later session of the same identity. *)
Lemma leases_ok_session a node ss ss' :
  leases_ok a -> na_node_sessions a !! node = Some ss -> session_later ss ss' ->
  let a' := set_sessions (<[node := ss']> (na_node_sessions a)) a in
  leases_ok a' /\ forall n, authority_later n a a'.
Proof.
  intros [Hl Hs] Hss Hlat. simpl. split.
  - split; simpl; [done|]. intros n t [[<- <-]|[_ Hn]]%lookup_insert_Some; [|by apply Hs].
    destruct (Hs node ss Hss) as (Hd & l & H1 & H2).
    destruct (sl_identity _ _ Hlat) as (_ & E2 & _ & _ & E5 & E6).
    split; [congruence|]. exists l. split; [done|congruence].
  - intros n. split; simpl.
    + intros l Hl'. exists l. split_and!; done || lia.
    + intros t Ht. destruct (decide (n = node)) as [->|Hne].
      * exists ss'. rewrite lookup_insert_eq. by replace t with ss by congruence.
      * exists t. by rewrite lookup_insert_ne.
Qed.

Lemma fence_ok a node :
  leases_ok a ->
  leases_ok (fence_node_session node a) /\ forall n, authority_later n a (fence_node_session node a).
Proof.
  intros Hok. unfold fence_node_session. destruct (na_node_sessions a !! node) as [ss|] eqn:E.
  - apply (leases_ok_session a node ss); [done|done|]. split; [done|split_and!; simpl; lia|done].
  - split; [done|]. intros n. reflexivity.
Qed.

(** The effect of an operation that admits no registration. *)
Record step_ok (s s' : NodeRun) : Prop := MkStepOk {
  sk_leases : leases_ok (nr_authority s');
  sk_later : forall node, authority_later node (nr_authority s) (nr_authority s');
  sk_state : state_ok (nr_state s')
}.

Definition node_run_ok (s : NodeRun) : Prop := leases_ok (nr_authority s) /\ state_ok (nr_state s).

Lemma step_ok_refl s : node_run_ok s -> step_ok s s.
Proof. intros [H1 H2]. split; [done|intros node; reflexivity|done]. Qed.

Lemma step_ok_trans s1 s2 s3 : step_ok s1 s2 -> step_ok s2 s3 -> step_ok s1 s3.
Proof. intros [A1 B1 C1] [A2 B2 C2]. split; [done| |done]. intros node. etrans; [apply B1|apply B2]. Qed.

Lemma step_ok_run s s' : step_ok s s' -> node_run_ok s'.
Proof. by intros [? _ ?]. Qed.

Lemma update_ok s registration now s' result :
  node_run_ok s -> update_node_registration registration now s = (s', result) -> step_ok s s'.
Proof.
  intros Hok. pose proof (step_ok_refl s Hok) as Hrefl. destruct Hok as [Hl Hs].
  unfold update_node_registration.
  destruct (nr_state s !! nd_node_id registration) as [current|]; [|intros [= <- _]; done].
  destruct (negb _); [intros [= <- _]; done|].
  destruct (na_leases _ !! _) as [lease|]; [|intros [= <- _]; done].
  destruct (negb _); [intros [= <- _]; done|].
  destruct (ensure_resource_identities_available _ _) as [[]|] eqn:Ei; [|intros [= <- _]; done].
  destruct (ensure_committed_resources_remain_declared _ _ _) as [[]|]; [|intros [= <- _]; done].
  destruct (ensure_declared_capacity_covers_commitments _ _) as [[]|]; [|intros [= <- _]; done].
  destruct (record_node _ _) as [state|] eqn:Er; simpl; intros [= <- _]; [|done].
  split; simpl; [done|intros node; reflexivity|by refine (record_node_state_ok _ _ _ Hs _ Er)].
Qed.

Lemma heartbeat_ok s heartbeat received_at decision_at s' result :
  node_run_ok s -> accept_received_heartbeat heartbeat received_at decision_at duration s = (s', result) ->
  step_ok s s' /\ na_node_sessions (nr_authority s') = na_node_sessions (nr_authority s).
Proof.
  intros Hok. pose proof (conj (step_ok_refl s Hok)
    (eq_refl (na_node_sessions (nr_authority s)))) as Hrefl.
  destruct Hok as [Hl Hs]. unfold accept_received_heartbeat.
  destruct (decision_at <? received_at)%N; [intros [= <- _]; done|].
  destruct (na_leases _ !! _) as [lease|] eqn:El; [|intros [= <- _]; done].
  destruct (negb _); [intros [= <- _]; done|].
  destruct (is_some_and an_fenced _) eqn:Ef; simpl; [intros [= <- _]; done|].
  destruct (negb (is_active_at _ _)); [intros [= <- _]; done|].
  assert (forall state, record_node_health (nr_state s)
            (MkHealthObservation (hb_node_id heartbeat) (hb_status heartbeat) received_at) = Ok state ->
          state_ok state) as Hrec.
  { intros state E%health_registrations. by eapply state_ok_registrations. }
  set (recorded := if health_covered _ _ _ _ then _ else _).
  assert (forall state, recorded = Ok state -> state_ok state) as Hstate.
  { intros state. unfold recorded. destruct (health_covered _ _ _ _); [by intros [= <-]|apply Hrec]. }
  clearbody recorded. destruct (N.leb_spec (le_issued_at lease) received_at) as [Hi|Hi].
  - unfold NodeLease_renew. destruct (negb (is_active_at lease received_at)); simpl;
      [intros [= <- _]; done|].
    destruct (NodeLease_new _ _ _ _) as [renewed|] eqn:En; simpl; [|intros [= <- _]; done].
    apply NodeLease_new_Ok in En as [-> _]. destruct recorded as [state|]; intros [= <- _]; [|done].
    destruct (lk_lease _ Hl _ _ El) as [Hn Hx].
    destruct (leases_ok_extend (nr_authority s) (hb_node_id heartbeat) lease
      (MkLease (le_lease_id lease) (le_node_id lease) received_at (received_at + duration)))
      as [Hl' Hlat]; try done. split; [|done]. split; simpl; [done|done|by apply Hstate].
  - destruct recorded as [state|]; intros [= <- _]; [|done].
    split; [|done]. split; simpl; [done|intros node; reflexivity|by apply Hstate].
Qed.

Lemma liveness_ok s evidence decision_at s' result :
  node_run_ok s -> accept_session_liveness evidence decision_at s = (s', result) -> step_ok s s'.
Proof.
  intros Hok. pose proof (step_ok_refl s Hok) as Hrefl. destruct Hok as [Hl Hs].
  unfold accept_session_liveness.
  destruct (na_node_sessions _ !! _) as [ss|] eqn:Es; [|intros [= <- _]; done].
  destruct (na_leases _ !! _) as [lease|] eqn:El; [|intros [= <- _]; done].
  destruct (liveness_refused _ _ _ _ _) eqn:Eg; [intros [= <- _]; done|].
  destruct (NodeLease_new _ _ _ _) as [extended|] eqn:En; [|intros [= <- _]; done].
  apply NodeLease_new_Ok in En as [-> _]. destruct (negb _); [intros [= <- _]; done|].
  unfold liveness_refused in Eg. bool_facts. simpl.
  destruct (lk_session _ Hl _ _ Es) as [Hd _]. destruct (lk_lease _ Hl _ _ El) as [Hn Hx].
  rewrite Hd. intros [= <- _].
  set (a1 := if (_ <? _)%N then _ else _).
  assert (leases_ok a1 /\ (forall n, authority_later n (nr_authority s) a1) /\
          na_node_sessions a1 = na_node_sessions (nr_authority s)) as (Hl1 & Hlat1 & Es1).
  { unfold a1. destruct (N.ltb_spec (le_expires_at lease) (ev_last_received_at evidence + duration)).
    - split_and!; [..|done]; apply (leases_ok_extend _ _ lease); simpl; try done;
        try congruence; try lia; by rewrite Es.
    - split_and!; [done|intros n; reflexivity|done]. }
  clearbody a1. destruct (leases_ok_session a1 (ev_node_id evidence) ss
    (with_liveness ss (ev_last_sequence evidence) (ev_last_received_at evidence))) as [Hl2 Hlat2];
    [done|by rewrite Es1|split; simpl; [done|split_and!; simpl; lia|done]|].
  split; simpl; [done| |done]. intros n. etrans; [apply Hlat1|]. apply Hlat2.
Qed.

Lemma health_ok s evidence decision_at s' result :
  node_run_ok s -> accept_session_reported_health evidence decision_at s = Some (s', result) -> step_ok s s'.
Proof.
  intros Hok. pose proof (step_ok_refl s Hok) as Hrefl. unfold accept_session_reported_health.
  destruct (ev_reported_health evidence) as [status|]; [|intros [= <- _]; done].
  destruct (na_node_sessions _ !! _) as [ss|] eqn:Es; [|intros [= <- _]; done].
  destruct (health_refused _ _ _ _ _ _) eqn:Eg; [intros [= <- _]; done|].
  destruct (lk_session _ (proj1 Hok) _ _ Es) as [-> _].
  destruct (accept_received_heartbeat _ _ _ _ s) as [s1 [u|e]] eqn:Eh.
  - apply heartbeat_ok in Eh as [Hs1 E1]; [|done]. rewrite E1, Es. simpl. intros [= <- _].
    unfold health_refused in Eg. bool_facts. destruct Hs1 as [Hl1 Hlat1 Hst1].
    destruct (leases_ok_session (nr_authority s1) (ev_node_id evidence) ss
      (with_health ss (ev_last_sequence evidence) (ev_last_received_at evidence))) as [Hl2 Hlat2];
      [done|by rewrite E1|split; simpl; [done|split_and!; simpl; lia|done]|].
    rewrite E1 in Hl2, Hlat2.
    split; simpl; [done| |done]. intros n. etrans; [apply Hlat1|]. apply Hlat2.
  - apply heartbeat_ok in Eh as [Hs1 _]; [|done]. by intros [= <- _].
Qed.

Lemma fence_step_ok s node :
  node_run_ok s -> step_ok s (with_authority s (fence_node_session node (nr_authority s))).
Proof. intros [Hl Hs]. destruct (fence_ok _ node Hl). by split. Qed.

Lemma lost_step_ok s node now state :
  node_run_ok s -> record_node_liveness (nr_state s) node (MkLivenessObservation Unreachable now) = Ok state ->
  step_ok s (MkNodeRun (nr_authority s) state (nr_events s)).
Proof.
  intros [Hl Hs] E%liveness_registrations.
  split; simpl; [done|intros n; reflexivity|by eapply state_ok_registrations].
Qed.

Lemma expire_loop_ok now expired : forall s s' result,
  node_run_ok s -> expire_loop now expired s = (s', result) -> step_ok s s'.
Proof.
  induction expired as [|[node lease_id] expired IH]; intros s s' result Hok; simpl.
  { intros [= <- _]. by apply step_ok_refl. }
  pose proof (fence_step_ok s node Hok) as Hf.
  destruct (record_node_liveness _ _ _) as [state|] eqn:E; [|intros [= <- _]; done].
  intros Hr. eapply step_ok_trans; [exact Hf|]. destruct Hok as [Hl Hs]. destruct (fence_ok _ node Hl).
  assert (state_ok state) as Hst.
  { apply liveness_registrations in E. by eapply state_ok_registrations. }
  eapply step_ok_trans; [|eapply IH; [|exact Hr]]; [|by split].
  split; simpl; [done|intros n; reflexivity|done].
Qed.

Lemma expire_ok s now s' result : node_run_ok s -> expire_leases now s = (s', result) -> step_ok s s'.
Proof.
  intros Hok. unfold expire_leases.
  destruct (expire_loop now _ s) as [s1 [u|e]] eqn:E; intros [= <- _]; by eapply expire_loop_ok.
Qed.

Lemma session_ok s node session_id digest expires a' result :
  node_run_ok s ->
  register_authenticated_node_session node session_id duration digest expires (nr_authority s)
    = (a', result) ->
  step_ok s (with_authority s a').
Proof.
  intros Hok. assert (step_ok s (with_authority s (nr_authority s))) as Hrefl.
  { destruct s. by apply step_ok_refl. }
  destruct Hok as [[Hl Hs] Hst]. unfold register_authenticated_node_session.
  destruct (na_leases _ !! node) as [lease|] eqn:El; [|intros [= <- _]; done].
  destruct (_ || _); [intros [= <- _]; done|]. destruct (is_some_and _ _); [intros [= <- _]; done|].
  destruct (_ || _); [intros [= <- _]; done|].
  destruct (contains_key _ _) eqn:Ec; [intros [= <- _]; done|]. bool_facts. intros [= <- _].
  split; simpl; [|intros n; split; simpl|done].
  - split; simpl; [done|]. intros n ss [[<- <-]|[_ Hn]]%lookup_insert_Some; [|by apply Hs].
    simpl. split; [done|]. by exists lease.
  - intros l Hl'. exists l. split_and!; done || lia.
  - intros ss Hss. exists ss. rewrite lookup_insert_ne; [done|]. intros <-. congruence.
Qed.

(** [accept_heartbeat] looks at the lease alone: it renews that of its Node, from any time at
    which it has not expired, and touches no session. *)
Lemma bare_heartbeat_ok s heartbeat received_at s' result :
  node_run_ok s -> accept_heartbeat heartbeat received_at duration s = (s', result) ->
  node_run_ok s' /\ na_node_sessions (nr_authority s') = na_node_sessions (nr_authority s) /\
  (forall n, n <> hb_node_id heartbeat ->
     na_leases (nr_authority s') !! n = na_leases (nr_authority s) !! n).
Proof.
  intros Hok. pose proof Hok as [[Hl Hs] Hst]. unfold accept_heartbeat.
  destruct (na_leases _ !! _) as [lease|] eqn:El; [|by intros [= <- _]].
  destruct (negb _); [by intros [= <- _]|]. destruct (NodeLease_renew _ _ _) as [renewed|e] eqn:Er.
  2: { destruct e; by intros [= <- _]. }
  destruct (record_node_health _ _) as [state|] eqn:Eh; intros [= <- _]; [|done].
  unfold NodeLease_renew in Er. destruct (negb (is_active_at _ _)); [done|].
  apply NodeLease_new_Ok in Er as [-> _]. destruct (Hl _ _ El) as [Hn _].
  split_and!; [|done|by intros n Hne; simpl; rewrite lookup_insert_ne].
  split; simpl; [|by apply health_registrations in Eh; eapply state_ok_registrations]. split; simpl.
  - intros n l [[<- <-]|[_ ?]]%lookup_insert_Some; [done|by apply Hl].
  - intros n ss Hss. destruct (Hs n ss Hss) as (Hd & l & H1 & H2). split; [done|].
    destruct (decide (n = hb_node_id heartbeat)) as [->|Hne].
    + eexists. rewrite lookup_insert_eq. split; [done|]. simpl. congruence.
    + exists l. by rewrite lookup_insert_ne.
Qed.

(** Every operation that admits no registration of a Node keeps its lease and session, the
    bare heartbeat apart. *)
Lemma node_step_ok s s' : node_run_ok s -> node_step s NeOther s' -> step_ok s s'.
Proof.
  intros Hok Hs. inversion Hs; subst.
  - by eapply session_ok.
  - by eapply update_ok.
  - by eapply heartbeat_ok.
  - by eapply liveness_ok.
  - by eapply health_ok.
  - by apply fence_step_ok.
  - by eapply lost_step_ok.
  - by eapply expire_ok.
  - destruct Hok as [Hl Hst]. split; simpl; [by eapply leases_ok_same| |done].
    intros node. by apply authority_later_same.
Qed.

(** ** Registration *)

Lemma register_ok s registration status lease received_at decision_at s' :
  node_run_ok s -> le_expires_at lease = (le_issued_at lease + duration)%N ->
  register_node_with_lease_received registration status lease received_at decision_at s
    = (s', Ok tt) ->
  node_run_ok s' /\
  na_leases (nr_authority s') =
    <[nd_node_id registration := lease]> (na_leases (nr_authority s)) /\
  na_node_sessions (nr_authority s') =
    delete (nd_node_id registration) (na_node_sessions (nr_authority s)).
Proof.
  intros [[Hl Hs] Hst] Hx. unfold register_node_with_lease_received.
  destruct (decision_at <? received_at)%N; [done|].
  destruct (negb (bool_decide (le_node_id lease = _))) eqn:En; [done|].
  destruct (negb (identity_registration_allowed _ _ _)); [done|].
  destruct (negb (is_active_at lease decision_at)); [done|].
  destruct (ensure_resource_identities_available _ _) as [[]|] eqn:Ei; simpl; [|by intros [=]].
  destruct (ensure_declared_capacity_covers_commitments _ _) as [[]|]; simpl; [|by intros [=]].
  destruct (match nr_state s !! _ with Some _ => _ | None => _ end) as [[]|]; simpl; [|by intros [=]].
  destruct (record_node _ _) as [state|] eqn:Er; simpl; [|by intros [=]]. intros [= <-]. bool_facts.
  split_and!; [|done|done]. split; simpl; [|by refine (record_node_state_ok _ _ _ Hst _ Er)].
  split; simpl.
  - intros n l [[<- <-]|[_ Hn]]%lookup_insert_Some; [done|by apply Hl].
  - intros n ss [Hne Hn]%lookup_delete_Some. destruct (Hs n ss Hn) as (Hd & l & H1 & H2).
    split; [done|]. exists l. by rewrite lookup_insert_ne.
Qed.

Lemma node_step_run s l s' : node_run_ok s -> node_step s l s' -> node_run_ok s'.
Proof.
  intros Hok Hs. destruct l as [node|node|]; [| |by eapply step_ok_run, node_step_ok].
  - inversion Hs; subst. match goal with H : NodeLease_new _ _ _ _ = _ |- _ =>
      apply NodeLease_new_Ok in H as [-> _] end.
    match goal with H : register_node_with_lease_received _ _ _ _ _ _ = _ |- _ =>
      apply register_ok in H as [? _]; done end.
  - inversion Hs; subst. by eapply bare_heartbeat_ok.
Qed.

(** A registration of another Node leaves the lease and session of this one alone. *)
Lemma node_step_other s other s' node :
  node_run_ok s -> node_step s (NeRegistered other) s' -> other <> node ->
  authority_later node (nr_authority s) (nr_authority s').
Proof.
  intros Hok Hs Hne. inversion Hs; subst. match goal with H : NodeLease_new _ _ _ _ = _ |- _ =>
    apply NodeLease_new_Ok in H as [-> _] end.
  match goal with H : register_node_with_lease_received _ _ _ _ _ _ = _ |- _ =>
    apply register_ok in H as (_ & El & Es); [|done|done] end. split.
  - intros l Hl. exists l. rewrite El, lookup_insert_ne by done. split_and!; done || lia.
  - intros ss Hss. exists ss. rewrite Es, El, lookup_delete_ne, lookup_insert_ne by done. done.
Qed.

Lemma node_step_later s l s' node :
  node_run_ok s -> node_step s l s' -> l <> NeRegistered node -> l <> NeRenewed node ->
  authority_later node (nr_authority s) (nr_authority s').
Proof.
  intros Hok Hs Hr Hb. destruct l as [other|other|]; [| |by eapply sk_later, node_step_ok].
  - eapply node_step_other; [done|exact Hs|congruence].
  - inversion Hs; subst. match goal with H : accept_heartbeat _ _ _ _ = _ |- _ =>
      apply bare_heartbeat_ok in H as (_ & Es & El); [|done] end.
    assert (node <> hb_node_id heartbeat) as Hne by congruence. split.
    + intros l Hl. exists l. rewrite El by done. split_and!; done || lia.
    + intros ss Hss. exists ss. by rewrite Es, El.
Qed.

Lemma node_step_kept s l s' node :
  node_run_ok s -> node_step s l s' -> l <> NeRegistered node ->
  session_kept node (nr_authority s) (nr_authority s').
Proof.
  intros Hok Hs Hr. destruct l as [other|other|].
  - eapply authority_later_kept, node_step_other; [done|exact Hs|congruence].
  - inversion Hs; subst. match goal with H : accept_heartbeat _ _ _ _ = _ |- _ =>
      apply bare_heartbeat_ok in H as (_ & Es & _); [|done] end.
    intros ss Hss. exists ss. by rewrite Es.
  - by eapply authority_later_kept, sk_later, node_step_ok.
Qed.

Lemma node_steps_run s s' : node_run_ok s -> node_steps s s' -> node_run_ok s'.
Proof.
  intros Hok Hr. induction Hr as [s|s s1 s2 [l Hs] Hr IH]; [done|]. by eapply IH, node_step_run.
Qed.

Lemma node_steps_without_run excluded s s' :
  node_run_ok s -> node_steps_without excluded s s' -> node_run_ok s'.
Proof.
  intros Hok Hr. induction Hr as [s|s s1 s2 (l & Hs & _) Hr IH]; [done|]. by eapply IH, node_step_run.
Qed.

Lemma node_steps_kept node s s' :
  node_run_ok s -> node_steps_without [NeRegistered node] s s' ->
  session_kept node (nr_authority s) (nr_authority s').
Proof.
  intros Hok Hr. induction Hr as [s|s s1 s2 (l & Hs & Hl) Hr IH]; [reflexivity|].
  etrans; [eapply node_step_kept; [done|exact Hs|set_solver]|]. by eapply IH, node_step_run.
Qed.

Lemma node_steps_without_later node s s' :
  node_run_ok s -> node_steps_without [NeRegistered node; NeRenewed node] s s' ->
  authority_later node (nr_authority s) (nr_authority s').
Proof.
  intros Hok Hr. induction Hr as [s|s s1 s2 (l & Hs & Hl) Hr IH]; [reflexivity|].
  etrans; [eapply node_step_later; [done|exact Hs|set_solver..]|]. by eapply IH, node_step_run.
Qed.
End Steps.

(** The controller before any Node registered. *)
Definition node_run_start (registry : option NodeIdentityRegistry) : NodeRun :=
  MkNodeRun (MkNodeAuthority ∅ ∅ registry None ∅ CapacityLedger_new QuotaLedger_new) ∅ [].

Lemma node_run_start_ok duration registry : node_run_ok duration (node_run_start registry).
Proof.
  split; split; simpl; intros; by simplify_map_eq.
Qed.
