(* ===== verification/Mission.v ===== *)
(** * Mission plans

    [mission.rs], [actor.rs], [task_satisfaction.rs] and [TaskContinuity] of [context.rs] in
    [core/domain/src]: goals, Task graphs, logical actors and the accepted plan, with every
    check its constructors make.  [expect] on a missing role of a constraint is [None]. *)

From S2P Require Import Prelude Identity Execution Session StateModel Resource RelationSpec Scheduler.

Open Scope string_scope.

(** ** Goals and Tasks *)

Record MissionGoal := MkGoal { mg_mission_id : MissionId; mg_objective : string }.

#[export] Instance MissionGoal_eq_dec : EqDecision MissionGoal.
Proof. solve_decision. Defined.

Definition MissionGoal_new (mission_id : MissionId) (objective : string)
  : Result MissionGoal DomainError :=
  if is_blank objective then Err (EmptyValue "mission objective")
  else Ok (MkGoal mission_id objective).

Record VerifierSatisfactionSpec := MkVerifierSpec {
  vs_verifier : CapabilityContractRef;
  vs_predicate : string;
  vs_max_evidence_age_ms : N
}.

#[export] Instance VerifierSatisfactionSpec_eq_dec : EqDecision VerifierSatisfactionSpec.
Proof. solve_decision. Defined.

Definition VerifierSatisfactionSpec_new (verifier : CapabilityContractRef) (predicate : string)
    (max_evidence_age_ms : N) : Result VerifierSatisfactionSpec DomainError :=
  if is_blank predicate then Err (EmptyValue "task satisfaction predicate") else
  if (max_evidence_age_ms =? 0)%N then Err (InvalidDuration "task satisfaction evidence age") else
  Ok (MkVerifierSpec verifier predicate max_evidence_age_ms).

Inductive TaskSatisfactionBasis :=
| ExecutionReport
| VerifierEvidence (spec : VerifierSatisfactionSpec).

#[export] Instance TaskSatisfactionBasis_eq_dec : EqDecision TaskSatisfactionBasis.
Proof. solve_decision. Defined.

Record TaskContinuity := MkContinuity {
  tc_context_id : CoordinationContextId;
  tc_context_roles : gmap RoleId ContextRoleId;
  tc_resource_scopes : gmap RoleId ResourceBindingScope;
  tc_coupling_mode_override : option ExecutionCouplingMode
}.

#[export] Instance TaskContinuity_eq_dec : EqDecision TaskContinuity.
Proof. solve_decision. Defined.

Definition resource_scope (c : TaskContinuity) (role : RoleId) : ResourceBindingScope :=
  default ScopeTask (tc_resource_scopes c !! role).

Record PlannedTask := MkPlannedTask {
  pt_description : string;
  pt_requirement : TaskRequirement;
  pt_execution_intents : gmap RoleId ExecutionIntent;
  pt_dependencies : list TaskId;
  pt_continuity : TaskContinuity;
  pt_satisfaction_basis : TaskSatisfactionBasis;
  pt_expected_effect : string
}.

Definition pt_task_ref (t : PlannedTask) : TaskRef := tk_task_ref (pt_requirement t).
Definition pt_task_id (t : PlannedTask) : TaskId := tr_task_id (pt_task_ref t).
Definition pt_roles (t : PlannedTask) : list RoleRequirement := tk_roles (pt_requirement t).
Definition role_ids (t : TaskRequirement) : gset RoleId := list_to_set (rq_role_id <$> tk_roles t).

Definition PlannedTask_new_with_completion (description : string) (requirement : TaskRequirement)
    (intents : gmap RoleId ExecutionIntent) (dependencies : list TaskId)
    (continuity : TaskContinuity) (expected_effect : string) (basis : TaskSatisfactionBasis)
  : Result PlannedTask DomainError :=
  let task := "task " ++ as_str (tr_task_id (tk_task_ref requirement)) in
  if is_blank description then Err (EmptyValue "task description") else
  if is_blank expected_effect then Err (EmptyValue "task expected effect") else
  if negb (distinct_count dependencies =? length dependencies)%nat
  then Err (InvalidMissionPlan (task ++ " has duplicate dependencies")) else
  if existsb (fun d => bool_decide (d = tr_task_id (tk_task_ref requirement))) dependencies
  then Err (InvalidMissionPlan (task ++ " depends on itself")) else
  if negb (bool_decide (role_ids requirement = dom intents))
  then Err (InvalidMissionPlan (task ++ " execution intents must exactly cover its roles")) else
  if existsb (fun role => negb (set_contains role (role_ids requirement)))
       (btree_keys (tc_context_roles continuity) ++ btree_keys (tc_resource_scopes continuity))%list
  then Err (InvalidMissionPlan (task ++ " continuity references an unknown role")) else
  Ok (MkPlannedTask description requirement intents dependencies continuity basis expected_effect).

Definition PlannedTask_new_with_satisfaction (description : string) (requirement : TaskRequirement)
    (intents : gmap RoleId ExecutionIntent) (dependencies : list TaskId)
    (continuity : TaskContinuity) (basis : TaskSatisfactionBasis) : Result PlannedTask DomainError :=
  PlannedTask_new_with_completion description requirement intents dependencies continuity
    description basis.

Definition PlannedTask_new (description : string) (requirement : TaskRequirement)
    (intents : gmap RoleId ExecutionIntent) (dependencies : list TaskId)
    (continuity : TaskContinuity) : Result PlannedTask DomainError :=
  PlannedTask_new_with_satisfaction description requirement intents dependencies continuity
    ExecutionReport.

(** ** Task graphs *)

Record TaskGraph := MkTaskGraph { tg_mission_id : MissionId; tg_tasks : list PlannedTask }.

(** The dependencies of every Task, of one mission and without repeated identities. *)
Fixpoint graph_dependencies (mission : MissionId) (acc : Remaining) (tasks : list PlannedTask)
  : Result Remaining DomainError :=
  match tasks with
  | [] => Ok acc
  | task :: tasks' =>
      if negb (bool_decide (tr_mission_id (pt_task_ref task) = mission))
      then Err (InvalidMissionPlan ("task " ++ as_str (pt_task_id task)
                                      ++ " belongs to another mission")) else
      if contains_key (pt_task_id task) acc
      then Err (InvalidMissionPlan ("duplicate task id " ++ as_str (pt_task_id task)))
      else graph_dependencies mission
             (<[pt_task_id task := list_to_set (pt_dependencies task)]> acc) tasks'
  end.

(** The first dependency that no Task of the graph has. *)
Definition unknown_dependency (dependencies : Remaining) (entry : TaskId * gset TaskId)
  : Result unit DomainError :=
  match List.find (fun d => negb (contains_key d dependencies)) (bset_iter entry.2) with
  | Some unknown => Err (InvalidMissionPlan ("task " ++ as_str entry.1
                           ++ " depends on unknown task " ++ as_str unknown))
  | None => Ok tt
  end.

Definition graph_acyclic (dependencies : Remaining) : Result unit DomainError :=
  match drain (size dependencies) dependencies with
  | Some (Ok _) => Ok tt
  | _ => Err (InvalidMissionPlan "task graph contains a cycle")
  end.

Definition TaskGraph_new (mission : MissionId) (tasks : list PlannedTask)
  : Result TaskGraph DomainError :=
  if (length tasks =? 0)%nat then Err (InvalidMissionPlan "task graph must not be empty") else
  let? dependencies := graph_dependencies mission ∅ tasks in
  let? _u := try_for (unknown_dependency dependencies) (btree_iter dependencies) in
  let? _a := graph_acyclic dependencies in
  Ok (MkTaskGraph mission tasks).

Definition graph_task (g : TaskGraph) (id : TaskId) : option PlannedTask :=
  List.find (fun task => bool_decide (pt_task_id task = id)) (tg_tasks g).

Definition graph_ready_tasks (g : TaskGraph) (completed : gset TaskId) : list PlannedTask :=
  List.filter (fun task => negb (set_contains (pt_task_id task) completed)
                 && forallb (fun d => set_contains d completed) (pt_dependencies task)) (tg_tasks g).

(** ** Actors: [actor.rs] *)

Record MissionActor := MkActor { ma_id : ActorId; ma_physical_entity : option PhysicalEntityId }.

#[export] Instance MissionActor_eq_dec : EqDecision MissionActor.
Proof. solve_decision. Defined.

Definition is_grounded (a : MissionActor) : bool := is_some (ma_physical_entity a).

Record ContextPhysicalBindingConstraint := MkBindingConstraint {
  bc_context_id : CoordinationContextId;
  bc_context_role_ids : gset ContextRoleId;
  bc_actor_ids : gset ActorId
}.

#[export] Instance ContextPhysicalBindingConstraint_eq_dec :
  EqDecision ContextPhysicalBindingConstraint.
Proof. solve_decision. Defined.

Record MissionBindingSemantics := MkBindingSemantics {
  bs_actor_grounding : gmap ActorId PhysicalEntityId;
  bs_context_constraints : list ContextPhysicalBindingConstraint
}.

#[export] Instance MissionBindingSemantics_eq_dec : EqDecision MissionBindingSemantics.
Proof. solve_decision. Defined.

(** One constraint of a context over the actors of its roles. *)
Definition binding_constraint (context : CoordinationContext)
    (constraint : DistinctPhysicalEntityConstraint) : option ContextPhysicalBindingConstraint :=
  actors ← mapM (fun role => cr_actor_id <$> context_role context role)
             (bset_iter (dpe_context_role_ids constraint));
  Some (MkBindingConstraint (cc_context_id context) (dpe_context_role_ids constraint)
          (list_to_set actors)).

Definition MissionBindingSemantics_collect (actors : list MissionActor)
    (contexts : list CoordinationContext) : option MissionBindingSemantics :=
  constraints ← mapM (fun context =>
                  mapM (binding_constraint context) (cc_executor_constraints context)) contexts;
  Some (MkBindingSemantics
          (foldl (fun m a => match ma_physical_entity a with
                             | Some entity => <[ma_id a := entity]> m
                             | None => m
                             end) ∅ actors)
          (concat constraints)).

Definition grounding (s : MissionBindingSemantics) (actor : ActorId) : option PhysicalEntityId :=
  bs_actor_grounding s !! actor.

Definition distinct_peers (s : MissionBindingSemantics) (context : CoordinationContextId)
    (actor : ActorId) : gset ActorId :=
  foldl (fun peers c =>
    if bool_decide (bc_context_id c = context) && set_contains actor (bc_actor_ids c)
    then peers ∪ bc_actor_ids c else peers) ∅ (bs_context_constraints s) ∖ {[actor]}.

Definition requires_physical_entities (s : MissionBindingSemantics) : bool :=
  negb (size (bs_actor_grounding s) =? 0)%nat || negb (length (bs_context_constraints s) =? 0)%nat.

(** ** Plans *)

Record MissionPlan := MkMissionPlan {
  mp_goal : MissionGoal;
  mp_actors : list MissionActor;
  mp_task_graph : TaskGraph;
  mp_contexts : list CoordinationContext;
  mp_declared_binding_contract : bool;
  mp_declared_memory_contract : bool;
  mp_declared_capacity_contract : bool;
  mp_declared_scoped_memory_contract : bool
}.

Definition mp_mission_id (p : MissionPlan) : MissionId := mg_mission_id (mp_goal p).

Definition find_context (contexts : list CoordinationContext) (id : CoordinationContextId)
  : option CoordinationContext :=
  List.find (fun context => bool_decide (cc_context_id context = id)) contexts.

Definition find_role (t : TaskRequirement) (role : RoleId) : option RoleRequirement :=
  List.find (fun r => bool_decide (rq_role_id r = role)) (tk_roles t).

(** The actor of every Task role is the actor of its context role. *)
Definition check_context_role (task : PlannedTask) (context : CoordinationContext)
    (entry : RoleId * ContextRoleId) : Result unit DomainError :=
  let text := "task " ++ as_str (pt_task_id task) ++ " role " ++ as_str entry.1 in
  match context_role context entry.2 with
  | None => Err (InvalidMissionPlan (text ++ " references an unknown context role"))
  | Some role =>
      let actor := r ← find_role (pt_requirement task) entry.1; rq_actor_id r in
      if negb (bool_decide (actor = Some (cr_actor_id role)))
      then Err (InvalidMissionPlan (text ++ " actor differs from its context role")) else Ok tt
  end.

Definition check_resource_scope (task : PlannedTask) (entry : RoleId * ResourceBindingScope)
  : Result unit DomainError :=
  if bool_decide (entry.2 = ScopeContext)
     && negb (contains_key entry.1 (tc_context_roles (pt_continuity task)))
  then Err (InvalidMissionPlan ("task " ++ as_str (pt_task_id task) ++ " context-scoped role "
              ++ as_str entry.1 ++ " has no ContextRole"))
  else Ok tt.

Definition untyped_units (demand : ResourceRequirement) : bool :=
  negb (bool_decide (rr_kind demand = Compute)) || (rr_units demand =? 0)%N
  || is_none_or (fun value => is_blank value || (128 <? str_len value)%N)
       (rr_resource_class demand).

(** The envelope of the context role of a Task role for one demand. *)
Definition demand_envelope (task : PlannedTask) (context : CoordinationContext) (role : RoleId)
    (demand : ResourceRequirement) : option ResourceRequirement :=
  id ← tc_context_roles (pt_continuity task) !! role;
  r ← context_role context id;
  List.find (fun item => bool_decide (rr_kind item = rr_kind demand)
                         && bool_decide (rr_resource_class item = rr_resource_class demand))
    (cr_resource_envelope r).

Definition check_demand (task : PlannedTask) (context : CoordinationContext) (role : RoleId)
    (demand : ResourceRequirement) : Result unit DomainError :=
  if negb (bool_decide (rr_allocation_mode demand = Divisible)) then Ok tt else
  if untyped_units demand
  then Err (InvalidMissionPlan "shared allocation requires explicit typed positive Compute units")
  else if bool_decide (resource_scope (pt_continuity task) role = ScopeContext)
          && is_none_or (fun limit => (rr_units limit <? rr_units demand)%N)
               (demand_envelope task context role demand)
  then Err (InvalidMissionPlan
              "Context borrower exceeds or lacks its original typed capacity envelope")
  else Ok tt.

Definition task_coupling_mode (task : PlannedTask) (context : CoordinationContext)
  : ExecutionCouplingMode :=
  default (cc_coupling_mode context) (tc_coupling_mode_override (pt_continuity task)).

Definition check_planned_task (contexts : list CoordinationContext) (task : PlannedTask)
  : Result unit DomainError :=
  match find_context contexts (tc_context_id (pt_continuity task)) with
  | None => Err (InvalidMissionPlan ("task " ++ as_str (pt_task_id task)
                                       ++ " references an unknown context"))
  | Some context =>
      let? _r := try_for (check_context_role task context)
                   (btree_iter (tc_context_roles (pt_continuity task))) in
      let? _s := try_for (check_resource_scope task)
                   (btree_iter (tc_resource_scopes (pt_continuity task))) in
      let? _d := try_for (fun role =>
                   try_for (check_demand task context (rq_role_id role)) (resource_requirements role))
                   (pt_roles task) in
      validate_mechanisms_for context (task_coupling_mode task context)
  end.

Definition validate_relation_endpoint (g : TaskGraph) (context : CoordinationContext)
    (endpoint : PlannedExecutionRef) : Result unit DomainError :=
  match graph_task g (per_task_id endpoint) with
  | None => Err (InvalidMissionPlan ("execution relation references unknown Task "
                                       ++ as_str (per_task_id endpoint)))
  | Some task =>
      if negb (bool_decide (tc_context_id (pt_continuity task) = cc_context_id context))
      then Err (InvalidMissionPlan ("execution relation endpoint " ++ as_str (per_task_id endpoint)
                  ++ ":" ++ as_str (per_role_id endpoint) ++ " belongs to another Context")) else
      if negb (existsb (fun r => bool_decide (rq_role_id r = per_role_id endpoint)) (pt_roles task))
      then Err (InvalidMissionPlan ("execution relation references unknown Role "
                  ++ as_str (per_role_id endpoint) ++ " in Task " ++ as_str (per_task_id endpoint)))
      else Ok tt
  end.

(** [task_depends_on]: whether a Task transitively depends on another.  The recursion
    follows dependencies; [fuel] bounds its depth. *)
Fixpoint task_depends_on (fuel : nat) (g : TaskGraph) (task candidate : TaskId) : bool :=
  match fuel with
  | O => false
  | S fuel' =>
      is_some_and (fun t =>
        existsb (fun d => bool_decide (d = candidate) || task_depends_on fuel' g d candidate)
          (pt_dependencies t)) (graph_task g task)
  end.

(** A chain of dependencies visits a Task once. *)
Definition depends_on (g : TaskGraph) : TaskId -> TaskId -> bool :=
  task_depends_on (length (tg_tasks g)) g.

Definition check_relation (g : TaskGraph) (context : CoordinationContext)
    (relation : ExecutionRelationSpec) : Result unit DomainError :=
  let text := "execution relation " ++ as_str (rs_relation_id relation) in
  let source := per_task_id (rs_source relation) in
  let target := per_task_id (rs_target relation) in
  if negb (bool_decide (rs_kind relation = relation_type_kind (rs_relation_type relation)))
  then Err (InvalidMissionPlan (text ++ " has inconsistent kind and typed relation")) else
  let? _s := validate_relation_endpoint g context (rs_source relation) in
  let? _t := validate_relation_endpoint g context (rs_target relation) in
  if negb (bool_decide (source = target)) && (depends_on g source target || depends_on g target source)
  then Err (InvalidMissionPlan (text ++ " connects Tasks ordered by the DAG")) else Ok tt.

Definition MissionPlan_new_with_actors (goal : MissionGoal) (actors : list MissionActor)
    (graph : TaskGraph) (contexts : list CoordinationContext) : Result MissionPlan DomainError :=
  let actor_ids := list_to_set (ma_id <$> actors) : gset ActorId in
  if negb (bool_decide (mg_mission_id goal = tg_mission_id graph))
  then Err (InvalidMissionPlan "goal and task graph mission ids differ") else
  if negb (distinct_count (cc_context_id <$> contexts) =? length contexts)%nat
  then Err (InvalidMissionPlan "Mission Plan has duplicate context ids") else
  if negb (distinct_count (ma_id <$> actors) =? length actors)%nat
  then Err (InvalidMissionPlan "Mission Plan actors must be unique") else
  if existsb (fun role => negb (set_contains (cr_actor_id role) actor_ids))
       (flat_map cc_roles contexts)
  then Err (InvalidMissionPlan "ContextRole references an undeclared Mission Actor") else
  let relations := rs_relation_id <$> flat_map cc_relations contexts in
  if negb (distinct_count relations =? length relations)%nat
  then Err (InvalidMissionPlan "Mission Plan has duplicate execution relation ids") else
  let? _t := try_for (check_planned_task contexts) (tg_tasks graph) in
  let? _r := try_for (fun context => try_for (check_relation graph context) (cc_relations context))
               contexts in
  Ok (MkMissionPlan goal actors graph contexts
        (existsb is_grounded actors
         || existsb (fun context => negb (length (cc_executor_constraints context) =? 0)%nat) contexts)
        false false false).

(** [MissionPlan::new]: the actors are those of the context roles. *)
Definition MissionPlan_new (goal : MissionGoal) (graph : TaskGraph)
    (contexts : list CoordinationContext) : Result MissionPlan DomainError :=
  let ids := list_to_set (cr_actor_id <$> flat_map cc_roles contexts) : gset ActorId in
  MissionPlan_new_with_actors goal ((fun id => MkActor id None) <$> bset_iter ids) graph contexts.

Definition binding_semantics (p : MissionPlan) : option MissionBindingSemantics :=
  MissionBindingSemantics_collect (mp_actors p) (mp_contexts p).

(** The minimum wire schema of a plan. *)
Definition plan_roles (p : MissionPlan) : list RoleRequirement :=
  flat_map pt_roles (tg_tasks (mp_task_graph p)).

Definition schema_version (p : MissionPlan) : string :=
  if mp_declared_scoped_memory_contract p
     || existsb (fun m => is_some (mr_source_contract m)) (flat_map rq_memories (plan_roles p))
  then "roboguide.mission-plan/v0.11" else
  if mp_declared_capacity_contract p
     || existsb (fun role => negb (length (cr_resource_envelope role) =? 0)%nat)
          (flat_map cc_roles (mp_contexts p))
     || existsb (fun role => existsb (fun d => bool_decide (rr_allocation_mode d = Divisible))
                               (resource_requirements role)) (plan_roles p)
  then "roboguide.mission-plan/v0.10" else
  if mp_declared_memory_contract p
     || existsb (fun role => negb (length (rq_memories role) =? 0)%nat) (plan_roles p)
  then "roboguide.mission-plan/v0.9" else
  if mp_declared_binding_contract p || existsb is_grounded (mp_actors p)
     || existsb (fun context => negb (length (cc_executor_constraints context) =? 0)%nat)
          (mp_contexts p)
  then "roboguide.mission-plan/v0.8" else "roboguide.mission-plan/v0.7".

(** * Facts on Task graphs

    What [TaskGraph_new] accepts, in terms of a rank of the Tasks; the height of a Task,
    which bounds the depth of [task_depends_on]; the progress of a graph whose ready Tasks
    are completed in rounds. *)

(** The dependencies of a graph stay inside it and can be ranked. *)
Definition dependencies_ranked (tasks : list PlannedTask) (rank : TaskId -> nat) : Prop :=
  forall t d, t ∈ tasks -> d ∈ pt_dependencies t ->
    d ∈ pt_task_id <$> tasks /\ rank d < rank (pt_task_id t).

Record graph_ok (mission : MissionId) (tasks : list PlannedTask) : Prop := MkGraphOk {
  go_nonempty : tasks <> [];
  go_mission : forall t, t ∈ tasks -> tr_mission_id (pt_task_ref t) = mission;
  go_distinct : NoDup (pt_task_id <$> tasks);
  go_ranked : exists rank, dependencies_ranked tasks rank
}.

(** ** The dependency map *)

Lemma graph_dependencies_iff mission tasks : forall acc deps,
  graph_dependencies mission acc tasks = Ok deps <->
  (forall t, t ∈ tasks -> tr_mission_id (pt_task_ref t) = mission) /\
  NoDup (pt_task_id <$> tasks) /\
  (forall t, t ∈ tasks -> acc !! pt_task_id t = None) /\
  deps = foldl (fun m t => <[pt_task_id t := list_to_set (pt_dependencies t)]> m) acc tasks.
Proof.
  induction tasks as [|task tasks IH]; intros acc deps; simpl.
  - split; [intros [= ->]; split_and!; [set_solver|constructor|set_solver|done]|]. by intros (_ & _ & _ & ->).
  - case_bool_decide as Em; simpl.
    + destruct (contains_key _ acc) eqn:Ek.
      * split; [done|]. intros (_ & _ & Hn & _). apply contains_key_true in Ek as [x Hx].
        rewrite Hn in Hx by set_solver. done.
      * apply contains_key_false in Ek. rewrite IH, NoDup_cons. split.
        -- intros (Hm & Hnd & Hn & ->). split_and!; [set_solver| |done| |done].
           ++ intros (t & Et & Ht)%list_elem_of_fmap. specialize (Hn t Ht). rewrite <- Et in Hn.
              by rewrite lookup_insert_eq in Hn.
           ++ intros t [->|Ht]%elem_of_cons; [done|]. specialize (Hn t Ht).
              by apply lookup_insert_None in Hn as [? _].
        -- intros (Hm & [Hni Hnd] & Hn & ->). split_and!; [set_solver|done| |done].
           intros t Ht. rewrite lookup_insert_ne; [apply Hn; set_solver|].
           intros Et. apply Hni, list_elem_of_fmap. eauto.
    + split; [done|]. intros (Hm & _). destruct Em. apply Hm. set_solver.
Qed.

Lemma dependency_map_lookup tasks : forall (acc : Remaining) id deps,
  NoDup (pt_task_id <$> tasks) -> (forall t, t ∈ tasks -> acc !! pt_task_id t = None) ->
  foldl (fun m t => <[pt_task_id t := list_to_set (pt_dependencies t)]> m) acc tasks !! id
    = Some deps <->
  acc !! id = Some deps \/
  exists t, t ∈ tasks /\ pt_task_id t = id /\ deps = list_to_set (pt_dependencies t).
Proof.
  induction tasks as [|task tasks IH]; intros acc id deps Hnd Hn; simpl.
  - split; [by left|]. by intros [?|(t & Ht%not_elem_of_nil & _)].
  - apply NoDup_cons in Hnd as [Hni Hnd]. rewrite IH; [|done|].
    + rewrite lookup_insert_Some. split.
      * intros [[[<- <-]|[? ?]]|(t & Ht & Et & ->)]; [right; exists task; set_solver|by left|].
        right. exists t. set_solver.
      * intros [Hacc|(t & [->|Ht]%elem_of_cons & Et & ->)].
        -- left. right. split; [|done]. intros <-. rewrite Hn in Hacc by set_solver. done.
        -- by left; left.
        -- right. eauto.
    + intros t Ht. rewrite lookup_insert_ne; [apply Hn; set_solver|].
      intros Et. apply Hni, list_elem_of_fmap. eauto.
Qed.

Definition dependency_map (tasks : list PlannedTask) : Remaining :=
  foldl (fun m t => <[pt_task_id t := list_to_set (pt_dependencies t)]> m) ∅ tasks.

Lemma dependency_map_spec tasks id deps : NoDup (pt_task_id <$> tasks) ->
  dependency_map tasks !! id = Some deps <->
  exists t, t ∈ tasks /\ pt_task_id t = id /\ deps = list_to_set (pt_dependencies t).
Proof.
  intros Hnd. unfold dependency_map. rewrite dependency_map_lookup; [|done|by intros; apply lookup_empty].
  rewrite lookup_empty. naive_solver.
Qed.

Lemma unknown_dependency_ok deps id prerequisites :
  unknown_dependency deps (id, prerequisites) = Ok tt <->
  forall d, d ∈ prerequisites -> is_Some (deps !! d).
Proof.
  unfold unknown_dependency. simpl. destruct (List.find _ _) as [u|] eqn:E.
  - split; [done|]. intros H. apply find_some in E as [Hu%list_elem_of_In%elem_of_bset_iter Hb].
    bool_facts. destruct (H u Hu). congruence.
  - split; [|done]. intros _ d Hd%elem_of_bset_iter%list_elem_of_In.
    pose proof (find_none _ _ E d Hd) as Hb. simpl in Hb. by bool_facts.
Qed.

Lemma graph_acyclic_ok deps : graph_acyclic deps = Ok tt <-> ranked deps.
Proof.
  unfold graph_acyclic. destruct (drain_total (size deps) deps) as [r Er]; [done|]. rewrite Er.
  rewrite <- (drain_spec _ _ _ Er). destruct r as [[]|]; naive_solver.
Qed.

(** [TaskGraph_new] accepts exactly the nonempty graphs of one mission whose Tasks are
    distinct and whose dependencies are Tasks of the graph without a cycle. *)
Lemma TaskGraph_new_iff mission tasks g :
  TaskGraph_new mission tasks = Ok g <-> g = MkTaskGraph mission tasks /\ graph_ok mission tasks.
Proof.
  unfold TaskGraph_new. destruct (length tasks =? 0)%nat eqn:El.
  { apply Nat.eqb_eq, nil_length_inv in El as ->. split; [done|]. by intros [_ [? _ _ _]]. }
  apply Nat.eqb_neq in El.
  assert (tasks <> []) as Hne by (by intros ->).
  destruct (graph_dependencies mission ∅ tasks) as [deps|e] eqn:Ed.
  - apply graph_dependencies_iff in Ed as (Hm & Hnd & _ & ->). fold (dependency_map tasks).
    assert (ranked (dependency_map tasks) <-> exists rank, dependencies_ranked tasks rank) as Hr.
    { split; intros [rank H]; exists rank.
      - intros t d Ht Hd.
        destruct (H (pt_task_id t) (list_to_set (pt_dependencies t)) d) as [[x Hx] Hlt];
          [apply dependency_map_spec; eauto|set_solver|].
        split; [|done]. apply dependency_map_spec in Hx as (t' & Ht' & <- & _); [|done].
        apply list_elem_of_fmap. eauto.
      - intros id ds d (t & Ht & <- & ->)%dependency_map_spec Hd; [|done].
        apply elem_of_list_to_set in Hd. destruct (H t d Ht Hd) as [Hin Hlt]. split; [|done].
        apply list_elem_of_fmap in Hin as (t' & -> & Ht').
        exists (list_to_set (pt_dependencies t')). apply dependency_map_spec; eauto. }
    assert (ranked (dependency_map tasks) -> try_for (unknown_dependency (dependency_map tasks))
              (btree_iter (dependency_map tasks)) = Ok tt) as Hu.
    { intros [rank H]. apply try_for_ok. intros [id ds] Hin%elem_of_btree_iter.
      apply unknown_dependency_ok. intros d Hd. by destruct (H _ _ _ Hin Hd). }
    split.
    + destruct (try_for _ _) as [[]|]; [|done]. destruct (graph_acyclic _) as [[]|] eqn:Ea; [|done].
      intros [= <-]. split; [done|]. apply graph_acyclic_ok in Ea. by split; [..|apply Hr].
    + intros [-> [_ _ _ Hrk]]. apply Hr in Hrk. rewrite Hu by done.
      by apply graph_acyclic_ok in Hrk as ->.
  - split; [done|]. intros [-> [_ Hm Hnd _]]. exfalso.
    assert (graph_dependencies mission ∅ tasks = Ok (dependency_map tasks)) as E; [|congruence].
    apply graph_dependencies_iff. split_and!; [done|done|intros; apply lookup_empty|done].
Qed.

(** ** Heights *)

Section Height.
Context (tasks : list PlannedTask) (rank : TaskId -> nat).

Definition height (id : TaskId) : nat :=
  length (List.filter (fun t => rank (pt_task_id t) <? rank id)%nat tasks).

Lemma filter_length_mono {A} (f g : A -> bool) l :
  (forall x, f x = true -> g x = true) -> length (List.filter f l) <= length (List.filter g l).
Proof.
  intros H. induction l as [|x l IH]; [done|]. simpl. destruct (f x) eqn:Ef.
  - rewrite (H x Ef). simpl. lia.
  - destruct (g x); simpl; lia.
Qed.

Lemma filter_length_strict {A} (f g : A -> bool) l x :
  (forall y, f y = true -> g y = true) -> x ∈ l -> f x = false -> g x = true ->
  length (List.filter f l) < length (List.filter g l).
Proof.
  intros H Hx Ef Eg. induction l as [|y l IH]; [by apply not_elem_of_nil in Hx|]. simpl.
  apply elem_of_cons in Hx as [<-|Hx].
  - rewrite Ef, Eg. simpl. pose proof (filter_length_mono f g l H). lia.
  - specialize (IH Hx). destruct (f y) eqn:Efy; [rewrite (H y Efy); simpl; lia|].
    destruct (g y); simpl; lia.
Qed.

Lemma height_lt id : id ∈ pt_task_id <$> tasks -> height id < length tasks.
Proof.
  intros (t & -> & Ht)%list_elem_of_fmap. unfold height.
  assert (length (List.filter (fun _ => true) tasks) = length tasks) as E.
  { clear. induction tasks; simpl; [done|]. by f_equal. }
  rewrite <- E. apply (filter_length_strict _ _ _ t); try done.
  apply Nat.ltb_irrefl.
Qed.

Lemma height_dependency t d : dependencies_ranked tasks rank -> t ∈ tasks ->
  d ∈ pt_dependencies t -> height d < height (pt_task_id t).
Proof.
  intros Hr Ht Hd. destruct (Hr t d Ht Hd) as [(t' & -> & Ht')%list_elem_of_fmap Hlt].
  unfold height. apply (filter_length_strict _ _ _ t'); [|done|apply Nat.ltb_irrefl|by apply Nat.ltb_lt].
  intros y Hy%Nat.ltb_lt. apply Nat.ltb_lt. lia.
Qed.
End Height.

(** ** Dependencies *)

Lemma graph_task_Some g id t : graph_task g id = Some t -> t ∈ tg_tasks g /\ pt_task_id t = id.
Proof. intros [Hin%list_elem_of_In Hb]%find_some. by bool_facts. Qed.

Lemma graph_task_eq g t : NoDup (pt_task_id <$> tg_tasks g) -> t ∈ tg_tasks g ->
  graph_task g (pt_task_id t) = Some t.
Proof.
  destruct g as [mission tasks]. unfold graph_task. simpl. intros Hnd Ht.
  induction tasks as [|y l IH]; [by apply not_elem_of_nil in Ht|]. simpl.
  apply NoDup_cons in Hnd as [Hni Hnd]. apply elem_of_cons in Ht as [<-|Ht].
  - by rewrite bool_decide_true.
  - rewrite bool_decide_false; [by apply IH|].
    intros E. apply Hni. fold (pt_task_id <$> l). rewrite E. apply list_elem_of_fmap. eauto.
Qed.

(** One step of the dependency relation of a graph. *)
Definition depends (tasks : list PlannedTask) (t d : TaskId) : Prop :=
  exists task, task ∈ tasks /\ pt_task_id task = t /\ d ∈ pt_dependencies task.

Lemma task_depends_on_spec mission g rank : tg_mission_id g = mission ->
  graph_ok mission (tg_tasks g) -> dependencies_ranked (tg_tasks g) rank ->
  forall fuel t c, height (tg_tasks g) rank t < fuel ->
  task_depends_on fuel g t c = true <-> tc (depends (tg_tasks g)) t c.
Proof.
  intros _ Hok Hr. induction fuel as [|fuel IH]; intros t c Hf; [lia|]. simpl. split.
  - intros (task & Ht%graph_task_Some & He)%is_some_and_true. destruct Ht as [Ht <-].
    apply existsb_exists in He as (d & Hd%list_elem_of_In & Hb).
    apply orb_true_iff in Hb as [Hb|Hb].
    + bool_facts. subst. apply tc_once. exists task. eauto.
    + apply IH in Hb; [|pose proof (height_dependency _ _ _ _ Hr Ht Hd); lia].
      eapply tc_l; [|exact Hb]. exists task. eauto.
  - intros Htc.
    assert (exists d, depends (tg_tasks g) t d /\ (d = c \/ tc (depends (tg_tasks g)) d c))
      as (d & (task & Ht & <- & Hd) & Hc) by (inversion Htc; subst; eauto).
    rewrite (graph_task_eq _ _ (go_distinct _ _ Hok) Ht). simpl.
    apply existsb_exists. exists d. split; [by apply list_elem_of_In|].
    apply orb_true_iff. destruct Hc as [->|Hc]; [left; by apply bool_decide_eq_true|right].
    apply IH; [|done]. pose proof (height_dependency _ _ _ _ Hr Ht Hd). lia.
Qed.

(** ** Rounds *)

(** All ready Tasks complete in one round. *)
Fixpoint complete_rounds (n : nat) (g : TaskGraph) (completed : gset TaskId) : gset TaskId :=
  match n with
  | O => completed
  | S n' => complete_rounds n' g
              (completed ∪ list_to_set (pt_task_id <$> graph_ready_tasks g completed))
  end.

Lemma elem_of_graph_ready g completed t : t ∈ graph_ready_tasks g completed <->
  t ∈ tg_tasks g /\ (pt_task_id t ∉ completed) /\ (forall d, d ∈ pt_dependencies t -> d ∈ completed).
Proof.
  unfold graph_ready_tasks. rewrite !list_elem_of_In, filter_In, andb_true_iff, negb_true_iff.
  unfold set_contains. rewrite bool_decide_eq_false, forallb_forall. split.
  - intros (Ht & Hn & Hd). split_and!; [done..|]. intros d Hin%list_elem_of_In.
    specialize (Hd d Hin). by apply bool_decide_eq_true in Hd.
  - intros (Ht & Hn & Hd). split_and!; [done..|]. intros d Hin%list_elem_of_In.
    apply bool_decide_eq_true. auto.
Qed.

Lemma complete_rounds_mono n g completed : completed ⊆ (complete_rounds n g completed).
Proof. revert completed. induction n as [|n IH]; intros c; simpl; [done|]. pose proof (IH (c ∪ list_to_set (pt_task_id <$> graph_ready_tasks g c))). set_solver. Qed.

Lemma complete_rounds_height mission g rank : graph_ok mission (tg_tasks g) ->
  dependencies_ranked (tg_tasks g) rank ->
  forall n k completed,
  (forall t, t ∈ tg_tasks g -> height (tg_tasks g) rank (pt_task_id t) < k -> pt_task_id t ∈ completed) ->
  forall t, t ∈ tg_tasks g -> height (tg_tasks g) rank (pt_task_id t) < k + n ->
  pt_task_id t ∈ complete_rounds n g completed.
Proof.
  intros Hok Hr. induction n as [|n IH]; intros k completed Hk t Ht Hh; simpl.
  { apply Hk; [done|lia]. }
  apply (IH (S k)); [|done|lia]. intros t' Ht' Hh'.
  destruct (decide (pt_task_id t' ∈ completed)) as [|Hn]; [set_solver|].
  apply elem_of_union_r, elem_of_list_to_set, list_elem_of_fmap. exists t'. split; [done|].
  apply elem_of_graph_ready. split_and!; [done..|]. intros d Hd.
  destruct (Hr t' d Ht' Hd) as [(td & -> & Htd)%list_elem_of_fmap _].
  apply Hk; [done|]. pose proof (height_dependency _ _ _ _ Hr Ht' Hd). lia.
Qed.
