(* ===== verification/TaskExecution.v ===== *)
(** * Task executions and physical entities

    [core/domain/src/task_execution.rs]: one Task inside a Group, with its lifecycle and
    bindings; [core/domain/src/physical_entity.rs]: the deployment's entities and their
    routing Nodes. *)

From S2P Require Import Prelude Identity Execution StateModel Resource RelationSpec DecisionPolicy.
From S2P Require Import Scheduler SchedulerPolicy.

Open Scope string_scope.

#[export] Instance RoleAssignment_eq_dec : EqDecision RoleAssignment.
Proof. solve_decision. Defined.

Inductive TaskExecutionLifecycle :=
| TlPending | TlReady | TlActive | TlBlocked | TlAwaitingSatisfaction | TlCompleted | TlFailed
| TlSatisfactionRejected | TlCancelled.

#[export] Instance TaskExecutionLifecycle_eq_dec : EqDecision TaskExecutionLifecycle.
Proof. solve_decision. Defined.

Record TaskExecution := MkTaskExecution {
  te_task_ref : TaskRef;
  te_context_id : CoordinationContextId;
  te_coupling_mode : ExecutionCouplingMode;
  te_lifecycle : TaskExecutionLifecycle;
  te_assignments : list RoleAssignment;
  te_role_scopes : gmap RoleId ResourceBindingScope;
  te_context_roles : gmap RoleId ContextRoleId
}.

#[export] Instance TaskExecution_eq_dec : EqDecision TaskExecution.
Proof. solve_decision. Defined.

Definition TaskExecution_new_with_coupling_mode (task_ref : TaskRef)
    (context_id : CoordinationContextId) (context_roles : gmap RoleId ContextRoleId)
    (role_scopes : gmap RoleId ResourceBindingScope) (coupling_mode : ExecutionCouplingMode)
  : TaskExecution :=
  MkTaskExecution task_ref context_id coupling_mode TlPending [] role_scopes context_roles.

Definition TaskExecution_new (task_ref : TaskRef) (context_id : CoordinationContextId)
    (context_roles : gmap RoleId ContextRoleId) (role_scopes : gmap RoleId ResourceBindingScope)
  : TaskExecution :=
  TaskExecution_new_with_coupling_mode task_ref context_id context_roles role_scopes Independent.

Definition role_scope (t : TaskExecution) (role : RoleId) : ResourceBindingScope :=
  default ScopeTask (te_role_scopes t !! role).

(** [resource_ids().contains(id)]. *)
Definition assigns (resource : ResourceId) (a : RoleAssignment) : bool :=
  existsb (fun id => bool_decide (id = resource)) (as_resource_ids a).

Definition binding_scope (t : TaskExecution) (resource : ResourceId) : ResourceBindingScope :=
  match List.find (assigns resource) (te_assignments t) with
  | Some a => role_scope t (as_role_id a)
  | None => ScopeTask
  end.

Definition te_context_role (t : TaskExecution) (role : RoleId) : option ContextRoleId :=
  te_context_roles t !! role.

Definition with_assignments (t : TaskExecution) (assignments : list RoleAssignment) : TaskExecution :=
  MkTaskExecution (te_task_ref t) (te_context_id t) (te_coupling_mode t) (te_lifecycle t)
    assignments (te_role_scopes t) (te_context_roles t).

Definition with_lifecycle (t : TaskExecution) (lifecycle : TaskExecutionLifecycle) : TaskExecution :=
  MkTaskExecution (te_task_ref t) (te_context_id t) (te_coupling_mode t) lifecycle
    (te_assignments t) (te_role_scopes t) (te_context_roles t).

(** ** Physical entities *)

Abbreviation PhysicalEntityRegistryId := (Identifier KPhysicalEntityRegistry).

Record PhysicalEntityRegistration := MkEntityRegistration {
  pe_entity_id : PhysicalEntityId;
  pe_node_id : NodeId
}.

#[export] Instance PhysicalEntityRegistration_eq_dec : EqDecision PhysicalEntityRegistration.
Proof. solve_decision. Defined.

Inductive PhysicalEntityRoutingProfile := OneRoutableEntityPerNode.

Record PhysicalEntityRegistrySnapshot := MkEntityRegistry {
  ps_registry_id : PhysicalEntityRegistryId;
  ps_revision : N;
  ps_routing_profile : PhysicalEntityRoutingProfile;
  ps_entities : gmap PhysicalEntityId PhysicalEntityRegistration
}.

Fixpoint entities_loop (entities : gmap PhysicalEntityId PhysicalEntityRegistration)
    (nodes : gset NodeId) (l : list PhysicalEntityRegistration)
  : Result (gmap PhysicalEntityId PhysicalEntityRegistration) DomainError :=
  match l with
  | [] => Ok entities
  | r :: l' =>
      if set_contains (pe_node_id r) nodes
      then Err (InvalidPhysicalEntityRegistry
             ("physical entity routing profile OneRoutableEntityPerNode cannot route multiple entities through node "
                ++ as_str (pe_node_id r))) else
      if contains_key (pe_entity_id r) entities
      then Err (InvalidPhysicalEntityRegistry "physical entity registry contains duplicate identities")
      else entities_loop (<[pe_entity_id r := r]> entities) ({[pe_node_id r]} ∪ nodes) l'
  end.

Definition PhysicalEntityRegistrySnapshot_new (registry_id : PhysicalEntityRegistryId) (revision : N)
    (profile : PhysicalEntityRoutingProfile) (registrations : list PhysicalEntityRegistration)
  : Result PhysicalEntityRegistrySnapshot DomainError :=
  let? entities := entities_loop ∅ ∅ registrations in
  Ok (MkEntityRegistry registry_id revision profile entities).

Definition ps_entity (s : PhysicalEntityRegistrySnapshot) (id : PhysicalEntityId)
  : option PhysicalEntityRegistration := ps_entities s !! id.

Definition entity_for_node (s : PhysicalEntityRegistrySnapshot) (node : NodeId)
  : option PhysicalEntityRegistration :=
  List.find (fun r => bool_decide (pe_node_id r = node)) (btree_values (ps_entities s)).
