(* ===== verification/Group.v ===== *)
(** * Execution Groups

    [core/control/src/group/mod.rs] and [membership.rs]: the Group record, its bindings and
    queries, and the membership version that advances with the bindings.  [None] is the
    [expect] of a failed encoding. *)

From S2P Require Import Prelude Identity Execution StateModel Resource RelationSpec DecisionPolicy.
From S2P Require Import Scheduler SchedulerPolicy Sorting Quota NodeIdentity Mission TaskExecution.

Open Scope string_scope.

#[export] Instance GroupLifecycle_eq_dec : EqDecision GroupLifecycle.
Proof. solve_decision. Defined.

(** ** Requirements compare by value; a NaN differs from itself. *)

Fixpoint list_eqb {A} (eqb : A -> A -> bool) (l r : list A) : bool :=
  match l, r with
  | [], [] => true
  | x :: l', y :: r' => eqb x y && list_eqb eqb l' r'
  | _, _ => false
  end.

Lemma list_eqb_refl {A} (eqb : A -> A -> bool) l :
  (forall x, x ∈ l -> eqb x x = true) -> list_eqb eqb l l = true.
Proof.
  induction l as [|x l IH]; intros H; simpl; [done|]. rewrite H by set_solver. simpl.
  apply IH. set_solver.
Qed.

#[export] Instance CapabilityConstraintOperator_eq_dec : EqDecision CapabilityConstraintOperator.
Proof. solve_decision. Defined.
#[export] Instance CapabilityKind_eq_dec : EqDecision CapabilityKind.
Proof. solve_decision. Defined.

Definition CapabilityConstraint_eqb (a b : CapabilityConstraint) : bool :=
  (cc_attribute a =? cc_attribute b)%string && bool_decide (cc_operator a = cc_operator b)
  && ExecutionValue_eqb (cc_value a) (cc_value b).

Definition CapabilityRequirement_eqb (a b : CapabilityRequirement) : bool :=
  bool_decide (cr_contract a = cr_contract b)
  && list_eqb CapabilityConstraint_eqb (cr_constraints a) (cr_constraints b).

Definition RoleRequirement_eqb (a b : RoleRequirement) : bool :=
  bool_decide (rq_role_id a = rq_role_id b)
  && bool_decide (rq_legacy_capability a = rq_legacy_capability b)
  && bool_decide (rq_actor_id a = rq_actor_id b)
  && bool_decide (rq_legacy_contract a = rq_legacy_contract b)
  && list_eqb CapabilityRequirement_eqb (rq_capabilities a) (rq_capabilities b)
  && bool_decide (rq_resource_kind a = rq_resource_kind b)
  && bool_decide (rq_resources a = rq_resources b)
  && bool_decide (rq_memories a = rq_memories b).

Definition constraints_finite (c : CapabilityRequirement) : bool :=
  forallb (fun k => ExecutionValue_is_finite (cc_value k)) (cr_constraints c).

Lemma RoleRequirement_eqb_refl r : forallb constraints_finite (rq_capabilities r) = true ->
  RoleRequirement_eqb r r = true.
Proof.
  intros H. unfold RoleRequirement_eqb. rewrite !bool_decide_true by done.
  rewrite list_eqb_refl; [done|]. intros c Hc. unfold CapabilityRequirement_eqb.
  rewrite bool_decide_true by done. simpl. apply list_eqb_refl. intros k Hk.
  rewrite forallb_forall in H. specialize (H c). rewrite <- list_elem_of_In in H. specialize (H Hc).
  unfold constraints_finite in H. rewrite forallb_forall in H. specialize (H k).
  rewrite <- list_elem_of_In in H. specialize (H Hk).
  unfold CapabilityConstraint_eqb. rewrite String.eqb_refl, bool_decide_true by done.
  by apply ExecutionValue_eqb_refl.
Qed.

(** ** The Group *)

Record ContextBinding := MkContextBinding {
  cb_context_id : CoordinationContextId;
  cb_context_role_id : ContextRoleId;
  cb_origin_task_ref : TaskRef;
  cb_assignment : RoleAssignment
}.

#[export] Instance ContextBinding_eq_dec : EqDecision ContextBinding.
Proof. solve_decision. Defined.

Definition context_binding_key (context : CoordinationContextId) (role : ContextRoleId) : string :=
  as_str context ++ "::" ++ as_str role.

Record UnboundRole := MkUnbound {
  ub_previous_node_id : NodeId;
  ub_assignment_index : nat
}.

#[export] Instance UnboundRole_eq_dec : EqDecision UnboundRole.
Proof. solve_decision. Defined.

Record GroupMembershipVersion := MkMembershipVersion {
  gm_generation : N;
  gm_bindings_digest : string
}.

#[export] Instance GroupMembershipVersion_eq_dec : EqDecision GroupMembershipVersion.
Proof. solve_decision. Defined.

Definition GroupMembershipVersion_validate (v : GroupMembershipVersion) : Result unit string :=
  if (gm_generation v =? 0)%N
     || negb (is_some_and (fun hex => is_hex hex 64) (strip_prefix "sha256:" (gm_bindings_digest v)))
  then Err "Group membership requires a positive generation and exact SHA-256 digest"
  else Ok tt.

Record ExecutionGroup := MkGroup {
  eg_superseded_by : option ExecutionGroupId;
  eg_membership_version : option GroupMembershipVersion;
  eg_group_id : ExecutionGroupId;
  eg_mission_id : MissionId;
  eg_task_ref : TaskRef;
  eg_assignments : list RoleAssignment;
  eg_unbound_roles : gmap RoleId UnboundRole;
  eg_task_unbound_roles : gmap (TaskRef * RoleId) UnboundRole;
  eg_lifecycle : GroupLifecycle;
  eg_task_executions : gmap TaskRef TaskExecution;
  eg_role_requirements : gmap (TaskRef * RoleId) RoleRequirement;
  eg_context_bindings : gmap string ContextBinding;
  eg_context_resource_envelopes : list (CoordinationContextId * ContextRole)
}.

(** Assignments to one field. *)
Definition set_membership (v : option GroupMembershipVersion) (g : ExecutionGroup) : ExecutionGroup :=
  MkGroup (eg_superseded_by g) v (eg_group_id g) (eg_mission_id g) (eg_task_ref g)
    (eg_assignments g) (eg_unbound_roles g) (eg_task_unbound_roles g) (eg_lifecycle g)
    (eg_task_executions g) (eg_role_requirements g) (eg_context_bindings g)
    (eg_context_resource_envelopes g).
Definition set_lifecycle (l : GroupLifecycle) (g : ExecutionGroup) : ExecutionGroup :=
  MkGroup (eg_superseded_by g) (eg_membership_version g) (eg_group_id g) (eg_mission_id g)
    (eg_task_ref g) (eg_assignments g) (eg_unbound_roles g) (eg_task_unbound_roles g) l
    (eg_task_executions g) (eg_role_requirements g) (eg_context_bindings g)
    (eg_context_resource_envelopes g).
Definition set_superseded_by (target : option ExecutionGroupId) (g : ExecutionGroup) : ExecutionGroup :=
  MkGroup target (eg_membership_version g) (eg_group_id g) (eg_mission_id g)
    (eg_task_ref g) (eg_assignments g) (eg_unbound_roles g) (eg_task_unbound_roles g)
    (eg_lifecycle g) (eg_task_executions g) (eg_role_requirements g) (eg_context_bindings g)
    (eg_context_resource_envelopes g).
Definition set_task_executions (m : gmap TaskRef TaskExecution) (g : ExecutionGroup) : ExecutionGroup :=
  MkGroup (eg_superseded_by g) (eg_membership_version g) (eg_group_id g) (eg_mission_id g)
    (eg_task_ref g) (eg_assignments g) (eg_unbound_roles g) (eg_task_unbound_roles g)
    (eg_lifecycle g) m (eg_role_requirements g) (eg_context_bindings g)
    (eg_context_resource_envelopes g).
Definition set_context_bindings (m : gmap string ContextBinding) (g : ExecutionGroup)
  : ExecutionGroup :=
  MkGroup (eg_superseded_by g) (eg_membership_version g) (eg_group_id g) (eg_mission_id g)
    (eg_task_ref g) (eg_assignments g) (eg_unbound_roles g) (eg_task_unbound_roles g)
    (eg_lifecycle g) (eg_task_executions g) (eg_role_requirements g) m
    (eg_context_resource_envelopes g).
Definition set_group_roles (assignments : list RoleAssignment) (unbound : gmap RoleId UnboundRole)
    (task_unbound : gmap (TaskRef * RoleId) UnboundRole) (g : ExecutionGroup) : ExecutionGroup :=
  MkGroup (eg_superseded_by g) (eg_membership_version g) (eg_group_id g) (eg_mission_id g)
    (eg_task_ref g) assignments unbound task_unbound (eg_lifecycle g) (eg_task_executions g)
    (eg_role_requirements g) (eg_context_bindings g) (eg_context_resource_envelopes g).

Definition put_execution (task : TaskRef) (t : TaskExecution) (g : ExecutionGroup) : ExecutionGroup :=
  set_task_executions (<[task := t]> (eg_task_executions g)) g.

(** ** Queries *)

Definition task_execution (g : ExecutionGroup) (task : TaskRef) : option TaskExecution :=
  eg_task_executions g !! task.
Definition role_requirement (g : ExecutionGroup) (task : TaskRef) (role : RoleId)
  : option RoleRequirement := eg_role_requirements g !! (task, role).
Definition context_binding (g : ExecutionGroup) (context : CoordinationContextId)
    (role : ContextRoleId) : option ContextBinding :=
  eg_context_bindings g !! context_binding_key context role.
Definition is_role_unbound (g : ExecutionGroup) (role : RoleId) : bool :=
  contains_key role (eg_unbound_roles g).
Definition is_task_role_unbound (g : ExecutionGroup) (task : TaskRef) (role : RoleId) : bool :=
  contains_key (task, role) (eg_task_unbound_roles g).

Definition recovery_unbound_role (g : ExecutionGroup) (task : TaskRef) (role : RoleId)
  : option UnboundRole :=
  if is_some (task_execution g task) then eg_task_unbound_roles g !! (task, role) else
  if (size (eg_task_executions g) =? 0)%nat && bool_decide (eg_task_ref g = task)
  then eg_unbound_roles g !! role else None.

Definition has_memory_requirements (g : ExecutionGroup) : bool :=
  existsb (fun r => negb (length (rq_memories r) =? 0)%nat) (btree_values (eg_role_requirements g)).

(** ** Membership *)

(** [Ord] of [Vec<_>]. *)
Fixpoint list_cmp {A} `{Ord A} (l r : list A) : comparison :=
  match l, r with
  | [], [] => Eq
  | [], _ => Lt
  | _, [] => Gt
  | x :: l', y :: r' => cmp_then (cmp x y) (list_cmp l' r')
  end.
#[export] Instance list_Ord {A} `{Ord A} : Ord (list A) := list_cmp.

Definition sorted_resources (a : RoleAssignment) : list ResourceId := sort_by cmp (as_resource_ids a).

Definition legacy_members (g : ExecutionGroup) : list (RoleId * NodeId * list ResourceId) :=
  sort_by cmp ((fun a => (as_role_id a, as_node_id a, sorted_resources a)) <$> eg_assignments g).
Definition task_members (g : ExecutionGroup)
  : list (TaskRef * RoleId * NodeId * list ResourceId) :=
  sort_by cmp (flat_map (fun t =>
    (fun a => (te_task_ref t, as_role_id a, as_node_id a, sorted_resources a)) <$> te_assignments t)
    (btree_values (eg_task_executions g))).
Definition context_members (g : ExecutionGroup)
  : list (CoordinationContextId * ContextRoleId * NodeId * list ResourceId) :=
  sort_by cmp ((fun b => (cb_context_id b, cb_context_role_id b, as_node_id (cb_assignment b),
                          sorted_resources (cb_assignment b)))
                 <$> btree_values (eg_context_bindings g)).

Definition json_id {k} (i : Identifier k) : Json := JString (as_str i).
Definition json_task_ref (t : TaskRef) : Json :=
  JObject [("mission_id", json_id (tr_mission_id t)); ("task_id", json_id (tr_task_id t))].
Definition json_ids {k} (l : list (Identifier k)) : Json := JArray (json_id <$> l).

Definition membership_json (g : ExecutionGroup) : Json :=
  JObject [("contexts", JArray ((fun '(c, r, n, l) =>
                JArray [json_id c; json_id r; json_id n; json_ids l]) <$> context_members g));
           ("group_id", json_id (eg_group_id g));
           ("legacy", JArray ((fun '(r, n, l) => JArray [json_id r; json_id n; json_ids l])
                                <$> legacy_members g));
           ("mission_id", json_id (eg_mission_id g));
           ("released", JBool (bool_decide (eg_lifecycle g = GlReleased)));
           ("schema_version", JString "roboguide.group-membership/v0.1");
           ("tasks", JArray ((fun '(t, r, n, l) =>
                JArray [json_task_ref t; json_id r; json_id n; json_ids l]) <$> task_members g))].

Section Membership.
Context `{Serde}.

Definition membership_digest (g : ExecutionGroup) : option string :=
  match json_to_vec (membership_json g) with
  | Ok bytes => Some ("sha256:" ++ sha256_hex bytes)
  | Err _ => None
  end.

Definition with_initial_membership (g : ExecutionGroup) : option ExecutionGroup :=
  digest ← membership_digest g;
  Some (set_membership (Some (MkMembershipVersion 1 digest)) g).

(** [membership_version()]: the version while it describes the current bindings. *)
Definition current_membership_version (g : ExecutionGroup) : option (option GroupMembershipVersion) :=
  match eg_membership_version g with
  | None => Some None
  | Some v =>
      if negb (is_ok (GroupMembershipVersion_validate v)) then Some None else
      digest ← membership_digest g;
      Some (if (gm_bindings_digest v =? digest)%string then Some v else None)
  end.

(** The Group after [refresh_membership] and its result; an exhausted generation leaves the
    version as it was. *)
Definition refresh_membership (g : ExecutionGroup)
  : option (ExecutionGroup * Result unit ControlError) :=
  digest ← membership_digest g;
  match eg_membership_version g with
  | None => Some (g, Ok tt)
  | Some v =>
      if (digest =? gm_bindings_digest v)%string then Some (g, Ok tt) else
      match u64_checked_add (gm_generation v) 1 with
      | None => Some (g, Err (InvalidProposal "Group membership generation exhausted"))
      | Some generation =>
          Some (set_membership (Some (MkMembershipVersion generation digest)) g, Ok tt)
      end
  end.

Definition validate_membership_version (g : ExecutionGroup) : option (Result unit ControlError) :=
  match eg_membership_version g with
  | None => Some (Ok tt)
  | Some v =>
      match GroupMembershipVersion_validate v with
      | Err reason => Some (Err (InvalidProposal reason))
      | Ok _ =>
          digest ← membership_digest g;
          if negb (gm_bindings_digest v =? digest)%string
          then Some (Err (InvalidProposal
                            "Group membership digest differs from current physical bindings"))
          else Some (Ok tt)
      end
  end.

Definition ExecutionGroup_new_mission (group_id : ExecutionGroupId) (mission_id : MissionId)
    (initial_task_ref : TaskRef) : option ExecutionGroup :=
  with_initial_membership
    (MkGroup None None group_id mission_id initial_task_ref [] ∅ ∅ GlBound ∅ ∅ ∅ []).
End Membership.

(** ** Checks of assignments and requirements *)

Definition assigned_roles (l : list RoleAssignment) : gset RoleId := list_to_set (as_role_id <$> l).

Definition validate_task_assignments (t : TaskExecution) (assignments : list RoleAssignment)
  : Result unit ControlError :=
  if negb (bool_decide (dom (te_role_scopes t) = assigned_roles assignments))
  then Err (InvalidProposal "committed assignments must exactly cover TaskExecution roles") else
  if negb (length assignments =? size (assigned_roles assignments))%nat
  then Err (InvalidProposal "committed assignments contain duplicate roles") else Ok tt.

Definition requirements_of_task (g : ExecutionGroup) (task : TaskRef) : gmap RoleId RoleRequirement :=
  list_to_map ((fun kv : TaskRef * RoleId * RoleRequirement => (kv.1.2, kv.2)) <$>
    List.filter (fun kv => bool_decide (kv.1.1 = task)) (btree_iter (eg_role_requirements g))).

(** [BTreeMap<_, _>] equality over values that compare with [RoleRequirement_eqb]. *)
Definition requirements_eqb (l r : gmap RoleId RoleRequirement) : bool :=
  list_eqb (fun x y => bool_decide (x.1 = y.1) && RoleRequirement_eqb x.2 y.2)
    (btree_iter l) (btree_iter r).

Definition validate_group_task_requirement (g : ExecutionGroup) (requirement : TaskRequirement)
  : Result unit ControlError :=
  let expected := requirements_of_task g (tk_task_ref requirement) in
  let supplied := foldl (fun m r => <[rq_role_id r := r]> m) ∅ (tk_roles requirement) in
  if (size expected =? 0)%nat || requirements_eqb expected supplied then Ok tt
  else Err (InvalidProposal
              "Task requirement differs from authoritative Execution Group role metadata").
