(* ===== verification/ControlPlane.v ===== *)
(** * The Control plane

    The part of [ControlPlane] of [core/control/src/lib.rs] that owns Groups, reservations,
    the calendar, Actor bindings and tenants, with [tenant.rs], the mutations of
    [calendar.rs], the quota operations of [lib.rs], the placement of Actors and
    [registry_provenance.rs].  The log of an event sink is the field [cp_events]; the
    decision policy registry is kept by its digest. *)

From S2P Require Import Prelude Identity Execution StateModel Resource RelationSpec DecisionPolicy.
From S2P Require Import Scheduler SchedulerPolicy Sorting Quota NodeIdentity Capacity.
From S2P Require Import Mission TaskExecution Group.

Open Scope string_scope.

(** ** Calendar records *)

Inductive SchedulingReservationPhase := Scheduled | Activated | Invalidated.

#[export] Instance SchedulingReservationPhase_eq_dec : EqDecision SchedulingReservationPhase.
Proof. solve_decision. Defined.

Record ScheduledTaskReservation := MkScheduledTask {
  st_topology_recovery_assignments : gmap RoleId RoleAssignment;
  st_group_id : ExecutionGroupId;
  st_decision : TaskSchedulingDecision;
  st_phase : SchedulingReservationPhase;
  st_reason : string
}.

Definition ScheduledTaskReservation_new (group_id : ExecutionGroupId)
    (decision : TaskSchedulingDecision) : ScheduledTaskReservation :=
  MkScheduledTask ∅ group_id decision Scheduled "".

Definition st_task_ref (r : ScheduledTaskReservation) : TaskRef := dc_task_ref (st_decision r).

Definition current_assignments (r : ScheduledTaskReservation) : list RoleAssignment :=
  (fun original => default original (st_topology_recovery_assignments r !! as_role_id original))
    <$> proposed_assignments (st_decision r).

(** ** Recovery records: [reconciliation/model.rs] *)

Record ActorTakeoverAuthorization := MkTakeover {
  at_group_id : ExecutionGroupId;
  at_task_ref : TaskRef;
  at_role_id : RoleId;
  at_actor_id : ActorId;
  at_previous_node_id : NodeId;
  at_previous_entity_id : PhysicalEntityId;
  at_replacement_node_id : NodeId;
  at_replacement_entity_id : PhysicalEntityId;
  at_registry_id : PhysicalEntityRegistryId;
  at_registry_revision : N;
  at_evidence_digest : string
}.

#[export] Instance ActorTakeoverAuthorization_eq_dec : EqDecision ActorTakeoverAuthorization.
Proof. solve_decision. Defined.

Record RoleRecoveryNeed := MkRecoveryNeed {
  rn_group_id : ExecutionGroupId;
  rn_task_ref : TaskRef;
  rn_role_id : RoleId;
  rn_current_node_id : NodeId
}.

Record RecoveryAssignmentProposal := MkRecoveryProposal {
  rp_stopped_owner_allowed : bool;
  rp_group_id : ExecutionGroupId;
  rp_task_ref : TaskRef;
  rp_role_id : RoleId;
  rp_previous_node_id : NodeId;
  rp_replacement_node_id : NodeId;
  rp_replacement_resource_ids : list ResourceId;
  rp_operation : option OperationRef;
  rp_actor_takeover : option ActorTakeoverAuthorization
}.

Record CommittedRecoveryAssignment := MkRecoveryCommit {
  rc_stopped_owner_allowed : bool;
  rc_group_id : ExecutionGroupId;
  rc_task_ref : TaskRef;
  rc_role_id : RoleId;
  rc_previous_node_id : NodeId;
  rc_replacement_node_id : NodeId;
  rc_committed_resource_ids : list ResourceId;
  rc_operation : option OperationRef;
  rc_actor_takeover : option ActorTakeoverAuthorization
}.

#[export] Instance CommittedRecoveryAssignment_eq_dec : EqDecision CommittedRecoveryAssignment.
Proof. solve_decision. Defined.

Inductive RecoveryOutcome :=
| RecoveryPending (group : ExecutionGroupId) (task : TaskRef) (role : RoleId)
| RecoveryRecovered (group : ExecutionGroupId) (task : TaskRef) (role : RoleId)
    (from_node to_node : NodeId).

Definition recovery_commitment_key (group : ExecutionGroupId) (task : TaskRef) (role : RoleId)
  : ExecutionGroupId * TaskRef * RoleId := (group, task, role).

(** ** Actors *)

Record ActorBinding := MkActorBinding {
  ab_mission_id : MissionId;
  ab_actor_id : ActorId;
  ab_node_id : NodeId;
  ab_physical_entity_id : option PhysicalEntityId;
  ab_registry_id : option PhysicalEntityRegistryId;
  ab_registry_revision : option N
}.

#[export] Instance ActorBinding_eq_dec : EqDecision ActorBinding.
Proof. solve_decision. Defined.

Definition ActorBinding_new (mission : MissionId) (actor : ActorId) (node : NodeId) : ActorBinding :=
  MkActorBinding mission actor node None None None.
Definition ActorBinding_new_physical (mission : MissionId) (actor : ActorId) (node : NodeId)
    (entity : PhysicalEntityId) (registry : PhysicalEntityRegistryId) (revision : N)
  : ActorBinding := MkActorBinding mission actor node (Some entity) (Some registry) (Some revision).

Record ActorNodeConstraint := MkNodeConstraint {
  anc_mission_id : MissionId;
  anc_actor_id : ActorId;
  anc_node_id : NodeId
}.

Record ActorCandidateRestriction := MkCandidateRestriction {
  acr_mission_id : MissionId;
  acr_actor_id : ActorId;
  acr_allowed_nodes : gset NodeId;
  acr_evidence_digest : string
}.

#[export] Instance ActorCandidateRestriction_eq_dec : EqDecision ActorCandidateRestriction.
Proof. solve_decision. Defined.

Record RegistryProvenance := MkProvenance {
  pv_registry_id : PhysicalEntityRegistryId;
  pv_highest_revision : N;
  pv_content_digest : string
}.

(** [(len as u64).to_be_bytes()]. *)
Fixpoint be_bytes (n : nat) (v : N) : string :=
  match n with
  | O => EmptyString
  | S n' => String (ascii_of_N (N.modulo (N.shiftr v (8 * N.of_nat n')) 256)) (be_bytes n' v)
  end.
Definition framed (value : string) : string := be_bytes 8 (str_len value) ++ value.

Definition provenance_text (s : PhysicalEntityRegistrySnapshot) : string :=
  "roboguide.registry-provenance/v1" ++ String "000" (String "001" EmptyString)
    ++ foldr (fun e text => framed (as_str (pe_entity_id e)) ++ framed (as_str (pe_node_id e)) ++ text)
         EmptyString (btree_values (ps_entities s)).

Definition RegistryProvenance_from_snapshot `{Serde} (s : PhysicalEntityRegistrySnapshot)
  : RegistryProvenance :=
  MkProvenance (ps_registry_id s) (ps_revision s) (sha256_hex (provenance_text s)).

Definition provenance_validate_successor (p candidate : RegistryProvenance)
  : Result unit ControlError :=
  if negb (bool_decide (pv_registry_id p = pv_registry_id candidate))
  then Err (InvalidProposal "physical entity registry identity changed") else
  if (pv_highest_revision candidate <? pv_highest_revision p)%N
  then Err (InvalidProposal "physical entity registry revision moved backwards") else
  if (pv_highest_revision candidate =? pv_highest_revision p)%N
     && negb (pv_content_digest candidate =? pv_content_digest p)%string
  then Err (InvalidProposal "physical entity registry changed without a new revision") else Ok tt.

(** ** Events *)

Inductive ControlEvent :=
| ContextBindingsReleased (group : ExecutionGroupId) (context : CoordinationContextId)
    (resources : list ResourceId)
| TaskExecutionActivated (group : ExecutionGroupId) (task : TaskRef)
| SchedulingReservationActivated (group : ExecutionGroupId) (task : TaskRef)
| TaskExecutionCompleted (group : ExecutionGroupId) (task : TaskRef)
| TaskSatisfied (group : ExecutionGroupId) (task : TaskRef) (basis : TaskSatisfactionBasis)
| TaskExecutionFailed (group : ExecutionGroupId) (task : TaskRef)
| TaskSatisfactionRejected (group : ExecutionGroupId) (task : TaskRef) (basis : TaskSatisfactionBasis)
| TaskExecutionBindingsReleased (group : ExecutionGroupId) (task : TaskRef) (resources : list ResourceId)
| ExecutionGroupActivated (group : ExecutionGroupId) (task : TaskRef)
| ExecutionGroupRoleBindingReleased (group : ExecutionGroupId) (task : TaskRef) (role : RoleId)
    (node : NodeId) (resources : list ResourceId)
| MissionActorTakenOver (task : TaskRef) (role : RoleId) (authorization : ActorTakeoverAuthorization)
| RecoveryRebound (group : ExecutionGroupId) (task : TaskRef) (role : RoleId)
    (from_node to_node : NodeId)
| ExecutionGroupCompleted (group : ExecutionGroupId) (task : TaskRef)
| ExecutionGroupBlocked (group : ExecutionGroupId) (task : TaskRef) (reason : string)
| ExecutionGroupFailed (group : ExecutionGroupId) (task : TaskRef) (reason : string)
| ExecutionGroupReleased (group : ExecutionGroupId) (task : TaskRef) (resources : list ResourceId)
| ExecutionGroupCreated (group : ExecutionGroupId) (mission : MissionId)
| TaskExecutionRegistered (group : ExecutionGroupId) (task : TaskRef) (context : CoordinationContextId)
| ExecutionGroupBound (group : ExecutionGroupId) (task : TaskRef)
| MissionActorBound (mission : MissionId) (actor : ActorId) (node : NodeId) (task : TaskRef)
    (group : ExecutionGroupId)
| TaskExecutionReady (group : ExecutionGroupId) (task : TaskRef)
| PlanCommitted (task : TaskRef)
| ReconciliationRoleRecoveryRequired (group : ExecutionGroupId) (task : TaskRef) (role : RoleId)
    (node : NodeId)
| RecoveryAssignmentCommitted (group : ExecutionGroupId) (task : TaskRef) (role : RoleId)
    (node : NodeId) (resources : list ResourceId)
| RecoveryAssignmentAborted (group : ExecutionGroupId) (task : TaskRef) (role : RoleId)
    (node : NodeId) (resources : list ResourceId).

(** ** State *)

Record ControlPlane := MkControlPlane {
  cp_groups : gmap ExecutionGroupId ExecutionGroup;
  cp_reservations : gmap ResourceId Reservation;
  cp_capacity : CapacityAuthority;
  cp_quota_unaccounted_resources : gset ResourceId;
  cp_scheduled_tasks : gmap TaskRef ScheduledTaskReservation;
  cp_pending_recovery_commitments :
    gmap (ExecutionGroupId * TaskRef * RoleId) CommittedRecoveryAssignment;
  cp_actor_bindings : gmap (MissionId * ActorId) ActorBinding;
  cp_actor_node_constraints : gmap (MissionId * ActorId) ActorNodeConstraint;
  cp_actor_candidate_restrictions : gmap (MissionId * ActorId) ActorCandidateRestriction;
  cp_physical_entity_registry : option PhysicalEntityRegistrySnapshot;
  cp_registry_provenance : option RegistryProvenance;
  cp_mission_binding_semantics : gmap MissionId MissionBindingSemantics;
  cp_mission_tenants : gmap MissionId string;
  cp_node_identity_registry : option NodeIdentityRegistry;
  cp_decision_policy_digest : option string;
  cp_resource_topology_registry : option ResourceTopologyRegistry;
  cp_resource_topology_history : gmap N ResourceTopologyRegistry;
  cp_events : list ControlEvent
}.

Definition cp_calendar_version (c : ControlPlane) : N := cau_calendar_version (cp_capacity c).
Definition cp_capacity_ledger (c : ControlPlane) : CapacityLedger := cau_capacity_ledger (cp_capacity c).
Definition cp_quota_ledger (c : ControlPlane) : QuotaLedger := cau_quota_ledger (cp_capacity c).

(** Assignments to the fields the operations change: bookings (reservations, capacity and
    quota), Groups, calendar, recovery commitments, Actors, log. *)
Definition set_groups (m : gmap ExecutionGroupId ExecutionGroup) (c : ControlPlane) : ControlPlane :=
  MkControlPlane m (cp_reservations c) (cp_capacity c) (cp_quota_unaccounted_resources c)
    (cp_scheduled_tasks c) (cp_pending_recovery_commitments c) (cp_actor_bindings c)
    (cp_actor_node_constraints c) (cp_actor_candidate_restrictions c)
    (cp_physical_entity_registry c) (cp_registry_provenance c) (cp_mission_binding_semantics c)
    (cp_mission_tenants c) (cp_node_identity_registry c) (cp_decision_policy_digest c)
    (cp_resource_topology_registry c) (cp_resource_topology_history c) (cp_events c).
Definition set_bookings (m : gmap ResourceId Reservation) (a : CapacityAuthority)
    (unaccounted : gset ResourceId) (c : ControlPlane) : ControlPlane :=
  MkControlPlane (cp_groups c) m a unaccounted
    (cp_scheduled_tasks c) (cp_pending_recovery_commitments c) (cp_actor_bindings c)
    (cp_actor_node_constraints c) (cp_actor_candidate_restrictions c)
    (cp_physical_entity_registry c) (cp_registry_provenance c) (cp_mission_binding_semantics c)
    (cp_mission_tenants c) (cp_node_identity_registry c) (cp_decision_policy_digest c)
    (cp_resource_topology_registry c) (cp_resource_topology_history c) (cp_events c).
Definition set_calendar (m : gmap TaskRef ScheduledTaskReservation) (version : N) (c : ControlPlane)
  : ControlPlane :=
  MkControlPlane (cp_groups c) (cp_reservations c)
    (MkCapacityAuthority version (cp_capacity_ledger c) (cp_quota_ledger c))
    (cp_quota_unaccounted_resources c) m (cp_pending_recovery_commitments c) (cp_actor_bindings c)
    (cp_actor_node_constraints c) (cp_actor_candidate_restrictions c)
    (cp_physical_entity_registry c) (cp_registry_provenance c) (cp_mission_binding_semantics c)
    (cp_mission_tenants c) (cp_node_identity_registry c) (cp_decision_policy_digest c)
    (cp_resource_topology_registry c) (cp_resource_topology_history c) (cp_events c).
Definition set_pending
    (m : gmap (ExecutionGroupId * TaskRef * RoleId) CommittedRecoveryAssignment) (c : ControlPlane)
  : ControlPlane :=
  MkControlPlane (cp_groups c) (cp_reservations c) (cp_capacity c)
    (cp_quota_unaccounted_resources c) (cp_scheduled_tasks c) m (cp_actor_bindings c)
    (cp_actor_node_constraints c) (cp_actor_candidate_restrictions c)
    (cp_physical_entity_registry c) (cp_registry_provenance c) (cp_mission_binding_semantics c)
    (cp_mission_tenants c) (cp_node_identity_registry c) (cp_decision_policy_digest c)
    (cp_resource_topology_registry c) (cp_resource_topology_history c) (cp_events c).
Definition set_actors (bindings : gmap (MissionId * ActorId) ActorBinding)
    (constraints : gmap (MissionId * ActorId) ActorNodeConstraint)
    (restrictions : gmap (MissionId * ActorId) ActorCandidateRestriction) (c : ControlPlane)
  : ControlPlane :=
  MkControlPlane (cp_groups c) (cp_reservations c) (cp_capacity c)
    (cp_quota_unaccounted_resources c) (cp_scheduled_tasks c) (cp_pending_recovery_commitments c)
    bindings constraints restrictions
    (cp_physical_entity_registry c) (cp_registry_provenance c) (cp_mission_binding_semantics c)
    (cp_mission_tenants c) (cp_node_identity_registry c) (cp_decision_policy_digest c)
    (cp_resource_topology_registry c) (cp_resource_topology_history c) (cp_events c).
Definition set_missions (registry : option PhysicalEntityRegistrySnapshot)
    (provenance : option RegistryProvenance) (semantics : gmap MissionId MissionBindingSemantics)
    (tenants : gmap MissionId string) (c : ControlPlane) : ControlPlane :=
  MkControlPlane (cp_groups c) (cp_reservations c) (cp_capacity c)
    (cp_quota_unaccounted_resources c) (cp_scheduled_tasks c) (cp_pending_recovery_commitments c)
    (cp_actor_bindings c) (cp_actor_node_constraints c) (cp_actor_candidate_restrictions c)
    registry provenance semantics tenants (cp_node_identity_registry c) (cp_decision_policy_digest c)
    (cp_resource_topology_registry c) (cp_resource_topology_history c) (cp_events c).
Definition log_event (e : ControlEvent) (c : ControlPlane) : ControlPlane :=
  MkControlPlane (cp_groups c) (cp_reservations c) (cp_capacity c)
    (cp_quota_unaccounted_resources c) (cp_scheduled_tasks c) (cp_pending_recovery_commitments c)
    (cp_actor_bindings c) (cp_actor_node_constraints c) (cp_actor_candidate_restrictions c)
    (cp_physical_entity_registry c) (cp_registry_provenance c) (cp_mission_binding_semantics c)
    (cp_mission_tenants c) (cp_node_identity_registry c) (cp_decision_policy_digest c)
    (cp_resource_topology_registry c) (cp_resource_topology_history c) (cp_events c ++ [e])%list.

Definition put_group (id : ExecutionGroupId) (g : ExecutionGroup) (c : ControlPlane) : ControlPlane :=
  set_groups (<[id := g]> (cp_groups c)) c.
Definition put_actor_binding (key : MissionId * ActorId) (b : ActorBinding) (c : ControlPlane)
  : ControlPlane :=
  set_actors (<[key := b]> (cp_actor_bindings c)) (cp_actor_node_constraints c)
    (cp_actor_candidate_restrictions c) c.

(** [ControlPlane::default()]. *)
Definition ControlPlane_new : ControlPlane :=
  MkControlPlane ∅ ∅ (MkCapacityAuthority 0 CapacityLedger_new QuotaLedger_new) ∅ ∅ ∅ ∅ ∅ ∅ None None
    ∅ ∅ None None None ∅ [].

(** The state an operation leaves and its result; [None] is a panic. *)
Abbreviation ControlStep A := (option (ControlPlane * Result A ControlError)).

Definition refuse {A} (c : ControlPlane) (e : ControlError) : ControlStep A := Some (c, Err e).

(** [group.refresh_membership()?] and the event of the operation. *)
Definition commit_membership `{Serde} {A} (id : ExecutionGroupId) (g : ExecutionGroup)
    (e : ControlEvent) (value : A) (c : ControlPlane) : ControlStep A :=
  refreshed ← refresh_membership g;
  match refreshed with
  | (g1, Err error) => Some (put_group id g1 c, Err error)
  | (g1, Ok _) => Some (log_event e (put_group id g1 c), Ok value)
  end.

(** ** Tenants: [tenant.rs] *)

Definition mission_tenant (c : ControlPlane) (mission : MissionId) : option string :=
  cp_mission_tenants c !! mission.

Definition node_tenant_allowed (c : ControlPlane) (mission : MissionId) (node : NodeId) : bool :=
  is_none_or (fun registry =>
    is_some_and (fun identity => bool_decide (mission_tenant c mission = Some (ni_tenant_id identity)))
      (nr_records registry !! as_str node)) (cp_node_identity_registry c).

Definition register_mission_tenant (c : ControlPlane) (mission : MissionId) (tenant : string)
  : ControlStep unit :=
  if is_blank tenant || (128 <? str_len tenant)%N
  then refuse c (InvalidProposal "Mission tenant is invalid") else
  if is_some_and (fun previous => negb (previous =? tenant)%string) (mission_tenant c mission)
  then refuse c (InvalidProposal "Mission tenant is immutable") else
  Some (set_missions (cp_physical_entity_registry c) (cp_registry_provenance c)
          (cp_mission_binding_semantics c) (<[mission := tenant]> (cp_mission_tenants c)) c, Ok tt).

(** ** Quotas of reservations: [lib.rs] *)

Definition resource_quota_tenant (c : ControlPlane) (mission : MissionId) : Result string ControlError :=
  match mission_tenant c mission with
  | Some tenant => Ok tenant
  | None =>
      if is_some (cp_node_identity_registry c)
      then Err (InvalidProposal "resource quota requires immutable Mission tenant registration")
      else Ok "local"
  end.

Definition reservation_quota_tenant (c : ControlPlane) (r : Reservation) : option string :=
  match mission_tenant c (tr_mission_id (rsv_task_ref r)) with
  | Some tenant => Some tenant
  | None => if is_none (cp_node_identity_registry c) then Some "local" else None
  end.

Abbreviation QuotaDemand := (ResourceId * ResourceKind * N)%type.

(** The candidate ledger after the claims of every demand. *)
Fixpoint track_demands (tenant : string) (q : QuotaLedger) (demands : list QuotaDemand)
  : Result QuotaLedger ControlError :=
  match demands with
  | [] => Ok q
  | (resource, kind, units) :: demands' =>
      let? q1 := result_map_err (fun e => InvalidProposal (quota_error_text e))
                   (track_resource q (exclusive_claim resource tenant kind units)) in
      track_demands tenant q1 demands'
  end.

Definition legacy_demand_unavailable (c : ControlPlane) (tenant : string) (demands : list QuotaDemand)
  : bool :=
  existsb (fun resource =>
    is_some_and (fun r =>
      is_none_or (fun owner => (owner =? tenant)%string) (reservation_quota_tenant c r)
      && existsb (fun d : QuotaDemand => has_limit (cp_quota_ledger c) tenant d.1.2) demands)
      (cp_reservations c !! resource)) (bset_iter (cp_quota_unaccounted_resources c)).

Definition validate_resource_quotas (c : ControlPlane) (mission : MissionId)
    (demands : list QuotaDemand) : Result unit ControlError :=
  if (length demands =? 0)%nat then Ok tt else
  let? tenant := resource_quota_tenant c mission in
  if legacy_demand_unavailable c tenant demands
  then Err (InvalidProposal
    "legacy resource demand is unavailable for a tenant/category with a quota limit") else
  let? _q := track_demands tenant (cp_quota_ledger c) demands in
  Ok tt.

Definition commit_resource_quotas (c : ControlPlane) (mission : MissionId)
    (demands : list QuotaDemand) : Result ControlPlane ControlError :=
  if (length demands =? 0)%nat then Ok c else
  let? _v := validate_resource_quotas c mission demands in
  let? tenant := resource_quota_tenant c mission in
  let? quota := track_demands tenant (cp_quota_ledger c) demands in
  Ok (set_bookings (cp_reservations c)
        (MkCapacityAuthority (cp_calendar_version c) (cp_capacity_ledger c) quota)
        (cp_quota_unaccounted_resources c ∖ list_to_set ((fun d => d.1.1) <$> demands)) c).

(** [reservations.remove(id)] with [release_resource_quota(id)], over a list. *)
Definition release_reservations (resources : list ResourceId) (c : ControlPlane) : ControlPlane :=
  set_bookings (foldl (fun m id => delete id m) (cp_reservations c) resources)
    (MkCapacityAuthority (cp_calendar_version c) (cp_capacity_ledger c)
       (foldl (fun q id => release_resource q (as_str id)) (cp_quota_ledger c) resources))
    (cp_quota_unaccounted_resources c ∖ list_to_set resources) c.

Definition map_capacity (f : CapacityAuthority -> CapacityAuthority) (c : ControlPlane) : ControlPlane :=
  set_bookings (cp_reservations c) (f (cp_capacity c)) (cp_quota_unaccounted_resources c) c.

(** [binding_reservation]: the reservation of a resource, or of the allocation the Task and
    Role borrow from. *)
Definition binding_reservation (c : ControlPlane) (resource : ResourceId) (group : ExecutionGroupId)
    (task : TaskRef) (role : RoleId) : option Reservation :=
  match cp_reservations c !! resource with
  | Some r => Some r
  | None => al_reservation <$> binding (cp_capacity_ledger c) resource group task role
  end.

Definition with_group_id (group : ExecutionGroupId) (r : Reservation) : Reservation :=
  MkReservation (rsv_topology r) (rsv_task_ref r) (rsv_role_id r) (Some group) (rsv_scope r)
    (rsv_owner r).

(** [binding_reservation_mut(..).group_id = Some(group)]. *)
Definition bind_reservation (c : ControlPlane) (resource : ResourceId) (group : ExecutionGroupId)
    (task : TaskRef) (role : RoleId) : ControlPlane :=
  match cp_reservations c !! resource with
  | Some r => set_bookings (<[resource := with_group_id group r]> (cp_reservations c)) (cp_capacity c)
                (cp_quota_unaccounted_resources c) c
  | None => map_capacity (fun a => MkCapacityAuthority (cau_calendar_version a)
              (bind_allocation (cau_capacity_ledger a) resource group task role)
              (cau_quota_ledger a)) c
  end.

(** ** The calendar: [calendar.rs] *)

Definition scheduled_task (c : ControlPlane) (task : TaskRef) : option ScheduledTaskReservation :=
  cp_scheduled_tasks c !! task.

Definition with_phase (phase : SchedulingReservationPhase) (reason : string)
    (r : ScheduledTaskReservation) : ScheduledTaskReservation :=
  MkScheduledTask (st_topology_recovery_assignments r) (st_group_id r) (st_decision r) phase reason.

Definition activate_scheduled_task (c : ControlPlane) (task : TaskRef) : ControlPlane :=
  match scheduled_task c task with
  | Some r =>
      if bool_decide (st_phase r = Scheduled)
      then set_calendar (<[task := with_phase Activated (st_reason r) r]> (cp_scheduled_tasks c))
             (u64_saturating_add (cp_calendar_version c) 1) c
      else c
  | None => c
  end.

Definition consume_scheduled_task (c : ControlPlane) (task : TaskRef) : ControlPlane :=
  match scheduled_task c task with
  | Some _ => set_calendar (delete task (cp_scheduled_tasks c))
                (u64_saturating_add (cp_calendar_version c) 1) c
  | None => c
  end.

Definition invalidate_scheduled_task (c : ControlPlane) (task : TaskRef) (reason : string)
  : ControlPlane :=
  match scheduled_task c task with
  | Some r =>
      if bool_decide (st_phase r = Activated) then c
      else set_calendar (<[task := with_phase Invalidated reason r]> (cp_scheduled_tasks c))
             (u64_saturating_add (cp_calendar_version c) 1) c
  | None => c
  end.

Definition cancel_scheduled_mission (c : ControlPlane) (mission : MissionId) : ControlPlane * nat :=
  let kept := filter (fun kv => tr_mission_id kv.1 <> mission) (cp_scheduled_tasks c) in
  let removed := (size (cp_scheduled_tasks c) - size kept)%nat in
  if (0 <? removed)%nat
  then (set_calendar kept (u64_saturating_add (cp_calendar_version c) 1) c, removed)
  else (set_calendar kept (cp_calendar_version c) c, removed).

(** The Task whose future interval holds a resource. *)
Definition scheduled_resource_conflict (c : ControlPlane) (resource : ResourceId) (committing : TaskRef)
  : option (TaskRef * RoleId) :=
  let live := List.filter (fun r => bool_decide (st_phase r = Scheduled)
                                    && negb (bool_decide (st_task_ref r = committing)))
                (btree_values (cp_scheduled_tasks c)) in
  head (omap (fun r =>
    selection ← List.find (fun s => existsb (fun id => bool_decide (id = resource)) (sel_resource_ids s))
                  (dc_selections (st_decision r));
    Some (st_task_ref r, sel_role_id selection)) live).

Definition future_task_committed (c : ControlPlane) (r : ScheduledTaskReservation) (g : ExecutionGroup)
    (t : TaskExecution) (task : TaskRef) (now : TimestampMs) : bool :=
  negb (bool_decide (st_phase r = Scheduled))
  || negb (bool_decide (eg_lifecycle g = GlBound) || bool_decide (eg_lifecycle g = GlActive)
           || bool_decide (eg_lifecycle g = GlAdapted))
  || (dc_starts_at (st_decision r) <=? now)%N
  || negb (bool_decide (te_lifecycle t = TlReady)) || negb (length (te_assignments t) =? 0)%nat
  || existsb (fun o => bool_decide (rsv_task_ref o = task)) (btree_values (cp_reservations c))
  || existsb (fun s => existsb (fun id => contains_key id (cp_reservations c)) (sel_resource_ids s))
       (dc_selections (st_decision r))
  || existsb (fun k => bool_decide (rc_task_ref k = task))
       (btree_values (cp_pending_recovery_commitments c)).

Definition preempt_future_task (c : ControlPlane) (task : TaskRef) (expected_version : N)
    (now : TimestampMs) : ControlStep ScheduledTaskReservation :=
  if negb (cp_calendar_version c =? expected_version)%N
  then refuse c (InvalidProposal "future preemption uses a stale calendar generation") else
  match scheduled_task c task with
  | None => refuse c (InvalidProposal "future preemption has no scheduled target")
  | Some r =>
      match cp_groups c !! st_group_id r with
      | None => refuse c (UnknownGroup (st_group_id r))
      | Some g =>
          match task_execution g task with
          | None => refuse c (InvalidProposal "future preemption lacks current Task authority")
          | Some t =>
              if future_task_committed c r g t task now
              then refuse c (InvalidProposal
                "preemption requires an unbound, uncommitted, strictly future Ready Task") else
              match u64_checked_add (cp_calendar_version c) 1 with
              | None => refuse c (AllocationInvariant "calendar generation exhausted")
              | Some next => Some (set_calendar (delete task (cp_scheduled_tasks c)) next c, Ok r)
              end
          end
      end
  end.
