(* ===== verification/Actors.v ===== *)
(** * Placement of Mission Actors

    [core/control/src/lib.rs] 1440-1905 and the topology of a new reservation of
    [resource_topology.rs]: placement constraints, binding semantics, the deployment registry
    and the Node an Actor may bind. *)

From S2P Require Import Prelude Identity Execution StateModel Resource RelationSpec DecisionPolicy.
From S2P Require Import Scheduler SchedulerPolicy Sorting Quota NodeIdentity Capacity.
From S2P Require Import Mission TaskExecution Group ControlPlane.

Open Scope string_scope.

Section Queries.
Context (c : ControlPlane).

Definition actor_binding (mission : MissionId) (actor : ActorId) : option ActorBinding :=
  cp_actor_bindings c !! (mission, actor).
Definition actor_node_constraint (mission : MissionId) (actor : ActorId) : option ActorNodeConstraint :=
  cp_actor_node_constraints c !! (mission, actor).
Definition actor_candidate_restriction (mission : MissionId) (actor : ActorId)
  : option ActorCandidateRestriction := cp_actor_candidate_restrictions c !! (mission, actor).
Definition mission_binding_semantics (mission : MissionId) : option MissionBindingSemantics :=
  cp_mission_binding_semantics c !! mission.
Definition physical_entity_node (entity : PhysicalEntityId) : option NodeId :=
  registry ← cp_physical_entity_registry c; pe_node_id <$> ps_entity registry entity.

Definition grounded_actor_node (mission : MissionId) (actor : ActorId) : option NodeId :=
  semantics ← mission_binding_semantics mission;
  entity ← grounding semantics actor;
  physical_entity_node entity.

Definition actor_authority_node (mission : MissionId) (actor : ActorId) : option NodeId :=
  match ab_node_id <$> actor_binding mission actor with
  | Some node => Some node
  | None =>
      match grounded_actor_node mission actor with
      | Some node => Some node
      | None => anc_node_id <$> actor_node_constraint mission actor
      end
  end.

(** The registration an Actor would bind on a Node. *)
Definition actor_registration (semantics : MissionBindingSemantics)
    (registry : PhysicalEntityRegistrySnapshot) (mission : MissionId) (actor : ActorId) (node : NodeId)
  : Result PhysicalEntityRegistration ControlError :=
  match grounding semantics actor with
  | Some entity =>
      match ps_entity registry entity with
      | Some registration =>
          if bool_decide (pe_node_id registration = node) then Ok registration
          else Err (InvalidProposal ("grounded actor " ++ as_str actor ++ " may only bind node "
                      ++ as_str (pe_node_id registration) ++ " but intent is " ++ as_str node))
      | None => Err (ActorGroundingUnresolved mission actor entity)
      end
  | None =>
      match entity_for_node registry node with
      | Some registration => Ok registration
      | None => Err (InvalidProposal ("node " ++ as_str node
                  ++ " has no routable physical entity in registry revision "
                  ++ pretty (ps_revision registry)))
      end
  end.

Definition validate_actor_binding_intent (mission : MissionId) (actor : ActorId) (node : NodeId)
  : Result (option (PhysicalEntityId * PhysicalEntityRegistryId * N)) ControlError :=
  if is_some_and (fun k => negb (bool_decide (anc_node_id k = node))) (actor_node_constraint mission actor)
  then Err (InvalidProposal "actor binding violates deployment placement constraint") else
  if is_some_and (fun k => negb (set_contains node (acr_allowed_nodes k)))
       (actor_candidate_restriction mission actor)
  then Err (InvalidProposal "actor binding violates deployment candidate restriction") else
  match mission_binding_semantics mission with
  | None => Ok None
  | Some semantics =>
      if negb (requires_physical_entities semantics) then Ok None else
      match cp_physical_entity_registry c with
      | None => Err (InvalidProposal
                  "physical entity registry is not installed for MissionPlan v0.8 binding")
      | Some registry =>
          let? registration := actor_registration semantics registry mission actor node in
          Ok (Some (pe_entity_id registration, ps_registry_id registry, ps_revision registry))
      end
  end.

(** ** Topology of a new reservation: [resource_topology.rs] *)

Definition booking_component (registry : ResourceTopologyRegistry) : string :=
  "resource-topology-booking/" ++ tp_registry_id registry ++ "/" ++ pretty (tp_revision registry).

(** [end.checked_sub(start).is_none_or(|age| age > limit)]. *)
Definition span_exceeds (start finish limit : N) : bool :=
  (finish <? start)%N || (limit <? finish - start)%N.

(** The policy of a decision whose estimate is a deployment booking. *)
Definition booking_policy (current : ResourceTopologyRegistry) (d : TaskSchedulingDecision)
  : Result ResourceTopologyRegistry ControlError :=
  match dc_duration_estimate d with
  | Some estimate =>
      match de_source estimate with
      | SourceRoboGuide component =>
          if negb (is_some (strip_prefix "resource-topology-booking/" component)) then Ok current else
          match List.find (fun registry => (component =? booking_component registry)%string)
                  (btree_values (cp_resource_topology_history c)) with
          | None => Err (InvalidProposal "booking lost original deployment source")
          | Some policy =>
              if negb (de_duration_ms estimate =? tp_booking_duration_ms policy)%N
                 || negb (de_valid_for_ms estimate =? tp_booking_max_age_ms policy)%N
                 || (dc_starts_at d <? de_received_at estimate)%N
                 || is_none_or (fun finish => span_exceeds (de_received_at estimate) finish
                                                (tp_booking_max_age_ms policy)) (dc_ends_at d)
              then Err (InvalidProposal "booking changed original declared budget or Mission age")
              else Ok policy
          end
      | _ => Ok current
      end
  | None => Ok current
  end.

Definition topology_booking_registry (d : TaskSchedulingDecision)
  : Result ResourceTopologyRegistry ControlError :=
  match cp_resource_topology_registry c with
  | None => Err (InvalidProposal "booking has no original topology policy")
  | Some current =>
      let? policy := booking_policy current d in
      if is_some_and (fun finish => span_exceeds (dc_starts_at d) finish
                                      (tp_booking_duration_ms policy)) (dc_ends_at d)
      then Err (InvalidProposal "booking exceeds original deployment duration") else Ok policy
  end.

Definition original_topology_reservation (resource : ResourceId) (task : TaskRef) (now : TimestampMs)
    (context_lifetime : bool) : option ResourceTopologyReservation :=
  current ← cp_resource_topology_registry c;
  let registry := match scheduled_task c task with
                  | Some record => match topology_booking_registry (st_decision record) with
                                   | Ok r => r | Err _ => current end
                  | None => current
                  end in
  entry ← topology_entry registry resource;
  let task_end := record ← scheduled_task c task; dc_ends_at (st_decision record) in
  let planned_end :=
    if context_lifetime
    then tw_ends_at <$> List.find (fun w => (tw_starts_at w <=? now)%N
                          && is_some_and (fun finish => (finish <=? tw_ends_at w)%N) task_end)
                          (te_windows entry)
    else task_end in
  Some (MkTopologyReservation (tp_revision registry) entry now planned_end).
End Queries.

(** ** Operations *)

Definition register_mission_binding_semantics (c : ControlPlane) (mission : MissionId)
    (semantics : MissionBindingSemantics) : Result ControlPlane ControlError :=
  match mission_binding_semantics c mission with
  | Some existing =>
      if bool_decide (existing = semantics) then Ok c
      else Err (InvalidProposal ("mission " ++ as_str mission
                  ++ " binding semantics conflict with the accepted plan"))
  | None => Ok (set_missions (cp_physical_entity_registry c) (cp_registry_provenance c)
                  (<[mission := semantics]> (cp_mission_binding_semantics c)) (cp_mission_tenants c) c)
  end.

Definition set_actor_node_constraint (c : ControlPlane) (mission : MissionId) (actor : ActorId)
    (node : NodeId) : ControlStep unit :=
  if is_some_and (fun b => negb (bool_decide (ab_node_id b = node))) (actor_binding c mission actor)
  then refuse c (InvalidProposal "actor placement conflicts with committed actor binding") else
  if is_some_and (fun k => negb (set_contains node (acr_allowed_nodes k)))
       (actor_candidate_restriction c mission actor)
  then refuse c (InvalidProposal "actor placement conflicts with deployment candidate restriction") else
  match actor_node_constraint c mission actor with
  | Some existing =>
      if negb (bool_decide (anc_node_id existing = node))
      then refuse c (InvalidProposal "mission actor already has a different placement constraint")
      else Some (c, Ok tt)
  | None => Some (set_actors (cp_actor_bindings c)
                    (<[(mission, actor) := MkNodeConstraint mission actor node]>
                       (cp_actor_node_constraints c)) (cp_actor_candidate_restrictions c) c, Ok tt)
  end.

Definition set_actor_candidate_restriction (c : ControlPlane) (mission : MissionId) (actor : ActorId)
    (allowed : gset NodeId) (digest : string) : ControlStep unit :=
  if (size allowed =? 0)%nat || negb (valid_evidence_digest digest)
  then refuse c (InvalidProposal
         "actor candidate restriction is empty or lacks a valid evidence digest") else
  if is_some_and (fun b => negb (set_contains (ab_node_id b) allowed)) (actor_binding c mission actor)
     || is_some_and (fun k => negb (set_contains (anc_node_id k) allowed))
          (actor_node_constraint c mission actor)
  then refuse c (InvalidProposal "actor candidate restriction conflicts with binding or placement") else
  let restriction := MkCandidateRestriction mission actor allowed digest in
  match actor_candidate_restriction c mission actor with
  | Some existing =>
      if negb (bool_decide (existing = restriction))
      then refuse c (InvalidProposal "mission actor already has a different candidate restriction")
      else Some (c, Ok tt)
  | None => Some (set_actors (cp_actor_bindings c) (cp_actor_node_constraints c)
                    (<[(mission, actor) := restriction]> (cp_actor_candidate_restrictions c)) c, Ok tt)
  end.

(** A physical binding the snapshot no longer routes. *)
Definition binding_unroutable (s : PhysicalEntityRegistrySnapshot) (b : ActorBinding)
  : Result unit ControlError :=
  match ab_physical_entity_id b with
  | None => Ok tt
  | Some entity =>
      let error := ActorBindingRequiresReconciliation (ab_mission_id b) (ab_actor_id b) (ab_node_id b) in
      match ps_entity s entity with
      | None => Err error
      | Some registration =>
          if negb (bool_decide (pe_node_id registration = ab_node_id b))
             || negb (bool_decide (ab_registry_id b = Some (ps_registry_id s)))
             || is_none_or (fun revision => (ps_revision s <? revision)%N) (ab_registry_revision b)
          then Err error else Ok tt
      end
  end.

Definition install_physical_entity_registry `{Serde} (c : ControlPlane)
    (s : PhysicalEntityRegistrySnapshot) : ControlStep unit :=
  let provenance := RegistryProvenance_from_snapshot s in
  match (let? _p := match cp_registry_provenance c with
                    | Some current => provenance_validate_successor current provenance
                    | None => Ok tt
                    end in
         try_for (binding_unroutable s) (btree_values (cp_actor_bindings c))) with
  | Err e => refuse c e
  | Ok _ => Some (set_missions (Some s) (Some provenance) (cp_mission_binding_semantics c)
                    (cp_mission_tenants c) c, Ok tt)
  end.
