(* ===== verification/GroupLifecycle.v ===== *)
(** * Lifecycles of Tasks and Groups

    [core/control/src/group/task_lifecycle.rs], [ready_task_execution] of
    [mission_binding.rs], [group_lifecycle.rs] but for the rebinding of Roles, and
    [validate_capacity_checkpoint] of [resource_allocations.rs]. *)

From S2P Require Import Prelude Identity Execution StateModel Resource RelationSpec DecisionPolicy.
From S2P Require Import Scheduler SchedulerPolicy Sorting Quota NodeIdentity Capacity.
From S2P Require Import Mission TaskExecution Group ControlPlane Actors.

Open Scope string_scope.

(** [groups.get(id).ok_or(UnknownGroup)] and [task_executions.get(task).ok_or(..)]. *)
Definition find_group (c : ControlPlane) (id : ExecutionGroupId) : Result ExecutionGroup ControlError :=
  match cp_groups c !! id with Some g => Ok g | None => Err (UnknownGroup id) end.
Definition find_execution (g : ExecutionGroup) (task : TaskRef) (reason : string)
  : Result TaskExecution ControlError :=
  match task_execution g task with Some t => Ok t | None => Err (InvalidProposal reason) end.

Definition one_of {A} `{EqDecision A} (l : list A) (x : A) : bool := existsb (fun y => bool_decide (x = y)) l.

(** ** Task transitions *)

(** Look up the Task, require one of [from], move it to [to] and log [e]. *)
Definition advance_task (c : ControlPlane) (group : ExecutionGroupId) (task : TaskRef)
    (from : list TaskExecutionLifecycle) (reason : string) (to : TaskExecutionLifecycle)
    (e : ControlEvent) : ControlStep unit :=
  match (let? g := find_group c group in
         let? t := find_execution g task "unknown Task execution" in Ok (g, t)) with
  | Err error => refuse c error
  | Ok (g, t) =>
      if negb (one_of from (te_lifecycle t)) then refuse c (InvalidProposal reason)
      else Some (log_event e (put_group group (put_execution task (with_lifecycle t to) g) c), Ok tt)
  end.

Definition ready_task_execution (c : ControlPlane) (group : ExecutionGroupId) (task : TaskRef)
  : ControlStep unit :=
  advance_task c group task [TlPending] "only a pending Task can become ready" TlReady
    (TaskExecutionReady group task).

Definition record_task_execution_completed (c : ControlPlane) (group : ExecutionGroupId) (task : TaskRef)
  : ControlStep unit :=
  advance_task c group task [TlActive] "Task execution is not active" TlAwaitingSatisfaction
    (TaskExecutionCompleted group task).

Definition satisfy_task_execution (c : ControlPlane) (group : ExecutionGroupId) (task : TaskRef)
    (basis : TaskSatisfactionBasis) : ControlStep unit :=
  advance_task c group task [TlAwaitingSatisfaction] "Task execution is not awaiting satisfaction"
    TlCompleted (TaskSatisfied group task basis).

Definition fail_task_execution (c : ControlPlane) (group : ExecutionGroupId) (task : TaskRef)
  : ControlStep unit :=
  advance_task c group task [TlActive; TlBlocked; TlAwaitingSatisfaction]
    "only an active, blocked, or awaiting-satisfaction Task can fail" TlFailed
    (TaskExecutionFailed group task).

Definition reject_task_satisfaction (c : ControlPlane) (group : ExecutionGroupId) (task : TaskRef)
    (basis : TaskSatisfactionBasis) : ControlStep unit :=
  advance_task c group task [TlAwaitingSatisfaction]
    "only a Task awaiting satisfaction can reject semantic satisfaction" TlSatisfactionRejected
    (TaskSatisfactionRejected group task basis).

(** Whether the calendar lets the Task start now; [true] when its interval starts with it. *)
Definition activation_window (c : ControlPlane) (task : TaskRef) (now : TimestampMs)
  : Result bool ControlError :=
  match scheduled_task c task with
  | None => Ok false
  | Some r =>
      if bool_decide (st_phase r = Invalidated)
      then Err (InvalidProposal "invalidated scheduling reservation cannot activate") else
      if (now <? dc_starts_at (st_decision r))%N
      then Err (InvalidProposal "scheduled Task cannot activate before its reserved start") else
      if is_some_and (fun finish => (finish <=? now)%N) (dc_ends_at (st_decision r))
      then Err (InvalidProposal "scheduled Task cannot activate after its reserved interval") else
      if is_some_and (fun latest => (latest <? now)%N) (dc_latest_activation_at (st_decision r))
      then Err (InvalidProposal "scheduled Task cannot activate after its allowed start window")
      else Ok (bool_decide (st_phase r = Scheduled))
  end.

Definition activation_check (c : ControlPlane) (group : ExecutionGroupId) (task : TaskRef)
    (now : TimestampMs) : Result (bool * ExecutionGroup * TaskExecution) ControlError :=
  let? schedule := activation_window c task now in
  let? g := find_group c group in
  let? t := find_execution g task "unknown Task execution" in
  if negb (bool_decide (dom (te_role_scopes t) = assigned_roles (te_assignments t)))
     || negb (length (te_assignments t) =? size (assigned_roles (te_assignments t)))%nat
  then Err (InvalidProposal
    "Task execution requires committed assignments for every role before activation") else
  if negb (bool_decide (te_lifecycle t = TlReady))
  then Err (InvalidProposal "Task execution is not ready to activate")
  else Ok (schedule, g, t).

Definition activate_task_execution (c : ControlPlane) (group : ExecutionGroupId) (task : TaskRef)
    (now : TimestampMs) : ControlStep unit :=
  match activation_check c group task now with
  | Err e => refuse c e
  | Ok (schedule, g, t) =>
      let g1 := put_execution task (with_lifecycle t TlActive) g in
      let g2 := if one_of [GlBound; GlAdapted] (eg_lifecycle g1) then set_lifecycle GlActive g1 else g1 in
      let c1 := log_event (TaskExecutionActivated group task) (put_group group g2 c) in
      if schedule
      then Some (log_event (SchedulingReservationActivated group task)
                   (activate_scheduled_task c1 task), Ok tt)
      else Some (c1, Ok tt)
  end.

(** ** Release of Task and Context bindings *)

(** [sort] then [dedup]. *)
Definition sorted_distinct (l : list ResourceId) : list ResourceId := dedup (sort_by cmp l).

Definition task_terminal (l : TaskExecutionLifecycle) : bool :=
  one_of [TlCompleted; TlFailed; TlSatisfactionRejected; TlCancelled] l.

Definition scoped (t : TaskExecution) (scope : ResourceBindingScope) (a : RoleAssignment) : bool :=
  bool_decide (role_scope t (as_role_id a) = scope).

Definition task_resources (t : TaskExecution) : list ResourceId :=
  sorted_distinct (flat_map as_resource_ids (List.filter (scoped t ScopeTask) (te_assignments t))).

Definition owned_by_task (task : TaskRef) (o : AllocationOwner) : bool :=
  match o with OwnerTask owner => bool_decide (owner = task) | OwnerContext _ _ _ => false end.

(** The ledger has an allocation of the resource for the Group with an admitted owner. *)
Definition capacity_owned (c : ControlPlane) (group : ExecutionGroupId)
    (owned : AllocationOwner -> bool) (resource : ResourceId) : bool :=
  existsb (fun record => bool_decide (rg_resource_id (al_original record) = resource)
                         && bool_decide (rg_group_id (al_original record) = group)
                         && owned (rg_owner (al_original record))) (records (cp_capacity_ledger c)).

Definition task_resource_check (c : ControlPlane) (group : ExecutionGroupId) (task : TaskRef)
    (resource : ResourceId) : Result unit ControlError :=
  if capacity_owned c group (owned_by_task task) resource then Ok tt else
  match cp_reservations c !! resource with
  | None => Err (InvalidProposal ("Task resource " ++ as_str resource ++ " has no reservation"))
  | Some r =>
      if negb (bool_decide (rsv_group_id r = Some group))
         || negb (bool_decide (rsv_task_ref r = task))
         || negb (bool_decide (rsv_scope r = ScopeTask))
      then Err (InvalidProposal ("Task does not own resource " ++ as_str resource)) else Ok tt
  end.

Definition task_release_check (c : ControlPlane) (group : ExecutionGroupId) (task : TaskRef)
    (resource_ids : list ResourceId) : Result (ExecutionGroup * TaskExecution) ControlError :=
  let? g := find_group c group in
  let? t := find_execution g task "unknown Task execution" in
  if negb (task_terminal (te_lifecycle t))
  then Err (InvalidProposal "Task bindings can only be released after terminal completion") else
  if negb (bool_decide (sorted_distinct resource_ids = task_resources t))
  then Err (InvalidProposal "released resources must exactly match Task-scoped bindings") else
  let? _r := try_for (task_resource_check c group task) (task_resources t) in
  Ok (g, t).

Definition release_task_bindings `{Serde} (c : ControlPlane) (group : ExecutionGroupId) (task : TaskRef)
    (resource_ids : list ResourceId) : ControlStep unit :=
  match task_release_check c group task resource_ids with
  | Err e => refuse c e
  | Ok (g, t) =>
      let remaining := List.filter (scoped t ScopeContext) (te_assignments t) in
      commit_membership group (put_execution task (with_assignments t remaining) g)
        (TaskExecutionBindingsReleased group task (task_resources t)) tt
        (map_capacity (release_capacity_task group task None)
           (release_reservations (task_resources t) c))
  end.

Definition in_context (context : CoordinationContextId) (b : ContextBinding) : bool :=
  bool_decide (cb_context_id b = context).

Definition context_resources (g : ExecutionGroup) (context : CoordinationContextId) : list ResourceId :=
  sorted_distinct (flat_map (fun b => as_resource_ids (cb_assignment b))
    (List.filter (in_context context) (btree_values (eg_context_bindings g)))).

Definition context_resource_check (c : ControlPlane) (group : ExecutionGroupId)
    (context : CoordinationContextId) (resource : ResourceId) : Result unit ControlError :=
  if capacity_owned c group (of_context context) resource then Ok tt else
  match cp_reservations c !! resource with
  | None => Err (InvalidProposal ("Context resource " ++ as_str resource ++ " has no reservation"))
  | Some r =>
      if negb (bool_decide (rsv_group_id r = Some group)) || negb (bool_decide (rsv_scope r = ScopeContext))
      then Err (InvalidProposal ("Context does not own resource " ++ as_str resource)) else Ok tt
  end.

(** The bindings of a Task after its Context lost the resources. *)
Definition without_context (resources : list ResourceId) (t : TaskExecution) : TaskExecution :=
  with_assignments t ((fun a =>
    MkAssignment (as_role_id a) (as_node_id a)
      (List.filter (fun id => negb (scoped t ScopeContext a)
                              || negb (existsb (fun r => bool_decide (r = id)) resources))
         (as_resource_ids a))) <$> te_assignments t).

Definition release_context_bindings `{Serde} (c : ControlPlane) (group : ExecutionGroupId)
    (context : CoordinationContextId) : ControlStep (list ResourceId) :=
  match find_group c group with
  | Err e => refuse c e
  | Ok g =>
      let resources := context_resources g context in
      match try_for (context_resource_check c group context) resources with
      | Err e => refuse c e
      | Ok _ =>
          let executions := (fun t => if bool_decide (te_context_id t = context)
                                      then without_context resources t else t)
                              <$> eg_task_executions g in
          let bindings := filter (fun kv => cb_context_id kv.2 <> context) (eg_context_bindings g) in
          commit_membership group (set_task_executions executions (set_context_bindings bindings g))
            (ContextBindingsReleased group context resources) resources
            (map_capacity (release_capacity_context group context) (release_reservations resources c))
      end
  end.

(** ** Group transitions *)

Definition advance_group (c : ControlPlane) (group : ExecutionGroupId) (from : list GroupLifecycle)
    (check : ExecutionGroup -> Result unit ControlError) (to : GroupLifecycle)
    (e : TaskRef -> ControlEvent) : ControlStep unit :=
  match find_group c group with
  | Err error => refuse c error
  | Ok g =>
      if negb (one_of from (eg_lifecycle g)) then refuse c (InvalidLifecycle (eg_lifecycle g)) else
      match check g with
      | Err error => refuse c error
      | Ok _ => Some (log_event (e (eg_task_ref g)) (put_group group (set_lifecycle to g) c), Ok tt)
      end
  end.

Definition has_unbound_roles (g : ExecutionGroup) : bool :=
  negb (size (eg_unbound_roles g) =? 0)%nat || negb (size (eg_task_unbound_roles g) =? 0)%nat.

Definition activation_ready (g : ExecutionGroup) : Result unit ControlError :=
  if has_unbound_roles g then Err (InvalidProposal "execution group still has unbound roles") else
  if negb (size (eg_task_executions g) =? 0)%nat
     && negb (existsb (fun t => one_of [TlActive; TlAwaitingSatisfaction; TlCompleted] (te_lifecycle t))
                (btree_values (eg_task_executions g)))
  then Err (InvalidProposal "Mission Group requires an explicitly activated TaskExecution") else Ok tt.

Definition activate_group (c : ControlPlane) (group : ExecutionGroupId) : ControlStep unit :=
  advance_group c group [GlBound; GlAdapted] activation_ready GlActive (ExecutionGroupActivated group).

Definition task_ref_text (t : TaskRef) : string := as_str (tr_mission_id t) ++ "/" ++ as_str (tr_task_id t).

Definition completion_ready (g : ExecutionGroup) : Result unit ControlError :=
  if has_unbound_roles g then Err (InvalidProposal "execution group still has unbound roles") else
  match List.find (fun t => negb (bool_decide (te_lifecycle t = TlCompleted)))
          (btree_values (eg_task_executions g)) with
  | Some t => Err (InvalidProposal ("TaskExecution " ++ task_ref_text (te_task_ref t)
                                      ++ " is not completed"))
  | None => Ok tt
  end.

Definition complete_group (c : ControlPlane) (group : ExecutionGroupId) : ControlStep unit :=
  advance_group c group [GlActive; GlAdapted] completion_ready GlCompleted
    (ExecutionGroupCompleted group).

Definition block_group (c : ControlPlane) (group : ExecutionGroupId) (reason : string)
  : ControlStep unit :=
  advance_group c group [GlBound; GlActive; GlAdapted] (fun _ => Ok tt) GlBlocked
    (fun task => ExecutionGroupBlocked group task reason).

Definition fail_group (c : ControlPlane) (group : ExecutionGroupId) (reason : string)
  : ControlStep unit :=
  advance_group c group [GlBlocked] (fun _ => Ok tt) GlFailed
    (fun task => ExecutionGroupFailed group task reason).

(** ** Release of one Role for recovery *)

(** [position(|a| a.role_id() == role)] with the element. *)
Fixpoint find_assignment (index : nat) (role : RoleId) (l : list RoleAssignment)
  : option (nat * RoleAssignment) :=
  match l with
  | [] => None
  | a :: l' => if bool_decide (as_role_id a = role) then Some (index, a)
               else find_assignment (S index) role l'
  end.

(** [Vec::remove(index)]. *)
Definition remove_at {A} (index : nat) (l : list A) : list A := take index l ++ drop (S index) l.

Definition role_owner_changed (group : ExecutionGroupId) (task : TaskRef) (role : RoleId)
    (r : Reservation) : bool :=
  negb (bool_decide (rsv_task_ref r = task)) || negb (bool_decide (rsv_role_id r = role))
  || negb (bool_decide (rsv_group_id r = Some group)).

Definition legacy_role_check (c : ControlPlane) (group : ExecutionGroupId) (task : TaskRef)
    (role : RoleId) (resource : ResourceId) : Result unit ControlError :=
  match binding_reservation c resource group task role with
  | None => Err (InvalidProposal ("group " ++ as_str group ++ " binding " ++ as_str resource
                                    ++ " has no reservation"))
  | Some r =>
      if role_owner_changed group task role r
      then Err (InvalidProposal ("group " ++ as_str group ++ " does not own role reservation "
                                   ++ as_str resource)) else Ok tt
  end.

(** Only a Blocked Group releases a Role. *)
Definition blocked_group (c : ControlPlane) (group : ExecutionGroupId)
  : Result ExecutionGroup ControlError :=
  let? g := find_group c group in
  if bool_decide (eg_lifecycle g = GlBlocked) then Ok g else Err (InvalidLifecycle (eg_lifecycle g)).

Definition release_role_binding `{Serde} (c : ControlPlane) (group : ExecutionGroupId) (role : RoleId)
  : ControlStep unit :=
  match blocked_group c group with
  | Err e => refuse c e
  | Ok g =>
      match find_assignment 0 role (eg_assignments g) with
      | None => refuse c (InvalidProposal ("group has no active binding for role " ++ as_str role))
      | Some (index, a) =>
          match try_for (legacy_role_check c group (eg_task_ref g) role) (as_resource_ids a) with
          | Err e => refuse c e
          | Ok _ =>
              commit_membership group
                (set_group_roles (remove_at index (eg_assignments g))
                   (<[role := MkUnbound (as_node_id a) index]> (eg_unbound_roles g))
                   (eg_task_unbound_roles g) g)
                (ExecutionGroupRoleBindingReleased group (eg_task_ref g) role (as_node_id a)
                   (as_resource_ids a)) tt
                (release_reservations (as_resource_ids a) c)
          end
      end
  end.

Definition task_role_check (c : ControlPlane) (group : ExecutionGroupId) (task : TaskRef)
    (role : RoleId) (resource : ResourceId) : Result unit ControlError :=
  match cp_reservations c !! resource with
  | None => Err (InvalidProposal ("Task binding " ++ as_str resource ++ " has no reservation"))
  | Some r =>
      if role_owner_changed group task role r
      then Err (InvalidProposal ("Task " ++ task_ref_text task ++ " does not own role reservation "
                                   ++ as_str resource)) else
      if bool_decide (rsv_scope r = ScopeContext)
      then Err (InvalidProposal
        "Context-scoped role bindings must end with their Context before recovery release")
      else Ok tt
  end.

Definition task_role_release_check (c : ControlPlane) (group : ExecutionGroupId) (task : TaskRef)
    (role : RoleId) : Result (ExecutionGroup * TaskExecution * nat * RoleAssignment) ControlError :=
  let? g := blocked_group c group in
  let? t := find_execution g task "Task execution is not registered" in
  match find_assignment 0 role (te_assignments t) with
  | None => Err (InvalidProposal ("Task has no role " ++ as_str role))
  | Some (index, a) =>
      let? _r := try_for (task_role_check c group task role) (as_resource_ids a) in
      Ok (g, t, index, a)
  end.

(** The reservations with Task scope among the resources of a Role. *)
Definition task_scoped_resources (c : ControlPlane) (l : list ResourceId) : list ResourceId :=
  List.filter (fun id => is_some_and (fun r => bool_decide (rsv_scope r = ScopeTask))
                           (cp_reservations c !! id)) l.

Definition release_task_role_binding `{Serde} (c : ControlPlane) (group : ExecutionGroupId)
    (task : TaskRef) (role : RoleId) : ControlStep unit :=
  match task_role_release_check c group task role with
  | Err e => refuse c e
  | Ok (g, t, index, a) =>
      commit_membership group
        (set_group_roles (eg_assignments g) (eg_unbound_roles g)
           (<[(task, role) := MkUnbound (as_node_id a) index]> (eg_task_unbound_roles g))
           (put_execution task (with_assignments t (remove_at index (te_assignments t))) g))
        (ExecutionGroupRoleBindingReleased group task role (as_node_id a) (as_resource_ids a)) tt
        (map_capacity (release_capacity_task group task (Some role))
           (release_reservations (task_scoped_resources c (as_resource_ids a)) c))
  end.
