(* ===== verification/GroupBinding.v ===== *)
(** * Mission Groups, Commit and Bind

    [core/control/src/group/mission_binding.rs]: the Group of an accepted plan and the
    binding of a committed Task; [coordination.rs]: the Commit of a proposal to a Group with
    its checks of physical bindings.  [capacity] is the batch of [capacity_commit_candidate],
    computed from current Node state before the Commit.  The transient search hints
    [initial_candidate_preferences] are left out. *)

From S2P Require Import Prelude Identity Execution StateModel Session Resource RelationSpec DecisionPolicy.
From S2P Require Import Scheduler SchedulerPolicy Sorting Quota NodeIdentity Capacity.
From S2P Require Import Mission TaskExecution Group ControlPlane Actors GroupLifecycle.

Open Scope string_scope.

(** ** Creation *)

#[export] Instance ContextRole_eq_dec : EqDecision ContextRole.
Proof. solve_decision. Defined.

(** The declared nonempty envelopes of a plan. *)
Definition plan_envelopes (p : MissionPlan) : list (CoordinationContextId * ContextRole) :=
  flat_map (fun context => (fun role => (cc_context_id context, role)) <$>
    List.filter (fun role => negb (length (cr_resource_envelope role) =? 0)%nat) (cc_roles context))
    (mp_contexts p).

Definition planned_role_scopes (task : PlannedTask) : gmap RoleId ResourceBindingScope :=
  foldl (fun m r => <[rq_role_id r := resource_scope (pt_continuity task) (rq_role_id r)]> m) ∅
    (pt_roles task).

(** The pending execution of one Task; [None] when its Context is absent. *)
Definition planned_execution (p : MissionPlan) (task : PlannedTask) : option TaskExecution :=
  context ← find_context (mp_contexts p) (tc_context_id (pt_continuity task));
  Some (TaskExecution_new_with_coupling_mode (pt_task_ref task) (tc_context_id (pt_continuity task))
          (tc_context_roles (pt_continuity task)) (planned_role_scopes task)
          (task_coupling_mode task context)).

Definition add_planned_task (p : MissionPlan) (acc : option ExecutionGroup) (task : PlannedTask)
  : option ExecutionGroup :=
  g ← acc;
  t ← planned_execution p task;
  Some (MkGroup (eg_superseded_by g) (eg_membership_version g) (eg_group_id g) (eg_mission_id g)
          (eg_task_ref g) (eg_assignments g) (eg_unbound_roles g) (eg_task_unbound_roles g)
          (eg_lifecycle g) (<[pt_task_ref task := t]> (eg_task_executions g))
          (foldl (fun m r => <[(pt_task_ref task, rq_role_id r) := r]> m) (eg_role_requirements g)
             (pt_roles task))
          (eg_context_bindings g) (eg_context_resource_envelopes g)).

Definition set_envelopes (l : list (CoordinationContextId * ContextRole)) (g : ExecutionGroup)
  : ExecutionGroup :=
  MkGroup (eg_superseded_by g) (eg_membership_version g) (eg_group_id g) (eg_mission_id g)
    (eg_task_ref g) (eg_assignments g) (eg_unbound_roles g) (eg_task_unbound_roles g)
    (eg_lifecycle g) (eg_task_executions g) (eg_role_requirements g) (eg_context_bindings g) l.

(** The Group of a plan before it is stored. *)
Definition mission_group `{Serde} (group : ExecutionGroupId) (p : MissionPlan) : option ExecutionGroup :=
  first ← head (tg_tasks (mp_task_graph p));
  g ← ExecutionGroup_new_mission group (mp_mission_id p) (pt_task_ref first);
  foldl (add_planned_task p) (Some (set_envelopes (plan_envelopes p) g)) (tg_tasks (mp_task_graph p)).

Definition create_mission_group `{Serde} (c : ControlPlane) (group : ExecutionGroupId) (p : MissionPlan)
  : ControlStep ExecutionGroup :=
  if contains_key group (cp_groups c)
  then refuse c (InvalidProposal "execution group identity already exists") else
  semantics ← binding_semantics p;
  match register_mission_binding_semantics c (mp_mission_id p) semantics with
  | Err e => refuse c e
  | Ok c1 =>
      g ← mission_group group p;
      let c2 := put_group group g (log_event (ExecutionGroupCreated group (mp_mission_id p)) c1) in
      Some (foldl (fun c t => log_event
              (TaskExecutionRegistered group (te_task_ref t) (te_context_id t)) c) c2
              (btree_values (eg_task_executions g)), Ok g)
  end.

(** ** A restored Group is the projection of its plan *)

(** [None] is the [expect] on a missing Task or Context. *)
Definition planned_task_check (g : ExecutionGroup) (p : MissionPlan) (task : PlannedTask)
  : option (Result unit ControlError) :=
  match validate_group_task_requirement g (pt_requirement task) with
  | Err e => Some (Err e)
  | Ok _ =>
      t ← task_execution g (pt_task_ref task);
      planned ← planned_execution p task;
      if negb (bool_decide (te_context_id t = te_context_id planned))
         || negb (bool_decide (te_role_scopes t = te_role_scopes planned))
         || negb (bool_decide (te_context_roles t = te_context_roles planned))
         || negb (bool_decide (te_coupling_mode t = te_coupling_mode planned))
      then Some (Err (InvalidProposal "MissionPlan continuity differs from the restored TaskExecution"))
      else Some (Ok tt)
  end.

Fixpoint planned_tasks_check (g : ExecutionGroup) (p : MissionPlan) (l : list PlannedTask)
  : option (Result unit ControlError) :=
  match l with
  | [] => Some (Ok tt)
  | task :: l' =>
      r ← planned_task_check g p task;
      match r with Err e => Some (Err e) | Ok _ => planned_tasks_check g p l' end
  end.

Definition context_binding_check (g : ExecutionGroup) (p : MissionPlan) (entry : string * ContextBinding)
  : Result unit ControlError :=
  let '(key, b) := entry in
  match find_context (mp_contexts p) (cb_context_id b) with
  | None => Err (InvalidProposal "restored Context binding is absent from the MissionPlan")
  | Some context =>
      match context_role context (cb_context_role_id b) with
      | None => Err (InvalidProposal "restored ContextRole binding is absent from the MissionPlan")
      | Some declared =>
          match task_execution g (cb_origin_task_ref b) with
          | None => Err (InvalidProposal "restored Context binding origin Task is absent")
          | Some origin =>
              let role := as_role_id (cb_assignment b) in
              match role_requirement g (cb_origin_task_ref b) role with
              | None => Err (InvalidProposal "restored Context binding origin role is absent")
              | Some required =>
                  if negb (key =? context_binding_key (cb_context_id b) (cb_context_role_id b))%string
                     || negb (bool_decide (te_context_id origin = cb_context_id b))
                     || negb (bool_decide (te_context_role origin role = Some (cb_context_role_id b)))
                     || negb (bool_decide (role_scope origin role = ScopeContext))
                     || negb (bool_decide (rq_actor_id required = Some (cr_actor_id declared)))
                  then Err (InvalidProposal
                              "restored Context binding differs from MissionPlan continuity")
                  else Ok tt
              end
          end
      end
  end.

Definition validate_mission_group_plan (c : ControlPlane) (group : ExecutionGroupId) (p : MissionPlan)
  : option (Result unit ControlError) :=
  match find_group c group with
  | Err e => Some (Err e)
  | Ok g =>
      if negb (bool_decide (eg_mission_id g = mp_mission_id p)) || (size (eg_task_executions g) =? 0)%nat
      then Some (Err (InvalidProposal "MissionPlan does not identify this Mission-level Group")) else
      if negb (bool_decide (list_to_set (pt_task_ref <$> tg_tasks (mp_task_graph p))
                              = dom (eg_task_executions g)))
      then Some (Err (InvalidProposal
                        "MissionPlan Task DAG differs from the restored Execution Group")) else
      if negb (bool_decide (eg_context_resource_envelopes g = plan_envelopes p))
      then Some (Err (InvalidProposal
        "restored Context capacity declarations differ from accepted MissionPlan")) else
      tasks ← planned_tasks_check g p (tg_tasks (mp_task_graph p));
      Some (let? _t := tasks in
            try_for (context_binding_check g p) (btree_iter (eg_context_bindings g)))
  end.

(** ** Commit *)

Record AssignmentProposal := MkProposal {
  ap_task_ref : TaskRef;
  ap_assignments : list RoleAssignment;
  ap_role_operations : gmap RoleId OperationRef;
  ap_role_requirements : gmap RoleId RoleRequirement;
  ap_role_physical_entities : gmap RoleId PhysicalEntityId
}.

Record CommittedPlan := MkCommittedPlan {
  pl_task_ref : TaskRef;
  pl_assignments : list RoleAssignment;
  pl_role_physical_entities : gmap RoleId PhysicalEntityId;
  pl_role_operations : gmap RoleId OperationRef;
  pl_decision_policy_digest : option string
}.

Definition ap_requirement (p : AssignmentProposal) (role : RoleId) : option RoleRequirement :=
  ap_role_requirements p !! role.
Definition requires_operation_validation (p : AssignmentProposal) : bool :=
  negb (size (ap_role_operations p) =? 0)%nat.

Definition demands_shared (r : RoleRequirement) : bool :=
  existsb (fun d => bool_decide (rr_allocation_mode d = Divisible)) (resource_requirements r).

(** [proposal_quota_demands]. *)
Fixpoint quota_demands_loop (p : AssignmentProposal) (l : list RoleAssignment)
  : Result (list QuotaDemand) ControlError :=
  match l with
  | [] => Ok []
  | a :: l' =>
      if (length (as_resource_ids a) =? 0)%nat then quota_demands_loop p l' else
      match ap_requirement p (as_role_id a) with
      | None => Err (InvalidProposal "resource quota requires the original Role requirement")
      | Some r =>
          if negb (length (as_resource_ids a) =? length (resource_requirements r))%nat
          then Err (InvalidProposal
                 "resource quota demand differs from exact Role resource requirements") else
          let? rest := quota_demands_loop p l' in
          Ok (((fun d : ResourceId * ResourceRequirement => (d.1, rr_kind d.2, rr_units d.2)) <$>
                 List.filter (fun d => bool_decide (rr_allocation_mode d.2 = Exclusive))
                   (combine (as_resource_ids a) (resource_requirements r))) ++ rest)%list
      end
  end.
Definition proposal_quota_demands (p : AssignmentProposal) : Result (list QuotaDemand) ControlError :=
  quota_demands_loop p (ap_assignments p).

(** A scheduled Task commits its live decision inside its window. *)
Definition schedule_mismatch (group : ExecutionGroupId) (p : AssignmentProposal) (now : TimestampMs)
    (r : ScheduledTaskReservation) : bool :=
  negb (bool_decide (st_group_id r = group)) || negb (bool_decide (st_phase r = Scheduled))
  || (now <? dc_starts_at (st_decision r))%N
  || is_some_and (fun finish => (finish <=? now)%N) (dc_ends_at (st_decision r))
  || is_some_and (fun latest => (latest <? now)%N) (dc_latest_activation_at (st_decision r))
  || negb (bool_decide (proposed_assignments (st_decision r) = ap_assignments p)).

(** Physical entities selected per Actor, then the peers of each Actor. *)
Fixpoint select_entities (c : ControlPlane) (g : ExecutionGroup) (p : AssignmentProposal)
    (selected : gmap ActorId PhysicalEntityId) (l : list RoleAssignment)
  : Result (gmap ActorId PhysicalEntityId) ControlError :=
  match l with
  | [] => Ok selected
  | a :: l' =>
      let mission := tr_mission_id (ap_task_ref p) in
      match role_requirement g (ap_task_ref p) (as_role_id a) with
      | None => Err (InvalidProposal ("Group omits role metadata for " ++ as_str (as_role_id a)))
      | Some r =>
          match rq_actor_id r with
          | None => select_entities c g p selected l'
          | Some actor =>
              match ap_role_physical_entities p !! as_role_id a with
              | None => Err (InvalidProposal ("proposal omits physical entity for role "
                                                ++ as_str (as_role_id a)))
              | Some entity =>
                  let? resolved := validate_actor_binding_intent c mission actor (as_node_id a) in
                  if negb (bool_decide ((fun x => x.1.1) <$> resolved = Some entity))
                  then Err (InvalidProposal ("proposal physical entity changed for role "
                                               ++ as_str (as_role_id a))) else
                  if is_some_and (fun b => negb (bool_decide (ab_physical_entity_id b = Some entity)))
                       (actor_binding c mission actor)
                  then Err (InvalidProposal "committed Actor cannot silently change physical entity") else
                  if is_some_and (fun previous => negb (bool_decide (previous = entity)))
                       (selected !! actor)
                  then Err (InvalidProposal ("actor " ++ as_str actor
                              ++ " selects multiple physical entities in one Task")) else
                  select_entities c g p (<[actor := entity]> selected) l'
              end
          end
      end
  end.

(** The entity of a peer, from this selection or its binding. *)
Definition peer_entity (c : ControlPlane) (mission : MissionId)
    (selected : gmap ActorId PhysicalEntityId) (peer : ActorId) : option PhysicalEntityId :=
  match selected !! peer with
  | Some entity => Some entity
  | None => b ← actor_binding c mission peer; ab_physical_entity_id b
  end.

Definition distinct_check (c : ControlPlane) (semantics : MissionBindingSemantics) (mission : MissionId)
    (context : CoordinationContextId) (selected : gmap ActorId PhysicalEntityId)
    (entry : ActorId * PhysicalEntityId) : Result unit ControlError :=
  try_for (fun peer =>
    if bool_decide (peer_entity c mission selected peer = Some entry.2)
    then Err (DistinctBindingUnsatisfiable mission entry.1 peer entry.2) else Ok tt)
    (bset_iter (distinct_peers semantics context entry.1)).

Definition validate_proposal_physical_bindings (c : ControlPlane) (g : ExecutionGroup)
    (t : TaskExecution) (p : AssignmentProposal) : Result unit ControlError :=
  let mission := tr_mission_id (ap_task_ref p) in
  match mission_binding_semantics c mission with
  | None => Ok tt
  | Some semantics =>
      if negb (requires_physical_entities semantics) then Ok tt else
      let? selected := select_entities c g p ∅ (ap_assignments p) in
      try_for (distinct_check c semantics mission (te_context_id t) selected) (btree_iter selected)
  end.

(** The owner of each assignment by the scope of its Role. *)
Definition assignment_owner (t : TaskExecution) (task : TaskRef) (a : RoleAssignment)
  : option (Result (RoleAssignment * ResourceBindingScope * AllocationOwner) ControlError) :=
  scope ← te_role_scopes t !! as_role_id a;
  match scope with
  | ScopeTask => Some (Ok (a, scope, OwnerTask task))
  | ScopeContext =>
      match te_context_role t (as_role_id a) with
      | Some id => Some (Ok (a, scope, OwnerContext (tr_mission_id task) (te_context_id t) id))
      | None => Some (Err (InvalidProposal "Context-scoped role has no ContextRole"))
      end
  end.

Fixpoint assignment_owners (t : TaskExecution) (task : TaskRef) (l : list RoleAssignment)
  : option (Result (list (RoleAssignment * ResourceBindingScope * AllocationOwner)) ControlError) :=
  match l with
  | [] => Some (Ok [])
  | a :: l' =>
      owner ← assignment_owner t task a;
      match owner with
      | Err e => Some (Err e)
      | Ok o =>
          rest ← assignment_owners t task l';
          Some (let? r := rest in Ok (o :: r))
      end
  end.

(** The exclusive resources of an assignment; [None] is an index past the requirements. *)
Definition exclusive_resources (p : AssignmentProposal) (a : RoleAssignment) : option (list ResourceId) :=
  match ap_requirement p (as_role_id a) with
  | None => Some (as_resource_ids a)
  | Some r =>
      if (length (as_resource_ids a) <=? length (resource_requirements r))%nat
      then Some (fst <$> List.filter
             (fun d => negb (bool_decide (rr_allocation_mode d.2 = Divisible)))
             (combine (as_resource_ids a) (resource_requirements r)))
      else None
  end.

(** The exclusive demands of a Commit: resource, Role, scope and owner. *)
Abbreviation CommitEntry := (ResourceId * RoleId * ResourceBindingScope * AllocationOwner)%type.

Fixpoint commit_entries (p : AssignmentProposal)
    (l : list (RoleAssignment * ResourceBindingScope * AllocationOwner)) : option (list CommitEntry) :=
  match l with
  | [] => Some []
  | (a, scope, owner) :: l' =>
      ids ← exclusive_resources p a;
      rest ← commit_entries p l';
      Some (((fun id => (id, as_role_id a, scope, owner)) <$> ids) ++ rest)%list
  end.

Definition commit_conflict (c : ControlPlane) (group : ExecutionGroupId) (task : TaskRef)
    (e : CommitEntry) : Result unit ControlError :=
  let '(resource, _, _, owner) := e in
  let held := match cp_reservations c !! resource with
              | Some r => Some r
              | None => capacity_conflict (cp_capacity_ledger c) resource
              end in
  match held with
  | Some r =>
      if negb (bool_decide (rsv_owner r = owner)) || negb (bool_decide (rsv_group_id r = Some group))
      then Err (ResourceConflict resource (rsv_task_ref r) (rsv_role_id r))
      else match scheduled_resource_conflict c resource task with
           | Some (t, role) => Err (ResourceConflict resource t role)
           | None => Ok tt
           end
  | None => match scheduled_resource_conflict c resource task with
            | Some (t, role) => Err (ResourceConflict resource t role)
            | None => Ok tt
            end
  end.

Definition commit_requirement_check (g : ExecutionGroup) (p : AssignmentProposal) (a : RoleAssignment)
  : Result unit ControlError :=
  if is_some_and (fun required =>
       negb (is_some_and (RoleRequirement_eqb required) (ap_requirement p (as_role_id a))))
       (role_requirement g (ap_task_ref p) (as_role_id a))
  then Err (InvalidProposal "Commit requirements differ from the original Group Role") else Ok tt.

Definition commit_check (c : ControlPlane) (group : ExecutionGroupId) (p : AssignmentProposal)
    (capacity : option (CapacityLedger * QuotaLedger)) (now : TimestampMs)
  : Result TaskExecution ControlError :=
  if is_none capacity
     && existsb (fun a => is_some_and demands_shared (ap_requirement p (as_role_id a))) (ap_assignments p)
  then Err (InvalidProposal
    "quantitative Group Commit requires current State and its complete original capacity batch") else
  let? g := find_group c group in
  let? t := find_execution g (ap_task_ref p) "Task is absent from the Mission Group" in
  if negb (bool_decide (te_lifecycle t = TlReady))
  then Err (InvalidProposal "only a ready Task can commit resources") else
  let? _a := validate_task_assignments t (ap_assignments p) in
  let? _r := try_for (commit_requirement_check g p) (ap_assignments p) in
  let? _p := validate_proposal_physical_bindings c g t p in
  if is_some_and (schedule_mismatch group p now) (scheduled_task c (ap_task_ref p))
  then Err (InvalidProposal
    "scheduled Task commit does not match its live Group decision and activation window")
  else Ok t.

(** [entry(..).or_insert_with(..)] for each exclusive resource. *)
Definition reserve_entry (c0 : ControlPlane) (task : TaskRef) (now : TimestampMs)
    (m : gmap ResourceId Reservation) (e : CommitEntry) : gmap ResourceId Reservation :=
  let '(resource, role, scope, owner) := e in
  if contains_key resource m then m
  else <[resource := MkReservation
           (original_topology_reservation c0 resource task now (bool_decide (scope = ScopeContext)))
           task role None scope owner]> m.

Definition committed_plan (c : ControlPlane) (p : AssignmentProposal) : CommittedPlan :=
  MkCommittedPlan (ap_task_ref p) (ap_assignments p) (ap_role_physical_entities p)
    (ap_role_operations p) (cp_decision_policy_digest c).

(** The ledgers of the batch, or the quota of the exclusive demands. *)
Definition commit_ledgers (c : ControlPlane) (p : AssignmentProposal)
    (capacity : option (CapacityLedger * QuotaLedger)) : Result ControlPlane ControlError :=
  match capacity with
  | Some (ledger, quota) =>
      match u64_checked_add (cp_calendar_version c) 1 with
      | None => Err (InvalidProposal "calendar generation exhausted")
      | Some version => Ok (set_bookings (cp_reservations c) (MkCapacityAuthority version ledger quota)
                              (cp_quota_unaccounted_resources c) c)
      end
  | None =>
      let? demands := proposal_quota_demands p in
      commit_resource_quotas c (tr_mission_id (ap_task_ref p)) demands
  end.

Definition commit_for_group_validated (c : ControlPlane) (group : ExecutionGroupId)
    (p : AssignmentProposal) (capacity : option (CapacityLedger * QuotaLedger)) (now : TimestampMs)
  : ControlStep CommittedPlan :=
  match commit_check c group p capacity now with
  | Err e => refuse c e
  | Ok t =>
      owners ← assignment_owners t (ap_task_ref p) (ap_assignments p);
      match owners with
      | Err e => refuse c e
      | Ok l =>
          entries ← commit_entries p l;
          match (let? _c := try_for (commit_conflict c group (ap_task_ref p)) entries in
                 commit_ledgers c p capacity) with
          | Err e => refuse c e
          | Ok c1 =>
              let m := foldl (reserve_entry c1 (ap_task_ref p) now) (cp_reservations c1) entries in
              Some (log_event (PlanCommitted (ap_task_ref p))
                      (set_bookings m (cp_capacity c1) (cp_quota_unaccounted_resources c1) c1),
                    Ok (committed_plan c1 p))
          end
      end
  end.

(** ** Bind *)

(** The binding of an Actor on its assigned Node. *)
Definition intended_binding (c : ControlPlane) (plan : CommittedPlan) (r : RoleRequirement)
    (actor : ActorId) (a : RoleAssignment) : Result ActorBinding ControlError :=
  let mission := tr_mission_id (pl_task_ref plan) in
  let role := as_str (rq_role_id r) in
  let? physical := validate_actor_binding_intent c mission actor (as_node_id a) in
  match physical, pl_role_physical_entities plan !! rq_role_id r with
  | Some (entity, registry, revision), Some committed =>
      if bool_decide (entity = committed)
      then Ok (ActorBinding_new_physical mission actor (as_node_id a) entity registry revision)
      else Err (InvalidProposal "committed physical entity no longer matches current deployment routing")
  | Some _, None => Err (InvalidProposal ("committed plan omits physical entity for role " ++ role))
  | None, Some _ => Err (InvalidProposal
      ("legacy Actor binding unexpectedly carries a physical entity for role " ++ role))
  | None, None => Ok (ActorBinding_new mission actor (as_node_id a))
  end.

Definition binding_moved (b existing : ActorBinding) : bool :=
  negb (bool_decide (ab_node_id existing = ab_node_id b))
  || negb (bool_decide (ab_physical_entity_id existing = ab_physical_entity_id b))
  || negb (bool_decide (ab_registry_id existing = ab_registry_id b)).

Fixpoint actor_bindings_loop (c : ControlPlane) (plan : CommittedPlan)
    (bindings : gmap ActorId ActorBinding) (entities : gmap ActorId PhysicalEntityId)
    (roles : list RoleRequirement)
  : Result (gmap ActorId ActorBinding * gmap ActorId PhysicalEntityId) ControlError :=
  match roles with
  | [] => Ok (bindings, entities)
  | r :: roles' =>
      match rq_actor_id r with
      | None => actor_bindings_loop c plan bindings entities roles'
      | Some actor =>
          match List.find (fun a => bool_decide (as_role_id a = rq_role_id r)) (pl_assignments plan) with
          | None => Err (InvalidProposal ("missing role " ++ as_str (rq_role_id r)))
          | Some a =>
              let? b := intended_binding c plan r actor a in
              if is_some_and (binding_moved b) (actor_binding c (tr_mission_id (pl_task_ref plan)) actor)
              then Err (InvalidProposal "mission actor is already bound to another physical executor") else
              if is_some_and (fun previous => negb (bool_decide (previous = b))) (bindings !! actor)
              then Err (InvalidProposal
                "one mission actor cannot bind multiple physical executors in one Task") else
              actor_bindings_loop c plan (<[actor := b]> bindings)
                (match ab_physical_entity_id b with
                 | Some entity => <[actor := entity]> entities
                 | None => entities
                 end) roles'
          end
      end
  end.

Definition roles_of_task (g : ExecutionGroup) (task : TaskRef) : list RoleRequirement :=
  snd <$> List.filter (fun kv : TaskRef * RoleId * RoleRequirement => bool_decide (kv.1.1 = task))
            (btree_iter (eg_role_requirements g)).

Definition validate_authoritative_actor_assignments (c : ControlPlane) (g : ExecutionGroup)
    (plan : CommittedPlan) : Result (gmap ActorId ActorBinding) ControlError :=
  let mission := tr_mission_id (pl_task_ref plan) in
  let? t := find_execution g (pl_task_ref plan) "Task is absent from the Mission Group" in
  let? found := actor_bindings_loop c plan ∅ ∅ (roles_of_task g (pl_task_ref plan)) in
  let? _d := match mission_binding_semantics c mission with
             | None => Ok tt
             | Some semantics =>
                 try_for (distinct_check c semantics mission (te_context_id t) found.2)
                   (btree_iter found.2)
             end in
  Ok found.1.

(** A reservation the Task may bind, by the scope of the Role. *)
Definition reservation_bindable (t : TaskExecution) (group : ExecutionGroupId) (task : TaskRef)
    (role : RoleId) (r : Reservation) : bool :=
  match role_scope t role with
  | ScopeTask =>
      bool_decide (rsv_task_ref r = task) && bool_decide (rsv_role_id r = role)
      && is_none (rsv_group_id r) && bool_decide (rsv_owner r = OwnerTask task)
  | ScopeContext =>
      is_some_and (fun id =>
        bool_decide (rsv_scope r = ScopeContext)
        && bool_decide (rsv_owner r = OwnerContext (tr_mission_id task) (te_context_id t) id)
        && (is_none (rsv_group_id r) || bool_decide (rsv_group_id r = Some group)))
        (te_context_role t role)
  end.

Definition bind_resource_check (c : ControlPlane) (t : TaskExecution) (group : ExecutionGroupId)
    (task : TaskRef) (entry : ResourceId * RoleId) : Result unit ControlError :=
  match binding_reservation c entry.1 group task entry.2 with
  | None => Err (InvalidProposal ("committed resource " ++ as_str entry.1 ++ " has no reservation"))
  | Some r =>
      if reservation_bindable t group task entry.2 r then Ok tt
      else Err (InvalidProposal ("resource " ++ as_str entry.1
                                   ++ " is not a valid reservation for this Task"))
  end.

(** The resources of the assignments with their Roles. *)
Definition assigned_resources (l : list RoleAssignment) : list (ResourceId * RoleId) :=
  flat_map (fun a => (fun id => (id, as_role_id a)) <$> as_resource_ids a) l.

(** The Context binding a Context-scoped assignment continues; [None] without a ContextRole. *)
Definition context_changed (g : ExecutionGroup) (t : TaskExecution) (a : RoleAssignment)
  : option (Result unit ControlError) :=
  if negb (scoped t ScopeContext a) then Some (Ok tt) else
  id ← te_context_role t (as_role_id a);
  Some (if is_some_and (fun existing =>
             negb (bool_decide (as_node_id (cb_assignment existing) = as_node_id a))
             || negb (bool_decide (as_resource_ids (cb_assignment existing) = as_resource_ids a)))
             (eg_context_bindings g !! context_binding_key (te_context_id t) id)
        then Err (InvalidProposal "ContextRole binding changed across Tasks") else Ok tt).

Fixpoint contexts_changed (g : ExecutionGroup) (t : TaskExecution) (l : list RoleAssignment)
  : option (Result unit ControlError) :=
  match l with
  | [] => Some (Ok tt)
  | a :: l' =>
      r ← context_changed g t a;
      match r with Err e => Some (Err e) | Ok _ => contexts_changed g t l' end
  end.

Definition bind_check (c : ControlPlane) (group : ExecutionGroupId) (plan : CommittedPlan)
  : Result (ExecutionGroup * TaskExecution * gmap ActorId ActorBinding) ControlError :=
  let task := pl_task_ref plan in
  let? g := find_group c group in
  if existsb (fun a => negb (node_tenant_allowed c (tr_mission_id task) (as_node_id a)))
       (pl_assignments plan)
  then Err (InvalidProposal "Task binding crosses tenant authority") else
  if negb (bool_decide (eg_mission_id g = tr_mission_id task))
  then Err (InvalidProposal "Task belongs to another Mission than its Execution Group") else
  let? t := find_execution g task "Task is absent from the Mission DAG" in
  if negb (bool_decide (te_lifecycle t = TlReady))
  then Err (InvalidProposal "only a ready Task execution can accept committed bindings") else
  let? _a := validate_task_assignments t (pl_assignments plan) in
  let? actors := validate_authoritative_actor_assignments c g plan in
  if negb (length (te_assignments t) =? 0)%nat
  then Err (InvalidProposal "Task execution already has committed bindings") else
  let? _r := try_for (bind_resource_check c t group task) (assigned_resources (pl_assignments plan)) in
  Ok (g, t, actors).

(** [entry(key).or_insert_with(..)] for a Context-scoped assignment with a resource. *)
Definition add_context_binding (t : TaskExecution) (task : TaskRef) (m : gmap string ContextBinding)
    (a : RoleAssignment) : gmap string ContextBinding :=
  match as_resource_ids a, role_scope t (as_role_id a), te_context_role t (as_role_id a) with
  | _ :: _, ScopeContext, Some id =>
      let key := context_binding_key (te_context_id t) id in
      if contains_key key m then m
      else <[key := MkContextBinding (te_context_id t) id task a]> m
  | _, _, _ => m
  end.

(** The Actor bindings that stay or are first recorded, with their events. *)
Definition record_actor (task : TaskRef) (group : ExecutionGroupId) (c : ControlPlane)
    (entry : ActorId * ActorBinding) : ControlPlane :=
  let key := (tr_mission_id task, entry.1) in
  let c1 := if contains_key key (cp_actor_bindings c) then c else put_actor_binding key entry.2 c in
  log_event (MissionActorBound (tr_mission_id task) entry.1 (ab_node_id entry.2) task group) c1.

(** The preferences of unbound Tasks, which the code drops last, are no part of [ControlPlane]:
    [bind_task_execution_current] of [CurrentState] drops them. *)
Definition bind_task_execution_validated `{Serde} (c : ControlPlane) (group : ExecutionGroupId)
    (plan : CommittedPlan) : ControlStep TaskExecution :=
  match bind_check c group plan with
  | Err e => refuse c e
  | Ok (g, t, actors) =>
      changed ← contexts_changed g t (pl_assignments plan);
      match changed with
      | Err e => refuse c e
      | Ok _ =>
          let task := pl_task_ref plan in
          let c1 := foldl (fun c entry => bind_reservation c entry.1 group task entry.2) c
                      (assigned_resources (pl_assignments plan)) in
          let t1 := with_assignments t (pl_assignments plan) in
          let g1 := put_execution task t1
                      (set_context_bindings
                         (foldl (add_context_binding t task) (eg_context_bindings g)
                            (pl_assignments plan)) g) in
          step ← commit_membership group g1 (ExecutionGroupBound group task) t1 c1;
          match step with
          | (c2, Err e) => Some (c2, Err e)
          | (c2, Ok v) => Some (foldl (record_actor task group) c2 (btree_iter actors), Ok v)
          end
      end
  end.

(** The entry point without current State. *)
Definition bind_task_execution `{Serde} (c : ControlPlane) (group : ExecutionGroupId)
    (plan : CommittedPlan) : ControlStep TaskExecution :=
  if is_some (cp_decision_policy_digest c) || is_some (pl_decision_policy_digest plan)
     || is_some (cp_resource_topology_registry c)
  then refuse c (InvalidProposal "State-policy binding requires current evidence")
  else bind_task_execution_validated c group plan.
