(* ===== verification/RoleRecovery.v ===== *)
(** * Recovery of one Role

    [core/control/src/reconciliation]: release of the Role of a lost Node, authorization of
    takeovers, Commit and Abort of a replacement, and [rebind_role] of
    [group/group_lifecycle.rs].  What these operations read of current Node state is the
    interface [NodeView]: eligibility and decision gates ([matching.rs],
    [decision_policy.rs]), spatial checks ([resource_topology.rs]) and the capacity batch. *)

From S2P Require Import Prelude Identity Execution StateModel Session Resource RelationSpec DecisionPolicy.
From S2P Require Import Scheduler SchedulerPolicy Sorting Quota NodeIdentity NodeState Capacity.
From S2P Require Import Mission TaskExecution Group ControlPlane Actors GroupLifecycle GroupBinding.

Open Scope string_scope.

Class NodeView := {
  nv_node : NodeId -> option NodeStateSnapshot;
  nv_recovery_support : NodeRegistration -> OperationRef -> option ExecutionRecoverySupport;
  nv_eligible : ControlPlane -> NodeId -> RoleRequirement -> TimestampMs -> bool;
  nv_gates_allow : ControlPlane -> NodeId -> RoleRequirement -> option OperationRef -> TimestampMs -> bool;
  nv_topology : ControlPlane -> TaskRef -> list RoleAssignment -> TimestampMs -> Result unit ControlError;
  nv_capacity : ControlPlane -> ExecutionGroupId -> TaskRef -> list RoleAssignment -> TimestampMs ->
                Result (option (CapacityLedger * QuotaLedger)) ControlError
}.

(** ** Release of the Role *)

Definition live_group (c : ControlPlane) (group : ExecutionGroupId) : Result ExecutionGroup ControlError :=
  let? g := find_group c group in
  if one_of [GlBound; GlActive; GlAdapted] (eg_lifecycle g) then Ok g
  else Err (InvalidLifecycle (eg_lifecycle g)).

Definition matches_need (need : RoleRecoveryNeed) (a : RoleAssignment) : bool :=
  bool_decide (as_role_id a = rn_role_id need) && bool_decide (as_node_id a = rn_current_node_id need).

Definition recovery_release_check (c : ControlPlane) (need : RoleRecoveryNeed) (task_scoped : bool)
    (resource : ResourceId) : Result unit ControlError :=
  match binding_reservation c resource (rn_group_id need) (rn_task_ref need) (rn_role_id need) with
  | None => Err (InvalidProposal ("recovery binding " ++ as_str resource ++ " has no reservation"))
  | Some r =>
      if role_owner_changed (rn_group_id need) (rn_task_ref need) (rn_role_id need) r
      then Err (InvalidProposal ("recovery does not own reservation " ++ as_str resource)) else
      if task_scoped && bool_decide (rsv_scope r = ScopeContext)
      then Err (InvalidProposal
        "Context-scoped role bindings must end with their Context before recovery release")
      else Ok tt
  end.

(** The bindings a need refers to, and whether they are those of a Task. *)
Definition recovery_assignments (g : ExecutionGroup) (task : TaskRef)
  : Result (list RoleAssignment * bool) ControlError :=
  match task_execution g task with
  | Some t => Ok (te_assignments t, true)
  | None =>
      if (size (eg_task_executions g) =? 0)%nat && bool_decide (eg_task_ref g = task)
      then Ok (eg_assignments g, false)
      else Err (InvalidProposal "recovery Task is not registered in this Group")
  end.

Definition validate_role_recovery_release (c : ControlPlane) (need : RoleRecoveryNeed)
  : Result unit ControlError :=
  let? g := live_group c (rn_group_id need) in
  let? found := recovery_assignments g (rn_task_ref need) in
  match List.find (matches_need need) found.1 with
  | None => Err (InvalidProposal "recovery need no longer matches the active group assignment")
  | Some a => try_for (recovery_release_check c need found.2) (as_resource_ids a)
  end.

(** Blocks the Group, then releases the Role; a refused release leaves the Group Blocked. *)
Definition begin_role_recovery `{Serde} (c : ControlPlane) (need : RoleRecoveryNeed)
  : ControlStep RecoveryOutcome :=
  let outcome := RecoveryPending (rn_group_id need) (rn_task_ref need) (rn_role_id need) in
  match (let? _v := validate_role_recovery_release c need in
         let? g := live_group c (rn_group_id need) in
         let assignments := match task_execution g (rn_task_ref need) with
                            | Some t => te_assignments t | None => eg_assignments g end in
         if (negb (bool_decide (eg_task_ref g = rn_task_ref need))
             && is_none (task_execution g (rn_task_ref need)))
            || negb (existsb (matches_need need) assignments)
         then Err (InvalidProposal "recovery need no longer matches the active group assignment")
         else Ok (is_some (task_execution g (rn_task_ref need)))) with
  | Err e => refuse c e
  | Ok task_scoped =>
      blocked ← block_group c (rn_group_id need)
                  ("assigned node " ++ as_str (rn_current_node_id need)
                     ++ " is unavailable for role " ++ as_str (rn_role_id need));
      match blocked with
      | (c1, Err e) => Some (c1, Err e)
      | (c1, Ok _) =>
          released ← (if task_scoped
                      then release_task_role_binding c1 (rn_group_id need) (rn_task_ref need)
                             (rn_role_id need)
                      else release_role_binding c1 (rn_group_id need) (rn_role_id need));
          match released with
          | (c2, Err e) => Some (c2, Err e)
          | (c2, Ok _) => Some (c2, Ok outcome)
          end
      end
  end.

Definition begin_execution_recovery `{Serde} (c : ControlPlane) (group : ExecutionGroupId)
    (task : TaskRef) (role : RoleId) (node : NodeId) : ControlStep RoleRecoveryNeed :=
  let need := MkRecoveryNeed group task role node in
  match validate_role_recovery_release c need with
  | Err e => refuse c e
  | Ok _ =>
      step ← begin_role_recovery (log_event (ReconciliationRoleRecoveryRequired group task role node) c)
               need;
      match step with
      | (c1, Err e) => Some (c1, Err e)
      | (c1, Ok _) => Some (c1, Ok need)
      end
  end.

(** ** Takeovers *)

Definition recovery_role (g : ExecutionGroup) (requirement : TaskRequirement) (task : TaskRef)
    (role : RoleId) : Result RoleRequirement ControlError :=
  if negb (bool_decide (tk_task_ref requirement = task))
  then Err (InvalidProposal "recovery context belongs to another task") else
  match find_role requirement role with
  | None => Err (InvalidProposal ("task requirement has no recovery role " ++ as_str role))
  | Some supplied =>
      match role_requirement g task role with
      | None => Ok supplied
      | Some authoritative =>
          if negb (RoleRequirement_eqb authoritative supplied)
          then Err (InvalidProposal
            "recovery requirement differs from authoritative Execution Group role metadata")
          else Ok authoritative
      end
  end.

Definition tk_mission_id (r : TaskRequirement) : MissionId := tr_mission_id (tk_task_ref r).

(** Another Actor of the Mission is bound to the entity or its Node. *)
Definition occupied_by_other (c : ControlPlane) (mission : MissionId) (actor : ActorId)
    (entity : PhysicalEntityId) (node : NodeId) : bool :=
  existsb (fun kv : MissionId * ActorId * ActorBinding =>
    bool_decide (kv.1.1 = mission) && negb (bool_decide (kv.1.2 = actor))
    && (bool_decide (ab_physical_entity_id kv.2 = Some entity) || bool_decide (ab_node_id kv.2 = node)))
    (btree_iter (cp_actor_bindings c)).

Definition authorize_actor_takeover (c : ControlPlane) (need : RoleRecoveryNeed)
    (requirement : TaskRequirement) (previous_entity replacement_entity : PhysicalEntityId)
    (digest : string) : Result ActorTakeoverAuthorization ControlError :=
  let mission := tk_mission_id requirement in
  if bool_decide (previous_entity = replacement_entity) || negb (valid_evidence_digest digest)
  then Err (InvalidProposal
    "Actor takeover requires distinct entities and a canonical evidence digest") else
  let? g := find_group c (rn_group_id need) in
  let? role := recovery_role g requirement (rn_task_ref need) (rn_role_id need) in
  if negb (bool_decide (eg_lifecycle g = GlBlocked))
     || is_none (recovery_unbound_role g (rn_task_ref need) (rn_role_id need))
  then Err (InvalidProposal "Actor takeover requires the exact blocked unbound role") else
  match rq_actor_id role with
  | None => Err (InvalidProposal "Actor takeover requires an Actor-bound role")
  | Some actor =>
      match actor_binding c mission actor with
      | None => Err (InvalidProposal "Actor takeover requires an existing ActorBinding")
      | Some b =>
          if negb (bool_decide (ab_node_id b = rn_current_node_id need))
          then Err (InvalidProposal "Actor takeover source differs from the current ActorBinding") else
          if is_some (s ← mission_binding_semantics c mission; grounding s actor)
          then Err (InvalidProposal "a Mission Actor grounded to one entity cannot migrate") else
          match cp_physical_entity_registry c with
          | None => Err (InvalidProposal "Actor takeover requires a current physical registry")
          | Some registry =>
              match ps_entity registry previous_entity, ps_entity registry replacement_entity with
              | None, _ => Err (InvalidProposal "takeover source entity is not registered")
              | _, None => Err (InvalidProposal "takeover replacement entity is not registered")
              | Some previous, Some replacement =>
                  if negb (bool_decide (pe_node_id previous = rn_current_node_id need))
                     || is_some_and (fun e => negb (bool_decide (e = previous_entity)))
                          (ab_physical_entity_id b)
                  then Err (InvalidProposal "takeover source entity does not match Actor authority") else
                  if is_some (actor_node_constraint c mission actor)
                  then Err (InvalidProposal
    "fixed Actor placement must be replaced by an explicit candidate restriction before takeover") else
                  if is_some_and (fun k => negb (set_contains (pe_node_id replacement)
                                                   (acr_allowed_nodes k)))
                       (actor_candidate_restriction c mission actor)
                  then Err (InvalidProposal
    "takeover replacement violates the admitted Actor candidate restriction") else
                  if occupied_by_other c mission actor replacement_entity (pe_node_id replacement)
                  then Err (InvalidProposal
    "takeover replacement is already authoritative for another Mission Actor") else
                  Ok (MkTakeover (rn_group_id need) (rn_task_ref need) (rn_role_id need) actor
                        (rn_current_node_id need) previous_entity (pe_node_id replacement)
                        replacement_entity (ps_registry_id registry) (ps_revision registry) digest)
              end
          end
      end
  end.

(** The registry still routes an entity through a Node. *)
Definition routes (registry : PhysicalEntityRegistrySnapshot) (entity : PhysicalEntityId) (node : NodeId)
  : bool := is_some_and (fun e => bool_decide (pe_node_id e = node)) (ps_entity registry entity).

(** The binding an authorization replaces still holds. *)
Definition takeover_source_changed (a : ActorTakeoverAuthorization) (b : ActorBinding) : bool :=
  negb (bool_decide (ab_node_id b = at_previous_node_id a))
  || is_some_and (fun e => negb (bool_decide (e = at_previous_entity_id a))) (ab_physical_entity_id b).

Definition validate_actor_takeover (c : ControlPlane) (need : RoleRecoveryNeed)
    (requirement : TaskRequirement) (a : ActorTakeoverAuthorization) : Result unit ControlError :=
  if negb (bool_decide (at_group_id a = rn_group_id need)) || negb (bool_decide (at_task_ref a = rn_task_ref need))
     || negb (bool_decide (at_role_id a = rn_role_id need))
     || negb (bool_decide (at_previous_node_id a = rn_current_node_id need))
  then Err (InvalidProposal "Actor takeover authorization belongs to another recovery need") else
  let? g := find_group c (rn_group_id need) in
  let? role := recovery_role g requirement (rn_task_ref need) (rn_role_id need) in
  if negb (bool_decide (rq_actor_id role = Some (at_actor_id a)))
  then Err (InvalidProposal "Actor takeover authorization names another Actor") else
  match actor_binding c (tk_mission_id requirement) (at_actor_id a) with
  | None => Err (InvalidProposal "ActorBinding disappeared")
  | Some b =>
      if takeover_source_changed a b
      then Err (InvalidProposal "Actor authority changed after takeover authorization") else
      match cp_physical_entity_registry c with
      | None => Err (InvalidProposal "physical registry disappeared")
      | Some registry =>
          if negb (bool_decide (ps_registry_id registry = at_registry_id a))
             || negb (ps_revision registry =? at_registry_revision a)%N
             || negb (routes registry (at_previous_entity_id a) (at_previous_node_id a))
             || negb (routes registry (at_replacement_entity_id a) (at_replacement_node_id a))
          then Err (InvalidProposal "physical registry changed after takeover authorization") else Ok tt
      end
  end.

(** ** Commit of a replacement *)

Definition resource_satisfies (id : ResourceId) (d : ResourceRequirement) (r : Resource) : bool :=
  bool_decide (res_id r = id) && bool_decide (res_kind r = rr_kind d)
  && (rr_units d <=? res_capacity r)%N && bool_decide (res_allocation_mode r = rr_allocation_mode d)
  && bool_decide (res_resource_class r = rr_resource_class d).

Definition validate_recovery_resources (node : NodeStateSnapshot) (role : RoleRequirement)
    (resources : list ResourceId) : Result unit ControlError :=
  let requirements := resource_requirements role in
  if negb (length resources =? length requirements)%nat
  then Err (InvalidProposal ("recovery role " ++ as_str (rq_role_id role)
              ++ " resources do not exactly cover its requirements")) else
  if negb (distinct_count resources =? length resources)%nat
  then Err (InvalidProposal "recovery proposal contains duplicate resources") else
  if existsb (fun d => negb (existsb (resource_satisfies d.1 d.2) (nd_resources (sn_registration node))))
       (combine resources requirements)
  then Err (InvalidProposal ("recovery role " ++ as_str (rq_role_id role)
              ++ " resources do not satisfy replacement kind/capacity")) else Ok tt.

Definition recovery_quota_demands (role : RoleRequirement) (resources : list ResourceId)
  : Result (list QuotaDemand) ControlError :=
  if negb (length (resource_requirements role) =? length resources)%nat
  then Err (InvalidProposal "recovery quota demand differs from the exact Role requirement") else
  Ok ((fun d : ResourceId * ResourceRequirement => (d.1, rr_kind d.2, rr_units d.2)) <$>
        List.filter (fun d => bool_decide (rr_allocation_mode d.2 = Exclusive))
          (combine resources (resource_requirements role))).

(** The unbound Role of a Blocked Group that a commitment replaces. *)
Definition unbound_previous (c : ControlPlane) (group : ExecutionGroupId) (requirement : TaskRequirement)
    (task : TaskRef) (role : RoleId) : Result (ExecutionGroup * RoleRequirement * NodeId) ControlError :=
  let? g := find_group c group in
  let? r := recovery_role g requirement task role in
  if negb (bool_decide (eg_lifecycle g = GlBlocked)) then Err (InvalidLifecycle (eg_lifecycle g)) else
  match recovery_unbound_role g task role with
  | None => Err (InvalidProposal "recovery role is not unbound")
  | Some u => Ok (g, r, ub_previous_node_id u)
  end.

Definition recovery_authority_check (c : ControlPlane) (requirement : TaskRequirement)
    (p : RecoveryAssignmentProposal) (role : RoleRequirement) : Result unit ControlError :=
  match rp_actor_takeover p with
  | Some a =>
      let? _v := validate_actor_takeover c
                   (MkRecoveryNeed (rp_group_id p) (rp_task_ref p) (rp_role_id p) (rp_previous_node_id p))
                   requirement a in
      if negb (bool_decide (rp_replacement_node_id p = at_replacement_node_id a))
      then Err (InvalidProposal "takeover proposal differs from its authorized standby") else Ok tt
  | None =>
      match (actor ← rq_actor_id role;
             node ← actor_authority_node c (tk_mission_id requirement) actor; Some (actor, node)) with
      | Some (actor, node) =>
          if negb (bool_decide (rp_replacement_node_id p = node))
          then Err (InvalidProposal ("recovery replacement " ++ as_str (rp_replacement_node_id p)
                 ++ " violates actor " ++ as_str actor ++ " authority on " ++ as_str node
                 ++ "; explicit Actor rebind is required")) else Ok tt
      | None => Ok tt
      end
  end.

Definition replacement_conflict (c : ControlPlane) (task : TaskRef) (entry : ResourceId * ResourceRequirement)
  : Result unit ControlError :=
  if bool_decide (rr_allocation_mode entry.2 = Divisible) then Ok tt else
  match (match cp_reservations c !! entry.1 with
         | Some r => Some r
         | None => capacity_conflict (cp_capacity_ledger c) entry.1
         end) with
  | Some r => Err (ResourceConflict entry.1 (rsv_task_ref r) (rsv_role_id r))
  | None =>
      match scheduled_resource_conflict c entry.1 task with
      | Some (t, role) => Err (ResourceConflict entry.1 t role)
      | None => Ok tt
      end
  end.

Definition replacement_check `{NodeView} (c : ControlPlane) (requirement : TaskRequirement)
    (p : RecoveryAssignmentProposal) (role : RoleRequirement) (now : TimestampMs)
  : Result unit ControlError :=
  match nv_node (rp_replacement_node_id p) with
  | None => Err (UnknownNode (rp_replacement_node_id p))
  | Some node =>
      let text := "replacement node " ++ as_str (rp_replacement_node_id p) in
      if negb (nv_eligible c (rp_replacement_node_id p) role now)
      then Err (InvalidProposal (text ++ " is no longer eligible for role " ++ as_str (rp_role_id p))) else
      match List.find (fun operation => negb (supports_operation (sn_registration node) operation))
              (match rp_operation p with Some o => [o] | None => [] end) with
      | Some operation => Err (InvalidProposal (text ++ " no longer supports operation "
                            ++ CapabilityContractRef_to_string (as_legacy_contract operation)))
      | None =>
      if negb (nv_gates_allow c (rp_replacement_node_id p) role (rp_operation p) now)
      then Err (AssignmentUnavailable "replacement State policy evidence is unavailable") else
      if rp_stopped_owner_allowed p
         && negb (is_some_and (fun operation =>
                    is_some_and (fun s => supports_role_retry (ers_support s))
                      (nv_recovery_support (sn_registration node) operation)) (rp_operation p))
      then Err (InvalidProposal
        "replacement no longer declares isolated stop and context-preserving repetition") else
      let? _r := validate_recovery_resources node role (rp_replacement_resource_ids p) in
      try_for (replacement_conflict c (rp_task_ref p))
        (combine (rp_replacement_resource_ids p) (resource_requirements role))
      end
  end.

(** The complete read-only part of [commit_role_recovery]. *)
Definition recovery_commit_check `{NodeView} (c : ControlPlane) (requirement : TaskRequirement)
    (p : RecoveryAssignmentProposal) (now : TimestampMs)
  : Result (NodeId * option (CapacityLedger * QuotaLedger) * list QuotaDemand) ControlError :=
  if negb (node_tenant_allowed c (tk_mission_id requirement) (rp_replacement_node_id p))
  then Err (InvalidProposal "recovery commitment belongs to another tenant") else
  let? found := unbound_previous c (rp_group_id p) requirement (rp_task_ref p) (rp_role_id p) in
  let '(_, role, previous) := found in
  if negb (bool_decide (previous = rp_previous_node_id p))
     || (bool_decide (rp_replacement_node_id p = rp_previous_node_id p)
         && negb (rp_stopped_owner_allowed p))
  then Err (InvalidProposal "recovery proposal no longer matches the blocked group role") else
  let? _a := recovery_authority_check c requirement p role in
  if contains_key (recovery_commitment_key (rp_group_id p) (rp_task_ref p) (rp_role_id p))
       (cp_pending_recovery_commitments c)
  then Err (PendingRecoveryCommitmentExists (rp_group_id p) (rp_role_id p)) else
  let? _r := replacement_check c requirement p role now in
  let assignment := MkAssignment (rp_role_id p) (rp_replacement_node_id p)
                      (rp_replacement_resource_ids p) in
  let? _t := nv_topology c (rp_task_ref p) [assignment] now in
  let? quantity := nv_capacity c (rp_group_id p) (rp_task_ref p) [assignment] now in
  let? demands := recovery_quota_demands role (rp_replacement_resource_ids p) in
  let? _q := validate_resource_quotas c (tk_mission_id requirement) demands in
  Ok (previous, quantity, demands).

(** A committed resource becomes a reservation of the Group, or binds its allocation. *)
Definition reserve_replacement (p : RecoveryAssignmentProposal) (now : TimestampMs) (c : ControlPlane)
    (resource : ResourceId) : ControlPlane :=
  if is_some (binding (cp_capacity_ledger c) resource (rp_group_id p) (rp_task_ref p) (rp_role_id p))
  then bind_reservation c resource (rp_group_id p) (rp_task_ref p) (rp_role_id p)
  else set_bookings
         (<[resource := MkReservation (original_topology_reservation c resource (rp_task_ref p) now false)
              (rp_task_ref p) (rp_role_id p) (Some (rp_group_id p)) ScopeTask
              (OwnerTask (rp_task_ref p))]> (cp_reservations c))
         (cp_capacity c) (cp_quota_unaccounted_resources c) c.

Definition committed_recovery (p : RecoveryAssignmentProposal) (previous : NodeId)
  : CommittedRecoveryAssignment :=
  MkRecoveryCommit (rp_stopped_owner_allowed p) (rp_group_id p) (rp_task_ref p) (rp_role_id p) previous
    (rp_replacement_node_id p) (rp_replacement_resource_ids p) (rp_operation p) (rp_actor_takeover p).

Definition commit_role_recovery `{NodeView} (c : ControlPlane) (requirement : TaskRequirement)
    (p : RecoveryAssignmentProposal) (now : TimestampMs) : ControlStep CommittedRecoveryAssignment :=
  match recovery_commit_check c requirement p now with
  | Err e => refuse c e
  | Ok (previous, quantity, demands) =>
      let ledgers := match quantity with
        | Some (ledger, quota) =>
            Ok (set_bookings (cp_reservations c)
                  (MkCapacityAuthority (u64_saturating_add (cp_calendar_version c) 1) ledger quota)
                  (cp_quota_unaccounted_resources c) c)
        | None => commit_resource_quotas c (tk_mission_id requirement) demands
        end in
      match ledgers with
      | Err e => refuse c e
      | Ok c1 =>
          let committed := committed_recovery p previous in
          let c2 := foldl (reserve_replacement p now) c1 (rp_replacement_resource_ids p) in
          let key := recovery_commitment_key (rp_group_id p) (rp_task_ref p) (rp_role_id p) in
          Some (log_event (RecoveryAssignmentCommitted (rp_group_id p) (rp_task_ref p) (rp_role_id p)
                             (rp_replacement_node_id p) (rp_replacement_resource_ids p))
                  (set_pending (<[key := committed]> (cp_pending_recovery_commitments c2)) c2),
                Ok committed)
      end
  end.

(** ** Abort and rebind *)

Definition validate_pending_recovery_commitment (c : ControlPlane) (k : CommittedRecoveryAssignment)
  : Result unit ControlError :=
  match cp_pending_recovery_commitments c !!
          recovery_commitment_key (rc_group_id k) (rc_task_ref k) (rc_role_id k) with
  | None => Err (PendingRecoveryCommitmentNotFound (rc_group_id k) (rc_role_id k))
  | Some pending =>
      if negb (bool_decide (pending = k))
      then Err (PendingRecoveryCommitmentMismatch (rc_group_id k) (rc_role_id k)) else Ok tt
  end.

Definition commitment_resource_check (c : ControlPlane) (k : CommittedRecoveryAssignment)
    (resource : ResourceId) : Result unit ControlError :=
  match binding_reservation c resource (rc_group_id k) (rc_task_ref k) (rc_role_id k) with
  | None => Err (InvalidProposal ("pending recovery resource " ++ as_str resource ++ " has no reservation"))
  | Some r =>
      if role_owner_changed (rc_group_id k) (rc_task_ref k) (rc_role_id k) r
      then Err (InvalidProposal ("resource " ++ as_str resource
                                   ++ " is not owned by the pending recovery commitment")) else Ok tt
  end.

Definition validate_recovery_commitment_reservations (c : ControlPlane) (k : CommittedRecoveryAssignment)
  : Result unit ControlError := try_for (commitment_resource_check c k) (rc_committed_resource_ids k).

Definition abort_role_recovery_commitment (c : ControlPlane) (k : CommittedRecoveryAssignment)
  : ControlStep unit :=
  match (let? _p := validate_pending_recovery_commitment c k in
         let? g := blocked_group c (rc_group_id k) in
         if is_none (recovery_unbound_role g (rc_task_ref k) (rc_role_id k))
         then Err (InvalidProposal "pending recovery commitment does not match the blocked Group")
         else validate_recovery_commitment_reservations c k) with
  | Err e => refuse c e
  | Ok _ =>
      let c1 := map_capacity (release_capacity_task (rc_group_id k) (rc_task_ref k) (Some (rc_role_id k)))
                  (release_reservations (rc_committed_resource_ids k) c) in
      let key := recovery_commitment_key (rc_group_id k) (rc_task_ref k) (rc_role_id k) in
      Some (log_event (RecoveryAssignmentAborted (rc_group_id k) (rc_task_ref k) (rc_role_id k)
                         (rc_replacement_node_id k) (rc_committed_resource_ids k))
              (set_pending (delete key (cp_pending_recovery_commitments c1)) c1), Ok tt)
  end.

(** The Actor binding a takeover commitment replaces. *)
Definition takeover_binding (c : ControlPlane) (g : ExecutionGroup) (k : CommittedRecoveryAssignment)
    (a : ActorTakeoverAuthorization) : Result ActorBinding ControlError :=
  let mission := tr_mission_id (rc_task_ref k) in
  match role_requirement g (rc_task_ref k) (rc_role_id k) with
  | None => Err (InvalidProposal "takeover commitment lacks authoritative role metadata")
  | Some role =>
      if negb (bool_decide (at_group_id a = rc_group_id k)) || negb (bool_decide (at_task_ref a = rc_task_ref k))
         || negb (bool_decide (at_role_id a = rc_role_id k))
         || negb (bool_decide (at_previous_node_id a = rc_previous_node_id k))
         || negb (bool_decide (at_replacement_node_id a = rc_replacement_node_id k))
         || negb (bool_decide (rq_actor_id role = Some (at_actor_id a)))
      then Err (InvalidProposal "takeover commitment differs from its Actor authorization") else
      match actor_binding c mission (at_actor_id a) with
      | None => Err (InvalidProposal "takeover ActorBinding disappeared")
      | Some b =>
          if takeover_source_changed a b
          then Err (InvalidProposal "takeover source no longer owns Actor authority") else
          match cp_physical_entity_registry c with
          | None => Err (InvalidProposal "takeover requires current deployment topology")
          | Some registry =>
              if negb (bool_decide (ps_registry_id registry = at_registry_id a))
                 || negb (ps_revision registry =? at_registry_revision a)%N
                 || negb (routes registry (at_replacement_entity_id a) (at_replacement_node_id a))
              then Err (InvalidProposal "takeover deployment topology changed before Rebind")
              else Ok (ActorBinding_new_physical mission (at_actor_id a) (at_replacement_node_id a)
                         (at_replacement_entity_id a) (at_registry_id a) (at_registry_revision a))
          end
      end
  end.

(** [Vec::insert(min(index, len), a)]. *)
Definition insert_at {A} (index : nat) (a : A) (l : list A) : list A :=
  (take (Nat.min index (length l)) l ++ a :: drop (Nat.min index (length l)) l)%list.

Definition rebind_check (c : ControlPlane) (k : CommittedRecoveryAssignment)
  : Result (ExecutionGroup * UnboundRole * option (ActorTakeoverAuthorization * ActorBinding)) ControlError :=
  if negb (node_tenant_allowed c (tr_mission_id (rc_task_ref k)) (rc_replacement_node_id k))
  then Err (InvalidProposal "recovery binding crosses tenant authority") else
  let? g := blocked_group c (rc_group_id k) in
  if negb (bool_decide (eg_task_ref g = rc_task_ref k)) && is_none (task_execution g (rc_task_ref k))
  then Err (InvalidProposal "committed recovery belongs to another task") else
  let? _p := validate_pending_recovery_commitment c k in
  match recovery_unbound_role g (rc_task_ref k) (rc_role_id k) with
  | None => Err (InvalidProposal ("role " ++ as_str (rc_role_id k)
                                    ++ " is not unbound for committed rebind"))
  | Some u =>
      if negb (bool_decide (ub_previous_node_id u = rc_previous_node_id k))
         || (bool_decide (rc_replacement_node_id k = rc_previous_node_id k)
             && negb (rc_stopped_owner_allowed k))
      then Err (InvalidProposal "committed recovery does not match the released role binding") else
      let? _r := validate_recovery_commitment_reservations c k in
      match rc_actor_takeover k with
      | None => Ok (g, u, None)
      | Some a => let? b := takeover_binding c g k a in Ok (g, u, Some (a, b))
      end
  end.

Definition role_bound (role : RoleId) (l : list RoleAssignment) : bool :=
  existsb (fun a => bool_decide (as_role_id a = role)) l.

(** The Group with the replacement in the place of the released binding. *)
Definition rebound_group (g : ExecutionGroup) (u : UnboundRole) (k : CommittedRecoveryAssignment)
  : Result ExecutionGroup ControlError :=
  let a := MkAssignment (rc_role_id k) (rc_replacement_node_id k) (rc_committed_resource_ids k) in
  let role := as_str (rc_role_id k) in
  match task_execution g (rc_task_ref k) with
  | Some t =>
      if role_bound (rc_role_id k) (te_assignments t)
      then Err (InvalidProposal ("role " ++ role ++ " is still bound in Task "
                                   ++ task_ref_text (rc_task_ref k)))
      else Ok (set_group_roles (eg_assignments g) (eg_unbound_roles g)
                 (delete (rc_task_ref k, rc_role_id k) (eg_task_unbound_roles g))
                 (put_execution (rc_task_ref k)
                    (with_assignments t (insert_at (ub_assignment_index u) a (te_assignments t))) g))
  | None =>
      if role_bound (rc_role_id k) (eg_assignments g)
      then Err (InvalidProposal ("role " ++ role ++ " is still bound in Group "
                                   ++ as_str (rc_group_id k)))
      else Ok (set_group_roles (insert_at (ub_assignment_index u) a (eg_assignments g))
                 (delete (rc_role_id k) (eg_unbound_roles g)) (eg_task_unbound_roles g) g)
  end.

(** The calendar keeps the replacement of a Role of a scheduled Task. *)
Definition record_replacement (k : CommittedRecoveryAssignment) (c : ControlPlane) : ControlPlane :=
  match cp_resource_topology_registry c, scheduled_task c (rc_task_ref k) with
  | Some _, Some r =>
      set_calendar (<[rc_task_ref k := MkScheduledTask
          (<[rc_role_id k := MkAssignment (rc_role_id k) (rc_replacement_node_id k)
                               (rc_committed_resource_ids k)]> (st_topology_recovery_assignments r))
          (st_group_id r) (st_decision r) (st_phase r) (st_reason r)]> (cp_scheduled_tasks c))
        (cp_calendar_version c) c
  | _, _ => c
  end.

Definition apply_takeover (k : CommittedRecoveryAssignment)
    (takeover : option (ActorTakeoverAuthorization * ActorBinding)) (c : ControlPlane) : ControlPlane :=
  match takeover with
  | None => c
  | Some (a, b) =>
      log_event (MissionActorTakenOver (rc_task_ref k) (rc_role_id k) a)
        (put_actor_binding (tr_mission_id (rc_task_ref k), at_actor_id a) b c)
  end.

Definition rebind_role_validated `{Serde} (c : ControlPlane) (k : CommittedRecoveryAssignment)
  : ControlStep RecoveryOutcome :=
  match (let? found := rebind_check c k in
         let? g1 := rebound_group found.1.1 found.1.2 k in
         Ok (g1, found.1.2, found.2)) with
  | Err e => refuse c e
  | Ok (g1, u, takeover) =>
      refreshed ← refresh_membership (set_lifecycle GlAdapted g1);
      match refreshed with
      | (g2, Err e) => Some (put_group (rc_group_id k) g2 c, Err e)
      | (g2, Ok _) =>
          let c1 := apply_takeover k takeover (put_group (rc_group_id k) g2 c) in
          let key := recovery_commitment_key (rc_group_id k) (rc_task_ref k) (rc_role_id k) in
          let c2 := set_pending (delete key (cp_pending_recovery_commitments c1)) c1 in
          Some (log_event (RecoveryRebound (rc_group_id k) (rc_task_ref k) (rc_role_id k)
                             (ub_previous_node_id u) (rc_replacement_node_id k))
                  (record_replacement k c2),
                Ok (RecoveryRecovered (rc_group_id k) (rc_task_ref k) (rc_role_id k)
                      (ub_previous_node_id u) (rc_replacement_node_id k)))
      end
  end.

Definition rebind_role `{Serde} (c : ControlPlane) (k : CommittedRecoveryAssignment)
  : ControlStep RecoveryOutcome :=
  if rc_stopped_owner_allowed k || is_some (cp_node_identity_registry c)
     || is_some (cp_decision_policy_digest c) || is_some (cp_resource_topology_registry c)
  then refuse c (InvalidProposal "stopped recovery requires current State at Rebind")
  else rebind_role_validated c k.
