(* ===== verification/GroupRelease.v ===== *)
(** * Release of a Group

    [release_group] of [core/control/src/group/group_lifecycle.rs] with the join of the
    capacity ledger and live Groups, [validate_capacity_checkpoint] and [capacity_owner] of
    [resource_allocations.rs] and [context_capacity_units] of [capacity_calendar.rs]. *)

From S2P Require Import Prelude Identity Execution Session StateModel Resource RelationSpec DecisionPolicy.
From S2P Require Import Scheduler SchedulerPolicy Sorting NodeIdentity Quota Capacity Mission.
From S2P Require Import TaskExecution Group ControlPlane Actors GroupLifecycle GroupBinding.

Open Scope string_scope.

(** ** The capacity ledger against live Groups *)

Definition capacity_owner (c : ControlPlane) (group : ExecutionGroupId) (task : TaskRef) (role : RoleId)
  : Result AllocationOwner ControlError :=
  match (g ← cp_groups c !! group; task_execution g task) with
  | None => Err (InvalidProposal "capacity admission lacks original TaskExecution")
  | Some t =>
      match role_scope t role with
      | ScopeTask => Ok (OwnerTask task)
      | ScopeContext =>
          match te_context_role t role with
          | Some id => Ok (OwnerContext (tr_mission_id task) (te_context_id t) id)
          | None => Err (InvalidProposal "capacity ContextRole is absent")
          end
      end
  end.

Definition context_capacity_units (c : ControlPlane) (group : ExecutionGroupId) (owner : AllocationOwner)
    (class : option string) : option N :=
  match owner with
  | OwnerTask _ => None
  | OwnerContext _ context role =>
      g ← cp_groups c !! group;
      envelope ← List.find (fun e : CoordinationContextId * ContextRole =>
                   bool_decide (e.1 = context) && bool_decide (cr_context_role_id e.2 = role))
                   (eg_context_resource_envelopes g);
      limit ← List.find (fun l => bool_decide (rr_resource_class l = class))
                (cr_resource_envelope envelope.2);
      Some (rr_units limit)
  end.

Definition claim_changed (id : string) (g : ResourceAllocationGrant) (claim : QuotaClaim) : bool :=
  negb (qc_claim_id claim =? id)%string || negb (qc_tenant_id claim =? rg_tenant_id g)%string
  || negb (bool_decide (qc_kind claim = Compute)) || negb (qc_units claim =? rg_allocation_units g)%N
  || negb (bool_decide (qc_resource_id claim = Some (rg_resource_id g))).

Definition context_parent_check (c : ControlPlane) (group : ExecutionGroup) (record : CapacityAllocation)
  : Result unit ControlError :=
  let g := al_original record in
  match rg_owner g with
  | OwnerTask _ => Ok tt
  | OwnerContext _ context role =>
      if negb (bool_decide (context_capacity_units c (rg_group_id g) (rg_owner g)
                              (Some (rg_resource_class g)) = Some (rg_allocation_units g)))
      then Err (InvalidProposal "capacity parent changed original Context declaration") else
      if is_some (rsv_group_id (al_reservation record))
         && is_none_or (fun b =>
              negb (bool_decide (as_node_id (cb_assignment b) = rg_node_id g))
              || negb (bool_decide (cb_origin_task_ref b = rg_task_ref g))
              || negb (bool_decide (as_role_id (cb_assignment b) = rg_role_id g))
              || negb (assigns (rg_resource_id g) (cb_assignment b))) (context_binding group context role)
      then Err (InvalidProposal "Context allocation lost its original retained binding or origin")
      else Ok tt
  end.

Definition borrower_demanded (g : ResourceAllocationGrant) (b : CapacityBorrower) (r : RoleRequirement)
  : bool :=
  existsb (fun d => bool_decide (rr_allocation_mode d = Divisible) && (rr_units d =? bo_units b)%N
                    && bool_decide (rr_kind d = Compute)
                    && bool_decide (rr_resource_class d = Some (rg_resource_class g)))
    (resource_requirements r).

Definition borrower_bound (group : ExecutionGroup) (g : ResourceAllocationGrant) (b : CapacityBorrower)
  : bool :=
  is_some_and (fun t =>
    existsb (fun a => bool_decide (as_role_id a = bo_role_id b)
                      && bool_decide (as_node_id a = rg_node_id g)
                      && assigns (rg_resource_id g) a) (te_assignments t))
    (task_execution group (bo_task_ref b)).

Definition borrower_pending (c : ControlPlane) (g : ResourceAllocationGrant) (b : CapacityBorrower)
  : bool :=
  is_some_and (fun k =>
    bool_decide (rc_replacement_node_id k = rg_node_id g)
    && existsb (fun id => bool_decide (id = rg_resource_id g)) (rc_committed_resource_ids k))
    (cp_pending_recovery_commitments c !!
       recovery_commitment_key (rg_group_id g) (bo_task_ref b) (bo_role_id b)).

Definition borrower_check (c : ControlPlane) (group : ExecutionGroup) (record : CapacityAllocation)
    (b : CapacityBorrower) : Result unit ControlError :=
  let g := al_original record in
  match role_requirement group (bo_task_ref b) (bo_role_id b) with
  | None => Err (InvalidProposal "capacity borrower original Role is absent")
  | Some required =>
      if negb (borrower_demanded g b required)
      then Err (InvalidProposal "capacity borrower changed original Role demand") else
      let? owner := capacity_owner c (rg_group_id g) (bo_task_ref b) (bo_role_id b) in
      if negb (bool_decide (owner = rg_owner g))
      then Err (InvalidProposal "capacity borrower changed original Task or Context owner") else
      if is_some (rsv_group_id (al_reservation record))
         && Bool.eqb (borrower_bound group g b) (borrower_pending c g b)
      then Err (InvalidProposal "capacity borrower is orphaned or both bound and recovery pending")
      else Ok tt
  end.

Definition allocation_check (c : ControlPlane) (entry : string * CapacityAllocation)
  : Result unit ControlError :=
  let '(id, record) := entry in
  let g := al_original record in
  if contains_key (rg_resource_id g) (cp_reservations c)
     || negb (bool_decide (mission_tenant c (tr_mission_id (rg_task_ref g)) = Some (rg_tenant_id g)))
  then Err (InvalidProposal "capacity claim conflicts with exclusive ownership or original tenant") else
  match cp_groups c !! rg_group_id g with
  | None => Err (InvalidProposal "capacity claim Group is absent")
  | Some group =>
      if bool_decide (eg_lifecycle group = GlReleased)
         || negb (bool_decide (eg_mission_id group = tr_mission_id (rg_task_ref g)))
      then Err (InvalidProposal "capacity claim Group changed Mission") else
      match List.find (fun claim => bool_decide (qc_allocation_id claim = Some id))
              (ql_claims (cp_quota_ledger c)) with
      | None => Err (InvalidProposal "capacity allocation lost original quota claim")
      | Some claim =>
          if claim_changed id g claim
          then Err (InvalidProposal "capacity quota claim changed its original owner or units") else
          let? _p := context_parent_check c group record in
          try_for (borrower_check c group record) (al_borrowers record)
      end
  end.

Definition validate_capacity_checkpoint `{Serde} (c : ControlPlane) : option (Result unit ControlError) :=
  valid ← CapacityLedger_validate (cp_capacity_ledger c);
  Some (let? _v := valid in
        let? _a := try_for (allocation_check c) (btree_iter (cl_allocations (cp_capacity_ledger c))) in
        if existsb (fun claim => is_some_and (fun id =>
             negb (contains_key id (cl_allocations (cp_capacity_ledger c)))) (qc_allocation_id claim))
             (ql_claims (cp_quota_ledger c))
        then Err (InvalidProposal "capacity quota claim lost original allocation") else Ok tt).

(** ** What a terminal Group owns *)

Abbreviation Expected := (gmap ResourceId RoleId).

(** [expected_resources.insert(..)] for each resource without a capacity owner; a repeated
    resource is refused with [word] in the message. *)
Fixpoint expect_resources (c : ControlPlane) (group : ExecutionGroupId) (word : string) (m : Expected)
    (l : list (ResourceId * RoleId)) : Result Expected ControlError :=
  match l with
  | [] => Ok m
  | (resource, role) :: l' =>
      if is_some (capacity_conflict (cp_capacity_ledger c) resource)
      then expect_resources c group word m l' else
      if contains_key resource m
      then Err (InvalidProposal ("group " ++ as_str group ++ " has duplicate " ++ word ++ " resource "
                                   ++ as_str resource))
      else expect_resources c group word (<[resource := role]> m) l'
  end.

Definition assignment_resources (a : RoleAssignment) : list (ResourceId * RoleId) :=
  (fun id => (id, as_role_id a)) <$> as_resource_ids a.

Definition group_task_resources (g : ExecutionGroup) : list (ResourceId * RoleId) :=
  flat_map (fun t => flat_map assignment_resources
              (List.filter (fun a => negb (scoped t ScopeContext a)) (te_assignments t)))
    (btree_values (eg_task_executions g)).

Definition group_context_resources (g : ExecutionGroup) : list (ResourceId * RoleId) :=
  flat_map (fun b => assignment_resources (cb_assignment b)) (btree_values (eg_context_bindings g)).

Abbreviation PendingKey := (ExecutionGroupId * TaskRef * RoleId)%type.

Definition pending_inconsistent (g : ExecutionGroup) (group : ExecutionGroupId) (key : PendingKey)
    (k : CommittedRecoveryAssignment) : bool :=
  negb (bool_decide (rc_group_id k = group))
  || (negb (bool_decide (rc_task_ref k = eg_task_ref g))
      && is_none (task_execution g (rc_task_ref k)))
  || negb (bool_decide (rc_task_ref k = key.1.2)) || negb (bool_decide (rc_role_id k = key.2)).

(** The commitments of the Group, with their resources added to the expected ones. *)
Fixpoint expect_pending (c : ControlPlane) (g : ExecutionGroup) (group : ExecutionGroupId) (m : Expected)
    (l : list (PendingKey * CommittedRecoveryAssignment))
  : Result (Expected * list PendingKey) ControlError :=
  match l with
  | [] => Ok (m, [])
  | (key, k) :: l' =>
      if pending_inconsistent g group key k
      then Err (InvalidProposal ("group " ++ as_str group
                                   ++ " has inconsistent pending recovery ownership")) else
      let? m1 := expect_resources c group "committed" m
                   ((fun id => (id, rc_role_id k)) <$> rc_committed_resource_ids k) in
      let? rest := expect_pending c g group m1 l' in
      Ok (rest.1, key :: rest.2)
  end.

Definition pending_of_group (c : ControlPlane) (group : ExecutionGroupId)
  : list (PendingKey * CommittedRecoveryAssignment) :=
  List.filter (fun kv => bool_decide (kv.1.1.1 = group)) (btree_iter (cp_pending_recovery_commitments c)).

Definition expected_resources (c : ControlPlane) (g : ExecutionGroup) (group : ExecutionGroupId)
  : Result (Expected * list PendingKey) ControlError :=
  let? m1 := expect_resources c group "active" ∅ (flat_map assignment_resources (eg_assignments g)) in
  let? m2 := expect_resources c group "active" m1 (group_task_resources g) in
  let? m3 := expect_resources c group "context" m2 (group_context_resources g) in
  expect_pending c g group m3 (pending_of_group c group).

Definition task_owned (g : ExecutionGroup) (r : Reservation) : bool :=
  bool_decide (rsv_task_ref r = eg_task_ref g) || is_some (task_execution g (rsv_task_ref r))
  || is_context (rsv_owner r).

Definition expected_owned (c : ControlPlane) (g : ExecutionGroup) (group : ExecutionGroupId)
    (entry : ResourceId * RoleId) : Result unit ControlError :=
  match cp_reservations c !! entry.1 with
  | None => Err (InvalidProposal ("group " ++ as_str group ++ " ownership " ++ as_str entry.1
                                    ++ " has no reservation"))
  | Some r =>
      if negb (task_owned g r) || negb (bool_decide (rsv_role_id r = entry.2))
         || negb (bool_decide (rsv_group_id r = Some group))
      then Err (InvalidProposal ("group " ++ as_str group ++ " has mismatched reservation "
                                   ++ as_str entry.1)) else Ok tt
  end.

Definition reservations_of_group (c : ControlPlane) (group : ExecutionGroupId)
  : list (ResourceId * Reservation) :=
  List.filter (fun kv => bool_decide (rsv_group_id kv.2 = Some group)) (btree_iter (cp_reservations c)).

Definition reservation_expected (g : ExecutionGroup) (group : ExecutionGroupId) (m : Expected)
    (entry : ResourceId * Reservation) : Result unit ControlError :=
  if negb (task_owned g entry.2) || negb (bool_decide (m !! entry.1 = Some (rsv_role_id entry.2)))
  then Err (InvalidProposal ("group " ++ as_str group ++ " has orphan reservation " ++ as_str entry.1))
  else Ok tt.

Definition allocated_resources (c : ControlPlane) (group : ExecutionGroupId) : list ResourceId :=
  (fun record => rg_resource_id (al_original record)) <$>
    List.filter (fun record => bool_decide (rg_group_id (al_original record) = group))
      (records (cp_capacity_ledger c)).

Definition group_release_check `{Serde} (c : ControlPlane) (group : ExecutionGroupId)
  : option (Result (ExecutionGroup * list ResourceId * list PendingKey) ControlError) :=
  match find_group c group with
  | Err e => Some (Err e)
  | Ok g =>
      if negb (one_of [GlCompleted; GlFailed; GlSuperseded] (eg_lifecycle g))
      then Some (Err (InvalidLifecycle (eg_lifecycle g))) else
      match (let? expected := expected_resources c g group in
             let? _e := try_for (expected_owned c g group) (btree_iter expected.1) in
             Ok expected) with
      | Err e => Some (Err e)
      | Ok (m, pending) =>
          valid ← validate_capacity_checkpoint c;
          Some (let? _v := valid in
                let? _r := try_for (reservation_expected g group m) (reservations_of_group c group) in
                Ok (g, sorted_distinct ((reservations_of_group c group).*1
                                          ++ allocated_resources c group)%list, pending))
      end
  end.

(** The Group without bindings. *)
Definition emptied (g : ExecutionGroup) : ExecutionGroup :=
  set_lifecycle GlReleased
    (set_group_roles [] ∅ ∅
       (set_context_bindings ∅
          (set_task_executions ((fun t => with_assignments t []) <$> eg_task_executions g) g))).

Definition release_group `{Serde} (c : ControlPlane) (group : ExecutionGroupId) : ControlStep unit :=
  check ← group_release_check c group;
  match check with
  | Err e => refuse c e
  | Ok (g, resources, pending) =>
      let c1 := release_reservations resources (map_capacity (release_capacity_group group) c) in
      let c2 := set_pending (foldl (fun m key => delete key m) (cp_pending_recovery_commitments c1) pending) c1 in
      commit_membership group (emptied g) (ExecutionGroupReleased group (eg_task_ref g) resources) tt c2
  end.

(** * Replacement of a stopped Group

    [supersede_mission_group] of [core/control/src/group/revision.rs]: a Blocked Group is
    released and its Tasks continue in a new Group of a revised plan.  The whole operation
    works on a copy of the Control plane. *)

Open Scope string_scope.

(** ** Equality of planned Tasks *)

#[export] Instance TaskTiming_eq_dec : EqDecision TaskTiming.
Proof. solve_decision. Defined.

Definition TaskRequirement_eqb (a b : TaskRequirement) : bool :=
  bool_decide (tk_task_ref a = tk_task_ref b)
  && list_eqb RoleRequirement_eqb (tk_roles a) (tk_roles b)
  && bool_decide (tk_timing a = tk_timing b).

Definition PlannedTask_eqb (a b : PlannedTask) : bool :=
  (pt_description a =? pt_description b)%string
  && TaskRequirement_eqb (pt_requirement a) (pt_requirement b)
  && list_eqb (fun x y => bool_decide (x.1 = y.1) && ExecutionIntent_eqb x.2 y.2)
       (btree_iter (pt_execution_intents a)) (btree_iter (pt_execution_intents b))
  && bool_decide (pt_dependencies a = pt_dependencies b)
  && bool_decide (pt_continuity a = pt_continuity b)
  && bool_decide (pt_satisfaction_basis a = pt_satisfaction_basis b)
  && (pt_expected_effect a =? pt_expected_effect b)%string.

(** ** The operation *)

Definition completed_tasks (g : ExecutionGroup) : gset TaskId :=
  list_to_set ((fun t => tr_task_id (te_task_ref t)) <$>
    List.filter (fun t => bool_decide (te_lifecycle t = TlCompleted))
      (btree_values (eg_task_executions g))).

Definition revision_refused (c : ControlPlane) (g : ExecutionGroup) (source target : ExecutionGroupId)
    (source_plan target_plan : MissionPlan) : bool :=
  negb (bool_decide (eg_lifecycle g = GlBlocked)) || is_some (eg_superseded_by g)
  || bool_decide (source = target) || contains_key target (cp_groups c)
  || negb (bool_decide (mp_goal source_plan = mp_goal target_plan))
  || negb (bool_decide (mp_actors source_plan = mp_actors target_plan))
  || negb (bool_decide (binding_semantics source_plan = binding_semantics target_plan)).

(** A satisfied Task is the same in both plans. *)
Definition satisfied_task_kept (source_plan target_plan : MissionPlan) (id : TaskId)
  : Result unit ControlError :=
  match graph_task (mp_task_graph source_plan) id, graph_task (mp_task_graph target_plan) id with
  | Some original, Some revised =>
      if PlannedTask_eqb original revised then Ok tt
      else Err (InvalidProposal "revision changed or removed an actually satisfied Task")
  | _, _ => Err (InvalidProposal "revision changed or removed an actually satisfied Task")
  end.

Definition keep_completed (completed : gset TaskId) (g : ExecutionGroup) : ExecutionGroup :=
  set_task_executions ((fun t => if set_contains (tr_task_id (te_task_ref t)) completed
                            then with_lifecycle t TlCompleted else t) <$> eg_task_executions g) g.

Definition update_group (id : ExecutionGroupId) (f : ExecutionGroup -> ExecutionGroup)
    (c : ControlPlane) : ControlPlane := set_groups (alter f id (cp_groups c)) c.

Definition supersede_mission_group `{Serde} (c : ControlPlane) (source target : ExecutionGroupId)
    (source_plan target_plan : MissionPlan) : ControlStep (gset TaskId) :=
  valid ← validate_mission_group_plan c source source_plan;
  match valid with
  | Err e => refuse c e
  | Ok _ =>
      g ← cp_groups c !! source;
      if revision_refused c g source target source_plan target_plan
      then refuse c (InvalidProposal
        "revision source, target, original goal or Actor binding contract is invalid") else
      match try_for (satisfied_task_kept source_plan target_plan) (bset_iter (completed_tasks g)) with
      | Err e => refuse c e
      | Ok _ =>
          created ← create_mission_group c target target_plan;
          match created with
          | (_, Err e) => refuse c e
          | (c1, Ok _) =>
              let c2 := update_group target (keep_completed (completed_tasks g)) c1 in
              valid ← validate_mission_group_plan c2 target target_plan;
              match valid with
              | Err e => refuse c e
              | Ok _ =>
                  let c3 := update_group source (fun g => set_lifecycle GlSuperseded
                              (set_superseded_by (Some target) g)) c2 in
                  released ← release_group c3 source;
                  match released with
                  | (_, Err e) => refuse c e
                  | (c4, Ok _) => Some (c4, Ok (completed_tasks g))
                  end
              end
          end
      end
  end.
