(* ===== verification/GroupCheckpoint.v ===== *)
(** * Restored Groups

    [core/control/src/group/checkpoint.rs]: what a restored Control plane checks of its
    Groups, their Role metadata, bindings and recovery commitments. *)

From S2P Require Import Prelude Identity Execution StateModel Session Resource RelationSpec DecisionPolicy.
From S2P Require Import Scheduler SchedulerPolicy Sorting Quota NodeIdentity Capacity.
From S2P Require Import Mission TaskExecution Group ControlPlane Actors GroupLifecycle GroupBinding RoleRecovery.

Open Scope string_scope.

(** ** Superseded Groups *)

(** The walk along [superseded_by]; a Group is visited once, so the number of Groups bounds
    the walk, and an exhausted [fuel] is a cycle. *)
Fixpoint successor_chain (fuel : nat) (c : ControlPlane) (visited : gset ExecutionGroupId)
    (current : ExecutionGroup) : Result unit ControlError :=
  let cycle := Err (InvalidProposal "superseded Group history contains a cycle") in
  match fuel with
  | O => cycle
  | S fuel' =>
      if set_contains (eg_group_id current) visited then cycle else
      match eg_superseded_by current with
      | None => Ok tt
      | Some next =>
          match cp_groups c !! next with
          | None => Err (InvalidProposal "superseded Group chain is incomplete")
          | Some g => successor_chain fuel' c ({[eg_group_id current]} ∪ visited) g
          end
      end
  end.

Definition supersession_check (c : ControlPlane) (g : ExecutionGroup) : Result unit ControlError :=
  if bool_decide (eg_lifecycle g = GlSuperseded)
  then Err (InvalidProposal "incomplete Group supersession cannot be restored") else
  match eg_superseded_by g with
  | None => Ok tt
  | Some target =>
      match cp_groups c !! target with
      | None => Err (InvalidProposal "superseded Group lacks its actual successor")
      | Some successor =>
          if bool_decide (target = eg_group_id g)
             || negb (bool_decide (eg_mission_id successor = eg_mission_id g))
             || negb (bool_decide (eg_lifecycle g = GlReleased))
          then Err (InvalidProposal "invalid superseded Group authority")
          else successor_chain (S (size (cp_groups c))) c {[eg_group_id g]} successor
      end
  end.

(** ** Assignments *)

Definition validate_checkpoint_actor_assignment (c : ControlPlane) (g : ExecutionGroup) (task : TaskRef)
    (role : RoleId) (node : NodeId) : Result unit ControlError :=
  match role_requirement g task role with
  | None => Err (InvalidProposal "checkpoint assignment lacks authoritative role metadata")
  | Some r =>
      match rq_actor_id r with
      | None => Ok tt
      | Some actor =>
          if bool_decide (actor_authority_node c (tr_mission_id task) actor = Some node) then Ok tt
          else Err (InvalidProposal
                 "checkpoint assignment violates Actor binding or placement authority")
      end
  end.

(** Each Role is represented once, by an authoritative Role on its Actor's Node. *)
Fixpoint represent_roles (c : ControlPlane) (g : ExecutionGroup) (task : TaskRef)
    (authoritative : gset RoleId) (error : string) (represented : gset RoleId)
    (l : list (RoleId * NodeId)) : Result (gset RoleId) ControlError :=
  match l with
  | [] => Ok represented
  | (role, node) :: l' =>
      if set_contains role represented || negb (set_contains role authoritative)
      then Err (InvalidProposal error) else
      let? _a := validate_checkpoint_actor_assignment c g task role node in
      represent_roles c g task authoritative error ({[role]} ∪ represented) l'
  end.

Definition authoritative_roles (g : ExecutionGroup) (task : TaskRef) : gset RoleId :=
  list_to_set ((fun kv : TaskRef * RoleId * RoleRequirement => kv.1.2) <$>
    List.filter (fun kv => bool_decide (kv.1.1 = task)) (btree_iter (eg_role_requirements g))).

Definition unbound_of_task (g : ExecutionGroup) (task : TaskRef) : list (RoleId * NodeId) :=
  (fun kv : TaskRef * RoleId * UnboundRole => (kv.1.2, ub_previous_node_id kv.2)) <$>
    List.filter (fun kv => bool_decide (kv.1.1 = task)) (btree_iter (eg_task_unbound_roles g)).

Definition coverage_valid (g : ExecutionGroup) (t : TaskExecution) (authoritative represented : gset RoleId)
  : bool :=
  let exact := bool_decide (represented = authoritative) in
  let empty := (size represented =? 0)%nat in
  let has_recovery := existsb (fun kv : TaskRef * RoleId * UnboundRole =>
                        bool_decide (kv.1.1 = te_task_ref t)) (btree_iter (eg_task_unbound_roles g)) in
  match te_lifecycle t with
  | TlPending => empty
  | TlReady => negb has_recovery && (empty || exact)
  | TlActive | TlBlocked => exact
  | TlAwaitingSatisfaction => negb has_recovery && exact
  | TlCompleted => negb has_recovery
  | TlFailed | TlSatisfactionRejected | TlCancelled => exact
  end.

Definition lifecycle_name (l : TaskExecutionLifecycle) : string :=
  match l with
  | TlPending => "Pending" | TlReady => "Ready" | TlActive => "Active" | TlBlocked => "Blocked"
  | TlAwaitingSatisfaction => "AwaitingSatisfaction" | TlCompleted => "Completed"
  | TlFailed => "Failed" | TlSatisfactionRejected => "SatisfactionRejected"
  | TlCancelled => "Cancelled"
  end.

Definition validate_task_checkpoint_coverage (g : ExecutionGroup) (t : TaskExecution)
    (authoritative represented : gset RoleId) : Result unit ControlError :=
  if bool_decide (eg_lifecycle g = GlReleased) then
    if negb (size represented =? 0)%nat
    then Err (InvalidProposal "Released Mission Group retains TaskExecution bindings") else Ok tt
  else if coverage_valid g t authoritative represented then Ok tt
  else Err (InvalidProposal ("checkpoint TaskExecution " ++ task_ref_text (te_task_ref t)
              ++ " has invalid assignment coverage for " ++ lifecycle_name (te_lifecycle t))).

Definition task_checkpoint_check (c : ControlPlane) (g : ExecutionGroup) (entry : TaskRef * TaskExecution)
  : Result unit ControlError :=
  let '(task, t) := entry in
  if negb (bool_decide (task = te_task_ref t)) || negb (bool_decide (tr_mission_id task = eg_mission_id g))
  then Err (InvalidProposal "checkpoint TaskExecution identity differs from its Group key") else
  if existsb (fun role => negb (contains_key role (te_role_scopes t))) (btree_keys (te_context_roles t))
  then Err (InvalidProposal "checkpoint TaskExecution continuity references an unknown role") else
  if negb (bool_decide (dom (te_role_scopes t) = authoritative_roles g task))
  then Err (InvalidProposal "checkpoint TaskExecution lacks exact authoritative role metadata") else
  let? bound := represent_roles c g task (authoritative_roles g task)
                  "checkpoint TaskExecution contains an unknown or duplicate assignment" ∅
                  ((fun a => (as_role_id a, as_node_id a)) <$> te_assignments t) in
  let? represented := represent_roles c g task (authoritative_roles g task)
                        "checkpoint Task recovery contains an unknown or duplicate role" bound
                        (unbound_of_task g task) in
  validate_task_checkpoint_coverage g t (authoritative_roles g task) represented.

Definition validate_mission_group_checkpoint (c : ControlPlane) (g : ExecutionGroup)
  : Result unit ControlError :=
  if negb (length (eg_assignments g) =? 0)%nat || negb (size (eg_unbound_roles g) =? 0)%nat
  then Err (InvalidProposal "Mission-level Group checkpoint contains legacy role state") else
  let? _t := try_for (task_checkpoint_check c g) (btree_iter (eg_task_executions g)) in
  let? _r := try_for (fun kv : TaskRef * RoleId * RoleRequirement =>
               if negb (bool_decide (rq_role_id kv.2 = kv.1.2)) || is_none (task_execution g kv.1.1)
                  || negb (bool_decide (tr_mission_id kv.1.1 = eg_mission_id g))
               then Err (InvalidProposal "checkpoint Group contains orphan authoritative role metadata")
               else Ok tt) (btree_iter (eg_role_requirements g)) in
  try_for (fun key : TaskRef * RoleId =>
    if is_none (role_requirement g key.1 key.2)
    then Err (InvalidProposal "checkpoint Group contains orphan Task recovery state") else Ok tt)
    (btree_keys (eg_task_unbound_roles g)).

(** ** Legacy Groups *)

Fixpoint legacy_roles (c : ControlPlane) (g : ExecutionGroup) (error : string)
    (represented : gset RoleId) (l : list (RoleId * NodeId)) : Result (gset RoleId) ControlError :=
  match l with
  | [] => Ok represented
  | (role, node) :: l' =>
      if set_contains role represented then Err (InvalidProposal error) else
      let? _a := if (size (eg_role_requirements g) =? 0)%nat then Ok tt
                 else validate_checkpoint_actor_assignment c g (eg_task_ref g) role node in
      legacy_roles c g error ({[role]} ∪ represented) l'
  end.

Definition validate_legacy_group_checkpoint (c : ControlPlane) (g : ExecutionGroup)
  : Result unit ControlError :=
  if negb (size (eg_task_unbound_roles g) =? 0)%nat || negb (size (eg_context_bindings g) =? 0)%nat
  then Err (InvalidProposal "legacy Group checkpoint contains Mission-local binding state") else
  let? _r := try_for (fun kv : TaskRef * RoleId * RoleRequirement =>
               if negb (bool_decide (kv.1.1 = eg_task_ref g)) || negb (bool_decide (kv.1.2 = rq_role_id kv.2))
               then Err (InvalidProposal "legacy Group checkpoint contains mismatched role metadata")
               else Ok tt) (btree_iter (eg_role_requirements g)) in
  let? bound := legacy_roles c g "legacy Group checkpoint contains a duplicate Role assignment" ∅
                  ((fun a => (as_role_id a, as_node_id a)) <$> eg_assignments g) in
  let? _u := legacy_roles c g "legacy Group checkpoint Role is both bound and unbound" bound
               ((fun kv => (kv.1, ub_previous_node_id kv.2)) <$> btree_iter (eg_unbound_roles g)) in
  Ok tt.

(** ** Recovery commitments *)

Definition commitment_checkpoint_check (c : ControlPlane) (k : CommittedRecoveryAssignment)
  : Result unit ControlError :=
  match cp_groups c !! rc_group_id k with
  | None => Err (InvalidProposal "checkpoint recovery commitment references an unknown Group")
  | Some g =>
      let mission := tr_mission_id (rc_task_ref k) in
      match recovery_unbound_role g (rc_task_ref k) (rc_role_id k) with
      | None => Err (InvalidProposal "checkpoint recovery commitment has no exact unbound Task/Role")
      | Some u =>
          if negb (bool_decide (ub_previous_node_id u = rc_previous_node_id k))
          then Err (InvalidProposal "checkpoint recovery commitment differs from its previous owner") else
          let role := role_requirement g (rc_task_ref k) (rc_role_id k) in
          let actor := r ← role; rq_actor_id r in
          if negb (size (eg_task_executions g) =? 0)%nat && is_none role
          then Err (InvalidProposal
                 "checkpoint recovery commitment lacks authoritative role metadata") else
          if is_some_and (fun a => is_none (rc_actor_takeover k)
                && negb (bool_decide (actor_authority_node c mission a = Some (rc_replacement_node_id k))))
               actor
          then Err (InvalidProposal "checkpoint recovery commitment violates Actor authority") else
          match rc_actor_takeover k with
          | None => Ok tt
          | Some a =>
              match actor with
              | None => Err (InvalidProposal "checkpoint takeover commitment has no Actor role")
              | Some actor_id =>
                  match actor_binding c mission actor_id with
                  | None => Err (InvalidProposal "checkpoint takeover commitment has no ActorBinding")
                  | Some b =>
                      if negb (bool_decide (at_actor_id a = actor_id))
                         || negb (bool_decide (at_group_id a = rc_group_id k))
                         || negb (bool_decide (at_task_ref a = rc_task_ref k))
                         || negb (bool_decide (at_role_id a = rc_role_id k))
                         || negb (bool_decide (at_previous_node_id a = ab_node_id b))
                         || negb (bool_decide (at_replacement_node_id a = rc_replacement_node_id k))
                      then Err (InvalidProposal "checkpoint takeover commitment violates Actor authority")
                      else Ok tt
                  end
              end
          end
      end
  end.

(** ** All Groups *)

Definition group_checkpoint_check `{Serde} (c : ControlPlane) (g : ExecutionGroup)
  : option (Result unit ControlError) :=
  match (let? _s := supersession_check c g in
         let? _m := try_for (fun r => result_map_err InvalidProposal
                      (MemoryRequirement_validate_set (rq_memories r)))
                      (btree_values (eg_role_requirements g)) in
         if negb (bool_decide (tr_mission_id (eg_task_ref g) = eg_mission_id g))
         then Err (InvalidProposal "checkpoint Group task belongs to another Mission") else
         if negb (size (eg_task_executions g) =? 0)%nat then validate_mission_group_checkpoint c g
         else validate_legacy_group_checkpoint c g) with
  | Err e => Some (Err e)
  | Ok _ => validate_membership_version g
  end.

Fixpoint group_checkpoints `{Serde} (c : ControlPlane) (l : list ExecutionGroup)
  : option (Result unit ControlError) :=
  match l with
  | [] => Some (Ok tt)
  | g :: l' =>
      r ← group_checkpoint_check c g;
      match r with Err e => Some (Err e) | Ok _ => group_checkpoints c l' end
  end.

Definition validate_group_checkpoint_authority `{Serde} (c : ControlPlane)
  : option (Result unit ControlError) :=
  groups ← group_checkpoints c (btree_values (cp_groups c));
  Some (let? _g := groups in
        try_for (commitment_checkpoint_check c) (btree_values (cp_pending_recovery_commitments c))).
