(* ===== verification/ControlSteps.v ===== *)
(** * Steps of the Control plane

    Every operation on Groups, bindings, the calendar and Actors as one step relation, and
    what a step does to the Groups: identities and Role metadata never change, and Tasks and
    Groups only move along their lifecycles. *)

From S2P Require Import Prelude Identity Execution Session StateModel Resource RelationSpec DecisionPolicy.
From S2P Require Import Scheduler SchedulerPolicy Sorting NodeIdentity NodeState Quota Capacity.
From S2P Require Import Mission TaskExecution Group ControlPlane Actors GroupLifecycle GroupBinding GroupRelease.
From S2P Require Import RoleRecovery.

(** ** Lifecycles *)

Inductive task_move : TaskExecutionLifecycle -> TaskExecutionLifecycle -> Prop :=
| tm_ready : task_move TlPending TlReady
| tm_activate : task_move TlReady TlActive
| tm_complete : task_move TlActive TlAwaitingSatisfaction
| tm_satisfy : task_move TlAwaitingSatisfaction TlCompleted
| tm_reject : task_move TlAwaitingSatisfaction TlSatisfactionRejected
| tm_fail l : l ∈ [TlActive; TlBlocked; TlAwaitingSatisfaction] -> task_move l TlFailed.

Inductive group_move : GroupLifecycle -> GroupLifecycle -> Prop :=
| gm_activate l : l ∈ [GlBound; GlAdapted] -> group_move l GlActive
| gm_block l : l ∈ [GlBound; GlActive; GlAdapted] -> group_move l GlBlocked
| gm_complete l : l ∈ [GlActive; GlAdapted] -> group_move l GlCompleted
| gm_adapt : group_move GlBlocked GlAdapted
| gm_fail : group_move GlBlocked GlFailed
| gm_supersede : group_move GlBlocked GlSuperseded
| gm_release l : l ∈ [GlCompleted; GlFailed; GlSuperseded] -> group_move l GlReleased.

(** One Task and one Group before and after. *)
Record task_refines (t t' : TaskExecution) : Prop := MkTaskRefines {
  tf_identity : te_task_ref t' = te_task_ref t /\ te_context_id t' = te_context_id t /\
    te_coupling_mode t' = te_coupling_mode t /\ te_role_scopes t' = te_role_scopes t /\
    te_context_roles t' = te_context_roles t;
  tf_lifecycle : rtc task_move (te_lifecycle t) (te_lifecycle t')
}.

Definition executions_refine (m m' : gmap TaskRef TaskExecution) : Prop :=
  dom m' = dom m /\
  forall task t, m !! task = Some t -> exists t', m' !! task = Some t' /\ task_refines t t'.

Record group_refines (g g' : ExecutionGroup) : Prop := MkGroupRefines {
  gf_identity : eg_group_id g' = eg_group_id g /\ eg_mission_id g' = eg_mission_id g /\
    eg_task_ref g' = eg_task_ref g;
  gf_requirements : eg_role_requirements g' = eg_role_requirements g /\
    eg_context_resource_envelopes g' = eg_context_resource_envelopes g;
  gf_lifecycle : rtc group_move (eg_lifecycle g) (eg_lifecycle g');
  gf_executions : executions_refine (eg_task_executions g) (eg_task_executions g')
}.

Definition groups_refine (m m' : gmap ExecutionGroupId ExecutionGroup) : Prop :=
  forall id g, m !! id = Some g -> exists g', m' !! id = Some g' /\ group_refines g g'.

#[export] Instance task_refines_preorder : PreOrder task_refines.
Proof.
  split; [by intros t; split; [split_and!|reflexivity]|].
  intros t1 t2 t3 [H1 L1] [H2 L2]. split; [destruct_and!; split_and!; congruence|by transitivity (te_lifecycle t2)].
Qed.

#[export] Instance executions_refine_preorder : PreOrder executions_refine.
Proof.
  split.
  - intros m. split; [done|]. intros task t E. exists t. by split.
  - intros m1 m2 m3 [D1 H1] [D2 H2]. split; [by rewrite D2|]. intros task t E.
    apply H1 in E as (t2 & E2 & R2). apply H2 in E2 as (t3 & E3 & R3).
    exists t3. split; [done|]. by transitivity t2.
Qed.

#[export] Instance group_refines_preorder : PreOrder group_refines.
Proof.
  split; [by intros g; split; [split_and!..|reflexivity|reflexivity]|].
  intros g1 g2 g3 [I1 R1 L1 E1] [I2 R2 L2 E2].
  split; [destruct_and!; split_and!; congruence..|by transitivity (eg_lifecycle g2)|].
  by transitivity (eg_task_executions g2).
Qed.

#[export] Instance groups_refine_preorder : PreOrder groups_refine.
Proof.
  split.
  - intros m id g E. exists g. by split.
  - intros m1 m2 m3 H1 H2 id g E. apply H1 in E as (g2 & E2 & R2). apply H2 in E2 as (g3 & E3 & R3).
    exists g3. split; [done|]. by transitivity g2.
Qed.

(** ** Building refinements *)

Lemma task_refines_lifecycle t l : task_move (te_lifecycle t) l -> task_refines t (with_lifecycle t l).
Proof. intros H. split; [done|]. by apply rtc_once. Qed.

Lemma task_refines_assignments t l : task_refines t (with_assignments t l).
Proof. split; [done|]. reflexivity. Qed.

Lemma executions_refine_insert m task t t' : m !! task = Some t -> task_refines t t' ->
  executions_refine m (<[task := t']> m).
Proof.
  intros E R. split; [rewrite dom_insert_L; apply elem_of_dom_2 in E; set_solver|].
  intros k u Ek. destruct (decide (k = task)) as [->|].
  - rewrite lookup_insert_eq. exists t'. rewrite E in Ek. by simplify_eq.
  - exists u. rewrite lookup_insert_ne by done. by split.
Qed.

Lemma executions_refine_fmap m (f : TaskExecution -> TaskExecution) :
  (forall t, task_refines t (f t)) -> executions_refine m (f <$> m).
Proof.
  intros H. split; [apply dom_fmap_L|]. intros task t E. exists (f t). by rewrite lookup_fmap, E.
Qed.

(** The Group differs in bindings and version only. *)
Definition same_frame (g g' : ExecutionGroup) : Prop :=
  eg_group_id g' = eg_group_id g /\ eg_mission_id g' = eg_mission_id g /\
  eg_task_ref g' = eg_task_ref g /\ eg_role_requirements g' = eg_role_requirements g /\
  eg_context_resource_envelopes g' = eg_context_resource_envelopes g.

Lemma group_refines_intro g g' : same_frame g g' -> rtc group_move (eg_lifecycle g) (eg_lifecycle g') ->
  executions_refine (eg_task_executions g) (eg_task_executions g') -> group_refines g g'.
Proof. intros (? & ? & ? & ? & ?) ? ?. by split. Qed.

Lemma groups_refine_insert m id g g' : m !! id = Some g -> group_refines g g' ->
  groups_refine m (<[id := g']> m).
Proof.
  intros E R k u Ek. destruct (decide (k = id)) as [->|].
  - rewrite lookup_insert_eq. exists g'. rewrite E in Ek. by simplify_eq.
  - exists u. rewrite lookup_insert_ne by done. by split.
Qed.

Lemma groups_refine_fresh m id g' : m !! id = None -> groups_refine m (<[id := g']> m).
Proof.
  intros E k u Ek. exists u. split; [|reflexivity]. rewrite lookup_insert_ne; [done|]. by intros ->; congruence.
Qed.

Section Membership.
Context `{Serde}.

Lemma refresh_membership_inv g g' r : refresh_membership g = Some (g', r) ->
  exists v, g' = set_membership v g /\ (r = Ok tt \/
    r = Err (InvalidProposal "Group membership generation exhausted") /\ g' = g).
Proof.
  unfold refresh_membership. intros (d & Ed & E)%bind_Some.
  destruct g as [sb mv gi mi tr asg ub tu lf te rr cb en]. simpl in *.
  destruct mv as [v|]; [|simplify_eq; by exists None; split; [|left]].
  destruct (d =? gm_bindings_digest v)%string; [simplify_eq; by exists (Some v); split; [|left]|].
  destruct (u64_checked_add _ _); simplify_eq; [by eexists; split; [|left]|].
  exists (Some v). split; [done|]. by right.
Qed.

Lemma commit_membership_inv {A} id g e (v : A) c c' r :
  commit_membership id g e v c = Some (c', r) ->
  exists mv, cp_groups c' = <[id := set_membership mv g]> (cp_groups c) /\
    c' = (if is_ok r then log_event e else fun c => c) (put_group id (set_membership mv g) c) /\
    (r = Ok v \/ exists error, r = Err error).
Proof.
  unfold commit_membership. intros ([g1 res] & E & Hr)%bind_Some.
  apply refresh_membership_inv in E as (mv & -> & _). exists mv.
  destruct res; simplify_eq; split_and!; eauto.
Qed.

Lemma group_refines_membership g v : group_refines g (set_membership v g).
Proof. by split; [split_and!..|reflexivity|reflexivity]. Qed.

Lemma commit_membership_refines {A} id g g1 e (v : A) c c1 c' r :
  commit_membership id g1 e v c1 = Some (c', r) -> cp_groups c1 = cp_groups c ->
  cp_groups c !! id = Some g -> group_refines g g1 -> groups_refine (cp_groups c) (cp_groups c').
Proof.
  intros (mv & -> & _)%commit_membership_inv Hc Hg R. rewrite Hc.
  apply (groups_refine_insert _ _ g); [done|]. transitivity g1; [done|]. apply group_refines_membership.
Qed.
End Membership.

Lemma find_group_Ok c id g : find_group c id = Ok g <-> cp_groups c !! id = Some g.
Proof. unfold find_group. destruct (cp_groups c !! id); naive_solver. Qed.

Lemma find_execution_Ok g task reason t :
  find_execution g task reason = Ok t <-> eg_task_executions g !! task = Some t.
Proof. unfold find_execution, task_execution. destruct (eg_task_executions g !! task); naive_solver. Qed.

Lemma one_of_true {A} `{EqDecision A} (l : list A) x : one_of l x = true <-> x ∈ l.
Proof.
  unfold one_of. rewrite existsb_exists. split.
  - intros (y & Hy%list_elem_of_In & Hb). by apply bool_decide_eq_true in Hb as ->.
  - intros Hx. exists x. split; [by apply list_elem_of_In|by apply bool_decide_eq_true].
Qed.

(** ** Operations leave the Groups related *)

Ltac refused := intros; simplify_eq; reflexivity.

(** Case analysis of the outermost [let?] and conditionals of a successful check. *)
Ltac inv_check H :=
  repeat (simpl in H; match type of H with
  | Err _ = Ok _ => discriminate H
  | context [match ?r with Ok _ => _ | Err _ => Err _ end] =>
      let E := fresh "E" in destruct r eqn:E; try discriminate H
  | context [if ?b then Err _ else _] =>
      let E := fresh "E" in destruct b eqn:E; try discriminate H
  end).

Definition steps_refine {A} (c : ControlPlane) (s : ControlStep A) : Prop :=
  forall c' r, s = Some (c', r) -> groups_refine (cp_groups c) (cp_groups c').

Lemma advance_task_refines c group task from reason to e :
  (forall l, l ∈ from -> task_move l to) -> steps_refine c (advance_task c group task from reason to e).
Proof.
  intros Hm c' r. unfold advance_task, refuse.
  destruct (find_group c group) as [g|] eqn:Hg; simpl; [|refused].
  destruct (find_execution g task _) as [t|] eqn:Ht; simpl; [|refused].
  apply find_group_Ok in Hg. apply find_execution_Ok in Ht.
  destruct (one_of from (te_lifecycle t)) eqn:Hf; simpl; intros; simplify_eq; [|reflexivity].
  apply one_of_true in Hf. apply (groups_refine_insert _ _ g); [done|].
  apply group_refines_intro; [done|reflexivity|]. simpl.
  apply (executions_refine_insert _ _ t); [done|]. by apply task_refines_lifecycle, Hm.
Qed.

Lemma advance_group_refines c group from check to e :
  (forall l, l ∈ from -> group_move l to) -> steps_refine c (advance_group c group from check to e).
Proof.
  intros Hm c' r. unfold advance_group, refuse.
  destruct (find_group c group) as [g|] eqn:Hg; simpl; [|refused]. apply find_group_Ok in Hg.
  destruct (one_of from (eg_lifecycle g)) eqn:Hf; simpl; [|refused]. apply one_of_true in Hf.
  destruct (check g); intros; simplify_eq; [|reflexivity].
  apply (groups_refine_insert _ _ g); [done|].
  apply group_refines_intro; [done|apply rtc_once, Hm, Hf|reflexivity].
Qed.

Lemma set_calendar_groups m v c : cp_groups (set_calendar m v c) = cp_groups c.
Proof. done. Qed.

Lemma activate_scheduled_task_groups c task : cp_groups (activate_scheduled_task c task) = cp_groups c.
Proof. unfold activate_scheduled_task. by destruct (scheduled_task c task) as [r|]; [destruct (bool_decide _)|]. Qed.

Lemma activate_task_execution_refines c group task now :
  steps_refine c (activate_task_execution c group task now).
Proof.
  intros c' r. unfold activate_task_execution, refuse.
  destruct (activation_check c group task now) as [[[schedule g] t]|] eqn:Hc; [|refused].
  unfold activation_check in Hc. inv_check Hc. simplify_eq.
  rename select (find_group c group = _) into Hg. apply find_group_Ok in Hg.
  rename select (find_execution g task _ = _) into Ht. apply find_execution_Ok in Ht.
  rename select (negb (bool_decide (te_lifecycle t = TlReady)) = false) into Hl.
  apply negb_false_iff, bool_decide_eq_true in Hl.
  set (g1 := put_execution task (with_lifecycle t TlActive) g).
  set (g2 := if one_of _ (eg_lifecycle g1) then _ else g1).
  assert (groups_refine (cp_groups c) (<[group := g2]> (cp_groups c))) as R.
  { apply (groups_refine_insert _ _ g); [done|].
    assert (group_refines g g1) as R1.
    { apply group_refines_intro; [done|reflexivity|].
      apply (executions_refine_insert _ _ t); [done|].
      apply task_refines_lifecycle. rewrite Hl. constructor. }
    transitivity g1; [done|]. subst g2.
    destruct (one_of _ (eg_lifecycle g1)) eqn:Ho; [|reflexivity]. apply one_of_true in Ho.
    apply group_refines_intro; [done|apply rtc_once; by constructor|reflexivity]. }
  destruct schedule; intros; simplify_eq; simpl; [rewrite activate_scheduled_task_groups|]; exact R.
Qed.

Lemma task_release_check_Ok c group task ids g t : task_release_check c group task ids = Ok (g, t) ->
  cp_groups c !! group = Some g /\ eg_task_executions g !! task = Some t /\
  task_terminal (te_lifecycle t) = true /\
  try_for (task_resource_check c group task) (task_resources t) = Ok tt.
Proof.
  unfold task_release_check. intros H. inv_check H. simplify_eq.
  repeat match goal with u : unit |- _ => destruct u end.
  split_and!; [by apply find_group_Ok|by eapply find_execution_Ok| |done].
  by apply negb_false_iff.
Qed.

Lemma without_context_refines resources t : task_refines t (without_context resources t).
Proof. apply task_refines_assignments. Qed.

Section Serde.
Context `{Serde}.

Lemma release_task_bindings_refines c group task ids :
  steps_refine c (release_task_bindings c group task ids).
Proof.
  intros c' r. unfold release_task_bindings, refuse.
  destruct (task_release_check c group task ids) as [[g t]|] eqn:Hc; [|refused].
  apply task_release_check_Ok in Hc as (Hg & Ht & _). intros E.
  eapply commit_membership_refines; [exact E|done|exact Hg|].
  apply group_refines_intro; [done|reflexivity|].
  apply (executions_refine_insert _ _ t); [done|]. apply task_refines_assignments.
Qed.

Lemma release_context_bindings_refines c group context :
  steps_refine c (release_context_bindings c group context).
Proof.
  intros c' r. unfold release_context_bindings, refuse.
  destruct (find_group c group) as [g|] eqn:Hg; [|refused]. apply find_group_Ok in Hg.
  destruct (try_for _ _); [|refused]. intros E.
  eapply commit_membership_refines; [exact E|done|exact Hg|].
  apply group_refines_intro; [done|reflexivity|]. simpl. apply executions_refine_fmap. intros t.
  destruct (bool_decide _); [apply without_context_refines|reflexivity].
Qed.

Lemma blocked_group_Ok c group g : blocked_group c group = Ok g ->
  cp_groups c !! group = Some g /\ eg_lifecycle g = GlBlocked.
Proof.
  unfold blocked_group. intros Hc. destruct (find_group c group) as [g0|] eqn:Hg; [|done].
  apply find_group_Ok in Hg. simpl in Hc. case_bool_decide; by simplify_eq.
Qed.

Lemma release_role_binding_refines c group role : steps_refine c (release_role_binding c group role).
Proof.
  intros c' r. unfold release_role_binding, refuse.
  destruct (blocked_group c group) as [g|] eqn:Hg; [|refused]. apply blocked_group_Ok in Hg as [Hg _].
  destruct (find_assignment _ _ _) as [[index a]|]; [|refused].
  destruct (try_for _ _); [|refused]. intros E.
  eapply commit_membership_refines; [exact E|done|exact Hg|].
  apply group_refines_intro; [done|reflexivity|reflexivity].
Qed.

Lemma task_role_release_check_Ok c group task role g t index a :
  task_role_release_check c group task role = Ok (g, t, index, a) ->
  cp_groups c !! group = Some g /\ eg_lifecycle g = GlBlocked /\
  eg_task_executions g !! task = Some t /\ find_assignment 0 role (te_assignments t) = Some (index, a) /\
  try_for (task_role_check c group task role) (as_resource_ids a) = Ok tt.
Proof.
  unfold task_role_release_check. intros Hc. inv_check Hc.
  destruct (find_assignment _ _ _) as [[i b]|] eqn:Hf; [|done]. inv_check Hc. simplify_eq.
  repeat match goal with u : unit |- _ => destruct u end.
  rename select (blocked_group _ _ = _) into Hb. apply blocked_group_Ok in Hb as [? ?].
  split_and!; try done. by eapply find_execution_Ok.
Qed.

Lemma release_task_role_binding_refines c group task role :
  steps_refine c (release_task_role_binding c group task role).
Proof.
  intros c' r. unfold release_task_role_binding, refuse.
  destruct (task_role_release_check c group task role) as [[[[g t] index] a]|] eqn:Hc; [|refused].
  apply task_role_release_check_Ok in Hc as (Hg & _ & Ht & _). intros E.
  eapply commit_membership_refines; [exact E|done|exact Hg|].
  apply group_refines_intro; [done|reflexivity|].
  apply (executions_refine_insert _ _ t); [done|]. apply task_refines_assignments.
Qed.

Lemma group_release_check_Ok c group g resources pending :
  group_release_check c group = Some (Ok (g, resources, pending)) ->
  cp_groups c !! group = Some g /\ eg_lifecycle g ∈ [GlCompleted; GlFailed; GlSuperseded] /\
  exists m, expected_resources c g group = Ok (m, pending) /\
    try_for (expected_owned c g group) (btree_iter m) = Ok tt /\
    validate_capacity_checkpoint c = Some (Ok tt) /\
    try_for (reservation_expected g group m) (reservations_of_group c group) = Ok tt /\
    resources = sorted_distinct ((reservations_of_group c group).*1 ++ allocated_resources c group)%list.
Proof.
  unfold group_release_check. destruct (find_group c group) as [g0|] eqn:Hg; [|done].
  apply find_group_Ok in Hg.
  destruct (one_of _ (eg_lifecycle g0)) eqn:Ho; simpl; [|done]. apply one_of_true in Ho.
  destruct (expected_resources c g0 group) as [[m pend]|] eqn:He; simpl; [|done].
  destruct (try_for (expected_owned c g0 group) (btree_iter m)) as [[]|] eqn:Ht; simpl; [|done].
  destruct (validate_capacity_checkpoint c) as [[[]|]|] eqn:Hv; simpl; [|done|done].
  destruct (try_for (reservation_expected g0 group m) _) as [[]|] eqn:Hr; simpl; [|done].
  intros; simplify_eq. eauto 10.
Qed.

Lemma emptied_refines g : eg_lifecycle g ∈ [GlCompleted; GlFailed; GlSuperseded] ->
  group_refines g (emptied g).
Proof.
  intros Hl. apply group_refines_intro; [done|apply rtc_once; by constructor|].
  apply executions_refine_fmap. intros t. apply task_refines_assignments.
Qed.

Lemma release_group_refines c group : steps_refine c (release_group c group).
Proof.
  intros c' r. unfold release_group, refuse.
  intros ([[[g resources] pending]|e] & Hc & E)%bind_Some; [|by simplify_eq].
  apply group_release_check_Ok in Hc as (Hg & Hl & _).
  eapply commit_membership_refines; [exact E|done|exact Hg|]. by apply emptied_refines.
Qed.

Lemma foldl_log_groups {A} (e : A -> ControlEvent) l c :
  cp_groups (foldl (fun c x => log_event (e x) c) c l) = cp_groups c.
Proof. revert c. induction l as [|x l IH]; intros c; simpl; [done|]. by rewrite IH. Qed.

Lemma register_semantics_groups c mission semantics c1 :
  register_mission_binding_semantics c mission semantics = Ok c1 -> cp_groups c1 = cp_groups c.
Proof.
  unfold register_mission_binding_semantics.
  destruct (mission_binding_semantics c mission); [destruct (bool_decide _)|]; by intros; simplify_eq.
Qed.

Lemma create_mission_group_inv c group p c' r : create_mission_group c group p = Some (c', r) ->
  (exists e, c' = c /\ r = Err e) \/
  exists g, r = Ok g /\ mission_group group p = Some g /\ cp_groups c !! group = None /\
    cp_groups c' = <[group := g]> (cp_groups c).
Proof.
  unfold create_mission_group, refuse.
  destruct (contains_key group (cp_groups c)) eqn:Hk; [intros; simplify_eq; eauto|].
  intros (semantics & Hs & E)%bind_Some.
  destruct (register_mission_binding_semantics _ _ _) as [c1|] eqn:Hr; [|simplify_eq; eauto].
  apply bind_Some in E as (g & Hg & E). simplify_eq. right. exists g.
  rewrite foldl_log_groups. simpl. rewrite (register_semantics_groups _ _ _ _ Hr).
  split_and!; try done. unfold contains_key in Hk. by destruct (cp_groups c !! group).
Qed.

Lemma create_mission_group_refines c group p : steps_refine c (create_mission_group c group p).
Proof.
  intros c' r [(e & -> & _)|(g & _ & _ & Hn & ->)]%create_mission_group_inv; [reflexivity|].
  by apply groups_refine_fresh.
Qed.

Lemma commit_resource_quotas_groups c mission demands c1 :
  commit_resource_quotas c mission demands = Ok c1 -> cp_groups c1 = cp_groups c.
Proof.
  unfold commit_resource_quotas. destruct (_ =? 0)%nat; [by intros; simplify_eq|].
  intros Hc. inv_check Hc. by simplify_eq.
Qed.

Lemma commit_ledgers_groups c p capacity c1 : commit_ledgers c p capacity = Ok c1 ->
  cp_groups c1 = cp_groups c.
Proof.
  unfold commit_ledgers. destruct capacity as [[ledger quota]|].
  - destruct (u64_checked_add _ _); by intros; simplify_eq.
  - intros Hc. destruct (proposal_quota_demands p); [|done]. by eapply commit_resource_quotas_groups.
Qed.

Lemma commit_for_group_groups c group p capacity now c' r :
  commit_for_group_validated c group p capacity now = Some (c', r) -> cp_groups c' = cp_groups c.
Proof.
  unfold commit_for_group_validated, refuse.
  destruct (commit_check _ _ _ _ _); [|by intros; simplify_eq].
  intros ([l|] & _ & E)%bind_Some; [|by simplify_eq].
  apply bind_Some in E as (entries & _ & E).
  destruct (try_for _ entries); simpl in E; [|by simplify_eq].
  destruct (commit_ledgers c p capacity) as [c1|] eqn:Hl; [|by simplify_eq].
  simplify_eq. simpl. by eapply commit_ledgers_groups.
Qed.

Lemma bind_reservation_groups c resource group task role :
  cp_groups (bind_reservation c resource group task role) = cp_groups c.
Proof. unfold bind_reservation. by destruct (cp_reservations c !! resource). Qed.

Lemma foldl_groups {A} (f : ControlPlane -> A -> ControlPlane) l c :
  (forall c x, cp_groups (f c x) = cp_groups c) -> cp_groups (foldl f c l) = cp_groups c.
Proof. intros Hf. revert c. induction l as [|x l IH]; intros c; simpl; [done|]. by rewrite IH. Qed.

Lemma record_actor_groups task group c entry : cp_groups (record_actor task group c entry) = cp_groups c.
Proof. unfold record_actor. by destruct (contains_key _ _). Qed.

Lemma bind_check_Ok c group plan g t actors : bind_check c group plan = Ok (g, t, actors) ->
  cp_groups c !! group = Some g /\ eg_task_executions g !! pl_task_ref plan = Some t /\
  te_lifecycle t = TlReady /\ te_assignments t = [] /\
  validate_task_assignments t (pl_assignments plan) = Ok tt /\
  try_for (bind_resource_check c t group (pl_task_ref plan)) (assigned_resources (pl_assignments plan))
    = Ok tt.
Proof.
  unfold bind_check. intros Hc. inv_check Hc. simplify_eq.
  repeat match goal with u : unit |- _ => destruct u end.
  repeat match goal with E : negb _ = false |- _ => apply negb_false_iff in E end.
  split_and!; try done; [by apply find_group_Ok|by eapply find_execution_Ok| |].
  - rename select (bool_decide (te_lifecycle t = _) = true) into Hl. by apply bool_decide_eq_true in Hl.
  - rename select ((length (te_assignments t) =? 0)%nat = true) into Hl.
    apply Nat.eqb_eq in Hl. by destruct (te_assignments t).
Qed.

Lemma bind_task_execution_refines c group plan :
  steps_refine c (bind_task_execution_validated c group plan).
Proof.
  intros c' r. unfold bind_task_execution_validated, refuse.
  destruct (bind_check c group plan) as [[[g t] actors]|] eqn:Hb; [|refused].
  apply bind_check_Ok in Hb as (Hg & Ht & _).
  intros ([[]|] & _ & E)%bind_Some; [|by simplify_eq].
  apply bind_Some in E as ([c2 res] & Hc & E).
  assert (groups_refine (cp_groups c) (cp_groups c2)) as R.
  { eapply commit_membership_refines; [exact Hc| |exact Hg|].
    - apply foldl_groups. intros. apply bind_reservation_groups.
    - apply group_refines_intro; [done|reflexivity|].
      apply (executions_refine_insert _ _ t); [done|]. apply task_refines_assignments. }
  destruct res; simplify_eq; [|done]. rewrite foldl_groups; [done|]. intros. apply record_actor_groups.
Qed.

Lemma begin_role_recovery_refines c need : steps_refine c (begin_role_recovery c need).
Proof.
  intros c' r. unfold begin_role_recovery, refuse.
  match goal with |- match ?x with _ => _ end = _ -> _ => destruct x as [task_scoped|] end; [|refused].
  intros ([c1 b] & Hb & E)%bind_Some.
  assert (groups_refine (cp_groups c) (cp_groups c1)) as R1.
  { eapply advance_group_refines; [|exact Hb]. intros l Hl. by constructor. }
  destruct b; [|by simplify_eq]. apply bind_Some in E as ([c2 b] & Hr & E).
  assert (groups_refine (cp_groups c1) (cp_groups c2)) as R2.
  { destruct task_scoped; [by eapply release_task_role_binding_refines|by eapply release_role_binding_refines]. }
  destruct b; simplify_eq; by transitivity (cp_groups c1).
Qed.

Lemma begin_execution_recovery_refines c group task role node :
  steps_refine c (begin_execution_recovery c group task role node).
Proof.
  intros c' r. unfold begin_execution_recovery, refuse.
  destruct (validate_role_recovery_release c _); [|refused].
  intros ([c1 b] & Hb & E)%bind_Some. apply begin_role_recovery_refines in Hb.
  by destruct b; simplify_eq.
Qed.

Lemma reserve_replacement_groups p now c resource :
  cp_groups (reserve_replacement p now c resource) = cp_groups c.
Proof. unfold reserve_replacement. destruct (is_some _); [apply bind_reservation_groups|done]. Qed.

Lemma commit_role_recovery_groups `{NodeView} c requirement p now c' r :
  commit_role_recovery c requirement p now = Some (c', r) -> cp_groups c' = cp_groups c.
Proof.
  unfold commit_role_recovery, refuse.
  destruct (recovery_commit_check c requirement p now) as [[[previous quantity] demands]|];
    [|by intros; simplify_eq].
  match goal with |- context [match ?x with Ok _ => _ | Err _ => _ end] => destruct x as [c1|] eqn:El end;
    [|by intros; simplify_eq].
  intros. simplify_eq. simpl. rewrite foldl_groups by apply reserve_replacement_groups.
  destruct quantity as [[]|]; [by simplify_eq|by eapply commit_resource_quotas_groups].
Qed.

Lemma abort_groups c k c' r : abort_role_recovery_commitment c k = Some (c', r) ->
  cp_groups c' = cp_groups c.
Proof.
  unfold abort_role_recovery_commitment, refuse.
  match goal with |- context [match ?x with Ok _ => _ | Err _ => _ end] => destruct x end;
    by intros; simplify_eq.
Qed.

Lemma rebind_check_Ok c k g u takeover : rebind_check c k = Ok (g, u, takeover) ->
  cp_groups c !! rc_group_id k = Some g /\ eg_lifecycle g = GlBlocked /\
  validate_pending_recovery_commitment c k = Ok tt /\
  recovery_unbound_role g (rc_task_ref k) (rc_role_id k) = Some u.
Proof.
  unfold rebind_check. intros Hc. inv_check Hc.
  all: repeat match goal with u : unit |- _ => destruct u end.
  all: rename select (blocked_group _ _ = _) into Hb; apply blocked_group_Ok in Hb as [? ?].
  all: destruct (recovery_unbound_role _ _ _) as [u0|] eqn:Hu; [|done]; inv_check Hc.
  destruct (rc_actor_takeover k); inv_check Hc; simplify_eq; by split_and!.
Qed.

Lemma rebound_group_refines g u k g1 : rebound_group g u k = Ok g1 ->
  eg_lifecycle g = GlBlocked -> group_refines g (set_lifecycle GlAdapted g1).
Proof.
  intros Hr Hl. unfold rebound_group, task_execution in Hr.
  assert (rtc group_move (eg_lifecycle g) GlAdapted) as Hm by (rewrite Hl; apply rtc_once; constructor).
  destruct (eg_task_executions g !! rc_task_ref k) as [t|] eqn:Ht; inv_check Hr; simplify_eq.
  - apply group_refines_intro; [done|done|]. apply (executions_refine_insert _ _ t); [done|].
    apply task_refines_assignments.
  - apply group_refines_intro; [done|done|reflexivity].
Qed.

Lemma apply_takeover_groups k takeover c : cp_groups (apply_takeover k takeover c) = cp_groups c.
Proof. by destruct takeover as [[]|]. Qed.

Lemma record_replacement_groups k c : cp_groups (record_replacement k c) = cp_groups c.
Proof.
  unfold record_replacement.
  by destruct (cp_resource_topology_registry c), (scheduled_task c (rc_task_ref k)).
Qed.

Lemma rebind_role_refines c k : steps_refine c (rebind_role_validated c k).
Proof.
  intros c' r. unfold rebind_role_validated, refuse.
  destruct (rebind_check c k) as [[[g u] takeover]|] eqn:Hc; simpl; [|refused].
  apply rebind_check_Ok in Hc as (Hg & Hl & _).
  destruct (rebound_group g u k) as [g1|] eqn:Hr; simpl; [|refused].
  apply rebound_group_refines in Hr; [|done].
  intros ([g2 res] & Hm & E)%bind_Some. apply refresh_membership_inv in Hm as (v & -> & _).
  assert (groups_refine (cp_groups c) (<[rc_group_id k := set_membership v (set_lifecycle GlAdapted g1)]>
            (cp_groups c))) as R.
  { apply (groups_refine_insert _ _ g); [done|]. etrans; [exact Hr|]. apply group_refines_membership. }
  destruct res; simplify_eq; [|done]. simpl. rewrite record_replacement_groups. simpl.
  by rewrite apply_takeover_groups.
Qed.

Lemma supersede_refines c source target source_plan target_plan :
  steps_refine c (supersede_mission_group c source target source_plan target_plan).
Proof.
  intros c' r. unfold supersede_mission_group, refuse.
  intros ([[]|] & _ & E)%bind_Some; [|by simplify_eq].
  apply bind_Some in E as (g & Hg & E).
  destruct (revision_refused _ _ _ _ _ _) eqn:Href; [by simplify_eq|].
  destruct (try_for _ _); [|by simplify_eq].
  apply bind_Some in E as ([c1 created] & Hcr & E).
  destruct created as [gt|]; [|by simplify_eq].
  apply create_mission_group_inv in Hcr as [(e & _ & ?)|(g' & ? & _ & Hn & Hc1)]; [done|]. simplify_eq.
  apply bind_Some in E as ([[]|] & _ & E); [|by simplify_eq].
  apply bind_Some in E as ([c4 res] & Hrel & E).
  destruct res; simplify_eq; [|reflexivity]. apply release_group_refines in Hrel.
  etrans; [|exact Hrel]. simpl. rewrite Hc1. unfold revision_refused in Href.
  repeat (apply orb_false_iff in Href as [Href ?]). apply negb_false_iff, bool_decide_eq_true in Href.
  rename select (bool_decide (source = target) = false) into Hst. apply bool_decide_eq_false in Hst.
  intros id u Hu. destruct (decide (id = source)) as [->|].
  - assert (u = g) as -> by congruence. eexists.
    rewrite lookup_alter_eq, lookup_alter_ne, lookup_insert_ne, Hu by done. simpl. split; [done|].
    apply group_refines_intro; [done| |reflexivity]. rewrite Href. apply rtc_once. constructor.
  - exists u. assert (id <> target) by congruence.
    rewrite !lookup_alter_ne, lookup_insert_ne by done. by split.
Qed.
End Serde.

(** ** The step relation

    The operations as data; a step runs one of them, refused calls included, and a recovery
    reads any Node state. *)
Inductive ControlOp :=
| OpTenant (mission : MissionId) (tenant : string)
| OpConstraint (mission : MissionId) (actor : ActorId) (node : NodeId)
| OpRestriction (mission : MissionId) (actor : ActorId) (allowed : gset NodeId) (digest : string)
| OpRegistry (s : PhysicalEntityRegistrySnapshot)
| OpConsume (task : TaskRef)
| OpInvalidate (task : TaskRef) (reason : string)
| OpCancelMission (mission : MissionId)
| OpPreempt (task : TaskRef) (version : N) (now : TimestampMs)
| OpCreate (group : ExecutionGroupId) (p : MissionPlan)
| OpReady (group : ExecutionGroupId) (task : TaskRef)
| OpCommit (group : ExecutionGroupId) (p : AssignmentProposal)
    (capacity : option (CapacityLedger * QuotaLedger)) (now : TimestampMs)
| OpBind (group : ExecutionGroupId) (plan : CommittedPlan)
| OpActivate (group : ExecutionGroupId) (task : TaskRef) (now : TimestampMs)
| OpComplete (group : ExecutionGroupId) (task : TaskRef)
| OpSatisfy (group : ExecutionGroupId) (task : TaskRef) (basis : TaskSatisfactionBasis)
| OpReject (group : ExecutionGroupId) (task : TaskRef) (basis : TaskSatisfactionBasis)
| OpFail (group : ExecutionGroupId) (task : TaskRef)
| OpReleaseTask (group : ExecutionGroupId) (task : TaskRef) (ids : list ResourceId)
| OpReleaseContext (group : ExecutionGroupId) (context : CoordinationContextId)
| OpGroupActivate (group : ExecutionGroupId)
| OpGroupComplete (group : ExecutionGroupId)
| OpGroupBlock (group : ExecutionGroupId) (reason : string)
| OpGroupFail (group : ExecutionGroupId) (reason : string)
| OpGroupRelease (group : ExecutionGroupId)
| OpRoleRelease (group : ExecutionGroupId) (role : RoleId)
| OpTaskRoleRelease (group : ExecutionGroupId) (task : TaskRef) (role : RoleId)
| OpBegin (need : RoleRecoveryNeed)
| OpBeginExecution (group : ExecutionGroupId) (task : TaskRef) (role : RoleId) (node : NodeId)
| OpRecover (view : NodeView) (requirement : TaskRequirement) (p : RecoveryAssignmentProposal)
    (now : TimestampMs)
| OpAbort (k : CommittedRecoveryAssignment)
| OpRebind (k : CommittedRecoveryAssignment)
| OpSupersede (source target : ExecutionGroupId) (source_plan target_plan : MissionPlan).

(** The state an operation leaves, whatever its result. *)
Definition after {A} (s : ControlStep A) : option ControlPlane := fst <$> s.

Section Steps.
Context `{Serde}.

Definition apply_op (c : ControlPlane) (op : ControlOp) : option ControlPlane :=
  match op with
  | OpTenant mission tenant => after (register_mission_tenant c mission tenant)
  | OpConstraint mission actor node => after (set_actor_node_constraint c mission actor node)
  | OpRestriction mission actor allowed digest =>
      after (set_actor_candidate_restriction c mission actor allowed digest)
  | OpRegistry s => after (install_physical_entity_registry c s)
  | OpConsume task => Some (consume_scheduled_task c task)
  | OpInvalidate task reason => Some (invalidate_scheduled_task c task reason)
  | OpCancelMission mission => Some (cancel_scheduled_mission c mission).1
  | OpPreempt task version now => after (preempt_future_task c task version now)
  | OpCreate group p => after (create_mission_group c group p)
  | OpReady group task => after (ready_task_execution c group task)
  | OpCommit group p capacity now => after (commit_for_group_validated c group p capacity now)
  | OpBind group plan => after (bind_task_execution_validated c group plan)
  | OpActivate group task now => after (activate_task_execution c group task now)
  | OpComplete group task => after (record_task_execution_completed c group task)
  | OpSatisfy group task basis => after (satisfy_task_execution c group task basis)
  | OpReject group task basis => after (reject_task_satisfaction c group task basis)
  | OpFail group task => after (fail_task_execution c group task)
  | OpReleaseTask group task ids => after (release_task_bindings c group task ids)
  | OpReleaseContext group context => after (release_context_bindings c group context)
  | OpGroupActivate group => after (activate_group c group)
  | OpGroupComplete group => after (complete_group c group)
  | OpGroupBlock group reason => after (block_group c group reason)
  | OpGroupFail group reason => after (fail_group c group reason)
  | OpGroupRelease group => after (release_group c group)
  | OpRoleRelease group role => after (release_role_binding c group role)
  | OpTaskRoleRelease group task role => after (release_task_role_binding c group task role)
  | OpBegin need => after (begin_role_recovery c need)
  | OpBeginExecution group task role node => after (begin_execution_recovery c group task role node)
  | OpRecover view requirement p now => after (commit_role_recovery c requirement p now)
  | OpAbort k => after (abort_role_recovery_commitment c k)
  | OpRebind k => after (rebind_role_validated c k)
  | OpSupersede source target source_plan target_plan =>
      after (supersede_mission_group c source target source_plan target_plan)
  end.

Definition control_step (c c' : ControlPlane) : Prop := exists op, apply_op c op = Some c'.

Lemma after_Some {A} (s : ControlStep A) c' : after s = Some c' -> exists r, s = Some (c', r).
Proof. unfold after. intros ([c1 r] & -> & ->)%fmap_Some. by exists r. Qed.

Lemma register_mission_tenant_groups c mission tenant c' r :
  register_mission_tenant c mission tenant = Some (c', r) -> cp_groups c' = cp_groups c.
Proof. unfold register_mission_tenant, refuse. intros. repeat case_match; by simplify_eq. Qed.

Lemma set_actor_node_constraint_groups c mission actor node c' r :
  set_actor_node_constraint c mission actor node = Some (c', r) -> cp_groups c' = cp_groups c.
Proof. unfold set_actor_node_constraint, refuse. intros. repeat case_match; by simplify_eq. Qed.

Lemma set_actor_candidate_restriction_groups c mission actor allowed digest c' r :
  set_actor_candidate_restriction c mission actor allowed digest = Some (c', r) ->
  cp_groups c' = cp_groups c.
Proof. unfold set_actor_candidate_restriction, refuse. intros. repeat case_match; by simplify_eq. Qed.

Lemma install_registry_groups c s c' r : install_physical_entity_registry c s = Some (c', r) ->
  cp_groups c' = cp_groups c.
Proof.
  unfold install_physical_entity_registry, refuse.
  match goal with |- context [match ?x with Ok _ => _ | Err _ => _ end] => destruct x end;
    by intros; simplify_eq.
Qed.

Lemma consume_scheduled_task_groups c task : cp_groups (consume_scheduled_task c task) = cp_groups c.
Proof. unfold consume_scheduled_task. by destruct (scheduled_task c task). Qed.

Lemma invalidate_scheduled_task_groups c task reason :
  cp_groups (invalidate_scheduled_task c task reason) = cp_groups c.
Proof. unfold invalidate_scheduled_task. destruct (scheduled_task c task); by repeat case_match. Qed.

Lemma cancel_scheduled_mission_groups c mission :
  cp_groups (cancel_scheduled_mission c mission).1 = cp_groups c.
Proof. unfold cancel_scheduled_mission. by case_match. Qed.

Lemma preempt_future_task_groups c task version now c' r :
  preempt_future_task c task version now = Some (c', r) -> cp_groups c' = cp_groups c.
Proof. unfold preempt_future_task, refuse. intros. repeat case_match; by simplify_eq. Qed.

Lemma same_groups_refine c c' : cp_groups c' = cp_groups c -> groups_refine (cp_groups c) (cp_groups c').
Proof. intros ->. reflexivity. Qed.

Lemma control_step_refines c c' : control_step c c' -> groups_refine (cp_groups c) (cp_groups c').
Proof.
  intros [op E]. destruct op; simpl in E; first [apply after_Some in E as [r E]|injection E as <-].
  - eapply same_groups_refine, register_mission_tenant_groups; eassumption.
  - eapply same_groups_refine, set_actor_node_constraint_groups; eassumption.
  - eapply same_groups_refine, set_actor_candidate_restriction_groups; eassumption.
  - eapply same_groups_refine, install_registry_groups; eassumption.
  - apply same_groups_refine, consume_scheduled_task_groups.
  - apply same_groups_refine, invalidate_scheduled_task_groups.
  - apply same_groups_refine, cancel_scheduled_mission_groups.
  - eapply same_groups_refine, preempt_future_task_groups; eassumption.
  - eapply create_mission_group_refines; eassumption.
  - eapply advance_task_refines; [|eassumption]. intros l ->%list_elem_of_singleton. constructor.
  - eapply same_groups_refine, commit_for_group_groups; eassumption.
  - eapply bind_task_execution_refines; eassumption.
  - eapply activate_task_execution_refines; eassumption.
  - eapply advance_task_refines; [|eassumption]. intros l ->%list_elem_of_singleton. constructor.
  - eapply advance_task_refines; [|eassumption]. intros l ->%list_elem_of_singleton. constructor.
  - eapply advance_task_refines; [|eassumption]. intros l ->%list_elem_of_singleton. constructor.
  - eapply advance_task_refines; [|eassumption]. intros l Hl. by constructor.
  - eapply release_task_bindings_refines; eassumption.
  - eapply release_context_bindings_refines; eassumption.
  - eapply advance_group_refines; [|eassumption]. intros l Hl. by constructor.
  - eapply advance_group_refines; [|eassumption]. intros l Hl. by constructor.
  - eapply advance_group_refines; [|eassumption]. intros l Hl. by constructor.
  - eapply advance_group_refines; [|eassumption]. intros l ->%list_elem_of_singleton. constructor.
  - eapply release_group_refines; eassumption.
  - eapply release_role_binding_refines; eassumption.
  - eapply release_task_role_binding_refines; eassumption.
  - eapply begin_role_recovery_refines; eassumption.
  - eapply begin_execution_recovery_refines; eassumption.
  - eapply same_groups_refine, commit_role_recovery_groups; eassumption.
  - eapply same_groups_refine, abort_groups; eassumption.
  - eapply rebind_role_refines; eassumption.
  - eapply supersede_refines; eassumption.
Qed.

Lemma control_run_refines c c' : rtc control_step c c' -> groups_refine (cp_groups c) (cp_groups c').
Proof.
  induction 1 as [|c1 c2 c3 Hs _ IH]; [reflexivity|]. etrans; [exact (control_step_refines _ _ Hs)|exact IH].
Qed.
End Steps.

(** ** Final states *)

Lemma task_terminal_final l l' : task_terminal l = true -> rtc task_move l l' -> l' = l.
Proof.
  intros Ht Hr. destruct Hr as [|? y ? Hm _]; [done|]. destruct Hm; try done.
  by repeat match goal with E : _ ∈ _ |- _ => apply elem_of_cons in E as [->|E] | E : _ ∈ [] |- _ => inversion E end.
Qed.

Lemma group_released_final l : rtc group_move GlReleased l -> l = GlReleased.
Proof.
  intros Hr. inversion Hr as [|? y ? Hm _]; [done|]. subst. inversion Hm; subst; set_solver.
Qed.

(** A completed, failed or superseded Group can only be released. *)
Lemma group_closed_final l l' : l ∈ [GlCompleted; GlFailed; GlSuperseded] -> rtc group_move l l' ->
  l' = l \/ l' = GlReleased.
Proof.
  intros Hl Hr. inversion Hr as [|? y ? Hm Hr']; [by left|]. subst. right.
  inversion Hm; subst; try (by set_solver). by apply group_released_final in Hr'.
Qed.

(** * Ownership of released Groups

    Lookups after a release and what [release_group] checked before it. *)

Lemma lookup_foldl_delete {K V} `{Countable K} (l : list K) : forall (m : gmap K V) k v,
  foldl (fun m k => delete k m) m l !! k = Some v <-> (k ∉ l) /\ m !! k = Some v.
Proof.
  induction l as [|x l IH]; intros m k v; simpl; [set_solver|].
  rewrite IH, lookup_delete_Some, not_elem_of_cons. naive_solver.
Qed.

Lemma elem_of_sorted_distinct x l : x ∈ sorted_distinct l <-> x ∈ l.
Proof. unfold sorted_distinct. by rewrite elem_of_dedup, elem_of_sort_by. Qed.

Lemma elem_of_list_filter_bool {A} (f : A -> bool) x l : x ∈ List.filter f l <-> x ∈ l /\ f x = true.
Proof. by rewrite !list_elem_of_In, filter_In. Qed.

Lemma elem_of_reservations_of_group c group id r :
  (id, r) ∈ reservations_of_group c group <-> cp_reservations c !! id = Some r /\ rsv_group_id r = Some group.
Proof.
  unfold reservations_of_group. rewrite elem_of_list_filter_bool, elem_of_btree_iter. simpl.
  by rewrite bool_decide_eq_true.
Qed.

Lemma elem_of_allocated_resources c group id : id ∈ allocated_resources c group <->
  exists key record, cl_allocations (cp_capacity_ledger c) !! key = Some record /\
    rg_group_id (al_original record) = group /\ rg_resource_id (al_original record) = id.
Proof.
  unfold allocated_resources, records. rewrite list_elem_of_fmap. split.
  - intros (record & -> & [Hin Hg]%elem_of_list_filter_bool). apply elem_of_btree_values in Hin as [key Hk].
    apply bool_decide_eq_true in Hg. eauto.
  - intros (key & record & Hk & Hg & <-). exists record. split; [done|].
    rewrite elem_of_list_filter_bool, elem_of_btree_values, bool_decide_eq_true. eauto.
Qed.

Section Checks.
Context `{Serde}.

(** A pool is never reserved exclusively. *)
Lemma capacity_checkpoint_disjoint c : validate_capacity_checkpoint c = Some (Ok tt) ->
  forall key record, cl_allocations (cp_capacity_ledger c) !! key = Some record ->
  cp_reservations c !! rg_resource_id (al_original record) = None.
Proof.
  unfold validate_capacity_checkpoint. intros (valid & _ & E)%bind_Some key record Hk.
  destruct valid as [[]|]; [|done]. simpl in E.
  destruct (try_for (allocation_check c) _) as [[]|] eqn:Ha; [|done].
  rewrite try_for_ok in Ha. apply elem_of_btree_iter in Hk. specialize (Ha _ Hk).
  unfold allocation_check in Ha. simpl in Ha.
  destruct (contains_key _ (cp_reservations c)) eqn:Ek; [done|].
  unfold contains_key in Ek. by destruct (cp_reservations c !! _).
Qed.

Lemma released_lookup c group (resources : list ResourceId) id r :
  validate_capacity_checkpoint c = Some (Ok tt) ->
  resources = sorted_distinct ((reservations_of_group c group).*1 ++ allocated_resources c group) ->
  (foldl (fun m id => delete id m) (cp_reservations c) resources !! id = Some r <->
   cp_reservations c !! id = Some r /\ rsv_group_id r <> Some group).
Proof.
  intros Hv ->. rewrite lookup_foldl_delete, elem_of_sorted_distinct, not_elem_of_app. split.
  - intros [[Hn _] Hr]. split; [done|]. intros Hg. apply Hn, list_elem_of_fmap. exists (id, r).
    split; [done|]. by apply elem_of_reservations_of_group.
  - intros [Hr Hg]. split_and!; [| |done].
    + intros ([id' r'] & -> & [Hr' Hg']%elem_of_reservations_of_group)%list_elem_of_fmap.
      simpl in *. congruence.
    + intros (key & record & Hk & _ & <-)%elem_of_allocated_resources.
      rewrite (capacity_checkpoint_disjoint c Hv key record Hk) in Hr. done.
Qed.
End Checks.

Lemma expect_pending_keys c g group l : forall m m' keys,
  expect_pending c g group m l = Ok (m', keys) -> keys = l.*1.
Proof.
  induction l as [|[key k] l IH]; intros m m' keys E; simpl in E; [by simplify_eq|].
  destruct (pending_inconsistent _ _ _ _); [done|].
  destruct (expect_resources _ _ _ _ _) as [m1|]; simpl in E; [|done].
  destruct (expect_pending c g group m1 l) as [[m2 keys']|] eqn:E'; simpl in E; [|done].
  simplify_eq. simpl. f_equal. by eapply IH.
Qed.

Lemma expected_resources_keys c g group m keys : expected_resources c g group = Ok (m, keys) ->
  keys = (pending_of_group c group).*1.
Proof. unfold expected_resources. intros E. inv_check E; by eapply expect_pending_keys. Qed.

Lemma released_pending c g group m keys key k : expected_resources c g group = Ok (m, keys) ->
  (foldl (fun m key => delete key m) (cp_pending_recovery_commitments c) keys !! key = Some k <->
   cp_pending_recovery_commitments c !! key = Some k /\ key.1.1 <> group).
Proof.
  intros ->%expected_resources_keys. rewrite lookup_foldl_delete, list_elem_of_fmap. unfold pending_of_group.
  split.
  - intros [Hn Hk]. split; [done|]. intros Hg. apply Hn. exists (key, k).
    split; [done|]. rewrite elem_of_list_filter_bool, elem_of_btree_iter, bool_decide_eq_true. done.
  - intros [Hk Hg]. split; [|done]. intros ([key' k'] & -> & [_ Hb]%elem_of_list_filter_bool).
    by apply bool_decide_eq_true in Hb.
Qed.
