(* ===== verification/Ownership.v ===== *)
(** * Ownership of resources

    What the bindings and recovery commitments of a Group hold, against the reservations
    made for the Group.  [exact]: every holding has its reservation, every reservation its
    holding, and no resource is held twice. *)

From S2P Require Import Prelude Identity Execution StateModel Session Resource RelationSpec DecisionPolicy.
From S2P Require Import Scheduler SchedulerPolicy Sorting Quota NodeIdentity NodeState Capacity.
From S2P Require Import Mission TaskExecution Group ControlPlane Actors GroupLifecycle GroupBinding.
From S2P Require Import GroupRelease RoleRecovery ControlSteps.

Open Scope list_scope.

(** ** Lists and maps *)

Lemma filter_bool_Permutation {A} (f : A -> bool) l l' : l ≡ₚ l' -> List.filter f l ≡ₚ List.filter f l'.
Proof.
  induction 1; simpl; [done| | |by etrans].
  - case_match; [by constructor|done].
  - repeat case_match; try done. constructor.
Qed.

Lemma flat_map_Permutation {A B} (f : A -> list B) l l' : l ≡ₚ l' -> flat_map f l ≡ₚ flat_map f l'.
Proof.
  induction 1; simpl; [done|by f_equiv| |by etrans].
  rewrite !(assoc_L (++)). by rewrite (comm (++) (f y) (f x)).
Qed.

Lemma elem_of_flat_map {A B} (f : A -> list B) l y : y ∈ flat_map f l <-> exists x, x ∈ l /\ y ∈ f x.
Proof.
  rewrite list_elem_of_In, in_flat_map. by setoid_rewrite <- list_elem_of_In.
Qed.

Section Maps.
Context {K V : Type} `{Countable K, Ord K}.
Implicit Types m : gmap K V.

Lemma btree_iter_insert_fresh m k v : m !! k = None -> btree_iter (<[k := v]> m) ≡ₚ (k, v) :: btree_iter m.
Proof. intros Hk. rewrite !btree_iter_Permutation. by rewrite map_to_list_insert. Qed.

Lemma btree_iter_delete m k v : m !! k = Some v -> btree_iter m ≡ₚ (k, v) :: btree_iter (delete k m).
Proof. intros Hk. rewrite !btree_iter_Permutation. by rewrite map_to_list_delete. Qed.

Lemma btree_iter_insert m k v v' : m !! k = Some v ->
  btree_iter m ≡ₚ (k, v) :: btree_iter (delete k m) /\
  btree_iter (<[k := v']> m) ≡ₚ (k, v') :: btree_iter (delete k m).
Proof.
  intros Hk. split; [by apply btree_iter_delete|].
  rewrite <- insert_delete_eq. apply btree_iter_insert_fresh, lookup_delete_eq.
Qed.

Lemma btree_values_split m k v : m !! k = Some v -> btree_values m ≡ₚ v :: btree_values (delete k m).
Proof. intros Hk. unfold btree_values. by rewrite (btree_iter_delete m k v). Qed.

Lemma btree_values_replace m k v v' : m !! k = Some v ->
  btree_values (<[k := v']> m) ≡ₚ v' :: btree_values (delete k m).
Proof. intros Hk. unfold btree_values. by rewrite (proj2 (btree_iter_insert m k v v' Hk)). Qed.
End Maps.

(** ** Holdings *)

Abbreviation HoldTag := (option (CoordinationContextId * ContextRoleId)).
Abbreviation Holding := (ResourceId * RoleId * HoldTag)%type.

Definition hold_resource (h : Holding) : ResourceId := h.1.1.

Definition owner_tag (o : AllocationOwner) : HoldTag :=
  match o with OwnerTask _ => None | OwnerContext _ context role => Some (context, role) end.

Definition assignment_holdings (tag : HoldTag) (a : RoleAssignment) : list Holding :=
  (fun r => (r, as_role_id a, tag)) <$> as_resource_ids a.

(** The resources a Task holds for itself. *)
Definition task_holdings (t : TaskExecution) : list Holding :=
  flat_map (assignment_holdings None) (List.filter (scoped t ScopeTask) (te_assignments t)).

Definition binding_holdings (b : ContextBinding) : list Holding :=
  assignment_holdings (Some (cb_context_id b, cb_context_role_id b)) (cb_assignment b).

Definition pending_holdings (k : CommittedRecoveryAssignment) : list Holding :=
  (fun r => (r, rc_role_id k, None)) <$> rc_committed_resource_ids k.

Definition group_holdings (g : ExecutionGroup) : list Holding :=
  flat_map task_holdings (btree_values (eg_task_executions g))
    ++ flat_map binding_holdings (btree_values (eg_context_bindings g)).

Definition recovery_holdings (c : ControlPlane) (id : ExecutionGroupId) : list Holding :=
  flat_map (fun kv => pending_holdings kv.2) (pending_of_group c id).

Definition holdings (c : ControlPlane) (id : ExecutionGroupId) : list Holding :=
  from_option group_holdings [] (cp_groups c !! id) ++ recovery_holdings c id.

(** ** Reservations *)

Abbreviation Reservations := (gmap ResourceId Reservation).

Definition holds (m : Reservations) (id : ExecutionGroupId) (h : Holding) : Prop :=
  exists r, m !! hold_resource h = Some r /\ rsv_group_id r = Some id /\
    rsv_role_id r = h.1.2 /\ owner_tag (rsv_owner r) = h.2.

Definition exact (m : Reservations) (id : ExecutionGroupId) (l : list Holding) : Prop :=
  NoDup (hold_resource <$> l) /\ forall h, h ∈ l <-> holds m id h.

(** The reservations of a Group agree in two maps. *)
Definition same_for (id : ExecutionGroupId) (m m' : Reservations) : Prop :=
  forall k r, rsv_group_id r = Some id -> (m' !! k = Some r <-> m !! k = Some r).

#[export] Instance exact_Permutation m id : Proper ((≡ₚ) ==> iff) (exact m id).
Proof.
  intros l l' E. unfold exact. split; intros [Hn Hl]; (split; [by rewrite E in Hn || rewrite <- E in Hn|]);
    intros h; [rewrite <- E|rewrite E]; apply Hl.
Qed.

Lemma holds_same m m' id h : same_for id m m' -> holds m' id h <-> holds m id h.
Proof.
  intros Hs. unfold holds. split; intros (r & Hr & Hg & Ht); exists r; (split; [by apply Hs|done]).
Qed.

Lemma exact_same m m' id l : same_for id m m' -> exact m id l -> exact m' id l.
Proof. intros Hs [Hn Hl]. split; [done|]. intros h. rewrite Hl. symmetry. by apply holds_same. Qed.

Lemma exact_resource_inj m id l h h' : exact m id l -> h ∈ l -> h' ∈ l ->
  hold_resource h = hold_resource h' -> h = h'.
Proof.
  intros [_ Hl] (r & Hr & _ & Er & Et)%Hl (r' & Hr' & _ & Er' & Et')%Hl E.
  rewrite E in Hr. assert (r = r') as <- by congruence.
  destruct h as [[? ?] ?], h' as [[? ?] ?]. unfold hold_resource in *. simpl in *. congruence.
Qed.

(** Released holdings. *)
Lemma exact_release m id A B rs : exact m id (A ++ B) -> (forall r, r ∈ rs <-> r ∈ hold_resource <$> A) ->
  exact (foldl (fun m k => delete k m) m rs) id B.
Proof.
  intros Hx Hrs. pose proof Hx as [Hn Hl]. split; [rewrite fmap_app in Hn; by apply NoDup_app in Hn as (_ & _ & ?)|].
  assert (forall h, h ∈ B -> hold_resource h ∉ rs) as Hd.
  { intros h Hh Hin%Hrs. rewrite fmap_app in Hn. apply NoDup_app in Hn as (_ & Hd & _).
    apply (Hd _ Hin). by apply list_elem_of_fmap_2. }
  intros h. split.
  - intros Hh. assert (h ∈ A ++ B) as (r & Hr & ?)%Hl by set_solver.
    exists r. split; [|done]. apply lookup_foldl_delete. auto.
  - intros (r & [Hni Hr]%lookup_foldl_delete & Hg).
    assert (h ∈ A ++ B) as [Ha|?]%elem_of_app; [apply Hl; by exists r| |done].
    exfalso. apply Hni, Hrs. by apply list_elem_of_fmap_2.
Qed.

(** New holdings: their resources were not reserved for the Group, and nothing else moves. *)
Lemma exact_add m m' id N l : exact m id l -> NoDup (hold_resource <$> N) ->
  (forall h, h ∈ N -> holds m' id h) ->
  (forall h r, h ∈ N -> m !! hold_resource h = Some r -> rsv_group_id r <> Some id) ->
  (forall k r, (k ∉ hold_resource <$> N) -> rsv_group_id r = Some id -> (m' !! k = Some r <-> m !! k = Some r)) ->
  exact m' id (N ++ l).
Proof.
  intros [Hn Hl] HN Hin Hfresh Hsame.
  assert (forall h, h ∈ l -> hold_resource h ∉ hold_resource <$> N) as Hd.
  { intros h (r & Hr & Hg & _)%Hl (h' & Eh & Hh')%list_elem_of_fmap.
    rewrite Eh in Hr. by apply (Hfresh h' r). }
  split.
  - rewrite fmap_app. apply NoDup_app. split_and!; [done| |done].
    intros k Hk (h & -> & Hh)%list_elem_of_fmap. by apply (Hd h).
  - intros h. rewrite elem_of_app. split.
    + intros [Hh|Hh]; [by apply Hin|]. pose proof Hh as (r & Hr & Hg & ?)%Hl.
      exists r. split; [|done]. apply Hsame; [by apply Hd|done|done].
    + intros (r & Hr & Hg & Er & Et).
      destruct (decide (hold_resource h ∈ hold_resource <$> N)) as [Hk|Hk].
      * left. apply list_elem_of_fmap in Hk as (h' & Eh & Hh').
        destruct (Hin h' Hh') as (r' & Hr' & _ & Er' & Et'). rewrite <- Eh, Hr in Hr'. simplify_eq.
        destruct h as [[? ?] ?], h' as [[? ?] ?]. unfold hold_resource in *. simpl in *. by simplify_eq.
      * right. apply Hl. exists r. split; [|done]. by apply Hsame.
Qed.

(** ** The invariant

    Without pools: the capacity ledger is empty and no quota claim belongs to an
    allocation. *)

Definition context_roles_distinct (t : TaskExecution) : Prop :=
  forall r r' x, role_scope t r = ScopeContext -> role_scope t r' = ScopeContext ->
    te_context_role t r = Some x -> te_context_role t r' = Some x -> r = r'.

(** The context of a Task holds what its assignments keep for the context. *)
Definition context_covered (g : ExecutionGroup) (t : TaskExecution) : Prop :=
  forall a r, a ∈ te_assignments t -> role_scope t (as_role_id a) = ScopeContext ->
    r ∈ as_resource_ids a ->
    exists key b, eg_context_bindings g !! key = Some b /\ cb_context_id b = te_context_id t /\
      te_context_role t (as_role_id a) = Some (cb_context_role_id b) /\
      r ∈ as_resource_ids (cb_assignment b).

(** Bindings are stored under their keys. *)
Definition bindings_keyed (m : gmap string ContextBinding) : Prop :=
  forall key b, m !! key = Some b -> key = context_binding_key (cb_context_id b) (cb_context_role_id b).

Definition group_ok (g : ExecutionGroup) : Prop :=
  eg_assignments g = [] /\ eg_unbound_roles g = ∅ /\ bindings_keyed (eg_context_bindings g) /\
  forall task t, eg_task_executions g !! task = Some t -> context_roles_distinct t /\ context_covered g t.

Abbreviation Groups := (gmap ExecutionGroupId ExecutionGroup).

Definition pending_ok (groups : Groups) (key : PendingKey) (k : CommittedRecoveryAssignment) : Prop :=
  key = (rc_group_id k, rc_task_ref k, rc_role_id k) /\
  exists g t, groups !! rc_group_id k = Some g /\ eg_task_executions g !! rc_task_ref k = Some t /\
    role_scope t (rc_role_id k) = ScopeTask.

Definition reservation_ok (groups : Groups) (r : Reservation) : Prop :=
  rsv_scope r = owner_scope (rsv_owner r) /\
  forall id, rsv_group_id r = Some id -> exists g, groups !! id = Some g /\
    (is_context (rsv_owner r) = true \/ is_Some (eg_task_executions g !! rsv_task_ref r)).

Definition unpooled (a : CapacityAuthority) : Prop :=
  cl_allocations (cau_capacity_ledger a) = ∅ /\
  forall q, q ∈ ql_claims (cau_quota_ledger a) -> qc_allocation_id q = None.

Record ownership (c : ControlPlane) : Prop := MkOwnership {
  ow_exact : forall id, exact (cp_reservations c) id (holdings c id);
  ow_group : forall id g, cp_groups c !! id = Some g -> group_ok g;
  ow_pending : forall key k, cp_pending_recovery_commitments c !! key = Some k ->
                 pending_ok (cp_groups c) key k;
  ow_reserved : forall id r, cp_reservations c !! id = Some r -> reservation_ok (cp_groups c) r;
  ow_unpooled : unpooled (cp_capacity c)
}.

(** ** Frames *)

(** Groups and Tasks persist with their scopes. *)
Definition scopes_kept (m m' : Groups) : Prop :=
  forall id g, m !! id = Some g -> exists g', m' !! id = Some g' /\
    forall task t, eg_task_executions g !! task = Some t ->
      exists t', eg_task_executions g' !! task = Some t' /\ te_role_scopes t' = te_role_scopes t.

Lemma groups_refine_scopes m m' : groups_refine m m' -> scopes_kept m m'.
Proof.
  intros R id g Hg. destruct (R id g Hg) as (g' & Hg' & [_ _ _ [_ He]]). exists g'. split; [done|].
  intros task t Ht. destruct (He task t Ht) as (t' & Ht' & [(_ & _ & _ & E & _) _]). eauto.
Qed.

Lemma pending_ok_kept m m' key k : scopes_kept m m' -> pending_ok m key k -> pending_ok m' key k.
Proof.
  intros R (E & g & t & Hg & Ht & Hs). split; [done|].
  destruct (R _ g Hg) as (g' & Hg' & He). destruct (He _ t Ht) as (t' & Ht' & Es).
  exists g', t'. split_and!; [done..|]. unfold role_scope in *. by rewrite Es.
Qed.

Lemma reservation_ok_kept m m' r : scopes_kept m m' -> reservation_ok m r -> reservation_ok m' r.
Proof.
  intros R [Hs Hg]. split; [done|]. intros id (g & Hl & Ht)%Hg.
  destruct (R _ g Hl) as (g' & Hg' & He). exists g'. split; [done|].
  destruct Ht as [?|[t Ht]]; [by left|right]. destruct (He _ t Ht) as (t' & ? & _). eauto.
Qed.

(** One Group and its reservations move. *)
Lemma ownership_step c c' id : ownership c -> scopes_kept (cp_groups c) (cp_groups c') ->
  (forall j, j <> id -> cp_groups c' !! j = cp_groups c !! j) ->
  (forall j, j <> id -> recovery_holdings c' j ≡ₚ recovery_holdings c j) ->
  (forall j, j <> id -> same_for j (cp_reservations c) (cp_reservations c')) ->
  exact (cp_reservations c') id (holdings c' id) ->
  (forall g, cp_groups c' !! id = Some g -> group_ok g) ->
  (forall key k, cp_pending_recovery_commitments c' !! key = Some k ->
     cp_pending_recovery_commitments c !! key = Some k \/ pending_ok (cp_groups c') key k) ->
  (forall x r, cp_reservations c' !! x = Some r ->
     cp_reservations c !! x = Some r \/ reservation_ok (cp_groups c') r) ->
  unpooled (cp_capacity c') -> ownership c'.
Proof.
  intros [He Hg Hp Hr _] R Hsame Hrec Hres Hex Hgok Hpok Hrok Hu. split; [..|done].
  - intros j. destruct (decide (j = id)) as [->|Hj]; [done|].
    apply (exact_same (cp_reservations c)); [by apply Hres|]. unfold holdings.
    rewrite (Hsame j Hj). rewrite (Hrec j Hj). apply He.
  - intros j g Hl. destruct (decide (j = id)) as [->|Hj]; [by apply Hgok|].
    rewrite (Hsame j Hj) in Hl. by eapply Hg.
  - intros key k Hk. destruct (Hpok key k Hk) as [Ho|]; [|done].
    apply (pending_ok_kept (cp_groups c)); [done|]. by apply Hp.
  - intros x r Hx. destruct (Hrok x r Hx) as [Ho|]; [|done].
    apply (reservation_ok_kept (cp_groups c)); [done|]. by eapply Hr.
Qed.

(** One Group changes and holds what it held. *)
Lemma ownership_group c c' id g g' : ownership c -> cp_groups c !! id = Some g ->
  cp_groups c' = <[id := g']> (cp_groups c) ->
  scopes_kept (cp_groups c) (cp_groups c') ->
  cp_reservations c' = cp_reservations c ->
  cp_pending_recovery_commitments c' = cp_pending_recovery_commitments c ->
  unpooled (cp_capacity c') ->
  group_holdings g' ≡ₚ group_holdings g -> group_ok g' -> ownership c'.
Proof.
  intros Ho Hg Eg R Er Ep Hu Hh Hok. apply (ownership_step c c' id Ho R).
  - intros j Hj. by rewrite Eg, lookup_insert_ne.
  - intros j _. unfold recovery_holdings, pending_of_group. by rewrite Ep.
  - intros j _. rewrite Er. by intros k r _.
  - rewrite Er. unfold holdings, recovery_holdings, pending_of_group. rewrite Eg, Ep, lookup_insert_eq.
    simpl. rewrite Hh. pose proof (ow_exact c Ho id) as Hx. unfold holdings in Hx. by rewrite Hg in Hx.
  - intros g0. rewrite Eg, lookup_insert_eq. by intros [= <-].
  - intros key k. rewrite Ep. by left.
  - intros x r. rewrite Er. by left.
  - done.
Qed.

(** Nothing of the Groups, the commitments and the reservations changes. *)
Lemma ownership_same c c' : ownership c -> cp_groups c' = cp_groups c ->
  cp_reservations c' = cp_reservations c ->
  cp_pending_recovery_commitments c' = cp_pending_recovery_commitments c ->
  unpooled (cp_capacity c') -> ownership c'.
Proof.
  intros [He Hg Hp Hr _] Eg Er Ep Hu. split; [..|done].
  - intros id. rewrite Er. unfold holdings, recovery_holdings, pending_of_group. rewrite Eg, Ep. apply He.
  - rewrite Eg. done.
  - rewrite Eg, Ep. done.
  - rewrite Eg, Er. done.
Qed.

(** A new Group without bindings. *)
Lemma ownership_fresh c c' id g' : ownership c -> cp_groups c !! id = None ->
  cp_groups c' = <[id := g']> (cp_groups c) ->
  cp_reservations c' = cp_reservations c ->
  cp_pending_recovery_commitments c' = cp_pending_recovery_commitments c ->
  unpooled (cp_capacity c') ->
  group_holdings g' = [] -> group_ok g' -> ownership c'.
Proof.
  intros Ho Hg Eg Er Ep Hu Hh Hok. apply (ownership_step c c' id Ho).
  - rewrite Eg. intros j g Hj. exists g. split; [|by eauto]. rewrite lookup_insert_ne; [done|]. by intros ->; congruence.
  - intros j Hj. by rewrite Eg, lookup_insert_ne.
  - intros j _. unfold recovery_holdings, pending_of_group. by rewrite Ep.
  - intros j _. rewrite Er. by intros k r _.
  - rewrite Er. unfold holdings, recovery_holdings, pending_of_group. rewrite Eg, Ep, lookup_insert_eq.
    simpl. rewrite Hh. pose proof (ow_exact c Ho id) as Hx. unfold holdings in Hx. by rewrite Hg in Hx.
  - intros g0. rewrite Eg, lookup_insert_eq. by intros [= <-].
  - intros key k. rewrite Ep. by left.
  - intros x r. rewrite Er. by left.
  - done.
Qed.
