(* ===== verification/OwnershipSteps.v ===== *)
(** * Ownership is preserved

    Every operation keeps [ownership], under what the callers of the Control plane
    guarantee of proposals and plans. *)

From S2P Require Import Prelude Identity Execution StateModel Session Resource RelationSpec DecisionPolicy.
From S2P Require Import Scheduler SchedulerPolicy Sorting Quota NodeIdentity NodeState Capacity.
From S2P Require Import Mission TaskExecution Group ControlPlane Actors GroupLifecycle GroupBinding.
From S2P Require Import GroupRelease RoleRecovery ControlSteps Ownership.

Open Scope list_scope.

(** ** Ledgers without pools *)

Lemma unpooled_claims a q : unpooled a ->
  (forall x, x ∈ ql_claims q -> exists y, y ∈ ql_claims (cau_quota_ledger a) /\ qc_allocation_id x = qc_allocation_id y
             \/ qc_allocation_id x = None) ->
  forall v, unpooled (MkCapacityAuthority v (cau_capacity_ledger a) q).
Proof.
  intros [Ha Hq] H v. split; [done|]. intros x Hx.
  destruct (H x Hx) as (y & [[Hy ->]|?]); [by apply Hq|done].
Qed.

Lemma release_resource_claims q id x : x ∈ ql_claims (release_resource q id) -> x ∈ ql_claims q.
Proof. unfold release_resource, retain_claims. simpl. by intros [? _]%elem_of_list_filter_bool. Qed.

Lemma foldl_release_claims ids : forall q x,
  x ∈ ql_claims (foldl (fun q id => release_resource q (as_str id)) q (ids : list ResourceId)) ->
  x ∈ ql_claims q.
Proof.
  induction ids as [|id ids IH]; intros q x Hx; simpl in Hx; [done|].
  apply IH in Hx. by eapply release_resource_claims.
Qed.

Lemma unpooled_release c ids : unpooled (cp_capacity c) -> unpooled (cp_capacity (release_reservations ids c)).
Proof.
  intros Hu. apply (unpooled_claims (cp_capacity c)); [done|].
  intros x Hx%foldl_release_claims. exists x. by left.
Qed.

Lemma unpooled_retain f a : unpooled a -> unpooled (retain_allocations f a).
Proof.
  intros [Ha Hq]. unfold retain_allocations, unpooled. simpl. rewrite Ha, omap_empty. split; [done|].
  intros q. assert (btree_keys (∅ : gmap string CapacityAllocation) = []) as -> by reflexivity. apply Hq.
Qed.

Lemma track_claims q d q' : track q d = Ok q' -> qc_allocation_id d = None ->
  forall x, x ∈ ql_claims q' -> x ∈ ql_claims q \/ qc_allocation_id x = None.
Proof.
  unfold track, add_claim. intros E Hd x Hx.
  destruct (validate_claim d); simpl in E; [|done].
  repeat (case_match; simpl in E; try done); simplify_eq; try (by left);
    simpl in Hx; rewrite elem_of_sort_by, elem_of_app, list_elem_of_singleton in Hx;
    destruct Hx as [?| ->]; auto.
Qed.

Lemma track_resource_unallocated q d q' : track_resource q d = Ok q' -> qc_allocation_id d = None ->
  forall x, x ∈ ql_claims q' -> exists y, y ∈ ql_claims q /\ qc_allocation_id x = qc_allocation_id y
                                   \/ qc_allocation_id x = None.
Proof.
  unfold track_resource. intros E Hd x Hx. rewrite Hd in E. simpl in E.
  assert (track q d = Ok q' -> exists y, y ∈ ql_claims q /\ qc_allocation_id x = qc_allocation_id y
                                  \/ qc_allocation_id x = None) as Ht.
  { intros Et. destruct (track_claims q d q' Et Hd x Hx); exists x; auto. }
  destruct (is_none _); [done|]. destruct (validate_claim d); simpl in E; [|done].
  destruct (list_find _ _) as [[i y]|] eqn:Ef; [|by apply Ht].
  apply list_find_Some in Ef as (Hi & _). unfold grow_claim in E.
  assert (forall l, x ∈ <[i := with_units y (qc_units d)]> l -> l = ql_claims q ->
            exists y, y ∈ ql_claims q /\ qc_allocation_id x = qc_allocation_id y
                      \/ qc_allocation_id x = None) as Hins.
  { intros l Hin ->. apply list_elem_of_lookup in Hin as [j Hj].
    apply list_lookup_insert_Some in Hj as [(<- & <- & _)|[_ Hj]].
    - exists y. left. split; [by apply list_elem_of_lookup; eauto|done].
    - exists x. left. split; [by apply list_elem_of_lookup; eauto|done]. }
  repeat (case_match; simpl in E; try done); simplify_eq; try (by exists x; left);
    simpl in Hx; by eapply Hins.
Qed.

Lemma track_demands_claims tenant demands : forall q q', track_demands tenant q demands = Ok q' ->
  forall x, x ∈ ql_claims q' -> exists y, y ∈ ql_claims q /\ qc_allocation_id x = qc_allocation_id y
                                   \/ qc_allocation_id x = None.
Proof.
  induction demands as [|[[resource kind] units] demands IH]; intros q q' E x Hx;
    cbn [track_demands] in E.
  { simplify_eq. exists x. by left. }
  destruct (track_resource q _) as [q1|] eqn:Et; cbn [result_map_err] in E; [|done].
  destruct (IH q1 q' E x Hx) as (y & [[Hy Ey]|Hn]); [|exists x; by right].
  destruct (track_resource_unallocated _ _ _ Et eq_refl y Hy) as (z & [[Hz Ez]|Hn]).
  - exists z. left. split; [done|congruence].
  - exists x. right. congruence.
Qed.

Lemma commit_quotas_fields c mission demands c1 : commit_resource_quotas c mission demands = Ok c1 ->
  cp_groups c1 = cp_groups c /\ cp_reservations c1 = cp_reservations c /\
  cp_pending_recovery_commitments c1 = cp_pending_recovery_commitments c /\
  (unpooled (cp_capacity c) -> unpooled (cp_capacity c1)).
Proof.
  unfold commit_resource_quotas. destruct (_ =? 0)%nat; [by intros; simplify_eq|]. intros E.
  destruct (validate_resource_quotas _ _ _); simpl in E; [|done].
  destruct (resource_quota_tenant c mission) as [tenant|]; simpl in E; [|done].
  destruct (track_demands _ _ _) as [q|] eqn:Et; simpl in E; [|done]. simplify_eq. simpl.
  split_and!; try done. intros Hu. apply (unpooled_claims (cp_capacity c)); [done|].
  by eapply track_demands_claims.
Qed.

(** ** Holdings of changed Groups *)

Lemma group_holdings_membership v g : group_holdings (set_membership v g) = group_holdings g.
Proof. done. Qed.

Lemma group_ok_membership v g : group_ok g -> group_ok (set_membership v g).
Proof. done. Qed.

Lemma put_execution_holdings g task t t' : eg_task_executions g !! task = Some t -> exists rest,
  group_holdings g ≡ₚ task_holdings t ++ rest /\
  group_holdings (put_execution task t' g) ≡ₚ task_holdings t' ++ rest.
Proof.
  intros Ht.
  exists (flat_map task_holdings (btree_values (delete task (eg_task_executions g)))
          ++ flat_map binding_holdings (btree_values (eg_context_bindings g))).
  unfold group_holdings. simpl.
  rewrite (flat_map_Permutation _ _ _ (btree_values_split _ _ _ Ht)).
  rewrite (flat_map_Permutation _ _ _ (btree_values_replace _ _ _ t' Ht)). simpl.
  rewrite <- !(assoc_L (++)). done.
Qed.

(** A Task with the same scopes and no new assignment. *)
Lemma group_ok_put g task t t' : group_ok g -> eg_task_executions g !! task = Some t ->
  te_role_scopes t' = te_role_scopes t -> te_context_roles t' = te_context_roles t ->
  te_context_id t' = te_context_id t ->
  (forall a, a ∈ te_assignments t' -> role_scope t (as_role_id a) = ScopeContext -> a ∈ te_assignments t) ->
  group_ok (put_execution task t' g).
Proof.
  intros (Ha & Hu & Hk & Ht) Hl Es Er Ec Has. split_and!; [done..|]. intros task' u. simpl.
  intros [[<- <-]|[_ Hu']]%lookup_insert_Some; [|by eapply Ht].
  destruct (Ht task t Hl) as [Hd Hcov]. split.
  - intros r r' x. unfold role_scope, te_context_role. rewrite Es, Er. apply Hd.
  - intros a r Ha' Hs. unfold role_scope, te_context_role in *. rewrite Es in Hs. rewrite Er, Ec.
    intros Hr. apply (Hcov a r); [by apply Has|done|done].
Qed.

Lemma scopes_kept_insert m id g g' : m !! id = Some g ->
  (forall task t, eg_task_executions g !! task = Some t ->
     exists t', eg_task_executions g' !! task = Some t' /\ te_role_scopes t' = te_role_scopes t) ->
  scopes_kept m (<[id := g']> m).
Proof.
  intros Hg Ht j u Hj. destruct (decide (j = id)) as [->|].
  - exists g'. rewrite lookup_insert_eq. split; [done|]. by simplify_eq.
  - exists u. rewrite lookup_insert_ne by done. eauto.
Qed.

Lemma put_scopes g task t t' : eg_task_executions g !! task = Some t -> te_role_scopes t' = te_role_scopes t ->
  forall k u, eg_task_executions g !! k = Some u ->
    exists u', eg_task_executions (put_execution task t' g) !! k = Some u' /\ te_role_scopes u' = te_role_scopes u.
Proof.
  intros Ht Es k u Hk. simpl. destruct (decide (k = task)) as [->|].
  - exists t'. rewrite lookup_insert_eq. split; [done|]. congruence.
  - exists u. by rewrite lookup_insert_ne.
Qed.

(** ** Lifecycles *)

Lemma task_holdings_lifecycle t l : task_holdings (with_lifecycle t l) = task_holdings t.
Proof. done. Qed.

Lemma put_lifecycle_holdings g task t l : eg_task_executions g !! task = Some t ->
  group_holdings (put_execution task (with_lifecycle t l) g) ≡ₚ group_holdings g.
Proof.
  intros Ht. destruct (put_execution_holdings g task t (with_lifecycle t l) Ht) as (rest & -> & ->).
  by rewrite task_holdings_lifecycle.
Qed.

Lemma advance_task_ownership c group task from reason to e c' r :
  ownership c -> advance_task c group task from reason to e = Some (c', r) -> ownership c'.
Proof.
  intros Ho. unfold advance_task, refuse.
  destruct (find_group c group) as [g|] eqn:Hg; simpl; [|by intros; simplify_eq].
  destruct (find_execution g task _) as [t|] eqn:Ht; simpl; [|by intros; simplify_eq].
  apply find_group_Ok in Hg. apply find_execution_Ok in Ht.
  destruct (negb _); intros; simplify_eq; [done|].
  apply (ownership_group c _ group g (put_execution task (with_lifecycle t to) g)); try done.
  - apply (scopes_kept_insert _ _ g); [done|]. by apply (put_scopes g task t).
  - exact (ow_unpooled c Ho).
  - by apply put_lifecycle_holdings.
  - apply (group_ok_put g task t); [by eapply ow_group|done..].
Qed.

Lemma set_lifecycle_ownership c c' id g g' l : ownership c -> cp_groups c !! id = Some g ->
  group_holdings g' ≡ₚ group_holdings g -> group_ok g' ->
  (forall task t, eg_task_executions g !! task = Some t ->
     exists t', eg_task_executions g' !! task = Some t' /\ te_role_scopes t' = te_role_scopes t) ->
  cp_groups c' = <[id := set_lifecycle l g']> (cp_groups c) ->
  cp_reservations c' = cp_reservations c ->
  cp_pending_recovery_commitments c' = cp_pending_recovery_commitments c ->
  unpooled (cp_capacity c') -> ownership c'.
Proof.
  intros Ho Hg Hh Hok Hs Eg Er Ep Hu.
  apply (ownership_group c c' id g (set_lifecycle l g')); try done.
  rewrite Eg. by apply (scopes_kept_insert _ _ g).
Qed.

Lemma advance_group_ownership c group from check to e c' r :
  ownership c -> advance_group c group from check to e = Some (c', r) -> ownership c'.
Proof.
  intros Ho. unfold advance_group, refuse.
  destruct (find_group c group) as [g|] eqn:Hg; [|by intros; simplify_eq]. apply find_group_Ok in Hg.
  destruct (negb _); [by intros; simplify_eq|]. destruct (check g); intros; simplify_eq; [|done].
  apply (set_lifecycle_ownership c _ group g g to); try done; [by eapply ow_group|eauto|exact (ow_unpooled c Ho)].
Qed.

Lemma activate_scheduled_fields c task :
  cp_reservations (activate_scheduled_task c task) = cp_reservations c /\
  cp_pending_recovery_commitments (activate_scheduled_task c task) = cp_pending_recovery_commitments c /\
  (unpooled (cp_capacity c) -> unpooled (cp_capacity (activate_scheduled_task c task))).
Proof.
  unfold activate_scheduled_task. destruct (scheduled_task c task) as [x|]; [|done]. by destruct (bool_decide _).
Qed.

Lemma activate_task_ownership c group task now c' r :
  ownership c -> activate_task_execution c group task now = Some (c', r) -> ownership c'.
Proof.
  intros Ho. unfold activate_task_execution, refuse.
  destruct (activation_check c group task now) as [[[schedule g] t]|] eqn:Hc; [|by intros; simplify_eq].
  unfold activation_check in Hc. inv_check Hc. simplify_eq.
  rename select (find_group c group = _) into Hg. apply find_group_Ok in Hg.
  rename select (find_execution g task _ = _) into Ht. apply find_execution_Ok in Ht.
  set (g1 := put_execution task (with_lifecycle t TlActive) g).
  set (g2 := if one_of _ (eg_lifecycle g1) then _ else g1).
  assert (group_holdings g2 ≡ₚ group_holdings g /\ group_ok g2 /\
          eg_task_executions g2 = eg_task_executions g1) as (Hh & Hok & Ee).
  { assert (group_ok g1) by (apply (group_ok_put g task t); [by eapply ow_group|done..]).
    subst g2. destruct (one_of _ _); (split_and!; [by apply put_lifecycle_holdings|done..]). }
  assert (forall c2, cp_groups c2 = <[group := g2]> (cp_groups c) ->
    cp_reservations c2 = cp_reservations c ->
    cp_pending_recovery_commitments c2 = cp_pending_recovery_commitments c ->
    unpooled (cp_capacity c2) -> ownership c2) as Hstep.
  { intros c2 Eg Er Ep Hu. apply (ownership_group c c2 group g g2); try done. rewrite Eg.
    apply (scopes_kept_insert _ _ g); [done|]. rewrite Ee. by apply (put_scopes g task t). }
  set (c1 := log_event (TaskExecutionActivated group task) (put_group group g2 c)).
  destruct (activate_scheduled_fields c1 task) as (Er & Ep & Hu).
  destruct schedule; intros; simplify_eq; apply Hstep; simpl; rewrite ?activate_scheduled_task_groups, ?Er, ?Ep;
    try done; [apply Hu|]; exact (ow_unpooled c Ho).
Qed.

(** ** Releases *)

Lemma commit_membership_fields `{Serde} {A} id g e (v : A) c c' r :
  commit_membership id g e v c = Some (c', r) ->
  exists mv, cp_groups c' = <[id := set_membership mv g]> (cp_groups c) /\
    cp_reservations c' = cp_reservations c /\
    cp_pending_recovery_commitments c' = cp_pending_recovery_commitments c /\
    cp_capacity c' = cp_capacity c.
Proof. intros (mv & Eg & -> & _)%commit_membership_inv. exists mv. by destruct (is_ok r). Qed.

(** A Group gives up the holdings [A] with their reservations. *)
Lemma ownership_release c c' id g g' A rs : ownership c -> cp_groups c !! id = Some g ->
  (exists mv, cp_groups c' = <[id := set_membership mv g']> (cp_groups c)) ->
  (forall task t, eg_task_executions g !! task = Some t ->
     exists t', eg_task_executions g' !! task = Some t' /\ te_role_scopes t' = te_role_scopes t) ->
  cp_reservations c' = foldl (fun m k => delete k m) (cp_reservations c) rs ->
  cp_pending_recovery_commitments c' = cp_pending_recovery_commitments c ->
  unpooled (cp_capacity c') ->
  group_holdings g ≡ₚ A ++ group_holdings g' -> (forall r, r ∈ rs <-> r ∈ hold_resource <$> A) ->
  group_ok g' -> ownership c'.
Proof.
  intros Ho Hg [mv Eg] Hs Er Ep Hu Hh Hrs Hok.
  pose proof (ow_exact c Ho id) as Hx. unfold holdings in Hx. rewrite Hg in Hx. simpl in Hx.
  rewrite Hh, <- (assoc_L (++)) in Hx.
  apply (ownership_step c c' id Ho).
  - rewrite Eg. by apply (scopes_kept_insert _ _ g).
  - intros j Hj. by rewrite Eg, lookup_insert_ne.
  - intros j _. unfold recovery_holdings, pending_of_group. by rewrite Ep.
  - intros j Hj k r Hr. rewrite Er, lookup_foldl_delete. split; [by intros [_ ?]|]. intros Hk.
    split; [|done]. intros (h & -> & Hh')%Hrs%list_elem_of_fmap.
    destruct Hx as [_ Hx]. assert (h ∈ A ++ (group_holdings g' ++ recovery_holdings c id)) as (r' & Hr' & Hg' & _)%Hx
      by set_solver. congruence.
  - rewrite Er. unfold holdings, recovery_holdings, pending_of_group. rewrite Eg, Ep, lookup_insert_eq. simpl.
    by apply (exact_release _ _ A).
  - intros g0. rewrite Eg, lookup_insert_eq. by intros [= <-].
  - intros key k. rewrite Ep. by left.
  - intros x r. rewrite Er, lookup_foldl_delete. intros [_ ?]. by left.
  - done.
Qed.

Lemma hold_resource_assignments tag l :
  hold_resource <$> flat_map (assignment_holdings tag) l = flat_map as_resource_ids l.
Proof.
  induction l as [|a l IH]; simpl; [done|]. rewrite fmap_app, IH. f_equal.
  unfold assignment_holdings. rewrite <- list_fmap_compose. apply list_fmap_id.
Qed.

Lemma filter_scopes_disjoint t t' l : te_role_scopes t' = te_role_scopes t ->
  List.filter (scoped t' ScopeTask) (List.filter (scoped t ScopeContext) l) = [].
Proof.
  intros Es. induction l as [|a l IH]; simpl; [done|].
  unfold scoped at 2. unfold role_scope. case_bool_decide as E1; [|done]. simpl.
  unfold scoped at 1, role_scope. rewrite Es, E1. case_bool_decide; [done|]. exact IH.
Qed.

Lemma release_task_ownership `{Serde} c group task ids c' r :
  ownership c -> release_task_bindings c group task ids = Some (c', r) -> ownership c'.
Proof.
  intros Ho. unfold release_task_bindings, refuse.
  destruct (task_release_check c group task ids) as [[g t]|] eqn:Hc; [|by intros; simplify_eq].
  apply task_release_check_Ok in Hc as (Hg & Ht & _).
  intros (mv & Eg & Er & Ep & Ec)%commit_membership_fields.
  set (t' := with_assignments t (List.filter (scoped t ScopeContext) (te_assignments t))) in *.
  destruct (put_execution_holdings g task t t' Ht) as (rest & Hold & Hnew).
  apply (ownership_release c c' group g (put_execution task t' g) (task_holdings t) (task_resources t)); try done.
  - by exists mv.
  - by apply (put_scopes g task t).
  - rewrite Ec. apply unpooled_retain, unpooled_release. exact (ow_unpooled c Ho).
  - rewrite Hold, Hnew. unfold task_holdings at 3. subst t'. simpl. by rewrite filter_scopes_disjoint.
  - intros x. unfold task_resources, task_holdings. by rewrite elem_of_sorted_distinct, hold_resource_assignments.
  - apply (group_ok_put g task t); try done; [by eapply ow_group|].
    intros a Ha _. subst t'. simpl in Ha. by apply elem_of_list_filter_bool in Ha as [? _].
Qed.

(** Context bindings split by their context. *)
Lemma filter_bool_split {A} (f : A -> bool) l :
  l ≡ₚ List.filter f l ++ List.filter (fun x => negb (f x)) l.
Proof.
  induction l as [|x l IH]; simpl; [done|]. destruct (f x); simpl.
  - by f_equiv.
  - rewrite IH at 1. by rewrite Permutation_middle.
Qed.

Lemma btree_values_filter {K V} `{Countable K, Ord K} (f : V -> bool) (m : gmap K V) :
  btree_values (filter (fun kv => f kv.2 = true) m) ≡ₚ List.filter f (btree_values m).
Proof.
  induction m as [|k v m Hk IH] using map_ind; [done|].
  rewrite (filter_bool_Permutation f _ _ (btree_values_insert m k v Hk)). simpl.
  destruct (f v) eqn:E.
  - rewrite map_filter_insert_True by done. rewrite btree_values_insert; [by rewrite IH|].
    apply map_lookup_filter_None. by left.
  - rewrite map_filter_insert_False by (simpl; congruence). by rewrite delete_id.
Qed.

Lemma flat_map_fmap_ext {A B} (f : A -> A) (h : A -> list B) l :
  (forall x, h (f x) = h x) -> flat_map h (f <$> l) = flat_map h l.
Proof. intros E. induction l as [|x l IH]; simpl; [done|]. rewrite E. f_equal. exact IH. Qed.

Lemma filter_bool_all {A} (f : A -> bool) l : (forall x, x ∈ l -> f x = true) -> List.filter f l = l.
Proof.
  induction l as [|x l IH]; intros Hf; simpl; [done|]. rewrite Hf by set_solver. f_equal.
  apply IH. set_solver.
Qed.

Lemma without_context_holdings resources t : task_holdings (without_context resources t) = task_holdings t.
Proof.
  unfold task_holdings, without_context. simpl. induction (te_assignments t) as [|a l IH]; simpl; [done|].
  unfold scoped, role_scope in *. simpl in *.
  destruct (bool_decide (default ScopeTask (te_role_scopes t !! as_role_id a) = ScopeTask)) eqn:E; simpl; [|exact IH].
  f_equal; [|exact IH]. unfold assignment_holdings. simpl. f_equal. apply filter_bool_all. intros x _.
  apply bool_decide_eq_true in E. rewrite E. by rewrite bool_decide_false.
Qed.

Section ContextRelease.
Context (g : ExecutionGroup) (context : CoordinationContextId).

Let kept_bindings := filter (fun kv : string * ContextBinding => cb_context_id kv.2 <> context)
                       (eg_context_bindings g).
Let ended : ExecutionGroup :=
  set_task_executions ((fun t => if bool_decide (te_context_id t = context)
                                 then without_context (context_resources g context) t else t)
                         <$> eg_task_executions g)
    (set_context_bindings kept_bindings g).
Let given_up := flat_map binding_holdings
                  (List.filter (in_context context) (btree_values (eg_context_bindings g))).

Lemma elem_of_context_resources x : x ∈ context_resources g context <->
  exists b key, eg_context_bindings g !! key = Some b /\ cb_context_id b = context /\
    x ∈ as_resource_ids (cb_assignment b).
Proof using Type.
  unfold context_resources. rewrite elem_of_sorted_distinct, elem_of_flat_map. split.
  - intros (b & [[key Hb]%elem_of_btree_values Hc%bool_decide_eq_true]%elem_of_list_filter_bool & Hx). eauto.
  - intros (b & key & Hb & Hc & Hx). exists b. rewrite elem_of_list_filter_bool, elem_of_btree_values.
    split_and!; [eauto|by apply bool_decide_eq_true|done].
Qed.

Lemma context_resources_given_up x : x ∈ context_resources g context <-> x ∈ hold_resource <$> given_up.
Proof using Type.
  rewrite elem_of_context_resources, list_elem_of_fmap. subst given_up. setoid_rewrite elem_of_flat_map. split.
  - intros (b & key & Hb & Hc & Hx).
    exists (x, as_role_id (cb_assignment b), Some (cb_context_id b, cb_context_role_id b)). split; [done|].
    exists b. rewrite elem_of_list_filter_bool, elem_of_btree_values. split_and!; [eauto|by apply bool_decide_eq_true|].
    unfold binding_holdings, assignment_holdings. apply list_elem_of_fmap. eauto.
  - intros (h & -> & b & [[key Hb]%elem_of_btree_values Hc%bool_decide_eq_true]%elem_of_list_filter_bool & Hx).
    apply list_elem_of_fmap in Hx as (x' & -> & Hx). eauto.
Qed.

Lemma ended_holdings : group_holdings g ≡ₚ given_up ++ group_holdings ended.
Proof using Type.
  unfold group_holdings. simpl.
  rewrite (flat_map_Permutation task_holdings _ _ (btree_values_fmap _ (eg_task_executions g))).
  rewrite flat_map_fmap_ext by (intros t; case_bool_decide; [apply without_context_holdings|done]).
  rewrite (flat_map_Permutation binding_holdings (btree_values (eg_context_bindings g)) _
             (filter_bool_split (in_context context) _)), flat_map_app.
  rewrite !(assoc_L (++)). f_equiv; [by rewrite (comm (++))|].
  apply flat_map_Permutation. symmetry. unfold in_context.
  rewrite <- (btree_values_filter (fun b => negb (bool_decide (cb_context_id b = context)))).
  apply reflexive_eq. f_equal. apply map_filter_ext. intros k b _. simpl.
  by rewrite negb_true_iff, bool_decide_eq_false.
Qed.

Lemma ended_ok : group_ok g -> group_ok ended.
Proof using Type.
  intros (Ha & Hu & Hk & Hok). split_and!; [done..| |].
  { intros key b. simpl. intros [Hb _]%map_lookup_filter_Some. by apply Hk. }
  simpl. intros task t'. rewrite lookup_fmap.
  intros (t & Ht & ->)%fmap_Some. destruct (Hok task t Ht) as [Hd Hcov]. split; [by case_bool_decide|].
  case_bool_decide as Ec; intros a x Hin Hs Hx.
  - simpl in *. apply list_elem_of_fmap in Hin as (a0 & -> & Hin). simpl in *.
    apply elem_of_list_filter_bool in Hx as [Hx Hn]. exfalso.
    unfold scoped in Hn. rewrite bool_decide_true in Hn by done. simpl in Hn.
    destruct (Hcov a0 x Hin Hs Hx) as (key & b & Hb & Hcb & _ & Hxb).
    apply negb_true_iff, not_true_iff_false in Hn. apply Hn, existsb_exists.
    exists x. split; [|by apply bool_decide_eq_true]. apply list_elem_of_In, elem_of_context_resources.
    exists b, key. split_and!; [done|congruence|done].
  - destruct (Hcov a x Hin Hs Hx) as (key & b & Hb & Hcb & Hr & Hxb).
    exists key, b. split_and!; [|done..]. apply map_lookup_filter_Some. split; [done|]. simpl. congruence.
Qed.

Lemma release_context_ownership `{Serde} c group c' r : ownership c -> cp_groups c !! group = Some g ->
  release_context_bindings c group context = Some (c', r) -> ownership c'.
Proof using Type.
  intros Ho Hg. unfold release_context_bindings, refuse, find_group. rewrite Hg.
  destruct (try_for _ _); [|by intros; simplify_eq].
  intros (mv & Eg & Er & Ep & Ec)%commit_membership_fields.
  apply (ownership_release c c' group g ended given_up (context_resources g context)); try done.
  - by exists mv.
  - simpl. intros task t Ht. rewrite lookup_fmap, Ht. simpl. eexists. split; [done|]. by case_bool_decide.
  - rewrite Ec. apply unpooled_retain, unpooled_release. exact (ow_unpooled c Ho).
  - exact ended_holdings.
  - exact context_resources_given_up.
  - apply ended_ok. by eapply ow_group.
Qed.
End ContextRelease.

(** ** Release of one Role *)

Lemma find_assignment_inv role l : forall index i a, find_assignment index role l = Some (i, a) ->
  exists l1 l2, l = l1 ++ a :: l2 /\ i = (index + length l1)%nat /\ as_role_id a = role.
Proof.
  induction l as [|b l IH]; intros index i a E; simpl in E; [done|].
  case_bool_decide as Eb; [simplify_eq; exists [], l; split_and!; [done|simpl; lia|done]|].
  apply IH in E as (l1 & l2 & -> & -> & Er). exists (b :: l1), l2. split_and!; [done|simpl; lia|done].
Qed.

Lemma remove_found {A} (l1 l2 : list A) a : remove_at (0 + length l1) (l1 ++ a :: l2) = l1 ++ l2.
Proof. unfold remove_at. simpl. rewrite take_app_length. f_equal. rewrite drop_app_ge by lia.
  by replace (S (length l1) - length l1) with 1%nat by lia. Qed.

Lemma task_holdings_perm t l l' : l ≡ₚ l' ->
  task_holdings (with_assignments t l) ≡ₚ task_holdings (with_assignments t l').
Proof. intros E. unfold task_holdings. simpl. by apply flat_map_Permutation, filter_bool_Permutation. Qed.

(** A Context-scoped assignment with a resource is refused. *)
Lemma context_role_holds_nothing c group task role g t index a : ownership c ->
  task_role_release_check c group task role = Ok (g, t, index, a) ->
  role_scope t (as_role_id a) = ScopeContext -> as_resource_ids a = [].
Proof.
  intros Ho (Hg & _ & Ht & Hf & Hc)%task_role_release_check_Ok Hs.
  apply find_assignment_inv in Hf as (l1 & l2 & El & _ & Er).
  destruct (as_resource_ids a) as [|x l] eqn:Ea; [done|]. exfalso.
  destruct (ow_group c Ho group g Hg) as (_ & _ & _ & Hok). destruct (Hok task t Ht) as [_ Hcov].
  destruct (Hcov a x) as (key & b & Hb & _ & _ & Hx);
    [rewrite El; set_solver|done|rewrite Ea; set_solver|].
  assert ((x, as_role_id (cb_assignment b), Some (cb_context_id b, cb_context_role_id b)) ∈ holdings c group)
    as (r & Hr & _ & _ & Htag)%(ow_exact c Ho group).
  { unfold holdings, group_holdings. rewrite Hg. simpl. rewrite !elem_of_app. left. right.
    apply elem_of_flat_map. exists b. rewrite elem_of_btree_values. split; [eauto|].
    apply list_elem_of_fmap. eauto. }
  destruct (ow_reserved c Ho _ _ Hr) as [Hsc _].
  rewrite try_for_ok in Hc. specialize (Hc x ltac:(set_solver)). unfold task_role_check in Hc.
  unfold hold_resource in Hr. simpl in Hr. rewrite Hr, Hsc in Hc.
  destruct (rsv_owner r); [done|]. simpl in Hc. by repeat case_match.
Qed.

(** Every resource of a Task-scoped assignment is reserved with Task scope. *)
Lemma task_role_scoped c group g task t a : ownership c -> cp_groups c !! group = Some g ->
  eg_task_executions g !! task = Some t -> a ∈ te_assignments t ->
  role_scope t (as_role_id a) = ScopeTask ->
  task_scoped_resources c (as_resource_ids a) = as_resource_ids a.
Proof.
  intros Ho Hg Ht Ha Hs. apply filter_bool_all. intros x Hx.
  assert ((x, as_role_id a, None) ∈ holdings c group) as (r & Hr & _ & _ & Htag)%(ow_exact c Ho group).
  { unfold holdings, group_holdings. rewrite Hg. simpl. rewrite !elem_of_app. left. left.
    apply elem_of_flat_map. exists t. rewrite elem_of_btree_values. split; [eauto|].
    apply elem_of_flat_map. exists a. rewrite elem_of_list_filter_bool. unfold scoped.
    split_and!; [done|by apply bool_decide_eq_true|]. apply list_elem_of_fmap. eauto. }
  unfold hold_resource in Hr. simpl in Hr. rewrite Hr. simpl. apply bool_decide_eq_true.
  destruct (ow_reserved c Ho _ _ Hr) as [-> _]. by destruct (rsv_owner r).
Qed.

Lemma hold_resource_assignment tag a : hold_resource <$> assignment_holdings tag a = as_resource_ids a.
Proof. unfold assignment_holdings. rewrite <- list_fmap_compose. apply list_fmap_id. Qed.

Lemma task_holdings_cons t a l : task_holdings (with_assignments t (a :: l)) =
  (if scoped t ScopeTask a then assignment_holdings None a else []) ++ task_holdings (with_assignments t l).
Proof.
  unfold task_holdings. simpl.
  assert (forall l, scoped (with_assignments t l) ScopeTask = scoped t ScopeTask) as E by done.
  rewrite !E. by destruct (scoped t ScopeTask a).
Qed.

Lemma with_assignments_self t : with_assignments t (te_assignments t) = t.
Proof. by destruct t. Qed.

Lemma release_task_role_ownership `{Serde} c group task role c' r :
  ownership c -> release_task_role_binding c group task role = Some (c', r) -> ownership c'.
Proof.
  intros Ho. unfold release_task_role_binding, refuse.
  destruct (task_role_release_check c group task role) as [[[[g t] index] a]|] eqn:Hc; [|by intros; simplify_eq].
  intros (mv & Eg & Er & Ep & Ec)%commit_membership_fields.
  pose proof Hc as (Hg & _ & Ht & Hf & _)%task_role_release_check_Ok.
  apply find_assignment_inv in Hf as (l1 & l2 & El & -> & Ea).
  assert (a ∈ te_assignments t) as Hin by (rewrite El; set_solver).
  set (t' := with_assignments t _) in *.
  set (A := if scoped t ScopeTask a then assignment_holdings None a else []).
  assert (task_holdings t ≡ₚ A ++ task_holdings t') as Hsplit.
  { subst t' A. rewrite El, remove_found, <- task_holdings_cons. rewrite <- (with_assignments_self t) at 1.
    rewrite El. apply task_holdings_perm. by rewrite Permutation_middle. }
  destruct (put_execution_holdings g task t t' Ht) as (rest & Hold & Hnew).
  apply (ownership_release c c' group g _ A (task_scoped_resources c (as_resource_ids a))
           Ho Hg (ex_intro _ mv Eg)); try done.
  - by apply (put_scopes g task t).
  - rewrite Ec. apply unpooled_retain, unpooled_release. exact (ow_unpooled c Ho).
  - change (group_holdings g ≡ₚ A ++ group_holdings (put_execution task t' g)).
    by rewrite Hold, Hnew, Hsplit, (assoc_L (++)).
  - intros x. subst A. unfold scoped. case_bool_decide as Es.
    + by rewrite (task_role_scoped c group g task t a), hold_resource_assignment.
    + rewrite (context_role_holds_nothing c group task role g t _ a Ho Hc); [done|].
      by destruct (role_scope t (as_role_id a)).
  - change (group_ok (put_execution task t' g)).
    apply (group_ok_put g task t); try done; [by eapply ow_group|].
    intros b Hb _. subst t'. cbn [te_assignments with_assignments] in Hb.
    rewrite El, remove_found in Hb. rewrite El. set_solver.
Qed.

Lemma release_role_ownership `{Serde} c group role c' r :
  ownership c -> release_role_binding c group role = Some (c', r) -> ownership c'.
Proof.
  intros Ho. unfold release_role_binding, refuse.
  destruct (blocked_group c group) as [g|] eqn:Hg; [|by intros; simplify_eq]. apply blocked_group_Ok in Hg as [Hg _].
  destruct (ow_group c Ho group g Hg) as (-> & _ & _). simpl. by intros; simplify_eq.
Qed.

Lemma begin_role_recovery_ownership `{Serde} c need c' r :
  ownership c -> begin_role_recovery c need = Some (c', r) -> ownership c'.
Proof.
  intros Ho. unfold begin_role_recovery, refuse.
  match goal with |- context [match ?x with Ok _ => _ | Err _ => Some (c, _) end] => destruct x as [scoped|] end;
    [|by intros; simplify_eq].
  intros ([c1 r1] & Hb & E)%bind_Some. unfold block_group in Hb. apply advance_group_ownership in Hb; [|done].
  destruct r1; [|by simplify_eq]. apply bind_Some in E as ([c2 r2] & Hr & E).
  assert (ownership c2) by (destruct scoped; [by eapply release_task_role_ownership|by eapply release_role_ownership]).
  by destruct r2; simplify_eq.
Qed.

Lemma begin_execution_recovery_ownership `{Serde} c group task role node c' r :
  ownership c -> begin_execution_recovery c group task role node = Some (c', r) -> ownership c'.
Proof.
  intros Ho. unfold begin_execution_recovery, refuse.
  destruct (validate_role_recovery_release c _); [|by intros; simplify_eq].
  intros ([c1 r1] & Hb & E)%bind_Some. apply begin_role_recovery_ownership in Hb; [by destruct r1; simplify_eq|].
  by apply (ownership_same c); [..|exact (ow_unpooled c Ho)].
Qed.

(** ** Creation *)

(** Context-scoped Roles of a Task have different ContextRoles. *)
Definition plan_roles_distinct (p : MissionPlan) : Prop :=
  forall task t, task ∈ tg_tasks (mp_task_graph p) -> planned_execution p task = Some t ->
    context_roles_distinct t.

(** A Group that holds nothing. *)
Definition group_blank (g : ExecutionGroup) : Prop :=
  eg_assignments g = [] /\ eg_unbound_roles g = ∅ /\ eg_context_bindings g = ∅ /\
  forall task t, eg_task_executions g !! task = Some t -> te_assignments t = [] /\ context_roles_distinct t.

Lemma flat_map_nil {A B} (f : A -> list B) l : (forall x, x ∈ l -> f x = []) -> flat_map f l = [].
Proof.
  induction l as [|x l IH]; intros Hf; simpl; [done|]. rewrite Hf by set_solver. apply IH. set_solver.
Qed.

Lemma group_blank_ok g : group_blank g -> group_ok g /\ group_holdings g = [].
Proof.
  intros (Ha & Hu & Hb & Ht). split.
  - split_and!; [done..| |].
    { rewrite Hb. intros key b. by rewrite lookup_empty. }
    intros task t Hl. destruct (Ht task t Hl) as [E Hd]. split; [done|].
    intros a x. rewrite E. set_solver.
  - unfold group_holdings. rewrite Hb, app_nil_r. apply flat_map_nil.
    intros t [task Hl]%elem_of_btree_values. destruct (Ht task t Hl) as [E _].
    unfold task_holdings. by rewrite E.
Qed.

Lemma add_planned_tasks_blank p l : (forall task t, task ∈ l -> planned_execution p task = Some t -> context_roles_distinct t) ->
  forall g g', group_blank g -> foldl (add_planned_task p) (Some g) l = Some g' -> group_blank g'.
Proof.
  induction l as [|task l IH]; intros Hp g g' Hg E; simpl in E; [by simplify_eq|].
  destruct (planned_execution p task) as [t|] eqn:Et; simpl in E.
  - eapply IH; [|clear E|exact E]; [set_solver|]. destruct Hg as (Ha & Hu & Hb & Ht). split_and!; [done..|].
    simpl. intros task' t' [[<- <-]|[_ Hl]]%lookup_insert_Some; [|by eapply Ht].
    split; [|by apply (Hp task); [set_solver|]].
    unfold planned_execution in Et. by apply bind_Some in Et as (? & _ & ?); simplify_eq.
  - exfalso. clear -E. induction l; simpl in E; [done|by apply IHl].
Qed.

Lemma mission_group_blank `{Serde} group p g : plan_roles_distinct p -> mission_group group p = Some g ->
  group_blank g.
Proof.
  intros Hp. unfold mission_group. intros (first & _ & (g0 & Hn & E)%bind_Some)%bind_Some.
  eapply add_planned_tasks_blank; [exact Hp| |exact E].
  unfold ExecutionGroup_new_mission in Hn. apply bind_Some in Hn as (d & _ & [= <-]). done.
Qed.

(** The bookings of a Control plane: its reservations, recovery commitments and ledgers. *)
Definition same_bookings (c c' : ControlPlane) : Prop :=
  cp_reservations c' = cp_reservations c /\
  cp_pending_recovery_commitments c' = cp_pending_recovery_commitments c /\
  cp_capacity_ledger c' = cp_capacity_ledger c /\ cp_quota_ledger c' = cp_quota_ledger c.

#[export] Instance same_bookings_preorder : PreOrder same_bookings.
Proof.
  split; [by intros c; split_and!|]. intros c1 c2 c3 (? & ? & ? & ?) (? & ? & ? & ?). split_and!; congruence.
Qed.

Lemma unpooled_same c c' : same_bookings c c' -> unpooled (cp_capacity c) -> unpooled (cp_capacity c').
Proof.
  unfold same_bookings, cp_capacity_ledger, cp_quota_ledger, unpooled. intros (_ & _ & -> & ->). done.
Qed.

Lemma foldl_same_bookings {A} (f : ControlPlane -> A -> ControlPlane) l :
  (forall c x, same_bookings c (f c x)) -> forall c, same_bookings c (foldl f c l).
Proof. intros Hf. induction l as [|x l IH]; intros c; simpl; [reflexivity|]. etrans; [apply Hf|apply IH]. Qed.

Lemma register_semantics_bookings c mission semantics c1 :
  register_mission_binding_semantics c mission semantics = Ok c1 -> same_bookings c c1.
Proof. unfold register_mission_binding_semantics. intros. repeat case_match; by simplify_eq. Qed.

Lemma create_mission_group_bookings `{Serde} c group p c' r :
  create_mission_group c group p = Some (c', r) -> same_bookings c c'.
Proof.
  unfold create_mission_group, refuse. destruct (contains_key _ _); [by intros; simplify_eq|].
  intros (semantics & _ & E)%bind_Some.
  destruct (register_mission_binding_semantics _ _ _) as [c1|] eqn:Hr; [|by simplify_eq].
  apply register_semantics_bookings in Hr.
  apply bind_Some in E as (g & _ & E). simplify_eq. etrans; [exact Hr|].
  etrans; [|apply foldl_same_bookings; intros; by repeat split]. by repeat split.
Qed.

Lemma create_mission_group_ownership `{Serde} c group p c' r : plan_roles_distinct p ->
  ownership c -> create_mission_group c group p = Some (c', r) -> ownership c'.
Proof.
  intros Hp Ho E. pose proof E as Eb%create_mission_group_bookings.
  apply create_mission_group_inv in E as [(e & -> & _)|(g & _ & Hg & Hn & Eg)]; [done|].
  apply mission_group_blank in Hg; [|done]. destruct (group_blank_ok g Hg) as [Hok Hh].
  apply (ownership_fresh c c' group g); [done..| | | |done|done].
  - apply Eb.
  - apply Eb.
  - apply (unpooled_same c); [done|exact (ow_unpooled c Ho)].
Qed.

(** ** Commit *)

(** Reservations of no Group are added. *)
Lemma ownership_reserve c c' : ownership c -> cp_groups c' = cp_groups c ->
  (forall x r, cp_reservations c' !! x = Some r -> cp_reservations c !! x = Some r \/
     rsv_group_id r = None /\ rsv_scope r = owner_scope (rsv_owner r)) ->
  (forall x r, cp_reservations c !! x = Some r -> cp_reservations c' !! x = Some r) ->
  cp_pending_recovery_commitments c' = cp_pending_recovery_commitments c ->
  unpooled (cp_capacity c') -> ownership c'.
Proof.
  intros [He Hg Hp Hr _] Eg Hnew Hold Ep Hu. split; [..|done].
  - intros id. unfold holdings, recovery_holdings, pending_of_group. rewrite Eg, Ep.
    apply (exact_same (cp_reservations c)); [|apply He]. intros k r Hid. split; [|by apply Hold].
    intros [?|[? _]]%Hnew; [done|congruence].
  - by rewrite Eg.
  - by rewrite Eg, Ep.
  - rewrite Eg. intros x r [Hx|[Hn Hs]]%Hnew; [by eapply Hr|]. split; [done|]. intros id. congruence.
Qed.

Lemma assignment_owners_scope t task l : forall owners, assignment_owners t task l = Some (Ok owners) ->
  forall a scope owner, (a, scope, owner) ∈ owners -> scope = owner_scope owner.
Proof.
  induction l as [|a l IH]; intros owners E; simpl in E; [simplify_eq; set_solver|].
  apply bind_Some in E as ([o|] & Eo & E); [|done].
  apply bind_Some in E as ([rest|] & Er & E); simpl in E; simplify_eq.
  intros b scope owner [<-|Hin]%elem_of_cons; [|by eapply IH].
  unfold assignment_owner in Eo. apply bind_Some in Eo as (s & _ & Eo).
  repeat case_match; by simplify_eq.
Qed.

Lemma commit_entries_scope p owners : forall entries, commit_entries p owners = Some entries ->
  (forall a scope owner, (a, scope, owner) ∈ owners -> scope = owner_scope owner) ->
  forall resource role scope owner, (resource, role, scope, owner) ∈ entries -> scope = owner_scope owner.
Proof.
  induction owners as [|[[a s] o] owners IH]; intros entries E Hs; simpl in E; [simplify_eq; set_solver|].
  apply bind_Some in E as (ids & _ & (rest & Er & [= <-])%bind_Some).
  intros resource role scope owner [Hin|Hin]%elem_of_app.
  - apply list_elem_of_fmap in Hin as (id & ? & _). simplify_eq. apply (Hs a). set_solver.
  - eapply (IH rest Er); [|exact Hin]. intros b s0 o0 Hb. apply (Hs b). by apply list_elem_of_further.
Qed.

Lemma reserve_entries_lookup c0 task now l : forall m, 
  (forall x r, m !! x = Some r -> foldl (reserve_entry c0 task now) m l !! x = Some r) /\
  forall x r, foldl (reserve_entry c0 task now) m l !! x = Some r -> m !! x = Some r \/
    exists role scope owner, (x, role, scope, owner) ∈ l /\ rsv_group_id r = None /\ rsv_task_ref r = task /\
      rsv_role_id r = role /\ rsv_scope r = scope /\ rsv_owner r = owner.
Proof.
  induction l as [|[[[resource role] scope] owner] l IH]; intros m; simpl; [by auto|].
  unfold contains_key. destruct (m !! resource) as [held|] eqn:Em; simpl.
  - destruct (IH m) as [Hk Hn]. split; [done|]. intros x r Hx. destruct (Hn x r Hx) as [?|(? & ? & ? & ? & ?)]; [by left|].
    right. do 3 eexists. split; [by apply list_elem_of_further|done].
  - match goal with |- context [<[resource := ?r]> m] => set (new := r) end.
    destruct (IH (<[resource := new]> m)) as [Hk Hn]. split.
    + intros x r Hx. apply Hk. rewrite lookup_insert_ne; [done|]. intros ->. congruence.
    + intros x r [Hx|(? & ? & ? & ? & ?)]%Hn.
      * apply lookup_insert_Some in Hx as [[<- <-]|[_ Hx]]; [|by left]. right. exists role, scope, owner.
        split_and!; [apply list_elem_of_here|done..].
      * right. do 3 eexists. split; [by apply list_elem_of_further|done].
Qed.

Lemma commit_ownership c group p now c' r :
  ownership c -> commit_for_group_validated c group p None now = Some (c', r) -> ownership c'.
Proof.
  intros Ho E. pose proof E as Eg%commit_for_group_groups. revert E.
  unfold commit_for_group_validated, refuse.
  destruct (commit_check c group p None now) as [t|]; [|by intros; simplify_eq].
  intros ([owners|] & Hown & E)%bind_Some; [|by simplify_eq].
  apply bind_Some in E as (entries & Hent & E).
  destruct (try_for _ entries); simpl in E; [|by simplify_eq].
  destruct (proposal_quota_demands p) as [demands|]; simpl in E; [|by simplify_eq].
  destruct (commit_resource_quotas c _ demands) as [c1|] eqn:Hq; simpl in E; [|by simplify_eq].
  simplify_eq. apply commit_quotas_fields in Hq as (_ & Er & Ep & Hu).
  pose proof (commit_entries_scope p owners entries Hent (assignment_owners_scope _ _ _ _ Hown)) as Hsc.
  destruct (reserve_entries_lookup c1 (ap_task_ref p) now entries (cp_reservations c1)) as [Hk Hn].
  apply (ownership_reserve c); [done|done|..]; simpl.
  - intros x s [Hx|(role & scope & owner & Hin & Hgr & _ & _ & Es & Eo)]%Hn; [left; by rewrite <- Er|right].
    split; [done|]. rewrite Es, Eo. by eapply Hsc.
  - intros x s Hx. apply Hk. by rewrite Er.
  - exact Ep.
  - apply Hu. exact (ow_unpooled c Ho).
Qed.
