(* ===== verification/OwnershipBind.v ===== *)
(** * Ownership and Bind

    [bind_task_execution_validated] turns the reservations a Commit left into holdings of
    the Task and of its Context. *)

From S2P Require Import Prelude Identity Execution StateModel Session Resource RelationSpec DecisionPolicy.
From S2P Require Import Scheduler SchedulerPolicy Sorting Quota NodeIdentity NodeState Capacity.
From S2P Require Import Mission TaskExecution Group ControlPlane Actors GroupLifecycle GroupBinding.
From S2P Require Import GroupRelease RoleRecovery ControlSteps Ownership OwnershipSteps.

Open Scope list_scope.

(** ** Lists *)

Lemma NoDup_fmap_elem {A B} (f : A -> B) l x y : NoDup (f <$> l) -> x ∈ l -> y ∈ l -> f x = f y -> x = y.
Proof.
  induction l as [|z l IH]; intros Hn Hx Hy E; [set_solver|]. apply NoDup_cons in Hn as [Hz Hn].
  apply elem_of_cons in Hx as [->|Hx], Hy as [->|Hy]; try done; [| |by apply IH].
  - exfalso. apply Hz. rewrite E. by apply list_elem_of_fmap_2.
  - exfalso. apply Hz. rewrite <- E. by apply list_elem_of_fmap_2.
Qed.

(** ** Context bindings of a plan *)

(** The ContextRole an assignment binds for its Context. *)
Definition context_slot (t : TaskExecution) (a : RoleAssignment) : option ContextRoleId :=
  match as_resource_ids a with
  | [] => None
  | _ :: _ => match role_scope t (as_role_id a) with
              | ScopeTask => None
              | ScopeContext => te_context_role t (as_role_id a)
              end
  end.

Lemma add_context_binding_slot t task m a : add_context_binding t task m a =
  match context_slot t a with
  | Some id => let key := context_binding_key (te_context_id t) id in
               if contains_key key m then m else <[key := MkContextBinding (te_context_id t) id task a]> m
  | None => m
  end.
Proof.
  unfold add_context_binding, context_slot.
  by destruct (as_resource_ids a), (role_scope t (as_role_id a)), (te_context_role t (as_role_id a)).
Qed.

Lemma context_binding_key_inj context id id' :
  context_binding_key context id = context_binding_key context id' -> id = id'.
Proof.
  unfold context_binding_key. intros E. apply string_app_inj_length in E as [_ E]; [|done].
  apply (string_app_inj_length "::" "::") in E as [_ E]; [|done]. destruct id, id'. simpl in E. by rewrite E.
Qed.

Lemma context_slots_NoDup t l : context_roles_distinct t -> NoDup (as_role_id <$> l) ->
  NoDup (omap (context_slot t) l).
Proof.
  intros Hd. induction l as [|a l IH]; intros Hn; simpl; [constructor|].
  apply NoDup_cons in Hn as [Ha Hn]. destruct (context_slot t a) as [id|] eqn:Es; [|by apply IH].
  constructor; [|by apply IH]. intros (b & Hb & Eb)%list_elem_of_omap. apply Ha.
  assert (as_role_id a = as_role_id b) as ->; [|by apply list_elem_of_fmap_2].
  unfold context_slot in *. repeat case_match; try done. by eapply Hd.
Qed.

(** What a Context gains from an assignment. *)
Definition slot_holdings (t : TaskExecution) (m : gmap string ContextBinding) (a : RoleAssignment)
  : list Holding :=
  match context_slot t a with
  | Some id =>
      if contains_key (context_binding_key (te_context_id t) id) m then []
      else assignment_holdings (Some (te_context_id t, id)) a
  | None => []
  end.

Section Slots.
Context (t : TaskExecution) (task : TaskRef).

Lemma slot_holdings_add m a l : NoDup (omap (context_slot t) (a :: l)) ->
  flat_map (slot_holdings t (add_context_binding t task m a)) l = flat_map (slot_holdings t m) l.
Proof using Type.
  intros Hn. rewrite add_context_binding_slot. simpl in Hn. destruct (context_slot t a) as [id|] eqn:Ea; [|done].
  apply NoDup_cons in Hn as [Hid _]. simpl. destruct (contains_key _ m); [done|].
  clear Ea. induction l as [|b l IH]; simpl; [done|]. simpl in Hid. f_equal.
  - unfold slot_holdings. destruct (context_slot t b) as [id'|] eqn:Eb; [|done].
    unfold contains_key. rewrite lookup_insert_ne; [done|].
    intros ->%context_binding_key_inj. apply Hid. set_solver.
  - apply IH. destruct (context_slot t b); set_solver.
Qed.

Lemma add_bindings_holdings l : forall m, NoDup (omap (context_slot t) l) ->
  flat_map binding_holdings (btree_values (foldl (add_context_binding t task) m l))
  ≡ₚ flat_map (slot_holdings t m) l ++ flat_map binding_holdings (btree_values m).
Proof using Type.
  induction l as [|a l IH]; intros m Hn; simpl; [done|].
  assert (NoDup (omap (context_slot t) l)) as Hl.
  { simpl in Hn. destruct (context_slot t a); [by apply NoDup_cons in Hn as [_ ?]|done]. }
  rewrite IH, slot_holdings_add by done. rewrite <- (assoc_L (++)).
  rewrite (assoc_L (++) (slot_holdings t m a)), (comm (++) (slot_holdings t m a)), <- (assoc_L (++)). f_equiv.
  rewrite add_context_binding_slot. unfold slot_holdings. destruct (context_slot t a) as [id|]; [|done].
  simpl. destruct (contains_key _ m) eqn:Ek; [done|].
  rewrite (flat_map_Permutation _ _ _ (btree_values_insert m _ _ (proj1 (contains_key_false _ _) Ek))). done.
Qed.

Lemma add_bindings_kept l : forall m key b, m !! key = Some b ->
  foldl (add_context_binding t task) m l !! key = Some b.
Proof using Type.
  induction l as [|a l IH]; intros m key b Hk; simpl; [done|]. apply IH. rewrite add_context_binding_slot.
  destruct (context_slot t a) as [id|]; [|done]. simpl. destruct (contains_key _ m) eqn:E; [done|].
  rewrite lookup_insert_ne; [done|]. intros <-. apply contains_key_false in E. congruence.
Qed.

Lemma add_bindings_inv l : forall m key b, foldl (add_context_binding t task) m l !! key = Some b ->
  m !! key = Some b \/ m !! key = None /\ exists a id, a ∈ l /\ context_slot t a = Some id /\
    key = context_binding_key (te_context_id t) id /\ b = MkContextBinding (te_context_id t) id task a.
Proof using Type.
  induction l as [|a l IH]; intros m key b Hk; simpl in Hk; [by left|].
  apply IH in Hk. rewrite add_context_binding_slot in Hk. destruct (context_slot t a) as [id|] eqn:Ea.
  - simpl in Hk. destruct (contains_key _ m) eqn:E.
    + destruct Hk as [?|(? & a' & id' & ? & ?)]; [by left|right]. split; [done|]. exists a', id'. set_solver.
    + apply contains_key_false in E. rewrite lookup_insert_Some, lookup_insert_None in Hk.
      destruct Hk as [[[<- <-]|[_ ?]]|([? _] & a' & id' & ? & ?)]; [right|by left|right].
      * split; [done|]. exists a, id. set_solver.
      * split; [done|]. exists a', id'. set_solver.
  - destruct Hk as [?|(? & a' & id' & ? & ?)]; [by left|right]. split; [done|]. exists a', id'. set_solver.
Qed.

Lemma add_bindings_slot l : forall m a id, a ∈ l -> context_slot t a = Some id ->
  is_Some (foldl (add_context_binding t task) m l !! context_binding_key (te_context_id t) id).
Proof using Type.
  induction l as [|b l IH]; intros m a id Ha Es; [set_solver|]. simpl.
  apply elem_of_cons in Ha as [->|Ha]; [|by eapply IH].
  rewrite add_context_binding_slot, Es. simpl. destruct (contains_key _ m) eqn:E.
  - unfold contains_key in E. destruct (m !! _) as [b'|] eqn:Em; [|done]. exists b'. by apply add_bindings_kept.
  - eexists. apply add_bindings_kept, lookup_insert_eq.
Qed.
End Slots.

(** ** Bound reservations *)

Lemma bind_reservations group task (l : list (ResourceId * RoleId)) : forall c,
  (forall x role, (x, role) ∈ l -> is_Some (cp_reservations c !! x)) ->
  let c1 := foldl (fun c entry => bind_reservation c entry.1 group task entry.2) c l in
  (forall x, cp_reservations c1 !! x =
     if decide (x ∈ l.*1) then with_group_id group <$> cp_reservations c !! x else cp_reservations c !! x) /\
  cp_groups c1 = cp_groups c /\ cp_capacity c1 = cp_capacity c /\
  cp_pending_recovery_commitments c1 = cp_pending_recovery_commitments c.
Proof.
  induction l as [|[y role] l IH]; intros c Hl; cbn [foldl]; [done|].
  destruct (Hl y role) as [r Hr]; [set_solver|].
  set (c0 := bind_reservation c y group task role).
  assert (cp_reservations c0 = <[y := with_group_id group r]> (cp_reservations c) /\
          cp_groups c0 = cp_groups c /\ cp_capacity c0 = cp_capacity c /\
          cp_pending_recovery_commitments c0 = cp_pending_recovery_commitments c) as (Er & Eg & Ec & Ep).
  { subst c0. unfold bind_reservation. by rewrite Hr. }
  destruct (IH c0) as (Hx & Hg & Hc & Hp).
  { intros x role' Hin. rewrite Er. destruct (decide (x = y)) as [->|].
    - rewrite lookup_insert_eq. eauto.
    - rewrite lookup_insert_ne by done. apply (Hl x role'). set_solver. }
  cbn zeta. change (bind_reservation c (y, role).1 group task (y, role).2) with c0.
  split_and!; [|by rewrite Hg|by rewrite Hc|by rewrite Hp].
  intros x. rewrite Hx, Er. destruct (decide (x = y)) as [->|Hne].
  - rewrite lookup_insert_eq, Hr. do 2 case_decide; [done|set_solver|done|set_solver].
  - rewrite lookup_insert_ne by done. do 2 case_decide; [done|set_solver|set_solver|done].
Qed.

Lemma bindable_unpooled c t group task l : unpooled (cp_capacity c) ->
  try_for (bind_resource_check c t group task) l = Ok tt ->
  forall x role, (x, role) ∈ l ->
    exists r, cp_reservations c !! x = Some r /\ reservation_bindable t group task role r = true.
Proof.
  intros [Ha _] Hc x role Hin. rewrite try_for_ok in Hc. specialize (Hc _ Hin).
  unfold bind_resource_check, binding_reservation in Hc. simpl in Hc.
  destruct (cp_reservations c !! x) as [r|].
  - exists r. split; [done|]. by destruct (reservation_bindable _ _ _ _ _).
  - unfold binding, records, cp_capacity_ledger in Hc. rewrite Ha in Hc. done.
Qed.

(** The unbound reservations of a plan were made for its Task and Roles. *)
Definition plan_current (c : ControlPlane) (plan : CommittedPlan) : Prop :=
  NoDup (assigned_resources (pl_assignments plan)).*1 /\
  forall x role r, (x, role) ∈ assigned_resources (pl_assignments plan) ->
    cp_reservations c !! x = Some r -> rsv_group_id r = None ->
    rsv_task_ref r = pl_task_ref plan /\ rsv_role_id r = role.

(** What a bound Task and its Context gain. *)
Definition bound_holdings (t : TaskExecution) (m : gmap string ContextBinding) (a : RoleAssignment)
  : list Holding :=
  (if scoped t ScopeTask a then assignment_holdings None a else []) ++ slot_holdings t m a.

Lemma bound_holdings_split t m l : flat_map (bound_holdings t m) l
  ≡ₚ task_holdings (with_assignments t l) ++ flat_map (slot_holdings t m) l.
Proof.
  induction l as [|a l IH]; [done|]. rewrite task_holdings_cons. simpl. rewrite IH. unfold bound_holdings.
  rewrite <- !(assoc_L (++)). f_equiv. rewrite !(assoc_L (++)). f_equiv. by rewrite (comm (++)).
Qed.

Lemma bound_resources t m l :
  (hold_resource <$> flat_map (bound_holdings t m) l) `sublist_of` flat_map as_resource_ids l.
Proof.
  induction l as [|a l IH]; [done|]. simpl. rewrite fmap_app. apply sublist_app; [|exact IH].
  unfold bound_holdings, slot_holdings, context_slot. rewrite fmap_app.
  destruct (as_resource_ids a) as [|y ys] eqn:Ea.
  - unfold assignment_holdings. rewrite Ea. by destruct (scoped t ScopeTask a).
  - unfold scoped. destruct (role_scope t (as_role_id a)); simpl.
    + by rewrite hold_resource_assignment, Ea, app_nil_r.
    + destruct (te_context_role t (as_role_id a)); [|apply sublist_nil_l].
      destruct (contains_key _ m); [apply sublist_nil_l|]. by rewrite hold_resource_assignment, Ea.
Qed.

Lemma elem_of_assigned_resources x role l : (x, role) ∈ assigned_resources l <->
  exists a, a ∈ l /\ x ∈ as_resource_ids a /\ as_role_id a = role.
Proof.
  unfold assigned_resources. rewrite elem_of_flat_map. setoid_rewrite list_elem_of_fmap. split.
  - intros (a & Ha & y & ? & Hy). simplify_eq. eauto.
  - intros (a & Ha & Hx & <-). eauto 7.
Qed.

Lemma assigned_resources_fst l : (assigned_resources l).*1 = flat_map as_resource_ids l.
Proof.
  induction l as [|a l IH]; [done|]. unfold assigned_resources in *. simpl. rewrite fmap_app, IH. f_equal.
  rewrite <- list_fmap_compose. apply list_fmap_id.
Qed.

Lemma elem_of_bound_holdings t m l h : h ∈ flat_map (bound_holdings t m) l -> exists a x,
  a ∈ l /\ x ∈ as_resource_ids a /\
  (role_scope t (as_role_id a) = ScopeTask /\ h = (x, as_role_id a, None) \/
   role_scope t (as_role_id a) = ScopeContext /\ exists id, te_context_role t (as_role_id a) = Some id /\
     m !! context_binding_key (te_context_id t) id = None /\ h = (x, as_role_id a, Some (te_context_id t, id))).
Proof.
  intros (a & Ha & [Hh|Hh]%elem_of_app)%elem_of_flat_map.
  - unfold scoped in Hh. case_bool_decide as Es; [|set_solver].
    apply list_elem_of_fmap in Hh as (x & -> & Hx). exists a, x. split_and!; [done..|]. by left.
  - unfold slot_holdings, context_slot in Hh. destruct (as_resource_ids a) as [|y ys] eqn:Ea; [set_solver|].
    destruct (role_scope t (as_role_id a)) eqn:Es; [set_solver|].
    destruct (te_context_role t (as_role_id a)) as [id|] eqn:Er; [|set_solver].
    destruct (contains_key _ m) eqn:Ek; [set_solver|].
    apply list_elem_of_fmap in Hh as (x & -> & Hx). exists a, x. rewrite Ea in *. split_and!; [done..|].
    right. split; [done|]. exists id. apply contains_key_false in Ek. done.
Qed.

Lemma bound_holdings_task t m l a x : a ∈ l -> x ∈ as_resource_ids a -> role_scope t (as_role_id a) = ScopeTask ->
  x ∈ hold_resource <$> flat_map (bound_holdings t m) l.
Proof.
  intros Ha Hx Es. apply list_elem_of_fmap. exists (x, as_role_id a, None). split; [done|].
  apply elem_of_flat_map. exists a. split; [done|]. apply elem_of_app. left.
  unfold scoped. rewrite bool_decide_true by done. by apply list_elem_of_fmap_2 with (f := fun r => (r, _, _)).
Qed.

Lemma bound_holdings_slot t m l a x id : a ∈ l -> x ∈ as_resource_ids a ->
  role_scope t (as_role_id a) = ScopeContext -> te_context_role t (as_role_id a) = Some id ->
  m !! context_binding_key (te_context_id t) id = None ->
  x ∈ hold_resource <$> flat_map (bound_holdings t m) l.
Proof.
  intros Ha Hx Es Er Hm. apply list_elem_of_fmap. exists (x, as_role_id a, Some (te_context_id t, id)). split; [done|].
  apply elem_of_flat_map. exists a. split; [done|]. apply elem_of_app. right.
  unfold slot_holdings, context_slot. rewrite Es, Er.
  destruct (as_resource_ids a) eqn:Ea; [set_solver|]. rewrite (proj2 (contains_key_false _ _) Hm).
  apply list_elem_of_fmap. exists x. by rewrite Ea.
Qed.

(** A holding with a ContextRole is one of a Context binding. *)
Lemma holding_context c group g x role context id : cp_groups c !! group = Some g ->
  (x, role, Some (context, id)) ∈ holdings c group ->
  exists key b, eg_context_bindings g !! key = Some b /\ cb_context_id b = context /\
    cb_context_role_id b = id /\ x ∈ as_resource_ids (cb_assignment b).
Proof.
  intros Hg. unfold holdings, group_holdings. rewrite Hg. simpl. rewrite !elem_of_app.
  intros [[(t & _ & (a & _ & (y & ? & _)%list_elem_of_fmap)%elem_of_flat_map)%elem_of_flat_map
          |(b & [key Hb]%elem_of_btree_values & (y & ? & Hy)%list_elem_of_fmap)%elem_of_flat_map]
         |(k & _ & (y & ? & _)%list_elem_of_fmap)%elem_of_flat_map]; simplify_eq. eauto 7.
Qed.

Lemma binding_holding c group g key b x : cp_groups c !! group = Some g -> eg_context_bindings g !! key = Some b ->
  x ∈ as_resource_ids (cb_assignment b) ->
  (x, as_role_id (cb_assignment b), Some (cb_context_id b, cb_context_role_id b)) ∈ holdings c group.
Proof.
  intros Hg Hb Hx. unfold holdings, group_holdings. rewrite Hg. simpl. rewrite !elem_of_app. left. right.
  apply elem_of_flat_map. exists b. rewrite elem_of_btree_values. split; [eauto|].
  apply list_elem_of_fmap. eauto.
Qed.

Section Binding.
Context (c : ControlPlane) (group : ExecutionGroupId) (task : TaskRef) (l : list RoleAssignment).
Context (g : ExecutionGroup) (t : TaskExecution).
Hypothesis Ho : ownership c.
Hypothesis Hg : cp_groups c !! group = Some g.
Hypothesis Ht : eg_task_executions g !! task = Some t.
Hypothesis Hempty : te_assignments t = [].
Hypothesis Hroles : NoDup (as_role_id <$> l).
Hypothesis Hres : forall x role, (x, role) ∈ assigned_resources l ->
  exists r, cp_reservations c !! x = Some r /\ reservation_bindable t group task role r = true.
Hypothesis Hchg : contexts_changed g t l = Some (Ok tt).
Hypothesis Hnodup : NoDup (assigned_resources l).*1.
Hypothesis Hcur : forall x role r, (x, role) ∈ assigned_resources l ->
  cp_reservations c !! x = Some r -> rsv_group_id r = None -> rsv_task_ref r = task /\ rsv_role_id r = role.

Let m := eg_context_bindings g.

Lemma continued_resources a id b : a ∈ l -> role_scope t (as_role_id a) = ScopeContext ->
  te_context_role t (as_role_id a) = Some id -> m !! context_binding_key (te_context_id t) id = Some b ->
  as_resource_ids (cb_assignment b) = as_resource_ids a.
Proof using Hchg.
  clear -Hchg. induction l as [|a' l' IH]; intros Ha Es Er Hb; [set_solver|].
  simpl in Hchg. apply bind_Some in Hchg as ([[]|] & Ec & Hrest); [|done].
  apply elem_of_cons in Ha as [->|Ha]; [|by apply IH].
  unfold context_changed, scoped in Ec. rewrite bool_decide_true in Ec by done. simpl in Ec.
  rewrite Er in Ec. simpl in Ec. subst m. rewrite Hb in Ec. simpl in Ec.
  destruct (_ || _) eqn:Eo; [done|]. apply orb_false_iff in Eo as [_ Eo].
  by apply negb_false_iff, bool_decide_eq_true in Eo.
Qed.

(** A Context-scoped assignment that continues a binding. *)
Lemma continued_slot a x id b : a ∈ l -> x ∈ as_resource_ids a -> role_scope t (as_role_id a) = ScopeContext ->
  te_context_role t (as_role_id a) = Some id -> m !! context_binding_key (te_context_id t) id = Some b ->
  cb_context_id b = te_context_id t /\ cb_context_role_id b = id /\
  x ∈ as_resource_ids (cb_assignment b) /\
  exists r, cp_reservations c !! x = Some r /\ rsv_group_id r = Some group.
Proof using Ho Hg Hres Hchg.
  intros Ha Hx Es Er Hb. pose proof (continued_resources a id b Ha Es Er Hb) as Ee.
  rewrite <- Ee in Hx. pose proof (binding_holding c group g _ b x Hg Hb Hx) as Hh.
  apply (ow_exact c Ho group) in Hh as (r & Hr & Hgr & _ & Htag). unfold hold_resource in Hr. simpl in *.
  destruct (Hres x (as_role_id a)) as (r' & Hr' & Hb').
  { apply elem_of_assigned_resources. exists a. by rewrite <- Ee. }
  unfold reservation_bindable in Hb'. rewrite Es, Er in Hb'. simpl in Hb'.
  rewrite !andb_true_iff, !bool_decide_eq_true in Hb'. destruct Hb' as ((_ & Eo) & _).
  rewrite Hr in Hr'. simplify_eq. rewrite Eo in Htag. simpl in Htag. simplify_eq. eauto 6.
Qed.

(** The reservation of a new holding is unbound. *)
Lemma fresh_unbound a x r : a ∈ l -> x ∈ as_resource_ids a -> cp_reservations c !! x = Some r ->
  role_scope t (as_role_id a) = ScopeTask \/
  role_scope t (as_role_id a) = ScopeContext /\ (exists id, te_context_role t (as_role_id a) = Some id /\
    m !! context_binding_key (te_context_id t) id = None) ->
  rsv_group_id r = None.
Proof using Ho Hg Hres.
  intros Ha Hx Hr Hs. destruct (Hres x (as_role_id a)) as (r' & Hr' & Hb').
  { apply elem_of_assigned_resources. eauto. }
  rewrite Hr in Hr'. simplify_eq. unfold reservation_bindable in Hb'. destruct Hs as [Es|(Es & id & Er & Hm)].
  - rewrite Es, !andb_true_iff in Hb'. destruct Hb' as ((_ & Hn) & _). by destruct (rsv_group_id r').
  - rewrite Es, Er in Hb'. simpl in Hb'. rewrite !andb_true_iff, !bool_decide_eq_true, orb_true_iff in Hb'.
    destruct Hb' as ((_ & Eo) & [Hn|Hn]); [by destruct (rsv_group_id r')|]. apply bool_decide_eq_true in Hn.
    assert ((x, rsv_role_id r', Some (te_context_id t, id)) ∈ holdings c group) as Hh.
    { apply (ow_exact c Ho group). exists r'. by rewrite Eo. }
    apply (holding_context c group g) in Hh as (key & b & Hb & Ec & Eid & _); [|done].
    destruct (ow_group c Ho group g Hg) as (_ & _ & Hk & _). pose proof (Hk key b Hb) as Ek.
    rewrite Ec, Eid in Ek. subst m. congruence.
Qed.

Let g' := put_execution task (with_assignments t l)
            (set_context_bindings (foldl (add_context_binding t task) m l) g).

Context (bound : Reservations).
Hypothesis Hbound : forall x, bound !! x =
  if decide (x ∈ (assigned_resources l).*1) then with_group_id group <$> cp_reservations c !! x
  else cp_reservations c !! x.

Lemma elem_of_assigned x : x ∈ (assigned_resources l).*1 <-> exists a, a ∈ l /\ x ∈ as_resource_ids a.
Proof using Type. by rewrite assigned_resources_fst, elem_of_flat_map. Qed.

Lemma bound_holds h : h ∈ flat_map (bound_holdings t m) l ->
  holds bound group h /\ forall r, cp_reservations c !! hold_resource h = Some r -> rsv_group_id r <> Some group.
Proof using Ho Hg Hres Hcur Hbound.
  intros (a & x & Ha & Hx & Hs)%elem_of_bound_holdings.
  assert ((x, as_role_id a) ∈ assigned_resources l) as Hin by (apply elem_of_assigned_resources; eauto).
  destruct (Hres x _ Hin) as (r & Hr & Hb). assert (rsv_group_id r = None) as Hn.
  { apply (fresh_unbound a x); [done..|]. destruct Hs as [[? _]|(? & id & ? & ? & _)]; eauto 6. }
  destruct (Hcur x _ r Hin Hr Hn) as [_ Erole].
  assert (hold_resource h = x /\ h.1.2 = as_role_id a /\ h.2 = owner_tag (rsv_owner r)) as (Ex & Erl & Etag).
  { unfold reservation_bindable in Hb. destruct Hs as [[Es ->]|(Es & id & Er & _ & ->)]; rewrite Es in Hb.
    - rewrite !andb_true_iff, !bool_decide_eq_true in Hb. by destruct Hb as (_ & ->).
    - rewrite Er in Hb. simpl in Hb. rewrite !andb_true_iff, !bool_decide_eq_true in Hb.
      by destruct Hb as ((_ & ->) & _). }
  split.
  - exists (with_group_id group r). rewrite Ex, Hbound, decide_True, Hr; [|by apply elem_of_assigned; eauto].
    split_and!; [done|done| |done]. simpl. congruence.
  - rewrite Ex. intros r' Hr'. congruence.
Qed.

Lemma bound_frame k r : (k ∉ hold_resource <$> flat_map (bound_holdings t m) l) ->
  rsv_group_id r = Some group -> (bound !! k = Some r <-> cp_reservations c !! k = Some r).
Proof using Ho Hg Hres Hchg Hbound.
  intros Hk Hr. rewrite Hbound. case_decide as Hin; [|done]. apply elem_of_assigned in Hin as (a & Ha & Hx).
  destruct (Hres k (as_role_id a)) as (r0 & Hr0 & Hb); [apply elem_of_assigned_resources; eauto|].
  rewrite Hr0. simpl. destruct (role_scope t (as_role_id a)) eqn:Es.
  { exfalso. apply Hk. by eapply bound_holdings_task. }
  unfold reservation_bindable in Hb. rewrite Es in Hb.
  destruct (te_context_role t (as_role_id a)) as [id|] eqn:Er; [|done].
  destruct (m !! context_binding_key (te_context_id t) id) as [b|] eqn:Em.
  - destruct (continued_slot a k id b) as (_ & _ & _ & r1 & Hr1 & Hg1); [done..|].
    assert (with_group_id group r0 = r0) as ->; [|done].
    assert (r1 = r0) as -> by congruence. destruct r0. unfold with_group_id. simpl in *. by rewrite Hg1.
  - exfalso. apply Hk. by eapply bound_holdings_slot.
Qed.

Lemma bound_group_holdings : group_holdings g' ≡ₚ flat_map (bound_holdings t m) l ++ group_holdings g.
Proof using Ho Hg Ht Hempty Hroles.
  destruct (ow_group c Ho group g Hg) as (_ & _ & _ & Hok). destruct (Hok task t Ht) as [Hd _].
  unfold group_holdings. subst g'. simpl.
  rewrite (flat_map_Permutation _ _ _ (btree_values_replace _ _ _ (with_assignments t l) Ht)).
  rewrite (flat_map_Permutation task_holdings (btree_values (eg_task_executions g)) _ (btree_values_split _ _ _ Ht)).
  simpl. rewrite add_bindings_holdings by (by apply context_slots_NoDup).
  assert (task_holdings t = []) as -> by (unfold task_holdings; by rewrite Hempty).
  rewrite bound_holdings_split. simpl. rewrite <- !(assoc_L (++)).
  apply Permutation_app_head, Permutation_app_swap_app.
Qed.

Lemma bound_exact : exact bound group (group_holdings g' ++ recovery_holdings c group).
Proof using Ho Hg Ht Hempty Hroles Hres Hchg Hnodup Hcur Hbound.
  rewrite bound_group_holdings, <- (assoc_L (++)). apply (exact_add (cp_reservations c)).
  - pose proof (ow_exact c Ho group) as Hx. unfold holdings in Hx. by rewrite Hg in Hx.
  - eapply sublist_NoDup; [|apply bound_resources]. by rewrite <- assigned_resources_fst.
  - intros h Hh. by apply bound_holds.
  - intros h r Hh. by apply bound_holds.
  - intros k r. apply bound_frame.
Qed.

Lemma bound_ok : group_ok g'.
Proof using Ho Hg Ht Hempty Hroles Hres Hchg Hnodup Hcur Hbound.
  destruct (ow_group c Ho group g Hg) as (Ha & Hu & Hk & Hok). destruct (Hok task t Ht) as [Hd _].
  assert (context_roles_distinct (with_assignments t l)) as Hd' by done.
  split_and!; [done..| |].
  { intros key b. subst g'. simpl. intros [Hb|(_ & a & id & _ & _ & -> & ->)]%add_bindings_inv; [by apply Hk|done]. }
  intros task' u. subst g'. simpl. intros [[<- <-]|[_ Hl]]%lookup_insert_Some.
  - split; [done|]. intros a x Hin Es Hx. simpl in *. change (role_scope t (as_role_id a) = ScopeContext) in Es.
    destruct (Hres x (as_role_id a)) as (r & Hr & Hb); [apply elem_of_assigned_resources; eauto|].
    unfold reservation_bindable in Hb. rewrite Es in Hb.
    destruct (te_context_role t (as_role_id a)) as [id|] eqn:Er; [|done].
    assert (context_slot t a = Some id) as Hslot.
    { unfold context_slot. rewrite Es. by destruct (as_resource_ids a); [set_solver|]. }
    destruct (add_bindings_slot t task l m a id Hin Hslot) as [b Hb'].
    exists (context_binding_key (te_context_id t) id), b. split; [done|].
    apply add_bindings_inv in Hb' as [Hm|(_ & a' & id' & Hin' & Hs' & Ek & ->)].
    + destruct (continued_slot a x id b) as (Ec & Eid & Hxb & _); [done..|]. rewrite Eid. done.
    + apply context_binding_key_inj in Ek as <-. simpl.
      assert (a' = a) as ->; [|done]. apply (NoDup_fmap_elem as_role_id l); [done..|].
      unfold context_slot in *. repeat case_match; try done. by eapply Hd.
  - destruct (Hok task' u Hl) as [Hdu Hcov]. split; [done|]. intros a x Hin Es Hx.
    destruct (Hcov a x Hin Es Hx) as (key & b & Hb & Hrest). exists key, b. split; [|done].
    by apply add_bindings_kept.
Qed.
End Binding.

Lemma validated_roles t l : validate_task_assignments t l = Ok tt -> NoDup (as_role_id <$> l).
Proof.
  unfold validate_task_assignments. destruct (negb _); [done|].
  destruct (length l =? _)%nat eqn:E; [|done]. intros _. apply Nat.eqb_eq in E.
  apply distinct_count_NoDup. unfold distinct_count. by rewrite length_fmap.
Qed.

Lemma record_actors_bookings task group l c : same_bookings c (foldl (record_actor task group) c l).
Proof.
  apply foldl_same_bookings. intros c0 e. unfold record_actor.
  destruct (contains_key _ (cp_actor_bindings c0)); by repeat split.
Qed.

(** The reservations a Bind leaves and the state around them. *)
Lemma bind_inv `{Serde} c group plan c' r : unpooled (cp_capacity c) ->
  bind_task_execution_validated c group plan = Some (c', r) -> c' = c \/
  exists g t mv, let l := pl_assignments plan in let task := pl_task_ref plan in
    cp_groups c !! group = Some g /\ eg_task_executions g !! task = Some t /\ te_assignments t = [] /\
    NoDup (as_role_id <$> l) /\ contexts_changed g t l = Some (Ok tt) /\
    (forall x role, (x, role) ∈ assigned_resources l -> exists r, cp_reservations c !! x = Some r /\
       reservation_bindable t group task role r = true) /\
    (forall x, cp_reservations c' !! x = if decide (x ∈ (assigned_resources l).*1)
       then with_group_id group <$> cp_reservations c !! x else cp_reservations c !! x) /\
    cp_groups c' = <[group := set_membership mv (put_execution task (with_assignments t l)
       (set_context_bindings (foldl (add_context_binding t task) (eg_context_bindings g) l) g))]> (cp_groups c) /\
    cp_pending_recovery_commitments c' = cp_pending_recovery_commitments c /\ unpooled (cp_capacity c').
Proof.
  intros Hu. unfold bind_task_execution_validated, refuse.
  destruct (bind_check c group plan) as [[[g t] actors]|] eqn:Hb; [|intros; simplify_eq; by left].
  apply bind_check_Ok in Hb as (Hg & Ht & _ & He & Hv%validated_roles & Hr).
  pose proof (bindable_unpooled c t group (pl_task_ref plan) _ Hu Hr) as Hres.
  intros ([[]|] & Hch & E)%bind_Some; [|simplify_eq; by left].
  apply bind_Some in E as ([c2 res] & Hc & E). right.
  apply commit_membership_fields in Hc as (mv & Eg & Er & Ep & Ec).
  destruct (bind_reservations group (pl_task_ref plan) (assigned_resources (pl_assignments plan)) c)
    as (Hx & Hg1 & Hc1 & Hp1).
  { intros x role Hin. destruct (Hres x role Hin) as (s & Hs & _). eauto. }
  cbn zeta in Hx, Hg1, Hc1, Hp1. rewrite <- Er in Hx. rewrite Hg1 in Eg. rewrite Hc1 in Ec. rewrite Hp1 in Ep.
  assert (same_bookings c2 c' /\ cp_groups c' = cp_groups c2) as [(Er' & Ep' & Ec' & Eq') Eg'].
  { destruct res; simplify_eq; [|split; [by repeat split|done]]. split; [apply record_actors_bookings|].
    apply foldl_groups. intros. apply record_actor_groups. }
  exists g, t, mv. cbn zeta. rewrite Er', Ep', Eg'. split_and!; try done.
  apply (unpooled_same c2); [by repeat split|]. by rewrite Ec.
Qed.

(** A bound reservation was unbound or the Group's own. *)
Lemma bindable_group t group task role r : reservation_bindable t group task role r = true ->
  (rsv_group_id r = None \/ rsv_group_id r = Some group) /\
  (is_context (rsv_owner r) = true \/ rsv_task_ref r = task).
Proof.
  unfold reservation_bindable. destruct (role_scope t role).
  - rewrite !andb_true_iff, !bool_decide_eq_true. intros (((Et & _) & Hn) & _). split; [|by right].
    left. by destruct (rsv_group_id r).
  - destruct (te_context_role t role); [|done]. simpl.
    rewrite !andb_true_iff, !bool_decide_eq_true, orb_true_iff. intros ((_ & Eo) & Hn). rewrite Eo.
    split; [|by left]. destruct Hn as [Hn|Hn]; [left; by destruct (rsv_group_id r)|right].
    by apply bool_decide_eq_true in Hn.
Qed.

Lemma bind_ownership `{Serde} c group plan c' r : plan_current c plan ->
  ownership c -> bind_task_execution_validated c group plan = Some (c', r) -> ownership c'.
Proof.
  intros [Hnd Hcur] Ho E. apply bind_inv in E; [|exact (ow_unpooled c Ho)].
  destruct E as [->|(g & t & mv & Hg & Ht & He & Hv & Hch & Hres & Hx & Eg & Ep & Hu)]; [done|].
  set (l := pl_assignments plan) in *. set (task := pl_task_ref plan) in *.
  pose proof (bound_exact c group task l g t Ho Hg Ht He Hv Hres Hch Hnd Hcur _ Hx) as Hexact.
  pose proof (bound_ok c group task l g t Ho Hg Ht He Hv Hres Hch Hnd Hcur _ Hx) as Hok.
  assert (forall x s, cp_reservations c' !! x = Some s -> cp_reservations c !! x = Some s \/
    exists s0 role, cp_reservations c !! x = Some s0 /\ s = with_group_id group s0 /\
      reservation_bindable t group task role s0 = true) as Hinv.
  { intros x s. rewrite Hx. case_decide as Hin; [|by left].
    apply elem_of_assigned in Hin as (a & Ha & Hxa).
    destruct (Hres x (as_role_id a)) as (s0 & Hs0 & Hb); [apply elem_of_assigned_resources; eauto|].
    rewrite Hs0. intros [= <-]. right. eauto. }
  apply (ownership_step c c' group Ho).
  - rewrite Eg. apply (scopes_kept_insert _ _ g); [done|].
    apply (put_scopes (set_context_bindings (foldl (add_context_binding t task) (eg_context_bindings g) l) g)
             task t (with_assignments t l)); done.
  - intros j Hj. by rewrite Eg, lookup_insert_ne.
  - intros j _. unfold recovery_holdings, pending_of_group. by rewrite Ep.
  - intros j Hj k s Hs. rewrite Hx. case_decide as Hin; [|done].
    apply elem_of_assigned in Hin as (a & Ha & Hka).
    destruct (Hres k (as_role_id a)) as (s0 & Hs0 & Hb); [apply elem_of_assigned_resources; eauto|].
    rewrite Hs0. simpl. apply bindable_group in Hb as [Hn _]. split; intros [= <-]; simpl in *; [congruence|].
    destruct Hn; congruence.
  - unfold holdings, recovery_holdings, pending_of_group. rewrite Eg, Ep, lookup_insert_eq. exact Hexact.
  - intros g0. rewrite Eg, lookup_insert_eq. by intros [= <-].
  - intros key k. rewrite Ep. by left.
  - intros x s [?|(s0 & role & Hs0 & -> & [_ Hown]%bindable_group)]%Hinv; [by left|right].
    destruct (ow_reserved c Ho x s0 Hs0) as [Hsc _]. split; [done|]. simpl. intros id [= <-].
    rewrite Eg, lookup_insert_eq. eexists. split; [done|]. destruct Hown as [?| ->]; [by left|right].
    simpl. rewrite lookup_insert_eq. eauto.
  - done.
Qed.

(** ** The plan of a Commit is current *)

Lemma assignment_owners_fst t task l : forall owners, assignment_owners t task l = Some (Ok owners) ->
  owners.*1.*1 = l.
Proof.
  induction l as [|a l IH]; intros owners E; simpl in E; [by simplify_eq|].
  apply bind_Some in E as ([o|] & Eo & E); [|done].
  apply bind_Some in E as ([rest|] & Er & E); simpl in E; simplify_eq. simpl. f_equal; [|by apply IH].
  unfold assignment_owner in Eo. apply bind_Some in Eo as (s & _ & Eo). repeat case_match; by simplify_eq.
Qed.

Lemma elem_of_combine_fst {A B} (l : list A) (l' : list B) x : x ∈ (combine l l').*1 -> x ∈ l.
Proof.
  intros ([y z] & -> & Hin%list_elem_of_In)%list_elem_of_fmap. apply list_elem_of_In. by eapply in_combine_l.
Qed.

Lemma elem_of_exclusive_resources p a ids x : exclusive_resources p a = Some ids -> x ∈ ids -> x ∈ as_resource_ids a.
Proof.
  unfold exclusive_resources. destruct (ap_requirement p (as_role_id a)) as [r|]; [|by intros [= <-]].
  destruct (_ <=? _)%nat; [|done]. intros [= <-] (d & -> & [Hin _]%elem_of_list_filter_bool)%list_elem_of_fmap.
  apply (elem_of_combine_fst _ (resource_requirements r)). by apply list_elem_of_fmap_2.
Qed.

Lemma exclusive_resources_all p a ids : is_some_and demands_shared (ap_requirement p (as_role_id a)) = false ->
  exclusive_resources p a = Some ids -> ids = as_resource_ids a.
Proof.
  unfold exclusive_resources. destruct (ap_requirement p (as_role_id a)) as [r|]; [|by intros _ [= <-]]. simpl.
  unfold demands_shared. intros Hd. destruct (Nat.leb_spec (length (as_resource_ids a)) (length (resource_requirements r))) as [Hle|];
    [|done]. intros [= <-]. rewrite filter_bool_all.
  - revert Hle. clear Hd. generalize (resource_requirements r). induction (as_resource_ids a) as [|x l IH]; intros [|d ds] Hle; simpl in *; try done.
    + lia.
    + f_equal. apply IH. lia.
  - intros [x d] Hin%list_elem_of_In. apply negb_true_iff, bool_decide_eq_false. simpl. intros Hm.
    apply not_true_iff_false in Hd. apply Hd, existsb_exists. exists d. split; [by eapply in_combine_r|].
    by apply bool_decide_eq_true.
Qed.

Lemma commit_entries_resources p owners : forall entries, commit_entries p owners = Some entries ->
  (forall x role scope owner, (x, role, scope, owner) ∈ entries -> (x, role) ∈ assigned_resources owners.*1.*1) /\
  ((forall a, a ∈ owners.*1.*1 -> is_some_and demands_shared (ap_requirement p (as_role_id a)) = false) ->
   forall x role, (x, role) ∈ assigned_resources owners.*1.*1 -> exists scope owner, (x, role, scope, owner) ∈ entries).
Proof.
  induction owners as [|[[a s] o] owners IH]; intros entries E; simpl in E; [simplify_eq; set_solver|].
  apply bind_Some in E as (ids & Hids & (rest & Er & [= <-])%bind_Some). destruct (IH rest Er) as [Hin Hall].
  unfold assigned_resources in *. simpl. split.
  - intros x role scope owner [(y & ? & Hy)%list_elem_of_fmap|Hr]%elem_of_app; apply elem_of_app; [left|right; by eapply Hin].
    simplify_eq. apply list_elem_of_fmap. exists y. split; [done|]. by eapply elem_of_exclusive_resources.
  - intros Hd x role [(y & ? & Hy)%list_elem_of_fmap|Hr]%elem_of_app.
    + simplify_eq. exists s, o. apply elem_of_app. left. apply list_elem_of_fmap. exists y. split; [done|].
      rewrite (exclusive_resources_all p a ids); [done|apply Hd; set_solver|done].
    + destruct (Hall (fun b Hb => Hd b (list_elem_of_further _ _ _ Hb)) x role Hr) as (scope & owner & ?).
      exists scope, owner. apply elem_of_app. by right.
Qed.

Lemma assigned_role_unique l x role role' : NoDup (assigned_resources l).*1 ->
  (x, role) ∈ assigned_resources l -> (x, role') ∈ assigned_resources l -> role = role'.
Proof. intros Hn H1 H2. by pose proof (NoDup_fmap_elem fst _ _ _ Hn H1 H2 eq_refl) as [= ->]. Qed.

Lemma commit_plan_current c group p now c' plan : NoDup (assigned_resources (ap_assignments p)).*1 ->
  commit_for_group_validated c group p None now = Some (c', Ok plan) -> plan_current c' plan.
Proof.
  intros Hn. unfold commit_for_group_validated, refuse.
  destruct (commit_check c group p None now) as [t|] eqn:Hc; [|by intros; simplify_eq].
  intros ([owners|] & Hown & E)%bind_Some; [|by simplify_eq].
  apply bind_Some in E as (entries & Hent & E).
  destruct (try_for _ entries) as [[]|] eqn:Hconf; simpl in E; [|by simplify_eq].
  destruct (proposal_quota_demands p) as [demands|]; simpl in E; [|by simplify_eq].
  destruct (commit_resource_quotas c _ demands) as [c1|] eqn:Hq; simpl in E; [|by simplify_eq].
  simplify_eq. apply commit_quotas_fields in Hq as (_ & Er & _).
  apply assignment_owners_fst in Hown. destruct (commit_entries_resources p owners entries Hent) as [Hin Hall].
  rewrite Hown in Hin, Hall. split; [exact Hn|]. simpl. intros x role r Hx Hr Hnone.
  assert (forall a, a ∈ ap_assignments p -> is_some_and demands_shared (ap_requirement p (as_role_id a)) = false) as Hd.
  { intros a Ha. unfold commit_check in Hc. destruct (is_none None && _) eqn:Es; [done|]. simpl in Es.
    apply not_true_iff_false. intros Hs. apply not_true_iff_false in Es. apply Es, existsb_exists.
    exists a. split; [by apply list_elem_of_In|done]. }
  destruct (proj2 (reserve_entries_lookup c1 (ap_task_ref p) now entries (cp_reservations c1)) x r Hr)
    as [Hold|(role' & scope & owner & Hin' & _ & Et & Erole & _)].
  - exfalso. destruct (Hall Hd x role Hx) as (scope & owner & Hin').
    rewrite try_for_ok in Hconf. specialize (Hconf _ Hin'). unfold commit_conflict in Hconf. rewrite Er in Hold.
    rewrite Hold, Hnone in Hconf. simpl in Hconf. by rewrite orb_true_r in Hconf.
  - split; [done|]. rewrite Erole. by eapply assigned_role_unique; [..|exact Hx]; [|eapply Hin].
Qed.
