(* ===== verification/OwnershipRecovery.v ===== *)
(** * Ownership and recovery

    Commit, Abort and Rebind of a replacement move its resources between the free pool, the
    pending commitment and the Task. *)

From S2P Require Import Prelude Identity Execution Session StateModel Resource RelationSpec DecisionPolicy.
From S2P Require Import Sorting Scheduler SchedulerPolicy NodeIdentity NodeState Quota Capacity Mission.
From S2P Require Import TaskExecution Group ControlPlane Actors GroupLifecycle GroupBinding RoleRecovery GroupRelease.
From S2P Require Import ControlSteps Ownership OwnershipSteps OwnershipBind.

Open Scope list_scope.

(** ** Pending commitments *)

Lemma recovery_holdings_insert c c' (key : PendingKey) k :
  cp_pending_recovery_commitments c' = <[key := k]> (cp_pending_recovery_commitments c) ->
  cp_pending_recovery_commitments c !! key = None ->
  recovery_holdings c' key.1.1 ≡ₚ pending_holdings k ++ recovery_holdings c key.1.1 /\
  forall j, j <> key.1.1 -> recovery_holdings c' j ≡ₚ recovery_holdings c j.
Proof.
  intros E Hn. unfold recovery_holdings, pending_of_group. rewrite E.
  pose proof (btree_iter_insert_fresh _ key k Hn) as Hp. split.
  - rewrite (flat_map_Permutation _ _ _ (filter_bool_Permutation _ _ _ Hp)). simpl.
    by rewrite bool_decide_true.
  - intros j Hj. rewrite (flat_map_Permutation _ _ _ (filter_bool_Permutation _ _ _ Hp)). simpl.
    by rewrite bool_decide_false by congruence.
Qed.

Lemma recovery_holdings_delete c c' (key : PendingKey) k :
  cp_pending_recovery_commitments c' = delete key (cp_pending_recovery_commitments c) ->
  cp_pending_recovery_commitments c !! key = Some k ->
  recovery_holdings c key.1.1 ≡ₚ pending_holdings k ++ recovery_holdings c' key.1.1 /\
  forall j, j <> key.1.1 -> recovery_holdings c' j ≡ₚ recovery_holdings c j.
Proof.
  intros E Hk. destruct (recovery_holdings_insert c' c key k) as [Ha Hb].
  - by rewrite E, insert_delete_id.
  - by rewrite E, lookup_delete_eq.
  - split; [done|]. intros j Hj. symmetry. by apply Hb.
Qed.

(** ** Commit of a replacement *)

Lemma unpooled_binding c resource group task role : unpooled (cp_capacity c) ->
  binding (cp_capacity_ledger c) resource group task role = None /\
  capacity_conflict (cp_capacity_ledger c) resource = None.
Proof.
  intros [Ha _]. unfold binding, capacity_conflict, records, cp_capacity_ledger. by rewrite Ha.
Qed.

Definition replacement_reservation (p : RecoveryAssignmentProposal) (r : Reservation) : Prop :=
  rsv_task_ref r = rp_task_ref p /\ rsv_role_id r = rp_role_id p /\ rsv_group_id r = Some (rp_group_id p) /\
  rsv_scope r = ScopeTask /\ rsv_owner r = OwnerTask (rp_task_ref p).

Lemma reserve_replacements p now l : forall c, unpooled (cp_capacity c) ->
  let c' := foldl (reserve_replacement p now) c l in
  (forall x, x ∈ l -> exists r, cp_reservations c' !! x = Some r /\ replacement_reservation p r) /\
  (forall x, x ∉ l -> cp_reservations c' !! x = cp_reservations c !! x) /\
  cp_groups c' = cp_groups c /\ cp_capacity c' = cp_capacity c /\
  cp_pending_recovery_commitments c' = cp_pending_recovery_commitments c.
Proof.
  induction l as [|y l IH]; intros c Hu; cbn [foldl]; [set_solver|].
  assert (exists r, replacement_reservation p r /\ reserve_replacement p now c y =
    set_bookings (<[y := r]> (cp_reservations c)) (cp_capacity c) (cp_quota_unaccounted_resources c) c)
    as (r & Hr & E).
  { unfold reserve_replacement. destruct (unpooled_binding c y (rp_group_id p) (rp_task_ref p) (rp_role_id p) Hu) as [-> _].
    eexists. split; [|reflexivity]. done. }
  rewrite E. destruct (IH (set_bookings (<[y := r]> (cp_reservations c)) (cp_capacity c)
    (cp_quota_unaccounted_resources c) c) Hu) as (Hin & Hout & Eg & Ec & Ep). cbn zeta in *.
  split_and!; [| |by rewrite Eg|by rewrite Ec|by rewrite Ep].
  - intros x Hx. destruct (decide (x ∈ l)) as [Hl|Hl]; [by apply Hin|].
    apply elem_of_cons in Hx as [->|]; [|done]. exists r. split; [|done]. rewrite Hout by done. apply lookup_insert_eq.
  - intros x [Hy Hl]%not_elem_of_cons. rewrite Hout by done. simpl. by rewrite lookup_insert_ne.
Qed.

Definition replacement_assignment (p : RecoveryAssignmentProposal) : RoleAssignment :=
  MkAssignment (rp_role_id p) (rp_replacement_node_id p) (rp_replacement_resource_ids p).

(** A replacement without pools: no capacity batch and no divisible demand, for a Role the
    Task holds for itself. *)
Definition recovery_exclusive `{NodeView} (c : ControlPlane) (requirement : TaskRequirement)
    (p : RecoveryAssignmentProposal) (now : TimestampMs) : Prop :=
  (forall batch, nv_capacity c (rp_group_id p) (rp_task_ref p) [replacement_assignment p] now <> Ok (Some batch)) /\
  forall g t, cp_groups c !! rp_group_id p = Some g -> eg_task_executions g !! rp_task_ref p = Some t ->
    role_scope t (rp_role_id p) = ScopeTask /\
    forall r, recovery_role g requirement (rp_task_ref p) (rp_role_id p) = Ok r -> demands_shared r = false.

Lemma recovery_commit_check_Ok `{NodeView} c requirement p now previous quantity demands :
  recovery_commit_check c requirement p now = Ok (previous, quantity, demands) ->
  exists g role u node, cp_groups c !! rp_group_id p = Some g /\
    recovery_role g requirement (rp_task_ref p) (rp_role_id p) = Ok role /\
    recovery_unbound_role g (rp_task_ref p) (rp_role_id p) = Some u /\
    cp_pending_recovery_commitments c !! recovery_commitment_key (rp_group_id p) (rp_task_ref p) (rp_role_id p) = None /\
    validate_recovery_resources node role (rp_replacement_resource_ids p) = Ok tt /\
    try_for (replacement_conflict c (rp_task_ref p))
      (combine (rp_replacement_resource_ids p) (resource_requirements role)) = Ok tt /\
    nv_capacity c (rp_group_id p) (rp_task_ref p) [replacement_assignment p] now = Ok quantity.
Proof.
  unfold recovery_commit_check. intros Hc.
  destruct (negb _); [done|]. destruct (unbound_previous _ _ _ _ _) as [[[g role] prev]|] eqn:Hub; simpl in Hc; [|done].
  destruct (_ || _); [done|]. destruct (recovery_authority_check _ _ _ _); simpl in Hc; [|done].
  destruct (contains_key _ _) eqn:Hk; [done|]. apply contains_key_false in Hk.
  destruct (replacement_check _ _ _ _ _) as [[]|] eqn:Hr; simpl in Hc; [|done].
  destruct (nv_topology _ _ _ _); simpl in Hc; [|done].
  destruct (nv_capacity _ _ _ _ _) as [q|] eqn:Hq; simpl in Hc; [|done].
  destruct (recovery_quota_demands _ _); simpl in Hc; [|done].
  destruct (validate_resource_quotas _ _ _); simpl in Hc; [|done]. simplify_eq.
  unfold unbound_previous in Hub. inv_check Hub. destruct (recovery_unbound_role _ _ _) as [u|] eqn:Hu; [|done].
  simplify_eq. rename select (find_group _ _ = _) into Hg. apply find_group_Ok in Hg.
  unfold replacement_check in Hr. destruct (nv_node _) as [node|]; [|done].
  cbn zeta in Hr. destruct (negb (nv_eligible _ _ _ _)); [done|]. destruct (List.find _ _); [done|].
  destruct (negb (nv_gates_allow _ _ _ _ _)); [done|]. destruct (_ && _); [done|].
  destruct (validate_recovery_resources _ _ _) as [[]|] eqn:Hv; simpl in Hr; [|done].
  exists g, role, u, node. by split_and!.
Qed.

Lemma validated_recovery_resources node role resources :
  validate_recovery_resources node role resources = Ok tt ->
  length resources = length (resource_requirements role) /\ NoDup resources.
Proof.
  unfold validate_recovery_resources. destruct (length resources =? _)%nat eqn:El; [|done]. simpl.
  destruct (distinct_count resources =? _)%nat eqn:Ed; [|done]. intros _.
  apply Nat.eqb_eq in El, Ed. split; [done|]. by apply distinct_count_NoDup.
Qed.

Lemma elem_of_combine_l {A B} (l : list A) (l' : list B) x : length l = length l' -> x ∈ l ->
  exists y, (x, y) ∈ combine l l'.
Proof.
  revert l'. induction l as [|z l IH]; intros [|y l'] E Hx; simplify_eq/=; [set_solver|].
  apply elem_of_cons in Hx as [->|Hx]; [exists y; set_solver|].
  destruct (IH l' E Hx) as [y' Hy]. exists y'. set_solver.
Qed.

(** The resources of an exclusive replacement were free. *)
Lemma replacement_free c task role resources : length resources = length (resource_requirements role) ->
  demands_shared role = false ->
  try_for (replacement_conflict c task) (combine resources (resource_requirements role)) = Ok tt ->
  forall x, x ∈ resources -> cp_reservations c !! x = None.
Proof.
  intros El Hd Hc x Hx. rewrite try_for_ok in Hc. destruct (elem_of_combine_l _ _ x El Hx) as [d Hin].
  specialize (Hc _ Hin). unfold replacement_conflict in Hc. simpl in Hc.
  rewrite bool_decide_false in Hc; [by destruct (cp_reservations c !! x)|]. intros Hdiv.
  apply not_true_iff_false in Hd. apply Hd, existsb_exists. exists d.
  split; [|by apply bool_decide_eq_true]. apply list_elem_of_In in Hin. by eapply in_combine_r.
Qed.

(** The Task of an unbound Role. *)
Lemma unbound_role_task g task role u : eg_unbound_roles g = ∅ ->
  recovery_unbound_role g task role = Some u -> exists t, eg_task_executions g !! task = Some t.
Proof.
  intros Hu. unfold recovery_unbound_role, task_execution. destruct (eg_task_executions g !! task); [by eauto|].
  simpl. rewrite Hu, lookup_empty. by destruct (_ && _).
Qed.

Lemma elem_of_pending_holdings h k : h ∈ pending_holdings k <->
  exists x, x ∈ rc_committed_resource_ids k /\ h = (x, rc_role_id k, None).
Proof. unfold pending_holdings. rewrite list_elem_of_fmap. naive_solver. Qed.

Lemma hold_resource_pending k : hold_resource <$> pending_holdings k = rc_committed_resource_ids k.
Proof. unfold pending_holdings. rewrite <- list_fmap_compose. apply list_fmap_id. Qed.

(** A pending commitment is added with new reservations for its resources. *)
Lemma ownership_commitment c c' k : ownership c ->
  let key := recovery_commitment_key (rc_group_id k) (rc_task_ref k) (rc_role_id k) in
  cp_groups c' = cp_groups c ->
  cp_pending_recovery_commitments c' = <[key := k]> (cp_pending_recovery_commitments c) ->
  cp_pending_recovery_commitments c !! key = None -> pending_ok (cp_groups c) key k ->
  NoDup (rc_committed_resource_ids k) ->
  (forall x, x ∈ rc_committed_resource_ids k -> cp_reservations c !! x = None /\
     exists r, cp_reservations c' !! x = Some r /\ rsv_task_ref r = rc_task_ref k /\ rsv_role_id r = rc_role_id k /\
       rsv_group_id r = Some (rc_group_id k) /\ rsv_scope r = ScopeTask /\ rsv_owner r = OwnerTask (rc_task_ref k)) ->
  (forall x, x ∉ rc_committed_resource_ids k -> cp_reservations c' !! x = cp_reservations c !! x) ->
  unpooled (cp_capacity c') -> ownership c'.
Proof.
  intros Ho key Eg Ep Hn Hok Hnd Hin Hout Hu.
  destruct (recovery_holdings_insert c c' key k Ep Hn) as [Hsame Hother].
  change key.1.1 with (rc_group_id k) in Hsame, Hother.
  apply (ownership_step c c' (rc_group_id k) Ho).
  - rewrite Eg. intros id g Hg. eauto.
  - by rewrite Eg.
  - exact Hother.
  - intros j Hj x r Hr. destruct (decide (x ∈ rc_committed_resource_ids k)) as [Hx|Hx]; [|by rewrite Hout].
    destruct (Hin x Hx) as (-> & r' & -> & _ & _ & Hgr & _). split; [|done]. intros [= ->]. congruence.
  - unfold holdings. rewrite Eg, Hsame. rewrite (Permutation_app_swap_app).
    apply (exact_add (cp_reservations c)); [exact (ow_exact c Ho _)|by rewrite hold_resource_pending|..].
    + intros h (x & Hx & ->)%elem_of_pending_holdings. destruct (Hin x Hx) as (_ & r & Hr & _ & Hrole & Hgr & _ & Hown).
      exists r. rewrite Hown. done.
    + intros h r (x & Hx & ->)%elem_of_pending_holdings. destruct (Hin x Hx) as [Hnone _].
      unfold hold_resource. simpl. by rewrite Hnone.
    + intros x r. rewrite hold_resource_pending. intros Hx _. by rewrite Hout.
  - rewrite Eg. intros g. by eapply ow_group.
  - rewrite Ep, Eg. intros key' k' [[<- <-]|[_ Hk]]%lookup_insert_Some; [by right|by left].
  - intros x r Hr. destruct (decide (x ∈ rc_committed_resource_ids k)) as [Hx|Hx]; [|left; by rewrite <- Hout].
    right. destruct (Hin x Hx) as (_ & r' & Hr' & Ht & _ & Hgr & Hsc & Hown). assert (r' = r) as -> by congruence.
    split; [by rewrite Hsc, Hown|]. rewrite Hgr. intros id [= <-]. rewrite Eg.
    destruct Hok as (_ & g & t & Hg & Htask & _). exists g. split; [done|]. right. rewrite Ht. eauto.
  - done.
Qed.

Lemma commit_recovery_ownership `{NodeView} c requirement p now c' r : recovery_exclusive c requirement p now ->
  ownership c -> commit_role_recovery c requirement p now = Some (c', r) -> ownership c'.
Proof.
  intros [Hbatch Hex] Ho. unfold commit_role_recovery, refuse.
  destruct (recovery_commit_check c requirement p now) as [[[previous quantity] demands]|] eqn:Hc;
    [|by intros; simplify_eq].
  apply recovery_commit_check_Ok in Hc as (g & role & u & node & Hg & Hrole & Hu & Hk & Hv & Hfree & Hq).
  destruct quantity as [batch|]; [by edestruct Hbatch|].
  destruct (commit_resource_quotas c _ demands) as [c1|] eqn:Hl; [|by intros; simplify_eq].
  apply commit_quotas_fields in Hl as (Eg & Er & Ep & Hup). pose proof (ow_unpooled c Ho) as Hu0.
  destruct (ow_group c Ho _ g Hg) as (_ & Hub & _). destruct (unbound_role_task g _ _ u Hub Hu) as [t Ht].
  destruct (Hex g t Hg Ht) as [Hs Hd]. specialize (Hd role Hrole).
  apply validated_recovery_resources in Hv as [Hlen Hnd].
  pose proof (replacement_free c _ role _ Hlen Hd Hfree) as Hnone.
  destruct (reserve_replacements p now (rp_replacement_resource_ids p) c1 (Hup Hu0)) as (Hin & Hout & Eg2 & Ec2 & Ep2).
  cbn zeta in *. intros; simplify_eq.
  apply (ownership_commitment c _ (committed_recovery p previous) Ho); simpl.
  - by rewrite Eg2.
  - by rewrite Ep2, Ep.
  - done.
  - split; [done|]. by exists g, t.
  - done.
  - intros x Hx. split; [by apply Hnone|]. by apply Hin.
  - intros x Hx. by rewrite Hout, Er.
  - rewrite Ec2. by apply Hup.
Qed.

(** ** Abort *)

Lemma validate_pending_Ok c k : validate_pending_recovery_commitment c k = Ok tt ->
  cp_pending_recovery_commitments c !! recovery_commitment_key (rc_group_id k) (rc_task_ref k) (rc_role_id k) = Some k.
Proof.
  unfold validate_pending_recovery_commitment. destruct (cp_pending_recovery_commitments c !! _) as [k'|]; [|done].
  case_bool_decide; [|done]. intros _. by subst.
Qed.

Lemma abort_ownership c k c' r :
  ownership c -> abort_role_recovery_commitment c k = Some (c', r) -> ownership c'.
Proof.
  intros Ho. unfold abort_role_recovery_commitment, refuse.
  destruct (validate_pending_recovery_commitment c k) as [[]|] eqn:Hp; simpl; [|by intros; simplify_eq].
  apply validate_pending_Ok in Hp.
  destruct (blocked_group _ _) as [g|]; simpl; [|by intros; simplify_eq].
  destruct (is_none _); [by intros; simplify_eq|].
  destruct (validate_recovery_commitment_reservations c k); intros; simplify_eq; [|done].
  match goal with |- ownership ?x => set (c' := x) end.
  destruct (recovery_holdings_delete c c' _ k eq_refl Hp) as [Hsame Hother]. simpl in Hsame, Hother.
  pose proof (ow_exact c Ho (rc_group_id k)) as Hx. unfold holdings in Hx.
  rewrite Hsame, Permutation_app_swap_app in Hx.
  apply (ownership_step c c' (rc_group_id k) Ho).
  - intros id u Hu. eauto.
  - done.
  - exact Hother.
  - intros j Hj x s Hs. subst c'. simpl. rewrite lookup_foldl_delete. split; [by intros [_ ?]|]. intros Hl.
    split; [|done]. intros Hin.
    assert ((x, rc_role_id k, None) ∈ pending_holdings k) as Hh by (apply elem_of_pending_holdings; eauto).
    destruct Hx as [_ Hx]. destruct (proj1 (Hx _) (proj2 (elem_of_app _ _ _) (or_introl Hh))) as (s' & Hs' & Hg' & _).
    unfold hold_resource in Hs'. simpl in Hs'. congruence.
  - change (exact (foldl (fun m k => delete k m) (cp_reservations c) (rc_committed_resource_ids k)) (rc_group_id k)
              (holdings c' (rc_group_id k))).
    apply (exact_release _ _ (pending_holdings k)); [exact Hx|]. intros x. by rewrite hold_resource_pending.
  - intros u. exact (ow_group c Ho _ u).
  - intros key k'. subst c'. simpl. intros [_ Hk]%lookup_delete_Some. by left.
  - intros x s. subst c'. simpl. rewrite lookup_foldl_delete. intros [_ ?]. by left.
  - apply unpooled_retain, unpooled_release. exact (ow_unpooled c Ho).
Qed.

(** ** Rebind *)

(** The membership generation of a Group can advance. *)
Definition generation_open (c : ControlPlane) (group : ExecutionGroupId) : Prop :=
  forall g v, cp_groups c !! group = Some g -> eg_membership_version g = Some v -> (gm_generation v < u64_max)%N.

Lemma refresh_membership_open `{Serde} g g' r : refresh_membership g = Some (g', r) ->
  (forall v, eg_membership_version g = Some v -> (gm_generation v < u64_max)%N) -> r = Ok tt.
Proof.
  unfold refresh_membership. intros (digest & _ & E)%bind_Some Hv.
  destruct (eg_membership_version g) as [v|]; [|by simplify_eq].
  destruct (_ =? _)%string; [by simplify_eq|]. specialize (Hv v eq_refl).
  unfold u64_checked_add in E. destruct (N.leb_spec (gm_generation v + 1) u64_max); [by simplify_eq|lia].
Qed.

Lemma insert_at_Permutation {A} index (a : A) l : insert_at index a l ≡ₚ a :: l.
Proof. unfold insert_at. rewrite <- Permutation_middle. by rewrite take_drop. Qed.

Lemma apply_takeover_bookings k takeover c : same_bookings c (apply_takeover k takeover c).
Proof. destruct takeover as [[]|]; by repeat split. Qed.

Lemma record_replacement_bookings k c : same_bookings c (record_replacement k c).
Proof.
  unfold record_replacement.
  destruct (cp_resource_topology_registry c), (scheduled_task c (rc_task_ref k)); by repeat split.
Qed.

(** The replacement joins the bindings of its Task. *)
Lemma rebound_task_holdings t index k :
  role_scope t (rc_role_id k) = ScopeTask ->
  let a := MkAssignment (rc_role_id k) (rc_replacement_node_id k) (rc_committed_resource_ids k) in
  task_holdings (with_assignments t (insert_at index a (te_assignments t))) ≡ₚ pending_holdings k ++ task_holdings t.
Proof.
  intros Hs a. rewrite (task_holdings_perm t _ _ (insert_at_Permutation index a (te_assignments t))).
  rewrite task_holdings_cons, with_assignments_self. unfold scoped. simpl. by rewrite bool_decide_true.
Qed.

Lemma rebind_inv `{Serde} c k c' r : generation_open c (rc_group_id k) ->
  rebind_role_validated c k = Some (c', r) -> c' = c \/
  exists g u g1 mv, cp_groups c !! rc_group_id k = Some g /\ validate_pending_recovery_commitment c k = Ok tt /\
    rebound_group g u k = Ok g1 /\
    cp_groups c' = <[rc_group_id k := set_membership mv (set_lifecycle GlAdapted g1)]> (cp_groups c) /\
    cp_reservations c' = cp_reservations c /\
    cp_pending_recovery_commitments c' = delete
      (recovery_commitment_key (rc_group_id k) (rc_task_ref k) (rc_role_id k)) (cp_pending_recovery_commitments c) /\
    (unpooled (cp_capacity c) -> unpooled (cp_capacity c')).
Proof.
  intros Hopen. unfold rebind_role_validated, refuse.
  destruct (rebind_check c k) as [[[g u] takeover]|] eqn:Hc; simpl; [|intros; simplify_eq; by left].
  apply rebind_check_Ok in Hc as (Hg & _ & Hp & _).
  destruct (rebound_group g u k) as [g1|] eqn:Hr; simpl; [|intros; simplify_eq; by left].
  intros ([g2 res] & Hm & E)%bind_Some. right. exists g, u, g1.
  assert (eg_membership_version g1 = eg_membership_version g) as Ev.
  { unfold rebound_group in Hr. destruct (task_execution g (rc_task_ref k)); destruct (role_bound _ _); by simplify_eq. }
  pose proof (refresh_membership_open _ _ _ Hm) as Hok. simpl in Hok. rewrite Ev in Hok.
  specialize (Hok (fun v => Hopen g v Hg)). subst res.
  apply refresh_membership_inv in Hm as (mv & -> & _). exists mv. simplify_eq.
  set (c0 := put_group _ _ c). set (c1 := apply_takeover k takeover c0).
  destruct (apply_takeover_bookings k takeover c0) as (Er1 & Ep1 & Ec1 & Eq1). fold c1 in Er1, Ep1, Ec1, Eq1.
  set (c2 := set_pending _ c1).
  destruct (record_replacement_bookings k c2) as (Er2 & Ep2 & Ec2 & Eq2).
  split_and!; try done; simpl.
  - rewrite record_replacement_groups. subst c2 c1. simpl. by rewrite apply_takeover_groups.
  - by rewrite Er2.
  - rewrite Ep2. subst c2. simpl. by rewrite Ep1.
  - intros Hu. apply (unpooled_same c2 (record_replacement k c2)); [apply record_replacement_bookings|].
    apply (unpooled_same c0 c1); [apply apply_takeover_bookings|exact Hu].
Qed.

Lemma rebind_ownership `{Serde} c k c' r : generation_open c (rc_group_id k) ->
  ownership c -> rebind_role_validated c k = Some (c', r) -> ownership c'.
Proof.
  intros Hopen Ho E. 
  apply (rebind_inv c k c' r Hopen) in E as [->|(g & u & g1 & mv & Hg & Hp & Hr & Eg & Er & Ep & Hu)]; [done|].
  apply validate_pending_Ok in Hp. destruct (ow_pending c Ho _ k Hp) as (_ & g0 & t & Hg0 & Ht & Hs).
  rewrite Hg in Hg0. injection Hg0 as <-. unfold rebound_group, task_execution in Hr. rewrite Ht in Hr.
  destruct (role_bound _ _); [done|]. injection Hr as <-.
  set (t' := with_assignments t (insert_at _ _ _)) in *.
  assert (task_holdings t' ≡ₚ pending_holdings k ++ task_holdings t) as Hth by (by apply rebound_task_holdings).
  destruct (put_execution_holdings g (rc_task_ref k) t t' Ht) as (rest & Hold & Hnew).
  destruct (recovery_holdings_delete c c' _ k Ep Hp) as [Hsame Hother]. simpl in Hsame, Hother.
  pose proof (ow_exact c Ho (rc_group_id k)) as Hx. unfold holdings in Hx. rewrite Hg in Hx. simpl in Hx.
  apply (ownership_step c c' (rc_group_id k) Ho).
  - rewrite Eg. apply (scopes_kept_insert _ _ g); [done|]. by apply (put_scopes g (rc_task_ref k) t t').
  - intros j Hj. by rewrite Eg, lookup_insert_ne.
  - exact Hother.
  - intros j _. rewrite Er. by intros x s _.
  - rewrite Er. unfold holdings. rewrite Eg, lookup_insert_eq. simpl.
    change (exact (cp_reservations c) (rc_group_id k)
      (group_holdings (put_execution (rc_task_ref k) t' g) ++ recovery_holdings c' (rc_group_id k))).
    rewrite Hold, Hsame in Hx. rewrite Hnew, Hth. rewrite <- !(assoc_L (++)) in Hx |- *.
    rewrite (Permutation_app_swap_app rest), (Permutation_app_swap_app (task_holdings t)) in Hx.
    by rewrite <- (assoc_L (++)).
  - intros g2. rewrite Eg, lookup_insert_eq. intros [= <-].
    apply (group_ok_put g (rc_task_ref k) t t'); try done; [by eapply ow_group|].
    intros a Ha Hsc. subst t'. simpl in Ha. rewrite insert_at_Permutation in Ha.
    apply elem_of_cons in Ha as [->|Ha]; [|done]. simpl in Hsc. congruence.
  - intros key k'. rewrite Ep. intros [_ ?]%lookup_delete_Some. by left.
  - intros x s. rewrite Er. by left.
  - apply Hu. exact (ow_unpooled c Ho).
Qed.

(** * Ownership and release

    A released Group holds nothing, a revision hands the Mission to a new Group, and a
    closed Group can always be released. *)

Open Scope list_scope.

(** ** Release of a Group *)

Lemma filter_bool_NoDup {A} (f : A -> bool) l : NoDup l -> NoDup (List.filter f l).
Proof.
  induction 1 as [|x l Hx Hn IH]; simpl; [constructor|]. destruct (f x); [|done]. constructor; [|done].
  by intros [? _]%elem_of_list_filter_bool.
Qed.

Lemma pending_of_group_same c c' j :
  (forall key k, key.1.1 = j -> cp_pending_recovery_commitments c' !! key = Some k <->
     cp_pending_recovery_commitments c !! key = Some k) ->
  recovery_holdings c' j ≡ₚ recovery_holdings c j.
Proof.
  intros H. unfold recovery_holdings. apply flat_map_Permutation. unfold pending_of_group.
  apply NoDup_Permutation; [apply filter_bool_NoDup; rewrite btree_iter_Permutation; apply NoDup_map_to_list..|].
  intros [key k]. rewrite !elem_of_list_filter_bool, !elem_of_btree_iter, bool_decide_eq_true. simpl.
  split; intros [Hk Ek]; (split; [by apply H|done]).
Qed.

Lemma emptied_blank g : group_ok g -> group_blank (emptied g).
Proof.
  intros (_ & _ & _ & Hok). split_and!; [done..|]. simpl. intros task t. rewrite lookup_fmap.
  intros (t0 & Ht & ->)%fmap_Some. split; [done|]. apply (Hok task t0 Ht).
Qed.

Lemma recovery_holdings_none c id :
  (forall key k, cp_pending_recovery_commitments c !! key = Some k -> key.1.1 <> id) -> recovery_holdings c id = [].
Proof.
  intros H. unfold recovery_holdings, pending_of_group. apply flat_map_nil.
  intros [key k] [Hk%elem_of_btree_iter Ek%bool_decide_eq_true]%elem_of_list_filter_bool. by destruct (H key k Hk).
Qed.

(** A release that passes its checks clears the Group, also when the membership version
    cannot advance. *)
Lemma release_group_inv `{Serde} c group c' r : release_group c group = Some (c', r) ->
  (c' = c /\ exists e, r = Err e) \/
  exists g mv, cp_groups c !! group = Some g /\
    cp_groups c' = <[group := set_membership mv (emptied g)]> (cp_groups c) /\
    (forall x s, cp_reservations c' !! x = Some s <->
       cp_reservations c !! x = Some s /\ rsv_group_id s <> Some group) /\
    (forall key k, cp_pending_recovery_commitments c' !! key = Some k <->
       cp_pending_recovery_commitments c !! key = Some k /\ key.1.1 <> group) /\
    (unpooled (cp_capacity c) -> unpooled (cp_capacity c')).
Proof.
  unfold release_group, refuse. intros ([[[g resources] pending]|] & Hc & E)%bind_Some; [|simplify_eq; eauto].
  apply group_release_check_Ok in Hc as (Hg & _ & m & Hexp & _ & Hv & _ & Hres).
  apply commit_membership_fields in E as (mv & Eg & Er & Ep & Ec). simpl in Eg, Er, Ep.
  right. exists g, mv. split_and!; [done..| | |].
  - intros x s. rewrite Er. by apply released_lookup.
  - intros key k. rewrite Ep. by eapply released_pending.
  - intros Hu. rewrite Ec. simpl. apply (unpooled_release (map_capacity (release_capacity_group group) c)).
    by apply unpooled_retain.
Qed.

Lemma release_group_ownership `{Serde} c group c' r :
  ownership c -> release_group c group = Some (c', r) -> ownership c'.
Proof.
  intros Ho E. apply release_group_inv in E as [[-> _]|(g & mv & Hg & Eg & Hlook & Hpend & Hu)]; [done|].
  pose proof (ow_group c Ho group g Hg) as Hok.
  destruct (group_blank_ok _ (emptied_blank g Hok)) as [Hok' Hnil].
  apply (ownership_step c c' group Ho).
  - rewrite Eg. apply (scopes_kept_insert _ _ g); [done|]. simpl. intros task t Ht. rewrite lookup_fmap, Ht. simpl. eauto.
  - intros j Hj. by rewrite Eg, lookup_insert_ne.
  - intros j Hj. apply pending_of_group_same. intros key k Ek. rewrite Hpend, Ek. naive_solver.
  - intros j Hj x s Hs. rewrite Hlook, Hs. naive_solver.
  - unfold holdings. rewrite Eg, lookup_insert_eq. simpl.
    change (group_holdings (set_membership mv (emptied g))) with (group_holdings (emptied g)).
    rewrite Hnil, recovery_holdings_none by (by intros key k [_ ?]%Hpend). split; [constructor|].
    intros h. split; [set_solver|]. by intros (s & [_ Hn]%Hlook & Hs & _).
  - intros g0. rewrite Eg, lookup_insert_eq. by intros [= <-].
  - intros key k [Hk _]%Hpend. by left.
  - intros x s [Hx _]%Hlook. by left.
  - apply Hu. exact (ow_unpooled c Ho).
Qed.

(** ** Revision *)

Lemma alter_Some {K V} `{Countable K} (f : V -> V) (m : gmap K V) k v : m !! k = Some v ->
  alter f k m = <[k := f v]> m.
Proof.
  intros Hk. apply map_eq. intros j. destruct (decide (j = k)) as [->|].
  - by rewrite lookup_alter_eq, lookup_insert_eq, Hk.
  - by rewrite lookup_alter_ne, lookup_insert_ne.
Qed.

(** A Group is updated and holds what it held. *)
Lemma update_group_ownership c id f : ownership c ->
  (forall g, cp_groups c !! id = Some g -> group_holdings (f g) ≡ₚ group_holdings g /\ group_ok (f g) /\
     forall task t, eg_task_executions g !! task = Some t ->
       exists t', eg_task_executions (f g) !! task = Some t' /\ te_role_scopes t' = te_role_scopes t) ->
  ownership (update_group id f c).
Proof.
  intros Ho Hf. destruct (cp_groups c !! id) as [g|] eqn:Hg.
  - destruct (Hf g eq_refl) as (Hh & Hok & Hs).
    assert (cp_groups (update_group id f c) = <[id := f g]> (cp_groups c)) as Eg by (by apply alter_Some).
    apply (ownership_group c _ id g (f g)); try done; [|exact (ow_unpooled c Ho)].
    rewrite Eg. by apply (scopes_kept_insert _ _ g).
  - apply (ownership_same c); try done; [|exact (ow_unpooled c Ho)].
    simpl. apply map_eq. intros j. destruct (decide (j = id)) as [->|]; [|by rewrite lookup_alter_ne].
    by rewrite lookup_alter_eq, Hg.
Qed.

Lemma keep_completed_ok completed g : group_ok g ->
  group_holdings (keep_completed completed g) ≡ₚ group_holdings g /\ group_ok (keep_completed completed g) /\
  forall task t, eg_task_executions g !! task = Some t ->
    exists t', eg_task_executions (keep_completed completed g) !! task = Some t' /\ te_role_scopes t' = te_role_scopes t.
Proof.
  intros (Ha & Hu & Hk & Hok). split_and!.
  - unfold group_holdings. simpl.
    rewrite (flat_map_Permutation task_holdings _ _ (btree_values_fmap _ (eg_task_executions g))).
    rewrite flat_map_fmap_ext; [done|]. intros t. by destruct (set_contains _ _).
  - split_and!; try done. simpl. intros task t'. rewrite lookup_fmap. intros (t & Ht & ->)%fmap_Some.
    destruct (Hok task t Ht) as [Hd Hcov]. by destruct (set_contains _ _).
  - simpl. intros task t Ht. rewrite lookup_fmap, Ht. simpl. eexists. split; [done|]. by destruct (set_contains _ _).
Qed.

Lemma supersede_ownership `{Serde} c source target source_plan target_plan c' r : plan_roles_distinct target_plan ->
  ownership c -> supersede_mission_group c source target source_plan target_plan = Some (c', r) -> ownership c'.
Proof.
  intros Hp Ho. unfold supersede_mission_group, refuse.
  intros ([[]|] & _ & E)%bind_Some; [|by simplify_eq].
  apply bind_Some in E as (g & Hg & E). destruct (revision_refused _ _ _ _ _ _); [by simplify_eq|].
  destruct (try_for _ _); [|by simplify_eq].
  apply bind_Some in E as ([c1 created] & Hcr & E). apply create_mission_group_ownership in Hcr as Ho1; [|done..].
  destruct created as [gt|]; [|by simplify_eq].
  apply bind_Some in E as ([[]|] & _ & E); [|by simplify_eq].
  apply bind_Some in E as ([c4 res] & Hrel & E). apply release_group_ownership in Hrel; [by destruct res; simplify_eq|].
  apply update_group_ownership; [apply update_group_ownership; [done|]|].
  - intros u Hu. apply keep_completed_ok. by eapply ow_group.
  - intros u Hu. split_and!; [done| |by eauto].
    assert (ownership (update_group target (keep_completed (completed_tasks g)) c1)) as Ho2.
    { apply update_group_ownership; [done|]. intros v Hv. apply keep_completed_ok. by eapply ow_group. }
    exact (ow_group _ Ho2 _ u Hu).
Qed.

(** ** A closed Group can be released *)

(** The entries [release_group] expects a reservation for. *)
Definition expected_map (l : list (ResourceId * RoleId)) (m : Expected) : Expected :=
  foldl (fun m e => <[e.1 := e.2]> m) m l.

Lemma expected_map_lookup l : forall m x, expected_map l m !! x = None <-> m !! x = None /\ x ∉ l.*1.
Proof.
  induction l as [|[y role] l IH]; intros m x; simpl; [set_solver|].
  rewrite IH, lookup_insert_None, not_elem_of_cons. naive_solver.
Qed.

Lemma expected_map_Some l : forall m x role, NoDup l.*1 -> (forall y, y ∈ l.*1 -> m !! y = None) ->
  expected_map l m !! x = Some role <-> m !! x = Some role \/ (x, role) ∈ l.
Proof.
  induction l as [|[y r] l IH]; intros m x role Hn Hd; simpl; [set_solver|].
  simpl in Hn. apply NoDup_cons in Hn as [Hy Hn]. rewrite IH; [|done|].
  - rewrite lookup_insert_Some, elem_of_cons. assert (m !! y = None) as Hm by (apply Hd; set_solver).
    split.
    + intros [[[<- <-]|[_ ?]]|?]; auto.
    + intros [Hx|[?|?]]; [|simplify_eq; auto|auto]. left. right. split; [|done]. intros ->. congruence.
  - intros z Hz. rewrite lookup_insert_ne; [apply Hd; set_solver|]. intros ->. set_solver.
Qed.

Lemma expect_resources_free c group word l : unpooled (cp_capacity c) -> forall m,
  NoDup l.*1 -> (forall y, y ∈ l.*1 -> m !! y = None) ->
  expect_resources c group word m l = Ok (expected_map l m).
Proof.
  intros Hu. induction l as [|[y r] l IH]; intros m Hn Hd; simpl; [done|].
  simpl in Hn. apply NoDup_cons in Hn as [Hy Hn].
  destruct (unpooled_binding c y group (MkTaskRef (MkId "") (MkId "")) (MkId "") Hu) as [_ ->]. simpl.
  rewrite (proj2 (contains_key_false _ _)) by (apply Hd; set_solver).
  apply IH; [done|]. intros z Hz. rewrite lookup_insert_ne; [apply Hd; set_solver|]. intros ->. set_solver.
Qed.

Lemma expected_map_app l l' m : expected_map (l ++ l') m = expected_map l' (expected_map l m).
Proof. apply foldl_app. Qed.

Definition pending_resources (k : CommittedRecoveryAssignment) : list (ResourceId * RoleId) :=
  (fun id => (id, rc_role_id k)) <$> rc_committed_resource_ids k.

Lemma expect_pending_free c g group l : unpooled (cp_capacity c) ->
  (forall key k, (key, k) ∈ l -> pending_inconsistent g group key k = false) ->
  forall m, NoDup (flat_map (fun kv => pending_resources kv.2) l).*1 ->
  (forall y, y ∈ (flat_map (fun kv => pending_resources kv.2) l).*1 -> m !! y = None) ->
  expect_pending c g group m l = Ok (expected_map (flat_map (fun kv => pending_resources kv.2) l) m, l.*1).
Proof.
  intros Hu. induction l as [|[key k] l IH]; intros Hc m Hn Hd; simpl; [done|].
  rewrite Hc by set_solver. simpl in Hn, Hd. rewrite fmap_app in Hn, Hd.
  apply NoDup_app in Hn as (Hk & Hdis & Hn).
  rewrite expect_resources_free; [|done|done|]. 2: { intros y Hy. apply Hd. set_solver. }
  simpl. fold (pending_resources k). rewrite IH, expected_map_app; [done|set_solver|done|].
  intros y Hy. apply expected_map_lookup. split; [apply Hd; set_solver|]. intros Hy'. by apply (Hdis y).
Qed.

(** What a Group is expected to own is what it holds. *)
Lemma task_resources_fst t :
  flat_map assignment_resources (List.filter (fun a => negb (scoped t ScopeContext a)) (te_assignments t))
  = (task_holdings t).*1.
Proof.
  unfold task_holdings. induction (te_assignments t) as [|a l IH]; simpl; [done|].
  assert (scoped t ScopeTask a = negb (scoped t ScopeContext a)) as ->.
  { unfold scoped. by destruct (role_scope t (as_role_id a)). }
  destruct (negb (scoped t ScopeContext a)); simpl; [|exact IH]. rewrite fmap_app, <- IH. f_equal. unfold assignment_holdings. by rewrite <- list_fmap_compose.
Qed.

Lemma flat_map_fst {A B C} (f : A -> list (B * C)) (h : A -> list B) l : (forall x, h x = (f x).*1) ->
  flat_map h l = (flat_map f l).*1.
Proof. intros E. induction l as [|x l IH]; simpl; [done|]. by rewrite fmap_app, E, IH. Qed.

Lemma holdings_fst c group g : cp_groups c !! group = Some g ->
  (holdings c group).*1 = group_task_resources g ++ group_context_resources g
    ++ flat_map (fun kv => pending_resources kv.2) (pending_of_group c group).
Proof.
  intros Hg. unfold holdings, group_holdings. rewrite Hg. simpl. rewrite !fmap_app, <- (assoc_L (++)). f_equal; [|f_equal].
  - symmetry. apply flat_map_fst. apply task_resources_fst.
  - symmetry. apply flat_map_fst. intros b. unfold binding_holdings, assignment_holdings, assignment_resources.
    by rewrite <- list_fmap_compose.
  - symmetry. apply flat_map_fst. intros [key k]. unfold pending_holdings, pending_resources. simpl.
    by rewrite <- list_fmap_compose.
Qed.

(** The Roles of the resources a Group holds. *)
Definition expected_of (c : ControlPlane) (group : ExecutionGroupId) : Expected :=
  expected_map (holdings c group).*1 ∅.

Section Releasable.
Context `{Serde} (c : ControlPlane) (group : ExecutionGroupId) (g : ExecutionGroup).
Hypothesis Ho : ownership c.
Hypothesis Hg : cp_groups c !! group = Some g.

Lemma holdings_NoDup : NoDup (holdings c group).*1.*1.
Proof using Ho. rewrite <- list_fmap_compose. apply (ow_exact c Ho group). Qed.

Lemma expected_lookup x role : expected_of c group !! x = Some role <-> (x, role) ∈ (holdings c group).*1.
Proof using Ho.
  unfold expected_of. rewrite expected_map_Some; [|apply holdings_NoDup|intros; apply lookup_empty].
  rewrite lookup_empty. naive_solver.
Qed.

Lemma pending_consistent key k : (key, k) ∈ pending_of_group c group -> pending_inconsistent g group key k = false.
Proof using Ho Hg.
  intros [Hk%elem_of_btree_iter Ek%bool_decide_eq_true]%elem_of_list_filter_bool. simpl in Ek.
  destruct (ow_pending c Ho key k Hk) as (-> & g0 & t & Hg0 & Ht & _). simpl in Ek. subst group.
  rewrite Hg in Hg0. injection Hg0 as <-. unfold pending_inconsistent, task_execution. simpl.
  rewrite Ht. simpl. rewrite andb_false_r. by rewrite !bool_decide_true.
Qed.

Lemma expected_resources_owned : expected_resources c g group = Ok (expected_of c group, (pending_of_group c group).*1).
Proof using Ho Hg.
  pose proof (ow_unpooled c Ho) as Hu. pose proof holdings_NoDup as Hn. unfold expected_of.
  rewrite (holdings_fst c group g Hg) in *. rewrite !fmap_app in Hn.
  apply NoDup_app in Hn as (Hn1 & Hd1 & Hn). apply NoDup_app in Hn as (Hn2 & Hd2 & Hn3).
  unfold expected_resources. destruct (ow_group c Ho group g Hg) as (-> & _). simpl.
  rewrite expect_resources_free; [|done|done|intros; apply lookup_empty]. simpl.
  rewrite expect_resources_free; [|done|done|]. 
  2: { intros y Hy. apply expected_map_lookup. split; [apply lookup_empty|]. intros Hy'.
    apply (Hd1 y Hy'), elem_of_app. by left. }
  simpl. rewrite expect_pending_free, !expected_map_app; [done|done|apply pending_consistent|done|].
  intros y Hy. rewrite !expected_map_lookup. split_and!; [apply lookup_empty|..]; intros Hy'.
  - apply (Hd1 y Hy'), elem_of_app. by right.
  - by apply (Hd2 y Hy').
Qed.

(** A reservation of the Group belongs to one of its Tasks or Contexts. *)
Lemma reservation_task_owned x r : cp_reservations c !! x = Some r -> rsv_group_id r = Some group ->
  task_owned g r = true.
Proof using Ho Hg.
  intros Hr Hgr. destruct (ow_reserved c Ho x r Hr) as [_ Hex].
  destruct (Hex group Hgr) as (g0 & Hg0 & Hown). rewrite Hg in Hg0. injection Hg0 as <-.
  unfold task_owned, task_execution. destruct Hown as [->|[t ->]]; [apply orb_true_r|]. simpl. by rewrite orb_true_r.
Qed.

Lemma expected_all_owned : try_for (expected_owned c g group) (btree_iter (expected_of c group)) = Ok tt.
Proof using Ho Hg.
  apply try_for_ok. intros [x role] Hin%elem_of_btree_iter. apply expected_lookup, list_elem_of_fmap in Hin as ([h tag] & E & Hh).
  simpl in E. subst h. apply (ow_exact c Ho group) in Hh as (r & Hr & Hgr & Erole & _).
  unfold hold_resource in Hr. simpl in Hr, Erole. unfold expected_owned. simpl. rewrite Hr.
  rewrite (reservation_task_owned x r Hr Hgr), !bool_decide_true by done. done.
Qed.

Lemma reservations_all_expected :
  try_for (reservation_expected g group (expected_of c group)) (reservations_of_group c group) = Ok tt.
Proof using Ho Hg.
  apply try_for_ok. intros [x r] [Hr Hgr]%elem_of_reservations_of_group. unfold reservation_expected. simpl.
  rewrite (reservation_task_owned x r Hr Hgr). simpl. rewrite bool_decide_true; [done|].
  apply expected_lookup, list_elem_of_fmap. exists (x, rsv_role_id r, owner_tag (rsv_owner r)). split; [done|].
  apply (ow_exact c Ho group). by exists r.
Qed.

Lemma unpooled_checkpoint : validate_capacity_checkpoint c = Some (Ok tt).
Proof using Ho.
  destruct (ow_unpooled c Ho) as [Ha Hq]. unfold validate_capacity_checkpoint, CapacityLedger_validate.
  unfold cp_capacity_ledger, records. rewrite Ha. simpl.
  destruct (existsb _ _) eqn:E; [|done]. apply existsb_exists in E as (q & Hin & Hx).
  apply list_elem_of_In in Hin. by rewrite (Hq q Hin) in Hx.
Qed.

Lemma closed_group_release : eg_lifecycle g ∈ [GlCompleted; GlFailed; GlSuperseded] ->
  is_Some (membership_digest (emptied g)) -> generation_open c group ->
  exists c', release_group c group = Some (c', Ok tt).
Proof using Ho Hg.
  intros Hl [digest Hd] Hopen. unfold release_group, group_release_check, find_group. rewrite Hg.
  apply one_of_true in Hl. cbn beta iota. rewrite Hl. cbn [negb].
  rewrite expected_resources_owned. simpl. rewrite expected_all_owned. simpl.
  rewrite unpooled_checkpoint. simpl. rewrite reservations_all_expected. simpl.
  unfold commit_membership, refresh_membership. rewrite Hd. simpl.
  destruct (eg_membership_version g) as [v|] eqn:Ev; [|by eauto].
  destruct (digest =? _)%string; [by eauto|]. specialize (Hopen g v Hg Ev).
  unfold u64_checked_add. destruct (N.leb_spec (gm_generation v + 1) u64_max); [by eauto|lia].
Qed.
End Releasable.

(** * Ownership in every run

    The operations callers may run and the invariant of the runs they make. *)

Open Scope list_scope.

(** ** Operations beside the Groups *)

Lemma ownership_bookings c c' : ownership c -> cp_groups c' = cp_groups c -> same_bookings c c' -> ownership c'.
Proof.
  intros Ho Eg Hb. apply (ownership_same c); [done|done|apply Hb|apply Hb|].
  apply (unpooled_same c); [done|exact (ow_unpooled c Ho)].
Qed.

Lemma register_mission_tenant_bookings c mission tenant c' r :
  register_mission_tenant c mission tenant = Some (c', r) -> same_bookings c c'.
Proof. unfold register_mission_tenant, refuse. intros. repeat case_match; simplify_eq; by repeat split. Qed.

Lemma set_actor_node_constraint_bookings c mission actor node c' r :
  set_actor_node_constraint c mission actor node = Some (c', r) -> same_bookings c c'.
Proof. unfold set_actor_node_constraint, refuse. intros. repeat case_match; simplify_eq; by repeat split. Qed.

Lemma set_actor_candidate_restriction_bookings c mission actor allowed digest c' r :
  set_actor_candidate_restriction c mission actor allowed digest = Some (c', r) -> same_bookings c c'.
Proof. unfold set_actor_candidate_restriction, refuse. intros. repeat case_match; simplify_eq; by repeat split. Qed.

Lemma install_registry_bookings `{Serde} c s c' r : install_physical_entity_registry c s = Some (c', r) ->
  same_bookings c c'.
Proof.
  unfold install_physical_entity_registry, refuse.
  match goal with |- context [match ?x with Ok _ => _ | Err _ => _ end] => destruct x end;
    intros; simplify_eq; by repeat split.
Qed.

Lemma consume_scheduled_task_bookings c task : same_bookings c (consume_scheduled_task c task).
Proof. unfold consume_scheduled_task. destruct (scheduled_task c task); by repeat split. Qed.

Lemma invalidate_scheduled_task_bookings c task reason : same_bookings c (invalidate_scheduled_task c task reason).
Proof. unfold invalidate_scheduled_task. destruct (scheduled_task c task); repeat case_match; by repeat split. Qed.

Lemma cancel_scheduled_mission_bookings c mission : same_bookings c (cancel_scheduled_mission c mission).1.
Proof. unfold cancel_scheduled_mission. case_match; by repeat split. Qed.

Lemma preempt_future_task_bookings c task version now c' r :
  preempt_future_task c task version now = Some (c', r) -> same_bookings c c'.
Proof. unfold preempt_future_task, refuse. intros. repeat case_match; simplify_eq; by repeat split. Qed.

(** ** Runs *)

Section Runs.
Context `{Serde}.

(** What callers guarantee: plans whose Context-scoped Roles have their own ContextRoles,
    Commits and replacements of exclusive resources, plans that are bound with the
    reservations their Commit made, and a membership generation that can advance. *)
Definition permitted (c : ControlPlane) (op : ControlOp) : Prop :=
  match op with
  | OpCreate _ p => plan_roles_distinct p
  | OpSupersede _ _ _ p => plan_roles_distinct p
  | OpCommit _ _ capacity _ => capacity = None
  | OpBind _ plan => plan_current c plan
  | OpRecover view requirement p now => recovery_exclusive c requirement p now
  | OpRebind k => generation_open c (rc_group_id k)
  | _ => True
  end.

Definition owned_step (c c' : ControlPlane) : Prop := exists op, permitted c op /\ apply_op c op = Some c'.

Lemma owned_step_ownership c c' : owned_step c c' -> ownership c -> ownership c'.
Proof.
  intros (op & Hp & E) Ho. destruct op; simpl in Hp, E; first [apply after_Some in E as [r E]|injection E as <-].
  - eapply ownership_bookings; [done|by eapply register_mission_tenant_groups|by eapply register_mission_tenant_bookings].
  - eapply ownership_bookings; [done|by eapply set_actor_node_constraint_groups|by eapply set_actor_node_constraint_bookings].
  - eapply ownership_bookings; [done|by eapply set_actor_candidate_restriction_groups|].
    by eapply set_actor_candidate_restriction_bookings.
  - eapply ownership_bookings; [done|by eapply install_registry_groups|by eapply install_registry_bookings].
  - eapply ownership_bookings; [done|apply consume_scheduled_task_groups|apply consume_scheduled_task_bookings].
  - eapply ownership_bookings; [done|apply invalidate_scheduled_task_groups|apply invalidate_scheduled_task_bookings].
  - eapply ownership_bookings; [done|apply cancel_scheduled_mission_groups|apply cancel_scheduled_mission_bookings].
  - eapply ownership_bookings; [done|by eapply preempt_future_task_groups|by eapply preempt_future_task_bookings].
  - by eapply create_mission_group_ownership.
  - by eapply advance_task_ownership.
  - subst. by eapply commit_ownership.
  - by eapply bind_ownership.
  - by eapply activate_task_ownership.
  - by eapply advance_task_ownership.
  - by eapply advance_task_ownership.
  - by eapply advance_task_ownership.
  - by eapply advance_task_ownership.
  - by eapply release_task_ownership.
  - destruct (cp_groups c !! group) as [g|] eqn:Hg; [by eapply release_context_ownership|].
    unfold release_context_bindings, find_group, refuse in E. rewrite Hg in E. by simplify_eq.
  - by eapply advance_group_ownership.
  - by eapply advance_group_ownership.
  - by eapply advance_group_ownership.
  - by eapply advance_group_ownership.
  - by eapply release_group_ownership.
  - by eapply release_role_ownership.
  - by eapply release_task_role_ownership.
  - by eapply begin_role_recovery_ownership.
  - by eapply begin_execution_recovery_ownership.
  - by eapply commit_recovery_ownership.
  - by eapply abort_ownership.
  - by eapply rebind_ownership.
  - by eapply supersede_ownership.
Qed.

Lemma ControlPlane_new_ownership : ownership ControlPlane_new.
Proof.
  split.
  - intros id. split; [constructor|]. intros h. split; [set_solver|]. by intros (r & Hr & _).
  - by intros id g.
  - by intros key k.
  - by intros id r.
  - split; [done|]. set_solver.
Qed.

Lemma owned_run_ownership c : rtc owned_step ControlPlane_new c -> ownership c.
Proof.
  intros Hr. assert (ownership ControlPlane_new) as Ho by apply ControlPlane_new_ownership. revert Ho.
  generalize ControlPlane_new Hr. clear Hr. intros c0 Hr. induction Hr as [|c1 c2 c3 Hs _ IH]; [done|].
  intros Ho. by apply IH, (owned_step_ownership c1).
Qed.
End Runs.
