(* ===== verification/Fixture.v ===== *)
(** * A concrete runtime

    Two Roles of one Task on two Nodes, and a run of the runtime over them: the
    inputs at which the properties are instantiated. *)

From S2P Require Import Prelude Identity Execution Session RelationSpec StateModel.
From S2P Require Import RuntimeState Relation Coordination Attempts GroupRecovery RecoveryStop.
From S2P Require Import Dispatch Checkpoint Invariant.
From S2P Require Import InvRecovery InvGroups InvAttempts.
From S2P Require Import InvRestore Lifecycle.

Open Scope string_scope.

(** A serializer and a digest, for the parameters of the session checks. *)
#[export] Instance fx_serde : Serde :=
  {| json_to_vec := fun _ => Ok "session"; sha256_hex := fun s => s |}.

Definition fx_group : ExecutionGroupId := MkId "g1".
Definition fx_mission : MissionId := MkId "m1".
Definition fx_task_id : TaskId := MkId "t1".
Definition fx_task : TaskRef := MkTaskRef fx_mission fx_task_id.
Definition fx_role1 : RoleId := MkId "r1".
Definition fx_role2 : RoleId := MkId "r2".
Definition fx_node1 : NodeId := MkId "n1".
Definition fx_node2 : NodeId := MkId "n2".
Definition fx_op : OperationRef := MkOperationRef (MkContract "nav" "go" "v1").
Definition fx_intent : ExecutionIntent := MkIntent fx_op "go" ∅.

Definition fx_slots : list ExecutionSessionSlot :=
  [MkSessionSlot fx_task_id fx_role1 (MkId "x1") [] true;
   MkSessionSlot fx_task_id fx_role2 (MkId "x2") [] true].
Definition fx_session : ExecutionSessionDescriptor :=
  MkSession EXECUTION_SESSION_SCHEMA fx_mission fx_group fx_slots
    (match canonical_digest (MkSession EXECUTION_SESSION_SCHEMA fx_mission fx_group fx_slots "")
     with Ok d => d | Err _ => "" end).

Definition fx_support (scope : ExecutionStopScope) : ExecutionRecoverySupport :=
  MkRecoverySupport (MkId "ls1") (MkOpRecovery fx_op scope RepeatAfterStop).

Definition fx_command (role : RoleId) (node : NodeId) (scope : ExecutionStopScope)
  : ExecutionCommand :=
  MkCommand [] [] None fx_task fx_group role node fx_intent (Some fx_session)
    (Some (fx_support scope)) None (MkId "c1").

Lemma fx_command_ok role node scope : command_ok (fx_command role node scope).
Proof.
  split; [|reflexivity]. intros k v E. unfold fx_command, fx_intent in E. simpl in E.
  by rewrite lookup_empty in E.
Qed.

(** Role 1 can be retried alone. *)
Definition fx_retry : ExecutionCommand := fx_command fx_role1 fx_node1 ScopeExecution.
(** Both Roles can be continued as a Group. *)
Definition fx_group1 : ExecutionCommand := fx_command fx_role1 fx_node1 ScopeExecutionGroup.
Definition fx_group2 : ExecutionCommand := fx_command fx_role2 fx_node2 ScopeExecutionGroup.

Definition fx_resources : list ResourceId := [MkId "gpu"; MkId "arm"; MkId "gpu"].

(** ** An isolated recovery *)

Definition fx_dispatched : RuntimeExecutionManager :=
  (prepare_dispatch manager_new "a1" fx_retry fx_resources).1.
Definition fx_running : RuntimeExecutionManager :=
  (observe_execution_received fx_dispatched "a1" fx_node1 1 Running "" 10).1.
Definition fx_stopping : RuntimeExecutionManager :=
  match request_recovery_stop fx_running "a1" fx_node1 100 1000 2 with
  | Some (m, _) => m | None => manager_new end.
Definition fx_cancelled : RuntimeExecutionManager :=
  (observe_execution_received fx_stopping "a1" fx_node1 2 Cancelled "stopped" 200).1.
Definition fx_confirmed : RuntimeExecutionManager := confirm_recovery_stop fx_cancelled "a1" 200.

Ltac reach_step c := eapply rtc_r; [|eexists; eapply c; [..|apply surjective_pairing]].

(** The state after a step that may panic, or the initial state. *)
Ltac reach_option c H :=
  let E := fresh in
  match goal with |- reachable (match ?t with Some _ => _ | None => _ end) =>
    destruct t as [[? ?]|] eqn:E; [|constructor] end;
  eapply rtc_r; [apply H|]; eexists; eapply c; exact E.

Lemma fx_dispatched_reachable : reachable fx_dispatched.
Proof.
  unfold reachable. reach_step step_prepare; [constructor|reflexivity|apply fx_command_ok].
Qed.

Lemma fx_running_reachable : reachable fx_running.
Proof. reach_step step_fact_received; [apply fx_dispatched_reachable|done]. Qed.

Lemma fx_stopping_reachable : reachable fx_stopping.
Proof. unfold fx_stopping. reach_option step_request_stop fx_running_reachable. Qed.

Lemma fx_cancelled_step : step (LFact "a1" fx_node1 2 Cancelled) fx_stopping fx_cancelled.
Proof.
  apply (step_fact_received fx_stopping "a1" fx_node1 2 Cancelled "stopped" 200 fx_cancelled
    (observe_execution_received fx_stopping "a1" fx_node1 2 Cancelled "stopped" 200).2); [done|].
  apply surjective_pairing.
Qed.

Lemma fx_cancelled_reachable : reachable fx_cancelled.
Proof. eapply rtc_r; [apply fx_stopping_reachable|]. eexists. apply fx_cancelled_step. Qed.

Lemma fx_confirmed_reachable : reachable fx_confirmed.
Proof. eapply rtc_r; [apply fx_cancelled_reachable|]. eexists. apply step_confirm_stop. Qed.

(** ** A Group recovery *)

Definition fx_pair_dispatched : RuntimeExecutionManager :=
  (prepare_dispatch (prepare_dispatch manager_new "a1" fx_group1 []).1 "a2" fx_group2 []).1.
Definition fx_pair_running : RuntimeExecutionManager :=
  (observe_execution_received
     (observe_execution_received fx_pair_dispatched "a1" fx_node1 1 Running "" 10).1
     "a2" fx_node2 1 Running "" 11).1.
Definition fx_members : list GroupRecoveryMember :=
  [MkGroupMember "a2" fx_node2 true; MkGroupMember "a1" fx_node1 true].
Definition fx_frozen : RuntimeExecutionManager :=
  match request_group_recovery_stop fx_pair_running fx_group "rec1" fx_members 100 1000 2 with
  | Some (m, _) => m | None => manager_new end.
Definition fx_group_stopped : RuntimeExecutionManager :=
  let m1 := (observe_execution_received fx_frozen "a1" fx_node1 2 Cancelled "" 200).1 in
  let m2 := confirm_group_recovery_stop m1 "a1" 200 in
  let m3 := (observe_execution_received m2 "a2" fx_node2 2 Cancelled "" 210).1 in
  confirm_group_recovery_stop m3 "a2" 210.
Definition fx_replacing : RuntimeExecutionManager :=
  (prepare_dispatch (prepare_dispatch fx_group_stopped "b1" fx_group1 []).1 "b2" fx_group2 []).1.
Definition fx_replacements : gmap string string := {["a1" := "b1"; "a2" := "b2"]}.
Definition fx_continued : RuntimeExecutionManager :=
  match record_group_continuation fx_replacing fx_group 300 fx_replacements with
  | Some (m, _) => m | None => manager_new end.

Lemma fx_pair_dispatched_reachable : reachable fx_pair_dispatched.
Proof.
  unfold reachable.
  reach_step step_prepare; [|reflexivity|apply fx_command_ok].
  reach_step step_prepare; [constructor|reflexivity|apply fx_command_ok].
Qed.

Lemma fx_pair_running_reachable : reachable fx_pair_running.
Proof.
  reach_step step_fact_received; [|done]. reach_step step_fact_received; [|done].
  apply fx_pair_dispatched_reachable.
Qed.

Lemma fx_frozen_reachable : reachable fx_frozen.
Proof. unfold fx_frozen. reach_option step_request_group fx_pair_running_reachable. Qed.

Lemma fx_group_stopped_reachable : reachable fx_group_stopped.
Proof.
  eapply rtc_r; [|eexists; apply step_confirm_group].
  reach_step step_fact_received; [|done].
  eapply rtc_r; [|eexists; apply step_confirm_group].
  reach_step step_fact_received; [|done]. apply fx_frozen_reachable.
Qed.

Lemma fx_replacing_reachable : reachable fx_replacing.
Proof.
  reach_step step_prepare; [|reflexivity|apply fx_command_ok].
  reach_step step_prepare; [|reflexivity|apply fx_command_ok]. apply fx_group_stopped_reachable.
Qed.

Lemma fx_continued_reachable : reachable fx_continued.
Proof. unfold fx_continued. reach_option step_continue_group fx_replacing_reachable. Qed.

(** ** A violated relation *)

(** Role 2 requires Role 1 to be active. *)
Definition fx_spec : ExecutionRelationSpec :=
  MkRelationSpec (MkId "rel1") (MkPlannedRef fx_task_id fx_role1)
    (MkPlannedRef fx_task_id fx_role2) RequiresActive TRequiresActive.
Definition fx_relation_key : RelationKey := (fx_group, MkId "rel1").
Definition fx_related : RuntimeExecutionManager :=
  (register_relations_with_modes fx_pair_dispatched fx_group fx_mission [fx_spec] ∅).1.
Definition fx_satisfied : RuntimeExecutionManager :=
  (observe_execution_received
     (observe_execution_received fx_related "a1" fx_node1 1 Running "" 10).1
     "a2" fx_node2 1 Running "" 11).1.
Definition fx_violated : RuntimeExecutionManager :=
  (observe_execution_received fx_satisfied "a1" fx_node1 2 Completed "" 20).1.

Lemma fx_satisfied_reachable : reachable fx_satisfied.
Proof.
  reach_step step_fact_received; [|done]. reach_step step_fact_received; [|done].
  reach_step step_register_relations; [apply fx_pair_dispatched_reachable|].
  intros s ->%list_elem_of_singleton. reflexivity.
Qed.

Lemma fx_violated_reachable : reachable fx_violated.
Proof. reach_step step_fact_received; [apply fx_satisfied_reachable|done]. Qed.

Lemma fx_violated_fenced : fx_relation_key ∈ relation_fences fx_violated.
Proof. refine (bool_decide_unpack _ _). vm_compute. exact I. Qed.

(** The runs end where they should. *)
Example fx_confirmed_ready : recovery_stop_ready fx_confirmed fx_retry 300 = true.
Proof. vm_compute. reflexivity. Qed.

Example fx_continued_current : group_continuation_set_is_current fx_continued fx_group = true.
Proof. vm_compute. reflexivity. Qed.

(** ** A peer channel *)

Definition fx_context_id : CoordinationContextId := MkId "ctx1".
Definition fx_channel_key : CoordinationKey := (fx_group, fx_context_id).
Definition fx_view : GroupSharedViewSpec :=
  MkSharedView None [GroupViewBinding_new_execution (MkId "cr1")] false.
Definition fx_context : CoordinationContext :=
  MkContext fx_context_id
    [MkContextRole (MkId "cr1") (MkId "x1") []; MkContextRole (MkId "cr2") (MkId "x2") []] []
    [fx_spec] TightlyCoupledCooperation (Some fx_view) (Some (MkPeerChannelSpec "p1" "s1")).
Definition fx_readiness (role : ContextRoleId) (node : NodeId) (session : string) (sequence at_ms : N)
  : PeerChannelReadinessEvidence :=
  MkReadiness fx_group fx_context_id role node (MkId "ls1") session "chan1" "p1" "s1" sequence at_ms
    (at_ms + 1000) true.

Definition fx_planned : RuntimeExecutionManager :=
  (register_coordination_context manager_new fx_group fx_context).1.
Definition fx_channel_ready : RuntimeExecutionManager :=
  (observe_peer_channel_readiness
     (observe_peer_channel_readiness fx_planned (fx_readiness (MkId "cr1") fx_node1 "s1" 1 10)).1
     (fx_readiness (MkId "cr2") fx_node2 "s2" 1 20)).1.

Lemma fx_context_ok : context_ok fx_context.
Proof.
  split; simpl.
  - intros v [= <-]. reflexivity.
  - apply (bool_decide_unpack _). vm_compute. exact I.
  - intros ch [= <-]. by split_and!.
Qed.

Lemma fx_readiness_ok role node session sequence at_ms :
  is_blank (as_str node) = false -> is_blank session = false -> (0 < sequence)%N ->
  readiness_ok (fx_readiness role node session sequence at_ms).
Proof. by split. Qed.

Lemma fx_channel_ready_reachable : reachable fx_channel_ready.
Proof.
  reach_step step_readiness; [|by apply fx_readiness_ok].
  reach_step step_readiness; [|by apply fx_readiness_ok].
  unfold reachable. reach_step step_register_context; [constructor|apply fx_context_ok].
Qed.

(** A context whose one ContextRole has a channel, which the constructor accepts. *)
Definition fx_lone_context : CoordinationContext :=
  MkContext fx_context_id [MkContextRole (MkId "cr1") (MkId "x1") []] [] [] Independent None
    (Some (MkPeerChannelSpec "p1" "s1")).
Definition fx_lone_registered : RuntimeExecutionManager :=
  (register_coordination_context manager_new fx_group fx_lone_context).1.

Lemma fx_lone_reachable : reachable fx_lone_registered.
Proof.
  apply rtc_once. exists LOther. eapply (step_register_context manager_new fx_group fx_lone_context).
  - apply (new_with_coordination_ok fx_context_id (cc_roles fx_lone_context) [] Independent None
             (cc_peer_channel fx_lone_context)). vm_compute. reflexivity.
  - apply surjective_pairing.
Qed.

Example fx_channel_is_ready :
  coordination_readiness fx_channel_ready fx_group fx_context_id = Some CoordinationReady.
Proof. vm_compute. reflexivity. Qed.
