(* ===== verification/PropsLifecycle.v ===== *)
(** * Properties of the whole runtime

    What holds in every state the runtime can reach, across controller restarts. *)

From S2P Require Import Prelude Identity Execution Session RelationSpec StateModel.
From S2P Require Import RuntimeState Relation Coordination Attempts GroupRecovery RecoveryStop.
From S2P Require Import Dispatch Checkpoint Invariant.
From S2P Require Import InvRecovery InvGroups InvAttempts.
From S2P Require Import InvRestore Lifecycle Fixture.

Open Scope string_scope.

(** The durable fields a restart carries over unchanged. *)
Definition same_history (m m' : RuntimeExecutionManager) : Prop :=
  executions m' = executions m /\ execution_nodes m' = execution_nodes m /\
  execution_sequences m' = execution_sequences m /\
  terminal_received_at m' = terminal_received_at m /\
  active_executions m' = active_executions m /\
  dispatch_outbox m' = dispatch_outbox m /\
  cancellation_intents m' = cancellation_intents m /\
  recovery_stops m' = recovery_stops m /\ recovery_budgets m' = recovery_budgets m /\
  group_recoveries m' = group_recoveries m /\ progress m' = progress m /\
  relations m' = relations m /\ coordination_contexts m' = coordination_contexts m /\
  spatial_evidence m' = spatial_evidence m /\
  execution_status m' = restored_status <$> execution_status m /\
  peer_channels m' = fence_restored_channel <$> peer_channels m /\
  relation_fences m ⊆ relation_fences m'.

(** ** Restoring an arbitrary checkpoint *)

Section Restored.
Context `{Serde}.

(** The manager a successful [restore] returns. *)
Lemma restore_Ok_inv cp m' :
  restore cp = Some (Ok m') ->
  exists budgets active rels states fences proofs contexts channels spatial,
    check_outbox (cp_executions cp) ∅ (cp_dispatch_outbox cp) = Ok tt /\
    refreshed (rebuild cp budgets active rels states fences proofs contexts channels spatial) m'.
Proof.
  unfold restore. destruct (restore_maps cp) as [restored|] eqn:Em; [|done].
  intros E. assert (restored = m') as ->.
  { destruct (validate_progress restored) as [[]|]; [|done].
    destruct (validate_recovery_stops restored) as [[]|]; [|done].
    destruct (validate_group_recoveries restored) as [[[]|]|]; simplify_eq/=; done. }
  clear E. unfold restore_maps in Em.
  destruct (try_for _ (btree_keys (cp_terminal_received_at cp))) as [?|]; [|done].
  destruct (validate_checkpoint cp) as [?|] eqn:Ev; [|done].
  destruct (restore_relation_maps _ _ _ _) as [[[[rels states] fences] proofs]|]; [|done].
  destruct (restore_coordination_maps _ _) as [[contexts channels]|]; [|done].
  destruct (restore_spatial _ _) as [spatial|]; [|done].
  destruct (collect_unique aec_slot _ _ _ _) as [active|]; [|done].
  destruct (try_for _ (btree_iter spatial)) as [?|]; [|done].
  destruct (collect_unique rb_slot _ _ _ _) as [budgets|]; [|done].
  injection Em as <-. exists budgets, active, rels, states, fences, proofs, contexts, channels, spatial.
  split; [|apply refresh_keys_refreshed].
  unfold validate_checkpoint in Ev. destruct (admission_without_fact cp); [done|].
  destruct (check_generations _ _) as [?|]; [|done]. by destruct (check_outbox _ _ _) as [[]|].
Qed.

(** Without a [Dispatched] attempt nothing is pending. *)
Lemma pending_empty m :
  (forall id s, execution_status m !! id = Some s -> is_terminal s = true \/ s = Unknown) ->
  pending_dispatch_intents m = [].
Proof.
  intros Hs. unfold pending_dispatch_intents.
  induction (btree_values (dispatch_outbox m)) as [|i l IH]; [done|]. simpl.
  destruct (dispatch_pending m i) eqn:Ep; [exfalso|done]. unfold dispatch_pending in Ep.
  bool_facts. match goal with E : status_of _ _ = _ |- _ => destruct (Hs _ _ E) end; done.
Qed.
End Restored.

(** ** Panics *)

Section Panics.
Context `{Serde}.

Lemma group_member_command m g i member :
  wf m -> group_recovery m g = Some i -> member ∈ gri_members i ->
  is_Some (index_command m (grm_execution_id member)).
Proof.
  intros Hwf [Hi _]%find_some Hm. rewrite <- list_elem_of_In, elem_of_reverse in Hi.
  destruct (proj1 (groups_wf_iff m) (wf_groups _ Hwf)) as (Hv & _).
  destruct (Hv i Hi) as (_ & _ & _ & Hms & _).
  destruct (members_valid_elem _ _ _ _ _ Hms Hm) as (ctx & E & _).
  unfold index_command. rewrite E. by eexists.
Qed.

Lemma group_disposition_total m g now : wf m -> is_Some (group_recovery_disposition m g now).
Proof.
  intros Hwf. unfold group_recovery_disposition.
  destruct (group_recovery m g) as [i|] eqn:Ei; [|by eexists].
  destruct (gri_aborted i); [by eexists|].
  destruct (negb _); [repeat case_match; by eexists|].
  destruct (existsb _ _); [by eexists|]. destruct (forallb _ _); [by eexists|].
  destruct (_ <=? _)%N; [by eexists|].
  edestruct (all_opt_Some (fun member => command ← index_command m (grm_execution_id member);
    Some (bool_decide (current_attempt_of m command = Some (grm_execution_id member))
          && member_stop_confirmed m i now member)) (gri_members i)) as [b Hb].
  { intros member Hm. destruct (group_member_command m g i member Hwf Ei Hm) as [c ->]. by eexists. }
  rewrite Hb. by eexists.
Qed.

Lemma group_holds_total m g now : wf m -> is_Some (group_recovery_holds_dispatch m g now).
Proof.
  intros Hwf. unfold group_recovery_holds_dispatch.
  destruct (group_disposition_total m g now Hwf) as [d ->]. by eexists.
Qed.

Lemma cancelled_sources_total m g i :
  wf m -> group_recovery m g = Some i -> is_Some (cancelled_sources m (gri_members i)).
Proof.
  intros Hwf Ei. unfold cancelled_sources. apply mapM_is_Some, Forall_forall.
  intros member [Hm _]%list_elem_of_In%filter_In. apply list_elem_of_In in Hm.
  unfold compose.
  destruct (group_member_command m g i member Hwf Ei Hm) as [c ->]. by eexists.
Qed.

Lemma check_replacements_total m repl sources :
  (forall s, s ∈ fst <$> sources -> is_Some (repl !! s) /\ is_Some (executions m !! s)) ->
  is_Some (check_replacements m repl sources).
Proof.
  induction sources as [|[s c] sources IH]; intros Hs; simpl; [by eexists|].
  destruct (Hs s) as [[r ->] [o ->]]; [set_solver|]. simpl.
  destruct (executions m !! r); [|by eexists]. simpl.
  case_match; [by eexists|]. apply IH. set_solver.
Qed.

Lemma record_continuation_total m g now repl :
  wf m -> is_Some (record_group_continuation m g now repl).
Proof.
  intros Hwf. unfold record_group_continuation.
  destruct (group_recovery m g) as [i|] eqn:Ei; [|by eexists].
  destruct (_ || negb (forallb _ _)); [by eexists|].
  destruct (negb (bool_decide (expected_set _ _ = _))); [by eexists|].
  destruct (cancelled_sources_total m g i Hwf Ei) as [sources Es]. rewrite Es. simpl.
  destruct (_ || bool_decide (repl = ∅)) eqn:Eg; [by eexists|].
  apply orb_false_iff in Eg as [[Ed _]%orb_false_iff _]. bool_facts.
  destruct (check_replacements_total m repl sources) as [c ->].
  - intros s Hs. rewrite <- (elem_of_list_to_set (C := gset string)) in Hs. split.
    + by rewrite <- elem_of_dom, Ed.
    + apply (elem_of_cancelled_sources _ _ _ _ Es) in Hs as [(member & Hm & <-) _].
      destruct (group_member_command m g i member Hwf Ei Hm) as [c Ec].
      unfold index_command in Ec. destruct (executions m !! _); [by eexists|done].
  - simpl. case_match; by eexists.
Qed.
End Panics.

Section Lifecycle.
Context `{Serde}.

(** C1.  Whether a restart succeeds depends on the peer channels alone.  Take any state of
    a runtime reached by the operations of [step], on inputs as the code builds them: commands,
    contexts and relations from their constructors, attempt identities and frames that are not
    blank, facts other than [Dispatched], peer readiness from identified endpoints numbered from
    one, releases of ready stops.  If every registered peer channel joins at least two
    ContextRoles, the checkpoint passes every restore-time check: the restart yields a
    reachable runtime with the same durable history, in which live attempts are [Unknown],
    channels that were ready are fenced and no reconciliation fence was lost.  If some channel
    joins fewer, which the constructors of a context do not exclude, the restart is refused, and
    with the error about peer channels: no other check fails. *)
Theorem reachable_restorable m :
  reachable m ->
  (paired m -> exists m', restore (checkpoint m) = Some (Ok m') /\ reachable m' /\ same_history m m') /\
  (~ paired m -> restore (checkpoint m)
     = Some (Err (InvalidCheckpoint "checkpoint contains duplicate or orphan peer channel"))).
Proof.
  intros Hr. pose proof (reachable_wf m Hr) as Hwf. split; [|by apply restore_unpaired].
  intros Hp. destruct (restore_checkpoint m Hwf Hp) as (E & W & _). eexists. split; [exact E|]. split.
  - eapply rtc_r; [exact Hr|]. exists LRestart. by apply step_restart.
  - unfold refresh_all_relations_after_restore.
    destruct (refresh_keys_refreshed (restored_base m) (btree_keys (relations (restored_base m))))
      as (s & f & p & -> & Hf).
    pose proof (restored_base_outbox m (wf_attempts _ Hwf)) as Ho. by split_and!.
Qed.

(** C2.  The durable history only grows: along any run, contexts, owners,
    recorded inputs, terminal statuses and receive times never change,
    sequences, generations and used recovery budgets never decrease, and
    recovery authorizations keep their purpose and deadline. *)
Theorem history_append_only m m' :
  reachable m -> rtc any_step m m' -> extends m m'.
Proof. intros Hr Hs. by apply (steps_inv m m' Hs), reachable_wf. Qed.

(** C3.  The runtime refines the machine of each attempt: in every reachable
    state the status, last sequence and owner of an attempt are the result of
    a run of its machine from the unseen attempt, and every further transition
    of the runtime is a step or a stutter of it. *)
Theorem attempt_refinement m id :
  reachable m ->
  rtc (fun v w => exists l, attempt_step id l v w) unseen (attempt_view m id) /\
  (forall l m', step l m m' -> attempt_step id l (attempt_view m id) (attempt_view m' id)).
Proof.
  intros Hr. pose proof (reachable_wf m Hr) as Hwf. split; [|intros; by apply attempt_simulates].
  clear Hwf. revert m Hr. unfold reachable. apply rtc_ind_r; [apply rtc_refl|].
  intros m m' Hr [l Hs] IH. eapply rtc_r; [exact IH|]. exists l.
  by apply attempt_simulates, reachable_wf.
Qed.

(** C15.  An attempt becomes terminal only through a fact that reports exactly
    that status, comes from the attempt's owner and is newer than the last
    accepted one; receipts, lost nodes, recovery and restarts never do it. *)
Theorem terminal_only_by_fact l m m' id s :
  reachable m -> step l m m' -> is_terminal s = true ->
  status_of m' id = Some s -> status_of m id <> Some s ->
  exists node sequence, l = LFact id node sequence s /\
    (forall owner, execution_nodes m !! id = Some owner -> owner = node) /\
    (forall n, execution_sequences m !! id = Some n -> (n < sequence)%N).
Proof.
  unfold status_of. intros Hr Hs Ht Es' Es.
  pose proof (attempt_simulates id l m m' Hs (reachable_wf m Hr)) as Ha.
  unfold attempt_view in Ha. rewrite Es' in Ha. inversion Ha; subst; simpl in *; try congruence.
  - by exists node, sequence.
  - destruct (execution_status m !! id) as [t|]; [|done]. simplify_eq/=.
    by destruct (restored_status_cases t) as [[E _]|[E _]]; rewrite E in *.
Qed.

(** C17.  A reconciliation fence stays until it is acknowledged while its
    relation is satisfied; no fact, replacement, registration or restart
    removes it. *)
Theorem fences_latched l m m' key :
  reachable m -> step l m m' -> key ∈ relation_fences m ->
  key ∈ relation_fences m' \/
  (l = LAcknowledge key /\
   exists r, relations m !! key = Some r /\ derive_relation_state m r = Satisfied).
Proof.
  intros Hr Hs Hk. pose proof (reachable_wf m Hr) as Hwf.
  destruct l as [id' node sequence status|ak|ck| |].
  - left. inversion Hs; subst; [by eapply quiet_fact|by eapply quiet_received].
  - inversion Hs; subst. unfold acknowledge_relation_reconciliation in *.
    destruct (relations m !! (g, r)) as [x|] eqn:Ex; [|simplify_eq; by left].
    case_bool_decide; simpl in *; simplify_eq; [|by left]. simpl.
    destruct (decide (key = (g, r))) as [->|]; [right; eauto|left; set_solver].
  - left. inversion Hs; subst. unfold close_peer_channel, set_peer_channel_lifecycle in *.
    repeat case_match; simplify_eq; done.
  - left. inversion Hs; subst. by eapply quiet_restart.
  - left. by apply (quiet_other m m' Hs).
Qed.

(** C16.  Restoring grants no replay authority, whatever the checkpoint holds:
    no Execute intent is pending, no attempt of the checkpoint can be
    dispatched again, every status is terminal or [Unknown], and no peer
    channel is ready. *)
Theorem restore_grants_no_replay cp m' :
  restore cp = Some (Ok m') ->
  pending_dispatch_intents m' = [] /\
  (forall id c rs, is_Some (cp_executions cp !! id) ->
     exists e, prepare_dispatch m' id c rs = (m', Err e)) /\
  (forall id s, status_of m' id = Some s -> is_terminal s = true \/ s = Unknown) /\
  (forall key ch, peer_channels m' !! key = Some ch -> pc_lifecycle ch <> Ready).
Proof.
  intros (b & a & r & st & f & p & x & ch & sp & _ & (s' & f' & p' & -> & _))%restore_Ok_inv.
  assert (forall id s, (restored_status <$> cp_execution_status cp) !! id = Some s ->
            is_terminal s = true \/ s = Unknown) as Hst.
  { intros id s. rewrite lookup_fmap. destruct (cp_execution_status cp !! id) as [t|]; [|done].
    intros [= <-]. destruct (restored_status_cases t) as [[-> ?]|[-> ?]]; auto. }
  split_and!.
  - by apply pending_empty.
  - intros id c rs Hid. unfold prepare_dispatch, validate_dispatch.
    destruct (recovery_support_mismatch c); [by eexists|]. unfold set_contains. simpl.
    rewrite bool_decide_eq_true_2; [by eexists|by apply elem_of_dom].
  - done.
  - simpl. intros key c (c0 & <- & _)%lookup_fmap_Some. unfold fence_restored_channel.
    by case_bool_decide.
Qed.

(** C31.  The queries and requests that index the attempt map, and would panic
    on an absent attempt, return in every reachable state. *)
Theorem reachable_panic_free m :
  reachable m ->
  (forall g now, is_Some (group_recovery_disposition m g now)) /\
  (forall id now, is_Some (recovery_stop_disposition m id now)) /\
  (forall id now stall, is_Some (progress_disposition m id now stall)) /\
  (forall g now, is_Some (group_continuation_sources m g now)) /\
  (forall g now repl, is_Some (record_group_continuation m g now repl)) /\
  (forall id node now timeout max, is_Some (request_recovery_stop m id node now timeout max)) /\
  (forall g rid ms now timeout max,
     is_Some (request_group_recovery_stop m g rid ms now timeout max)).
Proof.
  intros Hr. pose proof (reachable_wf m Hr) as Hwf. split_and!.
  - intros. by apply group_disposition_total.
  - intros id now. unfold recovery_stop_disposition, index_command.
    destruct (recovery_stops m !! id) as [i|] eqn:Ei; [|by eexists].
    destruct (proj1 (proj1 (stops_wf_iff m) (wf_stops _ Hwf)) id i Ei) as (ctx & -> & _). by eexists.
  - intros id now stall. unfold progress_disposition, index_command.
    destruct (status_of m id) as [[]|]; try (by eexists);
      (destruct (progress m !! id) as [o|] eqn:Eo; [|by eexists]);
      destruct (proj1 (progress_wf_iff m) (wf_progress _ Hwf) id o Eo) as (ctx & -> & _); by eexists.
  - intros g now. unfold group_continuation_sources.
    destruct (group_disposition_total m g now Hwf) as [d ->]. simpl.
    case_match; [by eexists|]. destruct (group_recovery m g) as [i|] eqn:Ei; [|by eexists].
    destruct (cancelled_sources_total m g i Hwf Ei) as [x ->]. by eexists.
  - intros. by apply record_continuation_total.
  - intros id node now timeout max. unfold request_recovery_stop.
    destruct (executions m !! id) as [ctx|]; [|by eexists]. case_match; [by eexists|].
    destruct (group_holds_total m (cmd_group_id (ctx_command ctx)) now Hwf) as [[] ->];
      simpl; by eexists.
  - intros g rid ms now timeout max. unfold request_group_recovery_stop.
    case_match; [by eexists|]. case_match; [by eexists|]. case_match; [by eexists|].
    destruct (group_holds_total m g now Hwf) as [[] ->]; simpl; [by eexists|].
    case_match; by eexists.
Qed.
End Lifecycle.

(** ** Witnesses *)

Lemma reachable_restorable_witness :
  (exists m', restore (checkpoint fx_continued) = Some (Ok m') /\ reachable m' /\
              same_history fx_continued m') /\
  (exists m', restore (checkpoint fx_channel_ready) = Some (Ok m') /\ reachable m' /\
              same_history fx_channel_ready m') /\
  restore (checkpoint fx_lone_registered)
    = Some (Err (InvalidCheckpoint "checkpoint contains duplicate or orphan peer channel")).
Proof.
  split_and!.
  - apply (reachable_restorable fx_continued fx_continued_reachable).
    apply (bool_decide_unpack _). vm_compute. exact I.
  - apply (reachable_restorable fx_channel_ready fx_channel_ready_reachable).
    apply (bool_decide_unpack _). vm_compute. exact I.
  - apply (reachable_restorable fx_lone_registered fx_lone_reachable).
    intros Hp. specialize (Hp (fx_group, fx_context_id)). vm_compute in Hp.
    specialize (Hp _ eq_refl). by apply (Nat.lt_irrefl 1).
Defined.

Lemma history_append_only_witness : extends fx_running fx_cancelled.
Proof.
  apply (history_append_only fx_running fx_cancelled fx_running_reachable).
  eapply rtc_l; [|eapply rtc_once].
  - exists LOther. apply (step_request_stop fx_running "a1" fx_node1 100 1000 2 fx_stopping (Ok tt)).
    vm_compute. reflexivity.
  - eexists. apply fx_cancelled_step.
Defined.

Lemma attempt_refinement_witness :
  attempt_step "a1" (LFact "a1" fx_node1 2 Cancelled)
    (attempt_view fx_stopping "a1") (attempt_view fx_cancelled "a1").
Proof.
  exact (proj2 (attempt_refinement fx_stopping "a1" fx_stopping_reachable) _ _ fx_cancelled_step).
Defined.

Lemma terminal_only_by_fact_witness :
  exists node sequence, LFact "a1" fx_node1 2 Cancelled = LFact "a1" node sequence Cancelled /\
    (forall owner, execution_nodes fx_stopping !! "a1" = Some owner -> owner = node) /\
    (forall n, execution_sequences fx_stopping !! "a1" = Some n -> (n < sequence)%N).
Proof.
  apply (terminal_only_by_fact (LFact "a1" fx_node1 2 Cancelled) fx_stopping fx_cancelled "a1" Cancelled).
  - apply fx_stopping_reachable.
  - apply fx_cancelled_step.
  - reflexivity.
  - vm_compute. reflexivity.
  - vm_compute. discriminate.
Defined.

Lemma fences_latched_witness :
  fx_relation_key ∈ relation_fences (refresh_peer_channel_deadlines fx_violated 500) \/
  (LOther = LAcknowledge fx_relation_key /\
   exists r, relations fx_violated !! fx_relation_key = Some r /\
             derive_relation_state fx_violated r = Satisfied).
Proof.
  apply (fences_latched LOther fx_violated).
  - apply fx_violated_reachable.
  - apply step_deadlines.
  - apply fx_violated_fenced.
Defined.

Lemma restore_grants_no_replay_witness :
  exists m', restore (checkpoint fx_dispatched) = Some (Ok m') /\ pending_dispatch_intents m' = [] /\
    status_of m' "a1" = Some Unknown.
Proof.
  destruct (restore_checkpoint fx_dispatched (reachable_wf _ fx_dispatched_reachable)) as (E & _ & _).
  { apply (bool_decide_unpack _). vm_compute. exact I. }
  eexists. split; [exact E|]. split.
  - exact (proj1 (restore_grants_no_replay (checkpoint fx_dispatched) _ E)).
  - vm_compute. reflexivity.
Defined.

Lemma reachable_panic_free_witness :
  group_recovery_disposition fx_continued fx_group 400 = Some GContinuationPrepared /\
  is_Some (group_recovery_disposition fx_continued fx_group 400).
Proof.
  split; [vm_compute; reflexivity|].
  exact (proj1 (reachable_panic_free fx_continued fx_continued_reachable) fx_group 400%N).
Defined.
