(* ===== verification/PropsRecovery.v ===== *)
(** * Properties of recovery and progress *)

From S2P Require Import Prelude Identity Execution Session RelationSpec StateModel.
From S2P Require Import RuntimeState Relation Coordination Attempts GroupRecovery RecoveryStop.
From S2P Require Import Dispatch Checkpoint Invariant.
From S2P Require Import InvRecovery InvGroups InvAttempts.
From S2P Require Import InvRestore Lifecycle Fixture.

Open Scope string_scope.

(** ** Budgets *)

(** C39.  The replacements of a logical Role are bounded across attempts and
    restarts: the budget counts exactly the stops ever authorized in the slot,
    within its limit, which is at most 16. *)
Theorem recovery_budget_counts `{Serde} m slot :
  reachable m ->
  N.of_nat (stops_of_slot m slot) = default 0%N (rb_used <$> recovery_budgets m !! slot) /\
  (forall b, recovery_budgets m !! slot = Some b ->
     rb_slot b = slot /\ (0 < rb_used b <= rb_limit b)%N /\ (rb_limit b <= 16)%N) /\
  stops_of_slot m slot <= 16.
Proof.
  intros Hr. pose proof (wf_stops _ (reachable_wf m Hr)) as Hs.
  pose proof (proj2 (proj1 (stops_wf_iff m) Hs) slot) as Hb.
  destruct (recovery_budgets m !! slot) as [b|] eqn:E; simpl.
  - destruct (Hb b eq_refl) as (<- & Hl & Hu & Hc). split_and!; [done| |lia].
    intros b' [= <-]. split_and!; try done; lia.
  - rewrite (stops_of_slot_zero m slot Hs E). split_and!; [done|done|lia].
Qed.

(** The accepted rounds of a Group. *)
Definition sigs_of (g : ExecutionGroupId) (l : list (ExecutionGroupId * string * N)) :=
  List.filter (fun p : ExecutionGroupId * string * N => bool_decide (p.1.1 = g)) l.

Lemma elem_of_sigs_of g l p : p ∈ sigs_of g l <-> p ∈ l /\ p.1.1 = g.
Proof.
  unfold sigs_of. rewrite list_elem_of_In, filter_In, <- list_elem_of_In. by rewrite bool_decide_eq_true.
Qed.

Lemma round_admissible_iff l s :
  round_admissible l s = true <->
  (N.of_nat (length (sigs_of s.1.1 l)) < s.2)%N /\
  (forall p, p ∈ sigs_of s.1.1 l -> p.1.2 <> s.1.2 /\ p.2 = s.2).
Proof.
  unfold round_admissible. fold (sigs_of s.1.1 l).
  rewrite andb_true_iff, N.ltb_lt, forallb_forall. setoid_rewrite <- list_elem_of_In.
  setoid_rewrite andb_true_iff. setoid_rewrite negb_true_iff. setoid_rewrite String.eqb_neq.
  setoid_rewrite N.eqb_eq. done.
Qed.

Lemma rounds_valid_bounded l s :
  rounds_valid [] l = true -> s ∈ l ->
  (N.of_nat (length (sigs_of s.1.1 l)) <= s.2)%N /\ NoDup ((fun p => p.1.2) <$> sigs_of s.1.1 l).
Proof.
  revert s. induction l as [|x l IH] using rev_ind; intros s; [set_solver|].
  rewrite rounds_valid_app. intros [Hv [Hlt Hall]%round_admissible_iff]%andb_true_iff Hs.
  unfold sigs_of at 1 2. rewrite List.filter_app. fold (sigs_of s.1.1 l). simpl in *.
  assert (NoDup ((fun p => p.1.2) <$> sigs_of x.1.1 l)) as Hnd.
  { destruct (sigs_of x.1.1 l) as [|y f] eqn:Ef; [constructor|].
    assert (y ∈ sigs_of x.1.1 l) as [Hy Hg]%elem_of_sigs_of by (rewrite Ef; left).
    pose proof (proj2 (IH y Hv Hy)) as Hn. by rewrite Hg, Ef in Hn. }
  destruct (decide (x.1.1 = s.1.1)) as [Hg|Hg].
  - rewrite bool_decide_eq_true_2, <- Hg by done.
    assert (s.2 = x.2) as ->.
    { apply elem_of_app in Hs as [Hs|Hs%list_elem_of_singleton]; [|by subst].
      by apply Hall, elem_of_sigs_of. }
    split; [rewrite length_app; simpl; lia|]. rewrite fmap_app. apply NoDup_app.
    split_and!; [done| |apply NoDup_singleton].
    intros e (p & -> & Hp)%list_elem_of_fmap Hx%list_elem_of_singleton. by destruct (Hall p Hp).
  - rewrite bool_decide_eq_false_2, !app_nil_r by done. apply IH; [done|].
    apply elem_of_app in Hs as [Hs|Hs%list_elem_of_singleton]; [done|]. by subst.
Qed.

(** The recovery rounds of a Group are bounded: there are never more of
    them than any one of them allows, at most 16, their identities differ, and
    each names at most 32 members and a deadline within an hour. *)
Theorem group_rounds_bounded `{Serde} m i :
  reachable m -> i ∈ group_recoveries m ->
  let rounds := List.filter (fun p => bool_decide (gri_group_id p = gri_group_id i))
                  (group_recoveries m) in
  (N.of_nat (length rounds) <= gri_max_replacements i)%N /\ (gri_max_replacements i <= 16)%N /\
  NoDup (gri_recovery_id <$> rounds) /\
  1 <= length (gri_members i) <= 32 /\ NoDup (grm_execution_id <$> gri_members i) /\
  gri_deadline_ms i = (gri_requested_at_ms i + gri_timeout_ms i)%N /\
  (gri_timeout_ms i <= 3600000)%N.
Proof.
  intros Hr Hi rounds.
  destruct (proj1 (groups_wf_iff m) (wf_groups _ (reachable_wf m Hr))) as (Hok & Hv & _).
  destruct (Hok i Hi) as (Hb & Hs & _).
  destruct (rounds_valid_bounded _ (round_sig i) Hv) as [H1 H2].
  { apply list_elem_of_fmap. by exists i. }
  unfold sigs_of in H1, H2. simpl in H1, H2. rewrite filter_round_sig in H1, H2. fold rounds in H1, H2.
  rewrite length_fmap in H1. rewrite <- list_fmap_compose in H2.
  unfold intent_bounds_valid, bounded_recovery in Hb. bool_facts.
  unfold intent_sets_valid in Hs. bool_facts.
  repeat match goal with
  | E : (_ =? _)%nat = false |- _ => apply Nat.eqb_neq in E
  | E : (_ <? _)%nat = false |- _ => apply Nat.ltb_ge in E
  | E : (_ =? _)%nat = true |- _ => apply Nat.eqb_eq in E
  end.
  split_and!; try done; try lia.
  - apply distinct_count_NoDup. by rewrite length_fmap.
  - by eapply u64_checked_add_Some.
Qed.

(** ** Isolated recovery *)

(** C26.  An isolated replacement is released only after its stop: when a
    command is ready for replacement its slot's current attempt was authorized to
    stop and asked to cancel, its node reported the cancellation, the confirmation
    arrived between the request and the deadline, the deadline has not passed, and
    the attempt carried the same command and an isolated-retry declaration. *)
Theorem recovery_ready_sound `{Serde} m command now :
  reachable m -> recovery_stop_ready m command now = true ->
  exists id i ctx t,
    current_attempt_of m command = Some id /\ recovery_stops m !! id = Some i /\
    executions m !! id = Some ctx /\ ExecutionCommand_eqb (ctx_command ctx) command = true /\
    declares_role_retry command = true /\ id ∈ cancellation_intents m /\
    status_of m id = Some Cancelled /\ rsi_aborted i = false /\
    rsi_confirmed_at_ms i = Some t /\
    (rsi_requested_at_ms i <= t)%N /\ (t <= now)%N /\ (now < rsi_deadline_ms i)%N /\
    rsi_deadline_ms i = (rsi_requested_at_ms i + rsi_timeout_ms i)%N /\
    (rsi_timeout_ms i <= 3600000)%N.
Proof.
  intros Hr Hy. pose proof (wf_stops _ (reachable_wf m Hr)) as [Hs _]%stops_wf_iff.
  unfold recovery_stop_ready in Hy. apply is_some_and_true in Hy as (i & Ei & Hy).
  destruct (current_attempt_of m command) as [id|] eqn:Ec; [|done]. simpl in Ei.
  destruct (Hs id i Ei) as (ctx & Ex & (Hid & Ht & Hd & Hc & _ & Hconf & _)). bool_facts.
  rewrite Hid, Ex in *. simpl in *. bool_facts.
  destruct (rsi_confirmed_at_ms i) as [t|] eqn:Et; [|done]. simpl in *. bool_facts.
  destruct (Hconf t eq_refl) as [Hq _]. apply u64_checked_add_Some in Hd as [Hd _].
  exists id, i, ctx, t. split_and!; try done; lia.
Qed.

(** A stop request is refused without effect, repeats an authorization with
    the same policy without effect, or is admitted: then it concerns the live
    current attempt of its slot on the expected node, which declared an isolated
    retry, it charges one unit of an unexhausted budget whose limit it names, and
    it asks for the attempt's cancellation; nothing else changes. *)
Theorem recovery_request_effect m id node now timeout max m' r :
  request_recovery_stop m id node now timeout max = Some (m', r) ->
  (m' = m /\ exists e, r = Err e) \/
  (m' = m /\ r = Ok tt /\ exists i, recovery_stops m !! id = Some i /\ rsi_aborted i = false /\
     rsi_timeout_ms i = timeout /\ rsi_max_replacements i = max) \/
  (r = Ok tt /\ recovery_stops m !! id = None /\ has_terminal_status m id = false /\
   exists ctx used, executions m !! id = Some ctx /\ cmd_node_id (ctx_command ctx) = node /\
     let slot := cmd_slot (ctx_command ctx) in
     active_executions m !! slot = Some id /\ declares_role_retry (ctx_command ctx) = true /\
     default 0%N (rb_used <$> recovery_budgets m !! slot) = used /\ (used < max <= 16)%N /\
     (forall b, recovery_budgets m !! slot = Some b -> rb_limit b = max) /\
     exists budget, rb_limit budget = max /\ rb_used budget = (used + 1)%N /\
     m' = set_cancellation_intents ({[id]} ∪ cancellation_intents m)
            (set_recovery_stops
               (<[id := MkRecoveryStop id now (now + timeout)%N timeout max None false false]>
                  (recovery_stops m))
               (set_recovery_budgets (<[slot := budget]> (recovery_budgets m)) m))).
Proof.
  intros E. destruct (request_recovery_stop_cases _ _ _ _ _ _ _ _ E)
    as [->|(ctx & Ex & Hn & Ha & Hd & Es & Ead)].
  - unfold request_recovery_stop in E. destruct (executions m !! id) as [ctx|] eqn:Ex; [|naive_solver].
    destruct (negb _ || negb _); [naive_solver|].
    destruct (group_recovery_holds_dispatch _ _ _) as [[]|]; simpl in E; [naive_solver| |done].
    destruct (cmd_recovery_support _); [|naive_solver].
    destruct (negb _ || negb _); [naive_solver|].
    destruct (recovery_stops m !! id) as [i|] eqn:Ei.
    + injection E as <-. destruct (negb _ && _ && _) eqn:Eb; [|naive_solver].
      bool_facts. right; left. split_and!; try done. by exists i.
    + injection E as E.
      destruct (admit_recovery_stop_cases m id (cmd_slot (ctx_command ctx)) now timeout max)
        as [[err Ee]|(b & d & _ & _ & _ & _ & _ & _ & _ & Ee)]; rewrite Ee in E; [naive_solver|].
      exfalso. injection E as E _. apply (f_equal recovery_stops) in E. unfold admitted_stop in E.
      simpl in E. by rewrite <- E, lookup_insert_eq in Ei.
  - destruct (admit_recovery_stop_cases m id (cmd_slot (ctx_command ctx)) now timeout max)
      as [[err Ee]|(b & d & Hb & Hl & Hu & Hmax & Ht & [Hdl _]%u64_checked_add_Some & Hst & Ee)];
      rewrite Ee in Ead; injection Ead as -> ->; [naive_solver|].
    right; right. split_and!; try done. exists ctx, (rb_used b). cbv zeta. split_and!; try done.
    + rewrite <- Hb. by destruct (recovery_budgets m !! cmd_slot (ctx_command ctx)).
    + lia.
    + lia.
    + intros b' Eb. rewrite Eb in Hb. simpl in Hb. by subst b.
    + eexists. split_and!; [..|subst d; reflexivity]; done.
Qed.

(** ** Group recovery *)

(** What a frozen round records of one member of the set. *)
Definition frozen_member (m : RuntimeExecutionManager) (i : GroupRecoveryStopIntent)
    (member : GroupRecoveryMember) : Prop :=
  let id := grm_execution_id member in
  (exists ctx, executions m !! id = Some ctx /\ cmd_group_id (ctx_command ctx) = gri_group_id i /\
     cmd_node_id (ctx_command ctx) = grm_expected_node_id member) /\
  (id ∈ gri_preserved_completed i /\ status_of m id = Some Completed \/
   (id ∉ gri_preserved_completed i) /\ grm_repeat_authorized member = true /\
   exists s, status_of m id = Some s /\ is_terminal s = false).

Section FrozenRound.
Context `{Serde} (m : RuntimeExecutionManager) (g : ExecutionGroupId) (rid : string)
  (members : list GroupRecoveryMember) (preserved : gset string) (now deadline timeout max : N).
Let i := requested_round rid g members preserved now deadline timeout max.
Hypothesis Hb : intent_bounds_valid i = true.
Hypothesis Hsz : size (intent_ids i) = length members.
Hypothesis Hl : group_members_loop m g None ∅ members = Ok preserved.

Lemma frozen_members member : member ∈ members -> frozen_member m i member.
Proof.
  intros Hm. destruct (group_members_loop_spec _ _ _ _ _ _ Hl) as (_ & Hin & Hout).
  destruct (frozen_round_ok m i members preserved rid g now deadline timeout max eq_refl Hb Hsz Hl)
    as (_ & _ & _ & Hv & _). split.
  - by destruct (member_binding_group _ _ _ _ _ Hv Hm) as (ctx & Ec & Hg & Hn); exists ctx.
  - destruct (decide (grm_execution_id member ∈ preserved)) as [Hp|Hp]; [left|right].
    + split; [done|]. by destruct (Hin _ Hp) as [?|[_ ?]]; [set_solver|].
    + split; [done|]. by destruct (Hout member Hm) as [?|?].
Qed.

Lemma frozen_has_live :
  size preserved <> length members ->
  exists member, member ∈ members /\ grm_execution_id member ∉ preserved.
Proof.
  intros Hne. destruct (group_members_loop_spec _ _ _ _ _ _ Hl) as (_ & Hin & _).
  destruct (decide (Exists (fun x => grm_execution_id x ∉ preserved) members)) as [He|He].
  { apply Exists_exists in He. done. }
  exfalso. apply Hne. rewrite <- Hsz. f_equal. apply set_eq. intros id.
  rewrite elem_of_intent_ids. split.
  - intros Hid. destruct (Hin id Hid) as [?|[(x & -> & Hx)%list_elem_of_fmap _]]; [set_solver|].
    by exists x.
  - intros (x & Hx & <-). apply dec_stable. intros Hn. apply He, Exists_exists. by exists x.
Qed.
End FrozenRound.

(** An admitted Group stop freezes the set it names: the members are
    exactly the Group's current attempts, each once and on its expected node; the
    completed ones are preserved and every other one is live, was authorized to
    repeat and is now asked to cancel; at least one is live; the deadline is fixed,
    and nothing else changes. *)
Theorem group_request_freezes `{Serde} m g rid ms now timeout max m' :
  request_group_recovery_stop m g rid ms now timeout max = Some (m', Ok tt) ->
  group_recovery_by_id m g rid = None ->
  exists i,
    m' = set_group_recoveries (group_recoveries m ++ [i])%list
           (set_cancellation_intents (cancellation_intents m') m) /\
    gri_group_id i = g /\ gri_recovery_id i = rid /\ gri_members i ≡ₚ ms /\
    gri_deadline_ms i = (now + timeout)%N /\ NoDup (grm_execution_id <$> ms) /\
    (forall id, id ∈ grm_execution_id <$> ms <->
       exists slot, active_executions m !! slot = Some id /\ slot.1.1 = g /\
                    is_Some (status_of m id)) /\
    (forall member, member ∈ ms -> frozen_member m i member) /\
    (exists member, member ∈ ms /\ grm_execution_id member ∉ gri_preserved_completed i) /\
    (forall id, id ∈ cancellation_intents m' <->
       id ∈ cancellation_intents m \/
       (id ∈ grm_execution_id <$> ms /\ id ∉ gri_preserved_completed i)).
Proof.
  intros E Hid. destruct (request_group_recovery_cases _ _ _ _ _ _ _ _ _ E)
    as [[_ [[e ?]|[i Hi]]]|(members & pres & d & Hp & -> & _ & Hb & _ & Hsz & Hcur & Hl & Hne)];
    [done|congruence|].
  set (i := requested_round rid g members pres now d timeout max) in *. exists i.
  assert (grm_execution_id <$> members ≡ₚ grm_execution_id <$> ms) as Hpi by (by rewrite Hp).
  assert (forall id, id ∈ grm_execution_id <$> ms <-> id ∈ grm_execution_id <$> members) as Hmem
    by (intros id; by rewrite Hpi).
  split_and!; try done.
  - unfold intent_bounds_valid in Hb. bool_facts. by eapply u64_checked_add_Some.
  - rewrite <- Hpi. apply distinct_count_NoDup. by rewrite length_fmap.
  - intros id. rewrite Hmem, <- (elem_of_list_to_set (C := gset string)).
    change (list_to_set (grm_execution_id <$> members)) with (intent_ids i).
    by rewrite Hcur, elem_of_active_attempt_ids.
  - intros member Hm. rewrite <- Hp in Hm. by apply frozen_members.
  - destruct (frozen_has_live m g rid members pres now d timeout max Hsz Hl Hne) as (x & Hx & Hn).
    exists x. by rewrite <- Hp.
  - intros id. rewrite Hmem. simpl.
    rewrite elem_of_union, elem_of_list_to_set, list_elem_of_In, filter_In, <- list_elem_of_In.
    rewrite negb_true_iff. unfold set_contains. rewrite bool_decide_eq_false. tauto.
Qed.

(** The latest round of a Group after it was rewritten in place. *)
Lemma find_update_first p f l i :
  (forall x, p (f x) = p x) -> List.find p l = Some i ->
  List.find p (update_first_rev p f l) = Some (f i).
Proof.
  intros Hp. induction l as [|x l IH]; simpl; [done|].
  destruct (p x) eqn:Ex; simpl; [intros [= ->]; by rewrite Hp, Ex|rewrite Ex; apply IH].
Qed.

Lemma group_recovery_updated m g f i :
  (forall x, gri_group_id (f x) = gri_group_id x) -> group_recovery m g = Some i ->
  group_recovery (set_group_recoveries
    (reverse (update_first_rev (fun x => bool_decide (gri_group_id x = g)) f
                (reverse (group_recoveries m)))) m) g = Some (f i).
Proof.
  intros Hf Ei. unfold group_recovery. simpl. rewrite reverse_involutive.
  apply find_update_first; [|done]. intros x. simpl. by rewrite Hf.
Qed.

Lemma group_recovery_elem m g i :
  group_recovery m g = Some i -> i ∈ group_recoveries m /\ gri_group_id i = g.
Proof.
  intros [Hi Hg]%find_some. bool_facts. split; [|done]. by apply elem_of_reverse, list_elem_of_In.
Qed.

Lemma distinct_values_inj (m : gmap string string) s s' r :
  distinct_count (btree_values m) = size m -> m !! s = Some r -> m !! s' = Some r -> s = s'.
Proof.
  intros Hd E E'. assert (NoDup (btree_iter m).*2) as Hnd.
  { apply distinct_count_NoDup. fold (btree_values m). rewrite Hd. unfold btree_values.
    by rewrite length_fmap, (Permutation_length (btree_iter_Permutation m)), length_map_to_list. }
  apply elem_of_btree_iter in E, E'.
  apply list_elem_of_lookup in E as [a Ea]. apply list_elem_of_lookup in E' as [b Eb].
  assert (a = b) as ->; [|congruence].
  apply (NoDup_lookup _ _ _ r Hnd); by rewrite list_lookup_fmap, ?Ea, ?Eb.
Qed.

(** C25.  A published continuation replaces exactly the cancelled members: every
    member of the frozen set was cancelled or completed before the deadline, each
    cancelled one has its own replacement that is dispatched but unanswered and
    repeats the original's slot, node, invocation, session and resources, no
    completed member is replaced, and the replacements with the completed members
    are the Group's current set. *)
Theorem group_continuation_exact `{Serde} m g now repl m' :
  reachable m -> record_group_continuation m g now repl = Some (m', Ok tt) ->
  exists i, group_recovery m g = Some i /\
    group_recovery m' g = Some (gri_set_prepared repl now i) /\
    (now < gri_deadline_ms i)%N /\ gri_aborted i = false /\
    (forall id, id ∈ intent_ids i ->
       status_of m id = Some Cancelled \/ status_of m id = Some Completed) /\
    (forall id, is_Some (repl !! id) <-> id ∈ intent_ids i /\ status_of m id = Some Cancelled) /\
    (forall s s' r, repl !! s = Some r -> repl !! s' = Some r -> s = s') /\
    (forall s r, repl !! s = Some r -> exists actual original,
       executions m !! r = Some actual /\ executions m !! s = Some original /\
       cmd_slot (ctx_command actual) = cmd_slot (ctx_command original) /\
       cmd_node_id (ctx_command actual) = cmd_node_id (ctx_command original) /\
       ExecutionIntent_eqb (cmd_intent (ctx_command actual)) (cmd_intent (ctx_command original)) = true /\
       cmd_session (ctx_command actual) = cmd_session (ctx_command original) /\
       ctx_resource_ids actual = ctx_resource_ids original /\
       status_of m r = Some Dispatched) /\
    group_continuation_set_is_current m' g = true.
Proof.
  intros Hr E. destruct (record_group_continuation_cases _ _ _ _ _ _ E)
    as [[_ [e ?]]|(i & Ei & (Hnone & Hdl & Hab & Hconf & Hne & Hdom & Hdis & Hch & Hset) & _ & ->)];
    [done|].
  destruct (group_recovery_elem _ _ _ Ei) as [Hin Hg].
  destruct (proj1 (groups_wf_iff m) (wf_groups _ (reachable_wf m Hr))) as (Hok & _).
  destruct (Hok i Hin) as (_ & _ & _ & Hv & _).
  pose proof (group_recovery_updated m g (gri_set_prepared repl now) i (fun _ => eq_refl) Ei) as Ei'.
  exists i. split_and!; try done.
  - intros id Hid. pose proof Hid as (member & Hm & <-)%elem_of_intent_ids.
    assert (stopped_status (status_of m (grm_execution_id member)) = true) as Hs.
    { apply (round_members_stopped m i); [done| |done].
      destruct (member_confirmed m i now member) as [?|(t & ? & _)]; eauto. }
    destruct (status_of m _) as [[]|]; try done; auto.
  - intros s s' r. by apply distinct_values_inj.
  - intros s r Er. destruct (Hch s r Er) as (a & o & Ea & Eo & Hc). exists a, o.
    unfold replacement_changed in Hc. bool_facts. unfold cmd_slot. split_and!; try done; congruence.
  - unfold group_continuation_set_is_current. rewrite Ei'. simpl. rewrite Hab. simpl.
    rewrite bool_decide_eq_false_2 by done. rewrite bool_decide_eq_true_2; [done|].
    rewrite Hset, Hg. done.
Qed.

(** A member that occupies its slot with a confirmed stop was cancelled, or had
    completed. *)
Lemma barrier_member `{Serde} m i now member :
  members_valid m i None (gri_members i) = true ->
  member ∈ gri_members i ->
  (command ← index_command m (grm_execution_id member);
   Some (bool_decide (current_attempt_of m command = Some (grm_execution_id member))
         && member_stop_confirmed m i now member)) = Some true ->
  exists ctx, executions m !! grm_execution_id member = Some ctx /\
    active_executions m !! cmd_slot (ctx_command ctx) = Some (grm_execution_id member) /\
    (status_of m (grm_execution_id member) = Some Cancelled \/
     status_of m (grm_execution_id member) = Some Completed).
Proof.
  intros Hv Hm Eall. unfold index_command in Eall.
  destruct (executions m !! grm_execution_id member) as [ctx|]; [|done]. simpl in Eall.
  injection Eall as Eall. bool_facts. exists ctx. split_and!; try done.
  assert (stopped_status (status_of m (grm_execution_id member)) = true) as Hs.
  { apply (round_members_stopped m i); [done| |].
    - destruct (member_confirmed m i now member) as [?|(t & ? & _)]; eauto.
    - apply elem_of_intent_ids. eauto. }
  destruct (status_of m _) as [[]|]; try done; auto.
Qed.

(** Members that are all cancelled or completed, and not all completed, include a
    cancelled one. *)
Lemma some_cancelled m members :
  (forall x, x ∈ members -> status_of m (grm_execution_id x) = Some Cancelled \/
                            status_of m (grm_execution_id x) = Some Completed) ->
  forallb (fun x => bool_decide (status_of m (grm_execution_id x) = Some Completed)) members
    = false ->
  exists x, x ∈ members /\ status_of m (grm_execution_id x) = Some Cancelled.
Proof.
  induction members as [|x l IH]; intros Hall; simpl; [done|]. intros Hf.
  destruct (Hall x) as [E|E]; [left|exists x; split; [left|done]|].
  rewrite bool_decide_eq_true_2 in Hf by done. simpl in Hf.
  destruct IH as (y & Hy & Ey); [intros y Hy; apply Hall; by right|done|].
  exists y. split; [by right|done].
Qed.

(** The stop barrier is sound: when the disposition of a Group's recovery is
    that every stop is confirmed, the round is neither aborted nor expired, every
    member still occupies its slot and is cancelled or completed, and at least one
    was cancelled.  When it is that the continuation happened, every replacement
    was admitted by its node before the deadline. *)
Theorem group_disposition_sound `{Serde} m g now :
  reachable m ->
  (group_recovery_disposition m g now = Some GStopConfirmed ->
   exists i, group_recovery m g = Some i /\ gri_aborted i = false /\ (now < gri_deadline_ms i)%N /\
     (forall id, id ∈ intent_ids i -> exists ctx,
        executions m !! id = Some ctx /\
        active_executions m !! cmd_slot (ctx_command ctx) = Some id /\
        (status_of m id = Some Cancelled \/ status_of m id = Some Completed)) /\
     (exists id, id ∈ intent_ids i /\ status_of m id = Some Cancelled)) /\
  (group_recovery_disposition m g now = Some GContinued ->
   exists i, group_recovery m g = Some i /\ gri_aborted i = false /\ gri_replacements i <> ∅ /\
     (forall s r, gri_replacements i !! s = Some r -> exists t st,
        gri_admitted_at_ms i !! r = Some t /\ (t <= now)%N /\ (t < gri_deadline_ms i)%N /\
        status_of m r = Some st /\ st <> Dispatched)).
Proof.
  intros Hr.
  destruct (proj1 (groups_wf_iff m) (wf_groups _ (reachable_wf m Hr))) as (Hok & _ & Hadm & _).
  unfold group_recovery_disposition.
  destruct (group_recovery m g) as [i|] eqn:Ei; [|split; done].
  destruct (group_recovery_elem _ _ _ Ei) as [Hin Hg].
  destruct (Hok i Hin) as (_ & _ & _ & Hv & _).
  destruct (gri_aborted i) eqn:Ea; [split; done|].
  destruct (negb _) eqn:Ene.
  { split; [by repeat case_match|]. destruct (forallb _ _) eqn:Ef; [|by repeat case_match].
    intros _. exists i. bool_facts. split_and!; try done. intros s r Er.
    assert (In r (btree_values (gri_replacements i))) as Hrv
      by (apply list_elem_of_In, elem_of_btree_values; by eexists).
    specialize (Ef r Hrv). apply is_some_and_true in Ef as (t & Et & Ht). bool_facts.
    destruct (Hadm i r Hin) as (st & Es & Hst); [by eexists|]. by exists t, st. }
  destruct (existsb _ _) eqn:Efail; [split; done|].
  destruct (forallb _ _) eqn:Ecomp; [split; done|].
  destruct (_ <=? _)%N eqn:Edl; [split; done|]. bool_facts.
  destruct (all_opt _ _) as [[]|] eqn:Eall; simpl; [|split; done..]. split; [intros _|done].
  rewrite all_opt_true in Eall.
  assert (forall x, x ∈ gri_members i -> _) as Hall
    by (intros x Hx; exact (barrier_member m i now x Hv Hx (Eall x Hx))).
  exists i. split_and!; try done.
  - intros id (x & Hx & <-)%elem_of_intent_ids. by apply Hall.
  - destruct (some_cancelled m (gri_members i)) as (x & Hx & Es); [|done|].
    + intros x Hx. by destruct (Hall x Hx) as (_ & _ & _ & ?).
    + exists (grm_execution_id x). split; [apply elem_of_intent_ids; by exists x|done].
Qed.

(** ** Progress *)

(** A sample is refused, or stored with the time of the last advance. *)
Lemma observe_progress_outcome m record sample m' accepted :
  observe_progress m record sample = (m', accepted) -> progress_wf m ->
  (accepted = false /\ m' = m) \/
  (accepted = true /\ exists ctx t,
     executions m !! ops_execution_id sample = Some ctx /\
     progress_admissible m record sample (ctx_command ctx) = true /\
     (t <= sr_received_at record)%N /\
     (forall p, progress m !! ops_execution_id sample = Some p ->
        ps_key (po_record p) = sr_key record /\
        (ps_source_epoch (po_record p) = sr_source_epoch record ->
         progress_regresses record sample p = false /\ (po_last_advanced_at p <= t)%N)) /\
     m' = set_progress (<[ops_execution_id sample :=
            MkProgressObservation sample (ProgressSource_from_record record) t]> (progress m)) m).
Proof.
  intros E Hp. rewrite progress_wf_iff in Hp. unfold observe_progress in E.
  destruct (executions m !! ops_execution_id sample) as [ctx|] eqn:Ex;
    [|left; by injection E as <- <-].
  destruct (negb (progress_admissible _ _ _ _)) eqn:Ead; [left; by injection E as <- <-|].
  apply negb_false_iff in Ead.
  destruct (progress m !! ops_execution_id sample) as [p|] eqn:Ep.
  - destruct (negb (bool_decide (ps_key _ = _))) eqn:Ek; [left; by injection E as <- <-|]. bool_facts.
    destruct (Hp _ _ Ep) as (ctx' & _ & Hval). unfold progress_entry_valid in Hval. bool_facts.
    destruct (bool_decide (ps_source_epoch _ = _)) eqn:Ee; bool_facts.
    + destruct (progress_regresses record sample p) eqn:Eg; [left; by injection E as <- <-|].
      assert (ps_received_at (po_record p) <= sr_received_at record)%N
        by (unfold progress_regresses in Eg; by bool_facts).
      right. destruct (progress_unchanged record sample p); injection E as <- <-;
        (split; [done|]); (eexists ctx, _; split_and!; [done..| | |reflexivity]; [lia|]);
        intros p' [= <-]; (split; [done|]); intros _; (split; [done|lia]).
    + right. injection E as <- <-. split; [done|].
      eexists ctx, _. split_and!; [done..| | |reflexivity]; [lia|]. intros p' [= <-]. done.
  - right. injection E as <- <-. split; [done|].
    eexists ctx, _. split_and!; [done..| | |reflexivity]; [lia|]. done.
Qed.

(** Accepted progress concerns the live current attempt and comes from the
    node that owns it; it never moves the sequence, receive time, stage or units
    of a stage back within a source epoch, nor the time of the last advance.  A
    refused sample changes nothing. *)
Theorem progress_never_regresses `{Serde} m record sample m' accepted :
  reachable m -> observe_progress m record sample = (m', accepted) ->
  let id := ops_execution_id sample in
  (accepted = false -> m' = m) /\
  (accepted = true -> exists ctx o,
     executions m !! id = Some ctx /\
     active_executions m !! cmd_slot (ctx_command ctx) = Some id /\
     has_terminal_status m id = false /\
     source_node_id (sk_source (sr_key record)) = Some (cmd_node_id (ctx_command ctx)) /\
     progress m' !! id = Some o /\ po_sample o = sample /\
     po_record o = ProgressSource_from_record record /\
     (po_last_advanced_at o <= sr_received_at record)%N /\
     (forall p, progress m !! id = Some p -> ps_key (po_record p) = sr_key record) /\
     (forall p, progress m !! id = Some p ->
        ps_source_epoch (po_record p) = sr_source_epoch record ->
        (ps_sequence (po_record p) < sr_sequence record)%N /\
        (ps_received_at (po_record p) <= sr_received_at record)%N /\
        (ops_stage_epoch (po_sample p) <= ops_stage_epoch sample)%N /\
        (forall old new, ops_stage_epoch (po_sample p) = ops_stage_epoch sample ->
           ops_completed_units (po_sample p) = Some old ->
           ops_completed_units sample = Some new -> (old <= new)%N) /\
        (po_last_advanced_at p <= po_last_advanced_at o)%N)).
Proof.
  intros Hr E id.
  destruct (observe_progress_outcome _ _ _ _ _ E (wf_progress _ (reachable_wf m Hr)))
    as [[-> ->]|(-> & ctx & t & Ex & Had & Ht & Hprev & ->)]; [done|]. split; [done|]. intros _.
  unfold progress_admissible in Had. bool_facts.
  exists ctx, (MkProgressObservation sample (ProgressSource_from_record record) t).
  simpl. rewrite lookup_insert_eq. split_and!; try done; [intros p Ep; by apply Hprev|].
  intros p Ep Hep. destruct (Hprev p Ep) as [_ Hl]. destruct (Hl Hep) as [Hreg Hadv].
  unfold progress_regresses in Hreg. bool_facts. split_and!; try done.
  intros old new Hst Eo En.
  match goal with Hu : (_ && _) = false |- _ =>
    rewrite Eo, En, Hst, N.eqb_refl in Hu; simpl in Hu end.
  by bool_facts.
Qed.

(** ** The properties at a concrete run *)

Definition fx_slot1 : ExecutionSlot := (fx_group, fx_task, fx_role1).

Lemma recovery_budget_counts_witness :
  N.of_nat (stops_of_slot fx_confirmed fx_slot1) = 1%N /\ stops_of_slot fx_confirmed fx_slot1 <= 16.
Proof.
  destruct (recovery_budget_counts fx_confirmed fx_slot1 fx_confirmed_reachable) as (H1 & _ & H3).
  split; [|exact H3]. rewrite H1. vm_compute. reflexivity.
Defined.

Definition fx_round : GroupRecoveryStopIntent :=
  MkGroupRecovery "rec1" fx_group
    [MkGroupMember "a1" fx_node1 true; MkGroupMember "a2" fx_node2 true] ∅ 100 1100 1000 2 ∅ ∅ None
    ∅ false.

Lemma fx_frozen_rounds : group_recoveries fx_frozen = [fx_round].
Proof. vm_compute. reflexivity. Qed.

Lemma group_rounds_bounded_witness :
  gri_deadline_ms fx_round = (gri_requested_at_ms fx_round + gri_timeout_ms fx_round)%N.
Proof.
  refine (proj1 (proj2 (proj2 (proj2 (proj2 (proj2
    (group_rounds_bounded fx_frozen fx_round fx_frozen_reachable _))))))).
  rewrite fx_frozen_rounds. left.
Defined.

Lemma recovery_ready_sound_witness :
  exists id i ctx t,
    current_attempt_of fx_confirmed fx_retry = Some id /\ recovery_stops fx_confirmed !! id = Some i /\
    executions fx_confirmed !! id = Some ctx /\
    ExecutionCommand_eqb (ctx_command ctx) fx_retry = true /\
    declares_role_retry fx_retry = true /\ id ∈ cancellation_intents fx_confirmed /\
    status_of fx_confirmed id = Some Cancelled /\ rsi_aborted i = false /\
    rsi_confirmed_at_ms i = Some t /\
    (rsi_requested_at_ms i <= t)%N /\ (t <= 300)%N /\ (300 < rsi_deadline_ms i)%N /\
    rsi_deadline_ms i = (rsi_requested_at_ms i + rsi_timeout_ms i)%N /\
    (rsi_timeout_ms i <= 3600000)%N.
Proof.
  apply (recovery_ready_sound fx_confirmed fx_retry 300 fx_confirmed_reachable).
  vm_compute. reflexivity.
Defined.

Lemma recovery_request_effect_witness :
  recovery_stops fx_running !! "a1" = None /\ has_terminal_status fx_running "a1" = false.
Proof.
  assert (request_recovery_stop fx_running "a1" fx_node1 100 1000 2 = Some (fx_stopping, Ok tt)) as E
    by (vm_compute; reflexivity).
  destruct (recovery_request_effect fx_running "a1" fx_node1 100 1000 2 fx_stopping (Ok tt) E)
    as [[_ [e He]]|[(_ & _ & i & Ei & _)|(_ & H1 & H2 & _)]].
  - discriminate He.
  - vm_compute in Ei. discriminate Ei.
  - split; [exact H1|exact H2].
Defined.

Lemma group_request_freezes_witness :
  exists i, gri_group_id i = fx_group /\ gri_recovery_id i = "rec1" /\ gri_members i ≡ₚ fx_members /\
    gri_deadline_ms i = 1100%N.
Proof.
  assert (request_group_recovery_stop fx_pair_running fx_group "rec1" fx_members 100 1000 2
          = Some (fx_frozen, Ok tt)) as E by (vm_compute; reflexivity).
  assert (group_recovery_by_id fx_pair_running fx_group "rec1" = None) as Hn
    by (vm_compute; reflexivity).
  destruct (group_request_freezes fx_pair_running fx_group "rec1" fx_members 100 1000 2 fx_frozen E Hn)
    as (i & _ & H1 & H2 & H3 & H4 & _).
  exists i. split; [exact H1|]. split; [exact H2|]. split; [exact H3|exact H4].
Defined.

Lemma group_continuation_exact_witness :
  group_continuation_set_is_current fx_continued fx_group = true.
Proof.
  assert (record_group_continuation fx_replacing fx_group 300 fx_replacements
          = Some (fx_continued, Ok tt)) as E by (vm_compute; reflexivity).
  destruct (group_continuation_exact fx_replacing fx_group 300 fx_replacements fx_continued
    fx_replacing_reachable E) as (i & _ & _ & _ & _ & _ & _ & _ & _ & Hc).
  exact Hc.
Defined.

Lemma group_disposition_sound_witness :
  exists i, group_recovery fx_group_stopped fx_group = Some i /\ gri_aborted i = false /\
    (300 < gri_deadline_ms i)%N.
Proof.
  assert (group_recovery_disposition fx_group_stopped fx_group 300 = Some GStopConfirmed) as E
    by (vm_compute; reflexivity).
  destruct (proj1 (group_disposition_sound fx_group_stopped fx_group 300 fx_group_stopped_reachable) E)
    as (i & H1 & H2 & H3 & _).
  exists i. split; [exact H1|]. split; [exact H2|exact H3].
Defined.

Definition fx_progress_record (sequence received : N) : StateRecord :=
  MkStateRecord STATE_RECORD_SCHEMA_V0_1
    (MkStateKey (MkStateObject ClassNode "node" "n1") Reported (SourceNode fx_node1 (MkId "ls1")) "p")
    EXECUTION_PROGRESS_SCHEMA JNull None received 50 None (Some "e1") sequence.
Definition fx_sample (units : N) : OperationProgressSample :=
  MkProgressSample "a1" fx_op 1 (Some units) Working.
Definition fx_progressed : RuntimeExecutionManager :=
  (observe_progress fx_running (fx_progress_record 1 20) (fx_sample 3)).1.

Lemma progress_never_regresses_witness :
  (observe_progress fx_progressed (fx_progress_record 2 30) (fx_sample 2)).1 = fx_progressed /\
  (observe_progress fx_progressed (fx_progress_record 2 30) (fx_sample 2)).2 = false.
Proof.
  assert (reachable fx_progressed) as Hr.
  { eapply rtc_r; [apply fx_running_reachable|]. eexists. apply step_progress. }
  assert ((observe_progress fx_progressed (fx_progress_record 2 30) (fx_sample 2)).2 = false) as Hf
    by (vm_compute; reflexivity).
  split; [|exact Hf].
  refine (proj1 (progress_never_regresses fx_progressed (fx_progress_record 2 30) (fx_sample 2) _ _
    Hr (surjective_pairing _)) Hf).
Defined.
