(* ===== verification/PropsRelation.v ===== *)
(** * Properties of relations and Task results *)

From S2P Require Import Prelude Identity Execution Session StateModel RelationSpec RuntimeState Relation.
From S2P Require Import Coordination Attempts GroupRecovery RecoveryStop Dispatch Checkpoint.
From S2P Require Import Invariant InvRecovery InvGroups InvAttempts InvRestore.
From S2P Require Import Lifecycle Fixture.

Open Scope string_scope.

(** ** The result of a Task *)

(** The Role's current attempt is terminal and no recovery intends to replace it. *)
Definition role_settled (m : RuntimeExecutionManager) (g : ExecutionGroupId) (t : TaskRef)
    (r : RoleId) : bool :=
  match current_execution_status m g t r with
  | Some (Completed | Failed) => true
  | Some Cancelled => negb (is_some_and (cancelled_for_recovery m) (current_attempt_id m g t r))
  | _ => false
  end.

Definition role_lost (m : RuntimeExecutionManager) (g : ExecutionGroupId) (t : TaskRef)
    (r : RoleId) : bool :=
  role_settled m g t r
  && match current_execution_status m g t r with Some (Failed | Cancelled) => true | _ => false end.

Lemma scan_role_eq m g t acc r :
  scan_role m g t acc r =
  MkScan true (saw_failed acc || role_lost m g t r) (all_terminal acc && role_settled m g t r).
Proof.
  unfold scan_role, role_lost, role_settled, current_execution_status, current_status,
    current_attempt_id.
  destruct (active_executions m !! (g, t, r)) as [id|]; simpl;
    [|by rewrite orb_false_r, andb_false_r].
  destruct (execution_status m !! id) as [[]|]; simpl;
    rewrite ?orb_false_r, ?orb_true_r, ?andb_false_r, ?andb_true_r; try done.
  destruct (cancelled_for_recovery m id); simpl;
    by rewrite ?orb_false_r, ?orb_true_r, ?andb_false_r, ?andb_true_r.
Qed.

Lemma scan_roles_eq m g t roles acc :
  foldl (scan_role m g t) acc roles =
  MkScan (saw_role acc || negb (bool_decide (roles = [])))
    (saw_failed acc || existsb (role_lost m g t) roles)
    (all_terminal acc && forallb (role_settled m g t) roles).
Proof.
  revert acc. induction roles as [|r roles IH]; intros acc; cbn [foldl].
  - rewrite bool_decide_eq_true_2 by done. destruct acc; simpl.
    by rewrite !orb_false_r, andb_true_r.
  - rewrite IH, scan_role_eq. simpl. by rewrite !orb_true_r, orb_assoc, andb_assoc.
Qed.

Lemma task_execution_result_eq m g t roles :
  task_execution_result m g t roles =
  if bool_decide (roles = []) || negb (forallb (role_settled m g t) roles) then None
  else if existsb (role_lost m g t) roles then Some ExecutionFailed
  else if relations_allow_task_success m g t then Some ExecutionCompleted else None.
Proof.
  unfold task_execution_result. rewrite scan_roles_eq. simpl. by rewrite negb_involutive.
Qed.

(** Every relation that targets the Task holds an unfenced proof for the current
    target attempt. *)
Definition relations_proven (m : RuntimeExecutionManager) (g : ExecutionGroupId) (t : TaskRef)
  : Prop :=
  forall key r, relations m !! key = Some r -> rel_group_id r = g -> rel_target_task_ref r = t ->
    exists id, active_executions m !! target_key r = Some id /\
               (key ∉ relation_fences m) /\ relation_proofs m !! key = Some id.

Lemma relations_allow_iff m g t :
  relations_allow_task_success m g t = true <-> relations_proven m g t.
Proof.
  unfold relations_allow_task_success, relations_proven. rewrite forallb_forall. split.
  - intros Hall key r E Hg Ht. specialize (Hall (key, r)).
    rewrite <- list_elem_of_In, elem_of_btree_iter in Hall. specialize (Hall E). simpl in Hall.
    rewrite Hg, Ht, !bool_decide_eq_true_2 in Hall by done. simpl in Hall.
    destruct (active_executions m !! target_key r) as [id|]; [|done]. bool_facts. by exists id.
  - intros Hall [key r] Hin. rewrite <- list_elem_of_In, elem_of_btree_iter in Hin. simpl.
    case_bool_decide as Hg; simpl; [|done]. case_bool_decide as Ht; simpl; [|done].
    destruct (Hall key r Hin Hg Ht) as (id & -> & Hf & Hp). unfold set_contains.
    by rewrite bool_decide_eq_false_2, bool_decide_eq_true_2.
Qed.

(** A Task is reported complete exactly when it has Roles, the current
    attempt of every Role completed, and every relation that targets it holds an
    unfenced satisfaction proof for the attempt that completed. *)
Theorem task_completed_iff m g t roles :
  task_execution_result m g t roles = Some ExecutionCompleted <->
  roles <> [] /\ (forall r, r ∈ roles -> current_execution_status m g t r = Some Completed) /\
  relations_proven m g t.
Proof.
  rewrite task_execution_result_eq, <- relations_allow_iff. split.
  - destruct (bool_decide (roles = []) || _) eqn:Eb; [done|].
    destruct (existsb _ roles) eqn:Ee; [done|]. destruct (relations_allow_task_success m g t); [|done].
    intros _. apply orb_false_iff in Eb as [En Ef]. bool_facts. split_and!; try done.
    intros r Hr%list_elem_of_In. specialize (Ef r Hr).
    apply not_true_iff_false in Ee. destruct (role_lost m g t r) eqn:El.
    + exfalso. apply Ee, existsb_exists. by exists r.
    + unfold role_lost in El. rewrite Ef in El. unfold role_settled in Ef. simpl in El.
      by destruct (current_execution_status m g t r) as [[]|].
  - intros (Hn & Hall & ->). rewrite bool_decide_eq_false_2 by done.
    assert (forallb (role_settled m g t) roles = true) as ->.
    { apply forallb_forall. intros r Hr%list_elem_of_In. unfold role_settled. by rewrite Hall. }
    assert (existsb (role_lost m g t) roles = false) as ->; [|done].
    apply not_true_iff_false. rewrite existsb_exists. intros (r & Hr%list_elem_of_In & Hl).
    unfold role_lost in Hl. rewrite Hall in Hl by done. by rewrite andb_false_r in Hl.
Qed.

(** A Task is reported failed exactly when it has Roles, every Role's
    current attempt is terminal without a recovery that still intends to replace
    it, and at least one of them failed or was cancelled. *)
Theorem task_failed_iff m g t roles :
  task_execution_result m g t roles = Some ExecutionFailed <->
  (forall r, r ∈ roles -> exists id s, current_attempt_id m g t r = Some id /\
     status_of m id = Some s /\ is_terminal s = true /\
     (s = Cancelled -> cancelled_for_recovery m id = false)) /\
  (exists r, r ∈ roles /\ (current_execution_status m g t r = Some Failed \/
                           current_execution_status m g t r = Some Cancelled)).
Proof.
  assert (forall r, role_settled m g t r = true <->
    exists id s, current_attempt_id m g t r = Some id /\ status_of m id = Some s /\
      is_terminal s = true /\ (s = Cancelled -> cancelled_for_recovery m id = false)) as Hs.
  { intros r. unfold role_settled, current_execution_status, current_status, current_attempt_id,
      status_of. destruct (active_executions m !! (g, t, r)) as [id|]; simpl; [|naive_solver].
    destruct (execution_status m !! id) as [[]|] eqn:E; simpl; rewrite ?negb_true_iff;
      try (split; [done|naive_solver]); split; try (intros; by exists id; eexists); naive_solver. }
  rewrite task_execution_result_eq. setoid_rewrite <- Hs. split.
  - destruct (bool_decide (roles = []) || _) eqn:Eb; [done|].
    destruct (existsb _ roles) eqn:Ee; [intros _|by destruct (relations_allow_task_success m g t)].
    apply orb_false_iff in Eb as [_ Ef]. bool_facts. split.
    + intros r Hr. by apply Ef, list_elem_of_In.
    + apply existsb_exists in Ee as (r & Hr%list_elem_of_In & Hl). exists r. split; [done|].
      unfold role_lost in Hl. bool_facts.
      destruct (current_execution_status m g t r) as [[]|]; try done; auto.
  - intros [Hall (r & Hr & Hst)]. rewrite bool_decide_eq_false_2 by (intros ->; set_solver).
    rewrite (proj2 (forallb_forall _ _)) by (intros x Hx%list_elem_of_In; auto). simpl.
    rewrite (proj2 (existsb_exists _ _)); [done|]. exists r. split; [by apply list_elem_of_In|].
    unfold role_lost. rewrite (Hall r Hr). by destruct Hst as [-> | ->].
Qed.

(** ** Refreshed relations *)

(** The derived state depends on the relation's own proof alone. *)
Lemma derive_frame s f p m r :
  p !! rel_key r = relation_proofs m !! rel_key r ->
  derive_relation_state (rel_frame s f p m) r = derive_relation_state m r.
Proof.
  intros Hp. unfold derive_relation_state, derive_requires_active, derive_shared_spatial,
    missing_spatial_evidence_state, contains_key. simpl.
  change (current_status (rel_frame s f p m)) with (current_status m).
  change (current_spatial_evidence (rel_frame s f p m)) with (current_spatial_evidence m).
  by rewrite Hp.
Qed.

(** A satisfied relation stays satisfied when its proof is recorded. *)
Lemma derive_satisfied s f p m r :
  derive_relation_state m r = Satisfied -> derive_relation_state (rel_frame s f p m) r = Satisfied.
Proof.
  unfold derive_relation_state, derive_requires_active, derive_shared_spatial,
    missing_spatial_evidence_state. simpl.
  change (current_status (rel_frame s f p m)) with (current_status m).
  change (current_spatial_evidence (rel_frame s f p m)) with (current_spatial_evidence m).
  repeat case_match; try done.
Qed.

(** The recorded state, fence and proof of a relation agree with the facts. *)
Definition relation_current (m : RuntimeExecutionManager) (key : RelationKey)
    (r : RuntimeExecutionRelation) : Prop :=
  relation_states m !! key = Some (derive_relation_state m r) /\
  (requires_reconciliation (derive_relation_state m r) = true -> key ∈ relation_fences m) /\
  (derive_relation_state m r = Satisfied ->
     relation_proofs m !! key = active_executions m !! target_key r).

(** Refreshing another relation keeps a current one current. *)
Lemma refresh_other m key key' r :
  key <> key' -> rel_key r = key' -> relation_current m key' r ->
  relation_current (refresh_relation m key).1 key' r.
Proof.
  intros Hne Hk (H1 & H2 & H3). rewrite refresh_relation_state.
  destruct (relations m !! key) as [x|]; [|done].
  assert (refreshed_proofs m key x (derive_relation_state m x) !! key' = relation_proofs m !! key') as Hp.
  { unfold refreshed_proofs. repeat case_match; try done. by rewrite lookup_insert_ne. }
  unfold relation_current. cbv zeta. rewrite derive_frame by (by rewrite Hk). simpl.
  rewrite lookup_insert_ne, Hp by done. split_and!; try done.
  intros Hq. unfold refreshed_fences. case_match; set_solver.
Qed.

Lemma refresh_self m key r :
  relations m !! key = Some r -> rel_key r = key ->
  is_Some (active_executions m !! target_key r) \/ derive_relation_state m r <> Satisfied ->
  relation_current (refresh_relation m key).1 key r.
Proof.
  intros Er Hk Ha. rewrite refresh_relation_state, Er. cbv zeta.
  assert (derive_relation_state (rel_frame
      (<[key := derive_relation_state m r]> (relation_states m))
      (refreshed_fences m key (derive_relation_state m r))
      (refreshed_proofs m key r (derive_relation_state m r)) m) r
    = derive_relation_state m r) as Hd.
  { destruct (decide (derive_relation_state m r = Satisfied)) as [E|E].
    - rewrite E. by apply derive_satisfied.
    - apply derive_frame. unfold refreshed_proofs. by rewrite bool_decide_eq_false_2. }
  unfold relation_current. rewrite Hd. simpl. rewrite lookup_insert_eq. split_and!; [done|..].
  - intros Hq. unfold refreshed_fences. rewrite Hq. set_solver.
  - intros Hs. unfold refreshed_proofs. rewrite bool_decide_eq_true_2 by done.
    destruct (active_executions m !! target_key r) as [id|] eqn:E.
    + by rewrite lookup_insert_eq.
    + destruct Ha as [[? ?]|?]; done.
Qed.

(** A satisfied relation has a current target attempt. *)
Lemma satisfied_active m r :
  is_Some (active_executions m !! target_key r) \/ derive_relation_state m r <> Satisfied.
Proof.
  destruct (active_executions m !! target_key r) as [id|] eqn:E; [left; by eexists|right].
  unfold derive_relation_state, current_status. rewrite E. done.
Qed.

Lemma refresh_keys_current m keys key r :
  NoDup keys -> relations m !! key = Some r -> rel_key r = key ->
  (key ∈ keys \/ relation_current m key r) ->
  relation_current (refresh_keys m keys).1 key r.
Proof.
  revert m. induction keys as [|k keys IH]; intros m; simpl; [set_solver|].
  intros [Hk Hnd]%NoDup_cons Er Hkey Hcur.
  pose proof (refresh_relation_refreshed m k) as (s & f & p & E & _).
  assert (relation_current (refresh_relation m k).1 key r \/ key ∈ keys) as Hc.
  { destruct (decide (k = key)) as [->|Hne].
    - left. apply refresh_self; [done..|apply satisfied_active].
    - destruct Hcur as [[?|?]%elem_of_cons|Hcur]; [done|by right|left]. by apply refresh_other. }
  destruct (refresh_relation m k) as [m1 ev1]. simpl in *.
  specialize (IH m1 Hnd). rewrite E in IH at 1. specialize (IH Er Hkey).
  destruct (refresh_keys m1 keys) as [m2 ev2]. apply IH. tauto.
Qed.

Lemma NoDup_filter_keys {K V} `{Countable K, Ord K} (p : K * V -> bool) (m : gmap K V) :
  NoDup (fst <$> List.filter p (btree_iter m)).
Proof. apply NoDup_fmap_filter, NoDup_btree_keys. Qed.

(** After an accepted fact of a current attempt, every relation at one of
    whose ends the attempt stands is up to date: its recorded state is the one
    the facts give, a violated or unknown relation is fenced, and a satisfied one
    has a proof for its current target attempt. *)
Theorem fact_refreshes_relations `{Serde} m id ctx node sequence status reason key r :
  reachable m -> screen_fact m id node sequence status = None ->
  executions m !! id = Some ctx ->
  active_executions m !! cmd_slot (ctx_command ctx) = Some id ->
  relations m !! key = Some r -> touches_slot (cmd_slot (ctx_command ctx)) r = true ->
  relation_current (observe_execution m id node sequence status reason).1 key r.
Proof.
  intros Hr Hs Ex Ea Er Ht. unfold observe_execution. rewrite Hs.
  set (m1 := record_fact m id node sequence status).
  assert (executions m1 = executions m /\ active_executions m1 = active_executions m /\
          relations m1 = relations m) as (X1 & X2 & X3).
  { unfold m1, record_fact, update_outbox. simpl. by case_match. }
  unfold reduce_fact. rewrite X1, X2, Ex. rewrite bool_decide_eq_true_2 by done.
  destruct (activate m1 id (ctx_command ctx) status) as [m2 ev1] eqn:Eact.
  assert (relations m2 = relations m) as Hrel.
  { rewrite <- X3. unfold activate in Eact. case_match; simplify_eq; done. }
  destruct (refresh_relations_for_slot m2 _) as [m3 ev2] eqn:Eref. simpl.
  unfold refresh_relations_for_slot in Eref.
  match type of Eref with refresh_keys _ ?l = _ =>
    pose proof (refresh_keys_current m2 l key r) as Hcur end.
  rewrite Eref, Hrel in Hcur. simpl in Hcur.
  apply Hcur; [apply NoDup_filter_keys|done| |left].
  - by apply (rw_relation _ (wf_relations _ (reachable_wf m Hr))).
  - apply list_elem_of_fmap. exists (key, r). split; [done|]. apply list_elem_of_In, filter_In.
    split; [by apply list_elem_of_In, elem_of_btree_iter|done].
Qed.

(** Recorded spatial evidence is always usable: in every reachable state the
    check of the current attempt and its owner discards nothing, because evidence
    of a replaced attempt is removed with it. *)
Theorem evidence_always_current `{Serde} m slot :
  reachable m -> current_spatial_evidence m slot = spatial_evidence m !! slot.
Proof.
  intros Hr. unfold current_spatial_evidence.
  destruct (spatial_evidence m !! slot) as [e|] eqn:E; [|done]. simpl.
  destruct (wf_evidence _ (reachable_wf m Hr) slot e E) as (_ & _ & Ha & Hn). rewrite Ha. simpl.
  by rewrite Hn, !bool_decide_eq_true_2.
Qed.

(** ** Registration *)

Lemma register_loop_fresh m g rels events :
  NoDup (rel_key <$> rels) -> (forall r, r ∈ rels -> relations m !! rel_key r = None) ->
  exists m' ev, register_loop m g rels events = (m', Ok ev) /\
    relations m' = collect_from rel_key id (relations m) rels.
Proof.
  revert m events. induction rels as [|r rels IH]; intros m events; simpl; [by eauto|].
  intros [Hr Hnd]%NoDup_cons Hn. rewrite (Hn r) by set_solver.
  edestruct (IH (set_relation_states (<[rel_key r := Dormant]> (relation_states m))
                   (set_relations (<[rel_key r := r]> (relations m)) m))) as (m' & ev & E & Er);
    [done| |exists m', ev; split; [exact E|exact Er]].
  intros x Hx. simpl. rewrite lookup_insert_ne; [apply Hn; set_solver|].
  intros E. apply Hr. rewrite E. apply list_elem_of_fmap. by exists x.
Qed.

(** Registering the relations of a plan and validating them agree: in a
    Group without relations, a plan with distinct relation identities registers
    without error and is then exactly what the Group's validation expects. *)
Theorem register_validate_roundtrip m g mission specs modes :
  NoDup (rs_relation_id <$> specs) ->
  (forall key, is_Some (relations m !! key) -> key.1 <> g) ->
  exists m' ev, register_relations_with_modes m g mission specs modes = (m', Ok ev) /\
    validate_relations_with_modes m' g mission specs modes = Ok tt.
Proof.
  intros Hnd Hg. set (rels := relation_of_spec g mission modes <$> specs).
  assert (rel_key <$> rels = (fun i => (g, i)) <$> (rs_relation_id <$> specs)) as Hk.
  { unfold rels. rewrite <- !list_fmap_compose. done. }
  assert (NoDup (rel_key <$> rels)) as Hnd' by (rewrite Hk; apply NoDup_fmap; [congruence|done]).
  assert (forall x, x ∈ rels -> relations m !! rel_key x = None) as Hfresh.
  { intros x Hx. apply eq_None_not_Some. intros Hs. apply (Hg _ Hs).
    assert (rel_key x ∈ rel_key <$> rels) as Hx' by (apply list_elem_of_fmap; eauto).
    rewrite Hk in Hx'.
    by apply list_elem_of_fmap in Hx' as (i & -> & _). }
  destruct (register_loop_fresh m g rels [] Hnd' Hfresh) as (m' & ev & E & Er).
  exists m', ev. split; [exact E|]. unfold validate_relations_with_modes.
  rewrite bool_decide_eq_true_2; [done|]. fold rels. rewrite Er.
  apply map_eq. intros key. apply option_eq. intros r.
  rewrite map_lookup_filter_Some, lookup_collect_from by done. simpl.
  change (foldl _ ∅ rels) with (collect_from (V := RuntimeExecutionRelation) rel_key id ∅ rels).
  rewrite lookup_collect_from; [|done|intros; apply lookup_empty]. rewrite lookup_empty. split.
  - intros [?|(x & Hx & Hkx & <-)]; [done|]. split; [right; by exists x|]. subst key.
    assert (rel_key x ∈ rel_key <$> rels) as Hx' by (apply list_elem_of_fmap; eauto).
    rewrite Hk in Hx'.
    by apply list_elem_of_fmap in Hx' as (i & -> & _).
  - intros [[E'|Hx] Hgk]; [|by right]. destruct (Hg key); [by eexists|done].
Qed.

(** ** The properties at a concrete run *)

Definition fx_relation : RuntimeExecutionRelation := relation_of_spec fx_group fx_mission ∅ fx_spec.

Lemma fact_refreshes_relations_witness :
  relation_current (observe_execution fx_satisfied "a1" fx_node1 2 Completed "").1
    fx_relation_key fx_relation.
Proof.
  apply (fact_refreshes_relations fx_satisfied "a1" (MkExecutionContext fx_group1 []) fx_node1 2
    Completed "" fx_relation_key fx_relation); [apply fx_satisfied_reachable|..];
    vm_compute; reflexivity.
Defined.

Definition fx_evidence : SharedSpatialEvidence :=
  MkSpatialEvidence fx_group fx_task fx_role1 "a1" fx_node1 (MkMapSelector "map" "rev1") "frame" 15.
Definition fx_located : RuntimeExecutionManager :=
  (observe_shared_spatial_evidence fx_satisfied fx_evidence).1.

Lemma evidence_always_current_witness :
  current_spatial_evidence fx_located (fx_group, fx_task, fx_role1) = Some fx_evidence.
Proof.
  assert (reachable fx_located) as Hr
    by (reach_step step_spatial; [apply fx_satisfied_reachable|reflexivity]).
  rewrite (evidence_always_current fx_located (fx_group, fx_task, fx_role1) Hr).
  vm_compute. reflexivity.
Defined.

Lemma register_validate_roundtrip_witness :
  exists m' ev, register_relations_with_modes fx_pair_dispatched fx_group fx_mission [fx_spec] ∅
                = (m', Ok ev) /\
    validate_relations_with_modes m' fx_group fx_mission [fx_spec] ∅ = Ok tt.
Proof.
  apply (register_validate_roundtrip fx_pair_dispatched fx_group fx_mission [fx_spec] ∅).
  - apply NoDup_singleton.
  - assert (relations fx_pair_dispatched = ∅) as -> by (vm_compute; reflexivity).
    intros key. rewrite lookup_empty. by intros [? ?].
Defined.

(** * Properties of coordination and peer channels *)

Open Scope string_scope.

(** Every peer acknowledged one channel instance with the declared profile and
    schema. *)
Definition peers_acknowledged (c : RuntimePeerChannel) : Prop :=
  NoDup (pc_peers c) /\
  exists channel_instance, forall peer, peer ∈ pc_peers c -> exists ack,
    ack ∈ pc_readiness c /\ pre_context_role_id ack = peer /\ pre_ready ack = true /\
    pre_channel_instance_id ack = channel_instance /\
    pre_profile_id ack = pcs_profile_id (pc_descriptor c) /\
    pre_message_schema ack = pcs_message_schema (pc_descriptor c).

Lemma ready_acknowledged contexts c :
  channel_shape contexts c = true -> ready_wf c -> pc_lifecycle c = Ready -> peers_acknowledged c.
Proof.
  intros Hv Hrd Hl. destruct (Hrd Hl) as [Hall Hone]. pose proof (channel_shape_wf _ _ Hv) as [_ Hent].
  unfold channel_shape in Hv. bool_facts.
  repeat match goal with
  | E : (_ <? _)%nat = false |- _ => apply Nat.ltb_ge in E
  | E : (_ =? _)%nat = true |- _ => apply Nat.eqb_eq in E
  end.
  split; [by apply distinct_count_NoDup|].
  destruct (pc_peers c) as [|p0 peers] eqn:Ep; [exists ""; intros peer []%not_elem_of_nil|].
  destruct (Hall p0) as (a0 & Ha0 & _ & Hr0); [left|].
  exists (pre_channel_instance_id a0). intros peer Hp.
  destruct (Hall peer Hp) as (ack & Ha & <- & Hr). exists ack.
  pose proof (Hent ack Ha) as Hev. unfold readiness_entry_valid in Hev. bool_facts.
  split_and!; try done; [by apply Hone|by apply String.eqb_eq..].
Qed.

(** A channel reported ready at a time is usable then: its peers are
    distinct and each acknowledged, for one channel instance and the
    declared profile and schema, with an acknowledgement that has not expired. *)
Theorem ready_channel_live `{Serde} m g now c :
  reachable m -> c ∈ peer_channels_at m g now -> pc_lifecycle c = Ready ->
  peers_acknowledged c /\
  (forall ack, ack ∈ pc_readiness c -> pre_ready ack = true -> (now < pre_expires_at ack)%N).
Proof.
  intros Hr Hc Hl. unfold peer_channels_at, group_peer_channels in Hc.
  apply list_elem_of_fmap in Hc as (c0 & -> & [Hc0 _]%list_elem_of_In%filter_In).
  apply list_elem_of_In, elem_of_btree_values in Hc0 as [key E].
  destruct (kw_channel _ (wf_coordination _ (reachable_wf m Hr)) key c0 E) as (_ & Hv & Hrd).
  unfold expire_channel in *. destruct (_ && _) eqn:Eg; [done|]. rewrite Hl in Eg. simpl in Eg.
  split; [by eapply ready_acknowledged|]. intros ack Ha Hready.
  apply not_true_iff_false in Eg. destruct (now <? pre_expires_at ack)%N eqn:Ex; bool_facts; [done|].
  exfalso. apply Eg, existsb_exists. exists ack. split; [by apply list_elem_of_In|].
  unfold ack_expired. rewrite Hready. simpl. by apply N.leb_le.
Qed.

(** A coupling mode is released only with its mechanisms: the context is
    registered, a mode that shares state has a shared view, one that relies on
    relations has a relation, and one that needs a direct channel has a channel
    of the context whose peers have all acknowledged one instance. *)
Theorem readiness_gate_sound `{Serde} m g x mode :
  reachable m -> coordination_readiness_for_mode m g x mode = Some CoordinationReady ->
  exists context, coordination_contexts m !! (g, x) = Some context /\
    rcc_group_id context = g /\ rcc_context_id context = x /\
    (mode_requires mode GroupSharedState = true -> exists v,
       rcc_shared_view context = Some v /\ GroupSharedViewSpec_validate v = Ok tt) /\
    (mode_requires mode RelationEvidence = true -> (0 < rcc_relation_count context)%N) /\
    (mode_requires mode DirectPeerChannel = true -> exists c,
       peer_channels m !! (g, x) = Some c /\ pc_group_id c = g /\ pc_context_id c = x /\
       pc_lifecycle c = Ready /\ peers_acknowledged c).
Proof.
  intros Hr. pose proof (wf_coordination _ (reachable_wf m Hr)) as [Hctx Hch].
  unfold coordination_readiness_for_mode.
  destruct (coordination_contexts m !! (g, x)) as [context|] eqn:Ec; simpl; [|done].
  destruct (_ && is_none _) eqn:E1; [done|]. destruct (_ && (_ =? _)%N) eqn:E2; [done|].
  destruct (_ && is_none_or _ _) eqn:E3; [done|]. intros _. exists context.
  destruct (Hctx _ _ Ec) as [Hk Hv]. injection Hk as Hg Hx. split_and!; try done.
  - intros Hm. rewrite Hm in E1. simpl in E1. destruct (rcc_shared_view context) as [v|] eqn:Ev; [|done].
    exists v. split; [done|]. by apply Hv.
  - intros Hm. rewrite Hm in E2. simpl in E2. bool_facts. lia.
  - intros Hm. rewrite Hm in E3. simpl in E3. destruct (peer_channels m !! (g, x)) as [c|] eqn:Ech; [|done].
    simpl in E3. bool_facts. destruct (Hch _ _ Ech) as (Hkc & Hval & Hrd). injection Hkc as ? ?.
    exists c. split_and!; try done. by eapply ready_acknowledged.
Qed.

(** Closing a Group is final: after it, on no later state of the runtime,
    restarts included, does a channel of the Group accept an acknowledgement or
    become ready, so no mode that needs a direct channel is released. *)
Theorem closed_group_stays_closed `{Serde} m g x c m' :
  reachable m -> peer_channels m !! (g, x) = Some c ->
  rtc any_step (close_peer_channels_for_group m g) m' ->
  (exists d, peer_channels m' !! (g, x) = Some d /\ pc_lifecycle d = Closed /\ pc_readiness d = []) /\
  (forall mode, mode_requires mode DirectPeerChannel = true ->
     coordination_readiness_for_mode m' g x mode <> Some CoordinationReady).
Proof.
  intros Hr Ec Hs.
  assert (reachable (close_peer_channels_for_group m g)) as Hr1
    by (eapply rtc_r; [exact Hr|]; eexists; apply step_close_group).
  destruct (steps_inv _ _ Hs (reachable_wf _ Hr1)) as [_ He].
  assert (exists d, peer_channels m' !! (g, x) = Some d /\ closed_silent d) as (d & Ed & Hcl & Hrd).
  { destruct (ex_channels _ _ He (g, x) (pc_set_readiness [] (pc_set_lifecycle Closed c)))
      as (d & Ed & (_ & _ & _ & _ & Hd)).
    - simpl. rewrite map_lookup_imap, Ec. simpl. by rewrite bool_decide_eq_true_2.
    - exists d. split; [done|]. by apply Hd. }
  split; [by exists d|]. intros mode Hm. unfold coordination_readiness_for_mode.
  destruct (coordination_contexts m' !! (g, x)); simpl; [|done].
  case_match; [done|]. case_match; [done|].
  rewrite Hm, Ed. simpl. rewrite Hcl. by rewrite bool_decide_eq_false_2.
Qed.

(** ** A channel closed alone can become ready again *)

(** [close_peer_channel] keeps the acknowledgements of the channel it closes, and
    a lost node fences every channel with an acknowledgement of its own, closed
    ones included: the channel is then open to new acknowledgements. *)
Definition fx_closed_alone : RuntimeExecutionManager :=
  (close_peer_channel fx_channel_ready fx_group fx_context_id).1.
Definition fx_reopened : RuntimeExecutionManager :=
  (observe_peer_channel_readiness (fence_peer_channels_for_node fx_closed_alone fx_node1)
     (fx_readiness (MkId "cr1") fx_node1 "s3" 1 30)).1.

(** Closing one channel is not final: in a reachable runtime a channel that
    was closed alone becomes ready again after the loss of one of its nodes and a
    new acknowledgement of that node. *)
Theorem closed_channel_reopens :
  reachable fx_closed_alone /\
  (pc_lifecycle <$> peer_channels fx_closed_alone !! fx_channel_key) = Some Closed /\
  rtc any_step fx_closed_alone fx_reopened /\
  (pc_lifecycle <$> peer_channels fx_reopened !! fx_channel_key) = Some Ready.
Proof.
  split; [|split; [vm_compute; reflexivity|split; [|vm_compute; reflexivity]]].
  - reach_step step_close_channel. apply fx_channel_ready_reachable.
  - eapply rtc_l; [eexists; apply (step_fence_node fx_closed_alone fx_node1)|].
    apply rtc_once. eexists. eapply step_readiness; [|apply surjective_pairing].
    by apply fx_readiness_ok.
Qed.

(** ** A context whose channel cannot be restored *)

(** A context that the constructor accepts and the runtime registers can
    make the runtime's checkpoint unrestorable: one with a channel and one role. *)
Theorem lone_channel_unrestorable :
  CoordinationContext_new_with_coordination fx_context_id (cc_roles fx_lone_context) [] Independent
    None (cc_peer_channel fx_lone_context) = Ok fx_lone_context /\
  (register_coordination_context manager_new fx_group fx_lone_context).2 = Ok tt /\
  restore (checkpoint fx_lone_registered)
    = Some (Err (InvalidCheckpoint "checkpoint contains duplicate or orphan peer channel")).
Proof. split_and!; vm_compute; reflexivity. Qed.

(** ** The properties at a concrete run *)

Definition fx_channel : RuntimePeerChannel :=
  MkPeerChannel fx_group fx_context_id [MkId "cr1"; MkId "cr2"] (MkPeerChannelSpec "p1" "s1") Ready
    [fx_readiness (MkId "cr1") fx_node1 "s1" 1 10; fx_readiness (MkId "cr2") fx_node2 "s2" 1 20].

Lemma ready_channel_live_witness : peers_acknowledged fx_channel.
Proof.
  assert (peer_channels_at fx_channel_ready fx_group 500 = [fx_channel]) as E
    by (vm_compute; reflexivity).
  refine (proj1 (ready_channel_live fx_channel_ready fx_group 500 fx_channel
    fx_channel_ready_reachable _ eq_refl)).
  rewrite E. left.
Defined.

Lemma readiness_gate_sound_witness :
  exists context, coordination_contexts fx_channel_ready !! fx_channel_key = Some context /\
    rcc_group_id context = fx_group.
Proof.
  destruct (readiness_gate_sound fx_channel_ready fx_group fx_context_id TightlyCoupledCooperation
    fx_channel_ready_reachable) as (context & H1 & H2 & _); [vm_compute; reflexivity|].
  exists context. split; [exact H1|exact H2].
Defined.

Lemma closed_group_stays_closed_witness :
  coordination_readiness_for_mode (close_peer_channels_for_group fx_channel_ready fx_group)
    fx_group fx_context_id TightlyCoupledCooperation <> Some CoordinationReady.
Proof.
  refine (proj2 (closed_group_stays_closed fx_channel_ready fx_group fx_context_id fx_channel
    (close_peer_channels_for_group fx_channel_ready fx_group) fx_channel_ready_reachable _ _)
    TightlyCoupledCooperation eq_refl).
  - vm_compute. reflexivity.
  - apply rtc_refl.
Defined.
