(* ===== verification/PropsDispatch.v ===== *)
(** * Properties of dispatch, facts and Task results *)

From S2P Require Import Prelude Identity Execution Session StateModel RelationSpec RuntimeState Relation.
From S2P Require Import Coordination Attempts GroupRecovery RecoveryStop Dispatch Checkpoint.
From S2P Require Import Invariant InvRecovery InvGroups InvAttempts.
From S2P Require Import InvRestore Lifecycle Fixture.

Open Scope string_scope.

(** ** Attempt identities *)

(** The allocation loop always returns: either the least unused identity of
    a generation above the slot's counter, recorded as the new counter, or an
    error without effect when every remaining generation is in use. *)
Theorem allocate_attempt_id_total m g t r :
  exists m' res, allocate_attempt_id m g t r = Some (m', res) /\
  let slot := (g, t, r) in
  let current := default 0%N (attempt_generations m !! slot) in
  match res with
  | Ok id => exists n, (current < n <= u64_max)%N /\ id = attempt_id g t r n /\
      ~ id_taken m id /\
      m' = set_attempt_generations (<[slot := n]> (attempt_generations m)) m /\
      (forall k, (current < k < n)%N -> id_taken m (attempt_id g t r k))
  | Err e => m' = m /\
      e = ReconciliationRequired "physical attempt generation is exhausted" /\
      (forall k, (current < k <= u64_max)%N -> id_taken m (attempt_id g t r k))
  end.
Proof.
  unfold allocate_attempt_id. set (slot := (g, t, r)).
  set (current := default 0%N (attempt_generations m !! slot)).
  destruct (allocate_loop_returns m slot current) as [[m' res] E].
  exists m', res. split; [exact E|].
  pose proof (allocate_loop_spec m slot (allocate_fuel m) current) as Hs. rewrite E in Hs.
  destruct res; exact Hs.
Qed.

(** Two attempt identities are equal only for the same Group, Task, Role and
    generation, whatever characters the identifiers contain. *)
Theorem attempt_ids_identify g t r n g' t' r' n' :
  attempt_id g t r n = attempt_id g' t' r' n' <->
  g = g' /\ tr_task_id t = tr_task_id t' /\ r = r' /\ n = n'.
Proof.
  split; [apply attempt_id_injective|]. intros (-> & E & -> & ->). unfold attempt_id. by rewrite E.
Qed.

(** ** Dispatch *)

(** Preparing the same Execute twice is idempotent: the second call reports
    it as routed and changes nothing, however the resources are ordered or
    repeated. *)
Theorem dispatch_idempotent m id c rs m1 rs' :
  prepare_dispatch m id c rs = (m1, Ok Route) -> intent_finite (cmd_intent c) ->
  (forall r, r ∈ rs' <-> r ∈ rs) ->
  prepare_dispatch m1 id c rs' = (m1, Ok AlreadyRouted).
Proof.
  unfold prepare_dispatch. intros E Hf Hr.
  destruct (validate_dispatch m id c rs) as [[]|] eqn:Ev; simplify_eq.
  apply validate_dispatch_Route in Ev as (Hm & Hres & _ & _).
  assert (validate_dispatch (install_dispatch m id c (normalized_resources rs)) id c rs'
          = Ok AlreadyRouted) as ->; [|done].
  rewrite install_dispatch_state. unfold validate_dispatch. rewrite Hm. simpl.
  unfold set_contains. rewrite bool_decide_eq_false_2 by done.
  rewrite lookup_insert_eq. unfold contains_key. rewrite !lookup_insert_eq. simpl.
  rewrite ExecutionCommand_eqb_refl by done. rewrite (normalized_resources_ext rs' rs) by done.
  by rewrite bool_decide_eq_true_2.
Qed.

(** An identity in use is never rebound: preparing it again leaves the
    runtime unchanged, and is accepted exactly when it may be routed and its
    command and resource set are the recorded ones. *)
Theorem dispatch_identity_immutable m id ctx c rs :
  executions m !! id = Some ctx ->
  (prepare_dispatch m id c rs).1 = m /\
  ((prepare_dispatch m id c rs).2 = Ok AlreadyRouted <->
   recovery_support_mismatch c = false /\ (id ∉ restored_executions m) /\
   ExecutionCommand_eqb (ctx_command ctx) c = true /\
   ctx_resource_ids ctx = normalized_resources rs).
Proof.
  intros Ex. unfold prepare_dispatch, validate_dispatch. rewrite Ex.
  rewrite (contains_key_Some id (executions m)) by (by rewrite Ex). rewrite andb_false_r.
  destruct (recovery_support_mismatch c); [split; [done|split; [done|naive_solver]]|].
  unfold set_contains. case_bool_decide; [split; [done|split; [done|naive_solver]]|].
  destruct (ExecutionCommand_eqb (ctx_command ctx) c); simpl;
    [|split; [done|split; [done|naive_solver]]].
  case_bool_decide; simpl; (split; [done|]); split; try done; naive_solver.
Qed.

(** The committed resources of an attempt have one canonical form: two
    lists normalize alike exactly when they name the same resources, and the form
    is strictly increasing. *)
Theorem resources_canonical l1 l2 :
  (normalized_resources l1 = normalized_resources l2 <-> (forall r, r ∈ l1 <-> r ∈ l2)) /\
  StronglySorted (fun x y => cmp x y = Lt) (normalized_resources l1) /\
  (forall r, r ∈ normalized_resources l1 <-> r ∈ l1).
Proof.
  split_and!; [split; [|apply normalized_resources_ext]|apply normalized_resources_sorted|].
  - intros E r. by rewrite <- (elem_of_normalized_resources r l1), E, elem_of_normalized_resources.
  - intros r. apply elem_of_normalized_resources.
Qed.

(** The Execute intents to deliver are exactly those without delivery
    evidence whose attempt is still [Dispatched] and not cancelled, and each
    carries the immutable inputs of its attempt. *)
Theorem pending_dispatch_exact `{Serde} m i :
  reachable m ->
  i ∈ pending_dispatch_intents m <->
  dispatch_outbox m !! di_execution_id i = Some i /\ di_delivered i = false /\
  (di_execution_id i ∉ cancellation_intents m) /\
  status_of m (di_execution_id i) = Some Dispatched /\
  executions m !! di_execution_id i
    = Some (MkExecutionContext (di_command i) (di_resource_ids i)).
Proof.
  intros Hr. pose proof (wf_attempts _ (reachable_wf m Hr)) as Ha.
  unfold pending_dispatch_intents, dispatch_pending. split.
  - intros [Hi Hb]%list_elem_of_In%filter_In. apply list_elem_of_In, elem_of_btree_values in Hi as [k E].
    destruct (aw_outbox _ Ha k i E) as (Hk & _ & Ex). subst k. bool_facts. by split_and!.
  - intros (E & Hd & Hc & Hs & _). apply list_elem_of_In, filter_In. split.
    + apply list_elem_of_In, elem_of_btree_values. by eexists.
    + unfold set_contains. by rewrite Hd, bool_decide_eq_false_2, bool_decide_eq_true_2.
Qed.

(** ** Receipts *)

Lemma reject_receipt_status m id owner reason m' r :
  reject_receipt m id owner reason = (m', r) ->
  execution_status m' = <[id := Unknown]> (execution_status m) /\ executions m' = executions m /\
  dispatch_outbox m' = dispatch_outbox m.
Proof.
  unfold reject_receipt. intros E.
  repeat case_match; simplify_eq; try done.
  match goal with Er : refresh_relations_for_slot _ _ = _ |- _ =>
    unfold refresh_relations_for_slot in Er;
    match type of Er with refresh_keys ?n ?l = _ =>
      destruct (refresh_keys_refreshed n l) as (s & f & p & Ek & _); rewrite Er in Ek end end.
  simpl in *. by rewrite Ek.
Qed.

(** A command receipt is no outcome of physical work: it changes no
    context, and at most turns the named live attempt into [Unknown]. *)
Theorem receipts_prove_no_outcome m id cid node persisted reason m' r :
  observe_dispatch_receipt m id cid node persisted reason = (m', r) \/
  observe_cancellation_receipt m id cid node persisted reason = (m', r) ->
  executions m' = executions m /\
  forall k, status_of m' k = status_of m k \/
            (k = id /\ status_of m' k = Some Unknown /\ has_terminal_status m k = false /\
             persisted = false).
Proof.
  intros HE.
  assert ((executions m' = executions m /\ execution_status m' = execution_status m) \/
          (exists owner, reject_receipt m id owner reason = (m', r) /\
             has_terminal_status m id = false /\ persisted = false)) as [[-> Es]|(owner & E & Ht & Hp)].
  { destruct HE as [E|E].
    - unfold observe_dispatch_receipt, mark_dispatch_delivered, update_outbox in E.
      repeat case_match; simplify_eq; eauto 10.
    - unfold observe_cancellation_receipt in E.
      repeat case_match; simplify_eq; bool_facts; eauto 10. }
  - split; [done|]. intros k. left. unfold status_of. by rewrite Es.
  - apply reject_receipt_status in E as (Es & Ex & _). split; [done|]. intros k.
    unfold status_of. rewrite Es, lookup_insert. case_decide as Hk; [subst k; right|by left].
    by split_and!.
Qed.

(** The cancellations to deliver are exactly the requested ones without a
    terminal fact, to the node of the attempt; a stop requested for recovery is
    sent only to an attempt that declared an isolated retry. *)
Theorem pending_cancellations_exact m id node :
  (id, node) ∈ pending_cancellations m <->
  id ∈ cancellation_intents m /\ has_terminal_status m id = false /\
  (exists ctx, executions m !! id = Some ctx /\ cmd_node_id (ctx_command ctx) = node /\
     ((forall i, recovery_stops m !! id = Some i -> rsi_aborted i = true) \/
      declares_role_retry (ctx_command ctx) = true)).
Proof.
  assert (cancellation_deliverable m id = true <->
    (forall i, recovery_stops m !! id = Some i -> rsi_aborted i = true) \/
    exists ctx, executions m !! id = Some ctx /\ declares_role_retry (ctx_command ctx) = true) as Hd.
  { unfold cancellation_deliverable.
    rewrite orb_true_iff, negb_true_iff, is_some_and_false, is_some_and_true.
    setoid_rewrite negb_false_iff. done. }
  unfold pending_cancellations, cancellation_node. rewrite list_elem_of_omap. split.
  - intros (k & Hk & E). apply list_elem_of_In, filter_In in Hk as [[Hk Ht]%filter_In Hc].
    apply list_elem_of_In, elem_of_bset_iter in Hk. bool_facts.
    destruct (executions m !! k) as [ctx|] eqn:Ex; simplify_eq/=.
    split_and!; [done..|]. exists ctx. split_and!; [done..|]. apply Hd in Hc. rewrite Ex in Hc.
    naive_solver.
  - intros (Hk & Ht & ctx & Ex & <- & Hc). exists id. rewrite Ex. split; [|done].
    apply list_elem_of_In, filter_In. split; [apply filter_In; split|].
    + by apply list_elem_of_In, elem_of_bset_iter.
    + by rewrite Ht.
    + apply Hd. destruct Hc; [by left|right; by exists ctx].
Qed.

(** An ordinary cancellation outlives restarts and disables the recovery of
    its attempt: the request is never forgotten, a stop authorized before it never
    makes the attempt ready for replacement again, and every Group round that
    names the attempt stays aborted. *)
Theorem cancellation_aborts_recovery `{Serde} m id m1 m2 :
  reachable m -> request_cancellation m id = (m1, Ok tt) -> rtc any_step m1 m2 ->
  id ∈ cancellation_intents m2 /\
  (forall command now, is_Some (recovery_stops m !! id) ->
     current_attempt_of m2 command = Some id -> recovery_stop_ready m2 command now = false) /\
  (forall k i, group_recoveries m !! k = Some i -> has_member id i || has_replacement id i = true ->
     exists j, group_recoveries m2 !! k = Some j /\ gri_aborted j = true).
Proof.
  intros Hr E Hs.
  assert (reachable m1) as Hr1 by (eapply rtc_r; [exact Hr|]; eexists; by eapply step_cancel).
  destruct (steps_inv _ _ Hs (reachable_wf _ Hr1)) as [_ He].
  unfold request_cancellation in E. destruct (negb _); [done|]. injection E as <-. split_and!.
  - apply (ex_cancel _ _ He). simpl. set_solver.
  - intros command now [i Ei] Hc. unfold recovery_stop_ready. rewrite Hc. simpl.
    destruct (ex_stops _ _ He id (rsi_set_aborted i)) as (j & Ej & Hj).
    { simpl. rewrite Ei. simpl. by rewrite lookup_insert_eq. }
    unfold stop_extends in Hj. destruct_and!. rewrite Ej. simpl.
    assert (rsi_aborted j = true) as -> by auto. done.
  - intros k i Ei Hm. destruct (ex_rounds _ _ He k (gri_set_aborted i)) as (j & Ej & Hj).
    { simpl. destruct (recovery_stops m !! id); simpl; by rewrite list_lookup_fmap, Ei; simpl; rewrite Hm. }
    exists j. split; [done|]. unfold round_extends in Hj. destruct_and!. auto.
Qed.

(** ** Facts *)

(** Reducing a recorded fact leaves the attempt maps as they are. *)
Lemma reduce_fact_frame m id node status reason m' ev :
  reduce_fact m id node status reason = (m', ev) ->
  execution_sequences m' = execution_sequences m /\ execution_nodes m' = execution_nodes m /\
  execution_status m' = execution_status m /\ executions m' = executions m /\
  active_executions m' = active_executions m /\ relations m' = relations m.
Proof.
  unfold reduce_fact. destruct (executions m !! id) as [ctx|]; [|by intros [= <- <-]].
  case_bool_decide; [|by intros [= <- <-]].
  destruct (activate _ _ _ _) as [m1 ev1] eqn:Ea.
  destruct (refresh_relations_for_slot m1 _) as [m2 ev2] eqn:Er. intros [= <- <-].
  unfold refresh_relations_for_slot in Er.
  match type of Er with refresh_keys ?n ?l = _ =>
    destruct (refresh_keys_refreshed n l) as (s & f & p & Ek & _) end.
  rewrite Er in Ek. simpl in Ek. rewrite Ek. simpl.
  unfold activate in Ea. case_match; simplify_eq; done.
Qed.

(** Facts are idempotent and ordered: once a fact of a node is accepted,
    every fact of that node with the same or an older sequence is ignored,
    whatever it reports. *)
Theorem fact_replay_ignored m id node sequence status reason sequence' status' reason' :
  screen_fact m id node sequence status = None -> (sequence' <= sequence)%N ->
  let m1 := (observe_execution m id node sequence status reason).1 in
  observe_execution m1 id node sequence' status' reason' = (m1, Ok []).
Proof.
  intros Hs Hle. cbv zeta. destruct (screen_fact_None _ _ _ _ _ Hs) as (Hn & _ & _).
  destruct (observe_execution m id node sequence status reason) as [m1 r] eqn:E. simpl.
  unfold observe_execution in E. rewrite Hs in E.
  destruct (reduce_fact _ _ _ _ _) as [m2 ev] eqn:Er. injection E as <- <-.
  apply reduce_fact_frame in Er as (Eq & En & _).
  assert (execution_sequences m2 !! id = Some sequence /\ execution_nodes m2 !! id = Some node)
    as [Eq' En'].
  { rewrite Eq, En. unfold record_fact, update_outbox. simpl.
    destruct (dispatch_outbox m !! id); simpl; rewrite lookup_insert_eq, lookup_or_insert,
      decide_True by done; (split; [done|]);
      destruct (execution_nodes m !! id) as [o|] eqn:Eo; simpl; [by rewrite (Hn o)|done
        |by rewrite (Hn o)|done]. }
  unfold observe_execution, screen_fact. rewrite Eq', En'. simpl.
  rewrite bool_decide_eq_true_2 by done. simpl. by rewrite (proj2 (N.leb_le _ _) Hle).
Qed.

(** A terminal attempt is final: no fact changes any part of the runtime,
    and a newer fact of the owner that reports another status is refused as a
    terminal conflict. *)
Theorem terminal_fact_refused m id s node sequence status reason :
  status_of m id = Some s -> is_terminal s = true ->
  (observe_execution m id node sequence status reason).1 = m /\
  (execution_nodes m !! id = Some node ->
   (forall n, execution_sequences m !! id = Some n -> (n < sequence)%N) ->
   (observe_execution m id node sequence status reason).2 =
     if bool_decide (s = status) then Ok []
     else Err (TerminalConflict "terminal execution status is immutable")).
Proof.
  intros Es Ht. unfold status_of in Es. unfold observe_execution. split.
  - destruct (screen_fact m id node sequence status) as [[]|] eqn:Hs; try done.
    apply screen_fact_None in Hs as (_ & _ & Hx). specialize (Hx s Es). congruence.
  - intros En Hq. unfold screen_fact. rewrite En, Es, Ht. simpl.
    rewrite (bool_decide_eq_true_2 (node = node)) by done. simpl.
    assert (is_some_and (fun current => (sequence <=? current)%N) (execution_sequences m !! id)
            = false) as ->.
    { apply is_some_and_false. intros n Eq. apply N.leb_gt. by apply Hq. }
    by case_bool_decide.
Qed.

(** ** Unavailable nodes *)

Lemma lose_attempts_events node reason m ids id :
  id ∈ ids -> exists context,
    RecoveryRequired id node context reason ∈ (lose_attempts node reason m ids).2.
Proof.
  revert m. induction ids as [|x ids IH]; intros m; simpl; [set_solver|].
  intros [->|Hid]%elem_of_cons.
  - unfold lose_attempt. destruct (ctx_command <$> _) as [c|] eqn:Ec.
    + destruct (refresh_relations_for_slot _ _) as [m2 ev2]. destruct (lose_attempts _ _ _ _) as [m3 ev3].
      eexists. simpl. by left.
    + destruct (lose_attempts _ _ _ _) as [m3 ev3]. eexists. simpl. by left.
  - destruct (lose_attempt node reason m x) as [m1 ev1]. destruct (IH m1 Hid) as [c Hc].
    destruct (lose_attempts node reason m1 ids) as [m2 ev2]. exists c. simpl in *.
    apply elem_of_app. by right.
Qed.

(** A lost node turns exactly the live current attempts it owns into
    [Unknown], and requests recovery for each; every other status is kept. *)
Theorem node_loss_exact m node reason id :
  let lost := (exists slot, active_executions m !! slot = Some id) /\
              execution_nodes m !! id = Some node /\
              exists s, status_of m id = Some s /\ is_terminal s = false /\ s <> Unknown in
  let '(m', events) := observe_node_unavailable m node reason in
  (lost -> status_of m' id = Some Unknown /\
           exists context, RecoveryRequired id node context reason ∈ events) /\
  (~ lost -> status_of m' id = status_of m id).
Proof.
  unfold observe_node_unavailable, status_of. cbv zeta.
  pose proof (elem_of_lost_attempts m node id) as Hiff.
  pose proof (lose_attempts_status node reason m (lost_attempts m node) id) as Hst.
  pose proof (lose_attempts_events node reason m (lost_attempts m node) id) as Hev.
  destruct (lose_attempts node reason m (lost_attempts m node)) as [m' events]. simpl in *.
  rewrite Hst, <- Hiff. split; intros Hl.
  - rewrite decide_True by done. auto.
  - by rewrite decide_False.
Qed.

(** ** The properties at a concrete run *)

Lemma dispatch_idempotent_witness :
  prepare_dispatch fx_dispatched "a1" fx_retry [MkId "arm"; MkId "gpu"]
  = (fx_dispatched, Ok AlreadyRouted).
Proof.
  apply (dispatch_idempotent manager_new "a1" fx_retry fx_resources fx_dispatched).
  - unfold fx_dispatched. vm_compute. reflexivity.
  - apply fx_command_ok.
  - intros r. unfold fx_resources. set_solver.
Defined.

Lemma dispatch_identity_immutable_witness :
  (prepare_dispatch fx_dispatched "a1" fx_group1 []).1 = fx_dispatched.
Proof.
  refine (proj1 (dispatch_identity_immutable fx_dispatched "a1"
    (MkExecutionContext fx_retry (normalized_resources fx_resources)) fx_group1 [] _)).
  vm_compute. reflexivity.
Defined.

Definition fx_outbox_entry : DispatchIntent :=
  default (MkDispatchIntent "" fx_retry [] 0 false) (dispatch_outbox fx_dispatched !! "a1").

Lemma pending_dispatch_exact_witness : fx_outbox_entry ∈ pending_dispatch_intents fx_dispatched.
Proof.
  apply (pending_dispatch_exact fx_dispatched fx_outbox_entry fx_dispatched_reachable).
  split; [vm_compute; reflexivity|]. split; [vm_compute; reflexivity|].
  split; [|split; vm_compute; reflexivity].
  change (di_execution_id fx_outbox_entry) with "a1". refine (bool_decide_unpack _ _).
  vm_compute. exact I.
Defined.

Lemma receipts_prove_no_outcome_witness :
  let m' := (observe_dispatch_receipt fx_dispatched "a1" "c1" fx_node1 false "full").1 in
  executions m' = executions fx_dispatched.
Proof.
  refine (proj1 (receipts_prove_no_outcome fx_dispatched "a1" "c1" fx_node1 false "full" _ _
    (or_introl (surjective_pairing _)))).
Defined.

Lemma cancellation_aborts_recovery_witness :
  let m1 := (request_cancellation fx_stopping "a1").1 in
  recovery_stop_ready m1 fx_retry 150 = false.
Proof.
  refine (proj1 (proj2 (cancellation_aborts_recovery fx_stopping "a1" _ _ fx_stopping_reachable
    _ (rtc_refl any_step _))) fx_retry 150%N _ _).
  - vm_compute. reflexivity.
  - exists (MkRecoveryStop "a1" 100 1100 1000 2 None false false). vm_compute. reflexivity.
  - vm_compute. reflexivity.
Defined.

Lemma fact_replay_ignored_witness :
  let m1 := (observe_execution fx_dispatched "a1" fx_node1 3 Running "").1 in
  observe_execution m1 "a1" fx_node1 2 Completed "late" = (m1, Ok []).
Proof.
  apply (fact_replay_ignored fx_dispatched "a1" fx_node1 3 Running "" 2 Completed "late").
  - vm_compute. reflexivity.
  - lia.
Defined.

Lemma terminal_fact_refused_witness :
  (observe_execution fx_cancelled "a1" fx_node1 9 Completed "").1 = fx_cancelled /\
  (observe_execution fx_cancelled "a1" fx_node1 9 Completed "").2 =
    Err (TerminalConflict "terminal execution status is immutable").
Proof.
  destruct (terminal_fact_refused fx_cancelled "a1" Cancelled fx_node1 9 Completed "") as [H1 H2];
    [vm_compute; reflexivity..|].
  split; [exact H1|]. refine (H2 _ _); [vm_compute; reflexivity|].
  intros n E. vm_compute in E. by injection E as <-.
Defined.

(** * Properties of the domain values *)

Open Scope string_scope.

(** A session accepted for a slot is a valid execution plan of its Mission
    and Group: it names the slot, no slot twice, every dependency is a Task of the
    session, and the Tasks can be ranked so that each comes after its
    dependencies. *)
Theorem session_acyclic `{Serde} s mission g t r :
  validate_slot s mission g t r = Ok tt ->
  esd_mission_id s = mission /\ esd_group_id s = g /\ canonical_digest s = Ok (esd_digest s) /\
  (exists slot, slot ∈ esd_slots s /\ ess_task_id slot = t /\ ess_role_id slot = r) /\
  NoDup ((fun slot => (ess_task_id slot, ess_role_id slot)) <$> esd_slots s) /\
  exists rank : TaskId -> nat, forall slot d,
    slot ∈ esd_slots s -> d ∈ ess_dependencies slot ->
    d ∈ ess_task_id <$> esd_slots s /\ rank d < rank (ess_task_id slot).
Proof.
  unfold validate_slot. destruct (negb _ || negb _ || negb _) eqn:E1; [done|].
  destruct (canonical_digest s) as [digest|] eqn:Ed; [|done].
  destruct (_ || negb (existsb _ _)) eqn:E2; [done|]. bool_facts.
  intros Hc%check_acyclic_ok%initial_remaining_ranked.
  match goal with Hx : existsb _ _ = true |- _ => apply existsb_exists in Hx as (slot & Hs & Hb) end.
  bool_facts. split_and!; try done.
  - f_equal. symmetry. by apply String.eqb_eq.
  - exists slot. by split; [apply list_elem_of_In|].
  - by apply strictly_increasing_NoDup.
  - destruct Hc as [rank Hr]. exists rank. intros x d Hx Hd. apply Hr. by exists x.
Qed.

(** The text of a capability contract identifies it: two valid contracts
    that print alike are equal. *)
Theorem contract_text_identifies ns nm v c ns' nm' v' c' :
  CapabilityContractRef_new ns nm v = Ok c -> CapabilityContractRef_new ns' nm' v' = Ok c' ->
  CapabilityContractRef_to_string c = CapabilityContractRef_to_string c' <->
  (ns = ns' /\ nm = nm' /\ v = v').
Proof.
  intros E E'. pose proof (CapabilityContractRef_new_Ok _ _ _ _ E) as (-> & _).
  pose proof (CapabilityContractRef_new_Ok _ _ _ _ E') as (-> & _). split.
  - intros Hs. pose proof (contract_to_string_inj _ _ _ _ _ _ _ _ E E' Hs) as Hc.
    by injection Hc as -> -> ->.
  - by intros (-> & -> & ->).
Qed.

(** A Task timing is accepted exactly when it is feasible: the start window
    is not empty, a given duration is positive and does not overflow, and a
    deadline comes with a duration that a start at the earliest offset meets. *)
Theorem task_timing_exact e l dl d :
  TaskTiming_new e l dl d = Ok (MkTaskTiming e l dl d) <-> timing_feasible (MkTaskTiming e l dl d).
Proof.
  unfold TaskTiming_new, timing_feasible, u64_checked_add; simpl.
  destruct l as [l|], d as [d|], dl as [dl|]; simpl;
    repeat case_bool_decide; repeat (case_match; bool_facts; simpl in *); simplify_eq;
    (split; [intros Ht; simplify_eq | intros (Hl & Hd & Hdl)]);
    try reflexivity;
    repeat match goal with
    | H : forall x, Some ?y = Some x -> _ |- _ => specialize (H y eq_refl)
    | H : exists _, _ |- _ => destruct H
    | H : _ /\ _ |- _ => destruct H
    end; simplify_eq; try lia;
    (split_and!; intros; simplify_eq; try lia);
    first [eexists; split; [reflexivity|lia] | idtac].
  all: match goal with H : Some ?x <> Some 0%N |- _ =>
         assert (x <> 0)%N by congruence; lia end.
Qed.

(** ** The properties at concrete values *)

Lemma session_acyclic_witness : esd_mission_id fx_session = fx_mission.
Proof.
  refine (proj1 (session_acyclic fx_session fx_mission fx_group fx_task_id fx_role1 _)).
  vm_compute. reflexivity.
Defined.

Lemma contract_text_identifies_witness :
  CapabilityContractRef_to_string (MkContract "robot.nav" "go" "v1")
    = CapabilityContractRef_to_string (MkContract "robot.nav" "go" "v1") <->
  ("robot.nav" = "robot.nav" /\ "go" = "go" /\ "v1" = "v1").
Proof.
  apply (contract_text_identifies "robot.nav" "go" "v1" (MkContract "robot.nav" "go" "v1")
    "robot.nav" "go" "v1" (MkContract "robot.nav" "go" "v1")); vm_compute; reflexivity.
Defined.
