(* ===== verification/PropsScheduler.v ===== *)
(** * Properties of the joint scheduler

    The capacity sweep, the joint search and the schedule of a Task, at a deployment of
    two Nodes. *)

From S2P Require Import Prelude Identity Execution StateModel Resource DecisionPolicy.
From S2P Require Import Scheduler SchedulerPolicy CapacityFacts SchedulerFacts BookingFacts.
From S2P Require Import ScheduleFacts.

Open Scope string_scope.

(** ** A deployment *)

(** Node 1 has an arm and a GPU pool, Node 2 a GPU pool. *)
#[export] Instance fs_reader : SharedNodeStateReader (gmap NodeId (list Resource)) :=
  fun s node => s !! node.

Definition fs_node1 : NodeId := MkId "n1".
Definition fs_node2 : NodeId := MkId "n2".
Definition fs_arm : Resource := MkResource (MkId "arm") Time 1 Exclusive None.
Definition fs_pool : Resource := MkResource (MkId "gpu1") Compute 8 Divisible (Some "gpu").
Definition fs_pool2 : Resource := MkResource (MkId "gpu2") Compute 2 Divisible (Some "gpu").
Definition fs_state : gmap NodeId (list Resource) :=
  {[fs_node1 := [fs_arm; fs_pool]; fs_node2 := [fs_pool2]]}.

Definition fs_task : TaskRef := MkTaskRef (MkId "m1") (MkId "t1").
Definition fs_role1 : RoleRequirement :=
  MkRoleRequirement (MkId "r1") None None None [] None
    [MkResourceRequirement Time 1 Exclusive None; MkResourceRequirement Compute 3 Divisible (Some "gpu")] [].
Definition fs_role2 : RoleRequirement :=
  MkRoleRequirement (MkId "r2") None None None [] None
    [MkResourceRequirement Compute 3 Divisible (Some "gpu")] [].
Definition fs_requirement : TaskRequirement :=
  MkTaskRequirement fs_task [fs_role1; fs_role2] (MkTaskTiming 0 (Some 100%N) (Some 200%N) (Some 10%N)).
Definition fs_candidates : CandidateSet :=
  MkCandidateSet fs_task
    [MkRoleCandidates (MkId "r1") [fs_node1]; MkRoleCandidates (MkId "r2") [fs_node2; fs_node1]]
    ∅ {[(MkId "r1" : RoleId) := (MkId "a1" : ActorId); (MkId "r2" : RoleId) := (MkId "a2" : ActorId)]}
    [] {[fs_node1 := (MkId "e1" : PhysicalEntityId); fs_node2 := (MkId "e2" : PhysicalEntityId)]} None.
(** The arm is taken until 50, one GPU unit until 500. *)
Definition fs_snapshot : SchedulingSnapshot :=
  SchedulingSnapshot_new 7
    [SchedulingOccupancy_new (MkId "arm") 0 (Some 50%N);
     quantitative (MkId "gpu1") 0 (Some 500%N) 1 None].
Definition fs_context : TaskSchedulingContext := MkSchedulingContext 0 20 None.

Definition fs_outcome : TaskSchedulingOutcome :=
  match schedule_task_with_snapshot_and_estimate DEFAULT_SEARCH_EXPANSIONS fs_state fs_requirement
          fs_candidates fs_snapshot fs_context with
  | Ok outcome => outcome
  | Err _ => Deferred
  end.
Definition fs_decision : TaskSchedulingDecision :=
  match fs_outcome with
  | SelectedNow d | SelectedFuture d => d
  | _ => MkDecision fs_task [] 0 None None 0 0 None [] []
  end.

Lemma fs_scheduled :
  schedule_task_with_snapshot_and_estimate DEFAULT_SEARCH_EXPANSIONS fs_state fs_requirement
    fs_candidates fs_snapshot fs_context = Ok (SelectedFuture fs_decision).
Proof. vm_compute. reflexivity. Qed.

Lemma fs_plain : plain_snapshot fs_requirement fs_snapshot.
Proof.
  split; [intros role _; apply lookup_empty|].
  intros o Ho. unfold fs_snapshot, SchedulingSnapshot_new in Ho. simpl in Ho.
  rewrite !elem_of_cons in Ho.
  destruct Ho as [->|[->|Ho]]; [..|by apply not_elem_of_nil in Ho]; intros e [= <-]; simpl; lia.
Qed.

(** ** The sweep *)

(** The capacity sweep answers that a demand fits exactly when the interval is not
    empty and, at every instant of it, no occupancy takes the whole resource and the
    units in use leave room for the demanded ones. *)
Theorem interval_available_exact (occupancies : list SchedulingOccupancy) (start : TimestampMs)
    (end_ : option TimestampMs) (units capacity : N)
    (Hok : forall o, o ∈ occupancies -> occupancy_ok o) :
  interval_available occupancies start end_ units capacity = true <->
  (forall e, end_ = Some e -> (start < e)%N) /\
  (forall t, within start end_ t = true ->
     shareable occupancies t /\ (load occupancies t + units <= capacity)%N).
Proof. by apply interval_available_pointwise. Qed.

Lemma interval_available_exact_witness :
  interval_available (ss_occupancies fs_snapshot) 50 (Some 60%N) 7 8 = true.
Proof.
  apply (interval_available_exact (ss_occupancies fs_snapshot) 50 (Some 60%N) 7 8).
  - apply fs_plain.
  - apply (interval_available_exact (ss_occupancies fs_snapshot) 50 (Some 60%N) 7 8).
    + apply fs_plain.
    + vm_compute. reflexivity.
Defined.

(** ** The schedule *)

(** C7. The schedule refines the specification of slots.  A selected decision is a slot
    (every Role assigned, inside the Task window, ending by the deadline), is the first
    assignment of the exhaustive enumeration in preference order at its start, and stays within
    the expansion budget; it is immediate exactly when it starts now, and a later one has a
    known duration.  A missed window contains no start at all.  If no Role of the Task draws on a
    Context capacity and every known occupancy ends after it starts ([plain_snapshot]), then no
    slot starts earlier than the selected one, and a deferred Task with a known duration has
    no slot at any instant, not only at the tried ones. *)
Theorem schedule_refines_slots {S} `{SharedNodeStateReader S} (max_expansions : N) (state : S)
    (requirement : TaskRequirement) (candidates : CandidateSet) (snapshot : SchedulingSnapshot)
    (context : TaskSchedulingContext) (outcome : TaskSchedulingOutcome)
    (Hrun : schedule_task_with_snapshot_and_estimate max_expansions state requirement candidates
              snapshot context = Ok outcome) :
  match outcome with
  | SelectedNow d =>
      decided state max_expansions requirement candidates snapshot context d /\
      dc_starts_at d = tsc_now context
  | SelectedFuture d =>
      decided state max_expansions requirement candidates snapshot context d /\
      (tsc_now context < dc_starts_at d)%N /\ is_Some (task_duration requirement context)
  | Deferred =>
      is_Some (task_duration requirement context) -> plain_snapshot requirement snapshot ->
      forall start sels, ~ slot state requirement candidates snapshot context start sels
  | WindowMissed => forall start, ~ in_window requirement context start
  end.
Proof. by apply (schedule_answer state max_expansions). Qed.

Lemma schedule_refines_slots_witness :
  decided fs_state DEFAULT_SEARCH_EXPANSIONS fs_requirement fs_candidates fs_snapshot fs_context
    fs_decision /\ dc_starts_at fs_decision = 50%N.
Proof.
  split; [|vm_compute; reflexivity].
  destruct (schedule_refines_slots DEFAULT_SEARCH_EXPANSIONS fs_state fs_requirement fs_candidates
    fs_snapshot fs_context (SelectedFuture fs_decision) fs_scheduled) as [Hd _]. exact Hd.
Defined.

(** C18. A scheduled Task never double-books.  For every selected resource, at every
    instant of the scheduled interval, the known occupancies together with everything the
    decision itself books use at most the registered capacity (an exclusive booking uses
    all of it); the declared calendar of the resource admits the interval and no
    overlapping booking of another resource conflicts with its declared geometry or time
    domain.  Roles that draw on a Context allocation are excluded. *)
Theorem schedule_never_overbooks {S} `{SharedNodeStateReader S} (max_expansions : N) (state : S)
    (requirement : TaskRequirement) (candidates : CandidateSet) (snapshot : SchedulingSnapshot)
    (context : TaskSchedulingContext) (outcome : TaskSchedulingOutcome)
    (d : TaskSchedulingDecision) (sel : RoleSchedulingSelection) (id : ResourceId)
    (Hrun : schedule_task_with_snapshot_and_estimate max_expansions state requirement candidates
              snapshot context = Ok outcome)
    (Hd : selected_decision outcome = Some d)
    (Hplain : plain_snapshot requirement snapshot)
    (Hsel : sel ∈ dc_selections d) (Hid : id ∈ sel_resource_ids sel) :
  fits state snapshot (dc_starts_at d) (dc_ends_at d) (dc_selections d) id /\
  placed snapshot (dc_starts_at d) (dc_ends_at d) (dc_selections d) id.
Proof.
  destruct (selected_decided _ _ _ _ _ _ _ _ Hrun Hd) as [_ _ _ Hends _ [_ Hj] _ _ _].
  rewrite <- Hends in Hj. destruct Hplain as [Hroles Hok].
  destruct (joint_booking state candidates snapshot _ _ Hok _ _ _ _ Hroles Hj
              (booking_ok_nil state snapshot _ _)) as [_ _ Hfits Hplaced]. eauto.
Qed.

Lemma schedule_never_overbooks_witness :
  fits fs_state fs_snapshot 50 (Some 60%N) (dc_selections fs_decision) (MkId "gpu1").
Proof.
  refine (proj1 (schedule_never_overbooks DEFAULT_SEARCH_EXPANSIONS fs_state fs_requirement
    fs_candidates fs_snapshot fs_context (SelectedFuture fs_decision) fs_decision
    (MkSelection (MkId "r2") fs_node1 [MkId "gpu1"] [3%N]
       [MkResourceRequirement Compute 3 Divisible (Some "gpu")] [8%N]) (MkId "gpu1")
    fs_scheduled eq_refl fs_plain _ _)); vm_compute; [right; left|left].
Defined.

(** A scheduled Task assigns every Role, in the order of the requirement, to one of the
    candidates of the Role, with one resource per demand and the demanded units; a
    constraint fixes the Node and the resources.  One actor keeps one physical entity over
    all its Roles, and two actors of one distinctness group never share an entity. *)
Theorem schedule_assigns_roles {S} `{SharedNodeStateReader S} (max_expansions : N) (state : S)
    (requirement : TaskRequirement) (candidates : CandidateSet) (snapshot : SchedulingSnapshot)
    (context : TaskSchedulingContext) (outcome : TaskSchedulingOutcome)
    (d : TaskSchedulingDecision)
    (Hrun : schedule_task_with_snapshot_and_estimate max_expansions state requirement candidates
              snapshot context = Ok outcome)
    (Hd : selected_decision outcome = Some d) :
  Forall2 (fun role sel =>
    sel_role_id sel = rq_role_id role /\
    (exists nodes, for_role candidates (rq_role_id role) = Some nodes /\
                   sel_node_id sel ∈ rcs_node_ids nodes) /\
    (forall c, role_constraint snapshot (rq_role_id role) = Some c ->
       sel_node_id sel = src_node_id c /\
       (resource_requirements role <> [] -> sel_resource_ids sel = src_resource_ids c)) /\
    length (sel_resource_ids sel) = length (resource_requirements role) /\
    sel_resource_units sel = rr_units <$> resource_requirements role)
    (tk_roles requirement) (dc_selections d) /\
  (forall s1 s2 a1 a2 e1 e2,
     s1 ∈ dc_selections d -> s2 ∈ dc_selections d ->
     actor_for_role candidates (sel_role_id s1) = Some a1 ->
     actor_for_role candidates (sel_role_id s2) = Some a2 ->
     physical_entity_for_node candidates (sel_node_id s1) = Some e1 ->
     physical_entity_for_node candidates (sel_node_id s2) = Some e2 ->
     (a1 = a2 -> e1 = e2) /\ (a1 <> a2 -> share_group candidates a1 a2 = true -> e1 <> e2)).
Proof.
  destruct (selected_decided _ _ _ _ _ _ _ _ Hrun Hd) as [_ _ _ _ _ [_ Hj] _ _ _]. split.
  - by destruct (joint_roles _ _ _ _ _ _ _ _ _ Hj) as (new & -> & Hall).
  - destruct (joint_entities _ _ _ _ _ _ _ _ _ Hj) as (final & Hc & Hdist).
    { split; [by intros ? ? ? ?%not_elem_of_nil|]. intros a b e Ea. by rewrite lookup_empty in Ea. }
    intros s1 s2 a1 a2 e1 e2 H1 H2 Ha1 Ha2 He1 He2.
    pose proof (Hc _ _ _ H1 Ha1 He1) as E1. pose proof (Hc _ _ _ H2 Ha2 He2) as E2.
    split; [intros ->; congruence|]. intros Hne Hg ->. by apply Hne, (Hdist a1 a2 e2).
Qed.

Lemma schedule_assigns_roles_witness : length (dc_selections fs_decision) = 2%nat.
Proof.
  symmetry. eapply (Forall2_length _ _ _ (proj1 (schedule_assigns_roles DEFAULT_SEARCH_EXPANSIONS
    fs_state fs_requirement fs_candidates fs_snapshot fs_context (SelectedFuture fs_decision)
    fs_decision fs_scheduled eq_refl))).
Defined.

(** The schedule finds a slot whenever one exists: if the inputs pass validation, every
    candidate is registered, the duration is known and the budget covers the search tree
    at the tried starts, then a slot at any instant makes the scheduler select one. *)
Theorem schedule_finds_slot {S} `{SharedNodeStateReader S} (max_expansions : N) (state : S)
    (requirement : TaskRequirement) (candidates : CandidateSet) (snapshot : SchedulingSnapshot)
    (context : TaskSchedulingContext) (len : N) (start : TimestampMs)
    (sels : list RoleSchedulingSelection)
    (Hwidth : (max_expansions <= u32_max)%N)
    (Hvalid : inputs_valid requirement candidates context)
    (Hknown : candidates_known state requirement candidates)
    (Hplain : plain_snapshot requirement snapshot)
    (Hlen : task_duration requirement context = Some len)
    (Hmax : (start + len <= u64_max)%N)
    (Hwork : (search_work state requirement candidates snapshot len
                (tried_starts requirement snapshot context) <= max_expansions)%N)
    (Hslot : slot state requirement candidates snapshot context start sels) :
  exists outcome d,
    schedule_task_with_snapshot_and_estimate max_expansions state requirement candidates snapshot
      context = Ok outcome /\ selected_decision outcome = Some d.
Proof.
  destruct (schedule_finds state max_expansions requirement candidates snapshot context len start
              sels) as [d [E|E]]; try done; rewrite E; by do 2 eexists.
Qed.

Lemma fs_valid : inputs_valid fs_requirement fs_candidates fs_context.
Proof.
  split; [vm_compute; reflexivity..|]. simpl. intros o Ho. rewrite !elem_of_cons in Ho.
  destruct Ho as [->|[->|[->|Ho]]]; [unfold u64_max; lia..|by apply not_elem_of_nil in Ho].
Qed.

Lemma fs_known : candidates_known fs_state fs_requirement fs_candidates.
Proof.
  intros role nodes node Hrole Ef Hnode. simpl in Hrole. rewrite !elem_of_cons in Hrole.
  destruct Hrole as [->|[->|Hr]]; [..|by apply not_elem_of_nil in Hr];
    vm_compute in Ef; injection Ef as <-; simpl in Hnode; rewrite !elem_of_cons in Hnode;
    repeat destruct Hnode as [->|Hnode]; try (by eexists; vm_compute);
    by apply not_elem_of_nil in Hnode.
Qed.

(** The same deployment a little later has a slot at 70. *)
Lemma fs_slot : slot fs_state fs_requirement fs_candidates fs_snapshot fs_context 70
  (dc_selections fs_decision).
Proof.
  split.
  - split; simpl; [lia|lia|intros l [= <-]; lia|intros l [= <-]; lia].
  - apply elem_of_assignments.
    match goal with |- ?x ∈ ?l => let l' := eval vm_compute in l in
      change (x ∈ l'); let x' := eval vm_compute in x in change (x' ∈ l') end.
    left.
Qed.

Lemma schedule_finds_slot_witness : exists outcome d,
  schedule_task_with_snapshot_and_estimate DEFAULT_SEARCH_EXPANSIONS fs_state fs_requirement
    fs_candidates fs_snapshot fs_context = Ok outcome /\ selected_decision outcome = Some d.
Proof.
  apply (schedule_finds_slot DEFAULT_SEARCH_EXPANSIONS fs_state fs_requirement fs_candidates
    fs_snapshot fs_context 10 70 (dc_selections fs_decision)).
  - vm_compute. discriminate.
  - exact fs_valid.
  - exact fs_known.
  - exact fs_plain.
  - reflexivity.
  - vm_compute. discriminate.
  - vm_compute. discriminate.
  - exact fs_slot.
Defined.
