(* ===== verification/PropsPolicy.v ===== *)
(** * Properties of evidence policies, scheduling costs and footprints *)

From S2P Require Import Prelude Identity Execution StateModel Resource DecisionPolicy.

Open Scope string_scope.

(** ** Equality of JSON values *)

Section JsonInd.
Context (P : Json -> Prop).
Context (Pnull : P JNull) (Pbool : forall b, P (JBool b)) (Pnum : forall z, P (JNumber z)).
Context (Pfloat : forall z, P (JFloat z)).
Context (Pstr : forall s, P (JString s)) (Parr : forall l, Forall P l -> P (JArray l)).
Context (Pobj : forall l, Forall (fun p => P p.2) l -> P (JObject l)).

Fixpoint Json_nested_ind (j : Json) : P j :=
  match j with
  | JNull => Pnull
  | JBool b => Pbool b
  | JNumber z => Pnum z
  | JFloat z => Pfloat z
  | JString s => Pstr s
  | JArray l =>
      Parr l ((fix go (l : list Json) : Forall P l :=
                 match l with
                 | [] => Forall_nil_2 P
                 | x :: l' => Forall_cons_2 P x l' (Json_nested_ind x) (go l')
                 end) l)
  | JObject l =>
      Pobj l ((fix go (l : list (string * Json)) : Forall (fun p => P p.2) l :=
                 match l with
                 | [] => Forall_nil_2 _
                 | p :: l' => Forall_cons_2 _ p l' (Json_nested_ind p.2) (go l')
                 end) l)
  end.
End JsonInd.

Lemma Json_eqb_eq a b : Json_eqb a b = true <-> a = b.
Proof.
  revert b. induction a as [|x|z|z|s|l IH|l IH] using Json_nested_ind; intros b; destruct b; simpl;
    try (split; congruence).
  - rewrite Bool.eqb_true_iff. split; congruence.
  - rewrite Z.eqb_eq. split; congruence.
  - rewrite Z.eqb_eq. split; congruence.
  - rewrite String.eqb_eq. split; congruence.
  - transitivity (l = l0); [|split; congruence]. revert l0.
    induction IH as [|x l Hx Hl IH]; intros [|y k]; simpl; try (split; congruence).
    rewrite andb_true_iff, Hx, IH. split; [intros [-> ->]; done|intros [= -> ->]; done].
  - transitivity (l = fields); [|split; congruence]. revert fields.
    induction IH as [|[s x] l Hx Hl IH]; intros [|[t y] k]; simpl; try (split; congruence).
    rewrite !andb_true_iff, String.eqb_eq, Hx, IH. simpl.
    split; [intros [[-> ->] ->]; done|intros [= -> -> ->]; done].
Qed.

(** ** Evidence policies *)

Section Evaluate.
Context (p : DecisionEvidencePolicy) (records : list StateRecord) (now : TimestampMs).

(** The records a policy admits for its object, channel, sources and freshness. *)
Definition admissible (r : StateRecord) : Prop :=
  r ∈ records /\ policy_matches p r = true /\ policy_fresh p now r = true /\
  policy_confident p r = true.

(** The admissible records the reducer compares. *)
Definition contender (r : StateRecord) : Prop :=
  admissible r /\
  (ep_reducer p = HighestConfidence ->
   forall other, admissible other -> (confidence_or_zero other <= confidence_or_zero r)%N).

Lemma elem_of_confident r :
  r ∈ List.filter (policy_confident p)
        (List.filter (policy_fresh p now) (List.filter (policy_matches p) records)) <->
  admissible r.
Proof. unfold admissible. rewrite !list_elem_of_In, !filter_In. tauto. Qed.

Lemma filter_nonempty {A} (f : A -> bool) (l : list A) :
  (length (List.filter f l) =? 0)%nat = true <-> forall x, x ∈ l -> f x = false.
Proof.
  rewrite Nat.eqb_eq. split.
  - intros E x Hx. apply length_zero_iff_nil in E. apply not_true_iff_false. intros Hf.
    assert (In x (List.filter f l)) as Hin by (apply filter_In; split; [by apply list_elem_of_In|done]).
    by rewrite E in Hin.
  - intros Hall. destruct (List.filter f l) as [|x k] eqn:E; [done|].
    assert (In x (List.filter f l)) as [Hin Hf]%filter_In by (rewrite E; by left).
    rewrite Hall in Hf by (by apply list_elem_of_In). done.
Qed.

Lemma filter_some {A} (f : A -> bool) (l : list A) :
  (length (List.filter f l) =? 0)%nat = false -> exists x, x ∈ l /\ f x = true.
Proof.
  destruct (List.filter f l) as [|x k] eqn:E; [done|]. intros _. exists x.
  rewrite list_elem_of_In. apply filter_In. rewrite E. by left.
Qed.
End Evaluate.

Lemma highest_bound l : forall r, r ∈ l ->
  (confidence_or_zero r <= foldr N.max 0%N (confidence_or_zero <$> l))%N.
Proof. induction l as [|x l IH]; intros r; [by intros ?%not_elem_of_nil|].
  rewrite fmap_cons. cbn [foldr]. intros [->|Hr]%elem_of_cons; [lia|]. specialize (IH r Hr). lia. Qed.

Lemma highest_attained l : l <> [] ->
  exists r, r ∈ l /\ confidence_or_zero r = foldr N.max 0%N (confidence_or_zero <$> l).
Proof.
  induction l as [|x l IH]; intros Hne; [done|].
  rewrite fmap_cons. cbn [foldr]. destruct l as [|y l].
  { exists x. split; [by left|]. simpl. lia. }
  destruct IH as (r & Hr & E); [done|].
  destruct (N.max_spec (confidence_or_zero x)
              (foldr N.max 0%N (confidence_or_zero <$> y :: l))) as [[? ->]|[? ->]].
  - exists r. split; [by right|done].
  - exists x. split; [by left|done].
Qed.

Lemma select_latest_elem rest : forall first, select_latest first rest ∈ first :: rest.
Proof.
  unfold select_latest. induction rest as [|x rest IH]; intros first; simpl; [by left|].
  specialize (IH (latest_of first x)). apply elem_of_cons in IH as [E|Hin].
  - rewrite E. unfold latest_of. case_match; set_solver.
  - set_solver.
Qed.

Lemma latest_of_received a b :
  (sr_received_at a <= sr_received_at (latest_of a b))%N /\
  (sr_received_at b <= sr_received_at (latest_of a b))%N.
Proof.
  unfold latest_of, cmp_then. change (cmp (sr_received_at a) (sr_received_at b))
    with (N.compare (sr_received_at a) (sr_received_at b)).
  destruct (N.compare_spec (sr_received_at a) (sr_received_at b)); repeat case_match; lia.
Qed.

Lemma select_latest_received rest : forall first r, r ∈ first :: rest ->
  (sr_received_at r <= sr_received_at (select_latest first rest))%N.
Proof.
  unfold select_latest. induction rest as [|x rest IH]; intros first r; simpl.
  { intros ->%list_elem_of_singleton. lia. }
  pose proof (latest_of_received first x) as [Ha Hb].
  pose proof (IH (latest_of first x) (latest_of first x) (list_elem_of_here _ _)) as Hl.
  rewrite !elem_of_cons. intros [->|[->|Hr]]; [lia|lia|]. apply IH. by right.
Qed.

Lemma disagrees_false first records :
  disagrees first records = false <-> forall r, r ∈ records -> sr_value r = sr_value first.
Proof.
  unfold disagrees. split.
  - intros Hd r Hr. apply Json_eqb_eq. destruct (Json_eqb (sr_value r) (sr_value first)) eqn:E; [done|].
    apply not_true_iff_false in Hd. exfalso. apply Hd, existsb_exists. exists r.
    rewrite E. split; [by apply list_elem_of_In|done].
  - intros Hall. apply not_true_iff_false. intros (r & Hr & Hn)%existsb_exists.
    rewrite (proj2 (Json_eqb_eq _ _) (Hall r (proj2 (list_elem_of_In _ _) Hr))) in Hn. done.
Qed.

(** The reduction of a non-empty list of admissible records. *)
Lemma reduce_evidence_spec p records now confident :
  (forall r, r ∈ confident <-> admissible p records now r) -> confident <> [] ->
  match reduce_evidence (ep_reducer p) confident with
  | MkEvaluation EvAccepted (Some r) =>
      contender p records now r /\
      (forall other, contender p records now other ->
         sr_value other = sr_value r /\ (sr_received_at other <= sr_received_at r)%N)
  | MkEvaluation EvConflict None =>
      exists a b, contender p records now a /\ contender p records now b /\ sr_value a <> sr_value b
  | _ => False
  end.
Proof.
  intros Hadm Hne. unfold reduce_evidence.
  set (candidates := match ep_reducer p with RequireEquivalent => _ | HighestConfidence => _ end).
  assert (forall r, r ∈ candidates <-> contender p records now r) as Hc.
  { intros r. unfold candidates, contender. rewrite <- Hadm. destruct (ep_reducer p); [naive_solver|].
    rewrite list_elem_of_In, filter_In, <- list_elem_of_In, N.eqb_eq. split.
    - intros [Hr E]. split; [done|]. intros _ other Ho%Hadm. rewrite E. by apply highest_bound.
    - intros [Hr Hmax]. split; [done|]. apply N.le_antisymm; [by apply highest_bound|].
      destruct (highest_attained confident Hne) as (m & Hm & <-). by apply Hmax, Hadm. }
  assert (candidates <> []) as Hcne.
  { unfold candidates. destruct (ep_reducer p); [done|]. intros E.
    destruct (highest_attained confident Hne) as (m & Hm & Em).
    assert (m ∈ List.filter (fun record => (confidence_or_zero record =?
      foldr N.max 0 (confidence_or_zero <$> confident))%N) confident) as Hin.
    { rewrite list_elem_of_In, filter_In, N.eqb_eq. split; [by apply list_elem_of_In|done]. }
    rewrite E in Hin. by apply not_elem_of_nil in Hin. }
  clearbody candidates. destruct candidates as [|first rest]; [done|].
  destruct (disagrees first (first :: rest)) eqn:Ed.
  - unfold rejected. unfold disagrees in Ed. apply existsb_exists in Ed as (r & Hr & Hn).
    exists r, first. rewrite <- !Hc. split_and!; [by apply list_elem_of_In|by left|].
    intros E%Json_eqb_eq. by rewrite E in Hn.
  - rewrite disagrees_false in Ed. split; [by apply Hc, select_latest_elem|].
    intros other Ho%Hc. split; [|by apply select_latest_received].
    by rewrite (Ed other Ho), (Ed _ (select_latest_elem rest first)).
Qed.

(** The policy is well formed and admits evidence for the decision. *)
Definition authorized (p : DecisionEvidencePolicy) (decision : DecisionKind) : Prop :=
  DecisionEvidencePolicy_validate p = Ok tt /\ decision ∈ ep_allowed_decisions p.

(** C40. An evidence policy decides exactly.  A policy that does not validate, or that does
    not allow the decision, rejects it as unauthorized, and only such a policy does.  Otherwise:
    unknown when no record matches (object, channel, semantics, source and schema); stale when
    some record matches and none of the matching ones is fresh; low confidence when some
    matching record is fresh and none of those is confident enough; conflict when two
    contenders (the admissible records, of the highest confidence where the reducer asks for
    it) have different values; and accepted with a contender such that every contender has its
    value and none was received later.  The cases exclude each other, so each disposition is
    returned if and only if its condition holds. *)
Theorem evaluate_exact (p : DecisionEvidencePolicy) (records : list StateRecord)
    (decision : DecisionKind) (now : TimestampMs) :
  match evaluate p records decision now with
  | MkEvaluation EvUnauthorized None => ~ authorized p decision
  | MkEvaluation EvUnknown None =>
      authorized p decision /\ forall r, r ∈ records -> policy_matches p r = false
  | MkEvaluation EvStale None =>
      authorized p decision /\
      (exists r, r ∈ records /\ policy_matches p r = true) /\
      forall r, r ∈ records -> policy_matches p r = true -> policy_fresh p now r = false
  | MkEvaluation EvLowConfidence None =>
      authorized p decision /\
      (exists r, r ∈ records /\ policy_matches p r = true /\ policy_fresh p now r = true) /\
      forall r, r ∈ records -> policy_matches p r = true -> policy_fresh p now r = true ->
        policy_confident p r = false
  | MkEvaluation EvConflict None =>
      authorized p decision /\
      exists a b, contender p records now a /\ contender p records now b /\ sr_value a <> sr_value b
  | MkEvaluation EvAccepted (Some r) =>
      authorized p decision /\ contender p records now r /\
      (forall other, contender p records now other ->
         sr_value other = sr_value r /\ (sr_received_at other <= sr_received_at r)%N)
  | _ => False
  end.
Proof.
  unfold evaluate, authorized.
  destruct (DecisionEvidencePolicy_validate p) as [[]|e] eqn:Ev; simpl; [|by intros [? _]].
  destruct (set_contains decision (ep_allowed_decisions p)) eqn:Ed; simpl.
  2: { apply bool_decide_eq_false in Ed. tauto. }
  apply bool_decide_eq_true in Ed.
  destruct (length (List.filter (policy_matches p) records) =? 0)%nat eqn:E1.
  { by rewrite filter_nonempty in E1. }
  destruct (length (List.filter (policy_fresh p now) _) =? 0)%nat eqn:E2.
  { simpl. rewrite filter_nonempty in E2. apply filter_some in E1. split_and!; [done..|].
    intros r Hr Hm. apply E2. rewrite list_elem_of_In, filter_In. split; [by apply list_elem_of_In|done]. }
  destruct (length (List.filter (policy_confident p) _) =? 0)%nat eqn:E3.
  { simpl. rewrite filter_nonempty in E3. apply filter_some in E2 as (w & Hw & Hf).
    apply list_elem_of_In, filter_In in Hw as [Hw Hm]. split_and!; [done..| |].
    { exists w. split_and!; [by apply list_elem_of_In|done..]. }
    intros r Hr Hm' Hf'. apply E3.
    rewrite list_elem_of_In, !filter_In. split; [split; [by apply list_elem_of_In|done]|done]. }
  pose proof (reduce_evidence_spec p records now _ (elem_of_confident p records now)) as Hs.
  specialize (Hs (ltac:(intros E; by rewrite E in E3))).
  by destruct (reduce_evidence _ _) as [[] [r|]].
Qed.

(** ** Scheduling costs *)

(** The cost of the terms in exact arithmetic; [None] when a metric is missing or exceeds
    its declared maximum. *)
Fixpoint exact_cost (m : SchedulingMetrics) (terms : list SchedulingCostTerm) : option N :=
  match terms with
  | [] => Some 0%N
  | term :: terms' =>
      match metric_value m (ct_metric term) with
      | Some value =>
          if (ct_maximum term <? value)%N then None else
          rest ← exact_cost m terms'; Some (normalized_value term value * ct_weight term + rest)%N
      | None => None
      end
  end.

Lemma add_cost_Some total normalized weight r :
  add_cost total normalized weight = Some r <->
  r = (total + normalized * weight)%N /\ (r <= u64_max)%N.
Proof.
  unfold add_cost, u64_checked_mul, u64_checked_add.
  destruct (N.leb_spec (normalized * weight) u64_max); simpl.
  - destruct (N.leb_spec (total + normalized * weight) u64_max); naive_solver lia.
  - split; [done|]. intros [-> ?]. lia.
Qed.

Lemma normalized_bound term value :
  (value <= ct_maximum term)%N ->
  (normalized_value term value <= ct_maximum term / ct_units_per_cost term)%N.
Proof.
  intros Hv. unfold normalized_value.
  destruct (N.eq_dec (ct_units_per_cost term) 0%N) as [->|Hz]; [by rewrite !N.div_0_r|].
  apply N.Div0.div_le_mono. destruct (ct_prefer_higher term); lia.
Qed.

(** The loop of validation bounds the loop of scoring. *)
Lemma score_terms_exact m terms : forall seen bound total,
  cost_terms_loop seen bound terms = Ok tt -> (total <= bound)%N -> (bound <= u64_max)%N ->
  match exact_cost m terms with
  | Some cost => score_terms m total terms = Ok (total + cost)%N /\ (total + cost <= u64_max)%N
  | None => exists failure, score_terms m total terms = Err failure
  end.
Proof.
  induction terms as [|term terms IH]; intros seen bound total Hl Ht Hb; simpl.
  { rewrite N.add_0_r. split; [done|lia]. }
  simpl in Hl. destruct (_ || _) eqn:Eg in Hl; [done|].
  destruct (add_cost bound _ _) as [bound'|] eqn:Eb; [|done].
  apply add_cost_Some in Eb as [Eb Hb'].
  destruct (metric_value m (ct_metric term)) as [value|]; [|by eexists].
  destruct (N.ltb_spec (ct_maximum term) value) as [|Hv]; [by eexists|].
  pose proof (normalized_bound term value Hv) as Hn.
  assert (normalized_value term value * ct_weight term <=
          ct_maximum term / ct_units_per_cost term * ct_weight term)%N as Hmul
    by (by apply N.mul_le_mono_r).
  rewrite (proj2 (add_cost_Some total (normalized_value term value) (ct_weight term)
    (total + normalized_value term value * ct_weight term)%N)) by lia.
  specialize (IH _ bound' (total + normalized_value term value * ct_weight term)%N Hl).
  destruct (exact_cost m terms) as [cost|]; simpl.
  - destruct IH as [-> Hs]; [lia|lia|]. split; [f_equal; lia|lia].
  - apply IH; lia.
Qed.

(** A validated cost policy never overflows: on metrics of the expected schema the
    64-bit score is the exact weighted sum of the normalized metrics, and it is rejected
    exactly when a metric is missing or exceeds its declared maximum. *)
Theorem validated_score_exact (p : SchedulingCostPolicy) (m : SchedulingMetrics)
    (Hp : SchedulingCostPolicy_validate p = Ok tt)
    (Hm : sm_schema_version m = SCHEDULING_METRICS_SCHEMA) :
  match exact_cost m (cp_terms p) with
  | Some cost => policy_score p m = Ok cost /\ (cost <= u64_max)%N
  | None => exists failure, policy_score p m = Err failure
  end.
Proof.
  unfold SchedulingCostPolicy_validate in Hp.
  destruct (result_map_err _ _) as [[]|]; [|done]. simpl in Hp.
  destruct (cost_interpretation_invalid p); [done|].
  unfold policy_score. rewrite Hm, String.eqb_refl. simpl.
  pose proof (score_terms_exact m (cp_terms p) [] 0%N 0%N Hp (N.le_refl _) (N.le_0_l _)) as Hs.
  by destruct (exact_cost m (cp_terms p)).
Qed.

Definition fp_policy : DecisionEvidencePolicy :=
  MkEvidencePolicy DECISION_EVIDENCE_POLICY_SCHEMA_V0_1 "p1" 1 (MkStateObject ClassNode "node" "n1") "load"
    {[Reported]} {[SourceNode (MkId "n1") (MkId "ls1")]} 1000 None {[Schedule]} RequireEquivalent
    (Some SCHEDULING_METRICS_SCHEMA).
Definition fp_cost : SchedulingCostPolicy :=
  MkCostPolicy "tenant" true (MkId "n1") fp_policy
    [MkCostTerm QueueDelayMs 10 2 1000 false; MkCostTerm LoadMillionths 3 1 1000000 true].
Definition fp_metrics : SchedulingMetrics :=
  MkMetrics SCHEDULING_METRICS_SCHEMA (Some 101%N) None None (Some 999990%N) None.

Lemma validated_score_exact_witness : policy_score fp_cost fp_metrics = Ok 530%N.
Proof.
  exact (proj1 (validated_score_exact fp_cost fp_metrics
    (ltac:(vm_compute; reflexivity) : SchedulingCostPolicy_validate fp_cost = Ok tt) eq_refl)).
Defined.

(** ** Footprints *)

(** A point of the inflated box. *)
Definition covers (f : ResourceSpaceFootprint) (point : Mm3) : Prop :=
  forall axis, axis ∈ axes ->
    (inflated_lower f axis <= mm_axis point axis <= inflated_upper f axis)%Z.

Lemma valid_box f axis :
  ResourceSpaceFootprint_validate f = Ok tt -> axis ∈ axes ->
  (inflated_lower f axis < inflated_upper f axis)%Z.
Proof.
  unfold ResourceSpaceFootprint_validate. destruct (_ || _) eqn:E; [done|]. intros _ Ha.
  apply orb_false_iff in E as [_ E]. apply not_true_iff_false in E.
  unfold inflated_lower, inflated_upper.
  destruct (Z.le_gt_cases (mm_axis (sf_upper_mm f) axis) (mm_axis (sf_lower_mm f) axis)) as [Hle|];
    [|lia]. exfalso. apply E, existsb_exists. exists axis. split; [by apply list_elem_of_In|].
  by rewrite (proj2 (Z.leb_le _ _) Hle).
Qed.

(** Declared footprints fail closed and are otherwise exact: in one conflict domain two
    footprints that are invalid or use another frame or anchor conflict; two valid ones of
    the same frame and anchor conflict exactly when their boxes, inflated by the
    clearances, share a point.  Different domains never conflict. *)
Theorem footprint_conflicts_exact (f g : ResourceSpaceFootprint) :
  ResourceSpaceFootprint_conflicts f g = true <->
  sf_conflict_domain f = sf_conflict_domain g /\
  (ResourceSpaceFootprint_validate f = Ok tt -> ResourceSpaceFootprint_validate g = Ok tt ->
   sf_frame f = sf_frame g -> sf_anchor_revision f = sf_anchor_revision g ->
   exists point, covers f point /\ covers g point).
Proof.
  unfold ResourceSpaceFootprint_conflicts.
  destruct (String.eqb_spec (sf_conflict_domain f) (sf_conflict_domain g)) as [Ed|Ed]; simpl;
    [|naive_solver].
  destruct (ResourceSpaceFootprint_validate f) as [[]|] eqn:Ef; simpl; [|naive_solver].
  destruct (ResourceSpaceFootprint_validate g) as [[]|] eqn:Eg; simpl; [|naive_solver].
  destruct (String.eqb_spec (sf_frame f) (sf_frame g)); simpl; [|naive_solver].
  destruct (String.eqb_spec (sf_anchor_revision f) (sf_anchor_revision g)); simpl; [|naive_solver].
  transitivity (exists point, covers f point /\ covers g point); [|naive_solver].
  split.
  - intros Hall. exists (MkMm3 (Z.max (inflated_lower f 0) (inflated_lower g 0))
      (Z.max (inflated_lower f 1) (inflated_lower g 1))
      (Z.max (inflated_lower f 2) (inflated_lower g 2))).
    assert (forall axis, axis ∈ axes ->
      (inflated_lower f axis <= inflated_upper g axis)%Z /\
      (inflated_lower g axis <= inflated_upper f axis)%Z) as Hax.
    { intros axis Ha. rewrite andb_true_r, !andb_true_iff, !Z.leb_le in Hall.
      unfold axes in Ha. rewrite !elem_of_cons in Ha.
      destruct Ha as [->|[->|[->|Ha]]]; [tauto..|by apply not_elem_of_nil in Ha]. }
    assert (forall h axis, axis ∈ axes -> (h = f \/ h = g) ->
      (inflated_lower h axis <= Z.max (inflated_lower f axis) (inflated_lower g axis)
         <= inflated_upper h axis)%Z) as Hin.
    { intros h axis Ha Hh. pose proof (valid_box f axis Ef Ha). pose proof (valid_box g axis Eg Ha).
      destruct (Hax axis Ha). destruct Hh as [->| ->]; lia. }
    split; intros axis Ha; (assert (axis = 0 \/ axis = 1 \/ axis = 2)%nat as [->|[->| ->]]
      by (unfold axes in Ha; rewrite !elem_of_cons in Ha; destruct Ha as [|[|[|Ha]]];
          [auto..|by apply not_elem_of_nil in Ha])); simpl; apply Hin; auto.
  - intros (point & Hf & Hg). rewrite andb_true_r, !andb_true_iff, !Z.leb_le.
    assert (forall axis, axis ∈ axes ->
      (inflated_lower f axis <= inflated_upper g axis)%Z /\
      (inflated_lower g axis <= inflated_upper f axis)%Z) as Hax.
    { intros axis Ha. specialize (Hf axis Ha). specialize (Hg axis Ha). lia. }
    split_and!; apply Hax; unfold axes; set_solver.
Qed.
