(* ===== verification/PropsAllocation.v ===== *)
(** * Properties of quantitative allocations *)

From S2P Require Import Prelude Identity Execution StateModel Resource Scheduler Sorting Quota.
From S2P Require Import QuotaFacts Capacity AuthorityFacts.

Open Scope string_scope.

(** ** A digest that tells generations apart *)

Definition hex_digit (n : N) : ascii := ascii_of_N (if (n <? 10)%N then 48 + n else 87 + n).

(** The low digits of a number first. *)
Fixpoint hex_digits (width : nat) (n : N) : string :=
  match width with
  | O => EmptyString
  | S width' => String (hex_digit (n mod 16)) (hex_digits width' (n / 16))
  end.

#[export] Instance fa_serde : Serde := {|
  json_to_vec := fun j =>
    match j with
    | JArray (_ :: JNumber generation :: _) => Ok (hex_digits 64 (Z.to_N generation))
    | _ => Ok EmptyString
    end;
  sha256_hex := fun s => s
|}.

Lemma hex_digit_inj a b : (a < 16)%N -> (b < 16)%N -> hex_digit a = hex_digit b -> a = b.
Proof.
  intros Ha Hb E. unfold hex_digit in E. apply (f_equal N_of_ascii) in E.
  destruct (N.ltb_spec a 10), (N.ltb_spec b 10);
    rewrite !N_ascii_embedding in E by lia; lia.
Qed.

Lemma hex_digits_inj width : forall a b,
  (a < 16 ^ N.of_nat width)%N -> (b < 16 ^ N.of_nat width)%N ->
  hex_digits width a = hex_digits width b -> a = b.
Proof.
  induction width as [|width IH]; intros a b Ha Hb E; [simpl in *; lia|].
  cbn [hex_digits] in E. injection E as Ed Er.
  rewrite Nat2N.inj_succ, N.pow_succ_r' in Ha, Hb.
  apply hex_digit_inj in Ed; [|apply N.mod_lt; lia|apply N.mod_lt; lia].
  apply IH in Er; [|apply N.Div0.div_lt_upper_bound; lia|apply N.Div0.div_lt_upper_bound; lia].
  rewrite (N.div_mod a 16), (N.div_mod b 16) by lia. congruence.
Qed.

#[export] Instance fa_faithful : DigestFaithful.
Proof.
  intros g g' id Hg Hg' E E'. unfold original_allocation_id in E, E'.
  cbn [json_to_vec fa_serde sha256_hex] in E, E'. rewrite !N2Z.id in E, E'.
  injection E as E. injection E' as E'. rewrite <- E' in E.
  apply (hex_digits_inj 64); [| |].
  - apply (N.le_lt_trans _ _ _ Hg). reflexivity.
  - apply (N.le_lt_trans _ _ _ Hg'). reflexivity.
  - exact (proj2 (string_app_inj_length ALLOCATION_PREFIX ALLOCATION_PREFIX _ _ eq_refl E)).
Qed.

(** ** A pool with two borrowers *)

Definition fa_task (id : string) : TaskRef := MkTaskRef (MkId "m1") (MkId id).
Definition fa_owner : AllocationOwner := OwnerContext (MkId "m1") (MkId "cx") (MkId "driver").
Definition fa_request (task : string) (units : N) : CapacityRequest :=
  MkCapacityRequest (MkId "gpu1") "gpu" (MkId "n1") (MkId "g1") (fa_task task) (MkId "r1") "tenant"
    fa_owner units 5 8.
Definition fa_limited : QuotaLedger := MkLedger [MkLimit "tenant" Compute 6] [].
Definition fa_start : CapacityAuthority := MkCapacityAuthority 0 CapacityLedger_new fa_limited.
Definition fa_authority : CapacityAuthority :=
  match commit_demands CapacityLedger_new fa_limited
          [SharedDemand (fa_request "t1" 2); SharedDemand (fa_request "t2" 3)] with
  | Some (Ok (ledger, quota)) => MkCapacityAuthority 0 ledger quota
  | _ => authority_new
  end.

Lemma fa_committed : commit_demands CapacityLedger_new fa_limited
    [SharedDemand (fa_request "t1" 2); SharedDemand (fa_request "t2" 3)] =
  Some (Ok (cau_capacity_ledger fa_authority, cau_quota_ledger fa_authority)).
Proof. vm_compute. reflexivity. Qed.

Lemma fa_reachable : rtc authority_step authority_new fa_authority.
Proof.
  eapply rtc_l.
  { apply (as_limits authority_new [MkLimit "tenant" Compute 6] fa_limited). vm_compute. reflexivity. }
  change (MkCapacityAuthority (cau_calendar_version authority_new)
            (cau_capacity_ledger authority_new) fa_limited) with fa_start.
  apply rtc_once.
  replace fa_authority with (MkCapacityAuthority 0 (cau_capacity_ledger fa_authority)
    (cau_quota_ledger fa_authority)) by (vm_compute; reflexivity).
  apply (as_commit fa_start [SharedDemand (fa_request "t1" 2); SharedDemand (fa_request "t2" 3)]);
    [by repeat constructor|exact fa_committed].
Qed.

Definition fa_id : string := ALLOCATION_PREFIX ++ hex_digits 64 1.
Definition fa_record : CapacityAllocation :=
  match cl_allocations (cau_capacity_ledger fa_authority) !! fa_id with
  | Some record => record
  | None => new_allocation (fa_request "t1" 2) (new_grant (fa_request "t1" 2) 1 fa_id)
  end.

Lemma fa_lookup : cl_allocations (cau_capacity_ledger fa_authority) !! fa_id = Some fa_record.
Proof. vm_compute. reflexivity. Qed.

Section Claims.
Context `{Serde, !DigestFaithful}.

(** C21. A pool is never overcommitted: after any sequence of Commit batches, bindings and
    releases, the units committed on a resource are at most the capacity its Node had
    declared when the newest allocation still held was admitted, and all allocations of
    the resource lie on one Node. *)
Theorem pool_never_overcommitted (a : CapacityAuthority) (resource : ResourceId)
    (Ha : rtc authority_step authority_new a)
    (Hheld : (0 < committed_units (cau_capacity_ledger a) resource)%N) :
  exists id newest, cl_allocations (cau_capacity_ledger a) !! id = Some newest /\
    rg_resource_id (al_original newest) = resource /\
    (forall id' record, cl_allocations (cau_capacity_ledger a) !! id' = Some record ->
       rg_resource_id (al_original record) = resource ->
       rg_node_id (al_original record) = rg_node_id (al_original newest) /\
       (rg_generation (al_original record) <= rg_generation (al_original newest))%N) /\
    (committed_units (cau_capacity_ledger a) resource
       <= rg_admitted_capacity (al_original newest))%N.
Proof.
  destruct (reachable_authority_ok a Ha) as [[Hok _] _ _].
  destruct (committed_bound _ resource Hok Hheld) as (id & r & Hid & Er & Hnew & Hle).
  exists id, r. split_and!; try done. intros id' r' Hid' Er'. split; [|by eapply Hnew].
  apply (co_nodes _ Hok id' id r' r); congruence.
Qed.

(** Borrowing never exceeds an allocation: the borrowers of every allocation are
    distinct Task Roles with positive units that together fit in the committed units, and
    an allocation owned by one Task has exactly its admitting borrower. *)
Theorem borrowers_within_allocation (a : CapacityAuthority) (id : string)
    (record : CapacityAllocation)
    (Ha : rtc authority_step authority_new a)
    (Hid : cl_allocations (cau_capacity_ledger a) !! id = Some record) :
  (total bo_units (al_borrowers record) <= rg_allocation_units (al_original record))%N /\
  NoDup (borrower_key <$> al_borrowers record) /\
  (forall b, b ∈ al_borrowers record -> (0 < bo_units b)%N) /\
  (forall task, rg_owner (al_original record) = OwnerTask task ->
     al_borrowers record = [MkBorrower task (rg_role_id (al_original record))
                              (rg_units (al_original record))]).
Proof.
  destruct (reachable_authority_ok a Ha) as [[Hok _] _ _].
  destruct (co_records _ Hok id record Hid) as [_ _ Hb Hp Hw Ht].
  split_and!; try done. by apply canonical_NoDup.
Qed.

(** C22. Capacity and quota agree: for every configured Compute limit of a tenant, the units
    of all allocations the tenant holds are within the limit, because every allocation
    has exactly its own quota claim and every allocation claim its allocation. *)
Theorem allocations_within_quota (a : CapacityAuthority) (l : ResourceQuotaLimit)
    (Ha : rtc authority_step authority_new a)
    (Hl : l ∈ ql_limits (cau_quota_ledger a)) (Hkind : lim_kind l = Compute) :
  (map_total (tenant_units (lim_tenant_id l)) (cl_allocations (cau_capacity_ledger a))
     <= lim_max_units l)%N /\
  (forall id, is_Some (cl_allocations (cau_capacity_ledger a) !! id) <->
     exists c, c ∈ ql_claims (cau_quota_ledger a) /\ qc_allocation_id c = Some id).
Proof.
  pose proof (reachable_authority_ok a Ha) as Hok. split.
  - pose proof (tenant_units_committed _ _ (lim_tenant_id l) Hok) as Ht.
    pose proof (lo_within _ (au_quota _ _ Hok) l Hl) as Hw. rewrite Hkind in Hw. lia.
  - destruct Hok as [[Hok _] _ [Hc Hal]]. intros id. split.
    + intros [r Hr]. exists (original_claim (al_original r)). split; [by eapply Hc|].
      simpl. f_equal. apply (co_records _ Hok id r Hr).
    + intros (c & Hin & Ec). by eapply Hal.
Qed.

(** Admission is idempotent: admitting the same request again changes nothing and
    returns the same grant. *)
Theorem admission_idempotent (a : CapacityAuthority) (request : CapacityRequest)
    (ledger : CapacityLedger) (grant : ResourceAllocationGrant)
    (Ha : rtc authority_step authority_new a) (Hreq : request_ok request)
    (Hrun : CapacityLedger_admit (cau_capacity_ledger a) request = Some (Ok (ledger, grant))) :
  CapacityLedger_admit ledger request = Some (Ok (ledger, grant)).
Proof.
  destruct (reachable_authority_ok a Ha) as [Hl _ _]. by eapply admit_idempotent.
Qed.

(** Releasing a Task ends exactly its borrowing: allocations of other Groups are
    untouched; in the Group every other borrower stays; a Context allocation is kept even
    when its last borrower leaves, a Task allocation goes with its borrower; and the quota
    claims that disappear are exactly those of the removed allocations. *)
Theorem task_release_exact (a : CapacityAuthority) (group : ExecutionGroupId) (task : TaskRef)
    (role : option RoleId) (id : string) (record : CapacityAllocation)
    (Ha : rtc authority_step authority_new a)
    (Hid : cl_allocations (cau_capacity_ledger a) !! id = Some record) :
  let a' := release_capacity_task group task role a in
  cl_allocations (cau_capacity_ledger a') !! id =
    (if decide (rg_group_id (al_original record) = group) then
       let kept := List.filter (keeps_borrower task role) (al_borrowers record) in
       if is_context (rg_owner (al_original record)) || negb (length kept =? 0)%nat
       then Some (with_borrowers record kept) else None
     else Some record) /\
  (forall c, c ∈ ql_claims (cau_quota_ledger a') <->
     c ∈ ql_claims (cau_quota_ledger a) /\
     (forall k, qc_allocation_id c = Some k ->
        is_Some (cl_allocations (cau_capacity_ledger a') !! k))).
Proof.
  destruct (reachable_authority_ok a Ha) as [_ _ [_ Hal]]. simpl. split.
  - rewrite lookup_omap, Hid. simpl. unfold after_task_release. by case_bool_decide; case_decide.
  - intros c. rewrite elem_of_released. split; intros [Hin Hall]; (split; [done|]).
    + intros k Ek. destruct (Hal c k Hin Ek) as [r Hr].
      destruct (omap _ _ !! k) as [r'|] eqn:E; [by eexists|]. exfalso. apply (Hall k); [|done].
      apply list_elem_of_In, filter_In. split.
      * apply list_elem_of_In, elem_of_btree_keys. by exists r.
      * by apply negb_true_iff, contains_key_false.
    + intros k Hk Ek. apply list_elem_of_In, filter_In in Hk as [_ Hk].
      apply negb_true_iff, contains_key_false in Hk. destruct (Hall k Ek). congruence.
Qed.
End Claims.

Lemma pool_never_overcommitted_witness : exists id newest,
  cl_allocations (cau_capacity_ledger fa_authority) !! id = Some newest /\
  (committed_units (cau_capacity_ledger fa_authority) (MkId "gpu1")
     <= rg_admitted_capacity (al_original newest))%N.
Proof.
  destruct (pool_never_overcommitted fa_authority (MkId "gpu1") fa_reachable)
    as (id & newest & Hid & _ & _ & Hle).
  - vm_compute. reflexivity.
  - exists id, newest. split; [exact Hid|exact Hle].
Defined.

Lemma borrowers_within_allocation_witness :
  (total bo_units (al_borrowers fa_record) <= rg_allocation_units (al_original fa_record))%N.
Proof.
  exact (proj1 (borrowers_within_allocation fa_authority fa_id fa_record fa_reachable fa_lookup)).
Defined.

Lemma allocations_within_quota_witness :
  (map_total (tenant_units "tenant") (cl_allocations (cau_capacity_ledger fa_authority)) <= 6)%N.
Proof.
  apply (allocations_within_quota fa_authority (MkLimit "tenant" Compute 6) fa_reachable).
  - vm_compute. left.
  - reflexivity.
Defined.

Definition fa_first : CapacityLedger :=
  MkCapacityLedger 1 {[fa_id := new_allocation (fa_request "t1" 2)
                                  (new_grant (fa_request "t1" 2) 1 fa_id)]}.

Lemma admission_idempotent_witness :
  CapacityLedger_admit fa_first (fa_request "t1" 2) = Some (Ok (fa_first, new_grant (fa_request "t1" 2) 1 fa_id)).
Proof.
  apply (admission_idempotent authority_new (fa_request "t1" 2) fa_first
    (new_grant (fa_request "t1" 2) 1 fa_id) (rtc_refl _ _)).
  - reflexivity.
  - vm_compute. reflexivity.
Defined.

Lemma task_release_exact_witness :
  cl_allocations (cau_capacity_ledger
    (release_capacity_task (MkId "g1") (fa_task "t1") None fa_authority)) !! fa_id =
  Some (with_borrowers fa_record [MkBorrower (fa_task "t2") (MkId "r1") 3]).
Proof.
  rewrite (proj1 (task_release_exact fa_authority (MkId "g1") (fa_task "t1") None fa_id fa_record
    fa_reachable fa_lookup)). vm_compute. reflexivity.
Defined.

(** * Properties of tenant quotas *)

Open Scope string_scope.

(** ** A ledger *)

Definition fq_claim (id : string) (units : N) : QuotaClaim :=
  MkClaim (resource_claim_id id) "tenant" Compute units (Some (MkId id)) None.
Definition fq_ledger : QuotaLedger :=
  match set_limit QuotaLedger_new "tenant" Compute 5 with
  | Ok q => match track_resource q (fq_claim "gpu" 2) with Ok q' => q' | Err _ => q end
  | Err _ => QuotaLedger_new
  end.

Lemma fq_limited : set_limit QuotaLedger_new "tenant" Compute 5
  = Ok (MkLedger [MkLimit "tenant" Compute 5] []).
Proof. vm_compute. reflexivity. Qed.

Lemma fq_tracked : track_resource (MkLedger [MkLimit "tenant" Compute 5] []) (fq_claim "gpu" 2)
  = Ok fq_ledger.
Proof. vm_compute. reflexivity. Qed.

Lemma fq_reachable : rtc quota_step QuotaLedger_new fq_ledger.
Proof.
  eapply rtc_l; [exact (qs_set_limit _ _ _ _ _ fq_limited)|].
  apply rtc_once. exact (qs_track_resource _ _ _ fq_tracked).
Qed.

(** ** Accounting *)

(** No sequence of ledger operations exceeds a configured limit: in every reachable
    ledger the exact units committed by a tenant in a category are at most its limit, the
    saturating 64-bit [used] is that exact sum, and [remaining] is the rest of the limit. *)
Theorem quota_never_exceeded (q : QuotaLedger) (l : ResourceQuotaLimit)
    (Hq : rtc quota_step QuotaLedger_new q) (Hl : l ∈ ql_limits q) :
  (committed q (lim_tenant_id l) (lim_kind l) <= lim_max_units l)%N /\
  used q (lim_tenant_id l) (lim_kind l) = committed q (lim_tenant_id l) (lim_kind l) /\
  remaining q (lim_tenant_id l) (lim_kind l)
    = Some (lim_max_units l - committed q (lim_tenant_id l) (lim_kind l))%N.
Proof.
  apply reachable_ledger_ok in Hq. pose proof (used_exact q l Hq Hl) as Eu.
  split_and!; [by apply (lo_within _ Hq)|done|].
  unfold remaining. destruct (find_limit q (lim_tenant_id l) (lim_kind l)) as [l'|] eqn:E.
  - apply find_limit_Some in E as (Hl' & Et & Ek). simpl. rewrite Eu.
    replace l' with l; [done|]. symmetry.
    apply (canonical_key_inj limit_key (ql_limits q)); [apply Hq|done|done|].
    unfold limit_key. congruence.
  - exfalso. assert (limits_of (lim_tenant_id l) (lim_kind l) l = false) as Hf
      by (by eapply find_absent in E).
    apply not_true_iff_false in Hf. by apply Hf, limits_of_true.
Qed.

Lemma quota_never_exceeded_witness : used fq_ledger "tenant" Compute = 2%N.
Proof.
  destruct (quota_never_exceeded fq_ledger (MkLimit "tenant" Compute 5) fq_reachable) as (_ & E & _).
  - left.
  - exact E.
Defined.

(** Tracking a valid claim either finds the same claim already recorded and changes
    nothing, or records it as a new one within the limit of its tenant, charging exactly
    its units to that tenant and category and nothing to any other; it is refused exactly
    when its identity belongs to a different claim or the limit would be exceeded. *)
Theorem track_exact (q : QuotaLedger) (c : QuotaClaim) (tenant : string) (kind : ResourceKind)
    (Hq : rtc quota_step QuotaLedger_new q) (Hc : validate_claim c = Ok tt) :
  match track q c with
  | Ok q' =>
      (c ∈ ql_claims q /\ q' = q) \/
      (ql_limits q' = ql_limits q /\ ql_claims q' ≡ₚ c :: ql_claims q /\
       committed q' tenant kind =
         (committed q tenant kind +
          if decide ((qc_tenant_id c, qc_kind c) = (tenant, kind)) then qc_units c else 0)%N)
  | Err ClaimConflict => exists old, old ∈ ql_claims q /\ qc_claim_id old = qc_claim_id c /\ old <> c
  | Err (Exceeded limit u requested) =>
      u = committed q (qc_tenant_id c) (qc_kind c) /\ requested = qc_units c /\
      (limit < u + requested)%N /\ MkLimit (qc_tenant_id c) (qc_kind c) limit ∈ ql_limits q
  | Err _ => False
  end.
Proof.
  apply reachable_ledger_ok in Hq. pose proof (track_cases q c Hq Hc) as Hcases.
  destruct (track q c) as [q'|]; [|done].
  destruct Hcases as [?|(Hf & -> & Had)]; [by left|right]. split; [done|]. split.
  - simpl. rewrite sort_by_Permutation. apply Permutation_app_comm.
  - rewrite committed_add. f_equal. case_decide as E.
    + injection E as <- <-. apply charge_self.
    + by apply charge_other.
Qed.

Lemma track_exact_witness :
  match track fq_ledger (fq_claim "arm" 4) with
  | Err (Exceeded limit u requested) => (limit < u + requested)%N
  | _ => False
  end.
Proof.
  pose proof (track_exact fq_ledger (fq_claim "arm" 4) "tenant" Compute fq_reachable
    (ltac:(vm_compute; reflexivity) : validate_claim (fq_claim "arm" 4) = Ok tt)) as H.
  assert (track fq_ledger (fq_claim "arm" 4) = Err (Exceeded 5 2 4)) as E by (vm_compute; reflexivity).
  rewrite E in *. exact (proj1 (proj2 (proj2 H))).
Defined.

(** A resource commitment retains the largest demand while the resource stays held: the
    recorded units of the claim become the maximum of the old and the new demand, and no
    other claim changes. *)
Theorem track_resource_keeps_largest (q q' : QuotaLedger) (c old : QuotaClaim)
    (Hq : rtc quota_step QuotaLedger_new q) (Hrun : track_resource q c = Ok q')
    (Hold : old ∈ ql_claims q) (Hid : qc_claim_id old = qc_claim_id c)
    (Hexclusive : qc_allocation_id c = None) :
  ql_limits q' = ql_limits q /\
  forall x, x ∈ ql_claims q' <->
    x = with_units old (N.max (qc_units old) (qc_units c)) \/ (x ∈ ql_claims q /\ x <> old).
Proof.
  apply reachable_ledger_ok in Hq. unfold track_resource in Hrun.
  destruct (is_none (qc_resource_id c)); [done|].
  destruct (validate_claim c) as [[]|]; [|done]. simpl in Hrun. rewrite Hexclusive in Hrun. simpl in Hrun.
  destruct (list_find _ (ql_claims q)) as [[i item]|] eqn:Ef.
  2: { apply list_find_None in Ef. rewrite Forall_forall in Ef. destruct (Ef old Hold). by apply String.eqb_eq. }
  apply list_find_Some in Ef as (Hi & Ek%String.eqb_eq & _).
  assert (item = old) as ->.
  { apply (canonical_key_inj qc_claim_id (ql_claims q)); [apply Hq| |done|congruence].
    by eapply list_elem_of_lookup_2. }
  unfold grow_claim in Hrun. destruct (_ || _); [done|].
  assert (with_units old (qc_units old) = old) as Eold by (by destruct old).
  destruct (N.leb_spec (qc_units c) (qc_units old)) as [Hle|Hgt].
  { injection Hrun as <-. split; [done|]. intros x. rewrite N.max_l by done. rewrite Eold.
    destruct (decide (x = old)) as [->|]; naive_solver. }
  rewrite N.max_r by lia.
  assert (q' = MkLedger (ql_limits q) (<[i := with_units old (qc_units c)]> (ql_claims q))) as ->
    by (repeat (case_match; try done); congruence).
  split; [done|]. intros x. simpl. split.
  - intros (j & Hj)%list_elem_of_lookup. apply list_lookup_insert_Some in Hj.
    destruct Hj as [(_ & <- & _)|[Hne Hj]]; [by left|right].
    split; [by eapply list_elem_of_lookup_2|]. intros ->. apply Hne.
    eapply (NoDup_lookup (qc_claim_id <$> ql_claims q)); [by apply canonical_NoDup, Hq|
      rewrite list_lookup_fmap, Hi; done|rewrite list_lookup_fmap, Hj; done].
  - intros [->|[Hx Hne]].
    + eapply list_elem_of_lookup_2, list_lookup_insert_eq, lookup_lt_Some, Hi.
    + apply list_elem_of_lookup in Hx as [j Hj]. apply (list_elem_of_lookup_2 _ j).
      rewrite list_lookup_insert_ne; [done|]. intros ->. simplify_eq.
Qed.

Lemma track_resource_keeps_largest_witness :
  with_units (fq_claim "gpu" 2) 4 ∈
    ql_claims (match track_resource fq_ledger (fq_claim "gpu" 4) with
               | Ok q => q | Err _ => QuotaLedger_new end).
Proof.
  apply (track_resource_keeps_largest fq_ledger
    (match track_resource fq_ledger (fq_claim "gpu" 4) with
     | Ok q => q | Err _ => QuotaLedger_new end) (fq_claim "gpu" 4) (fq_claim "gpu" 2) fq_reachable).
  - vm_compute. reflexivity.
  - vm_compute. left.
  - reflexivity.
  - reflexivity.
  - left. reflexivity.
Defined.

(** Releasing a claim undoes tracking it: after a fresh claim was tracked, releasing its
    identity answers that a claim was removed and restores the ledger exactly. *)
Theorem track_release_roundtrip (q q' : QuotaLedger) (c : QuotaClaim)
    (Hq : rtc quota_step QuotaLedger_new q) (Hfresh : find_claim q (qc_claim_id c) = None)
    (Hrun : track q c = Ok q') :
  release q' (qc_claim_id c) = Ok (q, true).
Proof.
  apply reachable_ledger_ok in Hq. pose proof (track_valid _ _ _ Hrun) as Hv.
  pose proof (track_cases q c Hq Hv) as Hcases. rewrite Hrun in Hcases.
  destruct Hcases as [[Hin _]|(_ & -> & _)].
  { by apply (find_claim_None _ _ Hfresh) in Hin. }
  unfold release. unfold validate_claim in Hv.
  destruct (quota_text (qc_claim_id c) "claim_id"); [|done]. simpl.
  set (keep := fun x => negb (qc_claim_id x =? qc_claim_id c)%string).
  assert (List.filter keep (sort_by (by_key qc_claim_id) (ql_claims q ++ [c])) = ql_claims q) as E.
  { apply (canonical_unique qc_claim_id).
    - apply canonical_filter, push_canonical; [apply Hq|]. by apply find_claim_None.
    - apply Hq.
    - apply NoDup_Permutation.
      + apply (NoDup_fmap_1 qc_claim_id), canonical_NoDup, canonical_filter, push_canonical;
          [apply Hq|]. by apply find_claim_None.
      + apply (NoDup_fmap_1 qc_claim_id), canonical_NoDup, Hq.
      + intros x. rewrite list_elem_of_In, filter_In, <- list_elem_of_In, elem_of_sort_by,
          elem_of_app, list_elem_of_singleton. unfold keep. rewrite negb_true_iff, String.eqb_neq.
        pose proof (find_claim_None _ _ Hfresh x). naive_solver. }
  unfold retain_claims, add_claim. simpl. rewrite E. do 2 f_equal; [by destruct q|].
  rewrite length_sort_by, length_app. simpl. apply negb_true_iff, Nat.eqb_neq. lia.
Qed.

Lemma track_release_roundtrip_witness :
  release (match track fq_ledger (fq_claim "arm" 3) with Ok q => q | Err _ => QuotaLedger_new end)
    (resource_claim_id "arm") = Ok (fq_ledger, true).
Proof.
  apply (track_release_roundtrip fq_ledger _ (fq_claim "arm" 3) fq_reachable);
    vm_compute; reflexivity.
Defined.

(** ** Checkpoints *)

(** Checkpoint validation accepts exactly the well-formed ledgers: one limit per tenant
    and category and one claim per identity, in order and valid, within every limit, and a
    resource charged by more than one claim only through allocations of it. *)
Theorem quota_validate_exact (q : QuotaLedger) :
  QuotaLedger_validate q = Ok tt <-> ledger_ok q /\ unmixed (ql_claims q).
Proof. apply validate_iff. Qed.
