(* ===== verification/Federation.v ===== *)
(** * Cross-domain transactions

    [core/control/src/federation.rs] and the session operations of
    [core/control/src/lib.rs]: a participant prepares an exact transaction and later
    commits or aborts it before a fixed deadline.  A failed operation changes nothing. *)

From S2P Require Import Prelude Identity Execution StateModel Resource Scheduler.

Open Scope string_scope.

Inductive FederationSessionState := Prepared | FsCommitted | Aborted.

#[export] Instance FederationSessionState_eq_dec : EqDecision FederationSessionState.
Proof. solve_decision. Defined.

Record FederationSession := MkFederationSession {
  fs_transaction_id : string;
  fs_source_domain : string;
  fs_target_domain : string;
  fs_tenant_id : string;
  fs_source_epoch : N;
  fs_plan_digest : string;
  fs_ownership_digest : string;
  fs_deadline : TimestampMs;
  fs_state : FederationSessionState
}.

#[export] Instance FederationSession_eq_dec : EqDecision FederationSession.
Proof. solve_decision. Defined.

(** [valid_digest]: a hexadecimal digit that is not upper case is a lower-case one. *)
Definition valid_digest (value : string) : bool :=
  is_some_and (fun hex => (str_len hex =? 64)%N && all_bytes is_lower_hex hex)
    (strip_prefix "sha256:" value).

Definition FederationSession_validate_at (s : FederationSession) (now : TimestampMs)
  : Result unit string :=
  if is_blank (fs_transaction_id s) || (256 <? str_len (fs_transaction_id s))%N
     || is_blank (fs_source_domain s) || (128 <? str_len (fs_source_domain s))%N
     || is_blank (fs_target_domain s) || (128 <? str_len (fs_target_domain s))%N
     || (fs_source_domain s =? fs_target_domain s)%string
     || (128 <? str_len (fs_tenant_id s))%N
     || (fs_source_epoch s =? 0)%N
     || negb (valid_digest (fs_plan_digest s)) || negb (valid_digest (fs_ownership_digest s))
     || (fs_deadline s <=? now)%N
  then Err "federation session identity or deadline is invalid"
  else Ok tt.

(** [ControlPlane::federation_sessions]. *)
Abbreviation Sessions := (gmap string FederationSession).

Definition with_state (s : FederationSession) (state : FederationSessionState)
  : FederationSession :=
  MkFederationSession (fs_transaction_id s) (fs_source_domain s) (fs_target_domain s)
    (fs_tenant_id s) (fs_source_epoch s) (fs_plan_digest s) (fs_ownership_digest s)
    (fs_deadline s) state.

Definition prepare_federation_session (m : Sessions) (s : FederationSession) (now : TimestampMs)
  : Result Sessions ControlError :=
  if negb (bool_decide (fs_state s = Prepared)) || is_blank (fs_tenant_id s)
  then Err (InvalidProposal "new federation prepare requires an exact tenant and Prepared phase")
  else
  let? _v := result_map_err InvalidProposal (FederationSession_validate_at s now) in
  match m !! fs_transaction_id s with
  | Some existing =>
      if bool_decide (existing = s) then Ok m
      else Err (InvalidProposal "federation transaction identity conflicts")
  | None => Ok (<[fs_transaction_id s := s]> m)
  end.

(** The commit names exactly the prepared epoch and digests. *)
Definition names_session (s : FederationSession) (source_epoch : N)
    (plan_digest ownership_digest : string) : bool :=
  (fs_source_epoch s =? source_epoch)%N && (fs_plan_digest s =? plan_digest)%string
  && (fs_ownership_digest s =? ownership_digest)%string.

Definition commit_federation_session (m : Sessions) (transaction_id : string) (source_epoch : N)
    (plan_digest ownership_digest : string) (now : TimestampMs) : Result Sessions ControlError :=
  match m !! transaction_id with
  | None => Err (InvalidProposal "unknown federation transaction")
  | Some s =>
      if is_blank (fs_tenant_id s)
      then Err (InvalidProposal "legacy federation tenant authority is unavailable") else
      if bool_decide (fs_state s = FsCommitted)
         && names_session s source_epoch plan_digest ownership_digest
      then Ok m else
      if negb (bool_decide (fs_state s = Prepared))
         || negb (names_session s source_epoch plan_digest ownership_digest)
         || (fs_deadline s <=? now)%N
      then Err (InvalidProposal "federation commit is stale, expired or identity-mismatched")
      else Ok (<[transaction_id := with_state s FsCommitted]> m)
  end.

Definition abort_federation_session (m : Sessions) (transaction_id : string) (now : TimestampMs)
  : Result Sessions ControlError :=
  match m !! transaction_id with
  | None => Err (InvalidProposal "unknown federation transaction")
  | Some s =>
      if bool_decide (fs_state s = Aborted) then Ok m else
      if negb (bool_decide (fs_state s = Prepared)) || (fs_deadline s <=? now)%N
      then Err (InvalidProposal "federation abort is stale or no longer prepared")
      else Ok (<[transaction_id := with_state s Aborted]> m)
  end.

Definition federation_dispatch_ready (m : Sessions) (transaction_id : string) (now : TimestampMs)
  : bool :=
  is_some_and (fun s => negb (is_blank (fs_tenant_id s)) && bool_decide (fs_state s = FsCommitted)
                        && (now <? fs_deadline s)%N) (m !! transaction_id).

(** ** Runs

    A run carries the clock of the controller, which never goes back, and the commits it
    performed. *)

Record FederationRun := MkRun {
  fr_sessions : Sessions;
  fr_now : TimestampMs;
  fr_commits : list (string * N * string * string * TimestampMs)
}.

Definition federation_start : FederationRun := MkRun ∅ 0 [].

Inductive federation_step : FederationRun -> FederationRun -> Prop :=
| fd_prepare r s now m : (fr_now r <= now)%N ->
    prepare_federation_session (fr_sessions r) s now = Ok m ->
    federation_step r (MkRun m now (fr_commits r))
| fd_commit r id epoch plan ownership now m : (fr_now r <= now)%N ->
    commit_federation_session (fr_sessions r) id epoch plan ownership now = Ok m ->
    federation_step r (MkRun m now ((id, epoch, plan, ownership, now) :: fr_commits r))
| fd_abort r id now m : (fr_now r <= now)%N ->
    abort_federation_session (fr_sessions r) id now = Ok m ->
    federation_step r (MkRun m now (fr_commits r)).

(** * Properties of cross-domain transactions *)

Open Scope string_scope.

(** ** One step *)

(** A later state of a session: the identity never changes and a decision is final. *)
Definition later (s s' : FederationSession) : Prop :=
  s' = with_state s (fs_state s') /\ (fs_state s <> Prepared -> s' = s).

Lemma later_refl s : later s s.
Proof. split; [by destruct s|done]. Qed.

Lemma later_trans a b c : later a b -> later b c -> later a c.
Proof.
  intros [Eb Fb] [Ec Fc]. split.
  - rewrite Ec, Eb. by destruct a.
  - intros Hd. rewrite (Fb Hd) in *. by apply Fc.
Qed.

Lemma step_later r r' id s :
  federation_step r r' -> fr_sessions r !! id = Some s ->
  exists s', fr_sessions r' !! id = Some s' /\ later s s'.
Proof.
  intros Hstep Hs. destruct Hstep as [r s1 now m _ E|r id' epoch plan own now m _ E|r id' now m _ E]; simpl.
  - unfold prepare_federation_session in E. destruct (_ || _); [done|].
    destruct (result_map_err _ _); [|done]. simpl in E.
    destruct (fr_sessions r !! fs_transaction_id s1) as [old|] eqn:El.
    + case_bool_decide; simplify_eq. exists s. split; [done|apply later_refl].
    + injection E as <-. exists s. rewrite lookup_insert_ne by congruence. split; [done|apply later_refl].
  - unfold commit_federation_session in E. destruct (fr_sessions r !! id') as [old|] eqn:El; [|done].
    destruct (is_blank _); [done|]. destruct (bool_decide _ && _); [simplify_eq; eauto using later_refl|].
    destruct (bool_decide_reflect (fs_state old = Prepared)) as [Ep|]; simpl in E; [|done].
    destruct (_ || _); [done|]. injection E as <-.
    destruct (decide (id' = id)) as [->|]; [|exists s; rewrite lookup_insert_ne by done; eauto using later_refl].
    rewrite lookup_insert_eq. eexists. split; [done|]. simplify_eq. split; [done|]. by rewrite Ep.
  - unfold abort_federation_session in E. destruct (fr_sessions r !! id') as [old|] eqn:El; [|done].
    destruct (bool_decide (fs_state old = Aborted)); [simplify_eq; eauto using later_refl|].
    destruct (bool_decide_reflect (fs_state old = Prepared)) as [Ep|]; simpl in E; [|done].
    destruct (_ <=? _)%N; [done|]. injection E as <-.
    destruct (decide (id' = id)) as [->|]; [|exists s; rewrite lookup_insert_ne by done; eauto using later_refl].
    rewrite lookup_insert_eq. eexists. split; [done|]. simplify_eq. split; [done|]. by rewrite Ep.
Qed.

Lemma run_later r r' id s :
  rtc federation_step r r' -> fr_sessions r !! id = Some s ->
  exists s', fr_sessions r' !! id = Some s' /\ later s s'.
Proof.
  intros Hr. revert s. induction Hr as [r|r r1 r2 Hs Hr IH]; intros s Hl.
  - exists s. split; [done|apply later_refl].
  - destruct (step_later _ _ _ _ Hs Hl) as (s1 & Hl1 & L1). destruct (IH s1 Hl1) as (s2 & Hl2 & L2).
    exists s2. split; [done|]. by eapply later_trans.
Qed.

(** What a run knows about its sessions: who committed, and when. *)
Record run_ok (r : FederationRun) : Prop := {
  ro_key : forall id s, fr_sessions r !! id = Some s -> fs_transaction_id s = id;
  ro_tenant : forall id s, fr_sessions r !! id = Some s -> is_blank (fs_tenant_id s) = false;
  ro_committed : forall id s, fr_sessions r !! id = Some s -> fs_state s = FsCommitted ->
    exists at_, (id, fs_source_epoch s, fs_plan_digest s, fs_ownership_digest s, at_) ∈ fr_commits r /\
                (at_ < fs_deadline s)%N
}.

Lemma step_run_ok r r' : federation_step r r' -> run_ok r -> run_ok r'.
Proof.
  intros Hstep [Hk Ht Hc].
  destruct Hstep as [r s1 now m _ E|r id' epoch plan own now m _ E|r id' now m _ E].
  - unfold prepare_federation_session in E.
    destruct (bool_decide_reflect (fs_state s1 = Prepared)) as [Ep|]; simpl in E; [|done].
    destruct (is_blank (fs_tenant_id s1)) eqn:Eb; [done|].
    destruct (result_map_err _ _); [|done]. simpl in E.
    destruct (fr_sessions r !! fs_transaction_id s1) as [old|] eqn:El.
    { case_bool_decide; simplify_eq. by split. }
    injection E as <-. split; simpl.
    + intros id s [[<- <-]|[_ Hs]]%lookup_insert_Some; [done|by apply Hk].
    + intros id s [[<- <-]|[_ Hs]]%lookup_insert_Some; [done|by eapply Ht].
    + intros id s [[<- <-]|[_ Hs]]%lookup_insert_Some; [congruence|by apply Hc].
  - unfold commit_federation_session in E. destruct (fr_sessions r !! id') as [old|] eqn:El; [|done].
    destruct (is_blank (fs_tenant_id old)) eqn:Eb; [done|].
    assert (forall id s, fr_sessions r !! id = Some s -> fs_state s = FsCommitted ->
      exists at_, (id, fs_source_epoch s, fs_plan_digest s, fs_ownership_digest s, at_)
                    ∈ (id', epoch, plan, own, now) :: fr_commits r /\ (at_ < fs_deadline s)%N) as Hc'.
    { intros id s Hs Hst. destruct (Hc id s Hs Hst) as (at_ & ? & ?). exists at_. split; [by right|done]. }
    destruct (bool_decide _ && _); [simplify_eq; by split|].
    destruct (bool_decide_reflect (fs_state old = Prepared)) as [Ep|]; simpl in E; [|done].
    destruct (names_session old epoch plan own) eqn:En; simpl in E; [|done].
    destruct (N.leb_spec (fs_deadline old) now) as [|Hd]; [done|]. injection E as <-.
    unfold names_session in En. apply andb_true_iff in En as [[E1%N.eqb_eq E2%String.eqb_eq]%andb_true_iff
      E3%String.eqb_eq]. split; simpl.
    + intros id s [[<- <-]|[_ Hs]]%lookup_insert_Some; [by apply (Hk id' old)|by apply Hk].
    + intros id s [[<- <-]|[_ Hs]]%lookup_insert_Some; [done|by eapply Ht].
    + intros id s [[<- <-]|[_ Hs]]%lookup_insert_Some; [|by apply Hc'].
      intros _. exists now. simpl. rewrite E1, E2, E3. split; [by left|done].
  - unfold abort_federation_session in E. destruct (fr_sessions r !! id') as [old|] eqn:El; [|done].
    destruct (bool_decide (fs_state old = Aborted)); [simplify_eq; by split|].
    destruct (_ || _); [done|]. injection E as <-. split; simpl.
    + intros id s [[<- <-]|[_ Hs]]%lookup_insert_Some; [by apply (Hk id' old)|by apply Hk].
    + intros id s [[<- <-]|[_ Hs]]%lookup_insert_Some; [by apply (Ht id' old)|by eapply Ht].
    + intros id s [[<- <-]|[_ Hs]]%lookup_insert_Some; [done|by apply Hc].
Qed.

Lemma reachable_run_ok r : rtc federation_step federation_start r -> run_ok r.
Proof.
  intros Hr. assert (run_ok federation_start) as H0.
  { split; simpl; intros; simplify_map_eq. }
  revert H0. induction Hr as [r|r r1 r2 Hs Hr IH]; intros H0; [done|]. by eapply IH, step_run_ok.
Qed.

(** ** A run *)

Definition ff_digest : string :=
  "sha256:0123456789abcdef0123456789abcdef0123456789abcdef0123456789abcdef".
Definition ff_session : FederationSession :=
  MkFederationSession "tx1" "north" "south" "tenant" 4 ff_digest ff_digest 100 Prepared.
Definition ff_prepared : FederationRun := MkRun {["tx1" := ff_session]} 10 [].
Definition ff_committed : FederationRun :=
  MkRun {["tx1" := with_state ff_session FsCommitted]} 20 [("tx1", 4%N, ff_digest, ff_digest, 20%N)].

Lemma ff_prepare : federation_step federation_start ff_prepared.
Proof. apply (fd_prepare federation_start ff_session 10); [simpl; lia|]. vm_compute. reflexivity. Qed.

Lemma ff_commit : federation_step ff_prepared ff_committed.
Proof.
  apply (fd_commit ff_prepared "tx1" 4 ff_digest ff_digest 20); [simpl; lia|].
  vm_compute. reflexivity.
Qed.

(** C38. A cross-domain decision is final: whatever is prepared, committed or aborted later,
    a session that was committed or aborted keeps exactly that state, a session never
    disappears, and no operation changes its tenant, domains, epoch, digests or deadline. *)
Theorem federation_decision_final (r r' : FederationRun) (id : string) (s : FederationSession)
    (Hrun : rtc federation_step r r') (Hs : fr_sessions r !! id = Some s) :
  exists s', fr_sessions r' !! id = Some s' /\ s' = with_state s (fs_state s') /\
    (fs_state s <> Prepared -> s' = s).
Proof. destruct (run_later r r' id s Hrun Hs) as (s' & Hl & Hw & Hf). eauto. Qed.

Lemma federation_decision_final_witness : exists s',
  fr_sessions ff_committed !! "tx1" = Some s' /\ s' = with_state ff_session (fs_state s').
Proof.
  destruct (federation_decision_final ff_prepared ff_committed "tx1" ff_session
    (rtc_once _ _ ff_commit) eq_refl) as (s' & Hs & Hw & _).
  exists s'. split; [exact Hs|exact Hw].
Defined.

(** Dispatch of a cross-domain transaction needs a matching commit: if a transaction is
    ready for dispatch then its tenant is known, the deadline lies ahead, and a commit
    naming exactly the prepared epoch, plan and ownership digests happened before the
    deadline. *)
Theorem federation_dispatch_committed (r : FederationRun) (id : string) (now : TimestampMs)
    (Hrun : rtc federation_step federation_start r)
    (Hready : federation_dispatch_ready (fr_sessions r) id now = true) :
  exists s at_, fr_sessions r !! id = Some s /\ fs_transaction_id s = id /\
    is_blank (fs_tenant_id s) = false /\ (now < fs_deadline s)%N /\ (at_ < fs_deadline s)%N /\
    (id, fs_source_epoch s, fs_plan_digest s, fs_ownership_digest s, at_) ∈ fr_commits r.
Proof.
  destruct (reachable_run_ok r Hrun) as [Hk Ht Hc]. unfold federation_dispatch_ready in Hready.
  apply is_some_and_true in Hready as (s & Hs & Hb).
  apply andb_true_iff in Hb as [[_ Hst%bool_decide_eq_true]%andb_true_iff Hn%N.ltb_lt].
  destruct (Hc id s Hs Hst) as (at_ & Hin & Hat). exists s, at_.
  split_and!; eauto.
Qed.

Lemma federation_dispatch_committed_witness : exists s at_,
  fr_sessions ff_committed !! "tx1" = Some s /\ (at_ < fs_deadline s)%N.
Proof.
  destruct (federation_dispatch_committed ff_committed "tx1" 30
    (rtc_l _ _ _ _ ff_prepare (rtc_once _ _ ff_commit)) (ltac:(vm_compute; reflexivity)))
    as (s & at_ & Hs & _ & _ & _ & Hat & _).
  exists s, at_. split; [exact Hs|exact Hat].
Defined.
