(* ===== verification/PropsNode.v ===== *)
(** * Properties of Node leases, sessions and the shared Node state *)

From S2P Require Import Prelude Identity Execution StateModel Resource Sorting Scheduler NodeIdentity.
From S2P Require Import NodeIdentityFacts NodeState Quota Capacity NodeAuthority NodeAuthorityFacts.

Open Scope string_scope.

Lemma existsb_false_elem {A} (f : A -> bool) l x : existsb f l = false -> x ∈ l -> f x = false.
Proof.
  intros E Hx. apply not_true_iff_false. intros Hf. apply not_true_iff_false in E. apply E.
  apply existsb_exists. exists x. by split; [apply list_elem_of_In|].
Qed.

(** ** A Node *)

Definition fn_node : NodeId := MkId "n1".
Definition fn_lease_id : LeaseId := MkId "lease-1".
Definition fn_registration : NodeRegistration :=
  MkRegistration fn_node [MkLocalSystem (MkId "default") (MkLocalRuntime "ros" "2") ∅]
    (MkId NODE_CONTRACT_VERSION_V0_14) [] [] ∅ ∅ ∅ ∅ [] []
    [MkResource (MkId "arm") Time 1 Exclusive None] ∅ [] [].
Definition fn_status : NodeStatus := MkNodeStatus Online 5.
Definition fn_lease : NodeLease := MkLease fn_lease_id fn_node 10 110.
Definition fn_session (fenced : bool) : NodeSessionAnchor :=
  MkSessionAnchor None None "s1" fn_lease_id 10 100 0 10 0 10 fenced.

Definition fn_start : NodeRun := node_run_start None.
Definition fn_registered : NodeRun :=
  fst (register_node_with_lease_received fn_registration fn_status fn_lease 8 10 fn_start).
Definition fn_session_authority : NodeAuthority :=
  fst (register_authenticated_node_session fn_node "s1" 100 None None (nr_authority fn_registered)).
Definition fn_opened : NodeRun := with_authority fn_registered fn_session_authority.
Definition fn_expired : NodeRun := fst (expire_leases 110 fn_opened).

Lemma fn_register_step : node_step 100 fn_start (NeRegistered fn_node) fn_registered.
Proof.
  apply (nt_register 100 fn_start fn_registration fn_status fn_lease fn_lease_id 8 10);
    vm_compute; reflexivity.
Qed.
Lemma fn_session_step : node_step 100 fn_registered NeOther fn_opened.
Proof.
  apply (nt_session 100 fn_registered fn_node "s1" None None fn_session_authority (Ok tt)).
  vm_compute. reflexivity.
Qed.
Lemma fn_expire_step : node_step 100 fn_opened NeOther fn_expired.
Proof. apply (nt_expire 100 fn_opened 110 fn_expired (Ok [fn_node])). vm_compute. reflexivity. Qed.

Lemma fn_opened_run : node_steps 100 fn_start fn_opened.
Proof.
  eapply rtc_l; [exists (NeRegistered fn_node); exact fn_register_step|].
  apply rtc_once. exists NeOther. exact fn_session_step.
Qed.
Lemma fn_expired_run : node_steps 100 fn_start fn_expired.
Proof. eapply rtc_r; [exact fn_opened_run|]. exists NeOther. exact fn_expire_step. Qed.

Lemma fn_reachable duration s : node_steps duration fn_start s -> node_run_ok duration s.
Proof. intros Hr. eapply node_steps_run; [apply node_run_start_ok|done]. Qed.

(** ** Declarations *)

(** C37. An aggregate registration is closed under ownership: it has at least one local
    system, their identities are distinct, every contract, sensor and resource is owned by
    one of them, sensors and resources have distinct identities, the resources are exactly
    the owned ones, and readiness is known exactly for the owned contracts. *)
Theorem registration_well_formed (node : NodeId) (systems : list LocalSystemDescriptor)
    (version : NodeContractVersion) (capabilities : list Capability)
    (owners : gmap CapabilityContractRef LocalSystemId)
    (kinds : gmap CapabilityContractRef CapabilityKind)
    (readiness : gmap CapabilityContractRef bool) (sensors : list SensorDescriptor)
    (resources : list Resource) (resource_owners : gmap ResourceId LocalSystemId)
    (r : NodeRegistration)
    (Hrun : NodeRegistration_new_with_local_systems_and_readiness node systems version capabilities
              owners kinds readiness sensors resources resource_owners = Ok r) :
  nd_local_systems r <> [] /\ NoDup (ls_id <$> nd_local_systems r) /\
  (forall contract owner, nd_capability_owners r !! contract = Some owner ->
     owner ∈ ls_id <$> nd_local_systems r) /\
  (forall contract, contract ∈ nd_supported_contracts r <->
     is_Some (nd_capability_owners r !! contract)) /\
  (forall contract, is_Some (nd_capability_readiness r !! contract) <->
     is_Some (nd_capability_owners r !! contract)) /\
  NoDup (se_id <$> nd_sensors r) /\
  (forall sensor, sensor ∈ nd_sensors r -> se_local_system_id sensor ∈ ls_id <$> nd_local_systems r) /\
  NoDup (res_id <$> nd_resources r) /\
  (forall id, id ∈ res_id <$> nd_resources r <-> is_Some (nd_resource_owners r !! id)) /\
  (forall id owner, nd_resource_owners r !! id = Some owner -> owner ∈ ls_id <$> nd_local_systems r).
Proof.
  unfold NodeRegistration_new_with_local_systems_and_readiness in Hrun.
  destruct (_ || _) eqn:E1 in Hrun; [done|]. destruct (_ || _) eqn:E2 in Hrun; [done|].
  destruct (owners_invalid _ _ _ _ _ _ _) eqn:E3; [done|]. injection Hrun as <-. simpl.
  unfold owners_invalid in E3.
  apply orb_false_iff in E3 as [E3 Hid]. apply orb_false_iff in E3 as [E3 Hres].
  apply orb_false_iff in E3 as [E3 Hsize]. apply orb_false_iff in E3 as [E3 Hro].
  apply orb_false_iff in E3 as [E3 Hsd]. apply orb_false_iff in E3 as [E3 Hso].
  apply orb_false_iff in E3 as [Hco _].
  apply orb_false_iff in E1 as [Hne%Nat.eqb_neq Hsys%negb_false_iff%Nat.eqb_eq].
  apply orb_false_iff in E2 as [Hready%negb_false_iff%bool_decide_eq_true _].
  apply negb_false_iff, Nat.eqb_eq in Hsize. apply negb_false_iff, Nat.eqb_eq in Hsd.
  assert (forall owner, set_contains owner (list_to_set (ls_id <$> systems)) = true ->
            owner ∈ ls_id <$> systems) as Hown.
  { intros owner E. bool_facts. set_solver. }
  assert (forall id, id ∈ res_id <$> resources <-> is_Some (resource_owners !! id)) as Hids.
  { intros id. split.
    - intros (resource & -> & Hin)%list_elem_of_fmap.
      pose proof (existsb_false_elem _ _ resource Hres Hin) as E. simpl in E. bool_facts. done.
    - intros Hin%elem_of_btree_keys. pose proof (existsb_false_elem _ _ id Hid Hin) as E.
      simpl in E. bool_facts. set_solver. }
  split_and!.
  - by intros ->.
  - by apply distinct_count_NoDup; rewrite length_fmap.
  - intros contract owner Ho. apply Hown, negb_false_iff, (existsb_false_elem _ _ owner Hco).
    apply elem_of_btree_values. eauto.
  - intros contract. by rewrite elem_of_btree_keys.
  - intros contract. by rewrite <- !elem_of_dom, Hready.
  - apply distinct_count_NoDup. by rewrite length_fmap.
  - intros sensor Hin. apply Hown, negb_false_iff, (existsb_false_elem _ _ sensor Hso Hin).
  - apply distinct_count_NoDup. rewrite length_fmap, <- Hsize. unfold distinct_count.
    rewrite <- size_dom. f_equal. apply set_eq. intros id.
    by rewrite elem_of_list_to_set, elem_of_dom.
  - done.
  - intros id owner Ho. apply Hown, negb_false_iff, (existsb_false_elem _ _ owner Hro).
    apply elem_of_btree_values. eauto.
Qed.

Definition fn_contract : CapabilityContractRef := MkContract "mobility" "reach" "v1".
Definition fn_aggregate : NodeRegistration :=
  MkRegistration fn_node [MkLocalSystem (MkId "motion") (MkLocalRuntime "ros" "2") ∅]
    (MkId NODE_CONTRACT_VERSION_V0_14) [MkCapability Mobility true] [fn_contract]
    {[fn_contract := MkId "motion"]} ∅ {[fn_contract := true]} ∅ [] []
    [MkResource (MkId "arm") Time 1 Exclusive None] {[(MkId "arm" : ResourceId) := MkId "motion"]} [] [].

Lemma registration_well_formed_witness :
  NoDup (res_id <$> nd_resources fn_aggregate).
Proof.
  apply (registration_well_formed fn_node
    [MkLocalSystem (MkId "motion") (MkLocalRuntime "ros" "2") ∅] (MkId NODE_CONTRACT_VERSION_V0_14)
    [MkCapability Mobility true] {[fn_contract := MkId "motion"]} ∅ {[fn_contract := true]} []
    [MkResource (MkId "arm") Time 1 Exclusive None] {[(MkId "arm" : ResourceId) := MkId "motion"]}
    fn_aggregate).
  vm_compute. reflexivity.
Defined.

(** ** Sessions *)

(** C24. A fenced Node stays out until it registers again.  In a controller that issues
    leases of one duration, after the lease of a Node expired or its route was lost and whatever
    follows but a registration of the Node (heartbeats, also by [accept_heartbeat], evidence,
    updates, expiries, changes of the rest of the controller), the session stays fenced, it
    is not the current session, no State of any session of the Node is current at any time,
    and heartbeats, liveness evidence and health evidence of sessions are refused without effect.
    The lease stays as it was as long as [accept_heartbeat], which looks at no session, is not
    called for the Node. *)
Theorem fenced_node_stays_out (duration : N) (registry : option NodeIdentityRegistry) (s s' : NodeRun)
    (node : NodeId) (session : NodeSessionAnchor)
    (Hreach : node_steps duration (node_run_start registry) s)
    (Hsession : na_node_sessions (nr_authority s) !! node = Some session)
    (Hfenced : an_fenced session = true)
    (Hrun : node_steps_without duration [NeRegistered node] s s') :
  (exists session', na_node_sessions (nr_authority s') !! node = Some session' /\
     an_session_id session' = an_session_id session /\ an_fenced session' = true) /\
  current_node_session (nr_authority s') node = None /\
  (forall session_id now, source_session_is_current (nr_authority s') node session_id now = false) /\
  (forall heartbeat received_at decision_at lease_ms, hb_node_id heartbeat = node ->
     exists e, accept_received_heartbeat heartbeat received_at decision_at lease_ms s' = (s', Err e)) /\
  (forall evidence decision_at, ev_node_id evidence = node ->
     accept_session_liveness evidence decision_at s' = (s', Ok false) /\
     accept_session_reported_health evidence decision_at s' = Some (s', Ok false)) /\
  (node_steps_without duration [NeRegistered node; NeRenewed node] s s' ->
   na_leases (nr_authority s') !! node = na_leases (nr_authority s) !! node).
Proof.
  pose proof (node_steps_run _ _ _ (node_run_start_ok duration registry) Hreach) as Hok.
  destruct (node_steps_kept _ _ _ _ Hok Hrun session Hsession) as (session' & H' & Hlat).
  pose proof (sl_fenced _ _ Hlat Hfenced) as Hf. split_and!.
  - exists session'. split_and!; [done|apply Hlat|done].
  - unfold current_node_session. by rewrite H', Hf.
  - intros id now. unfold source_session_is_current. rewrite H'. simpl. rewrite Hf.
    by rewrite andb_false_r.
  - intros heartbeat received decision lease_ms <-. unfold accept_received_heartbeat.
    destruct (_ <? _)%N; [by eexists|]. destruct (na_leases _ !! _); [|by eexists].
    destruct (negb _); [by eexists|]. rewrite H'. simpl. rewrite Hf. by eexists.
  - intros evidence decision <-. unfold accept_session_liveness, accept_session_reported_health,
      liveness_refused, health_refused. rewrite H', Hf. simpl. split; by case_match.
  - intros Hquiet. destruct (node_steps_without_later _ _ _ _ Hok Hquiet) as [_ Hs].
    destruct (Hs session Hsession) as (_ & _ & _ & Hl). by apply Hl.
Qed.

(** A route is lost, a session heartbeat at 50 is refused, a bare one at 60 is not. *)
Definition fn_lost : NodeRun := with_authority fn_opened (fence_node_session fn_node (nr_authority fn_opened)).
Definition fn_heartbeat : NodeHeartbeat := MkHeartbeat fn_node fn_lease_id fn_status.
Definition fn_bare : NodeRun := fst (accept_heartbeat fn_heartbeat 60 100 fn_lost).
Definition fn_bare_expired : NodeRun := fst (expire_leases 200 fn_bare).

Lemma fn_lost_run : node_steps 100 fn_start fn_lost.
Proof. eapply rtc_r; [exact fn_opened_run|]. exists NeOther. apply nt_fence. Qed.

Lemma fn_bare_run : node_steps_without 100 [NeRegistered fn_node] fn_lost fn_bare_expired.
Proof.
  eapply rtc_l with (y := fn_lost).
  { exists NeOther. split; [|set_solver].
    eapply (nt_heartbeat 100 fn_lost fn_heartbeat 50 50). vm_compute. reflexivity. }
  eapply rtc_l with (y := fn_bare).
  { exists (NeRenewed fn_node). split; [|set_solver].
    eapply (nt_bare_heartbeat 100 fn_lost fn_heartbeat 60). vm_compute. reflexivity. }
  apply rtc_once. exists NeOther.
  split; [|set_solver].
  eapply (nt_expire 100 fn_bare 200). vm_compute. reflexivity.
Qed.

Definition fn_lost_expired : NodeRun := fst (expire_leases 110 fn_lost).

Lemma fn_lost_expired_run :
  node_steps_without 100 [NeRegistered fn_node; NeRenewed fn_node] fn_lost fn_lost_expired.
Proof.
  apply rtc_once. exists NeOther. split; [|set_solver].
  eapply (nt_expire 100 fn_lost 110). vm_compute. reflexivity.
Qed.

Lemma fenced_node_stays_out_witness :
  source_session_is_current (nr_authority fn_bare_expired) fn_node "s1" 61 = false /\
  na_leases (nr_authority fn_lost_expired) !! fn_node = na_leases (nr_authority fn_lost) !! fn_node.
Proof.
  split.
  - apply (fenced_node_stays_out 100 None fn_lost fn_bare_expired fn_node (fn_session true) fn_lost_run).
    + vm_compute. reflexivity.
    + reflexivity.
    + exact fn_bare_run.
  - apply (fenced_node_stays_out 100 None fn_lost fn_lost_expired fn_node (fn_session true) fn_lost_run).
    + vm_compute. reflexivity.
    + reflexivity.
    + refine (node_steps_without_weaken _ _ _ _ _ _ fn_lost_expired_run). set_solver.
    + exact fn_lost_expired_run.
Defined.

(** The sessionless heartbeat renews the lease of a Node whose session is fenced. *)
Example bare_heartbeat_renews_fenced :
  (forall session_id now, source_session_is_current (nr_authority fn_lost) fn_node session_id now = false) /\
  accept_received_heartbeat fn_heartbeat 50 50 100 fn_lost =
    (fn_lost, snd (accept_received_heartbeat fn_heartbeat 50 50 100 fn_lost)) /\
  na_leases (nr_authority fn_lost) !! fn_node = Some (MkLease fn_lease_id fn_node 10 110) /\
  accept_heartbeat fn_heartbeat 60 100 fn_lost = (fn_bare, Ok tt) /\
  na_leases (nr_authority fn_bare) !! fn_node = Some (MkLease fn_lease_id fn_node 60 160).
Proof.
  split_and!; [|vm_compute; reflexivity..].
  intros id now. unfold source_session_is_current.
  assert (na_node_sessions (nr_authority fn_lost) !! fn_node = Some (fn_session true)) as ->
    by (vm_compute; reflexivity).
  simpl. by rewrite andb_false_r.
Qed.

(** Authority of one registration only moves forward.  Until the Node registers again, and
    unless [accept_heartbeat] is called for it, its lease keeps its identity and never loses
    time, its session keeps its identity, certificate and duration, and the accepted heartbeat
    and health sequences and receive times never decrease; a lease always lasts exactly the
    configured duration. *)
Theorem lease_authority_monotone (duration : N) (registry : option NodeIdentityRegistry)
    (s s' : NodeRun) (node : NodeId)
    (Hreach : node_steps duration (node_run_start registry) s)
    (Hrun : node_steps_without duration [NeRegistered node; NeRenewed node] s s') :
  authority_later node (nr_authority s) (nr_authority s') /\
  (forall lease, na_leases (nr_authority s') !! node = Some lease ->
     le_node_id lease = node /\ le_expires_at lease = (le_issued_at lease + duration)%N) /\
  (forall session, na_node_sessions (nr_authority s') !! node = Some session ->
     exists lease, na_leases (nr_authority s') !! node = Some lease /\
       le_lease_id lease = an_lease_id session /\ an_duration_ms session = duration).
Proof.
  pose proof (node_steps_run _ _ _ (node_run_start_ok duration registry) Hreach) as Hok.
  destruct (node_steps_without_run _ _ _ _ Hok Hrun) as [[Hl Hs] _].
  split_and!; [by eapply node_steps_without_later|by apply Hl|].
  intros session Hss. destruct (Hs _ _ Hss) as (Hd & lease & H1 & H2). by exists lease.
Qed.

Lemma lease_authority_monotone_witness :
  authority_later fn_node (nr_authority fn_opened) (nr_authority fn_expired).
Proof.
  apply (lease_authority_monotone 100 None fn_opened fn_expired fn_node fn_opened_run).
  apply rtc_once. exists NeOther. split; [exact fn_expire_step|set_solver].
Defined.

(** ** Expiry *)

Definition expired_snapshot (now : TimestampMs) (s : NodeStateSnapshot) : NodeStateSnapshot :=
  MkNodeSnapshot (sn_registration s) (sn_reported_status s) (sn_reported_status_received_at s)
    (MkLivenessObservation Unreachable now).

Lemma expire_loop_exact now expired : forall s,
  NoDup expired.*1 ->
  (forall node, node ∈ expired.*1 -> exists snapshot, nr_state s !! node = Some snapshot /\
     (lo_observed_at (sn_liveness snapshot) <= now)%N) ->
  exists s', expire_loop now expired s = (s', Ok tt) /\
    (forall node, nr_state s' !! node =
       if decide (node ∈ expired.*1) then expired_snapshot now <$> nr_state s !! node
       else nr_state s !! node) /\
    (forall node, na_node_sessions (nr_authority s') !! node =
       if decide (node ∈ expired.*1) then with_fence <$> na_node_sessions (nr_authority s) !! node
       else na_node_sessions (nr_authority s) !! node) /\
    na_leases (nr_authority s') = na_leases (nr_authority s) /\
    nr_events s' = (nr_events s ++ ((fun '(node, lease) => NodeLeaseExpired node lease) <$> expired))%list.
Proof.
  induction expired as [|[node lease] expired IH]; intros s Hn Hin; simpl.
  { exists s. rewrite app_nil_r. by split_and!. }
  inversion_clear Hn as [|? ? Hnode Hrest].
  destruct (Hin node) as (snapshot & Hs & Hle); [by left|].
  unfold record_node_liveness. rewrite Hs. unfold reject_older_timestamp. simpl.
  destruct (N.ltb_spec now (lo_observed_at (sn_liveness snapshot))); [lia|].
  match goal with |- context [expire_loop now expired ?x] => set (s1 := x) end.
  assert (forall n, n <> node -> nr_state s1 !! n = nr_state s !! n) as Hother
    by (intros n Hne; simpl; by rewrite lookup_insert_ne).
  assert (nr_state s1 !! node = Some (expired_snapshot now snapshot)) as Hself
    by (simpl; by rewrite lookup_insert_eq).
  assert (forall n, na_node_sessions (nr_authority s1) !! n =
    if decide (n = node) then with_fence <$> na_node_sessions (nr_authority s) !! n
    else na_node_sessions (nr_authority s) !! n) as Hsess.
  { intros n. simpl. unfold fence_node_session.
    destruct (na_node_sessions (nr_authority s) !! node) as [ss|] eqn:Ess; simpl; case_decide as Hd; subst.
    - by rewrite lookup_insert_eq, Ess.
    - by rewrite lookup_insert_ne.
    - by rewrite Ess.
    - done. }
  assert (na_leases (nr_authority s1) = na_leases (nr_authority s)) as Hleases.
  { simpl. unfold fence_node_session. by destruct (na_node_sessions _ !! node). }
  assert (nr_events s1 = (nr_events s ++ [NodeLeaseExpired node lease])%list) as Hev by done.
  clearbody s1. destruct (IH s1) as (s' & E & E1 & E2 & E3 & E4); [done|..].
  { intros n Hn. rewrite Hother by (intros ->; done). apply Hin. by right. }
  exists s'. split_and!; [done|..].
  - intros n. rewrite E1. destruct (decide (n = node)) as [->|Hne].
    + rewrite decide_False by done. rewrite decide_True by (by left). by rewrite Hself, Hs.
    + rewrite Hother by done. by do 2 case_decide; set_solver.
  - intros n. rewrite E2, Hsess. destruct (decide (n = node)) as [->|Hne].
    + rewrite decide_False by done. by rewrite decide_True by (by left).
    + by do 2 case_decide; set_solver.
  - congruence.
  - rewrite E4, Hev. by rewrite <- app_assoc.
Qed.

Lemma elem_of_expired s now node :
  node ∈ (expired_leases s now).*1 <->
  (exists lease, na_leases (nr_authority s) !! node = Some lease /\ (le_expires_at lease <= now)%N) /\
  is_reachable (nr_state s) node = true.
Proof.
  unfold expired_leases. rewrite <- list_fmap_compose, list_elem_of_fmap. split.
  - intros ([n lease] & -> & Hin). apply list_elem_of_In, filter_In in Hin as [Hin Hb].
    apply list_elem_of_In, elem_of_btree_iter in Hin. simpl in *.
    apply andb_true_iff in Hb as [Ha Hr]. apply negb_true_iff in Ha. unfold is_active_at in Ha.
    apply N.ltb_ge in Ha. eauto.
  - intros [(lease & Hl & Hx) Hr]. exists (node, lease). split; [done|].
    apply list_elem_of_In, filter_In. split; [by apply list_elem_of_In, elem_of_btree_iter|].
    rewrite Hr. unfold is_active_at. by rewrite (proj2 (N.ltb_ge _ _)).
Qed.

Lemma NoDup_expired s now : NoDup (expired_leases s now).*1.
Proof.
  unfold expired_leases. rewrite <- list_fmap_compose.
  replace (_ <$> List.filter _ _) with
    ((List.filter (fun '(node, lease) => negb (is_active_at lease now) && is_reachable (nr_state s) node)
       (btree_iter (na_leases (nr_authority s)))).*1).
  2: { apply list_fmap_ext. by intros ? [] ?. }
  generalize (NoDup_btree_keys (na_leases (nr_authority s))). unfold btree_keys.
  induction (btree_iter _) as [|[n l] k IH]; simpl; [done|]. intros Hn. inversion_clear Hn.
  destruct (_ && _); simpl; [|by apply IH]. constructor; [|by apply IH].
  intros ([? ?] & -> & Hin)%list_elem_of_fmap. apply list_elem_of_In, filter_In in Hin as [Hin _].
  apply H. apply list_elem_of_fmap. eexists (_, _). split; [done|by apply list_elem_of_In].
Qed.

(** C34. Expiry is exact: when no observation lies in the future, expiring leases always
    succeeds, reports exactly the reachable Nodes whose lease has run out, makes exactly
    these unreachable and fences their sessions, keeps reported health and leases, and
    afterwards every leased Node that is reachable has an active lease. *)
Theorem expiry_exact (s : NodeRun) (now : TimestampMs)
    (Htime : forall node snapshot, nr_state s !! node = Some snapshot ->
       (lo_observed_at (sn_liveness snapshot) <= now)%N) :
  exists s' nodes, expire_leases now s = (s', Ok nodes) /\ NoDup nodes /\
    (forall node, node ∈ nodes <-> is_reachable (nr_state s) node = true /\
       exists lease, na_leases (nr_authority s) !! node = Some lease /\ is_active_at lease now = false) /\
    (forall node, nr_state s' !! node =
       if decide (node ∈ nodes) then expired_snapshot now <$> nr_state s !! node
       else nr_state s !! node) /\
    (forall node, na_node_sessions (nr_authority s') !! node =
       if decide (node ∈ nodes) then with_fence <$> na_node_sessions (nr_authority s) !! node
       else na_node_sessions (nr_authority s) !! node) /\
    na_leases (nr_authority s') = na_leases (nr_authority s) /\
    (forall node lease, is_reachable (nr_state s') node = true ->
       na_leases (nr_authority s') !! node = Some lease -> is_active_at lease now = true).
Proof.
  destruct (expire_loop_exact now (expired_leases s now) s (NoDup_expired s now))
    as (s' & E & E1 & E2 & E3 & _).
  { intros node [_ Hr]%elem_of_expired. unfold is_reachable in Hr.
    apply is_some_and_true in Hr as (snapshot & Hs & _). eauto. }
  exists s', (expired_leases s now).*1. unfold expire_leases. rewrite E.
  split_and!; try done; [apply NoDup_expired|..].
  - intros node. rewrite elem_of_expired. setoid_rewrite N.ltb_ge. naive_solver.
  - intros node lease Hr Hl. rewrite E3 in Hl. unfold is_reachable in Hr. rewrite E1 in Hr.
    destruct (decide (node ∈ (expired_leases s now).*1)) as [Hin|Hout].
    { destruct (nr_state s !! node); by simpl in Hr. }
    apply N.ltb_lt. destruct (N.lt_ge_cases now (le_expires_at lease)); [done|].
    exfalso. apply Hout, elem_of_expired. split; [eauto|done].
Qed.

Lemma fn_opened_state : nr_state fn_opened =
  {[fn_node := MkNodeSnapshot fn_registration fn_status 8 (MkLivenessObservation Reachable 10)]}.
Proof. vm_compute. reflexivity. Qed.

Lemma expiry_exact_witness : exists s' nodes, expire_leases 110 fn_opened = (s', Ok nodes) /\
  fn_node ∈ nodes /\ is_reachable (nr_state s') fn_node = false.
Proof.
  destruct (expiry_exact fn_opened 110) as (s' & nodes & E & _ & Hn & Hs & _).
  - intros node snapshot Hs. rewrite fn_opened_state in Hs.
    apply lookup_singleton_Some in Hs as [_ <-]. simpl. lia.
  - assert (fn_node ∈ nodes) as Hin.
    { apply Hn. split; [vm_compute; reflexivity|]. exists fn_lease. split; vm_compute; reflexivity. }
    exists s', nodes. split_and!; [exact E|exact Hin|]. unfold is_reachable.
    rewrite Hs, decide_True, fn_opened_state by exact Hin. vm_compute. reflexivity.
Defined.

(** ** The shared state *)

(** A physical resource belongs to one Node: whatever registers, updates, reports or is
    lost, no two Nodes of the shared state advertise the same resource identity. *)
Theorem resource_owner_unique (duration : N) (registry : option NodeIdentityRegistry) (s : NodeRun)
    (node1 node2 : NodeId) (s1 s2 : NodeStateSnapshot) (id : ResourceId)
    (Hreach : node_steps duration (node_run_start registry) s)
    (H1 : nr_state s !! node1 = Some s1) (H2 : nr_state s !! node2 = Some s2)
    (O1 : owns_resource (sn_registration s1) id None = true)
    (O2 : owns_resource (sn_registration s2) id None = true) :
  node1 = node2.
Proof.
  destruct (node_steps_run _ _ _ (node_run_start_ok duration registry) Hreach) as [_ [_ Ho]].
  by eapply Ho.
Qed.

Lemma resource_owner_unique_witness : fn_node = fn_node.
Proof.
  apply (resource_owner_unique 100 None fn_opened fn_node fn_node
    (MkNodeSnapshot fn_registration fn_status 8 (MkLivenessObservation Reachable 10))
    (MkNodeSnapshot fn_registration fn_status 8 (MkLivenessObservation Reachable 10))
    (MkId "arm") fn_opened_run); vm_compute; reflexivity.
Defined.

(** The restore loop over distinct Nodes. *)
Lemma restore_nodes_loop at_ l : forall nodes,
  NoDup (sn_node_id <$> l) -> (forall s, s ∈ l -> nodes !! sn_node_id s = None) ->
  exists nodes', restore_nodes nodes l at_ = Ok nodes' /\
    (forall s, s ∈ l -> nodes' !! sn_node_id s = Some (rebased at_ s)) /\
    (forall n, n ∉ sn_node_id <$> l -> nodes' !! n = nodes !! n).
Proof.
  induction l as [|s l IH]; intros nodes Hn Hf; simpl.
  { exists nodes. split_and!; [done|by intros ? ?%not_elem_of_nil|done]. }
  inversion_clear Hn as [|? ? Hs Hl]. unfold contains_key.
  rewrite (Hf s (list_elem_of_here _ _)). simpl.
  destruct (IH (<[sn_node_id s := rebased at_ s]> nodes)) as (nodes' & E & E1 & E2); [done|..].
  { intros t Ht. rewrite lookup_insert_ne; [by apply Hf, list_elem_of_further|].
    intros En. apply Hs. rewrite En. by apply list_elem_of_fmap_2. }
  exists nodes'. split_and!; [done|..].
  - intros t [->|Ht]%elem_of_cons; [|by apply E1]. rewrite E2 by done. by rewrite lookup_insert_eq.
  - intros n Hnot. rewrite E2 by set_solver. rewrite lookup_insert_ne; [done|]. set_solver.
Qed.

(** The shared state survives a restart: restoring the persisted snapshots of any reached
    state succeeds, keeps every registration, reported health and its receive time, and
    makes every Node unreachable as of the restart. *)
Theorem node_state_restores (duration : N) (registry : option NodeIdentityRegistry) (s : NodeRun)
    (at_ : TimestampMs)
    (Hreach : node_steps duration (node_run_start registry) s) :
  restore_nodes ∅ (snapshots (nr_state s)) at_ = Ok (rebased at_ <$> nr_state s).
Proof.
  destruct (node_steps_run _ _ _ (node_run_start_ok duration registry) Hreach) as [_ [Hk _]].
  assert (sn_node_id <$> snapshots (nr_state s) = btree_keys (nr_state s)) as Hkeys.
  { unfold snapshots, btree_values, btree_keys. rewrite <- list_fmap_compose.
    apply list_fmap_ext. intros i [n t] Hi. simpl. apply Hk, elem_of_btree_iter.
    by eapply list_elem_of_lookup_2. }
  destruct (restore_nodes_loop at_ (snapshots (nr_state s)) ∅) as (nodes & E & E1 & E2).
  { rewrite Hkeys. apply NoDup_btree_keys. }
  { intros t _. apply lookup_empty. }
  rewrite E. f_equal. apply map_eq. intros n. rewrite lookup_fmap.
  destruct (nr_state s !! n) as [t|] eqn:Et; simpl.
  - rewrite <- (Hk n t Et). apply E1, elem_of_btree_values. by exists n.
  - rewrite E2; [apply lookup_empty|]. rewrite Hkeys, elem_of_btree_keys, Et. by intros [? ?].
Qed.

Lemma node_state_restores_witness :
  restore_nodes ∅ (snapshots (nr_state fn_opened)) 500 = Ok (rebased 500 <$> nr_state fn_opened).
Proof. exact (node_state_restores 100 None fn_opened 500 fn_opened_run). Defined.

(** ** Registrations and commitments *)

(** What a declaration owes to the commitments of the controller. *)
Record declaration_ok (a : NodeAuthority) (registration : NodeRegistration) : Prop := MkDeclarationOk {
  do_pools : forall resource, resource ∈ nd_resources registration ->
    (0 < committed_units (na_capacity_ledger a) (res_id resource))%N ->
    res_allocation_mode resource = Divisible /\ res_kind resource = Compute /\
    (committed_units (na_capacity_ledger a) (res_id resource) <= res_capacity resource)%N /\
    (forall id record, cl_allocations (na_capacity_ledger a) !! id = Some record ->
       rg_resource_id (al_original record) = res_id resource ->
       rg_node_id (al_original record) = nd_node_id registration /\
       Some (rg_resource_class (al_original record)) = res_resource_class resource);
  do_declared : forall id record, cl_allocations (na_capacity_ledger a) !! id = Some record ->
    rg_node_id (al_original record) = nd_node_id registration ->
    exists resource, resource ∈ nd_resources registration /\
      res_id resource = rg_resource_id (al_original record);
  do_claims : forall resource claim, resource ∈ nd_resources registration ->
    is_Some (na_reservations a !! res_id resource) ->
    claim ∈ ql_claims (na_quota_ledger a) -> qc_resource_id claim = Some (res_id resource) ->
    qc_kind claim = res_kind resource /\ (qc_units claim <= res_capacity resource)%N;
  do_held : forall id held entry, is_Some (na_topology a) -> na_reservations a !! id = Some held ->
    rsv_topology held = Some entry -> te_node_id (tv_entry entry) = nd_node_id registration ->
    exists resource, resource ∈ nd_resources registration /\
      res_id resource = te_resource_id (tv_entry entry) /\ res_kind resource = te_kind (tv_entry entry)
}.

Lemma topology_held a registration id held entry :
  validate_topology_registration a registration = Ok tt -> is_Some (na_topology a) ->
  na_reservations a !! id = Some held -> rsv_topology held = Some entry ->
  te_node_id (tv_entry entry) = nd_node_id registration ->
  exists resource, resource ∈ nd_resources registration /\
    res_id resource = te_resource_id (tv_entry entry) /\ res_kind resource = te_kind (tv_entry entry).
Proof.
  intros Hv [registry Ht] Hh He Hn. unfold validate_topology_registration in Hv. rewrite Ht in Hv.
  destruct (try_for _ (nd_resources registration)) as [[]|]; [|done]. simpl in Hv.
  rewrite try_for_ok in Hv. specialize (Hv held). rewrite elem_of_btree_values in Hv.
  specialize (Hv (ex_intro _ id Hh)). unfold held_topology_removed in Hv. rewrite He in Hv. simpl in Hv.
  rewrite bool_decide_true in Hv by done. destruct (existsb _ _) eqn:Ex; [|done].
  apply existsb_exists in Ex as (resource & Hin%list_elem_of_In & Hb). bool_facts. eauto.
Qed.

Lemma capacity_covers a registration :
  ensure_declared_capacity_covers_commitments a registration = Ok tt -> declaration_ok a registration.
Proof.
  unfold ensure_declared_capacity_covers_commitments.
  destruct (validate_topology_registration a registration) as [[]|] eqn:Ev; [|done].
  destruct (try_for _ (records _)) as [[]|] eqn:Er; [|done]. rewrite try_for_ok in Er.
  rewrite try_for_ok. intros Hall. split; [..|by intros; eapply topology_held].
  - intros resource Hin Hpos. specialize (Hall resource Hin).
    destruct (pool_understated a registration resource) eqn:Ep; [done|]. unfold pool_understated in Ep.
    rewrite (proj2 (N.ltb_lt _ _) Hpos) in Ep. simpl in Ep. bool_facts.
    match goal with E : existsb _ _ = false |- _ => rename E into Hex end. split_and!; try done.
    intros id record Hid Eres. pose proof (existsb_false_elem _ _ record Hex) as Hr.
    simpl in Hr. rewrite bool_decide_true in Hr by done. simpl in Hr.
    assert (record ∈ records (na_capacity_ledger a)) as Hrec by (apply elem_of_btree_values; eauto).
    specialize (Hr Hrec). bool_facts. done.
  - intros id record Hid En. specialize (Er record). simpl in Er.
    assert (record ∈ records (na_capacity_ledger a)) as Hrec by (apply elem_of_btree_values; eauto).
    specialize (Er Hrec). rewrite bool_decide_true in Er by done.
    destruct (existsb _ (nd_resources registration)) eqn:Ex; [|done].
    apply existsb_exists in Ex as (resource & Hin%list_elem_of_In & Hb). bool_facts. eauto.
  - intros resource claim Hin Hres Hclaim Ec. specialize (Hall resource Hin).
    destruct (pool_understated _ _ _); [done|]. destruct (pool_undeclared _ _); [done|].
    destruct (claim_uncovered a resource) eqn:Eu; [done|]. unfold claim_uncovered in Eu.
    rewrite (proj2 (contains_key_true _ _) Hres) in Eu. simpl in Eu.
    pose proof (existsb_false_elem _ _ claim Eu Hclaim) as Hr. simpl in Hr.
    rewrite bool_decide_true in Hr by done. simpl in Hr. bool_facts. done.
Qed.

(** The checks behind a recorded declaration. *)
Lemma recorded_checks registration s s' :
  (exists status lease received_at now,
     register_node_with_lease_received registration status lease received_at now s = (s', Ok tt)) \/
  (exists now, update_node_registration registration now s = (s', Ok tt)) ->
  ensure_declared_capacity_covers_commitments (nr_authority s) registration = Ok tt /\
  (forall current, nr_state s !! nd_node_id registration = Some current ->
     ensure_committed_resources_remain_declared (nr_authority s) current registration = Ok tt) /\
  exists snapshot, sn_registration snapshot = registration /\
    record_node (nr_state s) snapshot = Ok (nr_state s').
Proof.
  intros [(status & lease & received & now & E)|(now & E)].
  - unfold register_node_with_lease_received in E.
    destruct (now <? received)%N; [done|].
    destruct (negb (bool_decide (le_node_id lease = _))); [done|].
    destruct (negb (identity_registration_allowed _ _ _)); [done|].
    destruct (negb (is_active_at lease now)); [done|].
    destruct (ensure_resource_identities_available _ _) as [[]|]; simpl in E; [|done].
    destruct (ensure_declared_capacity_covers_commitments _ _) as [[]|] eqn:Ec; simpl in E; [|done].
    destruct (nr_state s !! nd_node_id registration) as [current|] eqn:Ecur.
    + destruct (ensure_committed_resources_remain_declared _ current _) as [[]|] eqn:Er; simpl in E; [|done].
      destruct (record_node _ _) as [state|] eqn:En; simpl in E; [|done]. injection E as <-.
      split_and!; [done|by intros ? [= <-]|]. eexists. by split; [|exact En].
    + destruct (record_node _ _) as [state|] eqn:En; simpl in E; [|done]. injection E as <-.
      split_and!; [done|done|]. eexists. by split; [|exact En].
  - unfold update_node_registration in E.
    destruct (nr_state s !! nd_node_id registration) as [current|]; [|done].
    destruct (negb (identity_is_eligible _ _ _)); [done|].
    destruct (na_leases _ !! _) as [lease|]; [|done]. destruct (negb (is_active_at lease now)); [done|].
    destruct (ensure_resource_identities_available _ _) as [[]|]; simpl in E; [|done].
    destruct (ensure_committed_resources_remain_declared _ current _) as [[]|] eqn:Er; simpl in E; [|done].
    destruct (ensure_declared_capacity_covers_commitments _ _) as [[]|] eqn:Ec; simpl in E; [|done].
    destruct (record_node _ _) as [state|] eqn:En; simpl in E; [|done]. injection E as <-.
    split_and!; [done|by intros ? [= <-]|]. eexists. by split; [|exact En].
Qed.

(** C36. Declarations cover commitments.  A registration or an update is recorded only when
    it still declares every pool of the Node that has allocations; when every pool it declares
    that has committed units is divisible Compute, of the class of the allocations, which are
    of this Node, and has at least those units; when every reserved resource it declares covers
    the kind and units of each quota claim on it; and, with a topology registry, when it declares
    every resource of the Node that a reservation holds with its topology.  If the Node is known
    to State, every resource it declared there that is reserved or has committed units is
    still declared, with its kind, mode and class and at least the units committed.  (For a
    Node unknown to State, a reserved resource without topology may be left out:
    [claimed_resource_dropped].) *)
Theorem declarations_cover_commitments (registration : NodeRegistration) (s s' : NodeRun)
    (Hrun : (exists status lease received_at now,
               register_node_with_lease_received registration status lease received_at now s
                 = (s', Ok tt)) \/
            (exists now, update_node_registration registration now s = (s', Ok tt))) :
  sn_registration <$> nr_state s' !! nd_node_id registration = Some registration /\
  declaration_ok (nr_authority s) registration /\
  (forall current resource, nr_state s !! nd_node_id registration = Some current ->
     resource ∈ nd_resources (sn_registration current) ->
     is_Some (na_reservations (nr_authority s) !! res_id resource) \/
     (0 < committed_units (na_capacity_ledger (nr_authority s)) (res_id resource))%N ->
     exists next, next ∈ nd_resources registration /\ res_id next = res_id resource /\
       res_kind next = res_kind resource /\
       res_allocation_mode next = res_allocation_mode resource /\
       res_resource_class next = res_resource_class resource /\
       (required_units (nr_authority s) resource <= res_capacity next)%N).
Proof.
  destruct (recorded_checks registration s s' Hrun) as (Hc & Hr & snapshot & Er & Hrec).
  split_and!; [|by apply capacity_covers|].
  - unfold record_node in Hrec.
    destruct (match nr_state s !! sn_node_id snapshot with Some _ => _ | None => _ end); [|done].
    injection Hrec as <-. unfold sn_node_id. rewrite Er, lookup_insert_eq. simpl. by rewrite Er.
  - intros current resource Hcur Hin Hheld. specialize (Hr current Hcur).
    unfold ensure_committed_resources_remain_declared in Hr. rewrite try_for_ok in Hr.
    specialize (Hr resource Hin). destruct (_ || _) eqn:Eh in Hr.
    + simpl in Hr. destruct (keeps_declaration _ _ _) eqn:Ek; [|done]. unfold keeps_declaration in Ek.
      apply existsb_exists in Ek as (next & Hn%list_elem_of_In & Hb). bool_facts. by exists next.
    + apply orb_false_iff in Eh as [E1 E2]. bool_facts. destruct Hheld as [[? Hx]|Hx]; [congruence|lia].
Qed.

(** The Node with an arm that a Task claims and a pool of eight units, three of them allocated. *)
Definition fn_pool_registration : NodeRegistration :=
  MkRegistration fn_node [MkLocalSystem (MkId "default") (MkLocalRuntime "ros" "2") ∅]
    (MkId NODE_CONTRACT_VERSION_V0_14) [] [] ∅ ∅ ∅ ∅ [] []
    [MkResource (MkId "arm") Time 1 Exclusive None;
     MkResource (MkId "gpu") Compute 8 Divisible (Some "gpu.memory")] ∅ [] [].
Definition fn_task : TaskRef := MkTaskRef (MkId "m1") (MkId "t1").
Definition fn_owner : AllocationOwner := OwnerTask fn_task.
Definition fn_reservation : Reservation :=
  MkReservation None fn_task (MkId "r1") None ScopeTask fn_owner.
Definition fn_grant : ResourceAllocationGrant :=
  MkGrant GRANT_SCHEMA "allocation:1" 1 (MkId "gpu") "gpu.memory" fn_node (MkId "g1") fn_owner "local"
    fn_task (MkId "r1") 3 3 8.
Definition fn_commitments : NodeAuthority :=
  MkNodeAuthority {[fn_node := fn_lease]} {[fn_node := fn_session false]} None None
    {[MkId "arm" := fn_reservation]}
    (MkCapacityLedger 1 {["allocation:1" := MkAllocation fn_grant fn_reservation
                            [MkBorrower fn_task (MkId "r1") 3]]})
    (MkLedger [] [MkClaim (resource_claim_id "arm") "local" Time 1 (Some (MkId "arm")) None]).
Definition fn_committed : NodeRun :=
  MkNodeRun fn_commitments
    {[fn_node := MkNodeSnapshot fn_pool_registration fn_status 8 (MkLivenessObservation Reachable 10)]} [].
Definition fn_smaller_pool (units : N) : NodeRegistration :=
  MkRegistration fn_node [MkLocalSystem (MkId "default") (MkLocalRuntime "ros" "2") ∅]
    (MkId NODE_CONTRACT_VERSION_V0_14) [] [] ∅ ∅ ∅ ∅ [] []
    [MkResource (MkId "arm") Time 1 Exclusive None;
     MkResource (MkId "gpu") Compute units Divisible (Some "gpu.memory")] ∅ [] [].
Definition fn_replaced : NodeRun :=
  fst (update_node_registration (fn_smaller_pool 4) 20 fn_committed).

Example fn_pool_understated :
  snd (update_node_registration (fn_smaller_pool 2) 20 fn_committed) <> Ok tt.
Proof. vm_compute. discriminate. Qed.

Lemma declarations_cover_commitments_witness :
  declaration_ok fn_commitments (fn_smaller_pool 4) /\
  (0 < committed_units (na_capacity_ledger fn_commitments) (MkId "gpu"))%N /\
  exists next, next ∈ nd_resources (fn_smaller_pool 4) /\ res_id next = MkId "arm" /\
    res_kind next = Time /\ (1 <= res_capacity next)%N.
Proof.
  destruct (declarations_cover_commitments (fn_smaller_pool 4) fn_committed fn_replaced) as (_ & Hd & Hk).
  { right. exists 20%N. vm_compute. reflexivity. }
  split_and!; [exact Hd|vm_compute; reflexivity|].
  destruct (Hk (MkNodeSnapshot fn_pool_registration fn_status 8 (MkLivenessObservation Reachable 10))
              (MkResource (MkId "arm") Time 1 Exclusive None)) as (next & H1 & H2 & H3 & _ & _ & H4).
  - vm_compute. reflexivity.
  - left.
  - left. eexists. vm_compute. reflexivity.
  - exists next. split_and!; [exact H1|exact H2|exact H3|exact H4].
Defined.

(** After a restore that cleared the observations of Nodes, a registration that leaves out a
    reserved and claimed exclusive resource is recorded. *)
Definition fn_forgotten : NodeRun := MkNodeRun fn_commitments ∅ [].
Definition fn_armless : NodeRegistration :=
  MkRegistration fn_node [MkLocalSystem (MkId "default") (MkLocalRuntime "ros" "2") ∅]
    (MkId NODE_CONTRACT_VERSION_V0_14) [] [] ∅ ∅ ∅ ∅ [] []
    [MkResource (MkId "gpu") Compute 8 Divisible (Some "gpu.memory")] ∅ [] [].

Example claimed_resource_dropped :
  is_Some (na_reservations fn_commitments !! MkId "arm") /\
  snd (register_node_with_lease_received fn_armless fn_status fn_lease 8 10 fn_forgotten) = Ok tt /\
  snd (register_node_with_lease_received fn_armless fn_status fn_lease 8 10 fn_committed) <> Ok tt.
Proof. split_and!; [eexists; vm_compute; reflexivity|vm_compute; reflexivity|vm_compute; discriminate]. Qed.

(** * Properties of Node certificates *)

Open Scope string_scope.

(** ** A registry *)

Definition fi_digit (d : ascii) : string :=
  string_of_list_ascii (repeat d 64).
Definition fi_old : string := fi_digit "a".
Definition fi_new : string := fi_digit "b".

#[export] Instance fi_serde : Serde := {|
  json_to_vec := fun _ => Ok EmptyString;
  sha256_hex := fun _ => fi_digit "0"
|}.

#[export] Instance fi_sha256 : Sha256Text.
Proof. intros s. reflexivity. Qed.

Definition fi_start : NodeIdentityRegistry := NodeIdentityRegistry_new "deployment".

Definition fi_run (r : NodeIdentityRegistry) (c : IdentityCommand) (now : N) : NodeIdentityRegistry :=
  match apply_command r c now "operator" with Some (Ok (r', _)) => r' | _ => r end.

Definition fi_register : IdentityCommand :=
  MkIdentityCommand "c1" "n1" 0 (IaRegister "tenant" "north" fi_old 0).
Definition fi_prepare : IdentityCommand := MkIdentityCommand "c2" "n1" 1 (IaPrepare fi_new).
Definition fi_activate : IdentityCommand := MkIdentityCommand "c3" "n1" 2 (IaActivate 100).
Definition fi_revoke : IdentityCommand := MkIdentityCommand "c4" "n1" 3 IaRevoke.

Definition fi_registered : NodeIdentityRegistry := fi_run fi_start fi_register 10.
Definition fi_prepared : NodeIdentityRegistry := fi_run fi_registered fi_prepare 20.
Definition fi_activated : NodeIdentityRegistry := fi_run fi_prepared fi_activate 30.
Definition fi_revoked : NodeIdentityRegistry := fi_run fi_activated fi_revoke 40.

Definition fi_receipt (c : IdentityCommand) (revision now : N) : IdentityCommandReceipt :=
  MkIdentityReceipt (ico_command_id c) ("sha256:" ++ fi_digit "0") "n1" revision now "operator".

Lemma fi_step1 : apply_command fi_start fi_register 10 "operator" =
  Some (Ok (fi_registered, fi_receipt fi_register 1 10)).
Proof. vm_compute. reflexivity. Qed.
Lemma fi_step2 : apply_command fi_registered fi_prepare 20 "operator" =
  Some (Ok (fi_prepared, fi_receipt fi_prepare 2 20)).
Proof. vm_compute. reflexivity. Qed.
Lemma fi_step3 : apply_command fi_prepared fi_activate 30 "operator" =
  Some (Ok (fi_activated, fi_receipt fi_activate 3 30)).
Proof. vm_compute. reflexivity. Qed.
Lemma fi_step4 : apply_command fi_activated fi_revoke 40 "operator" =
  Some (Ok (fi_revoked, fi_receipt fi_revoke 4 40)).
Proof. vm_compute. reflexivity. Qed.

Lemma fi_activated_run : rtc identity_step fi_start fi_activated.
Proof.
  eapply rtc_l; [exact (is_command _ _ _ _ _ _ fi_step1)|].
  eapply rtc_l; [exact (is_command _ _ _ _ _ _ fi_step2)|].
  apply rtc_once. exact (is_command _ _ _ _ _ _ fi_step3).
Qed.

(** ** Properties *)

Section Claims.
Context `{Serde, !Sha256Text}.

(** A fresh accepted command and its effect. *)
Lemma fresh_command_effect r command now subject r' receipt :
  registry_ok r -> apply_command r command now subject = Some (Ok (r', receipt)) ->
  nr_commands r !! ico_command_id command = None ->
  exists candidate, action_effect r command now candidate /\ registry_ok candidate /\
    r' = with_command candidate receipt /\ ir_command_id receipt = ico_command_id command.
Proof.
  intros Hok (digest & Hd & Hc)%apply_command_cases Hf.
  destruct Hc as [(_ & Hin & _)|(candidate & Ha & Hc & _ & _ & _ & Hr & ->)]; [congruence|].
  exists candidate. split_and!; [by apply apply_action_effect|done|done|].
  unfold command_receipt in Hr. destruct (nr_records candidate !! _); [|done]. by injection Hr as <-.
Qed.

(** C23. A revoked certificate never authenticates again.  Every certificate that could
    authenticate the Node when a Revoke command was accepted, the staged and the
    overlapping one included, is refused for every Node at every later time, whatever
    commands and measurement updates follow (re-enrolments too). *)
Theorem revoked_certificate_dead (r r1 r2 r3 : NodeIdentityRegistry) (command : IdentityCommand)
    (now : N) (subject digest : string) (receipt : IdentityCommandReceipt)
    (Hstart : NodeIdentityRegistry_validate r = Ok tt)
    (Hbefore : rtc identity_step r r1)
    (Hrevoke : ico_action command = IaRevoke)
    (Hfresh : nr_commands r1 !! ico_command_id command = None)
    (Hrun : apply_command r1 command now subject = Some (Ok (r2, receipt)))
    (Hbound : digest ∈ bound (certificates (nr_records r1 !! ico_node_id command)))
    (Hafter : rtc identity_step r2 r3) :
  forall node at_, accepts r3 node digest at_ = false.
Proof.
  apply registry_validate_iff in Hstart. destruct (identity_run _ _ Hstart Hbefore) as [Hok1 _].
  destruct (fresh_command_effect _ _ _ _ _ _ Hok1 Hrun Hfresh) as (cand & He & _ & Er2 & _).
  pose proof (ae_rotates _ _ _ _ He) as Hrot. rewrite Hrevoke in Hrot.
  inversion Hrot as [| | | |s Hl E1 E2 Eb Er| | |].
  assert (registry_ok r2) as Hok2 by (eapply identity_step_ok; [exact Hok1|by econstructor]).
  destruct (identity_run _ _ Hok2 Hafter) as [Hok3 [Hret _ _]].
  assert (digest ∈ nr_retired_digests r3) as Hdead.
  { apply Hret. rewrite Er2. simpl. rewrite <- Er. set_solver. }
  intros node at_. apply not_true_iff_false. intros (rec & Hrec & Hd)%accepts_live.
  by apply (ro_fresh _ Hok3 node rec digest).
Qed.

(** A certificate identifies one Node: in every registry that commands and measurement
    updates lead to from a validated one, no certificate authenticates two Nodes, not even
    at different times. *)
Theorem certificate_identifies_node (r r' : NodeIdentityRegistry) (node1 node2 digest : string)
    (at1 at2 : N)
    (Hstart : NodeIdentityRegistry_validate r = Ok tt) (Hrun : rtc identity_step r r')
    (H1 : accepts r' node1 digest at1 = true) (H2 : accepts r' node2 digest at2 = true) :
  node1 = node2.
Proof.
  apply registry_validate_iff in Hstart. destruct (identity_run _ _ Hstart Hrun) as [Hok _].
  apply accepts_live in H1 as (rec1 & Hr1 & Hd1). apply accepts_live in H2 as (rec2 & Hr2 & Hd2).
  by eapply (ro_owner _ Hok).
Qed.

(** A restart always accepts the registry: every registry reached from a validated one
    validates again, keeps every identity with its tenant and domain, every retired digest
    and every receipt, and no command can panic on it. *)
Theorem identity_registry_reloads (r r' : NodeIdentityRegistry)
    (Hstart : NodeIdentityRegistry_validate r = Ok tt) (Hrun : rtc identity_step r r') :
  NodeIdentityRegistry_validate r' = Ok tt /\ identity_later r r' /\
  forall command now subject, apply_command r' command now subject <> None.
Proof.
  apply registry_validate_iff in Hstart. destruct (identity_run _ _ Hstart Hrun) as [Hok Hl].
  split_and!; [by apply registry_validate_iff|done|]. intros command now subject.
  unfold apply_command. destruct (_ || _); [done|]. destruct (command_digest command); [|done].
  destruct (nr_commands r' !! _); [done|]. destruct (_ <=? _)%N; [done|].
  destruct (apply_action r' command now) as [cand|] eqn:Ea; [|done].
  destruct (NodeIdentityRegistry_validate cand) as [[]|] eqn:Ev; [|done].
  apply registry_validate_iff in Ev. pose proof (apply_action_effect _ _ _ _ Hok Ea Ev) as He.
  destruct (ae_record _ _ _ _ He) as (rec & Er & _).
  unfold command_receipt. by rewrite Er, lookup_insert_eq.
Qed.

(** C35. Commands refine the certificate lifecycle.  In a registry reached from a validated
    one, an accepted fresh command moves its Node along the abstract machine: enrol with a
    certificate that is not retired, stage another one that is not, activate it with a bounded
    overlap, retire the previous one, revoke and retire all of them, renew or configure a live
    identity, re-enrol a revoked one with a certificate that is neither retired nor the one it
    was revoked with.  The command advances the revision of the Node by exactly one from the
    expected one, retires exactly what that step retires, leaves every other Node alone and
    keeps the receipt; after it no other Node holds a certificate of this one.  If the revoked
    certificates of the initial registry are retired, as in an empty one, those of every
    later registry are: no enrolment, staging or re-enrolment then names a certificate with
    which any Node was revoked. *)
Theorem identity_command_refines (r r1 r2 : NodeIdentityRegistry) (command : IdentityCommand)
    (now : N) (subject : string) (receipt : IdentityCommandReceipt)
    (Hstart : NodeIdentityRegistry_validate r = Ok tt) (Hbefore : rtc identity_step r r1)
    (Hfresh : nr_commands r1 !! ico_command_id command = None)
    (Hrun : apply_command r1 command now subject = Some (Ok (r2, receipt))) :
  rotates now (nr_retired_digests r1) (certificates (nr_records r1 !! ico_node_id command))
    (ico_action command) (certificates (nr_records r2 !! ico_node_id command))
    (nr_retired_digests r2) /\
  (ni_revision <$> nr_records r2 !! ico_node_id command =
     Some (ico_expected_revision command + 1)%N) /\
  (forall node, node <> ico_node_id command -> nr_records r2 !! node = nr_records r1 !! node /\
     bound (certificates (nr_records r2 !! node))
       ## bound (certificates (nr_records r2 !! ico_node_id command))) /\
  nr_commands r2 = <[ico_command_id command := receipt]> (nr_commands r1) /\
  (revoked_retired r -> revoked_retired r1 /\ revoked_retired r2).
Proof.
  apply registry_validate_iff in Hstart. destruct (identity_run _ _ Hstart Hbefore) as [Hok1 _].
  assert (identity_step r1 r2) as Hs by (by econstructor).
  pose proof (identity_step_ok _ _ Hok1 Hs) as Hok2.
  assert (revoked_retired r -> revoked_retired r1 /\ revoked_retired r2) as Hret.
  { intros Hr. pose proof (run_revoked_retired _ _ Hstart Hbefore Hr) as Hr1.
    split; [done|]. exact (step_revoked_retired _ _ Hok1 Hs Hr1). }
  assert (forall node, node <> ico_node_id command -> bound (certificates (nr_records r2 !! node))
    ## bound (certificates (nr_records r2 !! ico_node_id command))) as Hdis
    by (intros node Hne; by apply bound_disjoint).
  destruct (fresh_command_effect _ _ _ _ _ _ Hok1 Hrun Hfresh) as (cand & He & _ & -> & Eid).
  destruct He as [(rec & Er & Ev & _) (Ec & _) _ Hrot]. simpl in *. split_and!; [done|..|done].
  - by rewrite Er, lookup_insert_eq; simpl; rewrite Ev.
  - intros node Hne. split; [by rewrite Er, lookup_insert_ne|by apply Hdis].
  - by rewrite Ec, Eid.
Qed.

(** A repeated command changes nothing: once accepted, the same command at any later
    registry, time and authority returns the original receipt and leaves the registry as
    it is. *)
Theorem identity_replay_ignored (r r1 r2 r3 : NodeIdentityRegistry) (command : IdentityCommand)
    (now later : N) (subject subject' : string) (receipt : IdentityCommandReceipt)
    (Hstart : NodeIdentityRegistry_validate r = Ok tt) (Hbefore : rtc identity_step r r1)
    (Hrun : apply_command r1 command now subject = Some (Ok (r2, receipt)))
    (Hafter : rtc identity_step r2 r3)
    (Hsubject : is_blank subject' = false) (Hlen : (str_len subject' <= 256)%N) :
  apply_command r3 command later subject' = Some (Ok (r3, receipt)).
Proof.
  apply registry_validate_iff in Hstart. destruct (identity_run _ _ Hstart Hbefore) as [Hok1 _].
  assert (registry_ok r2) as Hok2 by (eapply identity_step_ok; [exact Hok1|by econstructor]).
  destruct (identity_run _ _ Hok2 Hafter) as [_ [_ Hcmd _]].
  assert (is_blank (ico_command_id command) || (128 <? str_len (ico_command_id command))%N = false) as Hid.
  { unfold apply_command in Hrun. destruct (is_blank _ || (128 <? _)%N) in *; [done|done]. }
  apply apply_command_cases in Hrun as (digest & Hd & Hc).
  assert (nr_commands r2 !! ico_command_id command = Some receipt /\ ir_input_digest receipt = digest)
    as [Hin Hdig].
  { destruct Hc as [(E & ? & ?)|(cand & _ & _ & _ & _ & _ & Hr & E)]; [by rewrite E|].
    rewrite E. unfold command_receipt in Hr. destruct (nr_records cand !! _); [|done].
    injection Hr as <-. simpl. by rewrite lookup_insert_eq. }
  apply (lookup_weaken _ (nr_commands r3)) in Hin; [|done].
  unfold apply_command. rewrite Hid, Hsubject. simpl.
  destruct (N.ltb_spec 256 (str_len subject')); [lia|].
  by rewrite Hd, Hin, Hdig, String.eqb_refl.
Qed.

(** Rotation has an exact window: after a prepared certificate is activated, the new one
    authenticates from the activation on, the old one from the activation until the end of
    the commanded overlap, both within the validity of the identity, and no other. *)
Theorem rotation_window_exact (r r1 r2 : NodeIdentityRegistry) (command : IdentityCommand)
    (now overlap : N) (subject old new digest : string) (at_ : N) (receipt : IdentityCommandReceipt)
    (Hstart : NodeIdentityRegistry_validate r = Ok tt) (Hbefore : rtc identity_step r r1)
    (Hactivate : ico_action command = IaActivate overlap)
    (Hfresh : nr_commands r1 !! ico_command_id command = None)
    (Hcerts : certificates (nr_records r1 !! ico_node_id command) = CsPrepared old new)
    (Hrun : apply_command r1 command now subject = Some (Ok (r2, receipt))) :
  exists expires, (expires = 0 \/ now < expires)%N /\
  (accepts r2 (ico_node_id command) digest at_ = true <->
   (now <= at_)%N /\ (expires = 0 \/ at_ < expires)%N /\
   (digest = new \/ (digest = old /\ (at_ < now + overlap)%N))).
Proof.
  apply registry_validate_iff in Hstart. destruct (identity_run _ _ Hstart Hbefore) as [Hok1 _].
  apply apply_command_cases in Hrun as (dg & _ & [(_ & Hin & _)|Hc]); [congruence|].
  destruct Hc as (cand & Ha & Hokc & _ & _ & _ & _ & ->).
  destruct (activate_record _ _ _ _ _ _ _ Hactivate Hcerts Ha) as (rec & revision & Hrec).
  destruct (ro_records _ Hokc _ _ Hrec) as [_ [_ Hexp]%validate_record_phase]. simpl in Hexp.
  exists (ni_expires_at_ms rec). split; [done|]. unfold accepts. simpl. rewrite Hrec. simpl.
  rewrite !andb_true_iff, !orb_true_iff, N.leb_le, N.eqb_eq, N.ltb_lt, String.eqb_eq.
  rewrite !andb_true_iff, N.ltb_lt, !bool_decide_eq_true. naive_solver.
Qed.
End Claims.

Lemma fi_valid : NodeIdentityRegistry_validate fi_start = Ok tt.
Proof. reflexivity. Qed.

Lemma revoked_certificate_dead_witness : accepts fi_revoked "n1" fi_old 35 = false.
Proof.
  apply (revoked_certificate_dead fi_start fi_activated fi_revoked fi_revoked fi_revoke 40 "operator"
    fi_old (fi_receipt fi_revoke 4 40) fi_valid fi_activated_run).
  - reflexivity.
  - vm_compute. reflexivity.
  - exact fi_step4.
  - apply elem_of_union. right. vm_compute. reflexivity.
  - apply rtc_refl.
Defined.

Lemma certificate_identifies_node_witness : "n1" = "n1".
Proof.
  apply (certificate_identifies_node fi_start fi_activated "n1" "n1" fi_old 35 129 fi_valid
    fi_activated_run); vm_compute; reflexivity.
Defined.

Lemma identity_registry_reloads_witness : NodeIdentityRegistry_validate fi_activated = Ok tt.
Proof. exact (proj1 (identity_registry_reloads fi_start fi_activated fi_valid fi_activated_run)). Defined.

Lemma identity_command_refines_witness :
  nr_commands fi_revoked !! "c4" = Some (fi_receipt fi_revoke 4 40).
Proof.
  destruct (identity_command_refines fi_start fi_activated fi_revoked fi_revoke 40 "operator"
    (fi_receipt fi_revoke 4 40) fi_valid fi_activated_run (ltac:(vm_compute; reflexivity)) fi_step4)
    as (_ & _ & _ & E & _).
  rewrite E. vm_compute. reflexivity.
Defined.

Lemma identity_replay_ignored_witness :
  apply_command fi_revoked fi_revoke 90 "other" =
  Some (Ok (fi_revoked, fi_receipt fi_revoke 4 40)).
Proof.
  apply (identity_replay_ignored fi_start fi_activated fi_revoked fi_revoked fi_revoke 40 90
    "operator" "other" (fi_receipt fi_revoke 4 40) fi_valid fi_activated_run fi_step4 (rtc_refl _ _)).
  - reflexivity.
  - vm_compute. discriminate.
Defined.

Lemma fi_prepared_run : rtc identity_step fi_start fi_prepared.
Proof.
  eapply rtc_l; [exact (is_command _ _ _ _ _ _ fi_step1)|].
  apply rtc_once. exact (is_command _ _ _ _ _ _ fi_step2).
Qed.

Lemma rotation_window_exact_witness : exists expires, (expires = 0 \/ 30 < expires)%N /\
  (accepts fi_activated "n1" fi_old 129 = true <->
   (30 <= 129)%N /\ (expires = 0 \/ 129 < expires)%N /\
   (fi_old = fi_new \/ (fi_old = fi_old /\ (129 < 30 + 100)%N))).
Proof.
  apply (rotation_window_exact fi_start fi_prepared fi_activated fi_activate 30 100 "operator"
    fi_old fi_new fi_old 129 (fi_receipt fi_activate 3 30) fi_valid fi_prepared_run).
  - reflexivity.
  - vm_compute. reflexivity.
  - vm_compute. reflexivity.
  - exact fi_step3.
Defined.
