(* ===== verification/PropsMission.v ===== *)
(** * Properties of Mission plans *)

From S2P Require Import Prelude Identity Execution StateModel Session Resource RelationSpec Scheduler.
From S2P Require Import Sorting Mission.

Open Scope string_scope.

(** ** A plan

    A survey, an inspection that needs it, and a report that needs both, over two actors of
    one context that must be distinct physical entities. *)

Definition fm_mission : MissionId := MkId "m1".
Definition fm_actor (name : string) : ActorId := MkId name.
Definition fm_role (actor : string) : RoleRequirement :=
  MkRoleRequirement (MkId "r1") None (Some (fm_actor actor)) None
    [CapabilityRequirement_exact (MkContract "nav" "go" "v1")] None [] [].
Definition fm_requirement (name actor : string) : TaskRequirement :=
  MkTaskRequirement (MkTaskRef fm_mission (MkId name)) [fm_role actor]
    (MkTaskTiming 0 None None None).
Definition fm_intent : ExecutionIntent :=
  MkIntent (MkOperationRef (MkContract "nav" "go" "v1")) "go" ∅.
Definition fm_continuity (actor : string) : TaskContinuity :=
  MkContinuity (MkId "ctx") {[MkId "r1" := MkId actor]} ∅ None.
Definition fm_task (name actor : string) (dependencies : list string) : PlannedTask :=
  MkPlannedTask name (fm_requirement name actor) {[MkId "r1" := fm_intent]}
    (MkId <$> dependencies) (fm_continuity actor) ExecutionReport name.
Definition fm_tasks : list PlannedTask :=
  [fm_task "report" "b" ["inspect"; "survey"]; fm_task "inspect" "b" ["survey"];
   fm_task "survey" "a" []].
Definition fm_graph : TaskGraph := MkTaskGraph fm_mission fm_tasks.

Lemma fm_graph_new : TaskGraph_new fm_mission fm_tasks = Ok fm_graph.
Proof. vm_compute. reflexivity. Qed.

Definition fm_roles : list ContextRole :=
  [MkContextRole (MkId "a") (fm_actor "a") []; MkContextRole (MkId "b") (fm_actor "b") []].
Definition fm_distinct : DistinctPhysicalEntityConstraint :=
  MkDistinct {[MkId "a"; MkId "b"]}.
Definition fm_open : CoordinationContext := MkContext (MkId "ctx") fm_roles [] [] Independent None None.
Definition fm_context : CoordinationContext :=
  MkContext (MkId "ctx") fm_roles [fm_distinct] [] Independent None None.

Lemma fm_context_new : with_executor_constraints fm_open [fm_distinct] = Ok fm_context.
Proof. vm_compute. reflexivity. Qed.

Definition fm_goal : MissionGoal := MkGoal fm_mission "inspect the hall".
Definition fm_actors : list MissionActor :=
  [MkActor (fm_actor "a") (Some (MkId "robot-1")); MkActor (fm_actor "b") None].
Definition fm_plan : MissionPlan :=
  MkMissionPlan fm_goal fm_actors fm_graph [fm_context] true false false false.

Lemma fm_plan_new :
  MissionPlan_new_with_actors fm_goal fm_actors fm_graph [fm_context] = Ok fm_plan.
Proof. vm_compute. reflexivity. Qed.

(** ** Task graphs *)

(** C29. A Task graph is accepted exactly when it is nonempty, its Tasks belong to one
    mission and have distinct identities, and every dependency is a Task of the graph and
    ranks below its dependent: the loop that removes Tasks without open dependencies
    succeeds exactly on the graphs without a cycle. *)
Theorem task_graph_accepted_iff (mission : MissionId) (tasks : list PlannedTask) (g : TaskGraph) :
  TaskGraph_new mission tasks = Ok g <-> g = MkTaskGraph mission tasks /\ graph_ok mission tasks.
Proof. apply TaskGraph_new_iff. Qed.

(** C28. An accepted graph can always be carried on and always finishes: whatever Tasks
    are completed, an uncompleted Task leaves some Task ready, a ready Task has every
    dependency completed, and completing the ready Tasks in rounds completes the whole graph
    in as many rounds as it has Tasks. *)
Theorem mission_progress (mission : MissionId) (tasks : list PlannedTask) (g : TaskGraph)
    (Hg : TaskGraph_new mission tasks = Ok g) :
  (forall completed, (exists t, t ∈ tg_tasks g /\ pt_task_id t ∉ completed) ->
     exists t, t ∈ graph_ready_tasks g completed) /\
  (forall completed t, t ∈ graph_ready_tasks g completed ->
     (pt_task_id t ∉ completed) /\ forall d, d ∈ pt_dependencies t -> d ∈ completed) /\
  (forall t, t ∈ tg_tasks g -> pt_task_id t ∈ (complete_rounds (length tasks) g ∅)).
Proof.
  apply TaskGraph_new_iff in Hg as [-> Hok]. destruct (go_ranked _ _ Hok) as [rank Hr]. split_and!.
  - intros completed (t & Ht & Hn).
    destruct (graph_ready_tasks (MkTaskGraph mission tasks) completed) as [|r l] eqn:Er; [|exists r; set_solver].
    exfalso. assert (forall n t, rank (pt_task_id t) < n -> t ∈ tasks -> pt_task_id t ∈ completed) as H.
    + clear t Ht Hn. induction n as [|n IH]; intros t Hlt Ht; [lia|].
      destruct (decide (pt_task_id t ∈ completed)) as [|Hn]; [done|]. exfalso.
      assert (t ∈ graph_ready_tasks (MkTaskGraph mission tasks) completed) as Hin;
        [|rewrite Er in Hin; set_solver].
      apply elem_of_graph_ready. split_and!; [done..|]. intros d Hd.
      destruct (Hr t d Ht Hd) as [(t' & -> & Ht')%list_elem_of_fmap Hlt']. apply IH; [lia|done].
    + apply Hn, (H (S (rank (pt_task_id t)))); [lia|done].
  - intros completed t (_ & Hn & Hd)%elem_of_graph_ready. done.
  - intros t Ht. apply (complete_rounds_height mission (MkTaskGraph mission tasks) rank Hok Hr _ 0); [intros; lia|done|].
    apply height_lt, list_elem_of_fmap. eauto.
Qed.

Lemma mission_progress_witness :
  pt_task_id <$> graph_ready_tasks fm_graph ∅ = [MkId "survey"] /\
  forallb (fun t => bool_decide (pt_task_id t ∈ (complete_rounds 3 fm_graph ∅))) fm_tasks = true.
Proof.
  split; [vm_compute; reflexivity|]. apply forallb_forall. intros t Ht%list_elem_of_In.
  apply bool_decide_eq_true. exact (proj2 (proj2 (mission_progress _ _ _ fm_graph_new)) t Ht).
Defined.

(** C30. On an accepted graph the depth of [task_depends_on] is bounded by the number of
    Tasks, and the function decides the transitive dependency relation: it ends, and it says
    yes exactly when a chain of dependencies leads from one Task to the other. *)
Theorem depends_on_exact (mission : MissionId) (tasks : list PlannedTask) (g : TaskGraph)
    (task candidate : TaskId) (Hg : TaskGraph_new mission tasks = Ok g)
    (Ht : task ∈ pt_task_id <$> tg_tasks g) :
  (depends_on g task candidate = true <-> tc (depends (tg_tasks g)) task candidate) /\
  (forall fuel, length (tg_tasks g) <= fuel ->
     task_depends_on fuel g task candidate = depends_on g task candidate).
Proof.
  apply TaskGraph_new_iff in Hg as [-> Hok]. destruct (go_ranked _ _ Hok) as [rank Hr].
  pose proof (height_lt tasks rank task Ht) as Hh.
  assert (forall fuel, length tasks <= fuel ->
    task_depends_on fuel (MkTaskGraph mission tasks) task candidate = true <->
    tc (depends tasks) task candidate) as H.
  { intros fuel Hf. apply (task_depends_on_spec mission (MkTaskGraph mission tasks) rank eq_refl Hok Hr).
    simpl. lia. }
  split; [by apply H|]. intros fuel Hf. apply eq_true_iff_eq. unfold depends_on. simpl in *.
  rewrite !H; done || lia.
Qed.

Lemma depends_on_exact_witness :
  tc (depends fm_tasks) (MkId "report") (MkId "survey") /\
  depends_on fm_graph (MkId "survey") (MkId "report") = false.
Proof.
  split; [|vm_compute; reflexivity].
  apply (depends_on_exact fm_mission fm_tasks fm_graph (MkId "report") (MkId "survey") fm_graph_new);
    [|vm_compute; reflexivity].
  simpl. apply elem_of_cons. by left.
Defined.

(** ** Accepted plans *)

(** What the checks of [new_with_actors] establish for one Task. *)
Definition task_placed (contexts : list CoordinationContext) (t : PlannedTask) : Prop :=
  exists c, c ∈ contexts /\ cc_context_id c = tc_context_id (pt_continuity t) /\
    (forall role context_role_id, tc_context_roles (pt_continuity t) !! role = Some context_role_id ->
       exists r q, context_role c context_role_id = Some r /\ find_role (pt_requirement t) role = Some q /\
         rq_actor_id q = Some (cr_actor_id r)) /\
    (forall role, tc_resource_scopes (pt_continuity t) !! role = Some ScopeContext ->
       is_Some (tc_context_roles (pt_continuity t) !! role)).

Lemma check_planned_task_placed contexts t :
  check_planned_task contexts t = Ok tt -> task_placed contexts t.
Proof.
  unfold check_planned_task. destruct (find_context _ _) as [c|] eqn:Ec; [|done].
  apply find_some in Ec as [Hc%list_elem_of_In Eid]. bool_facts.
  destruct (try_for (check_context_role _ _) _) as [[]|] eqn:Er; [|done].
  destruct (try_for (check_resource_scope _) _) as [[]|] eqn:Es; [|done]. intros _.
  rewrite try_for_ok in Er. rewrite try_for_ok in Es. exists c. split_and!; [done..| |].
  - intros role id Hin%elem_of_btree_iter. specialize (Er _ Hin). unfold check_context_role in Er.
    simpl in Er. destruct (context_role c id) as [r|]; [|done]. exists r.
    destruct (find_role _ role) as [q|] eqn:Eq; simpl in Er; [|done]. exists q.
    split_and!; [done..|]. case_bool_decide; [done|discriminate].
  - intros role Hin%elem_of_btree_iter. specialize (Es _ Hin). unfold check_resource_scope in Es.
    simpl in Es. destruct (contains_key role _) eqn:Ek; [by apply contains_key_true in Ek|discriminate].
Qed.

Lemma validate_relation_endpoint_Ok g c e : validate_relation_endpoint g c e = Ok tt ->
  exists t, graph_task g (per_task_id e) = Some t /\
    tc_context_id (pt_continuity t) = cc_context_id c /\
    per_role_id e ∈ rq_role_id <$> pt_roles t.
Proof.
  unfold validate_relation_endpoint. destruct (graph_task g _) as [t|]; [|done]. intros H. exists t.
  case_bool_decide as Ec; [|done]. simpl in H. split_and!; [done..|].
  destruct (existsb _ _) eqn:Ee; [|done]. apply existsb_exists in Ee as (r & Hr%list_elem_of_In & Hb).
  bool_facts. apply list_elem_of_fmap. eauto.
Qed.

(** An accepted plan is coherent: every Task is placed in a known context with the
    actors of its context roles, and every relation of a context joins known Roles of two
    Tasks of that context, either the same Task or Tasks that no chain of dependencies
    orders. *)
Theorem accepted_plan_coherent (goal : MissionGoal) (actors : list MissionActor)
    (tasks : list PlannedTask) (g : TaskGraph) (contexts : list CoordinationContext)
    (p : MissionPlan) (Hg : TaskGraph_new (mg_mission_id goal) tasks = Ok g)
    (Hp : MissionPlan_new_with_actors goal actors g contexts = Ok p) :
  (forall t, t ∈ tasks -> task_placed contexts t) /\
  (forall c r, c ∈ contexts -> r ∈ cc_relations c ->
     exists s t, graph_task g (per_task_id (rs_source r)) = Some s /\
       graph_task g (per_task_id (rs_target r)) = Some t /\
       tc_context_id (pt_continuity s) = cc_context_id c /\
       tc_context_id (pt_continuity t) = cc_context_id c /\
       (pt_task_id s = pt_task_id t \/
        ~ tc (depends tasks) (pt_task_id s) (pt_task_id t) /\
        ~ tc (depends tasks) (pt_task_id t) (pt_task_id s))).
Proof.
  unfold MissionPlan_new_with_actors in Hp. simpl in Hp. repeat case_match; try discriminate.
  rename select (try_for (check_planned_task _) _ = _) into Ht.
  rename select (try_for (fun _ => try_for _ _) _ = _) into Hr.
  repeat match goal with u : unit |- _ => destruct u end.
  pose proof Hg as Hg'. apply TaskGraph_new_iff in Hg' as [-> Hok].
  rewrite try_for_ok in Ht. rewrite try_for_ok in Hr. split; [intros t Hin; by apply check_planned_task_placed, Ht|].
  intros c r Hc Hin. specialize (Hr c Hc). rewrite try_for_ok in Hr. specialize (Hr r Hin).
  unfold check_relation in Hr. destruct (negb (bool_decide (rs_kind r = _))); [discriminate|].
  destruct (validate_relation_endpoint _ c (rs_source r)) as [[]|] eqn:Es; [|discriminate].
  destruct (validate_relation_endpoint _ c (rs_target r)) as [[]|] eqn:Et; [|discriminate].
  apply validate_relation_endpoint_Ok in Es as (s & Es & Ecs & _).
  apply validate_relation_endpoint_Ok in Et as (t & Et & Ect & _).
  exists s, t. split_and!; [done..|].
  apply graph_task_Some in Es as [Hs Es]. apply graph_task_Some in Et as [Htt Et].
  rewrite <- Es, <- Et in Hr. case_bool_decide as E; [by left|right]. simpl in Hr.
  destruct (go_ranked _ _ Hok) as [rank Hrk].
  assert (forall x y, x ∈ tasks -> depends_on (MkTaskGraph (mg_mission_id goal) tasks) (pt_task_id x) y = false ->
            ~ tc (depends tasks) (pt_task_id x) y) as Hno.
  { intros x y Hx Hd Htc. apply (task_depends_on_spec _ (MkTaskGraph (mg_mission_id goal) tasks) rank eq_refl
      Hok Hrk (length tasks)) in Htc; [unfold depends_on in Hd; simpl in *; congruence|].
    apply height_lt, list_elem_of_fmap. eauto. }
  match type of Hr with (if ?b then _ else _) = _ => destruct b eqn:Eo; [discriminate|] end. apply orb_false_iff in Eo as [E1 E2].
  split; by apply Hno.
Qed.

Lemma accepted_plan_coherent_witness : task_placed [fm_context] (fm_task "survey" "a" []).
Proof.
  apply (accepted_plan_coherent fm_goal fm_actors fm_tasks fm_graph [fm_context] fm_plan
           fm_graph_new fm_plan_new).
  do 2 (apply elem_of_cons; right). apply elem_of_cons. by left.
Defined.

(** ** Binding semantics *)

Lemma with_executor_constraints_Ok c0 ks c : with_executor_constraints c0 ks = Ok c ->
  cc_executor_constraints c = ks /\ cc_roles c = cc_roles c0 /\
  forall k role, k ∈ ks -> role ∈ dpe_context_role_ids k -> is_Some (context_role c role).
Proof.
  unfold with_executor_constraints. destruct (try_for _ ks) as [[]|] eqn:E; [|done].
  destruct (negb _); [done|]. intros [= <-]. split_and!; [done..|]. intros k role Hk Hr.
  rewrite try_for_ok in E. specialize (E k Hk). unfold executor_constraint_check in E.
  destruct (try_for _ (bset_iter _)) as [[]|] eqn:Eu; [|done]. clear E.
  rewrite try_for_ok in Eu. specialize (Eu role). apply elem_of_bset_iter in Hr. specialize (Eu Hr).
  simpl in Eu. change (context_role _ role) with (context_role c0 role).
  by destruct (context_role c0 role).
Qed.

Lemma binding_constraint_Some c k b : binding_constraint c k = Some b ->
  bc_context_id b = cc_context_id c /\
  forall a, a ∈ bc_actor_ids b <->
    exists role r, role ∈ dpe_context_role_ids k /\ context_role c role = Some r /\ cr_actor_id r = a.
Proof.
  unfold binding_constraint. intros (l & El & [= <-])%bind_Some. split; [done|]. intros a. simpl.
  rewrite elem_of_list_to_set. apply mapM_Some in El. split.
  - intros Ha. apply list_elem_of_lookup in Ha as [i Hi].
    destruct (Forall2_lookup_r _ _ _ _ _ El Hi) as (role & Hrole & Hc).
    apply fmap_Some in Hc as (r & Er & ->). exists role, r. split_and!; [|done..].
    apply elem_of_bset_iter, list_elem_of_lookup. eauto.
  - intros (role & r & Hrole & Er & <-). apply elem_of_bset_iter, list_elem_of_lookup in Hrole as [i Hi].
    destruct (Forall2_lookup_l _ _ _ _ _ El Hi) as (a & Ha & Hc). rewrite Er in Hc. simplify_eq/=.
    apply list_elem_of_lookup. eauto.
Qed.

Lemma elem_of_distinct_peers s context actor b : b ∈ distinct_peers s context actor <->
  b <> actor /\ exists k, k ∈ bs_context_constraints s /\ bc_context_id k = context /\
    actor ∈ bc_actor_ids k /\ b ∈ bc_actor_ids k.
Proof.
  unfold distinct_peers. rewrite elem_of_difference, elem_of_singleton.
  assert (forall l acc, b ∈ foldl (fun peers c =>
      if bool_decide (bc_context_id c = context) && set_contains actor (bc_actor_ids c)
      then peers ∪ bc_actor_ids c else peers) acc l <->
    b ∈ acc \/ exists k, k ∈ l /\ bc_context_id k = context /\ actor ∈ bc_actor_ids k /\
                         b ∈ bc_actor_ids k) as H.
  { induction l as [|k l IH]; intros acc; simpl.
    - split; [by left|]. intros [?|(k & Hk%not_elem_of_nil & _)]; done.
    - rewrite IH. unfold set_contains. case_bool_decide as E1; case_bool_decide as E2; simpl; set_solver. }
  rewrite H. set_solver.
Qed.

Lemma actor_grounding_lookup actors : forall (acc : gmap ActorId PhysicalEntityId) id e,
  NoDup (ma_id <$> actors) -> (forall a, a ∈ actors -> acc !! ma_id a = None) ->
  foldl (fun m a => match ma_physical_entity a with
                    | Some entity => <[ma_id a := entity]> m
                    | None => m
                    end) acc actors !! id = Some e <->
  acc !! id = Some e \/ MkActor id (Some e) ∈ actors.
Proof.
  induction actors as [|a actors IH]; intros acc id e Hnd Hn; simpl.
  { split; [by left|]. by intros [?|?%not_elem_of_nil]. }
  apply NoDup_cons in Hnd as [Hni Hnd]. rewrite IH; [|done|].
  - rewrite elem_of_cons. destruct a as [i [x|]]; simpl; [|naive_solver].
    rewrite lookup_insert_Some. specialize (Hn (MkActor i (Some x)) ltac:(by left)). simpl in Hn.
    destruct (decide (i = id)) as [->|]; naive_solver.
  - intros b Hb. destruct a as [i [x|]]; simpl; [|apply Hn; by right].
    rewrite lookup_insert_ne; [apply Hn; by right|]. intros Ei. apply Hni, list_elem_of_fmap. eauto.
Qed.

(** The binding semantics of an accepted plan exist ([expect] on a role of a
    constraint never fails) and say what the plan declares: an actor is grounded on an
    entity exactly when the plan grounds it there, and two actors are peers in a context
    exactly when they differ and some constraint of that context covers a role of each. *)
Theorem binding_semantics_exact (goal : MissionGoal) (actors : list MissionActor) (g : TaskGraph)
    (contexts : list CoordinationContext) (p : MissionPlan)
    (Hc : forall c, c ∈ contexts -> exists c0 ks, with_executor_constraints c0 ks = Ok c)
    (Hp : MissionPlan_new_with_actors goal actors g contexts = Ok p) :
  exists s, binding_semantics p = Some s /\
    (forall a e, grounding s a = Some e <-> MkActor a (Some e) ∈ actors) /\
    (forall context a b, b ∈ distinct_peers s context a <-> a <> b /\
       exists c k ra rb, c ∈ contexts /\ cc_context_id c = context /\
         k ∈ cc_executor_constraints c /\
         (exists i, i ∈ dpe_context_role_ids k /\ context_role c i = Some ra) /\
         (exists i, i ∈ dpe_context_role_ids k /\ context_role c i = Some rb) /\
         cr_actor_id ra = a /\ cr_actor_id rb = b).
Proof.
  assert (mp_actors p = actors /\ mp_contexts p = contexts /\ NoDup (ma_id <$> actors))
    as (Ea & Ec & Hnd).
  { unfold MissionPlan_new_with_actors in Hp. simpl in Hp.
    destruct (negb (bool_decide _)); [discriminate|].
    destruct (negb (distinct_count (cc_context_id <$> _) =? _)%nat); [discriminate|].
    destruct (distinct_count (ma_id <$> actors) =? length actors)%nat eqn:Ed; [|discriminate].
    simpl in Hp. repeat case_match; try discriminate. injection Hp as <-. split_and!; [done..|].
    apply distinct_count_NoDup. rewrite length_fmap. by apply Nat.eqb_eq. }
  unfold binding_semantics, MissionBindingSemantics_collect. rewrite Ea, Ec.
  assert (is_Some (mapM (fun c => mapM (binding_constraint c) (cc_executor_constraints c)) contexts))
    as [l El].
  { apply mapM_is_Some, Forall_forall. intros c Hin. apply mapM_is_Some, Forall_forall. intros k Hk.
    destruct (Hc c Hin) as (c0 & ks & (<- & _ & Hks)%with_executor_constraints_Ok).
    assert (is_Some (mapM (fun role => cr_actor_id <$> context_role c role)
              (bset_iter (dpe_context_role_ids k)))) as [ids Eids];
      [|eexists; apply bind_Some; eexists; split; [exact Eids|reflexivity]].
    apply mapM_is_Some, Forall_forall. intros role Hr%elem_of_bset_iter.
    simpl. destruct (Hks k role Hk Hr) as [r ->]. by eexists. }
  rewrite El. simpl. eexists. split; [done|]. split.
  - intros a e. unfold grounding. simpl. rewrite actor_grounding_lookup; [|done|intros; apply lookup_empty].
    rewrite lookup_empty. naive_solver.
  - intros context a b. rewrite elem_of_distinct_peers. simpl. apply mapM_Some in El. split.
    + intros (Hab & k & Hk & Ek & Ha & Hb). split; [done|].
      apply list_elem_of_In, in_concat in Hk as (lk & Hlk%list_elem_of_In & Hk%list_elem_of_In).
      apply list_elem_of_lookup in Hlk as [i Hi].
      destruct (Forall2_lookup_r _ _ _ _ _ El Hi) as (c & Hci & Hm). apply mapM_Some in Hm.
      apply list_elem_of_lookup in Hk as [j Hj].
      destruct (Forall2_lookup_r _ _ _ _ _ Hm Hj) as (k0 & Hk0 & [Eid Hids]%binding_constraint_Some).
      apply Hids in Ha as (ia & ra & ? & ? & ?). apply Hids in Hb as (ib & rb & ? & ? & ?).
      exists c, k0, ra, rb. split_and!; eauto using list_elem_of_lookup_2; congruence.
    + intros (Hab & c & k & ra & rb & Hin & Eid & Hk & (ia & ? & ?) & (ib & ? & ?) & <- & <-).
      split; [done|]. apply list_elem_of_lookup in Hin as [i Hi].
      destruct (Forall2_lookup_l _ _ _ _ _ El Hi) as (lk & Hlk & Hm). apply mapM_Some in Hm.
      apply list_elem_of_lookup in Hk as [j Hj].
      destruct (Forall2_lookup_l _ _ _ _ _ Hm Hj) as (bk & Hbk & [Ebid Hids]%binding_constraint_Some).
      exists bk. split_and!; [|congruence|apply Hids; eauto..].
      apply list_elem_of_In, in_concat. exists lk.
      split; apply list_elem_of_In; eauto using list_elem_of_lookup_2.
Qed.

Lemma binding_semantics_exact_witness :
  exists s, binding_semantics fm_plan = Some s /\
    grounding s (fm_actor "a") = Some (MkId "robot-1") /\ grounding s (fm_actor "b") = None /\
    fm_actor "b" ∈ distinct_peers s (MkId "ctx") (fm_actor "a").
Proof.
  destruct (binding_semantics_exact fm_goal fm_actors fm_graph [fm_context] fm_plan) as (s & Es & Hg & Hd).
  - intros c ->%list_elem_of_singleton. exists fm_open, [fm_distinct]. exact fm_context_new.
  - exact fm_plan_new.
  - exists s. split_and!; [done|apply Hg; by left| |].
    + destruct (grounding s (fm_actor "b")) as [e|] eqn:E; [|done]. apply Hg in E.
      exfalso. unfold fm_actors in E. set_solver.
    + apply Hd. split; [done|].
      exists fm_context, fm_distinct, (MkContextRole (MkId "a") (fm_actor "a") []),
        (MkContextRole (MkId "b") (fm_actor "b") []).
      split_and!; [by left|done|by left|exists (MkId "a")|exists (MkId "b")|done|done];
        (split; [unfold fm_distinct; set_solver|done]).
Defined.
