(* ===== verification/PropsGroup.v ===== *)
(** * Properties of Execution Groups *)

From S2P Require Import Prelude Identity Execution StateModel Session Resource RelationSpec DecisionPolicy.
From S2P Require Import Scheduler SchedulerPolicy Sorting Quota NodeIdentity NodeState Capacity.
From S2P Require Import Mission TaskExecution Group ControlPlane Actors GroupLifecycle GroupBinding.
From S2P Require Import GroupRelease RoleRecovery GroupCheckpoint ControlSteps.

Open Scope string_scope.

(** ** Missions

    One Task with two Roles in one context.  A case fixes who plays the Roles, what they
    need, which scope their resources have and which assignments are proposed. *)

(** A digest of 64 lower-case digits and a printer, for the parameters of the versions. *)
Fixpoint fg_hash (s : string) : N :=
  match s with
  | EmptyString => 1
  | String a s' => (fg_hash s' * 257 + N_of_ascii a) mod 16 ^ 64
  end.
Fixpoint fg_hex (width : nat) (n : N) : string :=
  match width with
  | O => EmptyString
  | S width' => String (ascii_of_N (if (n mod 16 <? 10)%N then 48 + n mod 16 else 87 + n mod 16))
                  (fg_hex width' (n / 16))
  end.

Fixpoint fg_text (fuel : nat) (j : Json) : string :=
  match fuel with
  | O => EmptyString
  | S fuel' =>
      match j with
      | JString s => s ++ ";"
      | JArray l => "[" ++ foldr (fun j t => fg_text fuel' j ++ t) "]" l
      | JObject l => "{" ++ foldr (fun kv t => fg_text fuel' kv.2 ++ t) "}" l
      | _ => "."
      end
  end.

#[export] Instance fg_serde : Serde := {|
  json_to_vec := fun j => Ok (fg_text 8 j);
  sha256_hex := fun s => fg_hex 64 (fg_hash s)
|}.

Definition fg_id {k} (s : string) : Identifier k := MkId s.
Definition fg_mission : MissionId := fg_id "m1".
Definition fg_group : ExecutionGroupId := fg_id "g1".
Definition fg_task : TaskRef := MkTaskRef fg_mission (fg_id "haul").
Definition fg_contract : CapabilityContractRef := MkContract "nav" "go" "v1".
Definition fg_operation : OperationRef := MkOperationRef fg_contract.
Definition fg_intent : ExecutionIntent := MkIntent fg_operation "go" ∅.

Record Case := MkCase {
  fc_helper_actor : string;
  fc_helper_demand : ResourceRequirement;
  fc_scopes : gmap RoleId ResourceBindingScope;
  fc_helper_node : string;
  fc_capacity : option (CapacityLedger * QuotaLedger)
}.

Definition fg_exclusive : ResourceRequirement := MkResourceRequirement Space 1 Exclusive None.
Definition fg_role (name actor : string) (demand : ResourceRequirement) : RoleRequirement :=
  MkRoleRequirement (fg_id name) None (Some (fg_id actor)) None
    [CapabilityRequirement_exact fg_contract] None [demand] [].

Section Runs.
Context (k : Case).

Definition fg_lead : RoleRequirement := fg_role "lead" "a" fg_exclusive.
Definition fg_helper : RoleRequirement := fg_role "helper" (fc_helper_actor k) (fc_helper_demand k).
Definition fg_requirement : TaskRequirement :=
  MkTaskRequirement fg_task [fg_lead; fg_helper] (MkTaskTiming 0 None None None).
Definition fg_planned : PlannedTask :=
  MkPlannedTask "haul" fg_requirement {[fg_id "lead" := fg_intent; fg_id "helper" := fg_intent]} []
    (MkContinuity (fg_id "ctx") {[fg_id "lead" := fg_id "a"; fg_id "helper" := fg_id (fc_helper_actor k)]}
       (fc_scopes k) None) ExecutionReport "hauled".
Definition fg_context : CoordinationContext :=
  MkContext (fg_id "ctx") [MkContextRole (fg_id "a") (fg_id "a") []; MkContextRole (fg_id "b") (fg_id "b") []]
    [] [] Independent None None.
Definition fg_plan : Result MissionPlan DomainError :=
  MissionPlan_new_with_actors (MkGoal fg_mission "haul the crate")
    [MkActor (fg_id "a") None; MkActor (fg_id "b") None]
    (MkTaskGraph fg_mission [fg_planned]) [fg_context].

(** One operation after another; [None] when one is refused. *)
Definition fg_then {A} (s : option ControlPlane) (op : ControlPlane -> ControlStep A) : option ControlPlane :=
  c ← s; step ← op c; match step with (c', Ok _) => Some c' | (_, Err _) => None end.

Definition fg_assignments : list RoleAssignment :=
  [MkAssignment (fg_id "lead") (fg_id "n1") [fg_id "arm"];
   MkAssignment (fg_id "helper") (fg_id (fc_helper_node k)) [fg_id "base"]].
Definition fg_proposal : AssignmentProposal :=
  MkProposal fg_task fg_assignments ∅ {[fg_id "lead" := fg_lead; fg_id "helper" := fg_helper]} ∅.
Definition fg_committed : CommittedPlan := MkCommittedPlan fg_task fg_assignments ∅ ∅ None.

Definition fg_created : option ControlPlane :=
  match fg_plan with
  | Ok p => fg_then (Some ControlPlane_new) (fun c => create_mission_group c fg_group p)
  | Err _ => None
  end.
Definition fg_bound : option ControlPlane :=
  let s1 := fg_then fg_created (fun c => ready_task_execution c fg_group fg_task) in
  let s2 := fg_then s1 (fun c => commit_for_group_validated c fg_group fg_proposal (fc_capacity k) 10) in
  fg_then s2 (fun c => bind_task_execution_validated c fg_group fg_committed).
Definition fg_active : option ControlPlane :=
  fg_then fg_bound (fun c => activate_task_execution c fg_group fg_task 11).
Definition fg_completed (s : option ControlPlane) : option ControlPlane :=
  let s1 := fg_then s (fun c => record_task_execution_completed c fg_group fg_task) in
  let s2 := fg_then s1 (fun c => satisfy_task_execution c fg_group fg_task ExecutionReport) in
  fg_then s2 (fun c => complete_group c fg_group).

(** A Node view that declares the resource and the repetition of its operation. *)
Definition fg_node (node resource : string) : NodeStateSnapshot :=
  MkNodeSnapshot
    (MkRegistration (fg_id node) [MkLocalSystem (fg_id "default") (MkLocalRuntime "ros" "2") ∅]
       (fg_id NODE_CONTRACT_VERSION_V0_14) [] [] ∅ ∅ ∅ ∅
       [MkOperationSupport fg_operation (fg_id "default")] []
       [MkResource (fg_id resource) Space 1 Exclusive None] ∅ [] [])
    (MkNodeStatus Online 5) 5 (MkLivenessObservation Reachable 5).
Definition fg_view (node resource : string) : NodeView := {|
  nv_node := fun id => if bool_decide (id = fg_id node) then Some (fg_node node resource) else None;
  nv_recovery_support := fun _ operation => Some (MkRecoverySupport (fg_id "default")
    (MkOpRecovery operation ScopeExecution RepeatAfterStop));
  nv_eligible := fun _ _ _ _ => true;
  nv_gates_allow := fun _ _ _ _ _ => true;
  nv_topology := fun _ _ _ _ => Ok tt;
  nv_capacity := fun _ _ _ _ _ => Ok None
|}.

(** The Role is repeated on its Node with its resource, after a confirmed stop. *)
Definition fg_repeat (role node resource : string) : RecoveryAssignmentProposal :=
  MkRecoveryProposal true fg_group fg_task (fg_id role) (fg_id node) (fg_id node) [fg_id resource]
    (Some fg_operation) None.
Definition fg_recovered (role node resource : string) (s : option ControlPlane) : option ControlPlane :=
  let s1 := fg_then s (fun c => begin_role_recovery c (MkRecoveryNeed fg_group fg_task (fg_id role) (fg_id node))) in
  let s2 := fg_then s1 (fun c => @commit_role_recovery (fg_view node resource) c fg_requirement
                                  (fg_repeat role node resource) 20) in
  fg_then s2 (fun c => rebind_role_validated c (committed_recovery (fg_repeat role node resource) (fg_id node))).
End Runs.

(** The lead keeps its resource for the context, the helper for the Task. *)
Definition fg_shared : gmap RoleId ResourceBindingScope := {[fg_id "lead" := ScopeContext]}.
Definition fg_haul : Case := MkCase "b" fg_exclusive fg_shared "n2" None.
(** One actor plays both Roles, as one ContextRole. *)
Definition fg_solo : Case :=
  MkCase "a" fg_exclusive (<[fg_id "helper" := ScopeContext]> fg_shared) "n1" None.
(** The helper takes two units of a pool. *)
Definition fg_pool : Case :=
  MkCase "b" (MkResourceRequirement Compute 2 Divisible (Some "gpu")) ∅ "n2"
    (match commit_demands CapacityLedger_new QuotaLedger_new
             [ExclusiveDemand (fg_id "arm") "local" Space 1;
              SharedDemand (MkCapacityRequest (fg_id "base") "gpu" (fg_id "n2") fg_group fg_task
                              (fg_id "helper") "local" (OwnerTask fg_task) 2 2 8)] with
     | Some (Ok batch) => Some batch
     | _ => None
     end).

(** ** Reached states *)

Definition fg_get (s : option ControlPlane) : ControlPlane := default ControlPlane_new s.

Definition fg_reached (s : option ControlPlane) : Prop := rtc control_step ControlPlane_new (fg_get s).

(** A refused operation leaves the run at the start. *)
Lemma fg_then_reached {A} s (op : ControlPlane -> ControlStep A) :
  (forall c c' r, op c = Some (c', r) -> control_step c c') -> fg_reached s -> fg_reached (fg_then s op).
Proof.
  unfold fg_reached, fg_then. intros Hop Hs. destruct s as [c|]; simpl; [|constructor].
  destruct (op c) as [[c' [v|e]]|] eqn:E; simpl; [|constructor..].
  eapply rtc_r; [exact Hs|]. by eapply Hop.
Qed.

Ltac reach op := apply fg_then_reached; [intros ? ? ? E; exists op; simpl; by rewrite E|].

Lemma fg_bound_reached k : fg_reached (fg_bound k).
Proof.
  reach (OpBind fg_group (fg_committed k)). reach (OpCommit fg_group (fg_proposal k) (fc_capacity k) 10).
  reach (OpReady fg_group fg_task). unfold fg_created.
  destruct (fg_plan k) as [p|]; [|constructor]. reach (OpCreate fg_group p). constructor.
Qed.

Lemma fg_active_reached k : fg_reached (fg_active k).
Proof. reach (OpActivate fg_group fg_task 11). apply fg_bound_reached. Qed.

Lemma fg_completed_reached s : fg_reached s -> fg_reached (fg_completed s).
Proof. intros Hs. reach (OpGroupComplete fg_group). reach (OpSatisfy fg_group fg_task ExecutionReport).
  by reach (OpComplete fg_group fg_task). Qed.

Lemma fg_recovered_reached k role node resource s : fg_reached s -> fg_reached (fg_recovered k role node resource s).
Proof.
  intros Hs. reach (OpRebind (committed_recovery (fg_repeat role node resource) (fg_id node))).
  reach (OpRecover (fg_view node resource) (fg_requirement k) (fg_repeat role node resource) 20).
  by reach (OpBegin (MkRecoveryNeed fg_group fg_task (fg_id role) (fg_id node))).
Qed.

Lemma fg_release_reached s : fg_reached s -> fg_reached (fg_then s (fun c => release_group c fg_group)).
Proof. intros Hs. by reach (OpGroupRelease fg_group). Qed.

(** ** Histories *)

(** C4. Whatever operations run, refused ones included, a Group persists with its identity, Role
    metadata and Tasks, and every Task and the Group itself only move along their
    lifecycles; a Task that is completed, failed or rejected stays so, a completed, failed
    or superseded Group can only become Released, and Released is final. *)
Theorem group_history_refines `{Serde} (c c' : ControlPlane) (id : ExecutionGroupId)
    (g : ExecutionGroup) (Hrun : rtc control_step c c') (Hg : cp_groups c !! id = Some g) :
  exists g', cp_groups c' !! id = Some g' /\ group_refines g g' /\
    (forall task t, eg_task_executions g !! task = Some t -> task_terminal (te_lifecycle t) = true ->
       exists t', eg_task_executions g' !! task = Some t' /\ te_lifecycle t' = te_lifecycle t) /\
    (eg_lifecycle g ∈ [GlCompleted; GlFailed; GlSuperseded] ->
       eg_lifecycle g' = eg_lifecycle g \/ eg_lifecycle g' = GlReleased) /\
    (eg_lifecycle g = GlReleased -> eg_lifecycle g' = GlReleased).
Proof.
  destruct (control_run_refines c c' Hrun id g Hg) as (g' & Hg' & R). exists g'.
  pose proof R as [_ _ Hl [_ He]]. split_and!; [done..| | |].
  - intros task t Ht Hterm. destruct (He task t Ht) as (t' & Ht' & [_ Hm]). exists t'. split; [done|].
    by apply task_terminal_final.
  - intros Hc. by apply group_closed_final.
  - intros E. rewrite E in Hl. by apply group_released_final.
Qed.

Definition fg_run : option ControlPlane := fg_completed (fg_active fg_haul).
Definition fg_done : ControlPlane := fg_get fg_run.
Definition fg_released : ControlPlane := fg_get (fg_then fg_run (fun c => release_group c fg_group)).

Lemma fg_release_step : control_step fg_done fg_released.
Proof. exists (OpGroupRelease fg_group). vm_compute. reflexivity. Qed.

Definition fg_done_group : ExecutionGroup :=
  match cp_groups fg_done !! fg_group with
  | Some g => g
  | None => MkGroup None None fg_group fg_mission fg_task [] ∅ ∅ GlBound ∅ ∅ ∅ []
  end.
Definition fg_done_task : TaskExecution :=
  default (TaskExecution_new fg_task (fg_id "ctx") ∅ ∅) (eg_task_executions fg_done_group !! fg_task).

Lemma fg_done_lookup : cp_groups fg_done !! fg_group = Some fg_done_group.
Proof. vm_compute. reflexivity. Qed.
Lemma fg_done_task_lookup : eg_task_executions fg_done_group !! fg_task = Some fg_done_task.
Proof. vm_compute. reflexivity. Qed.

Lemma group_history_refines_witness :
  exists g t, cp_groups fg_released !! fg_group = Some g /\
    eg_task_executions g !! fg_task = Some t /\ te_lifecycle t = TlCompleted.
Proof.
  destruct (group_history_refines fg_done fg_released fg_group fg_done_group
              (rtc_once _ _ fg_release_step) fg_done_lookup) as (g & Hg & _ & Ht & _).
  destruct (Ht fg_task fg_done_task fg_done_task_lookup) as (t & Hin & E); [vm_compute; reflexivity|].
  exists g, t. split; [exact Hg|]. split; [exact Hin|].
  transitivity (te_lifecycle fg_done_task); [exact E|vm_compute; reflexivity].
Defined.

(** ** Release *)

(** C27. A release that succeeds is exact: the Group was completed, failed or superseded, is now
    Released and holds no binding, no reservation, no recovery commitment and no share of
    a pool; and every reservation, commitment and allocation of other Groups is as it
    was. *)
Theorem release_group_exact `{Serde} (c c' : ControlPlane) (group : ExecutionGroupId)
    (Hrel : release_group c group = Some (c', Ok tt)) :
  (exists g g', cp_groups c !! group = Some g /\ cp_groups c' !! group = Some g' /\
     eg_lifecycle g ∈ [GlCompleted; GlFailed; GlSuperseded] /\ eg_lifecycle g' = GlReleased /\
     eg_assignments g' = [] /\ eg_context_bindings g' = ∅ /\ eg_task_unbound_roles g' = ∅ /\
     forall task t, eg_task_executions g' !! task = Some t -> te_assignments t = []) /\
  (forall id r, cp_reservations c' !! id = Some r <->
     cp_reservations c !! id = Some r /\ rsv_group_id r <> Some group) /\
  (forall key k, cp_pending_recovery_commitments c' !! key = Some k <->
     cp_pending_recovery_commitments c !! key = Some k /\ key.1.1 <> group) /\
  (forall key record, cl_allocations (cp_capacity_ledger c') !! key = Some record <->
     cl_allocations (cp_capacity_ledger c) !! key = Some record /\
     rg_group_id (al_original record) <> group).
Proof.
  unfold release_group, refuse in Hrel. apply bind_Some in Hrel as ([[[g resources] pending]|] & Hc & E); [|done].
  apply group_release_check_Ok in Hc as (Hg & Hl & m & Hexp & _ & Hv & _ & Hres).
  apply commit_membership_inv in E as (mv & _ & -> & _). simpl. split_and!.
  - exists g. eexists. rewrite lookup_insert_eq. split_and!; try done. intros task t. simpl.
    rewrite lookup_fmap_Some. by intros (t0 & <- & _).
  - intros id r. by eapply released_lookup.
  - intros key k. by eapply released_pending.
  - intros key record. unfold release_capacity_group, retain_allocations. simpl.
    rewrite lookup_omap_Some. unfold after_group_release. split.
    + intros (x & Hx & Hk). case_bool_decide; by simplify_eq.
    + intros [Hk Hn]. exists record. by rewrite bool_decide_false.
Qed.

Lemma fg_release_ok : release_group fg_done fg_group = Some (fg_released, Ok tt).
Proof. vm_compute. reflexivity. Qed.

Lemma release_group_exact_witness :
  is_none (cp_reservations fg_released !! fg_id "arm") = true /\
  is_some (cp_reservations fg_done !! fg_id "arm") = true.
Proof.
  split; [|vm_compute; reflexivity].
  pose proof (proj1 (proj2 (release_group_exact _ _ _ fg_release_ok)) (fg_id "arm")) as Hr.
  assert (rsv_group_id <$> cp_reservations fg_done !! fg_id "arm" = Some (Some fg_group)) as Hd
    by (vm_compute; reflexivity).
  revert Hr Hd. generalize (cp_reservations fg_done !! fg_id "arm") as before.
  generalize (cp_reservations fg_released !! fg_id "arm") as after.
  intros [r|] before Hr Hd; [|reflexivity]. exfalso.
  destruct (proj1 (Hr r) eq_refl) as [-> Hn]. simpl in Hd. congruence.
Defined.

(** ** What the checks do not cover *)

(** The Group is completed and its release is refused. *)
Definition stranded (s : option ControlPlane) (reason : string) : Prop :=
  fg_reached s /\ eg_lifecycle <$> cp_groups (fg_get s) !! fg_group = Some GlCompleted /\
  snd <$> release_group (fg_get s) fg_group = Some (Err (InvalidProposal reason)).

(** The state and the result of a step. *)
Definition fg_state {A} (s : ControlStep A) : ControlPlane := fg_get (fst <$> s).
Definition fg_error {A} (s : ControlStep A) : option ControlError :=
  step ← s; match step.2 with Ok _ => None | Err e => Some e end.

(** Two Roles of one actor share a ContextRole and both keep their resources for the
    context: the binding of the second Role is dropped, and the Group completes but its
    release is refused. *)
Theorem shared_context_role_strands_group :
  stranded (fg_completed (fg_active fg_solo)) "group g1 has orphan reservation base".
Proof.
  split; [exact (fg_completed_reached _ (fg_active_reached _))|]. split; vm_compute; reflexivity.
Qed.

Definition fg_context_ended : option ControlPlane :=
  fg_then (fg_active fg_haul) (fun c => release_context_bindings c fg_group (fg_id "ctx")).

(** A Role whose resource belongs to the context is recovered after the context ended: the
    replacement is reserved for the Task although the Role is bound to the context, so no
    release covers it. *)
Theorem context_role_recovery_strands_group :
  stranded (fg_completed (fg_recovered fg_haul "lead" "n1" "arm" fg_context_ended))
    "group g1 has orphan reservation arm".
Proof.
  split; [|split; vm_compute; reflexivity].
  apply fg_completed_reached, fg_recovered_reached. unfold fg_context_ended.
  reach (OpReleaseContext fg_group (fg_id "ctx")). exact (fg_active_reached _).
Qed.

Definition fg_need : RoleRecoveryNeed := MkRecoveryNeed fg_group fg_task (fg_id "helper") (fg_id "n2").

(** The recovery of a Role that holds a share of a pool is refused after the Group was
    blocked: the Group stays Blocked, the Role stays bound, and no Role is unbound to
    recover. *)
Theorem pool_recovery_blocks_group :
  fg_reached (fg_active fg_pool) /\
  fg_error (begin_role_recovery (fg_get (fg_active fg_pool)) fg_need)
    = Some (InvalidProposal "Task binding base has no reservation") /\
  (fun g => (eg_lifecycle g, size (eg_task_unbound_roles g), size (eg_unbound_roles g)))
      <$> cp_groups (fg_state (begin_role_recovery (fg_get (fg_active fg_pool)) fg_need)) !! fg_group
    = Some (GlBlocked, 0%nat, 0%nat).
Proof. split; [exact (fg_active_reached _)|]. split; vm_compute; reflexivity. Qed.

(** The recovery of a Role of a Task that is bound but not started leaves a state whose
    checkpoint is refused, although the checkpoint of the state before it is accepted. *)
Theorem ready_recovery_breaks_checkpoint :
  fg_reached (fg_bound fg_haul) /\
  validate_group_checkpoint_authority (fg_get (fg_bound fg_haul)) = Some (Ok tt) /\
  fg_error (begin_role_recovery (fg_get (fg_bound fg_haul)) fg_need) = None /\
  validate_group_checkpoint_authority (fg_state (begin_role_recovery (fg_get (fg_bound fg_haul)) fg_need))
    = Some (Err (InvalidProposal
        "checkpoint TaskExecution m1/haul has invalid assignment coverage for Ready")).
Proof. split; [exact (fg_bound_reached _)|]. split_and!; vm_compute; reflexivity. Qed.
