(* ===== verification/PropsOwnership.v ===== *)
(** * Properties of resource ownership *)

From S2P Require Import Prelude Identity Execution StateModel Session Resource RelationSpec DecisionPolicy.
From S2P Require Import Scheduler SchedulerPolicy Sorting Quota NodeIdentity NodeState Capacity.
From S2P Require Import Mission TaskExecution Group ControlPlane Actors GroupLifecycle GroupBinding.
From S2P Require Import GroupRelease RoleRecovery ControlSteps Ownership OwnershipSteps.
From S2P Require Import OwnershipBind OwnershipRecovery PropsGroup.

Open Scope string_scope.

(** ** Exclusive ownership *)

(** C5. In every run of permitted operations over exclusive resources, the bindings of Tasks,
    the bindings of Contexts and the pending replacements of all Groups never hold one
    resource twice, and they hold exactly what is reserved for their Groups, for the same
    Role and owner: no reservation of a Group is orphaned and no binding lacks its
    reservation. *)
Theorem exclusive_ownership `{Serde} (c : ControlPlane) (Hrun : rtc owned_step ControlPlane_new c) :
  (forall id, NoDup (hold_resource <$> holdings c id)) /\
  (forall id id' h h', h ∈ holdings c id -> h' ∈ holdings c id' -> hold_resource h = hold_resource h' ->
     id = id' /\ h = h') /\
  (forall id x role tag, (x, role, tag) ∈ holdings c id <->
     exists r, cp_reservations c !! x = Some r /\ rsv_group_id r = Some id /\ rsv_role_id r = role /\
       owner_tag (rsv_owner r) = tag).
Proof.
  apply owned_run_ownership in Hrun as Ho. pose proof (ow_exact c Ho) as Hx. split_and!.
  - intros id. apply Hx.
  - intros id id' h h' Hh Hh' E. assert (id = id') as <-; [|split; [done|by eapply exact_resource_inj]].
    apply Hx in Hh as (r & Hr & Hg & _). apply Hx in Hh' as (r' & Hr' & Hg' & _). rewrite E in Hr. congruence.
  - intros id x role tag. apply Hx.
Qed.

(** C6. In every such run a Group that is completed, failed or superseded can be released: no
    check refuses it, as long as its membership encodes and its generation can advance,
    and afterwards it holds nothing and nothing is reserved for it. *)
Theorem closed_group_releasable `{Serde} (c : ControlPlane) (id : ExecutionGroupId) (g : ExecutionGroup)
    (Hrun : rtc owned_step ControlPlane_new c) (Hg : cp_groups c !! id = Some g)
    (Hclosed : eg_lifecycle g ∈ [GlCompleted; GlFailed; GlSuperseded])
    (Hdigest : is_Some (membership_digest (emptied g)))
    (Hopen : generation_open c id) :
  exists c', release_group c id = Some (c', Ok tt) /\ holdings c' id = [] /\
    (eg_lifecycle <$> cp_groups c' !! id) = Some GlReleased /\
    forall x r, cp_reservations c' !! x = Some r -> rsv_group_id r <> Some id.
Proof.
  apply owned_run_ownership in Hrun as Ho.
  destruct (closed_group_release c id g Ho Hg Hclosed Hdigest Hopen) as [c' E]. exists c'. split; [done|].
  apply release_group_inv in E as [[_ [e ?]]|(g0 & mv & Hg0 & Eg & Hlook & Hpend & _)]; [done|].
  rewrite Hg in Hg0. injection Hg0 as <-.
  destruct (group_blank_ok _ (emptied_blank g (ow_group c Ho id g Hg))) as [_ Hnil]. split_and!.
  - unfold holdings. rewrite Eg, lookup_insert_eq, recovery_holdings_none by (by intros key k [_ ?]%Hpend).
    simpl. by rewrite app_nil_r.
  - by rewrite Eg, lookup_insert_eq.
  - intros x r [_ ?]%Hlook. done.
Qed.

(** ** A run *)

Definition fg_owned (s : option ControlPlane) : Prop := rtc owned_step ControlPlane_new (fg_get s).

Lemma fg_then_owned {A} s (op : ControlPlane -> ControlStep A) :
  (forall c c' r, s = Some c -> op c = Some (c', r) -> owned_step c c') -> fg_owned s -> fg_owned (fg_then s op).
Proof.
  unfold fg_owned, fg_then. intros Hop Hs. destruct s as [c|]; simpl; [|constructor].
  destruct (op c) as [[c' [v|e]]|] eqn:E; simpl; [|constructor..].
  eapply rtc_r; [exact Hs|]. by eapply Hop.
Qed.

Ltac owned op :=
  apply fg_then_owned; [intros ? ? ? Es E; exists op; split; [|unfold apply_op, after; by rewrite E]|].

Lemma fg_haul_scopes : planned_role_scopes (fg_planned fg_haul)
  = <[fg_id "lead" := ScopeContext]> {[fg_id "helper" := ScopeTask]}.
Proof. vm_compute. reflexivity. Qed.

Lemma fg_roles_distinct p : fg_plan fg_haul = Ok p -> plan_roles_distinct p.
Proof.
  intros E task t Hin Ht.
  assert (match fg_plan fg_haul with Ok p => Some (tg_tasks (mp_task_graph p)) | Err _ => None end
          = Some [fg_planned fg_haul]) as Et by (vm_compute; reflexivity).
  rewrite E in Et. injection Et as Et. rewrite Et in Hin. apply list_elem_of_singleton in Hin as ->.
  apply bind_Some in Ht as (k & _ & [= <-]).
  assert (forall r, role_scope (TaskExecution_new_with_coupling_mode (pt_task_ref (fg_planned fg_haul))
    (tc_context_id (pt_continuity (fg_planned fg_haul))) (tc_context_roles (pt_continuity (fg_planned fg_haul)))
    (planned_role_scopes (fg_planned fg_haul)) (task_coupling_mode (fg_planned fg_haul) k)) r = ScopeContext ->
    r = fg_id "lead") as Hlead.
  { intros r. unfold role_scope. cbn [te_role_scopes TaskExecution_new_with_coupling_mode].
    rewrite fg_haul_scopes. destruct (decide (r = fg_id "lead")) as [->|Hr]; [done|].
    rewrite lookup_insert_ne by done. destruct (decide (r = fg_id "helper")) as [->|Hh]; [done|].
    by rewrite lookup_singleton_ne. }
  intros r r' x Hr Hr' _ _. by rewrite (Hlead r Hr), (Hlead r' Hr').
Qed.

Definition fg_before_bind : option ControlPlane :=
  fg_then (fg_then (fg_created fg_haul) (fun c => ready_task_execution c fg_group fg_task))
    (fun c => commit_for_group_validated c fg_group (fg_proposal fg_haul) (fc_capacity fg_haul) 10).

Lemma fg_before_bind_reserved :
  (fun r => (rsv_task_ref r, as_str (rsv_role_id r))) <$> cp_reservations (fg_get fg_before_bind) !! fg_id "arm"
    = Some (fg_task, "lead") /\
  (fun r => (rsv_task_ref r, as_str (rsv_role_id r))) <$> cp_reservations (fg_get fg_before_bind) !! fg_id "base"
    = Some (fg_task, "helper").
Proof. vm_compute. split; reflexivity. Qed.

Lemma fg_plan_current c : fg_before_bind = Some c -> plan_current c (fg_committed fg_haul).
Proof.
  intros E. assert (c = fg_get fg_before_bind) as -> by (by rewrite E). clear E.
  destruct fg_before_bind_reserved as [Harm Hbase]. split.
  - apply (bool_decide_unpack _). vm_compute. exact I.
  - intros x role r Hin Hr _. change (assigned_resources (pl_assignments (fg_committed fg_haul)))
      with [(fg_id "arm" : ResourceId, fg_id "lead" : RoleId); (fg_id "base", fg_id "helper")] in Hin.
    revert Hr Harm Hbase. generalize (cp_reservations (fg_get fg_before_bind)). intros m Hr Harm Hbase.
    apply elem_of_cons in Hin as [[= -> ->]|Hin].
    + rewrite Hr in Harm. simpl in Harm. injection Harm as Ht Hrole. destruct (rsv_role_id r). simpl in Hrole.
      by subst.
    + apply list_elem_of_singleton in Hin as [= -> ->].
      rewrite Hr in Hbase. simpl in Hbase. injection Hbase as Ht Hrole. destruct (rsv_role_id r). simpl in Hrole.
      by subst.
Qed.

Lemma fg_bound_owned : fg_owned (fg_bound fg_haul).
Proof.
  owned (OpBind fg_group (fg_committed fg_haul)); [by apply fg_plan_current|].
  owned (OpCommit fg_group (fg_proposal fg_haul) (fc_capacity fg_haul) 10); [done|]. owned (OpReady fg_group fg_task); [done|].
  unfold fg_created. destruct (fg_plan fg_haul) as [p|] eqn:Ep; [|constructor].
  owned (OpCreate fg_group p); [by apply fg_roles_distinct|]. constructor.
Qed.

Lemma fg_run_owned : fg_owned fg_run.
Proof.
  owned (OpGroupComplete fg_group); [done|]. owned (OpSatisfy fg_group fg_task ExecutionReport); [done|].
  owned (OpComplete fg_group fg_task); [done|]. owned (OpActivate fg_group fg_task 11); [done|].
  apply fg_bound_owned.
Qed.

Lemma exclusive_ownership_witness :
  (hold_resource <$> holdings fg_done fg_group) = [fg_id "base"; fg_id "arm"] /\
  NoDup (hold_resource <$> holdings fg_done fg_group).
Proof.
  split; [vm_compute; reflexivity|]. exact (proj1 (exclusive_ownership fg_done fg_run_owned) fg_group).
Defined.

Lemma fg_done_open : generation_open fg_done fg_group.
Proof.
  intros g v Hg Hv. assert ((g ← cp_groups fg_done !! fg_group; gm_generation <$> eg_membership_version g) = Some 2%N)
    as E by (vm_compute; reflexivity).
  rewrite Hg in E. simpl in E. rewrite Hv in E. injection E as ->. done.
Qed.

Lemma closed_group_releasable_witness :
  exists c', release_group fg_done fg_group = Some (c', Ok tt) /\ holdings c' fg_group = [].
Proof.
  destruct (closed_group_releasable fg_done fg_group fg_done_group fg_run_owned fg_done_lookup) as (c' & E & Hh & _).
  - assert (eg_lifecycle fg_done_group = GlCompleted) as -> by (vm_compute; reflexivity). set_solver.
  - by eexists.
  - exact fg_done_open.
  - exists c'. split; [exact E|exact Hh].
Defined.

(** ** A refused Bind keeps its reservation *)

(** A second Task whose Role continues the ContextRole of the lead. *)
Definition fg_fetch : TaskRef := MkTaskRef fg_mission (fg_id "fetch").
Definition fg_fetch_planned : PlannedTask :=
  MkPlannedTask "fetch" (MkTaskRequirement fg_fetch [fg_lead] (MkTaskTiming 0 None None None))
    {[fg_id "lead" := fg_intent]} []
    (MkContinuity (fg_id "ctx") {[fg_id "lead" := fg_id "a"]} fg_shared None) ExecutionReport "fetched".
Definition fg_pair_plan : Result MissionPlan DomainError :=
  MissionPlan_new_with_actors (MkGoal fg_mission "haul the crate")
    [MkActor (fg_id "a") None; MkActor (fg_id "b") None]
    (MkTaskGraph fg_mission [fg_planned fg_haul; fg_fetch_planned]) [fg_context].

Definition fg_fetch_assignments : list RoleAssignment :=
  [MkAssignment (fg_id "lead") (fg_id "n1") [fg_id "arm2"]].
Definition fg_fetch_proposal : AssignmentProposal :=
  MkProposal fg_fetch fg_fetch_assignments ∅ {[fg_id "lead" := fg_lead]} ∅.
Definition fg_fetch_plan : CommittedPlan := MkCommittedPlan fg_fetch fg_fetch_assignments ∅ ∅ None.

(** The first Task is bound, the second has committed another arm. *)
Definition fg_pair_committed : option ControlPlane :=
  let s0 := match fg_pair_plan with
            | Ok p => fg_then (Some ControlPlane_new) (fun c => create_mission_group c fg_group p)
            | Err _ => None
            end in
  let s1 := fg_then s0 (fun c => ready_task_execution c fg_group fg_task) in
  let s2 := fg_then s1 (fun c => commit_for_group_validated c fg_group (fg_proposal fg_haul) None 10) in
  let s3 := fg_then s2 (fun c => bind_task_execution_validated c fg_group (fg_committed fg_haul)) in
  let s4 := fg_then s3 (fun c => ready_task_execution c fg_group fg_fetch) in
  fg_then s4 (fun c => commit_for_group_validated c fg_group fg_fetch_proposal None 11).

Lemma fg_pair_committed_reached : fg_reached fg_pair_committed.
Proof.
  reach (OpCommit fg_group fg_fetch_proposal None 11). reach (OpReady fg_group fg_fetch).
  reach (OpBind fg_group (fg_committed fg_haul)). reach (OpCommit fg_group (fg_proposal fg_haul) None 10).
  reach (OpReady fg_group fg_task). destruct fg_pair_plan as [p|]; [|constructor].
  reach (OpCreate fg_group p). constructor.
Qed.

(** The Group is blocked, failed and released. *)
Definition fg_pair_released : option ControlPlane :=
  let s1 := fg_then fg_pair_committed (fun c => block_group c fg_group "lost") in
  let s2 := fg_then s1 (fun c => fail_group c fg_group "lost") in
  fg_then s2 (fun c => release_group c fg_group).

Lemma fg_pair_released_reached : fg_reached fg_pair_released.
Proof.
  apply fg_release_reached. reach (OpGroupFail fg_group "lost"). reach (OpGroupBlock fg_group "lost").
  exact fg_pair_committed_reached.
Qed.

(** A Task commits another resource for a ContextRole that is bound: the Commit is accepted
    and reserves it, the Bind is refused, and after the Group is released the resource is
    still reserved for no Group, so that no release covers it. *)
Theorem refused_bind_leaks_reservation :
  fg_reached fg_pair_released /\
  fg_error (bind_task_execution_validated (fg_get fg_pair_committed) fg_group fg_fetch_plan)
    = Some (InvalidProposal "ContextRole binding changed across Tasks") /\
  eg_lifecycle <$> cp_groups (fg_get fg_pair_released) !! fg_group = Some GlReleased /\
  rsv_group_id <$> cp_reservations (fg_get fg_pair_released) !! fg_id "arm2" = Some None.
Proof. split; [exact fg_pair_released_reached|]. split_and!; vm_compute; reflexivity. Qed.
