(* ===== verification/Registries.v ===== *)
(** * Deployment policy registries

    [operator_authorization.rs], [belief.rs], [decision_registry.rs], [verifier_registry.rs]
    and [mission_goal_verification.rs] of [core/domain/src]: the revisioned registries an
    administrator installs (who may operate, how beliefs are derived, which evidence gates a
    decision, who may measure a predicate) and the measurement records admitted under them,
    with their validation and the successor relation between revisions. *)

From S2P Require Import Prelude Identity Execution StateModel Session Resource RelationSpec DecisionPolicy.
From S2P Require Import Scheduler NodeIdentity NodeState Mission.

Open Scope string_scope.

(** A revisioned registry: what an update and a restored history are checked with. *)
Class Registry (R : Type) := {
  reg_eq_dec :: EqDecision R;
  reg_revision : R -> N;
  reg_validate : R -> Result unit string;
  reg_successor : R -> R -> Result unit string
}.

(** [str::ends_with] with a suffix that is not empty. *)
Definition ends_with (suffix s : string) : bool := any_suffix (fun t => (t =? suffix)%string) s.

(** [valid_digest]: ["sha256:"] and 64 lower-case hexadecimal digits. *)
Definition digest_text (digest : string) : bool :=
  is_some_and (fun hex => (str_len hex =? 64)%N && all_bytes is_lower_hex hex)
    (strip_prefix "sha256:" digest).

(** [valid_text]. *)
Definition valid_text (text : string) : bool := negb (is_blank text) && (str_len text <=? 256)%N.

(** ** Operators: [operator_authorization.rs] *)

Record OperatorCertificateGrant := MkOperatorGrant {
  og_principal_id : string;
  og_role : string;
  og_tenant_ids : gset string;
  og_not_before_ms : N;
  og_expires_at_ms : N;
  og_revoked : bool
}.

#[export] Instance OperatorCertificateGrant_eq_dec : EqDecision OperatorCertificateGrant.
Proof. solve_decision. Defined.

Record OperatorAuthorization := MkOperatorAuthorization {
  oa_schema_version : string;
  oa_registry_id : string;
  oa_revision : N;
  oa_grants : gmap string OperatorCertificateGrant
}.

#[export] Instance OperatorAuthorization_eq_dec : EqDecision OperatorAuthorization.
Proof. solve_decision. Defined.

Definition OPERATOR_SCHEMA_V0_1 : string := "roboguide.operator-authorization/v0.1".
Definition OPERATOR_SCHEMA_V0_2 : string := "roboguide.operator-authorization/v0.2".

Definition one_of_text (values : list string) (s : string) : bool :=
  existsb (fun v => (v =? s)%string) values.

Definition operator_grant_invalid (schema : string) (kv : string * OperatorCertificateGrant) : bool :=
  let '(digest, grant) := kv in
  negb (digest_text digest)
  || is_blank (og_principal_id grant) || (128 <? str_len (og_principal_id grant))%N
  || negb (one_of_text ["viewer"; "operator"; "recovery-admin"; "metrics-reader"] (og_role grant))
  || bool_decide (og_tenant_ids grant = ∅) || (64 <? size (og_tenant_ids grant))%nat
  || existsb (fun tenant => is_blank tenant || (128 <? str_len tenant)%N) (bset_iter (og_tenant_ids grant))
  || (set_contains "*" (og_tenant_ids grant)
      && negb (one_of_text ["recovery-admin"; "metrics-reader"] (og_role grant)))
  || ((og_role grant =? "metrics-reader")%string
      && negb (bool_decide (og_tenant_ids grant = {["*"]})))
  || ((og_role grant =? "metrics-reader")%string && negb (schema =? OPERATOR_SCHEMA_V0_2)%string)
  || (negb (og_expires_at_ms grant =? 0)%N && (og_expires_at_ms grant <=? og_not_before_ms grant)%N).

Definition OperatorAuthorization_validate (a : OperatorAuthorization) : Result unit string :=
  if negb (one_of_text [OPERATOR_SCHEMA_V0_1; OPERATOR_SCHEMA_V0_2] (oa_schema_version a))
     || is_blank (oa_registry_id a) || (128 <? str_len (oa_registry_id a))%N
     || (oa_revision a =? 0)%N
     || bool_decide (oa_grants a = ∅) || (4096 <? N.of_nat (size (oa_grants a)))%N
  then Err "operator authorization envelope is invalid" else
  try_for (fun kv => if operator_grant_invalid (oa_schema_version a) kv
                     then Err "operator certificate grant is invalid" else Ok tt)
    (btree_iter (oa_grants a)).

Definition operator_grant_kept (next : OperatorAuthorization) (kv : string * OperatorCertificateGrant)
  : Result unit string :=
  match oa_grants next !! kv.1 with
  | None => Err "historical grants must be revoked, not removed"
  | Some current =>
      if negb (og_principal_id kv.2 =? og_principal_id current)%string
         || (og_revoked kv.2 && negb (og_revoked current))
      then Err "operator certificate attribution/revocation is immutable" else Ok tt
  end.

Definition operator_validates_successor (self next : OperatorAuthorization) : Result unit string :=
  let? _v := OperatorAuthorization_validate next in
  if negb (oa_registry_id self =? oa_registry_id next)%string
     || ((oa_schema_version self =? OPERATOR_SCHEMA_V0_2)%string
         && negb (oa_schema_version next =? oa_schema_version self)%string)
     || (oa_revision next <? oa_revision self)%N
     || ((oa_revision self =? oa_revision next)%N && negb (bool_decide (self = next)))
  then Err "operator authorization rollback or revision conflict"
  else try_for (operator_grant_kept next) (btree_iter (oa_grants self)).

Definition grant_active (grant : OperatorCertificateGrant) (now : N) : bool :=
  negb (og_revoked grant) && (og_not_before_ms grant <=? now)%N
  && ((og_expires_at_ms grant =? 0)%N || (now <? og_expires_at_ms grant)%N).

(** ** Conditions on State: [decision_registry.rs]

    [as_f64] rounds an integer to 53 significant bits, ties to the even neighbour. *)

Definition f64_round (z : Z) : Z :=
  let n := Z.abs z in
  if (n <? 9007199254740992)%Z then z else
  let shift := (Z.log2 n - 52)%Z in
  let quotient := Z.shiftr n shift in
  let rest := (n - Z.shiftl quotient shift)%Z in
  let half := Z.shiftl 1 (shift - 1) in
  let rounded := if (half <? rest)%Z || ((rest =? half)%Z && Z.odd quotient)
                 then (quotient + 1)%Z else quotient in
  (Z.sgn z * Z.shiftl rounded shift)%Z.

(** [serde_json::Number]: an integer, or a finite [f64] as a multiple of [2^-1074]. *)
Inductive JsonNumber :=
| NumInteger (z : Z)
| NumFloat (scaled : Z).

#[export] Instance JsonNumber_eq_dec : EqDecision JsonNumber.
Proof. solve_decision. Defined.

(** [Number::as_f64], as a multiple of [2^-1074]. *)
Definition number_as_f64 (n : JsonNumber) : Z :=
  match n with
  | NumInteger z => Z.shiftl (f64_round z) 1074
  | NumFloat scaled => scaled
  end.

Arguments number_as_f64 : simpl never.

Inductive StateCondition :=
| CondBoolean (pointer : string) (value : bool)
| CondEnum (pointer value : string)
| CondNumberInterval (pointer : string) (minimum maximum : JsonNumber).

#[export] Instance StateCondition_eq_dec : EqDecision StateCondition.
Proof. solve_decision. Defined.

Definition condition_pointer (c : StateCondition) : string :=
  match c with CondBoolean p _ | CondEnum p _ | CondNumberInterval p _ _ => p end.

Definition pointer_invalid (pointer : string) : bool :=
  (256 <? str_len pointer)%N
  || (negb (pointer =? "")%string && negb (is_some (strip_prefix "/" pointer)))
  || (contains_char "~" pointer
      && existsb (fun part => negb (is_some (strip_prefix "0" part)) && negb (is_some (strip_prefix "1" part)))
           (tail (split_char "~" pointer))).

Definition StateCondition_validate (c : StateCondition) : Result unit string :=
  if pointer_invalid (condition_pointer c) then Err "State condition JSON pointer is invalid" else
  match c with
  | CondEnum _ value =>
      if is_blank value || (128 <? str_len value)%N then Err "State condition enum is invalid" else Ok tt
  | CondNumberInterval _ minimum maximum =>
      if (number_as_f64 maximum <? number_as_f64 minimum)%Z then Err "numeric condition interval is invalid" else Ok tt
  | CondBoolean _ _ => Ok tt
  end.

Record DecisionGateTarget := MkGateTarget {
  gt_operation : option OperationRef;
  gt_capability : option CapabilityKind;
  gt_capability_contract : option CapabilityContractRef;
  gt_role : option RoleId
}.

#[export] Instance DecisionGateTarget_eq_dec : EqDecision DecisionGateTarget.
Proof. solve_decision. Defined.

Record DecisionGate := MkDecisionGate {
  dg_active_stop_timeout_ms : option N;
  dg_tenant_id : string;
  dg_enabled : bool;
  dg_policy : DecisionEvidencePolicy;
  dg_target : DecisionGateTarget;
  dg_candidate_source_only : bool;
  dg_require_current_session : bool;
  dg_condition : StateCondition
}.

#[export] Instance DecisionGate_eq_dec : EqDecision DecisionGate.
Proof. solve_decision. Defined.

Record DecisionPolicyRegistry := MkDecisionRegistry {
  dr_schema_version : string;
  dr_registry_id : string;
  dr_revision : N;
  dr_gates : gmap string DecisionGate;
  dr_scheduling_costs : gmap string SchedulingCostPolicy
}.

#[export] Instance DecisionPolicyRegistry_eq_dec : EqDecision DecisionPolicyRegistry.
Proof. solve_decision. Defined.

Definition DECISION_SCHEMA_V0_1 : string := "roboguide.decision-policy-registry/v0.1".
Definition DECISION_SCHEMA_V0_2 : string := "roboguide.decision-policy-registry/v0.2".
Definition DECISION_SCHEMA_V0_3 : string := "roboguide.decision-policy-registry/v0.3".

(** One cost policy; the accumulator has the candidates of the enabled ones. *)
Definition cost_policy_check (gates : gmap string DecisionGate) (candidates : gset (string * NodeId))
    (kv : string * SchedulingCostPolicy) : Result (gset (string * NodeId)) string :=
  let '(id, cost) := kv in
  let? _v := SchedulingCostPolicy_validate cost in
  let candidate := (cp_tenant_id cost, cp_node_id cost) in
  if negb (id =? ep_policy_id (cp_policy cost))%string || contains_key id gates
     || (cp_enabled cost && set_contains candidate candidates)
  then Err "scheduling cost identity or candidate has conflicting policies"
  else Ok (if cp_enabled cost then {[candidate]} ∪ candidates else candidates).

Definition gate_check (schema : string) (kv : string * DecisionGate) : Result unit string :=
  let '(id, gate) := kv in
  if is_some_and (fun timeout =>
       negb (schema =? DECISION_SCHEMA_V0_3)%string
       || negb ((1 <=? timeout)%N && (timeout <=? 3600000)%N)
       || negb (set_contains Readiness (ep_allowed_decisions (dg_policy gate))))
       (dg_active_stop_timeout_ms gate)
  then Err "active hazard monitoring requires explicit v0.3, Readiness and a bounded stop timeout" else
  let? _p := result_map_err policy_error_to_string (DecisionEvidencePolicy_validate (dg_policy gate)) in
  let? _c := StateCondition_validate (dg_condition gate) in
  if negb (id =? ep_policy_id (dg_policy gate))%string || (128 <? str_len id)%N
     || is_blank (dg_tenant_id gate) || (128 <? str_len (dg_tenant_id gate))%N
     || is_none (ep_payload_schema (dg_policy gate))
     || set_contains BeliefFusion (ep_allowed_decisions (dg_policy gate))
     || set_contains Schedule (ep_allowed_decisions (dg_policy gate))
  then Err "decision gate identity/tenant/schema is invalid" else Ok tt.

Definition DecisionPolicyRegistry_validate (r : DecisionPolicyRegistry) : Result unit string :=
  if negb (one_of_text [DECISION_SCHEMA_V0_1; DECISION_SCHEMA_V0_2; DECISION_SCHEMA_V0_3] (dr_schema_version r))
     || (ends_with "/v0.1" (dr_schema_version r) && negb (bool_decide (dr_scheduling_costs r = ∅)))
     || (128 <? size (dr_scheduling_costs r))%nat
     || is_blank (dr_registry_id r) || (128 <? str_len (dr_registry_id r))%N
     || (dr_revision r =? 0)%N || (128 <? size (dr_gates r))%nat
  then Err "decision policy registry envelope is invalid" else
  let? _c := try_fold (cost_policy_check (dr_gates r)) ∅ (btree_iter (dr_scheduling_costs r)) in
  try_for (gate_check (dr_schema_version r)) (btree_iter (dr_gates r)).

(** The revision of an update that also admits the revision it replaces. *)
Definition revision_follows (old next : N) (same : bool) : option bool :=
  if (next <? old)%N then Some false else
  if (next =? old)%N then Some same else
  expected ← u64_checked_add old 1; Some (next =? expected)%N.

Definition cost_policy_kept (next : DecisionPolicyRegistry) (kv : string * SchedulingCostPolicy)
  : Result unit string :=
  match dr_scheduling_costs next !! kv.1 with
  | None => Err "cost policies must be retained and disabled, not removed"
  | Some new =>
      if negb (cp_tenant_id kv.2 =? cp_tenant_id new)%string
         || negb (bool_decide (cp_node_id kv.2 = cp_node_id new))
         || (ep_revision (cp_policy new) <? ep_revision (cp_policy kv.2))%N
         || (negb (bool_decide (kv.2 = new)) && (ep_revision (cp_policy kv.2) =? ep_revision (cp_policy new))%N)
      then Err "cost policy attribution/revision conflicts" else Ok tt
  end.

Definition gate_kept (next : DecisionPolicyRegistry) (kv : string * DecisionGate) : Result unit string :=
  match dr_gates next !! kv.1 with
  | None => Err "decision gates must be retained and disabled, not removed"
  | Some new =>
      if negb (dg_tenant_id kv.2 =? dg_tenant_id new)%string
         || (ep_revision (dg_policy new) <? ep_revision (dg_policy kv.2))%N
         || (negb (bool_decide (kv.2 = new)) && (ep_revision (dg_policy kv.2) =? ep_revision (dg_policy new))%N)
      then Err "decision policy attribution/revision conflicts" else Ok tt
  end.

Definition decision_validates_successor (self next : DecisionPolicyRegistry) : Result unit string :=
  let? _v := DecisionPolicyRegistry_validate next in
  if (ends_with "/v0.3" (dr_schema_version self) && negb (ends_with "/v0.3" (dr_schema_version next)))
     || (ends_with "/v0.2" (dr_schema_version self) && ends_with "/v0.1" (dr_schema_version next))
     || negb (dr_registry_id self =? dr_registry_id next)%string
  then Err "decision registry revision conflicts" else
  match revision_follows (dr_revision self) (dr_revision next) (bool_decide (self = next)) with
  | None => Err "policy revision exhausted"
  | Some false => Err "decision registry revision conflicts"
  | Some true =>
      let? _c := try_for (cost_policy_kept next) (btree_iter (dr_scheduling_costs self)) in
      try_for (gate_kept next) (btree_iter (dr_gates self))
  end.

#[export] Instance Decision_Registry : Registry DecisionPolicyRegistry := {|
  reg_revision := dr_revision;
  reg_validate := DecisionPolicyRegistry_validate;
  reg_successor := decision_validates_successor
|}.

(** ** Beliefs: [belief.rs] *)

Inductive BeliefScalarKind := ScalarBoolean | ScalarEnum.

#[export] Instance BeliefScalarKind_eq_dec : EqDecision BeliefScalarKind.
Proof. solve_decision. Defined.

Inductive BeliefAlgorithm :=
| AlgScalar (value_kind : BeliefScalarKind) (pointer : string)
| AlgGaussianCi (unit frame : string) (dimensions weight_steps max_separation_squared_millionths : N).

#[export] Instance BeliefAlgorithm_eq_dec : EqDecision BeliefAlgorithm.
Proof. solve_decision. Defined.

Record BeliefPolicy := MkBeliefPolicy {
  bp_policy_id : string;
  bp_revision : N;
  bp_tenant_id : string;
  bp_enabled : bool;
  bp_minimum_sources : N;
  bp_admission : DecisionEvidencePolicy;
  bp_algorithm : BeliefAlgorithm
}.

#[export] Instance BeliefPolicy_eq_dec : EqDecision BeliefPolicy.
Proof. solve_decision. Defined.

Record BeliefPolicyRegistry := MkBeliefRegistry {
  br_schema_version : string;
  br_registry_id : string;
  br_revision : N;
  br_policies : gmap string BeliefPolicy
}.

#[export] Instance BeliefPolicyRegistry_eq_dec : EqDecision BeliefPolicyRegistry.
Proof. solve_decision. Defined.

Definition belief_contract_invalid (id : string) (p : BeliefPolicy) : bool :=
  let a := bp_admission p in
  negb (id =? bp_policy_id p)%string || negb (id =? ep_policy_id a)%string || (128 <? str_len id)%N
  || negb (bp_revision p =? ep_revision a)%N
  || is_blank (bp_tenant_id p) || (128 <? str_len (bp_tenant_id p))%N
  || is_none (ep_payload_schema a)
  || negb (bool_decide (ep_allowed_decisions a = {[BeliefFusion]}))
  || (8 <? size (ep_allowed_sources a))%nat
  || (bp_minimum_sources p =? 0)%N
  || (N.of_nat (size (ep_allowed_sources a)) <? bp_minimum_sources p)%N
  || negb (size (ep_allowed_semantics a) =? 1)%nat
  || (3600000 <? ep_max_age_ms a)%N
  || existsb (fun s => match s with Observed | Derived => false | _ => true end)
       (elements (ep_allowed_semantics a))
  || existsb (fun s => is_none (source_node_id s)) (bset_iter (ep_allowed_sources a)).

Definition belief_algorithm_check (a : BeliefAlgorithm) : Result unit string :=
  match a with
  | AlgScalar _ pointer => StateCondition_validate (CondBoolean pointer true)
  | AlgGaussianCi unit frame dimensions steps separation =>
      if is_blank unit || (128 <? str_len unit)%N || is_blank frame || (128 <? str_len frame)%N
         || negb ((1 <=? dimensions)%N && (dimensions <=? 6)%N)
         || negb ((1 <=? steps)%N && (steps <=? 32)%N) || (separation =? 0)%N
      then Err "covariance intersection unit/frame/dimension/budget is invalid" else Ok tt
  end.

Definition belief_policy_check (kv : string * BeliefPolicy) : Result unit string :=
  let? _a := result_map_err policy_error_to_string (DecisionEvidencePolicy_validate (bp_admission kv.2)) in
  if belief_contract_invalid kv.1 kv.2
  then Err "Belief raw source/tenant/interpretation contract is invalid"
  else belief_algorithm_check (bp_algorithm kv.2).

Definition BeliefPolicyRegistry_validate (r : BeliefPolicyRegistry) : Result unit string :=
  if negb (br_schema_version r =? "roboguide.belief-policy-registry/v0.1")%string
     || is_blank (br_registry_id r) || (128 <? str_len (br_registry_id r))%N
     || (br_revision r =? 0)%N || (16 <? size (br_policies r))%nat
  then Err "Belief registry identity/bounds are invalid"
  else try_for belief_policy_check (btree_iter (br_policies r)).

Definition belief_policy_kept (next : BeliefPolicyRegistry) (kv : string * BeliefPolicy)
  : Result unit string :=
  match br_policies next !! kv.1 with
  | None => Err "Belief policies must be disabled and retained"
  | Some new =>
      if negb (bp_tenant_id new =? bp_tenant_id kv.2)%string || (bp_revision new <? bp_revision kv.2)%N
         || (negb (bool_decide (new = kv.2)) && (bp_revision new =? bp_revision kv.2)%N)
      then Err "Belief policy meaning/revision conflicts" else Ok tt
  end.

Definition belief_validates_successor (self next : BeliefPolicyRegistry) : Result unit string :=
  let? _v := BeliefPolicyRegistry_validate next in
  if negb (br_registry_id next =? br_registry_id self)%string
  then Err "Belief registry expected revision conflicts" else
  match u64_checked_add (br_revision self) 1 with
  | None => Err "Belief revision exhausted"
  | Some expected =>
      if negb (br_revision next =? expected)%N then Err "Belief registry expected revision conflicts"
      else try_for (belief_policy_kept next) (btree_iter (br_policies self))
  end.

#[export] Instance Belief_Registry : Registry BeliefPolicyRegistry := {|
  reg_revision := br_revision;
  reg_validate := BeliefPolicyRegistry_validate;
  reg_successor := belief_validates_successor
|}.

(** ** Verifiers: [verifier_registry.rs] *)

Inductive SemanticVerdict := Satisfied | Unsatisfied | VerdictUnknown.
Inductive VerifierFinality := Provisional | Final.

#[export] Instance SemanticVerdict_eq_dec : EqDecision SemanticVerdict.
Proof. solve_decision. Defined.
#[export] Instance VerifierFinality_eq_dec : EqDecision VerifierFinality.
Proof. solve_decision. Defined.

Record SemanticVerifierSource := MkVerifierSource {
  vs_source_id : string;
  vs_revision : N;
  vs_tenant_id : string;
  vs_producer_principals : gset string;
  vs_contract : CapabilityContractRef;
  vs_predicates : gset string;
  vs_max_age_ms : N;
  vs_enabled : bool;
  vs_continuous : bool;
  vs_stop_timeout_ms : N;
  vs_require_artifact : bool
}.

#[export] Instance SemanticVerifierSource_eq_dec : EqDecision SemanticVerifierSource.
Proof. solve_decision. Defined.

Record SemanticVerifierRegistry := MkVerifierRegistry {
  vr_schema_version : string;
  vr_registry_id : string;
  vr_revision : N;
  vr_sources : gmap string SemanticVerifierSource
}.

#[export] Instance SemanticVerifierRegistry_eq_dec : EqDecision SemanticVerifierRegistry.
Proof. solve_decision. Defined.

Record VerifierAttemptRef := MkVerifierAttempt { va_role_id : RoleId; va_attempt_id : string }.

#[export] Instance VerifierAttemptRef_eq_dec : EqDecision VerifierAttemptRef.
Proof. solve_decision. Defined.

Record SemanticVerifierEvidence := MkVerifierEvidence {
  ve_evidence_id : string;
  ve_source_id : string;
  ve_source_revision : N;
  ve_tenant_id : string;
  ve_task_ref : TaskRef;
  ve_plan_digest : string;
  ve_attempts : list VerifierAttemptRef;
  ve_predicate : string;
  ve_verdict : SemanticVerdict;
  ve_finality : VerifierFinality;
  ve_source_observed_at_ms : N;
  ve_valid_for_ms : N;
  ve_sequence : N;
  ve_artifact_digest : option string;
  ve_artifact_size_bytes : option N
}.

#[export] Instance SemanticVerifierEvidence_eq_dec : EqDecision SemanticVerifierEvidence.
Proof. solve_decision. Defined.

Record SemanticVerifierReceipt := MkVerifierReceipt {
  vc_evidence : SemanticVerifierEvidence;
  vc_registry_revision : N;
  vc_input_digest : string;
  vc_authority_subject : string;
  vc_received_at_ms : N;
  vc_valid_until_ms : N;
  vc_applied : bool;
  vc_incident : option string
}.

Record SemanticVerifierWatch := MkVerifierWatch {
  vw_task_ref : TaskRef;
  vw_source : SemanticVerifierSource;
  vw_plan_digest : string;
  vw_attempts : list VerifierAttemptRef;
  vw_started_at_ms : N;
  vw_initial_deadline_ms : N
}.

Definition verifier_source_invalid (kv : string * SemanticVerifierSource) : bool :=
  let '(id, s) := kv in
  negb (id =? vs_source_id s)%string || negb (valid_text id) || (vs_revision s =? 0)%N
  || negb (valid_text (vs_tenant_id s))
  || bool_decide (vs_producer_principals s = ∅) || (64 <? size (vs_producer_principals s))%nat
  || existsb (fun subject => negb (valid_text subject)) (bset_iter (vs_producer_principals s))
  || bool_decide (vs_predicates s = ∅) || (64 <? size (vs_predicates s))%nat
  || existsb (fun predicate => negb (valid_text predicate)) (bset_iter (vs_predicates s))
  || (vs_max_age_ms s =? 0)%N || (3600000 <? vs_max_age_ms s)%N
  || (vs_stop_timeout_ms s =? 0)%N || (3600000 <? vs_stop_timeout_ms s)%N.

Definition SemanticVerifierRegistry_validate (r : SemanticVerifierRegistry) : Result unit string :=
  if negb (vr_schema_version r =? "roboguide.semantic-verifier-registry/v0.1")%string
     || is_blank (vr_registry_id r) || (128 <? str_len (vr_registry_id r))%N
     || (vr_revision r =? 0)%N || (128 <? size (vr_sources r))%nat
  then Err "semantic verifier registry is invalid" else
  try_for (fun kv => if verifier_source_invalid kv
                     then Err "semantic verifier source contract is invalid" else Ok tt)
    (btree_iter (vr_sources r)).

Definition verifier_source_kept (next : SemanticVerifierRegistry) (kv : string * SemanticVerifierSource)
  : Result unit string :=
  match vr_sources next !! kv.1 with
  | None => Err "verifier sources must be retained and disabled"
  | Some new =>
      if negb (vs_tenant_id kv.2 =? vs_tenant_id new)%string || (vs_revision new <? vs_revision kv.2)%N
         || (negb (bool_decide (new = kv.2)) && (vs_revision new =? vs_revision kv.2)%N)
      then Err "semantic verifier source revision conflicts" else Ok tt
  end.

Definition verifier_validates_successor (self next : SemanticVerifierRegistry) : Result unit string :=
  let? _v := SemanticVerifierRegistry_validate next in
  if negb (vr_registry_id self =? vr_registry_id next)%string
  then Err "semantic verifier registry revision conflicts" else
  match revision_follows (vr_revision self) (vr_revision next) (bool_decide (next = self)) with
  | None => Err "verifier registry revision exhausted"
  | Some false => Err "semantic verifier registry revision conflicts"
  | Some true => try_for (verifier_source_kept next) (btree_iter (vr_sources self))
  end.

#[export] Instance Verifier_Registry : Registry SemanticVerifierRegistry := {|
  reg_revision := vr_revision;
  reg_validate := SemanticVerifierRegistry_validate;
  reg_successor := verifier_validates_successor
|}.

Definition SemanticVerifierEvidence_validate (e : SemanticVerifierEvidence) : Result unit string :=
  if negb (valid_text (ve_evidence_id e)) || negb (valid_text (ve_source_id e))
     || negb (valid_text (ve_tenant_id e)) || (ve_source_revision e =? 0)%N
     || negb (digest_text (ve_plan_digest e))
     || (length (ve_attempts e) =? 0)%nat || (32 <? length (ve_attempts e))%nat
     || existsb (fun attempt => negb (valid_text (va_attempt_id attempt))) (ve_attempts e)
     || negb (distinct_count (va_role_id <$> ve_attempts e) =? length (ve_attempts e))%nat
     || negb (valid_text (ve_predicate e))
     || (ve_valid_for_ms e =? 0)%N || (3600000 <? ve_valid_for_ms e)%N || (ve_sequence e =? 0)%N
     || is_some_and (fun digest => negb (digest_text digest)) (ve_artifact_digest e)
     || negb (Bool.eqb (is_some (ve_artifact_digest e)) (is_some (ve_artifact_size_bytes e)))
     || is_some_and (fun size => (size =? 0)%N || (67108864 <? size)%N) (ve_artifact_size_bytes e)
  then Err "semantic verifier evidence identity/bounds are invalid" else Ok tt.

(** ** Mission goals: [mission_goal_verification.rs] *)

Record MissionGoalContract := MkGoalContract {
  gc_mission_id : MissionId;
  gc_tenant_id : string;
  gc_original_goal_digest : string;
  gc_context_digest : string;
  gc_spec : VerifierSatisfactionSpec;
  gc_source : SemanticVerifierSource;
  gc_digest : string
}.

#[export] Instance MissionGoalContract_eq_dec : EqDecision MissionGoalContract.
Proof. solve_decision. Defined.

Record MissionGoalAttempt := MkGoalAttempt {
  ga_task_ref : TaskRef;
  ga_role_id : RoleId;
  ga_attempt_id : string
}.

#[export] Instance MissionGoalAttempt_eq_dec : EqDecision MissionGoalAttempt.
Proof. solve_decision. Defined.
#[export] Instance MissionGoalAttempt_countable : Countable MissionGoalAttempt.
Proof.
  refine (inj_countable' (fun a => (ga_task_ref a, ga_role_id a, ga_attempt_id a))
            (fun p => MkGoalAttempt p.1.1 p.1.2 p.2) _). by intros [].
Defined.

Record MissionGoalEvidence := MkGoalEvidence {
  ge_schema_version : string;
  ge_evidence_id : string;
  ge_mission_id : MissionId;
  ge_tenant_id : string;
  ge_contract_digest : string;
  ge_source_id : string;
  ge_source_revision : N;
  ge_plan_revision : N;
  ge_group_id : ExecutionGroupId;
  ge_plan_digest : string;
  ge_attempts : list MissionGoalAttempt;
  ge_predicate : string;
  ge_verdict : SemanticVerdict;
  ge_finality : VerifierFinality;
  ge_source_observed_at_ms : N;
  ge_sequence : N;
  ge_valid_for_ms : N;
  ge_artifact_digest : option string;
  ge_artifact_size_bytes : option N
}.

#[export] Instance MissionGoalEvidence_eq_dec : EqDecision MissionGoalEvidence.
Proof. solve_decision. Defined.

Record MissionGoalReceipt := MkGoalReceipt {
  gp_evidence : MissionGoalEvidence;
  gp_authority_subject : string;
  gp_authority_leaf_digest : string;
  gp_input_digest : string;
  gp_received_at : TimestampMs
}.
