(* ===== verification/Topology.v ===== *)
(** * Declared topology against reservations and the calendar

    [core/control/src/resource_topology.rs]: the committed registry of Space and Time
    resources and what it refuses.  A registry revision is installed only when every held or
    booked resource keeps its entry; future decisions, assignments and restored state are
    checked against windows and footprints.  Node state is read through [NodeView]. *)

From S2P Require Import Prelude Identity Execution StateModel Session Resource RelationSpec DecisionPolicy.
From S2P Require Import Scheduler SchedulerPolicy Sorting Quota NodeIdentity NodeState Capacity NodeAuthority.
From S2P Require Import Mission TaskExecution Group ControlPlane Actors GroupLifecycle GroupBinding.
From S2P Require Import GroupRelease RoleRecovery.

Open Scope string_scope.

(** ** Registries *)

Definition set_topology (registry : ResourceTopologyRegistry) (version : N) (c : ControlPlane)
  : ControlPlane :=
  MkControlPlane (cp_groups c) (cp_reservations c)
    (MkCapacityAuthority version (cp_capacity_ledger c) (cp_quota_ledger c))
    (cp_quota_unaccounted_resources c) (cp_scheduled_tasks c) (cp_pending_recovery_commitments c)
    (cp_actor_bindings c) (cp_actor_node_constraints c) (cp_actor_candidate_restrictions c)
    (cp_physical_entity_registry c) (cp_registry_provenance c) (cp_mission_binding_semantics c)
    (cp_mission_tenants c) (cp_node_identity_registry c) (cp_decision_policy_digest c)
    (Some registry) (<[tp_revision registry := registry]> (cp_resource_topology_history c))
    (cp_events c).

(** The resources a decision books, in selection order. *)
Definition decision_resources (d : TaskSchedulingDecision) : list ResourceId :=
  dc_selections d ≫= sel_resource_ids.

Definition live_reservations (c : ControlPlane) : list ScheduledTaskReservation :=
  List.filter (fun r => negb (bool_decide (st_phase r = Invalidated)))
    (btree_values (cp_scheduled_tasks c)).

(** Resources with a current holder or a booking that was not invalidated. *)
Definition held_resources (c : ControlPlane) : list ResourceId :=
  (btree_keys (cp_reservations c)
   ++ (live_reservations c ≫= fun r => decision_resources (st_decision r)))%list.

Definition topology_identity_conflict (c : ControlPlane) (registry : ResourceTopologyRegistry)
    (expected : N) : bool :=
  let old := cp_resource_topology_registry c in
  negb (default 0 (tp_revision <$> old) =? expected)%N
  || negb (bool_decide (u64_checked_add expected 1 = Some (tp_revision registry)))
  || is_some_and (fun o => negb (tp_registry_id o =? tp_registry_id registry)%string) old
  || (1024 <=? size (cp_resource_topology_history c))%nat.

Definition current_entry (c : ControlPlane) (id : ResourceId) : option ResourceTopologyEntry :=
  registry ← cp_resource_topology_registry c; topology_entry registry id.

Definition accept_resource_topology_registry (c : ControlPlane) (registry : ResourceTopologyRegistry)
    (expected : N) : ControlStep unit :=
  match result_map_err InvalidProposal (ResourceTopologyRegistry_validate registry) with
  | Err e => refuse c e
  | Ok _ =>
      if topology_identity_conflict c registry expected
      then refuse c (InvalidProposal "resource topology original identity/revision conflicts") else
      if existsb (fun id => negb (bool_decide (current_entry c id = topology_entry registry id)))
           (held_resources c)
      then refuse c (InvalidProposal "held resource topology cannot be added, removed or changed") else
      match u64_checked_add (cp_calendar_version c) 1 with
      | None => refuse c (InvalidProposal "resource topology calendar generation exhausted")
      | Some version => Some (set_topology registry version c, Ok tt)
      end
  end.

(** ** Checks of a registration, a decision and a batch of assignments *)

(** The Control plane as the authority over Nodes of [node.rs], with the leases and sessions it
    holds beside the Groups. *)
Definition plane_authority (leases : gmap NodeId NodeLease) (sessions : gmap NodeId NodeSessionAnchor)
    (c : ControlPlane) : NodeAuthority :=
  MkNodeAuthority leases sessions (cp_node_identity_registry c) (cp_resource_topology_registry c)
    (cp_reservations c) (cp_capacity_ledger c) (cp_quota_ledger c).

(** Declared resources one after the other: each one on its Node, inside a window, and
    compatible with those before it. *)
Fixpoint joint_entries (registry : ResourceTopologyRegistry) (starts_at : TimestampMs)
    (ends_at : option TimestampMs) (selected : list ResourceTopologyEntry)
    (l : list (NodeId * ResourceId)) : Result unit ControlError :=
  match l with
  | [] => Ok tt
  | (node, id) :: l' =>
      match topology_entry registry id with
      | None => joint_entries registry starts_at ends_at selected l'
      | Some entry =>
          if negb (bool_decide (te_node_id entry = node))
             || negb (permits_interval entry starts_at ends_at)
             || existsb (ResourceTopologyEntry_conflicts entry) selected
          then Err (AssignmentUnavailable "complete future spatial/calendar selection conflicts")
          else joint_entries registry starts_at ends_at (selected ++ [entry])%list l'
      end
  end.

Definition placed_resources (d : TaskSchedulingDecision) : list (NodeId * ResourceId) :=
  dc_selections d ≫= fun s => (fun id => (sel_node_id s, id)) <$> sel_resource_ids s.

Definition validate_topology_decision (c : ControlPlane) (d : TaskSchedulingDecision)
  : Result unit ControlError :=
  match cp_resource_topology_registry c with
  | None => Ok tt
  | Some registry =>
      if negb (existsb (fun id => is_some (topology_entry registry id)) (decision_resources d))
      then Ok tt else
      let? _b := topology_booking_registry c d in
      joint_entries registry (dc_starts_at d) (dc_ends_at d) [] (placed_resources d)
  end.

Definition topology_owner_reusable (c : ControlPlane) (held : Reservation) (task : TaskRef) (role : RoleId)
  : bool :=
  match rsv_group_id held with
  | None => false
  | Some group =>
      is_context (rsv_owner held)
      && match capacity_owner c group task role with
         | Ok owner => bool_decide (owner = rsv_owner held)
         | Err _ => false
         end
  end.

(** The reservation outlives the interval. *)
Definition within_original (now : TimestampMs) (finish : option TimestampMs)
    (original : ResourceTopologyReservation) : bool :=
  is_none_or (fun limit => is_some_and (fun e => (e <=? limit)%N) finish && (now <? limit)%N)
    (tv_planned_end original).

Definition held_conflict (c : ControlPlane) (task : TaskRef) (role : RoleId) (id : ResourceId)
    (entry : ResourceTopologyEntry) (now : TimestampMs) (finish : option TimestampMs)
    (kv : ResourceId * Reservation) : Result unit ControlError :=
  let '(held_id, held) := kv in
  if is_some_and (fun original => ResourceTopologyEntry_conflicts entry (tv_entry original))
       (rsv_topology held)
     && negb (bool_decide (id = held_id) && topology_owner_reusable c held task role
              && is_some_and (within_original now finish) (rsv_topology held))
  then Err (ResourceConflict id (rsv_task_ref held) (rsv_role_id held)) else Ok tt.

Definition future_conflict (registry : ResourceTopologyRegistry) (id : ResourceId)
    (entry : ResourceTopologyEntry) (future : ScheduledTaskReservation) : Result unit ControlError :=
  try_for (fun s =>
    if existsb (fun other => is_some_and (ResourceTopologyEntry_conflicts entry)
                               (topology_entry registry other)) (sel_resource_ids s)
    then Err (ResourceConflict id (st_task_ref future) (sel_role_id s)) else Ok tt)
    (dc_selections (st_decision future)).

Definition overlapping_futures (c : ControlPlane) (task : TaskRef) (now : TimestampMs)
    (finish : option TimestampMs) : list ScheduledTaskReservation :=
  List.filter (fun future =>
    bool_decide (st_phase future = Scheduled) && negb (bool_decide (st_task_ref future = task))
    && overlaps now finish (dc_starts_at (st_decision future)) (dc_ends_at (st_decision future)))
    (btree_values (cp_scheduled_tasks c)).

(** The entries the batch has taken so far, or the refusal. *)
Fixpoint assigned_entries (c : ControlPlane) (registry : ResourceTopologyRegistry) (task : TaskRef)
    (a : RoleAssignment) (now : TimestampMs) (finish : option TimestampMs)
    (selected : list ResourceTopologyEntry) (ids : list ResourceId)
  : Result (list ResourceTopologyEntry) ControlError :=
  match ids with
  | [] => Ok selected
  | id :: ids' =>
      match topology_entry registry id with
      | None => assigned_entries c registry task a now finish selected ids'
      | Some entry =>
          if negb (bool_decide (te_node_id entry = as_node_id a))
             || negb (permits_interval entry now finish)
          then Err (AssignmentUnavailable
            "original resource owner or complete time opening is unavailable") else
          if existsb (ResourceTopologyEntry_conflicts entry) selected
          then Err (AssignmentUnavailable
            "joint Role batch has intersecting exclusive spatial declarations") else
          let? _h := try_for (held_conflict c task (as_role_id a) id entry now finish)
                       (btree_iter (cp_reservations c)) in
          let? _f := try_for (future_conflict registry id entry)
                       (overlapping_futures c task now finish) in
          assigned_entries c registry task a now finish (selected ++ [entry])%list ids'
      end
  end.

Section View.
Context `{NodeView} (c : ControlPlane) (registry : ResourceTopologyRegistry) (task : TaskRef).
Context (now : TimestampMs) (finish : option TimestampMs).

Fixpoint assigned_batch (selected : list ResourceTopologyEntry) (l : list RoleAssignment)
  : Result unit ControlError :=
  match l with
  | [] => Ok tt
  | a :: l' =>
      match nv_node (as_node_id a) with
      | None => Err (UnknownNode (as_node_id a))
      | Some node =>
          let? _r := validate_topology_registration (plane_authority ∅ ∅ c) (sn_registration node) in
          let? selected1 := assigned_entries c registry task a now finish selected (as_resource_ids a) in
          assigned_batch selected1 l'
      end
  end.
End View.

Definition scheduled_end (c : ControlPlane) (task : TaskRef) : option TimestampMs :=
  record ← scheduled_task c task; dc_ends_at (st_decision record).

Definition validate_topology_assignments `{NodeView} (c : ControlPlane) (task : TaskRef)
    (assignments : list RoleAssignment) (now : TimestampMs) : Result unit ControlError :=
  match cp_resource_topology_registry c with
  | None => Ok tt
  | Some registry => assigned_batch c registry task now (scheduled_end c task) [] assignments
  end.

(** ** Bound and expired resources *)

Definition bound_entry_allowed (c : ControlPlane) (task : TaskRef) (a : RoleAssignment)
    (now : TimestampMs) (id : ResourceId) (entry : ResourceTopologyEntry) : bool :=
  bool_decide (te_node_id entry = as_node_id a)
  && is_some_and (fun held =>
       (bool_decide (rsv_task_ref held = task) && bool_decide (rsv_role_id held = as_role_id a)
        || topology_owner_reusable c held task (as_role_id a))
       && is_some_and (fun original =>
            bool_decide (tv_entry original = entry) && (tv_admitted_at original <=? now)%N
            && is_none_or (fun e => (now <? e)%N) (tv_planned_end original)
            && permits_interval entry now (tv_planned_end original)) (rsv_topology held))
       (cp_reservations c !! id).

Definition bound_topology_allowed (c : ControlPlane) (task : TaskRef) (assignments : list RoleAssignment)
    (now : TimestampMs) : bool :=
  match cp_resource_topology_registry c with
  | None => true
  | Some registry =>
      if existsb (fun id => is_some (topology_entry registry id)) (assignments ≫= as_resource_ids)
         && is_some_and (fun record =>
              (now <? dc_starts_at (st_decision record))%N
              || is_some_and (fun e => (e <=? now)%N) (dc_ends_at (st_decision record)))
              (scheduled_task c task)
      then false
      else forallb (fun a => forallb (fun id =>
             match topology_entry registry id with
             | None => true
             | Some entry => bound_entry_allowed c task a now id entry
             end) (as_resource_ids a)) assignments
  end.

(** Held and activated bookings whose interval has ended, as the set the code collects. *)
Definition expired_holdings (c : ControlPlane) (now : TimestampMs)
  : list (ExecutionGroupId * TaskRef * RoleId) :=
  omap (fun held =>
    original ← rsv_topology held;
    if (now <? tv_admitted_at original)%N
       || is_some_and (fun e => (e <=? now)%N) (tv_planned_end original)
    then (fun group => (group, rsv_task_ref held, rsv_role_id held)) <$> rsv_group_id held
    else None) (btree_values (cp_reservations c)).

Definition expired_bookings (c : ControlPlane) (now : TimestampMs)
  : list (ExecutionGroupId * TaskRef * RoleId) :=
  match cp_resource_topology_registry c with
  | None => []
  | Some registry =>
      List.filter (fun r => bool_decide (st_phase r = Activated)
                            && is_some_and (fun e => (e <=? now)%N) (dc_ends_at (st_decision r)))
        (btree_values (cp_scheduled_tasks c)) ≫= fun r =>
      (fun s => (st_group_id r, st_task_ref r, sel_role_id s)) <$>
        List.filter (fun s => existsb (fun id => is_some (topology_entry registry id)) (sel_resource_ids s))
          (dc_selections (st_decision r))
  end.

Definition expired_topology_targets (c : ControlPlane) (now : TimestampMs)
  : list (ExecutionGroupId * TaskRef * RoleId) :=
  bset_iter (list_to_set (expired_holdings c now ++ expired_bookings c now)).

(** ** Restored state *)

Fixpoint history_check (previous : option ResourceTopologyRegistry)
    (l : list (N * ResourceTopologyRegistry)) : Result (option ResourceTopologyRegistry) ControlError :=
  match l with
  | [] => Ok previous
  | (revision, registry) :: l' =>
      let? _v := result_map_err InvalidProposal (ResourceTopologyRegistry_validate registry) in
      if negb (revision =? tp_revision registry)%N
         || match previous with
            | None => negb (tp_revision registry =? 1)%N
            | Some old =>
                negb (tp_registry_id old =? tp_registry_id registry)%string
                || negb (bool_decide (u64_checked_add (tp_revision old) 1 = Some revision))
            end
      then Err (InvalidProposal "resource topology original history is discontinuous")
      else history_check (Some registry) l'
  end.

Definition held_entry_check (c : ControlPlane) (kv : ResourceId * Reservation) : Result unit ControlError :=
  let '(id, held) := kv in
  match rsv_topology held, current_entry c id with
  | None, None => Ok tt
  | Some original, Some current =>
      if bool_decide (tv_entry original = current) && bool_decide (te_resource_id (tv_entry original) = id)
         && bool_decide ((registry ← cp_resource_topology_history c !! tv_revision original;
                          topology_entry registry id) = Some current)
         && permits_interval (tv_entry original) (tv_admitted_at original) (tv_planned_end original)
      then Ok tt
      else Err (InvalidProposal "held resource lost original topology or complete interval")
  | _, _ => Err (InvalidProposal "held resource lost original topology or complete interval")
  end.

(** Some pair of the list, earlier element first, satisfies the predicate. *)
Fixpoint some_pair {A} (p : A -> A -> bool) (l : list A) : bool :=
  match l with
  | [] => false
  | x :: l' => existsb (p x) l' || some_pair p l'
  end.

Definition replacement_invalid (c : ControlPlane) (r : ScheduledTaskReservation) : bool :=
  negb (bool_decide (st_topology_recovery_assignments r = ∅))
  && (is_none (cp_resource_topology_registry c) || negb (bool_decide (st_phase r = Activated))
      || existsb (fun kv : RoleId * RoleAssignment =>
           negb (bool_decide (as_role_id kv.2 = kv.1))
           || is_none_or (fun s => negb (length (sel_resource_ids s) =? length (as_resource_ids kv.2))%nat)
                (List.find (fun s => bool_decide (sel_role_id s = kv.1)) (dc_selections (st_decision r))))
           (btree_iter (st_topology_recovery_assignments r))).

(** The joint check of a retained booking; [ids] is the set of declared resources before. *)
Fixpoint retained_entries (c : ControlPlane) (d : TaskSchedulingDecision) (ids : gset ResourceId)
    (l : list (NodeId * ResourceId)) : Result unit ControlError :=
  match l with
  | [] => Ok tt
  | (node, id) :: l' =>
      match current_entry c id with
      | None => retained_entries c d ids l'
      | Some entry =>
          if negb (bool_decide (te_node_id entry = node))
             || negb (permits_interval entry (dc_starts_at d) (dc_ends_at d))
          then Err (InvalidProposal "future topology original interval/owner changed") else
          if existsb (fun other => is_some_and (ResourceTopologyEntry_conflicts entry) (current_entry c other))
               (bset_iter ids)
          then Err (InvalidProposal "future joint spatial choices conflict")
          else retained_entries c d ({[id]} ∪ ids) l'
      end
  end.

Definition booking_overlap (first later : ScheduledTaskReservation) : bool :=
  overlaps (dc_starts_at (st_decision first)) (dc_ends_at (st_decision first))
    (dc_starts_at (st_decision later)) (dc_ends_at (st_decision later)).

Definition calendars_intersect (c : ControlPlane) (first later : ScheduledTaskReservation) : bool :=
  booking_overlap first later
  && existsb (fun left => existsb (fun right =>
       both ResourceTopologyEntry_conflicts (current_entry c left) (current_entry c right))
       (decision_resources (st_decision later))) (decision_resources (st_decision first)).

Definition future_reservations (c : ControlPlane) : list ScheduledTaskReservation :=
  List.filter (fun r => bool_decide (st_phase r = Scheduled)) (btree_values (cp_scheduled_tasks c)).

Definition validate_resource_topology_checkpoint (c : ControlPlane) : Result unit ControlError :=
  if (1024 <? size (cp_resource_topology_history c))%nat
  then Err (InvalidProposal "resource topology history exceeds bound") else
  let? previous := history_check None (btree_iter (cp_resource_topology_history c)) in
  if negb (bool_decide (previous = cp_resource_topology_registry c))
  then Err (InvalidProposal "resource topology current generation lacks original history") else
  let? _h := try_for (held_entry_check c) (btree_iter (cp_reservations c)) in
  if some_pair (fun l r => ResourceTopologyEntry_conflicts (tv_entry l) (tv_entry r))
       (omap rsv_topology (btree_values (cp_reservations c)))
  then Err (InvalidProposal "active original spatial reservations conflict") else
  let? _r := try_for (fun r =>
               if replacement_invalid c r
               then Err (InvalidProposal
                 "calendar recovery projection lacks original roles or active topology authority")
               else Ok tt) (btree_values (cp_scheduled_tasks c)) in
  let? _d := try_for (fun r => validate_topology_decision c (st_decision r)) (live_reservations c) in
  let? _e := try_for (fun r => retained_entries c (st_decision r) ∅ (placed_resources (st_decision r)))
               (future_reservations c) in
  if some_pair (calendars_intersect c) (future_reservations c)
  then Err (InvalidProposal "retained future spatial calendars intersect") else Ok tt.
