(* ===== verification/Calendar.v ===== *)
(** * The reservation calendar

    [core/control/src/calendar.rs] with [capacity_calendar.rs] and the history check of
    [scheduling_cost.rs]: the snapshot a scheduling decision is made on (physical
    reservations, future bookings, quantitative allocations and Context budgets), the
    admission of a decision as a future booking, and the checks of a restored calendar.
    [None] is a panic: an [expect] on an encoding or on a Role validated before. *)

From S2P Require Import Prelude Identity Execution StateModel Session Resource RelationSpec DecisionPolicy.
From S2P Require Import Scheduler SchedulerPolicy Sorting Quota NodeIdentity NodeState Capacity.
From S2P Require Import Mission TaskExecution Group ControlPlane Actors GroupLifecycle GroupBinding.
From S2P Require Import GroupRelease RoleRecovery Topology.

Open Scope string_scope.

#[export] Instance SchedulingRoleConstraint_eq_dec : EqDecision SchedulingRoleConstraint.
Proof. solve_decision. Defined.
#[export] Instance CapacityAllocation_eq_dec : EqDecision CapacityAllocation.
Proof. solve_decision. Defined.

(** ** Context axes *)

(** [serde_json::to_string(&(group, owner))]: fields in declaration order. *)
Definition owner_text (o : AllocationOwner) : Json :=
  match o with
  | OwnerTask t =>
      JObject [("Task", JObject [("mission_id", JString (as_str (tr_mission_id t)));
                                 ("task_id", JString (as_str (tr_task_id t)))])]
  | OwnerContext m c r =>
      JObject [("Context", JObject [("mission_id", JString (as_str m));
                                    ("context_id", JString (as_str c));
                                    ("context_role_id", JString (as_str r))])]
  end.

Definition context_axis `{Serde} (group : ExecutionGroupId) (owner : AllocationOwner) : option string :=
  result_ok (json_to_vec (JArray [JString (as_str group); owner_text owner])).

(** ** Quantitative occupancies *)

Definition capacity_planning_end (c : ControlPlane) (task : TaskRef) (now : TimestampMs)
  : option TimestampMs :=
  r ← scheduled_task c task;
  if bool_decide (st_phase r = Invalidated) then None else
  finish ← dc_ends_at (st_decision r);
  if (now <? finish)%N then Some finish else None.

Abbreviation AxisKey := (ResourceId * string)%type.

Section Quantities.
Context `{Serde} (c : ControlPlane).

(** The allocations of the ledger: a parent, and for a Context its borrowers on their axis. *)
Definition allocation_occupancies (now : TimestampMs) (acc : list SchedulingOccupancy * gset AxisKey)
    (record : CapacityAllocation) : option (list SchedulingOccupancy * gset AxisKey) :=
  let '(result, parents) := acc in
  let original := al_original record in
  let parent finish := quantitative (rg_resource_id original) now finish (rg_allocation_units original) None in
  if is_context (rg_owner original)
  then axis ← context_axis (rg_group_id original) (rg_owner original);
       Some ((result ++ [parent None]
              ++ ((fun b => quantitative (rg_resource_id original) now
                              (capacity_planning_end c (bo_task_ref b) now) (bo_units b) (Some axis))
                  <$> al_borrowers record))%list,
             {[(rg_resource_id original, axis)]} ∪ parents)
  else Some ((result ++ [parent (capacity_planning_end c (rg_task_ref original) now)])%list, parents).

(** [entry(key).and_modify(min start).or_insert((start, units))]. *)
Definition earliest_parent (key : AxisKey) (start : TimestampMs) (units : N)
    (m : gmap AxisKey (TimestampMs * N)) : gmap AxisKey (TimestampMs * N) :=
  match m !! key with
  | Some old => <[key := (N.min old.1 start, old.2)]> m
  | None => <[key := (start, units)]> m
  end.

Definition future_demand (parents : gset AxisKey) (group : ExecutionGroupId) (d : TaskSchedulingDecision)
    (role : RoleId) (acc : list SchedulingOccupancy * gmap AxisKey (TimestampMs * N))
    (item : ResourceId * ResourceRequirement)
  : option (list SchedulingOccupancy * gmap AxisKey (TimestampMs * N)) :=
  let '(result, futures) := acc in
  let '(id, demand) := item in
  let occupancy axis := quantitative id (dc_starts_at d) (dc_ends_at d) (rr_units demand) axis in
  if negb (is_divisible demand) then Some acc else
  owner ← result_ok (capacity_owner c group (dc_task_ref d) role);
  if is_context owner
  then axis ← context_axis group owner;
       units ← context_capacity_units c group owner (rr_resource_class demand);
       Some ((result ++ [occupancy (Some axis)])%list,
             if set_contains (id, axis) parents then futures
             else earliest_parent (id, axis) (dc_starts_at d) units futures)
  else Some ((result ++ [occupancy None])%list, futures).

Definition future_demands (parents : gset AxisKey)
    (acc : list SchedulingOccupancy * gmap AxisKey (TimestampMs * N)) (r : ScheduledTaskReservation)
  : option (list SchedulingOccupancy * gmap AxisKey (TimestampMs * N)) :=
  fold_opt (fun acc s => fold_opt (future_demand parents (st_group_id r) (st_decision r) (sel_role_id s)) acc
                           (zip (sel_resource_ids s) (sel_resource_requirements s)))
    acc (dc_selections (st_decision r)).

Definition quantitative_occupancies (ledger : CapacityLedger) (now : TimestampMs)
    (exclude_future : option TaskRef) : option (list SchedulingOccupancy) :=
  held ← fold_opt (allocation_occupancies now) ([], ∅) (btree_values (cl_allocations ledger));
  planned ← fold_opt (future_demands held.2) (held.1, ∅)
    (List.filter (fun r => bool_decide (st_phase r = Scheduled)
                           && negb (bool_decide (exclude_future = Some (st_task_ref r))))
       (btree_values (cp_scheduled_tasks c)));
  Some (planned.1 ++ ((fun kv : AxisKey * (TimestampMs * N) =>
                         quantitative kv.1.1 kv.2.1 None kv.2.2 None) <$> btree_iter planned.2))%list.

(** ** Snapshots *)

(** A physical reservation, until the planned end of its activated booking. *)
Definition physical_occupancy (now : TimestampMs) (kv : ResourceId * Reservation) : SchedulingOccupancy :=
  let '(id, physical) := kv in
  let planned := r ← scheduled_task c (rsv_task_ref physical);
                 if bool_decide (st_phase r = Activated)
                    && existsb (fun a => existsb (fun other => bool_decide (other = id)) (as_resource_ids a))
                         (current_assignments r)
                 then Some r else None in
  let finish := if is_some (rsv_topology physical) && bool_decide (rsv_scope physical = ScopeContext)
                then None else r ← planned; dc_ends_at (st_decision r) in
  match planned, finish with
  | Some r, Some planned_end =>
      if (now <? planned_end)%N
      then SchedulingOccupancy_new id (dc_starts_at (st_decision r)) (Some planned_end)
      else SchedulingOccupancy_new id now None
  | _, _ => SchedulingOccupancy_new id now None
  end.

(** The whole resources one selection of a future booking holds. *)
Definition booked_whole (d : TaskSchedulingDecision) (s : RoleSchedulingSelection) : list SchedulingOccupancy :=
  omap (fun indexed : nat * ResourceId =>
    if is_some_and is_divisible (sel_resource_requirements s !! indexed.1) then None
    else Some (SchedulingOccupancy_new indexed.2 (dc_starts_at d) (dc_ends_at d)))
    (enumerate (sel_resource_ids s)).

Definition with_resource_topology (s : SchedulingSnapshot) : SchedulingSnapshot :=
  MkSnapshot (ss_topology_recovery_interval s) (cp_resource_topology_registry c) (ss_version s)
    (ss_occupancies s) (ss_context_capacities s) (ss_role_constraints s) (ss_cost_evidence s)
    (ss_policy_cost_evidence s).

Definition scheduling_snapshot_excluding (now : TimestampMs) (reusable : gset ResourceId)
  : option SchedulingSnapshot :=
  quantities ← quantitative_occupancies (cp_capacity_ledger c) now None;
  Some (with_resource_topology (SchedulingSnapshot_new (cp_calendar_version c)
    ((physical_occupancy now <$> List.filter (fun kv => negb (set_contains kv.1 reusable))
                                   (btree_iter (cp_reservations c)))
     ++ (future_reservations c ≫= fun r => dc_selections (st_decision r) ≫= booked_whole (st_decision r))
     ++ quantities)%list)).

Definition scheduling_snapshot (now : TimestampMs) : option SchedulingSnapshot :=
  scheduling_snapshot_excluding now ∅.

(** [recovery_scheduling_snapshot]: the remaining interval of the Task, never extended. *)
Definition recovery_scheduling_snapshot (now : TimestampMs) (group : ExecutionGroupId) (task : TaskRef)
  : option (Result SchedulingSnapshot ControlError) :=
  if is_none (g ← cp_groups c !! group; task_execution g task)
  then Some (Err (InvalidProposal "recovery calendar lacks its exact original Group/Task")) else
  s ← scheduling_snapshot now;
  let interval := r ← scheduled_task c task;
                  if bool_decide (st_group_id r = group)
                  then finish ← dc_ends_at (st_decision r);
                       if (now <? finish)%N then Some (task, finish) else None
                  else None in
  Some (Ok (MkSnapshot interval (ss_resource_topology s) (ss_version s) (ss_occupancies s)
              (ss_context_capacities s) (ss_role_constraints s) (ss_cost_evidence s)
              (ss_policy_cost_evidence s))).

(** Another booking of the same Context fixes its Node and resources and may start it
    earlier. *)
Definition planned_binding (group : ExecutionGroupId) (owner : AllocationOwner) (role : RoleId)
    (acc : option TimestampMs * gmap RoleId SchedulingRoleConstraint)
    (item : ScheduledTaskReservation * RoleSchedulingSelection)
  : Result (option TimestampMs * gmap RoleId SchedulingRoleConstraint) ControlError :=
  let '(parent, constraints) := acc in
  let '(future, selected) := item in
  let? other := capacity_owner c group (st_task_ref future) (sel_role_id selected) in
  if negb (bool_decide (other = owner)) then Ok acc else
  let start := dc_starts_at (st_decision future) in
  let constraint := MkRoleConstraint role (sel_node_id selected) (sel_resource_ids selected) in
  if is_some_and (fun old => negb (bool_decide (old = constraint))) (constraints !! role)
  then Err (InvalidProposal "original Context has conflicting planned resource bindings")
  else Ok (Some (match parent with Some old => N.min old start | None => start end),
           <[role := constraint]> constraints).

Definition context_futures (group : ExecutionGroupId) (task : TaskRef)
  : list (ScheduledTaskReservation * RoleSchedulingSelection) :=
  List.filter (fun r => bool_decide (st_group_id r = group) && negb (bool_decide (st_task_ref r = task))
                        && bool_decide (st_phase r = Scheduled)) (btree_values (cp_scheduled_tasks c))
  ≫= fun r => (fun s => (r, s)) <$> dc_selections (st_decision r).

Definition capacity_context (original : ExecutionGroup) (execution : TaskExecution)
    (group : ExecutionGroupId) (task : TaskRef) (now : TimestampMs) (s : SchedulingSnapshot)
    (role_id : RoleId) : option (Result SchedulingSnapshot ControlError) :=
  match role_requirement original task role_id with
  | None => Some (Err (InvalidProposal "current original scheduling Role is absent"))
  | Some role =>
      let id := rq_role_id role in
      if negb (bool_decide (role_scope execution id = ScopeContext)) then Some (Ok s) else
      match List.find is_divisible (resource_requirements role) with
      | None => Some (Ok s)
      | Some demand =>
          match capacity_owner c group task id with
          | Err e => Some (Err e)
          | Ok owner =>
              axis ← context_axis group owner;
              match context_capacity_units c group owner (rr_resource_class demand) with
              | None => Some (Err (InvalidProposal "original scheduling Context envelope is absent"))
              | Some units =>
                  let held := existsb (fun record =>
                    bool_decide (rg_group_id (al_original record) = group)
                    && bool_decide (rg_owner (al_original record) = owner))
                    (btree_values (cl_allocations (cp_capacity_ledger c))) in
                  Some (let? bound := try_fold (planned_binding group owner id)
                                        (if held then Some now else None, ss_role_constraints s)
                                        (context_futures group task) in
                        Ok (MkSnapshot (ss_topology_recovery_interval s) (ss_resource_topology s)
                              (ss_version s) (ss_occupancies s)
                              (<[id := MkContextCapacity axis units bound.1]> (ss_context_capacities s))
                              bound.2 (ss_cost_evidence s) (ss_policy_cost_evidence s)))
              end
          end
      end
  end.

Fixpoint capacity_contexts (original : ExecutionGroup) (execution : TaskExecution)
    (group : ExecutionGroupId) (task : TaskRef) (now : TimestampMs) (roles : list RoleId)
    (s : SchedulingSnapshot) : option (Result SchedulingSnapshot ControlError) :=
  match roles with
  | [] => Some (Ok s)
  | role :: roles' =>
      step ← capacity_context original execution group task now s role;
      match step with
      | Err e => Some (Err e)
      | Ok s1 => capacity_contexts original execution group task now roles' s1
      end
  end.

Definition with_capacity_contexts (s : SchedulingSnapshot) (group : ExecutionGroupId) (task : TaskRef)
    (now : TimestampMs) : option (Result SchedulingSnapshot ControlError) :=
  match cp_groups c !! group with
  | None => Some (Err (UnknownGroup group))
  | Some original =>
      match task_execution original task with
      | None => Some (Err (InvalidProposal "capacity scheduling Task is absent"))
      | Some execution =>
          capacity_contexts original execution group task now (btree_keys (te_role_scopes execution)) s
      end
  end.

(** The Context bindings a Task may reuse, with the constraints they put on its Roles. *)
Definition context_constraints (g : ExecutionGroup) (t : TaskExecution) : list SchedulingRoleConstraint :=
  omap (fun kv : RoleId * ContextRoleId =>
    if negb (bool_decide (role_scope t kv.1 = ScopeContext)) then None else
    b ← context_binding g (te_context_id t) kv.2;
    Some (MkRoleConstraint kv.1 (as_node_id (cb_assignment b)) (as_resource_ids (cb_assignment b))))
    (btree_iter (te_context_roles t)).

Definition scheduling_snapshot_for_task (now : TimestampMs) (group : ExecutionGroupId) (task : TaskRef)
  : option (Result SchedulingSnapshot ControlError) :=
  match cp_groups c !! group with
  | None => Some (Err (UnknownGroup group))
  | Some g =>
      match task_execution g task with
      | None => Some (Err (InvalidProposal "Task is absent from the Mission Group"))
      | Some t =>
          let constraints := context_constraints g t in
          s ← scheduling_snapshot_excluding now (list_to_set (constraints ≫= src_resource_ids));
          with_capacity_contexts (with_role_constraints s constraints) group task now
      end
  end.
End Quantities.

(** ** Decisions against the Group *)

(** [validate_decision_against_group]: the shape of one selection. *)
Definition selection_shape_differs (resources : list ResourceRequirement) (s : RoleSchedulingSelection)
  : bool :=
  let shared := existsb is_divisible resources in
  (shared && (negb (bool_decide (sel_resource_requirements s = resources))
              || negb (length (sel_resource_capacities s) =? length resources)%nat
              || existsb (fun p : N * ResourceRequirement => (p.1 <? rr_units p.2)%N)
                   (zip (sel_resource_capacities s) resources)))
  || (negb shared && (negb (length (sel_resource_requirements s) =? 0)%nat
                      || negb (length (sel_resource_capacities s) =? 0)%nat))
  || negb (length (sel_resource_ids s) =? length resources)%nat
  || negb (length (sel_resource_units s) =? length resources)%nat
  || existsb (fun p : N * ResourceRequirement => negb (p.1 =? rr_units p.2)%N)
       (zip (sel_resource_units s) resources).

(** The modes of the resources selected so far; [None] is a resource selected twice that is
    not divisible both times. *)
Definition select_mode (modes : gmap ResourceId ResourceAllocationMode)
    (item : ResourceId * ResourceRequirement) : option (gmap ResourceId ResourceAllocationMode) :=
  let mode := rr_allocation_mode item.2 in
  if is_some_and (fun old => negb (bool_decide (old = Divisible)) || negb (bool_decide (mode = Divisible)))
       (modes !! item.1)
  then None else Some (<[item.1 := mode]> modes).

Definition select_modes (g : ExecutionGroup) (task : TaskRef)
    (modes : gmap ResourceId ResourceAllocationMode) (s : RoleSchedulingSelection)
  : option (gmap ResourceId ResourceAllocationMode) :=
  requirement ← role_requirement g task (sel_role_id s);
  let resources := resource_requirements requirement in
  if selection_shape_differs resources s then None
  else fold_opt select_mode modes (zip (sel_resource_ids s) resources).

Definition validate_decision_against_group (g : ExecutionGroup) (d : TaskSchedulingDecision)
  : Result unit ControlError :=
  match task_execution g (dc_task_ref d) with
  | None => Err (InvalidProposal "scheduling decision references a Task outside its Group")
  | Some t =>
      let selected : gset RoleId := list_to_set (sel_role_id <$> dc_selections d) in
      if negb (bool_decide (selected = dom (te_role_scopes t)))
         || negb (size selected =? length (dc_selections d))%nat
         || is_none (fold_opt (select_modes g (dc_task_ref d)) ∅ (dc_selections d))
      then Err (InvalidProposal "scheduling decision differs from authoritative Task requirements")
      else Ok tt
  end.

(** ** Cost evidence: [scheduling_cost.rs]

    What the check reads of each policy registry of the history, in revision order: its
    digest and the cost policies it declares. *)

Record CostPolicyRegistry := MkCostRegistry {
  pr_digest : option string;
  pr_scheduling_costs : gmap string SchedulingCostPolicy
}.

Section Costs.
Context `{MetricsCodec} (c : ControlPlane) (history : list CostPolicyRegistry) (mission : MissionId).

Definition cost_receipt_check (candidates : gset NodeId) (receipt : SchedulingCostAssessment)
  : Result (gset NodeId) ControlError :=
  let? _v := result_map_err InvalidProposal (SchedulingCostAssessment_validate receipt) in
  match List.find (fun r => bool_decide (pr_digest r = Some (ca_registry_digest receipt))) history with
  | None => Err (InvalidProposal "scheduling cost original policy history is absent")
  | Some registry =>
      let policy := ca_policy receipt in
      if set_contains (cp_node_id policy) candidates
         || negb (bool_decide (mission_tenant c mission = Some (cp_tenant_id policy)))
         || negb (bool_decide (pr_scheduling_costs registry !! ep_policy_id (cp_policy policy) = Some policy))
      then Err (InvalidProposal "scheduling cost original attribution conflicts")
      else Ok ({[cp_node_id policy]} ∪ candidates)
  end.

Definition validate_scheduling_cost_history (evidence : list SchedulingCostAssessment)
  : Result unit ControlError :=
  let? _s := try_fold cost_receipt_check ∅ evidence in Ok tt.
End Costs.

(** ** Admission of a decision *)

Section Admission.
Context `{Serde, NodeView, MetricsCodec} (c : ControlPlane) (history : list CostPolicyRegistry).

(** The demands of one selection against the snapshot and the selections before it. *)
Definition demand_check (s : SchedulingSnapshot) (d : TaskSchedulingDecision) (node : NodeStateSnapshot)
    (prior : list RoleSchedulingSelection) (role : RoleId) (item : ResourceId * ResourceRequirement)
  : Result unit ControlError :=
  match find_resource (nd_resources (sn_registration node)) item.1 with
  | None => Err (InvalidProposal "scheduled resource is absent")
  | Some resource =>
      if capacity_available s role resource item.2 (dc_starts_at d) (dc_ends_at d) prior then Ok tt
      else Err (AssignmentUnavailable
        "joint resource demand conflicts with the original capacity calendar")
  end.

Fixpoint capacity_selections (s : SchedulingSnapshot) (group : ExecutionGroupId)
    (d : TaskSchedulingDecision) (prior l : list RoleSchedulingSelection)
  : option (Result unit ControlError) :=
  match l with
  | [] => Some (Ok tt)
  | selection :: l' =>
      match nv_node (sel_node_id selection) with
      | None => Some (Err (UnknownNode (sel_node_id selection)))
      | Some node =>
          match cp_groups c !! group with
          | None => Some (Err (UnknownGroup group))
          | Some g =>
              role ← role_requirement g (dc_task_ref d) (sel_role_id selection);
              match try_for (demand_check s d node prior (sel_role_id selection))
                      (zip (sel_resource_ids selection) (resource_requirements role)) with
              | Err e => Some (Err e)
              | Ok _ => capacity_selections s group d (prior ++ [selection])%list l'
              end
          end
      end
  end.

Definition validate_capacity_decision (s : SchedulingSnapshot) (group : ExecutionGroupId)
    (d : TaskSchedulingDecision) : option (Result unit ControlError) :=
  capacity_selections s group d [] (dc_selections d).

(** The selected Node is eligible and declares the selected resources. *)
Definition selection_check (g : ExecutionGroup) (task : TaskRef) (now : TimestampMs)
    (s : RoleSchedulingSelection) : option (Result unit ControlError) :=
  requirement ← role_requirement g task (sel_role_id s);
  Some (if negb (nv_eligible c (sel_node_id s) requirement now)
        then Err (InvalidProposal ("scheduled node " ++ as_str (sel_node_id s)
                   ++ " is no longer eligible for role " ++ as_str (sel_role_id s))) else
        match nv_node (sel_node_id s) with
        | None => Err (UnknownNode (sel_node_id s))
        | Some node =>
            if existsb (fun p : ResourceId * ResourceRequirement =>
                 negb (existsb (fun resource => bool_decide (res_id resource = p.1)
                                                && matches_demand p.2 resource)
                         (nd_resources (sn_registration node))))
                 (zip (sel_resource_ids s) (resource_requirements requirement))
            then Err (InvalidProposal ("scheduled role " ++ as_str (sel_role_id s)
                       ++ " resources no longer satisfy node ownership or capacity"))
            else Ok tt
        end).

Fixpoint selection_checks (g : ExecutionGroup) (task : TaskRef) (now : TimestampMs)
    (l : list RoleSchedulingSelection) : option (Result unit ControlError) :=
  match l with
  | [] => Some (Ok tt)
  | s :: l' =>
      step ← selection_check g task now s;
      match step with
      | Err e => Some (Err e)
      | Ok _ => selection_checks g task now l'
      end
  end.

Definition outside_candidates (candidates : CandidateSet) (d : TaskSchedulingDecision) : bool :=
  negb (bool_decide (cs_task_ref candidates = dc_task_ref d))
  || existsb (fun s => is_none_or (fun role => negb (bool_decide (sel_node_id s ∈ rcs_node_ids role)))
                         (for_role candidates (sel_role_id s))) (dc_selections d).

(** The checks of the decision alone and of its Task, in order. *)
Definition booking_check (candidates : CandidateSet) (group : ExecutionGroupId)
    (d : TaskSchedulingDecision) (now : TimestampMs) : Result ExecutionGroup ControlError :=
  let? _h := validate_scheduling_cost_history c history (tr_mission_id (dc_task_ref d))
               (dc_policy_cost_evidence d) in
  if negb (dc_snapshot_version d =? cp_calendar_version c)%N
  then Err (InvalidProposal "Scheduler decision uses a stale Control calendar snapshot") else
  if contains_key (dc_task_ref d) (cp_scheduled_tasks c)
  then Err (InvalidProposal "Task already has a Control scheduling reservation") else
  if is_none_or (fun finish => (finish <=? dc_starts_at d)%N) (dc_ends_at d)
  then Err (InvalidProposal "scheduling reservation requires a positive bounded interval") else
  if is_some_and (fun latest => (latest <? dc_starts_at d)%N) (dc_latest_activation_at d)
  then Err (InvalidProposal "scheduling reservation starts after its activation deadline") else
  if (dc_starts_at d <? now)%N
  then Err (InvalidProposal "scheduling reservation starts before current Controller time") else
  let? g := find_group c group in
  match task_execution g (dc_task_ref d) with
  | None => Err (InvalidProposal "scheduled Task is absent from its Group")
  | Some t =>
      if negb (bool_decide (eg_mission_id g = tr_mission_id (dc_task_ref d)))
         || negb (bool_decide (te_lifecycle t = TlReady))
      then Err (InvalidProposal
        "only a Ready Task in the same Mission Group can reserve a scheduling interval") else
      let? _g := validate_decision_against_group g d in
      if outside_candidates candidates d
      then Err (InvalidProposal "scheduling decision is outside its current Candidate Set") else Ok g
  end.

Definition reserve_scheduled_task (candidates : CandidateSet) (group : ExecutionGroupId)
    (d : TaskSchedulingDecision) (now : TimestampMs) : ControlStep ScheduledTaskReservation :=
  match booking_check candidates group d now with
  | Err e => refuse c e
  | Ok g =>
      selections ← selection_checks g (dc_task_ref d) now (dc_selections d);
      match selections with
      | Err e => refuse c e
      | Ok _ =>
          match u64_checked_add (cp_calendar_version c) 1 with
          | None => refuse c (AllocationInvariant "Control calendar version overflow")
          | Some next =>
              snapshot ← scheduling_snapshot_for_task c now group (dc_task_ref d);
              match snapshot with
              | Err e => refuse c e
              | Ok s =>
                  match validate_topology_decision c d with
                  | Err e => refuse c e
                  | Ok _ =>
                      capacity ← validate_capacity_decision s group d;
                      match capacity with
                      | Err e => refuse c e
                      | Ok _ =>
                          let booked := ScheduledTaskReservation_new group d in
                          Some (set_calendar (<[dc_task_ref d := booked]> (cp_scheduled_tasks c)) next c,
                                Ok booked)
                      end
                  end
              end
          end
      end
  end.
End Admission.

(** ** Commits and restored calendars: [capacity_calendar.rs] *)

Section Ledgers.
Context `{Serde} (c : ControlPlane).

Definition axis_available (s : list SchedulingOccupancy) (id : ResourceId) (axis : option string)
    (now : TimestampMs) (capacity : N) : bool :=
  interval_available (List.filter (on_axis id axis) s) now None 0 capacity.

(** The pool of a changed allocation, with the capacity its Node declares now. *)
Definition changed_pool `{NodeView} (pools : gmap ResourceId N) (kv : string * CapacityAllocation)
  : Result (gmap ResourceId N) ControlError :=
  let original := al_original kv.2 in
  match (node ← nv_node (rg_node_id original);
         find_resource (nd_resources (sn_registration node)) (rg_resource_id original)) with
  | None => Err (AssignmentUnavailable "original allocated pool is unavailable")
  | Some resource => Ok (<[rg_resource_id original := res_capacity resource]> pools)
  end.

Definition validate_capacity_calendar `{NodeView} (ledger : CapacityLedger) (task : TaskRef)
    (now : TimestampMs) : option (Result unit ControlError) :=
  occupancies ← quantitative_occupancies c ledger now (Some task);
  Some (let? pools := try_fold changed_pool ∅
          (List.filter (fun kv : string * CapacityAllocation =>
             negb (bool_decide (cl_allocations (cp_capacity_ledger c) !! kv.1 = Some kv.2)))
             (btree_iter (cl_allocations ledger))) in
        if forallb (fun kv : ResourceId * N => axis_available occupancies kv.1 None now kv.2) (btree_iter pools)
        then Ok tt
        else Err (AssignmentUnavailable "quantitative Commit conflicts with original future capacity")).

Abbreviation Pools := (gmap ResourceId (NodeId * string * N)).
Abbreviation Axes := (gmap AxisKey N).

(** Pools and Context axes of the ledger. *)
Definition ledger_pool (acc : Pools * Axes) (record : CapacityAllocation)
  : option (Result (Pools * Axes) ControlError) :=
  let '(pools, axes) := acc in
  let g := al_original record in
  let pools1 := <[rg_resource_id g := (rg_node_id g, rg_resource_class g, rg_admitted_capacity g)]> pools in
  if negb (is_context (rg_owner g)) then Some (Ok (pools1, axes)) else
  if negb (bool_decide (context_capacity_units c (rg_group_id g) (rg_owner g) (Some (rg_resource_class g))
                        = Some (rg_allocation_units g)))
  then Some (Err (InvalidProposal "restored Context allocation changed its original envelope")) else
  axis ← context_axis (rg_group_id g) (rg_owner g);
  Some (Ok (pools1, <[(rg_resource_id g, axis) := rg_allocation_units g]> axes)).

(** The pool of one retained shared selection. *)
Definition retained_pool (s : RoleSchedulingSelection) (id : ResourceId) (class : string) (capacity : N)
    (pools : Pools) : Result Pools ControlError :=
  match pools !! id with
  | Some (node, old_class, limit) =>
      if negb (bool_decide (node = sel_node_id s)) || negb (old_class =? class)%string
      then Err (InvalidProposal "retained pool changed original Node or unit class")
      else Ok (<[id := (node, old_class, N.max limit capacity)]> pools)
  | None => Ok (<[id := (sel_node_id s, class, capacity)]> pools)
  end.

Definition typed_class (demand : ResourceRequirement) : option string :=
  class ← rr_resource_class demand;
  if is_blank class || (128 <? str_len class)%N then None else Some class.

Definition retained_demand (r : ScheduledTaskReservation) (s : RoleSchedulingSelection)
    (acc : Pools * Axes) (item : ResourceId * ResourceRequirement * N)
  : option (Result (Pools * Axes) ControlError) :=
  let '(pools, axes) := acc in
  let '(id, demand, capacity) := item in
  if negb (is_divisible demand) then Some (Ok acc) else
  match typed_class demand with
  | None => Some (Err (InvalidProposal "retained shared selection has no typed units"))
  | Some class =>
      if (rr_units demand =? 0)%N || negb (bool_decide (rr_kind demand = Compute))
         || (capacity <? rr_units demand)%N
      then Some (Err (InvalidProposal "retained shared selection has invalid original capacity")) else
      match (let? pools1 := retained_pool s id class capacity pools in
             let? owner := capacity_owner c (st_group_id r) (st_task_ref r) (sel_role_id s) in
             Ok (pools1, owner)) with
      | Err e => Some (Err e)
      | Ok (pools1, owner) =>
          if negb (is_context owner) then Some (Ok (pools1, axes)) else
          match context_capacity_units c (st_group_id r) owner (Some class) with
          | None => Some (Err (InvalidProposal "retained future Context lacks its original envelope"))
          | Some limit =>
              if (limit <? rr_units demand)%N || (capacity <? limit)%N
              then Some (Err (InvalidProposal "retained future Context exceeds original capacity")) else
              axis ← context_axis (st_group_id r) owner;
              Some (Ok (pools1, <[(id, axis) := limit]> axes))
          end
      end
  end.

Fixpoint checked_fold {A B} (f : B -> A -> option (Result B ControlError)) (b : B) (l : list A)
  : option (Result B ControlError) :=
  match l with
  | [] => Some (Ok b)
  | x :: l' =>
      step ← f b x;
      match step with
      | Err e => Some (Err e)
      | Ok b1 => checked_fold f b1 l'
      end
  end.

Definition retained_booking (acc : Pools * Axes) (r : ScheduledTaskReservation)
  : option (Result (Pools * Axes) ControlError) :=
  checked_fold (fun acc s => checked_fold (retained_demand r s) acc
    (zip (zip (sel_resource_ids s) (sel_resource_requirements s)) (sel_resource_capacities s)))
    acc (dc_selections (st_decision r)).

Definition validate_capacity_calendar_history : option (Result unit ControlError) :=
  ledger ← checked_fold ledger_pool (∅, ∅) (btree_values (cl_allocations (cp_capacity_ledger c)));
  match ledger with
  | Err e => Some (Err e)
  | Ok held =>
      retained ← checked_fold retained_booking held (btree_values (cp_scheduled_tasks c));
      match retained with
      | Err e => Some (Err e)
      | Ok (pools, axes) =>
          s ← scheduling_snapshot c 0;
          Some (if negb (forallb (fun kv : ResourceId * (NodeId * string * N) =>
                     axis_available (ss_occupancies s) kv.1 None 0 kv.2.2) (btree_iter pools))
                then Err (InvalidProposal
                  "restored future resource quantities overlap beyond original capacity") else
                if negb (forallb (fun kv : AxisKey * N =>
                     axis_available (ss_occupancies s) kv.1.1 (Some kv.1.2) 0 kv.2) (btree_iter axes))
                then Err (InvalidProposal "restored Context borrowers exceed their original envelope")
                else Ok tt)
      end
  end.

(** ** Restored calendars: [calendar.rs] *)

(** [intervals_overlap]. *)
Definition intervals_overlap (left : TimestampMs) (left_end : option TimestampMs) (right : TimestampMs)
    (right_end : option TimestampMs) : bool :=
  match left_end, right_end with
  | Some l, Some r => (left <? r)%N && (right <? l)%N
  | Some l, None => (right <? l)%N
  | None, Some r => (left <? r)%N
  | None, None => true
  end.

(** The resources a decision takes whole. *)
Definition whole_resources (d : TaskSchedulingDecision) : list ResourceId :=
  dc_selections d ≫= fun s =>
  omap (fun indexed : nat * ResourceId =>
    if is_none_or (fun demand => bool_decide (rr_allocation_mode demand = Exclusive))
         (sel_resource_requirements s !! indexed.1)
    then Some indexed.2 else None) (enumerate (sel_resource_ids s)).

Definition exclusive_overlap (r later : ScheduledTaskReservation) : bool :=
  let d := st_decision r in
  let e := st_decision later in
  intervals_overlap (dc_starts_at d) (dc_ends_at d) (dc_starts_at e) (dc_ends_at e)
  && existsb (fun id => bool_decide (id ∈ whole_resources e)) (whole_resources d).

(** One restored booking; [later] are those after it in Task order. *)
Definition restored_booking `{MetricsCodec} (history : list CostPolicyRegistry)
    (r : ScheduledTaskReservation) (later : list ScheduledTaskReservation)
  : option (Result unit ControlError) :=
  let d := st_decision r in
  let task := dc_task_ref d in
  match (let? _h := validate_scheduling_cost_history c history (tr_mission_id task)
                      (dc_policy_cost_evidence d) in
         match dc_ends_at d with
         | None => Err (InvalidProposal "checkpoint scheduling reservation has no bounded end")
         | Some finish =>
             if (finish <=? dc_starts_at d)%N
                || is_some_and (fun latest => (latest <? dc_starts_at d)%N) (dc_latest_activation_at d)
                || (cp_calendar_version c <? dc_snapshot_version d)%N
             then Err (InvalidProposal
               "checkpoint scheduling reservation has an invalid interval or generation") else Ok tt
         end) with
  | Err e => Some (Err e)
  | Ok _ =>
      g ← cp_groups c !! st_group_id r;
      if negb (bool_decide (eg_mission_id g = tr_mission_id task))
      then Some (Err (InvalidProposal "checkpoint scheduling reservation crosses Mission authority")) else
      t ← task_execution g task;
      Some (let? _g := validate_decision_against_group g d in
            let expected := List.filter (fun a => is_none (recovery_unbound_role g task (as_role_id a)))
                              (current_assignments r) in
            if negb (length (te_assignments t) =? 0)%nat
               && negb (bool_decide (te_assignments t = expected))
            then Err (InvalidProposal
              "checkpoint scheduling decision differs from committed Task bindings") else
            if bool_decide (st_phase r = Scheduled)
               && existsb (exclusive_overlap r)
                    (List.filter (fun l => bool_decide (st_phase l = Scheduled)) later)
            then Err (InvalidProposal "checkpoint contains overlapping future resource reservations")
            else Ok tt)
  end.

Fixpoint restored_bookings `{MetricsCodec} (history : list CostPolicyRegistry)
    (l : list ScheduledTaskReservation) : option (Result unit ControlError) :=
  match l with
  | [] => Some (Ok tt)
  | r :: l' =>
      step ← restored_booking history r l';
      match step with
      | Err e => Some (Err e)
      | Ok _ => restored_bookings history l'
      end
  end.

Definition validate_scheduling_checkpoint_authority `{MetricsCodec} (history : list CostPolicyRegistry)
  : option (Result unit ControlError) :=
  if negb (size (cp_scheduled_tasks c) =? 0)%nat && (cp_calendar_version c =? 0)%N
  then Some (Err (InvalidProposal
    "checkpoint scheduling reservations require a nonzero calendar version")) else
  bookings ← restored_bookings history (btree_values (cp_scheduled_tasks c));
  match bookings with
  | Err e => Some (Err e)
  | Ok _ => validate_capacity_calendar_history
  end.
End Ledgers.
