(* ===== verification/CalendarFacts.v ===== *)
(** * Facts about the calendar

    The operations of the Control plane never extend the calendar: bookings appear only by
    [reserve_scheduled_task].  The snapshot of a booking holds every booking made before, so
    two future bookings with overlapping intervals never share a whole resource nor hold
    conflicting declared geometry; a registry revision keeps it that way. *)

From S2P Require Import Prelude Identity Execution StateModel Session Resource RelationSpec DecisionPolicy.
From S2P Require Import SchedulerPolicy Sorting Quota NodeIdentity NodeState Capacity.
From S2P Require Import Mission TaskExecution Group ControlPlane Actors GroupLifecycle GroupBinding.
From S2P Require Import GroupRelease RoleRecovery ControlSteps SchedulerFacts CapacityFacts.
From S2P Require Import Topology Calendar Scheduler.

(** ** Operations that leave the calendar, the identities and the tenants *)

Definition same_calendar (c c' : ControlPlane) : Prop :=
  cp_scheduled_tasks c' = cp_scheduled_tasks c /\
  cp_resource_topology_registry c' = cp_resource_topology_registry c /\
  cp_node_identity_registry c' = cp_node_identity_registry c /\
  cp_mission_tenants c' = cp_mission_tenants c.

#[export] Instance same_calendar_preorder : PreOrder same_calendar.
Proof. split; [by repeat split|]. intros a b d (? & ? & ? & ?) (? & ? & ? & ?). split_and!; congruence. Qed.

Lemma same_calendar_foldl {A} (f : ControlPlane -> A -> ControlPlane) l c :
  (forall c x, same_calendar c (f c x)) -> same_calendar c (foldl f c l).
Proof.
  intros Hf. revert c. induction l as [|x l IH]; intros c; simpl; [reflexivity|].
  etrans; [apply (Hf c x)|apply IH].
Qed.

(** A step that leaves the calendar, whatever its result. *)
Definition keeps {A} (c : ControlPlane) (s : ControlStep A) : Prop :=
  forall c' r, s = Some (c', r) -> same_calendar c c'.

Ltac kept := intros; simplify_eq; by repeat split.

Section Frames.
Context `{Serde}.

Lemma commit_membership_keeps {A} c0 c group g e (value : A) :
  same_calendar c0 c -> keeps c0 (commit_membership group g e value c).
Proof.
  intros Hs c' r. unfold commit_membership. intros ([g1 [|]] & _ & E)%bind_Some; simplify_eq; exact Hs.
Qed.

Lemma advance_task_keeps c group task from reason to e : keeps c (advance_task c group task from reason to e).
Proof.
  intros c' r. unfold advance_task, refuse.
  match goal with |- match ?x with _ => _ end = _ -> _ => destruct x as [[g t]|] end; [|kept].
  destruct (negb _); kept.
Qed.

Lemma advance_group_keeps c group from check to e : keeps c (advance_group c group from check to e).
Proof.
  intros c' r. unfold advance_group, refuse. destruct (find_group c group) as [g|]; [|kept].
  destruct (negb _); [kept|]. destruct (check g); kept.
Qed.

Lemma release_task_bindings_keeps c group task ids : keeps c (release_task_bindings c group task ids).
Proof.
  intros c' r. unfold release_task_bindings, refuse.
  destruct (task_release_check _ _ _ _) as [[g t]|]; [|kept]. by apply commit_membership_keeps.
Qed.

Lemma release_context_bindings_keeps c group context : keeps c (release_context_bindings c group context).
Proof.
  intros c' r. unfold release_context_bindings, refuse. destruct (find_group c group) as [g|]; [|kept].
  destruct (try_for _ _); [|kept]. by apply commit_membership_keeps.
Qed.

Lemma release_role_binding_keeps c group role : keeps c (release_role_binding c group role).
Proof.
  intros c' r. unfold release_role_binding, refuse. destruct (blocked_group c group) as [g|]; [|kept].
  destruct (find_assignment _ _ _) as [[index a]|]; [|kept]. destruct (try_for _ _); [|kept].
  by apply commit_membership_keeps.
Qed.

Lemma release_task_role_binding_keeps c group task role : keeps c (release_task_role_binding c group task role).
Proof.
  intros c' r. unfold release_task_role_binding, refuse.
  destruct (task_role_release_check _ _ _ _) as [[[[g t] index] a]|]; [|kept].
  by apply commit_membership_keeps.
Qed.

Lemma release_group_keeps c group : keeps c (release_group c group).
Proof.
  intros c' r. unfold release_group, refuse.
  intros ([[[g resources] pending]|] & _ & E)%bind_Some; [|kept].
  revert E. by apply commit_membership_keeps.
Qed.

Lemma create_mission_group_keeps c group p : keeps c (create_mission_group c group p).
Proof.
  intros c' r. unfold create_mission_group, refuse. destruct (contains_key _ _); [kept|].
  intros (semantics & _ & E)%bind_Some.
  destruct (register_mission_binding_semantics _ _ _) as [c1|] eqn:Hr; [|kept].
  apply bind_Some in E as (g & _ & E). simplify_eq.
  etrans; [|apply same_calendar_foldl; by repeat split].
  revert Hr. unfold register_mission_binding_semantics.
  destruct (mission_binding_semantics _ _); [destruct (bool_decide _)|]; kept.
Qed.

Lemma commit_resource_quotas_keeps c mission demands c1 :
  commit_resource_quotas c mission demands = Ok c1 -> same_calendar c c1.
Proof.
  unfold commit_resource_quotas. destruct (_ =? 0)%nat; [kept|]. intros Hc. inv_check Hc. kept.
Qed.

Lemma commit_keeps c group p capacity now : keeps c (commit_for_group_validated c group p capacity now).
Proof.
  intros c' r. unfold commit_for_group_validated, refuse. destruct (commit_check _ _ _ _ _); [|kept].
  intros ([l|] & _ & E)%bind_Some; [|kept]. apply bind_Some in E as (entries & _ & E).
  destruct (try_for _ entries); simpl in E; [|kept].
  destruct (commit_ledgers c p capacity) as [c1|] eqn:Hl; [|kept].
  assert (same_calendar c c1) as Hs.
  { revert Hl. unfold commit_ledgers. destruct capacity as [[ledger quota]|].
    - destruct (u64_checked_add _ _); kept.
    - destruct (proposal_quota_demands p); [|done]. apply commit_resource_quotas_keeps. }
  simplify_eq. exact Hs.
Qed.

Lemma bind_reservation_keeps c resource group task role :
  same_calendar c (bind_reservation c resource group task role).
Proof. unfold bind_reservation. by destruct (cp_reservations c !! resource). Qed.

Lemma bind_keeps c group plan : keeps c (bind_task_execution_validated c group plan).
Proof.
  intros c' r. unfold bind_task_execution_validated, refuse.
  destruct (bind_check c group plan) as [[[g t] actors]|]; [|kept].
  intros ([[]|] & _ & E)%bind_Some; [|kept]. apply bind_Some in E as ([c2 res] & Hc & E).
  apply (commit_membership_keeps c) in Hc.
  2: { apply same_calendar_foldl. intros. apply bind_reservation_keeps. }
  destruct res; simplify_eq; [|done]. etrans; [exact Hc|]. apply same_calendar_foldl.
  intros d entry. unfold record_actor. by destruct (contains_key _ _).
Qed.

Lemma begin_role_recovery_keeps c need : keeps c (begin_role_recovery c need).
Proof.
  intros c' r. unfold begin_role_recovery, refuse.
  match goal with |- match ?x with _ => _ end = _ -> _ => destruct x as [task_scoped|] end; [|kept].
  intros ([c1 b] & Hb & E)%bind_Some. apply advance_group_keeps in Hb.
  destruct b; [|by simplify_eq]. apply bind_Some in E as ([c2 b] & Hr & E).
  assert (same_calendar c1 c2) as Hs.
  { destruct task_scoped; [by eapply release_task_role_binding_keeps|by eapply release_role_binding_keeps]. }
  destruct b; simplify_eq; by transitivity c1.
Qed.

Lemma begin_execution_recovery_keeps c group task role node :
  keeps c (begin_execution_recovery c group task role node).
Proof.
  intros c' r. unfold begin_execution_recovery, refuse.
  destruct (validate_role_recovery_release c _); [|kept].
  intros ([c1 b] & Hb & E)%bind_Some. apply begin_role_recovery_keeps in Hb. by destruct b; simplify_eq.
Qed.

Lemma commit_role_recovery_keeps `{NodeView} c requirement p now :
  keeps c (commit_role_recovery c requirement p now).
Proof.
  intros c' r. unfold commit_role_recovery, refuse.
  destruct (recovery_commit_check c requirement p now) as [[[previous quantity] demands]|]; [|kept].
  match goal with |- context [match ?x with Ok _ => _ | Err _ => _ end] => destruct x as [c1|] eqn:El end;
    [|kept].
  intros E. simplify_eq. transitivity c1.
  - destruct quantity as [[]|]; [by simplify_eq; repeat split|by eapply commit_resource_quotas_keeps].
  - etrans; [apply (same_calendar_foldl (reserve_replacement p now) (rp_replacement_resource_ids p))|done].
    intros d resource. unfold reserve_replacement. destruct (is_some _); [apply bind_reservation_keeps|done].
Qed.

Lemma abort_keeps c k : keeps c (abort_role_recovery_commitment c k).
Proof.
  intros c' r. unfold abort_role_recovery_commitment, refuse.
  match goal with |- context [match ?x with Ok _ => _ | Err _ => _ end] => destruct x end; kept.
Qed.

Lemma supersede_keeps c source target source_plan target_plan :
  keeps c (supersede_mission_group c source target source_plan target_plan).
Proof.
  intros c' r. unfold supersede_mission_group, refuse. intros ([[]|] & _ & E)%bind_Some; [|kept].
  apply bind_Some in E as (g & _ & E). destruct (revision_refused _ _ _ _ _ _); [kept|].
  destruct (try_for _ _); [|kept]. apply bind_Some in E as ([c1 created] & Hcr & E).
  apply create_mission_group_keeps in Hcr. destruct created as [gt|]; [|kept].
  apply bind_Some in E as ([[]|] & _ & E); [|kept]. apply bind_Some in E as ([c4 res] & Hrel & E).
  apply release_group_keeps in Hrel. destruct res; [|kept]. simplify_eq.
  etrans; [exact Hcr|]. etrans; [|exact Hrel]. by repeat split.
Qed.
End Frames.

(** ** The calendar only loses bookings *)

Record books_less (c c' : ControlPlane) : Prop := {
  bl_registry : cp_resource_topology_registry c' = cp_resource_topology_registry c;
  bl_booking : forall task r', cp_scheduled_tasks c' !! task = Some r' ->
    exists r, cp_scheduled_tasks c !! task = Some r /\ st_decision r' = st_decision r /\
      (st_phase r' = Scheduled -> st_phase r = Scheduled)
}.

(** With the identities and the tenants unchanged. *)
Record shrinks (c c' : ControlPlane) : Prop := {
  sh_identity : cp_node_identity_registry c' = cp_node_identity_registry c;
  sh_tenants : cp_mission_tenants c' = cp_mission_tenants c;
  sh_books : books_less c c'
}.

Lemma shrinks_same c c' : same_calendar c c' -> shrinks c c'.
Proof. intros (Es & Er & Ei & Et). split; [done..|]. split; [done|]. rewrite Es. eauto. Qed.

Lemma shrinks_trans a b d : shrinks a b -> shrinks b d -> shrinks a d.
Proof.
  intros [Ei1 Et1 [Er1 Hb1]] [Ei2 Et2 [Er2 Hb2]]. split; [congruence..|]. split; [congruence|].
  intros task r'' Hr''.
  destruct (Hb2 task r'' Hr'') as (r' & Hr' & Ed' & Hp'). destruct (Hb1 task r' Hr') as (r & Hr & Ed & Hp).
  exists r. split_and!; [done|congruence|auto].
Qed.

(** A booking replaced by one with the same decision and no earlier phase. *)
Lemma shrinks_insert c m version task r r' :
  cp_scheduled_tasks c !! task = Some r -> m = <[task := r']> (cp_scheduled_tasks c) ->
  st_decision r' = st_decision r -> (st_phase r' = Scheduled -> st_phase r = Scheduled) ->
  shrinks c (set_calendar m version c).
Proof.
  intros Hr -> Ed Hp. split; [done..|]. split; [done|]. simpl. intros other x.
  destruct (decide (other = task)) as [->|Hne];
    [rewrite lookup_insert_eq; intros; simplify_eq; eauto|rewrite lookup_insert_ne by done; eauto].
Qed.

Lemma shrinks_subset c m version : m ⊆ cp_scheduled_tasks c -> shrinks c (set_calendar m version c).
Proof. intros Hm. split; [done..|]. split; [done|]. simpl. intros task r Hr. exists r. by split; [eapply lookup_weaken|]. Qed.

Lemma activate_shrinks c task : shrinks c (activate_scheduled_task c task).
Proof.
  unfold activate_scheduled_task. destruct (scheduled_task c task) as [r|] eqn:Hr; [|by apply shrinks_same].
  destruct (bool_decide _); [|by apply shrinks_same]. by eapply shrinks_insert.
Qed.

Lemma consume_shrinks c task : shrinks c (consume_scheduled_task c task).
Proof.
  unfold consume_scheduled_task. destruct (scheduled_task c task) as [r|]; [|by apply shrinks_same].
  apply shrinks_subset, delete_subseteq.
Qed.

Lemma invalidate_shrinks c task reason : shrinks c (invalidate_scheduled_task c task reason).
Proof.
  unfold invalidate_scheduled_task. destruct (scheduled_task c task) as [r|] eqn:Hr; [|by apply shrinks_same].
  destruct (bool_decide _); [by apply shrinks_same|]. by eapply shrinks_insert.
Qed.

Lemma cancel_shrinks c mission : shrinks c (cancel_scheduled_mission c mission).1.
Proof. unfold cancel_scheduled_mission. case_match; apply shrinks_subset, map_filter_subseteq. Qed.

Lemma preempt_shrinks c task version now c' r : preempt_future_task c task version now = Some (c', r) ->
  shrinks c c'.
Proof.
  unfold preempt_future_task, refuse. intros. repeat case_match; simplify_eq; try by apply shrinks_same.
  apply shrinks_subset, delete_subseteq.
Qed.

Lemma activate_task_shrinks c group task now c' r : activate_task_execution c group task now = Some (c', r) ->
  shrinks c c'.
Proof.
  unfold activate_task_execution, refuse.
  destruct (activation_check _ _ _ _) as [[[schedule g] t]|]; [|intros; simplify_eq; by apply shrinks_same].
  destruct schedule; intros; simplify_eq; [|by apply shrinks_same].
  match goal with |- shrinks _ (log_event _ (activate_scheduled_task ?c1 _)) => apply (shrinks_trans _ c1) end;
    [by apply shrinks_same|].
  eapply shrinks_trans; [apply activate_shrinks|]. by apply shrinks_same.
Qed.

Lemma record_replacement_shrinks k c : shrinks c (record_replacement k c).
Proof.
  unfold record_replacement. destruct (cp_resource_topology_registry c) as [registry|]; [|by apply shrinks_same].
  destruct (scheduled_task c (rc_task_ref k)) as [r|] eqn:Hr; [|by apply shrinks_same].
  by eapply shrinks_insert; [exact Hr|reflexivity| |].
Qed.

Lemma rebind_shrinks `{Serde} c k c' r : rebind_role_validated c k = Some (c', r) -> shrinks c c'.
Proof.
  unfold rebind_role_validated, refuse.
  destruct (rebind_check c k) as [[[g u] takeover]|]; simpl; [|intros; simplify_eq; by apply shrinks_same].
  destruct (rebound_group g u k) as [g1|]; simpl; [|intros; simplify_eq; by apply shrinks_same].
  intros ([g2 res] & _ & E)%bind_Some. destruct res; simplify_eq; [|by apply shrinks_same].
  eapply shrinks_trans; [apply shrinks_same|eapply shrinks_trans; [apply record_replacement_shrinks|]];
    [|by apply shrinks_same].
  by destruct takeover as [[]|].
Qed.

(** A registered tenant is the only change of the tenants. *)
Lemma register_mission_tenant_effect c mission tenant c' r :
  register_mission_tenant c mission tenant = Some (c', r) ->
  (c' = c /\ exists e, r = Err e) \/
  (c' = set_missions (cp_physical_entity_registry c) (cp_registry_provenance c)
          (cp_mission_binding_semantics c) (<[mission := tenant]> (cp_mission_tenants c)) c /\
   (forall owner, mission_tenant c mission = Some owner -> owner = tenant) /\ r = Ok tt).
Proof.
  unfold register_mission_tenant, refuse. destruct (_ || _); [intros; simplify_eq; left; eauto|].
  destruct (is_some_and _ _) eqn:Hs; intros; simplify_eq; [left; eauto|]. right. split_and!; [done| |done].
  intros owner Ho. rewrite Ho in Hs. simpl in Hs. apply negb_false_iff, String.eqb_eq in Hs. done.
Qed.

Definition registers_tenant (op : ControlOp) : option (MissionId * string) :=
  match op with OpTenant mission tenant => Some (mission, tenant) | _ => None end.

Lemma apply_op_shrinks `{Serde} c op c' : apply_op c op = Some c' -> registers_tenant op = None -> shrinks c c'.
Proof.
  intros E Hn. destruct op; simplify_eq; simpl in E; first [apply after_Some in E as [r E]|injection E as <-].
  1-3: apply shrinks_same; revert E;
    unfold set_actor_node_constraint, set_actor_candidate_restriction,
      install_physical_entity_registry, refuse.
  3: { match goal with |- context [match ?x with Ok _ => _ | Err _ => _ end] => destruct x end; kept. }
  1-2: intros; repeat case_match; simplify_eq; by repeat split.
  - apply consume_shrinks.
  - apply invalidate_shrinks.
  - apply cancel_shrinks.
  - by eapply preempt_shrinks.
  - by eapply shrinks_same, create_mission_group_keeps.
  - by eapply shrinks_same, advance_task_keeps.
  - by eapply shrinks_same, commit_keeps.
  - by eapply shrinks_same, bind_keeps.
  - by eapply activate_task_shrinks.
  - by eapply shrinks_same, advance_task_keeps.
  - by eapply shrinks_same, advance_task_keeps.
  - by eapply shrinks_same, advance_task_keeps.
  - by eapply shrinks_same, advance_task_keeps.
  - by eapply shrinks_same, release_task_bindings_keeps.
  - by eapply shrinks_same, release_context_bindings_keeps.
  - by eapply shrinks_same, advance_group_keeps.
  - by eapply shrinks_same, advance_group_keeps.
  - by eapply shrinks_same, advance_group_keeps.
  - by eapply shrinks_same, advance_group_keeps.
  - by eapply shrinks_same, release_group_keeps.
  - by eapply shrinks_same, release_role_binding_keeps.
  - by eapply shrinks_same, release_task_role_binding_keeps.
  - by eapply shrinks_same, begin_role_recovery_keeps.
  - by eapply shrinks_same, begin_execution_recovery_keeps.
  - by eapply shrinks_same, commit_role_recovery_keeps.
  - by eapply shrinks_same, abort_keeps.
  - by eapply rebind_shrinks.
  - by eapply shrinks_same, supersede_keeps.
Qed.

Lemma control_step_books_less `{Serde} c c' : control_step c c' -> books_less c c'.
Proof.
  intros [op E]. destruct (registers_tenant op) as [[mission tenant]|] eqn:Hop.
  - destruct op; simplify_eq. apply after_Some in E as [r E].
    apply register_mission_tenant_effect in E as [[-> _]|[-> _]]; split; simpl; eauto.
  - by apply (apply_op_shrinks _ op).
Qed.

(** ** What a snapshot holds *)

Lemma fold_opt_keeps {A B} (P : B -> Prop) (f : B -> A -> option B) l b b' :
  (forall b x b', f b x = Some b' -> P b -> P b') -> fold_opt f b l = Some b' -> P b -> P b'.
Proof.
  intros Hf. revert b. induction l as [|x l IH]; intros b; simpl; [by intros [= ->]|].
  intros (b1 & Hx & Hl)%bind_Some Hb. eauto.
Qed.

Lemma fold_opt_reaches {A B} (P : B -> Prop) (f : B -> A -> option B) l x b b' :
  x ∈ l -> (forall b b', f b x = Some b' -> P b') -> (forall b y b', f b y = Some b' -> P b -> P b') ->
  fold_opt f b l = Some b' -> P b'.
Proof.
  intros Hx Hs Hk. revert b. induction Hx as [x l|x y l Hx IH]; intros b; simpl;
    intros (b1 & Hb1 & Hl)%bind_Some; [|by eapply IH].
  eapply fold_opt_keeps; [exact Hk|exact Hl|by eapply Hs].
Qed.

Lemma elem_of_enumerate {A} (l : list A) i x : (i, x) ∈ enumerate l <-> l !! i = Some x.
Proof.
  unfold enumerate. rewrite list_elem_of_lookup. split.
  - intros (j & Hj). rewrite list_lookup_imap in Hj. apply fmap_Some in Hj as (y & Hy & E). by simplify_eq.
  - intros Hx. exists i. by rewrite list_lookup_imap, Hx.
Qed.

(** The interval of a booking, on one of its resources. *)
Definition occupies (id : ResourceId) (d : TaskSchedulingDecision) (o : SchedulingOccupancy) : Prop :=
  oc_resource_id o = id /\ oc_starts_at o = dc_starts_at d /\ oc_ends_at o = dc_ends_at d.

Section Snapshots.
Context `{Serde} (c : ControlPlane).

Abbreviation Acc := (list SchedulingOccupancy * gmap AxisKey (TimestampMs * N))%type.

Definition covered (id : ResourceId) (e : TaskSchedulingDecision) (acc : Acc) : Prop :=
  exists o, o ∈ acc.1 /\ occupies id e o.

Lemma future_demand_app (parents : gset AxisKey) (group : ExecutionGroupId) (d : TaskSchedulingDecision)
    (role : RoleId) (acc : Acc) (item : ResourceId * ResourceRequirement) (acc' : Acc) :
  future_demand c parents group d role acc item = Some acc' ->
  exists new, acc'.1 = (acc.1 ++ new)%list /\
    (is_divisible item.2 = true -> exists o, o ∈ new /\ occupies item.1 d o).
Proof.
  unfold future_demand. destruct acc as [result futures], item as [id demand]. simpl.
  destruct (is_divisible demand); simpl.
  2: { intros [= <-]. exists []. simpl. rewrite app_nil_r. by split. }
  intros (owner & _ & E)%bind_Some. destruct (is_context owner).
  - apply bind_Some in E as (axis & _ & E). apply bind_Some in E as (units & _ & E). simplify_eq.
    eexists. split; [done|]. intros _. eexists. split; [apply list_elem_of_here|done].
  - simplify_eq. eexists. split; [done|]. intros _. eexists. split; [apply list_elem_of_here|done].
Qed.

Lemma future_demand_keeps (parents : gset AxisKey) (group : ExecutionGroupId) (d : TaskSchedulingDecision)
    (role : RoleId) (id : ResourceId) (e : TaskSchedulingDecision) (acc : Acc) (item : ResourceId * ResourceRequirement) (acc' : Acc) :
  future_demand c parents group d role acc item = Some acc' ->
  covered id e acc -> covered id e acc'.
Proof.
  intros (new & E & _)%future_demand_app (o & Ho & Hocc). exists o. split; [|done].
  rewrite E. apply elem_of_app. by left.
Qed.

Lemma future_demands_keeps (parents : gset AxisKey) (id : ResourceId) (e : TaskSchedulingDecision) (acc : Acc) (r : ScheduledTaskReservation) (acc' : Acc) :
  future_demands c parents acc r = Some acc' ->
  covered id e acc -> covered id e acc'.
Proof.
  unfold future_demands. apply fold_opt_keeps. intros b s b'. apply fold_opt_keeps.
  intros b1 item b2. apply future_demand_keeps.
Qed.

Lemma future_demands_hold (parents : gset AxisKey) (acc : Acc) (r : ScheduledTaskReservation) (acc' : Acc)
    (s : RoleSchedulingSelection) (id : ResourceId) (demand : ResourceRequirement) :
  future_demands c parents acc r = Some acc' -> s ∈ dc_selections (st_decision r) ->
  (id, demand) ∈ zip (sel_resource_ids s) (sel_resource_requirements s) -> is_divisible demand = true ->
  covered id (st_decision r) acc'.
Proof.
  unfold future_demands. intros Hf Hs Hd Hdiv.
  eapply (fold_opt_reaches (covered id (st_decision r)));
    [exact Hs| | |exact Hf].
  - intros b b' Hb. eapply (fold_opt_reaches (covered id (st_decision r)));
      [exact Hd| | |exact Hb].
    + intros x x' (new & E & Hn)%future_demand_app. destruct (Hn Hdiv) as (o & Ho & Hocc).
      exists o. split; [|done]. rewrite E. apply elem_of_app. by right.
    + intros x item x'. apply future_demand_keeps.
  - intros b y b'. apply fold_opt_keeps. intros x item x'. apply future_demand_keeps.
Qed.

Lemma quantities_hold ledger now l task r s id demand :
  quantitative_occupancies c ledger now None = Some l ->
  cp_scheduled_tasks c !! task = Some r -> st_phase r = Scheduled ->
  s ∈ dc_selections (st_decision r) ->
  (id, demand) ∈ zip (sel_resource_ids s) (sel_resource_requirements s) -> is_divisible demand = true ->
  exists o, o ∈ l /\ occupies id (st_decision r) o.
Proof.
  unfold quantitative_occupancies. intros (held & _ & (planned & Hp & E)%bind_Some)%bind_Some Hr Hph Hs Hd Hdiv.
  simplify_eq.
  assert (covered id (st_decision r) planned) as (o & Ho & Hocc).
  { eapply (fold_opt_reaches (covered id (st_decision r))); [| | |exact Hp].
    - apply list_elem_of_In, filter_In. split; [apply list_elem_of_In, elem_of_btree_values; by exists task|].
      by rewrite bool_decide_eq_true_2.
    - intros. by eapply future_demands_hold.
    - intros x r' x'. apply future_demands_keeps. }
  exists o. split; [|done]. apply elem_of_app. by left.
Qed.

(** A Scheduled booking in the calendar. *)
Definition booked (task : TaskRef) (r : ScheduledTaskReservation) : Prop :=
  cp_scheduled_tasks c !! task = Some r /\ st_phase r = Scheduled.

Lemma booked_future task r : booked task r -> r ∈ future_reservations c.
Proof.
  intros [Hr Hp]. apply list_elem_of_In, filter_In. split; [apply list_elem_of_In, elem_of_btree_values; eauto|].
  by apply bool_decide_eq_true_2.
Qed.

Lemma whole_occupied now reusable s task r sel i id :
  scheduling_snapshot_excluding c now reusable = Some s -> booked task r ->
  sel ∈ dc_selections (st_decision r) -> sel_resource_ids sel !! i = Some id ->
  is_some_and is_divisible (sel_resource_requirements sel !! i) = false ->
  SchedulingOccupancy_new id (dc_starts_at (st_decision r)) (dc_ends_at (st_decision r)) ∈ ss_occupancies s.
Proof.
  unfold scheduling_snapshot_excluding. intros (l & _ & E)%bind_Some Hb Hsel Hi Hd. simplify_eq. simpl.
  apply elem_of_sort_by, elem_of_app. right. apply elem_of_app. left.
  apply list_elem_of_bind. exists r. split; [|by eapply booked_future].
  apply list_elem_of_bind. exists sel. split; [|done]. unfold booked_whole.
  apply list_elem_of_omap. exists (i, id). split; [by apply elem_of_enumerate|]. simpl. by rewrite Hd.
Qed.

Lemma divisible_occupied now reusable s task r sel id demand :
  scheduling_snapshot_excluding c now reusable = Some s -> booked task r ->
  sel ∈ dc_selections (st_decision r) ->
  (id, demand) ∈ zip (sel_resource_ids sel) (sel_resource_requirements sel) -> is_divisible demand = true ->
  exists o, o ∈ ss_occupancies s /\ occupies id (st_decision r) o.
Proof.
  unfold scheduling_snapshot_excluding. intros (l & Hl & E)%bind_Some [Hr Hp] Hsel Hz Hd. simplify_eq. simpl.
  destruct (quantities_hold _ _ _ _ _ _ _ _ Hl Hr Hp Hsel Hz Hd) as (o & Ho & Hocc).
  exists o. split; [|done]. apply elem_of_sort_by, elem_of_app. right. apply elem_of_app. by right.
Qed.

(** Every booked resource is covered for the interval of its booking. *)
Lemma booking_occupied now reusable s task r id :
  scheduling_snapshot_excluding c now reusable = Some s -> booked task r ->
  id ∈ decision_resources (st_decision r) ->
  exists o, o ∈ ss_occupancies s /\ occupies id (st_decision r) o.
Proof.
  intros Hs Hb (sel & Hid & Hsel)%list_elem_of_bind. apply list_elem_of_lookup in Hid as [i Hi].
  destruct (is_some_and is_divisible (sel_resource_requirements sel !! i)) eqn:Hd.
  - apply is_some_and_true in Hd as (demand & Hdem & Hdiv). eapply divisible_occupied; try done.
    apply list_elem_of_lookup. exists i. by rewrite lookup_zip_with, Hi, Hdem.
  - eexists. split; [by eapply whole_occupied|done].
Qed.

(** Context budgets leave occupancies, topology and version. *)
Lemma capacity_context_frame original execution group task now s role s' :
  capacity_context c original execution group task now s role = Some (Ok s') ->
  ss_occupancies s' = ss_occupancies s /\ ss_resource_topology s' = ss_resource_topology s /\
  ss_version s' = ss_version s.
Proof.
  unfold capacity_context. destruct (role_requirement original task role) as [q|]; [|done].
  destruct (negb _); [by intros [= <-]|]. destruct (List.find _ _) as [demand|]; [|by intros [= <-]].
  destruct (capacity_owner _ _ _ _) as [owner|]; [|done]. intros (axis & _ & E)%bind_Some.
  destruct (context_capacity_units _ _ _ _) as [units|]; [|done].
  destruct (try_fold _ _ _) as [bound|]; simpl in E; [|done]. by simplify_eq.
Qed.

Lemma capacity_contexts_frame original execution group task now roles : forall s s',
  capacity_contexts c original execution group task now roles s = Some (Ok s') ->
  ss_occupancies s' = ss_occupancies s /\ ss_resource_topology s' = ss_resource_topology s /\
  ss_version s' = ss_version s.
Proof.
  induction roles as [|role roles IH]; intros s s'; simpl; [by intros [= <-]|].
  intros ([s1|] & Hs1 & E)%bind_Some; [|done].
  apply capacity_context_frame in Hs1 as (Eo & Et & Ev). apply IH in E as (Eo' & Et' & Ev').
  split_and!; congruence.
Qed.

Lemma snapshot_for_task_frame now group task s :
  scheduling_snapshot_for_task c now group task = Some (Ok s) ->
  exists s0 reusable, scheduling_snapshot_excluding c now reusable = Some s0 /\
    ss_occupancies s = ss_occupancies s0 /\
    ss_resource_topology s = cp_resource_topology_registry c /\ ss_version s = cp_calendar_version c.
Proof.
  unfold scheduling_snapshot_for_task, with_capacity_contexts.
  destruct (cp_groups c !! group) as [g|]; [|done]. destruct (task_execution g task) as [t|]; [|done].
  intros (s0 & Hs0 & E)%bind_Some. apply capacity_contexts_frame in E as (Eo & Et & Ev).
  eexists s0, _. split; [exact Hs0|]. rewrite Eo, Et, Ev.
  unfold scheduling_snapshot_excluding in Hs0. apply bind_Some in Hs0 as (l & _ & E). by simplify_eq.
Qed.
End Snapshots.

(** ** Overlap and availability *)

(** The two overlap tests of the code agree. *)
Lemma overlaps_intervals left left_end right right_end :
  overlaps left left_end right right_end = intervals_overlap left left_end right right_end.
Proof.
  unfold overlaps. destruct left_end, right_end; simpl; rewrite ?andb_true_r; solve [done|apply andb_comm].
Qed.

Lemma intervals_overlap_comm left left_end right right_end :
  intervals_overlap left left_end right right_end = intervals_overlap right right_end left left_end.
Proof. destruct left_end, right_end; simpl; solve [done|apply andb_comm]. Qed.

Lemma outside_overlap start finish o :
  outside_interval start finish o = negb (intervals_overlap start finish (oc_starts_at o) (oc_ends_at o)).
Proof.
  unfold outside_interval. destruct finish as [e|], (oc_ends_at o) as [f|]; simpl; try done.
  - rewrite negb_andb, <- !N.leb_antisym. by rewrite orb_comm.
  - by rewrite orb_false_r, <- N.leb_antisym.
  - by rewrite <- N.leb_antisym.
Qed.

Lemma selected_occupancy_keeps s start e sel o l acc :
  o ∈ acc.1 -> o ∈ (foldl (selected_occupancy s start e sel) acc l).1.
Proof.
  revert acc. induction l as [|[i id] l IH]; intros [result parents] Ho; simpl; [done|]. apply IH.
  simpl in Ho. unfold selected_occupancy.
  repeat case_match; simpl; repeat (apply elem_of_app; left); done.
Qed.

Lemma selected_occupancies_keeps s sels start e o :
  o ∈ ss_occupancies s -> o ∈ selected_occupancies s sels start e.
Proof.
  unfold selected_occupancies. intros Ho.
  assert (o ∈ (ss_occupancies s, (∅ : gset string)).1) as Hacc by done. revert Hacc.
  generalize (ss_occupancies s, (∅ : gset string)). induction sels as [|sel sels IH]; intros acc Hacc; [done|].
  simpl. apply IH. by apply selected_occupancy_keeps.
Qed.

Lemma collect_changes_whole start e l : forall changes o, o ∈ l -> oc_units o = None ->
  outside_interval start e o = false -> collect_changes start e changes l = None.
Proof.
  induction l as [|x l IH]; intros changes o Ho Hu Hout; [by apply not_elem_of_nil in Ho|].
  apply elem_of_cons in Ho as [<-|Ho]; simpl; [by rewrite Hout, Hu|].
  destruct (outside_interval start e x); [by eapply IH|]. destruct (oc_units x); [by eapply IH|done].
Qed.

Section Available.
Context (s : SchedulingSnapshot) (role : RoleId) (resource : Resource) (demand : ResourceRequirement).
Context (start : TimestampMs) (finish : option TimestampMs) (prior : list RoleSchedulingSelection).
Context (Hav : capacity_available s role resource demand start finish prior = true).

Lemma available_selected o :
  rr_allocation_mode demand = Exclusive -> o ∈ selected_occupancies s prior start finish ->
  oc_resource_id o = res_id resource -> oc_owner_axis o = None -> oc_units o = None ->
  intervals_overlap start finish (oc_starts_at o) (oc_ends_at o) = false.
Proof.
  intros Hm Ho Hid Hax Hu. revert Hav. unfold capacity_available.
  destruct (is_some_and _ _); [done|]. rewrite bool_decide_eq_true_2 by done.
  unfold interval_available. destruct (_ || _); [done|]. intros Hc.
  apply negb_true_iff. rewrite <- outside_overlap. apply not_false_iff_true. intros Hout.
  erewrite collect_changes_whole in Hc; [done| |exact Hu|exact Hout].
  apply list_elem_of_In, filter_In. split; [by apply list_elem_of_In|].
  unfold on_axis. by rewrite !bool_decide_eq_true_2.
Qed.

Lemma available_whole o :
  rr_allocation_mode demand = Exclusive -> o ∈ ss_occupancies s -> oc_resource_id o = res_id resource ->
  oc_owner_axis o = None -> oc_units o = None ->
  intervals_overlap start finish (oc_starts_at o) (oc_ends_at o) = false.
Proof. intros Hm Ho. apply available_selected; [done|by apply selected_occupancies_keeps]. Qed.

Lemma available_geometry registry entry o other :
  ss_resource_topology s = Some registry -> topology_entry registry (res_id resource) = Some entry ->
  o ∈ ss_occupancies s -> oc_resource_id o <> res_id resource ->
  intervals_overlap start finish (oc_starts_at o) (oc_ends_at o) = true ->
  topology_entry registry (oc_resource_id o) = Some other ->
  ResourceTopologyEntry_conflicts entry other = false.
Proof.
  intros Et Ee Ho Hne Hover Eo. revert Hav. unfold capacity_available. rewrite Et. simpl.
  destruct (topology_blocks _ _ _ _ _) eqn:Hb; [done|]. intros _. revert Hb. unfold topology_blocks.
  rewrite Ee. intros [_ Hb]%orb_false_iff. apply not_true_iff_false. intros Hc.
  apply not_true_iff_false in Hb. apply Hb, existsb_exists. exists o.
  split; [by apply list_elem_of_In, selected_occupancies_keeps|].
  rewrite bool_decide_eq_false_2, overlaps_intervals, Hover, Eo by done. done.
Qed.
End Available.

(** ** What an accepted decision passed *)

Lemma validate_decision_selection g d sel :
  validate_decision_against_group g d = Ok tt -> sel ∈ dc_selections d ->
  exists requirement, role_requirement g (dc_task_ref d) (sel_role_id sel) = Some requirement /\
    selection_shape_differs (resource_requirements requirement) sel = false.
Proof.
  unfold validate_decision_against_group. destruct (task_execution _ _) as [t|]; [|done].
  destruct (_ || _) eqn:Hb; [done|]. intros _ Hsel. apply orb_false_iff in Hb as [_ Hb].
  destruct (fold_opt _ _ _) as [modes|] eqn:Hf; [|done]. clear Hb. revert Hf.
  generalize (∅ : gmap ResourceId ResourceAllocationMode).
  induction Hsel as [x l|x y l Hsel IH]; intros m; simpl; intros (m1 & Hx & Hl)%bind_Some; [|by eapply IH].
  unfold select_modes in Hx. apply bind_Some in Hx as (requirement & Hq & Hx). exists requirement.
  split; [done|]. by destruct (selection_shape_differs _ x).
Qed.

Lemma shape_lengths resources sel : selection_shape_differs resources sel = false ->
  length (sel_resource_ids sel) = length resources.
Proof.
  unfold selection_shape_differs. intros Hd. repeat (apply orb_false_iff in Hd as [Hd ?]).
  rename select (negb (length (sel_resource_ids sel) =? _)%nat = false) into Hl.
  by apply negb_false_iff, Nat.eqb_eq in Hl.
Qed.

(** The demand behind a resource the selection takes whole. *)
Lemma shape_exclusive resources sel i demand :
  selection_shape_differs resources sel = false -> resources !! i = Some demand ->
  is_none_or (fun d => bool_decide (rr_allocation_mode d = Exclusive)) (sel_resource_requirements sel !! i) = true ->
  rr_allocation_mode demand = Exclusive.
Proof.
  unfold selection_shape_differs. intros Hd Hi He. repeat (apply orb_false_iff in Hd as [Hd ?]).
  destruct (existsb is_divisible resources) eqn:Hs; simpl in Hd.
  - repeat (apply orb_false_iff in Hd as [Hd ?]).
    apply negb_false_iff, bool_decide_eq_true in Hd. rewrite Hd, Hi in He. by apply bool_decide_eq_true in He.
  - destruct (rr_allocation_mode demand) eqn:Hm; [done|]. apply not_true_iff_false in Hs. destruct Hs.
    apply existsb_exists. exists demand. split; [by eapply list_elem_of_In, list_elem_of_lookup_2|].
    unfold is_divisible. by apply bool_decide_eq_true_2.
Qed.

Lemma capacity_selections_ok `{NodeView} c s group d l : forall prior sel,
  capacity_selections c s group d prior l = Some (Ok tt) -> sel ∈ l ->
  exists before node g requirement, nv_node (sel_node_id sel) = Some node /\ cp_groups c !! group = Some g /\
    role_requirement g (dc_task_ref d) (sel_role_id sel) = Some requirement /\
    try_for (demand_check s d node before (sel_role_id sel))
      (zip (sel_resource_ids sel) (resource_requirements requirement)) = Ok tt.
Proof.
  induction l as [|x l IH]; intros prior sel; simpl; [by intros _ ?%not_elem_of_nil|].
  destruct (nv_node (sel_node_id x)) as [node|] eqn:Hn; [|done].
  destruct (cp_groups c !! group) as [g|] eqn:Hg; [|done].
  intros (q & Hq & E)%bind_Some. destruct (try_for _ _) as [[]|] eqn:Ht; [|done].
  intros [->|Hsel]%elem_of_cons; [by exists prior, node, g, q|by eapply IH].
Qed.

Lemma demand_check_ok s d node before role item : demand_check s d node before role item = Ok tt ->
  exists resource, res_id resource = item.1 /\
    capacity_available s role resource item.2 (dc_starts_at d) (dc_ends_at d) before = true.
Proof.
  unfold demand_check. destruct (find_resource _ item.1) as [resource|] eqn:Hf; [|done].
  destruct (capacity_available _ _ _ _ _ _ _) eqn:Ha; [|done]. intros _. exists resource. split; [|done].
  apply List.find_some in Hf as [_ Hf]. by bool_facts.
Qed.

(** ** Admission *)

Section Reserve.
Context `{Serde, NodeView, MetricsCodec} (c : ControlPlane) (history : list CostPolicyRegistry).
Context (candidates : CandidateSet) (group : ExecutionGroupId) (d : TaskSchedulingDecision) (now : TimestampMs).

(** The checks an accepted decision passed. *)
Record admitted (s : SchedulingSnapshot) (g : ExecutionGroup) : Prop := {
  ad_check : booking_check c history candidates group d now = Ok g;
  ad_selections : selection_checks c g (dc_task_ref d) now (dc_selections d) = Some (Ok tt);
  ad_version : (cp_calendar_version c + 1 <= u64_max)%N;
  ad_snapshot : scheduling_snapshot_for_task c now group (dc_task_ref d) = Some (Ok s);
  ad_topology : validate_topology_decision c d = Ok tt;
  ad_capacity : validate_capacity_decision c s group d = Some (Ok tt)
}.

Definition booked_plane : ControlPlane :=
  set_calendar (<[dc_task_ref d := ScheduledTaskReservation_new group d]> (cp_scheduled_tasks c))
    (cp_calendar_version c + 1) c.

Lemma reserve_inv c' r : reserve_scheduled_task c history candidates group d now = Some (c', r) ->
  (c' = c /\ exists e, r = Err e) \/
  (c' = booked_plane /\ r = Ok (ScheduledTaskReservation_new group d) /\ exists s g, admitted s g).
Proof.
  unfold reserve_scheduled_task, refuse.
  destruct (booking_check _ _ _ _ _ _) as [g|] eqn:Hc; [|intros; simplify_eq; eauto].
  intros ([[]|] & Hs & E)%bind_Some; [|simplify_eq; eauto].
  destruct (u64_checked_add _ _) as [next|] eqn:Hn; [|simplify_eq; eauto].
  apply bind_Some in E as ([s|] & Hsn & E); [|simplify_eq; eauto].
  destruct (validate_topology_decision c d) as [[]|] eqn:Ht; [|simplify_eq; eauto].
  apply bind_Some in E as ([[]|] & Hcap & E); [|simplify_eq; eauto].
  apply u64_checked_add_Some in Hn as [-> Hle]. simplify_eq. right. unfold booked_plane. eauto 10 using Build_admitted.
Qed.

Lemma booking_check_facts g : booking_check c history candidates group d now = Ok g ->
  dc_snapshot_version d = cp_calendar_version c /\ cp_scheduled_tasks c !! dc_task_ref d = None /\
  (exists finish, dc_ends_at d = Some finish /\ (dc_starts_at d < finish)%N) /\
  (forall latest, dc_latest_activation_at d = Some latest -> (dc_starts_at d <= latest)%N) /\
  (now <= dc_starts_at d)%N /\ cp_groups c !! group = Some g /\
  validate_decision_against_group g d = Ok tt.
Proof.
  unfold booking_check, find_group. destruct (validate_scheduling_cost_history _ _ _ _); simpl; [|done].
  destruct (negb (_ =? _)%N) eqn:Hv; [done|]. destruct (contains_key _ _) eqn:Hk; [done|].
  destruct (is_none_or _ _) eqn:He; [done|]. destruct (is_some_and _ _) eqn:Hl; [done|].
  destruct (dc_starts_at d <? now)%N eqn:Hn; [done|].
  destruct (cp_groups c !! group) as [g0|]; simpl; [|done]. destruct (task_execution _ _) as [t|]; [|done].
  destruct (_ || _); [done|]. destruct (validate_decision_against_group _ _) as [[]|] eqn:Hd; simpl; [|done].
  destruct (outside_candidates _ _); [done|]. intros [= ->]. bool_facts. split_and!; try done.
  - destruct (dc_ends_at d) as [finish|] eqn:Ef; simpl in *; [|done]. exists finish. by bool_facts.
  - intros latest El. rewrite El in *. simpl in *. by bool_facts.
Qed.
End Reserve.

(** ** Disjoint futures *)

(** Two bookings that may not both hold a resource. *)
Definition disjoint (c : ControlPlane) (r1 r2 : ScheduledTaskReservation) : Prop :=
  exclusive_overlap r1 r2 = false /\
  (booking_overlap r1 r2 = true -> forall id1 id2 e1 e2,
     id1 ∈ decision_resources (st_decision r1) -> id2 ∈ decision_resources (st_decision r2) -> id1 <> id2 ->
     current_entry c id1 = Some e1 -> current_entry c id2 = Some e2 ->
     ResourceTopologyEntry_conflicts e1 e2 = false).

Record futures_ok (c : ControlPlane) : Prop := {
  fu_key : forall task r, cp_scheduled_tasks c !! task = Some r -> dc_task_ref (st_decision r) = task;
  fu_interval : forall task r, booked c task r ->
    exists finish, dc_ends_at (st_decision r) = Some finish /\ (dc_starts_at (st_decision r) < finish)%N;
  fu_joint : forall task r, booked c task r ->
    retained_entries c (st_decision r) ∅ (placed_resources (st_decision r)) = Ok tt;
  fu_disjoint : forall t1 t2 r1 r2, booked c t1 r1 -> booked c t2 r2 -> t1 <> t2 -> disjoint c r1 r2
}.

Lemma exclusive_overlap_comm r1 r2 : exclusive_overlap r1 r2 = exclusive_overlap r2 r1.
Proof.
  unfold exclusive_overlap. rewrite intervals_overlap_comm. f_equal.
  apply eq_true_iff_eq. rewrite !existsb_exists.
  split; intros (id & Hid%list_elem_of_In & Hin); apply bool_decide_eq_true in Hin; exists id;
    (split; [by apply list_elem_of_In|by apply bool_decide_eq_true]).
Qed.

Lemma disjoint_comm c r1 r2 : disjoint c r1 r2 -> disjoint c r2 r1.
Proof.
  intros [He Hs]. split; [by rewrite exclusive_overlap_comm|]. unfold booking_overlap in *.
  rewrite overlaps_intervals, intervals_overlap_comm, <- overlaps_intervals. intros Ho id1 id2 e1 e2 ? ? ? ? ?.
  rewrite topology_conflicts_comm. by eapply Hs.
Qed.

(** Checks of declared resources read only the entries of the resources they name. *)
Lemma retained_entries_ext c c' d l : forall ids,
  (forall id, id ∈ ids \/ id ∈ l.*2 -> current_entry c' id = current_entry c id) ->
  retained_entries c' d ids l = retained_entries c d ids l.
Proof.
  induction l as [|[node id] l IH]; intros ids He; simpl; [done|].
  rewrite (He id) by (right; apply list_elem_of_here).
  assert (forall x, x ∈ ids \/ x ∈ l.*2 -> current_entry c' x = current_entry c x) as He'.
  { intros x [Hx|Hx]; apply He; [by left|right; by apply list_elem_of_further]. }
  destruct (current_entry c id) as [entry|] eqn:Ee; [|by apply IH].
  destruct (_ || _); [done|].
  replace (existsb (fun other => is_some_and (ResourceTopologyEntry_conflicts entry) (current_entry c' other)) (bset_iter ids))
    with (existsb (fun other => is_some_and (ResourceTopologyEntry_conflicts entry) (current_entry c other)) (bset_iter ids)).
  { destruct (existsb _ _); [done|]. apply IH. intros x [[->%elem_of_singleton|Hx]%elem_of_union|Hx]; auto.
    apply He. right. apply list_elem_of_here. }
  apply eq_true_iff_eq. rewrite !existsb_exists.
  split; intros (x & Hx & Hc); exists x; (split; [done|]);
    [rewrite He'|rewrite <- He']; try done; left; by apply elem_of_bset_iter, list_elem_of_In.
Qed.

Lemma placed_resources_ids d id : id ∈ (placed_resources d).*2 -> id ∈ decision_resources d.
Proof.
  intros ([node x] & -> & Hp)%list_elem_of_fmap. unfold placed_resources in Hp.
  apply list_elem_of_bind in Hp as (s & (y & E & Hy)%list_elem_of_fmap & Hs). simplify_eq. simpl.
  apply list_elem_of_bind. by exists s.
Qed.

(** The same bookings with the same entries stay disjoint. *)
Lemma futures_ok_transfer c c' :
  futures_ok c ->
  (forall task r', cp_scheduled_tasks c' !! task = Some r' ->
     exists r, cp_scheduled_tasks c !! task = Some r /\ st_decision r' = st_decision r /\
       (st_phase r' = Scheduled -> st_phase r = Scheduled)) ->
  (forall task r id, booked c task r -> id ∈ decision_resources (st_decision r) ->
     current_entry c' id = current_entry c id) ->
  futures_ok c'.
Proof.
  intros [Hk Hi Hj Hd] Hs He.
  assert (forall task r', booked c' task r' -> exists r, booked c task r /\ st_decision r' = st_decision r) as Hb.
  { intros task r' [Hr' Hp']. destruct (Hs task r' Hr') as (r & Hr & Ed & Hp). exists r. split; [split; auto|done]. }
  split.
  - intros task r' Hr'. destruct (Hs task r' Hr') as (r & Hr & -> & _). eauto.
  - intros task r' Hr'. destruct (Hb task r' Hr') as (r & Hr & ->). eauto.
  - intros task r' Hr'. destruct (Hb task r' Hr') as (r & Hr & ->). rewrite retained_entries_ext with (c := c); eauto.
    intros id [[]%not_elem_of_empty|Hid%placed_resources_ids]. by eapply He.
  - intros t1 t2 r1' r2' H1 H2 Hne. destruct (Hb t1 r1' H1) as (r1 & Hr1 & E1).
    destruct (Hb t2 r2' H2) as (r2 & Hr2 & E2). destruct (Hd t1 t2 r1 r2 Hr1 Hr2 Hne) as [Hx Hg].
    unfold disjoint, exclusive_overlap, booking_overlap in *. rewrite E1, E2. split; [done|].
    intros Ho id1 id2 e1 e2 H1' H2' Hids. rewrite (He t1 r1 id1), (He t2 r2 id2) by done. by apply Hg.
Qed.

Lemma books_less_futures_ok c c' : books_less c c' -> futures_ok c -> futures_ok c'.
Proof.
  intros [Er Hb] Hf. eapply futures_ok_transfer; [done|done|]. intros task r id _ _.
  unfold current_entry. by rewrite Er.
Qed.

(** ** A new booking is disjoint from those before it *)

Lemma elem_of_whole d id : id ∈ whole_resources d <->
  exists sel i, sel ∈ dc_selections d /\ sel_resource_ids sel !! i = Some id /\
    is_none_or (fun demand => bool_decide (rr_allocation_mode demand = Exclusive))
      (sel_resource_requirements sel !! i) = true.
Proof.
  unfold whole_resources. rewrite list_elem_of_bind. split.
  - intros (sel & Hid & Hsel). apply list_elem_of_omap in Hid as ([i x] & Hi%elem_of_enumerate & Hx).
    simpl in Hx. destruct (is_none_or _ _) eqn:He; [|done]. simplify_eq. eauto.
  - intros (sel & i & Hsel & Hi & He). exists sel. split; [|done]. apply list_elem_of_omap.
    exists (i, id). rewrite elem_of_enumerate. simpl. by rewrite He.
Qed.

Lemma exclusive_not_divisible demand :
  is_none_or (fun d => bool_decide (rr_allocation_mode d = Exclusive)) demand = true ->
  is_some_and is_divisible demand = false.
Proof.
  destruct demand as [d|]; simpl; [|done]. unfold is_divisible. intros E%bool_decide_eq_true. by rewrite E.
Qed.

Section NewBooking.
Context `{Serde, NodeView, MetricsCodec} (c : ControlPlane) (history : list CostPolicyRegistry).
Context (candidates : CandidateSet) (group : ExecutionGroupId) (d : TaskSchedulingDecision) (now : TimestampMs).
Context (s : SchedulingSnapshot) (g : ExecutionGroup).
Context (Had : admitted c history candidates group d now s g).

(** Every resource the decision selects is available, with the demand of its Role. *)
Lemma selected_available sel i id : sel ∈ dc_selections d -> sel_resource_ids sel !! i = Some id ->
  exists resource demand before, res_id resource = id /\
    capacity_available s (sel_role_id sel) resource demand (dc_starts_at d) (dc_ends_at d) before = true /\
    (is_none_or (fun d => bool_decide (rr_allocation_mode d = Exclusive)) (sel_resource_requirements sel !! i) = true ->
     rr_allocation_mode demand = Exclusive).
Proof.
  intros Hsel Hi. destruct Had as [Hc _ _ _ _ Hcap].
  apply booking_check_facts in Hc as (_ & _ & _ & _ & _ & Hg & Hv).
  destruct (validate_decision_selection _ _ _ Hv Hsel) as (q & Hq & Hshape).
  destruct (capacity_selections_ok _ _ _ _ _ _ _ Hcap Hsel) as (before & node & g' & q' & _ & Hg' & Hq' & Ht).
  simplify_eq.
  destruct (lookup_lt_is_Some_2 (resource_requirements q) i) as [demand Hd].
  { rewrite <- (shape_lengths _ _ Hshape). by eapply lookup_lt_Some. }
  destruct (demand_check_ok s d node before (sel_role_id sel) (id, demand)) as (resource & Hid & Hav).
  { eapply try_for_ok; [exact Ht|]. apply list_elem_of_lookup. exists i. by rewrite lookup_zip_with, Hi, Hd. }
  exists resource, demand, before. split_and!; [done|done|]. by apply (shape_exclusive (resource_requirements q)).
Qed.

Lemma snapshot_occupied task r id : booked c task r -> id ∈ decision_resources (st_decision r) ->
  exists o, o ∈ ss_occupancies s /\ occupies id (st_decision r) o.
Proof.
  intros Hb Hid. destruct (snapshot_for_task_frame _ _ _ _ _ (ad_snapshot _ _ _ _ _ _ _ _ Had))
    as (s0 & reusable & Hs0 & -> & _ & _). by eapply booking_occupied.
Qed.

Lemma new_booking_exclusive task r : booked c task r ->
  exclusive_overlap (ScheduledTaskReservation_new group d) r = false.
Proof.
  intros Hb. unfold exclusive_overlap. simpl.
  destruct (intervals_overlap _ _ _ _) eqn:Hover; simpl; [|done].
  apply not_true_iff_false. intros (id & Hid%list_elem_of_In & Hin%bool_decide_eq_true)%existsb_exists.
  apply elem_of_whole in Hid as (sel & i & Hsel & Hi & He).
  apply elem_of_whole in Hin as (sel' & j & Hsel' & Hj & He').
  destruct (selected_available sel i id Hsel Hi) as (resource & demand & before & Hrid & Hav & Hmode).
  destruct (snapshot_for_task_frame _ _ _ _ _ (ad_snapshot _ _ _ _ _ _ _ _ Had))
    as (s0 & reusable & Hs0 & Eo & _ & _).
  pose proof (whole_occupied _ _ _ _ _ _ _ _ _ Hs0 Hb Hsel' Hj (exclusive_not_divisible _ He')) as Ho.
  rewrite <- Eo in Ho.
  assert (intervals_overlap (dc_starts_at d) (dc_ends_at d) (dc_starts_at (st_decision r))
            (dc_ends_at (st_decision r)) = false); [|congruence].
  by apply (available_whole _ _ _ _ _ _ _ Hav _ (Hmode He) Ho).
Qed.

Lemma new_booking_geometry task r id1 id2 e1 e2 : booked c task r ->
  booking_overlap (ScheduledTaskReservation_new group d) r = true ->
  id1 ∈ decision_resources d -> id2 ∈ decision_resources (st_decision r) -> id1 <> id2 ->
  current_entry c id1 = Some e1 -> current_entry c id2 = Some e2 ->
  ResourceTopologyEntry_conflicts e1 e2 = false.
Proof.
  unfold booking_overlap, current_entry. simpl. rewrite overlaps_intervals.
  intros Hb Hover (sel & Hid1 & Hsel)%list_elem_of_bind Hid2 Hne.
  intros (registry & Er & E1)%bind_Some (registry' & Er' & E2)%bind_Some. simplify_eq.
  apply list_elem_of_lookup in Hid1 as [i Hi].
  destruct (selected_available sel i id1 Hsel Hi) as (resource & demand & before & <- & Hav & _).
  destruct (snapshot_occupied task r id2 Hb Hid2) as (o & Ho & <- & Eos & Eoe).
  destruct (snapshot_for_task_frame _ _ _ _ _ (ad_snapshot _ _ _ _ _ _ _ _ Had)) as (s0 & reusable & _ & _ & Et & _).
  eapply (available_geometry _ _ _ _ _ _ _ Hav registry e1 o e2); try done; [congruence|].
  by rewrite Eos, Eoe.
Qed.

(** The joint check of the decision is the one a restored calendar repeats. *)
Lemma joint_retained registry l : forall selected ids,
  cp_resource_topology_registry c = Some registry ->
  joint_entries registry (dc_starts_at d) (dc_ends_at d) selected l = Ok tt ->
  (forall id, id ∈ ids -> exists entry, entry ∈ selected /\ topology_entry registry id = Some entry) ->
  retained_entries c d ids l = Ok tt.
Proof.
  induction l as [|[node id] l IH]; intros selected ids Er; [done|]. simpl.
  assert (forall x, current_entry c x = topology_entry registry x) as Hce.
  { intros x. unfold current_entry. by rewrite Er. }
  rewrite Hce. destruct (topology_entry registry id) as [entry|] eqn:Ee; [|by apply IH].
  destruct (_ || _) eqn:Hb; [done|]. apply orb_false_iff in Hb as [Hb Hx]. rewrite Hb. intros Hj Hsel.
  replace (existsb _ (bset_iter ids)) with false.
  - eapply IH; [done|exact Hj|]. intros x [->%elem_of_singleton|Hid]%elem_of_union.
    + exists entry. split; [|done]. apply elem_of_app. right. apply list_elem_of_here.
    + destruct (Hsel x Hid) as (e & He & Hxe). exists e. split; [|done]. apply elem_of_app. by left.
  - symmetry. apply not_true_iff_false. intros (x & Hid%list_elem_of_In%elem_of_bset_iter & Hc)%existsb_exists.
    destruct (Hsel x Hid) as (e & He & Hxe). rewrite Hce, Hxe in Hc. simpl in Hc.
    apply not_true_iff_false in Hx. apply Hx, existsb_exists. exists e. split; [by apply list_elem_of_In|done].
Qed.

Lemma new_booking_joint : retained_entries c d ∅ (placed_resources d) = Ok tt.
Proof.
  destruct Had as [_ _ _ _ Ht _]. unfold validate_topology_decision in Ht.
  assert (forall l, (forall x, x ∈ l.*2 -> current_entry c x = None) -> retained_entries c d ∅ l = Ok tt) as Hnone.
  { induction l as [|[node id] l IH]; intros Hl; simpl; [done|]. rewrite Hl by (simpl; set_solver).
    apply IH. intros x Hx. apply Hl. simpl. set_solver. }
  destruct (cp_resource_topology_registry c) as [registry|] eqn:Er.
  2: { apply Hnone. intros x _. unfold current_entry. by rewrite Er. }
  destruct (existsb _ _) eqn:Hex; simpl in Ht.
  - destruct (topology_booking_registry c d); simpl in Ht; [|done].
    eapply joint_retained; [done|exact Ht|]. intros id []%not_elem_of_empty.
  - apply Hnone. intros x Hx%placed_resources_ids. unfold current_entry. rewrite Er. simpl.
    apply not_true_iff_false in Hex. destruct (topology_entry registry x) as [e|] eqn:Ee; [|done].
    destruct Hex. apply existsb_exists. exists x. split; [by apply list_elem_of_In|]. by rewrite Ee.
Qed.

Lemma reserve_futures_ok : futures_ok c -> futures_ok (booked_plane c group d).
Proof.
  intros [Hk Hi Hj Hd]. pose proof (ad_check _ _ _ _ _ _ _ _ Had) as Hc.
  apply booking_check_facts in Hc as (_ & Hnone & Hfin & _).
  assert (forall task r, booked (booked_plane c group d) task r ->
    (task = dc_task_ref d /\ r = ScheduledTaskReservation_new group d) \/ booked c task r) as Hb.
  { intros task r [Hr Hp]. simpl in Hr. destruct (decide (task = dc_task_ref d)) as [->|Hne].
    - rewrite lookup_insert_eq in Hr. simplify_eq. by left.
    - rewrite lookup_insert_ne in Hr by done. right. by split. }
  split.
  - intros task r. simpl. destruct (decide (task = dc_task_ref d)) as [->|Hne];
      [rewrite lookup_insert_eq; by intros [= <-]|rewrite lookup_insert_ne by done; apply Hk].
  - intros task r [[-> ->]|Hr]%Hb; [done|by eapply Hi].
  - intros task r Hr. rewrite (retained_entries_ext c) by done.
    apply Hb in Hr as [[-> ->]|Hr]; [exact new_booking_joint|by eapply Hj].
  - assert (forall task r, booked c task r -> disjoint (booked_plane c group d) (ScheduledTaskReservation_new group d) r)
      as Hnew.
    { intros task r Hr. split; [by eapply new_booking_exclusive|].
      intros Ho id1 id2 e1 e2 Hid1 Hid2 Hne E1 E2. by eapply (new_booking_geometry task r id1 id2). }
    intros t1 t2 r1 r2 [[-> ->]|Hb1]%Hb [[-> ->]|Hb2]%Hb Hne; [done|by eapply Hnew| |by eapply Hd].
    apply disjoint_comm. by eapply Hnew.
Qed.
End NewBooking.

(** ** Registry revisions *)

Lemma accept_inv c registry expected c' r : accept_resource_topology_registry c registry expected = Some (c', r) ->
  (c' = c /\ exists e, r = Err e) \/
  (exists version, c' = set_topology registry version c /\ r = Ok tt /\
     version = (cp_calendar_version c + 1)%N /\
     ResourceTopologyRegistry_validate registry = Ok tt /\
     topology_identity_conflict c registry expected = false /\
     forall id, id ∈ held_resources c -> current_entry c id = topology_entry registry id).
Proof.
  unfold accept_resource_topology_registry, refuse.
  destruct (ResourceTopologyRegistry_validate registry) as [[]|] eqn:Hv; simpl; [|intros; simplify_eq; eauto].
  destruct (topology_identity_conflict _ _ _) eqn:Ht; [intros; simplify_eq; eauto|].
  destruct (existsb _ _) eqn:Hh; [intros; simplify_eq; eauto|].
  destruct (u64_checked_add _ _) as [version|] eqn:Hn; intros; simplify_eq; [|eauto].
  apply u64_checked_add_Some in Hn as [-> _]. right. eexists. split_and!; try done. intros id Hid.
  apply not_true_iff_false in Hh. destruct (decide (current_entry c id = topology_entry registry id)); [done|].
  destruct Hh. apply existsb_exists. exists id. split; [by apply list_elem_of_In|].
  by rewrite bool_decide_eq_false_2.
Qed.

Lemma booked_held c task r id : booked c task r -> id ∈ decision_resources (st_decision r) ->
  id ∈ held_resources c.
Proof.
  intros [Hr Hp] Hid. apply elem_of_app. right. apply list_elem_of_bind. exists r. split; [done|].
  apply list_elem_of_In, filter_In. split; [apply list_elem_of_In, elem_of_btree_values; eauto|]. by rewrite Hp.
Qed.

Lemma accept_futures_ok c registry expected c' r :
  accept_resource_topology_registry c registry expected = Some (c', r) -> futures_ok c -> futures_ok c'.
Proof.
  intros [[-> _]|(version & -> & _ & _ & _ & _ & He)]%accept_inv Hf; [done|].
  eapply futures_ok_transfer; [done|simpl; eauto|]. intros task r' id Hb Hid. unfold current_entry at 1. simpl.
  symmetry. apply He. by eapply booked_held.
Qed.

(** ** Runs *)

Section Runs.
Context `{Serde, MetricsCodec}.

(** Steps of the Control plane with the calendar: any operation, a booking against any Node
    state and policy history, and a registry revision. *)
Inductive calendar_step (c c' : ControlPlane) : Prop :=
| cs_control : control_step c c' -> calendar_step c c'
| cs_reserve (view : NodeView) history candidates group d now r :
    reserve_scheduled_task c history candidates group d now = Some (c', r) -> calendar_step c c'
| cs_topology registry expected r :
    accept_resource_topology_registry c registry expected = Some (c', r) -> calendar_step c c'.

Lemma calendar_step_ok c c' : calendar_step c c' -> futures_ok c -> futures_ok c'.
Proof.
  intros [Hs|view history candidates group d now r E|registry expected r E].
  - by apply books_less_futures_ok, control_step_books_less.
  - apply reserve_inv in E as [[-> _]|(-> & _ & s & g & Had)]; [done|]. by eapply reserve_futures_ok.
  - by eapply accept_futures_ok.
Qed.

Lemma futures_ok_new : futures_ok ControlPlane_new.
Proof.
  split; simpl.
  - intros task r. by rewrite lookup_empty.
  - intros task r [Hr _]. simpl in Hr. by rewrite lookup_empty in Hr.
  - intros task r [Hr _]. simpl in Hr. by rewrite lookup_empty in Hr.
  - intros t1 t2 r1 r2 [Hr _]. simpl in Hr. by rewrite lookup_empty in Hr.
Qed.

Lemma calendar_run_ok c c' : rtc calendar_step c c' -> futures_ok c -> futures_ok c'.
Proof. induction 1 as [|c1 c2 c3 Hs _ IH]; [done|]. intros Hf. by eapply IH, calendar_step_ok. Qed.
End Runs.
