(* ===== verification/CalendarBooking.v ===== *)
(** * A scheduled Task can be booked

    The scheduler and the calendar agree: a decision made on the current snapshot of a Task
    passes the admission of [reserve_scheduled_task]. *)

From S2P Require Import Prelude Identity Execution StateModel Session Resource RelationSpec DecisionPolicy.
From S2P Require Import SchedulerPolicy Sorting Quota NodeIdentity NodeState Capacity.
From S2P Require Import Mission TaskExecution Group ControlPlane Actors GroupLifecycle GroupBinding.
From S2P Require Import GroupRelease RoleRecovery ControlSteps SchedulerFacts ScheduleFacts.
From S2P Require Import Topology Calendar CalendarFacts Scheduler.

(** The resources a Node declares, as the scheduler reads them. *)
Definition registered_resources `{NodeView} (node : NodeId) : option (list Resource) :=
  (fun s => nd_resources (sn_registration s)) <$> nv_node node.

#[export] Instance view_reader `{NodeView} : SharedNodeStateReader unit := fun _ => registered_resources.

(** ** Modes of selected resources *)

Lemma select_mode_fold items : forall (m : gmap ResourceId ResourceAllocationMode),
  NoDup items.*1 ->
  (forall id demand mode, (id, demand) ∈ items -> m !! id = Some mode ->
     mode = Divisible /\ rr_allocation_mode demand = Divisible) ->
  exists m', fold_opt select_mode m items = Some m' /\
    forall id mode, m' !! id = Some mode ->
      m !! id = Some mode \/ exists demand, (id, demand) ∈ items /\ mode = rr_allocation_mode demand.
Proof.
  induction items as [|[id demand] items IH]; intros m Hnd Hm; simpl.
  { exists m. eauto. }
  apply NoDup_cons in Hnd as [Hni Hnd].
  assert (select_mode m (id, demand) = Some (<[id := rr_allocation_mode demand]> m)) as ->.
  { unfold select_mode. simpl. destruct (m !! id) as [mode|] eqn:Em; simpl; [|done].
    destruct (Hm id demand mode (list_elem_of_here _ _) Em) as [-> ->]. done. }
  simpl. destruct (IH (<[id := rr_allocation_mode demand]> m) Hnd) as (m' & -> & Hm').
  { intros x e mode Hx. rewrite lookup_insert_ne; [by eapply Hm; right|]. intros <-.
    apply Hni. apply list_elem_of_fmap. by exists (id, e). }
  exists m'. split; [done|]. intros x mode [Hx|(e & He & ->)]%Hm'.
  - destruct (decide (x = id)) as [->|Hne].
    + rewrite lookup_insert_eq in Hx. simplify_eq. right. exists demand. split; [apply list_elem_of_here|done].
    + rewrite lookup_insert_ne in Hx by done. by left.
  - right. exists e. split; [by right|done].
Qed.

Section Booking.
Context `{Serde, NodeView, MetricsCodec} (c : ControlPlane) (history : list CostPolicyRegistry).
Context (group : ExecutionGroupId) (g : ExecutionGroup) (t : TaskExecution).
Context (requirement : TaskRequirement) (candidates : CandidateSet) (now : TimestampMs).

Abbreviation task := (tk_task_ref requirement).

(** Resource identities are global: one declaration per identity. *)
Definition resources_global : Prop :=
  forall n1 n2 l1 l2 r1 r2, registered_resources n1 = Some l1 -> registered_resources n2 = Some l2 ->
    r1 ∈ l1 -> r2 ∈ l2 -> res_id r1 = res_id r2 -> r1 = r2.

(** A Ready Task of the Group, with the Roles of its requirement and eligible candidates. *)
Record schedulable : Prop := {
  sb_group : cp_groups c !! group = Some g;
  sb_task : task_execution g task = Some t;
  sb_mission : eg_mission_id g = tr_mission_id task;
  sb_ready : te_lifecycle t = TlReady;
  sb_unbooked : cp_scheduled_tasks c !! task = None;
  sb_roles : NoDup (rq_role_id <$> tk_roles requirement);
  sb_scopes : dom (te_role_scopes t) = list_to_set (rq_role_id <$> tk_roles requirement);
  sb_requirements : forall role, role ∈ tk_roles requirement ->
    role_requirement g task (rq_role_id role) = Some role;
  sb_eligible : forall role nodes node, role ∈ tk_roles requirement ->
    for_role candidates (rq_role_id role) = Some nodes -> node ∈ rcs_node_ids nodes ->
    nv_eligible c node role now = true;
  sb_resources : resources_global;
  sb_version : (cp_calendar_version c + 1 <= u64_max)%N
}.

Context (Hsb : schedulable).

Lemma find_registered node registered resource :
  registered_resources node = Some registered -> resource ∈ registered ->
  find_resource registered (res_id resource) = Some resource.
Proof.
  intros Hn Hr. unfold find_resource.
  destruct (List.find _ registered) as [x|] eqn:Hf.
  - apply List.find_some in Hf as [Hx He]. apply bool_decide_eq_true in He. f_equal.
    eapply (sb_resources Hsb); [exact Hn|exact Hn|by apply list_elem_of_In|done|done].
  - apply list_elem_of_In in Hr. pose proof (List.find_none _ _ Hf _ Hr) as Hno. simpl in Hno.
    by rewrite bool_decide_eq_true_2 in Hno.
Qed.

Section Decision.
Context (s : SchedulingSnapshot) (d : TaskSchedulingDecision) (finish : TimestampMs).
Context (Htask : dc_task_ref d = task) (Hends : dc_ends_at d = Some finish).
Context (Hpositive : (dc_starts_at d < finish)%N).

Abbreviation joint_at := (joint tt candidates s (dc_starts_at d) (dc_ends_at d)).
Abbreviation picked role registered selections :=
  (chosen registered role s (dc_starts_at d) (dc_ends_at d) selections).

(** The choice of one Role, demand by demand. *)
Lemma choice_picked role registered selections choice id demand :
  choice ∈ role_choices s (dc_starts_at d) (dc_ends_at d) role selections registered ->
  (id, demand) ∈ zip choice.1 (resource_requirements role) ->
  exists resource, picked role registered selections id demand resource.
Proof.
  intros [[Hch _ _ _] _]%resource_choices_combination Hz.
  apply list_elem_of_lookup in Hz as [i Hi]. rewrite lookup_zip_with in Hi.
  apply bind_Some in Hi as (x & Hx & Hi). apply bind_Some in Hi as (y & Hy & E). simplify_eq.
  exact (Forall2_lookup_lr _ _ _ _ _ _ Hch Hx Hy).
Qed.

Lemma select_ids role node registered choice : sel_resource_ids (select role node registered choice) = choice.1.
Proof. unfold select, with_resources. by case_match. Qed.
Lemma select_role_id role node registered choice : sel_role_id (select role node registered choice) = rq_role_id role.
Proof. unfold select, with_resources. by case_match. Qed.
Lemma select_node_id role node registered choice : sel_node_id (select role node registered choice) = node.
Proof. unfold select, with_resources. by case_match. Qed.

Lemma registered_node node registered : node_resources tt node = Some registered ->
  exists state, nv_node node = Some state /\ nd_resources (sn_registration state) = registered.
Proof.
  unfold node_resources, view_reader, registered_resources. intros (state & Hs & Hr)%fmap_Some. by exists state.
Qed.

Lemma capacity_selections_joint roles selections entities final :
  joint_at roles selections entities final -> (forall role, role ∈ roles -> role ∈ tk_roles requirement) ->
  forall new, final = (selections ++ new)%list -> capacity_selections c s group d selections new = Some (Ok tt).
Proof.
  induction 1 as [|role roles selections entities nodes node registered choice final Ef Hin Er En Hc Hj IH];
    intros Hroles new E.
  { assert (new = []) as ->; [|done]. apply (app_inv_head selections). by rewrite app_nil_r. }
  destruct (joint_roles _ _ _ _ _ _ _ _ _ Hj) as (rest & -> & _). rewrite <- app_assoc in E.
  apply app_inv_head in E as <-. simpl.
  rewrite select_node_id, select_role_id, select_ids, Htask, (sb_group Hsb).
  destruct (registered_node _ _ En) as (state & -> & Hreg).
  rewrite (sb_requirements Hsb) by (apply Hroles; left). simpl.
  replace (try_for _ _) with (@Ok unit ControlError tt).
  - apply IH; [|by rewrite <- app_assoc]. intros x Hx. apply Hroles. by right.
  - symmetry. apply try_for_ok. intros [id demand] Hz.
    destruct (choice_picked _ _ _ _ _ _ Hc Hz) as (resource & [<- Hr _ Hav]).
    unfold demand_check. simpl. rewrite Hreg, (find_registered node registered) by done. by rewrite Hav.
Qed.

Lemma selection_checks_joint roles selections entities final :
  joint_at roles selections entities final -> (forall role, role ∈ roles -> role ∈ tk_roles requirement) ->
  forall new, final = (selections ++ new)%list -> selection_checks c g task now new = Some (Ok tt).
Proof.
  induction 1 as [|role roles selections entities nodes node registered choice final Ef Hin Er En Hc Hj IH];
    intros Hroles new E.
  { assert (new = []) as ->; [|done]. apply (app_inv_head selections). by rewrite app_nil_r. }
  destruct (joint_roles _ _ _ _ _ _ _ _ _ Hj) as (rest & -> & _). rewrite <- app_assoc in E.
  apply app_inv_head in E as <-. simpl. unfold selection_check.
  rewrite select_node_id, select_role_id, select_ids.
  destruct (registered_node _ _ En) as (state & -> & Hreg).
  assert (role ∈ tk_roles requirement) as Hrole by (apply Hroles; left).
  rewrite (sb_requirements Hsb) by done. simpl. rewrite (sb_eligible Hsb role nodes node) by done. simpl.
  destruct (existsb _ _) eqn:Hx.
  - apply existsb_exists in Hx as ([id demand] & Hz%list_elem_of_In & Hno). simpl in Hno.
    destruct (choice_picked _ _ _ _ _ _ Hc Hz) as (resource & [Hid Hr Hm _]).
    apply negb_true_iff, not_true_iff_false in Hno. destruct Hno. rewrite Hreg. apply existsb_exists.
    exists resource. split; [by apply list_elem_of_In|]. by rewrite bool_decide_eq_true_2, Hm.
  - simpl. apply IH; [|by rewrite <- app_assoc]. intros x Hx'. apply Hroles. by right.
Qed.

Lemma select_shape role node registered selections choice :
  node_resources tt node = Some registered ->
  choice ∈ role_choices s (dc_starts_at d) (dc_ends_at d) role selections registered ->
  selection_shape_differs (resource_requirements role) (select role node registered choice) = false.
Proof.
  intros En Hc. pose proof (resource_choices_combination _ _ _ _ _ _ _ _ Hc) as [[Hch Hu _ _] _].
  pose proof (Forall2_length _ _ _ Hch) as Hlen. unfold selection_shape_differs.
  rewrite select_ids, Hlen, Nat.eqb_refl. unfold select, with_resources.
  assert (existsb (fun p : N * ResourceRequirement => negb (p.1 =? rr_units p.2)%N)
            (zip choice.2 (resource_requirements role)) = false) as Hunits.
  { rewrite Hu. apply not_true_iff_false. intros ([u q] & Hz%list_elem_of_In & Hne)%existsb_exists.
    apply list_elem_of_lookup in Hz as [i Hi]. rewrite lookup_zip_with, list_lookup_fmap in Hi.
    destruct (resource_requirements role !! i); simplify_eq/=. by rewrite N.eqb_refl in Hne. }
  destruct (existsb is_divisible (resource_requirements role)) eqn:Hs; simpl.
  - rewrite bool_decide_eq_true_2, length_fmap, Hlen, Nat.eqb_refl, Hu, length_fmap, Nat.eqb_refl by done.
    rewrite <- Hu, Hunits. simpl. rewrite !orb_false_r.
    apply not_true_iff_false. intros ([capacity demand] & Hz%list_elem_of_In & Hlt)%existsb_exists.
    apply list_elem_of_lookup in Hz as [i Hi]. rewrite lookup_zip_with, list_lookup_fmap in Hi.
    apply bind_Some in Hi as (x & Hx & Hi). apply fmap_Some in Hx as (id & Hid & ->).
    apply bind_Some in Hi as (y & Hy & E). simplify_eq. simpl in Hlt.
    destruct (Forall2_lookup_lr _ _ _ _ _ _ Hch Hid Hy) as (resource & [<- Hr Hm _]).
    rewrite (find_registered node registered) in Hlt by done. simpl in Hlt.
    unfold matches_demand in Hm. bool_facts. lia.
  - by rewrite Hu, length_fmap, Nat.eqb_refl, <- Hu, Hunits.
Qed.
(** A whole resource of a selection is occupied for the selections after it. *)
Lemma selected_whole sels sel i id :
  sel_resource_ids sel !! i = Some id ->
  is_none_or (fun q => bool_decide (rr_allocation_mode q = Exclusive)) (sel_resource_requirements sel !! i) = true ->
  SchedulingOccupancy_new id (dc_starts_at d) (dc_ends_at d)
    ∈ selected_occupancies s (sels ++ [sel]) (dc_starts_at d) (dc_ends_at d).
Proof.
  intros Hi He. unfold selected_occupancies. rewrite foldl_app. simpl.
  apply elem_of_enumerate in Hi. revert Hi. generalize (enumerate (sel_resource_ids sel)).
  match goal with |- forall l, _ -> _ ∈ (foldl _ ?a l).1 => generalize a end.
  intros acc l (before & after & ->)%list_elem_of_split. rewrite foldl_app. cbn [foldl].
  apply selected_occupancy_keeps. destruct (foldl _ acc before) as [result parents]. simpl.
  destruct (sel_resource_requirements sel !! i) as [q|]; [|apply elem_of_app; right; apply list_elem_of_here].
  simpl in He. rewrite He. apply elem_of_app. right. apply list_elem_of_here.
Qed.

Lemma selected_more sels sel o :
  o ∈ selected_occupancies s sels (dc_starts_at d) (dc_ends_at d) ->
  o ∈ selected_occupancies s (sels ++ [sel]) (dc_starts_at d) (dc_ends_at d).
Proof. intros Ho. unfold selected_occupancies. rewrite foldl_app. by apply selected_occupancy_keeps. Qed.

(** What the modes of the resources selected so far say. *)
Definition modes_ok (m : gmap ResourceId ResourceAllocationMode) (sels : list RoleSchedulingSelection) : Prop :=
  forall id mode, m !! id = Some mode ->
  (exists node registered resource, registered_resources node = Some registered /\ resource ∈ registered /\
    res_id resource = id /\ res_allocation_mode resource = mode) /\
 (mode = Exclusive -> SchedulingOccupancy_new id (dc_starts_at d) (dc_ends_at d)
                         ∈ selected_occupancies s sels (dc_starts_at d) (dc_ends_at d)).

Lemma picked_mode role registered selections id demand resource :
  picked role registered selections id demand resource -> res_allocation_mode resource = rr_allocation_mode demand.
Proof. intros [_ _ Hm _]. unfold matches_demand in Hm. by bool_facts. Qed.

(** A resource selected before by another Role is shared. *)
Lemma picked_shared m selections role node registered id demand resource mode :
  modes_ok m selections -> node_resources tt node = Some registered ->
  picked role registered selections id demand resource -> m !! id = Some mode ->
  mode = Divisible /\ rr_allocation_mode demand = Divisible.
Proof.
  intros Hm En Hp Hid. destruct (Hm id mode Hid) as [(n & l & r & Hn & Hr & Eid & Emode) Hx].
  pose proof (picked_mode _ _ _ _ _ _ Hp) as Hmode. destruct Hp as [Hrid Hreg _ Hav].
  assert (r = resource) as -> by (eapply (sb_resources Hsb); [exact Hn|exact En|done|done|congruence]).
  rewrite <- Hmode, Emode. destruct mode; [|done]. exfalso.
  assert (intervals_overlap (dc_starts_at d) (dc_ends_at d) (dc_starts_at d) (dc_ends_at d) = false) as Hover.
  { apply (available_selected _ _ _ _ _ _ _ Hav _ (eq_trans (eq_sym Hmode) Emode) (Hx eq_refl)); done. }
  rewrite Hends in Hover. simpl in Hover. apply andb_false_iff in Hover as [?%N.ltb_ge|?%N.ltb_ge]; lia.
Qed.

Lemma select_modes_step m selections role node registered choice :
  role ∈ tk_roles requirement -> node_resources tt node = Some registered ->
  choice ∈ role_choices s (dc_starts_at d) (dc_ends_at d) role selections registered -> modes_ok m selections ->
  exists m', select_modes g task m (select role node registered choice) = Some m' /\
    modes_ok m' (selections ++ [select role node registered choice]).
Proof.
  intros Hrole En Hc Hm. unfold select_modes. rewrite select_role_id, select_ids, (sb_requirements Hsb) by done.
  simpl. rewrite (select_shape _ _ _ selections) by done.
  pose proof (resource_choices_combination _ _ _ _ _ _ _ _ Hc) as [[Hch _ Hnd _] _].
  pose proof (Forall2_length _ _ _ Hch) as Hlen.
  destruct (select_mode_fold (zip choice.1 (resource_requirements role)) m) as (m' & Hf & Hm').
  { change (list_fmap _ _ fst ?l) with (l.*1). by rewrite fst_zip by lia. }
  { intros id demand mode Hz Hid. destruct (choice_picked _ _ _ _ _ _ Hc Hz) as (resource & Hp).
    by eapply picked_shared. }
  exists m'. split; [done|]. intros id mode [Hid|(demand & Hz & ->)]%Hm'.
  - destruct (Hm id mode Hid) as [Hr Hx]. split; [done|]. intros E. by apply selected_more, Hx.
  - destruct (choice_picked _ _ _ _ _ _ Hc Hz) as (resource & Hp). split.
    + exists node, registered, resource. split_and!; [done|by destruct Hp|by destruct Hp|by eapply picked_mode].
    + intros E. apply list_elem_of_lookup in Hz as [i Hi]. rewrite lookup_zip_with in Hi.
      apply bind_Some in Hi as (x & Hx & Hi). apply bind_Some in Hi as (y & Hy & Exy). simplify_eq.
      apply (selected_whole _ _ i); [by rewrite select_ids|]. unfold select, with_resources.
      destruct (existsb _ _); simpl; [rewrite Hy; simpl; by apply bool_decide_eq_true|by destruct i].
Qed.

Lemma select_modes_joint roles selections entities final :
  joint_at roles selections entities final -> (forall role, role ∈ roles -> role ∈ tk_roles requirement) ->
  forall new m, final = (selections ++ new)%list -> modes_ok m selections ->
  is_Some (fold_opt (select_modes g task) m new).
Proof.
  induction 1 as [|role roles selections entities nodes node registered choice final Ef Hin Er En Hc Hj IH];
    intros Hroles new m E Hm.
  { assert (new = []) as ->; [|by exists m]. apply (app_inv_head selections). by rewrite app_nil_r. }
  destruct (joint_roles _ _ _ _ _ _ _ _ _ Hj) as (rest & -> & _). rewrite <- app_assoc in E.
  apply app_inv_head in E as <-. simpl.
  destruct (select_modes_step m selections role node registered choice) as (m' & -> & Hm');
    [apply Hroles; left|done|done|done|].
  simpl. apply IH; [|by rewrite <- app_assoc|done]. intros x Hx. apply Hroles. by right.
Qed.

Section Joint.
Context (Hj : joint_at (tk_roles requirement) [] ∅ (dc_selections d)).

Lemma joint_role_ids : sel_role_id <$> dc_selections d = rq_role_id <$> tk_roles requirement.
Proof.
  destruct (joint_roles _ _ _ _ _ _ _ _ _ Hj) as (new & -> & Hall). cbn [app].
  symmetry. apply list_eq_Forall2, Forall2_fmap. eapply Forall2_impl; [exact Hall|]. by intros role sel (-> & _).
Qed.

Lemma decision_matches_group : validate_decision_against_group g d = Ok tt.
Proof.
  unfold validate_decision_against_group. rewrite Htask, (sb_task Hsb), joint_role_ids, (sb_scopes Hsb).
  rewrite bool_decide_eq_true_2 by done. simpl.
  rewrite size_list_to_set by apply (sb_roles Hsb).
  rewrite <- joint_role_ids, length_fmap, Nat.eqb_refl. simpl.
  destruct (select_modes_joint _ _ _ _ Hj (fun _ H => H) (dc_selections d) ∅ eq_refl) as [m ->]; [|done].
  intros id mode. by rewrite lookup_empty.
Qed.

Lemma decision_in_candidates : cs_task_ref candidates = task -> outside_candidates candidates d = false.
Proof.
  intros Ec. unfold outside_candidates. rewrite Ec, Htask, bool_decide_eq_true_2 by done. simpl.
  apply not_true_iff_false. intros (sel & Hsel%list_elem_of_In & Hno)%existsb_exists.
  destruct (joint_roles _ _ _ _ _ _ _ _ _ Hj) as (new & E & Hall). simpl in E. rewrite E in Hsel.
  apply list_elem_of_lookup in Hsel as [i Hi].
  destruct (Forall2_lookup_r _ _ _ _ _ Hall Hi) as (role & _ & Hr & (nodes & Hf & Hn) & _).
  rewrite Hr, Hf in Hno. simpl in Hno. by rewrite bool_decide_eq_true_2 in Hno.
Qed.
End Joint.
End Decision.

(** Costs do not change what is available. *)
Lemma priced_capacity s0 evidence s d prior l : with_policy_cost_evidence s0 evidence = Ok s ->
  capacity_selections c s group d prior l = capacity_selections c s0 group d prior l.
Proof.
  unfold with_policy_cost_evidence. destruct (policy_cost_loop _ _) as [costs|]; simpl; [|done].
  intros [= <-]. revert prior. induction l as [|x l IH]; intros prior; simpl; [done|].
  destruct (nv_node (sel_node_id x)) as [node|]; [|done]. destruct (cp_groups c !! group) as [g'|]; [|done].
  destruct (role_requirement g' (dc_task_ref d) (sel_role_id x)) as [role|]; simpl; [|done].
  match goal with |- match try_for ?f ?l with _ => _ end = _ =>
    replace (try_for f l) with (try_for (demand_check s0 d node prior (sel_role_id x)) l) by reflexivity end.
  destruct (try_for _ _); [|done]. apply IH.
Qed.

Lemma priced_version s0 evidence s : with_policy_cost_evidence s0 evidence = Ok s -> ss_version s = ss_version s0.
Proof. unfold with_policy_cost_evidence. destruct (policy_cost_loop _ _); simpl; by intros; simplify_eq. Qed.

(** The answer of the scheduler on the current snapshot is booked. *)
Lemma scheduled_booked max_expansions s0 evidence s context outcome d len :
  scheduling_snapshot_for_task c now group task = Some (Ok s0) ->
  with_policy_cost_evidence s0 evidence = Ok s ->
  schedule_task_with_snapshot_and_estimate max_expansions tt requirement candidates s context = Ok outcome ->
  selected_decision outcome = Some d -> tsc_now context = now ->
  task_duration requirement context = Some len -> (0 < len)%N ->
  validate_scheduling_cost_history c history (tr_mission_id task) (dc_policy_cost_evidence d) = Ok tt ->
  validate_topology_decision c d = Ok tt ->
  reserve_scheduled_task c history candidates group d now
    = Some (booked_plane c group d, Ok (ScheduledTaskReservation_new group d)).
Proof.
  intros Hs0 Hprice Hrun Hd Hnow Hlen Hpos Hcost Htopo.
  destruct (selected_decided _ _ _ _ _ _ _ _ Hrun Hd) as [Ht Hv _ Hends _ [Hw Hj] _ _ Hlatest].
  pose proof (schedule_unfold _ _ _ _ _ _ _ Hrun) as [Hcand _].
  assert (cs_task_ref candidates = task) as Hct.
  { revert Hcand. unfold validate_candidate_set. destruct (negb _) eqn:Hb; [done|]. by bool_facts. }
  unfold ends_of in Hends. rewrite Hlen in Hends. simpl in Hends.
  unfold ends_of in Hj. rewrite Hlen in Hj. simpl in Hj. rewrite <- Hends in Hj.
  assert (dc_starts_at d < dc_starts_at d + len)%N as Hlt by lia.
  assert (dc_snapshot_version d = cp_calendar_version c) as Hver.
  { rewrite Hv, (priced_version _ _ _ Hprice).
    destruct (snapshot_for_task_frame _ _ _ _ _ Hs0) as (? & ? & _ & _ & _ & E). done. }
  unfold reserve_scheduled_task.
  assert (booking_check c history candidates group d now = Ok g) as ->.
  { unfold booking_check, find_group. rewrite Ht, Hcost, Hver, N.eqb_refl, Hends, (sb_group Hsb), (sb_task Hsb).
    simpl. unfold contains_key. rewrite (sb_unbooked Hsb). simpl.
    replace (dc_starts_at d + len <=? dc_starts_at d)%N with false by (symmetry; apply N.leb_gt; lia).
    destruct (is_some_and _ (dc_latest_activation_at d)) eqn:Hla.
    { apply is_some_and_true in Hla as (l & El & Hl%N.ltb_lt). specialize (Hlatest l El). lia. }
    replace (dc_starts_at d <? now)%N with false
      by (symmetry; apply N.ltb_ge; destruct Hw as [_ Hw _ _]; lia).
    rewrite (sb_mission Hsb), (sb_ready Hsb), !bool_decide_eq_true_2 by done. simpl.
    rewrite (decision_matches_group s d _ Ht Hends Hlt Hj). simpl.
    by rewrite (decision_in_candidates s d Ht Hj Hct). }
  rewrite Ht, (selection_checks_joint s d _ _ _ _ Hj (fun _ H => H) (dc_selections d) eq_refl). simpl.
  assert (u64_checked_add (cp_calendar_version c) 1 = Some (cp_calendar_version c + 1)%N) as ->.
  { apply u64_checked_add_Some. split; [done|]. apply (sb_version Hsb). }
  rewrite Hs0. simpl. rewrite Htopo. unfold validate_capacity_decision.
  rewrite <- (priced_capacity _ _ _ _ _ _ Hprice).
  rewrite (capacity_selections_joint s d Ht _ _ _ _ Hj (fun _ H => H) (dc_selections d) eq_refl). simpl.
  unfold booked_plane. by rewrite Ht.
Qed.
End Booking.
