(* ===== verification/PropsCalendar.v ===== *)
(** * Properties of the calendar *)

From S2P Require Import Prelude Identity Execution StateModel Session Resource RelationSpec DecisionPolicy.
From S2P Require Import SchedulerPolicy Sorting Quota NodeIdentity NodeState Capacity.
From S2P Require Import Mission TaskExecution Group ControlPlane Actors GroupLifecycle GroupBinding.
From S2P Require Import GroupRelease RoleRecovery ControlSteps SchedulerFacts ScheduleFacts PropsGroup.
From S2P Require Import Topology Calendar CalendarFacts CalendarBooking Scheduler.

Open Scope string_scope.

(** ** Lists of bookings *)





(** ** Disjoint bookings *)






(** ** Bookings of scheduled Tasks *)

(** What the joint scheduler selects can be booked.  For a Ready, unbooked Task of a Group
    whose candidates are eligible, a decision made on the current snapshot of the Task, with or
    without deployment costs, is accepted by [reserve_scheduled_task] at the same instant: no
    check of capacity, requirements, candidates or time refuses it, and the calendar gains
    exactly this booking in the next generation.  The declared booking budget and the cost
    evidence, which the scheduler does not read, are hypotheses. *)
Theorem schedule_bookable `{Serde, NodeView, MetricsCodec} (c : ControlPlane) (history : list CostPolicyRegistry)
    (group : ExecutionGroupId) (g : ExecutionGroup) (t : TaskExecution) (requirement : TaskRequirement)
    (candidates : CandidateSet) (now len max_expansions : N) (s0 s : SchedulingSnapshot)
    (evidence : list SchedulingCostAssessment) (context : TaskSchedulingContext)
    (outcome : TaskSchedulingOutcome) (d : TaskSchedulingDecision)
    (Hsb : schedulable c group g t requirement candidates now)
    (Hs0 : scheduling_snapshot_for_task c now group (tk_task_ref requirement) = Some (Ok s0))
    (Hprice : with_policy_cost_evidence s0 evidence = Ok s)
    (Hrun : schedule_task_with_snapshot_and_estimate max_expansions tt requirement candidates s context = Ok outcome)
    (Hd : selected_decision outcome = Some d) (Hnow : tsc_now context = now)
    (Hlen : task_duration requirement context = Some len) (Hpos : (0 < len)%N)
    (Hcost : validate_scheduling_cost_history c history (tr_mission_id (tk_task_ref requirement))
               (dc_policy_cost_evidence d) = Ok tt)
    (Htopology : validate_topology_decision c d = Ok tt) :
  exists c', reserve_scheduled_task c history candidates group d now
               = Some (c', Ok (ScheduledTaskReservation_new group d)) /\
    scheduled_task c' (tk_task_ref requirement) = Some (ScheduledTaskReservation_new group d) /\
    (forall task, task <> tk_task_ref requirement -> scheduled_task c' task = scheduled_task c task) /\
    cp_calendar_version c' = (cp_calendar_version c + 1)%N.
Proof.
  exists (booked_plane c group d). split; [by eapply scheduled_booked|].
  destruct (selected_decided _ _ _ _ _ _ _ _ Hrun Hd) as [Ht _ _ _ _ _ _ _ _].
  unfold scheduled_task. simpl. rewrite Ht. split_and!; [by rewrite lookup_insert_eq| |done].
  intros task Hne. by rewrite lookup_insert_ne.
Qed.

(** C19. The calendar grows only by admitted decisions.  In one step, a booking that was not
    live before was reserved in that step, for its Group, by a decision that uses the current
    calendar generation, starts now or later and passed every admission check; all other
    operations only consume, activate or invalidate bookings. *)
Theorem bookings_only_admitted `{Serde, MetricsCodec} (c c' : ControlPlane) (task : TaskRef)
    (r : ScheduledTaskReservation) (Hstep : calendar_step c c') (Hb : booked c' task r) :
  (exists r0, booked c task r0 /\ st_decision r0 = st_decision r) \/
  exists (view : NodeView) history candidates now s g,
    admitted c history candidates (st_group_id r) (st_decision r) now s g /\
    cp_scheduled_tasks c !! task = None /\ dc_task_ref (st_decision r) = task /\
    dc_snapshot_version (st_decision r) = cp_calendar_version c /\
    (now <= dc_starts_at (st_decision r))%N /\ cp_calendar_version c' = (cp_calendar_version c + 1)%N.
Proof.
  destruct Hstep as [Hs|view history candidates group d now o E|registry expected o E].
  - left. destruct Hb as [Hr Hp]. destruct (bl_booking c c' (control_step_books_less _ _ Hs) task r Hr)
      as (r0 & Hr0 & Ed & Hp0). exists r0. split; [split; auto|done].
  - apply reserve_inv in E as [[-> _]|(-> & _ & s & g & Had)]; [left; eauto|].
    destruct Hb as [Hr Hp]. simpl in Hr. destruct (decide (task = dc_task_ref d)) as [->|Hne].
    + rewrite lookup_insert_eq in Hr. simplify_eq. right. exists view, history, candidates, now, s, g.
      pose proof (ad_check _ _ _ _ _ _ _ _ Had) as (Hv & Hn & _ & _ & Hw & _)%booking_check_facts. done.
    + rewrite lookup_insert_ne in Hr by done. left. exists r. by split.
  - left. apply accept_inv in E as [[-> _]|(version & -> & _)]; exists r; by split.
Qed.

(** C20. A resource that is held or booked keeps its declared topology.  Whatever operation, booking
    or registry revision runs, the current entry of every resource with a reservation or
    a live booking is what it was before. *)
Theorem held_topology_fixed `{Serde, MetricsCodec} (c c' : ControlPlane) (id : ResourceId)
    (Hstep : calendar_step c c') (Hheld : id ∈ held_resources c) :
  current_entry c' id = current_entry c id.
Proof.
  destruct Hstep as [Hs|view history candidates group d now o E|registry expected o E].
  - unfold current_entry. by rewrite (bl_registry _ _ (control_step_books_less _ _ Hs)).
  - by apply reserve_inv in E as [[-> _]|(-> & _)].
  - apply accept_inv in E as [[-> _]|(version & -> & _ & _ & _ & _ & He)]; [done|].
    symmetry. by apply He.
Qed.

(** ** A run: two Missions want one arm

    Two Groups of one Task each need the exclusive resource of one Node for ten milliseconds.
    The second decision is made on the calendar that holds the first booking. *)

#[export] Instance fk_codec : MetricsCodec := fun _ => None.

Definition fk_mission (m : string) : MissionId := fg_id m.
Definition fk_group (m : string) : ExecutionGroupId := fg_id ("g" ++ m).
Definition fk_task (m : string) : TaskRef := MkTaskRef (fk_mission m) (fg_id "pick").
Definition fk_lead : RoleRequirement := fg_role "lead" "a" fg_exclusive.
Definition fk_requirement (m : string) : TaskRequirement :=
  MkTaskRequirement (fk_task m) [fk_lead] (MkTaskTiming 0 None None (Some 10%N)).
Definition fk_plan (m : string) : Result MissionPlan DomainError :=
  MissionPlan_new_with_actors (MkGoal (fk_mission m) "pick the crate") [MkActor (fg_id "a") None]
    (MkTaskGraph (fk_mission m)
       [MkPlannedTask "pick" (fk_requirement m) {[fg_id "lead" := fg_intent]} []
          (MkContinuity (fg_id "ctx") {[fg_id "lead" := fg_id "a"]} ∅ None) ExecutionReport "picked"])
    [MkContext (fg_id "ctx") [MkContextRole (fg_id "a") (fg_id "a") []] [] [] Independent None None].

Definition fk_ready (m : string) (s : option ControlPlane) : option ControlPlane :=
  match fk_plan m with
  | Ok p => fg_then (fg_then s (fun c => create_mission_group c (fk_group m) p))
              (fun c => ready_task_execution c (fk_group m) (fk_task m))
  | Err _ => None
  end.

#[export] Instance fk_view : NodeView := fg_view "n1" "arm".

Definition fk_candidates (m : string) : CandidateSet :=
  MkCandidateSet (fk_task m) [MkRoleCandidates (fg_id "lead") [fg_id "n1"]] ∅ ∅ [] ∅ None.
Definition fk_context : TaskSchedulingContext := MkSchedulingContext 0 20 None.

Definition fk_snapshot (m : string) (c : ControlPlane) : SchedulingSnapshot :=
  match scheduling_snapshot_for_task c 20 (fk_group m) (fk_task m) with
  | Some (Ok s) => s
  | _ => SchedulingSnapshot_empty
  end.
Definition fk_outcome (m : string) (c : ControlPlane) : TaskSchedulingOutcome :=
  match schedule_task_with_snapshot_and_estimate DEFAULT_SEARCH_EXPANSIONS tt (fk_requirement m)
          (fk_candidates m) (fk_snapshot m c) fk_context with
  | Ok outcome => outcome
  | Err _ => Deferred
  end.
Definition fk_decision (m : string) (c : ControlPlane) : TaskSchedulingDecision :=
  default (MkDecision (fk_task m) [] 0 None None 0 0 None [] []) (selected_decision (fk_outcome m c)).
Definition fk_booked (m : string) (s : option ControlPlane) : option ControlPlane :=
  fg_then s (fun c => reserve_scheduled_task c [] (fk_candidates m) (fk_group m) (fk_decision m c) 20).

(** The arm has declared bounds; the second revision adds a dock beside it. *)
Definition fk_entry (name : string) (x : Z) : ResourceTopologyEntry :=
  MkTopologyEntry (fg_id name) (fg_id "n1") Space
    (Some (MkFootprint "cell" "map" "r1" (MkMm3 x 0 0) (MkMm3 (x + 100) 100 100) 5)) None [].
Definition fk_registry (revision : N) (entries : list ResourceTopologyEntry) : ResourceTopologyRegistry :=
  MkTopology "roboguide.resource-topology/v0.1" "site" revision "controller_receive_time" 1000 1000 1000 entries.
Definition fk_start : option ControlPlane :=
  fg_then (Some ControlPlane_new)
    (fun c => accept_resource_topology_registry c (fk_registry 1 [fk_entry "arm" 0]) 0).

Definition fk_both : option ControlPlane := fk_ready "m2" (fk_ready "m1" fk_start).
Definition fk_first : option ControlPlane := fk_booked "m1" fk_both.
Definition fk_second : option ControlPlane := fk_booked "m2" fk_first.
Definition fk_revised : option ControlPlane :=
  fg_then fk_second
    (fun c => accept_resource_topology_registry c (fk_registry 2 [fk_entry "arm" 0; fk_entry "dock" 500]) 1).







Definition fk_c : ControlPlane := fg_get fk_first.
Definition fk_g : ExecutionGroup :=
  match cp_groups fk_c !! fk_group "m2" with
  | Some g => g
  | None => MkGroup None None fg_group fg_mission fg_task [] ∅ ∅ GlBound ∅ ∅ ∅ []
  end.
Definition fk_t : TaskExecution :=
  default (TaskExecution_new fg_task (fg_id "ctx") ∅ ∅) (task_execution fk_g (fk_task "m2")).

Lemma fk_global : resources_global.
Proof.
  assert (forall n l r, registered_resources n = Some l -> r ∈ l -> r = MkResource (fg_id "arm") Space 1 Exclusive None)
    as Hone.
  { intros n l r. unfold registered_resources. simpl. destruct (bool_decide _); [|done].
    intros [= <-] ->%list_elem_of_singleton. done. }
  intros n1 n2 l1 l2 r1 r2 Hn1 Hn2 Hr1 Hr2 _. by rewrite (Hone n1 l1 r1), (Hone n2 l2 r2).
Qed.

Lemma fk_schedulable : schedulable fk_c (fk_group "m2") fk_g fk_t (fk_requirement "m2") (fk_candidates "m2") 20.
Proof.
  split.
  1-5: vm_compute; reflexivity.
  - apply (bool_decide_unpack _). vm_compute. exact I.
  - apply (bool_decide_unpack _). vm_compute. exact I.
  - intros role ->%list_elem_of_singleton. vm_compute. reflexivity.
  - done.
  - exact fk_global.
  - vm_compute. discriminate.
Qed.

Lemma schedule_bookable_witness :
  exists c', reserve_scheduled_task fk_c [] (fk_candidates "m2") (fk_group "m2") (fk_decision "m2" fk_c) 20
               = Some (c', Ok (ScheduledTaskReservation_new (fk_group "m2") (fk_decision "m2" fk_c))) /\
    dc_starts_at (fk_decision "m2" fk_c) = 30%N.
Proof.
  destruct (schedule_bookable fk_c [] (fk_group "m2") fk_g fk_t (fk_requirement "m2") (fk_candidates "m2") 20 10
    DEFAULT_SEARCH_EXPANSIONS (fk_snapshot "m2" fk_c) (fk_snapshot "m2" fk_c) [] fk_context (fk_outcome "m2" fk_c)
    (fk_decision "m2" fk_c) fk_schedulable) as (c' & E & _);
    [vm_compute; reflexivity..|]. exists c'. split; [exact E|vm_compute; reflexivity].
Defined.

Lemma fk_step : calendar_step fk_c (fg_get fk_second).
Proof.
  apply (cs_reserve _ _ fk_view [] (fk_candidates "m2") (fk_group "m2") (fk_decision "m2" fk_c) 20
           (Ok (ScheduledTaskReservation_new (fk_group "m2") (fk_decision "m2" fk_c)))).
  vm_compute. reflexivity.
Qed.

Lemma bookings_only_admitted_witness :
  cp_scheduled_tasks fk_c !! fk_task "m2" = None /\
  exists (view : NodeView) history candidates now s g,
    admitted fk_c history candidates (fk_group "m2") (fk_decision "m2" fk_c) now s g.
Proof.
  assert (cp_scheduled_tasks fk_c !! fk_task "m2" = None) as Hn by (vm_compute; reflexivity). split; [exact Hn|].
  destruct (bookings_only_admitted fk_c (fg_get fk_second) (fk_task "m2")
    (ScheduledTaskReservation_new (fk_group "m2") (fk_decision "m2" fk_c)) fk_step) as [(r0 & [Hr0 _] & _)|Had].
  - split; vm_compute; reflexivity.
  - by rewrite Hn in Hr0.
  - destruct Had as (view & history & candidates & now & s & g & Had & _). by exists view, history, candidates, now, s, g.
Defined.

Lemma held_topology_fixed_witness :
  current_entry (fg_get fk_revised) (fg_id "arm") = Some (fk_entry "arm" 0) /\
  cp_resource_topology_registry (fg_get fk_revised) <> cp_resource_topology_registry (fg_get fk_second).
Proof.
  split; [|apply (bool_decide_unpack _); vm_compute; exact I].
  transitivity (current_entry (fg_get fk_second) (fg_id "arm")); [|vm_compute; reflexivity].
  apply held_topology_fixed.
  - apply (cs_topology _ _ (fk_registry 2 [fk_entry "arm" 0; fk_entry "dock" 500]) 1 (Ok tt)). vm_compute. reflexivity.
  - apply (bool_decide_unpack _). vm_compute. exact I.
Defined.
