(* ===== verification/Evidence.v ===== *)
(** * Measurement evidence and policy registries of Control

    [core/control/src]: [verifier_registry.rs] (frozen verifier sources, continuous watches,
    admitted evidence), [mission_goal.rs] (frozen goal contracts and their receipts),
    [belief.rs] and [decision_policy.rs] (policy registries with their histories),
    [tenant.rs] (migration of tenants) and the administration of [node_identity.rs], each
    with the check of its restored state.  [None] is a panic: an [expect] on an encoding. *)

From S2P Require Import Prelude Identity Execution StateModel Session Resource RelationSpec DecisionPolicy.
From S2P Require Import Scheduler SchedulerPolicy Sorting Quota NodeIdentity NodeState Capacity.
From S2P Require Import Mission TaskExecution Group ControlPlane Registries.

Open Scope string_scope.

(** ** State

    A registry with its retained revisions, and the fields of [ControlPlane] that hold
    registries and evidence beside those of the record [ControlPlane]. *)

Record Versioned (R : Type) := MkVersioned { ver_current : option R; ver_history : gmap N R }.
Arguments MkVersioned {R} _ _.
Arguments ver_current {R} _.
Arguments ver_history {R} _.

Record MissionTenantMigration := MkTenantMigration {
  tm_command_id : string;
  tm_mission_id : MissionId;
  tm_tenant_id : string;
  tm_source_plan_digest : string
}.

#[export] Instance MissionTenantMigration_eq_dec : EqDecision MissionTenantMigration.
Proof. solve_decision. Defined.

Record MissionTenantMigrationReceipt := MkMigrationReceipt {
  tmr_command : MissionTenantMigration;
  tmr_authority_subject : string;
  tmr_accepted_at_ms : N
}.

Record EvidencePlane := MkEvidencePlane {
  vp_control : ControlPlane;
  vp_operator_authorization : option OperatorAuthorization;
  vp_belief_policy : Versioned BeliefPolicyRegistry;
  vp_decision_policy : Versioned DecisionPolicyRegistry;
  vp_semantic_verifier : Versioned SemanticVerifierRegistry;
  vp_semantic_verifier_receipts : gmap string SemanticVerifierReceipt;
  vp_mission_verifier_sources : gmap string SemanticVerifierSource;
  vp_semantic_verifier_watches : gmap string SemanticVerifierWatch;
  vp_mission_goal_contracts : gmap MissionId MissionGoalContract;
  vp_mission_goal_receipts : gmap string MissionGoalReceipt;
  vp_tenant_migrations : gmap string MissionTenantMigrationReceipt
}.

Definition EvidencePlane_new : EvidencePlane :=
  MkEvidencePlane ControlPlane_new None (MkVersioned None ∅) (MkVersioned None ∅) (MkVersioned None ∅)
    ∅ ∅ ∅ ∅ ∅ ∅.

Definition set_control (c : ControlPlane) (p : EvidencePlane) : EvidencePlane :=
  MkEvidencePlane c (vp_operator_authorization p) (vp_belief_policy p) (vp_decision_policy p)
    (vp_semantic_verifier p) (vp_semantic_verifier_receipts p) (vp_mission_verifier_sources p)
    (vp_semantic_verifier_watches p) (vp_mission_goal_contracts p) (vp_mission_goal_receipts p)
    (vp_tenant_migrations p).
Definition set_operator (a : option OperatorAuthorization) (p : EvidencePlane) : EvidencePlane :=
  MkEvidencePlane (vp_control p) a (vp_belief_policy p) (vp_decision_policy p)
    (vp_semantic_verifier p) (vp_semantic_verifier_receipts p) (vp_mission_verifier_sources p)
    (vp_semantic_verifier_watches p) (vp_mission_goal_contracts p) (vp_mission_goal_receipts p)
    (vp_tenant_migrations p).
Definition set_belief (v : Versioned BeliefPolicyRegistry) (p : EvidencePlane) : EvidencePlane :=
  MkEvidencePlane (vp_control p) (vp_operator_authorization p) v (vp_decision_policy p)
    (vp_semantic_verifier p) (vp_semantic_verifier_receipts p) (vp_mission_verifier_sources p)
    (vp_semantic_verifier_watches p) (vp_mission_goal_contracts p) (vp_mission_goal_receipts p)
    (vp_tenant_migrations p).
Definition set_decision (v : Versioned DecisionPolicyRegistry) (p : EvidencePlane) : EvidencePlane :=
  MkEvidencePlane (vp_control p) (vp_operator_authorization p) (vp_belief_policy p) v
    (vp_semantic_verifier p) (vp_semantic_verifier_receipts p) (vp_mission_verifier_sources p)
    (vp_semantic_verifier_watches p) (vp_mission_goal_contracts p) (vp_mission_goal_receipts p)
    (vp_tenant_migrations p).
Definition set_verifiers (v : Versioned SemanticVerifierRegistry)
    (receipts : gmap string SemanticVerifierReceipt) (sources : gmap string SemanticVerifierSource)
    (watches : gmap string SemanticVerifierWatch) (p : EvidencePlane) : EvidencePlane :=
  MkEvidencePlane (vp_control p) (vp_operator_authorization p) (vp_belief_policy p)
    (vp_decision_policy p) v receipts sources watches (vp_mission_goal_contracts p)
    (vp_mission_goal_receipts p) (vp_tenant_migrations p).
Definition set_goals (contracts : gmap MissionId MissionGoalContract)
    (receipts : gmap string MissionGoalReceipt) (p : EvidencePlane) : EvidencePlane :=
  MkEvidencePlane (vp_control p) (vp_operator_authorization p) (vp_belief_policy p)
    (vp_decision_policy p) (vp_semantic_verifier p) (vp_semantic_verifier_receipts p)
    (vp_mission_verifier_sources p) (vp_semantic_verifier_watches p) contracts receipts
    (vp_tenant_migrations p).
Definition set_migrations (m : gmap string MissionTenantMigrationReceipt) (p : EvidencePlane)
  : EvidencePlane :=
  MkEvidencePlane (vp_control p) (vp_operator_authorization p) (vp_belief_policy p)
    (vp_decision_policy p) (vp_semantic_verifier p) (vp_semantic_verifier_receipts p)
    (vp_mission_verifier_sources p) (vp_semantic_verifier_watches p) (vp_mission_goal_contracts p)
    (vp_mission_goal_receipts p) m.

(** The digest stands for the registry in [ControlPlane]: a committed plan carries it. *)
Definition set_identity_registry (identity : option NodeIdentityRegistry) (digest : option string)
    (c : ControlPlane) : ControlPlane :=
  MkControlPlane (cp_groups c) (cp_reservations c) (cp_capacity c) (cp_quota_unaccounted_resources c)
    (cp_scheduled_tasks c) (cp_pending_recovery_commitments c) (cp_actor_bindings c)
    (cp_actor_node_constraints c) (cp_actor_candidate_restrictions c)
    (cp_physical_entity_registry c) (cp_registry_provenance c) (cp_mission_binding_semantics c)
    (cp_mission_tenants c) identity digest
    (cp_resource_topology_registry c) (cp_resource_topology_history c) (cp_events c).

Abbreviation EvidenceStep A := (option (EvidencePlane * Result A ControlError)).

Definition decline {A} (p : EvidencePlane) (reason : string) : EvidenceStep A :=
  Some (p, Err (InvalidProposal reason)).

Definition evidence_tenant (p : EvidencePlane) (mission : MissionId) : option string :=
  mission_tenant (vp_control p) mission.

(** ** Revisioned registries *)

Section Versions.
Context {R : Type} `{Registry R}.

Inductive Admission := AlreadyCurrent | NewRevision.

(** The [match] on the current registry with which each [accept_*] starts. *)
Definition admit_revision (conflict initial : string) (v : Versioned R) (next : R) (expected : N)
  : Result Admission string :=
  match ver_current v with
  | Some previous =>
      if bool_decide (previous = next) && (reg_revision previous =? expected)%N then Ok AlreadyCurrent else
      if negb (reg_revision previous =? expected)%N then Err conflict else
      let? _s := reg_successor previous next in Ok NewRevision
  | None => if (expected =? 0)%N && (reg_revision next =? 1)%N then Ok NewRevision else Err initial
  end.

Definition install (v : Versioned R) (next : R) : Versioned R :=
  MkVersioned (Some next) (<[reg_revision next := next]> (ver_history v)).

(** One retained revision after the one before it. *)
Definition history_step (conflict start : string) (previous : option R) (kv : N * R)
  : Result (option R) string :=
  let '(revision, registry) := kv in
  let? _v := reg_validate registry in
  if negb (revision =? reg_revision registry)%N then Err conflict else
  match previous with
  | Some old => let? _s := reg_successor old registry in Ok (Some registry)
  | None => if negb (revision =? 1)%N then Err start else Ok (Some registry)
  end.

Definition replay_history (conflict start : string) (history : gmap N R) : Result (option R) string :=
  try_fold (history_step conflict start) None (btree_iter history).
End Versions.

(** ** Operators and Node identities: [node_identity.rs] *)

Definition accept_operator_authorization (p : EvidencePlane) (profile : option OperatorAuthorization)
  : EvidenceStep unit :=
  match (match vp_operator_authorization p, profile with
         | Some previous, Some next => operator_validates_successor previous next
         | None, Some next => OperatorAuthorization_validate next
         | Some _, None => Err "operator authorization cannot downgrade to a static profile"
         | None, None => Ok tt
         end) with
  | Err e => decline p e
  | Ok _ => Some (set_operator profile p, Ok tt)
  end.

(** [impl Display for IdentityError]. *)
Definition identity_error_to_string (e : IdentityError) : string :=
  match e with
  | NodeIdentity.InvalidField field => "Node identity " ++ field ++ " is invalid"
  | IeRevisionConflict => "Node identity revision conflicts"
  | InvalidTransition => "Node identity lifecycle transition is invalid"
  | IeRejected => "Node certificate is revoked, expired, or not admitted"
  end.

Definition put_identity (identity : NodeIdentityRegistry) (p : EvidencePlane) : EvidencePlane :=
  let c := vp_control p in
  set_control (set_identity_registry (Some identity) (cp_decision_policy_digest c) c) p.

Definition bootstrap_node_identity_registry (p : EvidencePlane) (registry : NodeIdentityRegistry)
  : EvidenceStep unit :=
  match NodeIdentityRegistry_validate registry with
  | Err e => Some (p, Err (InvalidLease (identity_error_to_string e)))
  | Ok _ =>
      if is_some (cp_node_identity_registry (vp_control p))
      then Some (p, Err (InvalidLease "Node identity authority is already installed"))
      else Some (put_identity registry p, Ok tt)
  end.

Definition apply_node_identity_command `{Serde} (p : EvidencePlane) (command : IdentityCommand)
    (now : TimestampMs) (subject : string) : EvidenceStep IdentityCommandReceipt :=
  match cp_node_identity_registry (vp_control p) with
  | None => Some (p, Err (InvalidLease "dynamic Node identity profile is not enabled"))
  | Some registry =>
      applied ← apply_command registry command now subject;
      match applied with
      | Err e => Some (p, Err (InvalidLease (identity_error_to_string e)))
      | Ok (next, receipt) => Some (put_identity next p, Ok receipt)
      end
  end.

Definition replace_attestation_registry (p : EvidencePlane) (registry : NodeIdentityRegistry)
  : EvidenceStep unit :=
  match NodeIdentityRegistry_validate registry with
  | Err e => Some (p, Err (InvalidLease (identity_error_to_string e)))
  | Ok _ =>
      match cp_node_identity_registry (vp_control p) with
      | None => Some (p, Err (InvalidLease "Node registry is absent"))
      | Some previous =>
          if registry_authority_changed previous registry
          then Some (p, Err (InvalidLease "attestation update attempted to change certificate authority"))
          else Some (put_identity registry p, Ok tt)
      end
  end.

(** ** Belief policies: [belief.rs] *)

(** The registered tenant of a Node; without identities there is one tenant. *)
Definition node_of_tenant (p : EvidencePlane) (node : NodeId) (tenant : string) : bool :=
  match cp_node_identity_registry (vp_control p) with
  | None => (tenant =? "local")%string
  | Some identities =>
      is_some_and (fun identity => (ni_tenant_id identity =? tenant)%string)
        (nr_records identities !! as_str node)
  end.

Definition state_source_visible_to_tenant (p : EvidencePlane) (source : StateSource) (tenant : string) : bool :=
  match source with
  | SourceNode node _ => node_of_tenant p node tenant
  | SourceRoboGuide component =>
      is_some_and (fun r => existsb (fun policy =>
          (bp_tenant_id policy =? tenant)%string
          && (component =? "belief/" ++ tenant ++ "/" ++ bp_policy_id policy)%string)
          (btree_values (br_policies r))) (ver_current (vp_belief_policy p))
      || is_some_and (fun r => existsb (fun source =>
          (vs_tenant_id source =? tenant)%string
          && (component =? "verifier/" ++ tenant ++ "/" ++ vs_source_id source)%string)
          (btree_values (vr_sources r))) (ver_current (vp_semantic_verifier p))
  end.

Definition belief_source_check (p : EvidencePlane) (policy : BeliefPolicy) (source : StateSource)
  : Result unit string :=
  match source_node_id source with
  | None => Err "Belief inputs must have raw Node attribution"
  | Some node =>
      if node_of_tenant p node (bp_tenant_id policy) then Ok tt
      else Err "Belief source crosses tenant identity authority"
  end.

Definition accept_belief_policy_registry (p : EvidencePlane) (next : BeliefPolicyRegistry) (expected : N)
  : EvidenceStep unit :=
  match (let? _v := BeliefPolicyRegistry_validate next in
         admit_revision "Belief registry expected revision conflicts"
           "Belief registry expected revision conflicts" (vp_belief_policy p) next expected) with
  | Err e => decline p e
  | Ok AlreadyCurrent => Some (p, Ok tt)
  | Ok NewRevision =>
      if (1024 <=? N.of_nat (size (ver_history (vp_belief_policy p))))%N then decline p "Belief history is full" else
      match try_for (fun policy => try_for (belief_source_check p policy)
                       (bset_iter (ep_allowed_sources (bp_admission policy))))
              (btree_values (br_policies next)) with
      | Err e => decline p e
      | Ok _ => Some (set_belief (install (vp_belief_policy p) next) p, Ok tt)
      end
  end.

Definition validate_belief_policy_checkpoint (p : EvidencePlane) : Result unit string :=
  let v := vp_belief_policy p in
  if (1024 <? N.of_nat (size (ver_history v)))%N then Err "Belief history bounds differ" else
  let? previous := replay_history "Belief history revision conflicts"
                     "Belief history does not start at one" (ver_history v) in
  if negb (bool_decide (ver_current v = previous))
  then Err "Belief current authority differs from retained history" else Ok tt.

(** ** Decision policies: [decision_policy.rs]

    [policy_text] is what serde writes for a registry. *)

Class PolicyCodec := policy_text : DecisionPolicyRegistry -> Result string string.

Definition registry_digest `{Serde, PolicyCodec} (r : DecisionPolicyRegistry) : Result string string :=
  let? text := policy_text r in Ok ("sha256:" ++ sha256_hex text).

(** A named producer of the tenant: [component.starts_with(format!("{kind}/{tenant}/"))]. *)
Definition named_source_of (tenant : string) (source : StateSource) (p : EvidencePlane) : bool :=
  match source with
  | SourceNode node _ => node_of_tenant p node tenant
  | SourceRoboGuide component =>
      is_some (strip_prefix ("belief/" ++ tenant ++ "/") component)
      || is_some (strip_prefix ("verifier/" ++ tenant ++ "/") component)
  end.

Definition validate_decision_registry_scope (p : EvidencePlane) (r : DecisionPolicyRegistry)
  : Result unit string :=
  let? _c := try_for (fun cost =>
               if node_of_tenant p (cp_node_id cost) (cp_tenant_id cost) then Ok tt
               else Err "cost source is outside its tenant/candidate authority")
               (btree_values (dr_scheduling_costs r)) in
  try_for (fun gate => try_for (fun source =>
             if named_source_of (dg_tenant_id gate) source p then Ok tt
             else Err "decision source is outside its tenant/producer authority")
             (bset_iter (ep_allowed_sources (dg_policy gate)))) (btree_values (dr_gates r)).

Definition accept_decision_policy_registry `{Serde, PolicyCodec} (p : EvidencePlane)
    (registry : DecisionPolicyRegistry) (expected : N) : EvidenceStep unit :=
  match (let? _v := DecisionPolicyRegistry_validate registry in
         admit_revision "decision registry expected revision conflicts"
           "initial decision registry requires revision one" (vp_decision_policy p) registry expected) with
  | Err e => decline p e
  | Ok AlreadyCurrent => Some (p, Ok tt)
  | Ok NewRevision =>
      if (1024 <=? N.of_nat (size (ver_history (vp_decision_policy p))))%N
      then decline p "retained policy history is full" else
      match validate_decision_registry_scope p registry with
      | Err e => decline p e
      | Ok _ =>
          let c := vp_control p in
          Some (set_control (set_identity_registry (cp_node_identity_registry c)
                               (result_ok (registry_digest registry)) c)
                  (set_decision (install (vp_decision_policy p) registry) p), Ok tt)
      end
  end.

(** Without the receipts of administration commands, which name registries of every kind. *)
Definition validate_decision_policy_history (p : EvidencePlane) : Result unit string :=
  let v := vp_decision_policy p in
  if (1024 <? N.of_nat (size (ver_history v)))%N then Err "policy history is invalid" else
  let? previous := replay_history "policy history revision conflicts"
                     "policy history does not start at one" (ver_history v) in
  match ver_current v with
  | Some registry =>
      let? _v := DecisionPolicyRegistry_validate registry in
      let? _s := validate_decision_registry_scope p registry in
      if negb (bool_decide (previous = Some registry))
      then Err "policy registry lacks its original history" else Ok tt
  | None =>
      if negb (bool_decide (ver_history v = ∅)) then Err "policy history has no current authority" else Ok tt
  end.

(** ** Tenants: [tenant.rs] *)

Definition migration_refused (p : EvidencePlane) (command : MissionTenantMigration)
    (current_plan_digest subject : string) : bool :=
  (16384 <=? N.of_nat (size (vp_tenant_migrations p)))%N
  || is_blank (tm_command_id command) || (128 <? str_len (tm_command_id command))%N
  || is_blank subject || (256 <? str_len subject)%N
  || negb (tm_source_plan_digest command =? current_plan_digest)%string
  || negb (digest_text current_plan_digest).

(** The assignments of every Task of the Groups of one Mission. *)
Definition mission_assignments (c : ControlPlane) (mission : MissionId) : list RoleAssignment :=
  List.filter (fun g => bool_decide (eg_mission_id g = mission)) (btree_values (cp_groups c))
  ≫= fun g => btree_values (eg_task_executions g) ≫= te_assignments.

Definition foreign_assignment (c : ControlPlane) (command : MissionTenantMigration) : bool :=
  is_some_and (fun registry =>
    existsb (fun a => is_none_or (fun owner => negb (ni_tenant_id owner =? tm_tenant_id command)%string)
                        (nr_records registry !! as_str (as_node_id a)))
      (mission_assignments c (tm_mission_id command))) (cp_node_identity_registry c).

Definition migrate_mission_tenant (p : EvidencePlane) (command : MissionTenantMigration)
    (current_plan_digest subject : string) (now : TimestampMs)
  : EvidenceStep MissionTenantMigrationReceipt :=
  match vp_tenant_migrations p !! tm_command_id command with
  | Some previous =>
      if bool_decide (tmr_command previous = command) then Some (p, Ok previous)
      else decline p "tenant migration command conflicts"
  | None =>
      if migration_refused p command current_plan_digest subject
      then decline p "tenant migration source/command is invalid" else
      if is_some (evidence_tenant p (tm_mission_id command))
      then decline p "Mission already has immutable tenant ownership" else
      if foreign_assignment (vp_control p) command
      then decline p "tenant migration conflicts with existing physical ownership" else
      step ← register_mission_tenant (vp_control p) (tm_mission_id command) (tm_tenant_id command);
      match step with
      | (c, Err e) => Some (set_control c p, Err e)
      | (c, Ok _) =>
          let receipt := MkMigrationReceipt command subject now in
          Some (set_migrations (<[tm_command_id command := receipt]> (vp_tenant_migrations p))
                  (set_control c p), Ok receipt)
      end
  end.

Definition migration_invalid (p : EvidencePlane) (kv : string * MissionTenantMigrationReceipt) : bool :=
  let '(id, receipt) := kv in
  let command := tmr_command receipt in
  negb (id =? tm_command_id command)%string || is_blank id || (128 <? str_len id)%N
  || is_blank (tmr_authority_subject receipt) || (256 <? str_len (tmr_authority_subject receipt))%N
  || negb (bool_decide (evidence_tenant p (tm_mission_id command) = Some (tm_tenant_id command)))
  || negb (digest_text (tm_source_plan_digest command)).

Definition validate_tenant_checkpoint (p : EvidencePlane) : Result unit string :=
  if (16384 <? N.of_nat (size (vp_tenant_migrations p)))%N
     || existsb (migration_invalid p) (btree_iter (vp_tenant_migrations p))
  then Err "tenant migration checkpoint is invalid" else Ok tt.

Definition validate_mission_tenant_authority (c : ControlPlane) : Result unit ControlError :=
  if is_none (cp_node_identity_registry c) then Ok tt else
  try_for (fun g =>
    if is_none (mission_tenant c (eg_mission_id g))
       || existsb (fun a => negb (node_tenant_allowed c (eg_mission_id g) (as_node_id a)))
            (btree_values (eg_task_executions g) ≫= te_assignments)
    then Err (InvalidProposal
      "historical Mission requires trusted tenant/binding migration before lifecycle deployment")
    else Ok tt) (btree_values (cp_groups c)).

(** ** Verifiers: [verifier_registry.rs] *)

Definition json_number (n : N) : Json := JNumber (Z.of_N n).
Definition json_texts (s : gset string) : Json := JArray (JString <$> bset_iter s).

Definition verdict_name (v : SemanticVerdict) : string :=
  match v with Satisfied => "satisfied" | Unsatisfied => "unsatisfied" | VerdictUnknown => "unknown" end.
Definition finality_name (f : VerifierFinality) : string :=
  match f with Provisional => "provisional" | Final => "final" end.

Definition attempt_json (a : VerifierAttemptRef) : Json :=
  JObject [("role_id", json_id (va_role_id a)); ("attempt_id", JString (va_attempt_id a))].

(** [serde_json::to_vec(&evidence)]: fields in declaration order. *)
Definition evidence_json (e : SemanticVerifierEvidence) : Json :=
  JObject [("evidence_id", JString (ve_evidence_id e));
           ("source_id", JString (ve_source_id e));
           ("source_revision", json_number (ve_source_revision e));
           ("tenant_id", JString (ve_tenant_id e));
           ("task_ref", json_task_ref (ve_task_ref e));
           ("plan_digest", JString (ve_plan_digest e));
           ("attempts", JArray (attempt_json <$> ve_attempts e));
           ("predicate", JString (ve_predicate e));
           ("verdict", JString (verdict_name (ve_verdict e)));
           ("finality", JString (finality_name (ve_finality e)));
           ("source_observed_at_ms", json_number (ve_source_observed_at_ms e));
           ("valid_for_ms", json_number (ve_valid_for_ms e));
           ("sequence", json_number (ve_sequence e));
           ("artifact_digest", json_option_string (ve_artifact_digest e));
           ("artifact_size_bytes", json_option_number (ve_artifact_size_bytes e))].

(** [contract] as a JSON object with the keys in order. *)
Definition contract_json (c : CapabilityContractRef) : Json :=
  JObject [("name", JString (ccr_name c)); ("namespace", JString (ccr_namespace c));
           ("version", JString (ccr_version c))].

Section Verifiers.
Context `{Serde}.

Definition content_digest (value : Json) : Result string string :=
  let? text := json_to_vec value in Ok ("sha256:" ++ sha256_hex text).

(** The keys of the three maps: hexadecimal digests of complete identities. *)
Definition identity_key (value : Json) : option string :=
  sha256_hex <$> result_ok (json_to_vec value).
Definition verifier_task_key (task : TaskRef) : option string := identity_key (json_task_ref task).
Definition verifier_watch_key (task : TaskRef) (source : string) (attempts : list VerifierAttemptRef)
  : option string :=
  identity_key (JArray [json_task_ref task; JString source; JArray (attempt_json <$> attempts)]).
Definition verifier_receipt_key (source evidence : string) : option string :=
  identity_key (JArray [JString source; JString evidence]).

Definition registered_sources (p : EvidencePlane) : list SemanticVerifierSource :=
  match ver_current (vp_semantic_verifier p) with
  | Some registry => btree_values (vr_sources registry)
  | None => []
  end.

Definition registered_verifier_source (p : EvidencePlane) (spec : VerifierSatisfactionSpec)
    (tenant : string) : Result SemanticVerifierSource string :=
  match List.filter (fun source =>
          vs_enabled source && (vs_tenant_id source =? tenant)%string
          && bool_decide (vs_contract source = vs_verifier spec)
          && set_contains (vs_predicate spec) (vs_predicates source)) (registered_sources p) with
  | [source] => Ok source
  | _ => Err "Task requires one unique authorized verifier source"
  end.

(** The sources of the Tasks with a verifier, in plan order. *)
Fixpoint plan_sources (p : EvidencePlane) (tenant : string) (tasks : list PlannedTask)
  : option (Result (list (string * SemanticVerifierSource)) string) :=
  match tasks with
  | [] => Some (Ok [])
  | task :: tasks' =>
      match pt_satisfaction_basis task with
      | ExecutionReport => plan_sources p tenant tasks'
      | VerifierEvidence spec =>
          match registered_verifier_source p spec tenant with
          | Err e => Some (Err e)
          | Ok source =>
              key ← verifier_task_key (pt_task_ref task);
              rest ← plan_sources p tenant tasks';
              Some (let? sources := rest in Ok ((key, source) :: sources))
          end
      end
  end.

Definition freeze_verifier_sources_except (p : EvidencePlane) (plan : MissionPlan) (tenant : string)
    (completed : gset TaskId) : EvidenceStep unit :=
  sources ← plan_sources p tenant
    (List.filter (fun t => negb (set_contains (pt_task_id t) completed)) (tg_tasks (mp_task_graph plan)));
  match sources with
  | Err e => decline p e
  | Ok l =>
      let frozen := vp_mission_verifier_sources p in
      if (8192 <? N.of_nat (size frozen + length l))%N
      then decline p "frozen verifier source history is full" else
      if existsb (fun kv => is_some_and (fun old => negb (bool_decide (old = kv.2))) (frozen !! kv.1)) l
      then decline p "accepted Task verifier source cannot change" else
      Some (set_verifiers (vp_semantic_verifier p) (vp_semantic_verifier_receipts p)
              (foldl (fun m kv => <[kv.1 := kv.2]> m) frozen l) (vp_semantic_verifier_watches p) p, Ok tt)
  end.

Definition freeze_mission_verifier_sources (p : EvidencePlane) (plan : MissionPlan) (tenant : string)
  : EvidenceStep unit := freeze_verifier_sources_except p plan tenant ∅.

Definition completed_task_ids (g : ExecutionGroup) : gset TaskId :=
  list_to_set ((fun t => tr_task_id (te_task_ref t)) <$>
    List.filter (fun t => bool_decide (te_lifecycle t = TlCompleted)) (btree_values (eg_task_executions g))).

Definition freeze_revision_verifier_sources (p : EvidencePlane) (source_group : ExecutionGroupId)
    (plan : MissionPlan) (tenant : string) : EvidenceStep unit :=
  match cp_groups (vp_control p) !! source_group with
  | None => Some (p, Err (UnknownGroup source_group))
  | Some source =>
      if negb (bool_decide (eg_mission_id source = mp_mission_id plan))
      then decline p "revision verifier source belongs to another Mission"
      else freeze_verifier_sources_except p plan tenant (completed_task_ids source)
  end.

Definition task_verifier_source (p : EvidencePlane) (task : TaskRef)
  : option (option SemanticVerifierSource) :=
  key ← verifier_task_key task; Some (vp_mission_verifier_sources p !! key).

Definition monitor_semantic_verifier (p : EvidencePlane) (task : TaskRef) (plan_digest : string)
    (attempts : list VerifierAttemptRef) (now : TimestampMs) : EvidenceStep unit :=
  frozen ← task_verifier_source p task;
  match frozen with
  | Some source =>
      if negb (vs_continuous source) then Some (p, Ok tt) else
      key ← verifier_watch_key task (vs_source_id source) attempts;
      let watches := vp_semantic_verifier_watches p in
      if contains_key key watches then Some (p, Ok tt) else
      if (8192 <=? N.of_nat (size watches))%N then decline p "continuous verifier history is full" else
      match u64_checked_add now (vs_max_age_ms source) with
      | None => decline p "continuous verifier deadline overflows"
      | Some deadline =>
          Some (set_verifiers (vp_semantic_verifier p) (vp_semantic_verifier_receipts p)
                  (vp_mission_verifier_sources p)
                  (<[key := MkVerifierWatch task source plan_digest attempts now deadline]> watches) p, Ok tt)
      end
  | None => Some (p, Ok tt)
  end.

Definition accept_semantic_verifier_registry (p : EvidencePlane) (next : SemanticVerifierRegistry)
    (expected : N) : EvidenceStep unit :=
  match (let? _v := SemanticVerifierRegistry_validate next in
         admit_revision "semantic verifier expected revision conflicts"
           "semantic verifier expected revision conflicts" (vp_semantic_verifier p) next expected) with
  | Err e => decline p e
  | Ok AlreadyCurrent => Some (p, Ok tt)
  | Ok NewRevision =>
      if (1024 <=? N.of_nat (size (ver_history (vp_semantic_verifier p))))%N
      then decline p "semantic verifier history is full"
      else Some (set_verifiers (install (vp_semantic_verifier p) next) (vp_semantic_verifier_receipts p)
                   (vp_mission_verifier_sources p) (vp_semantic_verifier_watches p) p, Ok tt)
  end.

(** Evidence of a Mission belongs to its tenant; a Mission without one is local. *)
Definition tenant_matches (p : EvidencePlane) (mission : MissionId) (tenant : string) : bool :=
  match evidence_tenant p mission with
  | Some owner => (owner =? tenant)%string
  | None => is_none (cp_node_identity_registry (vp_control p)) && (tenant =? "local")%string
  end.

Definition evidence_unauthorized (p : EvidencePlane) (source : SemanticVerifierSource)
    (e : SemanticVerifierEvidence) (subject : string) : bool :=
  negb (vs_enabled source) || negb (vs_tenant_id source =? ve_tenant_id e)%string
  || negb (vs_revision source =? ve_source_revision e)%N
  || negb (set_contains subject (vs_producer_principals source))
  || negb (set_contains (ve_predicate e) (vs_predicates source))
  || (vs_max_age_ms source <? ve_valid_for_ms e)%N
  || negb (tenant_matches p (tr_mission_id (ve_task_ref e)) (ve_tenant_id e)).

(** The receipt is of the same source contract and Task and not older. *)
Definition sequence_taken (e : SemanticVerifierEvidence) (receipt : SemanticVerifierReceipt) : bool :=
  let old := vc_evidence receipt in
  (ve_source_id old =? ve_source_id e)%string && (ve_source_revision old =? ve_source_revision e)%N
  && bool_decide (ve_task_ref old = ve_task_ref e) && (ve_sequence e <=? ve_sequence old)%N.

Definition admit_semantic_verifier_evidence (p : EvidencePlane) (e : SemanticVerifierEvidence)
    (subject : string) (now : TimestampMs) : EvidenceStep SemanticVerifierReceipt :=
  match SemanticVerifierEvidence_validate e with
  | Err reason => decline p reason
  | Ok _ =>
      key ← verifier_receipt_key (ve_source_id e) (ve_evidence_id e);
      match content_digest (evidence_json e) with
      | Err reason => decline p reason
      | Ok digest =>
          match ver_current (vp_semantic_verifier p) with
          | None => decline p "semantic verifier registry is absent"
          | Some registry =>
              match vr_sources registry !! ve_source_id e with
              | None => decline p "semantic verifier source is not enrolled"
              | Some source =>
                  if evidence_unauthorized p source e subject
                  then decline p "semantic verifier source/tenant/principal/revision is not authorized" else
                  let receipts := vp_semantic_verifier_receipts p in
                  match receipts !! key with
                  | Some previous =>
                      if (vc_input_digest previous =? digest)%string then Some (p, Ok previous)
                      else decline p "semantic verifier evidence identity conflicts"
                  | None =>
                      if (8192 <=? N.of_nat (size receipts))%N
                         || existsb (sequence_taken e) (btree_values receipts)
                      then decline p "semantic verifier source sequence/history conflicts" else
                      match u64_checked_add now (ve_valid_for_ms e) with
                      | None => decline p "semantic verifier validity overflows"
                      | Some until =>
                          let receipt := MkVerifierReceipt e (vr_revision registry) digest subject now
                                           until false None in
                          Some (set_verifiers (vp_semantic_verifier p) (<[key := receipt]> receipts)
                                  (vp_mission_verifier_sources p) (vp_semantic_verifier_watches p) p,
                                Ok receipt)
                      end
                  end
              end
          end
      end
  end.

Definition mark_semantic_verifier_receipt (p : EvidencePlane) (source evidence : string) (applied : bool)
    (incident : option string) : EvidenceStep unit :=
  key ← verifier_receipt_key source evidence;
  match vp_semantic_verifier_receipts p !! key with
  | None => decline p "semantic verifier receipt is absent"
  | Some r =>
      if (vc_applied r && negb applied)
         || is_some_and (fun old => negb (bool_decide (incident = Some old))) (vc_incident r)
         || is_some_and (fun reason => is_blank reason || (256 <? str_len reason)%N) incident
      then decline p "semantic verifier disposition is invalid" else
      let marked := MkVerifierReceipt (vc_evidence r) (vc_registry_revision r) (vc_input_digest r)
                      (vc_authority_subject r) (vc_received_at_ms r) (vc_valid_until_ms r) applied incident in
      Some (set_verifiers (vp_semantic_verifier p)
              (<[key := marked]> (vp_semantic_verifier_receipts p))
              (vp_mission_verifier_sources p) (vp_semantic_verifier_watches p) p, Ok tt)
  end.

(** ** Restored verifiers *)

Definition receipt_source_differs (source : SemanticVerifierSource) (r : SemanticVerifierReceipt) : bool :=
  let e := vc_evidence r in
  negb (vs_enabled source) || negb (vs_revision source =? ve_source_revision e)%N
  || negb (vs_tenant_id source =? ve_tenant_id e)%string
  || negb (set_contains (vc_authority_subject r) (vs_producer_principals source))
  || negb (set_contains (ve_predicate e) (vs_predicates source))
  || (vs_max_age_ms source <? ve_valid_for_ms e)%N.

Definition retained_receipt_check (p : EvidencePlane) (kv : string * SemanticVerifierReceipt)
  : option (Result unit string) :=
  let '(key, r) := kv in
  let e := vc_evidence r in
  match (let? _v := SemanticVerifierEvidence_validate e in content_digest (evidence_json e)) with
  | Err reason => Some (Err reason)
  | Ok digest =>
      expected ← verifier_receipt_key (ve_source_id e) (ve_evidence_id e);
      let conflict := "semantic verifier receipt authority/timing is invalid" in
      Some (if negb (key =? expected)%string || negb (vc_input_digest r =? digest)%string
               || is_blank (vc_authority_subject r) then Err conflict else
            match u64_checked_add (vc_received_at_ms r) (ve_valid_for_ms e) with
            | None => Err "semantic verifier validity overflows"
            | Some until =>
                if negb (vc_valid_until_ms r =? until)%N
                   || negb (tenant_matches p (tr_mission_id (ve_task_ref e)) (ve_tenant_id e))
                then Err conflict else
                match (registry ← ver_history (vp_semantic_verifier p) !! vc_registry_revision r;
                       vr_sources registry !! ve_source_id e) with
                | None => Err "verifier receipt lacks original source contract"
                | Some source =>
                    if receipt_source_differs source r
                    then Err "verifier receipt original authorization differs" else Ok tt
                end
            end)
  end.

Definition watch_check (p : EvidencePlane) (kv : string * SemanticVerifierWatch)
  : option (Result unit string) :=
  let '(key, w) := kv in
  let conflict := "verifier watch authority/deadline differs" in
  expected ← verifier_watch_key (vw_task_ref w) (vs_source_id (vw_source w)) (vw_attempts w);
  frozen ← task_verifier_source p (vw_task_ref w);
  Some (if negb (key =? expected)%string || negb (bool_decide (frozen = Some (vw_source w)))
        then Err conflict else
        match u64_checked_add (vw_started_at_ms w) (vs_max_age_ms (vw_source w)) with
        | None => Err "verifier watch deadline overflows"
        | Some deadline =>
            if negb (vw_initial_deadline_ms w =? deadline)%N
               || (length (vw_attempts w) =? 0)%nat || (32 <? length (vw_attempts w))%nat
            then Err conflict else Ok tt
        end).

Definition source_in_history (p : EvidencePlane) (source : SemanticVerifierSource) : bool :=
  existsb (fun registry => bool_decide (vr_sources registry !! vs_source_id source = Some source))
    (btree_values (ver_history (vp_semantic_verifier p))).

Definition verifier_history_check (p : EvidencePlane) : Result unit string :=
  let v := vp_semantic_verifier p in
  if (1024 <? N.of_nat (size (ver_history v)))%N || (8192 <? N.of_nat (size (vp_semantic_verifier_receipts p)))%N
  then Err "semantic verifier checkpoint bounds are invalid" else
  let? previous := replay_history "semantic verifier history revision conflicts"
                     "verifier history does not start at one" (ver_history v) in
  match ver_current v with
  | Some registry =>
      let? _v := SemanticVerifierRegistry_validate registry in
      if negb (bool_decide (previous = Some registry))
      then Err "semantic verifier source history is absent" else Ok tt
  | None =>
      if negb (bool_decide (ver_history v = ∅)) || negb (bool_decide (dom (vp_semantic_verifier_receipts p) = ∅))
      then Err "semantic verifier evidence has no source authority" else Ok tt
  end.

(** A loop whose body may panic and may return early. *)
Fixpoint try_for_opt {A} (f : A -> option (Result unit string)) (l : list A) : option (Result unit string) :=
  match l with
  | [] => Some (Ok tt)
  | x :: l' => step ← f x; match step with Ok _ => try_for_opt f l' | Err e => Some (Err e) end
  end.

Definition validate_semantic_verifier_checkpoint (p : EvidencePlane) : option (Result unit string) :=
  match verifier_history_check p with
  | Err e => Some (Err e)
  | Ok _ =>
      receipts ← try_for_opt (retained_receipt_check p) (btree_iter (vp_semantic_verifier_receipts p));
      match receipts with
      | Err e => Some (Err e)
      | Ok _ =>
          if (8192 <? N.of_nat (size (vp_mission_verifier_sources p)))%N
             || (8192 <? N.of_nat (size (vp_semantic_verifier_watches p)))%N
          then Some (Err "verifier admission/watch history is full") else
          if existsb (fun source => negb (source_in_history p source))
               (btree_values (vp_mission_verifier_sources p))
          then Some (Err "frozen Task verifier source lacks history")
          else try_for_opt (watch_check p) (btree_iter (vp_semantic_verifier_watches p))
      end
  end.
End Verifiers.

(** ** Mission goals: [mission_goal.rs] *)

(** [serde_json::to_value]: objects with their keys in order. *)
Definition source_json (s : SemanticVerifierSource) : Json :=
  JObject [("continuous", JBool (vs_continuous s)); ("enabled", JBool (vs_enabled s));
           ("max_age_ms", json_number (vs_max_age_ms s)); ("predicates", json_texts (vs_predicates s));
           ("producer_principals", json_texts (vs_producer_principals s));
           ("require_artifact", JBool (vs_require_artifact s));
           ("revision", json_number (vs_revision s)); ("source_id", JString (vs_source_id s));
           ("stop_timeout_ms", json_number (vs_stop_timeout_ms s));
           ("tenant_id", JString (vs_tenant_id s)); ("verifier", contract_json (vs_contract s))].

Definition spec_json (s : VerifierSatisfactionSpec) : Json :=
  JObject [("max_evidence_age_ms", json_number (vs_max_evidence_age_ms s));
           ("predicate", JString (vs_predicate s)); ("verifier", contract_json (vs_verifier s))].

Definition goal_json (g : MissionGoal) : Json :=
  JObject [("mission_id", json_id (mg_mission_id g)); ("objective", JString (mg_objective g))].

Definition goal_contract_json (c : MissionGoalContract) : Json :=
  JObject [("context_digest", JString (gc_context_digest c)); ("digest", JString (gc_digest c));
           ("mission_id", json_id (gc_mission_id c));
           ("original_goal_digest", JString (gc_original_goal_digest c));
           ("source", source_json (gc_source c)); ("spec", spec_json (gc_spec c));
           ("tenant_id", JString (gc_tenant_id c))].

Definition goal_attempt_json (a : MissionGoalAttempt) : Json :=
  JObject [("attempt_id", JString (ga_attempt_id a)); ("role_id", json_id (ga_role_id a));
           ("task_ref", json_task_ref (ga_task_ref a))].

Definition goal_evidence_json (e : MissionGoalEvidence) : Json :=
  JObject [("artifact_digest", json_option_string (ge_artifact_digest e));
           ("artifact_size_bytes", json_option_number (ge_artifact_size_bytes e));
           ("attempts", JArray (goal_attempt_json <$> ge_attempts e));
           ("contract_digest", JString (ge_contract_digest e));
           ("evidence_id", JString (ge_evidence_id e));
           ("finality", JString (finality_name (ge_finality e)));
           ("group_id", json_id (ge_group_id e));
           ("mission_id", json_id (ge_mission_id e));
           ("plan_digest", JString (ge_plan_digest e));
           ("plan_revision", json_number (ge_plan_revision e));
           ("predicate", JString (ge_predicate e));
           ("schema_version", JString (ge_schema_version e));
           ("sequence", json_number (ge_sequence e));
           ("source_id", JString (ge_source_id e));
           ("source_observed_at_ms", json_number (ge_source_observed_at_ms e));
           ("source_revision", json_number (ge_source_revision e));
           ("tenant_id", JString (ge_tenant_id e));
           ("valid_for_ms", json_number (ge_valid_for_ms e));
           ("verdict", JString (verdict_name (ge_verdict e)))].

(** [valid_evidence]. *)
Definition valid_evidence (e : MissionGoalEvidence) (c : MissionGoalContract) (principal : string) : bool :=
  negb (negb (ge_schema_version e =? "roboguide.mission-goal-evidence/v0.1")%string
        || is_blank (ge_evidence_id e) || (128 <? str_len (ge_evidence_id e))%N
        || negb (ge_contract_digest e =? gc_digest c)%string
        || negb (ge_tenant_id e =? gc_tenant_id c)%string
        || negb (ge_source_id e =? vs_source_id (gc_source c))%string
        || negb (ge_source_revision e =? vs_revision (gc_source c))%N
        || negb (set_contains principal (vs_producer_principals (gc_source c)))
        || negb (ge_predicate e =? vs_predicate (gc_spec c))%string
        || (ge_valid_for_ms e =? 0)%N
        || (N.min (vs_max_evidence_age_ms (gc_spec c)) (vs_max_age_ms (gc_source c)) <? ge_valid_for_ms e)%N
        || (ge_sequence e =? 0)%N
        || negb (digest_text (ge_plan_digest e))
        || negb (distinct_count (ge_attempts e) =? length (ge_attempts e))%nat
        || (4096 <? N.of_nat (length (ge_attempts e)))%N
        || existsb (fun a => negb (bool_decide (tr_mission_id (ga_task_ref a) = ge_mission_id e))
                             || is_blank (ga_attempt_id a) || (2048 <? str_len (ga_attempt_id a))%N)
             (ge_attempts e)
        || negb (Bool.eqb (is_some (ge_artifact_digest e)) (is_some (ge_artifact_size_bytes e)))
        || is_some_and (fun value => negb (digest_text value)) (ge_artifact_digest e)
        || (vs_require_artifact (gc_source c) && bool_decide (ge_verdict e = Satisfied)
            && is_none (ge_artifact_digest e))).

Section Goals.
Context `{Serde}.

(** The contract with its digest, taken over the contract with an empty one. *)
Definition goal_contract (goal : MissionGoal) (spec : VerifierSatisfactionSpec) (context_digest tenant : string)
    (source : SemanticVerifierSource) : Result MissionGoalContract string :=
  let? goal_digest := content_digest (goal_json goal) in
  let contract digest := MkGoalContract (mg_mission_id goal) tenant goal_digest context_digest spec source digest in
  let? digest := content_digest (goal_contract_json (contract "")) in
  Ok (contract digest).

Definition freeze_mission_goal (p : EvidencePlane) (goal : MissionGoal) (spec : VerifierSatisfactionSpec)
    (context_digest tenant : string) : EvidenceStep MissionGoalContract :=
  if negb (bool_decide (evidence_tenant p (mg_mission_id goal) = Some tenant))
     || negb (digest_text context_digest)
     || negb ((100 <=? vs_max_evidence_age_ms spec)%N && (vs_max_evidence_age_ms spec <=? 60000)%N)
  then decline p "invalid original goal context, tenant or freshness" else
  match (let? source := registered_verifier_source p spec tenant in
         goal_contract goal spec context_digest tenant source) with
  | Err e => decline p e
  | Ok contract =>
      match vp_mission_goal_contracts p !! mg_mission_id goal with
      | Some original =>
          if negb (bool_decide (original = contract))
          then decline p "original Mission goal/source contract cannot change"
          else Some (p, Ok original)
      | None =>
          if (128 <=? size (vp_mission_goal_contracts p))%nat
          then decline p "retained Mission goal authority is full"
          else Some (set_goals (<[mg_mission_id goal := contract]> (vp_mission_goal_contracts p))
                       (vp_mission_goal_receipts p) p, Ok contract)
      end
  end.

Definition mission_goal_source_current (p : EvidencePlane) (mission : MissionId) : bool :=
  is_some_and (fun contract =>
    match registered_verifier_source p (gc_spec contract) (gc_tenant_id contract) with
    | Ok source => bool_decide (source = gc_source contract)
    | Err _ => false
    end) (vp_mission_goal_contracts p !! mission).

Definition same_evidence (e : MissionGoalEvidence) (r : MissionGoalReceipt) : bool :=
  bool_decide (ge_mission_id (gp_evidence r) = ge_mission_id e)
  && (ge_source_id (gp_evidence r) =? ge_source_id e)%string
  && (ge_evidence_id (gp_evidence r) =? ge_evidence_id e)%string.

(** The publisher holds an active grant, where grants are installed. *)
Definition publisher_refused (p : EvidencePlane) (principal leaf : string) (now : TimestampMs) : bool :=
  is_some_and (fun registry =>
    is_none_or (fun grant => negb (og_principal_id grant =? principal)%string || negb (grant_active grant now))
      (oa_grants registry !! leaf)) (vp_operator_authorization p).

Definition goal_sequence_taken (e : MissionGoalEvidence) (r : MissionGoalReceipt) : bool :=
  let old := gp_evidence r in
  bool_decide (ge_mission_id old = ge_mission_id e) && (ge_source_id old =? ge_source_id e)%string
  && (ge_plan_revision old =? ge_plan_revision e)%N && bool_decide (ge_group_id old = ge_group_id e)
  && (ge_sequence e <=? ge_sequence old)%N.

Definition admit_mission_goal_evidence (p : EvidencePlane) (e : MissionGoalEvidence)
    (principal leaf : string) (now : TimestampMs) : EvidenceStep MissionGoalReceipt :=
  match vp_mission_goal_contracts p !! ge_mission_id e with
  | None => decline p "Mission has no original goal contract"
  | Some contract =>
      match content_digest (goal_evidence_json e) with
      | Err reason => decline p reason
      | Ok digest =>
          let receipts := vp_mission_goal_receipts p in
          match List.find (same_evidence e) (btree_values receipts) with
          | Some original =>
              if negb (gp_input_digest original =? digest)%string
                 || negb (gp_authority_subject original =? principal)%string
              then decline p "goal evidence identity was reused by another input/principal"
              else Some (p, Ok original)
          | None =>
              if negb (valid_evidence e contract principal) || negb (digest_text leaf)
                 || publisher_refused p principal leaf now
                 || negb (mission_goal_source_current p (ge_mission_id e))
                 || existsb (goal_sequence_taken e) (btree_values receipts)
              then decline p "goal source evidence, original scope or sequence is invalid" else
              if (4096 <=? N.of_nat (size receipts))%N then decline p "retained goal evidence is full" else
              let receipt := MkGoalReceipt e principal leaf digest now in
              Some (set_goals (vp_mission_goal_contracts p) (<[digest := receipt]> receipts) p, Ok receipt)
          end
      end
  end.

(** A later measurement of the same source for the plan revision and Group. *)
Definition superseded (mission : MissionId) (revision : N) (group : ExecutionGroupId)
    (original : MissionGoalReceipt) (later : MissionGoalReceipt) : bool :=
  let e := gp_evidence later in
  bool_decide (ge_mission_id e = mission) && (ge_plan_revision e =? revision)%N
  && bool_decide (ge_group_id e = group)
  && (ge_source_id e =? ge_source_id (gp_evidence original))%string
  && (ge_sequence (gp_evidence original) <? ge_sequence e)%N.

Definition mission_goal_confirmed (p : EvidencePlane) (mission : MissionId) (revision : N)
    (group : ExecutionGroupId) (plan_digest receipt_digest : string) (now : TimestampMs) : bool :=
  let receipts := vp_mission_goal_receipts p in
  negb (existsb (fun later => is_some_and (fun original => superseded mission revision group original later)
                                (receipts !! receipt_digest)) (btree_values receipts))
  && mission_goal_source_current p mission
  && is_some_and (fun r =>
       let e := gp_evidence r in
       bool_decide (ge_mission_id e = mission) && (ge_plan_revision e =? revision)%N
       && bool_decide (ge_group_id e = group) && (ge_plan_digest e =? plan_digest)%string
       && bool_decide (ge_finality e = Final) && bool_decide (ge_verdict e = Satisfied)
       && (gp_received_at r <=? now)%N && (now - gp_received_at r <? ge_valid_for_ms e)%N)
       (receipts !! receipt_digest).

(** ** Restored goals *)

Definition with_digest (c : MissionGoalContract) (digest : string) : MissionGoalContract :=
  MkGoalContract (gc_mission_id c) (gc_tenant_id c) (gc_original_goal_digest c) (gc_context_digest c)
    (gc_spec c) (gc_source c) digest.

Definition goal_contract_check (p : EvidencePlane) (kv : MissionId * MissionGoalContract)
  : Result unit string :=
  let '(mission, c) := kv in
  let conflict := "original goal/source history is inconsistent" in
  if negb (bool_decide (mission = gc_mission_id c))
     || negb (bool_decide (evidence_tenant p mission = Some (gc_tenant_id c)))
     || negb (digest_text (gc_original_goal_digest c)) || negb (digest_text (gc_context_digest c))
  then Err conflict else
  let? digest := content_digest (goal_contract_json (with_digest c "")) in
  if negb (gc_digest c =? digest)%string
     || negb (vs_tenant_id (gc_source c) =? gc_tenant_id c)%string
     || negb (bool_decide (vs_contract (gc_source c) = vs_verifier (gc_spec c)))
     || negb (set_contains (vs_predicate (gc_spec c)) (vs_predicates (gc_source c)))
     || negb (source_in_history p (gc_source c))
  then Err conflict else Ok tt.

Abbreviation GoalIds := (gset (MissionId * string * string)).
Abbreviation GoalSequences := (gset (MissionId * string * N * ExecutionGroupId * N)).

Definition goal_receipt_check (p : EvidencePlane) (seen : GoalIds * GoalSequences)
    (kv : string * MissionGoalReceipt) : Result (GoalIds * GoalSequences) string :=
  let '(key, r) := kv in
  let e := gp_evidence r in
  let conflict := "original goal receipt history is inconsistent" in
  let id := (ge_mission_id e, ge_source_id e, ge_evidence_id e) in
  let sequence := (ge_mission_id e, ge_source_id e, ge_plan_revision e, ge_group_id e, ge_sequence e) in
  match vp_mission_goal_contracts p !! ge_mission_id e with
  | None => Err "goal receipt lacks its original contract"
  | Some c =>
      if negb (valid_evidence e c (gp_authority_subject r)) || negb (digest_text (gp_authority_leaf_digest r))
         || is_some_and (fun registry =>
              is_none_or (fun grant => negb (og_principal_id grant =? gp_authority_subject r)%string)
                (oa_grants registry !! gp_authority_leaf_digest r)) (vp_operator_authorization p)
         || negb (key =? gp_input_digest r)%string
      then Err conflict else
      let? digest := content_digest (goal_evidence_json e) in
      if negb (key =? digest)%string
         || negb (ge_contract_digest e =? gc_digest c)%string
         || negb (set_contains (gp_authority_subject r) (vs_producer_principals (gc_source c)))
         || negb (ge_source_id e =? vs_source_id (gc_source c))%string
         || negb (ge_source_revision e =? vs_revision (gc_source c))%N
         || negb (ge_tenant_id e =? gc_tenant_id c)%string
         || (ge_valid_for_ms e =? 0)%N
         || (N.min (vs_max_age_ms (gc_source c)) (vs_max_evidence_age_ms (gc_spec c)) <? ge_valid_for_ms e)%N
         || set_contains id seen.1 || set_contains sequence seen.2
      then Err conflict else Ok ({[id]} ∪ seen.1, {[sequence]} ∪ seen.2)
  end.

Definition validate_mission_goal_checkpoint (p : EvidencePlane) : Result unit string :=
  if (128 <? size (vp_mission_goal_contracts p))%nat || (4096 <? N.of_nat (size (vp_mission_goal_receipts p)))%N
  then Err "goal history bound exceeded" else
  let? _c := try_for (goal_contract_check p) (btree_iter (vp_mission_goal_contracts p)) in
  let? _r := try_fold (goal_receipt_check p) (∅, ∅) (btree_iter (vp_mission_goal_receipts p)) in
  Ok tt.
End Goals.
