(* ===== verification/EvidenceFacts.v ===== *)
(** * Facts about evidence and policy registries

    The retained revisions of a registry replay to the current one; the authority under which
    evidence was admitted only grows; so every check of a restored state passes on the states
    that the operations reach, and admitted receipts keep what was admitted. *)

From S2P Require Import Prelude Identity Execution StateModel Session Resource RelationSpec DecisionPolicy.
From S2P Require Import Scheduler SchedulerPolicy Sorting Quota NodeIdentity NodeState Capacity.
From S2P Require Import Mission TaskExecution Group ControlPlane ControlSteps CapacityFacts.
From S2P Require Import NodeIdentityFacts CalendarFacts Registries Evidence.

Open Scope list_scope.

(** ** Loops *)

Lemma try_fold_app {A B E} (f : B -> A -> Result B E) l1 l2 b :
  try_fold f b (l1 ++ l2) = match try_fold f b l1 with Ok b1 => try_fold f b1 l2 | Err e => Err e end.
Proof. revert b. induction l1 as [|x l1 IH]; intros b; simpl; [done|]. by destruct (f b x). Qed.

Lemma try_for_opt_ok {A} (f : A -> option (Result unit string)) l :
  (forall x, x ∈ l -> f x = Some (Ok tt)) -> try_for_opt f l = Some (Ok tt).
Proof.
  induction l as [|x l IH]; intros Hf; simpl; [done|].
  rewrite (Hf x) by set_solver. simpl. apply IH. set_solver.
Qed.

Lemma existsb_false_iff {A} (f : A -> bool) l : existsb f l = false <-> forall x, x ∈ l -> f x = false.
Proof.
  rewrite <- not_true_iff_false, existsb_exists. split.
  - intros Hn x Hx. apply not_true_iff_false. intros E. apply Hn. exists x. by rewrite <- list_elem_of_In.
  - intros Hf (x & Hx%list_elem_of_In & E). by rewrite Hf in E.
Qed.

(** ** Retained revisions *)

#[export] Instance key_lt_antisymm {V} : AntiSymm (=) (fun p q : N * V => (p.1 < q.1)%N).
Proof. intros p q ? ?. lia. Qed.

(** A key above all others comes last. *)
Lemma btree_iter_append {V} (m : gmap N V) k v :
  (forall j x, m !! j = Some x -> (j < k)%N) -> btree_iter (<[k := v]> m) = btree_iter m ++ [(k, v)].
Proof.
  intros Hk. assert (m !! k = None) as Hn.
  { destruct (m !! k) as [x|] eqn:E; [|done]. specialize (Hk k x E). lia. }
  apply (StronglySorted_unique (fun p q : N * V => (p.1 < q.1)%N)); [apply btree_iter_sorted_keys| |].
  - assert (forall p, p ∈ btree_iter m -> (p.1 < k)%N) as Hp.
    { intros [j x] Hj%elem_of_btree_iter. by eapply Hk. }
    pose proof (btree_iter_sorted_keys m) as Hs. unfold sorted_keys in Hs.
    induction Hs as [|p l Hs IH Hl]; simpl; [by repeat constructor|]. constructor.
    + apply IH. set_solver.
    + rewrite Forall_forall in Hl |- *. intros q [Hq|Hq]%elem_of_app; [by apply Hl|].
      apply list_elem_of_singleton in Hq as ->. simpl. apply Hp. by left.
  - rewrite btree_iter_Permutation, map_to_list_insert, btree_iter_Permutation by done.
    apply Permutation_cons_append.
Qed.

(** What the successor relation of a registry promises to its history. *)
Class RegistryLaws (R : Type) `{Registry R} : Prop := {
  successor_revision : forall previous next : R, reg_successor previous next = Ok tt ->
    previous = next \/ reg_revision next = (reg_revision previous + 1)%N
}.

Section VersionFacts.
Context {R : Type} `{RegistryLaws R}.

Record version_ok (v : Versioned R) : Prop := {
  vo_replay : forall conflict start, replay_history conflict start (ver_history v) = Ok (ver_current v);
  vo_below : forall n r, ver_history v !! n = Some r ->
    exists current, ver_current v = Some current /\ (n <= reg_revision current)%N;
  vo_current : forall r, ver_current v = Some r ->
    ver_history v !! reg_revision r = Some r /\ reg_validate r = Ok tt;
  vo_size : (N.of_nat (size (ver_history v)) <= 1024)%N
}.

Lemma version_ok_new : version_ok (MkVersioned (R := R) None ∅).
Proof. split; simpl; [done|by intros n r ?%lookup_empty_Some|done|]. rewrite map_size_empty. lia. Qed.

Lemma version_ok_none v : version_ok v -> ver_current v = None -> ver_history v = ∅.
Proof.
  intros Hv Hn. apply map_empty. intros n. destruct (ver_history v !! n) as [r|] eqn:E; [|done].
  destruct (vo_below v Hv n r E) as (c & Hc & _). congruence.
Qed.

(** An admitted revision follows the current one. *)
Lemma admit_revision_follows conflict initial v next expected :
  admit_revision conflict initial v next expected = Ok NewRevision ->
  match ver_current v with
  | Some previous => reg_successor previous next = Ok tt /\ reg_revision next = (reg_revision previous + 1)%N
  | None => reg_revision next = 1%N
  end.
Proof.
  unfold admit_revision. destruct (ver_current v) as [previous|].
  - destruct (N.eqb_spec (reg_revision previous) expected) as [Ee|]; simpl; [|by rewrite andb_false_r].
    rewrite andb_true_r. case_bool_decide as Eq; [done|].
    destruct (reg_successor previous next) as [[]|] eqn:Es; [|done]. intros _. split; [done|].
    destruct (successor_revision _ _ Es); [done|done].
  - destruct (_ && _) eqn:E; [|done]. bool_facts. done.
Qed.

Lemma install_fresh v next : version_ok v ->
  match ver_current v with
  | Some previous => reg_successor previous next = Ok tt /\ reg_revision next = (reg_revision previous + 1)%N
  | None => reg_revision next = 1%N
  end ->
  forall n r, ver_history v !! n = Some r -> (n < reg_revision next)%N.
Proof.
  intros Hv Hf n r Hn. destruct (vo_below v Hv n r Hn) as (current & Hc & Hle).
  rewrite Hc in Hf. destruct Hf as [_ Hf]. lia.
Qed.

Lemma install_ok conflict initial v next expected : version_ok v -> reg_validate next = Ok tt ->
  admit_revision conflict initial v next expected = Ok NewRevision ->
  (N.of_nat (size (ver_history v)) < 1024)%N -> version_ok (install v next).
Proof.
  intros Hv Hval Hadm%admit_revision_follows Hsize.
  pose proof (install_fresh v next Hv Hadm) as Hlt. split; simpl.
  - intros c s. unfold replay_history. rewrite btree_iter_append by done.
    pose proof (vo_replay v Hv c s) as Hr. unfold replay_history in Hr. rewrite try_fold_app, Hr.
    simpl. rewrite Hval, N.eqb_refl. simpl. destruct (ver_current v) as [previous|].
    + destruct Hadm as [-> _]. done.
    + by rewrite Hadm.
  - intros n r. destruct (decide (n = reg_revision next)) as [->|Hne].
    + intros _. exists next. by split.
    + rewrite lookup_insert_ne by done. intros Hn. exists next. split; [done|].
      specialize (Hlt n r Hn). lia.
  - intros r [= <-]. by rewrite lookup_insert_eq.
  - rewrite map_size_insert. destruct (ver_history v !! reg_revision next); simpl; lia.
Qed.

Lemma install_grows conflict initial v next expected : version_ok v ->
  admit_revision conflict initial v next expected = Ok NewRevision ->
  ver_history v ⊆ ver_history (install v next).
Proof.
  intros Hv Hadm%admit_revision_follows. simpl. apply insert_subseteq.
  destruct (ver_history v !! reg_revision next) as [r|] eqn:E; [|done].
  pose proof (install_fresh v next Hv Hadm _ r E). lia.
Qed.
End VersionFacts.

Lemma revision_follows_true old next same : revision_follows old next same = Some true ->
  same = true \/ next = (old + 1)%N.
Proof.
  unfold revision_follows. destruct (next <? old)%N; [done|]. destruct (next =? old)%N.
  - intros [= ->]. by left.
  - unfold u64_checked_add. case_match; simpl; [|done]. intros [= E%N.eqb_eq]. by right.
Qed.

#[export] Instance Belief_RegistryLaws : RegistryLaws BeliefPolicyRegistry.
Proof.
  split. intros previous next. simpl. unfold belief_validates_successor. intros Hs.
  inv_check Hs. right. unfold u64_checked_add in Hs.
  destruct (_ <=? _)%N; [|done]. destruct (N.eqb_spec (br_revision next) (br_revision previous + 1)); [done|done].
Qed.

#[export] Instance Decision_RegistryLaws : RegistryLaws DecisionPolicyRegistry.
Proof.
  split. intros previous next. simpl. unfold decision_validates_successor. intros Hs.
  destruct (DecisionPolicyRegistry_validate next); [|done]. destruct (_ || _ || _); [done|].
  destruct (revision_follows _ _ _) as [[]|] eqn:Er; [|done..].
  apply revision_follows_true in Er as [Er|Er]; [left; by apply bool_decide_eq_true in Er|by right].
Qed.

#[export] Instance Verifier_RegistryLaws : RegistryLaws SemanticVerifierRegistry.
Proof.
  split. intros previous next. simpl. unfold verifier_validates_successor. intros Hs. inv_check Hs.
  destruct (revision_follows _ _ _) as [[]|] eqn:Er; [|done..].
  apply revision_follows_true in Er as [Er|Er]; [left; by apply bool_decide_eq_true in Er|by right].
Qed.

(** ** Operations

    [EvControl] is an operation of the Control plane itself. *)

Inductive EvidenceOp :=
| EvControl (op : ControlOp)
| EvOperator (profile : option OperatorAuthorization)
| EvBootstrap (registry : NodeIdentityRegistry)
| EvIdentity (command : IdentityCommand) (now : TimestampMs) (subject : string)
| EvAttestation (registry : NodeIdentityRegistry)
| EvBelief (next : BeliefPolicyRegistry) (expected : N)
| EvDecision (next : DecisionPolicyRegistry) (expected : N)
| EvVerifier (next : SemanticVerifierRegistry) (expected : N)
| EvMigrate (command : MissionTenantMigration) (plan_digest subject : string) (now : TimestampMs)
| EvFreeze (plan : MissionPlan) (tenant : string)
| EvFreezeRevision (source : ExecutionGroupId) (plan : MissionPlan) (tenant : string)
| EvMonitor (task : TaskRef) (plan_digest : string) (attempts : list VerifierAttemptRef) (now : TimestampMs)
| EvAdmit (e : SemanticVerifierEvidence) (subject : string) (now : TimestampMs)
| EvMark (source evidence : string) (applied : bool) (incident : option string)
| EvFreezeGoal (goal : MissionGoal) (spec : VerifierSatisfactionSpec) (context tenant : string)
| EvAdmitGoal (e : MissionGoalEvidence) (principal leaf : string) (now : TimestampMs).

(** The state an operation leaves, whatever its result. *)
Definition left_by {A} (s : EvidenceStep A) : option EvidencePlane := fst <$> s.

Definition apply_evidence `{Serde, PolicyCodec} (p : EvidencePlane) (op : EvidenceOp) : option EvidencePlane :=
  match op with
  | EvControl op => c ← apply_op (vp_control p) op; Some (set_control c p)
  | EvOperator profile => left_by (accept_operator_authorization p profile)
  | EvBootstrap registry => left_by (bootstrap_node_identity_registry p registry)
  | EvIdentity command now subject => left_by (apply_node_identity_command p command now subject)
  | EvAttestation registry => left_by (replace_attestation_registry p registry)
  | EvBelief next expected => left_by (accept_belief_policy_registry p next expected)
  | EvDecision next expected => left_by (accept_decision_policy_registry p next expected)
  | EvVerifier next expected => left_by (accept_semantic_verifier_registry p next expected)
  | EvMigrate command digest subject now => left_by (migrate_mission_tenant p command digest subject now)
  | EvFreeze plan tenant => left_by (freeze_mission_verifier_sources p plan tenant)
  | EvFreezeRevision source plan tenant => left_by (freeze_revision_verifier_sources p source plan tenant)
  | EvMonitor task digest attempts now => left_by (monitor_semantic_verifier p task digest attempts now)
  | EvAdmit e subject now => left_by (admit_semantic_verifier_evidence p e subject now)
  | EvMark source evidence applied incident =>
      left_by (mark_semantic_verifier_receipt p source evidence applied incident)
  | EvFreezeGoal goal spec context tenant => left_by (freeze_mission_goal p goal spec context tenant)
  | EvAdmitGoal e principal leaf now => left_by (admit_mission_goal_evidence p e principal leaf now)
  end.

Definition evidence_step `{Serde, PolicyCodec} (p q : EvidencePlane) : Prop :=
  exists op, apply_evidence p op = Some q.

(** The evidence admitted for a Mission names the tenant the Mission is given. *)
Definition tenant_agrees (p : EvidencePlane) (mission : MissionId) (tenant : string) : bool :=
  forallb (fun r => negb (bool_decide (tr_mission_id (ve_task_ref (vc_evidence r)) = mission))
                    || (ve_tenant_id (vc_evidence r) =? tenant)%string)
    (btree_values (vp_semantic_verifier_receipts p)).

(** The order of operations a restored state relies on: a tenant agrees with the evidence
    admitted before, identities come before the registries and the evidence they scope and
    operators before goal evidence; and a bound on the input of a watch, which names 1 to 32
    attempts, as a restored one must and [monitor_semantic_verifier] does not check. *)
Definition in_order (p : EvidencePlane) (op : EvidenceOp) : bool :=
  match op with
  | EvControl (OpTenant mission tenant) => tenant_agrees p mission tenant
  | EvMigrate command _ _ _ => tenant_agrees p (tm_mission_id command) (tm_tenant_id command)
  | EvOperator _ => is_some (vp_operator_authorization p)
                    || bool_decide (dom (vp_mission_goal_receipts p) = ∅)
  | EvBootstrap _ =>
      is_none (ver_current (vp_decision_policy p))
      && forallb (fun r => is_some (evidence_tenant p (tr_mission_id (ve_task_ref (vc_evidence r)))))
           (btree_values (vp_semantic_verifier_receipts p))
  | EvMonitor _ _ attempts _ => (0 <? length attempts)%nat && (length attempts <=? 32)%nat
  | _ => true
  end.

Definition ordered_step `{Serde, PolicyCodec} (p q : EvidencePlane) : Prop :=
  exists op, in_order p op = true /\ apply_evidence p op = Some q.

(** ** Authority only grows *)

Definition operator_agrees (p : EvidencePlane) (r : MissionGoalReceipt) : bool :=
  negb (is_some_and (fun registry =>
          is_none_or (fun grant => negb (og_principal_id grant =? gp_authority_subject r)%string)
            (oa_grants registry !! gp_authority_leaf_digest r)) (vp_operator_authorization p)).

Definition receipt_tenant (p : EvidencePlane) (r : SemanticVerifierReceipt) : bool :=
  tenant_matches p (tr_mission_id (ve_task_ref (vc_evidence r))) (ve_tenant_id (vc_evidence r)).

Record grows (p q : EvidencePlane) : Prop := {
  gr_tenants : cp_mission_tenants (vp_control p) ⊆ cp_mission_tenants (vp_control q);
  gr_nodes : is_some (ver_current (vp_decision_policy p)) = true ->
    forall node tenant, node_of_tenant p node tenant = true -> node_of_tenant q node tenant = true;
  gr_local : forall k r, vp_semantic_verifier_receipts p !! k = Some r ->
    receipt_tenant p r = true -> receipt_tenant q r = true;
  gr_history : ver_history (vp_semantic_verifier p) ⊆ ver_history (vp_semantic_verifier q);
  gr_sources : vp_mission_verifier_sources p ⊆ vp_mission_verifier_sources q;
  gr_contracts : vp_mission_goal_contracts p ⊆ vp_mission_goal_contracts q;
  gr_operator : forall k r, vp_mission_goal_receipts p !! k = Some r ->
    operator_agrees p r = true -> operator_agrees q r = true
}.

Section Grows.
Context `{Serde}.

Lemma grows_tenant p q mission tenant : grows p q ->
  evidence_tenant p mission = Some tenant -> evidence_tenant q mission = Some tenant.
Proof. intros Hg. unfold evidence_tenant, mission_tenant. intros Hm. eapply lookup_weaken; [done|apply Hg]. Qed.

Lemma source_in_history_iff p source : source_in_history p source = true <->
  exists n registry, ver_history (vp_semantic_verifier p) !! n = Some registry /\
    vr_sources registry !! vs_source_id source = Some source.
Proof.
  unfold source_in_history. rewrite existsb_exists. setoid_rewrite bool_decide_eq_true.
  setoid_rewrite <- list_elem_of_In. setoid_rewrite elem_of_btree_values. naive_solver.
Qed.

Lemma grows_source p q source : grows p q -> source_in_history p source = true -> source_in_history q source = true.
Proof.
  intros Hg. rewrite !source_in_history_iff. intros (n & registry & Hn & Hs).
  exists n, registry. split; [|done]. eapply lookup_weaken; [done|apply Hg].
Qed.

Lemma grows_frozen p q task source : grows p q ->
  task_verifier_source p task = Some (Some source) -> task_verifier_source q task = Some (Some source).
Proof.
  intros Hg. unfold task_verifier_source. destruct (verifier_task_key task) as [key|]; simpl; [|done].
  intros [= Hk]. f_equal. eapply lookup_weaken; [done|apply Hg].
Qed.

Lemma grows_receipt p q k r : grows p q -> vp_semantic_verifier_receipts p !! k = Some r ->
  retained_receipt_check p (k, r) = Some (Ok tt) -> retained_receipt_check q (k, r) = Some (Ok tt).
Proof.
  intros Hg Hk. unfold retained_receipt_check.
  destruct (match SemanticVerifierEvidence_validate _ with Ok _ => _ | Err _ => _ end) as [digest|]; [|done].
  destruct (verifier_receipt_key _ _) as [expected|]; simpl; [|done].
  destruct (negb (k =? expected)%string || _ || _); [done|].
  destruct (u64_checked_add _ _) as [until|]; [|done].
  destruct (negb (vc_valid_until_ms r =? until)%N); simpl; [done|].
  destruct (tenant_matches p _ _) eqn:Et; simpl; [|done].
  apply (gr_local p q Hg k r Hk) in Et. unfold receipt_tenant in Et. rewrite Et. simpl.
  destruct (ver_history (vp_semantic_verifier p) !! vc_registry_revision r) as [registry|] eqn:Er; simpl; [|done].
  by rewrite (lookup_weaken _ _ _ _ Er (gr_history p q Hg)).
Qed.

Lemma grows_watch p q kw : grows p q ->
  watch_check p kw = Some (Ok tt) -> watch_check q kw = Some (Ok tt).
Proof.
  destruct kw as [k w]. intros Hg. unfold watch_check. destruct (verifier_watch_key _ _ _) as [key|]; simpl; [|done].
  destruct (task_verifier_source p (vw_task_ref w)) as [frozen|] eqn:Ef; simpl; [|done].
  case_bool_decide as Es; [|by rewrite orb_true_r]. subst frozen.
  rewrite (grows_frozen p q _ _ Hg Ef). simpl. by rewrite bool_decide_eq_true_2.
Qed.

Lemma grows_contract p q mc : grows p q -> goal_contract_check p mc = Ok tt -> goal_contract_check q mc = Ok tt.
Proof.
  destruct mc as [m c]. intros Hg. unfold goal_contract_check.
  destruct (bool_decide (m = gc_mission_id c)); simpl; [|done].
  case_bool_decide as Et; simpl; [|done]. rewrite (grows_tenant p q _ _ Hg Et).
  rewrite (bool_decide_eq_true_2 (Some (gc_tenant_id c) = _)) by done. simpl.
  destruct (negb _ || _); [done|]. destruct (content_digest _) as [digest|]; [|done].
  destruct (source_in_history p (gc_source c)) eqn:Es.
  - by rewrite (grows_source p q _ Hg Es).
  - simpl. by rewrite !orb_true_r.
Qed.

Lemma grows_scope p q r : grows p q -> ver_current (vp_decision_policy p) = Some r ->
  validate_decision_registry_scope p r = Ok tt -> validate_decision_registry_scope q r = Ok tt.
Proof.
  intros Hg Hr. assert (forall n t, node_of_tenant p n t = true -> node_of_tenant q n t = true) as Hn.
  { apply (gr_nodes p q Hg). by rewrite Hr. }
  unfold validate_decision_registry_scope. intros E. inv_check E.
  match goal with E : try_for _ (btree_values (dr_scheduling_costs r)) = Ok ?u |- _ =>
    destruct u; rename E into Hc end.
  rewrite try_for_ok in Hc. rewrite (proj2 (try_for_ok _ _)).
  - rewrite try_for_ok in E. apply try_for_ok. intros gate Hgate. specialize (E gate Hgate).
    rewrite try_for_ok in E. apply try_for_ok. intros source Hs. specialize (E source Hs).
    unfold named_source_of in *. destruct source as [node|component]; [|done].
    destruct (node_of_tenant p node (dg_tenant_id gate)) eqn:En; [|done]. by rewrite Hn.
  - intros cost Hcost. specialize (Hc cost Hcost).
    destruct (node_of_tenant p _ _) eqn:En; [|done]. by rewrite Hn.
Qed.
End Grows.

(** ** What a restored state is checked for *)

Definition goal_id (r : MissionGoalReceipt) : MissionId * string * string :=
  let e := gp_evidence r in (ge_mission_id e, ge_source_id e, ge_evidence_id e).
Definition goal_stream (r : MissionGoalReceipt) : MissionId * string * N * ExecutionGroupId * N :=
  let e := gp_evidence r in (ge_mission_id e, ge_source_id e, ge_plan_revision e, ge_group_id e, ge_sequence e).

Definition distinct_by {K A B} `{Countable K} (f : A -> B) (m : gmap K A) : Prop :=
  forall k1 k2 x1 x2, m !! k1 = Some x1 -> m !! k2 = Some x2 -> f x1 = f x2 -> k1 = k2.

#[local] Arguments goal_receipt_check : simpl never.
#[local] Arguments valid_evidence : simpl never.
#[local] Arguments retained_receipt_check : simpl never.
#[local] Arguments watch_check : simpl never.
#[local] Arguments goal_contract_check : simpl never.
#[local] Arguments migration_invalid : simpl never.

Section Checked.
Context `{Serde}.

Definition goal_receipt_ok (p : EvidencePlane) (k : string) (r : MissionGoalReceipt) : Prop :=
  goal_receipt_check p (∅, ∅) (k, r) = Ok ({[goal_id r]} ∪ ∅, {[goal_stream r]} ∪ ∅).

Record evidence_ok (p : EvidencePlane) : Prop := {
  eo_identity : forall r, cp_node_identity_registry (vp_control p) = Some r -> registry_ok r;
  eo_belief : version_ok (vp_belief_policy p);
  eo_decision : version_ok (vp_decision_policy p);
  eo_scope : forall r, ver_current (vp_decision_policy p) = Some r ->
    validate_decision_registry_scope p r = Ok tt;
  eo_verifier : version_ok (vp_semantic_verifier p);
  eo_receipts : forall k r, vp_semantic_verifier_receipts p !! k = Some r ->
    retained_receipt_check p (k, r) = Some (Ok tt);
  eo_sources : forall k s, vp_mission_verifier_sources p !! k = Some s -> source_in_history p s = true;
  eo_watches : forall k w, vp_semantic_verifier_watches p !! k = Some w -> watch_check p (k, w) = Some (Ok tt);
  eo_contracts : forall m c, vp_mission_goal_contracts p !! m = Some c -> goal_contract_check p (m, c) = Ok tt;
  eo_goals : forall k r, vp_mission_goal_receipts p !! k = Some r -> goal_receipt_ok p k r;
  eo_goal_ids : distinct_by goal_id (vp_mission_goal_receipts p);
  eo_goal_streams : distinct_by goal_stream (vp_mission_goal_receipts p);
  eo_migrations : forall k r, vp_tenant_migrations p !! k = Some r -> migration_invalid p (k, r) = false;
  eo_sizes : (N.of_nat (size (vp_semantic_verifier_receipts p)) <= 8192)%N /\
    (N.of_nat (size (vp_mission_verifier_sources p)) <= 8192)%N /\
    (N.of_nat (size (vp_semantic_verifier_watches p)) <= 8192)%N /\
    (size (vp_mission_goal_contracts p) <= 128)%nat /\ (N.of_nat (size (vp_mission_goal_receipts p)) <= 4096)%N /\
    (N.of_nat (size (vp_tenant_migrations p)) <= 16384)%N
}.

Lemma evidence_ok_new : evidence_ok EvidencePlane_new.
Proof.
  split; simpl; try apply version_ok_new; try done; try (by intros ? ? ?%lookup_empty_Some);
    try (by intros ? ? ? ? ?%lookup_empty_Some).
  rewrite !map_size_empty. lia.
Qed.

(** A goal receipt is checked against what was seen before it. *)
Lemma goal_receipt_check_seen p k r seen : goal_receipt_ok p k r ->
  goal_id r ∉ seen.1 -> goal_stream r ∉ seen.2 ->
  goal_receipt_check p seen (k, r) = Ok ({[goal_id r]} ∪ seen.1, {[goal_stream r]} ∪ seen.2).
Proof.
  unfold goal_receipt_ok, goal_receipt_check. fold (goal_id r) (goal_stream r).
  destruct (vp_mission_goal_contracts p !! _) as [c|]; [|done].
  destruct (negb (valid_evidence _ _ _) || _ || _ || _); [done|].
  destruct (content_digest _) as [digest|]; [|done]. simpl. unfold set_contains.
  rewrite !(bool_decide_eq_false_2 (_ ∈ ∅)) by set_solver.
  intros E Hi Hq. rewrite (bool_decide_eq_false_2 (goal_id r ∈ _)), (bool_decide_eq_false_2 (goal_stream r ∈ _)) by done.
  destruct (_ || false || false) eqn:Eb in E; [done|].
  rewrite Eb. done.
Qed.

Lemma goal_receipts_fold p l seen :
  (forall k r, (k, r) ∈ l -> goal_receipt_ok p k r) ->
  NoDup ((fun kr => goal_id kr.2) <$> l) -> NoDup ((fun kr => goal_stream kr.2) <$> l) ->
  (forall kr, kr ∈ l -> (goal_id kr.2 ∉ seen.1) /\ (goal_stream kr.2 ∉ seen.2)) ->
  exists seen', try_fold (goal_receipt_check p) seen l = Ok seen'.
Proof.
  revert seen. induction l as [|[k r] l IH]; intros seen Hok Hi Hq Hs; simpl; [by eexists|].
  apply NoDup_cons in Hi as [Hi Hi']. apply NoDup_cons in Hq as [Hq Hq'].
  destruct (Hs (k, r)) as [Ha Hb]; [by left|]. simpl in Ha, Hb, Hi, Hq.
  assert (goal_receipt_ok p k r) as Hr by (apply Hok; by left).
  rewrite (goal_receipt_check_seen p k r seen Hr Ha Hb).
  apply IH; [|done|done|].
  - intros k1 r1 H1. apply Hok. by right.
  - intros kr Hkr. destruct (Hs kr) as [Hc Hd]; [by right|]. simpl. split.
    + intros [E%elem_of_singleton|?]%elem_of_union; [|done]. apply Hi. rewrite <- E.
      apply list_elem_of_fmap. by exists kr.
    + intros [E%elem_of_singleton|?]%elem_of_union; [|done]. apply Hq. rewrite <- E.
      apply list_elem_of_fmap. by exists kr.
Qed.

Lemma distinct_by_NoDup {A B} (f : A -> B) (m : gmap string A) :
  distinct_by f m -> NoDup ((fun kr => f kr.2) <$> btree_iter m).
Proof.
  intros Hd. apply NoDup_fmap_2_strong.
  - intros [k1 x1] [k2 x2] H1%elem_of_btree_iter H2%elem_of_btree_iter E. simpl in E.
    pose proof (Hd _ _ _ _ H1 H2 E). by simplify_eq.
  - pose proof (NoDup_btree_keys m) as Hk. unfold btree_keys in Hk. by eapply NoDup_fmap_1.
Qed.

(** ** Every check passes *)

Lemma belief_checkpoint_ok p : evidence_ok p -> validate_belief_policy_checkpoint p = Ok tt.
Proof.
  intros Hp. unfold validate_belief_policy_checkpoint. pose proof (eo_belief p Hp) as Hv.
  destruct (N.ltb_spec 1024 (N.of_nat (size (ver_history (vp_belief_policy p))))) as [Hl|_];
    [pose proof (vo_size _ Hv); lia|].
  rewrite (vo_replay _ Hv). by rewrite bool_decide_eq_true_2.
Qed.

Lemma decision_checkpoint_ok p : evidence_ok p -> validate_decision_policy_history p = Ok tt.
Proof.
  intros Hp. unfold validate_decision_policy_history. pose proof (eo_decision p Hp) as Hv.
  destruct (N.ltb_spec 1024 (N.of_nat (size (ver_history (vp_decision_policy p))))) as [Hl|_];
    [pose proof (vo_size _ Hv); lia|].
  rewrite (vo_replay _ Hv). destruct (ver_current (vp_decision_policy p)) as [r|] eqn:Er.
  - destruct (vo_current _ Hv r Er) as [_ Hr]. simpl in Hr. rewrite Hr, (eo_scope p Hp r Er).
    by rewrite bool_decide_eq_true_2.
  - by rewrite (version_ok_none _ Hv Er), bool_decide_eq_true_2.
Qed.

(** What the check of a retained receipt establishes. *)
Lemma retained_receipt_inv p k r : retained_receipt_check p (k, r) = Some (Ok tt) ->
  verifier_receipt_key (ve_source_id (vc_evidence r)) (ve_evidence_id (vc_evidence r)) = Some k /\
  content_digest (evidence_json (vc_evidence r)) = Ok (vc_input_digest r) /\
  exists registry source, ver_history (vp_semantic_verifier p) !! vc_registry_revision r = Some registry /\
    vr_sources registry !! ve_source_id (vc_evidence r) = Some source /\
    receipt_source_differs source r = false.
Proof.
  unfold retained_receipt_check. destruct (SemanticVerifierEvidence_validate _); [|done].
  destruct (content_digest _) as [digest|]; [|done].
  destruct (verifier_receipt_key _ _) as [expected|]; cbn [mbind option_bind]; [|done].
  destruct (String.eqb_spec k expected) as [->|]; [|done].
  destruct (String.eqb_spec (vc_input_digest r) digest) as [->|]; [|done]. simpl.
  destruct (is_blank _); [done|]. destruct (u64_checked_add _ _); [|done].
  destruct (_ || _); [done|]. split; [done|]. split; [done|].
  destruct (ver_history _ !! _) as [registry|]; simpl in *; [|done].
  destruct (vr_sources registry !! _) as [source|] eqn:Es; [|done]. exists registry, source.
  destruct (receipt_source_differs source r); done.
Qed.

Lemma receipts_have_authority p : evidence_ok p -> ver_current (vp_semantic_verifier p) = None ->
  vp_semantic_verifier_receipts p = ∅.
Proof.
  intros Hp Hn. apply map_empty. intros k. destruct (_ !! k) as [r|] eqn:Hk; [|done].
  pose proof (eo_receipts p Hp k r Hk) as (_ & _ & registry & source & Hr & _)%retained_receipt_inv.
  by rewrite (version_ok_none _ (eo_verifier p Hp) Hn) in Hr.
Qed.

Lemma verifier_checkpoint_ok p : evidence_ok p -> validate_semantic_verifier_checkpoint p = Some (Ok tt).
Proof.
  intros Hp. pose proof (eo_verifier p Hp) as Hv. destruct (eo_sizes p Hp) as (S1 & S2 & S3 & _).
  unfold validate_semantic_verifier_checkpoint.
  assert (verifier_history_check p = Ok tt) as ->.
  { unfold verifier_history_check.
    destruct (N.ltb_spec 1024 (N.of_nat (size (ver_history (vp_semantic_verifier p))))) as [Hl|_];
      [pose proof (vo_size _ Hv); lia|].
    destruct (N.ltb_spec 8192 (N.of_nat (size (vp_semantic_verifier_receipts p)))); [lia|]. simpl.
    rewrite (vo_replay _ Hv). destruct (ver_current (vp_semantic_verifier p)) as [r|] eqn:Er.
    - destruct (vo_current _ Hv r Er) as [_ Hr]. simpl in Hr. rewrite Hr. by rewrite bool_decide_eq_true_2.
    - rewrite (version_ok_none _ Hv Er), (receipts_have_authority p Hp Er), dom_empty_L.
      by rewrite !bool_decide_eq_true_2. }
  rewrite (try_for_opt_ok (retained_receipt_check p)); [simpl|intros [k r] Hk%elem_of_btree_iter; by apply (eo_receipts p Hp)].
  destruct (N.ltb_spec 8192 (N.of_nat (size (vp_mission_verifier_sources p)))); [lia|].
  destruct (N.ltb_spec 8192 (N.of_nat (size (vp_semantic_verifier_watches p)))); [lia|]. simpl.
  rewrite (proj2 (existsb_false_iff _ _)).
  - apply try_for_opt_ok. intros [k w] Hk%elem_of_btree_iter. by apply (eo_watches p Hp).
  - intros s (k & Hk)%elem_of_btree_values. by rewrite (eo_sources p Hp k s Hk).
Qed.

Lemma goal_checkpoint_ok p : evidence_ok p -> validate_mission_goal_checkpoint p = Ok tt.
Proof.
  intros Hp. destruct (eo_sizes p Hp) as (_ & _ & _ & S4 & S5 & _). unfold validate_mission_goal_checkpoint.
  destruct (Nat.ltb_spec 128 (size (vp_mission_goal_contracts p))); [lia|].
  destruct (N.ltb_spec 4096 (N.of_nat (size (vp_mission_goal_receipts p)))); [lia|]. simpl.
  rewrite (proj2 (try_for_ok _ _)); [|intros [m c] Hm%elem_of_btree_iter; by apply (eo_contracts p Hp)].
  destruct (goal_receipts_fold p (btree_iter (vp_mission_goal_receipts p)) (∅, ∅)) as [seen ->]; [| | | |done].
  - intros k r Hk%elem_of_btree_iter. by apply (eo_goals p Hp).
  - apply distinct_by_NoDup, (eo_goal_ids p Hp).
  - apply distinct_by_NoDup, (eo_goal_streams p Hp).
  - intros kr _. simpl. set_solver.
Qed.

Lemma tenant_checkpoint_ok p : evidence_ok p -> validate_tenant_checkpoint p = Ok tt.
Proof.
  intros Hp. destruct (eo_sizes p Hp) as (_ & _ & _ & _ & _ & S6). unfold validate_tenant_checkpoint.
  destruct (N.ltb_spec 16384 (N.of_nat (size (vp_tenant_migrations p)))); [lia|]. simpl.
  rewrite (proj2 (existsb_false_iff _ _)); [done|]. intros [k r] Hk%elem_of_btree_iter.
  by apply (eo_migrations p Hp).
Qed.
End Checked.

(** ** Steps *)

Lemma grows_frame p q :
  cp_mission_tenants (vp_control q) = cp_mission_tenants (vp_control p) ->
  cp_node_identity_registry (vp_control q) = cp_node_identity_registry (vp_control p) ->
  vp_operator_authorization q = vp_operator_authorization p ->
  ver_history (vp_semantic_verifier p) ⊆ ver_history (vp_semantic_verifier q) ->
  vp_mission_verifier_sources p ⊆ vp_mission_verifier_sources q ->
  vp_mission_goal_contracts p ⊆ vp_mission_goal_contracts q -> grows p q.
Proof.
  intros Et Ei Eo Hh Hs Hc. split; [by rewrite Et| | |done..|].
  - intros _ node tenant. unfold node_of_tenant. by rewrite Ei.
  - intros k r _. unfold receipt_tenant, tenant_matches, evidence_tenant, mission_tenant. by rewrite Et, Ei.
  - intros k r _. unfold operator_agrees. by rewrite Eo.
Qed.

(** A Mission is given a tenant that its evidence agrees with. *)
Lemma grows_tenants p c mission tenant :
  cp_mission_tenants c = <[mission := tenant]> (cp_mission_tenants (vp_control p)) ->
  (forall owner, evidence_tenant p mission = Some owner -> owner = tenant) ->
  cp_node_identity_registry c = cp_node_identity_registry (vp_control p) ->
  tenant_agrees p mission tenant = true -> grows p (set_control c p).
Proof.
  intros Et Hold Ei Ha.
  assert (cp_mission_tenants (vp_control p) ⊆ cp_mission_tenants c) as Hsub.
  { rewrite Et. apply map_subseteq_spec. intros m x Hm. destruct (decide (m = mission)) as [->|Hne].
    - rewrite lookup_insert_eq. f_equal. symmetry. by apply Hold.
    - by rewrite lookup_insert_ne. }
  split; simpl; try done.
  - intros _ node t. unfold node_of_tenant. simpl. by rewrite Ei.
  - intros k r Hk. unfold receipt_tenant, tenant_matches, evidence_tenant, mission_tenant. simpl.
    destruct (cp_mission_tenants (vp_control p) !! _) as [owner|] eqn:Eo.
    + by rewrite (lookup_weaken _ _ _ _ Eo Hsub).
    + intros Hl. rewrite Ei, Et. destruct (decide (tr_mission_id (ve_task_ref (vc_evidence r)) = mission)) as [Em|Hne].
      * rewrite Em, lookup_insert_eq. unfold tenant_agrees in Ha. rewrite forallb_forall in Ha.
        specialize (Ha r). rewrite bool_decide_eq_true_2 in Ha by done. simpl in Ha. rewrite String.eqb_sym.
        apply Ha, list_elem_of_In, elem_of_btree_values. by exists k.
      * by rewrite lookup_insert_ne, Eo by done.
Qed.

Section StepFacts.
Context `{Serde}.

Lemma grows_goal p q k r : grows p q -> vp_mission_goal_receipts p !! k = Some r ->
  goal_receipt_ok p k r -> goal_receipt_ok q k r.
Proof.
  intros Hg Hk. unfold goal_receipt_ok, goal_receipt_check.
  destruct (vp_mission_goal_contracts p !! _) as [c|] eqn:Ec; [|done].
  rewrite (lookup_weaken _ _ _ _ Ec (gr_contracts p q Hg)).
  destruct (negb (valid_evidence _ _ _)); simpl; [done|]. destruct (negb (digest_text _)); simpl; [done|].
  destruct (operator_agrees p r) eqn:Eo.
  - pose proof (gr_operator p q Hg k r Hk Eo) as Eq. unfold operator_agrees in Eo, Eq.
    apply negb_true_iff in Eo, Eq. by rewrite Eo, Eq.
  - unfold operator_agrees in Eo. apply negb_false_iff in Eo. by rewrite Eo.
Qed.

Lemma grows_migration p q kr : grows p q -> migration_invalid p kr = false -> migration_invalid q kr = false.
Proof.
  destruct kr as [k r]. intros Hg. unfold migration_invalid. case_bool_decide as Et.
  - by rewrite (grows_tenant p q _ _ Hg Et), bool_decide_eq_true_2.
  - simpl. by rewrite !orb_true_r.
Qed.

(** What a step leaves is checked if what it adds is. *)
Lemma evidence_ok_step p q : evidence_ok p -> grows p q ->
  (forall r, cp_node_identity_registry (vp_control q) = Some r -> registry_ok r) ->
  version_ok (vp_belief_policy q) -> version_ok (vp_decision_policy q) ->
  (forall r, ver_current (vp_decision_policy q) = Some r ->
     ver_current (vp_decision_policy p) = Some r \/ validate_decision_registry_scope q r = Ok tt) ->
  version_ok (vp_semantic_verifier q) ->
  (forall k r, vp_semantic_verifier_receipts q !! k = Some r ->
     vp_semantic_verifier_receipts p !! k = Some r \/ retained_receipt_check q (k, r) = Some (Ok tt)) ->
  (forall k s, vp_mission_verifier_sources q !! k = Some s ->
     vp_mission_verifier_sources p !! k = Some s \/ source_in_history q s = true) ->
  (forall k w, vp_semantic_verifier_watches q !! k = Some w ->
     vp_semantic_verifier_watches p !! k = Some w \/ watch_check q (k, w) = Some (Ok tt)) ->
  (forall m c, vp_mission_goal_contracts q !! m = Some c ->
     vp_mission_goal_contracts p !! m = Some c \/ goal_contract_check q (m, c) = Ok tt) ->
  (forall k r, vp_mission_goal_receipts q !! k = Some r ->
     vp_mission_goal_receipts p !! k = Some r \/ goal_receipt_ok q k r) ->
  distinct_by goal_id (vp_mission_goal_receipts q) -> distinct_by goal_stream (vp_mission_goal_receipts q) ->
  (forall k r, vp_tenant_migrations q !! k = Some r ->
     vp_tenant_migrations p !! k = Some r \/ migration_invalid q (k, r) = false) ->
  ((N.of_nat (size (vp_semantic_verifier_receipts q)) <= 8192)%N /\
   (N.of_nat (size (vp_mission_verifier_sources q)) <= 8192)%N /\
   (N.of_nat (size (vp_semantic_verifier_watches q)) <= 8192)%N /\
   (size (vp_mission_goal_contracts q) <= 128)%nat /\ (N.of_nat (size (vp_mission_goal_receipts q)) <= 4096)%N /\
   (N.of_nat (size (vp_tenant_migrations q)) <= 16384)%N) ->
  evidence_ok q.
Proof.
  intros Hp Hg Hi Hb Hd Hsc Hv Hr Hs Hw Hc Hgo Hgi Hgs Hm Hz. split; try done.
  - intros r Er. destruct (Hsc r Er) as [Ho|]; [|done]. eapply grows_scope; [done|done|]. by apply (eo_scope p Hp).
  - intros k r Er. destruct (Hr k r Er) as [Ho|]; [|done]. eapply grows_receipt; [done|done|]. by apply (eo_receipts p Hp).
  - intros k s Es. destruct (Hs k s Es) as [Ho|]; [|done]. eapply grows_source; [done|]. by eapply (eo_sources p Hp).
  - intros k w Ew. destruct (Hw k w Ew) as [Ho|]; [|done]. eapply grows_watch; [done|]. by apply (eo_watches p Hp).
  - intros m c Ec. destruct (Hc m c Ec) as [Ho|]; [|done]. eapply grows_contract; [done|]. by apply (eo_contracts p Hp).
  - intros k r Er. destruct (Hgo k r Er) as [Ho|]; [|done]. eapply grows_goal; [done|done|]. by apply (eo_goals p Hp).
  - intros k r Er. destruct (Hm k r Er) as [Ho|]; [|done]. eapply grows_migration; [done|]. by apply (eo_migrations p Hp).
Qed.
End StepFacts.

(** The fields an operation leaves are checked as before; [q] is the state it leaves. *)
Ltac step_from Hp :=
  let H := fresh in
  pose proof Hp as H; destruct H;
  eapply (evidence_ok_step _ _ Hp); simpl; try assumption; try (by intros; left).

(** A step either declines, leaving the state, or is the update given. *)
Ltac declines H := unfold left_by, decline, refuse in H; simpl in H; simplify_eq H; intros; subst.

Section OperationFacts.
Context `{Serde, PolicyCodec, !Sha256Text}.

Lemma control_op_ok p op q : evidence_ok p -> in_order p (EvControl op) = true ->
  apply_evidence p (EvControl op) = Some q -> evidence_ok q.
Proof.
  intros Hp Hin (c & Ec & [= <-])%bind_Some.
  destruct (registers_tenant op) as [[mission tenant]|] eqn:Hop.
  - destruct op; try discriminate Hop. injection Hop as -> ->. apply after_Some in Ec as [r Ec].
    apply register_mission_tenant_effect in Ec as [[-> _]|(-> & Hold & _)]; [by destruct p|].
    step_from Hp. by apply (grows_tenants p _ mission tenant).
  - destruct (apply_op_shrinks _ op _ Ec Hop) as [Ei Et _]. step_from Hp; [by apply grows_frame|].
    by rewrite Ei.
Qed.

Lemma operator_grows p next : evidence_ok p -> in_order p (EvOperator (Some next)) = true ->
  is_none (vp_operator_authorization p) = true \/
    (exists previous, vp_operator_authorization p = Some previous /\
       operator_validates_successor previous next = Ok tt) ->
  grows p (set_operator (Some next) p).
Proof.
  intros Hp Hin Hs. split; simpl; try done. intros k r Hk.
  simpl in Hin. unfold operator_agrees. simpl. destruct Hs as [Hn|(previous & Hpv & Hs)].
  - destruct (vp_operator_authorization p); [done|]. simpl in Hin. apply bool_decide_eq_true in Hin.
    exfalso. apply (not_elem_of_empty (C := gset string) k). rewrite <- Hin. by apply elem_of_dom_2 in Hk.
  - rewrite Hpv. simpl. unfold operator_validates_successor in Hs. inv_check Hs.
    rewrite try_for_ok in Hs. destruct (oa_grants previous !! _) as [old|] eqn:Eo; [|done].
    specialize (Hs (gp_authority_leaf_digest r, old)). rewrite elem_of_btree_iter in Hs. specialize (Hs Eo).
    unfold operator_grant_kept in Hs. simpl in Hs.
    destruct (oa_grants next !! _) as [new|]; [|done]. simpl.
    destruct (String.eqb_spec (og_principal_id old) (og_principal_id new)) as [->|]; done.
Qed.

Lemma operator_op_ok p profile q : evidence_ok p -> in_order p (EvOperator profile) = true ->
  apply_evidence p (EvOperator profile) = Some q -> evidence_ok q.
Proof.
  intros Hp Hin E. simpl in E. unfold accept_operator_authorization in E.
  destruct (match vp_operator_authorization p with Some _ => _ | None => _ end) as [[]|] eqn:Ev; declines E; [|done].
  destruct profile as [next|].
  - step_from Hp. apply operator_grows; [done|done|].
    destruct (vp_operator_authorization p) as [previous|]; [right; by exists previous|by left].
  - destruct (vp_operator_authorization p) eqn:Eo; [done|]. step_from Hp. by apply grows_frame.
Qed.

Lemma bootstrap_op_ok p registry q : evidence_ok p -> in_order p (EvBootstrap registry) = true ->
  apply_evidence p (EvBootstrap registry) = Some q -> evidence_ok q.
Proof.
  intros Hp Hin E. simpl in E, Hin. unfold bootstrap_node_identity_registry in E.
  destruct (NodeIdentityRegistry_validate registry) as [[]|] eqn:Ev; [|by declines E].
  destruct (cp_node_identity_registry (vp_control p)) eqn:Ei; simpl in E; [by declines E|]. declines E.
  apply registry_validate_iff in Ev. apply andb_true_iff in Hin as [Hd Hr].
  step_from Hp; [|by intros r [= <-]]. split; simpl; try done.
  - by destruct (ver_current (vp_decision_policy p)).
  - intros k r Hk. unfold receipt_tenant, tenant_matches, evidence_tenant, mission_tenant in *. simpl.
    rewrite forallb_forall in Hr. specialize (Hr r).
    rewrite <- list_elem_of_In, elem_of_btree_values in Hr. specialize (Hr (ex_intro _ k Hk)).
    by destruct (cp_mission_tenants (vp_control p) !! _).
Qed.

(** A later registry keeps the owners. *)
Lemma put_identity_ok p old new : evidence_ok p -> cp_node_identity_registry (vp_control p) = Some old ->
  identity_step old new -> evidence_ok (put_identity new p).
Proof.
  intros Hp Ho Hs. pose proof (eo_identity p Hp old Ho) as Hok.
  pose proof (identity_step_ok _ _ Hok Hs) as Hn. pose proof (identity_step_later _ _ Hok Hs) as Hl.
  step_from Hp; [|by intros r [= <-]]. split; simpl; try done.
  - intros _ node tenant. unfold node_of_tenant. simpl. rewrite Ho.
    destruct (nr_records old !! as_str node) as [rec|] eqn:Er; [|done].
    destruct (il_records _ _ Hl _ _ Er) as (rec' & -> & Et & _). simpl. by rewrite Et.
  - intros k r Hk. unfold receipt_tenant, tenant_matches, evidence_tenant, mission_tenant. simpl. by rewrite Ho.
Qed.

Lemma identity_op_ok p command now subject q : evidence_ok p ->
  apply_evidence p (EvIdentity command now subject) = Some q -> evidence_ok q.
Proof.
  intros Hp E. simpl in E. unfold apply_node_identity_command in E.
  destruct (cp_node_identity_registry (vp_control p)) as [old|] eqn:Eo; [|by declines E].
  destruct (apply_command old command now subject) as [[[new receipt]|e]|] eqn:Ea; simpl in E; [|by declines E|done].
  declines E. eapply put_identity_ok; [done|done|by econstructor].
Qed.

Lemma attestation_op_ok p registry q : evidence_ok p ->
  apply_evidence p (EvAttestation registry) = Some q -> evidence_ok q.
Proof.
  intros Hp E. simpl in E. unfold replace_attestation_registry in E.
  destruct (NodeIdentityRegistry_validate registry) as [[]|] eqn:Ev; [|by declines E].
  destruct (cp_node_identity_registry (vp_control p)) as [old|] eqn:Eo; [|by declines E].
  destruct (registry_authority_changed old registry) eqn:Ec; declines E; [done|].
  eapply put_identity_ok; [done|done|by apply is_measure].
Qed.

Lemma belief_op_ok p next expected q : evidence_ok p ->
  apply_evidence p (EvBelief next expected) = Some q -> evidence_ok q.
Proof.
  intros Hp E. simpl in E. unfold accept_belief_policy_registry in E.
  destruct (BeliefPolicyRegistry_validate next) as [[]|] eqn:Ev; [|by declines E].
  destruct (admit_revision _ _ _ next expected) as [[]|] eqn:Ea; [by declines E| |by declines E].
  destruct (N.leb_spec 1024 (N.of_nat (size (ver_history (vp_belief_policy p))))); [by declines E|].
  destruct (try_for _ _); declines E; [|done]. step_from Hp; [by apply grows_frame|]. by eapply install_ok.
Qed.

Lemma decision_op_ok p next expected q : evidence_ok p ->
  apply_evidence p (EvDecision next expected) = Some q -> evidence_ok q.
Proof.
  intros Hp E. simpl in E. unfold accept_decision_policy_registry in E.
  destruct (DecisionPolicyRegistry_validate next) as [[]|] eqn:Ev; [|by declines E].
  destruct (admit_revision _ _ _ next expected) as [[]|] eqn:Ea; [by declines E| |by declines E].
  destruct (N.leb_spec 1024 (N.of_nat (size (ver_history (vp_decision_policy p))))); [by declines E|].
  destruct (validate_decision_registry_scope p next) as [[]|] eqn:Es; declines E; [|done].
  step_from Hp; [by apply grows_frame|by eapply install_ok|]. intros r [= <-]. by right.
Qed.

Lemma verifier_op_ok p next expected q : evidence_ok p ->
  apply_evidence p (EvVerifier next expected) = Some q -> evidence_ok q.
Proof.
  intros Hp E. simpl in E. unfold accept_semantic_verifier_registry in E.
  destruct (SemanticVerifierRegistry_validate next) as [[]|] eqn:Ev; [|by declines E].
  destruct (admit_revision _ _ _ next expected) as [[]|] eqn:Ea; [by declines E| |by declines E].
  destruct (N.leb_spec 1024 (N.of_nat (size (ver_history (vp_semantic_verifier p))))); declines E; [done|].
  step_from Hp; [|by eapply install_ok]. apply grows_frame; try done. eapply install_grows; [|done].
  apply (eo_verifier p Hp).
Qed.

Lemma size_insert_le {K A} `{Countable K} (m : gmap K A) k x : (size (<[k := x]> m) <= S (size m))%nat.
Proof. rewrite map_size_insert. destruct (m !! k); simpl; lia. Qed.

Lemma lookup_insert_cases {K A} `{Countable K} (m : gmap K A) k x j y :
  <[k := x]> m !! j = Some y -> (j = k /\ y = x) \/ m !! j = Some y.
Proof.
  destruct (decide (j = k)) as [->|Hne]; [rewrite lookup_insert_eq|rewrite lookup_insert_ne by done];
    intros; simplify_eq; auto.
Qed.

Lemma migrate_op_ok p command digest subject now q : evidence_ok p ->
  in_order p (EvMigrate command digest subject now) = true ->
  apply_evidence p (EvMigrate command digest subject now) = Some q -> evidence_ok q.
Proof.
  intros Hp Hin E. simpl in E, Hin. unfold migrate_mission_tenant in E.
  destruct (vp_tenant_migrations p !! _) as [previous|] eqn:Ek.
  { destruct (bool_decide _); by declines E. }
  destruct (migration_refused _ _ _ _) eqn:Er; [by declines E|].
  destruct (evidence_tenant p (tm_mission_id command)) eqn:Et; simpl in E; [by declines E|].
  destruct (foreign_assignment _ _); [by declines E|].
  unfold left_by in E. apply fmap_Some in E as ([p1 res] & E & ->).
  apply bind_Some in E as ([c r] & Em & E).
  apply register_mission_tenant_effect in Em as [(-> & e & ->)|(-> & Hold & ->)]; simplify_eq; simpl;
    [by destruct p|].
  pose proof (eo_sizes p Hp) as Hz. unfold migration_refused in Er. bool_facts.
  step_from Hp.
  - destruct (grows_tenants p (set_missions (cp_physical_entity_registry (vp_control p))
      (cp_registry_provenance (vp_control p)) (cp_mission_binding_semantics (vp_control p))
      (<[tm_mission_id command := tm_tenant_id command]> (cp_mission_tenants (vp_control p))) (vp_control p))
      (tm_mission_id command) (tm_tenant_id command)) as [G1 G2 G3 G4 G5 G6 G7]; try done.
  - intros k r [[-> ->]|Ho]%lookup_insert_cases; [right|by left]. unfold migration_invalid. simpl.
    match goal with E : (_ =? _)%string = true |- _ => apply String.eqb_eq in E; rewrite E end.
    unfold evidence_tenant, mission_tenant. simpl. rewrite lookup_insert_eq, (bool_decide_eq_true_2 (_ = _)) by done.
    rewrite String.eqb_refl. repeat match goal with E : _ = _ |- _ => progress rewrite E end. simpl.
    destruct (N.ltb_spec 128 (str_len (tm_command_id command))); [lia|].
    by destruct (N.ltb_spec 256 (str_len subject)); [lia|].
  - pose proof (size_insert_le (vp_tenant_migrations p) (tm_command_id command)
      (MkMigrationReceipt command subject now)). lia.
Qed.

(** The sources of the current registry are valid. *)
Lemma current_source_valid p registry k source : evidence_ok p ->
  ver_current (vp_semantic_verifier p) = Some registry -> vr_sources registry !! k = Some source ->
  verifier_source_invalid (k, source) = false.
Proof.
  intros Hp Ec Hk. destruct (vo_current _ (eo_verifier p Hp) registry Ec) as [_ Hv]. simpl in Hv.
  unfold SemanticVerifierRegistry_validate in Hv. inv_check Hv. rewrite try_for_ok in Hv.
  specialize (Hv (k, source)). rewrite elem_of_btree_iter in Hv. specialize (Hv Hk).
  by destruct (verifier_source_invalid (k, source)).
Qed.

(** A source picked for a spec is enrolled in the current registry. *)
Lemma registered_source_inv p spec tenant source : evidence_ok p ->
  registered_verifier_source p spec tenant = Ok source ->
  source_in_history p source = true /\ vs_enabled source = true /\ vs_tenant_id source = tenant /\
  vs_contract source = vs_verifier spec /\ vs_predicate spec ∈ vs_predicates source.
Proof.
  intros Hp. unfold registered_verifier_source.
  destruct (List.filter _ _) as [|s [|]] eqn:Ef; [done| |done]. intros [= ->].
  assert (In source [source]) as Hin by by left. rewrite <- Ef in Hin.
  apply filter_In in Hin as [Hs%list_elem_of_In Hb].
  bool_facts. match goal with E : (_ =? _)%string = true |- _ => apply String.eqb_eq in E as <- end.
  split; [|done]. clear Ef.
  unfold registered_sources in Hs. destruct (ver_current (vp_semantic_verifier p)) as [registry|] eqn:Ec;
    [|by apply not_elem_of_nil in Hs].
  destruct (vo_current _ (eo_verifier p Hp) registry Ec) as [Hh _]. apply elem_of_btree_values in Hs as [k Hk].
  apply source_in_history_iff. exists (reg_revision registry), registry. split; [done|].
  pose proof (current_source_valid p registry k source Hp Ec Hk) as Ei. unfold verifier_source_invalid in Ei.
  bool_facts. match goal with E : (k =? _)%string = true |- _ => apply String.eqb_eq in E as <- end. done.
Qed.

Lemma plan_sources_inv p tenant tasks l : evidence_ok p -> plan_sources p tenant tasks = Some (Ok l) ->
  forall key source, (key, source) ∈ l -> source_in_history p source = true.
Proof.
  intros Hp. revert l. induction tasks as [|task tasks IH]; intros l; simpl.
  { intros [= <-] key source ?%not_elem_of_nil. done. }
  destruct (pt_satisfaction_basis task) as [|spec]; [apply IH|].
  destruct (registered_verifier_source p spec tenant) as [source|] eqn:Es; [|done].
  intros (key & _ & E)%bind_Some. apply bind_Some in E as ([rest|] & Hr & E); simplify_eq.
  intros k s [Eq|Hin]%elem_of_cons; [|by eapply IH]. simplify_eq.
  by apply registered_source_inv in Es as [? _].
Qed.

Lemma foldl_insert_lookup {A} (l : list (string * A)) (m : gmap string A) k x :
  foldl (fun m kv => <[kv.1 := kv.2]> m) m l !! k = Some x -> m !! k = Some x \/ (k, x) ∈ l.
Proof.
  revert m. induction l as [|[j y] l IH]; intros m; simpl; [by left|].
  intros [[[-> ->]|Hm]%lookup_insert_cases|Hl]%IH; [right; by left|by left|right; by right].
Qed.

Lemma foldl_insert_grows {A} (l : list (string * A)) (m m' : gmap string A) :
  (forall k x old, (k, x) ∈ l -> m !! k = Some old -> old = x) -> m ⊆ m' ->
  m ⊆ foldl (fun m kv => <[kv.1 := kv.2]> m) m' l.
Proof.
  revert m'. induction l as [|[j y] l IH]; intros m' Hm Hsub; simpl; [done|].
  apply IH; [intros; eapply Hm; [by right|done]|]. apply map_subseteq_spec. intros k x Hk.
  destruct (decide (k = j)) as [->|Hne].
  - rewrite lookup_insert_eq. f_equal. symmetry. eapply Hm; [by left|done].
  - rewrite lookup_insert_ne by done. by eapply lookup_weaken.
Qed.

Lemma foldl_insert_size {A} (l : list (string * A)) (m : gmap string A) :
  (size (foldl (fun m kv => <[kv.1 := kv.2]> m) m l) <= size m + length l)%nat.
Proof.
  revert m. induction l as [|[j y] l IH]; intros m; simpl; [lia|].
  specialize (IH (<[j := y]> m)). pose proof (size_insert_le m j y). lia.
Qed.

Lemma freeze_ok p plan tenant completed q : evidence_ok p ->
  left_by (freeze_verifier_sources_except p plan tenant completed) = Some q -> evidence_ok q.
Proof.
  intros Hp E. unfold freeze_verifier_sources_except, left_by in E. apply fmap_Some in E as ([p1 r] & E & ->).
  apply bind_Some in E as ([l|] & Hl & E); [|by declines E].
  destruct (N.ltb_spec 8192 (N.of_nat (size (vp_mission_verifier_sources p) + length l))); [by declines E|].
  destruct (existsb _ l) eqn:Ex; declines E; [done|]. simpl.
  assert (forall k x old, (k, x) ∈ l -> vp_mission_verifier_sources p !! k = Some old -> old = x) as Hk.
  { intros k x old Hin Ho. apply existsb_false_iff with (x := (k, x)) in Ex; [|done]. simpl in Ex.
    rewrite Ho in Ex. simpl in Ex. by bool_facts. }
  pose proof (eo_sizes p Hp) as Hz.
  step_from Hp.
  - apply grows_frame; try done. by apply foldl_insert_grows.
  - intros k s [Ho|Hin]%foldl_insert_lookup; [by left|right]. exact (plan_sources_inv _ _ _ _ Hp Hl _ _ Hin).
  - pose proof (foldl_insert_size l (vp_mission_verifier_sources p)). lia.
Qed.

Lemma freeze_revision_op_ok p source plan tenant q : evidence_ok p ->
  apply_evidence p (EvFreezeRevision source plan tenant) = Some q -> evidence_ok q.
Proof.
  intros Hp E. simpl in E. unfold freeze_revision_verifier_sources in E.
  destruct (cp_groups (vp_control p) !! source) as [g|]; [|by declines E].
  destruct (negb _); [by declines E|]. by eapply freeze_ok.
Qed.

Lemma monitor_op_ok p task digest attempts now q : evidence_ok p ->
  in_order p (EvMonitor task digest attempts now) = true ->
  apply_evidence p (EvMonitor task digest attempts now) = Some q -> evidence_ok q.
Proof.
  intros Hp Hin E. simpl in E. unfold in_order in Hin. apply andb_true_iff in Hin as [Hmin Hmax].
  apply Nat.ltb_lt in Hmin. apply Nat.leb_le in Hmax.
  unfold monitor_semantic_verifier, left_by in E. apply fmap_Some in E as ([p1 r] & E & ->).
  apply bind_Some in E as ([source|] & Hf & E); [|by declines E].
  destruct (negb _); [by declines E|]. apply bind_Some in E as (key & Hk & E).
  destruct (contains_key _ _); [by declines E|].
  destruct (N.leb_spec 8192 (N.of_nat (size (vp_semantic_verifier_watches p)))); [by declines E|].
  destruct (u64_checked_add now (vs_max_age_ms source)) as [deadline|] eqn:Ed; declines E; [|done].
  pose proof (eo_sizes p Hp) as Hz. simpl. step_from Hp.
  - by apply grows_frame.
  - intros k w [[-> ->]|Ho]%lookup_insert_cases; [right|by left]. unfold watch_check. simpl.
    rewrite Hk. simpl. unfold task_verifier_source in Hf |- *. simpl. rewrite Hf. simpl.
    rewrite String.eqb_refl, bool_decide_eq_true_2, Ed, N.eqb_refl by done. simpl.
    destruct (Nat.eqb_spec (length attempts) 0); [lia|].
    by destruct (Nat.ltb_spec 32 (length attempts)); [lia|].
  - pose proof (size_insert_le (vp_semantic_verifier_watches p) key
      (MkVerifierWatch task source digest attempts now deadline)). lia.
Qed.

(** Evidence is admitted under the registry it names, or the state stays. *)
Lemma admit_inv p e subject now q r : admit_semantic_verifier_evidence p e subject now = Some (q, r) ->
  q = p \/ exists key digest registry source until,
    SemanticVerifierEvidence_validate e = Ok tt /\
    verifier_receipt_key (ve_source_id e) (ve_evidence_id e) = Some key /\
    content_digest (evidence_json e) = Ok digest /\ ver_current (vp_semantic_verifier p) = Some registry /\
    vr_sources registry !! ve_source_id e = Some source /\ evidence_unauthorized p source e subject = false /\
    vp_semantic_verifier_receipts p !! key = None /\
    (N.of_nat (size (vp_semantic_verifier_receipts p)) < 8192)%N /\
    existsb (sequence_taken e) (btree_values (vp_semantic_verifier_receipts p)) = false /\
    u64_checked_add now (ve_valid_for_ms e) = Some until /\
    q = set_verifiers (vp_semantic_verifier p)
          (<[key := MkVerifierReceipt e (vr_revision registry) digest subject now until false None]>
             (vp_semantic_verifier_receipts p))
          (vp_mission_verifier_sources p) (vp_semantic_verifier_watches p) p.
Proof.
  unfold admit_semantic_verifier_evidence, decline.
  destruct (SemanticVerifierEvidence_validate e) as [[]|] eqn:Ev; [|intros; simplify_eq; by left].
  intros (key & Hk & E)%bind_Some.
  destruct (content_digest (evidence_json e)) as [digest|] eqn:Ed; [|simplify_eq; by left].
  destruct (ver_current (vp_semantic_verifier p)) as [registry|] eqn:Er; [|simplify_eq; by left].
  destruct (vr_sources registry !! ve_source_id e) as [source|] eqn:Es; [|simplify_eq; by left].
  destruct (evidence_unauthorized p source e subject) eqn:Eu; [simplify_eq; by left|].
  destruct (vp_semantic_verifier_receipts p !! key) as [previous|] eqn:Eo.
  { destruct (_ =? _)%string; simplify_eq; by left. }
  destruct (N.leb_spec 8192 (N.of_nat (size (vp_semantic_verifier_receipts p)))); [simpl in E; simplify_eq; by left|].
  simpl in E. destruct (existsb _ _) eqn:Ex; [simplify_eq; by left|].
  destruct (u64_checked_add now (ve_valid_for_ms e)) as [until|] eqn:Eun; simplify_eq; [|by left].
  right. exists key, digest, registry, source, until. done.
Qed.

Lemma admit_op_ok p e subject now q : evidence_ok p ->
  apply_evidence p (EvAdmit e subject now) = Some q -> evidence_ok q.
Proof.
  intros Hp E. unfold apply_evidence, left_by in E. apply fmap_Some in E as ([p1 r] & E & ->). simpl.
  apply admit_inv in E as [->|(key & digest & registry & source & until & Ev & Hk & Ed & Ec & Es & Eu & Eo &
    Hz & _ & Eun & ->)]; [done|].
  destruct (vo_current _ (eo_verifier p Hp) registry Ec) as [Hh _].
  pose proof (current_source_valid p registry _ source Hp Ec Es) as Hval.
  pose proof (eo_sizes p Hp) as Hsz. step_from Hp.
  - by apply grows_frame.
  - intros k r' [[-> ->]|Ho]%lookup_insert_cases; [right|by left]. unfold retained_receipt_check. simpl.
    rewrite Ev, Ed, Hk. simpl. rewrite !String.eqb_refl, Eun, N.eqb_refl. simpl.
    unfold evidence_unauthorized in Eu. unfold verifier_source_invalid in Hval. bool_facts.
    assert (is_blank subject = false) as ->.
    { match goal with E : existsb _ (bset_iter (vs_producer_principals source)) = false |- _ =>
        rename E into Hsub end.
      rewrite existsb_false_iff in Hsub. specialize (Hsub subject). rewrite elem_of_bset_iter in Hsub.
      unfold valid_text in Hsub. destruct (is_blank subject); [|done]. by apply Hsub. }
    unfold tenant_matches in *. simpl. unfold evidence_tenant in *. simpl.
    match goal with E : match mission_tenant _ _ with _ => _ end = true |- _ => rewrite E end. simpl.
    simpl in Hh. rewrite Hh. simpl. rewrite Es. unfold receipt_source_differs. simpl. unfold set_contains.
    repeat match goal with E : _ = true |- _ => progress rewrite E | E : _ = false |- _ => progress rewrite E end.
    rewrite !bool_decide_eq_true_2 by done.
    repeat match goal with E : ?a = ?b |- context [(?a =? ?b)%N] => rewrite E, N.eqb_refl end. simpl.
    by destruct (N.ltb_spec (vs_max_age_ms source) (ve_valid_for_ms e)); [lia|].
  - pose proof (size_insert_le (vp_semantic_verifier_receipts p) key
      (MkVerifierReceipt e (vr_revision registry) digest subject now until false None)). lia.
Qed.

(** What the disposition of a receipt changes. *)
Lemma mark_inv p source evidence applied incident q r :
  mark_semantic_verifier_receipt p source evidence applied incident = Some (q, r) ->
  q = p \/ exists key old,
    verifier_receipt_key source evidence = Some key /\ vp_semantic_verifier_receipts p !! key = Some old /\
    (vc_applied old = true -> applied = true) /\
    (forall reason, vc_incident old = Some reason -> incident = Some reason) /\
    q = set_verifiers (vp_semantic_verifier p)
          (<[key := MkVerifierReceipt (vc_evidence old) (vc_registry_revision old) (vc_input_digest old)
                      (vc_authority_subject old) (vc_received_at_ms old) (vc_valid_until_ms old) applied incident]>
             (vp_semantic_verifier_receipts p))
          (vp_mission_verifier_sources p) (vp_semantic_verifier_watches p) p.
Proof.
  unfold mark_semantic_verifier_receipt, decline. intros (key & Hk & E)%bind_Some.
  destruct (vp_semantic_verifier_receipts p !! key) as [old|] eqn:Eo; [|simplify_eq; by left].
  destruct (_ || _ || _) eqn:Eb; simplify_eq; [by left|]. right. bool_facts. exists key, old.
  split_and!; try done.
  - intros Ha. rewrite Ha in *. by destruct applied.
  - intros reason Hi. rewrite Hi in *. simpl in *. by bool_facts.
Qed.

Lemma mark_op_ok p source evidence applied incident q : evidence_ok p ->
  apply_evidence p (EvMark source evidence applied incident) = Some q -> evidence_ok q.
Proof.
  intros Hp E. unfold apply_evidence, left_by in E. apply fmap_Some in E as ([p1 r] & E & ->). simpl.
  apply mark_inv in E as [->|(key & old & Hk & Eo & _ & _ & ->)]; [done|].
  pose proof (eo_sizes p Hp) as Hsz. step_from Hp.
  - by apply grows_frame.
  - intros k r' [[-> ->]|Ho]%lookup_insert_cases; [right|by left].
    exact (eo_receipts p Hp key old Eo).
  - rewrite map_size_insert, Eo. simpl. lia.
Qed.

Lemma content_digest_text value digest : content_digest value = Ok digest -> digest_text digest = true.
Proof.
  unfold content_digest. destruct (json_to_vec value) as [text|]; [|done]. intros [= <-].
  unfold digest_text. rewrite strip_prefix_app. simpl. pose proof (sha256_text text) as Ht.
  unfold is_hex in Ht. exact Ht.
Qed.

Lemma freeze_goal_inv p goal spec context tenant q r :
  freeze_mission_goal p goal spec context tenant = Some (q, r) ->
  q = p \/ exists source contract,
    evidence_tenant p (mg_mission_id goal) = Some tenant /\ digest_text context = true /\
    registered_verifier_source p spec tenant = Ok source /\
    goal_contract goal spec context tenant source = Ok contract /\
    vp_mission_goal_contracts p !! mg_mission_id goal = None /\
    (size (vp_mission_goal_contracts p) < 128)%nat /\
    q = set_goals (<[mg_mission_id goal := contract]> (vp_mission_goal_contracts p))
          (vp_mission_goal_receipts p) p.
Proof.
  unfold freeze_mission_goal, decline. destruct (_ || _ || _) eqn:Eb; [intros; simplify_eq; by left|].
  destruct (registered_verifier_source p spec tenant) as [source|] eqn:Es; [|intros; simplify_eq; by left].
  destruct (goal_contract goal spec context tenant source) as [contract|] eqn:Ec; [|intros; simplify_eq; by left].
  destruct (vp_mission_goal_contracts p !! mg_mission_id goal) as [original|] eqn:Eo.
  { destruct (negb (bool_decide (original = contract))); intros; simplify_eq; by left. }
  destruct (Nat.leb_spec 128 (size (vp_mission_goal_contracts p))); intros; simplify_eq; [by left|].
  right. bool_facts. exists source, contract. done.
Qed.

Lemma freeze_goal_op_ok p goal spec context tenant q : evidence_ok p ->
  apply_evidence p (EvFreezeGoal goal spec context tenant) = Some q -> evidence_ok q.
Proof.
  intros Hp E. unfold apply_evidence, left_by in E. apply fmap_Some in E as ([p1 r] & E & ->). simpl.
  apply freeze_goal_inv in E as [->|(source & contract & Et & Hctx & Es & Ec & Eo & Hz & ->)]; [done|].
  apply registered_source_inv in Es as (Hh & _ & Etn & Ecn & Hpr); [|done].
  unfold goal_contract in Ec. inv_check Ec. injection Ec as <-.
  pose proof (eo_sizes p Hp) as Hsz. step_from Hp.
  - apply grows_frame; try done. simpl. by apply insert_subseteq.
  - intros m c [[-> ->]|Ho]%lookup_insert_cases; [right|by left]. unfold goal_contract_check, evidence_tenant.
    simpl. unfold evidence_tenant in Et. rewrite Et, !(bool_decide_eq_true_2 (_ = _)) by done. simpl.
    rewrite (content_digest_text _ _ E), Hctx. simpl. unfold with_digest. simpl. rewrite E0, String.eqb_refl. simpl.
    rewrite Etn, String.eqb_refl. unfold set_contains. rewrite bool_decide_eq_true_2 by done. simpl.
    unfold source_in_history in Hh |- *. simpl. by rewrite Hh.
  - rewrite map_size_insert_None by done. lia.
Qed.

Lemma admit_goal_inv p e principal leaf now q r :
  admit_mission_goal_evidence p e principal leaf now = Some (q, r) ->
  q = p \/ exists contract digest,
    vp_mission_goal_contracts p !! ge_mission_id e = Some contract /\
    content_digest (goal_evidence_json e) = Ok digest /\
    List.find (same_evidence e) (btree_values (vp_mission_goal_receipts p)) = None /\
    valid_evidence e contract principal = true /\ digest_text leaf = true /\
    publisher_refused p principal leaf now = false /\ mission_goal_source_current p (ge_mission_id e) = true /\
    existsb (goal_sequence_taken e) (btree_values (vp_mission_goal_receipts p)) = false /\
    (N.of_nat (size (vp_mission_goal_receipts p)) < 4096)%N /\
    q = set_goals (vp_mission_goal_contracts p)
          (<[digest := MkGoalReceipt e principal leaf digest now]> (vp_mission_goal_receipts p)) p.
Proof.
  unfold admit_mission_goal_evidence, decline.
  destruct (vp_mission_goal_contracts p !! ge_mission_id e) as [contract|] eqn:Ec; [|intros; simplify_eq; by left].
  destruct (content_digest _) as [digest|] eqn:Ed; [|intros; simplify_eq; by left].
  destruct (List.find _ _) as [original|] eqn:Ef.
  { destruct (_ || _); intros; simplify_eq; by left. }
  destruct (negb _ || negb _ || publisher_refused _ _ _ _ || negb _ || existsb _ _) eqn:Eb;
    [intros; simplify_eq; by left|]. bool_facts.
  destruct (N.leb_spec 4096 (N.of_nat (size (vp_mission_goal_receipts p)))); intros; simplify_eq; [by left|].
  right. exists contract, digest. done.
Qed.

(** A goal receipt is new among those retained. *)
Lemma admitted_goal_fresh p e receipt k old : gp_evidence receipt = e ->
  List.find (same_evidence e) (btree_values (vp_mission_goal_receipts p)) = None ->
  existsb (goal_sequence_taken e) (btree_values (vp_mission_goal_receipts p)) = false ->
  vp_mission_goal_receipts p !! k = Some old -> goal_id receipt <> goal_id old /\ goal_stream receipt <> goal_stream old.
Proof.
  intros <- Hf Hx Hk. assert (old ∈ btree_values (vp_mission_goal_receipts p)) as Hin
    by (apply elem_of_btree_values; by exists k). split.
  - intros E. apply find_none with (x := old) in Hf; [|by apply list_elem_of_In]. unfold goal_id in E.
    injection E as E1 E2 E3. unfold same_evidence in Hf.
    rewrite <- E1, <- E2, <- E3, bool_decide_eq_true_2, !String.eqb_refl in Hf by done. done.
  - intros E. rewrite existsb_false_iff in Hx. specialize (Hx old Hin). unfold goal_stream in E.
    injection E as E1 E2 E3 E4 E5. unfold goal_sequence_taken in Hx.
    rewrite <- E1, <- E2, <- E3, <- E4, <- E5, !bool_decide_eq_true_2, String.eqb_refl, N.eqb_refl, N.leb_refl in Hx by done.
    done.
Qed.

Lemma distinct_by_insert {A B} (f : A -> B) (m : gmap string A) k x :
  distinct_by f m -> (forall j y, m !! j = Some y -> f x <> f y) -> distinct_by f (<[k := x]> m).
Proof.
  intros Hd Hf k1 k2 x1 x2 [[-> ->]|Hk1]%lookup_insert_cases [[-> ->]|Hk2]%lookup_insert_cases E;
    [done| | |by eapply Hd].
  - by apply Hf in Hk2.
  - by apply Hf in Hk1.
Qed.

Lemma goal_admitted_ok p contract e principal leaf digest now : vp_mission_goal_contracts p !! ge_mission_id e = Some contract ->
  content_digest (goal_evidence_json e) = Ok digest -> valid_evidence e contract principal = true ->
  digest_text leaf = true -> publisher_refused p principal leaf now = false ->
  goal_receipt_ok (set_goals (vp_mission_goal_contracts p)
    (<[digest := MkGoalReceipt e principal leaf digest now]> (vp_mission_goal_receipts p)) p)
    digest (MkGoalReceipt e principal leaf digest now).
Proof.
  intros Ec Ed Hv Hleaf Hpub. unfold goal_receipt_ok, goal_receipt_check.
  cbn [set_goals vp_mission_goal_contracts vp_operator_authorization gp_evidence gp_authority_subject
       gp_authority_leaf_digest gp_input_digest]. rewrite Ec, Hv, Hleaf. cbn [negb orb].
  match goal with |- context [is_some_and ?f (vp_operator_authorization p)] =>
    assert (is_some_and f (vp_operator_authorization p) = false) as -> end.
  { unfold publisher_refused in Hpub. destruct (vp_operator_authorization p) as [registry|]; [|done]. simpl in *.
    destruct (oa_grants registry !! leaf) as [grant|]; [|done]. simpl in *. by bool_facts; destruct (_ =? _)%string. }
  rewrite String.eqb_refl, Ed, String.eqb_refl. cbn [negb orb]. unfold valid_evidence in Hv.
  apply negb_true_iff in Hv. bool_facts.
  repeat match goal with E : (_ =? _)%string = true |- _ => rewrite E; clear E end.
  unfold set_contains in *. rewrite (bool_decide_eq_true_2 (principal ∈ _)) by done.
  match goal with E : ge_source_revision e = _ |- _ => rewrite E, N.eqb_refl end.
  destruct (N.eqb_spec (ge_valid_for_ms e) 0); [done|].
  destruct (N.ltb_spec (N.min (vs_max_age_ms (gc_source contract)) (vs_max_evidence_age_ms (gc_spec contract)))
    (ge_valid_for_ms e)); [lia|].
  cbn [fst snd]. rewrite !(bool_decide_eq_false_2 (_ ∈ ∅)) by set_solver. done.
Qed.

Lemma admit_goal_op_ok p e principal leaf now q : evidence_ok p ->
  apply_evidence p (EvAdmitGoal e principal leaf now) = Some q -> evidence_ok q.
Proof.
  intros Hp E. unfold apply_evidence, left_by in E. apply fmap_Some in E as ([p1 r] & E & ->). simpl.
  apply admit_goal_inv in E as [->|(contract & digest & Ec & Ed & Hf & Hv & Hl & Hpub & Hcur & Hx & Hz & ->)]; [done|].
  pose proof (eo_sizes p Hp) as Hsz. step_from Hp.
  - by apply grows_frame.
  - intros k r' [[-> ->]|Ho]%lookup_insert_cases; [right|by left]. by eapply goal_admitted_ok.
  - apply distinct_by_insert; [by apply eo_goal_ids|]. intros j y Hj. by eapply admitted_goal_fresh.
  - apply distinct_by_insert; [by apply eo_goal_streams|]. intros j y Hj. by eapply admitted_goal_fresh.
  - pose proof (size_insert_le (vp_mission_goal_receipts p) digest (MkGoalReceipt e principal leaf digest now)). lia.
Qed.

Lemma ordered_step_ok p q : evidence_ok p -> ordered_step p q -> evidence_ok q.
Proof.
  intros Hp (op & Hin & E). destruct op.
  - by eapply control_op_ok.
  - by eapply operator_op_ok.
  - by eapply bootstrap_op_ok.
  - by eapply identity_op_ok.
  - by eapply attestation_op_ok.
  - by eapply belief_op_ok.
  - by eapply decision_op_ok.
  - by eapply verifier_op_ok.
  - by eapply migrate_op_ok.
  - by eapply freeze_ok.
  - by eapply freeze_revision_op_ok.
  - by eapply monitor_op_ok.
  - by eapply admit_op_ok.
  - by eapply mark_op_ok.
  - by eapply freeze_goal_op_ok.
  - by eapply admit_goal_op_ok.
Qed.

Lemma ordered_run_ok p : rtc ordered_step EvidencePlane_new p -> evidence_ok p.
Proof.
  intros Hr. pose proof evidence_ok_new as Hp. induction Hr as [p|p p1 q Hs _ IH]; [done|].
  by eapply IH, ordered_step_ok.
Qed.

(** What the check of a goal receipt establishes. *)
Lemma goal_receipt_inv p k r : goal_receipt_ok p k r -> exists contract,
  vp_mission_goal_contracts p !! ge_mission_id (gp_evidence r) = Some contract /\
  valid_evidence (gp_evidence r) contract (gp_authority_subject r) = true /\
  content_digest (goal_evidence_json (gp_evidence r)) = Ok k /\ operator_agrees p r = true.
Proof.
  unfold goal_receipt_ok, goal_receipt_check, operator_agrees.
  destruct (vp_mission_goal_contracts p !! _) as [contract|]; [|done].
  destruct (valid_evidence _ _ _) eqn:Hv; [|done]. cbn [negb orb].
  destruct (negb (digest_text _)); [done|]. cbn [orb]. destruct (is_some_and _ _); [done|]. cbn [orb].
  destruct (negb (k =? _)%string); [done|]. destruct (content_digest _) as [digest|]; [|done].
  destruct (String.eqb_spec k digest) as [->|]; [|done]. intros _. exists contract. done.
Qed.
End OperationFacts.

(** ** What every run keeps, in whatever order

    A receipt keeps what was admitted; its disposition only advances. *)

Record receipt_later (r r' : SemanticVerifierReceipt) : Prop := {
  rl_evidence : vc_evidence r' = vc_evidence r;
  rl_authority : (vc_registry_revision r', vc_input_digest r', vc_authority_subject r') =
                 (vc_registry_revision r, vc_input_digest r, vc_authority_subject r);
  rl_times : (vc_received_at_ms r', vc_valid_until_ms r') = (vc_received_at_ms r, vc_valid_until_ms r);
  rl_applied : vc_applied r = true -> vc_applied r' = true;
  rl_incident : forall reason, vc_incident r = Some reason -> vc_incident r' = Some reason
}.

#[export] Instance receipt_later_preorder : PreOrder receipt_later.
Proof.
  split; [by intros r|]. intros r1 r2 r3 [? ? ? ? ?] [? ? ? ? ?]. split; [congruence..|auto|auto].
Qed.

Record kept (p q : EvidencePlane) : Prop := {
  kt_tenants : cp_mission_tenants (vp_control p) ⊆ cp_mission_tenants (vp_control q);
  kt_sources : vp_mission_verifier_sources p ⊆ vp_mission_verifier_sources q;
  kt_contracts : vp_mission_goal_contracts p ⊆ vp_mission_goal_contracts q;
  kt_receipts : forall k r, vp_semantic_verifier_receipts p !! k = Some r ->
    exists r', vp_semantic_verifier_receipts q !! k = Some r' /\ receipt_later r r'
}.

#[export] Instance kept_preorder : PreOrder kept.
Proof.
  split; [intros p; split; try done; intros k r Hk; by exists r|].
  intros p1 p2 p3 [? ? ? K1] [? ? ? K2]. split; [by etrans..|]. intros k r Hk.
  destruct (K1 k r Hk) as (r2 & Hk2 & L2). destruct (K2 k r2 Hk2) as (r3 & Hk3 & L3).
  exists r3. split; [done|by etrans].
Qed.

(** One step also admits only evidence whose sequence is new. *)
Record kept_step (p q : EvidencePlane) : Prop := {
  ks_kept : kept p q;
  ks_new : forall k r, vp_semantic_verifier_receipts p !! k = None ->
    vp_semantic_verifier_receipts q !! k = Some r ->
    existsb (sequence_taken (vc_evidence r)) (btree_values (vp_semantic_verifier_receipts p)) = false
}.

#[export] Instance kept_step_refl : Reflexive kept_step.
Proof. intros p. split; [done|]. intros k r. congruence. Qed.

Lemma kept_frame p q :
  cp_mission_tenants (vp_control p) ⊆ cp_mission_tenants (vp_control q) ->
  vp_mission_verifier_sources p ⊆ vp_mission_verifier_sources q ->
  vp_mission_goal_contracts p ⊆ vp_mission_goal_contracts q ->
  vp_semantic_verifier_receipts q = vp_semantic_verifier_receipts p -> kept_step p q.
Proof.
  intros ? ? ? Er. split; [split; [done..|]|]; rewrite Er; [|congruence]. intros k r Hk. by exists r.
Qed.

Section KeptFacts.
Context `{Serde, PolicyCodec}.

Lemma register_tenants_grow c mission tenant c' r : register_mission_tenant c mission tenant = Some (c', r) ->
  cp_mission_tenants c ⊆ cp_mission_tenants c'.
Proof.
  intros [[-> _]|(-> & Hold & _)]%register_mission_tenant_effect; [done|]. simpl. apply map_subseteq_spec.
  intros m x Hm. destruct (decide (m = mission)) as [->|Hne].
  - rewrite lookup_insert_eq. f_equal. symmetry. by apply Hold.
  - by rewrite lookup_insert_ne.
Qed.

Lemma freeze_keeps p plan tenant completed q : left_by (freeze_verifier_sources_except p plan tenant completed) = Some q ->
  kept_step p q.
Proof.
  unfold freeze_verifier_sources_except, left_by. intros ([p1 r] & E & ->)%fmap_Some.
  apply bind_Some in E as ([l|] & Hl & E); [|by declines E].
  destruct (_ <? _)%N; [by declines E|]. destruct (existsb _ l) eqn:Ex; declines E; [done|].
  apply kept_frame; try done. simpl. apply foldl_insert_grows; [|done]. intros k x old Hin Ho.
  apply existsb_false_iff with (x := (k, x)) in Ex; [|done]. simpl in Ex. rewrite Ho in Ex. simpl in Ex. by bool_facts.
Qed.

Lemma admit_keeps p e subject now q r : admit_semantic_verifier_evidence p e subject now = Some (q, r) -> kept_step p q.
Proof.
  intros [->|(key & digest & registry & source & until & _ & _ & _ & _ & _ & _ & Eo & _ & Hx & _ & ->)]%admit_inv;
    [done|]. split; [split; try done|]; simpl.
  - intros k old Hk. exists old. split; [|done]. rewrite lookup_insert_ne; [done|congruence].
  - intros k r' Hn [[-> ->]|Ho]%lookup_insert_cases; [done|congruence].
Qed.

Lemma mark_keeps p source evidence applied incident q r :
  mark_semantic_verifier_receipt p source evidence applied incident = Some (q, r) -> kept_step p q.
Proof.
  intros [->|(key & old & _ & Eo & Ha & Hi & ->)]%mark_inv; [done|]. split; [split; try done|]; simpl.
  - intros k r' Hk.
    destruct (decide (k = key)) as [->|Hne]; [rewrite lookup_insert_eq|rewrite lookup_insert_ne by done; by exists r'].
    eexists. split; [done|]. rewrite Eo in Hk. injection Hk as ->. by split.
  - intros k r' Hn [[-> ->]|Ho]%lookup_insert_cases; congruence.
Qed.

Lemma freeze_goal_keeps p goal spec context tenant q r :
  freeze_mission_goal p goal spec context tenant = Some (q, r) -> kept_step p q.
Proof.
  intros [->|(source & contract & _ & _ & _ & _ & Eo & _ & ->)]%freeze_goal_inv; [done|].
  apply kept_frame; try done. simpl. by apply insert_subseteq.
Qed.

Lemma admit_goal_keeps p e principal leaf now q r :
  admit_mission_goal_evidence p e principal leaf now = Some (q, r) -> kept_step p q.
Proof. intros [->|(contract & digest & _ & _ & _ & _ & _ & _ & _ & _ & _ & ->)]%admit_goal_inv; [done|]. by apply kept_frame. Qed.

Lemma migrate_keeps p command digest subject now q r :
  migrate_mission_tenant p command digest subject now = Some (q, r) -> kept_step p q.
Proof.
  unfold migrate_mission_tenant, decline. intros. repeat case_match; simplify_eq; try done.
  match goal with E : _ ≫= _ = Some _ |- _ => apply bind_Some in E as ([c []] & Em & E) end; simplify_eq;
    apply register_tenants_grow in Em; by apply kept_frame.
Qed.

(** The administration of operators, identities and registries changes no evidence. *)
Lemma administration_keeps p op q : apply_evidence p op = Some q ->
  match op with
  | EvOperator _ | EvBootstrap _ | EvIdentity _ _ _ | EvAttestation _ | EvBelief _ _ | EvDecision _ _
  | EvVerifier _ _ => kept_step p q
  | _ => True
  end.
Proof.
  destruct op; try done; simpl; unfold left_by; intros ([p1 r] & E & ->)%fmap_Some; simpl; revert E;
    unfold accept_operator_authorization, bootstrap_node_identity_registry, apply_node_identity_command,
      replace_attestation_registry, accept_belief_policy_registry, accept_decision_policy_registry,
      accept_semantic_verifier_registry, decline; intros.
  3: { destruct (cp_node_identity_registry _); [|by simplify_eq]. apply bind_Some in E as ([[]|] & _ & E);
       simplify_eq; [by apply kept_frame|done]. }
  all: repeat case_match; simplify_eq; try done; by apply kept_frame.
Qed.

Lemma evidence_step_kept p q : evidence_step p q -> kept_step p q.
Proof.
  intros (op & E). pose proof (administration_keeps p op q E) as Ha. destruct op; try exact Ha; clear Ha.
  - apply bind_Some in E as (c & Ec & [= <-]). apply kept_frame; try done. simpl.
    destruct (registers_tenant op) as [[mission tenant]|] eqn:Hop.
    + destruct op; try discriminate Hop. apply after_Some in Ec as [r Ec]. by eapply register_tenants_grow.
    + by rewrite (sh_tenants _ _ (apply_op_shrinks _ op _ Ec Hop)).
  - apply fmap_Some in E as ([q1 r] & E & ->). by eapply migrate_keeps.
  - by eapply freeze_keeps.
  - simpl in E. unfold freeze_revision_verifier_sources in E. destruct (cp_groups _ !! source) as [g|]; [|by declines E].
    destruct (negb _); [by declines E|by eapply freeze_keeps].
  - apply fmap_Some in E as ([q1 r] & E & ->). unfold monitor_semantic_verifier, decline in E.
    apply bind_Some in E as ([source|] & _ & E); [|by simplify_eq]. destruct (negb _); [by simplify_eq|].
    apply bind_Some in E as (key & _ & E). repeat case_match; simplify_eq; try done. by apply kept_frame.
  - apply fmap_Some in E as ([q1 r] & E & ->). by eapply admit_keeps.
  - apply fmap_Some in E as ([q1 r] & E & ->). by eapply mark_keeps.
  - apply fmap_Some in E as ([q1 r] & E & ->). by eapply freeze_goal_keeps.
  - apply fmap_Some in E as ([q1 r] & E & ->). by eapply admit_goal_keeps.
Qed.

Lemma evidence_run_kept p q : rtc evidence_step p q -> kept p q.
Proof. induction 1 as [p|p p1 q Hs _ IH]; [done|]. etrans; [by eapply ks_kept, evidence_step_kept|done]. Qed.
End KeptFacts.
