(* ===== verification/PropsEvidence.v ===== *)
(** * Properties of measurement evidence and policy registries

    A deployment with one verifier source, its Mission and the evidence admitted for it, the
    properties of the evidence component and their instances. *)

From S2P Require Import Prelude Identity Execution StateModel Session Resource RelationSpec DecisionPolicy.
From S2P Require Import Scheduler SchedulerPolicy Sorting Quota NodeIdentity NodeState Capacity.
From S2P Require Import Mission TaskExecution Group ControlPlane ControlSteps NodeIdentityFacts.
From S2P Require Import CalendarFacts Registries Evidence EvidenceFacts.

Open Scope string_scope.

(** ** A deployment *)

(** A printer and a digest of 64 digits, for the parameters. *)
Fixpoint fv_text (fuel : nat) (j : Json) : string :=
  match fuel with
  | O => ""
  | S fuel' =>
      match j with
      | JString s => s
      | JArray l => foldr (fun j t => fv_text fuel' j ++ t) "" l
      | JObject l => foldr (fun kv t => fv_text fuel' kv.2 ++ t) "" l
      | _ => ""
      end
  end.
Definition fv_digest (d : ascii) : string := string_of_list_ascii (repeat d 64).

#[export] Instance fv_serde : Serde := {|
  json_to_vec := fun j => Ok (fv_text 8 j);
  sha256_hex := fun s => fv_digest (if Nat.even (String.length s) then "a" else "b")
|}.
#[export] Instance fv_sha256 : Sha256Text.
Proof. intros s. simpl. destruct (Nat.even (String.length s)); reflexivity. Qed.
#[export] Instance fv_codec : PolicyCodec := fun r => Ok (dr_registry_id r).

Definition fv_hash : string := "sha256:" ++ fv_digest "c".
Definition fv_mission : MissionId := MkId "m1".
Definition fv_task : TaskRef := MkTaskRef fv_mission (MkId "haul").
Definition fv_contract : CapabilityContractRef := MkContract "sense" "pose" "v1".
Definition fv_spec : VerifierSatisfactionSpec := MkVerifierSpec fv_contract "delivered" 5000.
Definition fv_goal : MissionGoal := MkGoal fv_mission "crate delivered".
Definition fv_plan : MissionPlan :=
  MkMissionPlan fv_goal []
    (MkTaskGraph fv_mission
       [MkPlannedTask "haul" (MkTaskRequirement fv_task [] (MkTaskTiming 0 None None None)) ∅ []
          (MkContinuity (MkId "ctx") ∅ ∅ None) (VerifierEvidence fv_spec) "hauled"]) []
    false false false false.

Definition fv_source (tenant : string) : SemanticVerifierSource :=
  MkVerifierSource "cam" 1 tenant {["lab"]} fv_contract {["delivered"]} 5000 true true 1000 false.
Definition fv_registry (tenant : string) : SemanticVerifierRegistry :=
  MkVerifierRegistry "roboguide.semantic-verifier-registry/v0.1" "verifiers" 1 {["cam" := fv_source tenant]}.
Definition fv_evidence (id tenant : string) (sequence : N) : SemanticVerifierEvidence :=
  MkVerifierEvidence id "cam" 1 tenant fv_task fv_hash [MkVerifierAttempt (MkId "lead") "a1"] "delivered"
    Satisfied Final 9 100 sequence None None.
Definition fv_group : ExecutionGroupId := MkId "g1".
Definition fv_goal_contract : MissionGoalContract :=
  match goal_contract fv_goal fv_spec fv_hash "acme" (fv_source "acme") with
  | Ok c => c
  | Err _ => MkGoalContract fv_mission "" "" "" fv_spec (fv_source "acme") ""
  end.
Definition fv_goal_evidence : MissionGoalEvidence :=
  MkGoalEvidence "roboguide.mission-goal-evidence/v0.1" "ge1" fv_mission "acme" (gc_digest fv_goal_contract)
    "cam" 1 1 fv_group fv_hash [] "delivered" Satisfied Final 18 1 100 None None.

(** Operations in order; [None] when one is out of order or panics. *)
Fixpoint fv_run (p : EvidencePlane) (ops : list EvidenceOp) : option EvidencePlane :=
  match ops with
  | [] => Some p
  | op :: ops' => if in_order p op then q ← apply_evidence p op; fv_run q ops' else None
  end.

Lemma fv_run_steps p ops q : fv_run p ops = Some q -> rtc ordered_step p q.
Proof.
  revert p. induction ops as [|op ops IH]; intros p; simpl; [by intros [= ->]|].
  destruct (in_order p op) eqn:Ho; [|done]. intros (p1 & E & Hr)%bind_Some.
  eapply rtc_l; [by exists op|by apply IH].
Qed.

Definition fv_after (ops : list EvidenceOp) : EvidencePlane :=
  default EvidencePlane_new (fv_run EvidencePlane_new ops).

Lemma fv_after_run ops : is_some (fv_run EvidencePlane_new ops) = true ->
  rtc ordered_step EvidencePlane_new (fv_after ops).
Proof. unfold fv_after. destruct (fv_run EvidencePlane_new ops) eqn:E; [|done]. intros _. by eapply fv_run_steps. Qed.

Definition fv_opened : list EvidenceOp :=
  [EvControl (OpTenant fv_mission "acme"); EvVerifier (fv_registry "acme") 0; EvFreeze fv_plan "acme";
   EvAdmit (fv_evidence "e1" "acme" 1) "lab" 10].
Definition fv_confirmed : list EvidenceOp :=
  (fv_opened ++ [EvMonitor fv_task fv_hash [MkVerifierAttempt (MkId "lead") "a1"] 11;
                EvMark "cam" "e1" true None; EvAdmit (fv_evidence "e22" "acme" 2) "lab" 12;
                EvFreezeGoal fv_goal fv_spec fv_hash "acme"; EvAdmitGoal fv_goal_evidence "lab" fv_hash 20])%list.

Lemma fv_confirmed_run : rtc ordered_step EvidencePlane_new (fv_after fv_confirmed).
Proof. apply fv_after_run. vm_compute. reflexivity. Qed.

(** ** Properties *)

(** C13. A retained evidence state restores.  Take any run of tenants, identities, operators,
    registry revisions, freezes, watches, admissions and dispositions that is in order: a tenant
    agrees with the evidence admitted before for its Mission, Node identities are installed before
    a decision policy and when every Mission with retained verifier evidence has its tenant, the
    first operators before any goal receipt, and every watch names between 1 and 32 attempts
    (which [monitor_semantic_verifier] does not check).  Then every check of a restored state
    passes: the belief and decision histories, the verifier history with its receipts, frozen
    sources and watches, the goal contracts and receipts, and the tenant migrations. *)
Theorem evidence_restorable `{Serde, PolicyCodec, !Sha256Text} (p : EvidencePlane)
    (Hrun : rtc ordered_step EvidencePlane_new p) :
  validate_belief_policy_checkpoint p = Ok tt /\ validate_decision_policy_history p = Ok tt /\
  validate_semantic_verifier_checkpoint p = Some (Ok tt) /\ validate_mission_goal_checkpoint p = Ok tt /\
  validate_tenant_checkpoint p = Ok tt.
Proof.
  assert (evidence_ok p) as Hp by by apply ordered_run_ok.
  split_and!; [by apply belief_checkpoint_ok|by apply decision_checkpoint_ok|by apply verifier_checkpoint_ok|
    by apply goal_checkpoint_ok|by apply tenant_checkpoint_ok].
Qed.

Lemma evidence_restorable_witness :
  validate_semantic_verifier_checkpoint (fv_after fv_confirmed) = Some (Ok tt) /\
  validate_mission_goal_checkpoint (fv_after fv_confirmed) = Ok tt.
Proof.
  destruct (evidence_restorable (fv_after fv_confirmed) fv_confirmed_run) as (_ & _ & Hv & Hg & _). by split.
Defined.

(** C32. Admitted evidence is immutable.  Whatever runs afterwards, in whatever order, a receipt
    keeps its evidence, digest, subject, registry revision and times, an applied one stays
    applied and a recorded incident stays; the tenants of Missions, frozen sources and goal
    contracts stay too. *)
Theorem admitted_evidence_immutable `{Serde, PolicyCodec} (p q : EvidencePlane)
    (Hrun : rtc evidence_step p q) :
  (forall key r, vp_semantic_verifier_receipts p !! key = Some r ->
     exists r', vp_semantic_verifier_receipts q !! key = Some r' /\ vc_evidence r' = vc_evidence r /\
       vc_input_digest r' = vc_input_digest r /\ vc_authority_subject r' = vc_authority_subject r /\
       vc_registry_revision r' = vc_registry_revision r /\
       vc_received_at_ms r' = vc_received_at_ms r /\ vc_valid_until_ms r' = vc_valid_until_ms r /\
       (vc_applied r = true -> vc_applied r' = true) /\
       (forall reason, vc_incident r = Some reason -> vc_incident r' = Some reason)) /\
  (forall mission tenant, evidence_tenant p mission = Some tenant -> evidence_tenant q mission = Some tenant) /\
  vp_mission_verifier_sources p ⊆ vp_mission_verifier_sources q /\
  vp_mission_goal_contracts p ⊆ vp_mission_goal_contracts q.
Proof.
  destruct (evidence_run_kept p q Hrun) as [Ht Hs Hc Hr]. split; [|split; [|done]].
  - intros key r Hk. destruct (Hr key r Hk) as (r' & Hk' & [Ee Ea Et Hap Hin]). exists r'. by simplify_eq.
  - intros mission tenant Hm. by eapply lookup_weaken.
Qed.

Lemma ordered_evidence_run `{Serde, PolicyCodec} p q : rtc ordered_step p q -> rtc evidence_step p q.
Proof. apply rtc_subrel. intros a b (op & _ & E). by exists op. Qed.

Lemma fv_later_run : rtc evidence_step (fv_after fv_opened) (fv_after fv_confirmed).
Proof.
  apply ordered_evidence_run. apply (fv_run_steps _ (drop 4 fv_confirmed)). vm_compute. reflexivity.
Qed.

Lemma admitted_evidence_immutable_witness :
  evidence_tenant (fv_after fv_confirmed) fv_mission = Some "acme" /\
  vp_mission_verifier_sources (fv_after fv_opened) ⊆ vp_mission_verifier_sources (fv_after fv_confirmed).
Proof.
  destruct (admitted_evidence_immutable _ _ fv_later_run) as (_ & Ht & Hs & _). split; [|exact Hs].
  apply Ht. vm_compute. reflexivity.
Defined.

(** C33. A source never reports an older measurement as new.  Evidence admitted after a receipt
    of the same source contract and Task has a larger sequence, whatever happened between. *)
Theorem sequences_increase `{Serde, PolicyCodec} (p q : EvidencePlane) (k1 k2 : string)
    (r1 r2 : SemanticVerifierReceipt) (Hrun : rtc evidence_step p q)
    (H1 : vp_semantic_verifier_receipts p !! k1 = Some r1)
    (Hnew : vp_semantic_verifier_receipts p !! k2 = None)
    (H2 : vp_semantic_verifier_receipts q !! k2 = Some r2)
    (Hsource : ve_source_id (vc_evidence r1) = ve_source_id (vc_evidence r2))
    (Hrevision : ve_source_revision (vc_evidence r1) = ve_source_revision (vc_evidence r2))
    (Htask : ve_task_ref (vc_evidence r1) = ve_task_ref (vc_evidence r2)) :
  (ve_sequence (vc_evidence r1) < ve_sequence (vc_evidence r2))%N.
Proof.
  revert r1 H1 Hsource Hrevision Htask Hnew. induction Hrun as [p|p p1 q Hs Hr IH]; intros r1 H1 Es Er Et Hn; [congruence|].
  pose proof (evidence_step_kept p p1 Hs) as [Hk Hx].
  destruct (kt_receipts _ _ Hk k1 r1 H1) as (r1' & H1' & L1). destruct (vp_semantic_verifier_receipts p1 !! k2) as [r2'|] eqn:E2.
  - specialize (Hx k2 r2' Hn E2). destruct (kt_receipts _ _ (evidence_run_kept _ _ Hr) k2 r2' E2) as (r & Hr2 & L2).
    rewrite H2 in Hr2. injection Hr2 as <-. rewrite (rl_evidence _ _ L2) in *.
    apply existsb_false_iff with (x := r1) in Hx; [|apply elem_of_btree_values; by exists k1].
    unfold sequence_taken in Hx. rewrite Es, Er, Et, String.eqb_refl, N.eqb_refl, bool_decide_eq_true_2 in Hx by done.
    simpl in Hx. by apply N.leb_gt in Hx.
  - rewrite <- (rl_evidence _ _ L1) in *. by apply IH.
Qed.

Definition fv_key (evidence : string) : string := default "" (verifier_receipt_key "cam" evidence).
Definition fv_receipt (p : EvidencePlane) (evidence : string) : SemanticVerifierReceipt :=
  default (MkVerifierReceipt (fv_evidence "" "" 0) 0 "" "" 0 0 false None)
    (vp_semantic_verifier_receipts p !! fv_key evidence).

Lemma sequences_increase_witness :
  (ve_sequence (vc_evidence (fv_receipt (fv_after fv_opened) "e1")) <
   ve_sequence (vc_evidence (fv_receipt (fv_after fv_confirmed) "e22")))%N.
Proof.
  apply (sequences_increase (fv_after fv_opened) (fv_after fv_confirmed) (fv_key "e1") (fv_key "e22"));
    [exact fv_later_run|vm_compute; reflexivity..].
Defined.

(** C14. A confirmed goal is what the original contract asks for.  In a state reached by a run in
    order (the first operators, for one, are installed before any goal receipt), when the goal
    of a Mission counts as confirmed there is its original contract, whose source is still the
    one enabled source of the tenant for the contract's predicate; the receipt is that of a
    final and satisfied measurement of this plan, revision and Group, received now or earlier but
    less than the maximal evidence age of the specification ago, by a principal the source
    lists; the key is the digest of its content; where operators are installed, its certificate
    is granted to that principal; and no later measurement of the source for the revision
    and Group is retained. *)
Theorem confirmed_goal_sound `{Serde, PolicyCodec, !Sha256Text} (p : EvidencePlane) (mission : MissionId)
    (revision : N) (group : ExecutionGroupId) (plan_digest receipt_digest : string) (now : TimestampMs)
    (Hrun : rtc ordered_step EvidencePlane_new p)
    (Hc : mission_goal_confirmed p mission revision group plan_digest receipt_digest now = true) :
  exists contract r,
    vp_mission_goal_contracts p !! mission = Some contract /\
    registered_verifier_source p (gc_spec contract) (gc_tenant_id contract) = Ok (gc_source contract) /\
    evidence_tenant p mission = Some (gc_tenant_id contract) /\
    vp_mission_goal_receipts p !! receipt_digest = Some r /\
    content_digest (goal_evidence_json (gp_evidence r)) = Ok receipt_digest /\
    ge_contract_digest (gp_evidence r) = gc_digest contract /\
    ge_predicate (gp_evidence r) = vs_predicate (gc_spec contract) /\
    gp_authority_subject r ∈ vs_producer_principals (gc_source contract) /\
    operator_agrees p r = true /\
    ge_verdict (gp_evidence r) = Satisfied /\ ge_finality (gp_evidence r) = Final /\
    ge_plan_digest (gp_evidence r) = plan_digest /\ ge_plan_revision (gp_evidence r) = revision /\
    ge_group_id (gp_evidence r) = group /\
    (gp_received_at r <= now < gp_received_at r + vs_max_evidence_age_ms (gc_spec contract))%N /\
    (forall k later, vp_mission_goal_receipts p !! k = Some later ->
       ge_mission_id (gp_evidence later) = mission -> ge_plan_revision (gp_evidence later) = revision ->
       ge_group_id (gp_evidence later) = group ->
       ge_source_id (gp_evidence later) = ge_source_id (gp_evidence r) ->
       (ge_sequence (gp_evidence later) <= ge_sequence (gp_evidence r))%N).
Proof.
  pose proof (ordered_run_ok p Hrun) as Hp. unfold mission_goal_confirmed in Hc.
  apply andb_true_iff in Hc as [Hc Hr]. apply andb_true_iff in Hc as [Hl Hs].
  destruct (vp_mission_goal_receipts p !! receipt_digest) as [r|] eqn:Ek; [|done].
  cbn [is_some_and] in Hr, Hl. bool_facts. match goal with E : (_ =? plan_digest)%string = true |- _ => apply String.eqb_eq in E end.
  destruct (goal_receipt_inv p _ r (eo_goals p Hp _ r Ek)) as (contract & Hcon & Hv & Hd & Hop).
  match goal with E : ge_mission_id (gp_evidence r) = mission |- _ => rewrite E in Hcon end.
  unfold mission_goal_source_current in Hs. rewrite Hcon in Hs. cbn [is_some_and] in Hs.
  destruct (registered_verifier_source p (gc_spec contract) (gc_tenant_id contract)) as [source|] eqn:Esrc; [|done].
  apply bool_decide_eq_true in Hs as ->. exists contract, r. unfold valid_evidence in Hv.
  apply negb_true_iff in Hv. bool_facts.
  repeat match goal with E : (_ =? _)%string = true |- _ => apply String.eqb_eq in E end.
  split_and!; try done; [|lia|].
  - pose proof (eo_contracts p Hp _ _ Hcon) as Hg. unfold goal_contract_check in Hg.
    destruct (bool_decide (mission = _)); [|done]. cbn [negb orb] in Hg. by case_bool_decide.
  - intros k later Hk Em Er Eg Es. rewrite existsb_false_iff in Hl. specialize (Hl later).
    rewrite elem_of_btree_values in Hl. specialize (Hl (ex_intro _ k Hk)). unfold superseded in Hl.
    rewrite Em, Er, Eg, Es, !bool_decide_eq_true_2, N.eqb_refl, String.eqb_refl in Hl by done.
    cbn [andb] in Hl. by apply N.ltb_ge in Hl.
Qed.

Definition fv_goal_key : string :=
  match content_digest (goal_evidence_json fv_goal_evidence) with Ok d => d | Err _ => "" end.

Lemma confirmed_goal_sound_witness :
  exists r, vp_mission_goal_receipts (fv_after fv_confirmed) !! fv_goal_key = Some r /\
    ge_verdict (gp_evidence r) = Satisfied.
Proof.
  destruct (confirmed_goal_sound (fv_after fv_confirmed) fv_mission 1 fv_group fv_hash fv_goal_key 30
    fv_confirmed_run) as (c & r & _ & _ & _ & Hr & _ & _ & _ & _ & _ & Hv & _); [vm_compute; reflexivity|].
  exists r. split; [exact Hr|exact Hv].
Defined.

(** ** Orders that do not restore *)

Definition fv_grant : OperatorCertificateGrant := MkOperatorGrant "ops" "operator" {["acme"]} 0 0 false.
Definition fv_operators : OperatorAuthorization :=
  MkOperatorAuthorization OPERATOR_SCHEMA_V0_1 "operators" 1 {[("sha256:" ++ fv_digest "d") := fv_grant]}.
Definition fv_gate : DecisionGate :=
  MkDecisionGate None "local" true
    (MkEvidencePolicy DECISION_EVIDENCE_POLICY_SCHEMA_V0_1 "p1" 1 (MkStateObject ClassNode "robot" "n1") "pose" {[Observed]}
       {[SourceNode (MkId "n1") (MkId "s1")]} 1000 None {[Readiness]} RequireEquivalent (Some "v1"))
    (MkGateTarget None None None None) false false (CondBoolean "/ok" true).
Definition fv_decisions : DecisionPolicyRegistry :=
  MkDecisionRegistry DECISION_SCHEMA_V0_1 "gates" 1 {["p1" := fv_gate]} ∅.
Definition fv_local : list EvidenceOp :=
  [EvVerifier (fv_registry "local") 0; EvAdmit (fv_evidence "e1" "local" 1) "lab" 10].

(** The order matters: each of these operations is accepted in a state that restores, and
    the state it leaves is refused by a check of restored states.  A watch without attempts; the
    first operator registry without the certificate of a retained goal receipt; the migration
    to a tenant of a Mission whose evidence was admitted as local; Node identities after a gate over a
    local Node. *)
Theorem order_needed :
  (exists p, rtc ordered_step EvidencePlane_new p /\
     match monitor_semantic_verifier p fv_task fv_hash [] 11 with
     | Some (q, Ok _) => validate_semantic_verifier_checkpoint q = Some (Err "verifier watch authority/deadline differs")
     | _ => False
     end) /\
  (exists p, rtc ordered_step EvidencePlane_new p /\
     match accept_operator_authorization p (Some fv_operators) with
     | Some (q, Ok _) => validate_mission_goal_checkpoint q = Err "original goal receipt history is inconsistent"
     | _ => False
     end) /\
  (exists p, rtc ordered_step EvidencePlane_new p /\
     match migrate_mission_tenant p (MkTenantMigration "c1" fv_mission "acme" fv_hash) fv_hash "admin" 20 with
     | Some (q, Ok _) => validate_semantic_verifier_checkpoint q =
                           Some (Err "semantic verifier receipt authority/timing is invalid")
     | _ => False
     end) /\
  (exists p, rtc ordered_step EvidencePlane_new p /\
     match bootstrap_node_identity_registry p (NodeIdentityRegistry_new "deployment") with
     | Some (q, Ok _) => validate_decision_policy_history q =
                           Err "decision source is outside its tenant/producer authority"
     | _ => False
     end).
Proof.
  split_and!.
  - exists (fv_after fv_opened). split; [apply fv_after_run|]; vm_compute; reflexivity.
  - exists (fv_after fv_confirmed). split; [exact fv_confirmed_run|]. vm_compute. reflexivity.
  - exists (fv_after fv_local). split; [apply fv_after_run|]; vm_compute; reflexivity.
  - exists (fv_after [EvDecision fv_decisions 0]). split; [apply fv_after_run|]; vm_compute; reflexivity.
Qed.
