(* ===== verification/Eligibility.v ===== *)
(** * Eligibility of Nodes for Roles

    What a registration must declare for a Role ([supports_role] of
    [core/domain/src/node_state.rs], [capability_requirement.rs], [memory.rs],
    [memory_preparation.rs]), the evidence gates of the decision policy evaluated over State
    records ([core/control/src/decision_policy.rs], [belief.rs]), the view a tenant has of the
    Node state ([tenant.rs]) and the eligibility of one Node for one Role ([node.rs]).

    The code takes the digest of the decision registry with [expect] whenever it evaluates gates:
    [None] of the evaluations is that panic.  The boolean queries ([decision_gates_allow] and what
    is built on it) answer [false] there; matching evaluates the gates of every Node for its audit
    before it asks any of them, so its panics are not lost. *)

From S2P Require Import Prelude Identity Execution StateModel Session Resource RelationSpec DecisionPolicy.
From S2P Require Import Scheduler SchedulerPolicy Sorting Quota NodeIdentity NodeState Capacity NodeAuthority.
From S2P Require Import Mission TaskExecution Group ControlPlane Actors GroupLifecycle GroupBinding.
From S2P Require Import Topology Registries Evidence.

Open Scope string_scope.
Open Scope list_scope.

(** ** Capability constraints: [capability_requirement.rs] *)

(** A finite [f64] as a multiple of [2^-1074], the smallest positive one. *)
Definition f64_scaled (bits : N) : Z :=
  let magnitude := if (f64_exponent bits =? 0)%N then f64_mantissa bits
                   else N.shiftl (f64_mantissa bits + 4503599627370496) (f64_exponent bits - 1) in
  if (N.shiftr bits 63 =? 0)%N then Z.of_N magnitude else Z.opp (Z.of_N magnitude).

(** The number [compare_numbers] reads of a value; an integer is converted to [f64]. *)
Definition numeric_value (v : ExecutionValue) : option Z :=
  match v with
  | VInteger z => Some (Z.shiftl (f64_round z) 1074)
  | VFloat bits => if f64_is_finite bits then Some (f64_scaled bits) else None
  | VBool _ | VString _ => None
  end.

Arguments f64_scaled : simpl never.
Arguments numeric_value : simpl never.

Definition compare_numbers (left right : ExecutionValue) : option comparison :=
  l ← numeric_value left; r ← numeric_value right; Some (Z.compare l r).

Definition is_satisfied_by (c : CapabilityConstraint) (actual : ExecutionValue) : bool :=
  match cc_operator c with
  | Equals => ExecutionValue_eqb actual (cc_value c)
  | AtLeast => is_some_and (fun o => match o with Lt => false | _ => true end)
                 (compare_numbers actual (cc_value c))
  | AtMost => is_some_and (fun o => match o with Gt => false | _ => true end)
                (compare_numbers actual (cc_value c))
  end.

(** The legacy contract stands for an empty list of requirements. *)
Definition capability_requirements (r : RoleRequirement) : list CapabilityRequirement :=
  match rq_capabilities r, rq_legacy_contract r with
  | [], Some contract => [CapabilityRequirement_exact contract]
  | capabilities, _ => capabilities
  end.

Definition capability_requirement_is_available (r : NodeRegistration) (requirement : CapabilityRequirement)
  : bool :=
  contract_is_available r (cr_contract requirement)
  && forallb (fun constraint =>
       is_some_and (is_satisfied_by constraint)
         (attributes ← nd_capability_attributes r !! cr_contract requirement;
          attributes !! cc_attribute constraint)) (cr_constraints requirement).

(** ** Memory providers: [memory.rs], [memory_preparation.rs] *)

Definition PREPARATION_V0_1 : string := "roboguide.memory-provider-availability/v0.1".
Definition PREPARATION_V0_2 : string := "roboguide.memory-provider-availability/v0.2".

Definition supports_preparation (p : MemoryProviderDescriptor) : bool :=
  is_some_and (one_of_text [PREPARATION_V0_1; PREPARATION_V0_2]) (mp_preparation_contract p).
Definition supports_scoped_map_preparation (p : MemoryProviderDescriptor) : bool :=
  bool_decide (mp_preparation_contract p = Some PREPARATION_V0_2).
Definition supports_use_lease (p : MemoryProviderDescriptor) : bool :=
  bool_decide (mp_use_contract p = Some "roboguide.memory-use/shared-kernel/v0.1")
  && supports_preparation p.

Definition matches_provider (r : MemoryRequirement) (p : MemoryProviderDescriptor) : bool :=
  bool_decide (mr_kind r = mp_kind p)
  && (mr_payload_schema r =? mp_payload_schema p)%string
  && (mr_media_type r =? mp_media_type p)%string
  && bool_decide (mp_visibility p = Exchangeable)
  && (negb (requires_scoped_typed_map r) || supports_scoped_map_preparation p).

(** ** Registrations: [node_state.rs] *)

Definition memory_contract_versions : list string :=
  ["roboguide.node.v0.10"; "roboguide.node.v0.11"; "roboguide.node.v0.12"; "roboguide.node.v0.13";
   "roboguide.node.v0.14"].

Definition serves_memory (r : NodeRegistration) (required : MemoryRequirement) : bool :=
  (negb (requires_scoped_typed_map required)
   || (as_str (nd_contract_version r) =? "roboguide.node.v0.14")%string)
  && existsb (fun p => supports_use_lease p && matches_provider required p) (nd_memory_providers r).

Definition supports_memories (r : NodeRegistration) (memories : list MemoryRequirement) : bool :=
  (length memories =? 0)%nat
  || (one_of_text memory_contract_versions (as_str (nd_contract_version r))
      && is_ok (MemoryRequirement_validate_set memories)
      && forallb (serves_memory r) memories).

Definition supports_role (r : NodeRegistration) (requirement : RoleRequirement) : bool :=
  is_none_or (fun kind => existsb (fun c => bool_decide (cy_kind c = kind) && cy_available c)
                            (nd_capabilities r)) (rq_legacy_capability requirement)
  && forallb (capability_requirement_is_available r) (capability_requirements requirement)
  && forallb (fun demand => existsb (matches_demand demand) (nd_resources r))
       (resource_requirements requirement)
  && supports_memories r (rq_memories requirement).

(** ** Readers of Node state: [SharedNodeStateReader] of [core/ports], [tenant.rs] *)

Record NodeReader := MkReader {
  rd_records : list StateRecord;
  rd_node : NodeId -> option NodeStateSnapshot;
  rd_nodes : list NodeStateSnapshot
}.

(** [DecisionStateSnapshot] of [core/state/src/decision_state.rs]. *)
Definition decision_state (state : SharedNodeState) (records : list StateRecord) : NodeReader :=
  MkReader records (fun node => state !! node) (btree_values state).

Definition allowed_node (allowed : option (gset NodeId)) (node : NodeId) : bool :=
  is_none_or (set_contains node) allowed.

Definition TenantState (source : NodeReader) (allowed : option (gset NodeId)) : NodeReader :=
  MkReader
    (List.filter (fun record => is_none_or (allowed_node allowed)
                                  (source_node_id (sk_source (sr_key record)))) (rd_records source))
    (fun node => if allowed_node allowed node then rd_node source node else None)
    (List.filter (fun snapshot => allowed_node allowed (sn_node_id snapshot)) (rd_nodes source)).

(** The Nodes of the tenant of a Mission; [None] without an identity registry. *)
Definition tenant_allowed (c : ControlPlane) (mission : MissionId) : option (gset NodeId) :=
  (fun registry =>
     list_to_set (omap (fun identity =>
       if bool_decide (mission_tenant c mission = Some (ni_tenant_id identity))
       then match Identifier_new (ni_node_id identity) with Ok node => Some node | Err _ => None end
       else None) (btree_values (nr_records registry)))) <$> cp_node_identity_registry c.

Definition tenant_state (c : ControlPlane) (source : NodeReader) (mission : MissionId) : NodeReader :=
  TenantState source (tenant_allowed c mission).

(** ** The authority that decides

    [EvidencePlane] with the leases and sessions of Nodes, the age a status may have and the
    preferences of unbound Tasks. *)
Record MatchPlane := MkMatchPlane {
  mx_evidence : EvidencePlane;
  mx_leases : gmap NodeId NodeLease;
  mx_node_sessions : gmap NodeId NodeSessionAnchor;
  mx_max_status_age_ms : N;
  mx_initial_candidate_preferences : gmap TaskRef InitialCandidatePreferences
}.

Definition mx_control (m : MatchPlane) : ControlPlane := vp_control (mx_evidence m).
Definition mx_authority (m : MatchPlane) : NodeAuthority :=
  plane_authority (mx_leases m) (mx_node_sessions m) (mx_control m).

(** ** JSON payloads

    [serde_json]: the lookups of a value, and the decoding of a source. *)
Class StateCodec := {
  json_get : Json -> string -> option Json;
  json_pointer : Json -> string -> option Json;
  source_of_json : Json -> option StateSource
}.

Definition json_as_bool (v : Json) : option bool := match v with JBool b => Some b | _ => None end.
Definition json_as_str (v : Json) : option string := match v with JString s => Some s | _ => None end.
Definition json_as_array (v : Json) : option (list Json) := match v with JArray l => Some l | _ => None end.
Definition json_as_u64 (v : Json) : option N :=
  match v with
  | JNumber z => if (0 <=? z)%Z && (z <=? Z.of_N u64_max)%Z then Some (Z.to_N z) else None
  | _ => None
  end.
Definition json_as_f64 (v : Json) : option Z :=
  match v with
  | JNumber z => Some (number_as_f64 (NumInteger z))
  | JFloat scaled => Some (number_as_f64 (NumFloat scaled))
  | _ => None
  end.

(** ** Evidence gates: [decision_registry.rs], [belief.rs], [decision_policy.rs] *)

Record DecisionEvidenceReceipt := MkDecisionReceipt {
  der_registry_digest : string;
  der_policy_id : string;
  der_policy_revision : N;
  der_decision : DecisionKind;
  der_node_id : NodeId;
  der_disposition : EvidenceDisposition;
  der_condition_passed : bool;
  der_record : option StateRecord;
  der_decided_at : TimestampMs
}.

Section Gates.
Context `{Serde, PolicyCodec, StateCodec}.

Definition condition_matches (c : StateCondition) (r : StateRecord) : bool :=
  match c with
  | CondBoolean pointer value =>
      bool_decide ((json_pointer (sr_value r) pointer ≫= json_as_bool) = Some value)
  | CondEnum pointer value =>
      bool_decide ((json_pointer (sr_value r) pointer ≫= json_as_str) = Some value)
  | CondNumberInterval pointer minimum maximum =>
      is_some_and (fun value => (number_as_f64 minimum <=? value)%Z && (value <=? number_as_f64 maximum)%Z)
        (json_pointer (sr_value r) pointer ≫= json_as_f64)
  end.

Context (m : MatchPlane) (now : TimestampMs).

(** The session of a source named in evidence; without identities none is required. *)
Definition source_epoch_current (node : NodeId) (epoch : option string) : bool :=
  match epoch with
  | Some id => source_session_is_current (mx_authority m) node id now
  | None => is_none (cp_node_identity_registry (mx_control m))
  end.

Definition belief_source_is_current (record : StateRecord) : bool :=
  is_some_and (fun node => identity_is_eligible (mx_authority m) node now
                           && source_epoch_current node (sr_source_epoch record))
    (source_node_id (sk_source (sr_key record))).

Definition belief_input_current (policy : BeliefPolicy) (input : Json) : bool :=
  is_some_and (fun source =>
    set_contains source (ep_allowed_sources (bp_admission policy))
    && is_some_and (fun node => identity_is_eligible (mx_authority m) node now
                                && source_epoch_current node (json_get input "source_epoch" ≫= json_as_str))
         (source_node_id source))
    (key ← json_get input "key"; value ← json_get key "source"; source_of_json value).

Definition belief_record_current (component : string) (value : Json) (policy : BeliefPolicy) : bool :=
  bp_enabled policy
  && (component =? "belief/" ++ bp_tenant_id policy ++ "/" ++ bp_policy_id policy)%string
  && bool_decide ((json_get value "policy_revision" ≫= json_as_u64) = Some (bp_revision policy))
  && bool_decide ((json_get value "status" ≫= json_as_str) = Some "accepted")
  && is_some_and (fun inputs => negb (length inputs =? 0)%nat && forallb (belief_input_current policy) inputs)
       (json_get value "inputs" ≫= json_as_array).

Definition verifier_record_current (component : string) (value : Json) (source : SemanticVerifierSource)
  : bool :=
  vs_enabled source
  && (component =? "verifier/" ++ vs_tenant_id source ++ "/" ++ vs_source_id source)%string
  && bool_decide ((json_get value "source_revision" ≫= json_as_u64) = Some (vs_revision source)).

Definition named_producer_record_is_current (record : StateRecord) : bool :=
  match sk_source (sr_key record) with
  | SourceNode _ _ => true
  | SourceRoboGuide component =>
      if is_some (strip_prefix "belief/" component)
      then is_some_and (fun registry => existsb (belief_record_current component (sr_value record))
                                          (btree_values (br_policies registry)))
             (ver_current (vp_belief_policy (mx_evidence m)))
      else if is_some (strip_prefix "verifier/" component)
      then is_some_and (fun registry => existsb (verifier_record_current component (sr_value record))
                                          (btree_values (vr_sources registry)))
             (ver_current (vp_semantic_verifier (mx_evidence m)))
      else false
  end.

Context (rd : NodeReader) (node : NodeId) (role : RoleRequirement) (operation : option OperationRef).
Context (decision : DecisionKind).

(** The tenant of the Node under evaluation. *)
Definition gate_tenant : string :=
  default "local" (ni_tenant_id <$> (identities ← cp_node_identity_registry (mx_control m);
                                     nr_records identities !! as_str node)).

Definition gate_applies (gate : DecisionGate) : bool :=
  let target := dg_target gate in
  dg_enabled gate
  && (dg_tenant_id gate =? gate_tenant)%string
  && set_contains decision (ep_allowed_decisions (dg_policy gate))
  && is_none_or (fun expected => bool_decide (expected = rq_role_id role)) (gt_role target)
  && is_none_or (fun kind => bool_decide (rq_legacy_capability role = Some kind)) (gt_capability target)
  && is_none_or (fun contract => existsb (fun required => bool_decide (cr_contract required = contract))
                                   (capability_requirements role)) (gt_capability_contract target)
  && is_none_or (fun expected => bool_decide (operation = Some expected)) (gt_operation target).

Definition gate_admits (gate : DecisionGate) (record : StateRecord) : bool :=
  let source := source_node_id (sk_source (sr_key record)) in
  named_producer_record_is_current record
  && (negb (dg_candidate_source_only gate) || bool_decide (source = Some node))
  && (negb (dg_require_current_session gate)
      || is_none_or (fun s => is_some_and (fun epoch => source_session_is_current (mx_authority m) s epoch now)
                                (sr_source_epoch record)) source).

Definition gate_receipt (digest : string) (gate : DecisionGate) : DecisionEvidenceReceipt :=
  let evaluation := evaluate (dg_policy gate) (List.filter (gate_admits gate) (rd_records rd)) decision now in
  MkDecisionReceipt digest (ep_policy_id (dg_policy gate)) (ep_revision (dg_policy gate)) decision node
    (ee_disposition evaluation)
    (bool_decide (ee_disposition evaluation = EvAccepted)
     && is_some_and (condition_matches (dg_condition gate)) (ee_record evaluation))
    (ee_record evaluation) now.

Definition evaluate_decision_registry_gates (registry : DecisionPolicyRegistry)
  : option (list DecisionEvidenceReceipt) :=
  match registry_digest registry with
  | Err _ => None
  | Ok digest =>
      Some (gate_receipt digest <$> List.filter gate_applies (btree_values (dr_gates registry)))
  end.

Definition evaluate_decision_gates : option (list DecisionEvidenceReceipt) :=
  match ver_current (vp_decision_policy (mx_evidence m)) with
  | None => Some []
  | Some registry => evaluate_decision_registry_gates registry
  end.

Definition decision_gates_allow : bool :=
  is_some_and (forallb der_condition_passed) evaluate_decision_gates.
End Gates.

(** ** Eligibility: [node.rs] *)

Inductive CandidateExclusionReason :=
| RegistrationMissing | IdentityUnavailable | DecisionEvidenceUnavailable | HealthUnschedulable
| StatusStale | LivenessUnreachable | LeaseInactive | RoleContractUnavailable | OperationUnsupported
| DeploymentRestriction | ActorContractUnavailable.

#[export] Instance CandidateExclusionReason_eq_dec : EqDecision CandidateExclusionReason.
Proof. solve_decision. Defined.

Definition is_fresh_at (received_at now : TimestampMs) (max_age_ms : N) : bool :=
  (u64_saturating_sub now received_at <=? max_age_ms)%N.

Section Eligibility.
Context `{Serde, PolicyCodec, StateCodec} (m : MatchPlane) (rd : NodeReader).

Definition node_role_exclusion (node : NodeId) (role : RoleRequirement) (now : TimestampMs)
  : option CandidateExclusionReason :=
  match rd_node rd node with
  | None => Some RegistrationMissing
  | Some snapshot =>
      if negb (identity_is_eligible (mx_authority m) node now) then Some IdentityUnavailable else
      if negb (is_schedulable (ns_health (sn_reported_status snapshot))) then Some HealthUnschedulable else
      if negb (is_fresh_at (sn_reported_status_received_at snapshot) now (mx_max_status_age_ms m))
      then Some StatusStale else
      if negb (bool_decide (lo_liveness (sn_liveness snapshot) = Reachable)) then Some LivenessUnreachable else
      if negb (is_some_and (fun lease => is_active_at lease now) (mx_leases m !! node))
      then Some LeaseInactive else
      if negb (is_ok (validate_topology_registration (mx_authority m) (sn_registration snapshot)))
         || negb (supports_role (sn_registration snapshot) role)
      then Some RoleContractUnavailable else
      if negb (decision_gates_allow m now rd node role None Match) then Some DecisionEvidenceUnavailable
      else None
  end.

Definition node_is_eligible_for_role (node : NodeId) (role : RoleRequirement) (now : TimestampMs) : bool :=
  is_none (node_role_exclusion node role now).

(** Each memory of the Role has a provider of the local system that owns the operation. *)
Definition owner_serves_memories (r : NodeRegistration) (role : RoleRequirement) (operation : OperationRef)
  : bool :=
  forallb (fun requirement =>
    is_some_and (fun owner => existsb (fun provider =>
        supports_use_lease provider && bool_decide (mp_local_system_id provider = owner)
        && matches_provider requirement provider) (nd_memory_providers r))
      (operation_owner r operation)) (rq_memories role).

Definition node_is_eligible_for_role_operation (node : NodeId) (role : RoleRequirement)
    (operation : OperationRef) (now : TimestampMs) : bool :=
  node_is_eligible_for_role node role now
  && decision_gates_allow m now rd node role (Some operation) Match
  && is_some_and (fun snapshot =>
       supports_operation (sn_registration snapshot) operation
       && owner_serves_memories (sn_registration snapshot) role operation) (rd_node rd node).
End Eligibility.
