(* ===== verification/Matching.v ===== *)
(** * Matching, proposals and their checks against current State

    [core/control/src/matching.rs], [proposal.rs], [retain_distinct_binding_candidates] of
    [lib.rs], the checks of current State of [coordination.rs] and [node.rs], the recovery
    candidates of [reconciliation/pipeline.rs] and [initial_preferences.rs], with the Actor
    queries of a plan ([mission_plan.rs], [actor.rs]).  Matching reads the plane and a Node
    reader; what it writes is a list of events.  [None] is a panic. *)

From S2P Require Import Prelude Identity Execution StateModel Session Resource RelationSpec DecisionPolicy.
From S2P Require Import SchedulerPolicy Sorting Quota NodeIdentity NodeState Capacity NodeAuthority.
From S2P Require Import Mission TaskExecution Group ControlPlane Actors GroupLifecycle GroupBinding RoleRecovery.
From S2P Require Import Topology Registries Evidence Eligibility Scheduler.

Open Scope string_scope.
Open Scope list_scope.

(** ** The Actors of a plan: [mission_plan.rs], [actor.rs] *)

Definition push_new {A} (eqb : A -> A -> bool) (l : list A) (x : A) : list A :=
  if existsb (eqb x) l then l else l ++ [x].

(** The Roles of a plan with the Task of each. *)
Definition planned_roles (p : MissionPlan) : list (PlannedTask * RoleRequirement) :=
  tg_tasks (mp_task_graph p) ≫= fun task => (fun role => (task, role)) <$> pt_roles task.

Definition actor_operations (p : MissionPlan) : gmap ActorId (list OperationRef) :=
  foldl (fun operations entry =>
    match rq_actor_id entry.2 with
    | None => operations
    | Some actor =>
        let known := default [] (operations !! actor) in
        <[actor := match pt_execution_intents entry.1 !! rq_role_id entry.2 with
                   | Some intent => push_new (fun x y => bool_decide (x = y)) known (intent_operation intent)
                   | None => known
                   end]> operations
    end) ∅ (planned_roles p).

Definition actor_requirements (p : MissionPlan) : gmap ActorId (list CapabilityRequirement) :=
  foldl (fun requirements entry =>
    match rq_actor_id entry.2 with
    | None => requirements
    | Some actor =>
        <[actor := foldl (push_new CapabilityRequirement_eqb) (default [] (requirements !! actor))
                     (capability_requirements entry.2)]> requirements
    end) ∅ (planned_roles p).

Definition distinct_actor_groups (s : MissionBindingSemantics) (context : CoordinationContextId)
  : list (gset ActorId) :=
  bc_actor_ids <$> List.filter (fun c => bool_decide (bc_context_id c = context)) (bs_context_constraints s).

Definition CandidateSet_new (task : TaskRef) (roles : list RoleCandidates) : CandidateSet :=
  MkCandidateSet task roles ∅ ∅ [] ∅ None.

(** ** Events *)

Inductive MatchEvent :=
| StatePolicyDecision (task : TaskRef) (receipts : list DecisionEvidenceReceipt)
| CandidatesMatched (task : TaskRef)
| ProposalCreated (task : TaskRef)
| RecoveryCandidatesMatched (group : ExecutionGroupId) (task : TaskRef) (role : RoleId) (nodes : list NodeId)
| RecoveryAssignmentProposed (group : ExecutionGroupId) (task : TaskRef) (role : RoleId) (node : NodeId)
    (resources : list ResourceId).

Abbreviation MatchRun A := (list MatchEvent * Result A ControlError)%type.

(** Roles one after the other; a refusal keeps the events so far. *)
Fixpoint match_roles {A} (f : RoleRequirement -> option (MatchRun A)) (roles : list RoleRequirement)
  : option (MatchRun (list A)) :=
  match roles with
  | [] => Some ([], Ok [])
  | role :: roles' =>
      run ← f role;
      match run with
      | (events, Err e) => Some (events, Err e)
      | (events, Ok x) =>
          later ← match_roles f roles';
          Some (events ++ later.1, let? l := later.2 in Ok (x :: l))
      end
  end.

(** ** Candidates of an unbound Role *)

Section Match.
Context `{Serde, PolicyCodec, StateCodec} (m : MatchPlane).

Abbreviation control := (mx_control m).

(** The receipts [audit_role_decision] appends. *)
Definition audit_role_decision (rd : NodeReader) (task : TaskRef) (node : NodeId) (role : RoleRequirement)
    (operation : option OperationRef) (decision : DecisionKind) (now : TimestampMs)
  : option (list MatchEvent) :=
  receipts ← evaluate_decision_gates m now rd node role operation decision;
  Some (match receipts with [] => [] | _ => [StatePolicyDecision task receipts] end).

Definition audit_nodes (rd : NodeReader) (task : TaskRef) (role : RoleRequirement)
    (operation : option OperationRef) (now : TimestampMs) (nodes : list NodeId)
  : option (list MatchEvent) :=
  events ← mapM (fun node => audit_role_decision rd task node role operation Match now) nodes;
  Some (concat events).

Definition eligible_nodes (rd : NodeReader) (role : RoleRequirement) (now : TimestampMs) : list NodeId :=
  sn_node_id <$> List.filter (fun s => node_is_eligible_for_role m rd (sn_node_id s) role now) (rd_nodes rd).

Definition open_candidates (rd : NodeReader) (role : RoleRequirement) (now : TimestampMs)
  : Result RoleCandidates ControlError :=
  match eligible_nodes rd role now with
  | [] => Err (NoCandidate (rq_role_id role))
  | nodes => Ok (MkRoleCandidates (rq_role_id role) nodes)
  end.

Definition matched (requirement : TaskRequirement) (run : option (MatchRun (list RoleCandidates)))
  : option (MatchRun CandidateSet) :=
  result ← run;
  Some match result with
       | (events, Err e) => (events, Err e)
       | (events, Ok roles) => (events ++ [CandidatesMatched (tk_task_ref requirement)],
                                Ok (CandidateSet_new (tk_task_ref requirement) roles))
       end.

(** One Role: every Node is audited, then the candidates are computed. *)
Definition audited (rd : NodeReader) (requirement : TaskRequirement) (role : RoleRequirement)
    (now : TimestampMs) (found : Result RoleCandidates ControlError) : option (MatchRun RoleCandidates) :=
  events ← audit_nodes rd (tk_task_ref requirement) role None now (sn_node_id <$> rd_nodes rd);
  Some (events, found).

Definition match_capabilities (source : NodeReader) (requirement : TaskRequirement) (now : TimestampMs)
  : option (MatchRun CandidateSet) :=
  let rd := tenant_state control source (tk_mission_id requirement) in
  matched requirement
    (match_roles (fun role => audited rd requirement role now (open_candidates rd role now))
       (tk_roles requirement)).

(** ** Actors that are already placed *)

(** The only candidate, or the refusal [error] names. *)
Definition pinned (rd : NodeReader) (role : RoleRequirement) (now : TimestampMs) (node : NodeId)
    (error : ControlError) : Result RoleCandidates ControlError :=
  if node_is_eligible_for_role m rd node role now
  then Ok (MkRoleCandidates (rq_role_id role) [node]) else Err error.

Definition bound_candidates (rd : NodeReader) (mission : MissionId) (role : RoleRequirement)
    (now : TimestampMs) : Result RoleCandidates ControlError :=
  match rq_actor_id role with
  | None => open_candidates rd role now
  | Some actor =>
      match actor_binding control mission actor with
      | Some b => pinned rd role now (ab_node_id b)
                    (ActorBindingRequiresReconciliation mission actor (ab_node_id b))
      | None =>
          let entity := semantics ← mission_binding_semantics control mission; grounding semantics actor in
          match List.find (fun e => is_none (physical_entity_node control e))
                  (match entity with Some e => [e] | None => [] end) with
          | Some e => Err (ActorGroundingUnresolved mission actor e)
          | None =>
              match grounded_actor_node control mission actor with
              | Some node => pinned rd role now node (ActorPlacementConstraintUnsatisfied mission actor node)
              | None =>
                  match actor_node_constraint control mission actor with
                  | Some k => pinned rd role now (anc_node_id k)
                                (ActorPlacementConstraintUnsatisfied mission actor (anc_node_id k))
                  | None => open_candidates rd role now
                  end
              end
          end
      end
  end.

Definition match_capabilities_with_actor_bindings (source : NodeReader) (requirement : TaskRequirement)
    (now : TimestampMs) : option (MatchRun CandidateSet) :=
  let rd := tenant_state control source (tk_mission_id requirement) in
  matched requirement
    (match_roles (fun role => audited rd requirement role now
                                (bound_candidates rd (tk_mission_id requirement) role now))
       (tk_roles requirement)).

(** ** First use of an Actor: its Node serves the whole plan *)

Section FirstUse.
Context (rd : NodeReader) (mission : MissionId) (role : RoleRequirement) (operation : OperationRef).
Context (requirements : gmap ActorId (list CapabilityRequirement)).
Context (operations : gmap ActorId (list OperationRef)) (now : TimestampMs).

Definition deployment_refuses (actor : ActorId) (node : NodeId) : bool :=
  is_some_and (fun k => negb (set_contains node (acr_allowed_nodes k)))
    (actor_candidate_restriction control mission actor)
  || is_some_and (fun k => negb (bool_decide (anc_node_id k = node))) (actor_node_constraint control mission actor).

(** The Node was found by [node_role_exclusion]; the second lookup is an [expect]. *)
Definition first_use_node_exclusion (node : NodeId) : option CandidateExclusionReason :=
  match node_role_exclusion m rd node role now with
  | Some reason => Some reason
  | None =>
      if is_some_and (fun actor => deployment_refuses actor node) (rq_actor_id role)
      then Some DeploymentRestriction else
      match rd_node rd node with
      | None => Some RegistrationMissing
      | Some snapshot =>
          let registration := sn_registration snapshot in
          if negb (supports_operation registration operation) then Some OperationUnsupported else
          if negb (decision_gates_allow m now rd node role (Some operation) Match)
          then Some DecisionEvidenceUnavailable else
          if is_some_and (fun actor => is_none_or (fun l =>
               negb (forallb (capability_requirement_is_available registration) l)) (requirements !! actor))
               (rq_actor_id role)
          then Some ActorContractUnavailable else
          if is_some_and (fun actor => is_none_or (fun l =>
               negb (forallb (supports_operation registration) l)) (operations !! actor)) (rq_actor_id role)
          then Some OperationUnsupported else None
      end
  end.
End FirstUse.

(** The entity an Actor is bound to. *)
Definition bound_entity (mission : MissionId) (actor : ActorId) : option PhysicalEntityId :=
  b ← actor_binding control mission actor; ab_physical_entity_id b.

(** Entities the distinct peers of an Actor occupy. *)
Definition occupied_entities (mission : MissionId) (peers : gset ActorId) : gmap PhysicalEntityId ActorId :=
  foldl (fun occupied peer =>
    match bound_entity mission peer with
    | Some entity => <[entity := peer]> occupied
    | None => occupied
    end) ∅ (bset_iter peers).

Definition retain_distinct_binding_candidates (mission : MissionId) (context : CoordinationContextId)
    (actor : ActorId) (nodes : list NodeId) : Result (list NodeId) ControlError :=
  match mission_binding_semantics control mission with
  | None => Ok nodes
  | Some semantics =>
      let occupied := occupied_entities mission (distinct_peers semantics context actor) in
      match btree_iter occupied with
      | [] => Ok nodes
      | (entity, peer) :: _ =>
          match cp_physical_entity_registry control with
          | None => Err (InvalidProposal "physical entity registry is not installed")
          | Some registry =>
              match List.filter (fun node => is_some_and (fun r =>
                      negb (contains_key (pe_entity_id r) occupied)) (entity_for_node registry node)) nodes with
              | [] => Err (DistinctBindingUnsatisfiable mission actor peer entity)
              | kept => Ok kept
              end
          end
      end
  end.

(** ** Candidates for a Mission *)

Section Narrow.
Context (rd : NodeReader) (mission : MissionPlan) (requirement : TaskRequirement)
  (context : CoordinationContextId) (now : TimestampMs).

Abbreviation mission_id := (tk_mission_id requirement).

Definition nonempty (role : RoleRequirement) (nodes : list NodeId) : Result (list NodeId) ControlError :=
  match nodes with [] => Err (NoCandidate (rq_role_id role)) | _ => Ok nodes end.

(** One Role of the second loop: restriction, operation, distinct peers, whole plan. *)
Definition narrow_role (role : RoleRequirement) (operation : OperationRef) (nodes : list NodeId)
  : Result (list NodeId) ControlError :=
  let restricted :=
    match (actor ← rq_actor_id role; actor_candidate_restriction control mission_id actor) with
    | Some k => List.filter (fun node => set_contains node (acr_allowed_nodes k)) nodes
    | None => nodes
    end in
  let? usable := nonempty role (List.filter (fun node =>
                   node_is_eligible_for_role_operation m rd node role operation now) restricted) in
  match rq_actor_id role with
  | None => Ok usable
  | Some actor =>
      let? distinct := retain_distinct_binding_candidates mission_id context actor usable in
      if is_some (actor_binding control mission_id actor) then Ok distinct else
      if is_none (actor_requirements mission !! actor)
      then Err (InvalidProposal ("actor " ++ as_str actor ++ " is absent from MissionPlan")) else
      nonempty role (List.filter (fun node =>
        is_none (first_use_node_exclusion rd mission_id role operation (actor_requirements mission)
                   (actor_operations mission) now node)) distinct)
  end.

(** The entry of a Role, as [iter_mut().find(..)] finds it. *)
Fixpoint update_role (role : RoleId) (nodes : list NodeId) (sets : list RoleCandidates) : list RoleCandidates :=
  match sets with
  | [] => []
  | s :: sets' => if bool_decide (rcs_role_id s = role) then MkRoleCandidates role nodes :: sets'
                  else s :: update_role role nodes sets'
  end.

Fixpoint narrow_roles (operations : gmap RoleId OperationRef) (roles : list RoleRequirement)
    (sets : list RoleCandidates) : option (MatchRun (list RoleCandidates)) :=
  match roles with
  | [] => Some ([], Ok sets)
  | role :: roles' =>
      operation ← operations !! rq_role_id role;
      current ← List.find (fun s => bool_decide (rcs_role_id s = rq_role_id role)) sets;
      events ← audit_nodes rd (tk_task_ref requirement) role (Some operation) now (rcs_node_ids current);
      match narrow_role role operation (rcs_node_ids current) with
      | Err e => Some (events, Err e)
      | Ok nodes =>
          rest ← narrow_roles operations roles' (update_role (rq_role_id role) nodes sets);
          Some (events ++ rest.1, rest.2)
      end
  end.
End Narrow.

(** The operation of each Role of a Task. *)
Fixpoint role_operations (task : PlannedTask) (known : gmap RoleId OperationRef) (roles : list RoleRequirement)
  : Result (gmap RoleId OperationRef) ControlError :=
  match roles with
  | [] => Ok known
  | role :: roles' =>
      match pt_execution_intents task !! rq_role_id role with
      | None => Err (InvalidProposal ("MissionPlan lacks ExecutionIntent for role "
                                        ++ as_str (rq_role_id role)))
      | Some intent => role_operations task (<[rq_role_id role := intent_operation intent]> known) roles'
      end
  end.

Definition find_planned (mission : MissionPlan) (task : TaskRef) : option PlannedTask :=
  List.find (fun t => bool_decide (pt_task_ref t = task)) (tg_tasks (mp_task_graph mission)).

(** The Actor of each Role that declares one. *)
Definition role_actor_map (roles : list RoleRequirement) : gmap RoleId ActorId :=
  list_to_map (omap (fun role => (fun actor => (rq_role_id role, actor)) <$> rq_actor_id role) (reverse roles)).

Definition candidate_nodes (sets : list RoleCandidates) : list NodeId := sets ≫= rcs_node_ids.

(** Entities of candidates, when the Mission binds physical entities. *)
Definition candidate_entities (mission : MissionId) (sets : list RoleCandidates)
  : gmap NodeId PhysicalEntityId :=
  match mission_binding_semantics control mission, cp_physical_entity_registry control with
  | Some semantics, Some registry =>
      if requires_physical_entities semantics
      then list_to_map (omap (fun node => (fun e => (node, pe_entity_id e)) <$> entity_for_node registry node)
                          (candidate_nodes sets))
      else ∅
  | _, _ => ∅
  end.

Definition with_actor_binding_metadata (requirement : TaskRequirement) (context : CoordinationContextId)
    (operations : gmap RoleId OperationRef) (sets : list RoleCandidates) : Result CandidateSet ControlError :=
  let mission := tk_mission_id requirement in
  let groups := default [] ((fun s => distinct_actor_groups s context) <$> mission_binding_semantics control mission) in
  let entities := candidate_entities mission sets in
  if negb (length groups =? 0)%nat && existsb (fun node => negb (contains_key node entities)) (candidate_nodes sets)
  then Err (InvalidProposal "physical entity registry does not cover every constrained candidate Node")
  else Ok (MkCandidateSet (tk_task_ref requirement) sets operations (role_actor_map (tk_roles requirement)) groups
             entities (mx_initial_candidate_preferences m !! tk_task_ref requirement)).

Definition match_capabilities_for_mission (source : NodeReader) (mission : MissionPlan)
    (requirement : TaskRequirement) (now : TimestampMs) : option (MatchRun CandidateSet) :=
  let rd := tenant_state control source (tk_mission_id requirement) in
  if negb (bool_decide (mp_mission_id mission = tk_mission_id requirement))
  then Some ([], Err (InvalidProposal "mission plan and task requirement belong to different missions")) else
  match find_planned mission (tk_task_ref requirement) with
  | None => Some ([], Err (InvalidProposal "task requirement is absent from the accepted MissionPlan"))
  | Some task =>
      match role_operations task ∅ (tk_roles requirement) with
      | Err e => Some ([], Err e)
      | Ok operations =>
          let context := tc_context_id (pt_continuity task) in
          started ← match_capabilities_with_actor_bindings rd requirement now;
          match started with
          | (events, Err e) => Some (events, Err e)
          | (events, Ok candidates) =>
              run ← narrow_roles rd mission requirement context now operations (tk_roles requirement)
                      (cs_roles candidates);
              Some (events ++ run.1,
                    let? sets := run.2 in with_actor_binding_metadata requirement context operations sets)
          end
      end
  end.

(** ** Diagnostics and conflicts *)

Record RoleCandidateDiagnostics := MkDiagnostics {
  dx_role_id : RoleId;
  dx_considered_count : nat;
  dx_eligible_count : nat;
  dx_exclusions : CandidateExclusionReason -> nat
}.

(** One counter per reason; a reason without entry is zero. *)
Definition role_diagnostics (role : RoleId) (outcomes : list (option CandidateExclusionReason))
  : RoleCandidateDiagnostics :=
  MkDiagnostics role (length outcomes) (length (List.filter is_none outcomes))
    (fun reason => length (List.filter (fun o => bool_decide (o = Some reason)) outcomes)).

Definition diagnostics_refused (mission : MissionPlan) (requirement : TaskRequirement)
    (semantics : MissionBindingSemantics) : bool :=
  negb (bool_decide (mp_mission_id mission = tk_mission_id requirement))
  || requires_physical_entities semantics
  || is_some (mission_binding_semantics control (tk_mission_id requirement))
  || existsb (fun role => is_some_and (fun actor =>
       is_some (actor_binding control (tk_mission_id requirement) actor)) (rq_actor_id role))
       (tk_roles requirement).

Fixpoint collect_results {A B} (f : A -> Result B ControlError) (l : list A) : Result (list B) ControlError :=
  match l with
  | [] => Ok []
  | x :: l' => let? y := f x in let? rest := collect_results f l' in Ok (y :: rest)
  end.

Definition first_use_candidate_diagnostics (source : NodeReader) (mission : MissionPlan)
    (requirement : TaskRequirement) (now : TimestampMs)
  : option (Result (list RoleCandidateDiagnostics) ControlError) :=
  let rd := tenant_state control source (tk_mission_id requirement) in
  semantics ← binding_semantics mission;
  Some (
    if diagnostics_refused mission requirement semantics
    then Err (InvalidProposal "diagnostics require unbound initial Mission roles") else
    match find_planned mission (tk_task_ref requirement) with
    | None => Err (InvalidProposal "diagnostic Task is absent from MissionPlan")
    | Some task =>
        if (128 <? length (rd_nodes rd))%nat
        then Err (InvalidProposal "initial candidate diagnostics exceed budget") else
        collect_results (fun role =>
          match pt_execution_intents task !! rq_role_id role with
          | None => Err (InvalidProposal "diagnostic Role lacks ExecutionIntent")
          | Some intent =>
              Ok (role_diagnostics (rq_role_id role)
                    ((fun s => first_use_node_exclusion rd (tk_mission_id requirement) role
                                 (intent_operation intent) (actor_requirements mission)
                                 (actor_operations mission) now (sn_node_id s)) <$> rd_nodes rd))
          end) (tk_roles requirement)
    end).

(** Resources of candidates that the Group holds and a demand of the Role could use. *)
Definition preemption_conflicts (rd : NodeReader) (source_group : ExecutionGroupId)
    (requirement : TaskRequirement) (candidates : CandidateSet) : gset ResourceId :=
  if negb (bool_decide (cs_task_ref candidates = tk_task_ref requirement)) then ∅ else
  list_to_set (
    tk_roles requirement ≫= fun role =>
    default [] (rcs_node_ids <$> for_role candidates (rq_role_id role)) ≫= fun node =>
    res_id <$> List.filter (fun resource =>
      is_some_and (fun held => bool_decide (rsv_group_id held = Some source_group))
        (cp_reservations control !! res_id resource)
      && existsb (fun demand => bool_decide (rr_allocation_mode demand = Exclusive)
                                && matches_demand demand resource) (resource_requirements role))
      (default [] ((fun s => nd_resources (sn_registration s)) <$> rd_node rd node))).

(** ** Proposals: [proposal.rs] *)

Section Propose.
Context (rd : NodeReader) (candidates : CandidateSet) (now : TimestampMs).

(** A resource is selected twice only as shares of a pool. *)
Fixpoint propose_resources (used : gmap ResourceId ResourceAllocationMode)
    (l : list (ResourceId * ResourceRequirement)) : Result (gmap ResourceId ResourceAllocationMode) ControlError :=
  match l with
  | [] => Ok used
  | (id, demand) :: l' =>
      if is_some_and (fun previous => negb (bool_decide (previous = Divisible))
                                      || negb (bool_decide (rr_allocation_mode demand = Divisible))) (used !! id)
      then Err (InvalidProposal ("resource " ++ as_str id ++ " is assigned more than once"))
      else propose_resources (<[id := rr_allocation_mode demand]> used) l'
  end.

Definition operation_unavailable (snapshot : NodeStateSnapshot) (role : RoleRequirement) (node : NodeId)
    (operation : OperationRef) : bool :=
  negb (supports_operation (sn_registration snapshot) operation)
  || negb (decision_gates_allow m now rd node role (Some operation) Match).

Definition propose_role (a : RoleAssignment) (used : gmap ResourceId ResourceAllocationMode)
    (role : RoleRequirement) : Result (gmap ResourceId ResourceAllocationMode) ControlError :=
  match for_role candidates (rq_role_id role) with
  | None => Err (InvalidProposal ("missing candidates for role " ++ as_str (rq_role_id role)))
  | Some set =>
      if negb (bool_decide (as_node_id a ∈ rcs_node_ids set))
      then Err (InvalidProposal ("node " ++ as_str (as_node_id a) ++ " is not a candidate for role "
                  ++ as_str (rq_role_id role))) else
      match rd_node rd (as_node_id a) with
      | None => Err (UnknownNode (as_node_id a))
      | Some snapshot =>
          if negb (node_is_eligible_for_role m rd (as_node_id a) role now)
          then Err (AssignmentUnavailable ("node " ++ as_str (as_node_id a)
                      ++ " is no longer eligible for role " ++ as_str (rq_role_id role))) else
          match List.find (operation_unavailable snapshot role (as_node_id a))
                  (match cs_role_operations candidates !! rq_role_id role with Some o => [o] | None => [] end) with
          | Some operation =>
              Err (AssignmentUnavailable ("node " ++ as_str (as_node_id a) ++ " no longer supports operation "
                     ++ CapabilityContractRef_to_string (as_legacy_contract operation)
                     ++ " for role " ++ as_str (rq_role_id role)))
          | None =>
              let pairs := combine (as_resource_ids a) (resource_requirements role) in
              if negb (length (as_resource_ids a) =? length (resource_requirements role))%nat
                 || existsb (fun d => negb (existsb (resource_satisfies d.1 d.2)
                                              (nd_resources (sn_registration snapshot)))) pairs
              then Err (InvalidProposal ("role " ++ as_str (rq_role_id role)
                          ++ " resources do not exactly satisfy its declared kinds and capacities"))
              else propose_resources used pairs
          end
      end
  end.

Fixpoint propose_roles (assignments : list RoleAssignment) (used : gmap ResourceId ResourceAllocationMode)
    (roles : list RoleRequirement) : Result unit ControlError :=
  match roles with
  | [] => Ok tt
  | role :: roles' =>
      match List.find (fun a => bool_decide (as_role_id a = rq_role_id role)) assignments with
      | None => Err (InvalidProposal ("missing role " ++ as_str (rq_role_id role)))
      | Some a => let? used1 := propose_role a used role in propose_roles assignments used1 roles'
      end
  end.

(** The entities one distinct group occupies. *)
Fixpoint propose_group (group : gset ActorId) (occupied : gmap PhysicalEntityId ActorId)
    (assignments : list RoleAssignment) : Result unit ControlError :=
  match assignments with
  | [] => Ok tt
  | a :: l' =>
      match actor_for_role candidates (as_role_id a) with
      | None => propose_group group occupied l'
      | Some actor =>
          if negb (set_contains actor group) then propose_group group occupied l' else
          match physical_entity_for_node candidates (as_node_id a) with
          | None => Err (InvalidProposal ("constrained role " ++ as_str (as_role_id a)
                           ++ " has no physical entity selection"))
          | Some entity =>
              match occupied !! entity with
              | Some previous => Err (InvalidProposal ("actors " ++ as_str previous ++ " and " ++ as_str actor
                                        ++ " select the same physical entity " ++ as_str entity))
              | None => propose_group group (<[entity := actor]> occupied) l'
              end
          end
      end
  end.

Definition proposal_of (requirement : TaskRequirement) (assignments : list RoleAssignment) : AssignmentProposal :=
  MkProposal (tk_task_ref requirement) assignments (cs_role_operations candidates)
    (list_to_map (reverse ((fun role => (rq_role_id role, role)) <$> tk_roles requirement)))
    (list_to_map (reverse (omap (fun a => (fun e => (as_role_id a, e)) <$>
                                   physical_entity_for_node candidates (as_node_id a)) assignments))).
End Propose.

Definition propose (source : NodeReader) (requirement : TaskRequirement) (candidates : CandidateSet)
    (assignments : list RoleAssignment) (now : TimestampMs) : MatchRun AssignmentProposal :=
  let rd := tenant_state control source (tk_mission_id requirement) in
  if negb (bool_decide (cs_task_ref candidates = tk_task_ref requirement))
  then ([], Err (InvalidProposal "candidate set belongs to another task")) else
  if negb (length assignments =? length (tk_roles requirement))%nat
  then ([], Err (InvalidProposal "proposal must assign every role exactly once")) else
  match (let? _r := propose_roles rd candidates now assignments ∅ (tk_roles requirement) in
         try_for (fun group => propose_group candidates group ∅ assignments)
           (cs_distinct_actor_groups candidates)) with
  | Err e => ([], Err e)
  | Ok _ => ([ProposalCreated (tk_task_ref requirement)], Ok (proposal_of candidates requirement assignments))
  end.
End Match.
