(* ===== verification/CurrentState.v ===== *)
(** * Commit, recovery and assessment against current State

    The parts of [core/control/src] that read the Node state when they decide: the checks of a
    Commit ([coordination.rs]: [validate_current_assignment_support], [commit_for_group_with_state];
    [resource_allocations.rs]: [capacity_commit_candidate]), the retained bindings of a Mission
    ([node.rs]), the assessment of a Group and the candidates and proposals of a recovery
    ([reconciliation/pipeline.rs]) and the preferences of unbound Tasks
    ([initial_preferences.rs]).  [plane_view] is the instance of [NodeView] these operations
    use.  [None] is a panic.  The error text of an assignment leaves out the Debug form of its
    operation; the audit events of a Commit and the event of an assessment, which its result
    determines, are left out. *)

From S2P Require Import Prelude Identity Execution StateModel Session Resource RelationSpec DecisionPolicy.
From S2P Require Import SchedulerPolicy Sorting Quota NodeIdentity NodeState Capacity NodeAuthority.
From S2P Require Import Mission TaskExecution Group ControlPlane Actors GroupLifecycle GroupBinding GroupRelease.
From S2P Require Import RoleRecovery Topology Calendar Registries Evidence Eligibility Matching Scheduler.

Open Scope string_scope.
Open Scope list_scope.

(** ** Recovery profiles of local systems: [execution/recovery.rs], [node_state.rs] *)

Definition EXECUTION_RECOVERY_METADATA_KEY : string := "roboguide.execution-recovery".
Definition EXECUTION_RECOVERY_PROFILE_SCHEMA : string := "roboguide.local-execution-recovery/v0.1".

Record ExecutionRecoveryProfile := MkRecoveryProfile {
  erp_schema_version : string;
  erp_operations : list OperationRecoverySupport
}.

(** [serde_json::from_str] to a value and [from_value] to the closed profile. *)
Class RecoveryCodec := {
  json_of_text : string -> Result Json string;
  profile_of_json : Json -> Result ExecutionRecoveryProfile string
}.

Definition json_as_object (v : Json) : option (list (string * Json)) :=
  match v with JObject fields => Some fields | _ => None end.

Section Profile.
Context `{StateCodec, RecoveryCodec}.

Definition recovery_operation_check (support : Json) : Result unit string :=
  match json_get support "operation" ≫= json_as_object with
  | None => Err "recovery operation must be an exact canonical object"
  | Some fields =>
      if negb (length fields =? 3)%nat
         || negb (forallb (fun key => existsb (fun field => (field.1 =? key)%string) fields)
                    ["namespace"; "name"; "version"])
      then Err "recovery operation contains unknown or missing identity fields" else Ok tt
  end.

Definition recovery_declaration_check (seen : list OperationRef) (s : OperationRecoverySupport)
  : Result (list OperationRef) string :=
  let operation := as_legacy_contract (ors_operation s) in
  match OperationRef_new (ccr_namespace operation) (ccr_name operation) (ccr_version operation) with
  | Err e => Err (DomainError_to_string e)
  | Ok _ =>
      if bool_decide (ors_operation s ∈ seen)
         || (bool_decide (ors_stop_scope s = ScopeUnsupported)
             && negb (bool_decide (ors_continuation s = ContinuationUnsupported)))
      then Err "execution recovery declarations are duplicate or inconsistent"
      else Ok (ors_operation s :: seen)
  end.

Definition from_metadata (value : string) : Result ExecutionRecoveryProfile string :=
  if (8192 <? str_len value)%N then Err "execution recovery profile exceeds 8192 bytes" else
  let? document := json_of_text value in
  let? _o := try_for recovery_operation_check
               (default [] (json_get document "operations" ≫= json_as_array)) in
  let? profile := profile_of_json document in
  if negb (erp_schema_version profile =? EXECUTION_RECOVERY_PROFILE_SCHEMA)%string
     || (length (erp_operations profile) =? 0)%nat || (32 <? length (erp_operations profile))%nat
  then Err "execution recovery profile requires v0.1 and 1..32 operations" else
  let? _s := try_fold recovery_declaration_check [] (erp_operations profile) in
  Ok profile.

Definition execution_recovery_support (r : NodeRegistration) (operation : OperationRef)
  : option ExecutionRecoverySupport :=
  owner ← operation_owner r operation;
  system ← List.find (fun s => bool_decide (ls_id s = owner)) (nd_local_systems r);
  raw ← ls_metadata system !! EXECUTION_RECOVERY_METADATA_KEY;
  match from_metadata raw with
  | Err _ => None
  | Ok profile =>
      support ← List.find (fun s => bool_decide (ors_operation s = operation)) (erp_operations profile);
      Some (MkRecoverySupport owner support)
  end.
End Profile.

Definition put_control (c : ControlPlane) (m : MatchPlane) : MatchPlane :=
  MkMatchPlane (set_control c (mx_evidence m)) (mx_leases m) (mx_node_sessions m) (mx_max_status_age_ms m)
    (mx_initial_candidate_preferences m).

#[export] Instance InitialCandidatePreferences_eq_dec : EqDecision InitialCandidatePreferences.
Proof. solve_decision. Defined.

Section State.
Context `{Serde, PolicyCodec, StateCodec, RecoveryCodec}.

(** ** The batch of a Commit: [resource_allocations.rs] *)

Definition selected_resources_match_registration (c : ControlPlane) (r : NodeRegistration)
    (role : RoleRequirement) (selected : list ResourceId) : bool :=
  (length selected =? length (resource_requirements role))%nat
  && (distinct_count selected =? length selected)%nat
  && forallb (fun d : ResourceId * ResourceRequirement =>
       (0 <? rr_units d.2)%N
       && existsb (fun resource => resource_satisfies d.1 d.2 resource
                    && (committed_units (cp_capacity_ledger c) d.1 <=? res_capacity resource)%N)
            (nd_resources r)) (combine selected (resource_requirements role)).

(** What [validate_capacity_calendar] and the topology check read: Nodes only. *)
Definition nodes_view (rd : NodeReader) : NodeView := {|
  nv_node := rd_node rd;
  nv_recovery_support := execution_recovery_support;
  nv_eligible := fun _ _ _ _ => false;
  nv_gates_allow := fun _ _ _ _ _ => false;
  nv_topology := fun _ _ _ _ => Ok tt;
  nv_capacity := fun _ _ _ _ _ => Ok None
|}.

(** The request of one shared demand. *)
Definition shared_request (c : ControlPlane) (group : ExecutionGroupId) (task : TaskRef) (tenant : string)
    (a : RoleAssignment) (r : NodeRegistration) (id : ResourceId) (demand : ResourceRequirement)
  : option (Result CommitDemand ControlError) :=
  if negb (bool_decide (rr_kind demand = Compute))
     || negb (supports_quantitative_resources (nd_contract_version r))
     || contains_key id (cp_reservations c)
  then Some (Err (AssignmentUnavailable "quantitative resource contract is unavailable or exclusively owned")) else
  resource ← find_resource (nd_resources r) id;
  Some (
    let? owner := capacity_owner c group task (as_role_id a) in
    let? parent := (if is_context owner
                    then match context_capacity_units c group owner (rr_resource_class demand) with
                         | Some units => Ok units
                         | None => Err (InvalidProposal "original Context capacity envelope is absent")
                         end
                    else Ok (rr_units demand)) in
    match rr_resource_class demand with
    | None => Err (InvalidProposal "quantitative unit class is absent")
    | Some class =>
        Ok (SharedDemand (MkCapacityRequest id class (as_node_id a) group task (as_role_id a) tenant owner
                            (rr_units demand) parent (res_capacity resource)))
    end).

Definition capacity_demand (c : ControlPlane) (group : ExecutionGroupId) (task : TaskRef) (tenant : string)
    (a : RoleAssignment) (r : NodeRegistration) (ledgers : CapacityLedger * QuotaLedger)
    (d : ResourceId * ResourceRequirement) : option (Result (CapacityLedger * QuotaLedger) ControlError) :=
  request ← (if bool_decide (rr_allocation_mode d.2 = Exclusive)
             then Some (Ok (ExclusiveDemand d.1 tenant (rr_kind d.2) (rr_units d.2)))
             else shared_request c group task tenant a r d.1 d.2);
  match request with
  | Err e => Some (Err e)
  | Ok demand => commit_demand ledgers.1 ledgers.2 demand
  end.

Fixpoint fold_step {A B} (f : A -> B -> option (Result A ControlError)) (acc : A) (l : list B)
  : option (Result A ControlError) :=
  match l with
  | [] => Some (Ok acc)
  | x :: l' =>
      step ← f acc x;
      match step with Err e => Some (Err e) | Ok acc1 => fold_step f acc1 l' end
  end.

Definition capacity_assignment (rd : NodeReader) (c : ControlPlane) (g : ExecutionGroup)
    (group : ExecutionGroupId) (task : TaskRef) (tenant : string) (ledgers : CapacityLedger * QuotaLedger)
    (a : RoleAssignment) : option (Result (CapacityLedger * QuotaLedger) ControlError) :=
  match role_requirement g task (as_role_id a) with
  | None => Some (Err (InvalidProposal "quantitative Commit original Role is absent"))
  | Some role =>
      match rd_node rd (as_node_id a) with
      | None => Some (Err (UnknownNode (as_node_id a)))
      | Some node =>
          if negb (selected_resources_match_registration c (sn_registration node) role (as_resource_ids a))
          then Some (Err (AssignmentUnavailable "selected resource allocation contract no longer matches"))
          else fold_step (capacity_demand c group task tenant a (sn_registration node)) ledgers
                 (combine (as_resource_ids a) (resource_requirements role))
      end
  end.

Definition shares_pool (rd : NodeReader) (g : ExecutionGroup) (task : TaskRef) (a : RoleAssignment) : bool :=
  is_some_and demands_shared (role_requirement g task (as_role_id a))
  || is_some_and (fun node => existsb (fun resource => bool_decide (res_id resource ∈ as_resource_ids a)
                    && bool_decide (res_allocation_mode resource = Divisible))
                    (nd_resources (sn_registration node))) (rd_node rd (as_node_id a)).

Definition legacy_compute_unavailable (c : ControlPlane) (tenant : string) : bool :=
  has_limit (cp_quota_ledger c) tenant Compute
  && existsb (fun id => is_some_and (fun r => is_none_or (fun owner => (owner =? tenant)%string)
                                                 (reservation_quota_tenant c r)) (cp_reservations c !! id))
       (bset_iter (cp_quota_unaccounted_resources c)).

Definition capacity_commit_candidate (rd : NodeReader) (c : ControlPlane) (group : ExecutionGroupId)
    (task : TaskRef) (assignments : list RoleAssignment) (now : TimestampMs)
  : option (Result (option (CapacityLedger * QuotaLedger)) ControlError) :=
  match find_group c group with
  | Err e => Some (Err e)
  | Ok g =>
      if negb (existsb (shares_pool rd g task) assignments) then Some (Ok None) else
      match mission_tenant c (tr_mission_id task) with
      | None => Some (Err (InvalidProposal "quantitative Commit requires immutable Mission tenant"))
      | Some tenant =>
          if legacy_compute_unavailable c tenant
          then Some (Err (InvalidProposal "legacy tenant demand is unavailable under quantitative quota")) else
          ledgers ← fold_step (capacity_assignment rd c g group task tenant)
                      (cp_capacity_ledger c, cp_quota_ledger c) assignments;
          match ledgers with
          | Err e => Some (Err e)
          | Ok l =>
              checked ← @validate_capacity_calendar _ c (nodes_view rd) l.1 task now;
              Some (let? _c := checked in Ok (Some l))
          end
      end
  end.

(** ** The view of Control

    [NodeView] of recovery and booking, read from the reader of the operation and the plane that
    runs it.  A failed encoding of the batch panics in the code and is a refusal here. *)
Definition plane_view (m : MatchPlane) (rd : NodeReader) : NodeView := {|
  nv_node := rd_node rd;
  nv_recovery_support := execution_recovery_support;
  nv_eligible := fun c node role now => node_is_eligible_for_role (put_control c m) rd node role now;
  nv_gates_allow := fun c node role operation now =>
    decision_gates_allow (put_control c m) now rd node role operation Rebind;
  nv_topology := fun c task assignments now => @validate_topology_assignments (nodes_view rd) c task assignments now;
  nv_capacity := fun c group task assignments now =>
    default (Err (AllocationInvariant "encoding")) (capacity_commit_candidate rd c group task assignments now)
|}.

(** ** Commit with current State: [coordination.rs] *)

Section Commit.
Context (m : MatchPlane).

Abbreviation control := (mx_control m).

Definition entity_route_check (p : AssignmentProposal) (a : RoleAssignment) : Result unit ControlError :=
  match ap_role_physical_entities p !! as_role_id a with
  | None => Ok tt
  | Some entity =>
      match (registry ← cp_physical_entity_registry control; ps_entity registry entity) with
      | None => Err (InvalidProposal ("physical entity " ++ as_str entity
                       ++ " is absent from current deployment registry"))
      | Some current =>
          if negb (bool_decide (pe_node_id current = as_node_id a))
          then Err (InvalidProposal ("physical entity " ++ as_str entity
                      ++ " no longer routes through proposed node " ++ as_str (as_node_id a))) else Ok tt
      end
  end.

Definition currently_eligible (rd : NodeReader) (node : NodeId) (role : RoleRequirement)
    (operation : option OperationRef) (now : TimestampMs) : bool :=
  match operation with
  | None => node_is_eligible_for_role m rd node role now
  | Some o => node_is_eligible_for_role_operation m rd node role o now
  end.

Definition assignment_support (rd : NodeReader) (p : AssignmentProposal) (now : TimestampMs)
    (a : RoleAssignment) : Result unit ControlError :=
  let? _e := entity_route_check p a in
  match ap_requirement p (as_role_id a) with
  | None => Err (InvalidProposal ("proposal lacks requirement for role " ++ as_str (as_role_id a)))
  | Some role =>
      let operation := ap_role_operations p !! as_role_id a in
      if negb (currently_eligible rd (as_node_id a) role operation now)
         || negb (decision_gates_allow m now rd (as_node_id a) role operation Commit)
      then Err (AssignmentUnavailable ("node " ++ as_str (as_node_id a)
                  ++ " no longer satisfies capability and operation for role " ++ as_str (as_role_id a))) else
      match rd_node rd (as_node_id a) with
      | None => Err (UnknownNode (as_node_id a))
      | Some node =>
          if negb (length (as_resource_ids a) =? length (resource_requirements role))%nat
          then Err (InvalidProposal ("role " ++ as_str (as_role_id a)
                      ++ " selected resource coverage differs from its requirements")) else
          try_for (fun d : ResourceId * ResourceRequirement =>
            if existsb (resource_satisfies d.1 d.2) (nd_resources (sn_registration node)) then Ok tt
            else Err (AssignmentUnavailable ("selected resource " ++ as_str d.1
                        ++ " is absent or no longer satisfies role " ++ as_str (as_role_id a) ++ " on node "
                        ++ as_str (as_node_id a))))
            (combine (as_resource_ids a) (resource_requirements role))
      end
  end.

Definition validate_current_assignment_support (source : NodeReader) (p : AssignmentProposal)
    (now : TimestampMs) : Result unit ControlError :=
  let? _t := @validate_topology_assignments (nodes_view source) control (ap_task_ref p) (ap_assignments p) now in
  try_for (assignment_support (tenant_state control source (tr_mission_id (ap_task_ref p))) p now)
    (ap_assignments p).

Definition commit_for_group_with_state (source : NodeReader) (group : ExecutionGroupId)
    (p : AssignmentProposal) (now : TimestampMs) : ControlStep CommittedPlan :=
  match (let? _s := validate_current_assignment_support source p now in
         let? demands := proposal_quota_demands p in
         validate_resource_quotas control (tr_mission_id (ap_task_ref p)) demands) with
  | Err e => refuse control e
  | Ok _ =>
      batch ← capacity_commit_candidate source control group (ap_task_ref p) (ap_assignments p) now;
      match batch with
      | Err e => refuse control e
      | Ok capacity => commit_for_group_validated control group p capacity now
      end
  end.

(** ** Retained bindings of a Mission: [node.rs] *)

Definition bound_assignment_check (rd : NodeReader) (planned : PlannedTask) (now : TimestampMs)
    (a : RoleAssignment) : Result unit ControlError :=
  match find_role (pt_requirement planned) (as_role_id a) with
  | None => Err (InvalidProposal "retained Role absent from plan")
  | Some role =>
      match pt_execution_intents planned !! as_role_id a with
      | None => Err (InvalidProposal "retained Role intent absent")
      | Some intent =>
          if negb (node_is_eligible_for_role_operation m rd (as_node_id a) role (intent_operation intent) now)
          then Err (InvalidProposal "retained bound Node is not currently eligible") else Ok tt
      end
  end.

Definition validate_bound_mission_nodes (rd : NodeReader) (mission : MissionPlan)
    (group : ExecutionGroupId) (now : TimestampMs) : option (Result unit ControlError) :=
  plan ← validate_mission_group_plan control group mission;
  Some (let? _p := plan in
        let? g := find_group control group in
        try_for (fun t =>
          match find_planned mission (te_task_ref t) with
          | None => Err (InvalidProposal "retained Task absent from plan")
          | Some planned => try_for (bound_assignment_check rd planned now) (te_assignments t)
          end) (btree_values (eg_task_executions g))).

(** ** Assessment of a Group: [reconciliation/pipeline.rs] *)

Inductive ReconciliationAssessment := NoAction | RoleRecoveryRequired (need : RoleRecoveryNeed).

Fixpoint unavailable_roles (rd : NodeReader) (g : ExecutionGroup) (requirement : TaskRequirement)
    (intents : gmap RoleId ExecutionIntent) (now : TimestampMs) (l : list RoleAssignment)
  : Result (list RoleAssignment) ControlError :=
  match l with
  | [] => Ok []
  | a :: l' =>
      let? role := recovery_role g requirement (tk_task_ref requirement) (as_role_id a) in
      let? rest := unavailable_roles rd g requirement intents now l' in
      Ok (if currently_eligible rd (as_node_id a) role (intent_operation <$> intents !! as_role_id a) now
          then rest else a :: rest)
  end.

Definition assess_group_with_operations (rd : NodeReader) (group : ExecutionGroupId)
    (requirement : TaskRequirement) (intents : gmap RoleId ExecutionIntent) (now : TimestampMs)
  : Result ReconciliationAssessment ControlError :=
  let? g := live_group control group in
  if negb (bool_decide (eg_task_ref g = tk_task_ref requirement))
     && is_none (task_execution g (tk_task_ref requirement))
  then Err (InvalidProposal "reconciliation requirement belongs to another task") else
  let? unavailable := unavailable_roles rd g requirement intents now
                        (match task_execution g (tk_task_ref requirement) with
                         | Some t => te_assignments t
                         | None => eg_assignments g
                         end) in
  match unavailable with
  | [] => Ok NoAction
  | [a] => Ok (RoleRecoveryRequired (MkRecoveryNeed group (tk_task_ref requirement) (as_role_id a) (as_node_id a)))
  | _ => Err (InvalidProposal "multiple unavailable assigned roles are outside reconciliation slice v0.1")
  end.

Definition assess_group (rd : NodeReader) (group : ExecutionGroupId) (requirement : TaskRequirement)
    (now : TimestampMs) : Result ReconciliationAssessment ControlError :=
  assess_group_with_operations rd group requirement ∅ now.

Definition assess_group_for_mission (rd : NodeReader) (mission : MissionPlan) (group : ExecutionGroupId)
    (requirement : TaskRequirement) (now : TimestampMs) : Result ReconciliationAssessment ControlError :=
  match find_planned mission (tk_task_ref requirement) with
  | None => Err (InvalidProposal "reconciliation Task is absent from the accepted MissionPlan")
  | Some task => assess_group_with_operations rd group requirement (pt_execution_intents task) now
  end.

(** ** Candidates and proposals of a recovery *)

(** [RecoveryCandidateSet] with the fields the scheduler does not read. *)
Record RecoveryMatch := MkRecoveryMatch {
  rcd_stopped_owner_allowed : bool;
  rcd_candidates : RecoveryCandidateSet;
  rcd_operation : option OperationRef;
  rcd_actor_takeover : option ActorTakeoverAuthorization
}.

Abbreviation rcd_group_id c := (rv_group_id (rcd_candidates c)).
Abbreviation rcd_task_ref c := (rv_task_ref (rcd_candidates c)).
Abbreviation rcd_role_id c := (rv_role_id (rcd_candidates c)).
Abbreviation rcd_previous_node_id c := (rv_previous_node_id (rcd_candidates c)).
Abbreviation rcd_candidate_node_ids c := (rv_candidate_node_ids (rcd_candidates c)).

(** The Node an authority of the Actor fixes: the takeover first. *)
Definition recovery_authority_node (mission : MissionId) (role : RoleRequirement)
    (takeover : option ActorTakeoverAuthorization) : option NodeId :=
  match takeover with
  | Some a => Some (at_replacement_node_id a)
  | None => actor ← rq_actor_id role; actor_authority_node control mission actor
  end.

Definition recovery_candidate (rd : NodeReader) (need : RoleRecoveryNeed) (mission : MissionId)
    (role : RoleRequirement) (operation : option OperationRef) (stopped : bool)
    (takeover : option ActorTakeoverAuthorization) (now : TimestampMs) (s : NodeStateSnapshot) : bool :=
  let node := sn_node_id s in
  node_tenant_allowed control mission node
  && (stopped || negb (bool_decide (node = rn_current_node_id need)))
  && is_none_or (fun n => bool_decide (node = n)) (recovery_authority_node mission role takeover)
  && is_none_or (fun k => set_contains node (acr_allowed_nodes k))
       (actor ← rq_actor_id role; actor_candidate_restriction control mission actor)
  && currently_eligible rd node role operation now
  && (negb stopped
      || is_some_and (fun o => is_some_and (fun d => supports_role_retry (ers_support d))
                                 (execution_recovery_support (sn_registration s) o)) operation).

Definition match_recovery_candidates_with_operation (rd : NodeReader) (need : RoleRecoveryNeed)
    (requirement : TaskRequirement) (operation : option OperationRef) (stopped : bool)
    (takeover : option ActorTakeoverAuthorization) (now : TimestampMs) : MatchRun RecoveryMatch :=
  match (let? g := find_group control (rn_group_id need) in
         let? role := recovery_role g requirement (rn_task_ref need) (rn_role_id need) in
         if negb (bool_decide (eg_lifecycle g = GlBlocked)) then Err (InvalidLifecycle (eg_lifecycle g)) else
         match recovery_unbound_role g (rn_task_ref need) (rn_role_id need) with
         | None => Err (InvalidProposal "recovery role is not unbound")
         | Some u =>
             if negb (bool_decide (ub_previous_node_id u = rn_current_node_id need))
             then Err (InvalidProposal "recovery need no longer matches the blocked group role") else Ok role
         end) with
  | Err e => ([], Err e)
  | Ok role =>
      let nodes := sn_node_id <$> List.filter (recovery_candidate rd need (tk_mission_id requirement) role
                                                 operation stopped takeover now) (rd_nodes rd) in
      ([RecoveryCandidatesMatched (rn_group_id need) (rn_task_ref need) (rn_role_id need) nodes],
       Ok (MkRecoveryMatch stopped
             (MkRecoveryCandidates (rn_group_id need) (rn_task_ref need) (rn_role_id need)
                (rn_current_node_id need) nodes) operation takeover))
  end.

Definition match_recovery_candidates (rd : NodeReader) (need : RoleRecoveryNeed)
    (requirement : TaskRequirement) (now : TimestampMs) : MatchRun RecoveryMatch :=
  match_recovery_candidates_with_operation rd need requirement None false None now.
Definition match_recovery_candidates_for_operation (rd : NodeReader) (need : RoleRecoveryNeed)
    (requirement : TaskRequirement) (operation : OperationRef) (now : TimestampMs)
  : MatchRun RecoveryMatch :=
  match_recovery_candidates_with_operation rd need requirement (Some operation) false None now.
Definition match_stopped_recovery_candidates_for_operation (rd : NodeReader) (need : RoleRecoveryNeed)
    (requirement : TaskRequirement) (operation : OperationRef) (now : TimestampMs)
  : MatchRun RecoveryMatch :=
  match_recovery_candidates_with_operation rd need requirement (Some operation) true None now.
Definition match_stopped_actor_takeover_candidates_for_operation (rd : NodeReader)
    (need : RoleRecoveryNeed) (requirement : TaskRequirement) (operation : OperationRef)
    (a : ActorTakeoverAuthorization) (now : TimestampMs) : MatchRun RecoveryMatch :=
  match validate_actor_takeover control need requirement a with
  | Err e => ([], Err e)
  | Ok _ => match_recovery_candidates_with_operation rd need requirement (Some operation) true (Some a) now
  end.

Definition recovery_selection_check (rd : NodeReader) (candidates : RecoveryMatch)
    (requirement : TaskRequirement) (selected : NodeId) (resources : list ResourceId)
  : Result unit ControlError :=
  if negb (node_tenant_allowed control (tk_mission_id requirement) selected)
  then Err (InvalidProposal "recovery candidate belongs to another tenant") else
  let? g := find_group control (rcd_group_id candidates) in
  let? role := recovery_role g requirement (rcd_task_ref candidates) (rcd_role_id candidates) in
  if negb (bool_decide (eg_lifecycle g = GlBlocked)) then Err (InvalidLifecycle (eg_lifecycle g)) else
  if is_none (recovery_unbound_role g (rcd_task_ref candidates) (rcd_role_id candidates))
  then Err (InvalidProposal "recovery candidates do not match the blocked group role") else
  if (bool_decide (selected = rcd_previous_node_id candidates) && negb (rcd_stopped_owner_allowed candidates))
     || negb (bool_decide (selected ∈ rcd_candidate_node_ids candidates))
  then Err (InvalidProposal ("scheduler-selected node " ++ as_str selected ++ " is not a recovery candidate")) else
  match rd_node rd selected with
  | None => Err (UnknownNode selected)
  | Some node =>
      match List.find (fun o => negb (supports_operation (sn_registration node) o))
              (match rcd_operation candidates with Some o => [o] | None => [] end) with
      | Some o => Err (InvalidProposal ("replacement node " ++ as_str selected ++ " no longer supports operation "
                         ++ CapabilityContractRef_to_string (as_legacy_contract o)))
      | None => validate_recovery_resources node role resources
      end
  end.

Definition recovery_proposal (candidates : RecoveryMatch) (selected : NodeId)
    (resources : list ResourceId) : RecoveryAssignmentProposal :=
  MkRecoveryProposal (rcd_stopped_owner_allowed candidates) (rcd_group_id candidates) (rcd_task_ref candidates)
    (rcd_role_id candidates) (rcd_previous_node_id candidates) selected resources (rcd_operation candidates)
    (rcd_actor_takeover candidates).

Definition propose_role_recovery (rd : NodeReader) (candidates : RecoveryMatch)
    (requirement : TaskRequirement) (selected : NodeId) (resources : list ResourceId)
  : MatchRun RecoveryAssignmentProposal :=
  match recovery_selection_check rd candidates requirement selected resources with
  | Err e => ([], Err e)
  | Ok _ => ([RecoveryAssignmentProposed (rcd_group_id candidates) (rcd_task_ref candidates)
                (rcd_role_id candidates) selected resources],
             Ok (recovery_proposal candidates selected resources))
  end.

(** ** Preferences of unbound Tasks: [initial_preferences.rs] *)

Definition preferences_refused (p : MissionPlan) (task : PlannedTask)
    (preferences : InitialCandidatePreferences) : bool :=
  existsb (fun kv : MissionId * ActorId * ActorBinding => bool_decide (kv.1.1 = mp_mission_id p))
    (btree_iter (cp_actor_bindings control))
  || existsb (fun g => bool_decide (eg_mission_id g = mp_mission_id p)
        && existsb (fun t => negb (one_of [TlPending; TlReady] (te_lifecycle t)))
             (btree_values (eg_task_executions g))) (btree_values (cp_groups control))
  || existsb (fun role => negb (existsb (fun r => bool_decide (rq_role_id r = role)) (pt_roles task)))
       (btree_keys (icp_priorities preferences)).

Definition set_initial_candidate_preferences (p : MissionPlan) (preferences : InitialCandidatePreferences)
  : MatchPlane * Result unit ControlError :=
  match find_planned p (icp_task_ref preferences) with
  | None => (m, Err (InvalidProposal "initial preferences reference another plan"))
  | Some task =>
      if preferences_refused p task preferences
      then (m, Err (InvalidProposal "initial preferences require an unbound exact Task/Role scope")) else
      match mx_initial_candidate_preferences m !! icp_task_ref preferences with
      | Some existing =>
          if bool_decide (existing = preferences) then (m, Ok tt)
          else (m, Err (InvalidProposal "initial preference evidence is immutable"))
      | None =>
          (MkMatchPlane (mx_evidence m) (mx_leases m) (mx_node_sessions m) (mx_max_status_age_ms m)
             (<[icp_task_ref preferences := preferences]> (mx_initial_candidate_preferences m)), Ok tt)
      end
  end.

(** [bind_task_execution_validated] on the whole plane: a Bind ends the preferences of the
    Mission. *)
Definition bind_task_execution_current (group : ExecutionGroupId) (plan : CommittedPlan)
  : option (MatchPlane * Result TaskExecution ControlError) :=
  step ← bind_task_execution_validated control group plan;
  Some match step with
       | (c, Err e) => (put_control c m, Err e)
       | (c, Ok execution) =>
           (MkMatchPlane (set_control c (mx_evidence m)) (mx_leases m) (mx_node_sessions m)
              (mx_max_status_age_ms m)
              (filter (fun kv : TaskRef * InitialCandidatePreferences =>
                         tr_mission_id kv.1 <> tr_mission_id (pl_task_ref plan))
                 (mx_initial_candidate_preferences m)), Ok execution)
       end.
End Commit.
End State.
