(* ===== verification/MatchingFacts.v ===== *)
(** * Facts about matching

    The specification [admissible] of a candidate and what each stage of matching keeps of it. *)

From S2P Require Import Prelude Identity Execution StateModel Session Resource RelationSpec DecisionPolicy.
From S2P Require Import SchedulerPolicy Sorting Quota NodeIdentity NodeState Capacity NodeAuthority.
From S2P Require Import Mission TaskExecution Group ControlPlane Actors GroupLifecycle GroupBinding RoleRecovery.
From S2P Require Import Topology Registries Evidence Eligibility Matching Scheduler.
From Stdlib Require Import FunctionalExtensionality.

Open Scope list_scope.

Lemma elem_of_bool_filter {A} (p : A -> bool) (l : list A) x : x ∈ List.filter p l <-> x ∈ l /\ p x = true.
Proof. rewrite !list_elem_of_In. apply List.filter_In. Qed.

Lemma find_key {A K} `{EqDecision K} (key : A -> K) (l : list A) k x :
  List.find (fun y => bool_decide (key y = k)) l = Some x -> x ∈ l /\ key x = k.
Proof. intros [Hx He%bool_decide_eq_true]%List.find_some. by rewrite list_elem_of_In. Qed.

Lemma find_key_none {A K} `{EqDecision K} (key : A -> K) (l : list A) k :
  List.find (fun y => bool_decide (key y = k)) l = None <-> k ∉ key <$> l.
Proof.
  rewrite list_elem_of_fmap. split.
  - intros Hn (x & -> & Hx%list_elem_of_In). pose proof (List.find_none _ _ Hn _ Hx) as H. simpl in H.
    by rewrite bool_decide_eq_true_2 in H.
  - intros Hn. destruct (List.find _ l) as [x|] eqn:E; [|done]. apply find_key in E as [Hx <-]. by destruct Hn; exists x.
Qed.

(** ** Requirements equal by value are available together *)

Lemma f64_zero_fields bits : f64_is_zero bits = true -> f64_exponent bits = 0%N /\ f64_mantissa bits = 0%N.
Proof.
  intros Hz%N.eqb_eq. split.
  - unfold f64_exponent. change 2047%N with (N.shiftr 9223372036854775807 52).
    by rewrite <- N.shiftr_land, Hz.
  - unfold f64_mantissa. change 4503599627370495%N with (N.land 9223372036854775807 4503599627370495).
    by rewrite N.land_assoc, Hz.
Qed.

Lemma f64_eqb_numeric a b : f64_eqb a b = true -> numeric_value (VFloat a) = numeric_value (VFloat b).
Proof.
  unfold f64_eqb. intros [_ [->%N.eqb_eq|[[Ea Ma]%f64_zero_fields [Eb Mb]%f64_zero_fields]%andb_true_iff]%orb_true_iff]
    %andb_true_iff; [done|].
  unfold numeric_value, f64_is_finite, f64_scaled. rewrite Ea, Eb, Ma, Mb.
  change (0 =? 2047)%N with false. change (0 =? 0)%N with true. cbv beta iota zeta. change (Z.of_N 0) with 0%Z.
  rewrite Z.opp_0. by repeat case_match.
Qed.

Lemma f64_eqb_trans_l a b c : f64_eqb a b = true -> f64_eqb c a = f64_eqb c b.
Proof.
  unfold f64_eqb. intros [[-> ->]%andb_true_iff H]%andb_true_iff. f_equal.
  apply orb_true_iff in H as [->%N.eqb_eq|[Ha Hb]%andb_true_iff]; [done|]. rewrite Ha, Hb, !andb_true_r.
  assert (forall x, f64_is_zero x = true -> (c =? x)%N || f64_is_zero c = f64_is_zero c) as Hc; [|by rewrite !Hc].
  intros x Hx. destruct (N.eqb_spec c x) as [->|]; [by rewrite Hx|done].
Qed.

Lemma ExecutionValue_eqb_same v w actual : ExecutionValue_eqb v w = true ->
  ExecutionValue_eqb actual v = ExecutionValue_eqb actual w /\ numeric_value v = numeric_value w.
Proof.
  destruct v, w; simpl; intros E; try done.
  - apply Bool.eqb_prop in E as ->. done.
  - apply Z.eqb_eq in E as ->. done.
  - split; [|by apply f64_eqb_numeric]. destruct actual; simpl; [done..| |done]. by apply f64_eqb_trans_l.
  - apply String.eqb_eq in E as ->. done.
Qed.

Lemma is_satisfied_by_eqb c d actual : CapabilityConstraint_eqb c d = true ->
  is_satisfied_by c actual = is_satisfied_by d actual.
Proof.
  unfold CapabilityConstraint_eqb, is_satisfied_by, compare_numbers. intros H. bool_facts.
  destruct (ExecutionValue_eqb_same (cc_value c) (cc_value d) actual) as [-> ->]; [done|].
  by match goal with H : cc_operator c = _ |- _ => rewrite H end.
Qed.

Lemma available_eqb r a b : CapabilityRequirement_eqb a b = true ->
  capability_requirement_is_available r a = capability_requirement_is_available r b.
Proof.
  unfold CapabilityRequirement_eqb, capability_requirement_is_available. intros H. bool_facts.
  match goal with H : cr_contract a = _ |- _ => rewrite H end. f_equal.
  match goal with H : list_eqb _ _ _ = true |- _ => revert H end.
  generalize (cr_constraints b). induction (cr_constraints a) as [|c l IH]; intros [|d l'] Hl; simpl in *; try done.
  apply andb_true_iff in Hl as [Hc Hl]. rewrite (IH _ Hl). f_equal.
  assert (cc_attribute c = cc_attribute d) as ->.
  { unfold CapabilityConstraint_eqb in Hc. bool_facts. by apply String.eqb_eq. }
  destruct (_ ≫= _) as [actual|]; simpl; [|done]. by apply is_satisfied_by_eqb.
Qed.

(** ** The needs of an Actor over its whole plan *)

Lemma push_new_forall {A} (eqb : A -> A -> bool) (p : A -> bool) l x :
  (forall y, eqb x y = true -> p x = p y) ->
  forallb p (push_new eqb l x) = forallb p l && p x.
Proof.
  intros Hp. unfold push_new. destruct (existsb _ l) eqn:E.
  - apply existsb_exists in E as (y & Hy & E). destruct (forallb p l) eqn:F; [|done]. simpl.
    rewrite forallb_forall in F. symmetry. rewrite (Hp _ E). by apply F.
  - rewrite forallb_app. simpl. by rewrite andb_true_r.
Qed.

Lemma foldl_push_forall {A} (eqb : A -> A -> bool) (p : A -> bool) news l :
  (forall x y, eqb x y = true -> p x = p y) ->
  forallb p (foldl (push_new eqb) l news) = forallb p l && forallb p news.
Proof.
  intros Hp. revert l. induction news as [|x news IH]; intros l; simpl; [by rewrite andb_true_r|].
  rewrite IH, push_new_forall by auto. by rewrite andb_assoc.
Qed.

Section Needs.
Context (p : MissionPlan) (actor : ActorId) (r : NodeRegistration).

(** Every Role of the Actor in the plan is served by the registration. *)
Definition serves_plan : Prop :=
  forall task role, (task, role) ∈ planned_roles p -> rq_actor_id role = Some actor ->
    forallb (capability_requirement_is_available r) (capability_requirements role) = true /\
    forall intent, pt_execution_intents task !! rq_role_id role = Some intent ->
      supports_operation r (intent_operation intent) = true.

Definition acts (entry : PlannedTask * RoleRequirement) : bool := bool_decide (rq_actor_id entry.2 = Some actor).

Lemma foldl_actor {A} (step : gmap ActorId (list A) -> PlannedTask * RoleRequirement -> gmap ActorId (list A))
    (p0 : A -> bool) (need : PlannedTask * RoleRequirement -> bool) l :
  (forall m e, acts e = false -> step m e !! actor = m !! actor) ->
  (forall m e, acts e = true -> exists l', step m e !! actor = Some l' /\
     forallb p0 l' = forallb p0 (default [] (m !! actor)) && need e) ->
  forall m, match foldl step m l !! actor with
  | Some l' => (is_Some (m !! actor) \/ existsb acts l = true) /\
      forallb p0 l' = forallb p0 (default [] (m !! actor)) && forallb (fun e => negb (acts e) || need e) l
  | None => m !! actor = None /\ existsb acts l = false
  end.
Proof.
  intros Hskip Hstep. induction l as [|e l IH]; intros m; simpl.
  { destruct (m !! actor); simpl; [|done]. rewrite andb_true_r. eauto. }
  specialize (IH (step m e)). destruct (acts e) eqn:Ee; simpl.
  - destruct (Hstep m e Ee) as (l' & E & Hl). rewrite E in IH. simpl in IH. rewrite Hl in IH.
    destruct (foldl step (step m e) l !! actor) as [final|]; [|by destruct IH].
    destruct IH as [_ ->]. split; [by right|]. by rewrite andb_assoc.
  - rewrite (Hskip m e Ee) in IH. done.
Qed.

Lemma actor_requirements_lookup :
  match actor_requirements p !! actor with
  | Some l => existsb acts (planned_roles p) = true /\
      forallb (capability_requirement_is_available r) l
        = forallb (fun e => negb (acts e) || forallb (capability_requirement_is_available r)
                                               (capability_requirements e.2)) (planned_roles p)
  | None => existsb acts (planned_roles p) = false
  end.
Proof.
  unfold actor_requirements.
  unshelve epose proof (foldl_actor (fun requirements entry =>
    match rq_actor_id entry.2 with
    | None => requirements
    | Some actor =>
        <[actor := foldl (push_new CapabilityRequirement_eqb) (default [] (requirements !! actor))
                     (capability_requirements entry.2)]> requirements
    end) (capability_requirement_is_available r)
    (fun e => forallb (capability_requirement_is_available r) (capability_requirements e.2)) (planned_roles p) _ _ ∅) as Hf.
  - unfold acts. intros m e He. bool_facts. destruct (rq_actor_id e.2) as [a|]; [|done].
    rewrite lookup_insert_ne; [done|]. by intros ->.
  - unfold acts. intros m e He. bool_facts. rewrite He, lookup_insert_eq. eexists. split; [done|].
    apply foldl_push_forall. intros x y. apply available_eqb.
  - rewrite lookup_empty in Hf. destruct (foldl _ _ _ !! actor); simpl in Hf.
    + destruct Hf as [[[? [=]]|Hex] Hl]. by split.
    + apply Hf.
Qed.

Lemma actor_operations_lookup :
  match actor_operations p !! actor with
  | Some l => existsb acts (planned_roles p) = true /\
      forallb (supports_operation r) l
        = forallb (fun e => negb (acts e) || is_none_or (fun i => supports_operation r (intent_operation i))
                                               (pt_execution_intents e.1 !! rq_role_id e.2)) (planned_roles p)
  | None => existsb acts (planned_roles p) = false
  end.
Proof.
  unfold actor_operations.
  unshelve epose proof (foldl_actor (fun operations entry =>
    match rq_actor_id entry.2 with
    | None => operations
    | Some actor =>
        let known := default [] (operations !! actor) in
        <[actor := match pt_execution_intents entry.1 !! rq_role_id entry.2 with
                   | Some intent => push_new (fun x y => bool_decide (x = y)) known (intent_operation intent)
                   | None => known
                   end]> operations
    end) (supports_operation r)
    (fun e => is_none_or (fun i => supports_operation r (intent_operation i))
                (pt_execution_intents e.1 !! rq_role_id e.2)) (planned_roles p) _ _ ∅) as Hf.
  - unfold acts. intros m e He. bool_facts. destruct (rq_actor_id e.2) as [a|]; [|done]. simpl.
    rewrite lookup_insert_ne; [done|]. by intros ->.
  - unfold acts. intros m e He. bool_facts. rewrite He. simpl. rewrite lookup_insert_eq. eexists. split; [done|].
    destruct (pt_execution_intents e.1 !! _); simpl; [|by rewrite andb_true_r].
    apply push_new_forall. by intros y ->%bool_decide_eq_true.
  - rewrite lookup_empty in Hf. destruct (foldl _ _ _ !! actor); simpl in Hf.
    + destruct Hf as [[[? [=]]|Hex] Hl]. by split.
    + apply Hf.
Qed.
End Needs.

(** ** Readers *)

(** Snapshots are listed once, under their own identity. *)
Definition reader_ok (rd : NodeReader) : Prop :=
  forall node s, rd_node rd node = Some s <-> s ∈ rd_nodes rd /\ sn_node_id s = node.

Lemma decision_state_ok state records : map_Forall (fun node s => sn_node_id s = node) state ->
  reader_ok (decision_state state records).
Proof.
  intros Hs node s. simpl. rewrite elem_of_btree_values. split.
  - intros Hn. split; [eauto|by apply Hs].
  - intros [[k Hk] <-]. by rewrite (Hs _ _ Hk).
Qed.

Lemma TenantState_ok rd allowed : reader_ok rd -> reader_ok (TenantState rd allowed).
Proof.
  intros Hr node s. simpl. rewrite elem_of_bool_filter. specialize (Hr node s).
  destruct (allowed_node allowed node) eqn:E.
  - rewrite Hr. split; [intros [? <-]|intros [[? _] ?]]; auto.
  - split; [done|]. intros [[_ Ha] <-]. congruence.
Qed.

Lemma filter_filter_same {A} (p : A -> bool) l : List.filter p (List.filter p l) = List.filter p l.
Proof. induction l as [|x l IH]; simpl; [done|]. destruct (p x) eqn:E; simpl; [|done]. by rewrite E, IH. Qed.

Lemma tenant_state_idem c rd mission :
  tenant_state c (tenant_state c rd mission) mission = tenant_state c rd mission.
Proof.
  unfold tenant_state, TenantState. simpl. rewrite !filter_filter_same. f_equal.
  apply functional_extensionality. intros node. by destruct (allowed_node _ node).
Qed.

(** ** The specification of a candidate *)

(** The list has exactly the Nodes with the property, and one of them; a refusal means there is none. *)
Definition answers (P : NodeId -> Prop) (r : Result (list NodeId) ControlError) : Prop :=
  match r with
  | Ok nodes => nodes <> [] /\ forall node, node ∈ nodes <-> P node
  | Err _ => forall node, ~ P node
  end.

Lemma answers_iff (P Q : NodeId -> Prop) r : (forall node, P node <-> Q node) -> answers P r <-> answers Q r.
Proof.
  intros HPQ. destruct r as [nodes|e]; simpl; [|by setoid_rewrite HPQ]. split; intros [Hne Hn]; split; [done| |done|];
    intros node; rewrite Hn; [|symmetry]; apply HPQ.
Qed.

Section Spec.
Context `{Serde, PolicyCodec, StateCodec} (m : MatchPlane) (rd : NodeReader) (mission : MissionPlan).
Context (mission_id : MissionId) (context : CoordinationContextId) (now : TimestampMs).

Abbreviation c := (mx_control m).

(** Where an Actor that is bound, grounded or constrained must be. *)
Definition placed (role : RoleRequirement) (node : NodeId) : Prop :=
  match rq_actor_id role with
  | None => True
  | Some actor =>
      match actor_binding c mission_id actor with
      | Some b => node = ab_node_id b
      | None =>
          match (semantics ← mission_binding_semantics c mission_id; grounding semantics actor) with
          | Some entity => physical_entity_node c entity = Some node
          | None => match actor_node_constraint c mission_id actor with
                    | Some k => node = anc_node_id k
                    | None => True
                    end
          end
      end
  end.

(** No distinct peer is bound to the entity the Node routes. *)
Definition distinct_free (actor : ActorId) (node : NodeId) : Prop :=
  forall semantics peer b entity,
    mission_binding_semantics c mission_id = Some semantics ->
    peer ∈ distinct_peers semantics context actor ->
    actor_binding c mission_id peer = Some b -> ab_physical_entity_id b = Some entity ->
    exists registry r, cp_physical_entity_registry c = Some registry /\
      entity_for_node registry node = Some r /\ pe_entity_id r <> entity.

Record admissible (role : RoleRequirement) (operation : OperationRef) (node : NodeId) : Prop := {
  ad_eligible : node_is_eligible_for_role_operation m rd node role operation now = true;
  ad_placed : placed role node;
  ad_restriction : forall actor k, rq_actor_id role = Some actor ->
    actor_candidate_restriction c mission_id actor = Some k -> node ∈ acr_allowed_nodes k;
  ad_distinct : forall actor, rq_actor_id role = Some actor -> distinct_free actor node;
  ad_first_use : forall actor s, rq_actor_id role = Some actor -> actor_binding c mission_id actor = None ->
    rd_node rd node = Some s ->
    (forall k, actor_node_constraint c mission_id actor = Some k -> anc_node_id k = node) /\
    serves_plan mission actor (sn_registration s)
}.

Lemma eligible_registered role node :
  node_is_eligible_for_role m rd node role now = true -> is_Some (rd_node rd node).
Proof. unfold node_is_eligible_for_role, node_role_exclusion. destruct (rd_node rd node); [eauto|done]. Qed.

Context (Hrd : reader_ok rd).

Lemma elem_of_eligible_nodes role node :
  node ∈ eligible_nodes m rd role now <-> node_is_eligible_for_role m rd node role now = true.
Proof.
  unfold eligible_nodes. rewrite list_elem_of_fmap. setoid_rewrite elem_of_bool_filter. split.
  - by intros (s & -> & _ & He).
  - intros He. destruct (eligible_registered _ _ He) as [s Hs]. apply Hrd in Hs as [Hs <-]. eauto.
Qed.

Lemma open_candidates_answers role :
  match open_candidates m rd role now with
  | Ok set => rcs_role_id set = rq_role_id role /\ rcs_node_ids set <> [] /\
      forall node, node ∈ rcs_node_ids set <-> node_is_eligible_for_role m rd node role now = true
  | Err _ => forall node, node_is_eligible_for_role m rd node role now = false
  end.
Proof.
  unfold open_candidates. pose proof (elem_of_eligible_nodes role) as He.
  destruct (eligible_nodes m rd role now) as [|n l].
  - intros node. apply not_true_iff_false. rewrite <- He. apply not_elem_of_nil.
  - simpl. done.
Qed.

Definition starts_with (role : RoleRequirement) (node : NodeId) : Prop :=
  placed role node /\ node_is_eligible_for_role m rd node role now = true.

Lemma pinned_answers role node error :
  (forall n, placed role n <-> n = node) ->
  match pinned m rd role now node error with
  | Ok set => rcs_role_id set = rq_role_id role /\ rcs_node_ids set <> [] /\
      forall n, n ∈ rcs_node_ids set <-> starts_with role n
  | Err _ => forall n, ~ starts_with role n
  end.
Proof.
  intros Hp. unfold pinned, starts_with. destruct (node_is_eligible_for_role _ _ _ _ _) eqn:E; simpl.
  - split_and!; [done..|]. intros n. rewrite Hp, list_elem_of_singleton. split; [intros ->|intros [-> _]]; auto.
  - intros n [->%Hp Hn]. congruence.
Qed.

Lemma bound_candidates_answers role :
  match bound_candidates m rd mission_id role now with
  | Ok set => rcs_role_id set = rq_role_id role /\ rcs_node_ids set <> [] /\
      forall node, node ∈ rcs_node_ids set <-> starts_with role node
  | Err _ => forall node, ~ starts_with role node
  end.
Proof.
  assert ((forall n, placed role n) -> match open_candidates m rd role now with
    | Ok set => rcs_role_id set = rq_role_id role /\ rcs_node_ids set <> [] /\
        forall node, node ∈ rcs_node_ids set <-> starts_with role node
    | Err _ => forall node, ~ starts_with role node end) as Hopen.
  { intros Hp. pose proof (open_candidates_answers role) as Ho. destruct (open_candidates _ _ _ _).
    - destruct Ho as (? & ? & Ho). split_and!; [done..|]. intros node. rewrite Ho. unfold starts_with. naive_solver.
    - intros node [_ Hn]. by rewrite Ho in Hn. }
  unfold bound_candidates. destruct (rq_actor_id role) as [actor|] eqn:Ea; [|apply Hopen; intros n; by unfold placed; rewrite Ea].
  destruct (actor_binding c mission_id actor) as [b|] eqn:Eb.
  { apply pinned_answers. intros n. unfold placed. by rewrite Ea, Eb. }
  destruct (mission_binding_semantics c mission_id ≫= fun s => grounding s actor) as [entity|] eqn:Eg.
  - assert (grounded_actor_node c mission_id actor = physical_entity_node c entity) as Eq.
    { unfold grounded_actor_node. destruct (mission_binding_semantics c mission_id) as [s|]; [|done].
      simpl in Eg |- *. by rewrite Eg. }
    assert (forall n, placed role n <-> physical_entity_node c entity = Some n) as Hp.
    { intros n. unfold placed. by rewrite Ea, Eb, Eg. }
    simpl. rewrite Eq. destruct (physical_entity_node c entity) as [node|] eqn:En; simpl.
    + apply pinned_answers. intros n. rewrite Hp. naive_solver.
    + by intros n [?%Hp ?].
  - assert (grounded_actor_node c mission_id actor = None) as Eq.
    { unfold grounded_actor_node. destruct (mission_binding_semantics c mission_id) as [s|]; [|done].
      simpl in Eg |- *. by rewrite Eg. }
    simpl. rewrite Eq. destruct (actor_node_constraint c mission_id actor) as [k|] eqn:Ek.
    + apply pinned_answers. intros n. unfold placed. by rewrite Ea, Eb, Eg, Ek.
    + apply Hopen. intros n. unfold placed. by rewrite Ea, Eb, Eg, Ek.
Qed.

(** ** Distinct peers *)

Definition occupies (peer : ActorId) (entity : PhysicalEntityId) : Prop :=
  bound_entity m mission_id peer = Some entity.

Lemma occupied_entities_lookup peers entity :
  is_Some (occupied_entities m mission_id peers !! entity) <-> exists peer, peer ∈ peers /\ occupies peer entity.
Proof.
  unfold occupied_entities.
  assert (forall l (acc : gmap PhysicalEntityId ActorId),
    is_Some (foldl (fun occupied peer =>
      match bound_entity m mission_id peer with
      | Some e => <[e := peer]> occupied | None => occupied end) acc l !! entity)
    <-> is_Some (acc !! entity) \/ exists peer, peer ∈ l /\ occupies peer entity) as Hl.
  { induction l as [|x l IH]; intros acc; simpl.
    { split; [by left|]. intros [?|(p & ?%not_elem_of_nil & _)]; done. }
    rewrite IH. setoid_rewrite elem_of_cons. destruct (bound_entity m mission_id x) as [e|] eqn:E.
    - destruct (decide (e = entity)) as [->|Hne].
      + rewrite lookup_insert_eq. split; [|by left]. intros _. right. exists x. unfold occupies. eauto.
      + rewrite lookup_insert_ne by done. unfold occupies. naive_solver.
    - unfold occupies. naive_solver. }
  rewrite Hl, lookup_empty. setoid_rewrite elem_of_bset_iter. split; [intros [[? [=]]|?]|]; eauto.
Qed.

Lemma distinct_free_iff actor node semantics :
  mission_binding_semantics c mission_id = Some semantics ->
  distinct_free actor node <->
  forall entity, is_Some (occupied_entities m mission_id (distinct_peers semantics context actor) !! entity) ->
    exists registry r, cp_physical_entity_registry c = Some registry /\
      entity_for_node registry node = Some r /\ pe_entity_id r <> entity.
Proof.
  intros Es. unfold distinct_free. split.
  - intros Hd entity (peer & Hp & (b & Hb & He)%bind_Some)%occupied_entities_lookup. by eapply Hd.
  - intros Hd s peer b entity Es' Hp Hb He. assert (s = semantics) as -> by congruence.
    apply Hd, occupied_entities_lookup. exists peer. split; [done|]. unfold occupies, bound_entity. by rewrite Hb.
Qed.

Lemma retain_distinct_answers actor nodes : nodes <> [] ->
  answers (fun node => node ∈ nodes /\ distinct_free actor node)
    (retain_distinct_binding_candidates m mission_id context actor nodes).
Proof.
  intros Hne. unfold retain_distinct_binding_candidates.
  destruct (mission_binding_semantics c mission_id) as [semantics|] eqn:Es.
  2:{ simpl. split; [done|]. intros node. split; [|by intros []]. intros Hn. split; [done|].
      intros s peer b entity Es'. congruence. }
  set (occupied := occupied_entities m mission_id (distinct_peers semantics context actor)).
  destruct (btree_iter occupied) as [|[entity peer] rest] eqn:Eo.
  { split; [done|]. intros node. split; [|by intros []]. intros Hn. split; [done|].
    apply (distinct_free_iff _ _ _ Es). intros e [p Hp]. fold occupied in Hp. apply elem_of_btree_iter in Hp.
    rewrite Eo in Hp. by apply not_elem_of_nil in Hp. }
  assert (is_Some (occupied !! entity)) as Hfirst.
  { exists peer. apply elem_of_btree_iter. rewrite Eo. left. }
  destruct (cp_physical_entity_registry c) as [registry|] eqn:Er.
  2:{ intros node [_ Hd]. pose proof (proj1 (distinct_free_iff actor node semantics Es) Hd) as Hd'.
      destruct (Hd' entity Hfirst) as (registry & _ & Er' & _). congruence. }
  assert (forall node, distinct_free actor node <->
    is_some_and (fun r => negb (contains_key (pe_entity_id r) occupied)) (entity_for_node registry node) = true) as Hd.
  { intros node. rewrite (distinct_free_iff _ _ _ Es), Er, is_some_and_true. fold occupied. split.
    - intros Hd. destruct (Hd entity Hfirst) as (reg & r & [= <-] & Hr & _). exists r. split; [done|].
      apply negb_true_iff, contains_key_false, eq_None_not_Some. intros Hs.
      destruct (Hd _ Hs) as (reg & r' & [= <-] & Hr' & Hne'). congruence.
    - intros (r & Hr & Hno) e He. bool_facts. exists registry, r. split_and!; [done..|]. intros <-.
      destruct He. congruence. }
  set (kept := List.filter _ nodes).
  assert (forall node, node ∈ kept <-> node ∈ nodes /\ distinct_free actor node) as Hkept.
  { intros node. unfold kept. by rewrite elem_of_bool_filter, Hd. }
  destruct kept as [|n l]; simpl; [|done]. intros node Hn. apply Hkept in Hn. by apply not_elem_of_nil in Hn.
Qed.

(** ** First use *)

Lemma eligible_operation_iff role operation node :
  node_is_eligible_for_role_operation m rd node role operation now = true <->
  node_role_exclusion m rd node role now = None /\
  decision_gates_allow m now rd node role (Some operation) Match = true /\
  exists s, rd_node rd node = Some s /\ supports_operation (sn_registration s) operation = true /\
    owner_serves_memories (sn_registration s) role operation = true.
Proof.
  unfold node_is_eligible_for_role_operation, node_is_eligible_for_role.
  rewrite !andb_true_iff, is_some_and_true. setoid_rewrite andb_true_iff.
  destruct (node_role_exclusion _ _ _ _ _); simpl; naive_solver.
Qed.

Lemma serves_plan_iff actor r :
  serves_plan mission actor r <->
  forallb (fun e => negb (acts actor e) || forallb (capability_requirement_is_available r)
                                             (capability_requirements e.2)) (planned_roles mission) = true /\
  forallb (fun e => negb (acts actor e) || is_none_or (fun i => supports_operation r (intent_operation i))
                       (pt_execution_intents e.1 !! rq_role_id e.2)) (planned_roles mission) = true.
Proof.
  rewrite !forallb_forall. setoid_rewrite <- list_elem_of_In. unfold serves_plan, acts. split.
  - intros Hs. split; intros [task role] Hin; simpl; (destruct (decide (rq_actor_id role = Some actor)) as [Ha|Hn];
      [|by rewrite bool_decide_eq_false_2]); rewrite bool_decide_eq_true_2 by done; simpl;
      destruct (Hs _ _ Hin Ha) as [Hc Ho]; [done|]. apply is_none_or_true. by apply Ho.
  - intros [Hc Ho] task role Hin Ha. specialize (Hc _ Hin). specialize (Ho _ Hin). simpl in *.
    rewrite bool_decide_eq_true_2 in Hc, Ho by done. simpl in *. split; [done|]. by apply is_none_or_true.
Qed.

Lemma first_use_iff role operation node actor s :
  rq_actor_id role = Some actor -> is_Some (actor_requirements mission !! actor) ->
  rd_node rd node = Some s ->
  node_is_eligible_for_role_operation m rd node role operation now = true ->
  is_none (first_use_node_exclusion m rd mission_id role operation (actor_requirements mission)
             (actor_operations mission) now node) = true <->
  deployment_refuses m mission_id actor node = false /\ serves_plan mission actor (sn_registration s).
Proof.
  intros Ea Hreq Hs (Hx & Hg & s' & Hs' & Ho & _)%eligible_operation_iff.
  assert (s' = s) as -> by congruence.
  unfold first_use_node_exclusion. rewrite Hx, Ea, Hs, Ho, Hg. simpl.
  rewrite serves_plan_iff.
  pose proof (actor_requirements_lookup mission actor (sn_registration s)) as HR.
  pose proof (actor_operations_lookup mission actor (sn_registration s)) as HO.
  destruct Hreq as [l El]. rewrite El in HR |- *. destruct HR as [Hex <-].
  destruct (actor_operations mission !! actor) as [ops|]; [|congruence]. destruct HO as [_ <-]. simpl.
  destruct (deployment_refuses m mission_id actor node); [by naive_solver|].
  destruct (forallb (capability_requirement_is_available _) l); simpl; [|by naive_solver].
  destruct (forallb (supports_operation _) ops); simpl; naive_solver.
Qed.

Lemma deployment_refuses_false actor node :
  deployment_refuses m mission_id actor node = false <->
  (forall k, actor_candidate_restriction c mission_id actor = Some k -> node ∈ acr_allowed_nodes k) /\
  (forall k, actor_node_constraint c mission_id actor = Some k -> anc_node_id k = node).
Proof.
  unfold deployment_refuses. rewrite orb_false_iff, !is_some_and_false.
  setoid_rewrite negb_false_iff. unfold set_contains. by setoid_rewrite bool_decide_eq_true.
Qed.
End Spec.

(** ** Matching of a Mission *)

Definition entry_of (sets : list RoleCandidates) (role : RoleId) : option RoleCandidates :=
  List.find (fun s => bool_decide (rcs_role_id s = role)) sets.

Lemma update_role_ids role nodes sets : rcs_role_id <$> update_role role nodes sets = rcs_role_id <$> sets.
Proof.
  induction sets as [|s sets IH]; simpl; [done|]. case_bool_decide as E; simpl; [by rewrite E|]. by f_equal.
Qed.

Lemma update_role_same role nodes sets : is_Some (entry_of sets role) ->
  entry_of (update_role role nodes sets) role = Some (MkRoleCandidates role nodes).
Proof.
  unfold entry_of. induction sets as [|s sets IH]; simpl; [by intros []|].
  case_bool_decide as E; simpl; [by rewrite bool_decide_eq_true_2|]. by rewrite bool_decide_eq_false_2.
Qed.

Lemma update_role_other role other nodes sets : other <> role ->
  entry_of (update_role role nodes sets) other = entry_of sets other.
Proof.
  intros Hne. unfold entry_of. induction sets as [|s sets IH]; simpl; [done|].
  case_bool_decide as E; simpl; [|by rewrite IH]. by rewrite !bool_decide_eq_false_2 by congruence.
Qed.

Lemma match_roles_inv {A} (f : RoleRequirement -> option (MatchRun A)) roles : forall events result,
  match_roles f roles = Some (events, result) ->
  match result with
  | Ok l => Forall2 (fun role x => exists ev, f role = Some (ev, Ok x)) roles l
  | Err e => exists role ev, role ∈ roles /\ f role = Some (ev, Err e)
  end.
Proof.
  induction roles as [|role roles IH]; simpl; intros events result; [by intros [= <- <-]|].
  destruct (f role) as [[ev [x|e]]|] eqn:E; simpl; [|intros [= <- <-]; exists role, ev; split; [left|done]|done].
  destruct (match_roles f roles) as [[later [l|e]]|]; simpl; intros [= <- <-].
  - constructor; [by exists ev|]. exact (IH _ _ eq_refl).
  - destruct (IH _ _ eq_refl) as (r & ev' & Hr & He). exists r, ev'. split; [by right|done].
Qed.

Lemma match_roles_total {A} (f : RoleRequirement -> option (MatchRun A)) roles :
  (forall role, role ∈ roles -> is_Some (f role)) -> is_Some (match_roles f roles).
Proof.
  induction roles as [|role roles IH]; simpl; intros Hf; [by eexists|].
  destruct (Hf role) as [[ev [x|e]] ->]; [left|simpl|by eexists].
  destruct IH as [later ->]; [intros r Hr; apply Hf; by right|by eexists].
Qed.

(** ** Audits

    The digest of the decision registry, on which they panic. *)

Definition gates_encode `{Serde, PolicyCodec} (m : MatchPlane) : bool :=
  match ver_current (vp_decision_policy (mx_evidence m)) with
  | None => true
  | Some registry => is_ok (registry_digest registry)
  end.

Section Audits.
Context `{Serde, PolicyCodec, StateCodec} (m : MatchPlane) (rd : NodeReader) (now : TimestampMs).

Lemma gates_evaluate node role operation decision :
  gates_encode m = is_some (evaluate_decision_gates m now rd node role operation decision).
Proof.
  unfold gates_encode, evaluate_decision_gates, evaluate_decision_registry_gates.
  destruct (ver_current _) as [registry|]; [|done]. by destruct (registry_digest registry).
Qed.

Lemma audit_nodes_total task role operation nodes :
  gates_encode m = true -> is_Some (audit_nodes m rd task role operation now nodes).
Proof.
  intros He. unfold audit_nodes.
  assert (is_Some (mapM (fun node => audit_role_decision m rd task node role operation Match now) nodes))
    as [events ->]; [|by eexists].
  apply mapM_is_Some, Forall_forall. intros node _. unfold audit_role_decision, compose.
  rewrite (gates_evaluate node role operation Match) in He.
  destruct (evaluate_decision_gates _ _ _ _ _ _ _); [by eexists|done].
Qed.

Lemma audit_nodes_panics task role operation node nodes :
  gates_encode m = false -> audit_nodes m rd task role operation now (node :: nodes) = None.
Proof.
  intros He. unfold audit_nodes, audit_role_decision. simpl.
  rewrite (gates_evaluate node role operation Match) in He.
  by destruct (evaluate_decision_gates _ _ _ _ _ _ _).
Qed.

Lemma audited_found requirement role found events result :
  audited m rd requirement role now found = Some (events, result) -> result = found.
Proof. unfold audited. destruct (audit_nodes _ _ _ _ _ _ _); simpl; congruence. Qed.
End Audits.

Section Narrowing.
Context `{Serde, PolicyCodec, StateCodec} (m : MatchPlane) (rd : NodeReader) (mission : MissionPlan).
Context (requirement : TaskRequirement) (context : CoordinationContextId) (now : TimestampMs).

Abbreviation mission_id := (tk_mission_id requirement).
Abbreviation c := (mx_control m).
Abbreviation candidate := (admissible m rd mission mission_id context now).
Abbreviation narrowed := (narrow_role m rd mission requirement context now).

Lemma nonempty_answers role nodes : answers (fun node => node ∈ nodes) (nonempty role nodes).
Proof. destruct nodes as [|n l]; simpl; [intros node; apply not_elem_of_nil|done]. Qed.

Lemma narrow_role_answers role operation nodes :
  (forall node, node ∈ nodes <-> starts_with m rd mission_id now role node) ->
  (forall actor, rq_actor_id role = Some actor -> is_Some (actor_requirements mission !! actor)) ->
  answers (candidate role operation) (narrowed role operation nodes).
Proof.
  intros Hnodes Hreq. unfold narrow_role.
  set (restricted := match _ with Some k => _ | None => nodes end).
  assert (forall node, node ∈ restricted <-> starts_with m rd mission_id now role node /\
    forall actor k, rq_actor_id role = Some actor ->
      actor_candidate_restriction c mission_id actor = Some k -> node ∈ acr_allowed_nodes k) as Hrestricted.
  { intros node. unfold restricted. destruct (rq_actor_id role) as [actor|] eqn:Ea; simpl.
    - destruct (actor_candidate_restriction c mission_id actor) as [k|] eqn:Ek.
      + rewrite elem_of_bool_filter, Hnodes. unfold set_contains. rewrite bool_decide_eq_true. naive_solver.
      + rewrite Hnodes. naive_solver.
    - rewrite Hnodes. naive_solver. }
  set (usable := List.filter _ restricted).
  assert (forall node, node ∈ usable <-> placed m mission_id role node /\
    node_is_eligible_for_role_operation m rd node role operation now = true /\
    forall actor k, rq_actor_id role = Some actor ->
      actor_candidate_restriction c mission_id actor = Some k -> node ∈ acr_allowed_nodes k) as Husable.
  { intros node. unfold usable. rewrite elem_of_bool_filter, Hrestricted. unfold starts_with.
    split; [naive_solver|]. intros (Hp & He & Hr). split_and!; [done| |done|done].
    apply eligible_operation_iff in He as [He _]. unfold node_is_eligible_for_role. by rewrite He. }
  clearbody usable. clear restricted Hrestricted Hnodes nodes.
  pose proof (nonempty_answers role usable) as Hu. destruct (nonempty role usable) as [nodes|e]; simpl in Hu |- *.
  2:{ intros node [He Hp Hr _ _]. apply (Hu node), Husable. done. }
  destruct Hu as [Hne Hu].
  assert (forall node, node ∈ nodes <-> node ∈ usable) as Hn by done. clear Hu.
  setoid_rewrite Husable in Hn. clear Husable usable.
  destruct (rq_actor_id role) as [actor|] eqn:Ea.
  2:{ split; [done|]. intros node. rewrite Hn. split.
      - intros (Hp & He & _). by split; rewrite ?Ea.
      - intros [He Hp _ _ _]. split_and!; naive_solver. }
  pose proof (retain_distinct_answers m mission_id context actor nodes Hne) as Hd.
  destruct (retain_distinct_binding_candidates _ _ _ _ _) as [distinct|e]; simpl in Hd |- *.
  2:{ intros node [He Hp Hr Hd' _]. apply (Hd node). split; [apply Hn; split_and!; naive_solver|by apply Hd']. }
  destruct Hd as [Hdne Hd]. setoid_rewrite Hn in Hd.
  destruct (actor_binding c mission_id actor) as [b|] eqn:Eb; simpl.
  { split; [done|]. intros node. rewrite Hd. split.
    - intros ((Hp & He & Hr) & Hfree). split; rewrite ?Ea; [done..|naive_solver|intros; congruence].
    - intros [He Hp Hr Hfree _]. split_and!; [done|done|naive_solver|by apply Hfree]. }
  destruct (Hreq actor eq_refl) as [needs Eneeds]. rewrite Eneeds. simpl.
  set (kept := List.filter _ distinct). pose proof (nonempty_answers role kept) as Hk.
  refine (proj1 (answers_iff (fun node => node ∈ kept) _ _ _) Hk). clear Hk. intros node. unfold kept. rewrite elem_of_bool_filter, Hd. split.
  - intros (((Hp & He & Hr) & Hfree) & Hfirst).
    pose proof He as (_ & _ & s & Hs & _)%eligible_operation_iff.
    pose proof (proj1 (first_use_iff _ _ _ _ _ _ _ _ _ _ Ea ltac:(by rewrite Eneeds) Hs He) Hfirst)
      as [[_ Hk]%deployment_refuses_false Hplan].
    split; rewrite ?Ea; [done..|naive_solver|]. intros a s' [= <-] _ Hs'. assert (s' = s) as -> by congruence. done.
  - intros [He Hp Hr Hfree Hfirst]. split_and!; [done|done|naive_solver|by apply Hfree|].
    pose proof He as (_ & _ & s & Hs & _)%eligible_operation_iff. destruct (Hfirst actor s Ea Eb Hs) as [Hk Hplan].
    apply (proj2 (first_use_iff _ _ _ _ _ _ _ _ _ _ Ea ltac:(by rewrite Eneeds) Hs He)). split; [|done].
    apply deployment_refuses_false. split; [|done]. intros k. by apply Hr.
Qed.

Lemma narrow_roles_inv operations roles : NoDup (rq_role_id <$> roles) -> forall sets,
  (forall role, role ∈ roles -> is_Some (operations !! rq_role_id role)) ->
  (forall role, role ∈ roles -> is_Some (entry_of sets (rq_role_id role))) ->
  forall events result, narrow_roles m rd mission requirement context now operations roles sets
    = Some (events, result) ->
  match result with
  | Ok sets' => rcs_role_id <$> sets' = rcs_role_id <$> sets /\
      (forall id, id ∉ rq_role_id <$> roles -> entry_of sets' id = entry_of sets id) /\
      (forall role, role ∈ roles -> exists operation set nodes,
         operations !! rq_role_id role = Some operation /\ entry_of sets (rq_role_id role) = Some set /\
         narrowed role operation (rcs_node_ids set) = Ok nodes /\
         entry_of sets' (rq_role_id role) = Some (MkRoleCandidates (rq_role_id role) nodes))
  | Err e => exists role operation set, role ∈ roles /\ operations !! rq_role_id role = Some operation /\
      entry_of sets (rq_role_id role) = Some set /\ narrowed role operation (rcs_node_ids set) = Err e
  end.
Proof.
  induction roles as [|role roles IH]; intros Hnd sets Hops Hsets; simpl.
  { intros events result [= <- <-]. split_and!; [done..|]. by intros role ?%not_elem_of_nil. }
  apply NoDup_cons in Hnd as [Hni Hnd].
  destruct (Hops role) as [operation Eo]; [left|]. destruct (Hsets role) as [set Es]; [left|].
  rewrite Eo. simpl. unfold entry_of in Es. rewrite Es. simpl.
  destruct (audit_nodes _ _ _ _ _ _ _) as [audit|]; simpl; [|done].
  destruct (narrowed role operation (rcs_node_ids set)) as [nodes|e] eqn:En.
  2:{ intros events result [= <- <-]. exists role, operation, set. split_and!; [left|done..]. }
  assert (forall other, other ∈ roles -> rq_role_id other <> rq_role_id role) as Hne.
  { intros other Ho Eq. apply Hni. apply list_elem_of_fmap. eauto. }
  destruct (narrow_roles _ _ _ _ _ _ _ _ _) as [[later result']|] eqn:Er; simpl; [|done].
  intros events result [= <- <-].
  eapply (IH Hnd (update_role (rq_role_id role) nodes sets)) in Er as Hr.
  2: { intros other Ho. apply Hops. by right. }
  2: { intros other Ho. rewrite update_role_other by auto. apply Hsets. by right. }
  clear Er. destruct result' as [sets'|e].
  - destruct Hr as (Hids & Hother & Hroles). split_and!; [by rewrite Hids, update_role_ids| |].
    + intros id [Hne1 Hid]%not_elem_of_cons.
      by rewrite Hother, update_role_other by done.
    + intros other [->|Ho]%elem_of_cons.
      * exists operation, set, nodes. split_and!; [done..|]. rewrite Hother by done.
        apply update_role_same. exists set. exact Es.
      * destruct (Hroles other Ho) as (o & s & ns & ? & Hs & ? & ?). exists o, s, ns.
        rewrite update_role_other in Hs by auto. done.
  - destruct Hr as (other & o & s & Ho & ? & Hs & ?). exists other, o, s.
    rewrite update_role_other in Hs by auto. split_and!; [by right|done..].
Qed.

Lemma narrow_roles_total operations roles : gates_encode m = true -> NoDup (rq_role_id <$> roles) -> forall sets,
  (forall role, role ∈ roles -> is_Some (operations !! rq_role_id role)) ->
  (forall role, role ∈ roles -> is_Some (entry_of sets (rq_role_id role))) ->
  is_Some (narrow_roles m rd mission requirement context now operations roles sets).
Proof.
  intros He. induction roles as [|role roles IH]; intros Hnd sets Hops Hsets; simpl; [by eexists|].
  apply NoDup_cons in Hnd as [Hni Hnd].
  destruct (Hops role) as [operation ->]; [left|]. destruct (Hsets role) as [set Es]; [left|].
  unfold entry_of in Es. simpl. rewrite Es. simpl.
  destruct (audit_nodes_total m rd now (tk_task_ref requirement) role (Some operation) (rcs_node_ids set) He)
    as [audit ->]. simpl.
  destruct (narrowed role operation (rcs_node_ids set)) as [nodes|e]; [|by eexists].
  destruct (IH Hnd (update_role (rq_role_id role) nodes sets)) as [rest ->]; [..|by eexists].
  { intros other Ho. apply Hops. by right. }
  { intros other Ho. rewrite update_role_other; [apply Hsets; by right|].
    intros Eq. apply Hni, list_elem_of_fmap. eauto. }
Qed.
End Narrowing.

Lemma role_operations_keep task roles id intent : pt_execution_intents task !! id = Some intent ->
  forall known ops, role_operations task known roles = Ok ops -> known !! id = Some (intent_operation intent) ->
  ops !! id = Some (intent_operation intent).
Proof.
  intros Hi. induction roles as [|role roles IH]; simpl; intros known ops E Hk; [by simplify_eq|].
  destruct (pt_execution_intents task !! rq_role_id role) as [i|] eqn:Ei; [|done].
  eapply IH; [exact E|]. destruct (decide (id = rq_role_id role)) as [->|Hne].
  - rewrite lookup_insert_eq. congruence.
  - by rewrite lookup_insert_ne.
Qed.

Lemma role_operations_inv task roles : forall known ops,
  role_operations task known roles = Ok ops -> forall role, role ∈ roles ->
  exists intent, pt_execution_intents task !! rq_role_id role = Some intent /\
    ops !! rq_role_id role = Some (intent_operation intent).
Proof.
  induction roles as [|role roles IH]; simpl; intros known ops E r Hr; [by apply not_elem_of_nil in Hr|].
  destruct (pt_execution_intents task !! rq_role_id role) as [i|] eqn:Ei; [|done].
  apply elem_of_cons in Hr as [->|Hr]; [|by eapply IH].
  exists i. split; [done|]. eapply role_operations_keep; [done|exact E|by rewrite lookup_insert_eq].
Qed.

Lemma role_operations_total task roles : (forall role, role ∈ roles -> is_Some (pt_execution_intents task !! rq_role_id role)) ->
  forall known, exists ops, role_operations task known roles = Ok ops.
Proof.
  induction roles as [|role roles IH]; simpl; intros Hi known; [eauto|].
  destruct (Hi role) as [i ->]; [left|]. apply IH. intros r Hr. apply Hi. by right.
Qed.

Lemma find_planned_elem mission task_ref task : find_planned mission task_ref = Some task ->
  task ∈ tg_tasks (mp_task_graph mission) /\ pt_task_ref task = task_ref.
Proof. apply find_key. Qed.

Lemma planned_role_elem mission task role : task ∈ tg_tasks (mp_task_graph mission) -> role ∈ pt_roles task ->
  (task, role) ∈ planned_roles mission.
Proof.
  intros Ht Hr. apply list_elem_of_bind. exists task. split; [|done]. apply list_elem_of_fmap. eauto.
Qed.

Lemma planned_actor mission task role actor : (task, role) ∈ planned_roles mission -> rq_actor_id role = Some actor ->
  is_Some (actor_requirements mission !! actor).
Proof.
  intros Hin Ha. apply not_eq_None_Some. intros Hnone.
  pose proof (actor_requirements_lookup mission actor
    (NodeRegistration_new (MkId "") (MkLocalRuntime "" "") (MkId "") [] [])) as Hl.
  rewrite Hnone in Hl. apply not_true_iff_false in Hl. destruct Hl. apply existsb_exists. exists (task, role).
  split; [by apply list_elem_of_In|]. by apply bool_decide_eq_true_2.
Qed.

Lemma entry_of_elem sets set : NoDup (rcs_role_id <$> sets) -> set ∈ sets -> entry_of sets (rcs_role_id set) = Some set.
Proof.
  unfold entry_of. induction sets as [|s sets IH]; intros Hnd Hs; [by apply not_elem_of_nil in Hs|].
  apply NoDup_cons in Hnd as [Hni Hnd]. simpl. apply elem_of_cons in Hs as [->|Hs]; [by rewrite bool_decide_eq_true_2|].
  rewrite bool_decide_eq_false_2; [by apply IH|]. intros Eq. apply Hni. apply list_elem_of_fmap. eauto.
Qed.

Section ForMission.
Context `{Serde, PolicyCodec, StateCodec} (m : MatchPlane) (source : NodeReader) (mission : MissionPlan).
Context (requirement : TaskRequirement) (task : PlannedTask) (now : TimestampMs).

Abbreviation mission_id := (tk_mission_id requirement).
Abbreviation c := (mx_control m).
Abbreviation context := (tc_context_id (pt_continuity task)).
Abbreviation scoped := (tenant_state c source mission_id).
Abbreviation candidate := (admissible m scoped mission mission_id context now).

(** The requirement is that of its Task in the accepted plan. *)
Record planned : Prop := {
  pn_mission : mp_mission_id mission = mission_id;
  pn_task : find_planned mission (tk_task_ref requirement) = Some task;
  pn_requirement : pt_requirement task = requirement;
  pn_roles : NoDup (rq_role_id <$> tk_roles requirement);
  pn_intents : forall role, role ∈ tk_roles requirement -> is_Some (pt_execution_intents task !! rq_role_id role)
}.

(** The candidates of every Role are its admissible Nodes. *)
Record exact_candidates (candidates : CandidateSet) : Prop := {
  ec_task : cs_task_ref candidates = tk_task_ref requirement;
  ec_roles : rcs_role_id <$> cs_roles candidates = rq_role_id <$> tk_roles requirement;
  ec_actors : cs_role_actors candidates = role_actor_map (tk_roles requirement);
  ec_groups : cs_distinct_actor_groups candidates
    = default [] ((fun s => distinct_actor_groups s context) <$> mission_binding_semantics c mission_id);
  ec_entities : cs_candidate_entities candidates = candidate_entities m mission_id (cs_roles candidates);
  ec_covered : cs_distinct_actor_groups candidates <> [] -> forall node, node ∈ candidate_nodes (cs_roles candidates) ->
    is_Some (cs_candidate_entities candidates !! node);
  ec_nodes : forall role, role ∈ tk_roles requirement -> exists intent set,
    pt_execution_intents task !! rq_role_id role = Some intent /\
    cs_role_operations candidates !! rq_role_id role = Some (intent_operation intent) /\
    for_role candidates (rq_role_id role) = Some set /\ rcs_node_ids set <> [] /\
    forall node, node ∈ rcs_node_ids set <-> candidate role (intent_operation intent) node
}.

(** Some Role has no admissible Node, or a constrained candidate has no entity. *)
Definition unmatchable : Prop :=
  (exists role, role ∈ tk_roles requirement /\ forall intent node,
     pt_execution_intents task !! rq_role_id role = Some intent -> ~ candidate role (intent_operation intent) node) \/
  (exists role intent node, role ∈ tk_roles requirement /\
     pt_execution_intents task !! rq_role_id role = Some intent /\ candidate role (intent_operation intent) node /\
     (exists s, mission_binding_semantics c mission_id = Some s /\ distinct_actor_groups s context <> []) /\
     (registry ← cp_physical_entity_registry c; entity_for_node registry node) = None).

Context (Hsource : reader_ok source) (Hplan : planned).

Lemma planned_requirements role actor : role ∈ tk_roles requirement -> rq_actor_id role = Some actor ->
  is_Some (actor_requirements mission !! actor).
Proof.
  intros Hr. apply (planned_actor mission task). destruct (find_planned_elem _ _ _ (pn_task Hplan)) as [Ht _].
  apply planned_role_elem; [done|]. unfold pt_roles. by rewrite (pn_requirement Hplan).
Qed.

Lemma entry_Forall2 (R : RoleRequirement -> RoleCandidates -> Prop) roles sets :
  (forall role set, R role set -> rcs_role_id set = rq_role_id role) -> NoDup (rq_role_id <$> roles) ->
  Forall2 R roles sets -> forall role, role ∈ roles -> exists set, entry_of sets (rq_role_id role) = Some set /\ R role set.
Proof.
  intros Hid Hnd Hf. induction Hf as [|role set roles sets HR Hf IH]; intros r Hr; [by apply not_elem_of_nil in Hr|].
  apply NoDup_cons in Hnd as [Hni Hnd]. unfold entry_of. simpl. apply elem_of_cons in Hr as [->|Hr].
  - exists set. by rewrite bool_decide_eq_true_2 by auto.
  - rewrite bool_decide_eq_false_2; [by apply IH|]. rewrite (Hid _ _ HR). intros Eq. apply Hni.
    apply list_elem_of_fmap. eauto.
Qed.

Lemma missing_entity sets node : node ∈ candidate_nodes sets ->
  forall s, mission_binding_semantics c mission_id = Some s -> distinct_actor_groups s context <> [] ->
    contains_key node (candidate_entities m mission_id sets) = false ->
    (registry ← cp_physical_entity_registry c; entity_for_node registry node) = None.
Proof.
  intros Hn s Es Hg Hk. unfold candidate_entities in Hk. rewrite Es in Hk.
  destruct (cp_physical_entity_registry c) as [registry|]; simpl; [|done].
  assert (requires_physical_entities s = true) as Hreq.
  { unfold requires_physical_entities. apply orb_true_iff. right. apply negb_true_iff, Nat.eqb_neq. intros Hz.
    apply nil_length_inv in Hz. apply Hg. unfold distinct_actor_groups. by rewrite Hz. }
  rewrite Hreq in Hk. apply contains_key_false in Hk. apply eq_None_not_Some. intros [e He].
  apply not_elem_of_list_to_map_2 in Hk. apply Hk, list_elem_of_fmap. exists (node, pe_entity_id e). split; [done|].
  apply list_elem_of_omap. exists node. split; [done|]. by rewrite He.
Qed.

(** Every Role has an entry, with the Nodes it starts with. *)
Definition started (sets : list RoleCandidates) : Prop :=
  rcs_role_id <$> sets = rq_role_id <$> tk_roles requirement /\
  forall role, role ∈ tk_roles requirement -> exists set, entry_of sets (rq_role_id role) = Some set /\
    forall node, node ∈ rcs_node_ids set <-> starts_with m scoped mission_id now role node.

Lemma match_roles_started sets :
  Forall2 (fun role set => bound_candidates m scoped mission_id role now = Ok set) (tk_roles requirement) sets ->
  started sets.
Proof.
  intros Hm. pose proof (bound_candidates_answers m scoped mission_id now (TenantState_ok _ _ Hsource)) as Hbound.
  assert (forall role set, bound_candidates m scoped mission_id role now = Ok set ->
    rcs_role_id set = rq_role_id role) as Hown.
  { intros r s E. specialize (Hbound r). rewrite E in Hbound. apply Hbound. }
  split.
  - clear -Hm Hown. induction Hm as [|r s rs ss E Hf IH]; [done|]. rewrite !fmap_cons, IH. f_equal. by apply Hown.
  - intros role Hr. destruct (entry_Forall2 _ _ _ Hown (pn_roles Hplan) Hm role Hr) as (set & Es & E).
    exists set. split; [done|]. specialize (Hbound role). rewrite E in Hbound. apply Hbound.
Qed.

(** Every Role has an entry, with its admissible Nodes. *)
Definition narrowed (ops : gmap RoleId OperationRef) (final : list RoleCandidates) : Prop :=
  rcs_role_id <$> final = rq_role_id <$> tk_roles requirement /\
  forall role, role ∈ tk_roles requirement -> exists intent set,
    pt_execution_intents task !! rq_role_id role = Some intent /\ ops !! rq_role_id role = Some (intent_operation intent) /\
    entry_of final (rq_role_id role) = Some set /\ rcs_node_ids set <> [] /\
    forall node, node ∈ rcs_node_ids set <-> candidate role (intent_operation intent) node.

Lemma narrow_roles_exact ops sets : role_operations task ∅ (tk_roles requirement) = Ok ops -> started sets ->
  forall events result, narrow_roles m scoped mission requirement context now ops (tk_roles requirement) sets
    = Some (events, result) ->
  match result with Ok final => narrowed ops final | Err _ => unmatchable end.
Proof.
  intros Eops [Hids Hsets]. pose proof (role_operations_inv _ _ _ _ Eops) as Hops.
  assert (forall role o set, role ∈ tk_roles requirement -> ops !! rq_role_id role = Some o ->
    entry_of sets (rq_role_id role) = Some set -> exists intent,
      pt_execution_intents task !! rq_role_id role = Some intent /\ o = intent_operation intent /\
      answers (candidate role o) (narrow_role m scoped mission requirement context now role o (rcs_node_ids set))) as Hone.
  { intros role o set Hr Ho Es. destruct (Hops role Hr) as (i & Hi & Ho'). assert (o = intent_operation i) as -> by congruence.
    destruct (Hsets role Hr) as (set' & Es' & Hstart). assert (set' = set) as -> by congruence.
    exists i. split_and!; [done..|]. apply narrow_role_answers; [done|]. intros a. by apply planned_requirements. }
  intros events result Hrun.
  eapply (narrow_roles_inv m scoped mission requirement context now ops (tk_roles requirement) (pn_roles Hplan) sets)
    in Hrun as Hres.
  2: { intros role Hr. destruct (Hops role Hr) as (i & _ & ->). eauto. }
  2: { intros role Hr. destruct (Hsets role Hr) as (s & -> & _). eauto. }
  clear Hrun. destruct result as [final|e].
  - destruct Hres as (Hids' & _ & Hroles). split; [by rewrite Hids'|]. intros role Hr.
    destruct (Hroles role Hr) as (o & set & nodes & Ho & Es & En & Ef).
    destruct (Hone role o set Hr Ho Es) as (i & Hi & -> & Ha). rewrite En in Ha. destruct Ha as [Hne Ha].
    by exists i, (MkRoleCandidates (rq_role_id role) nodes).
  - left. destruct Hres as (role & o & set & Hr & Ho & Es & En). exists role. split; [done|]. intros intent node Hi Hc.
    destruct (Hone role o set Hr Ho Es) as (i & Hi' & -> & Ha). rewrite En in Ha.
    assert (i = intent) as -> by congruence. by apply (Ha node).
Qed.

Lemma metadata_exact ops final : narrowed ops final ->
  match with_actor_binding_metadata m requirement context ops final with
  | Ok candidates => exact_candidates candidates
  | Err _ => unmatchable
  end.
Proof.
  intros [Hids Hfinal]. unfold with_actor_binding_metadata.
  match goal with |- context [if ?b then _ else _] => destruct b eqn:Ecover end.
  - right. apply andb_true_iff in Ecover as [Hg%negb_true_iff%Nat.eqb_neq Ecover].
    destruct (mission_binding_semantics c mission_id) as [s|] eqn:Es; [|done]. simpl in Hg.
    assert (distinct_actor_groups s context <> []) as Hgroups by (intros Hz; by rewrite Hz in Hg).
    apply existsb_exists in Ecover as (node & Hn%list_elem_of_In & Hmiss%negb_true_iff).
    pose proof Hn as (set & Hin & Hset)%list_elem_of_bind.
    assert (rcs_role_id set ∈ rq_role_id <$> tk_roles requirement) as (role & Eid & Hr)%list_elem_of_fmap.
    { rewrite <- Hids. apply list_elem_of_fmap. eauto. }
    destruct (Hfinal role Hr) as (i & set' & Hi & _ & Ee & _ & Hnodes).
    rewrite <- Eid, entry_of_elem in Ee; [|rewrite Hids; apply Hplan|done]. simplify_eq.
    exists role, i, node. split_and!; [done|done|by apply Hnodes|by exists s|].
    by apply (missing_entity final node Hn s Es).
  - split; simpl; [done|by rewrite Hids|done..| |].
    + intros Hg node Hn. apply andb_false_iff in Ecover as [Hz|Hz].
      * apply negb_false_iff, Nat.eqb_eq, nil_length_inv in Hz. done.
      * apply not_eq_None_Some. intros Hnone. apply not_true_iff_false in Hz. destruct Hz. apply existsb_exists.
        exists node. split; [by apply list_elem_of_In|]. by apply negb_true_iff, contains_key_false.
    + intros role Hr. destruct (Hfinal role Hr) as (i & set & Hi & Ho & Ee & Hne & Hn). exists i, set. done.
Qed.

(** The first loop, when it answers. *)
Lemma bindings_started events result :
  match_capabilities_with_actor_bindings m scoped requirement now = Some (events, result) ->
  match result with Ok candidates => started (cs_roles candidates) | Err _ => unmatchable end.
Proof.
  unfold match_capabilities_with_actor_bindings. rewrite tenant_state_idem. unfold matched.
  destruct (match_roles _ _) as [[ev [sets|e]]|] eqn:Em; simpl; intros [= <- <-];
    apply match_roles_inv in Em; simpl.
  - apply match_roles_started. eapply Forall2_impl; [exact Em|]. intros role set [ev' Hf].
    by apply audited_found in Hf.
  - left. destruct Em as (role & ev' & Hr & He%audited_found). exists role. split; [done|].
    pose proof (bound_candidates_answers m scoped mission_id now (TenantState_ok _ _ Hsource) role) as Hbound.
    rewrite <- He in Hbound. intros intent node _ [Hel Hp _ _ _]. apply (Hbound node).
    split; [done|]. apply eligible_operation_iff in Hel as [Hel _]. unfold node_is_eligible_for_role. by rewrite Hel.
Qed.

Lemma match_for_mission_exact events result :
  match_capabilities_for_mission m source mission requirement now = Some (events, result) ->
  match result with Ok candidates => exact_candidates candidates | Err _ => unmatchable end.
Proof.
  unfold match_capabilities_for_mission.
  rewrite bool_decide_eq_true_2 by apply Hplan. simpl. rewrite (pn_task Hplan).
  destruct (role_operations_total task (tk_roles requirement) (pn_intents Hplan) ∅) as [ops Eops]. rewrite Eops.
  destruct (match_capabilities_with_actor_bindings _ _ _ _) as [[ev [candidates|e]]|] eqn:Eb; simpl; [| |done];
    apply bindings_started in Eb; simpl in Eb; [|by intros [= _ <-]].
  destruct (narrow_roles _ _ _ _ _ _ _ _ _) as [[later narrow]|] eqn:En; simpl; [|done].
  apply (narrow_roles_exact ops _ Eops Eb) in En. intros [= _ <-].
  destruct narrow as [final|e]; [by apply metadata_exact|done].
Qed.

Lemma match_for_mission_total :
  gates_encode m = true -> is_Some (match_capabilities_for_mission m source mission requirement now).
Proof.
  intros He. unfold match_capabilities_for_mission.
  rewrite bool_decide_eq_true_2 by apply Hplan. simpl. rewrite (pn_task Hplan).
  destruct (role_operations_total task (tk_roles requirement) (pn_intents Hplan) ∅) as [ops Eops]. rewrite Eops.
  assert (is_Some (match_capabilities_with_actor_bindings m scoped requirement now)) as [[ev [candidates|e]] Eb];
    [|rewrite Eb; simpl|by rewrite Eb; eexists].
  { unfold match_capabilities_with_actor_bindings, matched.
    match goal with |- context [match_roles ?f ?l] => destruct (match_roles_total f l) as [run ->] end; [|by eexists].
    intros role _. unfold audited.
    match goal with |- context [audit_nodes _ ?x ?a ?b ?o ?t ?l] =>
      destruct (audit_nodes_total m x t a b o l He) as [audit ->] end. by eexists. }
  apply bindings_started in Eb as [_ Hsets].
  destruct (narrow_roles_total m scoped mission requirement context now ops (tk_roles requirement) He
              (pn_roles Hplan) (cs_roles candidates)) as [run ->]; [..|by eexists].
  - intros role Hr. destruct (role_operations_inv _ _ _ _ Eops role Hr) as (i & _ & ->). eauto.
  - intros role Hr. destruct (Hsets role Hr) as (s & -> & _). eauto.
Qed.

(** The audit of the first Role evaluates the gates of the first Node. *)
Lemma match_for_mission_panics :
  gates_encode m = false -> tk_roles requirement <> [] -> rd_nodes scoped <> [] ->
  match_capabilities_for_mission m source mission requirement now = None.
Proof.
  intros He Hr Hn.
  assert (forall role found, audited m scoped requirement role now found = None) as Haudit.
  { intros role found. unfold audited. destruct (rd_nodes scoped) as [|n nodes]; [done|].
    rewrite fmap_cons. by rewrite audit_nodes_panics. }
  unfold match_capabilities_for_mission.
  rewrite bool_decide_eq_true_2 by apply Hplan. simpl. rewrite (pn_task Hplan).
  destruct (role_operations_total task (tk_roles requirement) (pn_intents Hplan) ∅) as [ops Eops]. rewrite Eops.
  assert (match_capabilities_with_actor_bindings m scoped requirement now = None) as ->; [|done].
  unfold match_capabilities_with_actor_bindings. rewrite tenant_state_idem.
  destruct (tk_roles requirement) as [|role roles]; [done|]. cbn [match_roles]. by rewrite Haudit.
Qed.
End ForMission.
