(* ===== verification/PropsMatching.v ===== *)
(** * Matching, its tenants and the way to a proposal

    Properties of [Eligibility], [Matching] and [CurrentState]: candidates are exactly the
    admissible Nodes, a tenant sees nothing of another one, and what matching and the scheduler
    select can be booked and proposed. *)

From S2P Require Import Prelude Identity Execution StateModel Session Resource RelationSpec DecisionPolicy.
From S2P Require Import SchedulerPolicy Sorting Quota NodeIdentity NodeIdentityFacts NodeState Capacity NodeAuthority.
From S2P Require Import Mission TaskExecution Group ControlPlane Actors GroupLifecycle GroupBinding GroupRelease.
From S2P Require Import RoleRecovery ControlSteps OwnershipBind SchedulerFacts ScheduleFacts Topology Calendar CalendarFacts CalendarBooking.
From S2P Require Import Registries Evidence EvidenceFacts Eligibility Matching CurrentState MatchingFacts Scheduler.
From S2P Require Import PropsGroup PropsCalendar.
From Stdlib Require Import FunctionalExtensionality.

Open Scope list_scope.

(** ** Tenants *)

Section Tenants.
Context (c : ControlPlane) (mission : MissionId).
Context (Hok : forall r, cp_node_identity_registry c = Some r -> registry_ok r).

(** The allowlist of [TenantState] is the ownership [node_tenant_allowed] checks. *)
Lemma tenant_allowed_iff node :
  allowed_node (tenant_allowed c mission) node = node_tenant_allowed c mission node.
Proof.
  unfold allowed_node, tenant_allowed, node_tenant_allowed.
  destruct (cp_node_identity_registry c) as [r|] eqn:Er; simpl; [|done].
  destruct (Hok r eq_refl) as [_ _ _ _ Hrec _ _ _ _].
  apply eq_iff_eq_true. unfold set_contains. rewrite bool_decide_eq_true, is_some_and_true, elem_of_list_to_set, list_elem_of_omap.
  split.
  - intros (identity & [k Hk]%elem_of_btree_values & E). destruct (bool_decide _) eqn:Ht; [|done].
    unfold Identifier_new in E. destruct (is_blank _); simplify_eq/=. destruct (Hrec _ _ Hk) as [-> _]. eauto.
  - intros (identity & Hk & Ht). exists identity. rewrite Ht. destruct (Hrec _ _ Hk) as [Eid Hv].
    split; [by apply elem_of_btree_values; eauto|]. rewrite Eid. unfold Identifier_new.
    assert (is_blank (as_str node) = false) as ->; [|by destruct node].
    unfold validate_record in Hv. rewrite Eid in Hv.
    destruct (match ni_attestation_policy identity with Some _ => _ | None => _ end); simpl in Hv; [|done].
    unfold validate_name in Hv. by destruct (is_blank (as_str node)).
Qed.

Lemma scoped_node source node :
  rd_node (tenant_state c source mission) node
  = if node_tenant_allowed c mission node then rd_node source node else None.
Proof. simpl. by rewrite tenant_allowed_iff. Qed.
End Tenants.

(** Readers that agree on what the tenant of a Mission owns. *)
Record same_tenant_view (c : ControlPlane) (mission : MissionId) (rd rd' : NodeReader) : Prop := {
  tv_node : forall node, node_tenant_allowed c mission node = true -> rd_node rd node = rd_node rd' node;
  tv_nodes : List.filter (fun s => node_tenant_allowed c mission (sn_node_id s)) (rd_nodes rd)
             = List.filter (fun s => node_tenant_allowed c mission (sn_node_id s)) (rd_nodes rd');
  tv_records : List.filter (fun r => is_none_or (node_tenant_allowed c mission)
                                       (source_node_id (sk_source (sr_key r)))) (rd_records rd)
               = List.filter (fun r => is_none_or (node_tenant_allowed c mission)
                                         (source_node_id (sk_source (sr_key r)))) (rd_records rd')
}.

Lemma same_tenant_state c mission rd rd' :
  (forall r, cp_node_identity_registry c = Some r -> registry_ok r) -> same_tenant_view c mission rd rd' ->
  tenant_state c rd mission = tenant_state c rd' mission.
Proof.
  intros Hok [Hn Hns Hr]. unfold tenant_state, TenantState.
  assert (allowed_node (tenant_allowed c mission) = node_tenant_allowed c mission) as ->.
  { apply functional_extensionality. intros node. by apply tenant_allowed_iff. }
  rewrite Hr, Hns. f_equal. apply functional_extensionality. intros node.
  destruct (node_tenant_allowed c mission node) eqn:E; [by apply Hn|done].
Qed.

(** *** Gates read evidence of the tenant only *)

Lemma filter_filter_and {A} (p q : A -> bool) l : List.filter p (List.filter q l) = List.filter (fun x => q x && p x) l.
Proof. induction l as [|x l IH]; simpl; [done|]. destruct (q x); simpl; [destruct (p x)|]; by rewrite ?IH. Qed.

Lemma evaluate_matching p records records' decision now :
  List.filter (policy_matches p) records = List.filter (policy_matches p) records' ->
  evaluate p records decision now = evaluate p records' decision now.
Proof. intros E. unfold evaluate. by rewrite E. Qed.

Section Scoped.
Context `{Serde, PolicyCodec, StateCodec} (m : MatchPlane) (source : NodeReader) (mission : MissionId).
Context (Hok : evidence_ok (mx_evidence m)).

Abbreviation c := (mx_control m).
Abbreviation scoped := (tenant_state c source mission).

Lemma gate_source_visible node gate s :
  node_tenant_allowed c mission node = true ->
  (exists registry id, ver_current (vp_decision_policy (mx_evidence m)) = Some registry /\ dr_gates registry !! id = Some gate) ->
  (dg_tenant_id gate =? gate_tenant m node)%string = true -> s ∈ ep_allowed_sources (dg_policy gate) ->
  is_none_or (allowed_node (tenant_allowed c mission)) (source_node_id s) = true.
Proof.
  intros Hn (registry & id & Er & Eg) Ht%String.eqb_eq Hs.
  pose proof (eo_scope _ Hok registry Er) as Hscope. unfold validate_decision_registry_scope in Hscope.
  destruct (try_for _ (btree_values (dr_scheduling_costs registry))); [|done]. simpl in Hscope.
  rewrite try_for_ok in Hscope. specialize (Hscope gate). rewrite try_for_ok in Hscope.
  ospecialize (Hscope _ s _); [apply elem_of_btree_values; eauto|by apply elem_of_bset_iter|].
  destruct s as [n l|component]; [|done]. simpl in Hscope |- *. rewrite tenant_allowed_iff by apply Hok.
  destruct (node_of_tenant (mx_evidence m) n (dg_tenant_id gate)) eqn:Ho; [|done]. clear Hscope.
  unfold node_of_tenant, node_tenant_allowed, gate_tenant in *. fold c in Ho.
  destruct (cp_node_identity_registry c) as [identities|]; [|done]. simpl in *.
  apply is_some_and_true in Hn as (record & Hrec & Htenant). rewrite Hrec in Ht. simpl in Ht.
  apply is_some_and_true in Ho as (other & Hother & Heq%String.eqb_eq). rewrite Hother. simpl.
  bool_facts. apply bool_decide_eq_true. congruence.
Qed.

Lemma scoped_gates node role operation decision now : node_tenant_allowed c mission node = true ->
  decision_gates_allow m now scoped node role operation decision
  = decision_gates_allow m now source node role operation decision.
Proof.
  intros Hn. unfold decision_gates_allow, evaluate_decision_gates.
  destruct (ver_current (vp_decision_policy (mx_evidence m))) as [registry|] eqn:Er; [|done].
  unfold evaluate_decision_registry_gates. destruct (registry_digest registry) as [digest|]; [|done].
  simpl. f_equal. apply list_fmap_ext. intros i gate Hi.
  apply list_elem_of_lookup_2, elem_of_bool_filter in Hi as [[id Hg]%elem_of_btree_values Happ].
  unfold gate_receipt. erewrite evaluate_matching; [done|].
  simpl. rewrite !filter_filter_and. apply List.filter_ext. intros r.
  destruct (policy_matches (dg_policy gate) r) eqn:Hm, (gate_admits m now node gate r);
    rewrite ?andb_true_r, ?andb_false_r; [|done..].
  unfold policy_matches, gate_applies in *. bool_facts. by eapply gate_source_visible; eauto.
Qed.

Lemma scoped_exclusion node role now : node_tenant_allowed c mission node = true ->
  node_role_exclusion m scoped node role now = node_role_exclusion m source node role now.
Proof.
  intros Hn. unfold node_role_exclusion. rewrite scoped_node, Hn by apply Hok.
  destruct (rd_node source node); [|done]. by rewrite scoped_gates.
Qed.

Lemma scoped_eligible node role now : node_is_eligible_for_role m scoped node role now = true ->
  node_tenant_allowed c mission node = true /\ node_is_eligible_for_role m source node role now = true.
Proof.
  intros He. assert (node_tenant_allowed c mission node = true) as Hn.
  { destruct (eligible_registered _ _ _ _ _ He) as [s Hs]. rewrite scoped_node in Hs by apply Hok. by destruct (node_tenant_allowed _ _ _). }
  split; [done|]. revert He. unfold node_is_eligible_for_role. by rewrite scoped_exclusion.
Qed.
End Scoped.

(** ** From candidates to bookings and proposals *)

Lemma put_control_id m : put_control (mx_control m) m = m.
Proof. by destruct m as [[] ? ? ? ?]. Qed.

Lemma combine_zip {A B} (l : list A) (k : list B) : combine l k = zip l k.
Proof. revert k. induction l as [|x l IH]; intros [|y k]; simpl; [done..|]. by rewrite IH. Qed.

Lemma propose_resources_fold l : forall used used', fold_opt select_mode used l = Some used' ->
  propose_resources used l = Ok used'.
Proof.
  induction l as [|[id demand] l IH]; simpl; intros used used' E; [by simplify_eq|].
  unfold select_mode in E. simpl in E. destruct (is_some_and _ (used !! id)); [done|]. by apply IH.
Qed.

Lemma role_actor_map_lookup roles id actor : NoDup (rq_role_id <$> roles) ->
  role_actor_map roles !! id = Some actor <-> exists role, role ∈ roles /\ rq_role_id role = id /\ rq_actor_id role = Some actor.
Proof.
  intros Hnd. unfold role_actor_map.
  assert (forall k, (k, actor) ∈ omap (fun role => (fun a => (rq_role_id role, a)) <$> rq_actor_id role) (reverse roles)
    <-> exists role, role ∈ roles /\ rq_role_id role = k /\ rq_actor_id role = Some actor) as Hin.
  { intros k. rewrite list_elem_of_omap. setoid_rewrite elem_of_reverse. split.
    - intros (role & Hr & (a & Ha & E)%fmap_Some). simplify_eq. eauto.
    - intros (role & Hr & <- & Ha). exists role. by rewrite Ha. }
  rewrite <- Hin. symmetry. apply elem_of_list_to_map.
  assert (forall l, NoDup (rq_role_id <$> l) ->
    NoDup (omap (fun role => (fun a => (rq_role_id role, a)) <$> rq_actor_id role) l).*1) as Hmap.
  { induction l as [|role l IH]; intros Hl; [constructor|]. apply NoDup_cons in Hl as [Hni Hl]. simpl.
    destruct (rq_actor_id role); simpl; [|by apply IH]. constructor; [|by apply IH].
    intros ([k a] & Ek & Hk)%list_elem_of_fmap. apply list_elem_of_omap in Hk as (r & Hr & (x & _ & E)%fmap_Some).
    simplify_eq/=. apply Hni, list_elem_of_fmap. eauto. }
  apply Hmap. by rewrite fmap_reverse, reverse_Permutation.
Qed.

Section Pipeline.
Context `{Serde, PolicyCodec, StateCodec, RecoveryCodec} (m : MatchPlane) (source : NodeReader).
Context (mission : MissionPlan) (requirement : TaskRequirement) (planned_task : PlannedTask) (now : TimestampMs).
Context (group : ExecutionGroupId) (g : ExecutionGroup) (t : TaskExecution).

Abbreviation c := (mx_control m).
Abbreviation task := (tk_task_ref requirement).
Abbreviation scoped := (tenant_state c source (tk_mission_id requirement)).
Abbreviation view := (plane_view m source).
Abbreviation plan_context := (tc_context_id (pt_continuity planned_task)).

(** The Task is Ready in its Group with the Roles of its requirement, and not booked. *)
Record ready_task : Prop := {
  rt_group : cp_groups c !! group = Some g;
  rt_task : task_execution g task = Some t;
  rt_mission : eg_mission_id g = tr_mission_id task;
  rt_ready : te_lifecycle t = TlReady;
  rt_unbooked : cp_scheduled_tasks c !! task = None;
  rt_scopes : dom (te_role_scopes t) = list_to_set (rq_role_id <$> tk_roles requirement);
  rt_requirements : forall role, role ∈ tk_roles requirement ->
    role_requirement g task (rq_role_id role) = Some role;
  rt_resources : @resources_global view;
  rt_version : (cp_calendar_version c + 1 <= u64_max)%N
}.

(** No Actor of a distinct group has two Roles in the Task. *)
Definition lone_actors : Prop :=
  forall s actors actor r1 r2, mission_binding_semantics c (tk_mission_id requirement) = Some s ->
    actors ∈ distinct_actor_groups s plan_context -> actor ∈ actors ->
    r1 ∈ tk_roles requirement -> r2 ∈ tk_roles requirement ->
    rq_actor_id r1 = Some actor -> rq_actor_id r2 = Some actor -> rq_role_id r1 = rq_role_id r2.

Context (Hok : evidence_ok (mx_evidence m)) (Hplan : planned mission requirement planned_task).
Context (Hready : ready_task) (candidates : CandidateSet).
Context (Hexact : exact_candidates m source mission requirement planned_task now candidates).

Lemma candidate_admissible role nodes node : role ∈ tk_roles requirement ->
  for_role candidates (rq_role_id role) = Some nodes -> node ∈ rcs_node_ids nodes ->
  exists intent, cs_role_operations candidates !! rq_role_id role = Some (intent_operation intent) /\
    admissible m scoped mission (tk_mission_id requirement) plan_context now role (intent_operation intent) node.
Proof.
  intros Hr Hf Hn. destruct (ec_nodes _ _ _ _ _ _ _ Hexact role Hr) as (i & set & _ & Ho & Hs & _ & Hiff).
  assert (set = nodes) as -> by congruence. exists i. split; [done|]. by apply Hiff.
Qed.

Lemma matched_schedulable : @schedulable view c group g t requirement candidates now.
Proof.
  destruct Hready as [? ? ? ? ? ? ? ? ?]. split; try done; [apply Hplan|].
  intros role nodes node Hr Hf Hn. simpl. rewrite put_control_id.
  destruct (candidate_admissible _ _ _ Hr Hf Hn) as (i & _ & [(Hx & _)%eligible_operation_iff _ _ _ _]).
  apply (scoped_eligible m source (tk_mission_id requirement) Hok).
  unfold node_is_eligible_for_role. by rewrite Hx.
Qed.

Section Decision.
Context (s : SchedulingSnapshot) (d : TaskSchedulingDecision) (finish : TimestampMs).
Context (Htask : dc_task_ref d = task) (Hends : dc_ends_at d = Some finish).
Context (Hpositive : (dc_starts_at d < finish)%N).

Abbreviation joint_at := (@joint unit (@view_reader view) tt candidates s (dc_starts_at d) (dc_ends_at d)).

Lemma propose_role_picked role nodes node registered choice selections used used' :
  role ∈ tk_roles requirement -> for_role candidates (rq_role_id role) = Some nodes -> node ∈ rcs_node_ids nodes ->
  @node_resources unit (@view_reader view) tt node = Some registered ->
  choice ∈ role_choices s (dc_starts_at d) (dc_ends_at d) role selections registered ->
  fold_opt select_mode used (zip choice.1 (resource_requirements role)) = Some used' ->
  propose_role m scoped candidates now (to_role_assignment (select role node registered choice)) used role = Ok used'.
Proof.
  intros Hr Hf Hn En Hc Hfold. unfold propose_role, to_role_assignment. cbn [as_node_id as_resource_ids].
  rewrite select_ids, select_node_id, Hf, bool_decide_eq_true_2 by done. cbn [negb].
  destruct (candidate_admissible _ _ _ Hr Hf Hn) as (i & Ho & [(Hx & Hg & snap & Hsnap & Hop & _)%eligible_operation_iff _ _ _ _]).
  rewrite Hsnap. unfold node_is_eligible_for_role. rewrite Hx. cbn [is_none negb]. rewrite Ho. cbn [List.find].
  unfold operation_unavailable. rewrite Hop, Hg. cbn [negb orb].
  pose proof (resource_choices_combination _ _ _ _ _ _ _ _ Hc) as [[Hch _ _ _] _].
  rewrite (Forall2_length _ _ _ Hch), Nat.eqb_refl. simpl.
  assert (nd_resources (sn_registration snap) = registered) as Hreg.
  { destruct (@registered_node view node registered En) as (state & Hstate & <-). simpl in Hstate, Hsnap.
    destruct (allowed_node _ node); [|done]. congruence. }
  rewrite combine_zip, Hreg. destruct (existsb _ _) eqn:Hbad; [|by apply propose_resources_fold].
  apply existsb_exists in Hbad as ([id demand] & Hz%list_elem_of_In & Hno). simpl in Hno.
  apply list_elem_of_lookup in Hz as [k Hk]. rewrite lookup_zip_with in Hk.
  apply bind_Some in Hk as (x & Hx' & Hk). apply bind_Some in Hk as (y & Hy & E). simplify_eq.
  destruct (Forall2_lookup_lr _ _ _ _ _ _ Hch Hx' Hy) as (resource & [Hid Hin Hm _]).
  apply negb_true_iff, not_true_iff_false in Hno. destruct Hno. apply existsb_exists. exists resource.
  split; [by apply list_elem_of_In|]. unfold resource_satisfies. unfold matches_demand in Hm.
  rewrite bool_decide_eq_true_2 by done. simpl. exact Hm.
Qed.

Lemma propose_roles_joint roles selections entities final :
  joint_at roles selections entities final -> (forall role, role ∈ roles -> role ∈ tk_roles requirement) ->
  forall new assignments used, final = (selections ++ new)%list ->
  (forall sel, sel ∈ new -> List.find (fun a => bool_decide (as_role_id a = sel_role_id sel)) assignments
                            = Some (to_role_assignment sel)) ->
  @modes_ok view s d used selections ->
  propose_roles m scoped candidates now assignments used roles = Ok tt.
Proof.
  induction 1 as [|role roles selections entities nodes node registered choice final Ef Hin Er En Hc Hj IH];
    intros Hroles new assignments used E Hfind Hm; [done|].
  destruct (joint_roles _ _ _ _ _ _ _ _ _ Hj) as (rest & -> & _). rewrite <- app_assoc in E.
  apply app_inv_head in E as <-. simpl.
  assert (role ∈ tk_roles requirement) as Hrole by (apply Hroles; left).
  pose proof (Hfind (select role node registered choice)) as Hsel. rewrite select_role_id in Hsel.
  rewrite Hsel by (apply elem_of_app; left; apply list_elem_of_here).
  destruct (@select_modes_step view c group g t requirement candidates now matched_schedulable s d finish Hends Hpositive
    used selections role node registered choice Hrole En Hc Hm) as (used' & Hstep & Hm').
  erewrite propose_role_picked; [|done..|].
  - simpl. eapply (IH ltac:(intros x Hx; apply Hroles; by right) rest); [by rewrite <- app_assoc| |done].
    intros sel Hs. apply Hfind. apply elem_of_app. by right.
  - unfold select_modes in Hstep. rewrite select_role_id, select_ids, (rt_requirements Hready) in Hstep by done.
    simpl in Hstep. by destruct (selection_shape_differs _ _).
Qed.
(** *** Distinct groups *)

Lemma propose_group_joint entities actors l :
  actors ∈ cs_distinct_actor_groups candidates ->
  forall earlier occupied, entities_of candidates (earlier ++ l) entities ->
  (forall e a, occupied !! e = Some a -> set_contains a actors = true /\ exists sel, sel ∈ earlier /\
     actor_for_role candidates (sel_role_id sel) = Some a /\
     physical_entity_for_node candidates (sel_node_id sel) = Some e) ->
  NoDup (sel_role_id <$> earlier ++ l) ->
  (forall sel, sel ∈ l -> is_Some (physical_entity_for_node candidates (sel_node_id sel))) ->
  (forall x y a, set_contains a actors = true -> actor_for_role candidates (sel_role_id x) = Some a ->
     actor_for_role candidates (sel_role_id y) = Some a -> sel_role_id x = sel_role_id y) ->
  propose_group candidates actors occupied (to_role_assignment <$> l) = Ok tt.
Proof.
  intros Hg. induction l as [|sel l IH]; intros earlier occupied Hent Hocc Hnd Hcov Hlone; [done|].
  rewrite fmap_cons. cbn [propose_group as_role_id as_node_id to_role_assignment].
  assert (earlier ++ sel :: l = (earlier ++ [sel]) ++ l) as Eq by by rewrite <- app_assoc.
  assert (forall occupied', (forall e a, occupied' !! e = Some a -> occupied !! e = Some a \/
      set_contains a actors = true /\ actor_for_role candidates (sel_role_id sel) = Some a /\
     physical_entity_for_node candidates (sel_node_id sel) = Some e) ->
    propose_group candidates actors occupied' (to_role_assignment <$> l) = Ok tt) as Hrest.
  { intros occupied' Hocc'. apply (IH (earlier ++ [sel])); [by rewrite <- Eq| |by rewrite <- Eq| |done].
    - intros e a [[Ha (x & Hx & Hrole)]%Hocc|(Ha & Hrole)]%Hocc'; (split; [done|]).
      + exists x. split; [apply elem_of_app; by left|done].
      + exists sel. split; [apply elem_of_app; right; apply list_elem_of_here|done].
    - intros x Hx. apply Hcov. by right. }
  destruct (actor_for_role candidates (sel_role_id sel)) as [actor|] eqn:Ea; [|apply Hrest; auto].
  destruct (set_contains actor actors) eqn:Ha; simpl; [|apply Hrest; auto].
  destruct (Hcov sel (list_elem_of_here _ _)) as [entity Ee]. rewrite Ee.
  destruct (occupied !! entity) as [previous|] eqn:Eo.
  - exfalso. destruct (Hocc _ _ Eo) as [Hp (x & Hx & Exa & Exe)]. destruct Hent as [Hof Hinj].
    assert (previous = actor) as ->.
    { apply (Hinj previous actor entity).
      - apply (Hof x); [apply elem_of_app; by left|done..].
      - apply (Hof sel); [apply elem_of_app; right; left|done..].
      - unfold share_group. apply existsb_exists. exists actors. by rewrite Ha, Hp, <- list_elem_of_In. }
    rewrite fmap_app, fmap_cons in Hnd. apply NoDup_app in Hnd as (_ & Hdis & _).
    apply (Hdis (sel_role_id x)); [apply list_elem_of_fmap; eauto|].
    rewrite (Hlone x sel actor) by done. apply list_elem_of_here.
  - apply Hrest. intros e a. rewrite lookup_insert_Some. intros [[<- <-]|[_ ?]]; auto.
Qed.

Context (Hjoint : joint_at (tk_roles requirement) [] ∅ (dc_selections d)) (Hlone : lone_actors).

Lemma selection_roles : sel_role_id <$> dc_selections d = rq_role_id <$> tk_roles requirement.
Proof.
  destruct (joint_roles _ _ _ _ _ _ _ _ _ Hjoint) as (new & -> & Hall). simpl.
  clear -Hall. induction Hall as [|role sel roles sels (E & _) Hall IH]; [done|]. rewrite !fmap_cons, IH. by f_equal.
Qed.

Lemma selection_found sel : sel ∈ dc_selections d ->
  List.find (fun a => bool_decide (as_role_id a = sel_role_id sel)) (proposed_assignments d)
  = Some (to_role_assignment sel).
Proof.
  unfold proposed_assignments. pose proof selection_roles as Hroles. pose proof (pn_roles _ _ _ Hplan) as Hnd.
  rewrite <- Hroles in Hnd. clear -Hnd. revert Hnd. induction (dc_selections d) as [|x l IH]; intros Hnd Hs; [by apply not_elem_of_nil in Hs|].
  apply NoDup_cons in Hnd as [Hni Hnd]. rewrite fmap_cons. simpl.
  apply elem_of_cons in Hs as [->|Hs]; [by rewrite bool_decide_eq_true_2|].
  rewrite bool_decide_eq_false_2; [by apply IH|]. intros Eq. apply Hni. rewrite Eq. apply list_elem_of_fmap. eauto.
Qed.

Lemma selection_candidate sel : sel ∈ dc_selections d -> sel_node_id sel ∈ candidate_nodes (cs_roles candidates).
Proof.
  destruct (joint_roles _ _ _ _ _ _ _ _ _ Hjoint) as (new & -> & Hall). simpl. intros Hs.
  apply list_elem_of_lookup in Hs as [k Hk]. destruct (Forall2_lookup_r _ _ _ _ _ Hall Hk) as (role & _ & _ & (set & Ef & Hn) & _).
  apply find_key in Ef as [Hset _]. apply list_elem_of_bind. eauto.
Qed.

Lemma groups_accepted :
  try_for (fun actors => propose_group candidates actors ∅ (proposed_assignments d)) (cs_distinct_actor_groups candidates) = Ok tt.
Proof.
  apply try_for_ok. intros actors Hg. destruct (joint_entities _ _ _ _ _ _ _ _ _ Hjoint) as [entities Hent].
  { split; [intros ? ? ? ?%not_elem_of_nil; done|]. intros a b e Ha. by rewrite lookup_empty in Ha. }
  apply (propose_group_joint entities actors (dc_selections d) Hg []); [done|by intros ? ?; rewrite lookup_empty| | |].
  - simpl. rewrite selection_roles. apply Hplan.
  - intros sel Hs. apply (ec_covered _ _ _ _ _ _ _ Hexact); [|by apply selection_candidate].
    intros Hz. rewrite Hz in Hg. by apply not_elem_of_nil in Hg.
  - intros x y a Ha%bool_decide_eq_true. unfold actor_for_role. rewrite (ec_actors _ _ _ _ _ _ _ Hexact).
    rewrite !role_actor_map_lookup by apply Hplan. intros (r1 & Hr1 & <- & Ha1) (r2 & Hr2 & <- & Ha2).
    rewrite (ec_groups _ _ _ _ _ _ _ Hexact) in Hg.
    destruct (mission_binding_semantics c (tk_mission_id requirement)) as [sem|] eqn:Es; [|by apply not_elem_of_nil in Hg].
    by apply (Hlone sem actors a r1 r2).
Qed.

Lemma propose_accepts :
  propose m source requirement candidates (proposed_assignments d) now
  = ([ProposalCreated task], Ok (proposal_of candidates requirement (proposed_assignments d))).
Proof.
  unfold propose. rewrite (ec_task _ _ _ _ _ _ _ Hexact), bool_decide_eq_true_2 by done. cbn [negb].
  assert (length (proposed_assignments d) = length (tk_roles requirement)) as ->.
  { unfold proposed_assignments. rewrite length_fmap, <- (length_fmap sel_role_id), selection_roles. apply length_fmap. }
  rewrite Nat.eqb_refl. cbn [negb].
  erewrite propose_roles_joint; [|exact Hjoint|done|done|by intros; apply selection_found|].
  - by rewrite groups_accepted.
  - intros id mode Hm. by rewrite lookup_empty in Hm.
Qed.
End Decision.
End Pipeline.

(** ** From a proposal to Commit *)

Lemma entities_loop_keyed l : forall entities nodes result, entities_loop entities nodes l = Ok result ->
  map_Forall (fun id r => pe_entity_id r = id) entities -> map_Forall (fun id r => pe_entity_id r = id) result.
Proof.
  induction l as [|r l IH]; simpl; intros entities nodes result E He; [by simplify_eq|].
  destruct (set_contains _ _); [done|]. destruct (contains_key _ _); [done|].
  eapply IH; [exact E|]. by apply map_Forall_insert_2.
Qed.

(** Entities are stored under their identity, as the constructor of the registry leaves them. *)
Definition entities_keyed (c : ControlPlane) : Prop :=
  forall registry, cp_physical_entity_registry c = Some registry ->
    map_Forall (fun id r => pe_entity_id r = id) (ps_entities registry).

Section Support.
Context `{Serde, PolicyCodec, StateCodec, RecoveryCodec} (m : MatchPlane) (source : NodeReader).
Context (mission : MissionPlan) (requirement : TaskRequirement) (planned_task : PlannedTask) (now : TimestampMs).
Context (Hplan : planned mission requirement planned_task) (candidates : CandidateSet).
Context (Hexact : exact_candidates m source mission requirement planned_task now candidates).

Abbreviation c := (mx_control m).
Abbreviation scoped := (tenant_state c source (tk_mission_id requirement)).

(** What [propose] checked of one Role. *)
Definition role_checked (assignments : list RoleAssignment) (role : RoleRequirement) : Prop :=
  exists a used used', List.find (fun a => bool_decide (as_role_id a = rq_role_id role)) assignments = Some a /\
    propose_role m scoped candidates now a used role = Ok used'.

Lemma propose_roles_checked assignments roles : forall used,
  propose_roles m scoped candidates now assignments used roles = Ok tt ->
  forall role, role ∈ roles -> role_checked assignments role.
Proof.
  induction roles as [|r roles IH]; cbn [propose_roles]; intros used E role Hr; [by apply not_elem_of_nil in Hr|].
  destruct (List.find _ assignments) as [a|] eqn:Ef; [|done].
  destruct (propose_role _ _ _ _ a used r) as [used'|] eqn:Ep; [|done].
  apply elem_of_cons in Hr as [->|Hr]; [by exists a, used, used'|by eapply IH].
Qed.

(** As many assignments as Roles, one for each: they are the assignments of the Roles. *)
Lemma assignments_cover assignments :
  length assignments = length (tk_roles requirement) ->
  (forall role, role ∈ tk_roles requirement -> role_checked assignments role) ->
  NoDup (as_role_id <$> assignments) /\ as_role_id <$> assignments ≡ₚ rq_role_id <$> tk_roles requirement.
Proof.
  intros Hlen Hall. assert (rq_role_id <$> tk_roles requirement ⊆+ as_role_id <$> assignments) as Hsub.
  { apply NoDup_submseteq; [apply Hplan|]. intros id (role & -> & Hr)%list_elem_of_fmap.
    destruct (Hall role Hr) as (x & _ & _ & [Hx E]%find_key & _). rewrite <- E. apply list_elem_of_fmap. eauto. }
  apply submseteq_length_Permutation in Hsub; [|rewrite !length_fmap; lia].
  split; [|done]. rewrite <- Hsub. apply Hplan.
Qed.

Lemma assignment_role assignments a :
  length assignments = length (tk_roles requirement) ->
  (forall role, role ∈ tk_roles requirement -> role_checked assignments role) -> a ∈ assignments ->
  exists role used used', role ∈ tk_roles requirement /\ rq_role_id role = as_role_id a /\
    propose_role m scoped candidates now a used role = Ok used'.
Proof.
  intros Hlen Hall Ha. destruct (assignments_cover _ Hlen Hall) as [Hnd Hperm].
  assert (as_role_id a ∈ rq_role_id <$> tk_roles requirement) as (role & Eid & Hr)%list_elem_of_fmap.
  { rewrite <- Hperm. apply list_elem_of_fmap. eauto. }
  destruct (Hall role Hr) as (x & used & used' & [Hx E]%find_key & Hp). exists role, used, used'.
  assert (x = a) as -> by (eapply (NoDup_fmap_elem as_role_id); [exact Hnd|done|done|congruence]). done.
Qed.

Lemma candidate_admitted role nodes node : role ∈ tk_roles requirement ->
  for_role candidates (rq_role_id role) = Some nodes -> node ∈ rcs_node_ids nodes ->
  exists operation, cs_role_operations candidates !! rq_role_id role = Some operation /\
    node_is_eligible_for_role_operation m scoped node role operation now = true.
Proof.
  intros Hr Hf Hn. destruct (ec_nodes _ _ _ _ _ _ _ Hexact role Hr) as (i & set & _ & Ho & Hs & _ & Hiff).
  assert (set = nodes) as -> by congruence. exists (intent_operation i). split; [done|]. by apply Hiff.
Qed.

Lemma candidate_routes node entity : entities_keyed c -> cs_candidate_entities candidates !! node = Some entity ->
  exists registry e, cp_physical_entity_registry c = Some registry /\ ps_entity registry entity = Some e /\ pe_node_id e = node.
Proof.
  intros Hkeyed. rewrite (ec_entities _ _ _ _ _ _ _ Hexact). unfold candidate_entities.
  destruct (mission_binding_semantics c _) as [s|]; [|by rewrite lookup_empty].
  destruct (cp_physical_entity_registry c) as [registry|] eqn:Er; [|by rewrite lookup_empty].
  destruct (requires_physical_entities s); [|by rewrite lookup_empty].
  intros Hin%elem_of_list_to_map_2. apply list_elem_of_omap in Hin as (n & _ & (e & He & E)%fmap_Some). simplify_eq.
  apply find_key in He as [[k Hk]%elem_of_btree_values Hn]. exists registry, e. split_and!; [done| |done].
  unfold ps_entity. rewrite (Hkeyed _ Er _ _ Hk). exact Hk.
Qed.

Lemma proposal_entity assignments a entity :
  NoDup (as_role_id <$> assignments) -> a ∈ assignments ->
  ap_role_physical_entities (proposal_of candidates requirement assignments) !! as_role_id a = Some entity ->
  cs_candidate_entities candidates !! as_node_id a = Some entity.
Proof.
  intros Hnd Ha Hl%elem_of_list_to_map_2. apply elem_of_reverse, list_elem_of_omap in Hl as (x & Hx & (e & He & E)%fmap_Some).
  simplify_eq/=. assert (x = a) as -> by (by eapply (NoDup_fmap_elem as_role_id)). exact He.
Qed.

Lemma proposal_requirement role : role ∈ tk_roles requirement ->
  forall assignments, ap_requirement (proposal_of candidates requirement assignments) (rq_role_id role) = Some role.
Proof.
  intros Hr assignments. apply elem_of_list_to_map.
  - rewrite fmap_reverse, reverse_Permutation, <- list_fmap_compose. apply Hplan.
  - apply elem_of_reverse, list_elem_of_fmap. eauto.
Qed.

Lemma accepted_unfold assignments events p :
  propose m source requirement candidates assignments now = (events, Ok p) ->
  p = proposal_of candidates requirement assignments /\ length assignments = length (tk_roles requirement) /\
  forall role, role ∈ tk_roles requirement -> role_checked assignments role.
Proof.
  unfold propose. destruct (negb (bool_decide _)); [done|].
  destruct (length assignments =? length (tk_roles requirement))%nat eqn:El; [|done]. cbn [negb].
  destruct (propose_roles _ _ _ _ _ _ _) as [[]|] eqn:Ep; [|done].
  destruct (try_for _ _); [|done]. intros [= _ <-]. split_and!; [done|by apply Nat.eqb_eq|].
  by apply (propose_roles_checked _ _ _ Ep).
Qed.

Lemma accepted_supported assignments events p :
  propose m source requirement candidates assignments now = (events, Ok p) -> entities_keyed c ->
  @validate_topology_assignments (nodes_view source) c (ap_task_ref p) (ap_assignments p) now = Ok tt ->
  (forall a role, a ∈ ap_assignments p -> ap_requirement p (as_role_id a) = Some role ->
     decision_gates_allow m now scoped (as_node_id a) role (ap_role_operations p !! as_role_id a) Commit = true) ->
  validate_current_assignment_support m source p now = Ok tt.
Proof.
  intros (-> & Hlen & Hall)%accepted_unfold Hkeyed Htopo Hgates. unfold validate_current_assignment_support.
  rewrite Htopo.
  change (tr_mission_id (ap_task_ref (proposal_of candidates requirement assignments))) with (tk_mission_id requirement).
  apply try_for_ok. intros a Ha. change (a ∈ assignments) in Ha. unfold assignment_support.
  assert (entity_route_check m (proposal_of candidates requirement assignments) a = Ok tt) as ->.
  { unfold entity_route_check. destruct (_ !! as_role_id a) as [entity|] eqn:Ee; [|done].
    apply proposal_entity in Ee; [|by apply assignments_cover|done].
    destruct (candidate_routes _ _ Hkeyed Ee) as (registry & e & -> & Hr & Hn). simpl. by rewrite Hr, bool_decide_eq_true_2. }
  destruct (assignment_role _ _ Hlen Hall Ha) as (role & used & used' & Hr & Eid & Hp).
  specialize (Hgates a role Ha). rewrite <- Eid in Hgates |- *.
  rewrite (proposal_requirement role Hr) in Hgates |- *. specialize (Hgates eq_refl).
  unfold propose_role in Hp. destruct (for_role candidates (rq_role_id role)) as [set|] eqn:Ef; [|done].
  destruct (bool_decide (as_node_id a ∈ _)) eqn:Hn; [|done]. apply bool_decide_eq_true in Hn. cbn [negb] in Hp.
  destruct (candidate_admitted _ _ _ Hr Ef Hn) as (operation & Ho & Hel). cbn [ap_role_operations proposal_of] in Hgates |- *.
  rewrite Ho in Hgates, Hp |- *. unfold currently_eligible. rewrite Hel, Hgates. cbn [negb orb].
  destruct (rd_node scoped (as_node_id a)) as [snapshot|]; [|done].
  destruct (node_is_eligible_for_role _ _ _ _ _); [|done]. cbn [negb List.find] in Hp.
  destruct (operation_unavailable _ _ _ _ _ _ _); [done|].
  destruct (length (as_resource_ids a) =? _)%nat; [|done]. cbn [negb orb] in Hp |- *.
  destruct (existsb _ (combine _ _)) eqn:Hex; [done|]. apply try_for_ok. intros x Hx.
  destruct (existsb (resource_satisfies x.1 x.2) _) eqn:Hs; [done|]. apply not_true_iff_false in Hex. destruct Hex.
  apply existsb_exists. exists x. by rewrite <- list_elem_of_In, Hs.
Qed.
End Support.

(** ** The properties *)


Section Isolation.
Context `{Serde, PolicyCodec, StateCodec} (m : MatchPlane) (requirement : TaskRequirement).
Context (Hok : evidence_ok (mx_evidence m)).

Abbreviation c := (mx_control m).
Abbreviation owned node := (node_tenant_allowed c (tk_mission_id requirement) node = true).

Lemma visible_owned source node s :
  rd_node (tenant_state c source (tk_mission_id requirement)) node = Some s -> owned node.
Proof. rewrite scoped_node by apply Hok. by destruct (node_tenant_allowed _ _ _). Qed.

Lemma exact_owned source mission task now candidates node :
  exact_candidates m source mission requirement task now candidates -> NoDup (rq_role_id <$> tk_roles requirement) ->
  node ∈ candidate_nodes (cs_roles candidates) -> owned node.
Proof.
  intros Hexact Hnd (set & Hset & Hin)%list_elem_of_bind.
  assert (rcs_role_id set ∈ rq_role_id <$> tk_roles requirement) as (role & Eid & Hr)%list_elem_of_fmap.
  { rewrite <- (ec_roles _ _ _ _ _ _ _ Hexact). apply list_elem_of_fmap. eauto. }
  destruct (ec_nodes _ _ _ _ _ _ _ Hexact role Hr) as (i & set' & _ & _ & Hf & _ & Hiff).
  unfold for_role in Hf. fold (entry_of (cs_roles candidates) (rq_role_id role)) in Hf.
  rewrite <- Eid, entry_of_elem in Hf; [|by rewrite (ec_roles _ _ _ _ _ _ _ Hexact)|done]. simplify_eq.
  apply Hiff in Hset. pose proof (proj1 (eligible_operation_iff _ _ _ _ _ _) (ad_eligible _ _ _ _ _ _ _ _ _ Hset)) as (_ & _ & s & Hs & _).
  by eapply visible_owned.
Qed.

Lemma proposed_owned source mission task candidates assignments now events p a :
  planned mission requirement task ->
  propose m source requirement candidates assignments now = (events, Ok p) ->
  a ∈ ap_assignments p -> owned (as_node_id a).
Proof.
  intros Hplan (-> & Hlen & Hall)%accepted_unfold Ha.
  destruct (assignment_role _ _ _ _ _ _ Hplan _ _ _ Hlen Hall Ha) as (role & used & used' & _ & _ & Hp).
  unfold propose_role in Hp. destruct (for_role _ _); [|done]. destruct (negb _); [done|].
  destruct (rd_node _ _) as [s|] eqn:Es; [|done]. by eapply visible_owned.
Qed.
End Isolation.

(** C10. Matching and proposals of one tenant do not depend on another.  If two Node states agree on
    the Nodes that the tenant of the Mission owns and on the State records that name no other
    Node, then matching, the diagnostics of a first use and every proposal give the same answer,
    the same error and the same audit events on both; and only Nodes of the tenant become
    candidates or assignments. *)
Theorem tenant_isolated `{Serde, PolicyCodec, StateCodec} (m : MatchPlane) (source other : NodeReader)
    (mission : MissionPlan) (requirement : TaskRequirement) (now : TimestampMs)
    (Hok : evidence_ok (mx_evidence m))
    (Hview : same_tenant_view (mx_control m) (tk_mission_id requirement) source other) :
  match_capabilities_for_mission m source mission requirement now
    = match_capabilities_for_mission m other mission requirement now /\
  match_capabilities m source requirement now = match_capabilities m other requirement now /\
  first_use_candidate_diagnostics m source mission requirement now
    = first_use_candidate_diagnostics m other mission requirement now /\
  (forall candidates assignments,
     propose m source requirement candidates assignments now = propose m other requirement candidates assignments now) /\
  forall task, reader_ok source -> planned mission requirement task ->
    (forall events candidates node,
       match_capabilities_for_mission m source mission requirement now = Some (events, Ok candidates) ->
       node ∈ candidate_nodes (cs_roles candidates) ->
       node_tenant_allowed (mx_control m) (tk_mission_id requirement) node = true) /\
    (forall candidates assignments events p a,
       propose m source requirement candidates assignments now = (events, Ok p) -> a ∈ ap_assignments p ->
       node_tenant_allowed (mx_control m) (tk_mission_id requirement) (as_node_id a) = true).
Proof.
  pose proof (same_tenant_state _ _ _ _ (eo_identity _ Hok) Hview) as E. fold (mx_control m) in E.
  unfold match_capabilities_for_mission, match_capabilities, first_use_candidate_diagnostics, propose.
  rewrite E. split_and!; [done..|]. rewrite <- E. clear E Hview. intros task Hsource Hplan. split.
  - intros events candidates node Hrun Hn.
    pose proof (match_for_mission_exact m source mission requirement task now Hsource Hplan _ _ Hrun) as Hres.
    eapply exact_owned; [done|exact Hres|apply Hplan|done].
  - intros candidates assignments events p a Hp Ha. by eapply proposed_owned.
Qed.

(** C11. What matching offers and the scheduler selects can be proposed and booked.  Take a Ready,
    unbooked Task whose Group has the Roles of the plan and whose duration is known and positive,
    in a state whose evidence is consistent ([evidence_ok], the invariant of runs in order), whose
    Nodes share no resource identity and whose calendar generation can advance; no Actor of
    a distinct group has two Roles in the Task.  A decision that the joint scheduler makes, on the
    current snapshot of the Task with or without costs, over the candidates that
    [match_capabilities_for_mission] returned is accepted by [propose] at the same instant, with the
    selected Nodes, resources, operations and entities.  It is accepted by [reserve_scheduled_task],
    whose eligibility check is that of matching, if its cost evidence agrees with the history and
    the declared booking budget admits it, which the scheduler does not read. *)
Theorem matched_schedule_proposable `{Serde, PolicyCodec, StateCodec, RecoveryCodec, MetricsCodec}
    (m : MatchPlane) (source : NodeReader) (mission : MissionPlan) (requirement : TaskRequirement)
    (planned_task : PlannedTask) (group : ExecutionGroupId) (g : ExecutionGroup) (t : TaskExecution)
    (now len max_expansions : N) (events : list MatchEvent) (candidates : CandidateSet)
    (s0 s : SchedulingSnapshot) (evidence : list SchedulingCostAssessment) (context : TaskSchedulingContext)
    (outcome : TaskSchedulingOutcome) (d : TaskSchedulingDecision) (history : list CostPolicyRegistry)
    (Hok : evidence_ok (mx_evidence m)) (Hsource : reader_ok source)
    (Hplan : planned mission requirement planned_task)
    (Hready : ready_task m source requirement group g t) (Hlone : lone_actors m requirement planned_task)
    (Hmatch : match_capabilities_for_mission m source mission requirement now = Some (events, Ok candidates))
    (Hs0 : scheduling_snapshot_for_task (mx_control m) now group (tk_task_ref requirement) = Some (Ok s0))
    (Hprice : with_policy_cost_evidence s0 evidence = Ok s)
    (Hrun : @schedule_task_with_snapshot_and_estimate unit (@view_reader (plane_view m source)) max_expansions tt
              requirement candidates s context = Ok outcome)
    (Hd : selected_decision outcome = Some d) (Hnow : tsc_now context = now)
    (Hlen : task_duration requirement context = Some len) (Hpos : (0 < len)%N) :
  propose m source requirement candidates (proposed_assignments d) now
    = ([ProposalCreated (tk_task_ref requirement)],
       Ok (proposal_of candidates requirement (proposed_assignments d))) /\
  (validate_scheduling_cost_history (mx_control m) history (tr_mission_id (tk_task_ref requirement))
     (dc_policy_cost_evidence d) = Ok tt ->
   validate_topology_decision (mx_control m) d = Ok tt ->
   exists c', @reserve_scheduled_task _ (plane_view m source) _ (mx_control m) history candidates group d now
     = Some (c', Ok (ScheduledTaskReservation_new group d))).
Proof.
  pose proof (match_for_mission_exact m source mission requirement planned_task now Hsource Hplan _ _ Hmatch) as Hexact. simpl in Hexact.
  pose proof (matched_schedulable m source mission requirement planned_task _ group g t Hok Hplan Hready candidates Hexact) as Hsb.
  split; [|intros; eexists; by eapply (@scheduled_booked _ (plane_view m source))].
  destruct (selected_decided _ _ _ _ _ _ _ _ Hrun Hd) as [Ht _ _ Hends _ [_ Hj] _ _ _].
  unfold ends_of in Hends, Hj. rewrite Hlen in Hends, Hj. simpl in Hends, Hj. rewrite <- Hends in Hj.
  eapply (propose_accepts m source mission requirement planned_task _ group g t Hok Hplan Hready candidates Hexact s d);
    [exact Hends|lia|exact Hj|exact Hlone].
Qed.

(** C12. An accepted proposal passes the checks of Commit against current State at the same instant.
    What [propose] accepts over the candidates of matching satisfies
    [validate_current_assignment_support]: each physical entity still routes through the proposed
    Node, every Node is eligible for its Role and operation and declares the selected resources
    one for one.  The declared topology intervals and the evidence gates for Commit, which a
    proposal does not evaluate, are hypotheses. *)
Theorem proposal_supported `{Serde, PolicyCodec, StateCodec, RecoveryCodec} (m : MatchPlane) (source : NodeReader)
    (mission : MissionPlan) (requirement : TaskRequirement) (task : PlannedTask) (now : TimestampMs)
    (events : list MatchEvent) (candidates : CandidateSet) (assignments : list RoleAssignment)
    (proposed : list MatchEvent) (p : AssignmentProposal)
    (Hsource : reader_ok source) (Hplan : planned mission requirement task) (Hkeyed : entities_keyed (mx_control m))
    (Hmatch : match_capabilities_for_mission m source mission requirement now = Some (events, Ok candidates))
    (Hpropose : propose m source requirement candidates assignments now = (proposed, Ok p))
    (Htopology : @validate_topology_assignments (nodes_view source) (mx_control m) (ap_task_ref p)
                   (ap_assignments p) now = Ok tt)
    (Hgates : forall a role, a ∈ ap_assignments p -> ap_requirement p (as_role_id a) = Some role ->
       decision_gates_allow m now (tenant_state (mx_control m) source (tk_mission_id requirement)) (as_node_id a) role
         (ap_role_operations p !! as_role_id a) Commit = true) :
  validate_current_assignment_support m source p now = Ok tt.
Proof.
  pose proof (match_for_mission_exact m source mission requirement task now Hsource Hplan _ _ Hmatch) as Hexact. simpl in Hexact.
  by eapply accepted_supported.
Qed.

(** ** A deployment of two tenants

    The Node of each tenant has the operation and an exclusive arm; the Mission belongs to
    [acme]. *)

Open Scope string_scope.

#[export] Instance fm_codec : PolicyCodec := fun r => Ok (dr_registry_id r).
#[export] Instance fm_state_codec : StateCodec := {|
  json_get := fun _ _ => None;
  json_pointer := fun _ _ => None;
  source_of_json := fun _ => None
|}.
#[export] Instance fm_recovery_codec : RecoveryCodec := {|
  json_of_text := fun _ => Err "no document";
  profile_of_json := fun _ => Err "no profile"
|}.

Definition fm_digest (d : ascii) : string := string_of_list_ascii (repeat d 64).
Definition fm_identity (node tenant : string) (d : ascii) : NodeIdentityRecord :=
  MkIdentityRecord None None node tenant "floor" (fm_digest d) None None 1 IpActive 0 0 None.
Definition fm_identities : NodeIdentityRegistry :=
  with_records (NodeIdentityRegistry_new "deployment")
    {["n1" := fm_identity "n1" "acme" "a"; "n2" := fm_identity "n2" "rival" "b"]}.
Definition fm_session (d : ascii) : NodeSessionAnchor :=
  MkSessionAnchor (Some 1000%N) (Some (fm_digest d)) "s" (fg_id "lease") 0 500 0 0 0 0 false.

Definition fm_node (node resource : string) (memories : list MemoryProviderDescriptor) : NodeStateSnapshot :=
  MkNodeSnapshot
    (MkRegistration (fg_id node) [MkLocalSystem (fg_id "default") (MkLocalRuntime "ros" "2") ∅]
       (fg_id NODE_CONTRACT_VERSION_V0_14) [] [fg_contract] {[fg_contract := fg_id "default"]} ∅ ∅ ∅
       [MkOperationSupport fg_operation (fg_id "default")] []
       [MkResource (fg_id resource) Space 1 Exclusive None] ∅ [] memories)
    (MkNodeStatus Online 5) 5 (MkLivenessObservation Reachable 5).
Definition fm_state : SharedNodeState :=
  {[fg_id "n1" := fm_node "n1" "arm" []; fg_id "n2" := fm_node "n2" "boom" []]}.
Definition fm_source : NodeReader := decision_state fm_state [].
Definition fm_alone : NodeReader := decision_state {[fg_id "n1" := fm_node "n1" "arm" []]} [].

Definition fm_lease (node : string) : NodeLease := MkLease (fg_id "lease") (fg_id node) 0 500.
Definition fm_plane_of (c : ControlPlane) : MatchPlane :=
  MkMatchPlane (put_identity fm_identities (set_control c EvidencePlane_new))
    {[fg_id "n1" := fm_lease "n1"; fg_id "n2" := fm_lease "n2"]}
    {[fg_id "n1" := fm_session "a"; fg_id "n2" := fm_session "b"]} 100 ∅.

Definition fm_plane : MatchPlane :=
  fm_plane_of (fg_get (fg_then (fk_ready "m1" (Some ControlPlane_new))
    (fun c => register_mission_tenant c (fk_mission "m1") "acme"))).
Definition fm_plan_of (r : Result MissionPlan DomainError) : MissionPlan :=
  match r with
  | Ok p => p
  | Err _ => MkMissionPlan (MkGoal (fk_mission "m1") "") [] (MkTaskGraph (fk_mission "m1") []) [] false false false false
  end.
Definition fm_plan : MissionPlan := fm_plan_of (fk_plan "m1").
Definition fm_task : PlannedTask :=
  MkPlannedTask "pick" (fk_requirement "m1") {[fg_id "lead" := fg_intent]} []
    (MkContinuity (fg_id "ctx") {[fg_id "lead" := fg_id "a"]} ∅ None) ExecutionReport "picked".
Definition fm_run := match_capabilities_for_mission fm_plane fm_source fm_plan (fk_requirement "m1") 20.
Definition fm_candidates : CandidateSet :=
  match fm_run with Some (_, Ok candidates) => candidates | _ => CandidateSet_new (fk_task "m1") [] end.

Lemma fm_reader_ok : reader_ok fm_source.
Proof. apply decision_state_ok. apply map_Forall_insert_2; [done|]. by apply map_Forall_singleton. Qed.

Lemma fm_identities_ok : registry_ok fm_identities.
Proof. apply registry_validate_iff. vm_compute. reflexivity. Qed.

Lemma fm_evidence_ok c : evidence_ok (mx_evidence (fm_plane_of c)).
Proof.
  destruct evidence_ok_new. split; try assumption; [|by intros r|intros ? ? He; destruct (lookup_empty_Some _ _ He)..].
  intros r Hr. injection Hr as <-. exact fm_identities_ok.
Qed.

Lemma fm_planned : planned fm_plan (fk_requirement "m1") fm_task.
Proof.
  split.
  1-3: vm_compute; reflexivity.
  - apply (bool_decide_unpack _). vm_compute. exact I.
  - intros role ->%list_elem_of_singleton. apply (bool_decide_unpack _). vm_compute. exact I.
Qed.

Lemma fm_owned node : node_tenant_allowed (mx_control fm_plane) (fk_mission "m1") node = true -> node = fg_id "n1".
Proof.
  unfold node_tenant_allowed. change (cp_node_identity_registry _) with (Some fm_identities). simpl.
  change (mission_tenant _ _) with (Some "acme"). destruct node as [name]. simpl.
  destruct (decide (name = "n1")) as [->|H1]; [done|]. rewrite lookup_insert_ne by done.
  destruct (decide (name = "n2")) as [->|H2]; [by rewrite lookup_singleton_eq|]. by rewrite lookup_singleton_ne.
Qed.

Lemma fm_same_view : same_tenant_view (mx_control fm_plane) (fk_mission "m1") fm_source fm_alone.
Proof.
  split; [|vm_compute; reflexivity..]. intros node ->%fm_owned. vm_compute. reflexivity.
Qed.


Lemma tenant_isolated_witness :
  match_capabilities_for_mission fm_plane fm_source fm_plan (fk_requirement "m1") 20
  = match_capabilities_for_mission fm_plane fm_alone fm_plan (fk_requirement "m1") 20.
Proof. exact (proj1 (tenant_isolated fm_plane fm_source fm_alone fm_plan (fk_requirement "m1") 20 (fm_evidence_ok _) fm_same_view)). Defined.

Definition fm_c : ControlPlane := mx_control fm_plane.
Definition fm_g : ExecutionGroup :=
  match cp_groups fm_c !! fk_group "m1" with
  | Some g => g
  | None => MkGroup None None fg_group fg_mission fg_task [] ∅ ∅ GlBound ∅ ∅ ∅ []
  end.
Definition fm_t : TaskExecution :=
  default (TaskExecution_new fg_task (fg_id "ctx") ∅ ∅) (task_execution fm_g (fk_task "m1")).

Lemma fm_declared n l r : @registered_resources (plane_view fm_plane fm_source) n = Some l -> r ∈ l ->
  r = MkResource (fg_id "arm") Space 1 Exclusive None \/ r = MkResource (fg_id "boom") Space 1 Exclusive None.
Proof.
  unfold registered_resources. simpl. unfold fm_state.
  destruct (decide (n = fg_id "n1")) as [->|H1]; [rewrite lookup_insert_eq; intros [= <-] ->%list_elem_of_singleton; auto|].
  rewrite lookup_insert_ne by done.
  destruct (decide (n = fg_id "n2")) as [->|H2]; [|by rewrite lookup_singleton_ne].
  rewrite lookup_singleton_eq. intros [= <-] ->%list_elem_of_singleton. auto.
Qed.

Lemma fm_ready : ready_task fm_plane fm_source (fk_requirement "m1") (fk_group "m1") fm_g fm_t.
Proof.
  split.
  1-5: vm_compute; reflexivity.
  - apply (bool_decide_unpack _). vm_compute. exact I.
  - intros role ->%list_elem_of_singleton. vm_compute. reflexivity.
  - intros n1 n2 l1 l2 r1 r2 Hn1 Hn2 Hr1 Hr2.
    destruct (fm_declared _ _ _ Hn1 Hr1) as [->| ->], (fm_declared _ _ _ Hn2 Hr2) as [->| ->]; done.
  - vm_compute. discriminate.
Qed.

Definition fm_events : list MatchEvent := match fm_run with Some (events, _) => events | None => [] end.
Definition fm_snapshot : SchedulingSnapshot :=
  match scheduling_snapshot_for_task fm_c 20 (fk_group "m1") (fk_task "m1") with
  | Some (Ok s) => s
  | _ => SchedulingSnapshot_empty
  end.
Definition fm_outcome : TaskSchedulingOutcome :=
  match @schedule_task_with_snapshot_and_estimate unit (@view_reader (plane_view fm_plane fm_source))
          DEFAULT_SEARCH_EXPANSIONS tt (fk_requirement "m1") fm_candidates fm_snapshot fk_context with
  | Ok outcome => outcome
  | Err _ => Deferred
  end.
Definition fm_decision : TaskSchedulingDecision :=
  default (MkDecision (fk_task "m1") [] 0 None None 0 0 None [] []) (selected_decision fm_outcome).

Lemma matched_schedule_proposable_witness :
  proposed_assignments fm_decision = [MkAssignment (fg_id "lead") (fg_id "n1") [fg_id "arm"]] /\
  propose fm_plane fm_source (fk_requirement "m1") fm_candidates (proposed_assignments fm_decision) 20
    = ([ProposalCreated (fk_task "m1")],
       Ok (proposal_of fm_candidates (fk_requirement "m1") (proposed_assignments fm_decision))).
Proof.
  split; [vm_compute; reflexivity|].
  refine (proj1 (matched_schedule_proposable fm_plane fm_source fm_plan (fk_requirement "m1") fm_task (fk_group "m1")
    fm_g fm_t 20 10 DEFAULT_SEARCH_EXPANSIONS fm_events fm_candidates fm_snapshot fm_snapshot [] fk_context fm_outcome
    fm_decision [] (fm_evidence_ok _) fm_reader_ok fm_planned fm_ready _ _ _ _ _ _ _ _ _)).
  - intros s actors actor r1 r2 _ _ _ ->%list_elem_of_singleton ->%list_elem_of_singleton. done.
  - vm_compute. reflexivity.
  - vm_compute. reflexivity.
  - vm_compute. reflexivity.
  - vm_compute. reflexivity.
  - vm_compute. reflexivity.
  - reflexivity.
  - vm_compute. reflexivity.
  - lia.
Defined.

Lemma proposal_supported_witness :
  validate_current_assignment_support fm_plane fm_source
    (proposal_of fm_candidates (fk_requirement "m1") (proposed_assignments fm_decision)) 20 = Ok tt.
Proof.
  refine (proposal_supported fm_plane fm_source fm_plan (fk_requirement "m1") fm_task 20 fm_events fm_candidates
    (proposed_assignments fm_decision) [ProposalCreated (fk_task "m1")] _ fm_reader_ok fm_planned _ _ _ _ _).
  - intros registry Hr. assert (cp_physical_entity_registry (mx_control fm_plane) = None) as Hn by (vm_compute; reflexivity).
    rewrite Hn in Hr. discriminate Hr.
  - vm_compute. reflexivity.
  - vm_compute. reflexivity.
  - vm_compute. reflexivity.
  - intros a role _ _. vm_compute. reflexivity.
Defined.

(** ** What the model shows of the code *)

(** Numbers are compared as [f64]: an integer attribute below an integer bound can satisfy it. *)
Example integer_bound_rounded :
  is_satisfied_by (MkConstraint "payload_g" AtLeast (VInteger 9007199254740993)) (VInteger 9007199254740992) = true.
Proof. vm_compute. reflexivity. Qed.

(** *** One Actor in two Roles of a Task *)

Definition fd_role (name : string) : RoleRequirement :=
  MkRoleRequirement (fg_id name) None (Some (fg_id "a")) None [CapabilityRequirement_exact fg_contract] None [] [].
Definition fd_task : TaskRef := MkTaskRef (fk_mission "m3") (fg_id "carry").
Definition fd_requirement : TaskRequirement :=
  MkTaskRequirement fd_task [fd_role "lift"; fd_role "steer"] (MkTaskTiming 0 None None (Some 10%N)).
Definition fd_planned : PlannedTask :=
  MkPlannedTask "carry" fd_requirement {[fg_id "lift" := fg_intent; fg_id "steer" := fg_intent]} []
    (MkContinuity (fg_id "ctx") {[fg_id "lift" := fg_id "a"; fg_id "steer" := fg_id "a"]} ∅ None) ExecutionReport "carried".
(** Actors [a] and [b] must be different entities; [a] has both Roles of the Task. *)
Definition fd_plan : Result MissionPlan DomainError :=
  let? distinct := DistinctPhysicalEntityConstraint_new {[fg_id "a"; fg_id "b"]} in
  MissionPlan_new_with_actors (MkGoal (fk_mission "m3") "carry the crate")
    [MkActor (fg_id "a") None; MkActor (fg_id "b") None] (MkTaskGraph (fk_mission "m3") [fd_planned])
    [MkContext (fg_id "ctx") [MkContextRole (fg_id "a") (fg_id "a") []; MkContextRole (fg_id "b") (fg_id "b") []]
       [distinct] [] Independent None None].
Definition fd_entities : Result PhysicalEntityRegistrySnapshot DomainError :=
  PhysicalEntityRegistrySnapshot_new (fg_id "site") 1 OneRoutableEntityPerNode
    [MkEntityRegistration (fg_id "robot-1") (fg_id "n1"); MkEntityRegistration (fg_id "robot-2") (fg_id "n2")].

Definition fd_control : option ControlPlane :=
  match fd_plan, fd_entities with
  | Ok p, Ok entities =>
      let s1 := fg_then (Some ControlPlane_new) (fun c => install_physical_entity_registry c entities) in
      let s2 := fg_then s1 (fun c => register_mission_tenant c (fk_mission "m3") "acme") in
      fg_then s2 (fun c => create_mission_group c (fk_group "m3") p)
  | _, _ => None
  end.
Definition fd_plane : MatchPlane := fm_plane_of (fg_get fd_control).
Definition fd_mission : MissionPlan := fm_plan_of fd_plan.
Definition fd_candidates : CandidateSet :=
  match match_capabilities_for_mission fd_plane fm_source fd_mission fd_requirement 20 with
  | Some (_, Ok candidates) => candidates
  | _ => CandidateSet_new fd_task []
  end.
Definition fd_outcome : Result TaskSchedulingOutcome SchedulerError :=
  @schedule_task_with_snapshot_and_estimate unit (@view_reader (plane_view fd_plane fm_source))
    DEFAULT_SEARCH_EXPANSIONS tt fd_requirement fd_candidates SchedulingSnapshot_empty fk_context.
Definition fd_decision : TaskSchedulingDecision :=
  default (MkDecision fd_task [] 0 None None 0 0 None [] [])
    (match fd_outcome with Ok outcome => selected_decision outcome | Err _ => None end).

(** The scheduler keeps an Actor on one entity, and [propose] refuses the Actor as its own peer:
    no assignment of the Task can be proposed. *)
Example distinct_actor_two_roles :
  proposed_assignments fd_decision
    = [MkAssignment (fg_id "lift") (fg_id "n1") []; MkAssignment (fg_id "steer") (fg_id "n1") []] /\
  propose fd_plane fm_source fd_requirement fd_candidates (proposed_assignments fd_decision) 20
    = ([], Err (InvalidProposal "actors a and a select the same physical entity robot-1")).
Proof. split; vm_compute; reflexivity. Qed.

(** *** Diagnostics of a Role with a memory *)

Definition fx_memory : MemoryRequirement :=
  MkMemoryRequirement (MkMemorySelector "map" "r1") MKSemantic "site-map/v1" "application/json" None.
Definition fx_provider : MemoryProviderDescriptor :=
  MkMemoryProvider (Some "roboguide.memory-use/shared-kernel/v0.1") (Some PREPARATION_V0_1) "maps" (fg_id "store")
    MKSemantic LimitLocal Exchangeable "site-map/v1" "application/json".
Definition fx_requirement : TaskRequirement :=
  MkTaskRequirement (fk_task "m1")
    [MkRoleRequirement (fg_id "lead") None (Some (fg_id "a")) None [CapabilityRequirement_exact fg_contract] None [] [fx_memory]]
    (MkTaskTiming 0 None None (Some 10%N)).
Definition fx_mission : MissionPlan :=
  fm_plan_of (MissionPlan_new_with_actors (MkGoal (fk_mission "m1") "pick with the map") [MkActor (fg_id "a") None]
    (MkTaskGraph (fk_mission "m1")
       [MkPlannedTask "pick" fx_requirement {[fg_id "lead" := fg_intent]} []
          (MkContinuity (fg_id "ctx") {[fg_id "lead" := fg_id "a"]} ∅ None) ExecutionReport "picked"])
    [MkContext (fg_id "ctx") [MkContextRole (fg_id "a") (fg_id "a") []] [] [] Independent None None]).
Definition fx_plane : MatchPlane :=
  fm_plane_of (fg_get (fg_then (Some ControlPlane_new) (fun c => register_mission_tenant c (fk_mission "m1") "acme"))).
(** The provider belongs to another local system than the operation. *)
Definition fx_source : NodeReader := decision_state {[fg_id "n1" := fm_node "n1" "arm" [fx_provider]]} [].

(** Diagnostics count the Node as eligible; matching has no candidate. *)
Example diagnostics_differ :
  (match first_use_candidate_diagnostics fx_plane fx_source fx_mission fx_requirement 20 with
   | Some (Ok l) => (fun d => (dx_considered_count d, dx_eligible_count d)) <$> l
   | _ => []
   end) = [(1, 1)] /\
  snd <$> match_capabilities_for_mission fx_plane fx_source fx_mission fx_requirement 20
    = Some (Err (NoCandidate (fg_id "lead"))).
Proof. split; vm_compute; reflexivity. Qed.
